(* ===== verification/_CoqProject ===== *)
-Q . S2P
Prelude.v
Mem.v
Machine.v
Csr.v
State.v
Kernel.v
RunQueue.v
Image.v
Smp.v
Thread.v
Uart.v
Plic.v
Platform.v
Console.v
Irq.v
Sysfile.v
Trap.v
Boot.v
Invariant.v
ThreadSpec.v
SchedSpec.v
ThreadOps.v
ThreadKill.v
ThreadCreate.v
Snapshot.v
Quiet.v
Within.v
Syscalls.v
TrapSpec.v
BootThreads.v
BootSpec.v
System.v
Demo.v
SystemTheorems.v
ThreadTheorems.v
DateTime.v
CString.v
Stdio.v
Log.v
LogMacros.v
Spinlock.v
UserSys.v
UserEnv.v
ShellParse.v
Spawn.v
Monitor.v
Shell.v
ConsoleSpec.v
ClockSpec.v
Fdt.v
FdtRo.v
FdtSafe.v
FdtTree.v
FdtUp.v
FdtCheck.v
FdtDemo.v
FdtPath.v
FdtSpec.v
FdtWrite.v
FdtPlatform.v
Board.v
DeviceSpec.v
PlicSpec.v
Asm.v
Entry.v
EntryStart.v
EntryRefine.v
EntryDemo.v
EntrySpec.v
