(* ===== verification/Prelude.v ===== *)
(** * ccos: a RISC-V S-mode mini kernel, verified

    ccos is a small kernel for RISC-V virtual machines: it runs in S-mode on top
    of SBI firmware, without address translation, with preemptive round-robin
    threads on several harts, a console, a handful of system calls and a shell
    that runs as user-mode threads of the same image.  This library models its C
    code function by function and its assembly instruction by instruction, and proves
    what the functions and the running system promise.

    ** The program and its parts

    - Kernel core ([src/kernel]).  Threads ([thread.c]) live in a table of
      [THREAD_MAX] slots; each hart has a run queue ([runqueue.c]), a linked
      list through the table; [sched.c] reacts to the timer and to inter-hart
      interrupts; [cpu.c] keeps a record per hart and brings harts up; [trap.c]
      receives every trap under the big lock ([lock.c], [spinlock.h]),
      dispatches interrupts and system calls, and leaves through the frame of
      the thread that runs next.
    - Platform ([src/platform], [src/arch]).  UART, PLIC, SBI timer, real-time
      clock, interrupt table, the device tree they are found in, and the CSRs.
    - Entry code ([start.S], [trap.S], [arch_first_switch.S]).  The first
      instructions of a hart, the way into the kernel and out of it.
    - Libraries ([src/lib]).  The kernel's logger, its string routines, and the
      read-only half of libfdt.
    - User side ([src/user]).  System-call stubs, a small C library, the shell
      with its commands, test threads, thread monitors, the calendar.

    The parts meet in three places.  A trap copies the registers to the frame
    the hart record points to, and everything the kernel does to a thread that
    is not running is done to that frame: the result of [join] or [read] is
    written into the sleeper's [a0] by whoever wakes it.  The UART interrupt
    puts characters into the console ring and wakes the thread blocked in
    [read].  The scheduler moves threads between the queues of the harts, and
    tells a hart about new work by an inter-processor interrupt.

    ** How C is read

    - An integer is a [Z] within the range of its type; [u8], [u32], [u64],
      [s32], [s64] below are the conversions, written wherever C performs one
      that can change the value.
    - A function is a program of the monad [M S]: it returns ([Ret]), stops in
      [PANIC] or a failed assertion ([Panic]), performs an access C leaves
      undefined ([Undef]: an index outside its table, a foreign pointer), or
      exhausts the fuel of a loop that waits for a device ([Diverge]).  Three
      logics read the outcomes: [wp] is total correctness, [wnp] excludes
      [Panic] and [Undef] but lets the code wait for ever, [wlp] speaks only of
      the runs that return.
    - A struct is a record with the source's field names behind a short prefix;
      an array is a finite map over its valid indices, so that an access outside
      is [Undef]; a thread pointer is the thread's index; [struct trapframe *]
      is the inductive [tf_ptr].
    - An assembly file is a list of lines (labels and instructions) run by an
      interpreter of RV64 over a register file, CSRs, a program counter and memory.
      The C functions it calls are the model's functions: they are a parameter of
      the interpreter, with the hypothesis [compiled_c] that a call behaves as
      [trap_entry_c] does on the kernel state the machine represents.
    - A device-tree blob is its address and the bytes behind it; a pointer into it
      is an offset.  libfdt only reads, so its functions are computations in
      [outcome] without a state.
    - The kernel's own log messages leave their text in [k_klog] and nothing
      else; the logger is modelled on its own.

    ** Files: the kernel

    - [Prelude]: integers, the monad and its rules, truth values, automation.
    - [Mem]: byte-addressed user memory.  [Machine]: the classes [Config] (harts,
      frequencies, fuel), [Hardware] (device registers, CSRs, SBI calls) and
      [DeviceTree] (the three libfdt queries the platform makes).  Every theorem
      holds for all instances.  [Csr] ([riscv_csr.h]): the remaining bits and codes,
      decoding of causes.
    - [State]: the structures and globals, [kstate].  [Image]: their initial
      values, and the concrete two-hart build the witnesses run.  [Kernel]:
      access to the tables, the current hart, memory and hardware.
    - [RunQueue] ([runqueue.c]), [Smp] ([sched_pick_target_hart], the kicks of
      [cpu.c]), [Thread] ([thread.c]), [Trap] ([trap.c], the entries of
      [sched.c]), [Sysfile] ([sysfile.c], [time.c]), [Console] ([console.c]),
      [Boot] ([main.c], [cpu.c], [arch.c], [probe_illegal.c]).
    - [Uart], [Irq] ([uart_16550.c], the dispatch of [platform.c]), [Plic]
      ([plic.c]), [Platform] ([platform.c], [timer.c]).

    ** Files: the kernel's specification and proof

    - [Invariant]: the invariant [inv_x].  The linked queues represent one list
      per hart; a running hart and its thread point at each other; no thread
      runs twice; a user thread is RUNNABLE exactly when queued; a WAITING
      thread and the thread it joins are linked both ways.  Threads in the
      first argument are in transition and exempt.
    - [ThreadSpec], [SchedSpec], [ThreadOps], [ThreadKill], [ThreadCreate],
      [Snapshot]: exact specifications of the scheduler and of each thread
      system call over the abstract queues; [ThreadTheorems] collects them:
      queues are FIFO lists, [schedule] is round robin, and create, join, exit,
      kill, detach, sleep, wake-up and snapshot do what they promise on every
      branch, errors included.
    - [Quiet] ([calm]: the drivers leave the scheduler alone and never panic)
      and [Within] (what a piece of code never touches) carry the invariant
      through everything that is not scheduling.
    - [Syscalls], [TrapSpec]: the handlers and the trap entry keep the
      invariant, release the lock and leave on the frame of a thread that runs.
    - [BootThreads], [BootSpec]: booting establishes it.
    - [System]: the step relation of the whole system and its reachable states;
      [Demo]: a concrete system, evaluated; [SystemTheorems]: the guarantees for
      every reachable state (no supported trap panics, the invariant, mutual
      exclusion, boot, fairness).
    - [Asm]: the interpreter; [Entry], [EntryStart]: the lines of the assembly files.
      [EntryRefine]: when a machine represents a kernel state (class [Layout]: where
      the linker put the objects); [EntrySpec]: [trap.S] implements [trap_entry], so
      that what is proved of a trap holds of the machine that takes it; what one
      trap saves another one, or the first switch, restores; [start.S] reaches [kernel_main]
      with its arguments, a stack and a cleared BSS.  [EntryDemo]: a concrete machine.
    - [ConsoleSpec]: the console ring is a bounded FIFO, [read] takes its front,
      and the next character wakes a blocked reader.  [ClockSpec]: the conversion of
      ticks to nanoseconds is exact.

    ** Files: locks, libraries and user programs

    - [Spinlock]: the lock instruction by instruction, any interleaving of harts
      and nested interrupts: mutual exclusion, and no deadlock for the lock that
      masks interrupts; taking and releasing it restores the hart.
    - [CString] ([string.c], [ulib_string.c]), [Stdio] ([ulib_stdio.c]), [Log]
      ([log.c]), [LogMacros] ([log.h]), [DateTime] ([datetime.c]): functional
      correctness, bounds and round trips.
    - [UserSys] ([syscall.c]): each stub reaches the kernel's handler of the same
      name with its arguments in place, and the trap of a call that does not block
      is that handler and its result, whatever the hardware does.
    - [UserEnv], [ShellParse], [Shell], [Spawn], [Monitor] ([shell.c], [main.c],
      [spawn.c], [monitor.c]): user threads over shared globals.  The class
      [UserKernel] answers their system calls and lets the other threads
      interfere during a call; a theorem about a table one thread owns assumes
      that the others leave it alone.

    ** Files: the device tree

    - [Fdt] ([fdt.c], [fdt.h], the inline functions of [libfdt.h] and
      [libfdt_internal.h], [fdt_strerror.c]) and [FdtRo] ([fdt_ro.c],
      [fdt_addresses.c], [fdt_check.c]): every function, over a blob.  [FdtWrite]: the
      header setters, and the inline functions that call the writing half of libfdt,
      which the repository does not have (class [FdtWriter]).
    - [FdtSafe]: on a blob of sane size, whatever it contains, every function
      returns, and what it returns is inside the blob or an error code.
    - [FdtTree]: trees of properties, NOPs and nodes, the tokens they are stored as,
      [dtb b items] (the blob holds the tree), and each function described first over
      tokens, then over the tree.  [FdtUp]: depth, parent and ancestors.
      [FdtPath]: the path of a node, and back.
      [FdtCheck]: what [fdt_check_full] accepts.
    - [FdtSpec] collects the theorems; [FdtDemo] is a part of QEMU's tree in bytes, on
      which they are instantiated.
    - [FdtPlatform] closes the circle: libfdt on a blob is an instance of
      [DeviceTree], and with it the queries of [fdt_helper.c] and the initialisation
      of UART and PLIC find what the tree says.  Since every kernel theorem holds for
      all instances, they hold for this one.
    - [Board] says what a 16550 and a PLIC do behind their registers (a class, with
      QEMU's as an instance), and [DeviceSpec] what follows for the drivers: output
      reaches the wire in order, up to a whole [write] from the trap to the caller's
      return, external interrupts are handled, counted and
      completed, and what was typed arrives in the console.  Its witness boots the
      kernel on that board with the device tree of [FdtDemo].
    - [PlicSpec]: on registers that keep what is written (class [PlicRegs]) the PLIC
      driver enables and disables one source of its own context and nothing else.

    ** Granularity, bounds and fuel

    - A handled trap runs under the big lock from entry to exit, so it is one
      step of [System.step]: the lock excludes the other harts and keeps the
      interrupts of this one masked, which is what [Spinlock] proves of it; the
      reduction from instructions to whole traps is not itself formalised.  The
      start of a secondary hart is one step.  Between steps user memory and devices change at will,
      so user code is arbitrary as far as the kernel is concerned.  Kernel
      objects and user memory are kept apart: the model has no user thread that
      overwrites the kernel, which nothing in the real machine prevents.
    - Supported traps: the three interrupts; from a running user thread a system
      call with a number the kernel knows, an illegal instruction, and a
      breakpoint in a debug build.  Every other fault panics in the source.  Two
      guards exclude what the source gets wrong: [settled] (a joined or detached
      thread is not a zombie that still runs on another hart) and [not_joining]
      (a killed thread is not itself blocked in [join]).
    - Booting assumes at most 32 harts (the kernel shifts [1u] by the hart
      number) and a device-tree pointer that is not null.
    - A sane blob has at least the 40 bytes of a header, states a size below
      [2^31 - 16], and is followed by one more readable byte; that byte is needed,
      because [fdt_stringlist_contains] reads behind a list without a terminator.  The
      loops of libfdt take [FDT_FUEL], the size of the memory plus one, which is proved
      to be enough for every sane blob.  Alignment of reads is not modelled.
    - Queue loops take [RQ_FUEL = THREAD_MAX + 1], enough for every queue the
      invariant allows.  Device polling takes the [poll_fuel] of [Config].  A
      string loop takes as fuel the length of the string plus one.  The main
      loops of shell and monitors take the number of rounds.

    ** Not modelled

    The compiled code of the C functions: the entry code meets them through
    [compiled_c], and the stack they run on is not part of the state (a trap taken
    while [kernel_main] probes instructions starts on the stack [kernel_main] uses).
    The busy loop of a test thread, the loop of the idle thread around
    [platform_idle], and [wfi] have no effect on the state; the loop [panic] ends in
    is the outcome [Panic].  Time stamps of the log, and the 32-bit variant of the
    CSR header, are configured out.  The functions behind
    [FdtWriter] are not in the repository.  Headers with declarations only, build
    files, linker scripts and notes have no counterpart.

    ** What could follow

    [UserKernel] answered by the kernel model itself, where a call of one thread
    lasts while the others run; the reduction from the instructions of several harts
    to the steps of [System]. *)
From stdpp Require Import base numbers list gmap strings.
From Stdlib Require Import ZArith Lia Ascii String.

Local Open Scope Z_scope.

(** ** Machine integers

    A C integer is a [Z] kept in the range of its type; the functions below are
    the conversions C performs (reduction modulo [2^w], two's complement for
    the signed types of the RV64 ABI, where [int] has 32 bits and [long] 64). *)

Definition u8  (z : Z) : Z := z mod 2^8.
Definition u32 (z : Z) : Z := z mod 2^32.
Definition u64 (z : Z) : Z := z mod 2^64.
Definition s32 (z : Z) : Z := (z + 2^31) mod 2^32 - 2^31.
Definition s64 (z : Z) : Z := (z + 2^63) mod 2^64 - 2^63.

Definition INT_MAX : Z := 2^31 - 1.

(** C truth values: [if (x)] on an integer, and the value of a comparison. *)
Definition b2z (b : bool) : Z := if b then 1 else 0.
Definition z2b (z : Z) : bool := negb (z =? 0).

Lemma u8_range z : 0 <= u8 z < 2^8.
Proof. apply Z.mod_pos_bound. lia. Qed.
Lemma u32_range z : 0 <= u32 z < 2^32.
Proof. apply Z.mod_pos_bound. lia. Qed.
Lemma u64_range z : 0 <= u64 z < 2^64.
Proof. apply Z.mod_pos_bound. lia. Qed.
Lemma s32_range z : - 2^31 <= s32 z < 2^31.
Proof. unfold s32. pose proof (Z.mod_pos_bound (z + 2^31) (2^32)). lia. Qed.
Lemma s64_range z : - 2^63 <= s64 z < 2^63.
Proof. unfold s64. pose proof (Z.mod_pos_bound (z + 2^63) (2^64)). lia. Qed.

(** A bitwise or with a number below the bits of the other is a sum. *)
Lemma lor_mul_pow2 x y k : 0 <= k -> 0 <= y < 2^k -> Z.lor (x * 2^k) y = x * 2^k + y.
Proof.
  intros Hk Hy. rewrite <- Z.lxor_lor, <- Z.add_nocarry_lxor; [done| |];
    (apply Z.bits_inj'; intros n Hn; rewrite Z.land_spec, Z.bits_0; rewrite Z.mul_pow2_bits by lia;
     destruct (Z_lt_le_dec n k);
     [rewrite Z.testbit_neg_r by lia; done
     |replace y with (y mod 2^k) by (apply Z.mod_small; lia);
      rewrite Z.mod_pow2_bits_high by lia; apply andb_false_r]).
Qed.

Lemma u8_small z : 0 <= z < 2^8 -> u8 z = z.
Proof. apply Z.mod_small. Qed.
Lemma u32_small z : 0 <= z < 2^32 -> u32 z = z.
Proof. apply Z.mod_small. Qed.
Lemma u64_small z : 0 <= z < 2^64 -> u64 z = z.
Proof. apply Z.mod_small. Qed.
Lemma s32_small z : - 2^31 <= z < 2^31 -> s32 z = z.
Proof. intros. unfold s32. rewrite Z.mod_small; lia. Qed.
Lemma s64_small z : - 2^63 <= z < 2^63 -> s64 z = z.
Proof. intros. unfold s64. rewrite Z.mod_small; lia. Qed.

Lemma s32_u64 z : s32 (u64 z) = s32 z.
Proof.
  unfold s32, u64. f_equal.
  rewrite <- (Z.add_mod_idemp_l (z mod 2^64) (2^31) (2^32)) by lia.
  rewrite <- (Z.add_mod_idemp_l z (2^31) (2^32)) by lia.
  rewrite Z.mod_mod_divide; [done|]. exists (2^32). lia.
Qed.

(** An [int] stored in a 64-bit register and read back as an [int]. *)
Lemma s32_u64_small z : - 2^31 <= z < 2^31 -> s32 (u64 z) = z.
Proof. intros. rewrite s32_u64. by apply s32_small. Qed.

Create HintDb cint.
Create Rewrite HintDb cint.
#[export] Hint Resolve u8_range u32_range u64_range s32_range s64_range : cint.
#[export] Hint Rewrite u8_small u32_small u64_small s32_small s64_small
  using lia : cint.

(** ** Outcomes and the kernel monad

    A piece of C code is a state transformer that either returns a value,
    stops the machine ([PANICF], [panic]), performs an access the C standard
    leaves undefined (an index outside an array, a null dereference), or loops
    for ever. *)

Inductive outcome (A : Type) : Type :=
| Ret (a : A)
| Panic
| Undef
| Diverge.
Arguments Ret {A} a.
Arguments Panic {A}.
Arguments Undef {A}.
Arguments Diverge {A}.

Definition M (S A : Type) : Type := S -> outcome (A * S).

Definition ret {S A} (a : A) : M S A := fun s => Ret (a, s).

Definition bind {S A B} (m : M S A) (k : A -> M S B) : M S B :=
  fun s =>
    match m s with
    | Ret (a, s') => k a s'
    | Panic => Panic
    | Undef => Undef
    | Diverge => Diverge
    end.

Definition gets {S A} (f : S -> A) : M S A := fun s => Ret (f s, s).
Definition modify {S} (f : S -> S) : M S unit := fun s => Ret (tt, f s).
Definition panic_halt {S A} : M S A := fun _ => Panic.
Definition undefined {S A} : M S A := fun _ => Undef.
Definition diverge {S A} : M S A := fun _ => Diverge.

Declare Scope ccos_scope.
Delimit Scope ccos_scope with ccos.
Open Scope ccos_scope.

Notation "x <- m ;; k" := (bind m (fun x => k))
  (at level 100, m at next level, right associativity) : ccos_scope.
Notation "m ;; k" := (bind m (fun _ => k))
  (at level 100, right associativity) : ccos_scope.

Definition when {S} (b : bool) (m : M S unit) : M S unit :=
  if b then m else ret tt.

(** [for (i = lo; i < lo + n; ++i) body(i)] *)
Fixpoint for_z {S} (n : nat) (i : Z) (body : Z -> M S unit) : M S unit :=
  match n with
  | O => ret tt
  | Datatypes.S n' => body i ;; for_z n' (i + 1) body
  end.

(** [for (;;)] with a bound on the number of iterations: the body returns
    [Some r] to leave the loop; running out of fuel is divergence. *)
Fixpoint loop {S A} (fuel : nat) (body : M S (option A)) : M S A :=
  match fuel with
  | O => diverge
  | Datatypes.S n => r <- body ;;
           match r with Some a => ret a | None => loop n body end
  end.

(** ** Weakest preconditions

    [wp m Q s]: from [s], [m] returns, and the result satisfies [Q] (total
    correctness: no panic, no undefined access, no divergence).
    [wlp m Q s]: from [s], [m] performs no undefined access, and if it returns
    the result satisfies [Q]. *)

Definition wp {S A} (m : M S A) (Q : A -> S -> Prop) (s : S) : Prop :=
  match m s with
  | Ret (a, s') => Q a s'
  | _ => False
  end.

Definition wlp {S A} (m : M S A) (Q : A -> S -> Prop) (s : S) : Prop :=
  match m s with
  | Ret (a, s') => Q a s'
  | Undef => False
  | _ => True
  end.

(** [wnp m Q s]: from [s], [m] neither panics nor performs an undefined access,
    and if it returns the result satisfies [Q]; it may wait for a device for
    ever. *)
Definition wnp {S A} (m : M S A) (Q : A -> S -> Prop) (s : S) : Prop :=
  match m s with
  | Ret (a, s') => Q a s'
  | Diverge => True
  | _ => False
  end.

Section wp_rules.
Context {S A B : Type}.
Implicit Types (Q : A -> S -> Prop) (R : B -> S -> Prop).

Lemma wp_ret a Q s : Q a s -> wp (ret a) Q s.
Proof. done. Qed.
Lemma wp_bind (m : M S A) (k : A -> M S B) R s :
  wp m (fun a s' => wp (k a) R s') s -> wp (bind m k) R s.
Proof. unfold wp, bind. destruct (m s) as [[a s']| | |]; done. Qed.
Lemma wp_unbind (m : M S A) (k : A -> M S B) R s :
  wp (bind m k) R s -> wp m (fun a s' => wp (k a) R s') s.
Proof. unfold wp, bind. destruct (m s) as [[a s']| | |]; done. Qed.
Lemma wp_mono (m : M S A) Q Q' s :
  wp m Q s -> (forall a s', Q a s' -> Q' a s') -> wp m Q' s.
Proof. unfold wp. destruct (m s) as [[a s']| | |]; auto. Qed.
(** A run that is known to return, and what comes after it. *)
Lemma wp_run (m : M S A) Q s : wp m Q s -> exists a s', m s = Ret (a, s') /\ Q a s'.
Proof. unfold wp. destruct (m s) as [[a s']| | |]; [by exists a, s'|done..]. Qed.
Lemma bind_run (m : M S A) (k : A -> M S B) s a s' : m s = Ret (a, s') -> bind m k s = k a s'.
Proof. unfold bind. by intros ->. Qed.
Lemma wp_gets (f : S -> A) Q s : Q (f s) s -> wp (gets f) Q s.
Proof. done. Qed.
Lemma wp_modify (f : S -> S) (Q : unit -> S -> Prop) s :
  Q tt (f s) -> wp (modify f) Q s.
Proof. done. Qed.
Lemma wp_ret_inv (m : M S A) Q s :
  wp m Q s -> exists a s', m s = Ret (a, s') /\ Q a s'.
Proof. unfold wp. destruct (m s) as [[a s']| | |]; naive_solver. Qed.
Lemma wp_eq (m : M S A) Q s a s' : m s = Ret (a, s') -> Q a s' -> wp m Q s.
Proof. unfold wp. by intros ->. Qed.
Lemma wp_elim (m : M S A) Q s a s' : wp m Q s -> m s = Ret (a, s') -> Q a s'.
Proof. unfold wp. intros H E. by rewrite E in H. Qed.

(** Two facts about the same run. *)
Lemma wp_and (m : M S A) Q Q' s :
  wp m Q s -> wp m Q' s -> wp m (fun a s' => Q' a s' /\ Q a s') s.
Proof. unfold wp. by destruct (m s) as [[a s']| | |]. Qed.

Lemma wlp_ret a Q s : Q a s -> wlp (ret a) Q s.
Proof. done. Qed.
Lemma wlp_bind (m : M S A) (k : A -> M S B) R s :
  wlp m (fun a s' => wlp (k a) R s') s -> wlp (bind m k) R s.
Proof. unfold wlp, bind. destruct (m s) as [[a s']| | |]; done. Qed.
Lemma wlp_mono (m : M S A) Q Q' s :
  wlp m Q s -> (forall a s', Q a s' -> Q' a s') -> wlp m Q' s.
Proof. unfold wlp. destruct (m s) as [[a s']| | |]; auto. Qed.
Lemma wlp_gets (f : S -> A) Q s : Q (f s) s -> wlp (gets f) Q s.
Proof. done. Qed.
Lemma wlp_modify (f : S -> S) (Q : unit -> S -> Prop) s :
  Q tt (f s) -> wlp (modify f) Q s.
Proof. done. Qed.
Lemma wlp_panic Q s : wlp panic_halt Q s.
Proof. done. Qed.
Lemma wlp_diverge Q s : wlp diverge Q s.
Proof. done. Qed.
Lemma wp_wlp (m : M S A) Q s : wp m Q s -> wlp m Q s.
Proof. unfold wp, wlp. by destruct (m s) as [[a s']| | |]. Qed.

Lemma wnp_ret a Q s : Q a s -> wnp (ret a) Q s.
Proof. done. Qed.
Lemma wnp_bind (m : M S A) (k : A -> M S B) R s :
  wnp m (fun a s' => wnp (k a) R s') s -> wnp (bind m k) R s.
Proof. unfold wnp, bind. destruct (m s) as [[a s']| | |]; done. Qed.
Lemma wnp_mono (m : M S A) Q Q' s :
  wnp m Q s -> (forall a s', Q a s' -> Q' a s') -> wnp m Q' s.
Proof. unfold wnp. destruct (m s) as [[a s']| | |]; auto. Qed.
Lemma wnp_gets (f : S -> A) Q s : Q (f s) s -> wnp (gets f) Q s.
Proof. done. Qed.
Lemma wnp_modify (f : S -> S) (Q : unit -> S -> Prop) s :
  Q tt (f s) -> wnp (modify f) Q s.
Proof. done. Qed.
Lemma wnp_diverge Q s : wnp diverge Q s.
Proof. done. Qed.
Lemma wp_wnp (m : M S A) Q s : wp m Q s -> wnp m Q s.
Proof. unfold wp, wnp. by destruct (m s) as [[a s']| | |]. Qed.
Lemma wnp_wlp (m : M S A) Q s : wnp m Q s -> wlp m Q s.
Proof. unfold wnp, wlp. by destruct (m s) as [[a s']| | |]. Qed.

(** A safety fact and a total-correctness fact about the same run. *)
Lemma wp_wlp_and (m : M S A) Q Q' s :
  wp m Q s -> wlp m Q' s -> wp m (fun a s' => Q a s' /\ Q' a s') s.
Proof. unfold wp, wlp. by destruct (m s) as [[a s']| | |]. Qed.
End wp_rules.

(** Loops. *)
Lemma wp_for_z {S} (P : Z -> S -> Prop) n i (body : Z -> M S unit) s :
  P i s ->
  (forall j s', i <= j < i + Z.of_nat n -> P j s' ->
     wp (body j) (fun _ s'' => P (j + 1) s'') s') ->
  wp (for_z n i body) (fun _ s' => P (i + Z.of_nat n) s') s.
Proof.
  revert i s. induction n as [|n IH]; intros i s HP Hb; simpl.
  - apply wp_ret. by rewrite Z.add_0_r.
  - apply wp_bind. eapply wp_mono; [apply Hb; [lia|done]|].
    intros [] s' HP'. replace (i + Z.of_nat (Datatypes.S n))
      with ((i + 1) + Z.of_nat n) by lia.
    apply IH; [done|]. intros j s'' Hj. apply Hb. lia.
Qed.

Lemma wlp_for_z {S} (P : S -> Prop) n i (body : Z -> M S unit) s :
  P s ->
  (forall j s', i <= j < i + Z.of_nat n -> P s' ->
     wlp (body j) (fun _ s'' => P s'') s') ->
  wlp (for_z n i body) (fun _ s' => P s') s.
Proof.
  revert i s. induction n as [|n IH]; intros i s HP Hb; simpl; [done|].
  apply wlp_bind. eapply wlp_mono; [apply Hb; [lia|done]|].
  intros [] s' HP'. apply IH; [done|]. intros j s'' Hj. apply Hb. lia.
Qed.

Lemma wlp_loop {S A} (P : S -> Prop) fuel (body : M S (option A))
    (Q : A -> S -> Prop) s :
  P s ->
  (forall s', P s' -> wlp body (fun r s'' =>
     match r with Some a => Q a s'' | None => P s'' end) s') ->
  wlp (loop fuel body) Q s.
Proof.
  revert s. induction fuel as [|n IH]; intros s HP Hb; simpl; [done|].
  apply wlp_bind. eapply wlp_mono; [by apply Hb|].
  intros [a|] s' H; [by apply wlp_ret | by apply IH].
Qed.

Lemma wnp_loop {S A} (P : S -> Prop) fuel (body : M S (option A))
    (Q : A -> S -> Prop) s :
  P s ->
  (forall s', P s' -> wnp body (fun r s'' =>
     match r with Some a => Q a s'' | None => P s'' end) s') ->
  wnp (loop fuel body) Q s.
Proof.
  revert s. induction fuel as [|n IH]; intros s HP Hb; simpl; [done|].
  apply wnp_bind. eapply wnp_mono; [by apply Hb|].
  intros [a|] s' H; [by apply wnp_ret | by apply IH].
Qed.

Lemma wnp_for_z {S} (P : S -> Prop) n i (body : Z -> M S unit) s :
  P s ->
  (forall j s', i <= j < i + Z.of_nat n -> P s' ->
     wnp (body j) (fun _ s'' => P s'') s') ->
  wnp (for_z n i body) (fun _ s' => P s') s.
Proof.
  revert i s. induction n as [|n IH]; intros i s HP Hb; simpl; [done|].
  apply wnp_bind. eapply wnp_mono; [apply Hb; [lia|done]|].
  intros [] s' HP'. apply IH; [done|]. intros j s'' Hj. apply Hb. lia.
Qed.

(** ** Characters

    A C string is the list of its bytes; string literals of the sources are Rocq
    strings. *)
Definition ascii_of_byte (z : Z) : ascii := ascii_of_N (Z.to_N z).
Definition byte_of_ascii (a : ascii) : Z := Z.of_N (N_of_ascii a).
Definition bytes_of_string (s : string) : list Z :=
  map byte_of_ascii (list_ascii_of_string s).
Definition string_of_bytes (l : list Z) : string :=
  string_of_list_ascii (map ascii_of_byte l).

Definition nl : string := String "010"%char EmptyString.

(** ** Small generic lemmas *)

Lemma z2b_true z : z2b z = true <-> z <> 0.
Proof. unfold z2b. destruct (Z.eqb_spec z 0); naive_solver. Qed.
Lemma z2b_false z : z2b z = false <-> z = 0.
Proof. unfold z2b. destruct (Z.eqb_spec z 0); naive_solver. Qed.

(** Boolean tests of the code as propositions. *)
Ltac bool_facts :=
  repeat match goal with
  | H : (_ && _)%bool = true |- _ => apply andb_true_iff in H; destruct H
  | H : (_ || _)%bool = false |- _ => apply orb_false_iff in H; destruct H
  | H : (_ || _)%bool = true |- _ => apply orb_true_iff in H
  | H : (_ && _)%bool = false |- _ => apply andb_false_iff in H
  | H : negb _ = true |- _ => apply negb_true_iff in H
  | H : negb _ = false |- _ => apply negb_false_iff in H
  | H : (_ <? _) = true |- _ => apply Z.ltb_lt in H
  | H : (_ <? _) = false |- _ => apply Z.ltb_ge in H
  | H : (_ <=? _) = true |- _ => apply Z.leb_le in H
  | H : (_ <=? _) = false |- _ => apply Z.leb_gt in H
  | H : (_ =? _) = true |- _ => apply Z.eqb_eq in H
  | H : (_ =? _) = false |- _ => apply Z.eqb_neq in H
  | H : z2b _ = true |- _ => apply z2b_true in H
  | H : z2b _ = false |- _ => apply z2b_false in H
  end.

(** Case analysis on the condition of the next [if], keeping its meaning. *)
Ltac case_if :=
  match goal with
  | |- context [if ?b then _ else _] =>
      let H := fresh "Hc" in destruct b eqn:H; bool_facts
  end.
