(* ===== verification/Mem.v ===== *)
(** * Byte-addressed memory

    The kernel runs without address translation, so a user pointer is used as
    it is; [*p = v] on an [int *] or a struct field is a little-endian store of
    its bytes.  Memory is a finite map from addresses to bytes, an address that
    was never written reading as 0 (RAM cleared by the loader and [start.S]). *)
From stdpp Require Import base numbers list gmap.
From Stdlib Require Import ZArith Lia.
From S2P Require Import Prelude.

Local Open Scope Z_scope.

Notation mem := (gmap Z Z).

Definition load8 (m : mem) (a : Z) : Z := default 0 (m !! a).
Definition store8 (m : mem) (a v : Z) : mem := <[a := u8 v]> m.

Fixpoint store_bytes (m : mem) (a : Z) (l : list Z) : mem :=
  match l with
  | [] => m
  | b :: l' => store_bytes (store8 m a b) (a + 1) l'
  end.

Fixpoint load_bytes (m : mem) (a : Z) (n : nat) : list Z :=
  match n with
  | O => []
  | Datatypes.S n' => load8 m a :: load_bytes m (a + 1) n'
  end.

(** Little-endian encoding of an [n]-byte integer, and back. *)
Fixpoint le_bytes (n : nat) (z : Z) : list Z :=
  match n with
  | O => []
  | Datatypes.S n' => z mod 256 :: le_bytes n' (z / 256)
  end.

Fixpoint le_value (l : list Z) : Z :=
  match l with
  | [] => 0
  | b :: l' => b + 256 * le_value l'
  end.

Definition store32 (m : mem) (a v : Z) : mem := store_bytes m a (le_bytes 4 v).
Definition store64 (m : mem) (a v : Z) : mem := store_bytes m a (le_bytes 8 v).
Definition load32 (m : mem) (a : Z) : Z := le_value (load_bytes m a 4).
Definition load64 (m : mem) (a : Z) : Z := le_value (load_bytes m a 8).

Lemma load8_store8 m a b v :
  load8 (store8 m a v) b = if decide (a = b) then u8 v else load8 m b.
Proof.
  unfold load8, store8. rewrite lookup_insert. by case_decide.
Qed.

Lemma load8_store8_eq m a v : load8 (store8 m a v) a = u8 v.
Proof. rewrite load8_store8. by rewrite decide_True. Qed.

Lemma load8_store8_ne m a b v : a <> b -> load8 (store8 m a v) b = load8 m b.
Proof. intros. rewrite load8_store8. by rewrite decide_False. Qed.

Lemma store_bytes_app m a l1 l2 :
  store_bytes m a (l1 ++ l2) =
  store_bytes (store_bytes m a l1) (a + Z.of_nat (length l1)) l2.
Proof.
  revert m a. induction l1 as [|b l1 IH]; intros m a; simpl.
  - by rewrite Z.add_0_r.
  - rewrite IH. f_equal. lia.
Qed.

Lemma load8_store_bytes_ne m a l b :
  b < a \/ a + Z.of_nat (length l) <= b ->
  load8 (store_bytes m a l) b = load8 m b.
Proof.
  revert m a. induction l as [|c l IH]; intros m a Hb; simpl in *; [done|].
  rewrite IH by lia. apply load8_store8_ne. lia.
Qed.

Lemma load8_store_bytes m a l i b :
  l !! i = Some b -> load8 (store_bytes m a l) (a + Z.of_nat i) = u8 b.
Proof.
  revert m a i. induction l as [|c l IH]; intros m a i Hi; [done|].
  destruct i as [|i]; simpl in *.
  - simplify_eq. rewrite load8_store_bytes_ne by lia.
    rewrite Z.add_0_r. apply load8_store8_eq.
  - replace (a + Z.of_nat (Datatypes.S i)) with ((a + 1) + Z.of_nat i) by lia.
    by apply IH.
Qed.

Lemma load_bytes_length m a n : length (load_bytes m a n) = n.
Proof. revert a. induction n as [|n IH]; intros a; simpl; auto. Qed.

Lemma load_bytes_lookup m a n i :
  (i < n)%nat -> load_bytes m a n !! i = Some (load8 m (a + Z.of_nat i)).
Proof.
  revert a i. induction n as [|n IH]; intros a i Hi; [lia|].
  destruct i as [|i]; simpl.
  - by rewrite Z.add_0_r.
  - rewrite IH by lia. do 2 f_equal. lia.
Qed.

Lemma load_bytes_ext m m' a a' n :
  (forall i, (i < n)%nat -> load8 m (a + Z.of_nat i) = load8 m' (a' + Z.of_nat i)) ->
  load_bytes m a n = load_bytes m' a' n.
Proof.
  intros H. apply list_eq. intros i. destruct (decide (i < n)%nat).
  - rewrite !load_bytes_lookup by done. by rewrite H.
  - rewrite !lookup_ge_None_2; [done | rewrite load_bytes_length; lia ..].
Qed.

Lemma load_store_bytes m a l :
  load_bytes (store_bytes m a l) a (length l) = map u8 l.
Proof.
  apply list_eq. intros i.
  destruct (l !! i) as [b|] eqn:Hi.
  - rewrite load_bytes_lookup by (by eapply lookup_lt_Some).
    rewrite (load8_store_bytes _ _ _ _ b) by done.
    rewrite list_lookup_fmap. by rewrite Hi.
  - pose proof (lookup_ge_None_1 _ _ Hi).
    rewrite !lookup_ge_None_2; [done| rewrite ?length_map, ?load_bytes_length; lia ..].
Qed.

Lemma load_bytes_store_bytes_ne m a l b n :
  b + Z.of_nat n <= a \/ a + Z.of_nat (length l) <= b ->
  load_bytes (store_bytes m a l) b n = load_bytes m b n.
Proof.
  intros Hd. apply load_bytes_ext. intros i Hi.
  apply load8_store_bytes_ne. lia.
Qed.

Lemma le_bytes_length n z : length (le_bytes n z) = n.
Proof. revert z. induction n as [|n IH]; intros z; simpl; auto. Qed.

Lemma le_bytes_u8 n z : map u8 (le_bytes n z) = le_bytes n z.
Proof.
  revert z. induction n as [|n IH]; intros z; simpl; [done|].
  rewrite IH. f_equal. apply u8_small. apply Z.mod_pos_bound. lia.
Qed.

Lemma le_value_bytes n z : le_value (le_bytes n z) = z mod 256 ^ Z.of_nat n.
Proof.
  revert z. induction n as [|n IH]; intros z; [by rewrite Z.mod_1_r|].
  cbn [le_bytes le_value]. rewrite IH, Nat2Z.inj_succ, Z.pow_succ_r by lia.
  rewrite Z.rem_mul_r by (try apply Z.pow_nonzero; lia). lia.
Qed.

Lemma load32_store32 m a v : load32 (store32 m a v) a = u32 v.
Proof.
  unfold load32, store32. change 4%nat with (length (le_bytes 4 v)) at 1.
  rewrite load_store_bytes, le_bytes_u8, le_value_bytes. done.
Qed.

Lemma load64_store64 m a v : load64 (store64 m a v) a = u64 v.
Proof.
  unfold load64, store64. change 8%nat with (length (le_bytes 8 v)) at 1.
  rewrite load_store_bytes, le_bytes_u8, le_value_bytes. done.
Qed.
