(* ===== verification/Machine.v ===== *)
(** * The machine under the kernel: build configuration, hart registers,
    devices, SBI firmware, flattened device tree

    Everything here is outside the C sources of the kernel proper.  It is given
    as three type classes, so every theorem of the development holds for any
    number of harts, any device behaviour, any firmware and any device tree. *)
From stdpp Require Import base numbers list gmap strings.
From Stdlib Require Import ZArith Lia.
From S2P Require Import Prelude.

Local Open Scope Z_scope.

(** Compile-time constants ([config/kernel_config.h], [uapi/uthread.h]). *)
Definition THREAD_MAX : Z := 64.
Definition THREAD_STACK_SIZE : Z := 4096.
Definition KSTACK_SIZE : Z := 4096.
Definition RQ_MAX_TIDS : Z := THREAD_MAX.
Definition SCHED_SLICE_TICKS : Z := 5.
Definition NO_BOOT_HART : Z := 4294967295.

(** What the build chooses: the number of harts ([-DMAX_HARTS=$(CPUS)]), debug
    or release, and the addresses the linker assigns.  [MAX_HARTS_ok] is the
    [#error] check at the head of [thread.c]. *)
Class Config := {
  MAX_HARTS : Z;
  NDEBUG : bool;
  source_dir : string;   (* what the build puts before a file's name in __FILE__ *)
  addr_g_thread_stacks : Z;
  addr_g_kstack : Z;
  addr_g_cpus : Z;
  addr_idle_main : Z;
  addr_trap_entry : Z;
  addr_g_dtb : Z;
  poll_fuel : nat;        (* bound on the iterations of a device polling loop *)
  MAX_HARTS_ok : 0 < MAX_HARTS < THREAD_MAX
}.

(** Supervisor CSRs the kernel touches, and how a CSR instruction writes. *)
Inductive csr : Type :=
| CSR_sstatus | CSR_sie | CSR_sip | CSR_stvec | CSR_sscratch | CSR_satp | CSR_time.

Inductive csr_op : Type := CSR_WRITE | CSR_SET | CSR_CLEAR.

(** Devices, CSRs and SBI calls: reads and calls may change the device state,
    and nothing at all is assumed about the values they return. *)
Class Hardware := {
  dev : Type;
  mmio_load : Z -> Z -> dev -> Z * dev;                (* width, address *)
  mmio_store : Z -> Z -> Z -> dev -> dev;              (* width, address, value *)
  csr_load : Z -> csr -> dev -> Z * dev;               (* hart *)
  csr_update : Z -> csr -> csr_op -> Z -> dev -> dev;  (* hart *)
  sbi_ecall : Z -> Z -> Z -> list Z -> dev -> (Z * Z) * dev  (* hart, EID, FID *)
}.

(** What the platform code asks of libfdt about the boot device tree: node
    offsets (negative: error) and property bytes ([None]: NULL). *)
Class DeviceTree := {
  fdt_path_offset : Z -> string -> Z;
  fdt_node_offset_by_compatible : Z -> Z -> string -> Z;
  fdt_getprop : Z -> Z -> string -> option (list Z)
}.

(** [fdt32_to_cpu(p[i])] on property bytes: the i-th big-endian cell. *)
Definition fdt32_cell (p : list Z) (i : nat) : Z :=
  let b j := u8 (default 0 (p !! (4 * i + j)%nat)) in
  b 0%nat * 2^24 + b 1%nat * 2^16 + b 2%nat * 2^8 + b 3%nat.

(** SBI extension and function identifiers ([platform/include/sbi.h]). *)
Definition SBI_EID_TIME : Z := 1414090053.
Definition SBI_FID_SET_TIMER : Z := 0.
Definition SBI_EID_IPI : Z := 7557193.
Definition SBI_FID_IPI_SEND_IPI : Z := 0.

(** Status, interrupt-enable and cause bits ([riscv_csr.h]). *)
Definition SSTATUS_SIE : Z := 2.
Definition SSTATUS_SPIE : Z := 32.
Definition SSTATUS_SPP : Z := 256.
Definition SIP_SSIP : Z := 2.
Definition SIE_SSIE : Z := 2.
Definition SIE_STIE : Z := 32.
Definition SIE_SEIE : Z := 512.
Definition SCAUSE_INT : Z := 2^63.
Definition SCAUSE_CODE_MASK : Z := SCAUSE_INT - 1.

Definition EXC_ILLEGAL_INSTR : Z := 2.
Definition EXC_BREAKPOINT : Z := 3.
Definition EXC_ENV_CALL_U : Z := 8.
Definition EXC_ENV_CALL_S : Z := 9.
Definition EXC_ENV_CALL_M : Z := 11.
Definition IRQ_SOFT_S : Z := 1.
Definition IRQ_TIMER_S : Z := 5.
Definition IRQ_EXT_S : Z := 9.

Definition scause_is_interrupt (scause : Z) : bool :=
  z2b (Z.land scause SCAUSE_INT).
Definition scause_code (scause : Z) : Z := Z.land scause SCAUSE_CODE_MASK.

(** ** Laws *)

Lemma fdt32_cell_range p i : 0 <= fdt32_cell p i < 2^32.
Proof.
  unfold fdt32_cell. pose proof (u8_range (default 0 (p !! (4 * i + 0)%nat))).
  pose proof (u8_range (default 0 (p !! (4 * i + 1)%nat))).
  pose proof (u8_range (default 0 (p !! (4 * i + 2)%nat))).
  pose proof (u8_range (default 0 (p !! (4 * i + 3)%nat))). lia.
Qed.
