(* ===== verification/Csr.v ===== *)
(** * Control and status registers ([riscv_csr.h])

    The bits and codes of the header that the kernel's files do not use, the
    decoding of a trap cause, and what the CSR instructions compute. *)
From stdpp Require Import base numbers list.
From Stdlib Require Import ZArith Lia.
From S2P Require Import Prelude Machine.

Local Open Scope Z_scope.

Definition RISCV_XLEN : Z := 64.
Definition MCAUSE_INT : Z := Z.shiftl 1 63.
Definition MCAUSE_CODE_MASK : Z := MCAUSE_INT - 1.
Definition mcause_is_interrupt (mcause : Z) : bool := negb (Z.land mcause MCAUSE_INT =? 0).
Definition mcause_code (mcause : Z) : Z := Z.land mcause MCAUSE_CODE_MASK.

(** ** Status bits *)

Definition MSTATUS_UIE : Z := Z.shiftl 1 0.
Definition MSTATUS_SIE : Z := Z.shiftl 1 1.
Definition MSTATUS_MIE : Z := Z.shiftl 1 3.
Definition MSTATUS_UPIE : Z := Z.shiftl 1 4.
Definition MSTATUS_SPIE : Z := Z.shiftl 1 5.
Definition MSTATUS_MPIE : Z := Z.shiftl 1 7.
Definition MSTATUS_SPP : Z := Z.shiftl 1 8.
Definition MSTATUS_MPP_SHIFT : Z := 11.
Definition MSTATUS_MPP_MASK : Z := Z.shiftl 3 MSTATUS_MPP_SHIFT.
Definition MSTATUS_MPP_U : Z := Z.shiftl 0 MSTATUS_MPP_SHIFT.
Definition MSTATUS_MPP_S : Z := Z.shiftl 1 MSTATUS_MPP_SHIFT.
Definition MSTATUS_MPP_M : Z := Z.shiftl 3 MSTATUS_MPP_SHIFT.
Definition SSTATUS_UIE : Z := MSTATUS_UIE.
Definition SSTATUS_UPIE : Z := MSTATUS_UPIE.

(** ** Interrupt bits *)

Definition MIP_USIP : Z := Z.shiftl 1 0.
Definition MIP_SSIP : Z := Z.shiftl 1 1.
Definition MIP_MSIP : Z := Z.shiftl 1 3.
Definition MIP_UTIP : Z := Z.shiftl 1 4.
Definition MIP_STIP : Z := Z.shiftl 1 5.
Definition MIP_MTIP : Z := Z.shiftl 1 7.
Definition MIP_UEIP : Z := Z.shiftl 1 8.
Definition MIP_SEIP : Z := Z.shiftl 1 9.
Definition MIP_MEIP : Z := Z.shiftl 1 11.
Definition MIE_USIE : Z := MIP_USIP.
Definition MIE_SSIE : Z := MIP_SSIP.
Definition MIE_MSIE : Z := MIP_MSIP.
Definition MIE_UTIE : Z := MIP_UTIP.
Definition MIE_STIE : Z := MIP_STIP.
Definition MIE_MTIE : Z := MIP_MTIP.
Definition MIE_UEIE : Z := MIP_UEIP.
Definition MIE_SEIE : Z := MIP_SEIP.
Definition MIE_MEIE : Z := MIP_MEIP.
Definition SIP_STIP : Z := MIP_STIP.
Definition SIP_SEIP : Z := MIP_SEIP.

Definition MTVEC_MODE_MASK : Z := 3.
Definition MTVEC_MODE_DIRECT : Z := 0.
Definition MTVEC_MODE_VECTORED : Z := 1.
Definition STVEC_MODE_DIRECT : Z := 0.

(** ** Causes *)

Inductive exception : Type :=
| EXC_INST_MISALIGNED | EXC_INST_ACCESS_FAULT | EXC_ILLEGAL_INSTR_ | EXC_BREAKPOINT_
| EXC_LOAD_MISALIGNED | EXC_LOAD_ACCESS_FAULT | EXC_STORE_MISALIGNED | EXC_STORE_ACCESS_FAULT
| EXC_ENV_CALL_U_ | EXC_ENV_CALL_S_ | EXC_ENV_CALL_M_.
Definition exception_code (e : exception) : Z :=
  match e with
  | EXC_INST_MISALIGNED => 0 | EXC_INST_ACCESS_FAULT => 1
  | EXC_ILLEGAL_INSTR_ => EXC_ILLEGAL_INSTR | EXC_BREAKPOINT_ => EXC_BREAKPOINT
  | EXC_LOAD_MISALIGNED => 4 | EXC_LOAD_ACCESS_FAULT => 5
  | EXC_STORE_MISALIGNED => 6 | EXC_STORE_ACCESS_FAULT => 7
  | EXC_ENV_CALL_U_ => EXC_ENV_CALL_U | EXC_ENV_CALL_S_ => EXC_ENV_CALL_S | EXC_ENV_CALL_M_ => EXC_ENV_CALL_M
  end.
Inductive interrupt : Type :=
| IRQ_SOFT_U | IRQ_SOFT_S_ | IRQ_SOFT_M | IRQ_TIMER_U | IRQ_TIMER_S_ | IRQ_TIMER_M
| IRQ_EXT_U | IRQ_EXT_S_ | IRQ_EXT_M.
Definition interrupt_code (i : interrupt) : Z :=
  match i with
  | IRQ_SOFT_U => 0 | IRQ_SOFT_S_ => IRQ_SOFT_S | IRQ_SOFT_M => 3
  | IRQ_TIMER_U => 4 | IRQ_TIMER_S_ => IRQ_TIMER_S | IRQ_TIMER_M => 7
  | IRQ_EXT_U => 8 | IRQ_EXT_S_ => IRQ_EXT_S | IRQ_EXT_M => 11
  end.

(** The pending and enable bit of an interrupt is the bit of its code. *)
Definition mip_bit (i : interrupt) : Z :=
  match i with
  | IRQ_SOFT_U => MIP_USIP | IRQ_SOFT_S_ => MIP_SSIP | IRQ_SOFT_M => MIP_MSIP
  | IRQ_TIMER_U => MIP_UTIP | IRQ_TIMER_S_ => MIP_STIP | IRQ_TIMER_M => MIP_MTIP
  | IRQ_EXT_U => MIP_UEIP | IRQ_EXT_S_ => MIP_SEIP | IRQ_EXT_M => MIP_MEIP
  end.

(** ** The CSR instructions on a 64-bit value *)

Definition csr_after (op : csr_op) (mask old : Z) : Z :=
  match op with
  | CSR_WRITE => u64 mask
  | CSR_SET => Z.lor old (u64 mask)
  | CSR_CLEAR => Z.ldiff old (u64 mask)
  end.

(** ** Laws *)

(** A cause is the interrupt bit and the code below it; supervisor and machine
    decode alike. *)
Lemma mcause_decodes c :
  0 <= c < 2^64 ->
  mcause_is_interrupt c = (2^63 <=? c) /\ mcause_code c = c mod 2^63 /\
  mcause_is_interrupt c = scause_is_interrupt c /\ mcause_code c = scause_code c.
Proof.
  intros Hc.
  assert (E : mcause_is_interrupt c = (2^63 <=? c)).
  { unfold mcause_is_interrupt, MCAUSE_INT. rewrite Z.shiftl_1_l.
    assert (Z.land c (2^63) = if 2^63 <=? c then 2^63 else 0) as ->; [|by destruct (2^63 <=? c)].
    apply Z.bits_inj'. intros n Hn. rewrite Z.land_spec, Z.pow2_bits_eqb by lia. destruct (Z.eqb_spec 63 n) as [<-|Hne].
    - rewrite andb_true_r.
      destruct (Z.leb_spec (2^63) c).
      + rewrite Z.pow2_bits_true by lia. apply Z.testbit_true; [lia|]. Z.div_mod_to_equations. lia.
      + rewrite Z.bits_0. apply Z.testbit_false; [lia|]. Z.div_mod_to_equations. lia.
    - rewrite andb_false_r. destruct (2^63 <=? c); [|by rewrite Z.bits_0]. by rewrite Z.pow2_bits_false by lia. }
  assert (M : mcause_code c = c mod 2^63).
  { unfold mcause_code, MCAUSE_CODE_MASK, MCAUSE_INT. rewrite Z.shiftl_1_l. apply (Z.land_ones c 63). lia. }
  split; [exact E|]. split; [exact M|]. split; [|done].
  unfold mcause_is_interrupt, scause_is_interrupt, z2b. done.
Qed.

(** The constants of the kernel's files are the aliases of the header. *)
Lemma kernel_bits :
  SSTATUS_SIE = MSTATUS_SIE /\ SSTATUS_SPIE = MSTATUS_SPIE /\ SSTATUS_SPP = MSTATUS_SPP /\
  SIP_SSIP = MIP_SSIP /\ SIE_SSIE = MIE_SSIE /\ SIE_STIE = MIE_STIE /\ SIE_SEIE = MIE_SEIE /\
  SCAUSE_INT = MCAUSE_INT /\ SCAUSE_CODE_MASK = MCAUSE_CODE_MASK.
Proof. done. Qed.

Lemma interrupt_decodes i :
  mcause_is_interrupt (MCAUSE_INT + interrupt_code i) = true /\
  mcause_code (MCAUSE_INT + interrupt_code i) = interrupt_code i /\
  mip_bit i = Z.shiftl 1 (interrupt_code i).
Proof. by destruct i. Qed.
Lemma exception_decodes e :
  mcause_is_interrupt (exception_code e) = false /\ mcause_code (exception_code e) = exception_code e.
Proof. by destruct e. Qed.
#[export] Instance exception_code_inj : Inj (=) (=) exception_code.
Proof. intros [] []; done. Qed.
#[export] Instance interrupt_code_inj : Inj (=) (=) interrupt_code.
Proof. intros [] []; done. Qed.

(** Setting a bit and clearing it again, and the reverse. *)
Lemma csr_set_clear m old :
  Z.land old (u64 m) = 0 -> csr_after CSR_CLEAR m (csr_after CSR_SET m old) = old.
Proof.
  intros H. cbn [csr_after]. apply Z.bits_inj'. intros n Hn. rewrite Z.ldiff_spec, Z.lor_spec.
  assert (Z.testbit old n && Z.testbit (u64 m) n = false) as Hb by (rewrite <- Z.land_spec, H; apply Z.bits_0).
  by destruct (Z.testbit old n), (Z.testbit (u64 m) n).
Qed.
Lemma csr_set_bits m old n :
  0 <= n -> Z.testbit (csr_after CSR_SET m old) n = Z.testbit old n || Z.testbit (u64 m) n /\
  Z.testbit (csr_after CSR_CLEAR m old) n = Z.testbit old n && negb (Z.testbit (u64 m) n).
Proof. intros Hn. cbn [csr_after]. by rewrite Z.lor_spec, Z.ldiff_spec. Qed.
