(* ===== verification/State.v ===== *)
(** * Kernel data: the structures and globals of the C sources

    One record per [struct], with the source's field names behind a short
    prefix; one record per group of file-scope variables; and [kstate], the
    whole state.  An array is a finite map from its indices: reading or writing
    an index it does not have is the undefined access of the C array. *)
From stdpp Require Import base numbers list gmap strings.
From Stdlib Require Import ZArith Lia.
From S2P Require Import Prelude Mem Machine.

Local Open Scope Z_scope.

(** [enum ThreadState] of [uapi/uthread.h]. *)
Inductive ThreadState : Type :=
| THREAD_UNUSED | THREAD_RUNNABLE | THREAD_RUNNING | THREAD_SLEEPING
| THREAD_WAITING | THREAD_ZOMBIE | THREAD_BLOCKED.

#[export] Instance ThreadState_eq_dec : EqDecision ThreadState.
Proof. solve_decision. Defined.

(** [if (t->state == st)] *)
Definition state_eqb (a b : ThreadState) : bool := bool_decide (a = b).

Definition ThreadState_code (st : ThreadState) : Z :=
  match st with
  | THREAD_UNUSED => 0 | THREAD_RUNNABLE => 1 | THREAD_RUNNING => 2
  | THREAD_SLEEPING => 3 | THREAD_WAITING => 4 | THREAD_ZOMBIE => 5
  | THREAD_BLOCKED => 6
  end.

Definition THREAD_EXITCODE_SIGKILL : Z := -9.

(** A [const char *] to a thread name: a string literal of the kernel (or one
    of its [s_idle_names] buffers, fixed after initialisation), or a pointer
    handed over by a user thread. *)
Inductive name_ptr : Type :=
| NameLit (s : string)
| NameUser (addr : Z).

(** A [struct trapframe *]: the frames that exist in the kernel. *)
Inductive tf_ptr : Type :=
| TF_null
| TF_thread (tid : Z)    (* &g_threads[tid].tf *)
| TF_bootstrap           (* &g_bootstrap_tf *)
| TF_probe.              (* &g_probe_tf *)

#[export] Instance tf_ptr_eq_dec : EqDecision tf_ptr.
Proof. solve_decision. Defined.

(** An [irq_handler_t]: the interrupt handlers of the kernel. *)
Inductive irq_handler : Type := H_uart16550_irq_handler.

(** [struct trapframe] (kernel/include/trap.h): the saved registers. *)
Record trapframe := mk_trapframe {
  f_ra : Z;
  f_sp : Z;
  f_gp : Z;
  f_tp : Z;
  f_t0 : Z;
  f_t1 : Z;
  f_t2 : Z;
  f_s0 : Z;
  f_s1 : Z;
  f_a0 : Z;
  f_a1 : Z;
  f_a2 : Z;
  f_a3 : Z;
  f_a4 : Z;
  f_a5 : Z;
  f_a6 : Z;
  f_a7 : Z;
  f_s2 : Z;
  f_s3 : Z;
  f_s4 : Z;
  f_s5 : Z;
  f_s6 : Z;
  f_s7 : Z;
  f_s8 : Z;
  f_s9 : Z;
  f_s10 : Z;
  f_s11 : Z;
  f_t3 : Z;
  f_t4 : Z;
  f_t5 : Z;
  f_t6 : Z;
  f_sepc : Z;
  f_sstatus : Z;
  f_scause : Z;
  f_stval : Z;
  f_pad : Z
}.

(** [tf_clear]: the frame after [memset(tf, 0, sizeof *tf)]. *)
Definition tf_zero : trapframe :=
  {| f_ra := 0; f_sp := 0; f_gp := 0; f_tp := 0; f_t0 := 0; f_t1 := 0; f_t2 := 0; f_s0 := 0; f_s1 := 0; f_a0 := 0; f_a1 := 0; f_a2 := 0; f_a3 := 0; f_a4 := 0; f_a5 := 0; f_a6 := 0; f_a7 := 0; f_s2 := 0; f_s3 := 0; f_s4 := 0; f_s5 := 0; f_s6 := 0; f_s7 := 0; f_s8 := 0; f_s9 := 0; f_s10 := 0; f_s11 := 0; f_t3 := 0; f_t4 := 0; f_t5 := 0; f_t6 := 0; f_sepc := 0; f_sstatus := 0; f_scause := 0; f_stval := 0; f_pad := 0 |}.

Definition f_set_a0 (v : Z) (r : trapframe) : trapframe :=
  {| f_ra := f_ra r; f_sp := f_sp r; f_gp := f_gp r; f_tp := f_tp r; f_t0 :=
     f_t0 r; f_t1 := f_t1 r; f_t2 := f_t2 r; f_s0 := f_s0 r; f_s1 := f_s1 r;
     f_a0 := v; f_a1 := f_a1 r; f_a2 := f_a2 r; f_a3 := f_a3 r; f_a4 := f_a4
     r; f_a5 := f_a5 r; f_a6 := f_a6 r; f_a7 := f_a7 r; f_s2 := f_s2 r; f_s3
     := f_s3 r; f_s4 := f_s4 r; f_s5 := f_s5 r; f_s6 := f_s6 r; f_s7 := f_s7
     r; f_s8 := f_s8 r; f_s9 := f_s9 r; f_s10 := f_s10 r; f_s11 := f_s11 r;
     f_t3 := f_t3 r; f_t4 := f_t4 r; f_t5 := f_t5 r; f_t6 := f_t6 r; f_sepc
     := f_sepc r; f_sstatus := f_sstatus r; f_scause := f_scause r; f_stval
     := f_stval r; f_pad := f_pad r |}.
Definition f_set_sp (v : Z) (r : trapframe) : trapframe :=
  {| f_ra := f_ra r; f_sp := v; f_gp := f_gp r; f_tp := f_tp r; f_t0 := f_t0
     r; f_t1 := f_t1 r; f_t2 := f_t2 r; f_s0 := f_s0 r; f_s1 := f_s1 r; f_a0
     := f_a0 r; f_a1 := f_a1 r; f_a2 := f_a2 r; f_a3 := f_a3 r; f_a4 := f_a4
     r; f_a5 := f_a5 r; f_a6 := f_a6 r; f_a7 := f_a7 r; f_s2 := f_s2 r; f_s3
     := f_s3 r; f_s4 := f_s4 r; f_s5 := f_s5 r; f_s6 := f_s6 r; f_s7 := f_s7
     r; f_s8 := f_s8 r; f_s9 := f_s9 r; f_s10 := f_s10 r; f_s11 := f_s11 r;
     f_t3 := f_t3 r; f_t4 := f_t4 r; f_t5 := f_t5 r; f_t6 := f_t6 r; f_sepc
     := f_sepc r; f_sstatus := f_sstatus r; f_scause := f_scause r; f_stval
     := f_stval r; f_pad := f_pad r |}.
Definition f_set_sepc (v : Z) (r : trapframe) : trapframe :=
  {| f_ra := f_ra r; f_sp := f_sp r; f_gp := f_gp r; f_tp := f_tp r; f_t0 :=
     f_t0 r; f_t1 := f_t1 r; f_t2 := f_t2 r; f_s0 := f_s0 r; f_s1 := f_s1 r;
     f_a0 := f_a0 r; f_a1 := f_a1 r; f_a2 := f_a2 r; f_a3 := f_a3 r; f_a4 :=
     f_a4 r; f_a5 := f_a5 r; f_a6 := f_a6 r; f_a7 := f_a7 r; f_s2 := f_s2 r;
     f_s3 := f_s3 r; f_s4 := f_s4 r; f_s5 := f_s5 r; f_s6 := f_s6 r; f_s7 :=
     f_s7 r; f_s8 := f_s8 r; f_s9 := f_s9 r; f_s10 := f_s10 r; f_s11 :=
     f_s11 r; f_t3 := f_t3 r; f_t4 := f_t4 r; f_t5 := f_t5 r; f_t6 := f_t6
     r; f_sepc := v; f_sstatus := f_sstatus r; f_scause := f_scause r;
     f_stval := f_stval r; f_pad := f_pad r |}.
Definition f_set_sstatus (v : Z) (r : trapframe) : trapframe :=
  {| f_ra := f_ra r; f_sp := f_sp r; f_gp := f_gp r; f_tp := f_tp r; f_t0 :=
     f_t0 r; f_t1 := f_t1 r; f_t2 := f_t2 r; f_s0 := f_s0 r; f_s1 := f_s1 r;
     f_a0 := f_a0 r; f_a1 := f_a1 r; f_a2 := f_a2 r; f_a3 := f_a3 r; f_a4 :=
     f_a4 r; f_a5 := f_a5 r; f_a6 := f_a6 r; f_a7 := f_a7 r; f_s2 := f_s2 r;
     f_s3 := f_s3 r; f_s4 := f_s4 r; f_s5 := f_s5 r; f_s6 := f_s6 r; f_s7 :=
     f_s7 r; f_s8 := f_s8 r; f_s9 := f_s9 r; f_s10 := f_s10 r; f_s11 :=
     f_s11 r; f_t3 := f_t3 r; f_t4 := f_t4 r; f_t5 := f_t5 r; f_t6 := f_t6
     r; f_sepc := f_sepc r; f_sstatus := v; f_scause := f_scause r; f_stval
     := f_stval r; f_pad := f_pad r |}.

(** [Thread] (kernel/include/thread.h). *)
Record Thread := mk_Thread {
  t_id : Z;
  t_state : ThreadState;
  t_wakeup_tick : Z;
  t_name : name_ptr;
  t_is_user : Z;
  t_can_be_killed : Z;
  t_detached : Z;
  t_running_hart : Z;
  t_last_hart : Z;
  t_migrations : Z;
  t_runs : Z;
  t_rq_next : Z;
  t_on_rq : Z;
  t_tf : trapframe;
  t_stack_base : Z;
  t_exit_code : Z;
  t_join_waiter : Z;
  t_waiting_for : Z;
  t_join_status_ptr : Z;
  t_pending_read_buf : Z;
  t_pending_read_len : Z
}.

Definition t_set_id (v : Z) (r : Thread) : Thread :=
  {| t_id := v; t_state := t_state r; t_wakeup_tick := t_wakeup_tick r;
     t_name := t_name r; t_is_user := t_is_user r; t_can_be_killed :=
     t_can_be_killed r; t_detached := t_detached r; t_running_hart :=
     t_running_hart r; t_last_hart := t_last_hart r; t_migrations :=
     t_migrations r; t_runs := t_runs r; t_rq_next := t_rq_next r; t_on_rq
     := t_on_rq r; t_tf := t_tf r; t_stack_base := t_stack_base r;
     t_exit_code := t_exit_code r; t_join_waiter := t_join_waiter r;
     t_waiting_for := t_waiting_for r; t_join_status_ptr :=
     t_join_status_ptr r; t_pending_read_buf := t_pending_read_buf r;
     t_pending_read_len := t_pending_read_len r |}.
Definition t_set_state (v : ThreadState) (r : Thread) : Thread :=
  {| t_id := t_id r; t_state := v; t_wakeup_tick := t_wakeup_tick r; t_name
     := t_name r; t_is_user := t_is_user r; t_can_be_killed :=
     t_can_be_killed r; t_detached := t_detached r; t_running_hart :=
     t_running_hart r; t_last_hart := t_last_hart r; t_migrations :=
     t_migrations r; t_runs := t_runs r; t_rq_next := t_rq_next r; t_on_rq
     := t_on_rq r; t_tf := t_tf r; t_stack_base := t_stack_base r;
     t_exit_code := t_exit_code r; t_join_waiter := t_join_waiter r;
     t_waiting_for := t_waiting_for r; t_join_status_ptr :=
     t_join_status_ptr r; t_pending_read_buf := t_pending_read_buf r;
     t_pending_read_len := t_pending_read_len r |}.
Definition t_set_wakeup_tick (v : Z) (r : Thread) : Thread :=
  {| t_id := t_id r; t_state := t_state r; t_wakeup_tick := v; t_name :=
     t_name r; t_is_user := t_is_user r; t_can_be_killed := t_can_be_killed
     r; t_detached := t_detached r; t_running_hart := t_running_hart r;
     t_last_hart := t_last_hart r; t_migrations := t_migrations r; t_runs :=
     t_runs r; t_rq_next := t_rq_next r; t_on_rq := t_on_rq r; t_tf := t_tf
     r; t_stack_base := t_stack_base r; t_exit_code := t_exit_code r;
     t_join_waiter := t_join_waiter r; t_waiting_for := t_waiting_for r;
     t_join_status_ptr := t_join_status_ptr r; t_pending_read_buf :=
     t_pending_read_buf r; t_pending_read_len := t_pending_read_len r |}.
Definition t_set_name (v : name_ptr) (r : Thread) : Thread :=
  {| t_id := t_id r; t_state := t_state r; t_wakeup_tick := t_wakeup_tick r;
     t_name := v; t_is_user := t_is_user r; t_can_be_killed :=
     t_can_be_killed r; t_detached := t_detached r; t_running_hart :=
     t_running_hart r; t_last_hart := t_last_hart r; t_migrations :=
     t_migrations r; t_runs := t_runs r; t_rq_next := t_rq_next r; t_on_rq
     := t_on_rq r; t_tf := t_tf r; t_stack_base := t_stack_base r;
     t_exit_code := t_exit_code r; t_join_waiter := t_join_waiter r;
     t_waiting_for := t_waiting_for r; t_join_status_ptr :=
     t_join_status_ptr r; t_pending_read_buf := t_pending_read_buf r;
     t_pending_read_len := t_pending_read_len r |}.
Definition t_set_is_user (v : Z) (r : Thread) : Thread :=
  {| t_id := t_id r; t_state := t_state r; t_wakeup_tick := t_wakeup_tick r;
     t_name := t_name r; t_is_user := v; t_can_be_killed := t_can_be_killed
     r; t_detached := t_detached r; t_running_hart := t_running_hart r;
     t_last_hart := t_last_hart r; t_migrations := t_migrations r; t_runs :=
     t_runs r; t_rq_next := t_rq_next r; t_on_rq := t_on_rq r; t_tf := t_tf
     r; t_stack_base := t_stack_base r; t_exit_code := t_exit_code r;
     t_join_waiter := t_join_waiter r; t_waiting_for := t_waiting_for r;
     t_join_status_ptr := t_join_status_ptr r; t_pending_read_buf :=
     t_pending_read_buf r; t_pending_read_len := t_pending_read_len r |}.
Definition t_set_can_be_killed (v : Z) (r : Thread) : Thread :=
  {| t_id := t_id r; t_state := t_state r; t_wakeup_tick := t_wakeup_tick r;
     t_name := t_name r; t_is_user := t_is_user r; t_can_be_killed := v;
     t_detached := t_detached r; t_running_hart := t_running_hart r;
     t_last_hart := t_last_hart r; t_migrations := t_migrations r; t_runs :=
     t_runs r; t_rq_next := t_rq_next r; t_on_rq := t_on_rq r; t_tf := t_tf
     r; t_stack_base := t_stack_base r; t_exit_code := t_exit_code r;
     t_join_waiter := t_join_waiter r; t_waiting_for := t_waiting_for r;
     t_join_status_ptr := t_join_status_ptr r; t_pending_read_buf :=
     t_pending_read_buf r; t_pending_read_len := t_pending_read_len r |}.
Definition t_set_detached (v : Z) (r : Thread) : Thread :=
  {| t_id := t_id r; t_state := t_state r; t_wakeup_tick := t_wakeup_tick r;
     t_name := t_name r; t_is_user := t_is_user r; t_can_be_killed :=
     t_can_be_killed r; t_detached := v; t_running_hart := t_running_hart r;
     t_last_hart := t_last_hart r; t_migrations := t_migrations r; t_runs :=
     t_runs r; t_rq_next := t_rq_next r; t_on_rq := t_on_rq r; t_tf := t_tf
     r; t_stack_base := t_stack_base r; t_exit_code := t_exit_code r;
     t_join_waiter := t_join_waiter r; t_waiting_for := t_waiting_for r;
     t_join_status_ptr := t_join_status_ptr r; t_pending_read_buf :=
     t_pending_read_buf r; t_pending_read_len := t_pending_read_len r |}.
Definition t_set_running_hart (v : Z) (r : Thread) : Thread :=
  {| t_id := t_id r; t_state := t_state r; t_wakeup_tick := t_wakeup_tick r;
     t_name := t_name r; t_is_user := t_is_user r; t_can_be_killed :=
     t_can_be_killed r; t_detached := t_detached r; t_running_hart := v;
     t_last_hart := t_last_hart r; t_migrations := t_migrations r; t_runs :=
     t_runs r; t_rq_next := t_rq_next r; t_on_rq := t_on_rq r; t_tf := t_tf
     r; t_stack_base := t_stack_base r; t_exit_code := t_exit_code r;
     t_join_waiter := t_join_waiter r; t_waiting_for := t_waiting_for r;
     t_join_status_ptr := t_join_status_ptr r; t_pending_read_buf :=
     t_pending_read_buf r; t_pending_read_len := t_pending_read_len r |}.
Definition t_set_last_hart (v : Z) (r : Thread) : Thread :=
  {| t_id := t_id r; t_state := t_state r; t_wakeup_tick := t_wakeup_tick r;
     t_name := t_name r; t_is_user := t_is_user r; t_can_be_killed :=
     t_can_be_killed r; t_detached := t_detached r; t_running_hart :=
     t_running_hart r; t_last_hart := v; t_migrations := t_migrations r;
     t_runs := t_runs r; t_rq_next := t_rq_next r; t_on_rq := t_on_rq r;
     t_tf := t_tf r; t_stack_base := t_stack_base r; t_exit_code :=
     t_exit_code r; t_join_waiter := t_join_waiter r; t_waiting_for :=
     t_waiting_for r; t_join_status_ptr := t_join_status_ptr r;
     t_pending_read_buf := t_pending_read_buf r; t_pending_read_len :=
     t_pending_read_len r |}.
Definition t_set_migrations (v : Z) (r : Thread) : Thread :=
  {| t_id := t_id r; t_state := t_state r; t_wakeup_tick := t_wakeup_tick r;
     t_name := t_name r; t_is_user := t_is_user r; t_can_be_killed :=
     t_can_be_killed r; t_detached := t_detached r; t_running_hart :=
     t_running_hart r; t_last_hart := t_last_hart r; t_migrations := v;
     t_runs := t_runs r; t_rq_next := t_rq_next r; t_on_rq := t_on_rq r;
     t_tf := t_tf r; t_stack_base := t_stack_base r; t_exit_code :=
     t_exit_code r; t_join_waiter := t_join_waiter r; t_waiting_for :=
     t_waiting_for r; t_join_status_ptr := t_join_status_ptr r;
     t_pending_read_buf := t_pending_read_buf r; t_pending_read_len :=
     t_pending_read_len r |}.
Definition t_set_runs (v : Z) (r : Thread) : Thread :=
  {| t_id := t_id r; t_state := t_state r; t_wakeup_tick := t_wakeup_tick r;
     t_name := t_name r; t_is_user := t_is_user r; t_can_be_killed :=
     t_can_be_killed r; t_detached := t_detached r; t_running_hart :=
     t_running_hart r; t_last_hart := t_last_hart r; t_migrations :=
     t_migrations r; t_runs := v; t_rq_next := t_rq_next r; t_on_rq :=
     t_on_rq r; t_tf := t_tf r; t_stack_base := t_stack_base r; t_exit_code
     := t_exit_code r; t_join_waiter := t_join_waiter r; t_waiting_for :=
     t_waiting_for r; t_join_status_ptr := t_join_status_ptr r;
     t_pending_read_buf := t_pending_read_buf r; t_pending_read_len :=
     t_pending_read_len r |}.
Definition t_set_rq_next (v : Z) (r : Thread) : Thread :=
  {| t_id := t_id r; t_state := t_state r; t_wakeup_tick := t_wakeup_tick r;
     t_name := t_name r; t_is_user := t_is_user r; t_can_be_killed :=
     t_can_be_killed r; t_detached := t_detached r; t_running_hart :=
     t_running_hart r; t_last_hart := t_last_hart r; t_migrations :=
     t_migrations r; t_runs := t_runs r; t_rq_next := v; t_on_rq := t_on_rq
     r; t_tf := t_tf r; t_stack_base := t_stack_base r; t_exit_code :=
     t_exit_code r; t_join_waiter := t_join_waiter r; t_waiting_for :=
     t_waiting_for r; t_join_status_ptr := t_join_status_ptr r;
     t_pending_read_buf := t_pending_read_buf r; t_pending_read_len :=
     t_pending_read_len r |}.
Definition t_set_on_rq (v : Z) (r : Thread) : Thread :=
  {| t_id := t_id r; t_state := t_state r; t_wakeup_tick := t_wakeup_tick r;
     t_name := t_name r; t_is_user := t_is_user r; t_can_be_killed :=
     t_can_be_killed r; t_detached := t_detached r; t_running_hart :=
     t_running_hart r; t_last_hart := t_last_hart r; t_migrations :=
     t_migrations r; t_runs := t_runs r; t_rq_next := t_rq_next r; t_on_rq
     := v; t_tf := t_tf r; t_stack_base := t_stack_base r; t_exit_code :=
     t_exit_code r; t_join_waiter := t_join_waiter r; t_waiting_for :=
     t_waiting_for r; t_join_status_ptr := t_join_status_ptr r;
     t_pending_read_buf := t_pending_read_buf r; t_pending_read_len :=
     t_pending_read_len r |}.
Definition t_set_tf (v : trapframe) (r : Thread) : Thread :=
  {| t_id := t_id r; t_state := t_state r; t_wakeup_tick := t_wakeup_tick r;
     t_name := t_name r; t_is_user := t_is_user r; t_can_be_killed :=
     t_can_be_killed r; t_detached := t_detached r; t_running_hart :=
     t_running_hart r; t_last_hart := t_last_hart r; t_migrations :=
     t_migrations r; t_runs := t_runs r; t_rq_next := t_rq_next r; t_on_rq
     := t_on_rq r; t_tf := v; t_stack_base := t_stack_base r; t_exit_code :=
     t_exit_code r; t_join_waiter := t_join_waiter r; t_waiting_for :=
     t_waiting_for r; t_join_status_ptr := t_join_status_ptr r;
     t_pending_read_buf := t_pending_read_buf r; t_pending_read_len :=
     t_pending_read_len r |}.
Definition t_set_stack_base (v : Z) (r : Thread) : Thread :=
  {| t_id := t_id r; t_state := t_state r; t_wakeup_tick := t_wakeup_tick r;
     t_name := t_name r; t_is_user := t_is_user r; t_can_be_killed :=
     t_can_be_killed r; t_detached := t_detached r; t_running_hart :=
     t_running_hart r; t_last_hart := t_last_hart r; t_migrations :=
     t_migrations r; t_runs := t_runs r; t_rq_next := t_rq_next r; t_on_rq
     := t_on_rq r; t_tf := t_tf r; t_stack_base := v; t_exit_code :=
     t_exit_code r; t_join_waiter := t_join_waiter r; t_waiting_for :=
     t_waiting_for r; t_join_status_ptr := t_join_status_ptr r;
     t_pending_read_buf := t_pending_read_buf r; t_pending_read_len :=
     t_pending_read_len r |}.
Definition t_set_exit_code (v : Z) (r : Thread) : Thread :=
  {| t_id := t_id r; t_state := t_state r; t_wakeup_tick := t_wakeup_tick r;
     t_name := t_name r; t_is_user := t_is_user r; t_can_be_killed :=
     t_can_be_killed r; t_detached := t_detached r; t_running_hart :=
     t_running_hart r; t_last_hart := t_last_hart r; t_migrations :=
     t_migrations r; t_runs := t_runs r; t_rq_next := t_rq_next r; t_on_rq
     := t_on_rq r; t_tf := t_tf r; t_stack_base := t_stack_base r;
     t_exit_code := v; t_join_waiter := t_join_waiter r; t_waiting_for :=
     t_waiting_for r; t_join_status_ptr := t_join_status_ptr r;
     t_pending_read_buf := t_pending_read_buf r; t_pending_read_len :=
     t_pending_read_len r |}.
Definition t_set_join_waiter (v : Z) (r : Thread) : Thread :=
  {| t_id := t_id r; t_state := t_state r; t_wakeup_tick := t_wakeup_tick r;
     t_name := t_name r; t_is_user := t_is_user r; t_can_be_killed :=
     t_can_be_killed r; t_detached := t_detached r; t_running_hart :=
     t_running_hart r; t_last_hart := t_last_hart r; t_migrations :=
     t_migrations r; t_runs := t_runs r; t_rq_next := t_rq_next r; t_on_rq
     := t_on_rq r; t_tf := t_tf r; t_stack_base := t_stack_base r;
     t_exit_code := t_exit_code r; t_join_waiter := v; t_waiting_for :=
     t_waiting_for r; t_join_status_ptr := t_join_status_ptr r;
     t_pending_read_buf := t_pending_read_buf r; t_pending_read_len :=
     t_pending_read_len r |}.
Definition t_set_waiting_for (v : Z) (r : Thread) : Thread :=
  {| t_id := t_id r; t_state := t_state r; t_wakeup_tick := t_wakeup_tick r;
     t_name := t_name r; t_is_user := t_is_user r; t_can_be_killed :=
     t_can_be_killed r; t_detached := t_detached r; t_running_hart :=
     t_running_hart r; t_last_hart := t_last_hart r; t_migrations :=
     t_migrations r; t_runs := t_runs r; t_rq_next := t_rq_next r; t_on_rq
     := t_on_rq r; t_tf := t_tf r; t_stack_base := t_stack_base r;
     t_exit_code := t_exit_code r; t_join_waiter := t_join_waiter r;
     t_waiting_for := v; t_join_status_ptr := t_join_status_ptr r;
     t_pending_read_buf := t_pending_read_buf r; t_pending_read_len :=
     t_pending_read_len r |}.
Definition t_set_join_status_ptr (v : Z) (r : Thread) : Thread :=
  {| t_id := t_id r; t_state := t_state r; t_wakeup_tick := t_wakeup_tick r;
     t_name := t_name r; t_is_user := t_is_user r; t_can_be_killed :=
     t_can_be_killed r; t_detached := t_detached r; t_running_hart :=
     t_running_hart r; t_last_hart := t_last_hart r; t_migrations :=
     t_migrations r; t_runs := t_runs r; t_rq_next := t_rq_next r; t_on_rq
     := t_on_rq r; t_tf := t_tf r; t_stack_base := t_stack_base r;
     t_exit_code := t_exit_code r; t_join_waiter := t_join_waiter r;
     t_waiting_for := t_waiting_for r; t_join_status_ptr := v;
     t_pending_read_buf := t_pending_read_buf r; t_pending_read_len :=
     t_pending_read_len r |}.
Definition t_set_pending_read_buf (v : Z) (r : Thread) : Thread :=
  {| t_id := t_id r; t_state := t_state r; t_wakeup_tick := t_wakeup_tick r;
     t_name := t_name r; t_is_user := t_is_user r; t_can_be_killed :=
     t_can_be_killed r; t_detached := t_detached r; t_running_hart :=
     t_running_hart r; t_last_hart := t_last_hart r; t_migrations :=
     t_migrations r; t_runs := t_runs r; t_rq_next := t_rq_next r; t_on_rq
     := t_on_rq r; t_tf := t_tf r; t_stack_base := t_stack_base r;
     t_exit_code := t_exit_code r; t_join_waiter := t_join_waiter r;
     t_waiting_for := t_waiting_for r; t_join_status_ptr :=
     t_join_status_ptr r; t_pending_read_buf := v; t_pending_read_len :=
     t_pending_read_len r |}.
Definition t_set_pending_read_len (v : Z) (r : Thread) : Thread :=
  {| t_id := t_id r; t_state := t_state r; t_wakeup_tick := t_wakeup_tick r;
     t_name := t_name r; t_is_user := t_is_user r; t_can_be_killed :=
     t_can_be_killed r; t_detached := t_detached r; t_running_hart :=
     t_running_hart r; t_last_hart := t_last_hart r; t_migrations :=
     t_migrations r; t_runs := t_runs r; t_rq_next := t_rq_next r; t_on_rq
     := t_on_rq r; t_tf := t_tf r; t_stack_base := t_stack_base r;
     t_exit_code := t_exit_code r; t_join_waiter := t_join_waiter r;
     t_waiting_for := t_waiting_for r; t_join_status_ptr :=
     t_join_status_ptr r; t_pending_read_buf := t_pending_read_buf r;
     t_pending_read_len := v |}.

(** [runqueue_t] (kernel/runqueue.c). *)
Record runqueue_t := mk_runqueue {
  r_head : Z;
  r_tail : Z;
  r_len : Z
}.

Definition r_set_head (v : Z) (r : runqueue_t) : runqueue_t :=
  {| r_head := v; r_tail := r_tail r; r_len := r_len r |}.
Definition r_set_tail (v : Z) (r : runqueue_t) : runqueue_t :=
  {| r_head := r_head r; r_tail := v; r_len := r_len r |}.
Definition r_set_len (v : Z) (r : runqueue_t) : runqueue_t :=
  {| r_head := r_head r; r_tail := r_tail r; r_len := v |}.

(** [struct cpu] (kernel/include/cpu.h). *)
Record cpu_t := mk_cpu {
  c_kstack_top : Z;
  c_cur_tf : tf_ptr;
  c_hartid : Z;
  c_online : Z;
  c_current_tid : Z;
  c_idle_tid : Z;
  c_timer_irqs : Z;
  c_ctx_switches : Z;
  c_need_resched : Z;
  c_slice_left : Z
}.

Definition c_set_kstack_top (v : Z) (r : cpu_t) : cpu_t :=
  {| c_kstack_top := v; c_cur_tf := c_cur_tf r; c_hartid := c_hartid r;
     c_online := c_online r; c_current_tid := c_current_tid r; c_idle_tid :=
     c_idle_tid r; c_timer_irqs := c_timer_irqs r; c_ctx_switches :=
     c_ctx_switches r; c_need_resched := c_need_resched r; c_slice_left :=
     c_slice_left r |}.
Definition c_set_cur_tf (v : tf_ptr) (r : cpu_t) : cpu_t :=
  {| c_kstack_top := c_kstack_top r; c_cur_tf := v; c_hartid := c_hartid r;
     c_online := c_online r; c_current_tid := c_current_tid r; c_idle_tid :=
     c_idle_tid r; c_timer_irqs := c_timer_irqs r; c_ctx_switches :=
     c_ctx_switches r; c_need_resched := c_need_resched r; c_slice_left :=
     c_slice_left r |}.
Definition c_set_hartid (v : Z) (r : cpu_t) : cpu_t :=
  {| c_kstack_top := c_kstack_top r; c_cur_tf := c_cur_tf r; c_hartid := v;
     c_online := c_online r; c_current_tid := c_current_tid r; c_idle_tid :=
     c_idle_tid r; c_timer_irqs := c_timer_irqs r; c_ctx_switches :=
     c_ctx_switches r; c_need_resched := c_need_resched r; c_slice_left :=
     c_slice_left r |}.
Definition c_set_online (v : Z) (r : cpu_t) : cpu_t :=
  {| c_kstack_top := c_kstack_top r; c_cur_tf := c_cur_tf r; c_hartid :=
     c_hartid r; c_online := v; c_current_tid := c_current_tid r; c_idle_tid
     := c_idle_tid r; c_timer_irqs := c_timer_irqs r; c_ctx_switches :=
     c_ctx_switches r; c_need_resched := c_need_resched r; c_slice_left :=
     c_slice_left r |}.
Definition c_set_current_tid (v : Z) (r : cpu_t) : cpu_t :=
  {| c_kstack_top := c_kstack_top r; c_cur_tf := c_cur_tf r; c_hartid :=
     c_hartid r; c_online := c_online r; c_current_tid := v; c_idle_tid :=
     c_idle_tid r; c_timer_irqs := c_timer_irqs r; c_ctx_switches :=
     c_ctx_switches r; c_need_resched := c_need_resched r; c_slice_left :=
     c_slice_left r |}.
Definition c_set_idle_tid (v : Z) (r : cpu_t) : cpu_t :=
  {| c_kstack_top := c_kstack_top r; c_cur_tf := c_cur_tf r; c_hartid :=
     c_hartid r; c_online := c_online r; c_current_tid := c_current_tid r;
     c_idle_tid := v; c_timer_irqs := c_timer_irqs r; c_ctx_switches :=
     c_ctx_switches r; c_need_resched := c_need_resched r; c_slice_left :=
     c_slice_left r |}.
Definition c_set_timer_irqs (v : Z) (r : cpu_t) : cpu_t :=
  {| c_kstack_top := c_kstack_top r; c_cur_tf := c_cur_tf r; c_hartid :=
     c_hartid r; c_online := c_online r; c_current_tid := c_current_tid r;
     c_idle_tid := c_idle_tid r; c_timer_irqs := v; c_ctx_switches :=
     c_ctx_switches r; c_need_resched := c_need_resched r; c_slice_left :=
     c_slice_left r |}.
Definition c_set_ctx_switches (v : Z) (r : cpu_t) : cpu_t :=
  {| c_kstack_top := c_kstack_top r; c_cur_tf := c_cur_tf r; c_hartid :=
     c_hartid r; c_online := c_online r; c_current_tid := c_current_tid r;
     c_idle_tid := c_idle_tid r; c_timer_irqs := c_timer_irqs r;
     c_ctx_switches := v; c_need_resched := c_need_resched r; c_slice_left
     := c_slice_left r |}.
Definition c_set_need_resched (v : Z) (r : cpu_t) : cpu_t :=
  {| c_kstack_top := c_kstack_top r; c_cur_tf := c_cur_tf r; c_hartid :=
     c_hartid r; c_online := c_online r; c_current_tid := c_current_tid r;
     c_idle_tid := c_idle_tid r; c_timer_irqs := c_timer_irqs r;
     c_ctx_switches := c_ctx_switches r; c_need_resched := v; c_slice_left
     := c_slice_left r |}.
Definition c_set_slice_left (v : Z) (r : cpu_t) : cpu_t :=
  {| c_kstack_top := c_kstack_top r; c_cur_tf := c_cur_tf r; c_hartid :=
     c_hartid r; c_online := c_online r; c_current_tid := c_current_tid r;
     c_idle_tid := c_idle_tid r; c_timer_irqs := c_timer_irqs r;
     c_ctx_switches := c_ctx_switches r; c_need_resched := c_need_resched r;
     c_slice_left := v |}.

(** [irq_entry_t], [irq_stat_t] (platform.c). *)
Record irq_entry_t := mk_irq_entry {
  ie_handler : option irq_handler;
  ie_arg : Z
}.

Record irq_stat_t := mk_irq_stat {
  is_count : Z;
  is_last_tick : Z;
  is_first_tick : Z;
  is_max_delta : Z
}.


(** The globals of [thread.c], [runqueue.c], [cpu.c] and the stdin waiter of
    [console.c]. *)
Record core_state := mk_core {
  g_threads : gmap Z Thread;
  g_runqueues : gmap Z runqueue_t;
  g_cpus : gmap Z cpu_t;
  g_ticks : Z;
  g_boot_hartid : Z;
  g_smp_boot_done : Z;
  g_stdin_waiter : Z
}.

Definition g_set_threads (v : gmap Z Thread) (r : core_state) : core_state :=
  {| g_threads := v; g_runqueues := g_runqueues r; g_cpus := g_cpus r;
     g_ticks := g_ticks r; g_boot_hartid := g_boot_hartid r; g_smp_boot_done
     := g_smp_boot_done r; g_stdin_waiter := g_stdin_waiter r |}.
Definition g_set_runqueues (v : gmap Z runqueue_t) (r : core_state) : core_state :=
  {| g_threads := g_threads r; g_runqueues := v; g_cpus := g_cpus r; g_ticks
     := g_ticks r; g_boot_hartid := g_boot_hartid r; g_smp_boot_done :=
     g_smp_boot_done r; g_stdin_waiter := g_stdin_waiter r |}.
Definition g_set_cpus (v : gmap Z cpu_t) (r : core_state) : core_state :=
  {| g_threads := g_threads r; g_runqueues := g_runqueues r; g_cpus := v;
     g_ticks := g_ticks r; g_boot_hartid := g_boot_hartid r; g_smp_boot_done
     := g_smp_boot_done r; g_stdin_waiter := g_stdin_waiter r |}.
Definition g_set_ticks (v : Z) (r : core_state) : core_state :=
  {| g_threads := g_threads r; g_runqueues := g_runqueues r; g_cpus :=
     g_cpus r; g_ticks := v; g_boot_hartid := g_boot_hartid r;
     g_smp_boot_done := g_smp_boot_done r; g_stdin_waiter := g_stdin_waiter
     r |}.
Definition g_set_boot_hartid (v : Z) (r : core_state) : core_state :=
  {| g_threads := g_threads r; g_runqueues := g_runqueues r; g_cpus :=
     g_cpus r; g_ticks := g_ticks r; g_boot_hartid := v; g_smp_boot_done :=
     g_smp_boot_done r; g_stdin_waiter := g_stdin_waiter r |}.
Definition g_set_smp_boot_done (v : Z) (r : core_state) : core_state :=
  {| g_threads := g_threads r; g_runqueues := g_runqueues r; g_cpus :=
     g_cpus r; g_ticks := g_ticks r; g_boot_hartid := g_boot_hartid r;
     g_smp_boot_done := v; g_stdin_waiter := g_stdin_waiter r |}.
Definition g_set_stdin_waiter (v : Z) (r : core_state) : core_state :=
  {| g_threads := g_threads r; g_runqueues := g_runqueues r; g_cpus :=
     g_cpus r; g_ticks := g_ticks r; g_boot_hartid := g_boot_hartid r;
     g_smp_boot_done := g_smp_boot_done r; g_stdin_waiter := v |}.

(** The input ring of [console.c]. *)
Record console_state := mk_console {
  g_rx_buf : gmap Z Z;
  g_rx_head : Z;
  g_rx_tail : Z
}.

Definition g_set_rx_buf (v : gmap Z Z) (r : console_state) : console_state :=
  {| g_rx_buf := v; g_rx_head := g_rx_head r; g_rx_tail := g_rx_tail r |}.
Definition g_set_rx_head (v : Z) (r : console_state) : console_state :=
  {| g_rx_buf := g_rx_buf r; g_rx_head := v; g_rx_tail := g_rx_tail r |}.
Definition g_set_rx_tail (v : Z) (r : console_state) : console_state :=
  {| g_rx_buf := g_rx_buf r; g_rx_head := g_rx_head r; g_rx_tail := v |}.

(** The globals of [trap.c], [probe_illegal.c] and [time.c]. *)
Record trap_state := mk_trap_state {
  g_illegal_probe_enabled : Z;
  g_illegal_probe_hit : Z;
  g_wfi_probe_enabled : Z;
  g_wfi_probe_fired : Z;
  g_wfi_probe_pc : Z;
  g_bootstrap_tf : trapframe;
  g_probe_tf : trapframe;
  g_boot_real_ns : Z
}.

Definition g_set_illegal_probe_enabled (v : Z) (r : trap_state) : trap_state :=
  {| g_illegal_probe_enabled := v; g_illegal_probe_hit :=
     g_illegal_probe_hit r; g_wfi_probe_enabled := g_wfi_probe_enabled r;
     g_wfi_probe_fired := g_wfi_probe_fired r; g_wfi_probe_pc :=
     g_wfi_probe_pc r; g_bootstrap_tf := g_bootstrap_tf r; g_probe_tf :=
     g_probe_tf r; g_boot_real_ns := g_boot_real_ns r |}.
Definition g_set_illegal_probe_hit (v : Z) (r : trap_state) : trap_state :=
  {| g_illegal_probe_enabled := g_illegal_probe_enabled r;
     g_illegal_probe_hit := v; g_wfi_probe_enabled := g_wfi_probe_enabled r;
     g_wfi_probe_fired := g_wfi_probe_fired r; g_wfi_probe_pc :=
     g_wfi_probe_pc r; g_bootstrap_tf := g_bootstrap_tf r; g_probe_tf :=
     g_probe_tf r; g_boot_real_ns := g_boot_real_ns r |}.
Definition g_set_wfi_probe_enabled (v : Z) (r : trap_state) : trap_state :=
  {| g_illegal_probe_enabled := g_illegal_probe_enabled r;
     g_illegal_probe_hit := g_illegal_probe_hit r; g_wfi_probe_enabled := v;
     g_wfi_probe_fired := g_wfi_probe_fired r; g_wfi_probe_pc :=
     g_wfi_probe_pc r; g_bootstrap_tf := g_bootstrap_tf r; g_probe_tf :=
     g_probe_tf r; g_boot_real_ns := g_boot_real_ns r |}.
Definition g_set_wfi_probe_fired (v : Z) (r : trap_state) : trap_state :=
  {| g_illegal_probe_enabled := g_illegal_probe_enabled r;
     g_illegal_probe_hit := g_illegal_probe_hit r; g_wfi_probe_enabled :=
     g_wfi_probe_enabled r; g_wfi_probe_fired := v; g_wfi_probe_pc :=
     g_wfi_probe_pc r; g_bootstrap_tf := g_bootstrap_tf r; g_probe_tf :=
     g_probe_tf r; g_boot_real_ns := g_boot_real_ns r |}.
Definition g_set_wfi_probe_pc (v : Z) (r : trap_state) : trap_state :=
  {| g_illegal_probe_enabled := g_illegal_probe_enabled r;
     g_illegal_probe_hit := g_illegal_probe_hit r; g_wfi_probe_enabled :=
     g_wfi_probe_enabled r; g_wfi_probe_fired := g_wfi_probe_fired r;
     g_wfi_probe_pc := v; g_bootstrap_tf := g_bootstrap_tf r; g_probe_tf :=
     g_probe_tf r; g_boot_real_ns := g_boot_real_ns r |}.
Definition g_set_bootstrap_tf (v : trapframe) (r : trap_state) : trap_state :=
  {| g_illegal_probe_enabled := g_illegal_probe_enabled r;
     g_illegal_probe_hit := g_illegal_probe_hit r; g_wfi_probe_enabled :=
     g_wfi_probe_enabled r; g_wfi_probe_fired := g_wfi_probe_fired r;
     g_wfi_probe_pc := g_wfi_probe_pc r; g_bootstrap_tf := v; g_probe_tf :=
     g_probe_tf r; g_boot_real_ns := g_boot_real_ns r |}.
Definition g_set_probe_tf (v : trapframe) (r : trap_state) : trap_state :=
  {| g_illegal_probe_enabled := g_illegal_probe_enabled r;
     g_illegal_probe_hit := g_illegal_probe_hit r; g_wfi_probe_enabled :=
     g_wfi_probe_enabled r; g_wfi_probe_fired := g_wfi_probe_fired r;
     g_wfi_probe_pc := g_wfi_probe_pc r; g_bootstrap_tf := g_bootstrap_tf r;
     g_probe_tf := v; g_boot_real_ns := g_boot_real_ns r |}.
Definition g_set_boot_real_ns (v : Z) (r : trap_state) : trap_state :=
  {| g_illegal_probe_enabled := g_illegal_probe_enabled r;
     g_illegal_probe_hit := g_illegal_probe_hit r; g_wfi_probe_enabled :=
     g_wfi_probe_enabled r; g_wfi_probe_fired := g_wfi_probe_fired r;
     g_wfi_probe_pc := g_wfi_probe_pc r; g_bootstrap_tf := g_bootstrap_tf r;
     g_probe_tf := g_probe_tf r; g_boot_real_ns := v |}.

(** The globals of [platform.c], [plic.c] and [uart_16550.c]. *)
Record platform_state := mk_platform {
  p_g_dtb : Z;
  p_timebase_hz : Z;
  p_fallback_logged : Z;
  p_irq_table : gmap Z irq_entry_t;
  p_irq_stats : gmap Z irq_stat_t;
  p_irq_name : gmap Z (option string);
  p_plic_base : Z;
  p_plic_num_sources : Z;
  p_uart_base : Z;
  p_uart_irq : Z;
  p_uart_reg_shift : Z;
  p_uart_reg_io_width : Z;
  p_uart_reg_offset : Z
}.

Definition p_set_g_dtb (v : Z) (r : platform_state) : platform_state :=
  {| p_g_dtb := v; p_timebase_hz := p_timebase_hz r; p_fallback_logged :=
     p_fallback_logged r; p_irq_table := p_irq_table r; p_irq_stats :=
     p_irq_stats r; p_irq_name := p_irq_name r; p_plic_base := p_plic_base
     r; p_plic_num_sources := p_plic_num_sources r; p_uart_base :=
     p_uart_base r; p_uart_irq := p_uart_irq r; p_uart_reg_shift :=
     p_uart_reg_shift r; p_uart_reg_io_width := p_uart_reg_io_width r;
     p_uart_reg_offset := p_uart_reg_offset r |}.
Definition p_set_timebase_hz (v : Z) (r : platform_state) : platform_state :=
  {| p_g_dtb := p_g_dtb r; p_timebase_hz := v; p_fallback_logged :=
     p_fallback_logged r; p_irq_table := p_irq_table r; p_irq_stats :=
     p_irq_stats r; p_irq_name := p_irq_name r; p_plic_base := p_plic_base
     r; p_plic_num_sources := p_plic_num_sources r; p_uart_base :=
     p_uart_base r; p_uart_irq := p_uart_irq r; p_uart_reg_shift :=
     p_uart_reg_shift r; p_uart_reg_io_width := p_uart_reg_io_width r;
     p_uart_reg_offset := p_uart_reg_offset r |}.
Definition p_set_fallback_logged (v : Z) (r : platform_state) : platform_state :=
  {| p_g_dtb := p_g_dtb r; p_timebase_hz := p_timebase_hz r;
     p_fallback_logged := v; p_irq_table := p_irq_table r; p_irq_stats :=
     p_irq_stats r; p_irq_name := p_irq_name r; p_plic_base := p_plic_base
     r; p_plic_num_sources := p_plic_num_sources r; p_uart_base :=
     p_uart_base r; p_uart_irq := p_uart_irq r; p_uart_reg_shift :=
     p_uart_reg_shift r; p_uart_reg_io_width := p_uart_reg_io_width r;
     p_uart_reg_offset := p_uart_reg_offset r |}.
Definition p_set_irq_table (v : gmap Z irq_entry_t) (r : platform_state) : platform_state :=
  {| p_g_dtb := p_g_dtb r; p_timebase_hz := p_timebase_hz r;
     p_fallback_logged := p_fallback_logged r; p_irq_table := v; p_irq_stats
     := p_irq_stats r; p_irq_name := p_irq_name r; p_plic_base :=
     p_plic_base r; p_plic_num_sources := p_plic_num_sources r; p_uart_base
     := p_uart_base r; p_uart_irq := p_uart_irq r; p_uart_reg_shift :=
     p_uart_reg_shift r; p_uart_reg_io_width := p_uart_reg_io_width r;
     p_uart_reg_offset := p_uart_reg_offset r |}.
Definition p_set_irq_stats (v : gmap Z irq_stat_t) (r : platform_state) : platform_state :=
  {| p_g_dtb := p_g_dtb r; p_timebase_hz := p_timebase_hz r;
     p_fallback_logged := p_fallback_logged r; p_irq_table := p_irq_table r;
     p_irq_stats := v; p_irq_name := p_irq_name r; p_plic_base :=
     p_plic_base r; p_plic_num_sources := p_plic_num_sources r; p_uart_base
     := p_uart_base r; p_uart_irq := p_uart_irq r; p_uart_reg_shift :=
     p_uart_reg_shift r; p_uart_reg_io_width := p_uart_reg_io_width r;
     p_uart_reg_offset := p_uart_reg_offset r |}.
Definition p_set_irq_name (v : gmap Z (option string)) (r : platform_state) : platform_state :=
  {| p_g_dtb := p_g_dtb r; p_timebase_hz := p_timebase_hz r;
     p_fallback_logged := p_fallback_logged r; p_irq_table := p_irq_table r;
     p_irq_stats := p_irq_stats r; p_irq_name := v; p_plic_base :=
     p_plic_base r; p_plic_num_sources := p_plic_num_sources r; p_uart_base
     := p_uart_base r; p_uart_irq := p_uart_irq r; p_uart_reg_shift :=
     p_uart_reg_shift r; p_uart_reg_io_width := p_uart_reg_io_width r;
     p_uart_reg_offset := p_uart_reg_offset r |}.
Definition p_set_plic_base (v : Z) (r : platform_state) : platform_state :=
  {| p_g_dtb := p_g_dtb r; p_timebase_hz := p_timebase_hz r;
     p_fallback_logged := p_fallback_logged r; p_irq_table := p_irq_table r;
     p_irq_stats := p_irq_stats r; p_irq_name := p_irq_name r; p_plic_base
     := v; p_plic_num_sources := p_plic_num_sources r; p_uart_base :=
     p_uart_base r; p_uart_irq := p_uart_irq r; p_uart_reg_shift :=
     p_uart_reg_shift r; p_uart_reg_io_width := p_uart_reg_io_width r;
     p_uart_reg_offset := p_uart_reg_offset r |}.
Definition p_set_plic_num_sources (v : Z) (r : platform_state) : platform_state :=
  {| p_g_dtb := p_g_dtb r; p_timebase_hz := p_timebase_hz r;
     p_fallback_logged := p_fallback_logged r; p_irq_table := p_irq_table r;
     p_irq_stats := p_irq_stats r; p_irq_name := p_irq_name r; p_plic_base
     := p_plic_base r; p_plic_num_sources := v; p_uart_base := p_uart_base
     r; p_uart_irq := p_uart_irq r; p_uart_reg_shift := p_uart_reg_shift r;
     p_uart_reg_io_width := p_uart_reg_io_width r; p_uart_reg_offset :=
     p_uart_reg_offset r |}.
Definition p_set_uart_base (v : Z) (r : platform_state) : platform_state :=
  {| p_g_dtb := p_g_dtb r; p_timebase_hz := p_timebase_hz r;
     p_fallback_logged := p_fallback_logged r; p_irq_table := p_irq_table r;
     p_irq_stats := p_irq_stats r; p_irq_name := p_irq_name r; p_plic_base
     := p_plic_base r; p_plic_num_sources := p_plic_num_sources r;
     p_uart_base := v; p_uart_irq := p_uart_irq r; p_uart_reg_shift :=
     p_uart_reg_shift r; p_uart_reg_io_width := p_uart_reg_io_width r;
     p_uart_reg_offset := p_uart_reg_offset r |}.
Definition p_set_uart_irq (v : Z) (r : platform_state) : platform_state :=
  {| p_g_dtb := p_g_dtb r; p_timebase_hz := p_timebase_hz r;
     p_fallback_logged := p_fallback_logged r; p_irq_table := p_irq_table r;
     p_irq_stats := p_irq_stats r; p_irq_name := p_irq_name r; p_plic_base
     := p_plic_base r; p_plic_num_sources := p_plic_num_sources r;
     p_uart_base := p_uart_base r; p_uart_irq := v; p_uart_reg_shift :=
     p_uart_reg_shift r; p_uart_reg_io_width := p_uart_reg_io_width r;
     p_uart_reg_offset := p_uart_reg_offset r |}.
Definition p_set_uart_reg_shift (v : Z) (r : platform_state) : platform_state :=
  {| p_g_dtb := p_g_dtb r; p_timebase_hz := p_timebase_hz r;
     p_fallback_logged := p_fallback_logged r; p_irq_table := p_irq_table r;
     p_irq_stats := p_irq_stats r; p_irq_name := p_irq_name r; p_plic_base
     := p_plic_base r; p_plic_num_sources := p_plic_num_sources r;
     p_uart_base := p_uart_base r; p_uart_irq := p_uart_irq r;
     p_uart_reg_shift := v; p_uart_reg_io_width := p_uart_reg_io_width r;
     p_uart_reg_offset := p_uart_reg_offset r |}.
Definition p_set_uart_reg_io_width (v : Z) (r : platform_state) : platform_state :=
  {| p_g_dtb := p_g_dtb r; p_timebase_hz := p_timebase_hz r;
     p_fallback_logged := p_fallback_logged r; p_irq_table := p_irq_table r;
     p_irq_stats := p_irq_stats r; p_irq_name := p_irq_name r; p_plic_base
     := p_plic_base r; p_plic_num_sources := p_plic_num_sources r;
     p_uart_base := p_uart_base r; p_uart_irq := p_uart_irq r;
     p_uart_reg_shift := p_uart_reg_shift r; p_uart_reg_io_width := v;
     p_uart_reg_offset := p_uart_reg_offset r |}.
Definition p_set_uart_reg_offset (v : Z) (r : platform_state) : platform_state :=
  {| p_g_dtb := p_g_dtb r; p_timebase_hz := p_timebase_hz r;
     p_fallback_logged := p_fallback_logged r; p_irq_table := p_irq_table r;
     p_irq_stats := p_irq_stats r; p_irq_name := p_irq_name r; p_plic_base
     := p_plic_base r; p_plic_num_sources := p_plic_num_sources r;
     p_uart_base := p_uart_base r; p_uart_irq := p_uart_irq r;
     p_uart_reg_shift := p_uart_reg_shift r; p_uart_reg_io_width :=
     p_uart_reg_io_width r; p_uart_reg_offset := v |}.

(** The whole state: kernel globals, user memory, the messages handed to the
    log, the big kernel lock, the hart executing ([tp] points to its
    [cpu_t]) and the hardware. *)
Section kstate.
Context {hws : Hardware}.

Record kstate := mk_kstate {
  k_core : core_state;
  k_con : console_state;
  k_trp : trap_state;
  k_plat : platform_state;
  k_umem : mem;
  k_klog : list (Z * string);
  k_kernel_lock : Z;
  k_tp : Z;
  k_hw : dev
}.

Definition k_set_core (v : core_state) (r : kstate) : kstate :=
  {| k_core := v; k_con := k_con r; k_trp := k_trp r; k_plat := k_plat r;
     k_umem := k_umem r; k_klog := k_klog r; k_kernel_lock := k_kernel_lock
     r; k_tp := k_tp r; k_hw := k_hw r |}.
Definition k_set_con (v : console_state) (r : kstate) : kstate :=
  {| k_core := k_core r; k_con := v; k_trp := k_trp r; k_plat := k_plat r;
     k_umem := k_umem r; k_klog := k_klog r; k_kernel_lock := k_kernel_lock
     r; k_tp := k_tp r; k_hw := k_hw r |}.
Definition k_set_trp (v : trap_state) (r : kstate) : kstate :=
  {| k_core := k_core r; k_con := k_con r; k_trp := v; k_plat := k_plat r;
     k_umem := k_umem r; k_klog := k_klog r; k_kernel_lock := k_kernel_lock
     r; k_tp := k_tp r; k_hw := k_hw r |}.
Definition k_set_plat (v : platform_state) (r : kstate) : kstate :=
  {| k_core := k_core r; k_con := k_con r; k_trp := k_trp r; k_plat := v;
     k_umem := k_umem r; k_klog := k_klog r; k_kernel_lock := k_kernel_lock
     r; k_tp := k_tp r; k_hw := k_hw r |}.
Definition k_set_umem (v : mem) (r : kstate) : kstate :=
  {| k_core := k_core r; k_con := k_con r; k_trp := k_trp r; k_plat :=
     k_plat r; k_umem := v; k_klog := k_klog r; k_kernel_lock :=
     k_kernel_lock r; k_tp := k_tp r; k_hw := k_hw r |}.
Definition k_set_klog (v : list (Z * string)) (r : kstate) : kstate :=
  {| k_core := k_core r; k_con := k_con r; k_trp := k_trp r; k_plat :=
     k_plat r; k_umem := k_umem r; k_klog := v; k_kernel_lock :=
     k_kernel_lock r; k_tp := k_tp r; k_hw := k_hw r |}.
Definition k_set_kernel_lock (v : Z) (r : kstate) : kstate :=
  {| k_core := k_core r; k_con := k_con r; k_trp := k_trp r; k_plat :=
     k_plat r; k_umem := k_umem r; k_klog := k_klog r; k_kernel_lock := v;
     k_tp := k_tp r; k_hw := k_hw r |}.
Definition k_set_tp (v : Z) (r : kstate) : kstate :=
  {| k_core := k_core r; k_con := k_con r; k_trp := k_trp r; k_plat :=
     k_plat r; k_umem := k_umem r; k_klog := k_klog r; k_kernel_lock :=
     k_kernel_lock r; k_tp := v; k_hw := k_hw r |}.
Definition k_set_hw (v : dev) (r : kstate) : kstate :=
  {| k_core := k_core r; k_con := k_con r; k_trp := k_trp r; k_plat :=
     k_plat r; k_umem := k_umem r; k_klog := k_klog r; k_kernel_lock :=
     k_kernel_lock r; k_tp := k_tp r; k_hw := v |}.
End kstate.
