(* ===== verification/Kernel.v ===== *)
(** * The kernel monad over [kstate]: access to the shared tables, the current
    hart, user memory and the hardware *)
From stdpp Require Import base numbers list gmap strings.
From Stdlib Require Import ZArith Lia.
From S2P Require Import Prelude Mem Machine State.

Local Open Scope Z_scope.

Section access.
Context {cfg : Config} {hws : Hardware}.

(** ** Views of the tables, and their updates *)

Definition thr (s : kstate) (i : Z) : option Thread := g_threads (k_core s) !! i.
Definition cpu (s : kstate) (h : Z) : option cpu_t := g_cpus (k_core s) !! h.
Definition rqs (s : kstate) (h : Z) : option runqueue_t := g_runqueues (k_core s) !! h.

Definition with_thread (i : Z) (t : Thread) (s : kstate) : kstate :=
  k_set_core (g_set_threads (<[i := t]> (g_threads (k_core s))) (k_core s)) s.
Definition with_cpu (h : Z) (c : cpu_t) (s : kstate) : kstate :=
  k_set_core (g_set_cpus (<[h := c]> (g_cpus (k_core s))) (k_core s)) s.
Definition with_rq (h : Z) (r : runqueue_t) (s : kstate) : kstate :=
  k_set_core (g_set_runqueues (<[h := r]> (g_runqueues (k_core s))) (k_core s)) s.

(** ** Array accesses: undefined out of range *)

Definition get_thread (i : Z) : M kstate Thread :=
  fun s => match thr s i with Some t => Ret (t, s) | None => Undef end.
Definition upd_thread (i : Z) (f : Thread -> Thread) : M kstate unit :=
  fun s => match thr s i with
           | Some t => Ret (tt, with_thread i (f t) s)
           | None => Undef
           end.
Definition get_cpu (h : Z) : M kstate cpu_t :=
  fun s => match cpu s h with Some c => Ret (c, s) | None => Undef end.
Definition upd_cpu (h : Z) (f : cpu_t -> cpu_t) : M kstate unit :=
  fun s => match cpu s h with
           | Some c => Ret (tt, with_cpu h (f c) s)
           | None => Undef
           end.
Definition get_rq (h : Z) : M kstate runqueue_t :=
  fun s => match rqs s h with Some r => Ret (r, s) | None => Undef end.
Definition upd_rq (h : Z) (f : runqueue_t -> runqueue_t) : M kstate unit :=
  fun s => match rqs s h with
           | Some r => Ret (tt, with_rq h (f r) s)
           | None => Undef
           end.

(** ** Scalars *)

Definition core {A} (f : core_state -> A) : M kstate A := gets (fun s => f (k_core s)).
Definition upd_core (f : core_state -> core_state) : M kstate unit :=
  modify (fun s => k_set_core (f (k_core s)) s).
Definition upd_con (f : console_state -> console_state) : M kstate unit :=
  modify (fun s => k_set_con (f (k_con s)) s).
Definition upd_trp (f : trap_state -> trap_state) : M kstate unit :=
  modify (fun s => k_set_trp (f (k_trp s)) s).
Definition upd_plat (f : platform_state -> platform_state) : M kstate unit :=
  modify (fun s => k_set_plat (f (k_plat s)) s).
Definition upd_umem (f : mem -> mem) : M kstate unit :=
  modify (fun s => k_set_umem (f (k_umem s)) s).

(** [cpu_this()]: the [cpu_t] that [tp] points to. *)
Definition cpu_this : M kstate cpu_t := h <- gets k_tp ;; get_cpu h.
Definition upd_cpu_this (f : cpu_t -> cpu_t) : M kstate unit :=
  h <- gets k_tp ;; upd_cpu h f.
(** [cpu_current_hartid()] *)
Definition cpu_current_hartid : M kstate Z := c <- cpu_this ;; ret (c_hartid c).
(** [cpu_kstack_top(hartid)] *)
Definition cpu_kstack_top (hartid : Z) : Z := addr_g_kstack + (hartid + 1) * KSTACK_SIZE.

(** ** Hardware *)

Definition on_hw {A} (f : dev -> A * dev) : M kstate A :=
  fun s => let '(a, d) := f (k_hw s) in Ret (a, k_set_hw d s).
Definition csr_read (c : csr) : M kstate Z :=
  h <- gets k_tp ;; on_hw (csr_load h c).
Definition csr_upd (c : csr) (op : csr_op) (v : Z) : M kstate unit :=
  h <- gets k_tp ;; on_hw (fun d => (tt, csr_update h c op v d)).
(** [sbi_call(eid, fid, args)]: (error, value) *)
Definition sbi_call (eid fid : Z) (args : list Z) : M kstate (Z * Z) :=
  h <- gets k_tp ;; on_hw (sbi_ecall h eid fid args).

(** [*(volatile uintN_t * )a] on a device register of [w] bytes. *)
Definition mmio_r (w a : Z) : M kstate Z := on_hw (mmio_load w a).
Definition mmio_w (w a v : Z) : M kstate unit := on_hw (fun d => (tt, mmio_store w a v d)).

Definition plat {A} (f : platform_state -> A) : M kstate A := gets (fun s => f (k_plat s)).

(** [pr_err], [pr_warn], [pr_info], [pr_debug]: the message given to the log
    (its formatting and output are the subject of [Log.v]). *)
Definition pr (level : Z) (msg : string) : M kstate unit :=
  modify (fun s => k_set_klog (k_klog s ++ [(level, msg)]) s).
Definition pr_err := pr 1.
Definition pr_warn := pr 2.
Definition pr_info := pr 3.
Definition pr_debug := pr 4.

(** [PANICF]: log an error and halt; [ASSERT]: nothing in a release build. *)
Definition PANICF {A} (msg : string) : M kstate A := pr_err msg ;; panic_halt.
Definition ASSERT (cond : bool) (msg : string) : M kstate unit :=
  if cond then ret tt else if NDEBUG then ret tt else PANICF msg.

(** [*tf] and [*tf = f] *)
Definition get_tf (p : tf_ptr) : M kstate trapframe :=
  match p with
  | TF_null => undefined
  | TF_thread i => t <- get_thread i ;; ret (t_tf t)
  | TF_bootstrap => gets (fun s => g_bootstrap_tf (k_trp s))
  | TF_probe => gets (fun s => g_probe_tf (k_trp s))
  end.
Definition upd_tf (p : tf_ptr) (f : trapframe -> trapframe) : M kstate unit :=
  match p with
  | TF_null => undefined
  | TF_thread i => upd_thread i (fun t => t_set_tf (f (t_tf t)) t)
  | TF_bootstrap => upd_trp (fun r => g_set_bootstrap_tf (f (g_bootstrap_tf r)) r)
  | TF_probe => upd_trp (fun r => g_set_probe_tf (f (g_probe_tf r)) r)
  end.
(** [tf->a0 = v] for an [int] or [long] value [v]. *)
Definition set_a0 (p : tf_ptr) (v : Z) : M kstate unit := upd_tf p (f_set_a0 (u64 v)).

End access.

(** ** Rules *)

Section access_rules.
Context {cfg : Config} {hws : Hardware}.

Lemma thr_with_thread i t s j :
  thr (with_thread i t s) j = if decide (i = j) then Some t else thr s j.
Proof. unfold thr, with_thread. simpl. by rewrite lookup_insert. Qed.
Lemma thr_with_thread_eq i t s : thr (with_thread i t s) i = Some t.
Proof. rewrite thr_with_thread. by rewrite decide_True. Qed.
Lemma thr_with_thread_ne i t s j : i <> j -> thr (with_thread i t s) j = thr s j.
Proof. intros. rewrite thr_with_thread. by rewrite decide_False. Qed.
Lemma thr_with_cpu h c s j : thr (with_cpu h c s) j = thr s j.
Proof. done. Qed.
Lemma thr_with_rq h r s j : thr (with_rq h r s) j = thr s j.
Proof. done. Qed.
Lemma cpu_with_thread i t s h : cpu (with_thread i t s) h = cpu s h.
Proof. done. Qed.
Lemma cpu_with_cpu h c s j :
  cpu (with_cpu h c s) j = if decide (h = j) then Some c else cpu s j.
Proof. unfold cpu, with_cpu. simpl. by rewrite lookup_insert. Qed.
Lemma cpu_with_cpu_eq h c s : cpu (with_cpu h c s) h = Some c.
Proof. rewrite cpu_with_cpu. by rewrite decide_True. Qed.
Lemma cpu_with_rq h r s j : cpu (with_rq h r s) j = cpu s j.
Proof. done. Qed.
Lemma rqs_with_thread i t s h : rqs (with_thread i t s) h = rqs s h.
Proof. done. Qed.
Lemma rqs_with_cpu h c s j : rqs (with_cpu h c s) j = rqs s j.
Proof. done. Qed.
Lemma rqs_with_rq h r s j :
  rqs (with_rq h r s) j = if decide (h = j) then Some r else rqs s j.
Proof. unfold rqs, with_rq. simpl. by rewrite lookup_insert. Qed.

Lemma with_thread_twice i t t' s :
  with_thread i t (with_thread i t' s) = with_thread i t s.
Proof.
  unfold with_thread, k_set_core, g_set_threads. simpl. by rewrite insert_insert_eq.
Qed.
Lemma with_cpu_twice h c c' s : with_cpu h c (with_cpu h c' s) = with_cpu h c s.
Proof. unfold with_cpu, k_set_core, g_set_cpus. simpl. by rewrite insert_insert_eq. Qed.
Lemma with_cpu_thread h c i t s :
  with_cpu h c (with_thread i t s) = with_thread i t (with_cpu h c s).
Proof. done. Qed.

Lemma wp_get_thread i t (Q : Thread -> kstate -> Prop) s :
  thr s i = Some t -> Q t s -> wp (get_thread i) Q s.
Proof. unfold wp, get_thread. by intros ->. Qed.
Lemma wp_upd_thread i f t (Q : unit -> kstate -> Prop) s :
  thr s i = Some t -> Q tt (with_thread i (f t) s) -> wp (upd_thread i f) Q s.
Proof. unfold wp, upd_thread. by intros ->. Qed.
Lemma wp_get_cpu h c (Q : cpu_t -> kstate -> Prop) s :
  cpu s h = Some c -> Q c s -> wp (get_cpu h) Q s.
Proof. unfold wp, get_cpu. by intros ->. Qed.
Lemma wp_upd_cpu h f c (Q : unit -> kstate -> Prop) s :
  cpu s h = Some c -> Q tt (with_cpu h (f c) s) -> wp (upd_cpu h f) Q s.
Proof. unfold wp, upd_cpu. by intros ->. Qed.
Lemma wp_get_rq h r (Q : runqueue_t -> kstate -> Prop) s :
  rqs s h = Some r -> Q r s -> wp (get_rq h) Q s.
Proof. unfold wp, get_rq. by intros ->. Qed.
Lemma wp_upd_rq h f r (Q : unit -> kstate -> Prop) s :
  rqs s h = Some r -> Q tt (with_rq h (f r) s) -> wp (upd_rq h f) Q s.
Proof. unfold wp, upd_rq. by intros ->. Qed.
Lemma wp_cpu_this c (Q : cpu_t -> kstate -> Prop) s :
  cpu s (k_tp s) = Some c -> Q c s -> wp cpu_this Q s.
Proof. unfold wp, cpu_this, bind, gets, get_cpu. by intros ->. Qed.
Lemma wp_upd_cpu_this f c (Q : unit -> kstate -> Prop) s :
  cpu s (k_tp s) = Some c -> Q tt (with_cpu (k_tp s) (f c) s) -> wp (upd_cpu_this f) Q s.
Proof. unfold wp, upd_cpu_this, bind, gets, upd_cpu. by intros ->. Qed.
Lemma wp_current_hartid c (Q : Z -> kstate -> Prop) s :
  cpu s (k_tp s) = Some c -> Q (c_hartid c) s -> wp cpu_current_hartid Q s.
Proof. unfold wp, cpu_current_hartid, cpu_this, bind, gets, get_cpu. by intros ->. Qed.
Lemma wp_core {A} (f : core_state -> A) Q s :
  Q (f (k_core s)) s -> wp (core f) Q s.
Proof. done. Qed.
Lemma wp_upd_core f (Q : unit -> kstate -> Prop) s :
  Q tt (k_set_core (f (k_core s)) s) -> wp (upd_core f) Q s.
Proof. done. Qed.
Lemma wp_pr l m (Q : unit -> kstate -> Prop) s :
  Q tt (k_set_klog (k_klog s ++ [(l, m)]) s) -> wp (pr l m) Q s.
Proof. done. Qed.
Lemma wp_on_hw {A} (f : dev -> A * dev) (Q : A -> kstate -> Prop) s :
  (forall a d, Q a (k_set_hw d s)) -> wp (on_hw f) Q s.
Proof. intros H. unfold wp, on_hw. by destruct (f (k_hw s)). Qed.
Lemma wp_sbi_call e f a (Q : Z * Z -> kstate -> Prop) s :
  (forall r d, Q r (k_set_hw d s)) -> wp (sbi_call e f a) Q s.
Proof. intros H. apply wp_bind, wp_gets, wp_on_hw. auto. Qed.
Lemma wp_csr_read c (Q : Z -> kstate -> Prop) s :
  (forall v d, Q v (k_set_hw d s)) -> wp (csr_read c) Q s.
Proof. intros H. apply wp_bind, wp_gets, wp_on_hw. auto. Qed.
Lemma wp_csr_upd c op v (Q : unit -> kstate -> Prop) s :
  (forall d, Q tt (k_set_hw d s)) -> wp (csr_upd c op v) Q s.
Proof. intros H. apply wp_bind, wp_gets, wp_on_hw. intros [] d. auto. Qed.
Lemma wp_ASSERT b m (Q : unit -> kstate -> Prop) s :
  b = true -> Q tt s -> wp (ASSERT b m) Q s.
Proof. unfold ASSERT. by intros ->. Qed.

Lemma wlp_ASSERT b m (Q : unit -> kstate -> Prop) s :
  Q tt s -> wlp (ASSERT b m) Q s.
Proof. unfold ASSERT. by destruct b, NDEBUG. Qed.

(** States are equal when their parts are. *)
Lemma kstate_ext s s' :
  k_core s = k_core s' -> k_con s = k_con s' -> k_trp s = k_trp s' -> k_plat s = k_plat s' ->
  k_umem s = k_umem s' -> k_klog s = k_klog s' -> k_kernel_lock s = k_kernel_lock s' ->
  k_tp s = k_tp s' -> k_hw s = k_hw s' -> s = s'.
Proof. destruct s, s'. cbn. congruence. Qed.
Lemma core_ext (r r' : core_state) :
  g_threads r = g_threads r' -> g_runqueues r = g_runqueues r' -> g_cpus r = g_cpus r' ->
  g_ticks r = g_ticks r' -> g_boot_hartid r = g_boot_hartid r' ->
  g_smp_boot_done r = g_smp_boot_done r' -> g_stdin_waiter r = g_stdin_waiter r' -> r = r'.
Proof. destruct r, r'. cbn. congruence. Qed.
Lemma with_cpu_same h c s : cpu s h = Some c -> with_cpu h c s = s.
Proof. intros H. apply kstate_ext; try done. apply core_ext; try done. cbn. by apply insert_id. Qed.

End access_rules.

Create Rewrite HintDb kst.
#[export] Hint Rewrite @thr_with_thread_eq @thr_with_cpu @thr_with_rq
  @cpu_with_thread @cpu_with_cpu_eq @cpu_with_rq @rqs_with_thread @rqs_with_cpu : kst.

(** Look a table entry up through the updates made so far. *)
Ltac kst_solve := solve [ assumption | lia | congruence | (simpl; lia) | (simpl; congruence) ].

Ltac kst_look :=
  repeat (first
    [ rewrite thr_with_thread_eq | rewrite thr_with_cpu | rewrite thr_with_rq
    | rewrite cpu_with_thread | rewrite cpu_with_cpu_eq | rewrite cpu_with_rq
    | rewrite rqs_with_thread | rewrite rqs_with_cpu
    | rewrite rqs_with_rq, decide_True by done
    | rewrite rqs_with_rq, decide_False by kst_solve
    | rewrite cpu_with_cpu, decide_False by kst_solve
    | rewrite thr_with_thread_ne by kst_solve ]);
  (eassumption || reflexivity).

(** One step of symbolic execution under [wp]. *)
Ltac wp_step :=
  lazymatch goal with
  | |- wp (ret _) _ _ => apply wp_ret
  | |- wp (bind _ _) _ _ => apply wp_bind
  | |- wp (gets _) _ _ => apply wp_gets
  | |- wp (modify _) _ _ => apply wp_modify
  | |- wp (core _) _ _ => apply wp_core
  | |- wp (upd_core _) _ _ => apply wp_upd_core
  | |- wp (get_thread _) _ _ => eapply wp_get_thread; [kst_look|]
  | |- wp (upd_thread _ _) _ _ => eapply wp_upd_thread; [kst_look|]
  | |- wp (get_cpu _) _ _ => eapply wp_get_cpu; [kst_look|]
  | |- wp (upd_cpu _ _) _ _ => eapply wp_upd_cpu; [kst_look|]
  | |- wp (get_rq _) _ _ => eapply wp_get_rq; [kst_look|]
  | |- wp (upd_rq _ _) _ _ => eapply wp_upd_rq; [kst_look|]
  | |- wp cpu_this _ _ => eapply wp_cpu_this; [kst_look|]
  | |- wp (upd_cpu_this _) _ _ => eapply wp_upd_cpu_this; [kst_look|]
  | |- wp cpu_current_hartid _ _ => eapply wp_current_hartid; [kst_look|]
  | |- wp (sbi_call _ _ _) _ _ => apply wp_sbi_call; intros ? ?
  | |- wp (csr_read _) _ _ => apply wp_csr_read; intros ? ?
  | |- wp (csr_upd _ _ _) _ _ => apply wp_csr_upd; intros ?
  | |- wp (when _ _) _ _ => unfold when
  end; cbn beta.
Ltac wp_steps := repeat wp_step.
