(* ===== verification/RunQueue.v ===== *)
(** * Per-hart run queues ([kernel/runqueue.c])

    Each hart has a FIFO of runnable threads, singly linked through the
    [rq_next] field of the threads, with head, tail and length kept in
    [g_runqueues].  The first part is the code; the second relates it to an
    abstract family of lists, one per hart. *)
From stdpp Require Import base numbers list gmap strings.
From Stdlib Require Import ZArith Lia.
From S2P Require Import Prelude Mem Machine State Kernel.

Local Open Scope Z_scope.

(** Enough for every walk over a list of distinct threads (and a longer walk
    is on a cyclic list, which the code would follow for ever). *)
Definition RQ_FUEL : nat := Z.to_nat THREAD_MAX + 1.

Section runqueue.
Context {cfg : Config} {hws : Hardware}.

Definition rq_init (hartid : Z) : M kstate unit :=
  if MAX_HARTS <=? hartid then ret tt else
  upd_rq hartid (fun r => r_set_head (-1) r) ;;
  upd_rq hartid (fun r => r_set_tail (-1) r) ;;
  upd_rq hartid (fun r => r_set_len 0 r).

Definition rq_init_all : M kstate unit :=
  for_z (Z.to_nat MAX_HARTS) 0 rq_init.

Definition rq_push_tail (hartid tid : Z) : M kstate unit :=
  if MAX_HARTS <=? hartid then ret tt else
  if (tid <? 0) || (THREAD_MAX <=? tid) then ret tt else
  if tid <? MAX_HARTS then ret tt else
  r <- get_rq hartid ;;
  t <- get_thread tid ;;
  (if z2b (t_on_rq t) then PANICF "rq_push_tail: tid=%d already on rq" else ret tt) ;;
  upd_thread tid (t_set_rq_next (-1)) ;;
  (if r_tail r =? -1
   then upd_rq hartid (fun r => r_set_head tid (r_set_tail tid r))
   else upd_thread (r_tail r) (t_set_rq_next tid) ;;
        upd_rq hartid (r_set_tail tid)) ;;
  upd_thread tid (t_set_on_rq 1) ;;
  upd_rq hartid (fun r => r_set_len (u32 (r_len r + 1)) r).

(** [if (r->len > 0) r->len--] *)
Definition rq_len_dec (hartid : Z) : M kstate unit :=
  upd_rq hartid (fun r => if 0 <? r_len r then r_set_len (r_len r - 1) r else r).

Definition rq_pop_head (hartid : Z) : M kstate Z :=
  if MAX_HARTS <=? hartid then ret (-1) else
  r <- get_rq hartid ;;
  let tid := r_head r in
  if tid <? 0 then ret (-1) else
  t <- get_thread tid ;;
  let nxt := t_rq_next t in
  upd_rq hartid (r_set_head nxt) ;;
  (if nxt <? 0 then upd_rq hartid (r_set_tail (-1)) else ret tt) ;;
  upd_thread tid (t_set_rq_next (-1)) ;;
  upd_thread tid (t_set_on_rq 0) ;;
  rq_len_dec hartid ;;
  ret tid.

Definition rq_len (hartid : Z) : M kstate Z :=
  if MAX_HARTS <=? hartid then ret 0 else
  r <- get_rq hartid ;; ret (r_len r).

(** The body of the match in [rq_remove]: unlink [cur], found after [prev]. *)
Definition rq_unlink (hartid prev cur : Z) : M kstate Z :=
  t <- get_thread cur ;;
  let nxt := t_rq_next t in
  (if prev <? 0 then upd_rq hartid (r_set_head nxt)
   else upd_thread prev (t_set_rq_next nxt)) ;;
  r <- get_rq hartid ;;
  (if r_tail r =? cur then upd_rq hartid (r_set_tail prev) else ret tt) ;;
  upd_thread cur (t_set_rq_next (-1)) ;;
  upd_thread cur (t_set_on_rq 0) ;;
  rq_len_dec hartid ;;
  ret 0.

(** [while (cur >= 0)] of [rq_remove]. *)
Fixpoint rq_remove_loop (fuel : nat) (hartid tid prev cur : Z) : M kstate Z :=
  match fuel with
  | O => diverge
  | Datatypes.S n =>
    if cur <? 0 then ret (-1) else
    if cur =? tid then rq_unlink hartid prev cur else
    t <- get_thread cur ;;
    rq_remove_loop n hartid tid cur (t_rq_next t)
  end.

Definition rq_remove (hartid tid : Z) : M kstate Z :=
  if MAX_HARTS <=? hartid then ret (-1) else
  if (tid <? 0) || (THREAD_MAX <=? tid) then ret (-1) else
  r <- get_rq hartid ;;
  rq_remove_loop RQ_FUEL hartid tid (-1) (r_head r).

(** [for (h = 0; h < MAX_HARTS; ++h)] of [rq_remove_any], from [h] on. *)
Fixpoint rq_remove_any_loop (n : nat) (h tid : Z) : M kstate Z :=
  match n with
  | O => ret (-1)
  | Datatypes.S n' =>
    rc <- rq_remove h tid ;;
    if rc =? 0 then ret h else rq_remove_any_loop n' (h + 1) tid
  end.

Definition rq_remove_any (tid : Z) : M kstate Z :=
  if (tid <? 0) || (THREAD_MAX <=? tid) then ret (-1) else
  rq_remove_any_loop (Z.to_nat MAX_HARTS) 0 tid.

(** [dst[n] = v] on a caller's array. *)
Definition dst_write (dst : list Z) (n : nat) (v : Z) : M kstate (list Z) :=
  if (n <? length dst)%nat then ret (<[n := v]> dst) else undefined.

(** [while (cur >= 0 && n < max)] of [rq_snapshot]; [dst] is the caller's
    array, in which the C code writes in place. *)
Fixpoint rq_snapshot_loop (fuel : nat) (cur : Z) (n max : nat) (dst : list Z)
    : M kstate (nat * list Z) :=
  if (cur <? 0) || (max <=? n)%nat then ret (n, dst) else
  match fuel with
  | O => diverge
  | Datatypes.S fuel' =>
    dst' <- dst_write dst n cur ;;
    t <- get_thread cur ;;
    rq_snapshot_loop fuel' (t_rq_next t) (n + 1) max dst'
  end.

(** [dst = None] is a null pointer. *)
Definition rq_snapshot (hartid : Z) (dst : option (list Z)) (max : nat)
    : M kstate (Z * list Z) :=
  if MAX_HARTS <=? hartid then ret (-1, default [] dst) else
  match dst with
  | None => ret (-1, [])
  | Some d =>
    if (max =? 0)%nat then ret (-1, d) else
    r <- get_rq hartid ;;
    p <- rq_snapshot_loop max (r_head r) 0 max d ;;
    let '(n, d') := p in
    d'' <- (if (n <? max)%nat then dst_write d' n (-1) else ret d') ;;
    ret (Z.of_nat n, d'')
  end.

(** ** The abstract queues *)

(** The linked list starting at the head of [q] is [q]. *)
Fixpoint chain (next : Z -> option Z) (q : list Z) : Prop :=
  match q with
  | [] => True
  | i :: q' => next i = Some (default (-1) (head q')) /\ chain next q'
  end.

Definition nxt (s : kstate) (i : Z) : option Z := t_rq_next <$> thr s i.

(** [g_runqueues[h]] represents the list [q]. *)
Definition rq_rep (s : kstate) (h : Z) (q : list Z) : Prop :=
  exists r, rqs s h = Some r /\
    r_head r = default (-1) (head q) /\ r_tail r = default (-1) (last q) /\
    r_len r = Z.of_nat (length q) /\ chain (nxt s) q.

Definition hart_ok (h : Z) : Prop := 0 <= h < MAX_HARTS.
Definition tid_ok (i : Z) : Prop := 0 <= i < THREAD_MAX.
(** Threads that may be queued: not the idle threads. *)
Definition user_tid (i : Z) : Prop := MAX_HARTS <= i < THREAD_MAX.

(** A thread is flagged [on_rq] exactly when it is in one of the queues. *)
Definition on_rq_ok (q : Z -> list Z) (i : Z) (on_rq : Z) : Prop :=
  (on_rq = 1 /\ exists h, hart_ok h /\ i ∈ q h) \/
  (on_rq = 0 /\ forall h, hart_ok h -> i ∉ q h).

(** The run-queue invariant: the tables represent the family [q]. *)
Record queues (s : kstate) (q : Z -> list Z) : Prop := {
  queues_rep : forall h, hart_ok h -> rq_rep s h (q h);
  queues_valid : forall h i, hart_ok h -> i ∈ q h -> user_tid i;
  queues_nodup : forall h, hart_ok h -> NoDup (q h);
  queues_disj : forall h h' i, hart_ok h -> hart_ok h' ->
    i ∈ q h -> i ∈ q h' -> h = h';
  queues_on_rq : forall i t, thr s i = Some t -> on_rq_ok q i (t_on_rq t)
}.

(** Replace the queue of one hart. *)
Definition upd_q (q : Z -> list Z) (h : Z) (l : list Z) : Z -> list Z :=
  fun h' => if decide (h = h') then l else q h'.

(** The abstract operations: append, drop the head, take a thread out. *)
Definition q_push (q : Z -> list Z) (h i : Z) : Z -> list Z := upd_q q h (q h ++ [i]).
Definition q_pop (q : Z -> list Z) (h : Z) : Z -> list Z := upd_q q h (tail (q h)).
Definition q_remove (q : Z -> list Z) (i : Z) : Z -> list Z :=
  fun h => filter (fun j => j <> i) (q h).

(** What a run-queue operation leaves alone: everything but the queue fields
    of the threads and the queue headers. *)
Definition same_but_rq (t t' : Thread) : Prop :=
  exists n o, t' = t_set_on_rq o (t_set_rq_next n t).

Definition rq_frame (s s' : kstate) : Prop :=
  (exists T R, s' = k_set_core (g_set_threads T (g_set_runqueues R (k_core s))) s) /\
  (forall i, option_Forall2 same_but_rq (thr s i) (thr s' i)).

End runqueue.

(** ** Lemmas on linked lists *)

Section lemmas.
Context {cfg : Config} {hws : Hardware}.
Implicit Types (s : kstate) (q : Z -> list Z).

Lemma chain_ext (f g : Z -> option Z) (q : list Z) :
  (forall i, i ∈ q -> f i = g i) -> chain f q -> chain g q.
Proof.
  induction q as [|i q IH]; simpl; [done|]. intros H [H1 H2].
  split; [rewrite <- H; [done|set_solver] | apply IH; [set_solver|done]].
Qed.

Lemma chain_app (f : Z -> option Z) (q1 q2 : list Z) :
  chain f (q1 ++ q2) -> chain f q2.
Proof. induction q1 as [|i q1 IH]; simpl; [done|]. intros [_ H]. by apply IH. Qed.

(** Linking a new last element. *)
Lemma chain_snoc (f g : Z -> option Z) (q : list Z) (l i : Z) :
  chain f (q ++ [l]) -> i ∉ q -> l ∉ q ->
  (forall j, j ∈ q -> g j = f j) -> g l = Some i -> g i = Some (-1) ->
  chain g (q ++ [l; i]).
Proof.
  induction q as [|j q IH]; simpl; intros Hc Hi Hl Hext Hgl Hgi; [done|].
  destruct Hc as [Hj Hc]. split.
  - rewrite Hext by set_solver. rewrite Hj. by destruct q.
  - apply IH; set_solver.
Qed.

(** Linking around a removed element. *)
Lemma chain_unlink (f g : Z -> option Z) (q1 q2 : list Z) (i : Z) :
  chain f (q1 ++ i :: q2) -> NoDup (q1 ++ i :: q2) ->
  (forall j, j ∈ q2 -> g j = f j) ->
  (forall j p, q1 = p ++ [j] -> g j = f i /\ forall k, k ∈ p -> g k = f k) ->
  chain g (q1 ++ q2).
Proof.
  intros Hc Hnd H2 H1. destruct q1 as [|x p _] using rev_ind; simpl in *.
  - destruct Hc as [_ Hc]. eapply chain_ext; [|exact Hc]. intros. by rewrite H2.
  - destruct (H1 x p eq_refl) as [Hx Hp]. clear H1.
    rewrite <- app_assoc in *. simpl in *.
    revert Hc Hp. clear - Hx H2. induction p as [|k p IH]; simpl; intros Hc Hp.
    + destruct Hc as (_ & Hi & Hc). split.
      * by rewrite Hx, Hi.
      * eapply chain_ext; [|exact Hc]. intros. by rewrite H2.
    + destruct Hc as [Hk Hc]. split.
      * rewrite Hp by set_solver. rewrite Hk. by destruct p.
      * apply IH; [done|]. intros. apply Hp. set_solver.
Qed.

Lemma nxt_with_thread s i t j :
  nxt (with_thread i t s) j = if decide (i = j) then Some (t_rq_next t) else nxt s j.
Proof. unfold nxt. rewrite thr_with_thread. by case_decide. Qed.

Lemma nxt_with_rq s h r j : nxt (with_rq h r s) j = nxt s j.
Proof. done. Qed.

Lemma upd_q_eq q h l : upd_q q h l h = l.
Proof. unfold upd_q. by rewrite decide_True. Qed.
Lemma upd_q_ne q h l h' : h <> h' -> upd_q q h l h' = q h'.
Proof. intros. unfold upd_q. by rewrite decide_False. Qed.

(** *** Consequences of the invariant *)

Lemma queues_unflagged s q i t h :
  queues s q -> thr s i = Some t -> t_on_rq t = 0 -> hart_ok h -> i ∉ q h.
Proof.
  intros Hq Ht H0 Hh. destruct (queues_on_rq s q Hq i t Ht) as [[H1 _]|[_ H]];
    [lia | by apply H].
Qed.

Lemma queues_flagged s q i t :
  queues s q -> thr s i = Some t -> t_on_rq t <> 0 ->
  t_on_rq t = 1 /\ exists h, hart_ok h /\ i ∈ q h.
Proof.
  intros Hq Ht H0. by destruct (queues_on_rq s q Hq i t Ht) as [?|[? _]].
Qed.

Lemma queues_in s q i t h :
  queues s q -> thr s i = Some t -> hart_ok h -> i ∈ q h -> t_on_rq t = 1.
Proof.
  intros Hq Ht Hh Hi.
  destruct (queues_on_rq s q Hq i t Ht) as [[? _]|[_ H]]; [done|].
  by destruct (H h Hh).
Qed.

Lemma chain_lookup (f : Z -> option Z) (q : list Z) i :
  chain f q -> i ∈ q -> is_Some (f i).
Proof.
  induction q as [|j q IH]; simpl; intros Hc Hi; [set_solver|].
  apply elem_of_cons in Hi as [->|Hi]; destruct Hc; [eauto|by apply IH].
Qed.

Lemma queues_thr s q h i :
  queues s q -> hart_ok h -> i ∈ q h -> exists t, thr s i = Some t.
Proof.
  intros Hq Hh Hi. destruct (queues_rep s q Hq h Hh) as (r & _ & _ & _ & _ & Hc).
  destruct (chain_lookup _ _ _ Hc Hi) as [v Hv]. unfold nxt in Hv.
  destruct (thr s i); [eauto|done].
Qed.

(** A list of distinct thread indices is no longer than the table. *)
Lemma tids_length (l : list Z) :
  NoDup l -> (forall i, i ∈ l -> tid_ok i) -> (length l <= Z.to_nat THREAD_MAX)%nat.
Proof.
  intros Hnd Hv. rewrite <- (length_seqZ 0 THREAD_MAX).
  apply submseteq_length, NoDup_submseteq; [done|].
  intros i Hi. apply elem_of_seqZ. specialize (Hv i Hi). unfold tid_ok in Hv. lia.
Qed.

Lemma user_tid_ok i : user_tid i -> tid_ok i.
Proof. unfold user_tid, tid_ok. pose proof MAX_HARTS_ok. lia. Qed.

Lemma queues_length s q h :
  queues s q -> hart_ok h -> (length (q h) <= Z.to_nat THREAD_MAX)%nat.
Proof.
  intros Hq Hh. apply tids_length; [by eapply queues_nodup|].
  intros i Hi. apply user_tid_ok. by eapply queues_valid.
Qed.

Lemma same_but_rq_refl t : same_but_rq t t.
Proof. exists (t_rq_next t), (t_on_rq t). by destruct t. Qed.
Lemma same_but_rq_trans t1 t2 t3 :
  same_but_rq t1 t2 -> same_but_rq t2 t3 -> same_but_rq t1 t3.
Proof. intros (n & o & ->) (n' & o' & ->). by exists n', o'. Qed.

Lemma rq_frame_refl s : rq_frame s s.
Proof.
  split.
  - exists (g_threads (k_core s)), (g_runqueues (k_core s)).
    by destruct s as [[]].
  - intros i. destruct (thr s i); constructor. apply same_but_rq_refl.
Qed.

Lemma rq_frame_trans s1 s2 s3 : rq_frame s1 s2 -> rq_frame s2 s3 -> rq_frame s1 s3.
Proof.
  intros [(T & R & H) F1] [(T' & R' & H') F2]. split.
  - exists T', R'. rewrite H', H. done.
  - intros i. specialize (F1 i). specialize (F2 i).
    inversion F1; inversion F2; simplify_eq; try congruence; constructor.
    assert (y = x0) as -> by congruence. by eapply same_but_rq_trans.
Qed.

Lemma rq_frame_thread s i t t' :
  thr s i = Some t -> same_but_rq t t' -> rq_frame s (with_thread i t' s).
Proof.
  intros Ht Hs. split.
  - exists (<[i := t']> (g_threads (k_core s))), (g_runqueues (k_core s)).
    by destruct s as [[]].
  - intros j. rewrite thr_with_thread. case_decide as E.
    + subst j. rewrite Ht. by constructor.
    + destruct (thr s j); constructor. apply same_but_rq_refl.
Qed.

Lemma rq_frame_rq s h r : rq_frame s (with_rq h r s).
Proof.
  split.
  - exists (g_threads (k_core s)), (<[h := r]> (g_runqueues (k_core s))).
    by destruct s as [[]].
  - intros j. rewrite thr_with_rq. destruct (thr s j); constructor. apply same_but_rq_refl.
Qed.

Lemma rq_frame_thr s s' i t :
  rq_frame s s' -> thr s i = Some t ->
  exists t', thr s' i = Some t' /\ same_but_rq t t'.
Proof.
  intros [_ F] Ht. specialize (F i). rewrite Ht in F. inversion F; eauto.
Qed.

Lemma rq_frame_thr_inv s s' i t' :
  rq_frame s s' -> thr s' i = Some t' ->
  exists t, thr s i = Some t /\ same_but_rq t t'.
Proof.
  intros [_ F] Ht. specialize (F i). rewrite Ht in F. inversion F; eauto.
Qed.

Lemma rq_frame_cpu s s' h : rq_frame s s' -> cpu s' h = cpu s h.
Proof. by intros [(T & R & ->) _]. Qed.
Lemma rq_frame_tp s s' : rq_frame s s' -> k_tp s' = k_tp s.
Proof. by intros [(T & R & ->) _]. Qed.

End lemmas.

(** ** The operations implement the abstract queues *)

Section refinement.
Context {cfg : Config} {hws : Hardware}.
Implicit Types (s : kstate) (q : Z -> list Z).

(** To change the queue of hart [h] only. *)
Lemma queues_change s s' q h l :
  queues s q -> hart_ok h ->
  rq_rep s' h l ->
  (forall h', h' <> h -> rqs s' h' = rqs s h') ->
  (forall h' j, hart_ok h' -> h' <> h -> j ∈ q h' -> nxt s' j = nxt s j) ->
  NoDup l ->
  (forall i, i ∈ l -> user_tid i) ->
  (forall h' i, hart_ok h' -> h' <> h -> i ∈ l -> i ∉ q h') ->
  (forall i t, thr s' i = Some t -> on_rq_ok (upd_q q h l) i (t_on_rq t)) ->
  queues s' (upd_q q h l).
Proof.
  intros Hq Hh Hrep Hrqs Hnxt Hnd Hval Hdisj Hon.
  split.
  - intros h' Hh'. destruct (decide (h = h')) as [<-|Hne].
    + by rewrite upd_q_eq.
    + rewrite upd_q_ne by done.
      destruct (queues_rep s q Hq h' Hh') as (r & Hr & H1 & H2 & H3 & H4).
      exists r. rewrite Hrqs by done. repeat (split; [done|]).
      eapply chain_ext; [|exact H4]. intros j Hj. symmetry. by eapply Hnxt.
  - intros h' i Hh'. destruct (decide (h = h')) as [<-|Hne].
    + rewrite upd_q_eq. apply Hval.
    + rewrite upd_q_ne by done. by apply (queues_valid s q Hq).
  - intros h' Hh'. destruct (decide (h = h')) as [<-|Hne].
    + by rewrite upd_q_eq.
    + rewrite upd_q_ne by done. by apply (queues_nodup s q Hq).
  - intros h1 h2 i Hh1 Hh2 Hi1 Hi2. unfold upd_q in Hi1, Hi2.
    destruct (decide (h = h1)) as [E1|N1], (decide (h = h2)) as [E2|N2];
      try congruence.
    + exfalso. eapply (Hdisj h2); [..|exact Hi2]; congruence || done.
    + exfalso. eapply (Hdisj h1); [..|exact Hi1]; congruence || done.
    + by eapply (queues_disj s q Hq h1 h2 i).
  - done.
Qed.

(** [on_rq] flags after one thread joined or left the queues. *)
Lemma on_rq_ok_other q h l i o :
  hart_ok h -> on_rq_ok q i o -> (i ∈ l <-> i ∈ q h) -> on_rq_ok (upd_q q h l) i o.
Proof.
  intros Hh [[-> (h' & Hh' & Hi)]|[-> H]] Heq.
  - left. split; [done|]. exists h'. split; [done|]. unfold upd_q.
    case_decide; subst; naive_solver.
  - right. split; [done|]. intros h' Hh'. unfold upd_q.
    case_decide; subst; naive_solver.
Qed.

Lemma queues_in_thr s q h i :
  queues s q -> hart_ok h -> i ∈ q h -> exists t, thr s i = Some t /\ t_on_rq t = 1.
Proof.
  intros Hq Hh Hi. destruct (queues_thr s q h i Hq Hh Hi) as [t Ht].
  exists t. split; [done|]. by eapply queues_in.
Qed.

(** A thread that is in no queue can be appended to one of them. *)
Lemma queues_push_intro s s' q h tid t :
  queues s q -> hart_ok h -> user_tid tid -> thr s tid = Some t -> t_on_rq t = 0 ->
  rq_rep s' h (q h ++ [tid]) ->
  (forall h', h' <> h -> rqs s' h' = rqs s h') ->
  (forall j, j <> tid -> j ∉ q h -> nxt s' j = nxt s j) ->
  (forall u, thr s' tid = Some u -> t_on_rq u = 1) ->
  (forall i u, i <> tid -> thr s' i = Some u ->
     exists u', thr s i = Some u' /\ t_on_rq u = t_on_rq u') ->
  queues s' (q_push q h tid).
Proof.
  intros Hq Hh Htid Ht H0 Hrep Hrqs Hnxt Hon1 Hon2.
  assert (Hnot : forall h', hart_ok h' -> tid ∉ q h').
  { intros h' Hh'. by eapply queues_unflagged. }
  assert (Hd : forall h' i, hart_ok h' -> h' <> h -> i ∈ q h' -> i ∉ q h).
  { intros h' i Hh' Hne Hi Hi'. apply Hne. by eapply (queues_disj s q Hq h' h i). }
  unfold q_push. eapply queues_change; try done.
  - intros h' j Hh' Hne Hj. apply Hnxt; [|by eapply Hd].
    intros ->. by eapply Hnot.
  - apply NoDup_app. split; [by apply (queues_nodup s q Hq)|].
    split; [set_solver | apply NoDup_singleton].
  - intros i Hi. apply elem_of_app in Hi as [Hi|Hi];
      [by apply (queues_valid s q Hq h) | set_solver].
  - intros h' i Hh' Hne Hi Hi'. apply elem_of_app in Hi as [Hi|Hi];
      [by eapply Hd | set_solver].
  - intros i u Hu. destruct (decide (i = tid)) as [->|Ei].
    + left. split; [by apply Hon1|]. exists h. split; [done|].
      rewrite upd_q_eq. set_solver.
    + destruct (Hon2 i u Ei Hu) as (u' & Hu' & ->).
      apply on_rq_ok_other; [done | by eapply queues_on_rq | set_solver].
Qed.

Lemma elem_of_snoc (l : list Z) i : i ∈ l ++ [i].
Proof. set_solver. Qed.

Lemma same_but_rq_next n t : same_but_rq t (t_set_rq_next n t).
Proof. exists n, (t_on_rq t). by destruct t. Qed.
Lemma same_but_rq_on o t : same_but_rq t (t_set_on_rq o t).
Proof. exists (t_rq_next t), o. by destruct t. Qed.

End refinement.

#[export] Hint Resolve same_but_rq_refl same_but_rq_next same_but_rq_on : rq.

(** The state is the initial one after updates of queue fields only. *)
Ltac rq_frame_tac :=
  repeat (eapply rq_frame_trans;
    [| first [ apply rq_frame_rq
             | eapply rq_frame_thread; [kst_look | auto with rq] ]]);
  apply rq_frame_refl.

Ltac some_inj :=
  repeat match goal with
  | H : Some _ = Some _ |- _ => apply (inj Some) in H; try subst
  end.

(** [exists u', thr s i = Some u' /\ field of u = field of u'] *)
Ltac thr_same :=
  first [ contradiction | eexists; split; [eassumption | reflexivity] ].

(** Evaluate [thr], [nxt] and [rqs] after updates, by cases on the index. *)
Ltac rq_eval :=
  repeat match goal with
  | |- context [nxt (with_rq _ _ _) _] => rewrite nxt_with_rq
  | |- context [nxt (with_thread _ _ _) _] => rewrite nxt_with_thread; case_decide; subst
  | |- context [thr (with_rq _ _ _) _] => rewrite thr_with_rq
  | |- context [thr (with_thread _ _ _) _] => rewrite thr_with_thread; case_decide; subst
  | H : context [thr (with_rq _ _ _) _] |- _ => rewrite thr_with_rq in H
  | H : context [thr (with_thread _ _ _) _] |- _ =>
      rewrite thr_with_thread in H; case_decide; subst
  | |- context [rqs (with_thread _ _ _) _] => rewrite rqs_with_thread
  | |- context [rqs (with_rq _ _ _) _] =>
      rewrite rqs_with_rq; first [rewrite decide_True by done | rewrite decide_False by done]
  end.

Section operations.
Context {cfg : Config} {hws : Hardware}.
Implicit Types (s : kstate) (q : Z -> list Z).

Lemma rq_push_tail_spec s q h tid t :
  queues s q -> hart_ok h -> user_tid tid -> thr s tid = Some t -> t_on_rq t = 0 ->
  wp (rq_push_tail h tid)
    (fun _ s' => queues s' (q_push q h tid) /\ rq_frame s s') s.
Proof.
  intros Hq Hh Htid Ht H0.
  destruct (queues_rep s q Hq h Hh) as (r & Hr & Hhd & Htl & Hlen & Hc).
  pose proof (queues_length s q h Hq Hh) as Hmax. unfold THREAD_MAX in Hmax.
  pose proof (queues_unflagged s q tid t h Hq Ht H0 Hh) as Hnotin.
  unfold rq_push_tail. pose proof Hh as [? ?]. pose proof Htid as [? ?].
  pose proof MAX_HARTS_ok.
  rewrite (proj2 (Z.leb_gt _ _)) by lia.
  rewrite (proj2 (Z.ltb_ge tid 0)), (proj2 (Z.leb_gt THREAD_MAX _)) by lia. simpl.
  rewrite (proj2 (Z.ltb_ge tid _)) by lia.
  wp_steps. rewrite H0. simpl. wp_steps.
  pose proof (queues_push_intro s) as Hintro.
  destruct (q h) as [|l q0 _] eqn:Eq using rev_ind; rewrite ?last_snoc in Htl.
  - rewrite Htl. simpl. wp_steps. split; [|rq_frame_tac].
    eapply Hintro; try done.
    + rewrite Eq. eexists. rq_eval. split; [done|]. simpl. rewrite Hlen.
      rq_eval; done.
    + intros h' Hne. by rq_eval.
    + intros j Hj _. by rq_eval.
    + intros u Hu. rq_eval; some_inj; done.
    + intros i u Hi Hu. rq_eval; some_inj; thr_same.
  - destruct (queues_in_thr s q h l Hq Hh ltac:(rewrite Eq; set_solver)) as (tl & Htl' & _).
    assert (user_tid l) as [? ?] by (apply (queues_valid s q Hq h); [done|rewrite Eq; set_solver]).
    pose proof (queues_nodup s q Hq h Hh) as Hnd. rewrite Eq in Hnd.
    apply NoDup_app in Hnd as (_ & Hnd & _).
    assert (tid <> l) by set_solver.
    simpl in Htl. rewrite Htl. rewrite (proj2 (Z.eqb_neq l (-1))) by lia.
    wp_steps. split; [|rq_frame_tac].
    eapply Hintro; try done.
    + rewrite Eq. eexists. rq_eval. split; [done|]. simpl.
      rewrite last_snoc, Hhd, Hlen, !length_app. simpl.
      split; [by destruct q0|]. split; [done|]. rewrite length_app in Hmax. simpl in Hmax.
      split; [rewrite u32_small; lia|].
      rewrite <- app_assoc. simpl. eapply chain_snoc; [exact Hc|set_solver|set_solver|..].
      * intros j Hj. rq_eval; try done; set_solver.
      * rq_eval; done.
      * rq_eval; done.
    + intros h' Hne. by rq_eval.
    + intros j Hj Hj'. rq_eval; try done. exfalso. apply Hj'. rewrite Eq.
      apply elem_of_snoc.
    + intros u Hu. rq_eval; some_inj; done.
    + intros i u Hi Hu. rq_eval; some_inj; thr_same.
Qed.

(** A thread leaves the queue of hart [h]. *)
Lemma queues_take_intro s s' q h (q1 : list Z) (i : Z) (q2 : list Z) :
  queues s q -> hart_ok h -> q h = q1 ++ i :: q2 ->
  rq_rep s' h (q1 ++ q2) ->
  (forall h', h' <> h -> rqs s' h' = rqs s h') ->
  (forall j, j ∉ q h -> nxt s' j = nxt s j) ->
  (forall u, thr s' i = Some u -> t_on_rq u = 0) ->
  (forall j u, j <> i -> thr s' j = Some u ->
     exists u', thr s j = Some u' /\ t_on_rq u = t_on_rq u') ->
  queues s' (upd_q q h (q1 ++ q2)).
Proof.
  intros Hq Hh Eq Hrep Hrqs Hnxt Hon1 Hon2.
  pose proof (queues_nodup s q Hq h Hh) as Hnd. rewrite Eq in Hnd.
  assert (Hsub : forall j, j ∈ q1 ++ q2 -> j ∈ q h) by (rewrite Eq; set_solver).
  assert (Hd : forall h' j, hart_ok h' -> h' <> h -> j ∈ q h' -> j ∉ q h).
  { intros h' j Hh' Hne Hi Hi'. apply Hne. by eapply (queues_disj s q Hq h' h j). }
  assert (Hi : i ∉ q1 ++ q2).
  { apply NoDup_app in Hnd as (_ & Hx & Hy). apply NoDup_cons in Hy as [Hy _].
    specialize (Hx i). set_solver. }
  eapply queues_change; try done.
  - intros h' j Hh' Hne Hj. apply Hnxt. by eapply Hd.
  - apply NoDup_app in Hnd as (Hx & Hy & Hz). apply NoDup_cons in Hz as [_ Hz].
    apply NoDup_app. split; [done|]. split; [|done]. intros x Hx1 Hx2.
    apply (Hy x Hx1). set_solver.
  - intros j Hj. apply (queues_valid s q Hq h j Hh). auto.
  - intros h' j Hh' Hne Hj Hj'. apply (Hd h' j Hh' Hne Hj'). auto.
  - intros j u Hu. destruct (decide (j = i)) as [->|Hne].
    + right. split; [by apply Hon1|]. intros h' Hh'. unfold upd_q. case_decide; [done|].
      intros Hin. apply (Hd h' i Hh'); [congruence|done|]. rewrite Eq. set_solver.
    + destruct (Hon2 j u Hne Hu) as (u' & Hu' & ->).
      apply on_rq_ok_other; [done|by eapply queues_on_rq|]. rewrite Eq. set_solver.
Qed.

Lemma rq_pop_head_nil s q h :
  queues s q -> hart_ok h -> q h = [] ->
  wp (rq_pop_head h) (fun r s' => r = -1 /\ s' = s) s.
Proof.
  intros Hq Hh Eq. destruct (queues_rep s q Hq h Hh) as (r & Hr & Hhd & _).
  unfold rq_pop_head. pose proof Hh as [? ?].
  rewrite (proj2 (Z.leb_gt _ _)) by lia. wp_steps. rewrite Hhd, Eq. simpl. by wp_steps.
Qed.

Lemma head_tid (l : list Z) :
  (forall i, i ∈ l -> user_tid i) ->
  (default (-1) (head l) <? 0) = match l with [] => true | _ => false end.
Proof.
  destruct l as [|i l]; simpl; intros H; [done|].
  destruct (H i ltac:(set_solver)). pose proof MAX_HARTS_ok. lia.
Qed.

Lemma rq_pop_head_spec s q h i l :
  queues s q -> hart_ok h -> q h = i :: l ->
  wp (rq_pop_head h)
    (fun r s' => r = i /\ queues s' (upd_q q h l) /\ rq_frame s s') s.
Proof.
  intros Hq Hh Eq. destruct (queues_rep s q Hq h Hh) as (r & Hr & Hhd & Htl & Hlen & Hc).
  pose proof (queues_valid s q Hq h) as Hval. pose proof (queues_nodup s q Hq h Hh) as Hnd.
  rewrite Eq in *. simpl in Hhd, Hlen.
  destruct (queues_thr s q h i Hq Hh) as [t Ht]; [rewrite Eq; set_solver|].
  assert (Hn : t_rq_next t = default (-1) (head l)).
  { destruct Hc as [Hn _]. unfold nxt in Hn. rewrite Ht in Hn. by injection Hn. }
  apply NoDup_cons in Hnd as [Hi _].
  pose proof (queues_take_intro s) as Hintro. 
  unfold rq_pop_head, rq_len_dec. pose proof Hh as [? ?]. pose proof MAX_HARTS_ok.
  destruct (Hval i Hh ltac:(set_solver)).
  rewrite (proj2 (Z.leb_gt _ _)) by lia. wp_steps.
  rewrite Hhd, (proj2 (Z.ltb_ge i 0)) by lia. wp_steps. rewrite Hn.
  rewrite head_tid by (intros; apply Hval; [done|set_solver]).
  assert (Hgoal : forall s', rq_rep s' h l -> 
    (forall h', h' <> h -> rqs s' h' = rqs s h') ->
    (forall j, j <> i -> nxt s' j = nxt s j) ->
    (forall u, thr s' i = Some u -> t_on_rq u = 0) ->
    (forall j u, j <> i -> thr s' j = Some u -> thr s j = Some u) ->
    rq_frame s s' -> i = i /\ queues s' (upd_q q h l) /\ rq_frame s s').
  { intros s' Ha Hb Hd He Hf Hg. split; [done|]. split; [|done].
    apply (Hintro s' q h [] i l); try done.
    - intros j Hj. apply Hd. intros ->. apply Hj. rewrite Eq. apply list_elem_of_here.
    - intros j u Hj Hu. exists u. split; [by apply Hf|done]. }
  assert (Hchain : forall s', (forall j, j <> i -> nxt s' j = nxt s j) -> chain (nxt s') l).
  { intros s' H'. eapply chain_ext; [|exact (proj2 Hc)]. intros j Hj. rewrite H'; [done|].
    intros ->. done. }
  destruct l as [|j l]; wp_steps; apply Hgoal; try rq_frame_tac;
    try (intros; rq_eval; some_inj; done || contradiction).
  - eexists. rq_eval. split; [done|]. simpl. rewrite Hlen. simpl. split; [done|]. done.
  - eexists. rq_eval. split; [done|]. simpl. rewrite Hlen. simpl.
    split; [done|]. split; [done|]. split; [lia|]. apply Hchain.
    intros k Hk. by rq_eval.
Qed.

Lemma last_tid (l : list Z) :
  (forall i, i ∈ l -> user_tid i) ->
  (default (-1) (last l) <? 0) = match l with [] => true | _ => false end.
Proof.
  intros H. destruct l as [|x l]; [done|].
  destruct (last (x :: l)) as [y|] eqn:E; [|by apply last_None in E].
  apply last_Some in E as [l' E]. rewrite E in H. simpl.
  destruct (H y ltac:(set_solver)). pose proof MAX_HARTS_ok. lia.
Qed.

(** [r->tail == cur], for the element between [q1] and [q2]. *)
Lemma last_is_elem (q1 q2 : list Z) (i : Z) :
  NoDup (q1 ++ i :: q2) ->
  (default (-1) (last (q1 ++ i :: q2)) =? i) = match q2 with [] => true | _ => false end.
Proof.
  intros Hnd. destruct q2 as [|x q2 _] using rev_ind.
  - rewrite last_snoc. apply Z.eqb_refl.
  - rewrite app_comm_cons, app_assoc, last_snoc in *. simpl.
    apply NoDup_app in Hnd as (_ & Hnd & _).
    assert (x <> i) by (intros ->; apply (Hnd i); set_solver).
    rewrite (proj2 (Z.eqb_neq x i)) by done. by destruct q2.
Qed.

Lemma last_app_cons (q1 q2 : list Z) (x i : Z) :
  last (q1 ++ i :: x :: q2) = last (q1 ++ x :: q2).
Proof.
  rewrite !(last_app q1), !last_cons. by destruct (last q2).
Qed.

Lemma elem_mid (q1 q2 : list Z) (i : Z) : i ∈ q1 ++ i :: q2.
Proof. set_solver. Qed.

Lemma rq_unlink_spec s q h (q1 : list Z) (i : Z) (q2 : list Z) :
  queues s q -> hart_ok h -> q h = q1 ++ i :: q2 ->
  wp (rq_unlink h (default (-1) (last q1)) i)
    (fun r s' => r = 0 /\ queues s' (upd_q q h (q1 ++ q2)) /\ rq_frame s s') s.
Proof.
  intros Hq Hh Eq. destruct (queues_rep s q Hq h Hh) as (r & Hr & Hhd & Htl & Hlen & Hc).
  pose proof (queues_valid s q Hq h) as Hval. pose proof (queues_nodup s q Hq h Hh) as Hnd.
  rewrite Eq in *.
  destruct (queues_thr s q h i Hq Hh) as [t Ht]; [rewrite Eq; set_solver|].
  assert (Hn : t_rq_next t = default (-1) (head q2)).
  { apply chain_app in Hc as [Hn _]. unfold nxt in Hn. rewrite Ht in Hn. by injection Hn. }
  assert (Hdec : (0 <? r_len r) = true).
  { rewrite Hlen, length_app, length_cons. apply Z.ltb_lt. lia. }
  assert (Hl : Z.of_nat (length (q1 ++ i :: q2)) - 1 = Z.of_nat (length (q1 ++ q2))).
  { rewrite !length_app, length_cons. lia. }
  assert (Hgoal : forall s', rq_rep s' h (q1 ++ q2) ->
    (forall h', h' <> h -> rqs s' h' = rqs s h') ->
    (forall j, j ∉ q1 ++ i :: q2 -> nxt s' j = nxt s j) ->
    (forall u, thr s' i = Some u -> t_on_rq u = 0) ->
    (forall j u, j <> i -> thr s' j = Some u ->
      exists u', thr s j = Some u' /\ t_on_rq u = t_on_rq u') ->
    rq_frame s s' -> 0 = 0 /\ queues s' (upd_q q h (q1 ++ q2)) /\ rq_frame s s').
  { intros s' Ha Hb Hd He Hf Hg. split; [done|]. split; [|done].
    apply (queues_take_intro s s' q h q1 i q2); try done. by rewrite Eq. }
  assert (Hi2 : i ∉ q2).
  { apply NoDup_app in Hnd as (_ & _ & Hy). by apply NoDup_cons in Hy as [Hy _]. }
  assert (Hchain : forall s',
    (forall j, j ∈ q2 -> nxt s' j = nxt s j) ->
    (forall j p, q1 = p ++ [j] -> nxt s' j = nxt s i /\ forall k, k ∈ p -> nxt s' k = nxt s k) ->
    chain (nxt s') (q1 ++ q2)).
  { intros s'. apply chain_unlink; done. }
  assert (Hni : nxt s i = Some (t_rq_next t)) by (unfold nxt; by rewrite Ht).
  pose proof (last_is_elem q1 q2 i Hnd) as Hlast.
  unfold rq_unlink, rq_len_dec. wp_steps.
  rewrite last_tid by (intros; apply Hval; [done|set_solver]).
  assert (Hmid : i ∈ q1 ++ i :: q2) by apply elem_mid.
  destruct q1 as [|x p _] using rev_ind.
  - wp_steps. simpl r_tail. rewrite Htl, Hlast.
    destruct q2 as [|y q2]; wp_steps; apply Hgoal; try rq_frame_tac;
      try (intros; rq_eval; some_inj; done || contradiction || thr_same).
    + eexists. rq_eval. split; [done|]. simpl. rewrite Hdec. simpl. rewrite Hn, Hlen, Hl. done.
    + eexists. rq_eval. split; [done|]. simpl. rewrite Hdec. simpl.
      rewrite Hn, Hlen, Hl, Htl. split; [done|]. split; [done|]. split; [done|].
      apply Hchain; [|intros j p E; by destruct p].
      intros j Hj. rq_eval; contradiction || done.
  - destruct (queues_thr s q h x Hq Hh) as [tx Htx]; [rewrite Eq; set_solver|].
    assert (Hx : x ∈ (p ++ [x]) ++ i :: q2) by (rewrite <- app_assoc; apply elem_mid).
    pose proof (Hval x Hh Hx) as [? ?]. pose proof MAX_HARTS_ok.
    assert (Hxi : x <> i).
    { apply NoDup_app in Hnd as (_ & Hnd & _). intros ->. apply (Hnd i); set_solver. }
    assert (Hp : x ∉ p /\ x ∉ q2 /\ i ∉ p).
    { clear - Hnd. rewrite <- app_assoc in Hnd. apply NoDup_app in Hnd as (_ & H1 & H2).
      simpl in H2. apply NoDup_cons in H2 as [H2 _]. set_solver. }
    destruct Hp as (Hxp & Hxq & Hip).
    rewrite last_snoc in *. replace (match p ++ [x] with [] => true | _ => false end)
      with false by (by destruct p). simpl from_option.
    wp_steps. rewrite Htl, Hlast.
    destruct q2 as [|y q2]; wp_steps; apply Hgoal; try rq_frame_tac;
      try (intros; rq_eval; some_inj; done || contradiction || thr_same).
    all: eexists; rq_eval; split; [done|]; simpl; rewrite Hdec; simpl;
      rewrite ?Hlen, ?Hhd, ?Hl, ?Htl; (split; [by destruct p|]).
    1: split; [by rewrite app_nil_r, last_snoc|].
    2: split; [by rewrite last_app_cons|].
    all: split; [done|]; apply Hchain;
      [ intros j Hj; rq_eval; done || contradiction
      | intros j p0 E; apply app_inj_tail in E as [<- <-];
        split; [rq_eval; done || contradiction |];
        intros k Hk; rq_eval; done || contradiction ].
Qed.

(** *** [rq_remove] and [rq_remove_any] *)

Lemma filter_ne_id (l : list Z) (i : Z) : i ∉ l -> filter (fun j => j <> i) l = l.
Proof.
  induction l as [|j l IH]; intros Hi; [done|].
  rewrite not_elem_of_cons in Hi. destruct Hi as [? ?].
  rewrite filter_cons_True by done. by rewrite IH.
Qed.

Lemma rq_remove_loop_spec s q h tid fuel (q1 q2 : list Z) :
  queues s q -> hart_ok h -> q h = q1 ++ q2 -> tid ∉ q1 -> (length q2 < fuel)%nat ->
  wp (rq_remove_loop fuel h tid (default (-1) (last q1)) (default (-1) (head q2)))
    (fun r s' =>
       (tid ∈ q2 /\ r = 0 /\
          queues s' (upd_q q h (filter (fun j => j <> tid) (q h))) /\ rq_frame s s') \/
       (tid ∉ q2 /\ r = -1 /\ s' = s)) s.
Proof.
  intros Hq Hh. revert q1 q2. induction fuel as [|fuel IH]; intros q1 q2 Eq Hn Hl; [lia|].
  simpl. pose proof (queues_valid s q Hq h) as Hval. pose proof (queues_nodup s q Hq h Hh) as Hnd.
  rewrite head_tid by (intros; apply Hval; [done|rewrite Eq; set_solver]).
  destruct q2 as [|i q2]; simpl.
  { wp_steps. right. split; [set_solver|done]. }
  destruct (Z.eqb_spec i tid) as [->|Hne].
  - eapply wp_mono; [by apply (rq_unlink_spec s q h q1 tid q2)|].
    intros r s' (-> & Hq' & Hf). left. split; [apply list_elem_of_here|].
    split; [done|]. split; [|done].
    rewrite Eq, filter_app, filter_cons_False by naive_solver.
    rewrite Eq in Hnd. apply NoDup_app in Hnd as (_ & _ & Hnd).
    apply NoDup_cons in Hnd as [Hnd _]. by rewrite !filter_ne_id.
  - destruct (queues_thr s q h i Hq Hh) as [t Ht]; [rewrite Eq; set_solver|].
    wp_steps.
    destruct (queues_rep s q Hq h Hh) as (r & _ & _ & _ & _ & Hc). rewrite Eq in Hc.
    apply chain_app in Hc as [Hi _]. unfold nxt in Hi. rewrite Ht in Hi.
    injection Hi as Hi. rewrite Hi.
    replace (wp (rq_remove_loop fuel h tid i (default (-1) (head q2)))) with
      (wp (rq_remove_loop fuel h tid (default (-1) (last (q1 ++ [i]))) (default (-1) (head q2))))
      by (by rewrite last_snoc).
    eapply wp_mono; [apply (IH (q1 ++ [i]) q2)|].
    + by rewrite <- app_assoc.
    + set_solver.
    + simpl in Hl. lia.
    + intros r' s' [(? & ?)|(? & ?)]; [left|right]; (split; [|done]).
      * by apply list_elem_of_further.
      * rewrite not_elem_of_cons. auto.
Qed.

Lemma queues_ext s q q' :
  (forall h, hart_ok h -> q h = q' h) -> queues s q -> queues s q'.
Proof.
  intros He Hq. split.
  - intros h Hh. rewrite <- He by done. by apply queues_rep.
  - intros h i Hh. rewrite <- He by done. by apply (queues_valid s q Hq).
  - intros h Hh. rewrite <- He by done. by apply (queues_nodup s q Hq).
  - intros h h' i Hh Hh'. rewrite <- !He by done. by apply (queues_disj s q Hq).
  - intros i t Ht. destruct (queues_on_rq s q Hq i t Ht) as [[? (h & Hh & Hi)]|[? H]].
    + left. split; [done|]. exists h. split; [done|]. by rewrite <- He.
    + right. split; [done|]. intros h Hh. rewrite <- He by done. auto.
Qed.

(** Removing a thread from the one queue it is in removes it from them all. *)
Lemma q_remove_upd s q h tid :
  queues s q -> hart_ok h -> tid ∈ q h ->
  forall h', hart_ok h' ->
  upd_q q h (filter (fun j => j <> tid) (q h)) h' = q_remove q tid h'.
Proof.
  intros Hq Hh Hin h' Hh'. unfold upd_q, q_remove. case_decide as E; [by subst|].
  symmetry. apply filter_ne_id. intros Hj. apply E. by eapply (queues_disj s q Hq h h' tid).
Qed.

Lemma rq_remove_spec s q h tid :
  queues s q -> hart_ok h -> tid_ok tid ->
  wp (rq_remove h tid)
    (fun r s' =>
       (tid ∈ q h /\ r = 0 /\ queues s' (q_remove q tid) /\ rq_frame s s') \/
       (tid ∉ q h /\ r = -1 /\ s' = s)) s.
Proof.
  intros Hq Hh [Ht1 Ht2]. pose proof Hh as [? ?].
  destruct (queues_rep s q Hq h Hh) as (r & Hr & Hhd & _).
  pose proof (queues_length s q h Hq Hh).
  unfold rq_remove. rewrite (proj2 (Z.leb_gt _ _)) by lia.
  rewrite (proj2 (Z.ltb_ge tid 0)), (proj2 (Z.leb_gt THREAD_MAX _)) by lia. simpl.
  wp_steps. rewrite Hhd. change (-1) with (default (-1) (last ([] : list Z))) at 1.
  eapply wp_mono; [apply (rq_remove_loop_spec s q h tid RQ_FUEL [] (q h)); try done|].
  - set_solver.
  - unfold RQ_FUEL. lia.
  - intros r' s' [(? & -> & Hq' & Hf)|?]; [left|by right].
    split; [done|]. split; [done|]. split; [|done]. eapply queues_ext; [|exact Hq']. by apply (q_remove_upd s).
Qed.

Lemma rq_remove_any_loop_spec s q tid n h :
  queues s q -> tid_ok tid -> 0 <= h -> h + Z.of_nat n = MAX_HARTS ->
  wp (rq_remove_any_loop n h tid)
    (fun r s' =>
       (exists h', r = h' /\ h <= h' /\ hart_ok h' /\ tid ∈ q h' /\
          queues s' (q_remove q tid) /\ rq_frame s s') \/
       (r = -1 /\ s' = s /\ forall h', h <= h' -> hart_ok h' -> tid ∉ q h')) s.
Proof.
  intros Hq Ht. revert h. induction n as [|n IH]; intros h Hh1 Hh2; simpl.
  - apply wp_ret. right. split; [done|]. split; [done|]. intros h' ? [? ?]. lia.
  - apply wp_bind. assert (Hh : hart_ok h) by (unfold hart_ok; lia).
    eapply wp_mono; [by apply (rq_remove_spec s q h tid)|].
    intros r s' [(? & -> & Hq' & Hf)|(? & -> & ->)].
    + simpl. apply wp_ret. left. exists h. split; [done|]. split; [lia|]. done.
    + simpl. eapply wp_mono; [apply (IH (h + 1)); lia|].
      intros r s' [(h' & ? & ? & ?)|(? & ? & Hno)].
      * left. exists h'. split; [done|]. split; [lia|done].
      * right. split; [done|]. split; [done|]. intros h' Hle Hh'.
        destruct (decide (h' = h)) as [->|]; [done|]. apply Hno; [lia|done].
Qed.

Lemma rq_remove_any_spec s q tid :
  queues s q -> tid_ok tid ->
  wp (rq_remove_any tid)
    (fun r s' =>
       (hart_ok r /\ tid ∈ q r /\ queues s' (q_remove q tid) /\ rq_frame s s') \/
       (r = -1 /\ s' = s /\ forall h, hart_ok h -> tid ∉ q h)) s.
Proof.
  intros Hq Ht. pose proof Ht as [? ?]. unfold rq_remove_any. pose proof MAX_HARTS_ok.
  rewrite (proj2 (Z.ltb_ge tid 0)), (proj2 (Z.leb_gt THREAD_MAX _)) by lia. simpl.
  eapply wp_mono; [apply (rq_remove_any_loop_spec s q tid _ 0 Hq Ht); lia|].
  intros r s' [(h' & -> & ? & ? & ? & ? & ?)|(-> & -> & Hno)]; [by left|right].
  split; [done|]. split; [done|]. intros h Hh. apply Hno; [|done]. apply Hh.
Qed.

Lemma rq_len_spec s q h :
  queues s q -> hart_ok h ->
  wp (rq_len h) (fun r s' => r = Z.of_nat (length (q h)) /\ s' = s) s.
Proof.
  intros Hq Hh. pose proof Hh as [? ?].
  destruct (queues_rep s q Hq h Hh) as (r & Hr & _ & _ & Hlen & _).
  unfold rq_len. rewrite (proj2 (Z.leb_gt _ _)) by lia. by wp_steps.
Qed.

End operations.
