(* ===== verification/Image.v ===== *)
(** * The kernel image: the static data of the C program before [kernel_main]
    runs, and one concrete build on which the theorems are exercised *)
From stdpp Require Import base numbers list gmap strings.
From Stdlib Require Import ZArith Lia.
From S2P Require Import Prelude Mem Machine State Kernel.

Local Open Scope Z_scope.

(** An array of [n] equal elements. *)
Definition ztable {A} (n : Z) (x : A) : gmap Z A :=
  list_to_map ((fun i => (i, x)) <$> seqZ 0 n).

(** Objects of static storage duration without initialiser are all zeroes. *)
Definition Thread_zero : Thread :=
  {| t_id := 0; t_state := THREAD_UNUSED; t_wakeup_tick := 0; t_name := NameUser 0;
     t_is_user := 0; t_can_be_killed := 0; t_detached := 0; t_running_hart := 0;
     t_last_hart := 0; t_migrations := 0; t_runs := 0; t_rq_next := 0; t_on_rq := 0;
     t_tf := tf_zero; t_stack_base := 0; t_exit_code := 0; t_join_waiter := 0;
     t_waiting_for := 0; t_join_status_ptr := 0; t_pending_read_buf := 0;
     t_pending_read_len := 0 |}.

Definition cpu_zero : cpu_t :=
  {| c_kstack_top := 0; c_cur_tf := TF_null; c_hartid := 0; c_online := 0;
     c_current_tid := 0; c_idle_tid := 0; c_timer_irqs := 0; c_ctx_switches := 0;
     c_need_resched := 0; c_slice_left := 0 |}.

Definition runqueue_zero : runqueue_t := {| r_head := 0; r_tail := 0; r_len := 0 |}.
Definition irq_entry_zero : irq_entry_t := {| ie_handler := None; ie_arg := 0 |}.
Definition irq_stat_zero : irq_stat_t :=
  {| is_count := 0; is_last_tick := 0; is_first_tick := 0; is_max_delta := 0 |}.

Definition MAX_IRQ : Z := 64.
Definition CONSOLE_RBUF_SIZE : Z := 1024.

Section image.
Context {cfg : Config} {hws : Hardware}.

Definition core_bss : core_state :=
  {| g_threads := ztable THREAD_MAX Thread_zero;
     g_runqueues := ztable MAX_HARTS runqueue_zero;
     g_cpus := ztable MAX_HARTS cpu_zero;
     g_ticks := 0; g_boot_hartid := NO_BOOT_HART; g_smp_boot_done := 0;
     g_stdin_waiter := -1 |}.

Definition console_bss : console_state :=
  {| g_rx_buf := ztable CONSOLE_RBUF_SIZE 0; g_rx_head := 0; g_rx_tail := 0 |}.

Definition trap_bss : trap_state :=
  {| g_illegal_probe_enabled := 0; g_illegal_probe_hit := 0;
     g_wfi_probe_enabled := 0; g_wfi_probe_fired := 0; g_wfi_probe_pc := 0;
     g_bootstrap_tf := tf_zero; g_probe_tf := tf_zero; g_boot_real_ns := 0 |}.

Definition platform_bss : platform_state :=
  {| p_g_dtb := 0; p_timebase_hz := 0; p_fallback_logged := 0;
     p_irq_table := ztable MAX_IRQ irq_entry_zero;
     p_irq_stats := ztable MAX_IRQ irq_stat_zero;
     p_irq_name := ztable MAX_IRQ None;
     p_plic_base := 0; p_plic_num_sources := 0;
     p_uart_base := 0; p_uart_irq := 0; p_uart_reg_shift := 0;
     p_uart_reg_io_width := 1; p_uart_reg_offset := 0 |}.

(** The image as the loader leaves it, in front of hardware [d]. *)
Definition image (d : dev) : kstate :=
  {| k_core := core_bss; k_con := console_bss; k_trp := trap_bss;
     k_plat := platform_bss; k_umem := gmap_empty; k_klog := [];
     k_kernel_lock := 0; k_tp := 0; k_hw := d |}.

End image.

Lemma lookup_ztable {A} (n : Z) (x : A) i :
  ztable n x !! i = if decide (0 <= i < n) then Some x else None.
Proof.
  unfold ztable. case_decide as E.
  - apply elem_of_list_to_map_1.
    + rewrite <- list_fmap_compose. rewrite list_fmap_id. apply NoDup_seqZ.
    + apply list_elem_of_fmap. exists i. split; [done|]. apply elem_of_seqZ. lia.
  - apply not_elem_of_list_to_map_1. rewrite <- list_fmap_compose, list_fmap_id.
    rewrite elem_of_seqZ. lia.
Qed.

Lemma lookup_ztable_Some {A} (n : Z) (x y : A) i :
  ztable n x !! i = Some y <-> 0 <= i < n /\ y = x.
Proof. rewrite lookup_ztable. case_decide; naive_solver. Qed.

(** ** A concrete build

    Two harts, debug, with a time CSR that advances by a million ticks per read, a
    16550 that is always ready to transmit and has nothing to receive, and
    firmware that accepts every call. *)
Definition demo_config : Config :=
  {| MAX_HARTS := 2; NDEBUG := false; source_dir := "/ccos/";
     addr_g_thread_stacks := 2149580800; addr_g_kstack := 2149842944;
     addr_g_cpus := 2149851136; addr_idle_main := 2147491840;
     addr_trap_entry := 2147485696; addr_g_dtb := 2281701376;
     poll_fuel := 16;
     MAX_HARTS_ok := conj eq_refl eq_refl |}.

Definition demo_hardware : Hardware :=
  {| dev := Z;
     mmio_load := fun _ a t =>
       (if Z.land a 7 =? 5 then 32 else if Z.land a 7 =? 2 then 1 else 0, t);
     mmio_store := fun _ _ _ t => t;
     csr_load := fun _ c t => match c with CSR_time => (t, t + 1000000) | _ => (0, t) end;
     csr_update := fun _ _ _ _ t => t;
     sbi_ecall := fun _ _ _ _ t => ((0, 0), t) |}.
