(* ===== verification/Smp.v ===== *)
(** * Placing work on harts: [smp_kick_hart] and friends ([kernel/cpu.c]) and
    [sched_pick_target_hart] ([kernel/sched.c]) *)
From stdpp Require Import base numbers list gmap strings.
From Stdlib Require Import ZArith Lia.
From S2P Require Import Prelude Mem Machine State Kernel RunQueue.

Local Open Scope Z_scope.

Section smp.
Context {cfg : Config} {hws : Hardware}.

(** [sbi_send_ipi(mask, base)] of [sbi.h]. *)
Definition sbi_send_ipi (hart_mask hart_mask_base : Z) : M kstate (Z * Z) :=
  sbi_call SBI_EID_IPI SBI_FID_IPI_SEND_IPI [hart_mask; hart_mask_base; 0; 0; 0].

Definition set_smp_boot_done : M kstate unit := upd_core (g_set_smp_boot_done 1).

Definition smp_kick_hart (hartid : Z) : M kstate unit :=
  d <- core g_smp_boot_done ;;
  if negb (z2b d) then ret tt else
  if MAX_HARTS <=? hartid then ret tt else
  c <- get_cpu hartid ;;
  if negb (z2b (c_online c)) then ret tt else
  r <- sbi_send_ipi 1 hartid ;;
  when (z2b (fst r)) (pr_warn "sbi_send_ipi failed: err=%ld target=%u").

Definition smp_kick_all_others : M kstate unit :=
  d <- core g_smp_boot_done ;;
  if negb (z2b d) then ret tt else
  self <- cpu_current_hartid ;;
  for_z (Z.to_nat MAX_HARTS) 0 (fun hart =>
    if hart =? self then ret tt else
    c <- get_cpu hart ;;
    if negb (z2b (c_online c)) then ret tt else
    r <- sbi_send_ipi 1 hart ;;
    when (z2b (fst r)) (pr_warn "sbi_send_ipi failed: err=%ld target=%u mask=0x%lx")).

(** The loop of [sched_pick_target_hart], from hart [h] on, with the best hart
    found so far, its queue length and whether it is online. *)
Fixpoint pick_loop (n : nat) (h best_hart best_len best_online : Z) : M kstate Z :=
  match n with
  | O => ret best_hart
  | Datatypes.S n' =>
    c <- get_cpu h ;;
    if negb (z2b (c_online c)) then pick_loop n' (h + 1) best_hart best_len best_online else
    len <- rq_len h ;;
    if negb (z2b best_online) || (len <? best_len)
    then pick_loop n' (h + 1) h len 1
    else pick_loop n' (h + 1) best_hart best_len best_online
  end.

Definition sched_pick_target_hart (tid waker_hart : Z) : M kstate Z :=
  best_len <- rq_len waker_hart ;;
  c <- get_cpu waker_hart ;;
  pick_loop (Z.to_nat MAX_HARTS) 0 waker_hart best_len (c_online c).

End smp.
