(* ===== verification/Thread.v ===== *)
(** * Threads ([kernel/thread.c])

    The thread table, the scheduler, and the kernel side of the thread system
    calls, as the C code runs them under the big kernel lock. *)
From stdpp Require Import base numbers list gmap strings.
From Stdlib Require Import ZArith Lia.
From S2P Require Import Prelude Mem Machine State Kernel RunQueue Smp.

Local Open Scope Z_scope.

Definition USER_THREAD : Z := 1.
Definition KERN_THREAD : Z := 0.

Section thread.
Context {cfg : Config} {hws : Hardware}.

Definition FIRST_TID : Z := MAX_HARTS.

(** [g_thread_stacks[tid]] *)
Definition thread_stack (tid : Z) : Z := addr_g_thread_stacks + tid * THREAD_STACK_SIZE.

(** ** Internal helpers *)

Definition thread_make_runnable (tid preferred_hart : Z) : M kstate unit :=
  if (tid <? 0) || (THREAD_MAX <=? tid) then ret tt else
  if tid <? MAX_HARTS then ret tt else
  t <- get_thread tid ;;
  if z2b (t_on_rq t) || state_eqb (t_state t) THREAD_RUNNING then ret tt else
  target <- sched_pick_target_hart tid preferred_hart ;;
  upd_thread tid (t_set_state THREAD_RUNNABLE) ;;
  upd_thread tid (t_set_wakeup_tick 0) ;;
  rq_push_tail target tid ;;
  me <- cpu_current_hartid ;;
  if target =? me
  then upd_cpu_this (c_set_need_resched 1)
  else smp_kick_hart target.

Definition thread_mark_running (tid hartid : Z) : M kstate unit :=
  upd_thread tid (t_set_running_hart (s32 hartid)) ;;
  upd_thread tid (fun t => t_set_runs (u64 (t_runs t + 1)) t) ;;
  upd_thread tid (fun t =>
    if (0 <=? t_last_hart t) && negb (t_last_hart t =? s32 hartid)
    then t_set_migrations (u32 (t_migrations t + 1)) t else t).

Definition thread_mark_not_running (tid : Z) : M kstate unit :=
  upd_thread tid (fun t =>
    if 0 <=? t_running_hart t then t_set_last_hart (t_running_hart t) t else t) ;;
  upd_thread tid (t_set_running_hart (-1)).

Definition current_tid_get : M kstate Z := c <- cpu_this ;; ret (c_current_tid c).
Definition thread_current : M kstate Z := current_tid_get.

(** [for (i = 1; i < THREAD_MAX; ++i)] of [alloc_thread_slot], from [i] on. *)
Fixpoint alloc_loop (n : nat) (i : Z) : M kstate Z :=
  match n with
  | O => ret (-1)
  | Datatypes.S n' =>
    t <- get_thread i ;;
    if state_eqb (t_state t) THREAD_UNUSED then ret i else alloc_loop n' (i + 1)
  end.
Definition alloc_thread_slot : M kstate Z := alloc_loop (Z.to_nat THREAD_MAX - 1) 1.

(** The initial stack pointer: top of the stack, aligned down to 16 bytes. *)
Definition initial_sp (stack_base : Z) : Z :=
  Z.land (u64 (stack_base + THREAD_STACK_SIZE)) (Z.lnot 15).

Definition init_frame (stack_base entry arg sstatus : Z) : trapframe :=
  f_set_sstatus sstatus (f_set_a0 (u64 arg) (f_set_sepc (u64 entry)
    (f_set_sp (initial_sp stack_base) tf_zero))).

(** [s &= ~(SPP | SIE); s |= SPP; s |= SPIE] *)
Definition sstatus_smode (s : Z) : Z :=
  Z.lor (Z.lor (Z.land s (Z.lnot (Z.lor SSTATUS_SPP SSTATUS_SIE))) SSTATUS_SPP) SSTATUS_SPIE.
(** [s &= ~(SPP | SIE); s |= SPIE] *)
Definition sstatus_umode (s : Z) : Z :=
  Z.lor (Z.land s (Z.lnot (Z.lor SSTATUS_SPP SSTATUS_SIE))) SSTATUS_SPIE.

Definition init_thread_context_s (tid entry arg : Z) : M kstate unit :=
  s <- csr_read CSR_sstatus ;;
  upd_thread tid (fun t =>
    t_set_tf (init_frame (t_stack_base t) entry arg (sstatus_smode s)) t).

Definition init_thread_context_u (tid entry arg : Z) : M kstate unit :=
  s <- csr_read CSR_sstatus ;;
  upd_thread tid (fun t =>
    t_set_tf (init_frame (t_stack_base t) entry arg (sstatus_umode s)) t).

(** The slot as [recycle_thread] leaves it: its index, its stack and the
    arguments of its last blocking read are all that is kept. *)
Definition thread_recycled (t : Thread) : Thread :=
  {| t_id := t_id t; t_state := THREAD_UNUSED; t_wakeup_tick := 0;
     t_name := NameLit "unused"; t_is_user := 0; t_can_be_killed := 0; t_detached := 0;
     t_running_hart := -1; t_last_hart := -1; t_migrations := 0; t_runs := 0;
     t_rq_next := -1; t_on_rq := 0; t_tf := tf_zero; t_stack_base := t_stack_base t;
     t_exit_code := 0; t_join_waiter := -1; t_waiting_for := -1; t_join_status_ptr := 0;
     t_pending_read_buf := t_pending_read_buf t;
     t_pending_read_len := t_pending_read_len t |}.

Definition recycle_thread (tid : Z) : M kstate unit :=
  if (tid <=? 0) || (THREAD_MAX <=? tid) then ret tt else
  w <- core g_stdin_waiter ;;
  when (w =? tid) (upd_core (g_set_stdin_waiter (-1))) ;;
  upd_thread tid thread_recycled.

(** [do { tmp[n++] = '0' + x % 10; x /= 10; } while (x && n < 10)] *)
Fixpoint idle_digits (fuel : nat) (x : Z) (tmp : list Z) : list Z :=
  match fuel with
  | O => tmp
  | Datatypes.S f =>
    let tmp := tmp ++ [48 + x mod 10] in
    let x := x / 10 in
    if z2b x && (length tmp <? 10)%nat then idle_digits f x tmp else tmp
  end.

Definition idle_name_for_hart (hartid : Z) : name_ptr :=
  NameLit ("idle" ++ string_of_bytes (rev (idle_digits 10 hartid []))).

(** ** Creation *)

Definition name_or (name : Z) (dflt : string) : name_ptr :=
  if z2b name then NameUser name else NameLit dflt.

Definition thread_create_user_named (entry arg : Z) (name : name_ptr) : M kstate Z :=
  tid <- alloc_thread_slot ;;
  if tid <? 0 then ret (-1) else
  upd_thread tid (fun t =>
    let t := t_set_state THREAD_RUNNABLE t in
    let t := t_set_wakeup_tick 0 t in
    let t := t_set_name name t in
    let t := t_set_stack_base (thread_stack tid) t in
    let t := t_set_is_user USER_THREAD t in
    let t := t_set_can_be_killed 1 t in
    t_set_detached 0 t) ;;
  init_thread_context_u tid entry arg ;;
  me <- cpu_current_hartid ;;
  thread_make_runnable tid me ;;
  ret tid.

(** [thread_create_user(entry, arg, name)] with a user's name pointer. *)
Definition thread_create_user (entry arg name : Z) : M kstate Z :=
  thread_create_user_named entry arg (name_or name "uthread").

Definition thread_create_user_main (user_main arg : Z) : M kstate Z :=
  tid <- thread_create_user_named user_main arg (NameLit "user_main") ;;
  when (tid <? 0) (pr_err "no slot for user_main") ;;
  ret tid.

Definition thread_create_kern (entry arg name : Z) : M kstate Z :=
  if negb (z2b entry) then pr_info "thread_create: entry is NULL" ;; ret (-1) else
  tid <- alloc_thread_slot ;;
  if tid <? 0 then pr_warn "thread_create: no free slot" ;; ret (-1) else
  upd_thread tid (fun t =>
    let t := t_set_state THREAD_RUNNABLE t in
    let t := t_set_wakeup_tick 0 t in
    let t := t_set_name (name_or name "thread") t in
    let t := t_set_stack_base (thread_stack tid) t in
    let t := t_set_exit_code 0 t in
    let t := t_set_detached 0 t in
    let t := t_set_join_waiter (-1) t in
    let t := t_set_waiting_for (-1) t in
    let t := t_set_join_status_ptr 0 t in
    t_set_is_user KERN_THREAD t) ;;
  init_thread_context_s tid entry arg ;;
  me <- cpu_current_hartid ;;
  thread_make_runnable tid me ;;
  ret tid.

(** A slot after the first loop of [threads_init]: every field is assigned but
    [is_user]. *)
Definition thread_slot_init (i : Z) (t : Thread) : Thread :=
  {| t_id := i; t_state := THREAD_UNUSED; t_wakeup_tick := 0;
     t_name := NameLit "unused"; t_is_user := t_is_user t; t_can_be_killed := 0;
     t_detached := 0; t_running_hart := -1; t_last_hart := -1; t_migrations := 0;
     t_runs := 0; t_rq_next := -1; t_on_rq := 0; t_tf := tf_zero; t_stack_base := 0;
     t_exit_code := 0; t_join_waiter := -1; t_waiting_for := -1; t_join_status_ptr := 0;
     t_pending_read_buf := 0; t_pending_read_len := 0 |}.

Definition idle_init (hid : Z) : M kstate unit :=
  upd_thread hid (fun t =>
    let t := t_set_state THREAD_RUNNABLE t in
    let t := t_set_name (idle_name_for_hart hid) t in
    let t := t_set_stack_base (thread_stack hid) t in
    let t := t_set_is_user KERN_THREAD t in
    t_set_can_be_killed 0 t) ;;
  init_thread_context_s hid addr_idle_main hid.

Definition threads_init (user_main : Z) : M kstate unit :=
  upd_core (g_set_ticks 0) ;;
  for_z (Z.to_nat THREAD_MAX) 0 (fun i => upd_thread i (thread_slot_init i)) ;;
  rq_init_all ;;
  for_z (Z.to_nat MAX_HARTS) 0 idle_init ;;
  user_main_tid <- thread_create_user_main user_main 0 ;;
  ASSERT (user_main_tid =? FIRST_TID) "user_main_tid == FIRST_TID".

(** ** The scheduler *)

(** One iteration of [threads_tick]. *)
Definition tick_one (i : Z) : M kstate unit :=
  t <- get_thread i ;;
  now <- core g_ticks ;;
  if state_eqb (t_state t) THREAD_SLEEPING && (t_wakeup_tick t <=? now) then
    upd_thread i (t_set_wakeup_tick 0) ;;
    boot <- core g_boot_hartid ;;
    thread_make_runnable i boot
  else ret tt.

(** Called each timer tick to make SLEEPING threads RUNNABLE. *)
Definition threads_tick : M kstate unit :=
  upd_core (fun g => g_set_ticks (u64 (g_ticks g + 1)) g) ;;
  for_z (Z.to_nat THREAD_MAX) 0 tick_one.

(** The [for (;;)] of [schedule]: pop until a RUNNABLE thread or an empty
    queue. *)
Definition schedule_pick (hartid idle_tid : Z) : M kstate Z :=
  loop RQ_FUEL (
    next_tid <- rq_pop_head hartid ;;
    if next_tid <? 0 then ret (Some idle_tid) else
    cand <- get_thread next_tid ;;
    if state_eqb (t_state cand) THREAD_RUNNABLE then ret (Some next_tid) else ret None).

(** Whether a thread that stopped running is reclaimed on the spot. *)
Definition reclaimable (t : Thread) : bool :=
  state_eqb (t_state t) THREAD_ZOMBIE &&
  (((0 <=? t_join_waiter t) && (t_join_waiter t <? THREAD_MAX)) || z2b (t_detached t)).

(** [schedule], up to the choice of the next thread: the current thread stops
    running; it goes back to the queue if it can still run, and is reclaimed if
    it has exited and nobody needs its slot. *)
Definition sched_depart (hartid cur_tid : Z) (cur_is_idle : bool) : M kstate unit :=
  cur <- get_thread cur_tid ;;
  (if negb cur_is_idle && state_eqb (t_state cur) THREAD_RUNNING then
     upd_thread cur_tid (t_set_state THREAD_RUNNABLE) ;;
     rq_push_tail hartid cur_tid
   else ret tt) ;;
  thread_mark_not_running cur_tid ;;
  when cur_is_idle (upd_thread cur_tid (t_set_state THREAD_RUNNABLE)) ;;
  cur <- get_thread cur_tid ;;
  when (negb cur_is_idle && reclaimable cur) (recycle_thread cur_tid).

(** [schedule], from there on: [next_tid] becomes the hart's current thread. *)
Definition sched_dispatch (hartid cur_tid next_tid : Z) : M kstate tf_ptr :=
  upd_cpu_this (c_set_current_tid next_tid) ;;
  upd_thread next_tid (t_set_state THREAD_RUNNING) ;;
  upd_cpu_this (c_set_slice_left SCHED_SLICE_TICKS) ;;
  upd_cpu_this (c_set_need_resched 0) ;;
  when (negb (next_tid =? cur_tid))
    (upd_cpu_this (fun c => c_set_ctx_switches (u64 (c_ctx_switches c + 1)) c)) ;;
  thread_mark_running next_tid hartid ;;
  upd_cpu_this (c_set_cur_tf (TF_thread next_tid)) ;;
  ret (TF_thread next_tid).

Definition schedule (tf : tf_ptr) : M kstate tf_ptr :=
  c <- cpu_this ;;
  let cur_tid := c_current_tid c in
  ASSERT (bool_decide (tf = c_cur_tf c)) "tf == cpu_this()->cur_tf" ;;
  sched_depart (c_hartid c) cur_tid (cur_tid =? c_idle_tid c) ;;
  next_tid <- schedule_pick (c_hartid c) (c_idle_tid c) ;;
  sched_dispatch (c_hartid c) cur_tid next_tid.

Definition thread_block (tf : tf_ptr) : M kstate unit :=
  cur_tid <- current_tid_get ;;
  upd_thread cur_tid (t_set_state THREAD_BLOCKED) ;;
  schedule tf ;; ret tt.

Definition thread_wake (tid : Z) : M kstate unit :=
  if (tid <? 0) || (THREAD_MAX <=? tid) then ret tt else
  t <- get_thread tid ;;
  if state_eqb (t_state t) THREAD_BLOCKED
  then me <- cpu_current_hartid ;; thread_make_runnable tid me
  else ret tt.

(** ** System calls *)

Definition thread_sys_sleep (tf : tf_ptr) (ticks : Z) : M kstate unit :=
  cur_tid <- current_tid_get ;;
  if ticks =? 0 then schedule tf ;; ret tt else
  now <- core g_ticks ;;
  upd_thread cur_tid (fun t =>
    let t := t_set_state THREAD_SLEEPING t in
    let t := t_set_wakeup_tick (u64 (now + ticks)) t in
    let t := t_set_on_rq 0 t in
    t_set_rq_next (-1) t) ;;
  schedule tf ;; ret tt.

Definition thread_sys_yield (tf : tf_ptr) : M kstate unit := thread_sys_sleep tf 0.

Definition thread_sys_create (tf : tf_ptr) (entry arg name : Z) : M kstate unit :=
  tid <- thread_create_user entry arg name ;; set_a0 tf tid.

(** Waking a joiner: store the exit code if it asked for it, make its [join]
    return 0, clear the wait and make it runnable (the code that [thread_sys_exit]
    and [thread_sys_kill] share). *)
Definition wake_joiner (joiner exit_code : Z) : M kstate unit :=
  w <- get_thread joiner ;;
  when (z2b (t_join_status_ptr w))
    (upd_umem (fun m => store32 m (t_join_status_ptr w) exit_code)) ;;
  upd_thread joiner (fun w => t_set_tf (f_set_a0 0 (t_tf w)) w) ;;
  upd_thread joiner (fun w => t_set_join_status_ptr 0 (t_set_waiting_for (-1) w)) ;;
  me <- cpu_current_hartid ;;
  thread_make_runnable joiner me.

Definition thread_sys_exit (tf : tf_ptr) (exit_code : Z) : M kstate unit :=
  cur_tid <- current_tid_get ;;
  cur <- get_thread cur_tid ;;
  let joiner := t_join_waiter cur in
  f <- get_tf tf ;;
  upd_thread cur_tid (fun t =>
    let t := t_set_tf f t in
    let t := t_set_exit_code exit_code t in
    let t := t_set_state THREAD_ZOMBIE t in
    let t := t_set_on_rq 0 t in
    t_set_rq_next (-1) t) ;;
  when ((0 <=? joiner) && (joiner <? THREAD_MAX))
    (wake_joiner joiner exit_code ;; recycle_thread cur_tid) ;;
  upd_thread cur_tid (t_set_join_waiter (-1)) ;;
  schedule tf ;; ret tt.

Definition thread_sys_join (tf : tf_ptr) (target_tid status_ptr : Z) : M kstate unit :=
  cur_tid <- current_tid_get ;;
  if (target_tid <=? 0) || (THREAD_MAX <=? target_tid) then set_a0 tf (-1) else
  if target_tid =? cur_tid then set_a0 tf (-2) else
  t <- get_thread target_tid ;;
  if state_eqb (t_state t) THREAD_UNUSED then set_a0 tf (-3) else
  if z2b (t_detached t) then set_a0 tf (-5) else
  let busy := (0 <=? t_join_waiter t) && negb (t_join_waiter t =? cur_tid) in
  if state_eqb (t_state t) THREAD_ZOMBIE then
    if busy then set_a0 tf (-4) else
    when (z2b status_ptr) (upd_umem (fun m => store32 m status_ptr (t_exit_code t))) ;;
    recycle_thread target_tid ;;
    set_a0 tf 0
  else
  if busy then set_a0 tf (-4) else
  upd_thread cur_tid (fun c =>
    t_set_join_status_ptr status_ptr
      (t_set_waiting_for target_tid (t_set_state THREAD_WAITING c))) ;;
  upd_thread target_tid (t_set_join_waiter cur_tid) ;;
  schedule tf ;; ret tt.

Definition thread_sys_kill (tf : tf_ptr) (target_tid : Z) : M kstate unit :=
  cur_tid <- current_tid_get ;;
  if (target_tid <? 0) || (THREAD_MAX <=? target_tid) then set_a0 tf (-1) else
  if target_tid =? 0 then set_a0 tf (-2) else
  if target_tid =? cur_tid then set_a0 tf (-4) else
  t <- get_thread target_tid ;;
  if t_can_be_killed t =? 0 then set_a0 tf (-3) else
  if state_eqb (t_state t) THREAD_UNUSED then set_a0 tf (-3) else
  if state_eqb (t_state t) THREAD_ZOMBIE then set_a0 tf 0 else
  let joiner := t_join_waiter t in
  upd_thread target_tid (fun t =>
    t_set_wakeup_tick 0 (t_set_state THREAD_ZOMBIE
      (t_set_exit_code THREAD_EXITCODE_SIGKILL t))) ;;
  when (z2b (t_on_rq t)) (rq_remove_any target_tid ;; ret tt) ;;
  (if (0 <=? t_running_hart t) && (t_running_hart t <? MAX_HARTS) then
     me <- cpu_current_hartid ;;
     if negb (t_running_hart t =? me) then smp_kick_hart (t_running_hart t)
     else upd_cpu_this (c_set_need_resched 1)
   else ret tt) ;;
  when ((0 <=? joiner) && (joiner <? THREAD_MAX)) (
    t <- get_thread target_tid ;;
    wake_joiner joiner (t_exit_code t) ;;
    t <- get_thread target_tid ;;
    if (t_running_hart t <? 0) && negb (z2b (t_on_rq t))
    then recycle_thread target_tid
    else upd_thread target_tid (t_set_join_waiter joiner)) ;;
  when (joiner <? 0) (upd_thread target_tid (t_set_join_waiter (-1))) ;;
  t <- get_thread target_tid ;;
  when ((joiner <? 0) && z2b (t_detached t) && (t_running_hart t <? 0) &&
        negb (z2b (t_on_rq t)))
    (recycle_thread target_tid) ;;
  set_a0 tf 0.

Definition thread_sys_detach (tf : tf_ptr) (target_tid : Z) : M kstate unit :=
  if (target_tid <=? 0) || (THREAD_MAX <=? target_tid) then set_a0 tf (-1) else
  t <- get_thread target_tid ;;
  if state_eqb (t_state t) THREAD_UNUSED then set_a0 tf (-3) else
  if target_tid <? MAX_HARTS then set_a0 tf (-2) else
  if 0 <=? t_join_waiter t then set_a0 tf (-4) else
  if z2b (t_detached t) then set_a0 tf 0 else
  upd_thread target_tid (t_set_detached 1) ;;
  when (state_eqb (t_state t) THREAD_ZOMBIE) (recycle_thread target_tid) ;;
  set_a0 tf 0.

(** ** Introspection *)

(** [t->name[j]] *)
Definition name_char (p : name_ptr) (j : nat) : M kstate Z :=
  match p with
  | NameLit s => ret (default 0 (bytes_of_string s !! j))
  | NameUser a => gets (fun s => load8 (k_umem s) (a + Z.of_nat j))
  end.

Definition name_is_null (p : name_ptr) : bool :=
  match p with NameLit _ => false | NameUser a => a =? 0 end.

(** [while (t->name[j] && j < 31) { dst->name[j] = t->name[j]; ++j; }]: the
    final [j]. *)
Fixpoint name_copy (n : nat) (p : name_ptr) (dst : Z) (j : nat) : M kstate nat :=
  c <- name_char p j ;;
  match n with
  | O => ret j
  | Datatypes.S n' =>
    if z2b c then
      upd_umem (fun m => store8 m (dst + Z.of_nat j) c) ;;
      name_copy n' p dst (j + 1)
    else ret j
  end.

(** [struct u_thread_info]: field offsets and size. *)
Definition UTI_SIZE : Z := 72.

Definition fill_thread_info (dst : Z) (t : Thread) : M kstate unit :=
  let st off v := upd_umem (fun m => store32 m (dst + off) v) in
  st 0 (t_id t) ;;
  st 4 (ThreadState_code (t_state t)) ;;
  st 8 (b2z (z2b (t_is_user t))) ;;
  st 12 (t_exit_code t) ;;
  st 48 (t_running_hart t) ;;
  st 52 (t_last_hart t) ;;
  st 56 (t_migrations t) ;;
  upd_umem (fun m => store64 m (dst + 64) (t_runs t)) ;;
  j <- (if name_is_null (t_name t) then ret 0%nat
        else name_copy 31 (t_name t) (dst + 16) 0) ;;
  upd_umem (fun m => store8 m (dst + 16 + Z.of_nat j) 0).

(** [for (i = 0; i < THREAD_MAX && count < max; ++i)], from [i] on. *)
Fixpoint list_loop (n : nat) (i : Z) (ubuf max count : Z) : M kstate Z :=
  match n with
  | O => ret count
  | Datatypes.S n' =>
    if max <=? count then ret count else
    t <- get_thread i ;;
    if state_eqb (t_state t) THREAD_UNUSED
    then list_loop n' (i + 1) ubuf max count
    else fill_thread_info (ubuf + count * UTI_SIZE) t ;;
         list_loop n' (i + 1) ubuf max (count + 1)
  end.

Definition thread_sys_list (ubuf max : Z) : M kstate Z :=
  if (ubuf =? 0) || (max <=? 0) then ret (-1)
  else list_loop (Z.to_nat THREAD_MAX) 0 ubuf max 0.

(** [struct rq_state]: hart, len, tids[RQ_MAX_TIDS]. *)
Definition RQ_STATE_SIZE : Z := 8 + 4 * RQ_MAX_TIDS.

Definition rq_state_bytes (hart len : Z) (tids : list Z) : list Z :=
  le_bytes 4 hart ++ le_bytes 4 len ++ concat (map (le_bytes 4) tids).

Fixpoint snapshot_loop (m : nat) (h ubuf n out : Z) : M kstate Z :=
  match m with
  | O => ret out
  | Datatypes.S m' =>
    if n <=? out then ret out else
    c <- get_cpu h ;;
    if negb (z2b (c_online c)) then snapshot_loop m' (h + 1) ubuf n out else
    r <- rq_snapshot h (Some (repeat (-1) (Z.to_nat RQ_MAX_TIDS))) (Z.to_nat RQ_MAX_TIDS) ;;
    let len := if fst r <? 0 then 0 else fst r in
    upd_umem (fun u => store_bytes u (ubuf + out * RQ_STATE_SIZE)
                         (rq_state_bytes h (u32 len) (snd r))) ;;
    snapshot_loop m' (h + 1) ubuf n (out + 1)
  end.

Definition sys_runqueue_snapshot (ubuf n : Z) : M kstate Z :=
  if (ubuf =? 0) || (n =? 0) then ret (-1)
  else snapshot_loop (Z.to_nat MAX_HARTS) 0 ubuf n 0.

Definition thread_name (tid : Z) : M kstate name_ptr :=
  if (tid <? 0) || (THREAD_MAX <=? tid) then ret (NameLit "?")
  else t <- get_thread tid ;; ret (t_name t).

(** ** Blocking reads *)

Definition thread_wait_for_stdin (buf len : Z) (tf : tf_ptr) : M kstate unit :=
  cur_tid <- thread_current ;;
  upd_thread cur_tid (fun t => t_set_pending_read_len len (t_set_pending_read_buf buf t)) ;;
  cur <- get_thread cur_tid ;;
  upd_core (g_set_stdin_waiter (t_id cur)) ;;
  thread_block tf.

(** [read] is the [console_reader_t] callback: buffer, length, count read. *)
Definition thread_read_from_stdin (read : Z -> Z -> M kstate Z) : M kstate unit :=
  w <- core g_stdin_waiter ;;
  t <- get_thread w ;;
  if (t_pending_read_buf t =? 0) || (t_pending_read_len t =? 0) then
    w' <- core g_stdin_waiter ;; thread_wake w'
  else
    n <- read (t_pending_read_buf t) (t_pending_read_len t) ;;
    if n <=? 0 then ret tt else
    upd_thread w (fun t => t_set_tf (f_set_a0 (u64 n) (t_tf t)) t) ;;
    upd_thread w (fun t => t_set_pending_read_len 0 (t_set_pending_read_buf 0 t)) ;;
    w' <- core g_stdin_waiter ;; thread_wake w'.

End thread.
