(* ===== verification/Uart.v ===== *)
(** * The 16550 UART driver ([platform/qemu-virt-sbi/uart_16550.c], without its
    interrupt handler, which is in [Irq.v]) and the device-tree helpers it
    uses ([fdt_helper.c]) *)
From stdpp Require Import base numbers list gmap strings.
From Stdlib Require Import ZArith Lia.
From S2P Require Import Prelude Mem Machine State Kernel.

Local Open Scope Z_scope.

Definition UART_RBR : Z := 0.
Definition UART_THR : Z := 0.
Definition UART_IER : Z := 1.
Definition UART_IIR : Z := 2.
Definition UART_LSR : Z := 5.
Definition UART_MSR : Z := 6.
Definition UART_LSR_DR : Z := 1.
Definition UART_LSR_THRE : Z := 32.
Definition UART_IER_ERBFI : Z := 1.
Definition UART_IIR_NO_PENDING : Z := 1.
Definition UART_IIR_ID_MASK : Z := 15.
Definition UART_IIR_ID_MSR : Z := 0.
Definition UART_IIR_ID_THRE : Z := 2.
Definition UART_IIR_ID_RX : Z := 4.
Definition UART_IIR_ID_LSR : Z := 6.
Definition UART_IIR_ID_RXTO : Z := 12.

(** A [const char *] argument: an address, or a buffer on the kernel stack. *)
Inductive cbuf : Type :=
| CB_mem (addr : Z)
| CB_local (bytes : list Z).

Definition cbuf_null (b : cbuf) : bool :=
  match b with CB_mem a => a =? 0 | CB_local _ => false end.

Section uart.
Context {cfg : Config} {hws : Hardware} {dt : DeviceTree}.

(** ** [fdt_helper.c] *)

(** Base and size; [None] is the error return -1. *)
Definition fdt_find_reg_by_compat (fdt : Z) (compat : string) : option (Z * Z) :=
  let offset := fdt_node_offset_by_compatible fdt (-1) compat in
  if offset <? 0 then None else
  match fdt_getprop fdt offset "reg" with
  | None => None
  | Some reg =>
    if (length reg <? 16)%nat then None else
    Some (Z.lor (Z.shiftl (fdt32_cell reg 0) 32) (fdt32_cell reg 1),
          Z.lor (Z.shiftl (fdt32_cell reg 2) 32) (fdt32_cell reg 3))
  end.

Definition fdt_find_irq_by_compat (fdt : Z) (compat : string) : option Z :=
  let offset := fdt_node_offset_by_compatible fdt (-1) compat in
  if offset <? 0 then None else
  match fdt_getprop fdt offset "interrupts" with
  | None => None
  | Some intr => if (length intr <? 4)%nat then None else Some (fdt32_cell intr 0)
  end.

(** ** Registers *)

Definition uart_reg_addr (p : platform_state) (reg_index : Z) : Z :=
  u64 (p_uart_base p + p_uart_reg_offset p + Z.shiftl reg_index (p_uart_reg_shift p)).

Definition uart_width (p : platform_state) : Z :=
  if p_uart_reg_io_width p =? 4 then 4 else
  if p_uart_reg_io_width p =? 2 then 2 else 1.

Definition uart_w (reg_index v : Z) : M kstate unit :=
  p <- plat id ;; mmio_w (uart_width p) (uart_reg_addr p reg_index) (u8 v).
Definition uart_r (reg_index : Z) : M kstate Z :=
  p <- plat id ;; v <- mmio_r (uart_width p) (uart_reg_addr p reg_index) ;; ret (u8 v).

Definition uart_rbr_read : M kstate Z := uart_r UART_RBR.
Definition uart_thr_write (v : Z) : M kstate unit := uart_w UART_THR v.
Definition uart_ier_read : M kstate Z := uart_r UART_IER.
Definition uart_ier_write (v : Z) : M kstate unit := uart_w UART_IER v.
Definition uart_iir_read : M kstate Z := uart_r UART_IIR.
Definition uart_lsr_read : M kstate Z := uart_r UART_LSR.
Definition uart_msr_read : M kstate Z := uart_r UART_MSR.

Definition uart16550_get_irq : M kstate Z := plat p_uart_irq.

(** ** Output, by polling *)

Definition uart16550_putc (c : Z) : M kstate unit :=
  loop poll_fuel (
    lsr <- uart_lsr_read ;;
    if Z.land lsr UART_LSR_THRE =? 0 then ret None else ret (Some tt)) ;;
  uart_thr_write (u8 c).

(** [buf[i]] *)
Definition cbuf_char (b : cbuf) (i : Z) : M kstate Z :=
  match b with
  | CB_mem a => gets (fun s => load8 (k_umem s) (a + i))
  | CB_local l => ret (default 0 (l !! Z.to_nat i))
  end.

(** One character of [uart16550_write]: a newline is sent as CR LF. *)
Definition uart_put_text (c : Z) : M kstate unit :=
  when (c =? 10) (uart16550_putc 13) ;; uart16550_putc c.

Definition uart16550_write (buf : cbuf) (len : Z) : M kstate unit :=
  if cbuf_null buf || (len =? 0) then ret tt else
  for_z (Z.to_nat len) 0 (fun i => c <- cbuf_char buf i ;; uart_put_text c).

(** [while ( *s )] on a string constant of the kernel. *)
Fixpoint put_bytes (l : list Z) : M kstate unit :=
  match l with
  | [] => ret tt
  | c :: l' => uart_put_text c ;; put_bytes l'
  end.
Definition uart16550_puts (s : string) : M kstate unit := put_bytes (bytes_of_string s).

(** The nibble as a digit of [uart16550_put_hex64] and [platform_put_hex64]. *)
Definition hex_digit (nib : Z) : Z := if nib <? 10 then 48 + nib else 97 + (nib - 10).

(** [for (i = 60; i >= 0; i -= 4)]: the 16 digits, most significant first. *)
Fixpoint hex_digits (n : nat) (x : Z) : list Z :=
  match n with
  | O => []
  | Datatypes.S n' => hex_digit (Z.land (Z.shiftr x (4 * Z.of_nat n')) 15) :: hex_digits n' x
  end.

Fixpoint putc_all (l : list Z) : M kstate unit :=
  match l with
  | [] => ret tt
  | c :: l' => uart16550_putc c ;; putc_all l'
  end.
Definition uart16550_put_hex64 (x : Z) : M kstate unit := putc_all (hex_digits 16 x).

(** ** Initialisation from the device tree *)

(** A property with at least one cell. *)
Definition fdt_cell_prop (fdt off : Z) (name : string) : option Z :=
  match fdt_getprop fdt off name with
  | Some p => if (4 <=? length p)%nat then Some (fdt32_cell p 0) else None
  | None => None
  end.

Definition uart16550_parse_dt_params (fdt : Z) : M kstate unit :=
  if fdt =? 0 then ret tt else
  let off := fdt_node_offset_by_compatible fdt (-1) "ns16550a" in
  if off <? 0 then ret tt else
  (match fdt_cell_prop fdt off "reg-shift" with
   | Some v => upd_plat (p_set_uart_reg_shift v) | None => ret tt end) ;;
  (match fdt_cell_prop fdt off "reg-io-width" with
   | Some w => when ((w =? 1) || (w =? 2) || (w =? 4)) (upd_plat (p_set_uart_reg_io_width w))
   | None => ret tt end) ;;
  (match fdt_cell_prop fdt off "reg-offset" with
   | Some v => upd_plat (p_set_uart_reg_offset v) | None => ret tt end).

Definition uart16550_init : M kstate unit :=
  fdt <- plat p_g_dtb ;;
  match fdt_find_reg_by_compat fdt "ns16550a" with
  | None => uart16550_puts ("uart16550_init: no ns16550a reg in fdt" ++ nl)
  | Some (base, _) =>
    match fdt_find_irq_by_compat fdt "ns16550a" with
    | None => uart16550_puts ("uart16550_init: no ns16550a interrupts in fdt" ++ nl)
    | Some irq =>
      upd_plat (p_set_uart_base base) ;;
      upd_plat (p_set_uart_irq irq) ;;
      uart16550_parse_dt_params fdt ;;
      uart_ier_write UART_IER_ERBFI
    end
  end.

End uart.
