(* ===== verification/Plic.v ===== *)
(** * The PLIC driver ([platform/qemu-virt-sbi/plic.c]) *)
From stdpp Require Import base numbers list gmap strings.
From Stdlib Require Import ZArith Lia.
From S2P Require Import Prelude Mem Machine State Kernel Uart.

Local Open Scope Z_scope.

Definition PLIC_PRIORITY_OFFSET : Z := 0.
Definition PLIC_SENABLE_HART0_OFFSET : Z := 8320.       (* 0x002080 *)
Definition PLIC_STHRESHOLD_HART0_OFFSET : Z := 2101248. (* 0x201000 *)
Definition PLIC_SCLAIM_HART0_OFFSET : Z := 2101252.     (* 0x201004 *)
Definition PLIC_CONTEXTS_PER_HART : Z := 2.
Definition PLIC_ENABLE_PER_CONTEXT_STRIDE : Z := 128.
Definition PLIC_CONTEXT_STRIDE : Z := 4096.

Definition plic_senable_offset_for_hart (hartid : Z) : Z :=
  let delta_ctx := u32 (hartid * PLIC_CONTEXTS_PER_HART) in
  u32 (PLIC_SENABLE_HART0_OFFSET + delta_ctx * PLIC_ENABLE_PER_CONTEXT_STRIDE).
Definition plic_sthreshold_offset_for_hart (hartid : Z) : Z :=
  let delta_ctx := u32 (hartid * PLIC_CONTEXTS_PER_HART) in
  u32 (PLIC_STHRESHOLD_HART0_OFFSET + delta_ctx * PLIC_CONTEXT_STRIDE).
Definition plic_sclaim_offset_for_hart (hartid : Z) : Z :=
  let delta_ctx := u32 (hartid * PLIC_CONTEXTS_PER_HART) in
  u32 (PLIC_SCLAIM_HART0_OFFSET + delta_ctx * PLIC_CONTEXT_STRIDE).

(** The enable word of a source in a hart's context, and its bit there. *)
Definition plic_word_off (hartid irq : Z) : Z :=
  u32 (plic_senable_offset_for_hart hartid + 4 * (irq / 32)).
Definition plic_bit (irq : Z) : Z := Z.shiftl 1 (irq mod 32).

Section plic.
Context {cfg : Config} {hws : Hardware} {dt : DeviceTree}.

Definition w32 (off v : Z) : M kstate unit :=
  base <- plat p_plic_base ;; mmio_w 4 (u64 (base + off)) (u32 v).
Definition r32 (off : Z) : M kstate Z :=
  base <- plat p_plic_base ;; v <- mmio_r 4 (u64 (base + off)) ;; ret (u32 v).

Definition plic_ensure_base : M kstate unit :=
  b <- plat p_plic_base ;;
  if negb (b =? 0) then ret tt else
  fdt <- plat p_g_dtb ;;
  if fdt =? 0 then ret tt else
  let off0 := fdt_node_offset_by_compatible fdt (-1) "riscv,plic0" in
  let compat_fallback := off0 <? 0 in
  let plic_off := if off0 <? 0
    then fdt_node_offset_by_compatible fdt (-1) "sifive,plic-1.0.0" else off0 in
  if plic_off <? 0 then ret tt else
  match fdt_find_reg_by_compat fdt
          (if compat_fallback then "sifive,plic-1.0.0" else "riscv,plic0") with
  | None => ret tt
  | Some (base, _) =>
    upd_plat (p_set_plic_num_sources 32) ;;
    (match fdt_cell_prop fdt plic_off "riscv,ndev" with
     | Some n => when (0 <? n) (upd_plat (p_set_plic_num_sources n))
     | None => ret tt
     end) ;;
    upd_plat (p_set_plic_base base)
  end.

Definition plic_init_s_mode : M kstate unit :=
  plic_ensure_base ;;
  base <- plat p_plic_base ;;
  if base =? 0 then ret tt else
  hartid <- cpu_current_hartid ;;
  w32 (plic_sthreshold_offset_for_hart hartid) 0 ;;
  w32 (plic_senable_offset_for_hart hartid) 0.

Definition plic_set_priority (irq prio : Z) : M kstate unit :=
  if irq =? 0 then ret tt else
  plic_ensure_base ;;
  base <- plat p_plic_base ;;
  if base =? 0 then ret tt else
  w32 (u32 (PLIC_PRIORITY_OFFSET + 4 * irq)) prio.

(** The read-modify-write shared by [plic_enable_irq] and [plic_disable_irq]. *)
Definition plic_update_enable (irq : Z) (f : Z -> Z) : M kstate unit :=
  if irq =? 0 then ret tt else
  plic_ensure_base ;;
  base <- plat p_plic_base ;;
  if base =? 0 then ret tt else
  num <- plat p_plic_num_sources ;;
  if z2b num && (num <? irq) then ret tt else
  hartid <- cpu_current_hartid ;;
  en <- r32 (plic_word_off hartid irq) ;;
  w32 (plic_word_off hartid irq) (f en).

Definition plic_enable_irq (irq : Z) : M kstate unit :=
  plic_update_enable irq (fun en => Z.lor en (plic_bit irq)).
Definition plic_disable_irq (irq : Z) : M kstate unit :=
  plic_update_enable irq (fun en => Z.land en (u32 (Z.lnot (plic_bit irq)))).

Definition plic_claim : M kstate Z :=
  plic_ensure_base ;;
  base <- plat p_plic_base ;;
  if base =? 0 then ret 0 else
  hartid <- cpu_current_hartid ;;
  r32 (plic_sclaim_offset_for_hart hartid).

Definition plic_complete (irq : Z) : M kstate unit :=
  if irq =? 0 then ret tt else
  plic_ensure_base ;;
  base <- plat p_plic_base ;;
  if base =? 0 then ret tt else
  hartid <- cpu_current_hartid ;;
  w32 (plic_sclaim_offset_for_hart hartid) irq.

End plic.
