(* ===== verification/Platform.v ===== *)
(** * The platform layer: [platform/qemu-virt-sbi/platform.c] (device tree,
    console output, timer, clock, interrupt table) and [timer.c] *)
From stdpp Require Import base numbers list gmap strings.
From Stdlib Require Import ZArith Lia.
From S2P Require Import Prelude Mem Machine State Kernel Image Uart Plic.

Local Open Scope Z_scope.

(** ** Numbers in decimal *)

(** [while (x > 0) { tmp[len++] = '0' + x % 10; x = x / 10; }]: the digits,
    least significant first, appended to [tmp]. *)
Fixpoint dec_loop (fuel : nat) (x : Z) (tmp : list Z) : list Z :=
  match fuel with
  | O => tmp
  | Datatypes.S f => if 0 <? x then dec_loop f (x / 10) (tmp ++ [48 + (x - x / 10 * 10)]) else tmp
  end.

(** The characters [platform_put_dec_us] puts in [buf]; 20 rounds are enough
    for 64 bits. *)
Definition dec_bytes (x : Z) : list Z :=
  if x =? 0 then [48] else rev (dec_loop 20 x []).

Section platform.
Context {cfg : Config} {hws : Hardware} {dt : DeviceTree}.

(** ** Device tree *)

Definition platform_get_dtb : M kstate Z := plat p_g_dtb.

Definition timebase_of_fdt (fdt : Z) : Z :=
  if fdt =? 0 then 0 else
  let off := fdt_path_offset fdt "/cpus" in
  if 0 <=? off then default 0 (fdt_cell_prop fdt off "timebase-frequency") else 0.

Definition platform_timebase_hz : M kstate Z :=
  hz <- plat p_timebase_hz ;;
  if negb (hz =? 0) then ret hz else
  fdt <- plat p_g_dtb ;;
  let hz := timebase_of_fdt fdt in
  let hz := if hz =? 0 then 10000000 else hz in
  upd_plat (p_set_timebase_hz hz) ;;
  ret hz.

(** ** Console output *)

Definition platform_write (buf : cbuf) (len : Z) : M kstate unit :=
  if cbuf_null buf || (len =? 0) then ret tt else uart16550_write buf len.
Definition platform_write_bytes (l : list Z) : M kstate unit :=
  platform_write (CB_local l) (Z.of_nat (length l)).
Definition platform_putc (c : Z) : M kstate unit := uart16550_putc c.
Definition platform_puts (s : string) : M kstate unit := uart16550_puts s.

Definition platform_put_dec_us (x : Z) : M kstate unit := platform_write_bytes (dec_bytes x).
Definition platform_put_dec_s (v : Z) : M kstate unit :=
  if v <? 0 then
    platform_write_bytes [45] ;;
    platform_put_dec_us (u64 (u64 (- (v + 1)) + 1))
  else platform_put_dec_us (u64 v).
Definition platform_put_hex64 (x : Z) : M kstate unit :=
  platform_write_bytes ([48; 120] ++ hex_digits 16 x).

(** [panic(msg)] of [panic.h]: the message, the file ([__FILE__]) and the line on
    the console, then a loop around [wfi]. *)
Definition panic {A} (msg file : string) (line : Z) : M kstate A :=
  platform_puts (nl ++ "!!! KERNEL PANIC !!!" ++ nl) ;;
  platform_puts ("  message: " ++ msg ++ nl) ;;
  platform_puts ("  file: " ++ source_dir ++ file ++ nl) ;;
  platform_puts "  line: " ;;
  platform_put_dec_us line ;;
  platform_puts nl ;;
  panic_halt.

Definition platform_set_dtb (dtb_pa : Z) : M kstate unit :=
  if dtb_pa =? 0 then ret tt else
  old <- plat p_g_dtb ;;
  if old =? 0 then upd_plat (p_set_g_dtb dtb_pa) else
  if negb (old =? dtb_pa) then
    panic "platform_set_dtb: dtb mismatch" "platform/qemu-virt-sbi/platform.c" 34
  else ret tt.

(** ** Timer ([timer.c]) *)

Definition timer_init : M kstate unit :=
  fdt <- platform_get_dtb ;;
  if fdt =? 0 then platform_puts ("timer: no FDT, fallback to SBI" ++ nl) else
  let found := match fdt_find_reg_by_compat fdt "riscv,aclint-mtimer" with
               | Some _ => true | None => false end in
  when found (platform_puts ("timer: found riscv,aclint-mtimer" ++ nl)) ;;
  let no_clint := match fdt_find_reg_by_compat fdt "sifive,clint0",
                        fdt_find_reg_by_compat fdt "riscv,clint0" with
                  | None, None => true | _, _ => false end in
  when (negb found && no_clint)
    (platform_puts ("timer: no CLINT/ACLINT in FDT, use SBI" ++ nl)).

Definition timer_now : M kstate Z := csr_read CSR_time.
Definition timer_start_at (when_ : Z) : M kstate unit :=
  sbi_call SBI_EID_TIME SBI_FID_SET_TIMER [s64 when_; 0; 0; 0; 0] ;; ret tt.
Definition timer_start_after (delta_ticks : Z) : M kstate unit :=
  now <- timer_now ;; timer_start_at (u64 (now + delta_ticks)).
Definition timer_stop : M kstate unit := timer_start_at (u64 (-1)).

Definition platform_time_now : M kstate Z := timer_now.
Definition platform_timer_start_at (w : Z) : M kstate unit := timer_start_at w.
Definition platform_timer_start_after (d : Z) : M kstate unit := timer_start_after d.
Definition platform_timer_stop : M kstate unit := timer_stop.

Definition platform_sched_delta_ticks : M kstate Z :=
  hz <- platform_timebase_hz ;;
  let ticks := hz / 1000 in
  ret (if ticks =? 0 then 1 else ticks).

(** ** Clock *)

(** [ticks] at [hz] ticks per second, in nanoseconds. *)
Definition ticks_to_ns (hz ticks : Z) : Z :=
  let sec := ticks / hz in
  let rem := u64 (ticks - u64 (sec * hz)) in
  u64 (u64 (sec * 1000000000) + u64 (rem * 1000000000) / hz).

Definition platform_rtc_read_ns : M kstate Z :=
  hz <- platform_timebase_hz ;;
  logged <- plat p_fallback_logged ;;
  when (negb (z2b logged))
    (pr_info "platform_rtc_read_ns: using time CSR (hz=%u)" ;;
     upd_plat (p_set_fallback_logged 1)) ;;
  ticks <- csr_read CSR_time ;;
  if hz =? 0 then undefined else ret (ticks_to_ns hz ticks).

(** ** Interrupt table and statistics *)

Definition get_irq (irq : Z) : M kstate irq_entry_t :=
  fun s => match p_irq_table (k_plat s) !! irq with Some e => Ret (e, s) | None => Undef end.
Definition set_irq (irq : Z) (e : irq_entry_t) : M kstate unit :=
  get_irq irq ;; upd_plat (fun p => p_set_irq_table (<[irq := e]> (p_irq_table p)) p).
Definition get_irq_stat (irq : Z) : M kstate irq_stat_t :=
  fun s => match p_irq_stats (k_plat s) !! irq with Some e => Ret (e, s) | None => Undef end.
Definition set_irq_stat (irq : Z) (e : irq_stat_t) : M kstate unit :=
  get_irq_stat irq ;; upd_plat (fun p => p_set_irq_stats (<[irq := e]> (p_irq_stats p)) p).
Definition get_irq_name (irq : Z) : M kstate (option string) :=
  fun s => match p_irq_name (k_plat s) !! irq with Some e => Ret (e, s) | None => Undef end.
Definition set_irq_name (irq : Z) (n : option string) : M kstate unit :=
  get_irq_name irq ;; upd_plat (fun p => p_set_irq_name (<[irq := n]> (p_irq_name p)) p).

Definition platform_irq_table_init : M kstate unit :=
  for_z (Z.to_nat MAX_IRQ) 0 (fun i => set_irq i {| ie_handler := None; ie_arg := 0 |}).

Definition platform_register_irq_handler (irq : Z) (handler : irq_handler) (arg : Z)
    (name : string) : M kstate unit :=
  if MAX_IRQ <=? irq then ret tt else
  set_irq irq {| ie_handler := Some handler; ie_arg := arg |} ;;
  set_irq_name irq (Some name) ;;
  plic_set_priority irq 1 ;;
  plic_enable_irq irq.

(** The statistics update of [platform_handle_s_external]. *)
Definition irq_stat_update (now : Z) (st : irq_stat_t) : irq_stat_t :=
  let first := if is_count st =? 0 then now else is_first_tick st in
  let delta := u64 (now - is_last_tick st) in
  let maxd := if is_count st =? 0 then is_max_delta st
              else if is_max_delta st <? delta then delta else is_max_delta st in
  {| is_count := u64 (is_count st + 1); is_last_tick := now;
     is_first_tick := first; is_max_delta := maxd |}.

(** [platform_irq_stat_t], as [platform_irq_get_stats] fills it. *)
Record platform_irq_stat_t := mk_platform_irq_stat {
  ps_irq : Z; ps_count : Z; ps_first_tick : Z; ps_last_tick : Z; ps_max_delta : Z;
  ps_name : option string
}.

Fixpoint irq_stats_loop (n : nat) (i : Z) : M kstate (list platform_irq_stat_t) :=
  match n with
  | O => ret []
  | Datatypes.S n' =>
    st <- get_irq_stat i ;;
    name <- get_irq_name i ;;
    l <- irq_stats_loop n' (i + 1) ;;
    ret ({| ps_irq := i; ps_count := is_count st; ps_first_tick := is_first_tick st;
            ps_last_tick := is_last_tick st; ps_max_delta := is_max_delta st;
            ps_name := name |} :: l)
  end.

(** The entries written to [out], from index 0. *)
Definition platform_irq_get_stats (max : Z) : M kstate (list platform_irq_stat_t) :=
  irq_stats_loop (Z.to_nat (if max <? MAX_IRQ then max else MAX_IRQ)) 0.

(** ** Initialisation *)

Definition platform_uart_init : M kstate unit := uart16550_init.
Definition platform_timer_init (hartid : Z) : M kstate unit := timer_init.
(** There is no real-time clock behind the timer. *)
Definition platform_rtc_init : M kstate unit := ret tt.
Definition platform_rtc_set_alarm_after (delay_ns : Z) : M kstate unit := ret tt.
Definition platform_plic_init : M kstate unit := plic_init_s_mode.
(** Interrupts on, and wait for one ([wfi] changes no state). *)
Definition platform_idle : M kstate unit := csr_upd CSR_sstatus CSR_SET SSTATUS_SIE.

Definition platform_init (hartid dtb_pa : Z) : M kstate unit :=
  platform_set_dtb dtb_pa ;;
  platform_uart_init ;;
  platform_rtc_init ;;
  platform_timer_init hartid ;;
  platform_plic_init ;;
  platform_irq_table_init.

Definition platform_boot_hart_init (hartid : Z) : M kstate unit :=
  dtb <- plat p_g_dtb ;;
  ASSERT (negb (dtb =? 0)) "g_dtb != NULL" ;;
  irq <- uart16550_get_irq ;;
  platform_register_irq_handler irq H_uart16550_irq_handler 0 "uart0".

Definition platform_secondary_hart_init (hartid : Z) : M kstate unit :=
  dtb <- plat p_g_dtb ;;
  ASSERT (negb (dtb =? 0)) "g_dtb != NULL" ;;
  plic_init_s_mode.

End platform.
