(* ===== verification/Console.v ===== *)
(** * The console ([kernel/console.c]): an input ring filled by the UART
    interrupt and drained by [read], and the blocked reader *)
From stdpp Require Import base numbers list gmap strings.
From Stdlib Require Import ZArith Lia.
From S2P Require Import Prelude Mem Machine State Kernel Image RunQueue Smp Thread Uart.

Local Open Scope Z_scope.

Section console.
Context {cfg : Config} {hws : Hardware} {dt : DeviceTree}.

Definition rb_is_empty (r : console_state) : bool := g_rx_head r =? g_rx_tail r.
Definition rb_is_full (r : console_state) : bool :=
  u32 (g_rx_head r + 1) mod CONSOLE_RBUF_SIZE =? g_rx_tail r.

Definition con {A} (f : console_state -> A) : M kstate A := gets (fun s => f (k_con s)).
Definition get_rx (i : Z) : M kstate Z :=
  fun s => match g_rx_buf (k_con s) !! i with Some c => Ret (c, s) | None => Undef end.

Definition console_init : M kstate unit :=
  upd_con (fun r => g_set_rx_head 0 (g_set_rx_tail 0 r)) ;;
  upd_core (g_set_stdin_waiter (-1)).

Definition console_write (buf : cbuf) (len : Z) : M kstate unit := uart16550_write buf len.

(** [while (n < len && !rb_is_empty())]: every round consumes a character, so
    the ring size bounds the rounds. *)
Fixpoint console_read_loop (fuel : nat) (buf len n : Z) : M kstate Z :=
  e <- con rb_is_empty ;;
  if (len <=? n) || e then ret n else
  match fuel with
  | O => diverge
  | Datatypes.S f =>
    tail <- con g_rx_tail ;;
    c <- get_rx tail ;;
    upd_umem (fun m => store8 m (buf + n) c) ;;
    upd_con (g_set_rx_tail (u32 (tail + 1) mod CONSOLE_RBUF_SIZE)) ;;
    console_read_loop f buf len (n + 1)
  end.

Definition console_read_nonblock (buf len : Z) : M kstate Z :=
  n <- console_read_loop (Z.to_nat CONSOLE_RBUF_SIZE) buf len 0 ;; ret (s32 n).

Definition console_push (ch : Z) : M kstate unit :=
  full <- con rb_is_full ;;
  when (negb full)
    (head <- con g_rx_head ;;
     get_rx head ;;
     upd_con (fun r => g_set_rx_buf (<[head := u8 ch]> (g_rx_buf r)) r) ;;
     upd_con (g_set_rx_head (u32 (head + 1) mod CONSOLE_RBUF_SIZE))).

Definition console_on_char_from_irq (ch : Z) : M kstate unit :=
  console_push ch ;;
  w <- core g_stdin_waiter ;;
  if w <? 0 then ret tt else
  thread_read_from_stdin console_read_nonblock ;;
  upd_core (g_set_stdin_waiter (-1)).

End console.
