(* ===== verification/Irq.v ===== *)
(** * External interrupts: the UART interrupt handler ([uart_16550.c]) and the
    PLIC dispatch loop ([platform_handle_s_external]) *)
From stdpp Require Import base numbers list gmap strings.
From Stdlib Require Import ZArith Lia.
From S2P Require Import Prelude Mem Machine State Kernel Image RunQueue Smp Thread Uart Plic Platform Console.

Local Open Scope Z_scope.

Section irq.
Context {cfg : Config} {hws : Hardware} {dt : DeviceTree}.

(** [while (uart_lsr_read() & UART_LSR_DR)] *)
Definition uart_drain_rx : M kstate unit :=
  loop poll_fuel (
    lsr <- uart_lsr_read ;;
    if Z.land lsr UART_LSR_DR =? 0 then ret (Some tt) else
    ch <- uart_rbr_read ;;
    console_on_char_from_irq ch ;;
    ret None).

(** The [switch] on the interrupt identification. *)
Definition uart_handle_iir (iir : Z) : M kstate unit :=
  let id := Z.land iir UART_IIR_ID_MASK in
  if (id =? UART_IIR_ID_RX) || (id =? UART_IIR_ID_RXTO) then uart_drain_rx else
  if id =? UART_IIR_ID_LSR then uart_lsr_read ;; ret tt else
  if id =? UART_IIR_ID_MSR then uart_msr_read ;; ret tt else
  if id =? UART_IIR_ID_THRE then ret tt else
  uart_lsr_read ;; uart_msr_read ;; ret tt.

Definition uart16550_irq_handler (irq arg : Z) : M kstate unit :=
  loop poll_fuel (
    iir <- uart_iir_read ;;
    if negb (Z.land iir UART_IIR_NO_PENDING =? 0) then ret (Some tt) else
    uart_handle_iir iir ;; ret None).

Definition call_irq_handler (handler : irq_handler) (irq arg : Z) : M kstate unit :=
  match handler with H_uart16550_irq_handler => uart16550_irq_handler irq arg end.

(** One round: account for the interrupt, run its handler, complete it. *)
Definition handle_one_irq (irq : Z) : M kstate unit :=
  now <- platform_time_now ;;
  when (irq <? MAX_IRQ)
    (st <- get_irq_stat irq ;; set_irq_stat irq (irq_stat_update now st)) ;;
  e <- (if irq <? MAX_IRQ then get_irq irq else ret irq_entry_zero) ;;
  (match ie_handler e with
   | Some h => call_irq_handler h irq (ie_arg e)
   | None => platform_puts ("unknown PLIC irq" ++ nl)
   end) ;;
  plic_complete irq.

Definition platform_handle_s_external (tf : tf_ptr) : M kstate unit :=
  loop poll_fuel (
    irq <- plic_claim ;;
    if irq =? 0 then ret (Some tt) else handle_one_irq irq ;; ret None).

End irq.
