(* ===== verification/Sysfile.v ===== *)
(** * Kernel time ([kernel/time.c]) and the file and clock system calls
    ([kernel/sysfile.c]) *)
From stdpp Require Import base numbers list gmap strings.
From Stdlib Require Import ZArith Lia.
From S2P Require Import Prelude Mem Machine State Kernel Image RunQueue Smp Thread Uart Plic Platform Console.

Local Open Scope Z_scope.

Definition FD_STDIN : Z := 0.
Definition FD_STDOUT : Z := 1.
Definition FD_STDERR : Z := 2.
Definition CLOCK_REALTIME : Z := 0.
Definition CLOCK_MONOTONIC : Z := 1.
Definition IRQSTAT_MAX_NAME : Z := 16.
Definition IRQSTAT_MAX_IRQ : Z := 64.
(** [struct irqstat_user]: its size. *)
Definition IRQSTAT_USER_SIZE : Z := 56.

(** [struct k_timespec] *)
Record k_timespec := mk_k_timespec { tv_sec : Z; tv_nsec : Z }.

Definition ns_to_ts (ns : Z) : k_timespec :=
  {| tv_sec := ns / 1000000000; tv_nsec := u32 (ns mod 1000000000) |}.

Section sysfile.
Context {cfg : Config} {hws : Hardware} {dt : DeviceTree}.

(** ** [time.c] *)

Definition ktime_get_real_ns : M kstate Z := platform_rtc_read_ns.
Definition ktime_get_real_ts : M kstate k_timespec :=
  ns <- ktime_get_real_ns ;; ret (ns_to_ts ns).
Definition ktime_get_monotonic_ns : M kstate Z :=
  now <- platform_rtc_read_ns ;;
  boot <- gets (fun s => g_boot_real_ns (k_trp s)) ;;
  ret (u64 (now - boot)).
Definition ktime_get_monotonic_ts : M kstate k_timespec :=
  ns <- ktime_get_monotonic_ns ;; ret (ns_to_ts ns).
Definition time_init : M kstate unit :=
  ns <- platform_rtc_read_ns ;;
  upd_trp (g_set_boot_real_ns ns) ;;
  pr_info "time_init: boot_real_ns=%llu".

(** ** [sysfile.c] *)

(** The result is a [uint64_t]. *)
Definition sys_write (fd buf len : Z) : M kstate Z :=
  if len =? 0 then ret 0 else
  if (fd =? FD_STDOUT) || (fd =? FD_STDERR)
  then console_write (CB_mem buf) len ;; ret len
  else ret (u64 (-1)).

(** The result and [*is_non_block_read]. *)
Definition sys_read (fd buf len : Z) (tf : tf_ptr) : M kstate (Z * bool) :=
  if negb (fd =? FD_STDIN) then ret (u64 (-1), true) else
  n <- console_read_nonblock buf len ;;
  if 0 <? n then ret (u64 n, true) else
  thread_wait_for_stdin buf len tf ;;
  ret (0, false).

Definition copy_to_user_timespec (u_ts : Z) (k_ts : k_timespec) : M kstate Z :=
  if u_ts =? 0 then ret (-1) else
  upd_umem (fun m => store64 m u_ts (tv_sec k_ts)) ;;
  upd_umem (fun m => store32 m (u_ts + 8) (tv_nsec k_ts)) ;;
  ret 0.

Definition sys_clock_gettime (clock_id u_ts : Z) : M kstate Z :=
  if clock_id =? CLOCK_REALTIME then
    kt <- ktime_get_real_ts ;;
    rc <- copy_to_user_timespec u_ts kt ;;
    ret (if negb (rc =? 0) then -1 else 0)
  else if clock_id =? CLOCK_MONOTONIC then
    kt <- ktime_get_monotonic_ts ;;
    rc <- copy_to_user_timespec u_ts kt ;;
    ret (if negb (rc =? 0) then -1 else 0)
  else ret (-1).

(** The name as [irqstat_user] carries it: cut to 15 bytes, NUL-terminated. *)
Definition irq_name_bytes (name : option string) : list Z :=
  match name with
  | Some n => take (Z.to_nat IRQSTAT_MAX_NAME - 1) (bytes_of_string n) ++ [0]
  | None => [0]
  end.

(** [ubuf[i] = tmp].  The padding of [tmp] and the bytes of [tmp.name] after
    the terminator are uninitialised in the C code: they are left alone here. *)
Definition irqstat_store (a : Z) (st : platform_irq_stat_t) : M kstate unit :=
  upd_umem (fun m => store32 m a (ps_irq st)) ;;
  upd_umem (fun m => store64 m (a + 8) (ps_count st)) ;;
  upd_umem (fun m => store64 m (a + 16) (ps_first_tick st)) ;;
  upd_umem (fun m => store64 m (a + 24) (ps_last_tick st)) ;;
  upd_umem (fun m => store64 m (a + 32) (ps_max_delta st)) ;;
  upd_umem (fun m => store_bytes m (a + 40) (irq_name_bytes (ps_name st))).

Fixpoint irqstats_copy (l : list platform_irq_stat_t) (a : Z) : M kstate unit :=
  match l with
  | [] => ret tt
  | st :: l' => irqstat_store a st ;; irqstats_copy l' (a + IRQSTAT_USER_SIZE)
  end.

Definition sys_irq_get_stats (ubuf n : Z) : M kstate Z :=
  if ubuf =? 0 then ret (-1) else
  kstats <- platform_irq_get_stats (if IRQSTAT_MAX_IRQ <? n then IRQSTAT_MAX_IRQ else n) ;;
  irqstats_copy kstats ubuf ;;
  ret (Z.of_nat (length kstats)).

End sysfile.
