(* ===== verification/Trap.v ===== *)
(** * Traps ([kernel/trap.c]) and the scheduler's interrupt entries
    ([kernel/sched.c]) *)
From stdpp Require Import base numbers list gmap strings.
From Stdlib Require Import ZArith Lia.
From S2P Require Import Prelude Mem Machine State Kernel Image RunQueue Smp Thread Uart Plic Platform Console Irq Sysfile.

Local Open Scope Z_scope.

(** System call numbers ([uapi/usyscall.h]). *)
Definition SYS_SLEEP : Z := 1.
Definition SYS_THREAD_EXIT : Z := 2.
Definition SYS_THREAD_JOIN : Z := 3.
Definition SYS_THREAD_CREATE : Z := 4.
Definition SYS_WRITE : Z := 5.
Definition SYS_READ : Z := 6.
Definition SYS_THREAD_LIST : Z := 7.
Definition SYS_THREAD_KILL : Z := 8.
Definition SYS_CLOCK_GETTIME : Z := 9.
Definition SYS_IRQ_GET_STATS : Z := 10.
Definition SYS_GET_HARTID : Z := 11.
Definition SYS_YIELD : Z := 12.
Definition SYS_THREAD_DETACH : Z := 13.
Definition SYS_RUNQUEUE_SNAPSHOT : Z := 14.

Section trap.
Context {cfg : Config} {hws : Hardware} {dt : DeviceTree}.

(** ** [sched.c] *)

Definition sched_rearm_timer : M kstate unit :=
  d <- platform_sched_delta_ticks ;; platform_timer_start_after d.

Definition sched_init_this_hart (hartid : Z) : M kstate unit :=
  upd_cpu_this (c_set_need_resched 0) ;;
  upd_cpu_this (c_set_slice_left SCHED_SLICE_TICKS).

Definition sched_on_timer_irq (tf : tf_ptr) : M kstate unit :=
  upd_cpu_this (fun c => c_set_timer_irqs (u64 (c_timer_irqs c + 1)) c) ;;
  sched_rearm_timer ;;
  c <- cpu_this ;;
  boot <- core g_boot_hartid ;;
  when (c_hartid c =? boot) threads_tick ;;
  upd_cpu_this (fun c =>
    if 0 <? c_slice_left c then c_set_slice_left (c_slice_left c - 1) c else c) ;;
  c <- cpu_this ;;
  when (c_slice_left c =? 0)
    (upd_cpu_this (c_set_slice_left SCHED_SLICE_TICKS) ;;
     upd_cpu_this (c_set_need_resched 0) ;;
     schedule tf ;; ret tt).

Definition sched_on_ipi_irq (tf : tf_ptr) : M kstate unit :=
  csr_upd CSR_sip CSR_CLEAR SIP_SSIP ;;
  upd_cpu_this (c_set_need_resched 0) ;;
  schedule tf ;; ret tt.

(** ** Diagnostics *)

(** [for (depth = 1; depth < MAX_DEPTH; ++depth)] of [dump_backtrace_from_tf]. *)
Fixpoint backtrace_loop (n : nat) (depth fp stack_lo stack_hi : Z) : M kstate unit :=
  match n with
  | O => ret tt
  | Datatypes.S n' =>
    if (fp <? u64 (stack_lo + 16)) || (stack_hi <? fp) then ret tt else
    saved_ra <- gets (fun s => load64 (k_umem s) (u64 (fp - 8))) ;;
    prev_fp <- gets (fun s => load64 (k_umem s) (u64 (fp - 16))) ;;
    if (saved_ra =? 0) || (prev_fp =? 0) then ret tt else
    if prev_fp <=? fp then ret tt else
    platform_puts "    #" ;;
    platform_put_dec_us depth ;;
    platform_puts "  ra=" ;;
    platform_put_hex64 saved_ra ;;
    platform_puts nl ;;
    backtrace_loop n' (depth + 1) prev_fp stack_lo stack_hi
  end.

Definition MAX_STACK_SCAN : Z := 16 * 1024.

Definition dump_backtrace_from_tf (tf : tf_ptr) : M kstate unit :=
  f <- get_tf tf ;;
  if f_s0 f =? 0 then platform_puts ("  backtrace: <no frame pointer>" ++ nl) else
  let approx_sp := f_sp f in
  let lo := u64 (approx_sp - MAX_STACK_SCAN) in
  let stack_hi := u64 (approx_sp + MAX_STACK_SCAN) in
  let stack_lo := if approx_sp <? lo then 0 else lo in
  platform_puts ("  backtrace:" ++ nl) ;;
  platform_puts "    #0  pc=" ;;
  platform_put_hex64 (f_sepc f) ;;
  platform_puts "  ra=" ;;
  platform_put_hex64 (f_ra f) ;;
  platform_puts nl ;;
  backtrace_loop 15 1 (f_s0 f) stack_lo stack_hi.

(** [platform_puts(name)] on a thread's name. *)
Definition platform_puts_name (p : name_ptr) : M kstate unit :=
  if name_is_null p then ret tt else
  (fix go (fuel : nat) (j : nat) : M kstate unit :=
     match fuel with
     | O => diverge
     | Datatypes.S f =>
       c <- name_char p j ;;
       if z2b c then uart_put_text c ;; go f (j + 1)%nat else ret tt
     end) poll_fuel 0%nat.

Definition print_thread_prefix : M kstate unit :=
  tid <- thread_current ;;
  name <- thread_name tid ;;
  t <- get_thread tid ;;
  platform_putc 91 ;;
  platform_put_hex64 (u64 tid) ;;
  platform_putc 58 ;;
  platform_puts_name name ;;
  platform_putc 58 ;;
  platform_putc (if z2b (t_is_user t) then 85 else 83) ;;
  platform_puts "] ".

Definition from_smode (f : trapframe) : bool := z2b (Z.land (f_sstatus f) SSTATUS_SPP).

Definition dump_trap (tf : tf_ptr) : M kstate unit :=
  f <- get_tf tf ;;
  let is_interrupt := scause_is_interrupt (f_scause f) in
  let code := scause_code (f_scause f) in
  tid <- thread_current ;;
  name <- thread_name tid ;;
  let is_syscall := negb is_interrupt && (code =? EXC_ENV_CALL_U) in
  platform_puts (nl ++ "*** TRAP ***" ++ nl) ;;
  platform_puts "  thread=[" ;;
  platform_put_hex64 (u64 tid) ;;
  platform_putc 58 ;;
  platform_puts_name name ;;
  platform_putc 58 ;;
  platform_putc (if from_smode f then 83 else 85) ;;
  platform_puts ("]" ++ nl) ;;
  platform_puts "  kind=" ;;
  platform_puts (if is_interrupt then "interrupt" else "exception") ;;
  platform_puts " code=" ;;
  platform_put_hex64 code ;;
  when (negb is_interrupt)
    (if code =? EXC_ILLEGAL_INSTR then platform_puts " (Illegal instruction)" else
     if code =? EXC_ENV_CALL_M then platform_puts " (ECALL from M-mode)" else
     if code =? EXC_ENV_CALL_S then platform_puts " (ECALL from S-mode)" else
     when (code =? EXC_ENV_CALL_U) (platform_puts " (ECALL from U-mode)")) ;;
  platform_puts nl ;;
  platform_puts "  sepc=" ;;
  platform_put_hex64 (f_sepc f) ;;
  when is_syscall (platform_puts "  syscall_id=" ;; platform_put_hex64 (f_a0 f)) ;;
  platform_puts nl ;;
  platform_puts "  scause=" ;;
  platform_put_hex64 (f_scause f) ;;
  platform_puts " stval=" ;;
  platform_put_hex64 (f_stval f) ;;
  platform_puts " sstatus=" ;;
  platform_put_hex64 (f_sstatus f) ;;
  platform_puts nl ;;
  when (negb NDEBUG) (dump_backtrace_from_tf tf).

(** ** Probes *)

Definition trap_install_bootstrap_tf : M kstate unit := upd_cpu_this (c_set_cur_tf TF_bootstrap).
Definition trap_illegal_probe_enable : M kstate unit := upd_trp (g_set_illegal_probe_enabled 1).
Definition trap_illegal_probe_disable : M kstate unit := upd_trp (g_set_illegal_probe_enabled 0).
Definition trap_illegal_probe_clear : M kstate unit := upd_trp (g_set_illegal_probe_hit 0).
Definition trap_illegal_probe_hit : M kstate bool :=
  gets (fun s => z2b (g_illegal_probe_hit (k_trp s))).
Definition trap_wfi_probe_enable : M kstate unit :=
  upd_trp (fun r => g_set_wfi_probe_fired 0 (g_set_wfi_probe_enabled 1 r)).
Definition trap_wfi_probe_disable : M kstate unit := upd_trp (g_set_wfi_probe_enabled 0).
Definition trap_wfi_probe_fired : M kstate bool :=
  gets (fun s => z2b (g_wfi_probe_fired (k_trp s))).
Definition trap_wfi_probe_set_pc (pc : Z) : M kstate unit := upd_trp (g_set_wfi_probe_pc pc).

Definition STVEC_MODE_MASK : Z := 3.
Definition trap_init : M kstate unit :=
  csr_upd CSR_stvec CSR_WRITE (Z.land addr_trap_entry (Z.lnot STVEC_MODE_MASK)).

(** [tf->sepc += 4] *)
Definition advance_sepc (tf : tf_ptr) : M kstate unit :=
  upd_tf tf (fun f => f_set_sepc (u64 (f_sepc f + 4)) f).

(** ** Exceptions *)

Definition breakpoint_handler (tf : tf_ptr) : M kstate unit :=
  f <- get_tf tf ;;
  if NDEBUG then dump_trap tf ;; panic "EXC_BREAKPOINT in release build" "kernel/trap.c" 135 else
  pr_debug "*** BREAKPOINT (ebreak) ***" ;;
  pr_debug "  from=%s-mode sepc=0x%016lx" ;;
  pr_debug "  scause=0x%016lx stval=0x%016lx sstatus=0x%016lx" ;;
  dump_backtrace_from_tf tf ;;
  if negb (from_smode f) then
    upd_tf tf (f_set_sepc (u64 (f_sepc f + 4))) ;;
    thread_sys_exit tf (-1)
  else upd_tf tf (f_set_sepc (u64 (f_sepc f + 4))).

Definition syscall_handler (tf : tf_ptr) : M kstate unit :=
  f <- get_tf tf ;;
  let sys_id := f_a0 f in
  let a1 := f_a1 f in let a2 := f_a2 f in let a3 := f_a3 f in
  advance_sepc tf ;;
  if sys_id =? SYS_SLEEP then thread_sys_sleep tf a1 else
  if sys_id =? SYS_THREAD_EXIT then thread_sys_exit tf (s32 a1) else
  if sys_id =? SYS_THREAD_JOIN then thread_sys_join tf (s32 a1) a2 else
  if sys_id =? SYS_THREAD_CREATE then thread_sys_create tf a1 a2 a3 else
  if sys_id =? SYS_THREAD_KILL then thread_sys_kill tf (s32 a1) else
  if sys_id =? SYS_THREAD_LIST then n <- thread_sys_list a1 (s32 a2) ;; set_a0 tf n else
  if sys_id =? SYS_WRITE then n <- sys_write (s32 a1) a2 a3 ;; set_a0 tf n else
  if sys_id =? SYS_READ then
    r <- sys_read (s32 a1) a2 a3 tf ;;
    when (snd r) (set_a0 tf (fst r)) else
  if sys_id =? SYS_CLOCK_GETTIME then r <- sys_clock_gettime (s32 a1) a2 ;; set_a0 tf r else
  if sys_id =? SYS_IRQ_GET_STATS then r <- sys_irq_get_stats a1 a2 ;; set_a0 tf r else
  if sys_id =? SYS_GET_HARTID then h <- cpu_current_hartid ;; set_a0 tf h else
  if sys_id =? SYS_YIELD then thread_sys_yield tf else
  if sys_id =? SYS_THREAD_DETACH then thread_sys_detach tf (s32 a1) else
  if sys_id =? SYS_RUNQUEUE_SNAPSHOT then r <- sys_runqueue_snapshot a1 a2 ;; set_a0 tf r else
  dump_trap tf ;; panic "unknown syscall" "kernel/trap.c" 219.

(** ** The big kernel lock ([lock.h], [spinlock.h]), on one hart at a time:
    the fine-grained protocol is in [Spinlock.v]. *)

(** [do amoswap while (tmp != 0)]: with the lock held by another hart that never
    runs, the loop never ends. *)
Definition kernel_lock : M kstate Z :=
  sstatus <- csr_read CSR_sstatus ;;
  csr_upd CSR_sstatus CSR_CLEAR SSTATUS_SIE ;;
  l <- gets k_kernel_lock ;;
  if z2b l then diverge else modify (k_set_kernel_lock 1) ;; ret sstatus.
Definition kernel_unlock (sstatus : Z) : M kstate unit :=
  modify (k_set_kernel_lock 0) ;; csr_upd CSR_sstatus CSR_WRITE sstatus.

(** ** The trap entry *)

Definition unhandled_trap (tf : tf_ptr) : M kstate unit :=
  dump_trap tf ;; panic "unhandled trap" "kernel/trap.c" 298.

Definition handle_interrupt (tf : tf_ptr) (code : Z) : M kstate unit :=
  if code =? IRQ_SOFT_S then sched_on_ipi_irq tf else
  if code =? IRQ_TIMER_S then
    probe <- gets (fun s => g_wfi_probe_enabled (k_trp s)) ;;
    if z2b probe then
      d <- platform_sched_delta_ticks ;;
      platform_timer_start_after (u64 (d * 100)) ;;
      upd_trp (g_set_wfi_probe_fired 1) ;;
      f <- get_tf tf ;;
      pc <- gets (fun s => g_wfi_probe_pc (k_trp s)) ;;
      when (f_sepc f =? pc) (advance_sepc tf)
    else sched_on_timer_irq tf else
  if code =? IRQ_EXT_S then platform_handle_s_external tf else
  unhandled_trap tf.

Definition handle_exception (tf : tf_ptr) (smode : bool) (code : Z) : M kstate unit :=
  if code =? EXC_ENV_CALL_U then syscall_handler tf else
  if code =? EXC_BREAKPOINT then breakpoint_handler tf else
  if code =? EXC_ILLEGAL_INSTR then
    probe <- gets (fun s => g_illegal_probe_enabled (k_trp s)) ;;
    if smode && z2b probe then
      upd_trp (g_set_illegal_probe_hit 1) ;; advance_sepc tf
    else
      platform_puts ("Illegal instruction" ++ nl) ;;
      if negb smode then thread_sys_exit tf (-1) else unhandled_trap tf
  else unhandled_trap tf.

Definition trap_entry_c (tf : tf_ptr) : M kstate tf_ptr :=
  irq_state <- kernel_lock ;;
  f <- get_tf tf ;;
  let scause := f_scause f in
  let code := scause_code scause in
  (if scause_is_interrupt scause then handle_interrupt tf code
   else handle_exception tf (from_smode f) code) ;;
  c <- cpu_this ;;
  kernel_unlock irq_state ;;
  ret (c_cur_tf c).

End trap.
