(* ===== verification/Boot.v ===== *)
(** * Bringing harts up: [kernel/cpu.c], [arch/riscv/arch.c], [kernel/main.c]
    and the instruction probe of [kernel/probe_illegal.c] *)
From stdpp Require Import base numbers list gmap strings.
From Stdlib Require Import ZArith Lia.
From S2P Require Import Prelude Mem Machine State Kernel Image RunQueue Smp Thread Uart Plic Platform Console Irq Sysfile Trap.

Local Open Scope Z_scope.

(** SBI debug console and hart-state extensions ([sbi.h]). *)
Definition SBI_EID_DBCN : Z := 1145193294.
Definition SBI_FID_DBCN_CONSOLE_WRITE_BYTE : Z := 2.
Definition SBI_EID_HSM : Z := 4739917.
Definition SBI_FID_HSM_HART_START : Z := 0.
Definition SBI_FID_HSM_HART_STOP : Z := 1.
Definition SBI_FID_HSM_HART_STATUS : Z := 2.
Definition SBI_HSM_STATUS_STARTED : Z := 0.
Definition SBI_HSM_STATUS_STOPPED : Z := 1.
Definition SBI_HSM_STATUS_START_PENDING : Z := 2.
Definition SBI_HSM_STATUS_STOP_PENDING : Z := 3.

Definition hsm_status_str (st : Z) : string :=
  if st =? SBI_HSM_STATUS_STARTED then "STARTED" else
  if st =? SBI_HSM_STATUS_STOPPED then "STOPPED" else
  if st =? SBI_HSM_STATUS_START_PENDING then "START_PENDING" else
  if st =? SBI_HSM_STATUS_STOP_PENDING then "STOP_PENDING" else "unknown".

Section boot.
Context {cfg : Config} {hws : Hardware} {dt : DeviceTree}.

(** ** [arch.c] *)

Definition arch_enable_timer_interrupts : M kstate unit :=
  s <- csr_read CSR_sstatus ;;
  csr_upd CSR_sstatus CSR_WRITE (Z.lor s SSTATUS_SIE) ;;
  e <- csr_read CSR_sie ;;
  csr_upd CSR_sie CSR_WRITE (Z.lor e SIE_STIE).
Definition arch_enable_external_interrupts : M kstate unit :=
  csr_upd CSR_sie CSR_SET SIE_SEIE ;; csr_upd CSR_sstatus CSR_SET SSTATUS_SIE.
Definition arch_enable_software_interrupts : M kstate unit :=
  csr_upd CSR_sie CSR_SET SIE_SSIE ;; csr_upd CSR_sstatus CSR_SET SSTATUS_SIE.

(** ** [cpu.c] *)

(** [&g_cpus[hartid]], 56 bytes each. *)
Definition addr_cpu (hartid : Z) : Z := addr_g_cpus + hartid * 56.

Definition smp_set_online (hartid : Z) : M kstate unit := upd_cpu hartid (c_set_online 1).

Definition cpu_init_this_hart (hartid : Z) : M kstate unit :=
  (if MAX_HARTS <=? hartid then PANICF "hartid %lu >= MAX_HARTS" else ret tt) ;;
  upd_cpu hartid (c_set_hartid (u32 hartid)) ;;
  upd_cpu hartid (c_set_kstack_top (cpu_kstack_top (u32 hartid))) ;;
  upd_cpu hartid (c_set_cur_tf TF_null) ;;
  upd_cpu hartid (c_set_idle_tid (s32 hartid)) ;;
  upd_cpu hartid (c_set_current_tid (-1)) ;;
  upd_cpu hartid (c_set_timer_irqs 0) ;;
  upd_cpu hartid (c_set_ctx_switches 0) ;;
  modify (k_set_tp hartid) ;;
  csr_upd CSR_sscratch CSR_WRITE (addr_cpu hartid) ;;
  smp_set_online (u32 hartid) ;;
  sched_init_this_hart (u32 hartid).

(** [arch_first_switch(tf)]: the frame the hart resumes from. *)
Definition arch_first_switch (tf : tf_ptr) : M kstate unit := upd_cpu_this (c_set_cur_tf tf).

Definition cpu_enter_idle (hartid : Z) : M kstate unit :=
  ASSERT (hartid <? MAX_HARTS) "hartid < MAX_HARTS" ;;
  c <- cpu_this ;;
  ASSERT (c_hartid c =? hartid) "c && c->hartid == hartid" ;;
  upd_cpu_this (c_set_idle_tid (s32 hartid)) ;;
  upd_cpu_this (c_set_current_tid (s32 hartid)) ;;
  upd_cpu_this (c_set_cur_tf (TF_thread (s32 hartid))) ;;
  upd_thread (s32 hartid) (t_set_state THREAD_RUNNING) ;;
  thread_mark_running (s32 hartid) hartid ;;
  boot <- core g_boot_hartid ;;
  when (hartid =? boot)
    (d <- platform_sched_delta_ticks ;;
     platform_timer_start_after d ;;
     arch_enable_timer_interrupts ;;
     arch_enable_external_interrupts) ;;
  arch_enable_software_interrupts ;;
  arch_first_switch (TF_thread (s32 hartid)).

Definition wait_for_smp_boot_done : M kstate unit :=
  loop poll_fuel (
    d <- core g_smp_boot_done ;; if z2b d then ret (Some tt) else ret None).

Definition smp_wait_hart_online (hartid timeout_ticks : Z) : M kstate Z :=
  if MAX_HARTS <=? hartid then ret (-1) else
  start <- platform_time_now ;;
  loop poll_fuel (
    now <- platform_time_now ;;
    if negb (u64 (now - start) <? timeout_ticks) then ret (Some (-1)) else
    c <- get_cpu hartid ;;
    if z2b (c_online c) then ret (Some 0) else ret None).

(** ** [probe_illegal.c] *)

Definition probe_enter : M kstate tf_ptr :=
  c <- cpu_this ;; upd_cpu_this (c_set_cur_tf TF_probe) ;; ret (c_cur_tf c).
Definition probe_exit (old : tf_ptr) : M kstate unit := upd_cpu_this (c_set_cur_tf old).

(** [trap.S]: save the registers in [*cpu->cur_tf], call [trap_entry_c], resume
    from the frame it returns. *)
Definition trap_entry (f : trapframe) : M kstate unit :=
  c <- cpu_this ;;
  if bool_decide (c_cur_tf c = TF_null) then diverge else
  upd_tf (c_cur_tf c) (fun _ => f) ;;
  next <- trap_entry_c (c_cur_tf c) ;;
  upd_cpu_this (c_set_cur_tf next).

(** One probed instruction: [illegal] is the frame of the illegal-instruction
    trap it raises, if the hart does not implement it. *)
Definition probe_insn (illegal : option trapframe) : M kstate bool :=
  trap_illegal_probe_clear ;;
  trap_illegal_probe_enable ;;
  (match illegal with Some f => trap_entry f | None => ret tt end) ;;
  trap_illegal_probe_disable ;;
  hit <- trap_illegal_probe_hit ;;
  pr_info "  %s: %s" ;;
  ret hit.

(** [insn i] is how the hart takes the i-th probe. *)
Definition probe_privileged_isa (insn : nat -> option trapframe) : M kstate unit :=
  old <- probe_enter ;;
  pr_info "Probing privileged ISA instructions..." ;;
  probe_insn (insn 0%nat) ;;
  probe_insn (insn 1%nat) ;;
  hit <- probe_insn (insn 2%nat) ;;
  (if negb hit then probe_insn (insn 3%nat) ;; ret tt
   else pr_info "  csrw satp: SKIP") ;;
  probe_insn (insn 4%nat) ;;
  pr_info "  wfi: SKIP (disabled for bring-up)" ;;
  probe_exit old.

(** ** [main.c] *)

Definition sbi_debug_console_write_byte (b : Z) : M kstate unit :=
  sbi_call SBI_EID_DBCN SBI_FID_DBCN_CONSOLE_WRITE_BYTE [u8 b; 0; 0; 0; 0] ;; ret tt.

Fixpoint sbi_put_bytes (l : list Z) : M kstate unit :=
  match l with
  | [] => ret tt
  | b :: l' => sbi_debug_console_write_byte b ;; sbi_put_bytes l'
  end.
Fixpoint sbi_console_puts_bytes (l : list Z) : M kstate unit :=
  match l with
  | [] => ret tt
  | b :: l' =>
    when (b =? 10) (sbi_debug_console_write_byte 13) ;;
    sbi_debug_console_write_byte b ;; sbi_console_puts_bytes l'
  end.
Definition sbi_console_puts (s : string) : M kstate unit :=
  sbi_console_puts_bytes (bytes_of_string s).
Definition sbi_put_hex64 (v : Z) : M kstate unit := sbi_put_bytes (hex_digits 16 v).
Definition sbi_put_dec (v : Z) : M kstate unit := sbi_put_bytes (dec_bytes v).

Definition sbi_early_banner (hartid dtb_pa : Z) : M kstate unit :=
  sbi_console_puts "kernel_main entry hart=" ;;
  sbi_put_dec (u64 hartid) ;;
  sbi_console_puts " dtb_pa=0x" ;;
  sbi_put_hex64 (u64 dtb_pa) ;;
  sbi_console_puts nl.

Definition sbi_hart_status (h : Z) : M kstate (Z * Z) :=
  sbi_call SBI_EID_HSM SBI_FID_HSM_HART_STATUS [h; 0; 0; 0; 0].
Definition sbi_hart_start (h start opaque : Z) : M kstate (Z * Z) :=
  sbi_call SBI_EID_HSM SBI_FID_HSM_HART_START [h; start; opaque; 0; 0].
Definition sbi_hart_stop : M kstate (Z * Z) := sbi_call SBI_EID_HSM SBI_FID_HSM_HART_STOP [0; 0; 0; 0; 0].
Definition sbi_set_timer (stime_value : Z) : M kstate unit :=
  sbi_call SBI_EID_TIME SBI_FID_SET_TIMER [s64 stime_value; 0; 0; 0; 0] ;; ret tt.

(** The wait of [start_other_harts] for hart [h]; the static [logged_mask] is
    threaded through.  Shifting [1u] by 32 or more is undefined. *)
Fixpoint hart_wait (fuel : nat) (h start timeout first_started last_status mask : Z)
    : M kstate Z :=
  match fuel with
  | O => diverge
  | Datatypes.S n =>
    now <- platform_time_now ;;
    if negb (u64 (now - start) <? timeout) then
      pr_warn "hart%u did not come online; last status=%s/%ld" ;; ret mask
    else
    st <- sbi_hart_status h ;;
    let ok := fst st =? 0 in
    let last_status := if ok then snd st else last_status in
    let first_started :=
      if ok && (snd st =? SBI_HSM_STATUS_STARTED) && (first_started =? -1)
      then snd st else first_started in
    c <- get_cpu h ;;
    if z2b (c_online c) then pr_info "hart%u online (HSM=%s/%ld, last=%s/%ld)" ;; ret mask
    else if ok && ((snd st =? SBI_HSM_STATUS_STARTED) ||
                   (snd st =? SBI_HSM_STATUS_START_PENDING)) then
      if 32 <=? h then undefined else
      if Z.land mask (Z.shiftl 1 h) =? 0 then
        pr_debug "hart%u HSM status=%s, waiting for S-mode online" ;;
        hart_wait n h start timeout first_started last_status (Z.lor mask (Z.shiftl 1 h))
      else hart_wait n h start timeout first_started last_status mask
    else hart_wait n h start timeout first_started last_status mask
  end.

Definition start_hart (h dtb_pa secondary_entry timeout mask : Z) : M kstate Z :=
  st_before <- sbi_hart_status h ;;
  (if fst st_before =? 0 then pr_info "hart%u status before start: %s (%ld)"
   else pr_warn "hart%u status query failed: err=%ld") ;;
  pr_debug "sbi_hart_start args: hart=%ld start=%p opaque=%p" ;;
  r <- sbi_hart_start h secondary_entry dtb_pa ;;
  when (negb (fst r =? 0)) (pr_warn "sbi_hart_start(hart=%u) failed: err=%ld") ;;
  start <- platform_time_now ;;
  hart_wait poll_fuel h start timeout (-1) (-1) mask.

Fixpoint start_harts_loop (n : nat) (h boot dtb_pa entry timeout mask : Z) : M kstate unit :=
  match n with
  | O => ret tt
  | Datatypes.S n' =>
    if h =? boot then start_harts_loop n' (h + 1) boot dtb_pa entry timeout mask else
    mask <- start_hart h dtb_pa entry timeout mask ;;
    start_harts_loop n' (h + 1) boot dtb_pa entry timeout mask
  end.

Definition start_other_harts (dtb_pa secondary_entry : Z) : M kstate unit :=
  boot <- core g_boot_hartid ;;
  ASSERT (negb (boot =? NO_BOOT_HART)) "g_boot_hartid != NO_BOOT_HART" ;;
  d <- platform_sched_delta_ticks ;;
  start_harts_loop (Z.to_nat MAX_HARTS) 0 boot dtb_pa secondary_entry (u64 (d * 100)) 0.

(** [kernel_main] up to the choice of a boot hart: whether this hart is it. *)
Definition kernel_entry (hartid dtb_pa : Z) : M kstate bool :=
  sbi_early_banner hartid dtb_pa ;;
  cpu_init_this_hart hartid ;;
  boot <- core g_boot_hartid ;;
  if boot =? NO_BOOT_HART then upd_core (g_set_boot_hartid (u32 hartid)) ;; ret true
  else ret false.

(** [primary_main] up to [cpu_enter_idle].  [log_init_baremetal] only sets the
    variables of the log, which are not part of [kstate]. *)
Definition primary_init (hartid dtb_pa user_main secondary_entry : Z)
    (insn : nat -> option trapframe) : M kstate unit :=
  platform_init hartid dtb_pa ;;
  platform_boot_hart_init hartid ;;
  platform_puts ("Booting..." ++ nl) ;;
  trap_init ;;
  trap_install_bootstrap_tf ;;
  console_init ;;
  probe_privileged_isa insn ;;
  time_init ;;
  threads_init user_main ;;
  set_smp_boot_done ;;
  start_other_harts dtb_pa secondary_entry ;;
  pr_info "Kernel built as %s, CPUS=%d, Boot Hart=%ld" ;;
  pr_info "Boot Hart: system init done.".

Definition primary_main (hartid dtb_pa user_main secondary_entry : Z)
    (insn : nat -> option trapframe) : M kstate unit :=
  primary_init hartid dtb_pa user_main secondary_entry insn ;;
  cpu_enter_idle (u32 hartid).

Definition secondary_main (hartid dtb_pa : Z) : M kstate unit :=
  platform_secondary_hart_init hartid ;;
  trap_init ;;
  pr_info "hart %ld online (secondary)" ;;
  cpu_enter_idle (u32 hartid).

Definition kernel_main (hartid dtb_pa user_main secondary_entry : Z)
    (insn : nat -> option trapframe) : M kstate unit :=
  boot <- kernel_entry hartid dtb_pa ;;
  if boot : bool then primary_main hartid dtb_pa user_main secondary_entry insn
  else wait_for_smp_boot_done ;; secondary_main hartid dtb_pa.

End boot.
