(* ===== verification/Invariant.v ===== *)
(** * The invariant of the kernel's shared state

    [inv_x X s q]: the run queues represent the family [q], every hart that runs
    threads and the thread it runs agree with each other, every thread is in a
    consistent state and every join in progress is linked both ways.  Threads
    in [X] are in the middle of a transition by the code that is running and are
    exempt from the clauses about the thread's own state; between two traps [X]
    is empty. *)
From stdpp Require Import base numbers list gmap strings.
From Stdlib Require Import ZArith Lia.
From S2P Require Import Prelude Mem Machine State Kernel Image RunQueue Smp Thread.

Local Open Scope Z_scope.

Section invariant.
Context {cfg : Config} {hws : Hardware}.

(** A hart that runs threads: its trap frame pointer is a thread's. *)
Definition live (c : cpu_t) : Prop := exists j, c_cur_tf c = TF_thread j.

Definition cpu_ok (h : Z) (c : cpu_t) : Prop :=
  (c_online c <> 0 -> c_hartid c = h /\ c_idle_tid c = h) /\
  (live c -> c_online c <> 0 /\ c_cur_tf c = TF_thread (c_current_tid c) /\
     (c_current_tid c = h \/ user_tid (c_current_tid c))).

(** Ranges that hold of every slot at every point. *)
Definition thread_base (i : Z) (t : Thread) : Prop :=
  t_id t = i /\ -1 <= t_running_hart t < MAX_HARTS /\
  (t_join_waiter t = -1 \/ user_tid (t_join_waiter t) /\ t_join_waiter t <> i) /\
  (i < MAX_HARTS -> t_can_be_killed t = 0 /\ t_detached t = 0 /\
     (t_state t = THREAD_RUNNABLE \/ t_state t = THREAD_RUNNING)) /\
  (t_state t = THREAD_UNUSED ->
     t_running_hart t = -1 /\ t_join_waiter t = -1 /\ t_on_rq t = 0).

(** A thread between two transitions. *)
Definition thread_ok (i : Z) (t : Thread) : Prop :=
  (MAX_HARTS <= i -> (t_state t = THREAD_RUNNABLE <-> t_on_rq t <> 0)) /\
  (t_state t = THREAD_RUNNING -> 0 <= t_running_hart t) /\
  (0 <= t_running_hart t -> t_state t = THREAD_RUNNING \/ t_state t = THREAD_ZOMBIE).

(** [w] waits in [join] for [i]. *)
Definition joins (s : kstate) (w i : Z) : Prop :=
  exists tw, thr s w = Some tw /\ t_state tw = THREAD_WAITING /\ t_waiting_for tw = i.

Record inv_x (X : Z -> Prop) (s : kstate) (q : Z -> list Z) : Prop := {
  ix_queues : queues s q;
  ix_thr_dom : forall i, tid_ok i <-> is_Some (thr s i);
  ix_cpu_dom : forall h, hart_ok h <-> is_Some (cpu s h);
  ix_tp : hart_ok (k_tp s);
  ix_boot : hart_ok (g_boot_hartid (k_core s));
  ix_stdin : -1 <= g_stdin_waiter (k_core s) < THREAD_MAX;
  ix_cpu : forall h c, cpu s h = Some c -> cpu_ok h c;
  ix_inj : forall h h' c c', cpu s h = Some c -> cpu s h' = Some c' ->
    live c -> live c' -> c_current_tid c = c_current_tid c' -> h = h';
  ix_base : forall i t, thr s i = Some t -> thread_base i t;
  ix_thr : forall i t, thr s i = Some t -> ~ X i -> thread_ok i t;
  ix_run1 : forall h c t, cpu s h = Some c -> live c -> ~ X (c_current_tid c) ->
    thr s (c_current_tid c) = Some t -> t_running_hart t = h;
  ix_run2 : forall i t, thr s i = Some t -> ~ X i -> 0 <= t_running_hart t ->
    exists c, cpu s (t_running_hart t) = Some c /\ live c /\ c_current_tid c = i;
  ix_join : forall i t, thr s i = Some t -> t_state t <> THREAD_ZOMBIE ->
    0 <= t_join_waiter t -> joins s (t_join_waiter t) i
}.

Definition none : Z -> Prop := fun _ => False.
Definition only (i : Z) : Z -> Prop := fun j => j = i.

(** The invariant between traps. *)
Definition inv (s : kstate) : Prop := exists q, inv_x none s q.

(** What operations on one thread leave alone: other threads up to their list
    link, and the harts up to their rescheduling hints. *)
Definition link_only (t t' : Thread) : Prop := exists n, t' = t_set_rq_next n t.

Definition cpu_hint (c c' : cpu_t) : Prop :=
  c_cur_tf c' = c_cur_tf c /\ c_hartid c' = c_hartid c /\ c_online c' = c_online c /\
  c_current_tid c' = c_current_tid c /\ c_idle_tid c' = c_idle_tid c /\
  c_ctx_switches c' = c_ctx_switches c /\ c_timer_irqs c' = c_timer_irqs c.

Record frame (T : Z -> Prop) (s s' : kstate) : Prop := {
  fr_thr : forall i, ~ T i -> option_Forall2 link_only (thr s i) (thr s' i);
  fr_cpu : forall h, option_Forall2 cpu_hint (cpu s h) (cpu s' h);
  fr_tp : k_tp s' = k_tp s;
  fr_lock : k_kernel_lock s' = k_kernel_lock s;
  fr_boot : g_boot_hartid (k_core s') = g_boot_hartid (k_core s);
  fr_ticks : g_ticks (k_core s') = g_ticks (k_core s);
  fr_smp : g_smp_boot_done (k_core s') = g_smp_boot_done (k_core s);
  fr_stdin : g_stdin_waiter (k_core s') = g_stdin_waiter (k_core s);
  fr_con : k_con s' = k_con s;
  fr_plat : k_plat s' = k_plat s;
  fr_umem : k_umem s' = k_umem s;
  fr_trp : k_trp s' = k_trp s
}.

End invariant.

(** ** Queues under updates of the thread table *)

Section queue_updates.
Context {cfg : Config} {hws : Hardware}.
Implicit Types (s : kstate) (q : Z -> list Z) (t : Thread).

(** The invariant reads nothing but the threads and the queue headers. *)
Lemma queues_state s s' q :
  (forall i, thr s' i = thr s i) -> (forall h, rqs s' h = rqs s h) ->
  queues s q -> queues s' q.
Proof.
  intros Ht Hr Hq. split.
  - intros h Hh. destruct (queues_rep s q Hq h Hh) as (r & H1 & H2 & H3 & H4 & H5).
    exists r. rewrite Hr. repeat (split; [done|]).
    eapply chain_ext; [|exact H5]. intros i _. unfold nxt. by rewrite Ht.
  - apply (queues_valid s q Hq).
  - apply (queues_nodup s q Hq).
  - apply (queues_disj s q Hq).
  - intros i t Hi. rewrite Ht in Hi. by apply (queues_on_rq s q Hq).
Qed.

(** Replacing a thread that keeps its place in the queues. *)
Lemma queues_thread s q i t t' :
  queues s q -> thr s i = Some t ->
  t_rq_next t' = t_rq_next t -> t_on_rq t' = t_on_rq t ->
  queues (with_thread i t' s) q.
Proof.
  intros Hq Ht Hn Ho. split.
  - intros h Hh. destruct (queues_rep s q Hq h Hh) as (r & H1 & H2 & H3 & H4 & H5).
    exists r. rewrite rqs_with_thread. repeat (split; [done|]).
    eapply chain_ext; [|exact H5]. intros j _. rewrite nxt_with_thread.
    case_decide; [subst|done]. unfold nxt. by rewrite Ht, Hn.
  - apply (queues_valid s q Hq).
  - apply (queues_nodup s q Hq).
  - apply (queues_disj s q Hq).
  - intros j u Hj. rewrite thr_with_thread in Hj. case_decide.
    + subst. injection Hj as <-. rewrite Ho. by apply (queues_on_rq s q Hq).
    + by apply (queues_on_rq s q Hq).
Qed.

(** Replacing a thread that is in no queue by another such. *)
Lemma queues_off s q i t t' :
  queues s q -> thr s i = Some t -> t_on_rq t = 0 -> t_on_rq t' = 0 ->
  queues (with_thread i t' s) q.
Proof.
  intros Hq Ht Ho Ho'.
  assert (Hnot : forall h, hart_ok h -> i ∉ q h) by (intros; by eapply queues_unflagged).
  split.
  - intros h Hh. destruct (queues_rep s q Hq h Hh) as (r & H1 & H2 & H3 & H4 & H5).
    exists r. rewrite rqs_with_thread. repeat (split; [done|]).
    eapply chain_ext; [|exact H5]. intros j Hj. rewrite nxt_with_thread.
    case_decide; [subst|done]. by destruct (Hnot h Hh).
  - apply (queues_valid s q Hq).
  - apply (queues_nodup s q Hq).
  - apply (queues_disj s q Hq).
  - intros j u Hj. rewrite thr_with_thread in Hj. case_decide.
    + subst. injection Hj as <-. right. by split.
    + by apply (queues_on_rq s q Hq).
Qed.

End queue_updates.

(** ** The invariant under updates *)

Section inv_updates.
Context {cfg : Config} {hws : Hardware}.
Implicit Types (s : kstate) (q : Z -> list Z) (t : Thread) (X : Z -> Prop).

(** Parts of the state the invariant does not read. *)
Lemma inv_x_state X s s' q :
  k_core s' = k_core s -> k_tp s' = k_tp s -> inv_x X s q -> inv_x X s' q.
Proof.
  intros Hc Htp [H1 H2 H3 H4 H5 H6 H7 H8 H9 H10 H11 H12 H13].
  assert (Ht : forall i, thr s' i = thr s i) by (intros; unfold thr; by rewrite Hc).
  assert (Hcp : forall i, cpu s' i = cpu s i) by (intros; unfold cpu; by rewrite Hc).
  split; rewrite ?Hc, ?Htp; try done.
  - eapply queues_state; [..|exact H1]; [done|]. intros h. unfold rqs. by rewrite Hc.
  - intros i. rewrite Ht. apply H2.
  - intros i. rewrite Hcp. apply H3.
  - intros h c. rewrite Hcp. apply H7.
  - intros h h' c c'. rewrite !Hcp. apply H8.
  - intros i t. rewrite Ht. apply H9.
  - intros i t. rewrite Ht. apply H10.
  - intros h c t. rewrite Hcp, Ht. apply H11.
  - intros i t. rewrite Ht. setoid_rewrite Hcp. apply H12.
  - intros i t. rewrite Ht. unfold joins. setoid_rewrite Ht. apply H13.
Qed.

Lemma inv_x_weaken X Y s q :
  (forall i, X i -> Y i) -> inv_x X s q -> inv_x Y s q.
Proof.
  intros HXY [H1 H2 H3 H4 H5 H6 H7 H8 H9 H10 H11 H12 H13].
  split; try done; naive_solver.
Qed.

(** Replacing one thread. *)
Lemma inv_x_thread X s q i t t' :
  inv_x X s q -> thr s i = Some t -> queues (with_thread i t' s) q ->
  thread_base i t' ->
  (~ X i -> thread_ok i t' /\ t_running_hart t' = t_running_hart t) ->
  (t_state t' <> THREAD_ZOMBIE -> 0 <= t_join_waiter t' ->
     (t_join_waiter t' = t_join_waiter t /\ t_state t <> THREAD_ZOMBIE) \/
     joins s (t_join_waiter t') i) ->
  (t_state t = THREAD_WAITING ->
     (t_state t' = THREAD_WAITING /\ t_waiting_for t' = t_waiting_for t) \/
     forall k tk, k <> i -> thr s k = Some tk -> t_state tk <> THREAD_ZOMBIE ->
       t_join_waiter tk <> i) ->
  inv_x X (with_thread i t' s) q.
Proof.
  intros [H1 H2 H3 H4 H5 H6 H7 H8 H9 H10 H11 H12 H13] Ht Hq Hb Hok Hj Hw.
  split; try done.
  - intros k. rewrite thr_with_thread. case_decide; [subst|apply H2].
    split; [eauto|]. intros _. apply H2. eauto.
  - intros k u. rewrite thr_with_thread. case_decide; [|apply H9].
    subst. by intros [= <-].
  - intros k u. rewrite thr_with_thread. case_decide; [|apply H10].
    subst. intros [= <-] HX. by apply Hok.
  - intros h c u Hc Hl HX. rewrite thr_with_thread. case_decide as E; [|by apply H11].
    subst i. intros [= <-]. destruct (Hok HX) as [_ ->]. by eapply H11.
  - intros k u. rewrite thr_with_thread. case_decide; [|apply H12].
    subst. intros [= <-] HX. destruct (Hok HX) as [_ ->]. by apply H12.
  - intros k u. rewrite thr_with_thread.
    assert (Hmono : forall k w, k <> i -> joins s w k -> (exists tk, thr s k = Some tk /\
              t_state tk <> THREAD_ZOMBIE /\ t_join_waiter tk = w) ->
              joins (with_thread i t' s) w k).
    { intros k' w Hk' (tw & Htw & Hst & Hwf) (tk & Htk & Hz & Hjk).
      unfold joins. rewrite thr_with_thread. case_decide as E; [subst w|eauto].
      exists t'. split; [done|]. subst i. rewrite Ht in Htw. injection Htw as ->.
      destruct (Hw Hst) as [[? ->]|Hno]; [done|]. by destruct (Hno k' tk Hk' Htk Hz). }
    case_decide as E.
    + subst k. intros [= <-] Hz H0.
      assert (t_join_waiter t' <> i) by (destruct Hb as (_ & _ & Hb & _); lia).
      assert (joins s (t_join_waiter t') i) as (tw & Htw & Hst & Hwf).
      { destruct (Hj Hz H0) as [[E' Hz']|?]; [|done].
        rewrite E' in *. by apply (H13 i t). }
      unfold joins. rewrite thr_with_thread. rewrite decide_False by done. eauto.
    + intros Hu Hz H0. apply Hmono; [done| |eauto]. by apply H13.
Qed.

(** The fields of a thread the invariant is about. *)
Definition skel (t : Thread) :=
  (t_id t, t_state t, t_running_hart t, t_rq_next t, t_on_rq t,
   (t_join_waiter t, t_waiting_for t, t_detached t, t_can_be_killed t)).

Lemma inv_x_skel X s q i t t' :
  inv_x X s q -> thr s i = Some t -> skel t' = skel t ->
  inv_x X (with_thread i t' s) q.
Proof.
  intros Hi Ht E. injection E as E1 E2 E3 E4 E5 E6 E7 E8 E9.
  pose proof (ix_base X s q Hi i t Ht) as Hb.
  pose proof (ix_thr X s q Hi i t Ht) as Hok.
  eapply inv_x_thread; try done.
  - eapply queues_thread; try done. apply (ix_queues X s q Hi).
  - unfold thread_base in *. by rewrite E1, E2, E3, E5, E6, E8, E9.
  - intros HX. unfold thread_ok in *. rewrite E2, E3, E5. split; [by apply Hok|done].
  - rewrite E2, E6. intros. by left.
  - rewrite E2, E7. intros. by left.
Qed.

(** Replacing an exempt thread that is in no queue and joined by nobody new. *)
Lemma inv_x_off X s q i t t' :
  inv_x X s q -> thr s i = Some t -> X i -> t_on_rq t = 0 -> t_on_rq t' = 0 ->
  thread_base i t' ->
  (t_state t' = THREAD_ZOMBIE \/ t_join_waiter t' = -1 \/
   (t_join_waiter t' = t_join_waiter t /\ t_state t <> THREAD_ZOMBIE)) ->
  (t_state t = THREAD_WAITING ->
     t_state t' = THREAD_WAITING /\ t_waiting_for t' = t_waiting_for t) ->
  inv_x X (with_thread i t' s) q.
Proof.
  intros Hi Ht HX Ho Ho' Hb Hj Hw.
  eapply inv_x_thread; try done.
  - eapply queues_off; try done. apply (ix_queues X s q Hi).
  - intros. destruct Hj as [?|[E|?]]; [done|rewrite E in *; lia|by left].
  - intros ?. left. by apply Hw.
Qed.

(** Replacing an exempt thread that keeps its place in the queues. *)
Lemma inv_x_exempt X s q i t t' :
  inv_x X s q -> thr s i = Some t -> X i ->
  t_rq_next t' = t_rq_next t -> t_on_rq t' = t_on_rq t -> thread_base i t' ->
  (t_state t' = THREAD_ZOMBIE \/ t_join_waiter t' = -1 \/
   (t_join_waiter t' = t_join_waiter t /\ t_state t <> THREAD_ZOMBIE)) ->
  (t_state t = THREAD_WAITING ->
     (t_state t' = THREAD_WAITING /\ t_waiting_for t' = t_waiting_for t) \/
     forall k tk, k <> i -> thr s k = Some tk -> t_state tk <> THREAD_ZOMBIE ->
       t_join_waiter tk <> i) ->
  inv_x X (with_thread i t' s) q.
Proof.
  intros Hi Ht HX En Eo Hb Hj Hw.
  eapply inv_x_thread; try done.
  - eapply queues_thread; try done. apply (ix_queues X s q Hi).
  - intros. destruct Hj as [?|[E|?]]; [done|rewrite E in *; lia|by left].
Qed.

(** Harts: only their rescheduling hints change. *)
Lemma cpu_hint_live c c' : cpu_hint c c' -> live c' <-> live c.
Proof. unfold cpu_hint, live. intros (-> & _). done. Qed.

(** The fields of a hart the invariant is about. *)
Definition cpu_same (c c' : cpu_t) : Prop :=
  c_cur_tf c' = c_cur_tf c /\ c_hartid c' = c_hartid c /\ c_online c' = c_online c /\
  c_current_tid c' = c_current_tid c /\ c_idle_tid c' = c_idle_tid c.

Lemma cpu_same_live c c' : cpu_same c c' -> live c' <-> live c.
Proof. unfold cpu_same, live. intros (-> & _). done. Qed.

Lemma inv_x_cpu_same X s q h c c' :
  inv_x X s q -> cpu s h = Some c -> cpu_same c c' -> inv_x X (with_cpu h c' s) q.
Proof.
  intros [H1 H2 H3 H4 H5 H6 H7 H8 H9 H10 H11 H12 H13] Hc Hh.
  assert (Hcpu : forall k u, cpu (with_cpu h c' s) k = Some u ->
            exists u', cpu s k = Some u' /\ cpu_same u' u).
  { intros k u. rewrite cpu_with_cpu. case_decide; [subst|].
    - intros [= <-]. eauto.
    - intros Hu. exists u. split; [done|]. repeat split. }
  split; try done.
  - by eapply queues_state; [..|exact H1].
  - intros k. rewrite H3, cpu_with_cpu. case_decide; [subst|done].
    rewrite Hc. split; eauto.
  - intros k u Hu. destruct (Hcpu k u Hu) as (u' & Hu' & E).
    pose proof (H7 k u' Hu') as [Ha Hb]. pose proof (cpu_same_live _ _ E) as El.
    destruct E as (E1 & E2 & E3 & E4 & E5). unfold cpu_ok.
    rewrite E1, E2, E3, E4, E5, El. done.
  - intros k k' u v Hu Hv Hlu Hlv.
    destruct (Hcpu k u Hu) as (u' & Hu' & Eu), (Hcpu k' v Hv) as (v' & Hv' & Ev).
    rewrite (cpu_same_live _ _ Eu) in Hlu. rewrite (cpu_same_live _ _ Ev) in Hlv.
    destruct Eu as (_ & _ & _ & -> & _), Ev as (_ & _ & _ & -> & _). by eapply H8.
  - intros k u t Hu Hl. destruct (Hcpu k u Hu) as (u' & Hu' & Eu).
    rewrite (cpu_same_live _ _ Eu) in Hl. destruct Eu as (_ & _ & _ & -> & _).
    by apply (H11 k u').
  - intros i t Ht HX H0. destruct (H12 i t Ht HX H0) as (u & Hu & Hl & Hcur).
    rewrite cpu_with_cpu. case_decide as E; [|eauto].
    rewrite <- E in Hu. rewrite Hc in Hu. injection Hu as <-.
    exists c'. split; [done|]. rewrite (cpu_same_live _ _ Hh).
    destruct Hh as (_ & _ & _ & -> & _). done.
Qed.

Lemma inv_x_cpu X s q h c c' :
  inv_x X s q -> cpu s h = Some c -> cpu_hint c c' -> inv_x X (with_cpu h c' s) q.
Proof.
  intros Hi Hc (E1 & E2 & E3 & E4 & E5 & _). by eapply inv_x_cpu_same.
Qed.

(** The scalar globals. *)
Lemma inv_x_core X s q (g : core_state) :
  inv_x X s q ->
  g_threads g = g_threads (k_core s) -> g_runqueues g = g_runqueues (k_core s) ->
  g_cpus g = g_cpus (k_core s) -> g_boot_hartid g = g_boot_hartid (k_core s) ->
  -1 <= g_stdin_waiter g < THREAD_MAX ->
  inv_x X (k_set_core g s) q.
Proof.
  intros [H1 H2 H3 H4 H5 H6 H7 H8 H9 H10 H11 H12 H13] E1 E2 E3 E4 Hin.
  assert (Ht : forall i, thr (k_set_core g s) i = thr s i)
    by (intros; unfold thr; simpl; by rewrite E1).
  assert (Hcp : forall i, cpu (k_set_core g s) i = cpu s i)
    by (intros; unfold cpu; simpl; by rewrite E3).
  split; try done.
  - eapply queues_state; [done| |exact H1]. intros h. unfold rqs. simpl. by rewrite E2.
  - intros i. rewrite Ht. apply H2.
  - intros i. rewrite Hcp. apply H3.
  - simpl. by rewrite E4.
  - intros h c. rewrite Hcp. apply H7.
  - intros h h' c c'. rewrite !Hcp. apply H8.
  - intros i t. rewrite Ht. apply H9.
  - intros i t. rewrite Ht. apply H10.
  - intros h c t. rewrite Hcp, Ht. apply H11.
  - intros i t. rewrite Ht. setoid_rewrite Hcp. apply H12.
  - intros i t. rewrite Ht. unfold joins. setoid_rewrite Ht. apply H13.
Qed.

(** A run-queue operation. *)
Lemma same_but_rq_fields t t' :
  same_but_rq t t' ->
  t_id t' = t_id t /\ t_state t' = t_state t /\ t_running_hart t' = t_running_hart t /\
  t_join_waiter t' = t_join_waiter t /\ t_waiting_for t' = t_waiting_for t /\
  t_detached t' = t_detached t /\ t_can_be_killed t' = t_can_be_killed t.
Proof. intros (n & o & ->). repeat split. Qed.

(** Equal membership in the queues gives equal flags. *)
Lemma on_rq_same s s' q q' i t t' :
  queues s q -> queues s' q' -> thr s i = Some t -> thr s' i = Some t' ->
  (forall h, hart_ok h -> i ∈ q' h <-> i ∈ q h) -> t_on_rq t' = t_on_rq t.
Proof.
  intros Hq Hq' Ht Ht' Hiff.
  destruct (queues_on_rq s q Hq i t Ht) as [[-> (h & Hh & Hi)]|[-> Hno]],
           (queues_on_rq s' q' Hq' i t' Ht') as [[-> (h' & Hh' & Hi')]|[-> Hno']]; try done.
  - exfalso. apply (Hno' h Hh). by apply Hiff.
  - exfalso. apply (Hno h' Hh'). by apply Hiff.
Qed.

Lemma inv_x_rq X s s' q q' :
  inv_x X s q -> rq_frame s s' -> queues s' q' ->
  (forall i h, ~ X i -> hart_ok h -> i ∈ q' h <-> i ∈ q h) ->
  (forall i t', X i -> thr s' i = Some t' -> t_state t' = THREAD_UNUSED -> t_on_rq t' = 0) ->
  (forall i, X i \/ ~ X i) ->
  inv_x X s' q'.
Proof.
  intros [H1 H2 H3 H4 H5 H6 H7 H8 H9 H10 H11 H12 H13] Hf Hq' Hiff HX Hdec.
  pose proof Hf as [(T & R & Es) Hthr].
  assert (Hcp : forall h, cpu s' h = cpu s h) by (intros; by apply rq_frame_cpu).
  assert (Hboot : g_boot_hartid (k_core s') = g_boot_hartid (k_core s)) by (by rewrite Es).
  assert (Hstd : g_stdin_waiter (k_core s') = g_stdin_waiter (k_core s)) by (by rewrite Es).
  assert (Htp : k_tp s' = k_tp s) by (by rewrite Es). clear Es.
  assert (Hback : forall i t', thr s' i = Some t' -> exists t, thr s i = Some t /\
            same_but_rq t t') by (intros; by eapply rq_frame_thr_inv).
  split; rewrite ?Hboot, ?Hstd, ?Htp; try done.
  - intros i. rewrite H2. specialize (Hthr i).
    destruct (thr s i), (thr s' i); inversion Hthr; split; eauto; by intros [? ?].
  - intros i. rewrite Hcp. apply H3.
  - intros h c. rewrite Hcp. apply H7.
  - intros h h' c c'. rewrite !Hcp. apply H8.
  - intros i t' Ht'. destruct (Hback i t' Ht') as (t & Ht & E).
    pose proof (H9 i t Ht) as (B1 & B2 & B3 & B4 & B5).
    apply same_but_rq_fields in E as (E1 & E2 & E3 & E4 & E5 & E6 & E7).
    unfold thread_base. rewrite E1, E2, E3, E4, E6, E7.
    repeat (split; [done|]). intros Hu. destruct (B5 Hu) as (? & ? & B0).
    split; [done|]. split; [done|]. destruct (Hdec i) as [Hx|Hx].
    + eapply HX; [done..|]. by rewrite E2.
    + rewrite <- B0. by eapply (on_rq_same s s'); eauto.
  - intros i t' Ht' Hx. destruct (Hback i t' Ht') as (t & Ht & E).
    pose proof (H10 i t Ht Hx) as (B1 & B2 & B3).
    assert (Eo : t_on_rq t' = t_on_rq t) by (eapply (on_rq_same s s'); eauto).
    apply same_but_rq_fields in E as (E1 & E2 & E3 & E4 & E5 & E6 & E7).
    unfold thread_ok. by rewrite E2, E3, Eo.
  - intros h c t'. rewrite Hcp. intros Hc Hl Hx Ht'.
    destruct (Hback _ t' Ht') as (t & Ht & E).
    apply same_but_rq_fields in E as (E1 & E2 & -> & _). by eapply H11.
  - intros i t' Ht' Hx. destruct (Hback _ t' Ht') as (t & Ht & E).
    apply same_but_rq_fields in E as (E1 & E2 & -> & _).
    setoid_rewrite Hcp. by apply H12.
  - intros i t' Ht'. destruct (Hback _ t' Ht') as (t & Ht & E).
    apply same_but_rq_fields in E as (E1 & -> & _ & -> & _).
    intros Hz H0. destruct (H13 i t Ht Hz H0) as (tw & Htw & Hst & Hwf).
    destruct (rq_frame_thr s s' _ tw Hf Htw) as (tw' & Htw' & E).
    apply same_but_rq_fields in E as (_ & E2 & _ & _ & E5 & _).
    exists tw'. by rewrite E2, E5.
Qed.

(** A thread whose transition is complete is no longer exempt. *)
Lemma inv_x_close s q i t :
  inv_x (only i) s q -> thr s i = Some t -> thread_ok i t ->
  (forall h c, cpu s h = Some c -> live c -> c_current_tid c = i -> t_running_hart t = h) ->
  (0 <= t_running_hart t ->
     exists c, cpu s (t_running_hart t) = Some c /\ live c /\ c_current_tid c = i) ->
  inv_x none s q.
Proof.
  intros [H1 H2 H3 H4 H5 H6 H7 H8 H9 H10 H11 H12 H13] Ht Hok Hr1 Hr2. split; try done.
  - intros k u Hu _. destruct (decide (k = i)) as [->|Hne]; [|by apply H10].
    rewrite Ht in Hu. by injection Hu as <-.
  - intros h c u Hc Hl _ Hu. destruct (decide (c_current_tid c = i)) as [E|Hne].
    + rewrite E, Ht in Hu. injection Hu as <-. by apply (Hr1 h c).
    + by apply (H11 h c u).
  - intros k u Hu _ H0. destruct (decide (k = i)) as [->|Hne]; [|by apply H12].
    rewrite Ht in Hu. injection Hu as <-. by apply Hr2.
Qed.

End inv_updates.
