(* ===== verification/ThreadSpec.v ===== *)
(** * What the scheduling operations do

    Exact specifications of [sched_pick_target_hart], [thread_make_runnable]
    and [schedule] over the abstract queues, and the preservation of the
    invariant they give. *)
From stdpp Require Import base numbers list gmap strings.
From Stdlib Require Import ZArith Lia.
From S2P Require Import Prelude Mem Machine State Kernel Image RunQueue Smp Thread Invariant.

Local Open Scope Z_scope.

Section spec_defs.
Context {cfg : Config} {hws : Hardware}.

(** Only the hardware and the log change. *)
Definition quiet (s s' : kstate) : Prop :=
  exists d l, s' = k_set_klog l (k_set_hw d s).

Definition online (s : kstate) (h : Z) : Prop :=
  exists c, cpu s h = Some c /\ c_online c <> 0.

(** The placement policy: the chosen hart is on line whenever some hart is,
    and then no hart on line has a shorter queue. *)
Definition least_loaded (s : kstate) (q : Z -> list Z) (waker r : Z) : Prop :=
  hart_ok r /\ (r = waker \/ online s r) /\
  forall h, online s h -> online s r /\ (length (q r) <= length (q h))%nat.

(** No hart is running [i]. *)
Definition not_current (s : kstate) (i : Z) : Prop :=
  forall h c, cpu s h = Some c -> live c -> c_current_tid c <> i.

(** [t] made runnable (its queue link apart). *)
Definition runnable (t : Thread) : Thread :=
  t_set_wakeup_tick 0 (t_set_state THREAD_RUNNABLE t).

End spec_defs.

Section frames.
Context {cfg : Config} {hws : Hardware}.
Implicit Types (s : kstate) (T : Z -> Prop).

Lemma link_only_refl t : link_only t t.
Proof. exists (t_rq_next t). by destruct t. Qed.
Lemma link_only_trans t1 t2 t3 : link_only t1 t2 -> link_only t2 t3 -> link_only t1 t3.
Proof. intros [n ->] [n' ->]. by exists n'. Qed.
Lemma cpu_hint_refl c : cpu_hint c c.
Proof. by repeat split. Qed.

Lemma frame_refl T s : frame T s s.
Proof.
  split; try done.
  - intros i _. destruct (thr s i); constructor. apply link_only_refl.
  - intros h. destruct (cpu s h); constructor. apply cpu_hint_refl.
Qed.

Lemma frame_trans T s1 s2 s3 : frame T s1 s2 -> frame T s2 s3 -> frame T s1 s3.
Proof.
  intros [A1 A2 A3 A4 A5 A6 A7 A8 A9 A10 A11 A12] [B1 B2 B3 B4 B5 B6 B7 B8 B9 B10 B11 B12].
  split; try congruence.
  - intros i Hi. specialize (A1 i Hi). specialize (B1 i Hi).
    destruct (thr s1 i), (thr s2 i), (thr s3 i); inversion A1; inversion B1; subst; constructor.
    by eapply link_only_trans.
  - intros h. specialize (A2 h). specialize (B2 h).
    destruct (cpu s1 h), (cpu s2 h), (cpu s3 h); inversion A2; inversion B2; subst; constructor.
    unfold cpu_hint in *. intuition congruence.
Qed.

Lemma frame_mono T T' s s' : (forall i, T i -> T' i) -> frame T s s' -> frame T' s s'.
Proof. intros HT [A1 A2]. split; try done. naive_solver. Qed.

Lemma frame_thread T s i t : T i -> is_Some (thr s i) -> frame T s (with_thread i t s).
Proof.
  intros HT Hs. split; try done.
  - intros j Hj. rewrite thr_with_thread. rewrite decide_False by (by intros ->).
    destruct (thr s j); constructor. apply link_only_refl.
  - intros h. rewrite cpu_with_thread. destruct (cpu s h); constructor. apply cpu_hint_refl.
Qed.

Lemma frame_cpu T s h c c' :
  cpu s h = Some c -> cpu_hint c c' -> frame T s (with_cpu h c' s).
Proof.
  intros Hc Hh. split; try done.
  - intros j Hj. rewrite thr_with_cpu. destruct (thr s j); constructor. apply link_only_refl.
  - intros k. rewrite cpu_with_cpu. case_decide.
    + subst. rewrite Hc. by constructor.
    + destruct (cpu s k); constructor. apply cpu_hint_refl.
Qed.

Lemma frame_quiet T s s' : quiet s s' -> frame T s s'.
Proof. intros (d & l & ->). destruct (frame_refl T s). by split. Qed.

Lemma frame_rq T s s' q q' :
  queues s q -> queues s' q' -> rq_frame s s' ->
  (forall i h, ~ T i -> hart_ok h -> i ∈ q' h <-> i ∈ q h) -> frame T s s'.
Proof.
  intros Hq Hq' Hf Hiff. pose proof Hf as [(A & R & E) Hthr].
  assert (Hcp : forall h, cpu s' h = cpu s h) by (intros; by apply rq_frame_cpu).
  split; try (by rewrite E).
  - clear E. intros i Hi. specialize (Hthr i). destruct (thr s i) as [t|] eqn:E1, (thr s' i) as [t'|] eqn:E2;
      inversion Hthr; subst; constructor.
    assert (Eo : t_on_rq t' = t_on_rq t)
      by (eapply (on_rq_same s _ q q' i); [done|exact Hq'|done|exact E2|]; auto).
    match goal with H : same_but_rq _ _ |- _ => destruct H as (n & o & ->) end.
    exists n. simpl in Eo. rewrite Eo. by destruct t.
  - intros h. rewrite Hcp. destruct (cpu s h); constructor.
    apply cpu_hint_refl.
Qed.

Lemma frame_thr T s s' i t :
  frame T s s' -> ~ T i -> thr s i = Some t ->
  exists t', thr s' i = Some t' /\ link_only t t'.
Proof. intros [F _] Hi Ht. specialize (F i Hi). rewrite Ht in F. inversion F; eauto. Qed.

Lemma frame_cpu_get T s s' h c :
  frame T s s' -> cpu s h = Some c -> exists c', cpu s' h = Some c' /\ cpu_hint c c'.
Proof. intros [_ F] Hc. specialize (F h). rewrite Hc in F. inversion F; eauto. Qed.

Lemma frame_thr_none T s s' i : frame T s s' -> ~ T i -> thr s i = None -> thr s' i = None.
Proof. intros [F _] Hi Ht. specialize (F i Hi). rewrite Ht in F. by inversion F. Qed.

Lemma frame_not_current T s s' i : frame T s s' -> not_current s i -> not_current s' i.
Proof.
  intros [_ F] Hn h c Hc Hl. specialize (F h). rewrite Hc in F.
  destruct (cpu s h) as [c0|] eqn:E; [|by inversion F].
  assert (Hh : cpu_hint c0 c) by (by inversion F).
  pose proof (cpu_hint_live _ _ Hh) as Hlv. destruct Hh as (_ & _ & _ & -> & _).
  apply (Hn h c0 E). by apply Hlv.
Qed.

Lemma quiet_refl s : quiet s s.
Proof. exists (k_hw s), (k_klog s). by destruct s. Qed.
Lemma quiet_trans s1 s2 s3 : quiet s1 s2 -> quiet s2 s3 -> quiet s1 s3.
Proof. intros (d & l & ->) (d' & l' & ->). by exists d', l'. Qed.
Lemma quiet_hw d s : quiet s (k_set_hw d s).
Proof. exists d, (k_klog s). by destruct s. Qed.
Lemma quiet_klog l s : quiet s (k_set_klog l s).
Proof. exists (k_hw s), l. by destruct s. Qed.

Lemma inv_x_quiet X s s' q : quiet s s' -> inv_x X s q -> inv_x X s' q.
Proof. intros (d & l & ->). by apply inv_x_state. Qed.
Lemma thr_quiet s s' i : quiet s s' -> thr s' i = thr s i.
Proof. by intros (d & l & ->). Qed.
Lemma queues_quiet s s' q : quiet s s' -> queues s q -> queues s' q.
Proof. intros (d & l & ->). by apply queues_state. Qed.

End frames.

#[export] Hint Resolve quiet_refl quiet_hw quiet_klog frame_refl link_only_refl cpu_hint_refl : kst.

Section pick.
Context {cfg : Config} {hws : Hardware}.
Implicit Types (s : kstate) (q : Z -> list Z).

(** Everything the scheduling operations need of the tables. *)
Definition tables (s : kstate) : Prop :=
  (forall h, hart_ok h <-> is_Some (cpu s h)) /\ hart_ok (k_tp s).

Lemma inv_x_tables X s q : inv_x X s q -> tables s.
Proof. intros H. split; [apply (ix_cpu_dom X s q H) | apply (ix_tp X s q H)]. Qed.

Lemma tables_cpu s h : tables s -> hart_ok h -> exists c, cpu s h = Some c.
Proof. intros [H _] Hh. by apply H. Qed.

Lemma frame_tables T s s' : frame T s s' -> tables s -> tables s'.
Proof.
  intros Hf [H1 H2]. split.
  - intros h. rewrite H1. pose proof (fr_cpu _ _ _ Hf h) as F.
    destruct (cpu s h), (cpu s' h); inversion F; split; eauto; by intros [? ?].
  - by rewrite (fr_tp _ _ _ Hf).
Qed.

Lemma smp_kick_hart_spec s h :
  tables s -> 0 <= h -> wp (smp_kick_hart h) (fun _ s' => quiet s s') s.
Proof.
  intros Htb Hh. unfold smp_kick_hart. wp_steps.
  case_if; [apply wp_ret; auto with kst|].
  case_if; [apply wp_ret; auto with kst|].
  destruct (tables_cpu s h Htb) as [c Hcpu]; [split; lia|]. wp_steps.
  case_if; [apply wp_ret; auto with kst|].
  apply wp_bind. unfold sbi_send_ipi. wp_steps. case_if.
  - apply wp_pr. eapply quiet_trans; [apply quiet_hw | apply quiet_klog].
  - apply wp_ret. auto with kst.
Qed.

Lemma pick_loop_spec s q w n h best len bon :
  queues s q -> tables s -> hart_ok w -> hart_ok best ->
  0 <= h -> h + Z.of_nat n = MAX_HARTS -> len = Z.of_nat (length (q best)) ->
  (best = w \/ online s best) -> (bon <> 0 <-> online s best) ->
  (forall h', h' < h -> online s h' -> online s best /\ (length (q best) <= length (q h'))%nat) ->
  wp (pick_loop n h best len bon) (fun r s' => s' = s /\ least_loaded s q w r) s.
Proof.
  intros Hq Htb Hw. revert h best len bon.
  induction n as [|n IH]; intros h best len bon Hb H0 Hn -> Hbw Hon Hmin; simpl.
  - apply wp_ret. split; [done|]. split; [done|]. split; [done|]. intros h' Ho.
    apply Hmin; [|done]. destruct Ho as (c & Hc & _).
    destruct Htb as [Hdom _]. assert (hart_ok h') as [? ?] by (apply Hdom; eauto). lia.
  - assert (Hh : hart_ok h) by (split; lia).
    destruct (tables_cpu s h Htb Hh) as [c Hcpu]. wp_steps. case_if.
    + apply IH; try done; [lia|lia|]. intros h' Hlt Ho.
      destruct (decide (h' = h)) as [->|]; [|apply Hmin; [lia|done]].
      destruct Ho as (c' & Hc' & Hne). rewrite Hcpu in Hc'. by injection Hc' as <-.
    + apply wp_bind. eapply wp_mono; [by apply rq_len_spec|].
      intros l s' [-> ->]. assert (Hoh : online s h) by (by exists c).
      assert (Hbon : z2b bon = true <-> online s best) by (by rewrite z2b_true).
      destruct (negb (z2b bon) || (Z.of_nat (length (q h)) <? Z.of_nat (length (q best)))) eqn:Hc'.
      * apply IH; try done; [lia|lia|by right|].
        intros h' Hlt Ho. split; [done|].
        destruct (decide (h' = h)) as [->|]; [done|].
        destruct (Hmin h') as [Hob Hle]; [lia|done|].
        apply Hon in Hob. bool_facts. destruct Hc' as [Hz|Hz]; bool_facts; [done|lia].
      * bool_facts. apply IH; try done; [lia|lia|].
        intros h' Hlt Ho. destruct (decide (h' = h)) as [->|]; [|apply Hmin; [lia|done]].
        split; [by apply Hbon, z2b_true|lia].
Qed.

Lemma sched_pick_target_hart_spec s q tid w :
  queues s q -> tables s -> hart_ok w ->
  wp (sched_pick_target_hart tid w) (fun r s' => s' = s /\ least_loaded s q w r) s.
Proof.
  intros Hq Htb Hw. pose proof MAX_HARTS_ok. unfold sched_pick_target_hart.
  apply wp_bind. eapply wp_mono; [by apply rq_len_spec|]. intros l s' [-> ->].
  destruct (tables_cpu s w Htb Hw) as [c Hc]. wp_steps.
  apply pick_loop_spec; try done; [lia|by left| |].
  - split; [intros; by exists c|]. intros (c' & Hc' & ?). rewrite Hc in Hc'. by injection Hc' as <-.
  - intros h' Hlt (c' & Hc' & _). destruct Htb as [Hdom _].
    assert (hart_ok h') as [? ?] by (apply Hdom; eauto). lia.
Qed.

End pick.

Section make_runnable.
Context {cfg : Config} {hws : Hardware}.
Implicit Types (s : kstate) (q : Z -> list Z).

Lemma q_push_in q h tid i h' :
  hart_ok h -> i <> tid -> (i ∈ q_push q h tid h' <-> i ∈ q h').
Proof.
  intros Hh Hi. unfold q_push, upd_q. case_decide; subst; [|done].
  rewrite elem_of_app. set_solver.
Qed.

Lemma thread_make_runnable_skip s tid pref t :
  thr s tid = Some t -> (t_on_rq t <> 0 \/ t_state t = THREAD_RUNNING) ->
  wp (thread_make_runnable tid pref) (fun _ s' => s' = s) s.
Proof.
  intros Ht Hor. unfold thread_make_runnable. case_if; [by apply wp_ret|].
  case_if; [by apply wp_ret|]. wp_steps.
  destruct (z2b (t_on_rq t) || state_eqb (t_state t) THREAD_RUNNING) eqn:E; [by apply wp_ret|].
  exfalso. apply orb_false_iff in E as [E1 E2]. apply z2b_false in E1.
  apply bool_decide_eq_false in E2. naive_solver.
Qed.

Lemma thread_make_runnable_spec s q tid pref t :
  queues s q -> tables s -> hart_ok pref -> user_tid tid ->
  thr s tid = Some t -> t_on_rq t = 0 -> t_state t <> THREAD_RUNNING ->
  wp (thread_make_runnable tid pref)
    (fun _ s' => exists target t', least_loaded s q pref target /\
       queues s' (q_push q target tid) /\
       thr s' tid = Some t' /\ same_but_rq (runnable t) t' /\ frame (only tid) s s') s.
Proof.
  intros Hq Htb Hp Hu Ht H0 Hst. pose proof Hu as [Hu1 Hu2]. pose proof MAX_HARTS_ok.
  unfold thread_make_runnable.
  rewrite (proj2 (Z.ltb_ge tid 0)), (proj2 (Z.leb_gt THREAD_MAX _)) by lia. simpl.
  rewrite (proj2 (Z.ltb_ge tid _)) by lia. wp_steps.
  rewrite H0. simpl. unfold state_eqb. rewrite bool_decide_false by done. wp_steps.
  eapply wp_mono; [by apply sched_pick_target_hart_spec|]. intros target s0 [-> Hll].
  pose proof Hll as [Hh _]. wp_steps.
  set (s1 := with_thread _ _ _).
  assert (Hq1 : queues s1 q).
  { unfold s1. eapply queues_thread; [|apply thr_with_thread_eq|done|done].
    by eapply queues_thread. }
  assert (Ht1 : thr s1 tid = Some (runnable t)) by apply thr_with_thread_eq.
  assert (Hf1 : frame (only tid) s s1).
  { unfold s1. eapply frame_trans; (apply frame_thread; [done|]);
      [by rewrite Ht|by rewrite thr_with_thread_eq]. }
  assert (Htb1 : tables s1) by (by eapply frame_tables).
  eapply wp_mono; [by apply (rq_push_tail_spec s1 q target tid (runnable t))|].
  intros _ s2 [Hq2 Hf2].
  destruct (rq_frame_thr s1 s2 tid _ Hf2 Ht1) as (t' & Ht' & Et').
  assert (Hf : frame (only tid) s s2).
  { eapply frame_trans; [exact Hf1|]. eapply frame_rq; try done.
    intros i h Hi _. by apply q_push_in. }
  assert (Htb2 : tables s2) by (by eapply frame_tables). clearbody s1.
  destruct (tables_cpu s2 (k_tp s2) Htb2) as [c Hc]; [apply Htb2|]. wp_steps.
  case_if.
  - wp_steps. exists target, t'. split; [done|]. split; [by eapply queues_state; [..|exact Hq2]|].
    split; [done|]. split; [done|]. eapply frame_trans; [exact Hf|]. eapply frame_cpu; [done|].
    by repeat split.
  - eapply wp_mono; [apply smp_kick_hart_spec; [done|apply Hh]|]. intros [] s3 Hqt.
    exists target, t'. split; [done|]. split; [by eapply queues_quiet|].
    split; [by rewrite (thr_quiet _ _ _ Hqt)|]. split; [done|].
    eapply frame_trans; [exact Hf|]. by apply frame_quiet.
Qed.

(** *** Preservation of the invariant *)

Lemma link_only_skel t t' : link_only t t' ->
  t_id t' = t_id t /\ t_state t' = t_state t /\ t_running_hart t' = t_running_hart t /\
  t_join_waiter t' = t_join_waiter t /\ t_waiting_for t' = t_waiting_for t /\
  t_detached t' = t_detached t /\ t_can_be_killed t' = t_can_be_killed t /\
  t_on_rq t' = t_on_rq t.
Proof. intros (n & ->). by repeat split. Qed.

Ltac link_rw H :=
  let E1 := fresh in let E2 := fresh in let E3 := fresh in let E4 := fresh in
  let E5 := fresh in let E6 := fresh in let E7 := fresh in let E8 := fresh in
  apply link_only_skel in H as (E1 & E2 & E3 & E4 & E5 & E6 & E7 & E8);
  rewrite ?E1, ?E2, ?E3, ?E4, ?E5, ?E6, ?E7, ?E8.

(** An operation on the one thread [tid], framed as above, re-establishes the
    invariant if it leaves that thread in order. *)
Lemma inv_x_framed X Y s s' q q' tid t t' :
  inv_x X s q -> (forall j, X j -> Y j \/ j = tid) -> frame (only tid) s s' -> queues s' q' ->
  thr s tid = Some t -> thr s' tid = Some t' -> not_current s tid ->
  thread_base tid t' -> thread_ok tid t' -> t_running_hart t' = -1 ->
  (t_state t' <> THREAD_ZOMBIE -> t_join_waiter t' = t_join_waiter t /\ t_state t <> THREAD_ZOMBIE) ->
  (t_state t = THREAD_WAITING -> forall k tk, k <> tid -> thr s k = Some tk ->
     t_state tk <> THREAD_ZOMBIE -> t_join_waiter tk <> tid) ->
  inv_x Y s' q'.
Proof.
  intros Hi HXY Hf Hq' Ht Ht' Hnc Hb Hok Hrun Hjw Hw.
  pose proof Hi as [H1 H2 H3 H4 H5 H6 H7 H8 H9 H10 H11 H12 H13].
  pose proof Hf as [F1 F2 F3 _ F4 _ _ F5 _ _ _ _].
  assert (Hthr : forall i u', i <> tid -> thr s' i = Some u' ->
            exists u, thr s i = Some u /\ link_only u u').
  { intros i u' Hne Hu'. specialize (F1 i Hne). rewrite Hu' in F1. inversion F1; eauto. }
  assert (Hcpu : forall h c', cpu s' h = Some c' -> exists c, cpu s h = Some c /\ cpu_hint c c').
  { intros h c' Hc'. specialize (F2 h). rewrite Hc' in F2. inversion F2; eauto. }
  split; rewrite ?F3, ?F4, ?F5; try done.
  - intros i. rewrite H2. destruct (decide (i = tid)) as [->|Hne].
    + rewrite Ht, Ht'. split; eauto.
    + specialize (F1 i Hne). destruct (thr s i), (thr s' i); inversion F1;
        split; eauto; by intros [? ?].
  - intros h. rewrite H3. specialize (F2 h). destruct (cpu s h), (cpu s' h); inversion F2;
      split; eauto; by intros [? ?].
  - intros h c' Hc'. destruct (Hcpu h c' Hc') as (c & Hc & E).
    pose proof (H7 h c Hc) as Ho. unfold cpu_ok in *. rewrite (cpu_hint_live _ _ E).
    destruct E as (-> & -> & -> & -> & -> & _). done.
  - intros h h' c' d' Hc' Hd' Hl Hl' E.
    destruct (Hcpu h c' Hc') as (c & Hc & Ec), (Hcpu h' d' Hd') as (d & Hd & Ed).
    rewrite (cpu_hint_live _ _ Ec) in Hl. rewrite (cpu_hint_live _ _ Ed) in Hl'.
    destruct Ec as (_ & _ & _ & Ec & _), Ed as (_ & _ & _ & Ed & _).
    eapply (H8 h h' c d); congruence.
  - intros i u' Hu'. destruct (decide (i = tid)) as [->|Hne].
    + rewrite Ht' in Hu'. by injection Hu' as <-.
    + destruct (Hthr i u' Hne Hu') as (u & Hu & E).
      pose proof (H9 i u Hu) as Hbu. unfold thread_base in *. by link_rw E.
  - intros i u' Hu' HY. destruct (decide (i = tid)) as [->|Hne].
    + rewrite Ht' in Hu'. by injection Hu' as <-.
    + destruct (Hthr i u' Hne Hu') as (u & Hu & E).
      assert (HX : ~ X i) by naive_solver.
      pose proof (H10 i u Hu HX) as Hbu. unfold thread_ok in *. by link_rw E.
  - intros h c' u' Hc' Hl HY Hu'. destruct (Hcpu h c' Hc') as (c & Hc & Ec).
    rewrite (cpu_hint_live _ _ Ec) in Hl. destruct Ec as (_ & _ & _ & Ec & _).
    rewrite Ec in *. assert (Hne : c_current_tid c <> tid) by (by eapply Hnc).
    destruct (Hthr _ u' Hne Hu') as (u & Hu & E).
    apply link_only_skel in E as (_ & _ & -> & _). apply (H11 h c u); try done. naive_solver.
  - intros i u' Hu' HY H0. destruct (decide (i = tid)) as [->|Hne].
    + rewrite Ht' in Hu'. injection Hu' as <-. lia.
    + destruct (Hthr i u' Hne Hu') as (u & Hu & E).
      apply link_only_skel in E as (_ & _ & E & _). rewrite E in *.
      destruct (H12 i u Hu) as (c & Hc & Hl & Hcur); [naive_solver|done|].
      destruct (frame_cpu_get _ _ _ _ _ Hf Hc) as (c' & Hc' & Ec).
      exists c'. split; [done|]. rewrite (cpu_hint_live _ _ Ec).
      destruct Ec as (_ & _ & _ & -> & _). done.
  - intros i u' Hu' Hz H0.
    assert (Hj : joins s (t_join_waiter u') i /\ t_join_waiter u' <> i).
    { destruct (decide (i = tid)) as [->|Hne].
      - rewrite Ht' in Hu'. injection Hu' as <-. destruct (Hjw Hz) as [E Hz']. rewrite E in *.
        split; [by apply (H13 tid t)|]. pose proof (H9 tid t Ht) as (_ & _ & ? & _). lia.
      - destruct (Hthr i u' Hne Hu') as (u & Hu & E).
        apply link_only_skel in E as (_ & E2 & _ & E4 & _). rewrite E2, E4 in *.
        split; [by apply (H13 i u)|]. pose proof (H9 i u Hu) as (_ & _ & ? & _). lia. }
    destruct Hj as [(tw & Htw & Hst & Hwf) Hni].
    destruct (decide (t_join_waiter u' = tid)) as [E|Hne].
    + exfalso. rewrite E in *. rewrite Ht in Htw. injection Htw as <-.
      assert (Hi' : i <> tid) by done.
      destruct (Hthr i u' Hi' Hu') as (u & Hu & El).
      apply link_only_skel in El as (_ & E2 & _ & E4 & _).
      apply (Hw Hst i u); try done; congruence.
    + destruct (frame_thr _ _ _ _ _ Hf Hne Htw) as (tw' & Htw' & El).
      apply link_only_skel in El as (_ & E2 & _ & _ & E5 & _).
      exists tw'. by rewrite E2, E5.
Qed.

(** Waking a parked thread. *)
Definition parked (t : Thread) : Prop :=
  t_state t <> THREAD_RUNNING /\ t_state t <> THREAD_ZOMBIE /\
  t_on_rq t = 0 /\ t_running_hart t = -1.

Lemma thread_make_runnable_inv X Y s q tid pref t :
  inv_x X s q -> (forall j, X j -> Y j \/ j = tid) ->
  hart_ok pref -> user_tid tid -> thr s tid = Some t -> parked t -> not_current s tid ->
  (t_state t = THREAD_WAITING -> forall k tk, k <> tid -> thr s k = Some tk ->
     t_state tk <> THREAD_ZOMBIE -> t_join_waiter tk <> tid) ->
  wp (thread_make_runnable tid pref)
    (fun _ s' => exists target t', inv_x Y s' (q_push q target tid) /\
       least_loaded s q pref target /\
       thr s' tid = Some t' /\ same_but_rq (runnable t) t' /\ frame (only tid) s s') s.
Proof.
  intros Hi HXY Hp Hu Ht (P1 & P2 & P3 & P4) Hnc Hw.
  eapply wp_mono; [apply (thread_make_runnable_spec s q tid pref t); try done|].
  - by eapply ix_queues.
  - by eapply inv_x_tables.
  - intros _ s' (target & t' & Hll & Hq' & Ht' & Et' & Hf).
    exists target, t'. split; [|done].
    pose proof (ix_base _ _ _ Hi tid t Ht) as (B1 & B2 & B3 & B4 & B5).
    assert (Hon : t_on_rq t' = 1).
    { eapply (queues_in s'); [exact Hq'|exact Ht'|apply Hll|]. unfold q_push.
      rewrite upd_q_eq. apply elem_of_snoc. }
    apply same_but_rq_fields in Et' as (E1 & E2 & E3 & E4 & E5 & E6 & E7). simpl in *.
    assert (user_tid tid) as [? ?] by done.
    eapply (inv_x_framed X Y s s' q); try done.
    + unfold thread_base. rewrite E1, E2, E3, E4. split; [done|]. split; [lia|].
      split; [done|]. split; [lia|done].
    + unfold thread_ok. rewrite E2, E3, Hon. split; [done|]. split; [done|lia].
    + lia.
Qed.

End make_runnable.
