(* ===== verification/SchedSpec.v ===== *)
(** * The scheduler

    [schedule] implements round-robin over the abstract queues: the running
    thread goes to the tail of its hart's queue, the head of the queue runs
    next, and the hart's idle thread runs when the queue is empty. *)
From stdpp Require Import base numbers list gmap strings.
From Stdlib Require Import ZArith Lia.
From S2P Require Import Prelude Mem Machine State Kernel Image RunQueue Smp Thread Invariant ThreadSpec.

Local Open Scope Z_scope.

Section sched_defs.
Context {cfg : Config} {hws : Hardware}.

(** The thread that stops running, before its slot is reclaimed. *)
Definition stopped (idle : bool) (t : Thread) : Thread :=
  let t := if negb idle && state_eqb (t_state t) THREAD_RUNNING
           then t_set_state THREAD_RUNNABLE t else t in
  let t := if 0 <=? t_running_hart t then t_set_last_hart (t_running_hart t) t else t in
  let t := t_set_running_hart (-1) t in
  if idle then t_set_state THREAD_RUNNABLE t else t.

Definition departed (idle : bool) (t : Thread) : Thread :=
  if negb idle && reclaimable (stopped idle t)
  then thread_recycled (stopped idle t) else stopped idle t.

(** The thread that starts running on [h]. *)
Definition dispatched (h : Z) (t : Thread) : Thread :=
  let t := t_set_state THREAD_RUNNING t in
  let t := t_set_running_hart (s32 h) t in
  let t := t_set_runs (u64 (t_runs t + 1)) t in
  if (0 <=? t_last_hart t) && negb (t_last_hart t =? s32 h)
  then t_set_migrations (u32 (t_migrations t + 1)) t else t.

(** The abstract scheduler: requeue the current thread if it is a thread that can go on,
    then take the head of the queue, or the idle thread. *)
Definition requeue (q : Z -> list Z) (h cur : Z) (t : Thread) : Z -> list Z :=
  if bool_decide (cur <> h /\ t_state t = THREAD_RUNNING) then q_push q h cur else q.
Definition next_of (q : Z -> list Z) (h : Z) : Z := default h (head (q h)).

(** What [schedule] leaves alone besides the harts. *)
Record sframe (T : Z -> Prop) (s s' : kstate) : Prop := {
  sf_thr : forall i, ~ T i -> option_Forall2 link_only (thr s i) (thr s' i);
  sf_tp : k_tp s' = k_tp s;
  sf_lock : k_kernel_lock s' = k_kernel_lock s;
  sf_boot : g_boot_hartid (k_core s') = g_boot_hartid (k_core s);
  sf_ticks : g_ticks (k_core s') = g_ticks (k_core s);
  sf_smp : g_smp_boot_done (k_core s') = g_smp_boot_done (k_core s);
  sf_stdin : g_stdin_waiter (k_core s') = g_stdin_waiter (k_core s) \/
             g_stdin_waiter (k_core s') = -1;
  sf_con : k_con s' = k_con s;
  sf_plat : k_plat s' = k_plat s;
  sf_umem : k_umem s' = k_umem s;
  sf_trp : k_trp s' = k_trp s
}.

End sched_defs.

Section sched_spec.
Context {cfg : Config} {hws : Hardware}.
Implicit Types (s : kstate) (q : Z -> list Z) (T X : Z -> Prop).

Lemma frame_sframe T s s' : frame T s s' -> sframe T s s'.
Proof. intros []. split; auto. Qed.

Lemma sframe_refl T s : sframe T s s.
Proof. apply frame_sframe, frame_refl. Qed.

Lemma sframe_trans T s1 s2 s3 : sframe T s1 s2 -> sframe T s2 s3 -> sframe T s1 s3.
Proof.
  intros [A1 A2 A3 A4 A5 A6 A7 A8 A9 A10 A11] [B1 B2 B3 B4 B5 B6 B7 B8 B9 B10 B11].
  split; try congruence.
  - intros i Hi. specialize (A1 i Hi). specialize (B1 i Hi).
    destruct (thr s1 i), (thr s2 i), (thr s3 i); inversion A1; inversion B1; subst; constructor.
    by eapply link_only_trans.
  - destruct B7 as [->|?]; [|by right]. done.
Qed.

Lemma sframe_mono T T' s s' : (forall i, T i -> T' i) -> sframe T s s' -> sframe T' s s'.
Proof. intros HT [A1]. split; try done. naive_solver. Qed.

Lemma sframe_thread T s i t : T i -> is_Some (thr s i) -> sframe T s (with_thread i t s).
Proof. intros. apply frame_sframe. by apply frame_thread. Qed.

Lemma sframe_cpu T s h c : sframe T s (with_cpu h c s).
Proof. pose proof (sframe_refl T s) as []. by split. Qed.

Lemma sframe_thr T s s' i t :
  sframe T s s' -> ~ T i -> thr s i = Some t ->
  exists t', thr s' i = Some t' /\ link_only t t'.
Proof. intros [F] Hi Ht. specialize (F i Hi). rewrite Ht in F. inversion F; eauto. Qed.

(** *** Reclaiming a slot *)

Lemma recycle_thread_spec s tid t :
  user_tid tid -> thr s tid = Some t ->
  wp (recycle_thread tid) (fun _ s' =>
    thr s' tid = Some (thread_recycled t) /\
    (forall i, i <> tid -> thr s' i = thr s i) /\
    (forall h, cpu s' h = cpu s h) /\ (forall h, rqs s' h = rqs s h) /\
    sframe (only tid) s s') s.
Proof.
  intros [Hu1 Hu2] Ht. pose proof MAX_HARTS_ok. unfold recycle_thread.
  rewrite (proj2 (Z.leb_gt tid 0)), (proj2 (Z.leb_gt THREAD_MAX _)) by lia. simpl.
  wp_steps. case_if; wp_steps.
  - split; [apply thr_with_thread_eq|]. split; [intros; by rewrite thr_with_thread_ne|].
    split; [done|]. split; [done|]. split; try done; [|by right].
    intros i Hi. rewrite thr_with_thread_ne by (intros ->; done).
    change (thr (k_set_core _ s) i) with (thr s i).
    destruct (thr s i); constructor. apply link_only_refl.
  - split; [apply thr_with_thread_eq|]. split; [intros; by rewrite thr_with_thread_ne|].
    split; [done|]. split; [done|]. apply sframe_thread; [done|by rewrite Ht].
Qed.

Lemma thread_recycled_base i t :
  user_tid i -> t_id t = i -> thread_base i (thread_recycled t).
Proof.
  intros [? ?] Hid. pose proof MAX_HARTS_ok. unfold thread_base. simpl.
  split; [done|]. split; [lia|]. split; [by left|]. split; [lia|done].
Qed.

Lemma recycle_thread_inv X s q tid t :
  inv_x X s q -> X tid -> user_tid tid -> thr s tid = Some t -> t_on_rq t = 0 ->
  t_state t <> THREAD_WAITING ->
  wp (recycle_thread tid) (fun _ s' => inv_x X s' q /\
    thr s' tid = Some (thread_recycled t) /\
    (forall i, i <> tid -> thr s' i = thr s i) /\
    (forall h, cpu s' h = cpu s h) /\ sframe (only tid) s s') s.
Proof.
  intros Hi HX Hu Ht H0 Hw. pose proof Hu as [Hu1 Hu2]. pose proof MAX_HARTS_ok.
  assert (Hfin : forall s1, inv_x X s1 q -> thr s1 tid = Some t ->
            inv_x X (with_thread tid (thread_recycled t) s1) q).
  { intros s1 Hi1 Ht1. eapply inv_x_off; try done.
    - apply thread_recycled_base; [done|]. by destruct (ix_base _ _ _ Hi tid t Ht).
    - right. by left. }
  eapply wp_mono; [eapply (wp_and _ _ (fun _ s' => inv_x X s' q));
                   [by apply recycle_thread_spec|]|].
  2: { intros _ s' (? & ? & ? & ? & ? & ?). auto. }
  unfold recycle_thread.
  rewrite (proj2 (Z.leb_gt tid 0)), (proj2 (Z.leb_gt THREAD_MAX _)) by lia. simpl.
  wp_steps. case_if; wp_steps; [|by apply Hfin]. apply Hfin; [|done].
  by apply inv_x_core.
Qed.

(** *** Leaving the hart *)

Lemma q_push_in_other q h cur i h' :
  hart_ok h -> i <> cur -> (i ∈ q_push q h cur h' <-> i ∈ q h').
Proof. apply q_push_in. Qed.

Lemma requeue_cases q h cur t :
  (cur <> h /\ t_state t = THREAD_RUNNING /\ requeue q h cur t = q_push q h cur) \/
  ((cur = h \/ t_state t <> THREAD_RUNNING) /\ requeue q h cur t = q).
Proof.
  unfold requeue. case_bool_decide as E; [left; naive_solver|right].
  split; [|done]. destruct (decide (cur = h)); [by left|right]. naive_solver.
Qed.

(** The state in which a thread goes back to the queue. *)
Definition requeued (idle : bool) (t : Thread) : Thread :=
  if negb idle && state_eqb (t_state t) THREAD_RUNNING
  then t_set_state THREAD_RUNNABLE t else t.

Lemma depart_requeue s q h cur t :
  inv_x (only cur) s q -> hart_ok h -> (cur = h \/ user_tid cur) ->
  thr s cur = Some t -> t_on_rq t = 0 ->
  wp (if negb (cur =? h) && state_eqb (t_state t) THREAD_RUNNING then
        upd_thread cur (t_set_state THREAD_RUNNABLE) ;; rq_push_tail h cur
      else ret tt)
    (fun _ s' => inv_x (only cur) s' (requeue q h cur t) /\
       (exists t', thr s' cur = Some t' /\ same_but_rq (requeued (cur =? h) t) t' /\
                   (t_on_rq t' <> 0 -> t_state t = THREAD_RUNNING /\ cur <> h)) /\
       (forall k, cpu s' k = cpu s k) /\ sframe (only cur) s s') s.
Proof.
  intros Hi Hh Hcur Ht H0. unfold requeued.
  destruct (Z.eqb_spec cur h) as [E|Hne]; simpl; [|unfold state_eqb; case_bool_decide as Hst].
  1, 3: apply wp_ret; destruct (requeue_cases q h cur t) as [(? & ? & ?)|[_ ->]]; [done|];
    split; [done|]; split; [exists t; split; [done|]; split; [apply same_but_rq_refl|done]|];
    split; [done|apply sframe_refl].
  destruct Hcur as [?|Hu]; [done|]. pose proof Hu as [? ?]. wp_steps.
  destruct (requeue_cases q h cur t) as [(_ & _ & ->)|[[?|?] _]]; [|done..].
  pose proof (ix_base _ _ _ Hi cur t Ht) as (B1 & B2 & B3 & B4 & B5).
  set (s1 := with_thread _ _ _).
  assert (Hi1 : inv_x (only cur) s1 q).
  { eapply inv_x_exempt; try done.
    - unfold thread_base. simpl. repeat (split; [done|]). split; [lia|done].
    - right. right. split; [done|]. by rewrite Hst.
    - by rewrite Hst. }
  assert (Ht1 : thr s1 cur = Some (t_set_state THREAD_RUNNABLE t)) by apply thr_with_thread_eq.
  eapply wp_mono; [eapply (rq_push_tail_spec s1 q h cur); try done; by eapply ix_queues|].
  intros [] s2 [Hq2 Hf2].
  destruct (rq_frame_thr _ _ _ _ Hf2 Ht1) as (t' & Ht' & E').
  split; [|split; [|split]].
  - eapply (inv_x_rq _ s1); try done.
    + intros i k HX Hk. by apply q_push_in.
    + intros i u HX Hu2 Hst'. unfold only in HX. subst i.
      rewrite Ht' in Hu2. injection Hu2 as <-.
      apply same_but_rq_fields in E' as (_ & E' & _). simpl in E'. by rewrite E' in Hst'.
    + intros i. unfold only. destruct (decide (i = cur)); auto.
  - exists t'. split; [done|]. by split.
  - intros k. by rewrite (rq_frame_cpu _ _ k Hf2).
  - apply (sframe_trans _ _ s1); [apply sframe_thread; [done|by rewrite Ht]|].
    apply frame_sframe. eapply (frame_rq _ s1 s2 q); try done; [by eapply ix_queues|].
    intros i k HX Hk. by apply q_push_in.
Qed.

Lemma stopped_fields idle t :
  t_id (stopped idle t) = t_id t /\ t_running_hart (stopped idle t) = -1 /\
  t_join_waiter (stopped idle t) = t_join_waiter t /\
  t_waiting_for (stopped idle t) = t_waiting_for t /\
  t_detached (stopped idle t) = t_detached t /\
  t_can_be_killed (stopped idle t) = t_can_be_killed t /\
  t_on_rq (stopped idle t) = t_on_rq t /\ t_rq_next (stopped idle t) = t_rq_next t.
Proof.
  unfold stopped. destruct idle, (state_eqb (t_state t) THREAD_RUNNING); simpl;
    destruct (0 <=? t_running_hart t); by repeat split.
Qed.

Lemma stopped_state idle t :
  t_state (stopped idle t) =
    if idle then THREAD_RUNNABLE else
    if state_eqb (t_state t) THREAD_RUNNING then THREAD_RUNNABLE else t_state t.
Proof.
  unfold stopped. destruct idle, (state_eqb (t_state t) THREAD_RUNNING); simpl;
    by destruct (0 <=? t_running_hart t).
Qed.

(** Stopping a requeued thread is stopping the thread. *)
Lemma stopped_requeued idle t t' :
  same_but_rq (requeued idle t) t' ->
  same_but_rq (stopped idle t)
    (let t1 := if 0 <=? t_running_hart t' then t_set_last_hart (t_running_hart t') t' else t' in
     let t2 := t_set_running_hart (-1) t1 in
     if idle then t_set_state THREAD_RUNNABLE t2 else t2).
Proof.
  intros (n & o & ->). exists n, o. unfold stopped, requeued.
  destruct idle, (state_eqb (t_state t) THREAD_RUNNING); simpl;
    by destruct (0 <=? t_running_hart t).
Qed.

(** The thread as [thread_mark_not_running] and the idle case leave it. *)
Definition parked_copy (idle : bool) (t : Thread) : Thread :=
  let t1 := if 0 <=? t_running_hart t then t_set_last_hart (t_running_hart t) t else t in
  let t2 := t_set_running_hart (-1) t1 in
  if idle then t_set_state THREAD_RUNNABLE t2 else t2.

Lemma parked_copy_fields idle t :
  t_rq_next (parked_copy idle t) = t_rq_next t /\ t_on_rq (parked_copy idle t) = t_on_rq t.
Proof. unfold parked_copy. by destruct idle, (0 <=? t_running_hart t). Qed.

Lemma reclaimable_same t t' : same_but_rq t t' -> reclaimable t' = reclaimable t.
Proof. by intros (n & o & ->). Qed.

Lemma reclaimable_zombie t : reclaimable t = true -> t_state t = THREAD_ZOMBIE.
Proof.
  unfold reclaimable, state_eqb. intros H. apply andb_true_iff in H as [H _].
  by apply bool_decide_eq_true in H.
Qed.

Lemma recycled_same t t' : same_but_rq t t' -> same_but_rq (thread_recycled t) (thread_recycled t').
Proof. intros (n & o & ->). by exists (-1), 0. Qed.

(** [thread_mark_not_running] and what follows, on the state [s1] after the
    requeue. *)
Lemma depart_stop s s1 q q1 h cur t t1 :
  inv_x (only cur) s q -> thr s cur = Some t ->
  (cur = h \/ user_tid cur) -> hart_ok h -> (cur <> h -> t_state t <> THREAD_RUNNABLE) ->
  inv_x (only cur) s1 q1 -> thr s1 cur = Some t1 -> same_but_rq (requeued (cur =? h) t) t1 ->
  inv_x (only cur) (with_thread cur (parked_copy (cur =? h) t1) s1) q1.
Proof.
  intros Hi Ht Hcur Hh Hst Hi1 Ht1 E1.
  pose proof (stopped_requeued _ _ _ E1) as E2. change (same_but_rq (stopped (cur =? h) t)
    (parked_copy (cur =? h) t1)) in E2.
  apply same_but_rq_fields in E2 as (F1 & F2 & F3 & F4 & F5 & F6 & F7).
  destruct (stopped_fields (cur =? h) t) as (G1 & G2 & G3 & G4 & G5 & G6 & _).
  pose proof (stopped_state (cur =? h) t) as G7.
  pose proof (ix_base _ _ _ Hi cur t Ht) as (B1 & B2 & B3 & B4 & B5).
  pose proof (ix_base _ _ _ Hi1 cur t1 Ht1) as (_ & _ & _ & _ & C5).
  apply same_but_rq_fields in E1 as (D1 & D2 & _ & D4 & D5 & _).
  destruct (parked_copy_fields (cur =? h) t1) as [P1 P2].
  pose proof Hh as [? ?].
  eapply inv_x_exempt; try done.
  - unfold thread_base. rewrite F1, F2, F3, F4, F6, F7, G1, G2, G3, G5, G6, G7, P2.
    split; [done|]. split; [lia|]. split; [done|]. split.
    + intros Hlt. destruct (B4 Hlt) as (? & ? & Hs). split; [done|]. split; [done|].
      destruct (Z.eqb_spec cur h); [by left|]. destruct Hcur as [?|[? ?]]; [done|lia].
    + intros Hs. split; [done|]. destruct (Z.eqb_spec cur h) as [?|Hne]; [done|].
      unfold requeued in D2. simpl in D2.
      destruct (state_eqb (t_state t) THREAD_RUNNING) eqn:Es; [done|].
      destruct (B5 Hs) as (_ & ? & _). split; [done|]. apply C5. by rewrite D2.
  - rewrite F2, G7, F4, G3, D4, D2. unfold requeued.
    destruct (Z.eqb_spec cur h) as [->|Hne]; simpl.
    + right. right. split; [done|]. destruct (B4 ltac:(lia)) as (_ & _ & [->| ->]); done.
    + unfold state_eqb. case_bool_decide as Es; simpl; [right; right; done|].
      destruct (decide (t_state t = THREAD_ZOMBIE)) as [|]; [by left|by right; right].
  - rewrite D2, D5, F2, F5, G4, G7. unfold requeued. intros Hw. left.
    destruct (Z.eqb_spec cur h) as [E|Hne]; simpl in *.
    + rewrite E in *. destruct (B4 ltac:(lia)) as (_ & _ & [Hs|Hs]); by rewrite Hs in Hw.
    + revert Hw. unfold state_eqb. case_bool_decide; by simpl.
Qed.

Lemma sched_depart_spec s q h cur t :
  inv_x (only cur) s q -> hart_ok h -> (cur = h \/ user_tid cur) ->
  thr s cur = Some t -> t_on_rq t = 0 -> (cur <> h -> t_state t <> THREAD_RUNNABLE) ->
  wp (sched_depart h cur (cur =? h))
    (fun _ s' => inv_x (only cur) s' (requeue q h cur t) /\
       (exists t', thr s' cur = Some t' /\ same_but_rq (departed (cur =? h) t) t') /\
       (forall k, cpu s' k = cpu s k) /\ sframe (only cur) s s') s.
Proof.
  intros Hi Hh Hcur Ht H0 Hst. unfold sched_depart. wp_steps.
  eapply wp_mono; [by apply depart_requeue|].
  intros [] s1 (Hi1 & (t1 & Ht1 & E1 & Hon) & Hc1 & Hf1).
  assert (Hmark : forall Q,
    wp (when (negb (cur =? h) && reclaimable (parked_copy (cur =? h) t1)) (recycle_thread cur)) Q
       (with_thread cur (parked_copy (cur =? h) t1) s1) ->
    wp (thread_mark_not_running cur ;; when (cur =? h) (upd_thread cur (t_set_state THREAD_RUNNABLE)) ;;
        c <- get_thread cur ;; when (negb (cur =? h) && reclaimable c) (recycle_thread cur)) Q s1).
  { intros Q HQ. unfold thread_mark_not_running, parked_copy in *.
    wp_steps. destruct (Z.eqb_spec cur h); simpl in *; wp_steps.
    - rewrite !with_thread_twice. done.
    - rewrite with_thread_twice. done. }
  apply Hmark. clear Hmark. set (t2 := parked_copy _ t1) in *. set (s2 := with_thread _ _ _).
  assert (Ht2 : thr s2 cur = Some t2) by apply thr_with_thread_eq.
  assert (E2 : same_but_rq (stopped (cur =? h) t) t2) by (by apply stopped_requeued).
  assert (Hf2 : sframe (only cur) s s2).
  { eapply sframe_trans; [exact Hf1|]. apply sframe_thread; [done|by rewrite Ht1]. }
  assert (Hi2 : inv_x (only cur) s2 (requeue q h cur t)) by (by eapply (depart_stop s s1 q)).
  rewrite (reclaimable_same _ _ E2). unfold departed.
  destruct (negb (cur =? h) && reclaimable (stopped (cur =? h) t)) eqn:Erc.
  - apply andb_true_iff in Erc as [Hne Hrc]. bool_facts.
    destruct Hcur as [?|Hu]; [done|].
    pose proof (reclaimable_zombie _ Hrc) as Hz.
    pose proof E2 as E2'. apply same_but_rq_fields in E2' as (_ & F2 & _).
    assert (Ho : t_on_rq t2 = 0).
    { unfold t2. destruct (parked_copy_fields (cur =? h) t1) as [_ ->].
      destruct (decide (t_on_rq t1 = 0)) as [|Hno]; [done|exfalso].
      destruct (Hon Hno) as [Hr _]. rewrite stopped_state, Hr in Hz.
      by destruct (cur =? h). }
    eapply wp_mono; [apply (recycle_thread_inv (only cur) s2 (requeue q h cur t) cur t2); try done; by rewrite F2, Hz|].
    intros [] s3 (Hi3 & Ht3 & Hoth & Hc3 & Hf3).
    split; [done|]. split.
    + exists (thread_recycled t2). split; [exact Ht3|]. apply (recycled_same _ _ E2).
    + split; [intros k; rewrite Hc3; apply Hc1|]. by eapply sframe_trans.
  - apply wp_ret. split; [done|]. split; [by exists t2|]. done.
Qed.

Lemma departed_fields idle t :
  t_running_hart (departed idle t) = -1 /\
  (t_state (departed idle t) = t_state (stopped idle t) \/
   t_state (departed idle t) = THREAD_UNUSED).
Proof.
  unfold departed. destruct (negb idle && reclaimable (stopped idle t)); simpl.
  - by split; [|right].
  - destruct (stopped_fields idle t) as (_ & -> & _). by split; [|left].
Qed.

(** A thread that left its hart is in a consistent state again. *)
Lemma departed_ok s s' q h cur t t' :
  inv_x (only cur) s q -> hart_ok h -> (cur = h \/ user_tid cur) ->
  thr s cur = Some t -> t_on_rq t = 0 -> (cur <> h -> t_state t <> THREAD_RUNNABLE) ->
  queues s' (requeue q h cur t) -> thr s' cur = Some t' ->
  same_but_rq (departed (cur =? h) t) t' ->
  thread_ok cur t' /\ t_running_hart t' = -1.
Proof.
  intros Hi Hh Hcur Ht H0 Hst Hq' Ht' E.
  apply same_but_rq_fields in E as (_ & E2 & E3 & _).
  destruct (departed_fields (cur =? h) t) as [Hrh Hor]. rewrite Hrh in E3.
  split; [|done]. unfold thread_ok. rewrite E3. split; [|split; [|lia]].
  - intros Hge. assert (cur <> h) as Hne by (destruct Hh; lia).
    rewrite E2. rewrite stopped_state in Hor.
    destruct (Z.eqb_spec cur h) as [?|_]; [done|].
    destruct (requeue_cases q h cur t) as [(_ & Hr & Eq)|[[?|Hr] Eq]]; [| done |];
      rewrite Eq in Hq'.
    + assert (Ho : t_on_rq t' = 1).
      { eapply (queues_in s'); [exact Hq'|exact Ht'|exact Hh|].
        unfold q_push. rewrite upd_q_eq. apply elem_of_snoc. }
      rewrite Ho. split; [done|]. intros _.
      assert (Hs : t_state (stopped false t) = THREAD_RUNNABLE)
        by (by rewrite stopped_state, Hr).
      unfold departed, reclaimable. rewrite Hs. exact Hs.
    + assert (Ho : t_on_rq t' = 0).
      { rewrite <- H0. eapply (on_rq_same s s' q q); eauto using ix_queues. }
      rewrite Ho. split; [|done]. intros E. exfalso.
      destruct Hor as [Hor|Hor]; rewrite Hor in E; [|done].
      unfold state_eqb in E. rewrite bool_decide_false in E by done. by apply Hst.
  - intros E. exfalso. rewrite E2 in E. destruct Hor as [Hor|Hor]; rewrite Hor in E; [|done].
    rewrite stopped_state in E. destruct (cur =? h); [done|].
    unfold state_eqb in E. by case_bool_decide.
Qed.

(** *** Choosing the next thread *)

Lemma queues_pop_nil s q h : queues s q -> q h = [] -> queues s (q_pop q h).
Proof.
  intros Hq E. eapply queues_ext; [|exact Hq]. intros k _. unfold q_pop, upd_q.
  case_decide; [subst; by rewrite E|done].
Qed.

Lemma schedule_pick_spec s q h idle :
  queues s q -> hart_ok h ->
  (forall i t, i ∈ q h -> thr s i = Some t -> t_state t = THREAD_RUNNABLE) ->
  wp (schedule_pick h idle)
    (fun r s' => r = default idle (head (q h)) /\ queues s' (q_pop q h) /\ rq_frame s s') s.
Proof.
  intros Hq Hh Hrun. unfold schedule_pick, RQ_FUEL. rewrite Nat.add_1_r. simpl. wp_steps.
  destruct (q h) as [|i l] eqn:Eq.
  - eapply wp_mono; [by apply (rq_pop_head_nil s q h)|]. intros r s' [-> ->]. simpl.
    wp_steps. split; [done|]. split; [by apply queues_pop_nil|]. apply rq_frame_refl.
  - eapply wp_mono; [by apply (rq_pop_head_spec s q h i l)|]. intros r s' (-> & Hq' & Hf).
    assert (Hi : i ∈ q h) by (rewrite Eq; apply list_elem_of_here).
    destruct (queues_valid s q Hq h i Hh Hi) as [? ?]. pose proof MAX_HARTS_ok.
    rewrite (proj2 (Z.ltb_ge i 0)) by lia.
    destruct (queues_thr s q h i Hq Hh Hi) as [t Ht].
    destruct (rq_frame_thr _ _ _ _ Hf Ht) as (t' & Ht' & Et).
    wp_steps. apply same_but_rq_fields in Et as (_ & Et & _).
    rewrite Et, (Hrun i t); [|apply list_elem_of_here|done]. simpl. wp_steps.
    split; [done|]. split; [|done]. unfold q_pop. by rewrite Eq.
Qed.

(** *** Starting the next thread *)

Lemma dispatched_fields h t :
  hart_ok h ->
  t_id (dispatched h t) = t_id t /\ t_state (dispatched h t) = THREAD_RUNNING /\
  t_running_hart (dispatched h t) = h /\ t_join_waiter (dispatched h t) = t_join_waiter t /\
  t_waiting_for (dispatched h t) = t_waiting_for t /\
  t_detached (dispatched h t) = t_detached t /\
  t_can_be_killed (dispatched h t) = t_can_be_killed t /\
  t_on_rq (dispatched h t) = t_on_rq t /\ t_rq_next (dispatched h t) = t_rq_next t /\
  t_tf (dispatched h t) = t_tf t.
Proof.
  intros [? ?]. pose proof MAX_HARTS_ok. unfold THREAD_MAX in *.
  unfold dispatched. simpl. destruct ((0 <=? t_last_hart t) && negb (t_last_hart t =? s32 h));
    simpl; (repeat (split; [done|])); (split; [apply s32_small; lia|done]).
Qed.

(** The hart after [schedule]. *)
Definition dispatch_cpu (cur next : Z) (c : cpu_t) : cpu_t :=
  let c := c_set_current_tid next c in
  let c := c_set_slice_left SCHED_SLICE_TICKS c in
  let c := c_set_need_resched 0 c in
  let c := if next =? cur then c else c_set_ctx_switches (u64 (c_ctx_switches c + 1)) c in
  c_set_cur_tf (TF_thread next) c.

Lemma dispatch_cpu_fields cur next c :
  c_current_tid (dispatch_cpu cur next c) = next /\
  c_cur_tf (dispatch_cpu cur next c) = TF_thread next /\
  c_hartid (dispatch_cpu cur next c) = c_hartid c /\
  c_idle_tid (dispatch_cpu cur next c) = c_idle_tid c /\
  c_online (dispatch_cpu cur next c) = c_online c.
Proof. unfold dispatch_cpu. by destruct (next =? cur). Qed.

Lemma sched_dispatch_spec s h cur next c t :
  k_tp s = h -> cpu s h = Some c -> thr s next = Some t ->
  wp (sched_dispatch h cur next)
    (fun r s' => r = TF_thread next /\
       s' = with_cpu h (dispatch_cpu cur next c) (with_thread next (dispatched h t) s)) s.
Proof.
  intros Htp Hc Ht. unfold sched_dispatch, thread_mark_running, dispatch_cpu, dispatched.
  subst h. wp_steps.
  destruct (Z.eqb_spec next cur); simpl; wp_steps; split; try done;
    by rewrite ?with_cpu_thread, ?with_cpu_twice, ?with_thread_twice.
Qed.

(** *** The choice is sound *)

Lemma current_unique_tid X s q h c k c' :
  inv_x X s q -> cpu s h = Some c -> live c -> cpu s k = Some c' -> live c' ->
  c_current_tid c' = c_current_tid c -> k = h.
Proof. intros Hi Hc Hl Hc' Hl' E. by eapply (ix_inj _ _ _ Hi k h c' c). Qed.

Lemma parked_not_current X s q i t :
  inv_x X s q -> thr s i = Some t -> ~ X i -> t_running_hart t = -1 -> not_current s i.
Proof.
  intros Hi Ht HX Hr h c Hc Hl E. subst i.
  pose proof (ix_run1 _ _ _ Hi h c t Hc Hl HX Ht) as Hr'.
  assert (hart_ok h) as [? ?] by (apply (ix_cpu_dom _ _ _ Hi); eauto). lia.
Qed.

(** The thread [schedule] is about to run can run, and runs nowhere else. *)
Definition next_ready (s : kstate) (h next : Z) : Prop :=
  exists tn, thr s next = Some tn /\ t_state tn = THREAD_RUNNABLE /\
    t_running_hart tn = -1 /\ (next = h \/ user_tid next) /\
    (forall k c', cpu s k = Some c' -> live c' -> c_current_tid c' = next -> k = h).

Lemma next_of_ready s q h c tc :
  inv_x (only (c_current_tid c)) s q -> hart_ok h -> cpu s h = Some c -> live c ->
  thr s (c_current_tid c) = Some tc -> thread_ok (c_current_tid c) tc ->
  t_running_hart tc = -1 -> next_ready s h (next_of q h).
Proof.
  intros Hi Hh Hc Hl Htc Hok Hrc. pose proof Hh as [Hh0 Hh1]. pose proof MAX_HARTS_ok.
  pose proof (ix_queues _ _ _ Hi) as Hq. unfold next_of.
  destruct (q h) as [|i l] eqn:Eq; simpl.
  - (* the idle thread *)
    assert (tid_ok h) as Hth by (split; lia).
    apply (ix_thr_dom _ _ _ Hi) in Hth as [t Ht].
    assert (Hidle : forall k c', cpu s k = Some c' -> live c' -> c_current_tid c' = h -> k = h).
    { intros k c' Hc' Hl' E. destruct (ix_cpu _ _ _ Hi k c' Hc') as [_ Hk].
      destruct (Hk Hl') as (_ & _ & [?|[? ?]]); lia. }
    pose proof (ix_base _ _ _ Hi h t Ht) as (_ & Hrng & _ & Hb & _).
    destruct (Hb Hh1) as (_ & _ & Hst).
    assert (t_running_hart t = -1 /\ (t_state t = THREAD_RUNNING -> 0 <= t_running_hart t))
      as [Hr Hrun].
    { destruct (decide (h = c_current_tid c)) as [E|Hne].
      - rewrite <- E in *. rewrite Ht in Htc. injection Htc as <-. split; [done|]. apply Hok.
      - destruct (ix_thr _ _ _ Hi h t Ht Hne) as (_ & Hr & _). split; [|done].
        destruct (decide (t_running_hart t = -1)) as [|Hn]; [done|exfalso].
        destruct (ix_run2 _ _ _ Hi h t Ht Hne) as (c' & Hc' & Hl' & E'); [lia|].
        pose proof (Hidle _ _ Hc' Hl' E') as E. rewrite E in Hc'. rewrite Hc in Hc'.
        injection Hc' as <-. by rewrite E' in Hne. }
    exists t. split; [done|]. split; [|by repeat split; [|left|]].
    destruct Hst as [|Hs]; [done|]. specialize (Hrun Hs). lia.
  - assert (Hin : i ∈ q h) by (rewrite Eq; apply list_elem_of_here).
    pose proof (queues_valid s q Hq h i Hh Hin) as Hu. pose proof Hu as [? ?].
    destruct (queues_thr s q h i Hq Hh Hin) as [t Ht].
    pose proof (queues_in s q i t h Hq Ht Hh Hin) as Ho.
    pose proof (ix_base _ _ _ Hi i t Ht) as (_ & Hrng & _).
    exists t. split; [done|]. destruct (decide (i = c_current_tid c)) as [E|Hne].
    + rewrite E in Ht. rewrite Ht in Htc. injection Htc as <-.
      split; [apply Hok; lia|]. split; [done|]. split; [by right|].
      intros k c' Hc' Hl' E'. eapply current_unique_tid; eauto. congruence.
    + pose proof (ix_thr _ _ _ Hi i t Ht Hne) as (O1 & _ & O3).
      assert (Hs : t_state t = THREAD_RUNNABLE) by (apply O1; lia).
      assert (Hr : t_running_hart t = -1).
      { destruct (decide (t_running_hart t = -1)) as [|Hn]; [done|exfalso].
        destruct O3 as [E|E]; [lia|by rewrite E in Hs..]. }
      split; [done|]. split; [done|]. split; [by right|].
      intros k c' Hc' Hl' E'. exfalso. by apply (parked_not_current _ _ _ i t Hi Ht Hne Hr k c').
Qed.

(** *** The invariant after the switch *)

Definition either (i j : Z) : Z -> Prop := fun k => k = i \/ k = j.

(** Hart [h] starts running [next]; the threads of [X] besides [next] have just
    stopped running, and no other hart runs any of them. *)
Lemma inv_run X s q h c next tn c' :
  inv_x X s q -> (forall i, X i \/ ~ X i) -> hart_ok h -> cpu s h = Some c -> c_online c <> 0 ->
  X next -> (live c -> X (c_current_tid c)) ->
  (forall k u, cpu s k = Some u -> live u -> X (c_current_tid u) -> k = h) ->
  (forall i t, X i -> i <> next -> thr s i = Some t -> thread_ok i t /\ t_running_hart t = -1) ->
  (next = h \/ user_tid next) -> thr s next = Some tn ->
  t_state tn = THREAD_RUNNABLE -> t_running_hart tn = -1 -> t_on_rq tn = 0 ->
  c_current_tid c' = next -> c_cur_tf c' = TF_thread next ->
  c_hartid c' = c_hartid c -> c_idle_tid c' = c_idle_tid c -> c_online c' = c_online c ->
  inv_x none (with_cpu h c' (with_thread next (dispatched h tn) s)) q.
Proof.
  intros Hi0 Hdec Hh Hc Hon HXn HXc Huniq Hst0 Hnx Htn Hst Hrh Ho E1 E2 E3 E4 E5.
  pose proof Hh as [? ?].
  destruct (dispatched_fields h tn Hh)
    as (D1 & D2 & D3 & D4 & D5 & D6 & D7 & D8 & D9 & _).
  pose proof (ix_base _ _ _ Hi0 next tn Htn) as (B1 & B2 & B3 & B4 & B5).
  set (s1 := with_thread next (dispatched h tn) s).
  assert (Hi : inv_x X s1 q).
  { eapply inv_x_off; try done; [congruence|..].
    - unfold thread_base. rewrite D1, D2, D3, D4, D6, D7. split; [done|]. split; [lia|].
      split; [done|]. split; [|done]. intros Hlt. destruct (B4 Hlt) as (? & ? & _). auto.
    - right. right. by rewrite D4, Hst.
    - by rewrite Hst. }
  assert (Hl' : live c') by (eexists; exact E2).
  pose proof Hi as [H1 H2 H3 H4 H5 H6 H7 H8 H9 H10 H11 H12 H13].
  assert (Htn1 : thr s1 next = Some (dispatched h tn)) by apply thr_with_thread_eq.
  assert (Hoth : forall i, i <> next -> thr s1 i = thr s i)
    by (intros; unfold s1; by rewrite thr_with_thread_ne).
  assert (Hcs : forall k, cpu s1 k = cpu s k) by done. clearbody s1.
  destruct (H7 h c ltac:(by rewrite Hcs)) as [Ha _].
  split; try done.
  - by eapply queues_state; [..|exact H1].
  - intros k. rewrite H3, cpu_with_cpu. case_decide; [subst|done].
    rewrite Hcs, Hc. split; eauto.
  - intros k u. rewrite cpu_with_cpu. case_decide as E; [subst k|by apply H7].
    intros [= <-]. unfold cpu_ok. rewrite E1, E2, E3, E4, E5. auto.
  - intros k k' u v. rewrite !cpu_with_cpu.
    destruct (decide (h = k)) as [<-|Hk], (decide (h = k')) as [<-|Hk']; [done| | |].
    + intros [= <-] Hv _ Hlv E. rewrite E1 in E. rewrite Hcs in Hv.
      symmetry. apply (Huniq k' v); [done..|by rewrite <- E].
    + intros Hu [= <-] Hlu _ E. rewrite E1 in E. rewrite Hcs in Hu.
      apply (Huniq k u); [done..|by rewrite E].
    + apply H8.
  - intros i t Ht _. change (thr s1 i = Some t) in Ht.
    destruct (decide (i = next)) as [->|Hne].
    + rewrite Htn1 in Ht. injection Ht as <-. unfold thread_ok. rewrite D2, D3, D8, Ho.
      split; [done|]. split; [lia|]. by left.
    + destruct (Hdec i) as [HX|HX]; [|by apply (H10 i t Ht)].
      rewrite Hoth in Ht by done. by apply Hst0.
  - intros k u t. rewrite cpu_with_cpu. intros Hu Hlu _ Ht.
    change (thr s1 (c_current_tid u) = Some t) in Ht. case_decide as E.
    + subst k. injection Hu as <-. rewrite E1, Htn1 in Ht. by injection Ht as <-.
    + apply (H11 k u t); [done|done| |done]. rewrite Hcs in Hu.
      intros HX. apply E. symmetry. by apply (Huniq k u).
  - intros i t Ht _ H0'. change (thr s1 i = Some t) in Ht. rewrite cpu_with_cpu.
    destruct (decide (i = next)) as [->|Hne].
    + rewrite Htn1 in Ht. injection Ht as <-. rewrite D3, decide_True by done. eauto.
    + destruct (Hdec i) as [HX|HX].
      * rewrite Hoth in Ht by done. destruct (Hst0 i t HX Hne Ht) as [_ ?]. lia.
      * destruct (H12 i t Ht HX H0') as (u & Hu & Hlu & E).
        rewrite decide_False; [eauto|]. intros E'. rewrite <- E', Hcs, Hc in Hu.
        injection Hu as <-. apply HX. rewrite <- E. by apply HXc.
Qed.

Lemma either_dec i j k : either i j k \/ ~ either i j k.
Proof.
  unfold either. destruct (decide (k = i)); [auto|]. destruct (decide (k = j)); [auto|].
  right. by intros [?|?].
Qed.

Lemma inv_dispatch s q h c next tc tn c' :
  let cur := c_current_tid c in
  inv_x (either cur next) s q -> hart_ok h -> cpu s h = Some c -> live c ->
  thr s cur = Some tc -> (next <> cur -> thread_ok cur tc /\ t_running_hart tc = -1) ->
  next_ready s h next -> thr s next = Some tn -> t_on_rq tn = 0 ->
  c_current_tid c' = next -> c_cur_tf c' = TF_thread next ->
  c_hartid c' = c_hartid c -> c_idle_tid c' = c_idle_tid c -> c_online c' = c_online c ->
  inv_x none (with_cpu h c' (with_thread next (dispatched h tn) s)) q.
Proof.
  intros cur Hi Hh Hc Hl Htc Hcur (tn' & Htn' & Hst & Hrh & Hnx & Huniq) Htn Ho E1 E2 E3 E4 E5.
  rewrite Htn in Htn'. injection Htn' as <-.
  destruct (ix_cpu _ _ _ Hi h c Hc) as [_ Hb]. destruct (Hb Hl) as (Hon & _ & _).
  apply (inv_run (either cur next) s q h c); try done.
  - apply either_dec.
  - by right.
  - by left.
  - intros k u Hu Hlu [E|E]; [by apply (ix_inj _ _ _ Hi k h u c)|by apply (Huniq k u)].
  - intros i t [-> | ->] Hne Ht; [|done]. rewrite Htc in Ht. injection Ht as <-. by apply Hcur.
Qed.

(** A hart that ran no thread starts on its idle thread. *)
Lemma inv_enter s q h c th c' :
  inv_x none s q -> hart_ok h -> cpu s h = Some c -> ~ live c -> c_online c <> 0 ->
  thr s h = Some th ->
  c_current_tid c' = h -> c_cur_tf c' = TF_thread h ->
  c_hartid c' = c_hartid c -> c_idle_tid c' = c_idle_tid c -> c_online c' = c_online c ->
  inv_x none (with_cpu h c' (with_thread h (dispatched h th) s)) q.
Proof.
  intros Hi Hh Hc Hnl Hon Hth E1 E2 E3 E4 E5. pose proof Hh as [? ?]. pose proof MAX_HARTS_ok.
  assert (Hown : forall k u, cpu s k = Some u -> live u -> c_current_tid u = h -> k = h).
  { intros k u Hu Hlu E. destruct (ix_cpu _ _ _ Hi k u Hu) as [_ Hk].
    destruct (Hk Hlu) as (_ & _ & [?|[? ?]]); lia. }
  destruct (ix_base _ _ _ Hi h th Hth) as (_ & Hrng & _ & Hb & _).
  destruct (ix_thr _ _ _ Hi h th Hth (fun x => x)) as (_ & O2 & _).
  assert (Hr : t_running_hart th = -1).
  { destruct (decide (t_running_hart th = -1)) as [|Hn]; [done|exfalso].
    destruct (ix_run2 _ _ _ Hi h th Hth (fun x => x)) as (u & Hu & Hlu & E); [lia|].
    pose proof (Hown _ _ Hu Hlu E) as E'. rewrite E', Hc in Hu. by injection Hu as <-. }
  apply (inv_run (only h) s q h c); try done.
  - by eapply inv_x_weaken; [|exact Hi].
  - intros i. unfold only. destruct (decide (i = h)); auto.
  - by left.
  - destruct Hb as (_ & _ & [?|Hs]); [done|done|]. specialize (O2 Hs). lia.
  - destruct (queues_on_rq _ _ (ix_queues _ _ _ Hi) h th Hth) as [[_ (k & Hk & Hin)]|[? _]]; [|done].
    destruct (queues_valid _ _ (ix_queues _ _ _ Hi) k h Hk Hin). lia.
Qed.

(** *** [schedule] *)

(** What [schedule] leaves behind on hart [h], when [cur], in state [t], was its
    current thread and the queues were [q]. *)
Record scheduled (s s' : kstate) (q : Z -> list Z) (h : Z) (c : cpu_t) (t : Thread)
    (next : Z) : Prop := {
  sd_next : next = next_of (requeue q h (c_current_tid c) t) h;
  sd_inv : inv_x none s' (q_pop (requeue q h (c_current_tid c) t) h);
  sd_cpu : cpu s' h = Some (dispatch_cpu (c_current_tid c) next c);
  sd_cpus : forall k, k <> h -> cpu s' k = cpu s k;
  sd_run : exists t0 t1, thr s' next = Some (dispatched h t1) /\ same_but_rq t0 t1 /\
    (if decide (next = c_current_tid c)
     then t0 = departed (c_current_tid c =? h) t else thr s next = Some t0);
  sd_cur : next <> c_current_tid c -> exists t', thr s' (c_current_tid c) = Some t' /\
    same_but_rq (departed (c_current_tid c =? h) t) t';
  sd_frame : sframe (either (c_current_tid c) next) s s'
}.

Lemma next_of_popped s q h next :
  queues s q -> hart_ok h -> next = next_of q h ->
  forall k, hart_ok k -> next ∉ q_pop q h k.
Proof.
  intros Hq Hh -> k Hk. unfold next_of, q_pop, upd_q. pose proof (queues_nodup s q Hq h Hh) as Hnd.
  destruct (q h) as [|i l] eqn:Eq; simpl.
  - intros Hin. assert (h ∈ q k) as Hin'.
    { revert Hin. case_decide; [set_solver|done]. }
    destruct (queues_valid s q Hq k h Hk Hin') as [? ?]. destruct Hh. lia.
  - apply NoDup_cons in Hnd as [Hnd _]. case_decide as E; [done|].
    intros Hin. apply E. eapply (queues_disj s q Hq h k i); try done.
    rewrite Eq. apply list_elem_of_here.
Qed.

Lemma q_pop_in_other q h k i : i <> next_of q h -> (i ∈ q_pop q h k <-> i ∈ q k).
Proof.
  intros Hne. unfold next_of, q_pop, upd_q in *. case_decide; [subst|done].
  destruct (q k) as [|j l]; simpl in *; [done|].
  rewrite elem_of_cons. naive_solver.
Qed.

(** The pop of the chosen thread. *)
Lemma inv_x_pop s s' q h cur next :
  inv_x (only cur) s q -> hart_ok h -> next = next_of q h -> next_ready s h next ->
  rq_frame s s' -> queues s' (q_pop q h) ->
  inv_x (either cur next) s' (q_pop q h).
Proof.
  intros Hi Hh -> (tn & Htn & Hst & _) Hf Hq'.
  eapply (inv_x_rq _ s s' q); try done.
  - eapply inv_x_weaken; [|exact Hi]. intros i Hi'. by left.
  - intros i k HX _. apply q_pop_in_other. intros ->. apply HX. by right.
  - intros i t' _ Ht' Hs.
    destruct (rq_frame_thr_inv _ _ _ _ Hf Ht') as (t & Ht & E).
    apply same_but_rq_fields in E as (_ & E & _). rewrite E in Hs.
    destruct (ix_base _ _ _ Hi i t Ht) as (_ & _ & _ & _ & B5). destruct (B5 Hs) as (_ & _ & B0).
    rewrite <- B0. eapply (on_rq_same s s'); eauto using ix_queues.
    intros k Hk. apply q_pop_in_other. intros ->. rewrite Htn in Ht. injection Ht as <-.
    by rewrite Hst in Hs.
  - intros i. unfold either. destruct (decide (i = cur)), (decide (i = next_of q h)); auto.
    right. by intros [?|?].
Qed.

Lemma next_ready_frame s s' h next :
  rq_frame s s' -> next_ready s h next -> next_ready s' h next.
Proof.
  intros Hf (tn & Htn & H1 & H2 & H3 & H4).
  destruct (rq_frame_thr _ _ _ _ Hf Htn) as (tn' & Htn' & E).
  apply same_but_rq_fields in E as (_ & E1 & E2 & _).
  exists tn'. rewrite E1, E2. repeat (split; [done|]).
  intros k c'. rewrite (rq_frame_cpu _ _ k Hf). apply H4.
Qed.

Lemma next_ready_cpu s s' h next :
  (forall k, cpu s' k = cpu s k) -> (forall i, thr s' i = thr s i) ->
  next_ready s h next -> next_ready s' h next.
Proof.
  intros Hc Ht (tn & Htn & H1 & H2 & H3 & H4). exists tn. rewrite Ht.
  repeat (split; [done|]). intros k c'. rewrite Hc. apply H4.
Qed.

Lemma schedule_spec s q c t :
  let h := k_tp s in let cur := c_current_tid c in
  inv_x (only cur) s q -> cpu s h = Some c -> live c ->
  thr s cur = Some t -> t_on_rq t = 0 -> (cur <> h -> t_state t <> THREAD_RUNNABLE) ->
  wp (schedule (c_cur_tf c))
    (fun r s' => exists next, r = TF_thread next /\ scheduled s s' q h c t next) s.
Proof.
  intros h cur Hi Hc Hl Ht H0 Hst. pose proof (ix_tp _ _ _ Hi) as Hh. fold h in Hh.
  destruct (ix_cpu _ _ _ Hi h c Hc) as [Ha Hb].
  destruct (Hb Hl) as (Hon & Etf & Hcur). destruct (Ha Hon) as [Ehid Eidle].
  unfold schedule. wp_steps. apply wp_ASSERT; [by apply bool_decide_eq_true|].
  rewrite Ehid, Eidle. fold cur. wp_steps.
  eapply wp_mono; [by apply (sched_depart_spec s q h cur t)|].
  intros [] s3 (Hi3 & (tc & Htc & Ec) & Hc3 & Hf3).
  pose proof (ix_queues _ _ _ Hi3) as Hq3.
  destruct (departed_ok s s3 q h cur t tc Hi Hh Hcur Ht H0 Hst Hq3 Htc Ec) as [Hok Hrc].
  assert (Hc3h : cpu s3 h = Some c) by (by rewrite Hc3).
  set (q1 := requeue q h cur t) in *. set (next := next_of q1 h).
  pose proof (next_of_ready s3 q1 h c tc Hi3 Hh Hc3h Hl Htc Hok Hrc) as Hnr. fold next in Hnr.
  wp_steps. eapply wp_mono; [apply (schedule_pick_spec s3 q1 h h Hq3 Hh)|].
  { intros i u Hin Hu. destruct (decide (i = cur)) as [->|Hne].
    - rewrite Htc in Hu. injection Hu as <-. apply Hok.
      + destruct (queues_valid _ _ Hq3 h cur Hh Hin). done.
      + by rewrite (queues_in s3 q1 cur tc h Hq3 Htc Hh Hin).
    - destruct (ix_thr _ _ _ Hi3 i u Hu Hne) as (O1 & _). apply O1.
      + by destruct (queues_valid _ _ Hq3 h i Hh Hin).
      + by rewrite (queues_in s3 q1 i u h Hq3 Hu Hh Hin). }
  intros r s4 (-> & Hq4 & Hf4). fold (next_of q1 h). fold next.
  pose proof (inv_x_pop s3 s4 q1 h cur next Hi3 Hh eq_refl Hnr Hf4 Hq4) as Hi4.
  destruct Hnr as (tn & Htn & Hnst & Hnr') eqn:Enr. clear Enr.
  destruct (rq_frame_thr _ _ _ _ Hf4 Htn) as (tn4 & Htn4 & En4).
  destruct (rq_frame_thr _ _ _ _ Hf4 Htc) as (tc4 & Htc4 & Ec4).
  assert (Hc4 : forall k, cpu s4 k = cpu s k) by (intros; rewrite (rq_frame_cpu _ _ _ Hf4); done).
  assert (Htp4 : k_tp s4 = h) by (rewrite (rq_frame_tp _ _ Hf4), (sf_tp _ _ _ Hf3); done).
  assert (Hon4 : t_on_rq tn4 = 0).
  { destruct (queues_on_rq _ _ Hq4 next tn4 Htn4) as [[_ (k & Hk & Hin)]|[? _]]; [|done].
    by destruct (next_of_popped s3 q1 h next Hq3 Hh eq_refl k Hk). }
  eapply wp_mono; [apply (sched_dispatch_spec s4 h cur next c tn4); [done|by rewrite Hc4|done]|].
  intros r s5 [-> ->]. exists next. split; [done|].
  destruct (dispatch_cpu_fields cur next c) as (G1 & G2 & G3 & G4 & G5).
  split; try done.
  - eapply (inv_dispatch s4 _ h c next tc4 tn4); try done; [by rewrite Hc4|..].
    + intros Hne. pose proof Ec4 as E'. apply same_but_rq_fields in E' as (_ & E2 & E3 & _).
      rewrite E3. split; [|done]. unfold thread_ok in *. rewrite E2, E3.
      assert (Eo : t_on_rq tc4 = t_on_rq tc).
      { eapply (on_rq_same s3 s4 q1); eauto. intros k Hk. by apply q_pop_in_other. }
      by rewrite Eo.
    + eapply next_ready_frame; [exact Hf4|]. by exists tn.
  - apply cpu_with_cpu_eq.
  - intros k Hk. rewrite cpu_with_cpu, decide_False by done. apply Hc4.
  - fold cur. destruct (decide (next = cur)) as [E|Hne].
    + exists (departed (cur =? h) t), tn4. split; [apply thr_with_thread_eq|].
      split; [|done]. eapply same_but_rq_trans; [|exact En4].
      rewrite E in Htn. rewrite Htc in Htn. by injection Htn as <-.
    + pose proof (sf_thr _ _ _ Hf3 next Hne) as F. rewrite Htn in F.
      destruct (thr s next) as [t0|] eqn:E0; [|by inversion F].
      exists t0, tn4. split; [apply thr_with_thread_eq|]. split; [|done].
      eapply same_but_rq_trans; [|exact En4]. inversion F as [? ? [n ->]|].
      apply same_but_rq_next.
  - intros Hne. fold cur. fold cur in Hne. exists tc4.
    split; [|by eapply same_but_rq_trans].
    rewrite thr_with_cpu, thr_with_thread_ne by done. done.
  - fold cur. apply (sframe_trans _ _ s3); [eapply sframe_mono; [|exact Hf3]; by left|].
    apply (sframe_trans _ _ s4).
    + apply frame_sframe. eapply frame_rq; try done. intros i k HX _.
      apply q_pop_in_other. intros ->. apply HX. by right.
    + eapply sframe_trans; [|apply sframe_cpu].
      apply sframe_thread; [by right|by rewrite Htn4].
Qed.

End sched_spec.
