(* ===== verification/ThreadOps.v ===== *)
(** * The thread system calls

    For each system call: what it does on every branch, and that it keeps the
    invariant of the kernel's tables. *)
From stdpp Require Import base numbers list gmap strings.
From Stdlib Require Import ZArith Lia.
From S2P Require Import Prelude Mem Machine State Kernel Image RunQueue Smp Thread Invariant ThreadSpec SchedSpec.

Local Open Scope Z_scope.

Section ops_defs.
Context {cfg : Config} {hws : Hardware}.

(** The hart executing, [k_tp s], runs thread [c_current_tid c], in state [t]. *)
Record running (s : kstate) (q : Z -> list Z) (c : cpu_t) (t : Thread) : Prop := {
  rn_inv : inv_x none s q;
  rn_cpu : cpu s (k_tp s) = Some c;
  rn_live : live c;
  rn_thr : thr s (c_current_tid c) = Some t
}.

(** What every handler guarantees when it returns. *)
Record kept (s s' : kstate) : Prop := {
  kp_inv : inv s';
  kp_tp : k_tp s' = k_tp s;
  kp_lock : k_kernel_lock s' = k_kernel_lock s;
  kp_live : exists c', cpu s' (k_tp s) = Some c' /\ live c'
}.

(** [tf->a0 = v] on a thread. *)
Definition with_a0 (v : Z) (t : Thread) : Thread :=
  t_set_tf (f_set_a0 (u64 v) (t_tf t)) t.

End ops_defs.

Section basics.
Context {cfg : Config} {hws : Hardware}.
Implicit Types (s : kstate) (q : Z -> list Z) (c : cpu_t) (t : Thread).

Lemma running_facts s q c t :
  running s q c t ->
  hart_ok (k_tp s) /\ c_hartid c = k_tp s /\ c_idle_tid c = k_tp s /\
  c_cur_tf c = TF_thread (c_current_tid c) /\
  (c_current_tid c = k_tp s \/ user_tid (c_current_tid c)) /\
  tid_ok (c_current_tid c) /\
  t_running_hart t = k_tp s /\ t_on_rq t = 0 /\
  (t_state t = THREAD_RUNNING \/ t_state t = THREAD_ZOMBIE).
Proof.
  intros [Hi Hc Hl Ht]. pose proof (ix_tp _ _ _ Hi) as Hh.
  destruct (ix_cpu _ _ _ Hi _ c Hc) as [Ha Hb].
  destruct (Hb Hl) as (Hon & Etf & Hcur). destruct (Ha Hon) as [E1 E2].
  pose proof (ix_run1 _ _ _ Hi _ c t Hc Hl (fun x => x) Ht) as Er.
  destruct (ix_thr _ _ _ Hi _ t Ht (fun x => x)) as (O1 & O2 & O3).
  pose proof Hh as [? ?]. destruct O3 as [Hs|Hs]; [lia| |];
    (split; [done|]; split; [done|]; split; [done|]; split; [done|]; split; [done|];
     split; [apply (ix_thr_dom _ _ _ Hi); eauto|]; split; [done|]; split; [|auto]);
    (destruct (queues_on_rq _ _ (ix_queues _ _ _ Hi) _ t Ht) as [[Eo (k & Hk & Hin)]|[? _]];
      [exfalso|done]);
    (destruct (queues_valid _ _ (ix_queues _ _ _ Hi) k _ Hk Hin) as [Hu _]);
    specialize (O1 Hu); rewrite Hs, Eo in O1; by destruct O1 as [_ O1]; discriminate O1.
Qed.

Lemma kept_inv s s' q c' :
  inv_x none s' q -> k_tp s' = k_tp s -> k_kernel_lock s' = k_kernel_lock s ->
  cpu s' (k_tp s) = Some c' -> live c' -> kept s s'.
Proof. intros. split; eauto. by exists q. Qed.

Lemma kept_refl s q c t : running s q c t -> kept s s.
Proof. intros []. by eapply kept_inv. Qed.

Lemma kept_trans s1 s2 s3 : kept s1 s2 -> kept s2 s3 -> kept s1 s3.
Proof.
  intros [A1 A2 A3 A4] [B1 B2 B3 B4]. rewrite A2 in *. split; congruence || done.
Qed.

(** The hart after a handler that kept the invariant is running again. *)
Lemma kept_running s s' : kept s s' -> exists q c t, running s' q c t.
Proof.
  intros [[q Hi] A2 A3 (c & Hc & Hl)]. rewrite <- A2 in Hc.
  destruct (ix_cpu _ _ _ Hi _ c Hc) as [_ Hb]. destruct (Hb Hl) as (_ & _ & Hcur).
  assert (tid_ok (c_current_tid c)) as Hok.
  { destruct Hcur as [->|?]; [|by apply user_tid_ok].
    destruct (ix_tp _ _ _ Hi). pose proof MAX_HARTS_ok. split; lia. }
  apply (ix_thr_dom _ _ _ Hi) in Hok as [t Ht]. by exists q, c, t.
Qed.

(** *** Updates of the current thread's frame *)

Lemma wp_set_a0 i v t (Q : unit -> kstate -> Prop) s :
  thr s i = Some t -> Q tt (with_thread i (with_a0 v t) s) -> wp (set_a0 (TF_thread i) v) Q s.
Proof. intros Ht HQ. unfold set_a0, upd_tf. by eapply wp_upd_thread. Qed.

Lemma skel_a0 v t : skel (with_a0 v t) = skel t.
Proof. done. Qed.

Lemma running_thread s q c t i u u' :
  running s q c t -> thr s i = Some u -> skel u' = skel u ->
  running (with_thread i u' s) q c (if decide (i = c_current_tid c) then u' else t).
Proof.
  intros [Hi Hc Hl Ht] Hu E. split; try done.
  - by eapply inv_x_skel.
  - rewrite thr_with_thread. by repeat case_decide.
Qed.

Lemma kept_thread s q c t i u u' :
  running s q c t -> thr s i = Some u -> skel u' = skel u -> kept s (with_thread i u' s).
Proof. intros Hr Hu E. destruct (running_thread _ _ _ _ _ _ _ Hr Hu E). by eapply kept_inv. Qed.

(** *** Leaving the hart *)

(** [schedule] after the current thread was put in a state [t'] in which it
    cannot go on. *)
Lemma schedule_leave s s1 q c t t' :
  running s q c t -> s1 = with_thread (c_current_tid c) t' s ->
  inv_x (only (c_current_tid c)) s1 q ->
  t_on_rq t' = 0 -> (c_current_tid c <> k_tp s -> t_state t' <> THREAD_RUNNABLE) ->
  wp (schedule (c_cur_tf c))
    (fun _ s' => kept s s' /\ exists next, scheduled s1 s' q (k_tp s) c t' next) s1.
Proof.
  intros Hr -> Hi1 H0 Hst. pose proof Hr as [Hi Hc Hl Ht].
  eapply wp_mono; [apply (schedule_spec _ q c t'); try done; apply thr_with_thread_eq|].
  intros r s' (next & _ & Hs). split; [|by exists next].
  destruct (dispatch_cpu_fields (c_current_tid c) next c) as (_ & Ef & _).
  eapply kept_inv; [apply (sd_inv _ _ _ _ _ _ _ Hs)|..].
  - by rewrite (sf_tp _ _ _ (sd_frame _ _ _ _ _ _ _ Hs)).
  - by rewrite (sf_lock _ _ _ (sd_frame _ _ _ _ _ _ _ Hs)).
  - apply (sd_cpu _ _ _ _ _ _ _ Hs).
  - by eexists.
Qed.

(** [schedule] with the current thread as it is. *)
Lemma schedule_switch s q c t :
  running s q c t ->
  wp (schedule (c_cur_tf c))
    (fun _ s' => kept s s' /\ exists next, scheduled s s' q (k_tp s) c t next) s.
Proof.
  intros Hr. pose proof Hr as [Hi Hc Hl Ht].
  destruct (running_facts _ _ _ _ Hr) as (Hh & E1 & E2 & E3 & Hcur & _ & Er & H0 & Hst).
  eapply wp_mono; [apply (schedule_spec _ q c t); try done|].
  - by eapply inv_x_weaken; [|exact Hi].
  - intros _. by destruct Hst as [->| ->].
  - intros r s' (next & _ & Hs). split; [|by exists next].
    destruct (dispatch_cpu_fields (c_current_tid c) next c) as (_ & Ef & _).
    eapply kept_inv; [apply (sd_inv _ _ _ _ _ _ _ Hs)|..].
    + by rewrite (sf_tp _ _ _ (sd_frame _ _ _ _ _ _ _ Hs)).
    + by rewrite (sf_lock _ _ _ (sd_frame _ _ _ _ _ _ _ Hs)).
    + apply (sd_cpu _ _ _ _ _ _ _ Hs).
    + by eexists.
Qed.

(** Putting the current thread in a state from which it leaves the hart. *)
Lemma leaving s q c t t' :
  running s q c t -> t_state t = THREAD_RUNNING -> user_tid (c_current_tid c) ->
  t_on_rq t' = 0 -> t_id t' = t_id t -> t_running_hart t' = t_running_hart t ->
  t_join_waiter t' = t_join_waiter t -> t_state t' <> THREAD_UNUSED ->
  inv_x (only (c_current_tid c)) (with_thread (c_current_tid c) t' s) q.
Proof.
  intros Hr Hst [Hu1 Hu2] Ho E1 E2 E3 Hnu. pose proof Hr as [Hi Hc Hl Ht].
  destruct (running_facts _ _ _ _ Hr) as (_ & _ & _ & _ & _ & _ & _ & H0 & _).
  pose proof (ix_base _ _ _ Hi _ t Ht) as (B1 & B2 & B3 & B4 & B5).
  eapply inv_x_off; try done.
  - by eapply inv_x_weaken; [|exact Hi].
  - unfold thread_base. rewrite E1, E2, E3. repeat (split; [done|]). split; [lia|done].
  - right. right. split; [done|]. by rewrite Hst.
  - by rewrite Hst.
Qed.

End basics.

(** ** Sleeping, yielding, blocking *)

Section sleep.
Context {cfg : Config} {hws : Hardware}.
Implicit Types (s : kstate) (q : Z -> list Z) (c : cpu_t) (t : Thread).

(** The current thread asleep until tick [w]. *)
Definition asleep (w : Z) (t : Thread) : Thread :=
  t_set_rq_next (-1) (t_set_on_rq 0 (t_set_wakeup_tick w (t_set_state THREAD_SLEEPING t))).

Lemma thread_sys_yield_spec s q c t :
  running s q c t ->
  wp (thread_sys_yield (c_cur_tf c))
    (fun _ s' => kept s s' /\ exists next, scheduled s s' q (k_tp s) c t next) s.
Proof.
  intros Hr. unfold thread_sys_yield, thread_sys_sleep, current_tid_get. pose proof Hr as [].
  wp_steps. simpl. wp_steps. eapply wp_mono; [by eapply schedule_switch|].
  intros r s' H. by wp_steps.
Qed.

Lemma thread_sys_sleep_spec s q c t ticks :
  running s q c t -> t_state t = THREAD_RUNNING -> user_tid (c_current_tid c) -> ticks <> 0 ->
  let t' := asleep (u64 (g_ticks (k_core s) + ticks)) t in
  wp (thread_sys_sleep (c_cur_tf c) ticks)
    (fun _ s' => kept s s' /\
       exists next, scheduled (with_thread (c_current_tid c) t' s) s' q (k_tp s) c t' next) s.
Proof.
  intros Hr Hst Hu Hn t'. unfold thread_sys_sleep, current_tid_get. pose proof Hr as [].
  wp_steps. rewrite (proj2 (Z.eqb_neq ticks 0)) by done. wp_steps.
  eapply wp_mono; [eapply (schedule_leave s); [done|reflexivity| |done|done]|].
  - by eapply leaving.
  - intros r s' H. by wp_steps.
Qed.

Lemma thread_block_spec s q c t :
  running s q c t -> t_state t = THREAD_RUNNING -> user_tid (c_current_tid c) ->
  let t' := t_set_state THREAD_BLOCKED t in
  wp (thread_block (c_cur_tf c))
    (fun _ s' => kept s s' /\
       exists next, scheduled (with_thread (c_current_tid c) t' s) s' q (k_tp s) c t' next) s.
Proof.
  intros Hr Hst Hu t'. unfold thread_block, current_tid_get. pose proof Hr as [].
  destruct (running_facts _ _ _ _ Hr) as (_ & _ & _ & _ & _ & _ & _ & H0 & _).
  wp_steps. eapply wp_mono; [eapply (schedule_leave s); [done|reflexivity| |done|done]|].
  - by eapply leaving.
  - intros r s' H. by wp_steps.
Qed.

End sleep.

(** ** Waking *)

Section wake.
Context {cfg : Config} {hws : Hardware}.
Implicit Types (s : kstate) (q : Z -> list Z) (c : cpu_t) (t : Thread).

(** A thread that waits for something is a user thread that no hart runs. *)
Definition waits (st : ThreadState) : Prop :=
  st = THREAD_SLEEPING \/ st = THREAD_BLOCKED \/ st = THREAD_WAITING.

Lemma waiting_parked s q i t :
  inv_x none s q -> thr s i = Some t -> waits (t_state t) ->
  user_tid i /\ parked t /\ not_current s i.
Proof.
  intros Hi Ht Hw. pose proof (ix_base _ _ _ Hi i t Ht) as (B1 & B2 & B3 & B4 & B5).
  destruct (ix_thr _ _ _ Hi i t Ht (fun x => x)) as (O1 & O2 & O3).
  assert (Hu : user_tid i).
  { assert (tid_ok i) as [? ?] by (apply (ix_thr_dom _ _ _ Hi); eauto).
    split; [|done]. destruct (decide (i < MAX_HARTS)) as [Hlt|]; [|lia].
    destruct (B4 Hlt) as (_ & _ & [Hs|Hs]); rewrite Hs in Hw; by destruct Hw as [?|[?|?]]. }
  assert (Hr : t_running_hart t = -1).
  { destruct (decide (t_running_hart t = -1)) as [|Hn]; [done|].
    destruct O3 as [Hs|Hs]; [lia|rewrite Hs in Hw; by destruct Hw as [?|[?|?]]..]. }
  split; [done|]. split; [|by apply (parked_not_current none s q i t Hi Ht (fun x => x))].
  assert (t_state t <> THREAD_RUNNABLE /\ t_state t <> THREAD_RUNNING /\
          t_state t <> THREAD_ZOMBIE) as (? & ? & ?).
  { by destruct Hw as [->|[->| ->]]. }
  split; [done|]. split; [done|]. split; [|done]. destruct Hu as [Hu _].
  destruct (decide (t_on_rq t = 0)) as [|Hn]; [done|]. by apply O1 in Hn.
Qed.

(** What waking thread [tid] does. *)
Definition woken (s s' : kstate) (tid : Z) (t : Thread) : Prop :=
  (exists q', inv_x none s' q') /\ frame (only tid) s s' /\
  exists t', thr s' tid = Some t' /\ same_but_rq (runnable t) t'.

Lemma wake_waiting s q pref tid t :
  inv_x none s q -> hart_ok pref -> thr s tid = Some t ->
  waits (t_state t) -> t_state t <> THREAD_WAITING ->
  wp (thread_make_runnable tid pref) (fun _ s' => woken s s' tid t) s.
Proof.
  intros Hi Hp Ht Hw Hnw. destruct (waiting_parked _ _ _ _ Hi Ht Hw) as (Hu & Hpk & Hnc).
  eapply wp_mono; [by apply (thread_make_runnable_inv none none s q tid pref t); auto|].
  intros [] s' (target & t' & Hi' & _ & Ht' & E & Hf). split; [eauto|]. split; [done|]. eauto.
Qed.

Lemma thread_wake_spec s q c t tid :
  running s q c t ->
  wp (thread_wake tid)
    (fun _ s' => match thr s tid with
       | Some u => if decide (t_state u = THREAD_BLOCKED) then woken s s' tid u else s' = s
       | None => s' = s
       end) s.
Proof.
  intros Hr. pose proof Hr as [Hi Hc Hl Ht]. unfold thread_wake.
  destruct ((tid <? 0) || (THREAD_MAX <=? tid)) eqn:E.
  - assert (thr s tid = None) as ->.
    { destruct (thr s tid) eqn:Eu; [exfalso|done].
      assert (tid_ok tid) as [? ?] by (apply (ix_thr_dom _ _ _ Hi); eauto).
      apply orb_true_iff in E as [E|E]; bool_facts; lia. }
    by apply wp_ret.
  - apply orb_false_iff in E as [E1 E2]. bool_facts.
    assert (tid_ok tid) as Hok by (split; lia). apply (ix_thr_dom _ _ _ Hi) in Hok as [u Hu].
    rewrite Hu. destruct (decide (t_state u = THREAD_BLOCKED)) as [Hb|Hb]; wp_steps;
      unfold state_eqb.
    + rewrite bool_decide_true by done. wp_steps.
      destruct (running_facts _ _ _ _ Hr) as (Hh & Eh & _). rewrite Eh.
      eapply wake_waiting; try done; [by right; left|by rewrite Hb].
    + rewrite bool_decide_false by done. by apply wp_ret.
Qed.

Lemma kept_frame s s' q q' c t T :
  running s q c t -> inv_x none s' q' -> frame T s s' -> kept s s'.
Proof.
  intros [Hi Hc Hl Ht] Hi' Hf. destruct (frame_cpu_get _ _ _ _ _ Hf Hc) as (c' & Hc' & E).
  eapply kept_inv; [done|apply Hf|apply Hf|exact Hc'|]. by apply (cpu_hint_live _ _ E).
Qed.

(** *** The clock tick *)

Definition due (now : Z) (t : Thread) : bool :=
  state_eqb (t_state t) THREAD_SLEEPING && (t_wakeup_tick t <=? now).

Lemma due_true now t :
  due now t = true <-> t_state t = THREAD_SLEEPING /\ t_wakeup_tick t <= now.
Proof.
  unfold due, state_eqb. rewrite andb_true_iff, bool_decide_eq_true, Z.leb_le. done.
Qed.

(** The state after the slots below [j] have been looked at. *)
Record ticked (s0 : kstate) (j : Z) (s' : kstate) : Prop := {
  tk_inv : exists q', inv_x none s' q';
  tk_frame : frame (fun i => exists t, thr s0 i = Some t /\ due (g_ticks (k_core s0)) t = true) s0 s';
  tk_woken : forall i t, i < j -> thr s0 i = Some t -> due (g_ticks (k_core s0)) t = true ->
    exists t', thr s' i = Some t' /\ same_but_rq (runnable t) t';
  tk_waiting : forall i t, j <= i -> thr s0 i = Some t -> due (g_ticks (k_core s0)) t = true ->
    exists t', thr s' i = Some t' /\ link_only t t'
}.

Lemma link_same t1 t2 t3 : same_but_rq t1 t2 -> link_only t2 t3 -> same_but_rq t1 t3.
Proof. intros H [n ->]. eapply same_but_rq_trans; [exact H|apply same_but_rq_next]. Qed.

Lemma link_due now t t' : link_only t t' -> due now t' = due now t.
Proof. by intros [n ->]. Qed.

Lemma ticked_other s0 j s' i u :
  ticked s0 j s' -> thr s' i = Some u -> j <= i ->
  exists t, thr s0 i = Some t /\ link_only t u /\ due (g_ticks (k_core s0)) u = due (g_ticks (k_core s0)) t.
Proof.
  intros [_ K2 _ K4] Hu Hj. destruct (thr s0 i) as [t|] eqn:E0.
  - exists t. split; [done|]. assert (link_only t u) as Hl.
    { destruct (due (g_ticks (k_core s0)) t) eqn:Ed.
      - destruct (K4 i t Hj E0 Ed) as (t' & Ht' & Hl). rewrite Hu in Ht'. by injection Ht' as ->.
      - pose proof (fr_thr _ _ _ K2 i) as F. rewrite E0, Hu in F.
        assert (option_Forall2 link_only (Some t) (Some u)) as F'.
        { apply F. intros (t' & Ht' & Hd). rewrite E0 in Ht'. injection Ht' as <-.
          by rewrite Ed in Hd. }
        by inversion F'. }
    split; [done|]. by apply link_due.
  - exfalso. pose proof (fr_thr _ _ _ K2 i) as F. rewrite E0, Hu in F.
    assert (option_Forall2 link_only None (Some u)) as F'; [|by inversion F'].
    apply F. intros (t' & Ht' & _). by rewrite E0 in Ht'.
Qed.

Lemma tick_one_spec s0 j s' :
  ticked s0 j s' -> tid_ok j ->
  wp (tick_one j) (fun _ s'' => ticked s0 (j + 1) s'') s'.
Proof.
  intros Hk Hj. pose proof Hk as [[q' Hi] K2 K3 K4]. set (now := g_ticks (k_core s0)) in *.
  assert (Hnow : g_ticks (k_core s') = now) by apply (fr_ticks _ _ _ K2).
  pose proof Hj as Hdom. apply (ix_thr_dom _ _ _ Hi) in Hdom as [u Hu].
  destruct (ticked_other _ _ _ _ _ Hk Hu) as (t & Ht & Hl & Ed); [lia|]. fold now in Ed.
  unfold tick_one. wp_steps. rewrite Hnow. fold (due now u).
  destruct (due now u) eqn:Edu.
  - pose proof Edu as Es. apply due_true in Es as [Es _]. wp_steps.
    set (u1 := t_set_wakeup_tick 0 u). set (s1 := with_thread j u1 s').
    assert (Hi1 : inv_x none s1 q') by (by eapply inv_x_skel).
    eapply wp_mono; [apply (wake_waiting s1 q' _ j u1); [done|apply (ix_boot _ _ _ Hi)
      |apply thr_with_thread_eq|by left|]|].
    { change (t_state u <> THREAD_WAITING). by rewrite Es. }
    intros [] s2 (Hi2 & Hf2 & (t' & Ht' & E')).
    assert (Hf1 : frame (only j) s' s2).
    { eapply (frame_trans _ _ s1); [|done]. apply frame_thread; [done|by rewrite Hu]. }
    split; [done|..].
    + eapply frame_trans; [exact K2|]. eapply frame_mono; [|exact Hf1].
      intros i ->. exists t. split; [done|]. fold now. by rewrite <- Ed.
    + intros i ti Hlt Hti Hd. destruct (decide (i = j)) as [->|Hne].
      * exists t'. split; [done|]. rewrite Ht in Hti. injection Hti as <-.
        eapply same_but_rq_trans; [|exact E']. destruct Hl as [n ->].
        exists n, (t_on_rq t). unfold u1, runnable. by destruct t.
      * destruct (K3 i ti) as (ti' & Hti' & Ei); [lia|done..|].
        destruct (frame_thr _ _ _ _ _ Hf1 Hne Hti') as (ti2 & Hti2 & El).
        exists ti2. split; [done|]. by eapply link_same.
    + intros i ti Hle Hti Hd. destruct (K4 i ti) as (ti' & Hti' & Ei); [lia|done..|].
      assert (Hne : i <> j) by lia.
      destruct (frame_thr _ _ _ _ _ Hf1 Hne Hti') as (ti2 & Hti2 & El).
      exists ti2. split; [done|]. by eapply link_only_trans.
  - apply wp_ret. split; [by exists q'|done|..].
    + intros i ti Hlt Hti Hd. destruct (decide (i = j)) as [->|Hne]; [|apply K3; [lia|done..]].
      rewrite Ht in Hti. injection Hti as <-. fold now in Hd. congruence.
    + intros i ti Hle Hti Hd. apply K4; [lia|done..].
Qed.

Lemma threads_tick_spec s q c t :
  running s q c t ->
  let s0 := k_set_core (g_set_ticks (u64 (g_ticks (k_core s) + 1)) (k_core s)) s in
  wp threads_tick (fun _ s' => ticked s0 THREAD_MAX s' /\ kept s s') s.
Proof.
  intros Hr s0. unfold threads_tick. wp_steps.
  assert (Hr0 : running s0 q c t).
  { destruct Hr as [Hi Hc Hl Ht]. split; try done. apply inv_x_core; try done.
    apply (ix_stdin _ _ _ Hi). }
  change (wp (for_z (Z.to_nat THREAD_MAX) 0 tick_one)
    (fun _ s' => ticked s0 THREAD_MAX s' /\ kept s s') s0).
  eapply wp_mono; [apply (wp_for_z (fun j s' => ticked s0 j s'))|].
  - split; [exists q; apply Hr0|apply frame_refl|..].
    + intros i ti Hlt Hti. exfalso.
      assert (tid_ok i) as [? ?] by (apply (ix_thr_dom _ _ _ (rn_inv _ _ _ _ Hr0)); eauto). lia.
    + intros i ti _ Hti _. exists ti. split; [done|apply link_only_refl].
  - intros j s' Hj Hk. apply tick_one_spec; [done|]. unfold THREAD_MAX in Hj. split; [lia|].
    unfold THREAD_MAX. lia.
  - intros [] s' Hk. split; [done|]. pose proof Hk as [[q' Hi'] Hf _ _].
    assert (Hkf : kept s0 s') by (by eapply kept_frame). destruct Hkf. by split.
Qed.

End wake.

(** ** Exit *)

Section exit.
Context {cfg : Config} {hws : Hardware}.
Implicit Types (s : kstate) (q : Z -> list Z) (c : cpu_t) (t : Thread) (X : Z -> Prop).

(** The joiner as [wake_joiner] leaves it (before it is queued). *)
Definition joined (w : Thread) : Thread :=
  t_set_join_status_ptr 0 (t_set_waiting_for (-1) (t_set_tf (f_set_a0 0 (t_tf w)) w)).

(** User memory after the exit code went to the joiner. *)
Definition joined_mem (m : mem) (w : Thread) (code : Z) : mem :=
  if z2b (t_join_status_ptr w) then store32 m (t_join_status_ptr w) code else m.

Lemma joins_unique s w i k : joins s w i -> joins s w k -> i = k.
Proof. intros (a & Ha & _ & <-) (b & Hb & _ & <-). rewrite Ha in Hb. by injection Hb as <-. Qed.

Lemma wp_set_umem (f : mem -> mem) (Q : unit -> kstate -> Prop) s :
  Q tt (k_set_umem (f (k_umem s)) s) -> wp (upd_umem f) Q s.
Proof. done. Qed.

Lemma k_set_umem_id s : k_set_umem (k_umem s) s = s.
Proof. by destruct s. Qed.

Lemma wake_joiner_spec X s q c j w i code :
  inv_x X s q -> cpu s (k_tp s) = Some c -> hart_ok (c_hartid c) ->
  thr s j = Some w -> ~ X j -> t_state w = THREAD_WAITING -> t_waiting_for w = i ->
  (forall t, thr s i = Some t -> t_state t = THREAD_ZOMBIE) ->
  wp (wake_joiner j code)
    (fun _ s' => exists q' w', inv_x X s' q' /\
       frame (only j) (k_set_umem (joined_mem (k_umem s) w code) s) s' /\
       thr s' j = Some w' /\ same_but_rq (runnable (joined w)) w') s.
Proof.
  intros Hi Hc Hh Hw HX Hst Hwf Hz.
  set (s1 := k_set_umem (joined_mem (k_umem s) w code) s).
  assert (Hi1 : inv_x X s1 q) by (by eapply inv_x_state; [..|exact Hi]).
  assert (Hno : forall k tk, k <> j -> thr s k = Some tk -> t_state tk <> THREAD_ZOMBIE ->
            t_join_waiter tk <> j).
  { intros k tk Hk Htk Hnz E.
    destruct (ix_base _ _ _ Hi k tk Htk) as (_ & _ & B & _).
    assert (joins s j k) as Hj.
    { rewrite <- E. apply (ix_join _ _ _ Hi k tk Htk Hnz).
      destruct B as [B|[[B _] _]]; [|pose proof MAX_HARTS_ok; lia].
      assert (tid_ok j) as [? ?] by (apply (ix_thr_dom _ _ _ Hi); eauto). lia. }
    assert (joins s j i) as Hji by (by exists w).
    rewrite (joins_unique _ _ _ _ Hj Hji) in Htk. by rewrite (Hz _ Htk) in Hnz. }
  assert (Hpk : parked w /\ user_tid j /\ not_current s j).
  { pose proof (ix_base _ _ _ Hi j w Hw) as (B1 & B2 & B3 & B4 & B5).
    destruct (ix_thr _ _ _ Hi j w Hw HX) as (O1 & O2 & O3).
    assert (Hu : user_tid j).
    { assert (tid_ok j) as [? ?] by (apply (ix_thr_dom _ _ _ Hi); eauto).
      split; [|done]. destruct (decide (j < MAX_HARTS)) as [Hlt|]; [|lia].
      destruct (B4 Hlt) as (_ & _ & [Hs|Hs]); by rewrite Hs in Hst. }
    assert (Hr : t_running_hart w = -1).
    { destruct (decide (t_running_hart w = -1)) as [|Hn]; [done|].
      destruct O3 as [Hs|Hs]; [lia|by rewrite Hs in Hst..]. }
    split; [|split; [done|by apply (parked_not_current X s q j w)]].
    unfold parked. rewrite Hst. repeat (split; [done|]). split; [|done].
    destruct (decide (t_on_rq w = 0)) as [|Hn]; [done|]. apply O1 in Hn; [|apply Hu].
    by rewrite Hst in Hn. }
  destruct Hpk as ((P1 & P2 & P3 & P4) & Hu & Hnc).
  assert (Hmem : forall Q, Q tt s1 ->
    wp (when (z2b (t_join_status_ptr w))
         (upd_umem (fun m => store32 m (t_join_status_ptr w) code))) Q s).
  { intros Q HQ. unfold s1, joined_mem in HQ. destruct (z2b (t_join_status_ptr w)); simpl.
    - by apply wp_set_umem.
    - apply wp_ret. by rewrite k_set_umem_id in HQ. }
  unfold wake_joiner. wp_steps. apply Hmem.
  assert (Hw1 : thr s1 j = Some w) by done. assert (Hc1 : cpu s1 (k_tp s1) = Some c) by done.
  assert (Hnc1 : not_current s1 j) by done.
  assert (Hno1 : forall k tk, k <> j -> thr s1 k = Some tk -> t_state tk <> THREAD_ZOMBIE ->
            t_join_waiter tk <> j) by done.
  clearbody s1. wp_steps. rewrite !with_thread_twice. fold (joined w).
  set (s2 := with_thread j (joined w) s1).
  assert (Hi2 : inv_x X s2 q).
  { eapply inv_x_thread; try done.
    - eapply queues_thread; try done. apply (ix_queues _ _ _ Hi1).
    - by apply (ix_base _ _ _ Hi1 j w).
    - intros _. split; [|done]. by apply (ix_thr _ _ _ Hi1 j w).
    - intros. left. split; [done|]. by rewrite Hst.
    - intros _. by right. }
  eapply wp_mono; [apply (thread_make_runnable_inv X X s2 q j _ (joined w)); try done; [by auto|
    by apply thr_with_thread_eq|]|].
  - intros _ k tk Hk. unfold s2. rewrite thr_with_thread_ne by done. by apply Hno1.
  - intros [] s3 (target & w' & Hi3 & _ & Hw' & E & Hf).
    exists (q_push q target j), w'. split; [done|]. split; [|done].
    eapply (frame_trans _ _ s2); [|done]. apply frame_thread; [done|by rewrite Hw1].
Qed.

(** What [schedule] does to a thread that was not the current one. *)
Lemma scheduled_other s s' q h c t next i u :
  scheduled s s' q h c t next -> i <> c_current_tid c -> thr s i = Some u ->
  exists u', thr s' i = Some u' /\
    (link_only u u' \/ i = next /\ exists u1, same_but_rq u u1 /\ u' = dispatched h u1).
Proof.
  intros Hs Hi Hu. destruct (decide (i = next)) as [->|Hne].
  - destruct (sd_run _ _ _ _ _ _ _ Hs) as (t0 & t1 & Ht & E & Hd).
    rewrite decide_False in Hd by done. rewrite Hu in Hd. injection Hd as <-.
    exists (dispatched h t1). split; [done|]. right. split; [done|]. by exists t1.
  - destruct (sframe_thr _ _ _ _ _ (sd_frame _ _ _ _ _ _ _ Hs)
                ltac:(by intros [?|?]) Hu) as (u' & Hu' & E).
    exists u'. split; [done|]. by left.
Qed.

(** The thread that exits, before it leaves its hart. *)
Definition exited (code : Z) (t : Thread) : Thread :=
  t_set_rq_next (-1) (t_set_on_rq 0 (t_set_state THREAD_ZOMBIE (t_set_exit_code code t))).

Lemma exit_zombie_inv s q c t code :
  running s q c t -> user_tid (c_current_tid c) ->
  inv_x (only (c_current_tid c)) (with_thread (c_current_tid c) (exited code t) s) q.
Proof.
  intros Hr [Hu1 Hu2]. pose proof Hr as [Hi Hc Hl Ht].
  destruct (running_facts _ _ _ _ Hr) as (_ & _ & _ & _ & _ & _ & _ & H0 & Hst).
  pose proof (ix_base _ _ _ Hi _ t Ht) as (B1 & B2 & B3 & B4 & B5).
  eapply inv_x_off; try done.
  - by eapply inv_x_weaken; [|exact Hi].
  - unfold thread_base. simpl. repeat (split; [done|]). split; [lia|done].
  - by left.
  - by destruct Hst as [->| ->].
Qed.

(** The current thread's slot after the last thing [thread_sys_exit] does to it. *)
Definition exit_slot (code : Z) (t : Thread) : Thread :=
  if 0 <=? t_join_waiter t then thread_recycled (exited code t)
  else t_set_join_waiter (-1) (exited code t).

(** The joiner of an exiting thread, its frame and memory. *)
Definition joiner_released (s s' : kstate) (j code : Z) : Prop :=
  exists w w', thr s j = Some w /\ thr s' j = Some w' /\
    k_umem s' = joined_mem (k_umem s) w code /\
    f_a0 (t_tf w') = 0 /\ t_waiting_for w' = -1 /\ t_join_status_ptr w' = 0 /\
    (t_state w' = THREAD_RUNNABLE \/ t_state w' = THREAD_RUNNING).

Lemma same_but_rq_tf t t' : same_but_rq t t' ->
  t_tf t' = t_tf t /\ t_join_status_ptr t' = t_join_status_ptr t /\
  t_exit_code t' = t_exit_code t /\ t_wakeup_tick t' = t_wakeup_tick t.
Proof. by intros (n & o & ->). Qed.

Lemma link_same_but t t' : link_only t t' -> same_but_rq t t'.
Proof. intros [n ->]. apply same_but_rq_next. Qed.

Lemma dispatched_rest h t :
  t_join_status_ptr (dispatched h t) = t_join_status_ptr t /\
  t_exit_code (dispatched h t) = t_exit_code t.
Proof.
  unfold dispatched. simpl. by destruct ((0 <=? t_last_hart t) && negb (t_last_hart t =? s32 h)).
Qed.

Lemma joiner_released_intro s s1 s' q h c t next j w w' code :
  hart_ok h -> scheduled s1 s' q h c t next -> j <> c_current_tid c ->
  thr s j = Some w -> thr s1 j = Some w' -> same_but_rq (runnable (joined w)) w' ->
  k_umem s1 = joined_mem (k_umem s) w code ->
  joiner_released s s' j code.
Proof.
  intros Hh Hs Hj Hw Hw' E Em.
  destruct (scheduled_other _ _ _ _ _ _ _ _ _ Hs Hj Hw') as (w2 & Hw2 & Hor).
  exists w, w2. split; [done|]. split; [done|].
  split; [by rewrite (sf_umem _ _ _ (sd_frame _ _ _ _ _ _ _ Hs))|].
  destruct Hor as [El|(_ & u1 & Eu & ->)].
  - pose proof (link_same _ _ _ E El) as E2. pose proof (same_but_rq_tf _ _ E2) as (-> & -> & _).
    apply same_but_rq_fields in E2 as (_ & -> & _ & _ & -> & _). simpl. auto.
  - pose proof (same_but_rq_trans _ _ _ E Eu) as E2.
    destruct (dispatched_fields h u1 Hh) as (_ & -> & _ & _ & -> & _ & _ & _ & _ & ->).
    destruct (dispatched_rest h u1) as [-> _].
    pose proof (same_but_rq_tf _ _ E2) as (-> & -> & _).
    apply same_but_rq_fields in E2 as (_ & _ & _ & _ & -> & _). simpl. auto.
Qed.

(** [schedule] at the end of a handler that touched other threads too. *)
Lemma schedule_end s s1 q c c1 t1 :
  inv_x (only (c_current_tid c)) s1 q -> k_tp s1 = k_tp s ->
  k_kernel_lock s1 = k_kernel_lock s ->
  cpu s1 (k_tp s1) = Some c1 -> cpu_hint c c1 -> live c ->
  thr s1 (c_current_tid c) = Some t1 -> t_on_rq t1 = 0 ->
  (c_current_tid c <> k_tp s -> t_state t1 <> THREAD_RUNNABLE) ->
  wp (schedule (c_cur_tf c))
    (fun _ s' => kept s s' /\ exists next, scheduled s1 s' q (k_tp s) c1 t1 next) s1.
Proof.
  intros Hi Htp Hlk Hc Hh Hl Ht H0 Hst.
  pose proof (cpu_hint_live _ _ Hh) as Hlv. destruct Hh as (E1 & E2 & E3 & E4 & E5 & _).
  rewrite <- E4 in *. rewrite <- E1. rewrite <- Htp in Hst.
  eapply wp_mono; [apply (schedule_spec s1 q c1 t1); try done; by apply Hlv|].
  intros r s' (next & _ & Hs). rewrite Htp in Hs. split; [|by exists next].
  destruct (dispatch_cpu_fields (c_current_tid c1) next c1) as (_ & Ef & _).
  eapply kept_inv; [apply (sd_inv _ _ _ _ _ _ _ Hs)|..].
  - by rewrite (sf_tp _ _ _ (sd_frame _ _ _ _ _ _ _ Hs)).
  - by rewrite (sf_lock _ _ _ (sd_frame _ _ _ _ _ _ _ Hs)).
  - apply (sd_cpu _ _ _ _ _ _ _ Hs).
  - by eexists.
Qed.

(** The slot of a thread that exited, once it left its hart. *)
Definition slot_after (s' : kstate) (cur : Z) (slot : Thread) : Prop :=
  exists t', thr s' cur = Some t' /\ same_but_rq (departed false slot) t'.

End exit.

Section exit_spec.
Context {cfg : Config} {hws : Hardware}.
Implicit Types (s : kstate) (q : Z -> list Z) (c : cpu_t) (t : Thread).

Lemma scheduled_leaves s s' q h c t next :
  scheduled s s' q h c t next -> queues s q -> hart_ok h -> user_tid (c_current_tid c) ->
  thr s (c_current_tid c) = Some t -> t_on_rq t = 0 -> t_state t <> THREAD_RUNNING ->
  next <> c_current_tid c.
Proof.
  intros Hs Hq Hh [Hu1 Hu2] Ht H0 Hst E. pose proof (sd_next _ _ _ _ _ _ _ Hs) as En.
  destruct (requeue_cases q h (c_current_tid c) t) as [(_ & ? & _)|[_ Eq]]; [done|].
  rewrite Eq in En. unfold next_of in En. destruct (q h) as [|i l] eqn:El; simpl in En.
  - destruct Hh. lia.
  - assert (Hin : c_current_tid c ∈ q h).
    { rewrite El, <- E, En. apply list_elem_of_here. }
    by apply (queues_unflagged s q _ t h Hq Ht H0 Hh).
Qed.

Lemma scheduled_slot s s' q h c t next :
  scheduled s s' q h c t next -> queues s q -> hart_ok h -> user_tid (c_current_tid c) ->
  thr s (c_current_tid c) = Some t -> t_on_rq t = 0 -> t_state t <> THREAD_RUNNING ->
  slot_after s' (c_current_tid c) t.
Proof.
  intros Hs Hq Hh Hu Ht H0 Hst.
  destruct (sd_cur _ _ _ _ _ _ _ Hs) as (t' & Ht' & E); [by eapply scheduled_leaves|].
  exists t'. split; [done|]. destruct (Z.eqb_spec (c_current_tid c) h) as [E'|]; [|done].
  destruct Hu, Hh. lia.
Qed.

Lemma tf_self t : t_set_tf (t_tf t) t = t.
Proof. by destruct t. Qed.

Lemma recycled_waiter t : t_set_join_waiter (-1) (thread_recycled t) = thread_recycled t.
Proof. by destruct t. Qed.

Lemma with_thread_id s i t : thr s i = Some t -> with_thread i t s = s.
Proof.
  unfold thr, with_thread. intros H. rewrite insert_id by exact H. by destruct s as [[]].
Qed.

(** The end of [thread_sys_exit] once its joiner was released: the slot is
    reclaimed and the hart moves on. *)
Lemma exit_finish s s2 q c c2 t2 :
  inv_x (only (c_current_tid c)) s2 q -> k_tp s2 = k_tp s ->
  k_kernel_lock s2 = k_kernel_lock s ->
  cpu s2 (k_tp s2) = Some c2 -> cpu_hint c c2 -> live c -> user_tid (c_current_tid c) ->
  thr s2 (c_current_tid c) = Some t2 -> t_on_rq t2 = 0 -> t_state t2 = THREAD_ZOMBIE ->
  wp (recycle_thread (c_current_tid c) ;;
      upd_thread (c_current_tid c) (t_set_join_waiter (-1)) ;;
      schedule (c_cur_tf c) ;; ret tt)
    (fun _ s' => kept s s' /\ slot_after s' (c_current_tid c) (thread_recycled t2) /\
       exists s4 q4 c4 next, scheduled s4 s' q4 (k_tp s) c4 (thread_recycled t2) next /\
         c_current_tid c4 = c_current_tid c /\ k_umem s4 = k_umem s2 /\
         forall i, i <> c_current_tid c -> thr s4 i = thr s2 i) s2.
Proof.
  intros Hi Htp Hlk Hc Hh Hl Hu Ht H0 Hz. apply wp_bind.
  assert (Hnw : t_state t2 <> THREAD_WAITING) by (rewrite Hz; discriminate).
  pose proof (recycle_thread_inv _ s2 q _ t2 Hi eq_refl Hu Ht H0 Hnw) as Hrec.
  eapply wp_mono; [exact Hrec|].
  intros [] s3 (Hi3 & Ht3 & Ho3 & Hc3 & Hf3). wp_steps.
  assert (Es : with_thread (c_current_tid c) (t_set_join_waiter (-1) (thread_recycled t2)) s3 = s3).
  { rewrite recycled_waiter. by apply with_thread_id. }
  rewrite Es. clear Es.
  assert (Hhart : hart_ok (k_tp s2)) by apply (ix_tp _ _ _ Hi).
  eapply wp_mono; [apply (schedule_end s s3 q c c2 (thread_recycled t2)); try done|].
  - by rewrite (sf_tp _ _ _ Hf3).
  - by rewrite (sf_lock _ _ _ Hf3).
  - rewrite (sf_tp _ _ _ Hf3). by rewrite Hc3.
  - intros r s' (Hk & next & Hs). wp_steps. split; [done|].
    assert (Ecur : c_current_tid c2 = c_current_tid c) by (by destruct Hh as (_ & _ & _ & -> & _)).
    split.
    + rewrite <- Ecur. eapply (scheduled_slot s3 s' q (k_tp s) c2); rewrite ?Ecur; try done;
        [by eapply ix_queues|by rewrite <- Htp].
    + exists s3, q, c2, next. split; [done|]. split; [done|].
      split; [apply (sf_umem _ _ _ Hf3)|]. done.
Qed.

Lemma thread_sys_exit_spec s q c t code :
  running s q c t -> t_state t = THREAD_RUNNING -> user_tid (c_current_tid c) ->
  wp (thread_sys_exit (c_cur_tf c) code)
    (fun _ s' => kept s s' /\
       (t_join_waiter t = -1 -> k_umem s' = k_umem s /\
          slot_after s' (c_current_tid c) (exited code t)) /\
       (t_join_waiter t <> -1 -> joiner_released s s' (t_join_waiter t) code /\
          slot_after s' (c_current_tid c) (thread_recycled (exited code t)))) s.
Proof.
  intros Hr Hst Hu. pose proof Hr as [Hi Hc Hl Ht]. pose proof Hu as [Hu1 Hu2].
  destruct (running_facts _ _ _ _ Hr) as (Hh & Eh & _ & Etf & _ & _ & Erh & H0 & _).
  set (cur := c_current_tid c) in *. unfold thread_sys_exit, current_tid_get.
  rewrite Etf. wp_steps. fold cur. wp_steps. unfold get_tf. wp_steps.
  rewrite tf_self. fold (exited code t).
  pose proof (exit_zombie_inv s q c t code Hr Hu) as Hi1. fold cur in Hi1.
  set (s1 := with_thread cur (exited code t) s) in *.
  assert (Ht1 : thr s1 cur = Some (exited code t)) by apply thr_with_thread_eq.
  destruct (ix_base _ _ _ Hi cur t Ht) as (_ & _ & [Ej|[Hju Hjne]] & _).
  - (* nobody joins *)
    rewrite Ej. simpl. wp_steps. rewrite <- Etf.
    set (t2 := t_set_join_waiter (-1) (exited code t)).
    assert (Hi2 : inv_x (only cur) (with_thread cur t2 s1) q).
    { eapply inv_x_skel; [exact Hi1|exact Ht1|]. unfold skel, t2. simpl. by rewrite Ej. }
    eapply wp_mono; [eapply (schedule_end s (with_thread cur t2 s1) q c c t2); try done;
      apply thr_with_thread_eq|].
    intros r s' (Hk & next & Hs). wp_steps. split; [done|]. split; [|done]. intros _.
    split; [by rewrite (sf_umem _ _ _ (sd_frame _ _ _ _ _ _ _ Hs))|].
    assert (E2 : t2 = exited code t) by (unfold t2, exited; rewrite <- Ej; by destruct t).
    rewrite <- E2. eapply scheduled_slot; try done; [by eapply ix_queues|apply thr_with_thread_eq].
  - (* a joiner waits *)
    set (j := t_join_waiter t) in *. pose proof Hju as [Hj1 Hj2]. pose proof MAX_HARTS_ok.
    assert (joins s j cur) as (w & Hw & Hws & Hwf).
    { apply (ix_join _ _ _ Hi cur t Ht); [by rewrite Hst|fold j; lia]. }
    rewrite (proj2 (Z.leb_le 0 j)), (proj2 (Z.ltb_lt j THREAD_MAX)) by lia. simpl. wp_steps.
    assert (Hw1 : thr s1 j = Some w) by (unfold s1; by rewrite thr_with_thread_ne).
    eapply wp_mono; [apply (wake_joiner_spec (only cur) s1 q c j w cur code); try done|].
    + by rewrite Eh.
    + intros u Hu'. rewrite Ht1 in Hu'. by injection Hu' as <-.
    + intros [] s2 (q2 & w2 & Hi2 & Hf2 & Hw2 & Ew2).
      assert (Hnj : ~ only j cur) by (intros E; by apply Hjne).
      destruct (frame_thr _ _ _ _ _ Hf2 Hnj Ht1) as (t2 & Ht2 & [n ->]).
      destruct (frame_cpu_get _ _ _ _ (c : cpu_t) Hf2 Hc) as (c2 & Hc2 & Ec2).
      assert (Htp2 : k_tp s2 = k_tp s) by (rewrite (fr_tp _ _ _ Hf2); done).
      rewrite <- Etf. apply wp_unbind. eapply wp_mono;
        [apply (exit_finish s s2 q2 c c2 (t_set_rq_next n (exited code t))); try done|].
      * by rewrite (fr_lock _ _ _ Hf2).
      * by rewrite Htp2.
      * intros [] s' (Hk & Hslot & s4 & q4 & c4 & next & Hs & Ecur & Em & Hoth).
        split; [done|]. split; [intros E; exfalso; lia|]. intros _. split; [|exact Hslot].
        eapply (joiner_released_intro s s4 s' q4 (k_tp s) c4 _ next j w w2); try done.
        -- by rewrite Ecur.
        -- by rewrite Hoth.
        -- rewrite Em. apply (fr_umem _ _ _ Hf2).
Qed.

End exit_spec.

(** ** Join *)

Section join.
Context {cfg : Config} {hws : Hardware}.
Implicit Types (s : kstate) (q : Z -> list Z) (c : cpu_t) (t u : Thread).

(** The outcomes of [join]: an error code, the slot of a zombie reclaimed, or
    the caller blocked. *)
Inductive join_outcome : Type :=
| JoinError (v : Z)
| JoinReap (u : Thread)
| JoinBlock (u : Thread).

Definition join_branch s (cur target : Z) : join_outcome :=
  if (target <=? 0) || (THREAD_MAX <=? target) then JoinError (-1) else
  if target =? cur then JoinError (-2) else
  match thr s target with
  | None => JoinError (-1)
  | Some u =>
    if decide (t_state u = THREAD_UNUSED) then JoinError (-3) else
    if z2b (t_detached u) then JoinError (-5) else
    if (0 <=? t_join_waiter u) && negb (t_join_waiter u =? cur) then JoinError (-4) else
    if decide (t_state u = THREAD_ZOMBIE) then JoinReap u else JoinBlock u
  end.

(** The caller blocked in [join]. *)
Definition join_waiting (target ptr : Z) (t : Thread) : Thread :=
  t_set_join_status_ptr ptr (t_set_waiting_for target (t_set_state THREAD_WAITING t)).

Lemma state_eqb_decide a b : state_eqb a b = if decide (a = b) then true else false.
Proof.
  unfold state_eqb.
  destruct (decide (a = b)); [by apply bool_decide_eq_true|by apply bool_decide_eq_false].
Qed.

Lemma running_set_a0 s q c t v :
  running s q c t ->
  wp (set_a0 (c_cur_tf c) v)
    (fun _ s' => kept s s' /\ s' = with_thread (c_current_tid c) (with_a0 v t) s) s.
Proof.
  intros Hr. pose proof Hr as [Hi Hc Hl Ht].
  destruct (running_facts _ _ _ _ Hr) as (_ & _ & _ & Etf & _). rewrite Etf.
  eapply wp_set_a0; [exact Ht|]. split; [|done].
  by apply (kept_thread s q c t _ t).
Qed.

(** Reclaiming a thread that no hart runs. *)
Lemma recycle_dead s q c t i u :
  running s q c t -> thr s i = Some u -> user_tid i -> i <> c_current_tid c ->
  t_state u = THREAD_ZOMBIE -> t_running_hart u = -1 ->
  wp (recycle_thread i)
    (fun _ s' => running s' q c t /\ thr s' i = Some (thread_recycled u) /\
       (forall k, k <> i -> thr s' k = thr s k) /\ sframe (only i) s s') s.
Proof.
  intros [Hi Hc Hl Ht] Hu Hui Hne Hz Hr. pose proof Hui as [Hu1 Hu2].
  destruct (ix_thr _ _ _ Hi i u Hu (fun x => x)) as (O1 & _ & _).
  assert (H0 : t_on_rq u = 0).
  { destruct (decide (t_on_rq u = 0)) as [|Hn]; [done|]. apply O1 in Hn; [|done].
    by rewrite Hz in Hn. }
  pose proof (parked_not_current none s q i u Hi Hu (fun x => x) Hr) as Hnc.
  assert (Hix : inv_x (only i) s q) by (by eapply inv_x_weaken; [|exact Hi]).
  assert (Hnw : t_state u <> THREAD_WAITING) by (rewrite Hz; discriminate).
  eapply wp_mono; [exact (recycle_thread_inv _ s q i u Hix eq_refl Hui Hu H0 Hnw)|].
  intros [] s1 (Hi1 & Hu1' & Ho1 & Hc1 & Hf1).
  assert (Htp1 : k_tp s1 = k_tp s) by apply Hf1.
  split; [|done]. split.
  - eapply inv_x_close; [exact Hi1|exact Hu1'|..].
    + unfold thread_ok. simpl. split; [done|]. split; [done|lia].
    + intros h c' Hc' Hl' E. rewrite Hc1 in Hc'. by destruct (Hnc h c' Hc' Hl').
    + simpl. lia.
  - by rewrite Htp1, Hc1.
  - done.
  - rewrite Ho1; [done|]. intros E. by apply Hne.
Qed.

Lemma running_umem s q c t m : running s q c t -> running (k_set_umem m s) q c t.
Proof. intros [Hi Hc Hl Ht]. split; try done. by eapply inv_x_state; [..|exact Hi]. Qed.

Lemma kept_running_trans s s1 q c t :
  running s1 q c t -> k_tp s1 = k_tp s -> k_kernel_lock s1 = k_kernel_lock s -> kept s s1.
Proof. intros [Hi Hc Hl _] Htp Hlk. rewrite Htp in Hc. by eapply kept_inv. Qed.

(** The state in which the caller of [join] has put itself to wait. *)
Lemma join_block_inv s q c t target u ptr :
  running s q c t -> t_state t = THREAD_RUNNING -> user_tid (c_current_tid c) ->
  thr s target = Some u -> target <> c_current_tid c ->
  t_state u <> THREAD_UNUSED -> t_state u <> THREAD_ZOMBIE ->
  inv_x (only (c_current_tid c))
    (with_thread target (t_set_join_waiter (c_current_tid c) u)
      (with_thread (c_current_tid c) (join_waiting target ptr t) s)) q.
Proof.
  intros Hr Hst Hu Hut Hne Hnu Hnz.
  destruct (running_facts _ _ _ _ Hr) as (_ & _ & _ & _ & _ & _ & _ & H0 & _).
  set (cur := c_current_tid c) in *. set (t1 := join_waiting target ptr t).
  assert (Hi1 : inv_x (only cur) (with_thread cur t1 s) q) by (by eapply leaving).
  set (s1 := with_thread cur t1 s) in *.
  assert (Hut1 : thr s1 target = Some u) by (unfold s1; by rewrite thr_with_thread_ne).
  pose proof (ix_base _ _ _ Hi1 target u Hut1) as (B1 & B2 & B3 & B4 & B5).
  eapply inv_x_thread; [exact Hi1|exact Hut1|..].
  - eapply queues_thread; [by eapply ix_queues|exact Hut1|reflexivity|reflexivity].
  - unfold thread_base. simpl. split; [done|]. split; [done|]. split; [by right|].
    split; [done|]. intros ?. by destruct Hnu.
  - intros HX. split; [|done]. apply (ix_thr _ _ _ Hi1 target u Hut1 HX).
  - intros _ _. right. simpl. exists t1. split; [apply thr_with_thread_eq|done].
  - intros Hw. left. done.
Qed.

Lemma departed_alive idle t :
  t_state (stopped idle t) <> THREAD_ZOMBIE -> departed idle t = stopped idle t.
Proof.
  intros Hz. unfold departed. destruct (reclaimable (stopped idle t)) eqn:E.
  - by apply reclaimable_zombie in E.
  - by rewrite andb_false_r.
Qed.

Definition join_effect s s' cur t target ptr (b : join_outcome) : Prop :=
  match b with
  | JoinError v => s' = with_thread cur (with_a0 v t) s
  | JoinReap u =>
      k_umem s' = (if z2b ptr then store32 (k_umem s) ptr (t_exit_code u) else k_umem s) /\
      thr s' target = Some (thread_recycled u) /\ thr s' cur = Some (with_a0 0 t) /\
      (forall i, i <> target -> i <> cur -> thr s' i = thr s i)
  | JoinBlock u =>
      k_umem s' = k_umem s /\ joins s' cur target /\
      (exists t', thr s' cur = Some t' /\ t_join_status_ptr t' = ptr /\ t_tf t' = t_tf t) /\
      (exists u', thr s' target = Some u' /\ t_join_waiter u' = cur)
  end.

Lemma thread_sys_join_spec s q c t target ptr :
  let cur := c_current_tid c in
  running s q c t -> t_state t = THREAD_RUNNING -> user_tid cur ->
  (forall u, thr s target = Some u -> t_state u = THREAD_ZOMBIE -> t_running_hart u = -1) ->
  wp (thread_sys_join (c_cur_tf c) target ptr)
    (fun _ s' => kept s s' /\ join_effect s s' cur t target ptr (join_branch s cur target)) s.
Proof.
  intros cur Hr Hst Hu Hg. pose proof Hr as [Hi Hc Hl Ht].
  destruct (running_facts _ _ _ _ Hr) as (Hh & Eh & _ & Etf & _ & _ & Erh & H0 & _).
  unfold thread_sys_join, current_tid_get, join_branch. wp_steps. fold cur.
  destruct ((target <=? 0) || (THREAD_MAX <=? target)) eqn:Er; [by apply (running_set_a0 s q)|].
  apply orb_false_iff in Er as [Er1 Er2]. bool_facts.
  destruct (Z.eqb_spec target cur) as [|Hne]; [by apply (running_set_a0 s q)|].
  assert (tid_ok target) as Hok by (split; lia).
  apply (ix_thr_dom _ _ _ Hi) in Hok as [u Hut]. rewrite Hut. wp_steps.
  rewrite !state_eqb_decide.
  destruct (decide (t_state u = THREAD_UNUSED)) as [|Hnu]; [by apply (running_set_a0 s q)|].
  destruct (z2b (t_detached u)); [by apply (running_set_a0 s q)|].
  destruct ((0 <=? t_join_waiter u) && negb (t_join_waiter u =? cur)) eqn:Eb.
  { destruct (decide (t_state u = THREAD_ZOMBIE)); by apply (running_set_a0 s q). }
  destruct (decide (t_state u = THREAD_ZOMBIE)) as [Hz|Hnz]; simpl.
  - (* reap *)
    set (m := if z2b ptr then store32 (k_umem s) ptr (t_exit_code u) else k_umem s).
    assert (Hm : forall Q, Q tt (k_set_umem m s) ->
      wp (when (z2b ptr) (upd_umem (fun m => store32 m ptr (t_exit_code u)))) Q s).
    { intros Q HQ. unfold m in HQ. destruct (z2b ptr); simpl.
      - by apply wp_set_umem.
      - apply wp_ret. by rewrite k_set_umem_id in HQ. }
    wp_steps. apply Hm. wp_steps.
    pose proof (running_umem s q c t m Hr) as Hr1. set (s1 := k_set_umem m s) in *.
    assert (Hui : user_tid target).
    { split; [|lia]. destruct (ix_base _ _ _ Hi target u Hut) as (_ & _ & _ & B4 & _).
      destruct (decide (target < MAX_HARTS)) as [Hlt|]; [|lia].
      destruct (B4 Hlt) as (_ & _ & [Hs|Hs]); by rewrite Hs in Hz. }
    eapply wp_mono; [apply (recycle_dead s1 q c t target u Hr1 Hut Hui Hne Hz); by apply Hg|].
    intros [] s2 (Hr2 & Hu2 & Ho2 & Hf2).
    eapply wp_mono; [by apply (running_set_a0 s2 q c t 0)|].
    intros [] s3 [Hk ->]. fold cur in Hk |- *.
    assert (Hk2 : kept s s2).
    { eapply kept_running_trans; [exact Hr2|apply (sf_tp _ _ _ Hf2)|apply (sf_lock _ _ _ Hf2)]. }
    split; [by eapply kept_trans|].
    split; [apply (sf_umem _ _ _ Hf2)|].
    split; [by rewrite thr_with_thread_ne|]. split; [apply thr_with_thread_eq|].
    intros i Hi1 Hi2. rewrite thr_with_thread_ne by done. by rewrite Ho2.
  - (* block *)
    wp_steps. fold (join_waiting target ptr t).
    pose proof (join_block_inv s q c t target u ptr Hr Hst Hu Hut Hne Hnu Hnz) as Hi2.
    fold cur in Hi2. set (t1 := join_waiting target ptr t) in *.
    set (u1 := t_set_join_waiter cur u) in *.
    set (s2 := with_thread target u1 (with_thread cur t1 s)) in *.
    assert (Ht2 : thr s2 cur = Some t1).
    { unfold s2. rewrite thr_with_thread_ne by done. apply thr_with_thread_eq. }
    eapply wp_mono; [apply (schedule_end s s2 q c c t1); try done|].
    intros r s' (Hk & next & Hs). wp_steps. split; [done|].
    assert (Hslot : slot_after s' cur t1).
    { eapply scheduled_slot; try done. by eapply ix_queues. }
    destruct Hslot as (t' & Ht' & E).
    rewrite departed_alive in E by (by rewrite stopped_state).
    split; [by rewrite (sf_umem _ _ _ (sd_frame _ _ _ _ _ _ _ Hs))|]. split; [|split].
    + exists t'. split; [done|]. apply same_but_rq_fields in E as (_ & -> & _ & _ & -> & _).
      rewrite stopped_state. by destruct (stopped_fields false t1) as (_ & _ & _ & -> & _).
    + exists t'. split; [done|]. apply same_but_rq_tf in E as (-> & -> & _).
      unfold stopped. simpl. by destruct (0 <=? t_running_hart t).
    + assert (Hu2 : thr s2 target = Some u1) by apply thr_with_thread_eq.
      destruct (scheduled_other _ _ _ _ _ _ _ _ _ Hs Hne Hu2) as (u' & Hu' & Hor).
      exists u'. split; [done|]. destruct Hor as [[n ->]|(_ & u2 & E2 & ->)]; [done|].
      destruct (dispatched_fields (k_tp s) u2 Hh) as (_ & _ & _ & -> & _).
      by apply same_but_rq_fields in E2 as (_ & _ & _ & -> & _).
Qed.

End join.
