(* ===== verification/ThreadKill.v ===== *)
(** * Killing, detaching and creating threads *)
From stdpp Require Import base numbers list gmap strings.
From Stdlib Require Import ZArith Lia.
From S2P Require Import Prelude Mem Machine State Kernel Image RunQueue Smp Thread Invariant ThreadSpec SchedSpec ThreadOps.

Local Open Scope Z_scope.

Section kill_defs.
Context {cfg : Config} {hws : Hardware}.

(** The outcomes of [kill]: a status at once, or the victim terminated. *)
Inductive kill_outcome : Type :=
| KillStatus (v : Z)
| KillVictim (u : Thread).

Definition kill_branch (s : kstate) (cur target : Z) : kill_outcome :=
  if (target <? 0) || (THREAD_MAX <=? target) then KillStatus (-1) else
  if target =? 0 then KillStatus (-2) else
  if target =? cur then KillStatus (-4) else
  match thr s target with
  | None => KillStatus (-1)
  | Some u =>
    if t_can_be_killed u =? 0 then KillStatus (-3) else
    if decide (t_state u = THREAD_UNUSED) then KillStatus (-3) else
    if decide (t_state u = THREAD_ZOMBIE) then KillStatus 0 else KillVictim u
  end.

(** The victim, before its slot is reclaimed. *)
Definition killed (u : Thread) : Thread :=
  t_set_wakeup_tick 0 (t_set_state THREAD_ZOMBIE (t_set_exit_code THREAD_EXITCODE_SIGKILL u)).

(** Whether the victim's slot is reclaimed at once. *)
Definition kill_reclaims (u : Thread) : bool :=
  ((0 <=? t_join_waiter u) || z2b (t_detached u)) && (t_running_hart u <? 0).

(** The harts up to their rescheduling hints. *)
Definition hints (s s' : kstate) : Prop :=
  forall h, option_Forall2 cpu_hint (cpu s h) (cpu s' h).

Definition kill_effect (s s' : kstate) (cur target : Z) (u : Thread) : Prop :=
  (exists u', thr s' target = Some u' /\ t_on_rq u' = 0 /\
     t_running_hart u' = t_running_hart u /\
     (if kill_reclaims u then t_state u' = THREAD_UNUSED
      else t_state u' = THREAD_ZOMBIE /\ t_exit_code u' = THREAD_EXITCODE_SIGKILL)) /\
  (exists t', thr s' cur = Some t' /\ f_a0 (t_tf t') = 0) /\
  (if 0 <=? t_join_waiter u
   then joiner_released s s' (t_join_waiter u) THREAD_EXITCODE_SIGKILL
   else k_umem s' = k_umem s).

End kill_defs.

Section kill.
Context {cfg : Config} {hws : Hardware}.
Implicit Types (s : kstate) (q : Z -> list Z) (c : cpu_t) (t u : Thread).

Lemma hints_refl s : hints s s.
Proof. intros h. destruct (cpu s h); constructor. apply cpu_hint_refl. Qed.

Lemma hints_trans s1 s2 s3 : hints s1 s2 -> hints s2 s3 -> hints s1 s3.
Proof.
  intros A B h. specialize (A h). specialize (B h).
  destruct (cpu s1 h), (cpu s2 h), (cpu s3 h); inversion A; inversion B; subst; constructor.
  unfold cpu_hint in *. intuition congruence.
Qed.

Lemma frame_hints T s s' : frame T s s' -> hints s s'.
Proof. intros []. done. Qed.

Lemma hints_same s s' : (forall h, cpu s' h = cpu s h) -> hints s s'.
Proof. intros E h. rewrite E. apply hints_refl. Qed.

Lemma hints_get s s' h c : hints s s' -> cpu s h = Some c ->
  exists c', cpu s' h = Some c' /\ cpu_hint c c'.
Proof. intros H Hc. specialize (H h). rewrite Hc in H. inversion H; eauto. Qed.

Lemma hints_back s s' h c' : hints s s' -> cpu s' h = Some c' ->
  exists c, cpu s h = Some c /\ cpu_hint c c'.
Proof. intros H Hc. specialize (H h). rewrite Hc in H. inversion H; eauto. Qed.

(** A thread whose hart and run state did not change is in order again. *)
Lemma inv_x_reclose s s' q q' i u u' :
  inv_x none s q -> thr s i = Some u -> hints s s' ->
  inv_x (only i) s' q' -> thr s' i = Some u' ->
  t_running_hart u' = t_running_hart u -> thread_ok i u' ->
  inv_x none s' q'.
Proof.
  intros Hi Hu Hh Hi' Hu' Er Hok. eapply inv_x_close; try done.
  - intros h c' Hc' Hl E. destruct (hints_back _ _ _ _ Hh Hc') as (c & Hc & Ec).
    rewrite Er. rewrite (cpu_hint_live _ _ Ec) in Hl. destruct Ec as (_ & _ & _ & Ec & _).
    rewrite Ec in E. apply (ix_run1 _ _ _ Hi h c u Hc Hl (fun x => x)). by rewrite E.
  - rewrite Er. intros H0. destruct (ix_run2 _ _ _ Hi i u Hu (fun x => x) H0) as (c & Hc & Hl & E).
    destruct (hints_get _ _ _ _ Hh Hc) as (c' & Hc' & Ec). exists c'. split; [done|].
    rewrite (cpu_hint_live _ _ Ec). by destruct Ec as (_ & _ & _ & -> & _).
Qed.

(** A state that other code left in order is one the current hart still runs in. *)
Lemma running_after s s' q q' c t cur_t' :
  running s q c t -> inv_x none s' q' -> hints s s' -> k_tp s' = k_tp s ->
  thr s' (c_current_tid c) = Some cur_t' ->
  exists c', running s' q' c' cur_t' /\ c_current_tid c' = c_current_tid c /\
             c_cur_tf c' = c_cur_tf c.
Proof.
  intros [Hi Hc Hl Ht] Hi' Hh Htp Ht'.
  destruct (hints_get _ _ _ _ Hh Hc) as (c' & Hc' & Ec). exists c'.
  pose proof (cpu_hint_live _ _ Ec) as Hlv. destruct Ec as (E1 & _ & _ & E4 & _).
  split; [|done]. split; [done|by rewrite Htp|by apply Hlv|by rewrite E4].
Qed.

(** *** Taking the victim off its queue *)

Lemma inv_x_domain X s q i u : inv_x X s q -> thr s i = Some u -> tid_ok i.
Proof. intros Hi Hu. apply (ix_thr_dom _ _ _ Hi). eauto. Qed.

Lemma q_remove_in q i j h : j <> i -> (j ∈ q_remove q i h <-> j ∈ q h).
Proof. intros Hne. unfold q_remove. rewrite list_elem_of_filter. naive_solver. Qed.

Lemma kill_unqueue s q target u :
  inv_x none s q -> thr s target = Some u -> user_tid target ->
  t_state u <> THREAD_WAITING -> t_state u <> THREAD_UNUSED ->
  let s1 := with_thread target (killed u) s in
  wp (when (z2b (t_on_rq u)) (rq_remove_any target ;; ret tt))
    (fun _ s' => exists q' u', inv_x (only target) s' q' /\ thr s' target = Some u' /\
       same_but_rq (killed u) u' /\ t_on_rq u' = 0 /\ frame (only target) s s') s1.
Proof.
  intros Hi Hu Hut Hnw Hnu s1. pose proof Hut as [Hu1 Hu2].
  assert (Hi1 : inv_x (only target) s1 q).
  { pose proof (ix_base _ _ _ Hi target u Hu) as (B1 & B2 & B3 & B4 & B5).
    eapply inv_x_exempt; [by eapply inv_x_weaken; [|exact Hi]|exact Hu|done|done|done|..].
    - unfold thread_base. simpl. split; [done|]. split; [done|]. split; [done|]. split; [lia|done].
    - by left.
    - done. }
  assert (Hu1' : thr s1 target = Some (killed u)) by apply thr_with_thread_eq.
  assert (Hf1 : frame (only target) s s1) by (apply frame_thread; [done|by rewrite Hu]).
  clearbody s1. destruct (z2b (t_on_rq u)) eqn:Eon; simpl.
  - pose proof (ix_queues _ _ _ Hi1) as Hq1. wp_steps.
    eapply wp_mono; [by apply (rq_remove_any_spec s1 q target); [|apply user_tid_ok]|].
    intros r s2 Hor. wp_steps. apply z2b_true in Eon.
    destruct (queues_flagged s1 q target (killed u) Hq1 Hu1' Eon) as [_ (h & Hh & Hin)].
    destruct Hor as [(Hr & _ & Hq2 & Hf2)|(_ & _ & Hno)]; [|by destruct (Hno h Hh)].
    destruct (rq_frame_thr _ _ _ _ Hf2 Hu1') as (u2 & Hu2' & E2).
    exists (q_remove q target), u2.
    assert (Ho2 : t_on_rq u2 = 0).
    { destruct (queues_on_rq _ _ Hq2 target u2 Hu2') as [[_ (k & Hk & Hin2)]|[? _]]; [|done].
      exfalso. unfold q_remove in Hin2. apply list_elem_of_filter in Hin2. naive_solver. }
    split; [|split; [done|split; [done|split; [done|]]]].
    + eapply (inv_x_rq _ s1 s2 q); try done.
      * intros i k HX _. by apply q_remove_in.
      * intros i u3 HX Hu3 _. unfold only in HX. subst i. rewrite Hu2' in Hu3.
        by injection Hu3 as <-.
      * intros i. unfold only. destruct (decide (i = target)); auto.
    + eapply frame_trans; [exact Hf1|]. eapply frame_rq; try done.
      intros i k HX _. by apply q_remove_in.
  - apply z2b_false in Eon. apply wp_ret. exists q, (killed u).
    split; [done|]. split; [done|]. split; [apply same_but_rq_refl|]. done.
Qed.

(** The inter-processor interrupt to the victim's hart. *)
Lemma kill_kick X s q u c :
  inv_x X s q -> cpu s (k_tp s) = Some c ->
  wp (if (0 <=? t_running_hart u) && (t_running_hart u <? MAX_HARTS) then
        me <- cpu_current_hartid ;;
        if negb (t_running_hart u =? me) then smp_kick_hart (t_running_hart u)
        else upd_cpu_this (c_set_need_resched 1)
      else ret tt)
    (fun _ s' => inv_x X s' q /\ frame none s s') s.
Proof.
  intros Hi Hc. destruct ((0 <=? t_running_hart u) && (t_running_hart u <? MAX_HARTS)) eqn:E.
  - apply andb_true_iff in E as [E1 E2]. bool_facts. wp_steps.
    destruct (negb (t_running_hart u =? c_hartid c)).
    + eapply wp_mono; [apply smp_kick_hart_spec; [by eapply inv_x_tables|done]|].
      intros [] s' Hqt. split; [by eapply inv_x_quiet|by apply frame_quiet].
    + wp_steps. split; [eapply inv_x_cpu|eapply frame_cpu]; try done; by repeat split.
  - apply wp_ret. split; [done|apply frame_refl].
Qed.

(** *** The victim's slot, the joiner, and the end of the call *)

(** The victim during the second half of the call. *)
Record victim (s s' : kstate) (q' : Z -> list Z) (target : Z) (u u' : Thread) : Prop := {
  vc_inv : inv_x (only target) s' q';
  vc_thr : thr s' target = Some u';
  vc_same : same_but_rq (killed u) u';
  vc_on_rq : t_on_rq u' = 0;
  vc_hints : hints s s';
  vc_tp : k_tp s' = k_tp s;
  vc_lock : k_kernel_lock s' = k_kernel_lock s
}.

Definition victim_done (u u' : Thread) : Prop :=
  t_on_rq u' = 0 /\ t_running_hart u' = t_running_hart u /\
  (if kill_reclaims u then t_state u' = THREAD_UNUSED
   else t_state u' = THREAD_ZOMBIE /\ t_exit_code u' = THREAD_EXITCODE_SIGKILL).

Lemma victim_fields s s' q' target u u' :
  victim s s' q' target u u' ->
  t_state u' = THREAD_ZOMBIE /\ t_running_hart u' = t_running_hart u /\
  t_join_waiter u' = t_join_waiter u /\ t_exit_code u' = THREAD_EXITCODE_SIGKILL /\
  t_detached u' = t_detached u.
Proof.
  intros [_ _ E _ _ _ _]. pose proof (same_but_rq_tf _ _ E) as (_ & _ & -> & _).
  apply same_but_rq_fields in E as (_ & -> & -> & -> & _ & -> & _). done.
Qed.

(** Reclaiming the slot, when nothing runs it and somebody asked for it. *)
Lemma victim_reclaim s s' q q' target u u' :
  inv_x none s q -> thr s target = Some u -> user_tid target ->
  victim s s' q' target u u' -> kill_reclaims u = true ->
  wp (recycle_thread target)
    (fun _ s2 => exists u2, inv_x none s2 q' /\ thr s2 target = Some u2 /\ victim_done u u2 /\
       hints s s2 /\ (forall i, i <> target -> thr s2 i = thr s' i) /\
       sframe (only target) s' s2) s'.
Proof.
  intros Hi Hu Hut Hv Hrc. destruct (victim_fields _ _ _ _ _ _ Hv) as (Hz & Hrh & _).
  destruct Hv as [Hi1 Hu1 _ H0 Hh _ _].
  assert (Hr : t_running_hart u = -1).
  { unfold kill_reclaims in Hrc. apply andb_true_iff in Hrc as [_ Hrc]. bool_facts.
    destruct (ix_base _ _ _ Hi target u Hu) as (_ & ? & _). lia. }
  assert (Hnw : t_state u' <> THREAD_WAITING) by (rewrite Hz; discriminate).
  eapply wp_mono; [exact (recycle_thread_inv _ s' q' target u' Hi1 eq_refl Hut Hu1 H0 Hnw)|].
  intros [] s2 (Hi2 & Hu2 & Ho2 & Hc2 & Hf2).
  assert (Hh2 : hints s s2) by (eapply hints_trans; [exact Hh|by apply hints_same]).
  exists (thread_recycled u'). split.
  - eapply (inv_x_reclose s s2 q q' target u); try done.
  - split; [done|]. split; [|done]. unfold victim_done. rewrite Hrc. by rewrite Hr.
Qed.

Lemma victim_keep s s' q q' target u u' :
  inv_x none s q -> thr s target = Some u -> victim s s' q' target u u' ->
  kill_reclaims u = false -> inv_x none s' q' /\ victim_done u u'.
Proof.
  intros Hi Hu Hv Hrc. destruct (victim_fields _ _ _ _ _ _ Hv) as (Hz & Hrh & _ & Hx & _).
  destruct Hv as [Hi1 Hu1 _ H0 Hh _ _]. split.
  - eapply (inv_x_reclose s s' q q' target u); try done.
    unfold thread_ok. rewrite Hz, H0. split; [done|]. split; [done|]. by right.
  - unfold victim_done. by rewrite Hrc.
Qed.

Lemma waiter_id w t : t_join_waiter t = w -> t_set_join_waiter w t = t.
Proof. intros <-. by destruct t. Qed.

(** A victim nobody joins; [k] is the rest of the call. *)
Lemma kill_alone s s' q q' target u u' (k : M kstate unit) Q :
  inv_x none s q -> thr s target = Some u -> user_tid target ->
  victim s s' q' target u u' -> t_join_waiter u = -1 ->
  (forall s2 u2, inv_x none s2 q' -> thr s2 target = Some u2 -> victim_done u u2 ->
     hints s s2 -> (forall i, i <> target -> thr s2 i = thr s' i) ->
     sframe (only target) s' s2 -> wp k Q s2) ->
  wp (upd_thread target (t_set_join_waiter (-1)) ;;
      t <- get_thread target ;;
      when (true && z2b (t_detached t) && (t_running_hart t <? 0) && negb (z2b (t_on_rq t)))
        (recycle_thread target) ;; k) Q s'.
Proof.
  intros Hi Hu Hut Hv Ej Hk. destruct (victim_fields _ _ _ _ _ _ Hv) as (Hz & Hrh & Hjw & _ & Hd).
  pose proof (vc_thr _ _ _ _ _ _ Hv) as Hu1. pose proof (vc_on_rq _ _ _ _ _ _ Hv) as H0.
  wp_steps. rewrite waiter_id by (by rewrite Hjw). rewrite with_thread_id by done.
  rewrite H0, Hd, Hrh. simpl. rewrite andb_true_r.
  assert (Erc : kill_reclaims u = z2b (t_detached u) && (t_running_hart u <? 0)).
  { unfold kill_reclaims. by rewrite Ej. }
  rewrite <- Erc. destruct (kill_reclaims u) eqn:E.
  - eapply wp_mono; [by apply (victim_reclaim s s' q q' target u u')|].
    intros [] s2 (u2 & ? & ? & ? & ? & ? & ?). by apply (Hk s2 u2).
  - apply wp_ret. destruct (victim_keep s s' q q' target u u') as [? ?]; try done.
    apply (Hk s' u'); try done; [by apply (vc_hints _ _ _ _ _ _ Hv)|apply sframe_refl].
Qed.

(** A victim with a joiner. *)
Lemma kill_joined s s' q q' target u u' c j w :
  inv_x none s q -> thr s target = Some u -> user_tid target ->
  victim s s' q' target u u' -> t_join_waiter u = j -> user_tid j -> j <> target ->
  thr s' j = Some w -> t_state w = THREAD_WAITING -> t_waiting_for w = target ->
  cpu s' (k_tp s') = Some c -> hart_ok (c_hartid c) ->
  wp (t <- get_thread target ;;
      wake_joiner j (t_exit_code t) ;;
      t <- get_thread target ;;
      if (t_running_hart t <? 0) && negb (z2b (t_on_rq t))
      then recycle_thread target
      else upd_thread target (t_set_join_waiter j))
    (fun _ s2 => exists q2 u2 w2, inv_x none s2 q2 /\ thr s2 target = Some u2 /\
       victim_done u u2 /\ hints s s2 /\ k_tp s2 = k_tp s' /\
       k_kernel_lock s2 = k_kernel_lock s' /\
       (forall i, i <> target -> i <> j -> option_Forall2 link_only (thr s' i) (thr s2 i)) /\
       thr s2 j = Some w2 /\ same_but_rq (runnable (joined w)) w2 /\
       k_umem s2 = joined_mem (k_umem s') w THREAD_EXITCODE_SIGKILL) s'.
Proof.
  intros Hi Hu Hut Hv Ej Hju Hne Hw Hws Hwf Hc Hh.
  destruct (victim_fields _ _ _ _ _ _ Hv) as (Hz & Hrh & Hjw & Hx & Hd).
  pose proof Hv as [Hi1 Hu1 Hsame H0 Hhints Htp Hlk]. wp_steps. rewrite Hx.
  eapply wp_mono; [apply (wake_joiner_spec (only target) s' q' c j w target); try done|].
  { intros v Hv'. rewrite Hu1 in Hv'. by injection Hv' as <-. }
  intros [] s2 (q2 & w2 & Hi2 & Hf2 & Hw2 & Ew2).
  assert (Hnj : ~ only j target) by (intros E; by apply Hne).
  destruct (frame_thr _ _ _ _ _ Hf2 Hnj Hu1) as (u2 & Hu2 & El2).
  pose proof (link_only_skel _ _ El2) as (_ & F2 & F3 & F4 & _ & _ & _ & F8).
  assert (Hv2 : victim s s2 q2 target u u2).
  { split; try done.
    - by eapply link_same.
    - by rewrite F8.
    - eapply hints_trans; [exact Hhints|]. by apply (frame_hints _ _ _ Hf2).
    - rewrite (fr_tp _ _ _ Hf2). done.
    - rewrite (fr_lock _ _ _ Hf2). done. }
  wp_steps. rewrite F3, Hrh, F8, H0. simpl. rewrite andb_true_r.
  assert (Erc : kill_reclaims u = (t_running_hart u <? 0)).
  { unfold kill_reclaims. rewrite Ej. destruct Hju.
    pose proof MAX_HARTS_ok. by rewrite (proj2 (Z.leb_le 0 j)) by lia. }
  rewrite <- Erc. assert (Hmem : k_umem s2 = joined_mem (k_umem s') w THREAD_EXITCODE_SIGKILL)
    by apply (fr_umem _ _ _ Hf2).
  assert (Hoth : forall i, i <> j -> option_Forall2 link_only (thr s' i) (thr s2 i)).
  { intros i Hij. by apply (fr_thr _ _ _ Hf2 i). }
  destruct (kill_reclaims u) eqn:E.
  - eapply wp_mono; [by apply (victim_reclaim s s2 q q2 target u u2)|].
    intros [] s3 (u3 & Hi3 & Hu3 & Hd3 & Hh3 & Ho3 & Hf3). exists q2, u3, w2.
    repeat (split; [done|]).
    split; [rewrite (sf_tp _ _ _ Hf3), (fr_tp _ _ _ Hf2); done|].
    split; [rewrite (sf_lock _ _ _ Hf3), (fr_lock _ _ _ Hf2); done|].
    split; [intros i Hit Hij; rewrite Ho3 by done; by apply Hoth|].
    split; [by rewrite Ho3|]. split; [done|]. by rewrite (sf_umem _ _ _ Hf3).
  - wp_steps. rewrite waiter_id by congruence. rewrite with_thread_id by done.
    destruct (victim_keep s s2 q q2 target u u2) as [? ?]; try done.
    exists q2, u2, w2. repeat (split; [done|]).
    split; [apply (vc_hints _ _ _ _ _ _ Hv2)|].
    split; [apply (fr_tp _ _ _ Hf2)|]. split; [apply (fr_lock _ _ _ Hf2)|].
    split; [intros i _ Hij; by apply Hoth|]. done.
Qed.

Lemma joiner_released_wake s s' j w w' code :
  thr s j = Some w -> thr s' j = Some w' -> same_but_rq (runnable (joined w)) w' ->
  k_umem s' = joined_mem (k_umem s) w code -> joiner_released s s' j code.
Proof.
  intros Hw Hw' E Hm. exists w, w'. split; [done|]. split; [done|]. split; [done|].
  pose proof (same_but_rq_tf _ _ E) as (-> & -> & _).
  apply same_but_rq_fields in E as (_ & -> & _ & _ & -> & _). simpl. auto.
Qed.

(** The final status: [tf->a0 = 0] of the caller. *)
Lemma kill_status s s' q q' c t t' target u u' :
  running s q c t -> thr s target = Some u -> target <> c_current_tid c ->
  inv_x none s' q' -> hints s s' -> k_tp s' = k_tp s ->
  k_kernel_lock s' = k_kernel_lock s ->
  thr s' (c_current_tid c) = Some t' -> thr s' target = Some u' -> victim_done u u' ->
  t_join_waiter u <> c_current_tid c ->
  (if 0 <=? t_join_waiter u
   then joiner_released s s' (t_join_waiter u) THREAD_EXITCODE_SIGKILL
   else k_umem s' = k_umem s) ->
  wp (set_a0 (c_cur_tf c) 0)
    (fun _ s2 => kept s s2 /\ kill_effect s s2 (c_current_tid c) target u) s'.
Proof.
  intros Hr Hu Hne Hi' Hh Htp Hlk Ht' Hu' Hd Hj Hjr.
  destruct (running_after s s' q q' c t t' Hr Hi' Hh Htp Ht') as (c' & Hr' & Ecur & Etf).
  rewrite <- Etf. eapply wp_mono; [by apply (running_set_a0 s' q' c' t' 0)|].
  intros [] s2 [Hk ->]. rewrite Ecur in *.
  assert (Hk1 : kept s s') by (by eapply kept_running_trans).
  split; [by eapply kept_trans|]. split; [|split].
  - exists u'. rewrite thr_with_thread_ne by (intros E; by apply Hne). done.
  - exists (with_a0 0 t'). split; [apply thr_with_thread_eq|done].
  - destruct (0 <=? t_join_waiter u); [|done].
    destruct Hjr as (w & w' & Hw & Hw' & Hrest). exists w, w'.
    rewrite thr_with_thread_ne by (intros E; by apply Hj). done.
Qed.

Lemma thread_sys_kill_spec s q c t target :
  let cur := c_current_tid c in
  running s q c t ->
  (forall u, thr s target = Some u -> t_state u <> THREAD_WAITING) ->
  wp (thread_sys_kill (c_cur_tf c) target)
    (fun _ s' => kept s s' /\ match kill_branch s cur target with
       | KillStatus v => s' = with_thread cur (with_a0 v t) s
       | KillVictim u => kill_effect s s' cur target u
       end) s.
Proof.
  intros cur Hr Hg. pose proof Hr as [Hi Hc Hl Ht].
  destruct (running_facts _ _ _ _ Hr) as (Hh & Eh & _ & Etf & _ & _ & _ & _ & Hcst).
  pose proof MAX_HARTS_ok. unfold thread_sys_kill, current_tid_get, kill_branch. wp_steps. fold cur.
  destruct ((target <? 0) || (THREAD_MAX <=? target)) eqn:Er; [by apply (running_set_a0 s q)|].
  apply orb_false_iff in Er as [Er1 Er2]. bool_facts.
  destruct (Z.eqb_spec target 0) as [|Hn0]; [by apply (running_set_a0 s q)|].
  destruct (Z.eqb_spec target cur) as [|Hne]; [by apply (running_set_a0 s q)|].
  assert (tid_ok target) as Hok by (split; lia).
  apply (ix_thr_dom _ _ _ Hi) in Hok as [u Hu]. rewrite Hu. wp_steps. rewrite !state_eqb_decide.
  destruct (Z.eqb_spec (t_can_be_killed u) 0) as [|Hck]; [by apply (running_set_a0 s q)|].
  destruct (decide (t_state u = THREAD_UNUSED)) as [|Hnu]; [by apply (running_set_a0 s q)|].
  destruct (decide (t_state u = THREAD_ZOMBIE)) as [|Hnz]; [by apply (running_set_a0 s q)|].
  pose proof (ix_base _ _ _ Hi target u Hu) as (B1 & B2 & B3 & B4 & B5).
  assert (Hut : user_tid target).
  { split; [|lia]. destruct (decide (target < MAX_HARTS)) as [Hlt|]; [|lia].
    by destruct (B4 Hlt) as (? & _). }
  wp_steps. fold (killed u).
  eapply wp_mono; [by apply (kill_unqueue s q target u); try apply Hg|].
  intros [] s2 (q2 & u2 & Hi2 & Hu2 & E2 & H02 & Hf2). wp_steps.
  destruct (frame_cpu_get _ _ _ _ _ Hf2 Hc) as (c2 & Hc2 & Ec2).
  rewrite <- (fr_tp _ _ _ Hf2) in Hc2.
  eapply wp_mono; [by apply (kill_kick (only target) s2 q2 u c2)|].
  intros [] s3 [Hi3 Hf3]. wp_steps.
  destruct (frame_thr _ _ _ _ _ Hf3 (fun x => x) Hu2) as (u3 & Hu3 & El3).
  pose proof (link_only_skel _ _ El3) as (_ & _ & _ & _ & _ & _ & _ & F8).
  assert (Hf : frame (only target) s s3).
  { eapply frame_trans; [exact Hf2|]. eapply frame_mono; [|exact Hf3]. by intros i []. }
  assert (Hv : victim s s3 q2 target u u3).
  { split; try done; [by eapply link_same|by rewrite F8|by apply (frame_hints _ _ _ Hf)
      |apply (fr_tp _ _ _ Hf)|apply (fr_lock _ _ _ Hf)]. }
  assert (Hcur3 : exists t3, thr s3 cur = Some t3).
  { destruct (frame_thr _ _ _ cur t Hf) as (t3 & Ht3 & _); [|exact Ht|by exists t3].
    intros E. by apply Hne. }
  destruct Hcur3 as [t3 Ht3].
  assert (Hnc : t_join_waiter u <> cur).
  { intros E. destruct (running_facts _ _ _ _ Hr) as (_ & _ & _ & _ & _ & [? ?] & _).
    destruct (ix_join _ _ _ Hi target u Hu Hnz) as (w & Hw & Hws & _); [lia|].
    rewrite E in Hw. fold cur in Ht. rewrite Ht in Hw. injection Hw as <-.
    by destruct Hcst as [Hs|Hs]; rewrite Hs in Hws. }
  destruct B3 as [Ej|[Hju Hjne]].
  - rewrite Ej. simpl. apply wp_ret.
    apply (kill_alone s s3 q q2 target u u3); try done.
    intros s4 u4 Hi4 Hu4 Hd4 Hh4 Ho4 Hf4.
    apply (kill_status s s4 q q2 c t t3 target u u4); try done.
    + by rewrite (sf_tp _ _ _ Hf4), (fr_tp _ _ _ Hf).
    + by rewrite (sf_lock _ _ _ Hf4), (fr_lock _ _ _ Hf).
    + rewrite Ho4; [done|]. intros E. by apply Hne.
    + rewrite Ej. simpl. by rewrite (sf_umem _ _ _ Hf4), (fr_umem _ _ _ Hf).
  - set (j := t_join_waiter u) in *. pose proof Hju as [Hj1 Hj2].
    destruct (ix_join _ _ _ Hi target u Hu Hnz) as (w & Hw & Hws & Hwf); [fold j; lia|].
    fold j in Hw. rewrite (proj2 (Z.leb_le 0 j)), (proj2 (Z.ltb_lt j THREAD_MAX)) by lia.
    rewrite (proj2 (Z.ltb_ge j 0)) by lia. simpl.
    destruct (frame_thr _ _ _ _ _ Hf Hjne Hw) as (w3 & Hw3 & Elw).
    pose proof (link_only_skel _ _ Elw) as (_ & W2 & _ & _ & W5 & _).
    destruct (frame_cpu_get _ _ _ _ _ Hf Hc) as (c3 & Hc3 & Ec3).
    eapply wp_mono; [apply (kill_joined s s3 q q2 target u u3 c3 j w3); try done|].
    + by rewrite W2.
    + by rewrite W5.
    + by rewrite (fr_tp _ _ _ Hf).
    + destruct Ec3 as (_ & -> & _). by rewrite Eh.
    + intros [] s4 (q4 & u4 & w4 & Hi4 & Hu4 & Hd4 & Hh4 & Htp4 & Hlk4 & Ho4 & Hw4 & Ew4 & Hm4).
      wp_steps.
      assert (exists t4, thr s4 cur = Some t4) as [t4 Ht4].
      { specialize (Ho4 cur). rewrite Ht3 in Ho4.
        assert (option_Forall2 link_only (Some t3) (thr s4 cur)) as F.
        { apply Ho4; intros E; [by apply Hne|by apply Hnc]. }
        inversion F; eauto. }
      apply (kill_status s s4 q q4 c t t4 target u u4); try done.
      * by rewrite Htp4, (fr_tp _ _ _ Hf).
      * by rewrite Hlk4, (fr_lock _ _ _ Hf).
      * fold j. rewrite (proj2 (Z.leb_le 0 j)) by lia.
        eapply (joiner_released_wake s s4 j w w4); try done.
        -- destruct Elw as [n ->]. destruct Ew4 as (m & o & ->). by exists m, o.
        -- rewrite Hm4, (fr_umem _ _ _ Hf). by destruct Elw as [n ->].
Qed.

End kill.
