(* ===== verification/ThreadCreate.v ===== *)
(** * Creating and detaching threads *)
From stdpp Require Import base numbers list gmap strings.
From Stdlib Require Import ZArith Lia.
From S2P Require Import Prelude Mem Machine State Kernel Image RunQueue Smp Thread Invariant ThreadSpec SchedSpec ThreadOps ThreadKill.

Local Open Scope Z_scope.

Section create_defs.
Context {cfg : Config} {hws : Hardware}.

Definition unused (s : kstate) (i : Z) : Prop :=
  exists t, thr s i = Some t /\ t_state t = THREAD_UNUSED.

(** The slot [alloc_thread_slot] takes: the lowest free one above slot 0. *)
Definition first_unused (s : kstate) (lo i : Z) : Prop :=
  lo <= i < THREAD_MAX /\ unused s i /\ forall k, lo <= k < i -> ~ unused s k.
Definition none_unused (s : kstate) (lo : Z) : Prop :=
  forall k, lo <= k < THREAD_MAX -> ~ unused s k.

(** A user thread as it starts: its frame enters [entry(arg)] on top of its own
    stack, in user mode with interrupts on after the return from the trap. *)
Record fresh_user (tid entry arg : Z) (name : name_ptr) (u : Thread) : Prop := {
  fu_id : t_id u = tid;
  fu_state : t_state u = THREAD_RUNNABLE;
  fu_on_rq : t_on_rq u = 1;
  fu_name : t_name u = name;
  fu_user : t_is_user u = USER_THREAD;
  fu_kill : t_can_be_killed u = 1;
  fu_detached : t_detached u = 0;
  fu_hart : t_running_hart u = -1;
  fu_waiter : t_join_waiter u = -1;
  fu_stack : t_stack_base u = thread_stack tid;
  fu_tf : exists v, t_tf u = init_frame (thread_stack tid) entry arg (sstatus_umode v)
}.

End create_defs.

Section create.
Context {cfg : Config} {hws : Hardware}.
Implicit Types (s : kstate) (q : Z -> list Z) (c : cpu_t) (t u : Thread).

Lemma alloc_loop_spec s n i :
  (forall k, tid_ok k -> is_Some (thr s k)) -> 0 <= i -> i + Z.of_nat n = THREAD_MAX ->
  wp (alloc_loop n i) (fun r s' => s' = s /\
    ((r = -1 /\ none_unused s i) \/ first_unused s i r)) s.
Proof.
  intros Hdom. revert i. induction n as [|n IH]; intros i H0 Hn; simpl.
  - apply wp_ret. split; [done|]. left. split; [done|]. intros k Hk. lia.
  - destruct (Hdom i) as [t Ht]; [split; lia|]. wp_steps. rewrite state_eqb_decide.
    destruct (decide (t_state t = THREAD_UNUSED)) as [Hs|Hs].
    + apply wp_ret. split; [done|]. right. split; [lia|]. split; [by exists t|]. intros k Hk. lia.
    + assert (Hi : ~ unused s i).
      { intros (u & Hu & E). rewrite Ht in Hu. by injection Hu as <-. }
      eapply wp_mono; [apply IH; lia|]. intros r s' [-> [[-> Hno]|(Hr & Hu & Hno)]];
        (split; [done|]); [left|right].
      * split; [done|]. intros k Hk. destruct (decide (k = i)) as [->|]; [done|]. apply Hno. lia.
      * split; [lia|]. split; [done|]. intros k Hk.
        destruct (decide (k = i)) as [->|]; [done|]. apply Hno. lia.
Qed.

Lemma alloc_thread_slot_spec X s q :
  inv_x X s q ->
  wp alloc_thread_slot (fun r s' => s' = s /\
    ((r = -1 /\ none_unused s 1) \/ (first_unused s 1 r /\ user_tid r))) s.
Proof.
  intros Hi. eapply wp_mono; [apply (alloc_loop_spec s); [|lia|done]|].
  - intros k. apply (ix_thr_dom _ _ _ Hi).
  - intros r s' [-> [?|Hf]]; split; auto. right. split; [done|].
    destruct Hf as (Hr & (t & Ht & Hs) & _). split; [|lia].
    destruct (decide (r < MAX_HARTS)) as [Hlt|]; [|lia]. exfalso.
    destruct (ix_base _ _ _ Hi r t Ht) as (_ & _ & _ & B4 & _).
    destruct (B4 Hlt) as (_ & _ & [E|E]); by rewrite E in Hs.
Qed.

(** Making a free slot a thread and queueing it. *)
Lemma launch s q pref tid t t1 d :
  inv_x none s q -> hart_ok pref -> user_tid tid -> thr s tid = Some t ->
  t_state t = THREAD_UNUSED -> t_id t1 = t_id t -> t_state t1 = THREAD_RUNNABLE ->
  t_running_hart t1 = t_running_hart t -> t_on_rq t1 = t_on_rq t ->
  t_join_waiter t1 = t_join_waiter t ->
  wp (thread_make_runnable tid pref)
    (fun _ s' => (exists q', inv_x none s' q') /\ frame (only tid) s s' /\
       exists u, thr s' tid = Some u /\ same_but_rq (runnable t1) u /\ t_on_rq u = 1)
    (with_thread tid t1 (k_set_hw d s)).
Proof.
  intros Hi Hp Hu Ht Hs E1 E2 E3 E4 E5. pose proof Hu as [Hu1 Hu2].
  pose proof (ix_base _ _ _ Hi tid t Ht) as (B1 & B2 & B3 & B4 & B5).
  destruct (B5 Hs) as (R1 & R2 & R3).
  assert (Hid : inv_x none (k_set_hw d s) q) by (by apply (inv_x_state none s)).
  assert (Hi1 : inv_x (only tid) (with_thread tid t1 (k_set_hw d s)) q).
  { apply (inv_x_off (only tid) _ q tid t); try done.
    - by eapply inv_x_weaken; [|exact Hid].
    - by rewrite E4.
    - unfold thread_base. rewrite E1, E2, E3, E5. split; [done|]. split; [done|].
      split; [done|]. split; [lia|done].
    - right. left. by rewrite E5.
    - by rewrite Hs. }
  assert (Hnc : not_current (k_set_hw d s) tid)
    by (by apply (parked_not_current none _ q tid t Hid Ht (fun x => x))).
  assert (Hf : frame (only tid) s (with_thread tid t1 (k_set_hw d s))).
  { eapply frame_trans; [apply (frame_quiet _ _ _ (quiet_hw d s))|].
    apply frame_thread; [done|]. change (is_Some (thr s tid)). by rewrite Ht. }
  eapply wp_mono; [apply (thread_make_runnable_inv (only tid) none _ q tid pref t1 Hi1);
    [by right|done|done|apply thr_with_thread_eq|..]|].
  - unfold parked. rewrite E2, E3, E4. done.
  - exact Hnc.
  - by rewrite E2.
  - intros [] s' (target & u & Hi' & Hll & Hu' & E & Hf'). split; [eauto|].
    split; [by eapply frame_trans|]. exists u. split; [done|]. split; [done|].
    eapply (queues_in s'); [by eapply ix_queues|done|apply Hll|].
    unfold q_push. rewrite upd_q_eq. apply elem_of_snoc.
Qed.

Lemma thread_create_user_named_spec s q c entry arg name :
  inv_x none s q -> cpu s (k_tp s) = Some c -> c_hartid c = k_tp s ->
  wp (thread_create_user_named entry arg name)
    (fun r s' => (r = -1 /\ none_unused s 1 /\ s' = s) \/
       (first_unused s 1 r /\ user_tid r /\ (exists q', inv_x none s' q') /\
        frame (only r) s s' /\
        exists u, thr s' r = Some u /\ fresh_user r entry arg name u)) s.
Proof.
  intros Hi Hc Eh. unfold thread_create_user_named. pose proof (ix_tp _ _ _ Hi) as Hh.
  pose proof MAX_HARTS_ok. wp_steps.
  eapply wp_mono; [by eapply alloc_thread_slot_spec|].
  intros r s0 [-> [[-> Hno]|[Hf Hu]]]; [by left|]. pose proof Hu as [Hu1 Hu2].
  pose proof Hf as (_ & (t0 & Ht0 & Hs) & _). rewrite (proj2 (Z.ltb_ge r 0)) by lia.
  pose proof (ix_base _ _ _ Hi r t0 Ht0) as (B1 & _ & _ & _ & B5). destruct (B5 Hs) as (R1 & R2 & _).
  wp_steps. unfold init_thread_context_u. wp_step. apply wp_csr_read. intros v d.
  match goal with |- context [k_set_hw d (with_thread r ?a s)] =>
    change (k_set_hw d (with_thread r a s)) with (with_thread r a (k_set_hw d s)) end.
  eapply wp_upd_thread; [apply thr_with_thread_eq|].
  eapply wp_bind, wp_current_hartid; [exact Hc|].
  rewrite with_thread_twice, Eh. wp_steps.
  eapply wp_mono; [eapply (launch s q (k_tp s) r t0 _ d); try done|].
  intros [] s' (Hi' & Hf' & u & Hu' & E & H1). wp_steps. right. do 4 (split; [done|]).
  exists u. split; [done|]. pose proof (same_but_rq_fields _ _ E) as (F1 & F2 & F3 & F4 & _ & F6 & F7).
  destruct E as (n & o & ->). simpl in *.
  split; simpl; try done. by exists v.
Qed.

Lemma frame_running_after s s' q q' c t T :
  running s q c t -> inv_x none s' q' -> frame T s s' -> ~ T (c_current_tid c) ->
  exists c' t', running s' q' c' t' /\ c_current_tid c' = c_current_tid c /\
    c_cur_tf c' = c_cur_tf c /\ link_only t t'.
Proof.
  intros Hr Hi' Hf HT. pose proof Hr as [Hi Hc Hl Ht].
  destruct (frame_thr _ _ _ _ _ Hf HT Ht) as (t' & Ht' & Hlk).
  destruct (running_after s s' q q' c t t' Hr Hi') as (c' & Hr' & E1 & E2); try done.
  - by eapply frame_hints.
  - apply Hf.
  - by exists c', t'.
Qed.

Lemma first_unused_not_current s q c t lo r :
  running s q c t -> first_unused s lo r -> r <> c_current_tid c.
Proof.
  intros Hr (_ & (u & Hu & Hs) & _) E. pose proof Hr as [_ _ _ Ht].
  destruct (running_facts _ _ _ _ Hr) as (_ & _ & _ & _ & _ & _ & _ & _ & Hst).
  subst r. rewrite Ht in Hu. injection Hu as <-. destruct Hst as [E|E]; by rewrite E in Hs.
Qed.

Lemma thread_sys_create_spec s q c t entry arg name :
  running s q c t ->
  wp (thread_sys_create (c_cur_tf c) entry arg name)
    (fun _ s' => kept s s' /\
       ((none_unused s 1 /\ s' = with_thread (c_current_tid c) (with_a0 (-1) t) s) \/
        exists tid u t', first_unused s 1 tid /\
          thr s' tid = Some u /\ fresh_user tid entry arg (name_or name "uthread") u /\
          thr s' (c_current_tid c) = Some (with_a0 tid t') /\ link_only t t' /\
          frame (either tid (c_current_tid c)) s s')) s.
Proof.
  intros Hr. unfold thread_sys_create, thread_create_user. pose proof Hr as [Hi Hc _ _].
  destruct (running_facts _ _ _ _ Hr) as (_ & Eh & _). wp_steps.
  eapply wp_mono; [by eapply thread_create_user_named_spec|].
  intros r s1 [(-> & Hno & ->)|(Hf & Hu & (q' & Hi') & Hfr & u & Hu' & Hfu)].
  - eapply wp_mono; [by apply (running_set_a0 s q)|]. intros [] s' [Hk ->]. auto.
  - pose proof (first_unused_not_current _ _ _ _ _ _ Hr Hf) as Hne.
    destruct (frame_running_after s s1 q q' c t _ Hr Hi' Hfr) as (c1 & t1 & Hr1 & E1 & E2 & Hl1).
    { intros E. by apply Hne. }
    rewrite <- E2. eapply wp_mono; [by apply (running_set_a0 s1 q')|].
    intros [] s' [Hk ->]. rewrite E1 in *. split; [eapply kept_trans; [|done]; by eapply kept_frame|].
    right. exists r, u, t1. split; [done|].
    split; [by rewrite thr_with_thread_ne by (intros E; by apply Hne)|]. split; [done|].
    split; [apply thr_with_thread_eq|]. split; [done|]. pose proof Hr1 as [_ _ _ Ht1].
    rewrite E1 in Ht1. eapply frame_trans.
    + eapply frame_mono; [|exact Hfr]. intros i ->. by left.
    + apply frame_thread; [by right|by rewrite Ht1].
Qed.

End create.

(** ** Detaching *)

Section detach.
Context {cfg : Config} {hws : Hardware}.
Implicit Types (s : kstate) (q : Z -> list Z) (c : cpu_t) (t u : Thread).

(** The outcomes of [detach]: a status at once, the target marked, or the slot
    of a zombie reclaimed. *)
Inductive detach_outcome : Type :=
| DetachStatus (v : Z)
| DetachMark (u : Thread)
| DetachReap (u : Thread).

Definition detach_branch s (target : Z) : detach_outcome :=
  if (target <=? 0) || (THREAD_MAX <=? target) then DetachStatus (-1) else
  match thr s target with
  | None => DetachStatus (-1)
  | Some u =>
    if decide (t_state u = THREAD_UNUSED) then DetachStatus (-3) else
    if target <? MAX_HARTS then DetachStatus (-2) else
    if 0 <=? t_join_waiter u then DetachStatus (-4) else
    if z2b (t_detached u) then DetachStatus 0 else
    if decide (t_state u = THREAD_ZOMBIE) then DetachReap u else DetachMark u
  end.

Definition detach_effect s s' (cur target : Z) t (b : detach_outcome) : Prop :=
  match b with
  | DetachStatus v => s' = with_thread cur (with_a0 v t) s
  | DetachMark u =>
      exists t', (if decide (cur = target) then t' = t_set_detached 1 t else t' = t) /\
        s' = with_thread cur (with_a0 0 t') (with_thread target (t_set_detached 1 u) s)
  | DetachReap u =>
      thr s' target = Some (thread_recycled u) /\ thr s' cur = Some (with_a0 0 t) /\
      (forall i, i <> target -> i <> cur -> thr s' i = thr s i) /\ k_umem s' = k_umem s
  end.

(** Marking a thread detached keeps the invariant. *)
Lemma detach_inv s q c t target u :
  running s q c t -> thr s target = Some u -> user_tid target ->
  running (with_thread target (t_set_detached 1 u) s) q c
    (if decide (c_current_tid c = target) then t_set_detached 1 t else t).
Proof.
  intros [Hi Hc Hl Ht] Hu [Hu1 Hu2]. split; try done.
  - pose proof (ix_base _ _ _ Hi target u Hu) as (B1 & B2 & B3 & B4 & B5).
    eapply inv_x_thread; [exact Hi|exact Hu|..].
    + eapply queues_thread; try done. by eapply ix_queues.
    + unfold thread_base. simpl. repeat (split; [done|]). split; [lia|done].
    + intros HX. split; [|done]. apply (ix_thr _ _ _ Hi target u Hu HX).
    + simpl. intros. by left.
    + simpl. intros. by left.
  - rewrite thr_with_thread. destruct (decide (target = c_current_tid c)) as [E|E].
    + rewrite decide_True by done. rewrite <- E, Hu in Ht. by injection Ht as ->.
    + by rewrite decide_False by (intros E'; by apply E).
Qed.

Lemma thread_sys_detach_spec s q c t target :
  let cur := c_current_tid c in
  running s q c t ->
  (forall u, thr s target = Some u -> t_state u = THREAD_ZOMBIE -> t_running_hart u = -1) ->
  wp (thread_sys_detach (c_cur_tf c) target)
    (fun _ s' => kept s s' /\ detach_effect s s' cur target t (detach_branch s target)) s.
Proof.
  intros cur Hr Hg. pose proof Hr as [Hi Hc Hl Ht].
  destruct (running_facts _ _ _ _ Hr) as (Hh & Eh & _ & Etf & _ & _ & Erh & H0 & Hst).
  unfold thread_sys_detach, detach_branch.
  destruct ((target <=? 0) || (THREAD_MAX <=? target)) eqn:Er; [by apply (running_set_a0 s q)|].
  apply orb_false_iff in Er as [Er1 Er2]. bool_facts.
  assert (tid_ok target) as Hok by (split; lia).
  apply (ix_thr_dom _ _ _ Hi) in Hok as [u Hu]. rewrite Hu. wp_steps. rewrite !state_eqb_decide.
  destruct (decide (t_state u = THREAD_UNUSED)) as [|Hnu]; [by apply (running_set_a0 s q)|].
  destruct (target <? MAX_HARTS) eqn:Em; [by apply (running_set_a0 s q)|]. bool_facts.
  destruct (0 <=? t_join_waiter u) eqn:Ej; [by apply (running_set_a0 s q)|].
  destruct (z2b (t_detached u)) eqn:Ed; [by apply (running_set_a0 s q)|].
  assert (Hut : user_tid target) by (split; lia).
  pose proof (detach_inv s q c t target u Hr Hu Hut) as Hr1.
  assert (Hk1 : kept s (with_thread target (t_set_detached 1 u) s))
    by (by eapply kept_running_trans).
  assert (Hu1 : thr (with_thread target (t_set_detached 1 u) s) target = Some (t_set_detached 1 u))
    by apply thr_with_thread_eq.
  assert (Ho1 : forall i, i <> target -> thr (with_thread target (t_set_detached 1 u) s) i = thr s i)
    by (intros i E; rewrite thr_with_thread_ne; [done|by intros ->]).
  wp_steps. destruct (decide (t_state u = THREAD_ZOMBIE)) as [Hz|Hnz]; simpl.
  - assert (Hrh : t_running_hart u = -1) by (by apply Hg).
    assert (Hne : target <> cur).
    { intros E. unfold cur in E. rewrite <- E, Hu in Ht. injection Ht as <-.
      destruct Hh. lia. }
    rewrite decide_False in Hr1 by (intros E; by apply Hne).
    eapply wp_mono; [by apply (recycle_dead _ q c t target (t_set_detached 1 u))|].
    intros [] s2 (Hr2 & Hu2 & Ho2 & Hf2).
    eapply wp_mono; [by apply (running_set_a0 s2 q c t 0)|].
    intros [] s3 [Hk ->]. fold cur in Hk |- *.
    assert (Hk2 : kept s s2).
    { eapply kept_trans; [exact Hk1|].
      eapply kept_running_trans; [exact Hr2|apply (sf_tp _ _ _ Hf2)|apply (sf_lock _ _ _ Hf2)]. }
    split; [by eapply kept_trans|]. split; [|split; [apply thr_with_thread_eq|split]].
    + rewrite thr_with_thread_ne by (intros E; by apply Hne). done.
    + intros i Hi1 Hi2. rewrite thr_with_thread_ne by (intros E; by apply Hi2).
      by rewrite Ho2, Ho1.
    + apply (sf_umem _ _ _ Hf2).
  - wp_steps. eapply wp_mono; [by apply (running_set_a0 _ q c _ 0 Hr1)|].
    intros [] s3 [Hk ->]. split; [eapply kept_trans; [exact Hk1|exact Hk]|].
    eexists. split; [|reflexivity]. unfold cur. by destruct (decide _).
Qed.

End detach.
