(* ===== verification/Snapshot.v ===== *)
(** * Run-queue snapshots

    [rq_snapshot] copies one queue out in order, and [sys_runqueue_snapshot]
    reports, for each hart on line, exactly the threads queued on it. *)
From stdpp Require Import base numbers list gmap strings.
From Stdlib Require Import ZArith Lia.
From S2P Require Import Prelude Mem Machine State Kernel Image RunQueue Smp Thread Invariant ThreadSpec.

Local Open Scope Z_scope.

Section snapshot.
Context {cfg : Config} {hws : Hardware}.
Implicit Types (s : kstate) (q : Z -> list Z).

(** The array [d] after the queue [l] was copied to it, with a terminator if
    there is room. *)
Definition snapshot_of (l d : list Z) : list Z :=
  if decide (length d <= length l)%nat then take (length d) l
  else l ++ [-1] ++ drop (length l + 1) d.

Lemma dst_write_spec s pre x rest v :
  wp (dst_write (pre ++ x :: rest) (length pre) v) (fun d' s' => s' = s /\ d' = pre ++ v :: rest) s.
Proof.
  unfold dst_write. rewrite (proj2 (Nat.ltb_lt _ _)) by (rewrite length_app; simpl; lia).
  apply wp_ret. split; [done|]. rewrite insert_app_r_alt by lia. by rewrite Nat.sub_diag.
Qed.

Lemma rq_snapshot_loop_spec s q h fuel l pre rest :
  queues s q -> hart_ok h -> (exists done, q h = done ++ l) -> chain (nxt s) l ->
  (length rest <= fuel)%nat ->
  wp (rq_snapshot_loop fuel (default (-1) (head l)) (length pre) (length (pre ++ rest)) (pre ++ rest))
    (fun r s' => s' = s /\ r = ((length pre + length (take (length rest) l))%nat,
       pre ++ take (length rest) l ++ drop (length l) rest)) s.
Proof.
  intros Hq Hh. revert l pre rest. induction fuel as [|fuel IH]; intros l pre rest [dn Hd] Hc Hf.
  { destruct rest; [|simpl in Hf; lia]. simpl. rewrite app_nil_r.
    rewrite (proj2 (Nat.leb_le _ _)) by lia. rewrite orb_true_r. apply wp_ret.
    split; [done|]. by rewrite Nat.add_0_r, drop_nil, !app_nil_r. }
  destruct l as [|i l]; simpl.
  { apply wp_ret. split; [done|]. by rewrite take_nil, Nat.add_0_r. }
  assert (Hi : user_tid i) by (eapply (queues_valid s q Hq h); [done|]; rewrite Hd; set_solver).
  pose proof MAX_HARTS_ok. pose proof Hi as [Hi1 Hi2].
  rewrite (proj2 (Z.ltb_ge i 0)) by lia. simpl. destruct rest as [|x rest].
  { rewrite app_nil_r, (proj2 (Nat.leb_le _ _)) by lia. apply wp_ret. split; [done|].
    simpl. by rewrite Nat.add_0_r, app_nil_r. }
  rewrite (proj2 (Nat.leb_gt _ _)) by (rewrite length_app; simpl; lia).
  apply wp_bind. eapply wp_mono; [apply dst_write_spec|]. intros d' s' [-> ->].
  destruct Hc as [Hn Hc]. unfold nxt in Hn. destruct (thr s i) as [t|] eqn:Ht; [|done].
  simpl in Hn. injection Hn as Hn. wp_steps. rewrite Hn.
  assert (E1 : pre ++ i :: rest = (pre ++ [i]) ++ rest) by (by rewrite <- app_assoc).
  assert (E2 : length (pre ++ x :: rest) = length ((pre ++ [i]) ++ rest))
    by (rewrite !length_app; simpl; lia).
  assert (E3 : (length pre + 1)%nat = length (pre ++ [i])) by (rewrite length_app; simpl; lia).
  rewrite E1, E2, E3. simpl in Hf. eapply wp_mono; [apply IH; [|done|lia]|].
  - exists (dn ++ [i]). rewrite Hd. by rewrite <- app_assoc.
  - intros r s' [-> ->]. split; [done|]. rewrite !length_app. simpl. f_equal; [lia|].
    by rewrite <- app_assoc.
Qed.

Lemma rq_snapshot_spec s q h d :
  queues s q -> hart_ok h -> d <> [] ->
  wp (rq_snapshot h (Some d) (length d))
    (fun r s' => s' = s /\ r = (Z.of_nat (length (take (length d) (q h))), snapshot_of (q h) d)) s.
Proof.
  intros Hq Hh Hd. pose proof Hh as [Hh1 Hh2]. unfold rq_snapshot.
  rewrite (proj2 (Z.leb_gt MAX_HARTS h)) by lia.
  assert (length d <> 0)%nat by (by destruct d).
  rewrite (proj2 (Nat.eqb_neq _ _)) by done.
  destruct (queues_rep s q Hq h Hh) as (r & Hr & Hhd & _ & _ & Hc). wp_steps. rewrite Hhd.
  eapply wp_mono; [apply (rq_snapshot_loop_spec s q h (length d) (q h) [] d); try done|].
  { by exists []. }
  intros p s' [-> ->]. simpl. unfold snapshot_of. case_decide as E.
  - rewrite length_take, Nat.min_l by lia. rewrite Nat.ltb_irrefl. wp_steps.
    split; [done|]. f_equal. rewrite drop_ge by lia. by rewrite app_nil_r.
  - rewrite (take_ge (q h)) by lia. rewrite (proj2 (Nat.ltb_lt _ _)) by lia.
    destruct (drop (length (q h)) d) as [|x l] eqn:Ed.
    { apply (f_equal length) in Ed. rewrite length_drop in Ed. simpl in Ed. lia. }
    wp_steps. eapply wp_mono; [apply dst_write_spec|]. intros d' s' [-> ->]. wp_steps.
    split; [done|]. f_equal. f_equal. simpl. f_equal. rewrite <- drop_drop, Ed. done.
Qed.

(** *** The system call *)

Definition is_online s (h : Z) : bool :=
  match cpu s h with Some c => z2b (c_online c) | None => false end.

(** The harts reported, in order. *)
Definition snapshot_harts s (n : Z) : list Z :=
  take (Z.to_nat n) (filter (fun h => is_online s h = true) (seqZ 0 MAX_HARTS)).

(** One record of the report. *)
Definition rq_report (q : Z -> list Z) (h : Z) : list Z :=
  rq_state_bytes h (Z.of_nat (length (q h)))
    (q h ++ repeat (-1) (Z.to_nat RQ_MAX_TIDS - length (q h))).

Fixpoint report_mem (q : Z -> list Z) (hs : list Z) (ubuf out : Z) (m : mem) : mem :=
  match hs with
  | [] => m
  | h :: hs => report_mem q hs ubuf (out + 1)
                 (store_bytes m (ubuf + out * RQ_STATE_SIZE) (rq_report q h))
  end.

Lemma drop_repeat {A} (x : A) a b : drop a (repeat x b) = repeat x (b - a).
Proof. revert a. induction b as [|b IH]; intros [|a]; simpl; try done. Qed.

Lemma snapshot_record s q h :
  queues s q -> hart_ok h ->
  wp (rq_snapshot h (Some (repeat (-1) (Z.to_nat RQ_MAX_TIDS))) (Z.to_nat RQ_MAX_TIDS))
    (fun r s' => s' = s /\ r = (Z.of_nat (length (q h)),
       q h ++ repeat (-1) (Z.to_nat RQ_MAX_TIDS - length (q h)))) s.
Proof.
  intros Hq Hh. pose proof (queues_length s q h Hq Hh) as Hl.
  pose proof (rq_snapshot_spec s q h (repeat (-1) (Z.to_nat RQ_MAX_TIDS)) Hq Hh) as H.
  rewrite repeat_length in H. eapply wp_mono; [by apply H|]. clear H.
  intros r s' [-> ->]. split; [done|]. rewrite take_ge by exact Hl. f_equal.
  unfold snapshot_of. rewrite repeat_length. change (Z.to_nat RQ_MAX_TIDS) with (Z.to_nat THREAD_MAX).
  set (n := Z.to_nat THREAD_MAX) in *. clearbody n. case_decide.
  - rewrite take_ge by lia. replace (n - length (q h))%nat with 0%nat by lia.
    simpl. by rewrite app_nil_r.
  - f_equal. rewrite drop_repeat.
    replace (n - length (q h))%nat with (S (n - (length (q h) + 1))) by lia. done.
Qed.

Lemma snapshot_loop_spec q ubuf n m h out s :
  queues s q -> 0 <= h -> h + Z.of_nat m = MAX_HARTS -> 0 <= out -> out <= n ->
  let hs := take (Z.to_nat (n - out)) (filter (fun h => is_online s h = true) (seqZ h (Z.of_nat m))) in
  (forall k, hart_ok k -> is_Some (cpu s k)) ->
  wp (snapshot_loop m h ubuf n out)
    (fun r s' => r = out + Z.of_nat (length hs) /\
       s' = k_set_umem (report_mem q hs ubuf out (k_umem s)) s) s.
Proof.
  revert h out s. induction m as [|m IH]; intros h out s Hq H0 Hm Ho Hn hs Hdom;
    unfold hs; clear hs; cbn [snapshot_loop].
  - apply wp_ret. rewrite (seqZ_nil h), filter_nil, take_nil by lia. simpl. split; [lia|]. by destruct s.
  - destruct (n <=? out) eqn:En; bool_facts.
    { apply wp_ret. replace (Z.to_nat (n - out)) with 0%nat by lia. simpl.
      split; [lia|]. by destruct s. }
    assert (Hh : hart_ok h) by (split; lia). destruct (Hdom h Hh) as [c Hc].
    rewrite seqZ_cons by lia. replace (Z.pred (Z.of_nat (S m))) with (Z.of_nat m) by lia.
    rewrite filter_cons. assert (Ho' : is_online s h = z2b (c_online c)) by (unfold is_online; by rewrite Hc).
    wp_steps. rewrite Ho'. destruct (z2b (c_online c)); cbn [negb].
    + rewrite decide_True by done. apply wp_bind. eapply wp_mono; [by apply snapshot_record|]. intros r s' [-> ->].
      cbn [fst snd]. rewrite (proj2 (Z.ltb_ge _ 0)) by lia. wp_steps.
      pose proof (queues_length s q h Hq Hh) as Hl. rewrite u32_small by (unfold THREAD_MAX in Hl; lia).
      fold (rq_report q h). unfold upd_umem at 1. apply wp_modify.
      set (s1 := k_set_umem (store_bytes _ _ _) s).
      eapply wp_mono; [apply (IH (h + 1) (out + 1) s1); [|lia|lia|lia|lia|exact Hdom]|].
      { eapply queues_state; [..|exact Hq]; done. }
      intros r s' [-> ->]. change (is_online s1) with (is_online s).
      replace (Z.to_nat (n - out)) with (S (Z.to_nat (n - (out + 1)))) by lia.
      rewrite <- Z.add_1_r. cbn [take report_mem length]. split; [lia|done].
    + rewrite decide_False by done. eapply wp_mono; [apply (IH (h + 1) out s); try done; lia|]. intros r s' [-> ->].
      rewrite <- Z.add_1_r. done.
Qed.

Lemma sys_runqueue_snapshot_spec X s q ubuf n :
  inv_x X s q -> 0 <= n ->
  wp (sys_runqueue_snapshot ubuf n)
    (fun r s' =>
       if (ubuf =? 0) || (n =? 0) then r = -1 /\ s' = s
       else r = Z.of_nat (length (snapshot_harts s n)) /\
            s' = k_set_umem (report_mem q (snapshot_harts s n) ubuf 0 (k_umem s)) s) s.
Proof.
  intros Hi Hn. unfold sys_runqueue_snapshot. destruct ((ubuf =? 0) || (n =? 0)) eqn:E; [by apply wp_ret|].
  pose proof MAX_HARTS_ok. eapply wp_mono; [apply (snapshot_loop_spec q ubuf n); try done|].
  - by eapply ix_queues.
  - lia.
  - intros k. apply (ix_cpu_dom _ _ _ Hi).
  - intros r s' [-> ->]. rewrite Z2Nat.id, Z.sub_0_r by lia. done.
Qed.

End snapshot.
