(* ===== verification/Quiet.v ===== *)
(** * Code that leaves the scheduler alone

    The drivers, the console output, the clock and the interrupt table work on
    the devices, their own tables, user memory and the log.  [calm m]: [m]
    neither panics nor performs an undefined access (it may poll a device for
    ever), and the threads, queues and harts are as before.  [within R m]: every
    run of [m] that returns is a step of the relation [R]. *)
From stdpp Require Import base numbers list gmap strings.
From Stdlib Require Import ZArith Lia.
From S2P Require Import Prelude Mem Machine State Kernel Image RunQueue Smp Thread Uart Plic Platform Console Irq Sysfile Trap.

Local Open Scope Z_scope.

Section calm.
Context {cfg : Config} {hws : Hardware} {dt : DeviceTree}.

(** The console ring and the platform's interrupt tables are in range. *)
Definition con_ok (r : console_state) : Prop :=
  (forall i, 0 <= i < CONSOLE_RBUF_SIZE -> is_Some (g_rx_buf r !! i)) /\
  0 <= g_rx_head r < CONSOLE_RBUF_SIZE /\ 0 <= g_rx_tail r < CONSOLE_RBUF_SIZE.

Definition plat_ok (p : platform_state) : Prop :=
  (forall i, 0 <= i < MAX_IRQ -> is_Some (p_irq_table p !! i)) /\
  (forall i, 0 <= i < MAX_IRQ -> is_Some (p_irq_stats p !! i)) /\
  (forall i, 0 <= i < MAX_IRQ -> is_Some (p_irq_name p !! i)) /\
  0 <= p_uart_irq p.

(** The tables of threads, harts and queues have their C sizes, and the code runs
    on one of the harts. *)
Definition tabs_ok (s : kstate) : Prop :=
  (forall i, tid_ok i -> is_Some (thr s i)) /\ (forall h, hart_ok h -> is_Some (cpu s h)) /\
  (forall h, hart_ok h -> is_Some (rqs s h)) /\ hart_ok (k_tp s).

Definition good (s : kstate) : Prop :=
  plat_ok (k_plat s) /\ con_ok (k_con s) /\ tabs_ok s.

Record side (s s' : kstate) : Prop := {
  sd_core : k_core s' = k_core s;
  sd_tp : k_tp s' = k_tp s;
  sd_lock : k_kernel_lock s' = k_kernel_lock s;
  sd_dtb : p_g_dtb (k_plat s') = p_g_dtb (k_plat s);
  sd_good : good s -> good s'
}.

Definition calm {A} (m : M kstate A) : Prop :=
  forall s, good s -> wnp m (fun _ s' => side s s') s.

#[export] Instance side_preorder : PreOrder side.
Proof.
  split; [by intros s; split|]. intros s1 s2 s3 [A1 A2 A3 A4 A5] [B1 B2 B3 B4 B5].
  split; [congruence..|auto].
Qed.

(** ** Composition *)

Lemma calm_ret {A} (a : A) : calm (ret a).
Proof. intros s _. by apply wnp_ret. Qed.
Lemma calm_bind {A B} (m : M kstate A) (k : A -> M kstate B) :
  calm m -> (forall a, calm (k a)) -> calm (bind m k).
Proof.
  intros Hm Hk s Hg. apply wnp_bind. eapply wnp_mono; [by apply Hm|].
  intros a s1 H1. eapply wnp_mono; [apply Hk; by apply H1|]. intros b s2 H2. exact (transitivity H1 H2).
Qed.
Lemma calm_gets {A} (f : kstate -> A) : calm (gets f).
Proof. intros s _. by apply wnp_gets. Qed.
Lemma calm_when b (m : M kstate unit) : calm m -> calm (when b m).
Proof. destruct b; [done|]. intros _. apply calm_ret. Qed.
Lemma calm_diverge {A} : calm (diverge (A := A)).
Proof. by intros s _. Qed.
Lemma calm_loop {A} fuel (body : M kstate (option A)) : calm body -> calm (loop fuel body).
Proof.
  intros Hb s Hg. apply (wnp_loop (fun s' => side s s')); [done|].
  intros s1 H1. eapply wnp_mono; [apply Hb; by apply H1|].
  intros [a|] s2 H2; exact (transitivity H1 H2).
Qed.
Lemma calm_for_z n i (body : Z -> M kstate unit) :
  (forall j, i <= j < i + Z.of_nat n -> calm (body j)) -> calm (for_z n i body).
Proof.
  intros Hb s Hg. apply (wnp_for_z (fun s' => side s s')); [done|].
  intros j s1 Hj H1. eapply wnp_mono; [apply Hb; [done|by apply H1]|].
  intros [] s2 H2; exact (transitivity H1 H2).
Qed.

(** ** Primitive operations *)

Lemma calm_on_hw {A} (f : dev -> A * dev) : calm (on_hw f).
Proof. intros s Hg. unfold wnp, on_hw. destruct (f (k_hw s)). by split. Qed.
Lemma calm_umem f : calm (upd_umem f).
Proof. intros s Hg. by apply wnp_modify. Qed.
Lemma calm_trp f : calm (upd_trp f).
Proof. intros s Hg. by apply wnp_modify. Qed.
Lemma calm_pr l m : calm (pr l m).
Proof. intros s Hg. by apply wnp_modify. Qed.
Lemma calm_cpu_this : calm cpu_this.
Proof.
  intros s (_ & _ & _ & H & _ & Hh). destruct (H _ Hh) as [c Hc]. apply wp_wnp. by eapply wp_cpu_this.
Qed.
Lemma calm_get_thread i : tid_ok i -> calm (get_thread i).
Proof.
  intros Hi s (_ & _ & H & _). destruct (H i Hi) as [t Ht]. apply wp_wnp. by eapply wp_get_thread.
Qed.
Lemma calm_get_cpu h : hart_ok h -> calm (get_cpu h).
Proof.
  intros Hi s (_ & _ & _ & H & _). destruct (H h Hi) as [t Ht]. apply wp_wnp. by eapply wp_get_cpu.
Qed.
Lemma calm_plat (f : platform_state -> platform_state) :
  (forall p, plat_ok p -> plat_ok (f p)) -> (forall p, p_g_dtb (f p) = p_g_dtb p) ->
  calm (upd_plat f).
Proof.
  intros Hf Hd s (Hp & Hc & Hh). apply wnp_modify. split; try done; [by apply Hd|].
  intros _. split; [by apply Hf|done].
Qed.
Lemma calm_con (f : console_state -> console_state) :
  (forall r, con_ok r -> con_ok (f r)) -> calm (upd_con f).
Proof.
  intros Hf s (Hp & Hc & Hh). apply wnp_modify. split; try done.
  intros _. split; [done|]. split; [by apply Hf|done].
Qed.
End calm.

#[export] Existing Instance side_preorder.

Create HintDb calm.
#[export] Hint Resolve calm_ret calm_gets calm_diverge calm_on_hw calm_umem calm_trp
  calm_pr calm_cpu_this calm_get_thread calm_get_cpu : calm.

(** One step through the structure of the code. *)
Ltac calm_step :=
  lazymatch goal with
  | |- calm (bind _ _) => apply calm_bind; [|intros ?]
  | |- calm (when _ _) => apply calm_when
  | |- calm (loop _ _) => apply calm_loop
  | |- calm (for_z _ _ _) => apply calm_for_z; intros ? ?
  | |- calm (if ?b then _ else _) => destruct b
  | |- calm (match ?x with _ => _ end) => destruct x
  | |- calm (upd_plat _) => apply calm_plat; [by intros ? []|done]
  | |- calm _ => solve [eauto with calm]
  end; cbv beta zeta.
Ltac calm := cbv beta zeta; repeat calm_step.

Section calm_code.
Context {cfg : Config} {hws : Hardware} {dt : DeviceTree}.

Lemma calm_csr_read c : calm (csr_read c).
Proof. unfold csr_read. calm. Qed.
Lemma calm_csr_upd c op v : calm (csr_upd c op v).
Proof. unfold csr_upd. calm. Qed.
Lemma calm_sbi e f l : calm (sbi_call e f l).
Proof. unfold sbi_call. calm. Qed.
Lemma calm_mmio_r w a : calm (mmio_r w a).
Proof. apply calm_on_hw. Qed.
Lemma calm_mmio_w w a v : calm (mmio_w w a v).
Proof. apply calm_on_hw. Qed.
Lemma calm_get_plat {A} (f : platform_state -> A) : calm (plat f).
Proof. apply calm_gets. Qed.
Lemma calm_get_core {A} (f : core_state -> A) : calm (core f).
Proof. apply calm_gets. Qed.
Lemma calm_hartid : calm cpu_current_hartid.
Proof. unfold cpu_current_hartid. calm. Qed.
Hint Resolve calm_csr_read calm_csr_upd calm_sbi calm_mmio_r calm_mmio_w calm_get_plat
  calm_get_core calm_hartid : calm.

(** *** UART *)
Lemma calm_uart_r i : calm (uart_r i).
Proof. unfold uart_r. calm. Qed.
Lemma calm_uart_w i v : calm (uart_w i v).
Proof. unfold uart_w. calm. Qed.
Lemma calm_putc c : calm (uart16550_putc c).
Proof. unfold uart16550_putc, uart_lsr_read, uart_thr_write. pose proof calm_uart_r.
  pose proof calm_uart_w. calm. Qed.
Hint Resolve calm_uart_r calm_uart_w calm_putc : calm.
Lemma calm_put_text c : calm (uart_put_text c).
Proof. unfold uart_put_text. calm. Qed.
Hint Resolve calm_put_text : calm.
Lemma calm_cbuf_char b i : calm (cbuf_char b i).
Proof. unfold cbuf_char. calm. Qed.
Hint Resolve calm_cbuf_char : calm.
Lemma calm_uart_write b n : calm (uart16550_write b n).
Proof. unfold uart16550_write. calm. Qed.
Lemma calm_puts s : calm (uart16550_puts s).
Proof. unfold uart16550_puts. induction (bytes_of_string s) as [|c l IH]; simpl; calm. Qed.
Hint Resolve calm_uart_write calm_puts : calm.

(** *** PLIC *)
Lemma calm_w32 o v : calm (w32 o v).
Proof. unfold w32. calm. Qed.
Lemma calm_r32 o : calm (r32 o).
Proof. unfold r32. calm. Qed.
Hint Resolve calm_w32 calm_r32 : calm.
Lemma calm_ensure_base : calm plic_ensure_base.
Proof. unfold plic_ensure_base. calm. Qed.
Hint Resolve calm_ensure_base : calm.
Lemma calm_plic_init : calm plic_init_s_mode.
Proof. unfold plic_init_s_mode. calm. Qed.
Lemma calm_set_priority i p : calm (plic_set_priority i p).
Proof. unfold plic_set_priority. calm. Qed.
Lemma calm_update_enable i f : calm (plic_update_enable i f).
Proof. unfold plic_update_enable. calm. Qed.
Lemma calm_claim : calm plic_claim.
Proof. unfold plic_claim. calm. Qed.
Lemma calm_complete i : calm (plic_complete i).
Proof. unfold plic_complete. calm. Qed.
Hint Resolve calm_plic_init calm_set_priority calm_update_enable calm_claim calm_complete : calm.

(** *** Platform output, clock, statistics *)
Lemma calm_write b n : calm (platform_write b n).
Proof. unfold platform_write. calm. Qed.
Lemma calm_write_bytes l : calm (platform_write_bytes l).
Proof. apply calm_write. Qed.
Hint Resolve calm_write calm_write_bytes : calm.
Lemma calm_platform_putc c : calm (platform_putc c).
Proof. apply calm_putc. Qed.
Lemma calm_platform_puts s : calm (platform_puts s).
Proof. apply calm_puts. Qed.
Lemma calm_put_dec x : calm (platform_put_dec_us x).
Proof. apply calm_write_bytes. Qed.
Lemma calm_put_hex64 x : calm (platform_put_hex64 x).
Proof. apply calm_write_bytes. Qed.
Lemma calm_timebase : calm platform_timebase_hz.
Proof. unfold platform_timebase_hz. calm. Qed.
Hint Resolve calm_platform_putc calm_platform_puts calm_put_dec calm_put_hex64 calm_timebase : calm.
Lemma calm_start_at w : calm (timer_start_at w).
Proof. unfold timer_start_at. calm. Qed.
Lemma calm_start_after w : calm (platform_timer_start_after w).
Proof. unfold platform_timer_start_after, timer_start_after, timer_now.
  pose proof calm_start_at. calm. Qed.
Lemma calm_time_now : calm platform_time_now.
Proof. apply calm_csr_read. Qed.
Lemma calm_sched_delta : calm platform_sched_delta_ticks.
Proof. unfold platform_sched_delta_ticks. calm. Qed.
Hint Resolve calm_start_at calm_start_after calm_time_now calm_sched_delta : calm.

Lemma timebase_nonzero s : good s -> wnp platform_timebase_hz (fun hz s' => side s s' /\ hz <> 0) s.
Proof.
  intros Hg. unfold platform_timebase_hz. apply wnp_bind, wnp_gets. case_if.
  - by apply wnp_ret.
  - apply wnp_bind, wnp_gets, wnp_bind. eapply wnp_mono; [by apply calm_plat; [intros ? []|..]|].
    intros [] s' H. apply wnp_ret. split; [done|].
    destruct (timebase_of_fdt _ =? 0) eqn:E; bool_facts; lia.
Qed.

(** The division of [platform_rtc_read_ns] is by a nonzero frequency. *)
Lemma calm_rtc : calm platform_rtc_read_ns.
Proof.
  intros s Hg. unfold platform_rtc_read_ns. apply wnp_bind.
  eapply wnp_mono; [by apply timebase_nonzero|]. intros hz s1 [H1 Hz].
  rewrite (proj2 (Z.eqb_neq hz 0)) by done. eapply wnp_mono.
  - assert (Hc : calm (logged <- plat p_fallback_logged ;;
      when (negb (z2b logged))
        (pr_info "platform_rtc_read_ns: using time CSR (hz=%u)" ;;
         upd_plat (p_set_fallback_logged 1)) ;;
      ticks <- csr_read CSR_time ;; ret (ticks_to_ns hz ticks))) by (unfold pr_info; calm).
    apply Hc. by apply H1.
  - intros a s2 H2. exact (transitivity H1 H2).
Qed.
Hint Resolve calm_rtc : calm.

Lemma calm_get_irq i : 0 <= i < MAX_IRQ -> calm (get_irq i).
Proof. intros Hi s ((H & _) & _). unfold wnp, get_irq. by destruct (H i Hi) as [e ->]. Qed.
Lemma calm_get_stat i : 0 <= i < MAX_IRQ -> calm (get_irq_stat i).
Proof. intros Hi s ((_ & H & _) & _). unfold wnp, get_irq_stat. by destruct (H i Hi) as [e ->]. Qed.
Lemma calm_get_name i : 0 <= i < MAX_IRQ -> calm (get_irq_name i).
Proof. intros Hi s ((_ & _ & H & _) & _). unfold wnp, get_irq_name. by destruct (H i Hi) as [e ->]. Qed.
Hint Resolve calm_get_irq calm_get_stat calm_get_name : calm.

Lemma is_Some_insert_same {A} (m : gmap Z A) i k x :
  is_Some (m !! k) -> is_Some (<[i := x]> m !! k).
Proof. rewrite lookup_insert. case_decide; eauto. Qed.

Lemma calm_set_irq i e : 0 <= i < MAX_IRQ -> calm (set_irq i e).
Proof.
  intros Hi. unfold set_irq. apply calm_bind; [by apply calm_get_irq|intros _].
  apply calm_plat; [|done]. intros p (H1 & H2 & H3). split; [|done].
  intros k Hk. by apply is_Some_insert_same, H1.
Qed.
Lemma calm_set_stat i e : 0 <= i < MAX_IRQ -> calm (set_irq_stat i e).
Proof.
  intros Hi. unfold set_irq_stat. apply calm_bind; [by apply calm_get_stat|intros _].
  apply calm_plat; [|done]. intros p (H1 & H2 & H3). split; [done|]. split; [|done].
  intros k Hk. by apply is_Some_insert_same, H2.
Qed.
Lemma calm_set_name i e : 0 <= i < MAX_IRQ -> calm (set_irq_name i e).
Proof.
  intros Hi. unfold set_irq_name. apply calm_bind; [by apply calm_get_name|intros _].
  apply calm_plat; [|done]. intros p (H1 & H2 & H3 & H4). split; [done|]. split; [done|]. split; [|done].
  intros k Hk. by apply is_Some_insert_same, H3.
Qed.
Hint Resolve calm_set_irq calm_set_stat calm_set_name : calm.

Lemma calm_irq_stats n i :
  0 <= i -> i + Z.of_nat n <= MAX_IRQ -> calm (irq_stats_loop n i).
Proof.
  revert i. induction n as [|n IH]; intros i H0 Hn; simpl; [apply calm_ret|].
  assert (0 <= i < MAX_IRQ) by lia.
  apply calm_bind; [by apply calm_get_stat|intros ?].
  apply calm_bind; [by apply calm_get_name|intros ?].
  apply calm_bind; [apply IH; lia|intros ?]. apply calm_ret.
Qed.
Lemma calm_get_stats n : calm (platform_irq_get_stats n).
Proof.
  unfold platform_irq_get_stats. apply calm_irq_stats; [done|].
  destruct (n <? MAX_IRQ) eqn:E; bool_facts; unfold MAX_IRQ in *; lia.
Qed.
Hint Resolve calm_get_stats : calm.

(** *** The file and clock system calls *)
Lemma calm_sys_write fd b n : calm (sys_write fd b n).
Proof. unfold sys_write, console_write. calm. Qed.
Lemma calm_clock_gettime c u : calm (sys_clock_gettime c u).
Proof.
  unfold sys_clock_gettime, ktime_get_real_ts, ktime_get_monotonic_ts, ktime_get_monotonic_ns,
    ktime_get_real_ns, copy_to_user_timespec. calm.
Qed.
Lemma calm_irqstats_copy l a : calm (irqstats_copy l a).
Proof. revert a. induction l as [|x l IH]; intros a; simpl; [calm|]. unfold irqstat_store. calm. Qed.
Hint Resolve calm_irqstats_copy : calm.
Lemma calm_irq_get_stats u n : calm (sys_irq_get_stats u n).
Proof. unfold sys_irq_get_stats. calm. Qed.

(** *** The console ring *)
Lemma con_next_ok t : 0 <= u32 (t + 1) mod CONSOLE_RBUF_SIZE < CONSOLE_RBUF_SIZE.
Proof. apply Z.mod_pos_bound. by unfold CONSOLE_RBUF_SIZE. Qed.

Lemma calm_con_get {A} (f : console_state -> A) : calm (con f).
Proof. apply calm_gets. Qed.

Lemma calm_console_push ch : calm (console_push ch).
Proof.
  intros s Hg. unfold console_push. pose proof Hg as (_ & (Hb & Hh & Ht) & _).
  apply wnp_bind, wnp_gets. unfold when. case_if; [|by apply wnp_ret].
  apply wnp_bind, wnp_gets, wnp_bind. unfold get_rx at 1. unfold wnp at 1.
  destruct (Hb _ Hh) as [x ->].
  set (head := g_rx_head (k_con s)) in *.
  assert (Hc1 : calm (upd_con (fun r => g_set_rx_buf (<[head := u8 ch]> (g_rx_buf r)) r) ;;
    upd_con (g_set_rx_head (u32 (head + 1) mod CONSOLE_RBUF_SIZE)))).
  { apply calm_bind; [|intros ?]; apply calm_con; intros r (R1 & R2 & R3); split; try done.
    - intros i Hi. by apply is_Some_insert_same, R1.
    - split; [apply con_next_ok|done]. }
  by apply Hc1.
Qed.

(** [console_read_nonblock] returns within the fuel: each round consumes a
    character. *)
Lemma calm_console_read_loop fuel b n i : calm (console_read_loop fuel b n i).
Proof.
  revert i. induction fuel as [|f IH]; intros i; simpl;
    (apply calm_bind; [apply calm_con_get|intros e]); destruct ((n <=? i) || e);
    [apply calm_ret|apply calm_diverge|apply calm_ret|].
  intros s Hg. pose proof Hg as (_ & (Hb & Hh & Ht) & _).
  apply wnp_bind, wnp_gets, wnp_bind. unfold get_rx at 1. unfold wnp at 1.
  destruct (Hb _ Ht) as [x ->]. set (t := g_rx_tail (k_con s)).
  assert (Hc : calm (upd_umem (fun m => store8 m (b + i) x) ;;
    upd_con (g_set_rx_tail (u32 (t + 1) mod CONSOLE_RBUF_SIZE)) ;;
    console_read_loop f b n (i + 1))).
  { apply calm_bind; [apply calm_umem|intros _]. apply calm_bind; [|intros _; apply IH].
    apply calm_con. intros r (R1 & R2 & R3). split; [done|]. split; [done|]. apply con_next_ok. }
  by apply Hc.
Qed.
Lemma calm_console_read b n : calm (console_read_nonblock b n).
Proof. unfold console_read_nonblock. pose proof calm_console_read_loop. calm. Qed.

(** *** Listing the threads *)
Lemma calm_name_char p j : calm (name_char p j).
Proof. unfold name_char. calm. Qed.
Hint Resolve calm_name_char : calm.
Lemma calm_name_copy n p d j : calm (name_copy n p d j).
Proof. revert j. induction n as [|n IH]; intros j; simpl; calm. Qed.
Hint Resolve calm_name_copy : calm.
Lemma calm_fill d t : calm (fill_thread_info d t).
Proof. unfold fill_thread_info. calm. Qed.
Hint Resolve calm_fill : calm.
Lemma calm_list_loop n i u m c : 0 <= i -> i + Z.of_nat n <= THREAD_MAX -> calm (list_loop n i u m c).
Proof.
  revert i c. induction n as [|n IH]; intros i c H0 Hn; simpl; [apply calm_ret|].
  destruct (m <=? c); [apply calm_ret|]. apply calm_bind; [apply calm_get_thread; split; lia|].
  intros t. destruct (state_eqb _ _); [apply IH; lia|].
  apply calm_bind; [apply calm_fill|]. intros _. apply IH; lia.
Qed.
Lemma calm_list u m : calm (thread_sys_list u m).
Proof.
  unfold thread_sys_list. destruct (_ || _); [apply calm_ret|]. by apply calm_list_loop.
Qed.

(** *** Diagnostics *)
Lemma calm_backtrace n d fp lo hi : calm (backtrace_loop n d fp lo hi).
Proof. revert d fp. induction n as [|n IH]; intros d fp; simpl; calm. Qed.

End calm_code.

#[export] Hint Resolve calm_csr_read calm_csr_upd calm_sbi calm_mmio_r calm_mmio_w calm_get_plat
  calm_get_core calm_hartid calm_uart_r calm_uart_w calm_putc calm_put_text calm_cbuf_char
  calm_uart_write calm_puts calm_w32 calm_r32 calm_ensure_base calm_plic_init calm_set_priority
  calm_update_enable calm_claim calm_complete calm_write calm_write_bytes calm_platform_putc
  calm_platform_puts calm_put_dec calm_put_hex64 calm_timebase calm_start_at calm_start_after
  calm_time_now calm_sched_delta calm_rtc calm_get_irq calm_get_stat calm_get_name calm_set_irq
  calm_set_stat calm_set_name calm_get_stats calm_sys_write calm_clock_gettime
  calm_irqstats_copy calm_irq_get_stats calm_con_get calm_console_push calm_console_read
  calm_name_char calm_backtrace calm_list : calm.
