(* ===== verification/Within.v ===== *)
(** * What a piece of code never touches

    [within R m]: whenever [m] returns, the states before and after are related
    by [R].  For a preorder [R] this is a property of the shape of the code: it
    holds of a program whose every update is a step of [R].  It is used with
    [devices_kept]: the scheduler never touches the console ring and the
    platform's tables. *)
From stdpp Require Import base numbers list gmap strings.
From Stdlib Require Import ZArith Lia.
From S2P Require Import Prelude Mem Machine State Kernel Image RunQueue Smp Thread.

Local Open Scope Z_scope.

Section within.
Context {S : Type} (R : relation S) `{!PreOrder R}.

Definition within {A} (m : M S A) : Prop :=
  forall s a s', m s = Ret (a, s') -> R s s'.

Lemma within_ret {A} (a : A) : within (ret a).
Proof using All. intros s a' s' [= _ <-]. done. Qed.
Lemma within_bind {A B} (m : M S A) (k : A -> M S B) :
  within m -> (forall a, within (k a)) -> within (bind m k).
Proof using All.
  intros Hm Hk s b s2. unfold bind. destruct (m s) as [[a s1]| | |] eqn:E; [|done..].
  intros E2. exact (transitivity (Hm _ _ _ E) (Hk _ _ _ _ E2)).
Qed.
Lemma within_gets {A} (f : S -> A) : within (gets f).
Proof using All. intros s a' s' [= _ <-]. done. Qed.
Lemma within_modify (f : S -> S) : (forall s, R s (f s)) -> within (modify f).
Proof. intros Hf s a' s' [= _ <-]. done. Qed.
Lemma within_when b (m : M S unit) : within m -> within (when b m).
Proof using All. destruct b; [done|]. intros _. apply within_ret. Qed.
Lemma within_undefined {A} : within (undefined (A := A)).
Proof. done. Qed.
Lemma within_panic {A} : within (panic_halt (A := A)).
Proof. done. Qed.
Lemma within_diverge {A} : within (diverge (A := A)).
Proof. done. Qed.
Lemma within_for_z n i (body : Z -> M S unit) :
  (forall j, within (body j)) -> within (for_z n i body).
Proof using All.
  intros Hb. revert i. induction n as [|n IH]; intros i; simpl; [apply within_ret|].
  apply within_bind; [done|]. intros _. apply IH.
Qed.
Lemma within_loop {A} n (body : M S (option A)) : within body -> within (loop n body).
Proof using All.
  intros Hb. induction n as [|n IH]; simpl; [apply within_diverge|].
  apply within_bind; [done|]. intros [a|]; [apply within_ret|done].
Qed.

(** A fact about a run together with what the run leaves alone. *)
Lemma wp_within {A} (m : M S A) Q s :
  within m -> wp m Q s -> wp m (fun a s' => Q a s' /\ R s s') s.
Proof.
  unfold wp. intros Hw. destruct (m s) as [[a s']| | |] eqn:E; try done.
  intros HQ. split; [done|]. by eapply Hw.
Qed.

End within.

Create HintDb within.
#[export] Hint Resolve within_ret within_gets within_undefined within_panic within_diverge : within.

Ltac within_step :=
  lazymatch goal with
  | |- within _ (bind _ _) => apply within_bind; [try apply _..| |intros ?]
  | |- within _ (when _ _) => apply within_when; [try apply _..|]
  | |- within _ (loop _ _) => apply within_loop; [try apply _..|]
  | |- within _ (for_z _ _ _) => apply within_for_z; [try apply _..|intros ?]
  | |- within _ (if ?b then _ else _) => destruct b
  | |- within _ (match ?x with _ => _ end) => destruct x
  | |- within _ (gets _) => apply within_gets; apply _
  | |- within _ (ret _) => apply within_ret; apply _
  | |- within _ (core _) => apply within_gets; apply _
  | |- within _ _ => solve [eauto with within]
  end; cbv beta zeta.
Ltac within := cbv beta zeta; repeat within_step.

Section devices.
Context {cfg : Config} {hws : Hardware}.

Definition devices_kept (s s' : kstate) : Prop :=
  k_con s' = k_con s /\ k_plat s' = k_plat s.

#[export] Instance devices_kept_preorder : PreOrder devices_kept.
Proof.
  split; [done|]. intros s1 s2 s3 [A1 A2] [B1 B2]. split; congruence.
Qed.
End devices.

#[export] Existing Instance devices_kept_preorder.

Notation keeps_devices := (within devices_kept).

Section devices_code.
Context {cfg : Config} {hws : Hardware}.

Lemma kd_get_thread i : keeps_devices (get_thread i).
Proof. intros s a s'. unfold get_thread. destruct (thr s i); [|done]. by intros [= _ <-]. Qed.
Lemma kd_upd_thread i f : keeps_devices (upd_thread i f).
Proof. intros s a s'. unfold upd_thread. destruct (thr s i); [|done]. by intros [= _ <-]. Qed.
Lemma kd_get_cpu i : keeps_devices (get_cpu i).
Proof. intros s a s'. unfold get_cpu. destruct (cpu s i); [|done]. by intros [= _ <-]. Qed.
Lemma kd_upd_cpu i f : keeps_devices (upd_cpu i f).
Proof. intros s a s'. unfold upd_cpu. destruct (cpu s i); [|done]. by intros [= _ <-]. Qed.
Lemma kd_get_rq i : keeps_devices (get_rq i).
Proof. intros s a s'. unfold get_rq. destruct (rqs s i); [|done]. by intros [= _ <-]. Qed.
Lemma kd_upd_rq i f : keeps_devices (upd_rq i f).
Proof. intros s a s'. unfold upd_rq. destruct (rqs s i); [|done]. by intros [= _ <-]. Qed.
Lemma kd_upd_core f : keeps_devices (upd_core f).
Proof. by apply within_modify. Qed.
Lemma kd_upd_umem f : keeps_devices (upd_umem f).
Proof. by apply within_modify. Qed.
Lemma kd_upd_trp f : keeps_devices (upd_trp f).
Proof. by apply within_modify. Qed.
Lemma kd_pr l m : keeps_devices (pr l m).
Proof. by apply within_modify. Qed.
Lemma kd_on_hw {A} (f : dev -> A * dev) : keeps_devices (on_hw f).
Proof. intros s a s'. unfold on_hw. destruct (f (k_hw s)). by intros [= _ <-]. Qed.
Hint Resolve kd_get_thread kd_upd_thread kd_get_cpu kd_upd_cpu kd_get_rq kd_upd_rq kd_upd_core
  kd_upd_umem kd_upd_trp kd_pr kd_on_hw : within.

Lemma kd_cpu_this : keeps_devices cpu_this.
Proof. unfold cpu_this. within. Qed.
Lemma kd_upd_cpu_this f : keeps_devices (upd_cpu_this f).
Proof. unfold upd_cpu_this. within. Qed.
Hint Resolve kd_cpu_this kd_upd_cpu_this : within.
Lemma kd_hartid : keeps_devices cpu_current_hartid.
Proof. unfold cpu_current_hartid. within. Qed.
Lemma kd_current_tid : keeps_devices current_tid_get.
Proof. unfold current_tid_get. within. Qed.
Lemma kd_csr_read c : keeps_devices (csr_read c).
Proof. unfold csr_read. within. Qed.
Lemma kd_csr_upd c op v : keeps_devices (csr_upd c op v).
Proof. unfold csr_upd. within. Qed.
Lemma kd_sbi_call e f l : keeps_devices (sbi_call e f l).
Proof. unfold sbi_call. within. Qed.
Lemma kd_get_tf p : keeps_devices (get_tf p).
Proof. unfold get_tf. within. Qed.
Lemma kd_upd_tf p f : keeps_devices (upd_tf p f).
Proof. unfold upd_tf. within. Qed.
Lemma kd_set_a0 p v : keeps_devices (set_a0 p v).
Proof. apply kd_upd_tf. Qed.
Lemma kd_ASSERT b m : keeps_devices (ASSERT b m).
Proof. unfold ASSERT, PANICF, pr_err. within. Qed.
Hint Resolve kd_hartid kd_current_tid kd_csr_read kd_csr_upd kd_sbi_call kd_get_tf kd_upd_tf
  kd_set_a0 kd_ASSERT : within.

(** *** Run queues *)
Lemma kd_push h i : keeps_devices (rq_push_tail h i).
Proof. unfold rq_push_tail. within. Qed.
Lemma kd_pop h : keeps_devices (rq_pop_head h).
Proof. unfold rq_pop_head, rq_len_dec. within. Qed.
Lemma kd_len h : keeps_devices (rq_len h).
Proof. unfold rq_len. within. Qed.
Lemma kd_unlink h p c : keeps_devices (rq_unlink h p c).
Proof. unfold rq_unlink, rq_len_dec. within. Qed.
Hint Resolve kd_push kd_pop kd_len kd_unlink : within.
Lemma kd_remove h i : keeps_devices (rq_remove h i).
Proof.
  assert (H : forall n p c, keeps_devices (rq_remove_loop n h i p c)).
  { induction n as [|n IH]; intros p c; simpl; within. }
  unfold rq_remove. within.
Qed.
Hint Resolve kd_remove : within.
Lemma kd_remove_any i : keeps_devices (rq_remove_any i).
Proof.
  assert (H : forall n h, keeps_devices (rq_remove_any_loop n h i)).
  { induction n as [|n IH]; intros h; simpl; within. }
  unfold rq_remove_any. within.
Qed.
Lemma kd_snapshot h d n : keeps_devices (rq_snapshot h d n).
Proof.
  assert (H : forall f c k m l, keeps_devices (rq_snapshot_loop f c k m l)).
  { induction f as [|f IH]; intros c k m l; simpl; unfold dst_write; within. }
  unfold rq_snapshot, dst_write. within.
Qed.
Hint Resolve kd_remove_any kd_snapshot : within.

(** *** Threads *)
Lemma kd_kick h : keeps_devices (smp_kick_hart h).
Proof. unfold smp_kick_hart, sbi_send_ipi, pr_warn. within. Qed.
Lemma kd_pick i h : keeps_devices (sched_pick_target_hart i h).
Proof.
  assert (H : forall n h b l o, keeps_devices (pick_loop n h b l o)).
  { induction n as [|n IH]; intros h' b l o; simpl; within. }
  unfold sched_pick_target_hart. within.
Qed.
Hint Resolve kd_kick kd_pick : within.
Lemma kd_make_runnable i h : keeps_devices (thread_make_runnable i h).
Proof. unfold thread_make_runnable. within. Qed.
Lemma kd_recycle i : keeps_devices (recycle_thread i).
Proof. unfold recycle_thread. within. Qed.
Hint Resolve kd_make_runnable kd_recycle : within.
Lemma kd_schedule tf : keeps_devices (schedule tf).
Proof.
  unfold schedule, sched_depart, sched_dispatch, schedule_pick, thread_mark_running,
    thread_mark_not_running. within.
Qed.
Lemma kd_tick : keeps_devices threads_tick.
Proof. unfold threads_tick, tick_one. within. Qed.
Hint Resolve kd_schedule kd_tick : within.
Lemma kd_wake_joiner i c : keeps_devices (wake_joiner i c).
Proof. unfold wake_joiner. within. Qed.
Lemma kd_wake i : keeps_devices (thread_wake i).
Proof. unfold thread_wake. within. Qed.
Hint Resolve kd_wake_joiner kd_wake : within.
Lemma kd_create e a n : keeps_devices (thread_create_user_named e a n).
Proof.
  assert (H : forall m i, keeps_devices (alloc_loop m i)).
  { induction m as [|k IH]; intros i; simpl; within. }
  unfold thread_create_user_named, alloc_thread_slot, init_thread_context_u. within.
Qed.
Hint Resolve kd_create : within.
Lemma kd_block tf : keeps_devices (thread_block tf).
Proof. unfold thread_block. within. Qed.
Hint Resolve kd_block : within.
Lemma kd_sys_sleep tf n : keeps_devices (thread_sys_sleep tf n).
Proof. unfold thread_sys_sleep. within. Qed.
Lemma kd_sys_create tf e a n : keeps_devices (thread_sys_create tf e a n).
Proof. unfold thread_sys_create, thread_create_user. within. Qed.
Lemma kd_sys_exit tf c : keeps_devices (thread_sys_exit tf c).
Proof. unfold thread_sys_exit. within. Qed.
Lemma kd_sys_join tf i p : keeps_devices (thread_sys_join tf i p).
Proof. unfold thread_sys_join. within. Qed.
Lemma kd_sys_kill tf i : keeps_devices (thread_sys_kill tf i).
Proof. unfold thread_sys_kill. within. Qed.
Lemma kd_sys_detach tf i : keeps_devices (thread_sys_detach tf i).
Proof. unfold thread_sys_detach. within. Qed.
Lemma kd_wait_stdin b n tf : keeps_devices (thread_wait_for_stdin b n tf).
Proof. unfold thread_wait_for_stdin, thread_current. within. Qed.

End devices_code.

#[export] Hint Resolve kd_sys_sleep kd_sys_create kd_sys_exit kd_sys_join kd_sys_kill
  kd_sys_detach kd_wait_stdin kd_schedule kd_wake kd_tick kd_set_a0 kd_upd_thread kd_upd_core
  kd_upd_cpu_this kd_upd_tf kd_get_tf kd_csr_upd kd_get_cpu : within.
