(* ===== verification/Syscalls.v ===== *)
(** * The trap handlers keep the kernel's invariant

    [serves m]: whatever hart executes [m], with whatever thread, [m] neither
    panics nor performs an undefined access, and when it returns the invariant
    holds and the hart is running a thread. *)
From stdpp Require Import base numbers list gmap strings.
From Stdlib Require Import ZArith Lia.
From S2P Require Import Prelude Mem Machine State Kernel Image RunQueue Smp Thread Uart Plic Platform Console Irq Sysfile Trap Invariant ThreadSpec SchedSpec ThreadOps ThreadKill ThreadCreate Snapshot Quiet Within.

Local Open Scope Z_scope.

Section serves.
Context {cfg : Config} {hws : Hardware} {dt : DeviceTree}.
Implicit Types (s : kstate) (q : Z -> list Z) (c : cpu_t) (t u : Thread).

(** The devices' tables are in range, and the device tree is known. *)
Definition devs_ok s : Prop :=
  (plat_ok (k_plat s) /\ con_ok (k_con s)) /\ p_g_dtb (k_plat s) <> 0.

Definition served s s' : Prop := kept s s' /\ devs_ok s'.

Definition serves {A} (m : M kstate A) : Prop :=
  forall s q c t, running s q c t -> devs_ok s -> wnp m (fun _ s' => served s s') s.

Lemma inv_tabs X s q : inv_x X s q -> tabs_ok s.
Proof.
  intros Hi. split; [intros i; apply (ix_thr_dom _ _ _ Hi)|].
  split; [intros h; apply (ix_cpu_dom _ _ _ Hi)|].
  split; [|apply (ix_tp _ _ _ Hi)].
  intros h Hh. destruct (queues_rep _ _ (ix_queues _ _ _ Hi) h Hh) as (r & Hr & _). eauto.
Qed.

Lemma running_good s q c t : running s q c t -> devs_ok s -> good s.
Proof.
  intros [Hi _ _ _] [[Hp Hc] _]. split; [done|]. split; [done|]. by eapply inv_tabs.
Qed.

Lemma side_running s s' q c t : side s s' -> running s q c t -> running s' q c t.
Proof.
  intros [E1 E2 _ _ _] [Hi Hc Hl Ht]. split; try done.
  - by apply (inv_x_state none s).
  - unfold cpu. by rewrite E1, E2.
  - unfold thr. by rewrite E1.
Qed.

Lemma side_served s s' q c t : side s s' -> running s q c t -> devs_ok s -> served s s'.
Proof.
  intros Hs Hr Hd. pose proof (side_running _ _ _ _ _ Hs Hr) as Hr'.
  destruct (sd_good _ _ Hs (running_good _ _ _ _ Hr Hd)) as (? & ? & _).
  split; [|by split; [|rewrite (sd_dtb _ _ Hs); apply Hd]]. eapply kept_running_trans; [done|apply Hs|apply Hs].
Qed.

Lemma served_refl s q c t : running s q c t -> devs_ok s -> served s s.
Proof. intros Hr Hd. split; [by eapply kept_refl|done]. Qed.
Lemma served_trans s1 s2 s3 : served s1 s2 -> served s2 s3 -> served s1 s3.
Proof. intros [K1 _] [K2 D2]. split; [by eapply kept_trans|done]. Qed.

(** ** Composition *)

Lemma serves_calm {A} (m : M kstate A) : calm m -> serves m.
Proof.
  intros Hm s q c t Hr Hd. eapply wnp_mono; [apply Hm; by eapply running_good|].
  intros a s' Hs. by eapply side_served.
Qed.
Lemma serves_after {A B} (m : M kstate A) (k : A -> M kstate B) s :
  wnp m (fun a s' => served s s' /\ serves (k a)) s -> wnp (bind m k) (fun _ s' => served s s') s.
Proof.
  intros Hm. apply wnp_bind. eapply wnp_mono; [exact Hm|]. intros a s1 [[K1 D1] Hk].
  destruct (kept_running _ _ K1) as (q1 & c1 & t1 & Hr1).
  eapply wnp_mono; [by eapply Hk|]. intros b s2 H2. by eapply served_trans.
Qed.
Lemma serves_bind {A B} (m : M kstate A) (k : A -> M kstate B) :
  serves m -> (forall a, serves (k a)) -> serves (bind m k).
Proof.
  intros Hm Hk s q c t Hr Hd. apply serves_after. eapply wnp_mono; [by eapply Hm|]. auto.
Qed.
Lemma serves_loop {A} fuel (body : M kstate (option A)) : serves body -> serves (loop fuel body).
Proof.
  intros Hb s q c t Hr Hd. apply (wnp_loop (fun s' => served s s')); [by eapply served_refl|].
  intros s1 [K1 D1]. destruct (kept_running _ _ K1) as (q1 & c1 & t1 & Hr1).
  eapply wnp_mono; [by eapply Hb|].
  intros [a|] s2 H2; (eapply served_trans; [split; [exact K1|exact D1]|exact H2]).
Qed.

(** A total operation of the scheduler. *)
Lemma serve_wp {A} (m : M kstate A) s (P : A -> kstate -> Prop) :
  devs_ok s -> keeps_devices m -> wp m (fun a s' => kept s s' /\ P a s') s ->
  wnp m (fun _ s' => served s s') s.
Proof.
  intros Hd Hw Hm. apply wp_wnp. eapply wp_mono; [apply (wp_within devices_kept _ _ _ Hw Hm)|].
  intros a s' [[Hk _] [E1 E2]]. split; [done|]. unfold devs_ok. by rewrite E1, E2.
Qed.

(** A result put in the caller's [a0]. *)
Lemma serve_result {A} (m : M kstate A) (f : A -> Z) s q c t :
  running s q c t -> devs_ok s -> calm m ->
  wnp (r <- m ;; set_a0 (c_cur_tf c) (f r)) (fun _ s' => served s s') s.
Proof.
  intros Hr Hd Hm. apply wnp_bind. eapply wnp_mono; [apply Hm; by eapply running_good|].
  intros r s1 Hs. pose proof (side_running _ _ _ _ _ Hs Hr) as Hr1.
  pose proof (side_served _ _ _ _ _ Hs Hr Hd) as [K1 D1].
  eapply wnp_mono; [eapply serve_wp; [exact D1|apply kd_set_a0|by apply (running_set_a0 s1 q c t)]|].
  intros [] s2 H2. eapply served_trans; [split; [exact K1|exact D1]|done].
Qed.

(** ** Input *)

Lemma serves_upd_thread i f :
  tid_ok i -> (forall t, skel (f t) = skel t) -> serves (upd_thread i f).
Proof.
  intros Hi Hf s q c t Hr Hd. pose proof Hr as [Hx _ _ _].
  apply (ix_thr_dom _ _ _ Hx) in Hi as [u Hu]. apply wp_wnp. eapply wp_upd_thread; [done|].
  split; [by eapply kept_thread|done].
Qed.

Lemma serves_stdin v : -1 <= v < THREAD_MAX -> serves (upd_core (g_set_stdin_waiter v)).
Proof.
  intros Hv s q c t Hr Hd. pose proof Hr as [Hi Hc Hl Ht]. apply wnp_modify. split; [|done].
  eapply kept_inv; try done. by apply inv_x_core.
Qed.

Lemma serves_wake i : serves (thread_wake i).
Proof.
  intros s q c t Hr Hd.
  eapply (serve_wp _ _ (fun _ _ => True)); [done|apply kd_wake|].
  eapply wp_mono; [by apply (thread_wake_spec s q c t i)|].
  intros [] s' H. split; [|done]. destruct (thr s i) as [u|]; [|subst; by eapply kept_refl].
  destruct (decide _); [|subst; by eapply kept_refl].
  destruct H as ((q' & Hi') & Hf & _). by eapply kept_frame.
Qed.

Lemma serves_stdin_get {A} (k : Z -> M kstate A) :
  (forall w, -1 <= w < THREAD_MAX -> serves (k w)) -> serves (w <- core g_stdin_waiter ;; k w).
Proof.
  intros Hk s q c t Hr Hd. apply wnp_bind, wnp_gets. pose proof Hr as [Hi _ _ _].
  eapply Hk; [by apply (ix_stdin _ _ _ Hi)|done|done].
Qed.

Lemma serves_ret {A} (a : A) : serves (ret a).
Proof. apply serves_calm, calm_ret. Qed.

Lemma serves_read_stdin s q c t :
  running s q c t -> devs_ok s -> 0 <= g_stdin_waiter (k_core s) ->
  wnp (thread_read_from_stdin console_read_nonblock) (fun _ s' => served s s') s.
Proof.
  intros Hr Hd H0. pose proof Hr as [Hi _ _ _]. unfold thread_read_from_stdin.
  apply wnp_bind, wnp_gets. set (w := g_stdin_waiter (k_core s)) in *.
  assert (Hw : tid_ok w) by (pose proof (ix_stdin _ _ _ Hi); split; unfold w in *; lia).
  enough (Hs : serves (t <- get_thread w ;;
    (if (t_pending_read_buf t =? 0) || (t_pending_read_len t =? 0)
     then w' <- core g_stdin_waiter ;; thread_wake w'
     else n <- console_read_nonblock (t_pending_read_buf t) (t_pending_read_len t) ;;
       if n <=? 0 then ret tt else
       upd_thread w (fun t => t_set_tf (f_set_a0 (u64 n) (t_tf t)) t) ;;
       upd_thread w (fun t => t_set_pending_read_len 0 (t_set_pending_read_buf 0 t)) ;;
       w' <- core g_stdin_waiter ;; thread_wake w'))) by (by eapply Hs).
  apply serves_bind; [by apply serves_calm, calm_get_thread|]. intros u.
  assert (Hwk : serves (w' <- core g_stdin_waiter ;; thread_wake w')).
  { apply serves_stdin_get. intros; apply serves_wake. }
  destruct (_ || _); [done|].
  apply serves_bind; [apply serves_calm, calm_console_read|]. intros n.
  destruct (n <=? 0); [apply serves_ret|].
  apply serves_bind; [by apply serves_upd_thread|]. intros _.
  apply serves_bind; [by apply serves_upd_thread|]. intros _. done.
Qed.

Lemma serves_on_char ch : serves (console_on_char_from_irq ch).
Proof.
  unfold console_on_char_from_irq.
  apply serves_bind; [apply serves_calm, calm_console_push|]. intros _ s q c t Hr Hd.
  apply wnp_bind, wnp_gets. case_if; [apply wnp_ret; by eapply served_refl|].
  apply serves_after. eapply wnp_mono; [by eapply serves_read_stdin|].
  intros [] s' H. split; [done|]. apply serves_stdin. unfold THREAD_MAX. lia.
Qed.

(** ** External interrupts *)

Lemma serves_drain : serves uart_drain_rx.
Proof.
  unfold uart_drain_rx, uart_lsr_read, uart_rbr_read. apply serves_loop.
  apply serves_bind; [apply serves_calm, calm_uart_r|]. intros l.
  destruct (_ =? 0); [apply serves_ret|].
  apply serves_bind; [apply serves_calm, calm_uart_r|]. intros ch.
  apply serves_bind; [apply serves_on_char|]. intros _. apply serves_ret.
Qed.

Lemma serves_uart_irq i a : serves (uart16550_irq_handler i a).
Proof.
  unfold uart16550_irq_handler, uart_iir_read. apply serves_loop.
  apply serves_bind; [apply serves_calm, calm_uart_r|]. intros iir.
  destruct (negb _); [apply serves_ret|].
  apply serves_bind; [|intros _; apply serves_ret].
  unfold uart_handle_iir. destruct (_ || _); [apply serves_drain|].
  apply serves_calm. unfold uart_lsr_read, uart_msr_read. calm.
Qed.

Lemma serves_one_irq i : 0 <= i -> serves (handle_one_irq i).
Proof.
  intros H0. unfold handle_one_irq.
  apply serves_bind; [apply serves_calm, calm_time_now|]. intros now.
  assert (Hr : (i <? MAX_IRQ) = true -> 0 <= i < MAX_IRQ) by (intros; bool_facts; lia).
  apply serves_bind.
  { apply serves_calm. destruct (i <? MAX_IRQ) eqn:E; simpl; [|apply calm_ret].
    apply calm_bind; [by apply calm_get_stat, Hr|]. intros st. by apply calm_set_stat, Hr. }
  intros _. apply serves_bind.
  { apply serves_calm. destruct (i <? MAX_IRQ) eqn:E; [by apply calm_get_irq, Hr|apply calm_ret]. }
  intros e. apply serves_bind; [|intros _; apply serves_calm, calm_complete].
  destruct (ie_handler e) as [[]|]; [apply serves_uart_irq|apply serves_calm, calm_platform_puts].
Qed.

Lemma claim_range s : good s -> wnp plic_claim (fun i s' => side s s' /\ 0 <= i) s.
Proof.
  intros Hg. unfold plic_claim. apply wnp_bind. eapply wnp_mono; [by apply calm_ensure_base|].
  intros [] s1 H1. apply wnp_bind, wnp_gets.
  destruct (_ =? 0); [apply wnp_ret; split; [done|lia]|].
  apply wnp_bind. eapply wnp_mono; [apply calm_hartid; by apply H1|]. intros h s2 H2.
  pose proof (transitivity H1 H2) as H12. unfold r32. apply wnp_bind, wnp_gets, wnp_bind.
  eapply wnp_mono; [apply calm_mmio_r; by apply H12|]. intros v s3 H3. apply wnp_ret.
  split; [exact (transitivity H12 H3)|]. pose proof (u32_range v). lia.
Qed.

Lemma serves_external tf : serves (platform_handle_s_external tf).
Proof.
  unfold platform_handle_s_external. apply serves_loop. intros s q c t Hr Hd.
  apply serves_after. eapply wnp_mono; [apply claim_range; by eapply running_good|].
  intros i s1 [H1 H0]. split; [by eapply side_served|].
  destruct (i =? 0); [apply serves_ret|].
  apply serves_bind; [by apply serves_one_irq|]. intros _. apply serves_ret.
Qed.

End serves.
