(* ===== verification/TrapSpec.v ===== *)
(** * The trap entry

    Every trap the kernel handles leaves its invariant in place, the big lock
    free, and the hart on the frame of the thread it is now running. *)
From stdpp Require Import base numbers list gmap strings.
From Stdlib Require Import ZArith Lia.
From S2P Require Import Prelude Mem Machine State Kernel Image RunQueue Smp Thread Uart Plic Platform Console Irq Sysfile Trap Invariant ThreadSpec SchedSpec ThreadOps ThreadKill ThreadCreate Snapshot Quiet Within Syscalls.

Local Open Scope Z_scope.

Section trap_spec.
Context {cfg : Config} {hws : Hardware} {dt : DeviceTree}.
Implicit Types (s : kstate) (q : Z -> list Z) (c : cpu_t) (t u : Thread) (f : trapframe).

(** ** Interrupts *)

Lemma running_cpu s q c t c' :
  running s q c t -> cpu_same c c' -> running (with_cpu (k_tp s) c' s) q c' t.
Proof.
  intros [Hi Hc Hl Ht] E. pose proof (cpu_same_live _ _ E) as El. split.
  - by eapply inv_x_cpu_same.
  - apply cpu_with_cpu_eq.
  - by apply El.
  - destruct E as (_ & _ & _ & -> & _). done.
Qed.

(** A handler under way: it began in [s0] and still runs thread [c_current_tid c]. *)
Record going s0 s q c t : Prop := {
  go_served : served s0 s;
  go_run : running s q c t
}.

Lemma going_start s q c t : running s q c t -> devs_ok s -> going s s q c t.
Proof. intros Hr Hd. split; [by eapply served_refl|done]. Qed.

Lemma wnp_going_served {A} s0 s q c t (m : M kstate A) :
  going s0 s q c t -> wnp m (fun _ s' => served s s') s -> wnp m (fun _ s' => served s0 s') s.
Proof. intros [S _] H. eapply wnp_mono; [exact H|]. intros a s' S'. by eapply served_trans. Qed.

Lemma wnp_going_calm {A} s0 s q c t (m : M kstate A) (Q : A -> kstate -> Prop) :
  going s0 s q c t -> calm m -> (forall a s', going s0 s' q c t -> Q a s') -> wnp m Q s.
Proof.
  intros [S Hr] Hm HQ. eapply wnp_mono; [apply Hm; by eapply running_good, S|].
  intros a s' H. apply HQ. split; [|by apply (side_running s)].
  eapply served_trans; [exact S|]. eapply side_served; [done|exact Hr|apply S].
Qed.

Lemma wnp_going_cpu s0 s q c t (g : cpu_t -> cpu_t) (Q : unit -> kstate -> Prop) :
  going s0 s q c t -> cpu_same c (g c) ->
  (forall s', going s0 s' q (g c) t -> Q tt s') -> wnp (upd_cpu_this g) Q s.
Proof.
  intros [S Hr] E HQ. pose proof (running_cpu _ _ _ _ _ Hr E) as Hr'.
  apply wp_wnp. eapply wp_upd_cpu_this; [apply Hr|]. apply HQ. split; [|done].
  eapply served_trans; [exact S|]. split; [by apply (kept_running_trans s _ q (g c) t Hr')|apply S].
Qed.

Lemma wnp_going_this s0 s q c t (Q : cpu_t -> kstate -> Prop) :
  going s0 s q c t -> Q c s -> wnp cpu_this Q s.
Proof. intros [_ [_ Hc _ _]] HQ. apply wp_wnp. by eapply wp_cpu_this. Qed.

Lemma going_schedule s0 s q c t :
  going s0 s q c t -> wnp (schedule (c_cur_tf c) ;; ret tt) (fun _ s' => served s0 s') s.
Proof.
  intros Hg. pose proof Hg as [S Hr]. apply (wnp_going_served s0 s q c t); [done|].
  apply wnp_bind. eapply wnp_mono.
  - eapply serve_wp; [apply S|apply kd_schedule|by eapply schedule_switch].
  - intros r s' H. by apply wnp_ret.
Qed.

Lemma serve_ipi s q c t :
  running s q c t -> devs_ok s ->
  wnp (sched_on_ipi_irq (c_cur_tf c)) (fun _ s' => served s s') s.
Proof.
  intros Hr Hd. unfold sched_on_ipi_irq. apply wnp_bind.
  apply (wnp_going_calm s s q c t); [by apply going_start|apply calm_csr_upd|]. intros [] s1 G1.
  apply wnp_bind, (wnp_going_cpu s s1 q c t); [done|done|]. intros s2 G2.
  exact (going_schedule s s2 q _ t G2).
Qed.

(** The clock tick on the hart that keeps the time. *)
Lemma wnp_going_tick (b : bool) s0 s q c t (Q : unit -> kstate -> Prop) :
  going s0 s q c t ->
  (forall s' q' c' t', going s0 s' q' c' t' -> c_cur_tf c' = c_cur_tf c -> Q tt s') ->
  wnp (when b threads_tick) Q s.
Proof.
  intros [S Hr] HQ. destruct b; [simpl|by apply wnp_ret, (HQ s q c t)]. apply wp_wnp.
  eapply wp_mono; [apply (wp_within devices_kept _ _ _ kd_tick (threads_tick_spec s q c t Hr))|].
  intros [] s' [[Hk Hkept] [E1 E2]]. destruct Hk as [[q' Hi'] Hf _ _].
  set (s1 := k_set_core (g_set_ticks (u64 (g_ticks (k_core s) + 1)) (k_core s)) s) in *.
  assert (Hr1 : running s1 q c t).
  { destruct Hr as [Hi Hc Hl Ht]. split; try done. apply inv_x_core; try done.
    apply (ix_stdin _ _ _ Hi). }
  destruct (running_facts _ _ _ _ Hr1) as (_ & _ & _ & _ & _ & _ & _ & _ & Hst).
  destruct (frame_running_after s1 s' q q' c t _ Hr1 Hi' Hf) as (c' & t' & Hr' & _ & E & _).
  - intros (u & Hu & Hdue). rewrite (rn_thr _ _ _ _ Hr1) in Hu. injection Hu as <-.
    apply due_true in Hdue as [Hs _]. destruct Hst as [Hst|Hst]; by rewrite Hst in Hs.
  - apply (HQ s' q' c' t'); [|done]. split; [|done]. eapply served_trans; [exact S|].
    split; [done|]. unfold devs_ok. rewrite E1, E2. apply S.
Qed.

Lemma serve_timer s q c t :
  running s q c t -> devs_ok s ->
  wnp (sched_on_timer_irq (c_cur_tf c)) (fun _ s' => served s s') s.
Proof.
  intros Hr Hd. unfold sched_on_timer_irq, sched_rearm_timer.
  apply wnp_bind, (wnp_going_cpu s s q c t); [by apply going_start|done|].
  set (c1 := c_set_timer_irqs _ c). intros s1 G1.
  apply wnp_bind, (wnp_going_calm s s1 q c1 t); [done|calm|]. intros [] s2 G2.
  apply wnp_bind, (wnp_going_this s s2 q c1 t); [done|]. apply wnp_bind, wnp_gets.
  apply wnp_bind, (wnp_going_tick _ s s2 q c1 t); [done|]. intros s3 q3 c3 t3 G3 Ef3.
  set (c4 := if 0 <? c_slice_left c3 then c_set_slice_left (c_slice_left c3 - 1) c3 else c3).
  assert (E4 : cpu_same c3 c4) by (unfold c4; by destruct (0 <? _)).
  apply wnp_bind, (wnp_going_cpu s s3 q3 c3 t3); [done|exact E4|]. fold c4. intros s4 G4.
  apply wnp_bind, (wnp_going_this s s4 q3 c4 t3); [done|]. unfold when.
  destruct (_ =? 0); [|apply wnp_ret, G4].
  apply wnp_bind, (wnp_going_cpu s s4 q3 c4 t3); [done|done|]. intros s5 G5.
  set (c5 := c_set_slice_left SCHED_SLICE_TICKS c4) in *.
  apply wnp_bind, (wnp_going_cpu s s5 q3 c5 t3); [done|done|]. intros s6 G6.
  replace (c_cur_tf c) with (c_cur_tf (c_set_need_resched 0 c5)).
  - exact (going_schedule s s6 q3 _ t3 G6).
  - destruct E4 as (E4 & _). simpl. by rewrite E4, Ef3.
Qed.

Lemma wnp_get_tf s0 s q c t (Q : trapframe -> kstate -> Prop) :
  going s0 s q c t -> Q (t_tf t) s -> wnp (get_tf (c_cur_tf c)) Q s.
Proof.
  intros [_ Hr] HQ. destruct (running_facts _ _ _ _ Hr) as (_ & _ & _ & -> & _).
  apply wp_wnp, wp_bind. by eapply wp_get_thread; [apply Hr|].
Qed.

Lemma wnp_upd_tf s0 s q c t (g : trapframe -> trapframe) (Q : unit -> kstate -> Prop) :
  going s0 s q c t ->
  (forall s', s' = with_thread (c_current_tid c) (t_set_tf (g (t_tf t)) t) s ->
     going s0 s' q c (t_set_tf (g (t_tf t)) t) -> Q tt s') ->
  wnp (upd_tf (c_cur_tf c) g) Q s.
Proof.
  intros [S Hr] HQ. destruct (running_facts _ _ _ _ Hr) as (_ & _ & _ & -> & _).
  apply wp_wnp. eapply wp_upd_thread; [apply Hr|]. apply HQ; [done|].
  assert (E : skel (t_set_tf (g (t_tf t)) t) = skel t) by done.
  pose proof (running_thread _ _ _ _ _ _ _ Hr (rn_thr _ _ _ _ Hr) E) as Hr'.
  rewrite decide_True in Hr' by done. split; [|done].
  eapply served_trans; [exact S|]. split; [|apply S]. eapply kept_thread; [exact Hr|apply Hr|done].
Qed.

Definition supported_irq (code : Z) : Prop :=
  code = IRQ_SOFT_S \/ code = IRQ_TIMER_S \/ code = IRQ_EXT_S.

Lemma serve_interrupt s q c t code :
  running s q c t -> devs_ok s -> supported_irq code ->
  wnp (handle_interrupt (c_cur_tf c) code) (fun _ s' => served s s') s.
Proof.
  intros Hr Hd [-> |[-> | ->]]; unfold handle_interrupt; simpl.
  - by apply (serve_ipi s q c t).
  - apply wnp_bind, wnp_gets. case_if; [|by apply (serve_timer s q c t)].
    apply wnp_bind, (wnp_going_calm s s q c t); [by apply going_start|calm|]. intros d s1 G1.
    apply wnp_bind, (wnp_going_calm s s1 q c t); [done|calm|]. intros [] s2 G2.
    apply wnp_bind, (wnp_going_calm s s2 q c t); [done|apply calm_trp|]. intros [] s3 G3.
    apply wnp_bind, (wnp_get_tf s s3 q c t); [done|]. apply wnp_bind, wnp_gets.
    unfold when. destruct (_ =? _); [|apply wnp_ret, G3].
    unfold advance_sepc. apply (wnp_upd_tf s s3 q c t); [done|]. intros s4 _ G4. apply G4.
  - by eapply serves_external.
Qed.

(** ** System calls *)

(** The frame a caller goes on with: behind the [ecall], the result in [a0]. *)
Definition returned_frame (f : trapframe) (v : Z) : trapframe :=
  f_set_a0 (u64 v) (f_set_sepc (u64 (f_sepc f + 4)) f).

(** [i] is not a thread that was killed while a hart was running it and has not
    left that hart yet. *)
Definition settled s (i : Z) : Prop :=
  forall u, thr s i = Some u -> t_state u = THREAD_ZOMBIE -> t_running_hart u = -1.
(** [i] is not blocked in [join]. *)
Definition not_joining s (i : Z) : Prop :=
  forall u, thr s i = Some u -> t_state u <> THREAD_WAITING.

(** The system calls the kernel serves without losing its invariant. *)
Definition syscall_ok s f : Prop :=
  SYS_SLEEP <= f_a0 f <= SYS_RUNQUEUE_SNAPSHOT /\
  (f_a0 f = SYS_THREAD_JOIN \/ f_a0 f = SYS_THREAD_DETACH -> settled s (s32 (f_a1 f))) /\
  (f_a0 f = SYS_THREAD_KILL -> not_joining s (s32 (f_a1 f))).

(** A thread that may make a system call: a user thread that was not killed. *)
Definition active c t : Prop := user_tid (c_current_tid c) /\ t_state t = THREAD_RUNNING.

Lemma going_wp {A} s0 s q c t (m : M kstate A) (P : A -> kstate -> Prop) :
  going s0 s q c t -> keeps_devices m -> wp m (fun a s' => kept s s' /\ P a s') s ->
  wnp m (fun _ s' => served s0 s') s.
Proof.
  intros Hg Hw Hm. apply (wnp_going_served s0 s q c t); [done|]. pose proof Hg as [S _].
  eapply serve_wp; [apply S|exact Hw|exact Hm].
Qed.

Lemma going_result {A} s0 s q c t (m : M kstate A) (g : A -> Z) :
  going s0 s q c t -> calm m ->
  wnp (r <- m ;; set_a0 (c_cur_tf c) (g r)) (fun _ s' => served s0 s') s.
Proof.
  intros Hg Hm. apply (wnp_going_served s0 s q c t); [done|]. pose proof Hg as [S Hr].
  apply (serve_result m g s q c t); [done|apply S|done].
Qed.

Lemma running_state s q c t g :
  running s q c t -> inv_x none (k_set_core g s) q -> g_threads g = g_threads (k_core s) ->
  g_cpus g = g_cpus (k_core s) -> running (k_set_core g s) q c t.
Proof.
  intros [Hi Hc Hl Ht] Hi' E1 E2. split; try done.
  - unfold cpu. simpl. by rewrite E2.
  - unfold thr. simpl. by rewrite E1.
Qed.

Lemma going_wait_stdin s0 s q c t b n :
  going s0 s q c t -> active c t ->
  wnp (thread_wait_for_stdin b n (c_cur_tf c)) (fun _ s' => served s0 s') s.
Proof.
  intros Hg [Hu Hst]. apply (wnp_going_served s0 s q c t); [done|]. destruct Hg as [S Hr].
  eapply (serve_wp _ _ (fun _ _ => True)); [apply S|apply kd_wait_stdin|].
  pose proof Hr as [Hi Hc Hl Ht].
  unfold thread_wait_for_stdin, thread_current, current_tid_get. wp_steps.
  set (t1 := t_set_pending_read_len n (t_set_pending_read_buf b t)).
  assert (E : skel t1 = skel t) by done.
  pose proof (running_thread _ _ _ _ _ _ _ Hr Ht E) as Hr1. rewrite decide_True in Hr1 by done.
  set (s1 := with_thread (c_current_tid c) t1 s) in *. set (g := g_set_stdin_waiter _ _).
  assert (Hid : t_id t1 = c_current_tid c).
  { by destruct (ix_base _ _ _ (rn_inv _ _ _ _ Hr1) _ _ (rn_thr _ _ _ _ Hr1)). }
  assert (Hr2 : running (k_set_core g s1) q c t1).
  { apply running_state; try done. apply inv_x_core; try done; [apply Hr1|].
    unfold g. simpl. change (t_id t) with (t_id t1). rewrite Hid.
    destruct Hu. pose proof MAX_HARTS_ok. lia. }
  eapply wp_mono; [by apply (thread_block_spec _ q c t1)|]. intros [] s' [Hk _]. split; [|done].
  eapply kept_trans; [|exact Hk]. by eapply (kept_running_trans s).
Qed.

Lemma going_read s0 s q c t fd b n :
  going s0 s q c t -> active c t ->
  wnp (r <- sys_read fd b n (c_cur_tf c) ;; when (snd r) (set_a0 (c_cur_tf c) (fst r)))
    (fun _ s' => served s0 s') s.
Proof.
  intros Hg Ha. unfold sys_read. destruct (negb _).
  - apply wnp_bind, wnp_ret. simpl. pose proof Hg as [_ Hr].
    eapply going_wp; [done|apply kd_set_a0|by apply (running_set_a0 s q c t)].
  - apply wnp_bind, wnp_bind, (wnp_going_calm s0 s q c t); [done|apply calm_console_read|].
    intros r s1 G1. destruct (0 <? r).
    + apply wnp_ret. simpl. pose proof G1 as [_ Hr1].
      eapply going_wp; [done|apply kd_set_a0|by apply (running_set_a0 s1 q c t)].
    + apply wnp_bind. eapply wnp_mono; [by apply (going_wait_stdin s0 s1 q c t)|].
      intros [] s2 S2. apply wnp_ret. simpl. by apply wnp_ret.
Qed.

(** The snapshot only writes user memory. *)
Lemma snapshot_umem s q b n :
  inv_x none s q -> wp (sys_runqueue_snapshot b n) (fun _ s' => exists m, s' = k_set_umem m s) s.
Proof.
  intros Hi. destruct (decide (0 <= n)) as [Hn|Hn].
  - eapply wp_mono; [by eapply sys_runqueue_snapshot_spec|]. intros r s' H.
    destruct (_ || _); destruct H as [_ ->]; [|by eexists].
    exists (k_umem s). by rewrite k_set_umem_id.
  - unfold sys_runqueue_snapshot. pose proof MAX_HARTS_ok.
    destruct (_ || _); [apply wp_ret; exists (k_umem s); by rewrite k_set_umem_id|].
    destruct (Z.to_nat MAX_HARTS) eqn:E; [lia|]. simpl. rewrite (proj2 (Z.leb_le n 0)) by lia.
    apply wp_ret. exists (k_umem s). by rewrite k_set_umem_id.
Qed.

Lemma going_snapshot s0 s q c t b n :
  going s0 s q c t ->
  wnp (r <- sys_runqueue_snapshot b n ;; set_a0 (c_cur_tf c) r) (fun _ s' => served s0 s') s.
Proof.
  intros [S Hr]. pose proof Hr as [Hi _ _ _].
  apply wnp_bind, wp_wnp. eapply wp_mono; [by apply (snapshot_umem s q)|]. intros r s1 [m ->].
  pose proof (running_umem s q c t m Hr) as Hr1.
  assert (G : going s0 (k_set_umem m s) q c t).
  { split; [|done]. eapply served_trans; [exact S|]. split; [|apply S].
    by apply (kept_running_trans s _ q c t Hr1). }
  eapply going_wp; [exact G|apply kd_set_a0|by apply (running_set_a0 _ q c t)].
Qed.

Lemma going_sleep s0 s q c t n :
  going s0 s q c t -> active c t ->
  wnp (thread_sys_sleep (c_cur_tf c) n) (fun _ s' => served s0 s') s.
Proof.
  intros Hg [Hu Hst]. pose proof Hg as [_ Hr]. destruct (decide (n = 0)) as [->|Hn].
  - eapply going_wp; [done|apply kd_sys_sleep|by eapply thread_sys_yield_spec].
  - eapply going_wp; [done|apply kd_sys_sleep|by eapply thread_sys_sleep_spec].
Qed.

Lemma going_exit s0 s q c t n :
  going s0 s q c t -> active c t ->
  wnp (thread_sys_exit (c_cur_tf c) n) (fun _ s' => served s0 s') s.
Proof.
  intros Hg [Hu Hst]. pose proof Hg as [_ Hr].
  eapply going_wp; [done|apply kd_sys_exit|by eapply thread_sys_exit_spec].
Qed.

(** Advancing the program counter leaves the guards of the call in force. *)
Lemma settled_tf s i k t t' :
  thr s i = Some t -> t_state t' = t_state t -> t_running_hart t' = t_running_hart t ->
  settled s k -> settled (with_thread i t' s) k.
Proof.
  intros Ht E1 E2 H u. rewrite thr_with_thread. case_decide; [|apply H].
  subst k. intros [= <-]. rewrite E1, E2. by apply H.
Qed.
Lemma not_joining_tf s i k t t' :
  thr s i = Some t -> t_state t' = t_state t -> not_joining s k ->
  not_joining (with_thread i t' s) k.
Proof.
  intros Ht E1 H u. rewrite thr_with_thread. case_decide; [|apply H].
  subst k. intros [= <-]. rewrite E1. by apply H.
Qed.

(** The dispatch on the system call number. *)
Ltac next_call :=
  match goal with
  | |- wnp (if ?n =? ?k then _ else _) _ _ =>
      destruct (Z.eqb_spec n k)
  end.

Lemma serve_syscall s q c t :
  running s q c t -> devs_ok s -> active c t -> syscall_ok s (t_tf t) ->
  wnp (syscall_handler (c_cur_tf c)) (fun _ s' => served s s') s.
Proof.
  intros Hr Hd Ha (Hrange & Hjd & Hk). unfold syscall_handler.
  apply wnp_bind, (wnp_get_tf s s q c t); [by apply going_start|].
  apply wnp_bind. unfold advance_sepc. apply (wnp_upd_tf s s q c t); [by apply going_start|].
  intros s1 Es1 G1. set (f := t_tf t) in *. set (t1 := t_set_tf _ t) in *.
  pose proof G1 as [S1 Hr1]. pose proof (rn_thr _ _ _ _ Hr) as Ht.
  assert (Ha1 : active c t1) by done. pose proof Ha1 as [Hu1 Hst1]. cbv zeta.
  assert (Hset : forall k, settled s k -> settled s1 k) by (intros k H; subst s1; by eapply settled_tf).
  assert (Hnj : forall k, not_joining s k -> not_joining s1 k) by (intros k H; subst s1; by eapply not_joining_tf).
  next_call; [by eapply going_sleep|].
  next_call; [by eapply going_exit|].
  next_call; [eapply going_wp; [exact G1|apply kd_sys_join|]; apply (thread_sys_join_spec s1 q c t1);
    try done; apply Hset, Hjd; by left|].
  next_call; [eapply going_wp; [exact G1|apply kd_sys_create|by eapply thread_sys_create_spec]|].
  next_call; [eapply going_wp; [exact G1|apply kd_sys_kill|]; apply (thread_sys_kill_spec s1 q c t1);
    try done; by apply Hnj, Hk|].
  next_call; [apply (going_result s s1 q c t1 _ id G1), calm_list|].
  next_call; [apply (going_result s s1 q c t1 _ id G1), calm_sys_write|].
  next_call; [by apply (going_read s s1 q c t1)|].
  next_call; [apply (going_result s s1 q c t1 _ id G1), calm_clock_gettime|].
  next_call; [apply (going_result s s1 q c t1 _ id G1), calm_irq_get_stats|].
  next_call; [apply (going_result s s1 q c t1 _ id G1), calm_hartid|].
  next_call; [by apply (going_sleep s s1 q c t1)|].
  next_call; [eapply going_wp; [exact G1|apply kd_sys_detach|]; apply (thread_sys_detach_spec s1 q c t1);
    try done; apply Hset, Hjd; by right|].
  next_call; [by eapply going_snapshot|].
  exfalso. unfold SYS_SLEEP, SYS_THREAD_EXIT, SYS_THREAD_JOIN, SYS_THREAD_CREATE, SYS_THREAD_KILL,
    SYS_THREAD_LIST, SYS_WRITE, SYS_READ, SYS_CLOCK_GETTIME, SYS_IRQ_GET_STATS, SYS_GET_HARTID,
    SYS_YIELD, SYS_THREAD_DETACH, SYS_RUNQUEUE_SNAPSHOT in *. lia.
Qed.

(** ** Exceptions *)

Definition supported_exc s f (code : Z) : Prop :=
  from_smode f = false /\
  ((code = EXC_ENV_CALL_U /\ syscall_ok s f) \/ (code = EXC_BREAKPOINT /\ NDEBUG = false) \/
   code = EXC_ILLEGAL_INSTR).

Lemma serve_exception s q c t code :
  running s q c t -> devs_ok s -> active c t -> supported_exc s (t_tf t) code ->
  wnp (handle_exception (c_cur_tf c) (from_smode (t_tf t)) code) (fun _ s' => served s s') s.
Proof.
  intros Hr Hd Ha [Hm Hor]. pose proof (going_start _ _ _ _ Hr Hd) as G. unfold handle_exception.
  rewrite Hm. destruct Hor as [[-> Hs]|[[-> Hn]| ->]]; simpl.
  - by apply (serve_syscall s q c t).
  - unfold breakpoint_handler, pr_debug. rewrite Hn.
    apply wnp_bind, (wnp_get_tf s s q c t); [done|].
    apply wnp_bind, (wnp_going_calm s s q c t); [done|apply calm_pr|]. intros [] s1 G1.
    apply wnp_bind, (wnp_going_calm s s1 q c t); [done|apply calm_pr|]. intros [] s2 G2.
    apply wnp_bind, (wnp_going_calm s s2 q c t); [done|apply calm_pr|]. intros [] s3 G3.
    unfold dump_backtrace_from_tf.
    apply wnp_bind, wnp_bind, (wnp_get_tf s s3 q c t); [done|].
    apply (wnp_going_calm s s3 q c t); [done|calm|]. intros [] s4 G4. rewrite Hm. simpl.
    apply wnp_bind, (wnp_upd_tf s s4 q c t); [done|]. intros s5 _ G5.
    by eapply going_exit.
  - apply wnp_bind, wnp_gets.
    apply wnp_bind, (wnp_going_calm s s q c t); [done|apply calm_puts|]. intros [] s1 G1.
    by apply (going_exit s s1 q c t).
Qed.

(** ** The entry *)

(** The traps the kernel handles (a trap of any other kind stops it): the three
    interrupts, and system calls, breakpoints (in a debug build) and illegal
    instructions of user threads. *)
Definition supported s c t : Prop :=
  let f := t_tf t in
  if scause_is_interrupt (f_scause f) then supported_irq (scause_code (f_scause f))
  else active c t /\ supported_exc s f (scause_code (f_scause f)).

Lemma going_lock s q c t v :
  running s q c t -> devs_ok s -> running (k_set_kernel_lock v s) q c t /\
  devs_ok (k_set_kernel_lock v s).
Proof.
  intros [Hi Hc Hl Ht] Hd. split; [|done]. split; try done. by apply (inv_x_state none s).
Qed.

Lemma supported_core s s' c t : k_core s' = k_core s -> supported s c t -> supported s' c t.
Proof.
  intros E. unfold supported, supported_exc, syscall_ok, settled, not_joining, thr. by rewrite E.
Qed.

(** Taking the lock: it was free. *)
Lemma kernel_lock_spec s :
  good s -> k_kernel_lock s = 0 ->
  wnp kernel_lock (fun _ s' => exists s1, side s s1 /\ s' = k_set_kernel_lock 1 s1) s.
Proof.
  intros Hg Hl. unfold kernel_lock. apply wnp_bind. eapply wnp_mono; [by apply calm_csr_read|].
  intros st s1 H1. apply wnp_bind. eapply wnp_mono; [apply calm_csr_upd; by apply H1|].
  intros [] s2 H2. pose proof (transitivity H1 H2) as H12. apply wnp_bind, wnp_gets.
  rewrite (sd_lock _ _ H12), Hl. simpl. apply wnp_bind, wnp_modify, wnp_ret. by exists s2.
Qed.

Lemma trap_entry_c_spec s q c t :
  running s q c t -> devs_ok s -> k_kernel_lock s = 0 -> supported s c t ->
  wnp (trap_entry_c (c_cur_tf c)) (fun tf s' => served s s' /\
    exists q' c' t', running s' q' c' t' /\ tf = c_cur_tf c') s.
Proof.
  intros Hr Hd Hl Hsup. unfold trap_entry_c. apply wnp_bind.
  eapply wnp_mono; [apply kernel_lock_spec; [by eapply running_good|done]|].
  intros st s3 (s2 & H2 & ->). pose proof (side_running _ _ _ _ _ H2 Hr) as Hr2.
  pose proof (side_served _ _ _ _ _ H2 Hr Hd) as S2.
  destruct (going_lock s2 q c t 1 Hr2 (proj2 S2)) as [Hr3 Hd3].
  set (s3 := k_set_kernel_lock 1 s2) in *.
  assert (Hsup3 : supported s3 c t) by (by apply (supported_core s); [apply H2|]).
  apply wnp_bind, (wnp_get_tf s3 s3 q c t); [by apply going_start|].
  apply wnp_bind. apply wnp_mono with (Q := fun _ s' => served s3 s').
  { unfold supported in Hsup3. destruct (scause_is_interrupt _); [by apply (serve_interrupt s3 q c t)|].
    destruct Hsup3 as (Ha & Hexc). by apply (serve_exception s3 q c t). }
  intros [] s4 [K4 D4]. destruct (kept_running _ _ K4) as (q4 & c4 & t4 & Hr4).
  apply wnp_bind, (wnp_going_this s4 s4 q4 c4 t4); [by apply going_start|].
  unfold kernel_unlock. apply wnp_bind, wnp_bind, wnp_modify.
  destruct (going_lock s4 q4 c4 t4 0 Hr4 D4) as [Hr5 Hd5].
  apply (wnp_going_calm _ _ q4 c4 t4 _ _ (going_start _ _ _ _ Hr5 Hd5)); [apply calm_csr_upd|].
  intros [] s6 [S6 Hr6]. apply wnp_ret. split; [|by exists q4, c4, t4].
  split; [|apply S6]. apply (kept_running_trans s s6 q4 c4 t4 Hr6).
  - rewrite (kp_tp _ _ (proj1 S6)). simpl. rewrite (kp_tp _ _ K4). apply (sd_tp _ _ H2).
  - by rewrite (kp_lock _ _ (proj1 S6)), Hl.
Qed.

End trap_spec.
