(* ===== verification/BootThreads.v ===== *)
(** * [threads_init] establishes the invariant *)
From stdpp Require Import base numbers list gmap strings.
From Stdlib Require Import ZArith Lia.
From S2P Require Import Prelude Mem Machine State Kernel Image RunQueue Smp Thread Invariant ThreadSpec SchedSpec ThreadOps ThreadKill ThreadCreate Within.

Local Open Scope Z_scope.

Section boot_defs.
Context {cfg : Config} {hws : Hardware}.

(** What the initialisation of the threads leaves alone. *)
Record init_rel (s s' : kstate) : Prop := {
  ir_cpu : forall h, cpu s' h = cpu s h;
  ir_tp : k_tp s' = k_tp s;
  ir_lock : k_kernel_lock s' = k_kernel_lock s;
  ir_boot : g_boot_hartid (k_core s') = g_boot_hartid (k_core s);
  ir_ticks : g_ticks (k_core s') = g_ticks (k_core s);
  ir_smp : g_smp_boot_done (k_core s') = g_smp_boot_done (k_core s);
  ir_stdin : g_stdin_waiter (k_core s') = g_stdin_waiter (k_core s);
  ir_con : k_con s' = k_con s;
  ir_plat : k_plat s' = k_plat s;
  ir_umem : k_umem s' = k_umem s;
  ir_trp : k_trp s' = k_trp s
}.

#[export] Instance init_rel_preorder : PreOrder init_rel.
Proof. split; [by intros s; split|]. intros s1 s2 s3 [] []. split; congruence. Qed.

(** A hart before its first thread. *)
Definition idle_hart (h : Z) (c : cpu_t) : Prop := cpu_ok h c /\ ~ live c.

(** The state in which [threads_init] runs: no hart runs a thread. *)
Record before_threads (s : kstate) : Prop := {
  bt_thr : forall i, tid_ok i <-> is_Some (thr s i);
  bt_cpu : forall h, hart_ok h <-> is_Some (cpu s h);
  bt_rqs : forall h, hart_ok h -> is_Some (rqs s h);
  bt_harts : forall h c, cpu s h = Some c -> idle_hart h c;
  bt_tp : hart_ok (k_tp s);
  bt_this : exists c, cpu s (k_tp s) = Some c /\ c_hartid c = k_tp s;
  bt_boot : hart_ok (g_boot_hartid (k_core s));
  bt_stdin : -1 <= g_stdin_waiter (k_core s) < THREAD_MAX
}.

(** The idle thread of hart [h] as it waits to be entered. *)
Record fresh_idle (h : Z) (t : Thread) : Prop := {
  fi_id : t_id t = h;
  fi_state : t_state t = THREAD_RUNNABLE;
  fi_on_rq : t_on_rq t = 0;
  fi_name : t_name t = idle_name_for_hart h;
  fi_user : t_is_user t = KERN_THREAD;
  fi_kill : t_can_be_killed t = 0;
  fi_detached : t_detached t = 0;
  fi_hart : t_running_hart t = -1;
  fi_waiter : t_join_waiter t = -1;
  fi_stack : t_stack_base t = thread_stack h;
  fi_tf : exists v, t_tf t = init_frame (thread_stack h) addr_idle_main h (sstatus_smode v)
}.

End boot_defs.

#[export] Existing Instance init_rel_preorder.

Section boot_threads.
Context {cfg : Config} {hws : Hardware}.
Implicit Types (s : kstate).

Notation keeps_boot := (within init_rel).

Lemma kb_upd_thread i f : keeps_boot (upd_thread i f).
Proof. intros s a s'. unfold upd_thread. destruct (thr s i); [|done]. by intros [= _ <-]. Qed.
Lemma kb_upd_rq i f : keeps_boot (upd_rq i f).
Proof. intros s a s'. unfold upd_rq. destruct (rqs s i); [|done]. by intros [= _ <-]. Qed.
Lemma kb_on_hw {A} (f : dev -> A * dev) : keeps_boot (on_hw f).
Proof. intros s a s'. unfold on_hw. destruct (f (k_hw s)). by intros [= _ <-]. Qed.
Lemma kb_csr_read c : keeps_boot (csr_read c).
Proof. unfold csr_read. apply within_bind; [apply _|apply within_gets, _|intros; apply kb_on_hw]. Qed.
Hint Resolve kb_upd_thread kb_upd_rq kb_csr_read : within.

(** First loop: every slot is reset. *)
Lemma slots_init_spec s :
  (forall i, tid_ok i -> is_Some (thr s i)) ->
  wp (for_z (Z.to_nat THREAD_MAX) 0 (fun i => upd_thread i (thread_slot_init i)))
    (fun _ s' => (forall i, tid_ok i -> exists t, thr s' i = Some (thread_slot_init i t)) /\
       (forall i, ~ tid_ok i -> thr s' i = thr s i) /\ (forall h, rqs s' h = rqs s h) /\
       init_rel s s') s.
Proof.
  intros Hdom.
  assert (Hw : keeps_boot (for_z (Z.to_nat THREAD_MAX) 0
    (fun i => upd_thread i (thread_slot_init i)))) by within.
  eapply wp_mono; [eapply (wp_within init_rel _ _ _ Hw)|].
  - apply (wp_for_z (fun j s' => (forall i, 0 <= i < j -> exists t, thr s' i = Some (thread_slot_init i t)) /\
      (forall i, ~ 0 <= i < j -> thr s' i = thr s i) /\ (forall h, rqs s' h = rqs s h))).
    + split; [intros; lia|]. done.
    + intros j s' Hj (H1 & H2 & H3). destruct (Hdom j) as [t Ht].
      { unfold tid_ok. unfold THREAD_MAX in *. lia. }
      rewrite <- H2 in Ht by lia. eapply wp_upd_thread; [exact Ht|]. split; [|split; [|done]].
      * intros i Hi. rewrite thr_with_thread. case_decide; [subst; eauto|]. apply H1. lia.
      * intros i Hi. rewrite thr_with_thread_ne by (intros ->; lia). apply H2. lia.
  - intros [] s' [(H1 & H2 & H3) Hr]. split; [exact H1|]. split; [exact H2|]. done.
Qed.

Lemma rq_init_all_spec s :
  (forall h, hart_ok h -> is_Some (rqs s h)) ->
  wp rq_init_all
    (fun _ s' => (forall h, hart_ok h -> rqs s' h = Some {| r_head := -1; r_tail := -1; r_len := 0 |}) /\
       (forall i, thr s' i = thr s i) /\ init_rel s s') s.
Proof.
  intros Hdom. pose proof MAX_HARTS_ok. assert (Hw : keeps_boot rq_init_all)
    by (unfold rq_init_all, rq_init; within).
  eapply wp_mono; [eapply (wp_within init_rel _ _ _ Hw)|].
  - unfold rq_init_all. apply (wp_for_z (fun j s' =>
      (forall h, 0 <= h < j -> rqs s' h = Some {| r_head := -1; r_tail := -1; r_len := 0 |}) /\
      (forall h, ~ 0 <= h < j -> rqs s' h = rqs s h) /\ (forall i, thr s' i = thr s i))).
    + split; [intros; lia|]. done.
    + intros j s' Hj (H1 & H2 & H3). rewrite Z2Nat.id in Hj by lia. destruct (Hdom j) as [r Hr]; [split; lia|].
      rewrite <- H2 in Hr by lia. unfold rq_init. rewrite (proj2 (Z.leb_gt _ _)) by lia. wp_steps.
      repeat (eapply wp_upd_rq; [rewrite ?rqs_with_rq, ?decide_True by done; done|]; wp_steps).
      split; [|split; [|done]].
      * intros h Hh. rewrite !rqs_with_rq. case_decide; [by destruct r|]. apply H1. lia.
      * intros h Hh. rewrite !rqs_with_rq. rewrite !decide_False by (intros ->; lia). apply H2. lia.
  - intros [] s' [(H1 & H2 & H3) Hr]. rewrite Z2Nat.id in H1 by lia. done.
Qed.

Lemma idle_init_spec s h t0 :
  thr s h = Some (thread_slot_init h t0) ->
  wp (idle_init h)
    (fun _ s' => (exists t, thr s' h = Some t /\ fresh_idle h t) /\
       (forall i, i <> h -> thr s' i = thr s i) /\ (forall k, rqs s' k = rqs s k)) s.
Proof.
  intros Ht. unfold idle_init, init_thread_context_s. wp_steps.
  match goal with |- context [k_set_hw ?d (with_thread h ?a s)] =>
    change (k_set_hw d (with_thread h a s)) with (with_thread h a (k_set_hw d s)) end.
  eapply wp_upd_thread; [apply thr_with_thread_eq|]. rewrite with_thread_twice.
  split; [|split; [|done]].
  - eexists. split; [apply thr_with_thread_eq|]. split; simpl; try done. by eexists.
  - intros i Hi. rewrite thr_with_thread_ne by (intros ->; done). done.
Qed.

Lemma idles_init_spec s :
  (forall i, tid_ok i -> exists t, thr s i = Some (thread_slot_init i t)) ->
  wp (for_z (Z.to_nat MAX_HARTS) 0 idle_init)
    (fun _ s' => (forall h, hart_ok h -> exists t, thr s' h = Some t /\ fresh_idle h t) /\
       (forall i, ~ hart_ok i -> thr s' i = thr s i) /\ (forall k, rqs s' k = rqs s k) /\
       init_rel s s') s.
Proof.
  intros Hdom. pose proof MAX_HARTS_ok.
  assert (Hw : keeps_boot (for_z (Z.to_nat MAX_HARTS) 0 idle_init)).
  { unfold idle_init, init_thread_context_s. within. }
  eapply wp_mono; [eapply (wp_within init_rel _ _ _ Hw)|].
  - apply (wp_for_z (fun j s' =>
      (forall h, 0 <= h < j -> exists t, thr s' h = Some t /\ fresh_idle h t) /\
      (forall i, ~ 0 <= i < j -> thr s' i = thr s i) /\ (forall k, rqs s' k = rqs s k))).
    + split; [intros; lia|]. done.
    + intros j s' Hj (H1 & H2 & H3). rewrite Z2Nat.id in Hj by lia.
      destruct (Hdom j) as [t0 Ht0]; [split; lia|]. rewrite <- H2 in Ht0 by lia.
      eapply wp_mono; [by apply (idle_init_spec s' j t0)|]. intros [] s2 (A1 & A2 & A3).
      split; [|split].
      * intros h Hh. destruct (decide (h = j)) as [->|]; [done|]. rewrite A2 by done. apply H1. lia.
      * intros i Hi. rewrite A2 by (intros ->; lia). apply H2. lia.
      * intros k. by rewrite A3.
  - intros [] s' [(H1 & H2 & H3) Hr]. rewrite Z2Nat.id in H1, H2 by lia. done.
Qed.

(** Idle threads and free slots, empty queues, harts that run nothing. *)
Lemma inv_fresh s :
  (forall i, tid_ok i <-> is_Some (thr s i)) -> (forall h, hart_ok h <-> is_Some (cpu s h)) ->
  (forall h, hart_ok h -> rqs s h = Some {| r_head := -1; r_tail := -1; r_len := 0 |}) ->
  (forall h, hart_ok h -> exists t, thr s h = Some t /\ fresh_idle h t) ->
  (forall i, user_tid i -> exists t, thr s i = Some (thread_slot_init i t)) ->
  (forall h c, cpu s h = Some c -> idle_hart h c) ->
  hart_ok (k_tp s) -> hart_ok (g_boot_hartid (k_core s)) ->
  -1 <= g_stdin_waiter (k_core s) < THREAD_MAX ->
  inv_x none s (fun _ => []).
Proof.
  intros Hthr Hcpu Hrq Hidle Hslot Hharts Htp Hboot Hstd. pose proof MAX_HARTS_ok.
  assert (Hcase : forall i t, thr s i = Some t ->
    (hart_ok i /\ fresh_idle i t) \/ (user_tid i /\ exists t0, t = thread_slot_init i t0)).
  { intros i t Ht. assert (tid_ok i) as [? ?] by (apply Hthr; eauto).
    destruct (decide (i < MAX_HARTS)).
    - left. assert (hart_ok i) as Hh by (split; lia). split; [done|].
      destruct (Hidle i Hh) as (t' & Ht' & ?). rewrite Ht in Ht'. by injection Ht' as ->.
    - right. assert (user_tid i) as Hu by (split; lia). split; [done|].
      destruct (Hslot i Hu) as (t0 & Ht0). rewrite Ht in Ht0. injection Ht0 as ->. eauto. }
  assert (Hgen : forall i t, thr s i = Some t -> t_on_rq t = 0 /\ t_running_hart t = -1 /\
    t_join_waiter t = -1 /\ t_id t = i).
  { intros i t Ht. destruct (Hcase i t Ht) as [[_ []]|[_ [t0 ->]]]; done. }
  split; try done.
  - split.
    + intros h Hh. exists {| r_head := -1; r_tail := -1; r_len := 0 |}. by rewrite Hrq.
    + intros h i _ Hin. by apply not_elem_of_nil in Hin.
    + intros h Hh. constructor.
    + intros h h' i _ _ Hin. by apply not_elem_of_nil in Hin.
    + intros i t Ht. right. destruct (Hgen i t Ht) as (-> & _). split; [done|].
      intros h _. apply not_elem_of_nil.
  - intros h c Hc. by apply Hharts.
  - intros h h' c c' Hc Hc' Hl. by destruct (Hharts h c Hc) as [_ []].
  - intros i t Ht. destruct (Hgen i t Ht) as (G1 & G2 & G3 & G4). unfold thread_base.
    rewrite G1, G2, G3, G4. split; [done|]. split; [lia|]. split; [by left|]. split; [|done].
    intros Hlt. destruct (Hcase i t Ht) as [[_ []]|[[? ?] _]]; [|lia]. auto.
  - intros i t Ht _. destruct (Hgen i t Ht) as (G1 & G2 & G3 & G4). unfold thread_ok.
    rewrite G1, G2. destruct (Hcase i t Ht) as [[[? ?] []]|[_ [t0 ->]]]; simpl;
      (split; [|split; [|lia]]).
    + intros. lia.
    + congruence.
    + intros _. split; [done|]. intros E. by destruct E.
    + done.
  - intros h c t Hc Hl. by destruct (Hharts h c Hc) as [_ []].
  - intros i t Ht _ H0. destruct (Hgen i t Ht) as (_ & G2 & _). lia.
  - intros i t Ht _ H0. destruct (Hgen i t Ht) as (_ & _ & G3 & _). lia.
Qed.

(** The tables after [threads_init]: the idle threads, the first user thread in
    the first slot above them, queued, and free slots. *)
Record threads_ready (s s' : kstate) (user_main : Z) : Prop := {
  tr_inv : inv s';
  tr_idle : forall h, hart_ok h -> exists t, thr s' h = Some t /\ fresh_idle h t;
  tr_main : exists u, thr s' MAX_HARTS = Some u /\
    fresh_user MAX_HARTS user_main 0 (NameLit "user_main") u;
  tr_free : forall i, MAX_HARTS < i < THREAD_MAX ->
    exists t, thr s' i = Some t /\ t_state t = THREAD_UNUSED;
  tr_cpu : forall h, option_Forall2 cpu_hint (cpu s h) (cpu s' h);
  tr_ticks : g_ticks (k_core s') = 0;
  tr_tp : k_tp s' = k_tp s;
  tr_lock : k_kernel_lock s' = k_kernel_lock s;
  tr_boot : g_boot_hartid (k_core s') = g_boot_hartid (k_core s);
  tr_con : k_con s' = k_con s;
  tr_plat : k_plat s' = k_plat s
}.

Lemma link_fresh_idle h t t' : link_only t t' -> fresh_idle h t -> fresh_idle h t'.
Proof. intros [n ->] []. by split. Qed.

Lemma first_unused_main s :
  (forall h, hart_ok h -> exists t, thr s h = Some t /\ fresh_idle h t) ->
  (forall i, user_tid i -> exists t, thr s i = Some (thread_slot_init i t)) ->
  ~ none_unused s 1 /\ forall r, first_unused s 1 r -> r = MAX_HARTS.
Proof.
  intros Hidle Hslot. pose proof MAX_HARTS_ok.
  assert (Hu : unused s MAX_HARTS).
  { destruct (Hslot MAX_HARTS) as [t Ht]; [split; lia|]. eexists. by split; [exact Ht|]. }
  split; [intros Hno; apply (Hno MAX_HARTS); [lia|done]|].
  intros r (Hr & (u & Hur & Hs) & Hno). destruct (decide (r = MAX_HARTS)) as [|Hne]; [done|exfalso].
  destruct (decide (r < MAX_HARTS)) as [Hlt|].
  - destruct (Hidle r) as (t & Ht & []); [split; lia|]. rewrite Ht in Hur. by injection Hur as <-; congruence.
  - apply (Hno MAX_HARTS); [lia|done].
Qed.

Lemma init_rel_harts s s' : init_rel s s' ->
  (forall h c, cpu s h = Some c -> idle_hart h c) -> forall h c, cpu s' h = Some c -> idle_hart h c.
Proof. intros R H h c. rewrite (ir_cpu _ _ R). apply H. Qed.

(** The three loops. *)
Lemma threads_tables_spec s (k : M kstate unit) Q :
  before_threads s ->
  (forall s', inv_x none s' (fun _ => []) ->
     init_rel (k_set_core (g_set_ticks 0 (k_core s)) s) s' ->
     (forall h, hart_ok h -> exists t, thr s' h = Some t /\ fresh_idle h t) ->
     (forall i, user_tid i -> exists t, thr s' i = Some (thread_slot_init i t)) -> wp k Q s') ->
  wp (upd_core (g_set_ticks 0) ;;
      for_z (Z.to_nat THREAD_MAX) 0 (fun i => upd_thread i (thread_slot_init i)) ;;
      rq_init_all ;;
      for_z (Z.to_nat MAX_HARTS) 0 idle_init ;; k) Q s.
Proof.
  intros [T1 T2 T3 T4 T5 T6 T7 T8] Hk. pose proof MAX_HARTS_ok. wp_steps.
  set (s0 := k_set_core (g_set_ticks 0 (k_core s)) s) in *.
  eapply wp_mono; [apply (slots_init_spec s0); intros i Hi; by apply T1|].
  intros [] s1 (A1 & A2 & A3 & Ra). wp_steps.
  eapply wp_mono; [apply rq_init_all_spec; intros h Hh; rewrite A3; by apply T3|].
  intros [] s2 (B1 & B2 & Rb). wp_steps. eapply wp_mono; [apply idles_init_spec|].
  { intros i Hi. destruct (A1 i Hi) as [t Ht]. exists t. by rewrite B2. }
  intros [] s3 (C1 & C2 & C3 & Rc).
  pose proof (transitivity Ra (transitivity Rb Rc)) as R.
  assert (Hslot : forall i, user_tid i -> exists t, thr s3 i = Some (thread_slot_init i t)).
  { intros i Hi. rewrite C2, B2 by (unfold user_tid, hart_ok in *; lia). by apply A1, user_tid_ok. }
  apply Hk; try done. apply inv_fresh; try done.
  - intros i. split.
    + intros Hi. destruct (decide (i < MAX_HARTS)).
      * destruct (C1 i) as (t & -> & _); [destruct Hi; split; lia|eauto].
      * destruct (Hslot i) as (t & ->); [destruct Hi; split; lia|eauto].
    + intros Hs. destruct (decide (tid_ok i)) as [|Hn]; [done|].
      assert (~ hart_ok i) by (intros [? ?]; apply Hn; split; lia).
      rewrite C2, B2, A2 in Hs by done. apply T1. exact Hs.
  - intros h. rewrite (ir_cpu _ _ R). apply T2.
  - intros h Hh. rewrite C3. by apply B1.
  - by apply (init_rel_harts s0).
  - by rewrite (ir_tp _ _ R).
  - by rewrite (ir_boot _ _ R).
  - by rewrite (ir_stdin _ _ R).
Qed.

Lemma threads_init_spec s user_main :
  before_threads s ->
  wp (threads_init user_main) (fun _ s' => threads_ready s s' user_main) s.
Proof.
  intros Hb. unfold threads_init. apply threads_tables_spec; [done|].
  intros s1 Hi R Hidle Hslot. destruct Hb as [_ _ _ _ _ (c & Hc & Ec) _ _].
  pose proof MAX_HARTS_ok. destruct (first_unused_main s1 Hidle Hslot) as [Hex Huniq].
  assert (Hc1 : cpu s1 (k_tp s1) = Some c) by (by rewrite (ir_tp _ _ R), (ir_cpu _ _ R)).
  assert (Ec1 : c_hartid c = k_tp s1) by (by rewrite (ir_tp _ _ R)).
  unfold thread_create_user_main. wp_steps.
  pose proof (wp_within devices_kept _ _ s1 (kd_create user_main 0 (NameLit "user_main"))
    (thread_create_user_named_spec s1 _ c user_main 0 (NameLit "user_main") Hi Hc1 Ec1)) as Hcr.
  eapply wp_mono; [exact Hcr|]. clear Hcr.
  intros r s2 [[(_ & Hno & _)|(Hf & Hu & (q & Hi2) & Hfr & u & Hu2 & Hfu)] [D1 D2]]; [done|].
  pose proof (Huniq r Hf) as ->. rewrite (proj2 (Z.ltb_ge MAX_HARTS 0)) by lia. wp_steps.
  apply wp_ASSERT; [by apply Z.eqb_eq|]. split.
  - by exists q.
  - intros h Hh. destruct (Hidle h Hh) as (t & Ht & Hft).
    assert (Hne : ~ only MAX_HARTS h) by (intros E; destruct Hh; unfold only in E; lia).
    destruct (frame_thr _ _ _ _ _ Hfr Hne Ht) as (t' & Ht' & Hl). exists t'. split; [done|].
    by eapply link_fresh_idle.
  - by exists u.
  - intros i Hi'. destruct (Hslot i) as [t Ht]; [split; lia|].
    assert (Hne : ~ only MAX_HARTS i) by (unfold only; lia).
    destruct (frame_thr _ _ _ _ _ Hfr Hne Ht) as (t' & Ht' & [n ->]). by eexists.
  - intros h. change (cpu s h) with (cpu (k_set_core (g_set_ticks 0 (k_core s)) s) h).
    rewrite <- (ir_cpu _ _ R h). apply (fr_cpu _ _ _ Hfr).
  - by rewrite (fr_ticks _ _ _ Hfr), (ir_ticks _ _ R).
  - by rewrite (fr_tp _ _ _ Hfr), (ir_tp _ _ R).
  - by rewrite (fr_lock _ _ _ Hfr), (ir_lock _ _ R).
  - by rewrite (fr_boot _ _ _ Hfr), (ir_boot _ _ R).
  - by rewrite D1, (ir_con _ _ R).
  - by rewrite D2, (ir_plat _ _ R).
Qed.

End boot_threads.
