(* ===== verification/BootSpec.v ===== *)
(** * Booting

    [kernel_main] on the boot hart, from the image the loader leaves, reaches a
    state in which the invariant holds and the hart runs its idle thread; on any
    other hart it keeps the invariant and does the same. *)
From stdpp Require Import base numbers list gmap strings.
From Stdlib Require Import ZArith Lia.
From S2P Require Import Prelude Mem Machine State Kernel Image RunQueue Smp Thread Uart Plic Platform Console Irq Sysfile Trap Boot Invariant ThreadSpec SchedSpec ThreadOps ThreadKill ThreadCreate Snapshot Quiet Within Syscalls TrapSpec BootThreads.

Local Open Scope Z_scope.

Section boot_spec.
Context {cfg : Config} {hws : Hardware} {dt : DeviceTree}.
Implicit Types (s : kstate) (q : Z -> list Z) (c : cpu_t).

(** ** Calm pieces *)

Lemma calm_ASSERT b m : b = true -> calm (ASSERT b m).
Proof. unfold ASSERT. intros ->. apply calm_ret. Qed.

Lemma calm_enable_timer : calm arch_enable_timer_interrupts.
Proof. unfold arch_enable_timer_interrupts. calm. Qed.
Lemma calm_enable_external : calm arch_enable_external_interrupts.
Proof. unfold arch_enable_external_interrupts. calm. Qed.
Lemma calm_enable_software : calm arch_enable_software_interrupts.
Proof. unfold arch_enable_software_interrupts. calm. Qed.

Lemma calm_banner h d : calm (sbi_early_banner h d).
Proof.
  assert (Hb : forall b, calm (sbi_debug_console_write_byte b))
    by (intros b; unfold sbi_debug_console_write_byte; calm).
  assert (H1 : forall l, calm (sbi_put_bytes l)).
  { intros l. induction l as [|b l IH]; simpl; calm. }
  assert (H2 : forall l, calm (sbi_console_puts_bytes l)).
  { intros l. induction l as [|b l IH]; simpl; calm. }
  unfold sbi_early_banner, sbi_console_puts, sbi_put_dec, sbi_put_hex64. calm.
Qed.

Lemma calm_parse_dt fdt : calm (uart16550_parse_dt_params fdt).
Proof. unfold uart16550_parse_dt_params. calm. Qed.
Hint Resolve calm_parse_dt : calm.
Lemma calm_uart_init : calm uart16550_init.
Proof.
  unfold uart16550_init, uart_ier_write. apply calm_bind; [apply calm_get_plat|]. intros fdt.
  destruct (fdt_find_reg_by_compat fdt "ns16550a") as [[base sz]|]; [|calm].
  destruct (fdt_find_irq_by_compat fdt "ns16550a") as [irq|] eqn:E; [|calm].
  assert (H0 : 0 <= irq).
  { unfold fdt_find_irq_by_compat in E. repeat case_match; try done. injection E as <-.
    apply fdt32_cell_range. }
  apply calm_bind; [calm|]. intros _. apply calm_bind; [|intros _; calm].
  apply calm_plat; [|done]. intros p (P1 & P2 & P3 & _). done.
Qed.
Lemma calm_timer_init : calm timer_init.
Proof. unfold timer_init, platform_get_dtb. calm. Qed.
Lemma calm_irq_table_init : calm platform_irq_table_init.
Proof.
  unfold platform_irq_table_init. apply calm_for_z. intros j Hj. apply calm_set_irq. done.
Qed.
Hint Resolve calm_uart_init calm_timer_init calm_irq_table_init calm_enable_timer
  calm_enable_external calm_enable_software : calm.

(** A device-tree interrupt number is not negative. *)
Lemma calm_register i h a n : 0 <= i -> calm (platform_register_irq_handler i h a n).
Proof.
  intros H0. unfold platform_register_irq_handler. destruct (MAX_IRQ <=? i) eqn:E; bool_facts; [calm|].
  apply calm_bind; [by apply calm_set_irq|intros _].
  apply calm_bind; [by apply calm_set_name|intros _]. unfold plic_enable_irq. calm.
Qed.

Lemma calm_trap_init : calm trap_init.
Proof. unfold trap_init. calm. Qed.
Lemma calm_time_init : calm time_init.
Proof. unfold time_init, pr_info. calm. Qed.

Lemma calm_hart_wait fuel h st to fs ls m : hart_ok h -> h < 32 -> calm (hart_wait fuel h st to fs ls m).
Proof.
  intros Hh H32. revert fs ls m. induction fuel as [|n IH]; intros fs ls m; simpl; [calm|].
  unfold sbi_hart_status, pr_warn, pr_info, pr_debug.
  rewrite (proj2 (Z.leb_gt 32 h)) by lia. calm.
Qed.
Lemma calm_start_hart h d e to m : hart_ok h -> h < 32 -> calm (start_hart h d e to m).
Proof.
  intros Hh H32. pose proof (fun st to fs ls m => calm_hart_wait poll_fuel h st to fs ls m Hh H32).
  unfold start_hart, sbi_hart_status, sbi_hart_start, pr_info, pr_warn, pr_debug. calm.
Qed.
Lemma calm_start_loop n h b d e to m :
  0 <= h -> h + Z.of_nat n <= MAX_HARTS -> MAX_HARTS <= 32 -> calm (start_harts_loop n h b d e to m).
Proof.
  intros H0 Hn H32. revert h m H0 Hn. induction n as [|n IH]; intros h m H0 Hn; simpl; [calm|].
  destruct (h =? b); [apply IH; lia|].
  apply calm_bind; [apply calm_start_hart; [split; lia|lia]|]. intros m'. apply IH; lia.
Qed.

Lemma wnp_calm_bind {A B} (m : M kstate A) (k : A -> M kstate B) Q s :
  calm m -> good s -> (forall a s', side s s' -> wnp (k a) Q s') -> wnp (bind m k) Q s.
Proof.
  intros Hm Hg Hk. apply wnp_bind. eapply wnp_mono; [by apply Hm|]. intros a s' H. by apply Hk.
Qed.

(** ** A hart on its way to the idle loop *)

(** Hart [h] executes; it is initialised and runs no thread. *)
Record entering s (h : Z) : Prop := {
  en_tp : k_tp s = h;
  en_cpu : exists c, cpu s h = Some c /\ ~ live c /\ c_online c = 1 /\
             c_hartid c = h /\ c_idle_tid c = h;
  en_lock : k_kernel_lock s = 0
}.

Lemma side_entering s s' h : side s s' -> entering s h -> entering s' h.
Proof.
  intros [E1 E2 E3 E4 E5] [H1 (c & Hc & Hrest) H3]. split; [congruence| |congruence].
  exists c. split; [|done]. unfold cpu. by rewrite E1.
Qed.

(** Hart [h] runs its idle thread. *)
Definition idling s (h : Z) : Prop :=
  k_tp s = h /\ k_kernel_lock s = 0 /\ exists q c t, running s q c t /\ c_current_tid c = h /\
    t_state t = THREAD_RUNNING.

Lemma hart_s32 h : hart_ok h -> s32 h = h /\ u32 h = h.
Proof.
  intros [? ?]. pose proof MAX_HARTS_ok as [_ HM]. unfold THREAD_MAX in HM.
  split; [apply s32_small|apply u32_small]; lia.
Qed.

(** A total operation, then the rest. *)
Lemma wnp_wp_bind {A B} (m : M kstate A) (k : A -> M kstate B) Q s :
  wp m (fun a s' => wnp (k a) Q s') s -> wnp (bind m k) Q s.
Proof. intros H. by apply wnp_bind, wp_wnp. Qed.

Lemma enter_idle_switch s h q c th :
  inv_x none s q -> hart_ok h -> k_tp s = h -> cpu s h = Some c -> ~ live c -> c_online c = 1 ->
  c_hartid c = h -> c_idle_tid c = h -> thr s h = Some th -> k_kernel_lock s = 0 ->
  let c1 := c_set_cur_tf (TF_thread h) (c_set_current_tid h (c_set_idle_tid h c)) in
  idling (with_cpu h c1 (with_thread h (dispatched h th) s)) h.
Proof.
  intros Hi Hh Htp Hc Hnl Hon Eh Ei Hth Hlk c1. split; [done|]. split; [done|].
  exists q, c1, (dispatched h th). split; [|split; [done|]].
  - split.
    + apply (inv_enter s q h c th c1); try done. by rewrite Hon.
    + simpl. rewrite Htp. apply cpu_with_cpu_eq.
    + by eexists.
    + rewrite thr_with_cpu. apply thr_with_thread_eq.
  - by destruct (dispatched_fields h th Hh) as (_ & -> & _).
Qed.

Lemma idling_side s s' h : side s s' -> idling s h -> idling s' h.
Proof.
  intros Hs (H1 & H2 & q & c & t & Hr & Hrest). split; [by rewrite (sd_tp _ _ Hs)|].
  split; [by rewrite (sd_lock _ _ Hs)|]. exists q, c, t. split; [by eapply side_running|done].
Qed.

Lemma first_switch_idling s h :
  idling s h ->
  wp (arch_first_switch (TF_thread h)) (fun _ s' => idling s' h /\ s' = s) s.
Proof.
  intros Hid. pose proof Hid as (<- & _ & q & c & t & Hr & Ec & _).
  unfold arch_first_switch. eapply wp_upd_cpu_this; [apply Hr|].
  assert (E : c_set_cur_tf (TF_thread (k_tp s)) c = c).
  { destruct (running_facts _ _ _ _ Hr) as (_ & _ & _ & Ef & _). rewrite Ec in Ef.
    rewrite <- Ef. by destruct c. }
  assert (Es : with_cpu (k_tp s) c s = s).
  { pose proof (rn_cpu _ _ _ _ Hr) as Hc. unfold cpu in Hc. unfold with_cpu.
    rewrite insert_id by exact Hc. by destruct s as [[]]. }
  by rewrite E, Es.
Qed.

Lemma cpu_enter_idle_spec s h q :
  entering s h -> inv_x none s q -> good s -> hart_ok h ->
  wnp (cpu_enter_idle h) (fun _ s' => idling s' h /\ good s' /\
    p_g_dtb (k_plat s') = p_g_dtb (k_plat s)) s.
Proof.
  intros [<- (c & Hc & Hnl & Hon & Eh & Ei) Hlk] Hi Hg Hh. destruct (hart_s32 _ Hh) as [Es _].
  unfold cpu_enter_idle. rewrite Es. set (h := k_tp s) in *.
  assert (exists th, thr s h = Some th) as [th Hth].
  { apply (ix_thr_dom _ _ _ Hi). pose proof MAX_HARTS_ok. destruct Hh. split; lia. }
  pose proof (enter_idle_switch s h q c th Hi Hh eq_refl Hc Hnl Hon Eh Ei Hth Hlk) as Hid. cbv zeta in Hid.
  apply wnp_wp_bind, wp_ASSERT; [apply Z.ltb_lt, Hh|].
  apply wnp_wp_bind. eapply wp_cpu_this; [exact Hc|].
  apply wnp_wp_bind, wp_ASSERT; [by apply Z.eqb_eq|].
  do 3 (apply wnp_wp_bind; wp_steps). unfold thread_mark_running.
  do 2 (apply wnp_wp_bind; wp_steps).
  rewrite !with_cpu_twice, !with_thread_twice.
  set (s1 := with_cpu h (c_set_cur_tf (TF_thread h) (c_set_current_tid h (c_set_idle_tid h c)))
    (with_thread h (dispatched h th) s)) in *.
  match goal with |- wnp _ _ ?x => replace x with s1 end.
  2: { unfold s1, dispatched. by rewrite with_cpu_thread, Es. }
  assert (Hg1 : good s1).
  { pose proof Hid as (_ & _ & q1 & c1 & t1 & [Hi1 _ _ _] & _).
    destruct Hg as (Hp & Hcn & _). split; [done|]. split; [done|]. by eapply inv_tabs. }
  assert (Hd1 : p_g_dtb (k_plat s1) = p_g_dtb (k_plat s)) by done. clearbody s1.
  apply wnp_bind, wnp_gets, wnp_bind.
  assert (Hc1 : calm (when (h =? g_boot_hartid (k_core s1))
    (d <- platform_sched_delta_ticks ;; platform_timer_start_after d ;;
     arch_enable_timer_interrupts ;; arch_enable_external_interrupts))) by calm.
  eapply wnp_mono; [by apply Hc1|]. intros [] s2 H2.
  apply wnp_bind. eapply wnp_mono; [apply calm_enable_software; by apply H2|].
  intros [] s3 H3. pose proof (transitivity H2 H3) as H23.
  apply wp_wnp. eapply wp_mono; [apply first_switch_idling; exact (idling_side s1 s3 h H23 Hid)|].
  intros [] s4 [Hid4 ->]. split; [done|]. split; [by apply H23|].
  by rewrite (sd_dtb _ _ H23).
Qed.

(** ** The probe of privileged instructions *)

(** The frame of an illegal-instruction exception taken in S-mode. *)
Definition illegal_in_smode (f : trapframe) : Prop :=
  scause_is_interrupt (f_scause f) = false /\ scause_code (f_scause f) = EXC_ILLEGAL_INSTR /\
  from_smode f = true.

(** The boot hart before the threads exist. *)
Record booting s (h : Z) : Prop := {
  bo_good : good s;
  bo_ent : entering s h;
  bo_before : before_threads s
}.

Definition on_frame s (h : Z) (p : tf_ptr) : Prop :=
  exists c, cpu s h = Some c /\ c_cur_tf c = p.

Lemma side_booting s s' h : side s s' -> booting s h -> booting s' h.
Proof.
  intros Hs [B1 B2 [T1 T2 T3 T4 T5 T6 T7 T8]]. split.
  - by apply Hs.
  - by eapply side_entering.
  - destruct Hs as [E1 E2 _ _ _]. split; unfold thr, cpu, rqs in *; rewrite ?E1, ?E2; done.
Qed.

Lemma side_frame s s' h p : side s s' -> on_frame s h p -> on_frame s' h p.
Proof. intros [E1 _ _ _ _] (c & Hc & E). exists c. split; [|done]. unfold cpu. by rewrite E1. Qed.

(** Pointing [cur_tf] at a frame that is not a thread's. *)
Lemma booting_frame s h p :
  booting s h -> (forall j, p <> TF_thread j) ->
  wp (upd_cpu_this (c_set_cur_tf p))
    (fun _ s' => booting s' h /\ on_frame s' h p /\ k_plat s' = k_plat s) s.
Proof.
  intros [Hg [<- (c & Hc & Hnl & Hon & Eh & Ei) Hlk] [T1 T2 T3 T4 T5 T6 T7 T8]] Hp.
  set (h := k_tp s) in *. eapply wp_upd_cpu_this; [exact Hc|]. fold h.
  assert (Hnl' : ~ live (c_set_cur_tf p c)) by (intros [j E]; by apply (Hp j)).
  assert (Hdom : forall k, is_Some (cpu (with_cpu h (c_set_cur_tf p c) s) k) <-> is_Some (cpu s k)).
  { intros k. rewrite cpu_with_cpu. case_decide; [subst k|done]. rewrite Hc. by split; eauto. }
  split; [|split; [|done]].
  - split.
    + destruct Hg as (G1 & G2 & G3 & G4 & G5 & G6). do 3 (split; [done|]).
      split; [intros k Hk; by apply Hdom, G4|done].
    + split; try done. eexists. split; [apply cpu_with_cpu_eq|]. done.
    + split; try done.
      * intros k. rewrite Hdom. apply T2.
      * intros k u. rewrite cpu_with_cpu. case_decide; [subst k|apply T4].
        intros [= <-]. destruct (T4 h c Hc) as [[Ha _] _]. split; [|done]. split; [done|done].
      * eexists. split; [apply cpu_with_cpu_eq|done].
  - eexists. split; [apply cpu_with_cpu_eq|done].
Qed.

(** What the probe may change: its own flags and frames, CSRs and the log. *)
Definition probe_rel s s' : Prop :=
  exists r d l, s' = k_set_klog l (k_set_hw d (k_set_trp r s)).

Ltac solve_probe_rel s :=
  unfold probe_rel, k_set_hw, k_set_kernel_lock, k_set_trp, k_set_klog;
  destruct s; simpl in *; subst; by do 3 eexists.

Lemma probe_rel_side s s' : probe_rel s s' -> side s s' /\ k_plat s' = k_plat s.
Proof. by intros (r & d & l & ->). Qed.

Lemma kernel_lock_total s :
  k_kernel_lock s = 0 ->
  wp kernel_lock (fun _ s' => exists d, s' = k_set_kernel_lock 1 (k_set_hw d s)) s.
Proof.
  intros Hl. unfold kernel_lock. wp_steps.
  match goal with |- context [z2b (k_kernel_lock ?x)] =>
    change (k_kernel_lock x) with (k_kernel_lock s) end.
  rewrite Hl. simpl. wp_steps. by eexists.
Qed.

(** The illegal-instruction trap of a probed instruction is recorded and skipped. *)
Lemma probe_trap s f c :
  k_kernel_lock s = 0 -> cpu s (k_tp s) = Some c -> g_probe_tf (k_trp s) = f ->
  illegal_in_smode f -> g_illegal_probe_enabled (k_trp s) = 1 ->
  wp (trap_entry_c TF_probe) (fun r s' => r = c_cur_tf c /\ probe_rel s s' /\
    g_illegal_probe_hit (k_trp s') = 1 /\ f_sepc (g_probe_tf (k_trp s')) = u64 (f_sepc f + 4)) s.
Proof.
  intros Hl Hc Hf (I1 & I2 & I3) He. unfold trap_entry_c. wp_steps.
  eapply wp_mono; [by apply kernel_lock_total|]. intros st s1 [d ->]. wp_steps.
  unfold get_tf. wp_steps. set (s1 := k_set_kernel_lock 1 (k_set_hw d s)).
  change (g_probe_tf (k_trp s1)) with (g_probe_tf (k_trp s)). rewrite Hf, I1, I2, I3.
  unfold handle_exception. simpl. wp_steps.
  change (g_illegal_probe_enabled (k_trp s1)) with (g_illegal_probe_enabled (k_trp s)).
  rewrite He. simpl. unfold upd_trp, advance_sepc, upd_tf, upd_trp. wp_steps.
  unfold kernel_unlock. wp_steps. split; [done|]. split; [|split].
  - unfold s1. solve_probe_rel s.
  - done.
  - unfold s1. simpl. by rewrite Hf.
Qed.

Lemma probe_rel_booting s s' h p :
  probe_rel s s' -> booting s h -> on_frame s h p -> booting s' h /\ on_frame s' h p.
Proof.
  intros Hr Hb Hf. destruct (probe_rel_side _ _ Hr) as [Hs _].
  split; [by eapply side_booting|by eapply side_frame].
Qed.

Lemma frame_cpu_this s h p :
  booting s h -> on_frame s h p -> exists c, cpu s (k_tp s) = Some c /\ c_cur_tf c = p.
Proof. intros [_ [<- _ _] _] Hf. exact Hf. Qed.

Definition probe_ok s s' (h : Z) : Prop :=
  booting s' h /\ on_frame s' h TF_probe /\ k_plat s' = k_plat s.

Lemma trap_entry_probe s h f :
  booting s h -> on_frame s h TF_probe -> illegal_in_smode f ->
  g_illegal_probe_enabled (k_trp s) = 1 ->
  wp (trap_entry f) (fun _ s' => probe_ok s s' h /\ g_illegal_probe_hit (k_trp s') = 1) s.
Proof.
  intros Hb Hf Hill He. destruct (frame_cpu_this _ _ _ Hb Hf) as (c & Hc & Ec).
  unfold trap_entry. wp_step. eapply wp_cpu_this; [exact Hc|]. rewrite Ec. simpl. wp_steps.
  unfold upd_tf, upd_trp. wp_steps. set (s1 := k_set_trp _ s).
  assert (R1 : probe_rel s s1).
  { unfold s1. clear. solve_probe_rel s. }
  destruct (probe_rel_booting _ _ _ _ R1 Hb Hf) as [Hb1 Hf1].
  eapply wp_mono; [apply (probe_trap s1 f c); try done; apply Hb|].
  intros r s2 (-> & R2 & Hhit & _). destruct (probe_rel_booting _ _ _ _ R2 Hb1 Hf1) as [Hb2 Hf2].
  rewrite Ec. eapply wp_mono.
  - eapply wp_and; [apply (booting_frame s2 h TF_probe); done|].
    destruct (frame_cpu_this _ _ _ Hb2 Hf2) as (c2 & Hc2 & _).
    apply (wp_upd_cpu_this _ c2 (fun _ s' => k_trp s' = k_trp s2)); done.
  - intros [] s3 (E & Hb3 & Hf3 & Hp3). split; [|by rewrite E].
    split; [done|]. split; [done|]. rewrite Hp3.
    destruct (probe_rel_side _ _ R2) as [_ ->]. done.
Qed.

Lemma probe_insn_spec s h i :
  booting s h -> on_frame s h TF_probe -> (forall f, i = Some f -> illegal_in_smode f) ->
  wp (probe_insn i) (fun b s' => probe_ok s s' h /\ (b = true <-> is_Some i)) s.
Proof.
  intros Hb Hf Hi. unfold probe_insn, trap_illegal_probe_clear, trap_illegal_probe_enable, upd_trp.
  wp_steps. set (s1 := k_set_trp _ (k_set_trp _ s)).
  assert (R1 : probe_rel s s1).
  { unfold s1. clear. solve_probe_rel s. }
  destruct (probe_rel_booting _ _ _ _ R1 Hb Hf) as [Hb1 Hf1].
  apply wp_mono with (Q := fun _ s2 => probe_ok s1 s2 h /\
    g_illegal_probe_hit (k_trp s2) = b2z (bool_decide (is_Some i))).
  - destruct i as [f|]; [by apply trap_entry_probe; try done; apply Hi|].
    apply wp_ret. split; [|done]. split; [done|]. by split.
  - intros [] s2 [(Hb2 & Hf2 & Hp2) Hhit].
    unfold trap_illegal_probe_disable, trap_illegal_probe_hit, pr_info, upd_trp. wp_steps.
    apply wp_pr. wp_steps. set (s3 := k_set_klog _ _).
    assert (R3 : probe_rel s2 s3).
    { unfold s3. clear. solve_probe_rel s2. }
    destruct (probe_rel_booting _ _ _ _ R3 Hb2 Hf2) as [Hb3 Hf3].
    split; [|].
    + split; [done|]. split; [done|]. destruct (probe_rel_side _ _ R3) as [_ ->].
      rewrite Hp2. by destruct (probe_rel_side _ _ R1) as [_ ->].
    + change (g_illegal_probe_hit (k_trp (k_set_trp (g_set_illegal_probe_enabled 0 (k_trp s2)) s2)))
        with (g_illegal_probe_hit (k_trp s2)).
      rewrite Hhit, z2b_true. case_bool_decide; simpl; split; try done; lia.
Qed.

Lemma probe_ok_trans s1 s2 s3 h : probe_ok s1 s2 h -> probe_ok s2 s3 h -> probe_ok s1 s3 h.
Proof. intros (_ & _ & E1) (B & F & E2). split; [done|]. split; [done|]. congruence. Qed.

Lemma pr_probe s h l m :
  booting s h -> on_frame s h TF_probe ->
  wp (pr l m) (fun _ s' => probe_ok s s' h) s.
Proof.
  intros Hb Hf. apply wp_pr. set (s1 := k_set_klog _ s).
  assert (R1 : probe_rel s s1) by (unfold s1; clear; solve_probe_rel s).
  destruct (probe_rel_booting _ _ _ _ R1 Hb Hf) as [Hb1 Hf1]. done.
Qed.

(** Sequencing inside the probe. *)
Lemma probe_seq {A B} (m : M kstate A) (k : A -> M kstate B) s0 s h Q :
  probe_ok s0 s h ->
  (forall s, booting s h -> on_frame s h TF_probe -> wp m (fun _ s' => probe_ok s s' h) s) ->
  (forall a s', probe_ok s0 s' h -> wp (k a) Q s') -> wp (bind m k) Q s.
Proof.
  intros Ho Hm Hk. apply wp_bind. pose proof Ho as (Hb & Hf & _).
  eapply wp_mono; [by apply Hm|]. intros a s' Ho'. apply Hk. by eapply probe_ok_trans.
Qed.

Lemma probe_one s h i :
  (forall f, i = Some f -> illegal_in_smode f) -> booting s h -> on_frame s h TF_probe ->
  wp (probe_insn i) (fun _ s' => probe_ok s s' h) s.
Proof. intros Hi Hb Hf. eapply wp_mono; [by apply probe_insn_spec|]. by intros b s' [H _]. Qed.

Lemma probe_privileged_isa_spec s h insn p :
  booting s h -> on_frame s h p -> (forall j, p <> TF_thread j) ->
  (forall n f, insn n = Some f -> illegal_in_smode f) ->
  wp (probe_privileged_isa insn) (fun _ s' => booting s' h /\ on_frame s' h p /\
    k_plat s' = k_plat s) s.
Proof.
  intros Hb Hf Hp Hi. unfold probe_privileged_isa, probe_enter, pr_info.
  destruct (frame_cpu_this _ _ _ Hb Hf) as (c & Hc & Ec).
  apply wp_bind, wp_bind. eapply wp_cpu_this; [exact Hc|]. apply wp_bind. rewrite Ec.
  eapply wp_mono; [by apply (booting_frame s h TF_probe)|].
  intros [] s1 (Hb1 & Hf1 & Ep1). apply wp_ret.
  assert (O1 : probe_ok s s1 h) by done.
  eapply (probe_seq _ _ s s1 h); [exact O1|intros; by apply pr_probe|]. clear dependent s1. intros _ s1 O1.
  eapply (probe_seq _ _ s s1 h); [exact O1|intros; by apply probe_one; [apply Hi|..]|].
  clear dependent s1. intros _ s1 O1.
  eapply (probe_seq _ _ s s1 h); [exact O1|intros; by apply probe_one; [apply Hi|..]|].
  clear dependent s1. intros _ s1 O1.
  eapply (probe_seq _ _ s s1 h); [exact O1|intros; by apply probe_one; [apply Hi|..]|].
  clear dependent s1. intros hit s1 O1.
  eapply (probe_seq _ _ s s1 h); [exact O1| |].
  { intros s2 Hb2 Hf2. destruct (negb hit); [|by apply pr_probe].
    apply wp_bind. eapply wp_mono; [by apply probe_one; [apply Hi|..]|]. intros b s3 O3. by apply wp_ret. }
  clear dependent s1. intros _ s1 O1.
  eapply (probe_seq _ _ s s1 h); [exact O1|intros; by apply probe_one; [apply Hi|..]|].
  clear dependent s1. intros _ s1 O1.
  eapply (probe_seq _ _ s s1 h); [exact O1|intros; by apply pr_probe|]. clear dependent s1. intros _ s1 O1.
  destruct O1 as (Hb1 & _ & Ep1). unfold probe_exit.
  eapply wp_mono; [by apply (booting_frame s1 h p)|]. intros [] s2 (Hb2 & Hf2 & Ep2).
  split; [done|]. split; [done|]. congruence.
Qed.

(** ** The first steps of a hart *)

Lemma cpu_init_this_hart_spec s h c :
  hart_ok h -> cpu s h = Some c ->
  wp (cpu_init_this_hart h) (fun _ s' => exists c' d,
    s' = k_set_hw d (k_set_tp h (with_cpu h c' s)) /\ c_cur_tf c' = TF_null /\
    c_online c' = 1 /\ c_hartid c' = h /\ c_idle_tid c' = h /\
    c_kstack_top c' = cpu_kstack_top h) s.
Proof.
  intros Hh Hc. destruct (hart_s32 h Hh) as [Es Eu]. pose proof Hh as [Hh0 Hh1].
  unfold cpu_init_this_hart. rewrite Es, Eu, (proj2 (Z.leb_gt MAX_HARTS h)) by lia. wp_steps.
  rewrite !with_cpu_twice. unfold smp_set_online, sched_init_this_hart.
  set (c1 := c_set_ctx_switches 0 _).
  eapply (wp_upd_cpu h _ c1); [apply cpu_with_cpu_eq|]. wp_step.
  eapply wp_upd_cpu_this; [apply cpu_with_cpu_eq|].
  eapply wp_upd_cpu_this; [apply cpu_with_cpu_eq|]. simpl.
  exists (c_set_slice_left SCHED_SLICE_TICKS (c_set_need_resched 0 (c_set_online 1 c1))), d.
  split; [|done]. unfold with_cpu, k_set_core, k_set_hw, k_set_tp, g_set_cpus. simpl.
  by rewrite !insert_insert_eq.
Qed.

(** A hart that ran no thread is initialised: the others do not notice. *)
Lemma inv_x_init_hart s q h c c' d :
  inv_x none s q -> hart_ok h -> cpu s h = Some c -> ~ live c ->
  ~ live c' -> c_hartid c' = h -> c_idle_tid c' = h ->
  inv_x none (k_set_hw d (k_set_tp h (with_cpu h c' s))) q.
Proof.
  intros [H1 H2 H3 H4 H5 H6 H7 H8 H9 H10 H11 H12 H13] Hh Hc Hnl Hnl' Eh Ei.
  set (s' := k_set_hw d (k_set_tp h (with_cpu h c' s))).
  assert (Hcpu : forall k u, cpu s' k = Some u -> live u -> cpu s k = Some u /\ k <> h).
  { intros k u. change (cpu s' k) with (cpu (with_cpu h c' s) k). rewrite cpu_with_cpu.
    case_decide; [|done]. intros [= <-] Hl. done. }
  assert (Ht : forall i, thr s' i = thr s i) by done.
  split; try done.
  - by eapply queues_state; [..|exact H1].
  - intros k. rewrite H3. change (cpu s' k) with (cpu (with_cpu h c' s) k). rewrite cpu_with_cpu.
    case_decide; [subst k|done]. rewrite Hc. by split; eauto.
  - intros k u. change (cpu s' k) with (cpu (with_cpu h c' s) k). rewrite cpu_with_cpu.
    case_decide; [subst k|apply H7]. intros [= <-]. by split.
  - intros k k' u v Hu Hv Hlu Hlv. destruct (Hcpu k u Hu Hlu) as [Hu' _], (Hcpu k' v Hv Hlv) as [Hv' _].
    by eapply H8.
  - intros k u t Hu Hl. destruct (Hcpu k u Hu Hl) as [Hu' _]. by apply (H11 k u t).
  - intros i t Hti HX H0. destruct (H12 i t Hti HX H0) as (u & Hu & Hl & E).
    exists u. split; [|done]. change (cpu s' (t_running_hart t)) with (cpu (with_cpu h c' s) (t_running_hart t)).
    rewrite cpu_with_cpu. case_decide as E'; [|done]. rewrite <- E', Hc in Hu. by injection Hu as <-.
Qed.

(** ** Secondary harts *)

(** The whole system between two traps. *)
Record sys_ok s : Prop := {
  so_inv : inv s;
  so_devs : devs_ok s;
  so_lock : k_kernel_lock s = 0
}.

Lemma entering_init s h c' d q :
  hart_ok h -> k_kernel_lock s = 0 -> ~ live c' -> c_online c' = 1 -> c_hartid c' = h ->
  c_idle_tid c' = h -> entering (k_set_hw d (k_set_tp h (with_cpu h c' s))) h.
Proof.
  intros Hh Hl Hnl E1 E2 E3. split; [done| |done]. exists c'. split; [|done].
  change (cpu (with_cpu h c' s) h = Some c'). apply cpu_with_cpu_eq.
Qed.

Lemma not_live_null c : c_cur_tf c = TF_null -> ~ live c.
Proof. intros E [j E']. congruence. Qed.

(** A secondary hart from its entry into the kernel to its idle loop. *)
Lemma secondary_spec s h c dtb um se insn :
  sys_ok s -> hart_ok h -> cpu s h = Some c -> ~ live c ->
  wnp (kernel_main h dtb um se insn) (fun _ s' => sys_ok s' /\ idling s' h) s.
Proof.
  intros [[q Hi] [[Hp Hcn] Hd] Hl] Hh Hc Hnl. destruct (hart_s32 h Hh) as [_ Eu].
  assert (Hg : good s) by (split; [done|]; split; [done|]; by eapply inv_tabs).
  unfold kernel_main, kernel_entry. apply wnp_bind, wnp_bind.
  eapply wnp_mono; [by apply calm_banner|]. intros [] s1 S1.
  assert (Hi1 : inv_x none s1 q) by (eapply (inv_x_state none s); [apply S1|apply S1|done]).
  assert (Hc1 : cpu s1 h = Some c) by (unfold cpu; by rewrite (sd_core _ _ S1)).
  apply wnp_bind, wp_wnp. eapply wp_mono; [by apply (cpu_init_this_hart_spec s1 h c)|].
  intros [] s2 (c' & d & -> & Ef & Eo & Eh & Ei & _). pose proof (not_live_null _ Ef) as Hnl'.
  pose proof (inv_x_init_hart s1 q h c c' d Hi1 Hh Hc1 Hnl Hnl' Eh Ei) as Hi2.
  assert (Hl1 : k_kernel_lock s1 = 0) by (by rewrite (sd_lock _ _ S1)).
  pose proof (entering_init s1 h c' d q Hh Hl1 Hnl' Eo Eh Ei) as He2.
  set (s2 := k_set_hw d (k_set_tp h (with_cpu h c' s1))) in *.
  assert (Hg2 : good s2).
  { destruct (sd_good _ _ S1 Hg) as (G1 & G2 & _). split; [done|]. split; [done|]. by eapply inv_tabs. }
  assert (Hd2 : p_g_dtb (k_plat s2) <> 0) by (change (p_g_dtb (k_plat s1) <> 0); by rewrite (sd_dtb _ _ S1)).
  clearbody s2. apply wnp_bind, wnp_gets.
  assert (Hb : g_boot_hartid (k_core s2) <> NO_BOOT_HART).
  { pose proof (ix_boot _ _ _ Hi2) as [? ?]. pose proof MAX_HARTS_ok. unfold NO_BOOT_HART, THREAD_MAX in *. lia. }
  rewrite (proj2 (Z.eqb_neq _ _) Hb). apply wnp_ret.
  apply wnp_calm_bind; [unfold wait_for_smp_boot_done; calm|done|]. intros [] s3 S3.
  unfold secondary_main, platform_secondary_hart_init, pr_info.
  apply wnp_bind, wnp_bind, wnp_gets, wnp_bind.
  apply wp_wnp, wp_ASSERT; [apply negb_true_iff, Z.eqb_neq; by rewrite (sd_dtb _ _ S3)|].
  eapply wnp_mono; [apply calm_plic_init; by apply S3|]. intros [] s4 S4.
  pose proof (transitivity S3 S4) as S24.
  apply wnp_calm_bind; [apply calm_trap_init|by apply S24|]. intros [] s5 S5.
  pose proof (transitivity S24 S5) as S25.
  apply wnp_calm_bind; [apply calm_pr|by apply S25|]. intros [] s6 S6.
  pose proof (transitivity S25 S6) as S26. rewrite Eu.
  eapply wnp_mono; [apply (cpu_enter_idle_spec s6 h q)|].
  - by eapply side_entering.
  - eapply (inv_x_state none s2); [apply S26|apply S26|done].
  - by apply S26.
  - done.
  - intros [] s7 (Hid & (G1 & G2 & _) & Ed). split; [|done].
    pose proof Hid as (_ & Hl7 & q7 & c7 & t7 & [Hi7 _ _ _] & _). split; [by exists q7| |done].
    split; [done|]. by rewrite Ed, (sd_dtb _ _ S26).
Qed.

(** ** The boot hart *)

(** The image satisfies everything that does not need initialisation. *)
Lemma image_good d : good (image d).
Proof.
  pose proof MAX_HARTS_ok. repeat split; simpl; try done; try lia;
    intros i Hi; unfold thr, cpu, rqs; simpl; rewrite lookup_ztable, decide_True by done; eauto.
Qed.

Lemma image_cpu d h : hart_ok h -> cpu (image d) h = Some cpu_zero.
Proof. intros Hh. unfold cpu. simpl. by rewrite lookup_ztable, decide_True. Qed.

Lemma ztable_dom {A} n (x : A) i : is_Some (ztable n x !! i) <-> 0 <= i < n.
Proof.
  rewrite lookup_ztable. case_decide as E.
  - split; intros _; [done|by eexists].
  - split; [by intros [? ?]|intros H; by destruct (E H)].
Qed.

(** [kernel_main] up to the election of the boot hart. *)
Lemma kernel_entry_spec d h dtb :
  hart_ok h ->
  wnp (kernel_entry h dtb) (fun b s => b = true /\ booting s h /\ p_g_dtb (k_plat s) = 0) (image d).
Proof.
  intros Hh. destruct (hart_s32 h Hh) as [_ Eu]. unfold kernel_entry.
  apply wnp_calm_bind; [apply calm_banner|apply image_good|]. intros [] s1 S1.
  assert (Ec : k_core s1 = core_bss) by apply (sd_core _ _ S1).
  assert (Hc1 : cpu s1 h = Some cpu_zero).
  { rewrite <- (image_cpu d h Hh). unfold cpu. by rewrite (sd_core _ _ S1). }
  apply wnp_bind, wp_wnp. eapply wp_mono; [by apply (cpu_init_this_hart_spec s1 h cpu_zero)|].
  intros [] s2 (c & d' & -> & Ef & Eo & Eh & Ei & _). pose proof (not_live_null _ Ef) as Hnl.
  set (s2 := k_set_hw d' (k_set_tp h (with_cpu h c s1))).
  assert (Eb : g_boot_hartid (k_core s2) = NO_BOOT_HART) by (unfold s2; simpl; by rewrite Ec).
  apply wnp_bind, wnp_gets. rewrite Eb. simpl. rewrite Eu.
  apply wnp_bind, wnp_modify, wnp_ret. set (s3 := k_set_core _ s2). split; [done|].
  split; [|apply (sd_dtb _ _ S1)].
  assert (Hcpu : forall k, cpu s3 k = if decide (h = k) then Some c else cpu s1 k).
  { intros k. change (cpu s3 k) with (cpu (with_cpu h c s1) k). apply cpu_with_cpu. }
  assert (Hthr : forall i, thr s3 i = thr (image d) i)
    by (intros i; change (thr s3 i) with (thr s1 i); unfold thr; by rewrite Ec).
  assert (Hrq : forall i, rqs s3 i = rqs (image d) i)
    by (intros i; change (rqs s3 i) with (rqs s1 i); unfold rqs; by rewrite Ec).
  assert (Hcpu1 : forall k, cpu s1 k = cpu (image d) k) by (intros k; unfold cpu; by rewrite Ec).
  assert (Hdom : forall k, hart_ok k <-> is_Some (cpu s3 k)).
  { intros k. rewrite Hcpu. case_decide; [subst k; split; eauto; by intros|].
    rewrite Hcpu1. unfold cpu. simpl. by rewrite ztable_dom. }
  split.
  - destruct (sd_good _ _ S1 (image_good d)) as (G1 & G2 & _). split; [done|]. split; [done|].
    split; [intros i Hi; rewrite Hthr; unfold thr; simpl; by rewrite ztable_dom|].
    split; [intros k Hk; by apply Hdom|].
    split; [intros k Hk; rewrite Hrq; unfold rqs; simpl; by rewrite ztable_dom|done].
  - split; [done| |apply (sd_lock _ _ S1)]. exists c. split; [|done].
    rewrite Hcpu. by rewrite decide_True.
  - split; try done.
    + intros i. rewrite Hthr. unfold thr. simpl. by rewrite ztable_dom.
    + intros k Hk. rewrite Hrq. unfold rqs. simpl. by rewrite ztable_dom.
    + intros k u. rewrite Hcpu, Hcpu1. case_decide; [subst k; intros [= <-]; by split|].
      unfold cpu. simpl. rewrite lookup_ztable. case_decide; [|done]. intros [= <-].
      split; [|by intros []]. split; [done|by intros []].
    + exists c. split; [|done]. rewrite Hcpu. by rewrite decide_True.
    + unfold s3, s2. simpl. rewrite Ec. simpl. unfold THREAD_MAX. lia.
Qed.

(** The device tree is recorded, then the devices are initialised. *)
Lemma platform_init_spec s h hid dtb :
  booting s h -> p_g_dtb (k_plat s) = 0 -> dtb <> 0 ->
  wnp (platform_init hid dtb) (fun _ s' => booting s' h /\ p_g_dtb (k_plat s') = dtb) s.
Proof.
  intros Hb H0 Hd. unfold platform_init, platform_set_dtb, platform_uart_init, platform_rtc_init, platform_timer_init, platform_plic_init. rewrite (proj2 (Z.eqb_neq dtb 0)) by done.
  apply wnp_bind, wnp_bind, wnp_gets. rewrite H0. simpl. apply wnp_modify.
  set (s1 := k_set_plat _ s).
  assert (Hb1 : booting s1 h).
  { destruct Hb as [(G1 & G2 & G3) He [T1 T2 T3 T4 T5 T6 T7 T8]]. split; [|by destruct He|by split].
    split; [by destruct G1|done]. }
  assert (Hc : calm (uart16550_init ;; ret tt ;; timer_init ;; plic_init_s_mode ;; platform_irq_table_init))
    by calm.
  eapply wnp_mono; [apply Hc, Hb1|]. intros [] s2 S2. split; [by eapply side_booting|].
  by rewrite (sd_dtb _ _ S2).
Qed.

Lemma boot_hart_init_spec s h hid :
  booting s h -> p_g_dtb (k_plat s) <> 0 ->
  wnp (platform_boot_hart_init hid) (fun _ s' => side s s') s.
Proof.
  intros Hb Hd. unfold platform_boot_hart_init, uart16550_get_irq. apply wnp_bind, wnp_gets, wnp_bind.
  apply wp_wnp, wp_ASSERT; [by apply negb_true_iff, Z.eqb_neq|].
  apply wnp_bind, wnp_gets. apply calm_register; apply Hb.
Qed.

Lemma console_init_spec s h p :
  booting s h -> on_frame s h p ->
  wp console_init (fun _ s' => booting s' h /\ on_frame s' h p /\ k_plat s' = k_plat s) s.
Proof.
  intros [(G1 & (G2 & _ & _) & G3) [E1 (c & Hc & E2) E3] [T1 T2 T3 T4 T5 T6 T7 T8]] Hf.
  unfold console_init, upd_con. wp_steps. split; [|done]. split.
  - split; [done|]. split; [|done]. by split.
  - split; try done. by exists c.
  - by split.
Qed.

(** The illegal instructions the probe may meet are taken in S-mode. *)
Definition probes_ok (insn : nat -> option trapframe) : Prop :=
  forall n f, insn n = Some f -> illegal_in_smode f.

(** The system right after [threads_init], on the boot hart. *)
Lemma after_threads s s' um h :
  booting s h -> p_g_dtb (k_plat s) <> 0 -> threads_ready s s' um ->
  inv s' /\ good s' /\ entering s' h /\ p_g_dtb (k_plat s') <> 0.
Proof.
  intros [(G1 & G2 & _) [<- (c & Hc & Hnl & Eo & Eh & Ei) Hl] _] Hd
    [[q Hi] _ _ _ Tc _ Ttp Tl _ Tcon Tp].
  split; [by exists q|]. split.
  - unfold good. rewrite Tcon, Tp. split; [done|]. split; [done|]. by eapply inv_tabs.
  - rewrite Tp. split; [|done]. split; [done| |by rewrite Tl].
    specialize (Tc (k_tp s)). rewrite Hc in Tc. inversion Tc as [? c' Hh|]; subst.
    exists c'. split; [done|]. destruct Hh as (H1 & H2 & H3 & _ & H5 & _). rewrite H2, H3, H5.
    split; [|done]. unfold live. by rewrite H1.
Qed.

Lemma primary_init_spec s h dtb um se insn :
  booting s h -> hart_ok h -> p_g_dtb (k_plat s) = 0 -> dtb <> 0 -> MAX_HARTS <= 32 ->
  probes_ok insn ->
  wnp (primary_init h dtb um se insn)
    (fun _ s' => inv s' /\ good s' /\ entering s' h /\ p_g_dtb (k_plat s') <> 0) s.
Proof.
  intros Hb Hh H0 Hd H32 Hpr. unfold primary_init, trap_install_bootstrap_tf, pr_info.
  apply wnp_bind. eapply wnp_mono; [by apply (platform_init_spec s h)|]. intros [] s1 [Hb1 Ed1].
  apply wnp_bind. eapply wnp_mono; [apply (boot_hart_init_spec s1 h); [done|congruence]|].
  intros [] s2 S2. pose proof (side_booting _ _ _ S2 Hb1) as Hb2.
  apply wnp_calm_bind; [calm|apply Hb2|]. intros [] s3 S3. pose proof (side_booting _ _ _ S3 Hb2) as Hb3.
  apply wnp_calm_bind; [apply calm_trap_init|apply Hb3|]. intros [] s4 S4.
  pose proof (side_booting _ _ _ S4 Hb3) as Hb4.
  assert (Ed4 : p_g_dtb (k_plat s4) <> 0) by (rewrite (sd_dtb _ _ S4), (sd_dtb _ _ S3), (sd_dtb _ _ S2); congruence).
  apply wnp_wp_bind. eapply wp_mono; [by apply (booting_frame s4 h TF_bootstrap)|].
  intros [] s5 (Hb5 & Hf5 & Ep5).
  apply wnp_wp_bind. eapply wp_mono; [by apply (console_init_spec s5 h TF_bootstrap)|].
  intros [] s6 (Hb6 & Hf6 & Ep6).
  apply wnp_wp_bind. eapply wp_mono; [by apply (probe_privileged_isa_spec s6 h insn TF_bootstrap)|].
  intros [] s7 (Hb7 & _ & Ep7).
  apply wnp_calm_bind; [apply calm_time_init|apply Hb7|]. intros [] s8 S8.
  pose proof (side_booting _ _ _ S8 Hb7) as Hb8.
  assert (Ed8 : p_g_dtb (k_plat s8) <> 0) by (rewrite (sd_dtb _ _ S8), Ep7, Ep6, Ep5; done).
  apply wnp_wp_bind. eapply wp_mono; [apply (threads_init_spec s8), Hb8|]. intros [] s9 Ht.
  destruct (after_threads s8 s9 um h Hb8 Ed8 Ht) as ([q Hi9] & Hg9 & He9 & Ed9).
  clear dependent s1 s2 s3 s4 s5 s6 s7 s8.
  unfold set_smp_boot_done. apply wnp_bind, wnp_modify. set (s10 := k_set_core _ s9).
  assert (Hi10 : inv_x none s10 q).
  { eapply (inv_x_core none s9); [exact Hi9|done..|apply (ix_stdin _ _ _ Hi9)]. }
  assert (Hg10 : good s10) by (destruct Hg9 as (G1 & G2 & _); split; [done|]; split; [done|]; by eapply inv_tabs).
  assert (He10 : entering s10 h).
  { destruct He9 as [E1 (c & Hc & E2) E3]. split; try done. by exists c. }
  assert (Ed10 : p_g_dtb (k_plat s10) <> 0) by done. clearbody s10. clear dependent s9.
  unfold start_other_harts. apply wnp_bind, wnp_bind, wnp_gets, wnp_bind, wp_wnp, wp_ASSERT.
  { apply negb_true_iff, Z.eqb_neq. destruct (ix_boot _ _ _ Hi10). pose proof MAX_HARTS_ok.
    unfold NO_BOOT_HART, THREAD_MAX in *. lia. }
  apply wnp_calm_bind; [apply calm_sched_delta|done|]. intros dl s11 S11.
  eapply wnp_mono; [apply calm_start_loop; [lia|pose proof MAX_HARTS_ok; lia|done|apply S11, Hg10]|].
  intros ms s12 S12. pose proof (transitivity S11 S12) as S.
  apply wnp_calm_bind; [apply calm_pr|by apply S|]. intros [] s13 S13.
  eapply wnp_mono; [apply calm_pr; by apply S13, S|]. intros [] s14 S14.
  pose proof (transitivity S (transitivity S13 S14)) as S15.
  split; [exists q; by eapply (inv_x_state none s10); [apply S15|apply S15|]|].
  split; [by apply S15|]. split; [by eapply side_entering|by rewrite (sd_dtb _ _ S15)].
Qed.

(** The boot hart from its entry into the kernel to its idle loop. *)
Lemma boot_spec d h dtb um se insn :
  hart_ok h -> dtb <> 0 -> MAX_HARTS <= 32 -> probes_ok insn ->
  wnp (kernel_main h dtb um se insn) (fun _ s' => sys_ok s' /\ idling s' h) (image d).
Proof.
  intros Hh Hd H32 Hpr. destruct (hart_s32 h Hh) as [_ Eu]. unfold kernel_main, primary_main.
  apply wnp_bind. eapply wnp_mono; [by apply kernel_entry_spec|]. intros b s1 (-> & Hb & H0).
  apply wnp_bind. eapply wnp_mono; [by apply primary_init_spec|].
  intros [] s2 ([q Hi] & Hg & He & Ed). rewrite Eu.
  eapply wnp_mono; [by apply (cpu_enter_idle_spec s2 h q)|].
  intros [] s3 (Hid & (G1 & G2 & _) & Ed'). split; [|done].
  pose proof Hid as (_ & Hl & q3 & c3 & t3 & [Hi3 _ _ _] & _). split; [by exists q3| |done].
  split; [done|]. by rewrite Ed'.
Qed.

End boot_spec.
