(* ===== verification/System.v ===== *)
(** * The running system

    A step relation over whole kernel states: any live hart takes a trap, a hart
    that is not live yet is started, and the world outside the kernel (user
    memory, devices) changes at will.  Every state reachable from the boot image
    satisfies the kernel's invariant, and no trap the kernel supports stops it. *)
From stdpp Require Import base numbers list gmap strings relations.
From Stdlib Require Import ZArith Lia.
From S2P Require Import Prelude Mem Machine State Kernel Image RunQueue Smp Thread Uart Plic Platform Console Irq Sysfile Trap Boot Invariant ThreadSpec SchedSpec ThreadOps ThreadKill ThreadCreate Snapshot Quiet Within Syscalls TrapSpec BootThreads BootSpec.

Local Open Scope Z_scope.

Section system.
Context {cfg : Config} {hws : Hardware} {dt : DeviceTree}.
Implicit Types (s : kstate) (q : Z -> list Z) (c : cpu_t) (t u : Thread) (f : trapframe).

(** Hart [h] traps with registers [f], in thread [t] of the hart [c]. *)
Record traps s (h : Z) f c t : Prop := {
  tk_cpu : cpu s h = Some c;
  tk_live : live c;
  tk_thr : thr s (c_current_tid c) = Some t;
  tk_supported : supported s c (t_set_tf f t)
}.

(** One step of the system.  Traps on different harts interleave between the
    acquisition and the release of the big lock, so a handled trap is one step;
    the start of a secondary hart, which runs before that hart takes its first
    trap, is one step too. *)
Inductive step : kstate -> kstate -> Prop :=
| step_trap s h f c t s' :
    traps s h f c t -> trap_entry f (k_set_tp h s) = Ret (tt, s') -> step s s'
| step_secondary s h c dtb um se insn s' :
    hart_ok h -> cpu s h = Some c -> ~ live c ->
    kernel_main h dtb um se insn s = Ret (tt, s') -> step s s'
| step_memory s m : step s (k_set_umem m s)
| step_devices s d : step s (k_set_hw d s).

(** The states of a system booted on hart [h0]. *)
Definition booted s : Prop :=
  exists d h0 dtb um se insn, hart_ok h0 /\ dtb <> 0 /\ MAX_HARTS <= 32 /\ probes_ok insn /\
    kernel_main h0 dtb um se insn (image d) = Ret (tt, s).
Definition reachable s : Prop := exists s0, booted s0 /\ rtc step s0 s.

(** ** A trap, from the registers of the interrupted thread *)

Lemma inv_x_set_tp s q h : inv_x none s q -> hart_ok h -> inv_x none (k_set_tp h s) q.
Proof. intros [H1 H2 H3 H4 H5 H6 H7 H8 H9 H10 H11 H12 H13] Hh. split; try done.
  by eapply queues_state; [..|exact H1]. Qed.

Lemma supported_tf s i t t' c u :
  thr s i = Some t -> skel t' = skel t -> supported s c u -> supported (with_thread i t' s) c u.
Proof.
  intros Ht E.
  assert (E1 : t_state t' = t_state t) by (unfold skel in E; by injection E).
  assert (E2 : t_running_hart t' = t_running_hart t) by (unfold skel in E; by injection E).
  unfold supported. destruct (scause_is_interrupt _); [done|].
  intros [Ha [Hm [[-> (H1 & H2 & H3)]|Hr]]]; (split; [done|]; split; [done|]); [left|by right].
  split; [done|]. split; [done|]. split.
  - intros Hs. by eapply settled_tf; [..|apply H2].
  - intros Hk. by eapply not_joining_tf; [..|apply H3].
Qed.

Lemma trap_entry_spec s q c t f :
  running s q c t -> devs_ok s -> k_kernel_lock s = 0 -> supported s c (t_set_tf f t) ->
  wnp (trap_entry f) (fun _ s' => served s s') s.
Proof.
  intros Hr Hd Hl Hsup. pose proof (going_start _ _ _ _ Hr Hd) as G. unfold trap_entry.
  apply wnp_bind, (wnp_going_this s s q c t); [done|].
  destruct (running_facts _ _ _ _ Hr) as (_ & _ & _ & Ef & _). rewrite Ef.
  rewrite bool_decide_eq_false_2 by done. rewrite <- Ef.
  apply wnp_bind, (wnp_upd_tf s s q c t); [done|]. intros s1 -> [S1 Hr1].
  set (s1 := with_thread _ _ s) in *.
  apply wnp_bind. eapply wnp_mono; [apply (trap_entry_c_spec s1 q c _ Hr1 (proj2 S1) Hl)|].
  { eapply supported_tf; [apply Hr|done|done]. }
  intros tf s2 [S2 (q2 & c2 & t2 & Hr2 & ->)].
  apply (wnp_going_cpu s1 s2 q2 c2 t2); [by split|by split_and!|]. intros s3 [S3 _].
  by eapply served_trans.
Qed.

Lemma traps_running s h f c t :
  sys_ok s -> traps s h f c t -> exists q,
    running (k_set_tp h s) q c t /\ devs_ok (k_set_tp h s) /\ k_kernel_lock (k_set_tp h s) = 0 /\
    supported (k_set_tp h s) c (t_set_tf f t).
Proof.
  intros [[q Hi] Hd Hl] [Hc Hlv Ht Hs]. exists q. split; [|done]. split; try done.
  apply inv_x_set_tp; [done|]. by apply (ix_cpu_dom _ _ _ Hi); eexists.
Qed.

(** A supported trap on any hart keeps the system well formed, and the hart live. *)
Lemma trap_keeps s h f c t :
  sys_ok s -> traps s h f c t ->
  wnp (trap_entry f) (fun _ s' => sys_ok s' /\ k_tp s' = h /\
    exists c', cpu s' h = Some c' /\ live c') (k_set_tp h s).
Proof.
  intros Hs Htr. destruct (traps_running _ _ _ _ _ Hs Htr) as (q & Hr & Hd & Hl & Hsup).
  eapply wnp_mono; [by eapply trap_entry_spec|]. intros _ s' [[K1 K2 K3 K4] D].
  split; [|by split]. split; [done|done|]. by rewrite K3.
Qed.

(** ** Every reachable state *)

Lemma step_ok s s' : sys_ok s -> step s s' -> sys_ok s'.
Proof.
  intros Hs. destruct 1 as [s h f c t s' Htr E|s h c dtb um se insn s' Hh Hc Hnl E|s m|s d].
  - pose proof (trap_keeps _ _ _ _ _ Hs Htr) as W. unfold wnp in W. rewrite E in W. apply W.
  - pose proof (secondary_spec s h c dtb um se insn Hs Hh Hc Hnl) as W.
    unfold wnp in W. rewrite E in W. apply W.
  - destruct Hs as [[q Hi] Hd Hl]. split; [|done|done]. exists q. by apply (inv_x_state none s).
  - destruct Hs as [[q Hi] Hd Hl]. split; [|done|done]. exists q. by apply (inv_x_state none s).
Qed.

Lemma booted_ok s : booted s -> sys_ok s.
Proof.
  intros (d & h & dtb & um & se & insn & Hh & Hd & H32 & Hp & E).
  pose proof (boot_spec d h dtb um se insn Hh Hd H32 Hp) as W. unfold wnp in W. rewrite E in W.
  apply W.
Qed.

Lemma reachable_ok s : reachable s -> sys_ok s.
Proof.
  intros (s0 & Hb & Hr). apply booted_ok in Hb. induction Hr; [done|].
  apply IHHr. by eapply step_ok.
Qed.

End system.
