(* ===== verification/Demo.v ===== *)
(** * A concrete system

    The two-hart build of [Image] with an empty device tree: its boot, the start
    of its second hart and a first few traps, evaluated.  The theorems of the
    development are instantiated on these states. *)
From stdpp Require Import base numbers list gmap strings relations.
From Stdlib Require Import ZArith Lia.
From S2P Require Import Prelude Mem Machine State Kernel Image RunQueue Smp Thread Uart Plic Platform Console Irq Sysfile Trap Boot Invariant ThreadSpec SchedSpec ThreadOps ThreadKill ThreadCreate Snapshot Quiet Within Syscalls TrapSpec BootThreads BootSpec System.

Local Open Scope Z_scope.

#[export] Existing Instance demo_config.
#[export] Existing Instance demo_hardware.

(** A device tree without a single node. *)
#[export] Instance demo_tree : DeviceTree := {|
  fdt_path_offset := fun _ _ => -1;
  fdt_node_offset_by_compatible := fun _ _ _ => -1;
  fdt_getprop := fun _ _ _ => None
|}.

(** The state a run ends in, when it returns. *)
Definition final (r : outcome (unit * kstate)) : kstate :=
  match r with Ret (_, s) => s | _ => image 0 end.
Definition returns {A} (r : outcome A) : bool := match r with Ret _ => true | _ => false end.

Lemma final_eq r : returns r = true -> r = Ret (tt, final r).
Proof. by destruct r as [[[] s]| | |]. Qed.

(** The registers of a trap: its cause and the argument registers. *)
Definition regs (scause a0 a1 a2 a3 : Z) : trapframe :=
  {| f_ra := 0; f_sp := 0; f_gp := 0; f_tp := 0; f_t0 := 0; f_t1 := 0; f_t2 := 0; f_s0 := 0; f_s1 := 0;
     f_a0 := a0; f_a1 := a1; f_a2 := a2; f_a3 := a3; f_a4 := 0; f_a5 := 0; f_a6 := 0; f_a7 := 0;
     f_s2 := 0; f_s3 := 0; f_s4 := 0; f_s5 := 0; f_s6 := 0; f_s7 := 0; f_s8 := 0; f_s9 := 0;
     f_s10 := 0; f_s11 := 0; f_t3 := 0; f_t4 := 0; f_t5 := 0; f_t6 := 0;
     f_sepc := 4096; f_sstatus := 0; f_scause := scause; f_stval := 0; f_pad := 0 |}.
Definition ipi : trapframe := regs (SCAUSE_INT + IRQ_SOFT_S) 0 0 0 0.
Definition ecall (n a1 a2 a3 : Z) : trapframe := regs EXC_ENV_CALL_U n a1 a2 a3.

Definition boot_run : outcome (unit * kstate) :=
  kernel_main 0 2281701376 2147500000 2147484000 (fun _ => None) (image (0 : @dev demo_hardware)).
Definition demo_boot : kstate := final boot_run.
Definition trap_run (h : Z) (f : trapframe) (s : kstate) : outcome (unit * kstate) :=
  trap_entry f (k_set_tp h s).
(** Hart 0 takes an IPI and switches from its idle thread to [user_main], which
    creates a second user thread. *)
Definition demo_user : kstate := final (trap_run 0 ipi demo_boot).
Definition demo_two : kstate :=
  final (trap_run 0 (ecall SYS_THREAD_CREATE 2147600000 7 0) demo_user).

Definition cpu_at s h : cpu_t := default cpu_zero (cpu s h).
Definition thr_at s i : Thread := default Thread_zero (thr s i).

Lemma cpu_at_eq s h : bool_decide (is_Some (cpu s h)) = true -> cpu s h = Some (cpu_at s h).
Proof. intros H. apply bool_decide_eq_true in H as [c Hc]. unfold cpu_at. by rewrite Hc. Qed.
Lemma thr_at_eq s i : bool_decide (is_Some (thr s i)) = true -> thr s i = Some (thr_at s i).
Proof. intros H. apply bool_decide_eq_true in H as [t Ht]. unfold thr_at. by rewrite Ht. Qed.

(** A hart runs the thread its trap frame pointer names. *)
Definition live_b (c : cpu_t) : bool := match c_cur_tf c with TF_thread _ => true | _ => false end.
Lemma live_b_true c : live_b c = true -> live c.
Proof. unfold live_b, live. destruct (c_cur_tf c); try done. by eexists. Qed.
Lemma live_b_false c : live_b c = false -> ~ live c.
Proof. unfold live_b. intros H [j E]. by rewrite E in H. Qed.

(** Conversion is to compare runs by name, not to evaluate them; [vm_compute]
    does the evaluation. *)
#[local] Strategy opaque [kernel_main trap_entry].

Lemma boot_returns : returns boot_run = true.
Proof. vm_compute. reflexivity. Qed.
Lemma boot_eq :
  kernel_main 0 2281701376 2147500000 2147484000 (fun _ => None) (image (0 : @dev demo_hardware)) =
  Ret (tt, demo_boot).
Proof. exact (final_eq boot_run boot_returns). Qed.

Lemma demo_booted : booted demo_boot.
Proof.
  exists (0 : @dev demo_hardware), 0, 2281701376, 2147500000, 2147484000, (fun _ => None).
  split; [done|]. split; [done|]. split; [done|]. split; [done|].
  exact boot_eq.
Qed.

(** One more trap of hart [h], in the thread it runs. *)
Lemma reach_trap s h f :
  reachable s -> bool_decide (is_Some (cpu s h)) = true -> live_b (cpu_at s h) = true ->
  bool_decide (is_Some (thr s (c_current_tid (cpu_at s h)))) = true ->
  supported s (cpu_at s h) (t_set_tf f (thr_at s (c_current_tid (cpu_at s h)))) ->
  returns (trap_run h f s) = true -> reachable (final (trap_run h f s)).
Proof.
  intros (s0 & Hb & Hr) Hc Hl Ht Hs Hret. exists s0. split; [done|]. eapply rtc_r; [exact Hr|].
  eapply step_trap; [|by apply final_eq]. split; [by apply cpu_at_eq|by apply live_b_true| |exact Hs].
  by apply thr_at_eq.
Qed.

Lemma demo_boot_reachable : reachable demo_boot.
Proof. exists demo_boot. split; [exact demo_booted|apply rtc_refl]. Qed.

Lemma demo_user_reachable : reachable demo_user.
Proof.
  apply (reach_trap demo_boot 0 ipi demo_boot_reachable); try (vm_compute; reflexivity).
  vm_compute. by left.
Qed.

(** System calls without a guard are always supported. *)
Lemma user_call s c t n a1 a2 a3 :
  active c t -> SYS_SLEEP <= n <= SYS_RUNQUEUE_SNAPSHOT ->
  n <> SYS_THREAD_JOIN -> n <> SYS_THREAD_DETACH -> n <> SYS_THREAD_KILL ->
  supported s c (t_set_tf (ecall n a1 a2 a3) t).
Proof.
  intros [Hu Hst] Hn H1 H2 H3. split; [by split|]. split; [done|]. left. split; [done|].
  split; [done|]. split; [by intros [|]|done].
Qed.

Lemma active_b s h :
  (MAX_HARTS <=? c_current_tid (cpu_at s h)) && (c_current_tid (cpu_at s h) <? THREAD_MAX) &&
  state_eqb (t_state (thr_at s (c_current_tid (cpu_at s h)))) THREAD_RUNNING = true ->
  active (cpu_at s h) (thr_at s (c_current_tid (cpu_at s h))).
Proof.
  intros H. apply andb_true_iff in H as [H H3]. apply andb_true_iff in H as [H1 H2].
  split; [split; lia|]. by apply bool_decide_eq_true in H3.
Qed.

Lemma demo_two_reachable : reachable demo_two.
Proof.
  apply (reach_trap demo_user 0 _ demo_user_reachable); try (vm_compute; reflexivity).
  apply user_call; [apply active_b|done..]. vm_compute. reflexivity.
Qed.

Lemma demo_current : c_current_tid (cpu_at demo_two 0) = 2.
Proof. vm_compute. reflexivity. Qed.

Lemma demo_running :
  exists q, running demo_two q (cpu_at demo_two 0) (thr_at demo_two 2).
Proof.
  destruct (reachable_ok _ demo_two_reachable) as [[q Hi] _ _]. exists q. split; [done| | |].
  - change (k_tp demo_two) with 0. apply cpu_at_eq. vm_compute. reflexivity.
  - apply live_b_true. vm_compute. reflexivity.
  - rewrite demo_current.
    apply thr_at_eq. vm_compute. reflexivity.
Qed.

(** The second thread waits in the queue of hart 0. *)
Lemma demo_queue q : queues demo_two q -> q 0 = [3].
Proof.
  intros Hq. destruct (queues_rep _ _ Hq 0) as (r & Er & Eh & _ & El & _); [done|].
  assert (E : rqs demo_two 0 = Some {| r_head := 3; r_tail := 3; r_len := 1 |}) by (vm_compute; reflexivity).
  rewrite E in Er. injection Er as <-. cbn in Eh, El.
  clear Hq E. destruct (q 0) as [|i [|j l]]; cbn in Eh, El; [done|by subst|lia].
Qed.

Lemma demo_active : active (cpu_at demo_two 0) (thr_at demo_two 2).
Proof.
  pose proof (active_b demo_two 0) as H. rewrite demo_current in H. apply H. vm_compute. reflexivity.
Qed.
