(* ===== verification/SystemTheorems.v ===== *)
(** * What the kernel guarantees

    The properties of the system as a whole: boot, traps, the invariant of every
    reachable state and its consequences, and the fairness of the run queues. *)
From stdpp Require Import base numbers list gmap strings relations.
From Stdlib Require Import ZArith Lia.
From S2P Require Import Prelude Mem Machine State Kernel Image RunQueue Smp Thread Uart Plic Platform Console Irq Sysfile Trap Boot Invariant ThreadSpec SchedSpec ThreadOps ThreadKill ThreadCreate Snapshot Quiet Within Syscalls TrapSpec BootThreads BootSpec System Demo.

Local Open Scope Z_scope.

Section guarantees.
Context {cfg : Config} {hws : Hardware} {dt : DeviceTree}.
Implicit Types (s : kstate) (q : Z -> list Z) (c : cpu_t) (t u : Thread) (f : trapframe).

(** ** Boot *)

(** C3: the first hart to enter the kernel elects itself boot hart, brings
    the whole system up and ends in its idle thread with the invariant
    established, the devices usable and the big lock free: whatever the devices,
    the firmware and the device tree do, no assertion fails and no access is
    undefined, provided the build has at most 32 harts. *)
Theorem boot_establishes_invariant d h dtb um se insn :
  hart_ok h -> dtb <> 0 -> MAX_HARTS <= 32 -> probes_ok insn ->
  wnp (kernel_main h dtb um se insn) (fun _ s' =>
    inv s' /\ devs_ok s' /\ k_kernel_lock s' = 0 /\ k_tp s' = h /\
    exists c t, cpu s' h = Some c /\ c_current_tid c = h /\ c_cur_tf c = TF_thread h /\
      thr s' h = Some t /\ t_state t = THREAD_RUNNING) (image d).
Proof.
  intros Hh Hd H32 Hp. eapply wnp_mono; [by apply boot_spec|].
  intros _ s' [[Hi Hv Hl] (Htp & _ & q & c & t & [Hq Hc Hlv Ht] & Ecur & Est)].
  repeat (split; [done|]). exists c, t. rewrite Htp in Hc. rewrite Ecur in Ht.
  split; [done|]. split; [done|]. split; [|done].
  destruct (ix_cpu _ _ _ Hq _ _ Hc) as [_ Hb]. destruct (Hb Hlv) as (_ & -> & _). by rewrite Ecur.
Qed.

(** C16: a secondary hart, started while the system runs, joins it without
    disturbing anything: the invariant still holds when it reaches its idle
    loop. *)
Theorem secondary_hart_joins s h c dtb um se insn :
  sys_ok s -> hart_ok h -> cpu s h = Some c -> ~ live c ->
  wnp (kernel_main h dtb um se insn) (fun _ s' =>
    sys_ok s' /\ exists c', cpu s' h = Some c' /\ live c' /\ c_current_tid c' = h) s.
Proof.
  intros Hs Hh Hc Hl. eapply wnp_mono; [by apply (secondary_spec s h c)|].
  intros _ s' [Hs' (Htp & _ & q & c' & t & [_ Hc' Hlv _] & Ecur & _)].
  split; [done|]. exists c'. by rewrite Htp in Hc'.
Qed.

(** ** Every reachable state *)

(** C2: in every state the system reaches from boot through any interleaving
    of supported traps on any harts, starts of harts, and changes of user memory
    and device state, the kernel's invariant holds, the devices are usable and
    the big lock is free. *)
Theorem reachable_invariant s :
  reachable s -> inv s /\ devs_ok s /\ k_kernel_lock s = 0.
Proof. intros [Hi Hd Hl]%reachable_ok. by split. Qed.

(** C1: no supported trap stops a reachable system: its handler does not
    panic and performs no undefined access, and if it returns (it may wait for a
    device) the hart runs a thread again in a reachable state. *)
Theorem supported_traps_are_safe s h f c t :
  reachable s -> traps s h f c t ->
  match trap_entry f (k_set_tp h s) with
  | Ret (_, s') => reachable s' /\ exists c', cpu s' h = Some c' /\ live c'
  | Diverge => True
  | Panic | Undef => False
  end.
Proof.
  intros Hr Htr. pose proof (trap_keeps _ _ _ _ _ (reachable_ok _ Hr) Htr) as W. unfold wnp in W.
  destruct (trap_entry f (k_set_tp h s)) as [[[] s']| | |] eqn:E; try done.
  split; [|apply W]. destruct Hr as (s0 & Hb & Hr). exists s0. split; [done|].
  eapply rtc_r; [exact Hr|]. by eapply step_trap.
Qed.

(** No thread runs on two harts, and a thread and the hart that runs it know each
    other. *)
Lemma running_threads_exclusive s h c :
  reachable s -> cpu s h = Some c -> live c ->
  c_cur_tf c = TF_thread (c_current_tid c) /\
  (exists t, thr s (c_current_tid c) = Some t /\ t_running_hart t = h) /\
  (forall h' c', cpu s h' = Some c' -> live c' -> c_current_tid c' = c_current_tid c -> h' = h).
Proof.
  intros [[q Hi] _ _]%reachable_ok Hc Hl. destruct (ix_cpu _ _ _ Hi h c Hc) as [_ Hb].
  destruct (Hb Hl) as (_ & Ef & Hcur). split; [done|]. split.
  - assert (tid_ok (c_current_tid c)) as Hok.
    { destruct Hcur as [-> |?]; [|by apply user_tid_ok].
      assert (hart_ok h) as [? ?] by (apply (ix_cpu_dom _ _ _ Hi); by eexists).
      pose proof MAX_HARTS_ok. split; lia. }
    apply (ix_thr_dom _ _ _ Hi) in Hok as [t Ht]. exists t. split; [done|].
    exact (ix_run1 _ _ _ Hi h c t Hc Hl (fun H => H) Ht).
  - intros h' c' Hc' Hl' E. exact (ix_inj _ _ _ Hi h' h c' c Hc' Hc Hl' Hl E).
Qed.

(** A user thread is RUNNABLE exactly when it is in the run queue of some hart. *)
Lemma runnable_iff_queued s :
  reachable s -> exists q, queues s q /\
    (forall h i, hart_ok h -> i ∈ q h -> user_tid i) /\
    (forall i t, user_tid i -> thr s i = Some t ->
       (t_state t = THREAD_RUNNABLE <-> exists h, hart_ok h /\ i ∈ q h) /\
       (t_on_rq t = 1 <-> t_state t = THREAD_RUNNABLE)) /\
    (forall h h' i, hart_ok h -> hart_ok h' -> i ∈ q h -> i ∈ q h' -> h = h') /\
    (forall h, hart_ok h -> NoDup (q h)).
Proof.
  intros [[q Hi] _ _]%reachable_ok. exists q. pose proof (ix_queues _ _ _ Hi) as Hq.
  split; [done|]. split; [apply (queues_valid _ _ Hq)|]. split; [|by split; destruct Hq].
  intros i t [Hlo _] Ht. destruct (ix_thr _ _ _ Hi i t Ht (fun H => H)) as (Hrq & _).
  specialize (Hrq Hlo). rewrite Hrq.
  destruct (queues_on_rq _ _ Hq i t Ht) as [[-> Hin]|[-> Hout]]; (split; split); try done.
  intros (h & Hh & Hin). by destruct (Hout h Hh).
Qed.

(** C9: in a reachable state no thread runs on two harts, and a thread and the hart
    that runs it know each other; a user thread is RUNNABLE exactly when it is in the
    run queue of some hart; it is then in only one, and only once; the [on_rq] flag
    says so; and no idle thread is ever queued. *)
Theorem threads_run_or_queue s :
  reachable s ->
  (forall h c, cpu s h = Some c -> live c ->
     c_cur_tf c = TF_thread (c_current_tid c) /\
     (exists t, thr s (c_current_tid c) = Some t /\ t_running_hart t = h) /\
     (forall h' c', cpu s h' = Some c' -> live c' -> c_current_tid c' = c_current_tid c -> h' = h)) /\
  exists q, queues s q /\
    (forall h i, hart_ok h -> i ∈ q h -> user_tid i) /\
    (forall i t, user_tid i -> thr s i = Some t ->
       (t_state t = THREAD_RUNNABLE <-> exists h, hart_ok h /\ i ∈ q h) /\
       (t_on_rq t = 1 <-> t_state t = THREAD_RUNNABLE)) /\
    (forall h h' i, hart_ok h -> hart_ok h' -> i ∈ q h -> i ∈ q h' -> h = h') /\
    (forall h, hart_ok h -> NoDup (q h)).
Proof.
  intros Hr. split; [|by apply runnable_iff_queued]. intros h c. by apply running_threads_exclusive.
Qed.

(** ** Fairness *)

(** The current thread of this hart gives up the hart [n] times in a row. *)
Fixpoint yields (n : nat) : M kstate unit :=
  match n with
  | O => ret tt
  | Datatypes.S n' => c <- cpu_this ;; thread_sys_yield (c_cur_tf c) ;; yields n'
  end.

Lemma yield_step s q c t j l :
  running s q c t -> q (k_tp s) = j :: l ->
  wp (thread_sys_yield (c_cur_tf c)) (fun _ s' => k_tp s' = k_tp s /\
    exists q' c' t' l', running s' q' c' t' /\ c_current_tid c' = j /\ q' (k_tp s) = l ++ l') s.
Proof.
  intros Hr Eq. eapply wp_mono; [by apply (thread_sys_yield_spec s q c t)|].
  intros _ s' [K (next & [En Hi Hc _ _ _ _])]. split; [apply K|].
  set (h := k_tp s) in *. set (q1 := requeue q h (c_current_tid c) t) in *.
  assert (exists l', q1 h = j :: l ++ l') as [l' E1].
  { unfold q1, requeue. case_bool_decide; [|exists []; by rewrite app_nil_r].
    exists [c_current_tid c]. unfold q_push. by rewrite upd_q_eq, Eq. }
  assert (next = j) as ->. { rewrite En. unfold next_of. by rewrite E1. }
  destruct (kept_running _ _ K) as (q2 & c2 & t2 & [Hi2 Hc2 Hl2 Ht2]).
  rewrite (kp_tp _ _ K) in Hc2. fold h in Hc2. rewrite Hc in Hc2. injection Hc2 as <-.
  exists (q_pop q1 h), (dispatch_cpu (c_current_tid c) j c), t2, l'.
  split; [split; try done; by rewrite (kp_tp _ _ K)|]. split; [apply dispatch_cpu_fields|].
  unfold q_pop. by rewrite upd_q_eq, E1.
Qed.

(** C8: run queues are served in order: whatever the other threads of the
    hart are, a thread with [n] threads in front of it in the queue of its hart
    runs after [n + 1] yields, none of which fails. *)
Theorem queued_thread_runs s q c t l1 i l2 :
  running s q c t -> q (k_tp s) = l1 ++ i :: l2 ->
  wp (yields (Datatypes.S (length l1))) (fun _ s' => k_tp s' = k_tp s /\
    exists q' c' t', running s' q' c' t' /\ c_current_tid c' = i) s.
Proof.
  revert s q c t l2. induction l1 as [|j l1 IH]; intros s q c t l2 Hr Eq.
  - simpl. apply wp_bind. eapply wp_cpu_this; [apply Hr|]. apply wp_bind.
    eapply wp_mono; [by apply (yield_step s q c t i l2)|].
    intros [] s' (Etp & q' & c' & t' & l' & Hr' & Ec & _). apply wp_ret. split; [done|].
    by exists q', c', t'.
  - cbn [length]. apply wp_bind. eapply wp_cpu_this; [apply Hr|]. apply wp_bind.
    eapply wp_mono; [by apply (yield_step s q c t j (l1 ++ i :: l2))|].
    intros [] s' (Etp & q' & c' & t' & l' & Hr' & _ & Eq').
    eapply wp_mono; [apply (IH s' q' c' t' (l2 ++ l') Hr')|].
    + by rewrite Etp, Eq', <- app_assoc.
    + intros _ s'' (E & H). split; [congruence|done].
Qed.

End guarantees.

(** ** At the concrete system of [Demo] *)

#[local] Strategy opaque [kernel_main trap_entry].

Lemma boot_establishes_invariant_witness :
  MAX_HARTS <= 32 /\
  exists s', kernel_main 0 2281701376 2147500000 2147484000 (fun _ => None) (image (0 : @dev demo_hardware))
    = Ret (tt, s') /\ inv s' /\ k_kernel_lock s' = 0.
Proof.
  split; [done|]. exists demo_boot. split; [exact boot_eq|].
  pose proof (boot_establishes_invariant (0 : @dev demo_hardware) 0 2281701376 2147500000 2147484000
    (fun _ => None) ltac:(done) ltac:(done) ltac:(done) ltac:(done)) as W.
  unfold wnp in W. rewrite boot_eq in W. destruct W as (Hi & _ & Hl & _). by split.
Defined.

Lemma secondary_hart_joins_witness :
  exists c, cpu demo_boot 1 = Some c /\ ~ live c /\
  wnp (kernel_main 1 2281701376 2147500000 2147484000 (fun _ => None)) (fun _ s' => sys_ok s') demo_boot.
Proof.
  exists (cpu_at demo_boot 1). assert (Hh : hart_ok 1) by done.
  assert (Hc : cpu demo_boot 1 = Some (cpu_at demo_boot 1)) by (apply cpu_at_eq; vm_compute; reflexivity).
  assert (Hl : ~ live (cpu_at demo_boot 1)) by (apply live_b_false; vm_compute; reflexivity).
  split; [exact Hc|]. split; [exact Hl|]. pose proof (booted_ok _ demo_booted) as Hs.
  pose proof (secondary_hart_joins demo_boot 1 (cpu_at demo_boot 1) 2281701376 2147500000 2147484000
    (fun _ => None) Hs Hh Hc Hl) as W.
  eapply wnp_mono; [exact W|]. intros _ s' [H _]. exact H.
Defined.

Lemma reachable_invariant_witness : inv demo_two.
Proof. exact (proj1 (reachable_invariant demo_two demo_two_reachable)). Defined.

Lemma demo_yield_traps :
  traps demo_two 0 (ecall SYS_YIELD 0 0 0) (cpu_at demo_two 0) (thr_at demo_two 2).
Proof.
  split.
  - apply cpu_at_eq. vm_compute. reflexivity.
  - apply live_b_true. vm_compute. reflexivity.
  - rewrite demo_current. apply thr_at_eq. vm_compute. reflexivity.
  - apply user_call; [exact demo_active|done..].
Qed.

Lemma supported_traps_are_safe_witness :
  exists s', trap_entry (ecall SYS_YIELD 0 0 0) (k_set_tp 0 demo_two) = Ret (tt, s') /\ reachable s'.
Proof.
  exists (final (trap_run 0 (ecall SYS_YIELD 0 0 0) demo_two)).
  assert (E : trap_run 0 (ecall SYS_YIELD 0 0 0) demo_two =
    Ret (tt, final (trap_run 0 (ecall SYS_YIELD 0 0 0) demo_two)))
    by (apply final_eq; vm_compute; reflexivity).
  unfold trap_run in E at 1. split; [exact E|].
  pose proof (supported_traps_are_safe _ _ _ _ _ demo_two_reachable demo_yield_traps) as W.
  rewrite E in W. apply W.
Defined.

Lemma threads_run_or_queue_witness :
  (exists c, cpu demo_two 0 = Some c /\ c_cur_tf c = TF_thread (c_current_tid c)) /\
  exists q, queues demo_two q /\ q 0 = [3].
Proof.
  destruct (threads_run_or_queue _ demo_two_reachable) as [Hx (q & Hq & _)]. split.
  - exists (cpu_at demo_two 0).
    assert (Hc : cpu demo_two 0 = Some (cpu_at demo_two 0)) by (apply cpu_at_eq; vm_compute; reflexivity).
    assert (Hl : live (cpu_at demo_two 0)) by (apply live_b_true; vm_compute; reflexivity).
    split; [exact Hc|]. exact (proj1 (Hx _ _ Hc Hl)).
  - exists q. split; [exact Hq|exact (demo_queue q Hq)].
Defined.

Lemma queued_thread_runs_witness :
  wp (yields 1) (fun _ s' => exists q' c' t', running s' q' c' t' /\ c_current_tid c' = 3) demo_two.
Proof.
  destruct demo_running as [q Hr]. pose proof (demo_queue q (ix_queues _ _ _ (rn_inv _ _ _ _ Hr))) as Eq.
  eapply wp_mono; [exact (queued_thread_runs _ q _ _ [] 3 [] Hr Eq)|]. intros _ s' [_ H]. exact H.
Defined.
