(* ===== verification/ThreadTheorems.v ===== *)
(** * Scheduling and thread management

    What the run queues, the scheduler and every thread system call do, branch by
    branch.  The hart that executes an operation runs thread [t] with per-hart
    record [c] ([running s q c t]); [kept] says that the kernel's invariant, the
    hart and the lock survive. *)
From stdpp Require Import base numbers list gmap strings relations.
From Stdlib Require Import ZArith Lia.
From S2P Require Import Prelude Mem Machine State Kernel Image RunQueue Smp Thread Uart Plic Platform Console Irq Sysfile Trap Boot Invariant ThreadSpec SchedSpec ThreadOps ThreadKill ThreadCreate Snapshot Quiet Within Syscalls TrapSpec BootThreads BootSpec System Demo.

Local Open Scope Z_scope.

Section operations.
Context {cfg : Config} {hws : Hardware} {dt : DeviceTree}.
Implicit Types (s : kstate) (q : Z -> list Z) (c : cpu_t) (t u : Thread).

(** ** Run queues *)

(** [rq_push_tail] appends an unqueued user thread to the queue of the
    hart and touches nothing but queue links. *)
Lemma rq_push_tail_appends s q h tid t :
  queues s q -> hart_ok h -> user_tid tid -> thr s tid = Some t -> t_on_rq t = 0 ->
  wp (rq_push_tail h tid) (fun _ s' => queues s' (q_push q h tid) /\ rq_frame s s') s.
Proof. intros. by eapply rq_push_tail_spec. Qed.

(** [rq_pop_head] returns the first thread of the queue and removes it,
    or -1 on an empty queue. *)
Lemma rq_pop_head_takes_first s q h :
  queues s q -> hart_ok h ->
  wp (rq_pop_head h) (fun r s' =>
    r = default (-1) (head (q h)) /\ queues s' (q_pop q h) /\ rq_frame s s') s.
Proof.
  intros Hq Hh. destruct (q h) as [|i l] eqn:E.
  - eapply wp_mono; [by eapply rq_pop_head_nil|]. intros r s' [-> ->].
    split; [done|]. split; [by apply queues_pop_nil|apply rq_frame_refl].
  - eapply wp_mono; [by eapply rq_pop_head_spec|]. intros r s' (-> & Hq' & Hf).
    split; [done|]. split; [|done]. unfold q_pop. by rewrite E.
Qed.

(** [rq_remove_any] takes a thread out of whichever queue holds it and
    returns the hart of that queue; it returns -1 and changes nothing when the
    thread is in no queue. *)
Lemma rq_remove_any_removes s q tid :
  queues s q -> tid_ok tid ->
  wp (rq_remove_any tid) (fun r s' =>
    (hart_ok r /\ tid ∈ q r /\ queues s' (q_remove q tid) /\ rq_frame s s') \/
    (r = -1 /\ s' = s /\ forall h, hart_ok h -> tid ∉ q h)) s.
Proof. intros. by eapply rq_remove_any_spec. Qed.

(** C7: the run queues, linked through the thread table, are the lists of an
    abstract scheduler: pushing appends, popping takes the first thread (-1 on an
    empty queue), and removing takes a thread out of whichever queue holds it and
    returns that queue's hart (-1, and nothing changes, when no queue does); the
    links are all that changes. *)
Theorem run_queues_are_lists s q :
  queues s q ->
  (forall h tid t, hart_ok h -> user_tid tid -> thr s tid = Some t -> t_on_rq t = 0 ->
     wp (rq_push_tail h tid) (fun _ s' => queues s' (q_push q h tid) /\ rq_frame s s') s) /\
  (forall h, hart_ok h ->
     wp (rq_pop_head h) (fun r s' =>
       r = default (-1) (head (q h)) /\ queues s' (q_pop q h) /\ rq_frame s s') s) /\
  (forall tid, tid_ok tid ->
     wp (rq_remove_any tid) (fun r s' =>
       (hart_ok r /\ tid ∈ q r /\ queues s' (q_remove q tid) /\ rq_frame s s') \/
       (r = -1 /\ s' = s /\ forall h, hart_ok h -> tid ∉ q h)) s).
Proof.
  intros Hq. split; [|split]; intros.
  - by eapply rq_push_tail_appends.
  - by apply rq_pop_head_takes_first.
  - by apply rq_remove_any_removes.
Qed.

(** ** The scheduler *)

(** C6: [schedule] refines the abstract FIFO scheduler: a current user
    thread that can go on goes to the back of its hart's queue, the head of the
    queue (or the idle thread) becomes current and runs with a full time slice,
    the thread switched away from is stopped (and its slot recycled if it is a
    zombie nobody will join), the other harts are untouched, and the invariant
    holds with the new queues. *)
Theorem schedule_refines_fifo s q c t :
  running s q c t ->
  let h := k_tp s in let cur := c_current_tid c in
  let q1 := requeue q h cur t in let next := next_of q1 h in
  wp (schedule (c_cur_tf c)) (fun _ s' =>
    inv_x none s' (q_pop q1 h) /\
    cpu s' h = Some (dispatch_cpu cur next c) /\
    (forall k, k <> h -> cpu s' k = cpu s k) /\
    (exists t1 t0, thr s' next = Some (dispatched h t1) /\ same_but_rq t0 t1 /\
       (if decide (next = cur) then t0 = departed (cur =? h) t else thr s next = Some t0)) /\
    (next <> cur -> exists t', thr s' cur = Some t' /\ same_but_rq (departed (cur =? h) t) t')) s.
Proof.
  intros Hr h cur q1 next. eapply wp_mono; [by apply (schedule_switch s q c t)|].
  intros _ s' [_ (n & [En Hi Hc Hcs (t0 & t1 & H1 & H2 & H3) Hcur _])].
  subst h cur q1 next. rewrite <- En. split; [done|]. split; [done|]. split; [done|].
  split; [by exists t1, t0|done].
Qed.

(** C14: a thread made runnable joins the queue of the least loaded online
    hart, and only that thread and that queue change. *)
Theorem thread_make_runnable_places s q tid pref t :
  queues s q -> tables s -> hart_ok pref -> user_tid tid ->
  thr s tid = Some t -> t_on_rq t = 0 -> t_state t <> THREAD_RUNNING ->
  wp (thread_make_runnable tid pref) (fun _ s' => exists target t',
    least_loaded s q pref target /\ queues s' (q_push q target tid) /\
    thr s' tid = Some t' /\ same_but_rq (runnable t) t' /\ frame (only tid) s s') s.
Proof. intros. by eapply thread_make_runnable_spec. Qed.

(** C12: a timer tick advances the clock by one, makes exactly the sleeping
    threads whose time has come runnable, and leaves every other thread as it
    was (its queue link apart). *)
Theorem threads_tick_wakes_due s q c t :
  running s q c t ->
  let now := u64 (g_ticks (k_core s) + 1) in
  wp threads_tick (fun _ s' => kept s s' /\ g_ticks (k_core s') = now /\
    forall i u, thr s i = Some u -> exists u', thr s' i = Some u' /\
      if due now u then same_but_rq (runnable u) u' else link_only u u') s.
Proof.
  intros Hr now. eapply wp_mono; [by apply (threads_tick_spec s q c t)|].
  intros _ s' [[_ Hf Hw _] K]. split; [done|]. split; [apply (fr_ticks _ _ _ Hf)|].
  intros i u Hu. destruct (due now u) eqn:E.
  - apply (Hw i u); [|done|done]. assert (tid_ok i) as [_ ?] by (apply (ix_thr_dom _ _ _ (rn_inv _ _ _ _ Hr)); by eexists).
    done.
  - assert (F : option_Forall2 link_only (thr s i) (thr s' i)).
    { apply (fr_thr _ _ _ Hf i). intros (v & Ev & Dv). cbn in Dv.
      change (thr s i = Some v) in Ev. rewrite Hu in Ev. injection Ev as <-.
      change (due now u = true) in Dv. by rewrite E in Dv. }
    rewrite Hu in F. inversion F; subst. by eexists.
Qed.

(** ** Thread system calls *)

(** Sleeping for a positive number of ticks puts the caller to sleep
    until that tick and switches to the next thread; sleeping for zero ticks is
    a yield. *)
Lemma sleep_blocks_until_tick s q c t ticks :
  running s q c t -> active c t ->
  let t' := asleep (u64 (g_ticks (k_core s) + ticks)) t in
  wp (thread_sys_sleep (c_cur_tf c) ticks) (fun _ s' => kept s s' /\
    exists next, if ticks =? 0 then scheduled s s' q (k_tp s) c t next
      else scheduled (with_thread (c_current_tid c) t' s) s' q (k_tp s) c t' next) s.
Proof.
  intros Hr [Hu Hst] t'. destruct (Z.eqb_spec ticks 0) as [-> |Hne].
  - exact (thread_sys_yield_spec s q c t Hr).
  - by apply thread_sys_sleep_spec.
Qed.

(** C13: creating a thread fills the first unused slot with a thread that
    starts at [entry(arg)] in user mode on its own stack, queued and with no
    joiner, and returns its id; with no slot left it returns -1.  Nothing but
    that slot and the caller's result changes. *)
Theorem create_launches_thread s q c t entry arg name :
  running s q c t ->
  wp (thread_sys_create (c_cur_tf c) entry arg name) (fun _ s' => kept s s' /\
    ((none_unused s 1 /\ s' = with_thread (c_current_tid c) (with_a0 (-1) t) s) \/
     exists tid u t', first_unused s 1 tid /\
       thr s' tid = Some u /\ fresh_user tid entry arg (name_or name "uthread") u /\
       thr s' (c_current_tid c) = Some (with_a0 tid t') /\ link_only t t' /\
       frame (either tid (c_current_tid c)) s s')) s.
Proof. apply thread_sys_create_spec. Qed.

(** A thread that exits leaves a zombie that keeps its exit code; if
    another thread waits in join, that thread is released with result 0, finds the exit
    code at the address it gave, and the slot of the dead thread is free again.
    A detached thread leaves a free slot too. *)
Lemma exit_releases_joiner s q c t code :
  running s q c t -> active c t ->
  wp (thread_sys_exit (c_cur_tf c) code) (fun _ s' => kept s s' /\
    (t_join_waiter t = -1 -> k_umem s' = k_umem s /\
       slot_after s' (c_current_tid c) (exited code t)) /\
    (t_join_waiter t <> -1 -> joiner_released s s' (t_join_waiter t) code /\
       slot_after s' (c_current_tid c) (thread_recycled (exited code t)))) s.
Proof. intros Hr [Hu Hst]. by apply (thread_sys_exit_spec s q c t). Qed.

(** C10: exit and join meet.  A thread that exits leaves a zombie that keeps its exit
    code; if another thread waits in join, that thread is released with result 0, finds
    the exit code at the address it gave, and the slot of the dead thread is free
    again.  A detached thread leaves a free slot too.  [join] reports the five errors,
    reaps a zombie target (exit code stored, slot recycled, result 0), and otherwise
    blocks the caller with both sides linked; a target that was killed on another hart
    must have left it. *)
Theorem exit_and_join_meet s q c t :
  running s q c t -> active c t ->
  (forall code, wp (thread_sys_exit (c_cur_tf c) code) (fun _ s' => kept s s' /\
    (t_join_waiter t = -1 -> k_umem s' = k_umem s /\
       slot_after s' (c_current_tid c) (exited code t)) /\
    (t_join_waiter t <> -1 -> joiner_released s s' (t_join_waiter t) code /\
       slot_after s' (c_current_tid c) (thread_recycled (exited code t)))) s) /\
  (forall target ptr, settled s target ->
    wp (thread_sys_join (c_cur_tf c) target ptr) (fun _ s' => kept s s' /\
      join_effect s s' (c_current_tid c) t target ptr (join_branch s (c_current_tid c) target)) s).
Proof.
  intros Hr Ha. split; [intros code; by apply (exit_releases_joiner s q c t)|].
  destruct Ha as [Hu Hst]. intros target ptr Hs. by apply (thread_sys_join_spec s q c t).
Qed.


(** [detach] reports its errors, recycles a zombie at once, and marks a
    thread that still lives; nothing else changes. *)
Lemma detach_marks_or_reaps s q c t target :
  running s q c t -> settled s target ->
  wp (thread_sys_detach (c_cur_tf c) target) (fun _ s' => kept s s' /\
    detach_effect s s' (c_current_tid c) target t (detach_branch s target)) s.
Proof. intros Hr Hs. by apply (thread_sys_detach_spec s q c t). Qed.

(** The run-queue snapshot writes one record per online hart, in hart
    order and at most [n] of them: the hart, the length and the threads of its
    queue in order; it changes nothing but the caller's buffer. *)
Lemma snapshot_reports_queues s q c t ubuf n :
  running s q c t -> 0 <= n ->
  wp (sys_runqueue_snapshot ubuf n) (fun r s' =>
    if (ubuf =? 0) || (n =? 0) then r = -1 /\ s' = s
    else r = Z.of_nat (length (snapshot_harts s n)) /\
         s' = k_set_umem (report_mem q (snapshot_harts s n) ubuf 0 (k_umem s)) s) s.
Proof. intros Hr Hn. exact (sys_runqueue_snapshot_spec none s q ubuf n (rn_inv _ _ _ _ Hr) Hn). Qed.

(** C15: the calls of a thread that concern no partner: sleeping for a positive
    number of ticks puts it to sleep until that tick and switches to the next thread
    (zero ticks are a yield); [detach] reports its errors, recycles a zombie at once
    and marks a thread that still lives; the run-queue snapshot writes one record
    per online hart, in hart order and at most [n] of them, with the length and the
    threads of its queue, and changes nothing but the caller's buffer. *)
Theorem sleep_detach_snapshot s q c t :
  running s q c t ->
  (forall ticks, active c t ->
    let t' := asleep (u64 (g_ticks (k_core s) + ticks)) t in
    wp (thread_sys_sleep (c_cur_tf c) ticks) (fun _ s' => kept s s' /\
      exists next, if ticks =? 0 then scheduled s s' q (k_tp s) c t next
        else scheduled (with_thread (c_current_tid c) t' s) s' q (k_tp s) c t' next) s) /\
  (forall target, settled s target ->
    wp (thread_sys_detach (c_cur_tf c) target) (fun _ s' => kept s s' /\
      detach_effect s s' (c_current_tid c) target t (detach_branch s target)) s) /\
  (forall ubuf n, 0 <= n ->
    wp (sys_runqueue_snapshot ubuf n) (fun r s' =>
      if (ubuf =? 0) || (n =? 0) then r = -1 /\ s' = s
      else r = Z.of_nat (length (snapshot_harts s n)) /\
           s' = k_set_umem (report_mem q (snapshot_harts s n) ubuf 0 (k_umem s)) s) s).
Proof.
  intros Hr. split; [|split].
  - intros ticks Ha. exact (sleep_blocks_until_tick s q c t ticks Hr Ha).
  - intros target Hs. exact (detach_marks_or_reaps s q c t target Hr Hs).
  - intros ubuf n Hn. exact (snapshot_reports_queues s q c t ubuf n Hr Hn).
Qed.

End operations.

(** ** At the concrete system of [Demo]: thread 2 runs on hart 0, thread 3 is
    queued behind it *)

Lemma demo_thread_3 : thr demo_two 3 = Some (thr_at demo_two 3).
Proof. apply thr_at_eq. vm_compute. reflexivity. Qed.
Lemma demo_thread_4 : thr demo_two 4 = Some (thr_at demo_two 4).
Proof. apply thr_at_eq. vm_compute. reflexivity. Qed.

Lemma settled_at s i t : thr s i = Some t -> t_state t <> THREAD_ZOMBIE -> settled s i.
Proof. intros Ht Hn u Hu Hz. rewrite Ht in Hu. by injection Hu as <-. Qed.
Lemma not_joining_at s i t : thr s i = Some t -> t_state t <> THREAD_WAITING -> not_joining s i.
Proof. intros Ht Hn u Hu. rewrite Ht in Hu. by injection Hu as <-. Qed.

Lemma demo_state_3 : t_state (thr_at demo_two 3) = THREAD_RUNNABLE.
Proof. vm_compute. reflexivity. Qed.
Lemma demo_settled : settled demo_two 3.
Proof. apply (settled_at _ _ _ demo_thread_3). rewrite demo_state_3. discriminate. Qed.
Lemma demo_not_joining : not_joining demo_two 3.
Proof. apply (not_joining_at _ _ _ demo_thread_3). rewrite demo_state_3. discriminate. Qed.

Lemma demo_queues : exists q, queues demo_two q /\ tables demo_two.
Proof.
  destruct demo_running as [q [Hi _ _ _]]. exists q.
  exact (conj (ix_queues _ _ _ Hi) (inv_x_tables _ _ _ Hi)).
Qed.

Lemma run_queues_are_lists_witness :
  wp (rq_pop_head 0) (fun r _ => r = 3) demo_two /\
  (exists q, wp (rq_push_tail 0 4) (fun _ s' => queues s' (q_push q 0 4)) demo_two).
Proof.
  assert (Hh : hart_ok 0) by done. assert (Hu : user_tid 4) by done.
  assert (H0 : t_on_rq (thr_at demo_two 4) = 0) by (vm_compute; reflexivity).
  destruct demo_queues as (q & Hq & _).
  destruct (run_queues_are_lists demo_two q Hq) as (W1 & W2 & _). split.
  - eapply wp_mono; [exact (W2 0 Hh)|]. intros r s' [-> _]. rewrite (demo_queue q Hq). reflexivity.
  - exists q. eapply wp_mono; [exact (W1 0 4 _ Hh Hu demo_thread_4 H0)|]. intros _ s' [H _]. exact H.
Defined.

Lemma schedule_refines_fifo_witness :
  wp (schedule (c_cur_tf (cpu_at demo_two 0))) (fun _ s' => inv s') demo_two.
Proof.
  destruct demo_running as [q Hr]. pose proof (schedule_refines_fifo demo_two q _ _ Hr) as W.
  cbv zeta in W. eapply wp_mono; [exact W|].
  intros _ s' [H _]. eexists. exact H.
Defined.

Lemma thread_make_runnable_places_witness :
  wp (thread_make_runnable 4 0) (fun _ s' => exists t', thr s' 4 = Some t') demo_two.
Proof.
  assert (Hh : hart_ok 0) by done. assert (Hu : user_tid 4) by done.
  assert (H0 : t_on_rq (thr_at demo_two 4) = 0) by (vm_compute; reflexivity).
  assert (Hs : t_state (thr_at demo_two 4) = THREAD_UNUSED) by (vm_compute; reflexivity).
  assert (Hn : t_state (thr_at demo_two 4) <> THREAD_RUNNING) by (rewrite Hs; discriminate).
  destruct demo_queues as (q & Hq & Ht).
  eapply wp_mono;
    [exact (thread_make_runnable_places demo_two q 4 0 _ Hq Ht Hh Hu demo_thread_4 H0 Hn)|].
  intros _ s' (target & t' & _ & _ & H & _). exists t'. exact H.
Defined.

Lemma threads_tick_wakes_due_witness :
  wp threads_tick (fun _ s' => kept demo_two s' /\ exists u', thr s' 3 = Some u') demo_two.
Proof.
  destruct demo_running as [q Hr]. pose proof (threads_tick_wakes_due demo_two q _ _ Hr) as W.
  cbv zeta in W. eapply wp_mono; [exact W|].
  intros _ s' (K & _ & H). split; [exact K|]. destruct (H 3 _ demo_thread_3) as (u' & Hu & _).
  exists u'. exact Hu.
Defined.

Lemma create_launches_thread_witness :
  wp (thread_sys_create (c_cur_tf (cpu_at demo_two 0)) 2147600000 1 0) (fun _ s' => kept demo_two s') demo_two.
Proof.
  destruct demo_running as [q Hr].
  eapply wp_mono; [exact (create_launches_thread demo_two q _ _ 2147600000 1 0 Hr)|].
  intros _ s' [K _]. exact K.
Defined.

Lemma exit_and_join_meet_witness :
  wp (thread_sys_exit (c_cur_tf (cpu_at demo_two 0)) 9) (fun _ s' => kept demo_two s') demo_two /\
  wp (thread_sys_join (c_cur_tf (cpu_at demo_two 0)) 3 0) (fun _ s' => kept demo_two s') demo_two.
Proof.
  destruct demo_running as [q Hr].
  destruct (exit_and_join_meet demo_two q _ _ Hr demo_active) as [We Wj]. split.
  - eapply wp_mono; [exact (We 9)|]. intros _ s' [K _]. exact K.
  - eapply wp_mono; [exact (Wj 3 0 demo_settled)|]. intros _ s' [K _]. exact K.
Defined.


Lemma sleep_detach_snapshot_witness :
  wp (thread_sys_sleep (c_cur_tf (cpu_at demo_two 0)) 5) (fun _ s' => kept demo_two s') demo_two /\
  wp (thread_sys_detach (c_cur_tf (cpu_at demo_two 0)) 3) (fun _ s' => kept demo_two s') demo_two /\
  wp (sys_runqueue_snapshot 4096 4) (fun r _ => r = Z.of_nat (length (snapshot_harts demo_two 4))) demo_two.
Proof.
  destruct demo_running as [q Hr]. assert (Hn : 0 <= 4) by lia.
  pose proof (sleep_detach_snapshot demo_two q _ _ Hr) as (W1 & W2 & W3).
  split; [|split].
  - specialize (W1 5 demo_active). cbv zeta in W1. eapply wp_mono; [exact W1|]. intros _ s' [K _]. exact K.
  - eapply wp_mono; [exact (W2 3 demo_settled)|]. intros _ s' [K _]. exact K.
  - eapply wp_mono; [exact (W3 4096 4 Hn)|]. intros r s' [H _]. exact H.
Defined.
