(* ===== verification/DateTime.v ===== *)
(** * Civil time ([user/datetime.c])

    [epoch_to_utc_datetime] turns seconds since 1970 into a date by subtracting
    whole years, then whole months.  It is proved to be the inverse of the
    arithmetic definition of the calendar. *)
From stdpp Require Import base numbers list.
From Stdlib Require Import ZArith Lia.
From S2P Require Import Prelude.

Local Open Scope Z_scope.

Definition SECS_PER_MIN : Z := 60.
Definition SECS_PER_HOUR : Z := 60 * SECS_PER_MIN.
Definition SECS_PER_DAY : Z := 24 * SECS_PER_HOUR.

Definition month_days : list Z := [31; 28; 31; 30; 31; 30; 31; 31; 30; 31; 30; 31].

(** [datetime_t] *)
Record datetime_t := {
  dt_year : Z; dt_month : Z; dt_day : Z; dt_hour : Z; dt_min : Z; dt_sec : Z
}.

(** [%] is C's remainder: the sign of the dividend. *)
Definition is_leap_year (year : Z) : bool :=
  if negb (Z.rem year 4 =? 0) then false else
  if negb (Z.rem year 100 =? 0) then true else
  if negb (Z.rem year 400 =? 0) then false else true.

Definition days_in_year (year : Z) : Z := if is_leap_year year then 366 else 365.

(** [while (1)]: subtract whole years.  Every iteration takes at least 365 days. *)
Fixpoint year_loop (fuel : nat) (days year : Z) : option (Z * Z) :=
  match fuel with
  | O => None
  | S n => if days_in_year year <=? days then year_loop n (days - days_in_year year) (year + 1)
           else Some (days, year)
  end.

Definition days_in_month (year month : Z) : Z :=
  let dim := nth (Z.to_nat month) month_days 0 in
  if (month =? 1) && is_leap_year year then 29 else dim.

(** [while (month < 12)]: twelve iterations at most. *)
Fixpoint month_loop (n : nat) (year days month : Z) : Z * Z :=
  match n with
  | O => (days, month)
  | S n' => if days_in_month year month <=? days
            then month_loop n' year (days - days_in_month year month) (month + 1)
            else (days, month)
  end.

Definition epoch_to_utc_datetime (epoch_sec : Z) : option datetime_t :=
  let days := epoch_sec / SECS_PER_DAY in
  let sec_of_day := epoch_sec mod SECS_PER_DAY in
  let hour := sec_of_day / SECS_PER_HOUR in
  let sec_of_day := sec_of_day mod SECS_PER_HOUR in
  let min := sec_of_day / SECS_PER_MIN in
  let sec := sec_of_day mod SECS_PER_MIN in
  match year_loop (S (Z.to_nat days)) days 1970 with
  | None => None
  | Some (days, year) =>
    let '(days, month) := month_loop 12 year days 0 in
    Some {| dt_year := year; dt_month := month + 1; dt_day := days + 1;
            dt_hour := hour; dt_min := min; dt_sec := sec |}
  end.

(** ** The calendar *)

(** The Gregorian rule. *)
Definition leap (y : Z) : Prop := (4 | y) /\ (~ (100 | y) \/ (400 | y)).

(** Days from the first of January of year 1 to that of year [y], and from the
    first day of the year to the first of month [m] (0-based). *)
Definition days_before_year (y : Z) : Z :=
  let k := y - 1 in 365 * k + k / 4 - k / 100 + k / 400.
Fixpoint days_before_month (y : Z) (m : nat) : Z :=
  match m with O => 0 | S k => days_before_month y k + days_in_month y (Z.of_nat k) end.

Definition valid (d : datetime_t) : Prop :=
  1970 <= dt_year d /\ 1 <= dt_month d <= 12 /\
  1 <= dt_day d <= days_in_month (dt_year d) (dt_month d - 1) /\
  0 <= dt_hour d < 24 /\ 0 <= dt_min d < 60 /\ 0 <= dt_sec d < 60.

Definition to_epoch (d : datetime_t) : Z :=
  (days_before_year (dt_year d) - days_before_year 1970 +
   days_before_month (dt_year d) (Z.to_nat (dt_month d - 1)) + (dt_day d - 1)) * SECS_PER_DAY +
  dt_hour d * SECS_PER_HOUR + dt_min d * SECS_PER_MIN + dt_sec d.

(** ** Years *)

Lemma rem_zero a b : 0 < b -> (Z.rem a b =? 0) = true <-> (b | a).
Proof. intros Hb. rewrite Z.eqb_eq. apply Z.rem_divide. lia. Qed.

Lemma is_leap_year_spec y : is_leap_year y = true <-> leap y.
Proof.
  pose proof (rem_zero y 4 ltac:(lia)) as H4. pose proof (rem_zero y 100 ltac:(lia)) as H100.
  pose proof (rem_zero y 400 ltac:(lia)) as H400. unfold is_leap_year, leap.
  destruct (Z.rem y 4 =? 0), (Z.rem y 100 =? 0), (Z.rem y 400 =? 0); simpl; intuition congruence.
Qed.

Lemma year_step y : 1 <= y -> days_before_year (y + 1) = days_before_year y + days_in_year y.
Proof.
  intros Hy. unfold days_before_year, days_in_year, is_leap_year.
  rewrite !Z.rem_mod_nonneg by lia. replace (y + 1 - 1) with y by lia.
  destruct (Z.eqb_spec (y mod 4) 0), (Z.eqb_spec (y mod 100) 0), (Z.eqb_spec (y mod 400) 0);
    simpl; Z.to_euclidean_division_equations; lia.
Qed.

Lemma days_in_year_bounds y : 365 <= days_in_year y <= 366.
Proof. unfold days_in_year. destruct (is_leap_year y); lia. Qed.

(** The year loop finds the year that holds the day. *)
Lemma year_loop_spec fuel days year :
  0 <= days < Z.of_nat fuel -> 1 <= year ->
  exists d y, year_loop fuel days year = Some (d, y) /\ year <= y /\
    0 <= d < days_in_year y /\ days_before_year y + d = days_before_year year + days.
Proof.
  revert days year. induction fuel as [|n IH]; intros days year Hd Hy; [lia|]. simpl.
  pose proof (days_in_year_bounds year). pose proof (year_step year Hy) as Hs.
  destruct (Z.leb_spec (days_in_year year) days) as [Hle|Hlt].
  - destruct (IH (days - days_in_year year) (year + 1)) as (d & y & -> & Hle' & Hb & E); [lia|lia|].
    exists d, y. split; [done|]. lia.
  - exists days, year. split; [done|]. lia.
Qed.

(** ** Months *)

Lemma days_in_month_pos y m : 0 <= m < 12 -> 28 <= days_in_month y m <= 31.
Proof.
  intros Hm. assert (m = 0 \/ m = 1 \/ m = 2 \/ m = 3 \/ m = 4 \/ m = 5 \/ m = 6 \/ m = 7 \/
    m = 8 \/ m = 9 \/ m = 10 \/ m = 11) as C by lia.
  unfold days_in_month. destruct (is_leap_year y); repeat destruct C as [-> |C]; subst; simpl; lia.
Qed.

Lemma months_make_year y : days_before_month y 12 = days_in_year y.
Proof. unfold days_in_year. cbn. unfold days_in_month. by destruct (is_leap_year y). Qed.

Lemma month_loop_spec n y days m :
  0 <= m -> m + Z.of_nat n = 12 -> 0 <= days ->
  days_before_month y (Z.to_nat m) + days < days_in_year y ->
  exists d m', month_loop n y days m = (d, m') /\ 0 <= m' < 12 /\ 0 <= d < days_in_month y m' /\
    days_before_month y (Z.to_nat m') + d = days_before_month y (Z.to_nat m) + days.
Proof.
  revert days m. induction n as [|n IH]; intros days m H0 Hn Hd Hlt.
  - replace m with 12 in * by lia. change (Z.to_nat 12) with 12%nat in Hlt.
    rewrite months_make_year in Hlt. lia.
  - cbn [month_loop]. destruct (Z.leb_spec (days_in_month y m) days) as [Hle|Hgt].
    + assert (Hs : days_before_month y (Z.to_nat (m + 1)) =
        days_before_month y (Z.to_nat m) + days_in_month y m).
      { replace (Z.to_nat (m + 1)) with (S (Z.to_nat m)) by lia. cbn [days_before_month].
        by rewrite Z2Nat.id by lia. }
      destruct (IH (days - days_in_month y m) (m + 1)) as (d & m' & -> & Hm & Hb & E); [lia..|].
      exists d, m'. split; [done|]. lia.
    + exists days, m. split; [done|]. lia.
Qed.

(** ** The whole conversion *)

Lemma days_before_year_growth y : 1970 <= y -> 365 * (y - 1970) <= days_before_year y - days_before_year 1970.
Proof.
  intros Hy. replace y with (1970 + Z.of_nat (Z.to_nat (y - 1970))) by lia.
  induction (Z.to_nat (y - 1970)) as [|n IH]; [change (1970 + Z.of_nat 0) with 1970; lia|].
  pose proof (year_step (1970 + Z.of_nat n) ltac:(lia)) as Hs.
  pose proof (days_in_year_bounds (1970 + Z.of_nat n)).
  replace (1970 + Z.of_nat (S n)) with (1970 + Z.of_nat n + 1) by lia. lia.
Qed.

(** The time of day, split and put together again. *)
Lemma time_of_day e : 0 <= e ->
  let r := e mod SECS_PER_DAY in
  let h := r / SECS_PER_HOUR in let r' := r mod SECS_PER_HOUR in
  let mi := r' / SECS_PER_MIN in let s := r' mod SECS_PER_MIN in
  0 <= h < 24 /\ 0 <= mi < 60 /\ 0 <= s < 60 /\
  e / SECS_PER_DAY * SECS_PER_DAY + h * SECS_PER_HOUR + mi * SECS_PER_MIN + s = e.
Proof.
  intros He. change SECS_PER_DAY with 86400. change SECS_PER_HOUR with 3600.
  change SECS_PER_MIN with 60. cbv zeta.
  pose proof (Z.mod_pos_bound e 86400 ltac:(lia)). pose proof (Z.div_mod e 86400 ltac:(lia)).
  set (r := e mod 86400) in *. clearbody r.
  pose proof (Z.mod_pos_bound r 3600 ltac:(lia)). pose proof (Z.div_mod r 3600 ltac:(lia)).
  set (r' := r mod 3600) in *. clearbody r'.
  pose proof (Z.mod_pos_bound r' 60 ltac:(lia)). pose proof (Z.div_mod r' 60 ltac:(lia)).
  split; [split; [apply Z.div_pos|apply Z.div_lt_upper_bound]; lia|].
  split; [split; [apply Z.div_pos|apply Z.div_lt_upper_bound]; lia|]. lia.
Qed.

Lemma epoch_spec e : 0 <= e -> exists d, epoch_to_utc_datetime e = Some d /\ valid d /\ to_epoch d = e.
Proof.
  intros He. unfold epoch_to_utc_datetime.
  assert (0 <= e / SECS_PER_DAY) as Hday by (apply Z.div_pos; unfold SECS_PER_DAY, SECS_PER_HOUR, SECS_PER_MIN; lia).
  destruct (year_loop_spec (S (Z.to_nat (e / SECS_PER_DAY))) (e / SECS_PER_DAY) 1970)
    as (d & y & -> & Hy & Hd & Eyear); [lia|lia|].
  destruct (month_loop_spec 12 y d 0) as (d' & m & -> & Hm & Hd' & Emonth); [lia|lia|lia|simpl; lia|].
  eexists. split; [reflexivity|]. change (days_before_month y (Z.to_nat 0)) with 0 in Emonth. destruct (time_of_day e He) as (T1 & T2 & T3 & T4).
  unfold valid, to_epoch. cbn [dt_year dt_month dt_day dt_hour dt_min dt_sec].
  replace (m + 1 - 1) with m by lia. replace (d' + 1 - 1) with d' by lia. split; [lia|].
  replace (days_before_year y - days_before_year 1970 + days_before_month y (Z.to_nat m) + d')
    with (e / SECS_PER_DAY) by lia. lia.
Qed.

(** Dates are ordered like their numbers of seconds; equal numbers, equal dates. *)
Lemma days_before_month_mono y m m' :
  (m < m' <= 12)%nat -> days_before_month y m + days_in_month y (Z.of_nat m) <= days_before_month y m'.
Proof.
  intros [H1 H2]. induction m' as [|k IH]; [lia|]. cbn [days_before_month].
  destruct (decide (m = k)) as [-> |]; [lia|]. pose proof (days_in_month_pos y (Z.of_nat k)). lia.
Qed.

Lemma days_before_year_mono y y' : 1 <= y < y' -> days_before_year y + days_in_year y <= days_before_year y'.
Proof.
  intros H. remember (Z.to_nat (y' - y - 1)) as n eqn:En.
  revert y' H En. induction n as [|n IH]; intros y' H En.
  - replace y' with (y + 1) by lia. rewrite year_step; lia.
  - pose proof (year_step (y' - 1) ltac:(lia)) as Hs. pose proof (days_in_year_bounds (y' - 1)).
    specialize (IH (y' - 1) ltac:(lia) ltac:(lia)). replace (y' - 1 + 1) with y' in Hs by lia. lia.
Qed.

Lemma day_of_year d : valid d ->
  0 <= days_before_month (dt_year d) (Z.to_nat (dt_month d - 1)) + (dt_day d - 1) < days_in_year (dt_year d).
Proof.
  intros (_ & Hm & Hd & _). split.
  - assert (0 <= days_before_month (dt_year d) (Z.to_nat (dt_month d - 1))); [|lia].
    assert (Z.to_nat (dt_month d - 1) <= 12)%nat as Hle by lia.
    induction (Z.to_nat (dt_month d - 1)) as [|k IH]; cbn [days_before_month]; [lia|].
    pose proof (days_in_month_pos (dt_year d) (Z.of_nat k)). lia.
  - pose proof (days_before_month_mono (dt_year d) (Z.to_nat (dt_month d - 1)) 12 ltac:(lia)) as H.
    rewrite months_make_year, Z2Nat.id in H by lia. lia.
Qed.

Lemma to_epoch_inj d d' : valid d -> valid d' -> to_epoch d = to_epoch d' -> d = d'.
Proof.
  intros V V' E. pose proof (day_of_year d V) as B. pose proof (day_of_year d' V') as B'.
  destruct d as [y m day h mi s], d' as [y' m' day' h' mi' s'].
  destruct V as (V1 & V2 & V3 & V4 & V5 & V6), V' as (W1 & W2 & W3 & W4 & W5 & W6).
  unfold to_epoch in E. cbn [dt_year dt_month dt_day dt_hour dt_min dt_sec] in *.
  unfold SECS_PER_DAY, SECS_PER_HOUR, SECS_PER_MIN in E.
  set (D := days_before_month y (Z.to_nat (m - 1))) in *.
  set (D' := days_before_month y' (Z.to_nat (m' - 1))) in *.
  assert (Ed : days_before_year y + D + day = days_before_year y' + D' + day') by lia.
  assert (h = h') as -> by lia. assert (mi = mi') as -> by lia. assert (s = s') as -> by lia.
  assert (y = y') as <-.
  { destruct (Z.lt_trichotomy y y') as [L|[L|L]]; [|done|].
    - pose proof (days_before_year_mono y y' ltac:(lia)). lia.
    - pose proof (days_before_year_mono y' y ltac:(lia)). lia. }
  assert (m = m') as <-.
  { destruct (Z.lt_trichotomy m m') as [L|[L|L]]; [|done|].
    - pose proof (days_before_month_mono y (Z.to_nat (m - 1)) (Z.to_nat (m' - 1)) ltac:(lia)) as H.
      rewrite Z2Nat.id in H by lia. lia.
    - pose proof (days_before_month_mono y (Z.to_nat (m' - 1)) (Z.to_nat (m - 1)) ltac:(lia)) as H.
      rewrite Z2Nat.id in H by lia. lia. }
  f_equal. lia.
Qed.

(** ** Properties *)

Lemma dt_year_bound d : valid d -> to_epoch d < 67000000000000000 -> dt_year d < 2^31.
Proof.
  intros V Hlt. pose proof (days_before_year_growth (dt_year d) ltac:(apply V)) as G.
  pose proof (day_of_year d V) as [B _]. destruct V as (V1 & _ & _ & V4 & V5 & V6).
  unfold to_epoch, SECS_PER_DAY, SECS_PER_HOUR, SECS_PER_MIN in Hlt. lia.
Qed.
Lemma to_epoch_nonneg d : valid d -> 0 <= to_epoch d.
Proof.
  intros V. pose proof (day_of_year d V) as [B _]. pose proof (days_before_year_growth (dt_year d) ltac:(apply V)).
  destruct V as (V1 & _ & _ & V4 & V5 & V6). unfold to_epoch, SECS_PER_DAY, SECS_PER_HOUR, SECS_PER_MIN. lia.
Qed.


(** 2024-02-29 12:34:56. *)
Definition leap_day : datetime_t :=
  {| dt_year := 2024; dt_month := 2; dt_day := 29; dt_hour := 12; dt_min := 34; dt_sec := 56 |}.

