(* ===== verification/CString.v ===== *)
(** * Memory and string routines ([lib/string.c], [user/ulib_string.c])

    The two files hold the same routines for the kernel and for user threads;
    [ulib_string.c] adds comparison, copying and decimal parsing.  They work on
    byte-addressed memory; a counted loop is a recursion on its count, and a loop
    that runs to the terminating zero takes fuel: a string of [n] characters needs
    [n + 1] steps. *)
From stdpp Require Import base numbers list gmap.
From Stdlib Require Import ZArith Lia.
From S2P Require Import Prelude Mem.

Local Open Scope Z_scope.

(** ** The code *)

(** [for (i = i0; i < i0 + n; ++i) d[i] = s[i];] *)
Fixpoint copy_forward (n : nat) (i d s : Z) (m : mem) : mem :=
  match n with
  | O => m
  | S n' => copy_forward n' (i + 1) d s (store8 m (d + i) (load8 m (s + i)))
  end.

(** [for (i = n; i > 0; i--) d[i - 1] = s[i - 1];] *)
Fixpoint copy_backward (n : nat) (d s : Z) (m : mem) : mem :=
  match n with
  | O => m
  | S k => copy_backward k d s (store8 m (d + Z.of_nat k) (load8 m (s + Z.of_nat k)))
  end.

Definition memmove (dest src n : Z) (m : mem) : mem :=
  if (dest =? src) || (n =? 0) then m else
  if dest <? src then copy_forward (Z.to_nat n) 0 dest src m
  else copy_backward (Z.to_nat n) dest src m.

Definition memcpy (dest src n : Z) (m : mem) : mem := copy_forward (Z.to_nat n) 0 dest src m.

Fixpoint memchr_loop (n : nat) (i p uc : Z) (m : mem) : Z :=
  match n with
  | O => 0
  | S n' => if load8 m (p + i) =? uc then p + i else memchr_loop n' (i + 1) p uc m
  end.
Definition memchr (s c n : Z) (m : mem) : Z := memchr_loop (Z.to_nat n) 0 s (u8 c) m.

Fixpoint memset_loop (n : nat) (i p value : Z) (m : mem) : mem :=
  match n with
  | O => m
  | S n' => memset_loop n' (i + 1) p value (store8 m (p + i) value)
  end.
Definition memset (s c n : Z) (m : mem) : mem := memset_loop (Z.to_nat n) 0 s (u8 c) m.

Fixpoint memcmp_loop (n : nat) (i p1 p2 : Z) (m : mem) : Z :=
  match n with
  | O => 0
  | S n' => if load8 m (p1 + i) =? load8 m (p2 + i) then memcmp_loop n' (i + 1) p1 p2 m
            else load8 m (p1 + i) - load8 m (p2 + i)
  end.
Definition memcmp (s1 s2 n : Z) (m : mem) : Z := memcmp_loop (Z.to_nat n) 0 s1 s2 m.

(** Count up to the zero. *)
Fixpoint strlen_loop (fuel : nat) (s n : Z) (m : mem) : option Z :=
  match fuel with
  | O => None
  | S f => if load8 m (s + n) =? 0 then Some n else strlen_loop f s (n + 1) m
  end.
Definition strlen (fuel : nat) (s : Z) (m : mem) : option Z := strlen_loop fuel s 0 m.

(** NULL is address 0; [ch] is a [char]. *)
Fixpoint strchr_loop (fuel : nat) (s ch : Z) (m : mem) : option Z :=
  match fuel with
  | O => None
  | S f => if load8 m s =? 0 then Some (if ch =? 0 then s else 0)
           else if load8 m s =? ch then Some s else strchr_loop f (s + 1) ch m
  end.
Definition strchr (fuel : nat) (s c : Z) (m : mem) : option Z := strchr_loop fuel s (u8 c) m.

Fixpoint strrchr_loop (fuel : nat) (s ch last : Z) (m : mem) : option Z :=
  match fuel with
  | O => None
  | S f => if load8 m s =? 0 then Some (if ch =? 0 then s else last)
           else strrchr_loop f (s + 1) ch (if load8 m s =? ch then s else last) m
  end.
Definition strrchr (fuel : nat) (s c : Z) (m : mem) : option Z := strrchr_loop fuel s (u8 c) 0 m.

Fixpoint strnlen_loop (n : nat) (s i : Z) (m : mem) : Z :=
  match n with
  | O => i
  | S n' => if load8 m (s + i) =? 0 then i else strnlen_loop n' s (i + 1) m
  end.
Definition strnlen (s maxlen : Z) (m : mem) : Z := strnlen_loop (Z.to_nat maxlen) s 0 m.

(** The user library's copies of the same routines. *)
Definition u_memcpy := memcpy.
Definition u_memmove := memmove.
Definition u_memset := memset.
Definition u_memcmp := memcmp.
Definition u_strlen := strlen.
Definition u_strchr := strchr.
Definition u_strrchr := strrchr.

Fixpoint u_strcmp (fuel : nat) (a b : Z) (m : mem) : option Z :=
  match fuel with
  | O => None
  | S f => if negb (load8 m a =? 0) && (load8 m a =? load8 m b)
           then u_strcmp f (a + 1) (b + 1) m
           else Some (load8 m a - load8 m b)
  end.

Fixpoint u_strncmp_loop (n : nat) (i a b : Z) (m : mem) : Z :=
  match n with
  | O => 0
  | S n' =>
    let ca := load8 m (a + i) in let cb := load8 m (b + i) in
    if negb (ca =? cb) then ca - cb else
    if ca =? 0 then 0 else u_strncmp_loop n' (i + 1) a b m
  end.
Definition u_strncmp (a b n : Z) (m : mem) : Z := u_strncmp_loop (Z.to_nat n) 0 a b m.

(** Copy up to and including the zero. *)
Fixpoint u_strcpy (fuel : nat) (dst src : Z) (m : mem) : option mem :=
  match fuel with
  | O => None
  | S f => let m' := store8 m dst (load8 m src) in
           if load8 m' dst =? 0 then Some m' else u_strcpy f (dst + 1) (src + 1) m'
  end.

(** The two loops of [u_strncpy]: copy until the zero, then pad. *)
Fixpoint strncpy_loop (n : nat) (i dst src : Z) (m : mem) : mem :=
  match n with
  | O => m
  | S n' => if load8 m (src + i) =? 0 then memset_loop n i dst 0 m
            else strncpy_loop n' (i + 1) dst src (store8 m (dst + i) (load8 m (src + i)))
  end.
Definition u_strncpy (dst src n : Z) (m : mem) : mem := strncpy_loop (Z.to_nat n) 0 dst src m.

Definition u_isspace_ch (c : Z) : bool :=
  (c =? 32) || (c =? 9) || (c =? 10) || (c =? 13) || (c =? 12) || (c =? 11).
Definition u_isdigit_ch (c : Z) : bool := (48 <=? c) && (c <=? 57).

Fixpoint skip_space (fuel : nat) (s : Z) (m : mem) : option Z :=
  match fuel with
  | O => None
  | S f => if u_isspace_ch (load8 m s) then skip_space f (s + 1) m else Some s
  end.

(** A [long] that would overflow is undefined: [None]. *)
Definition as_long (v : Z) : option Z :=
  if (- 2^63 <=? v) && (v <? 2^63) then Some v else None.

Fixpoint atol_digits (fuel : nat) (s val : Z) (m : mem) : option Z :=
  match fuel with
  | O => None
  | S f => if u_isdigit_ch (load8 m s)
           then match as_long (val * 10) with
                | Some v => match as_long (v + (load8 m s - 48)) with
                            | Some v' => atol_digits f (s + 1) v' m
                            | None => None
                            end
                | None => None
                end
           else Some val
  end.

Definition u_atol (fuel : nat) (s : Z) (m : mem) : option Z :=
  match skip_space fuel s m with
  | None => None
  | Some s =>
    let '(sign, s) := if load8 m s =? 43 then (1, s + 1) else
                      if load8 m s =? 45 then (-1, s + 1) else (1, s) in
    match atol_digits fuel s 0 m with
    | Some v => as_long (sign * v)
    | None => None
    end
  end.

(** The conversion to [int] keeps the low 32 bits. *)
Definition u_atoi (fuel : nat) (s : Z) (m : mem) : option Z :=
  match u_atol fuel s m with Some v => Some (s32 v) | None => None end.

(** ** Block operations *)

(** Memory holds bytes. *)
Definition bytes_ok (m : mem) : Prop := forall a, 0 <= load8 m a < 256.

Lemma bytes_ok_store m a v : bytes_ok m -> bytes_ok (store8 m a v).
Proof. intros H b. rewrite load8_store8. case_decide; [apply u8_range|apply H]. Qed.

Lemma load8_u8 m a : bytes_ok m -> u8 (load8 m a) = load8 m a.
Proof. intros H. apply u8_small, H. Qed.

Lemma copy_forward_load n i d s m a :
  bytes_ok m -> d <= s \/ s + i + Z.of_nat n <= d + i ->
  load8 (copy_forward n i d s m) a =
  if decide (d + i <= a < d + i + Z.of_nat n) then load8 m (a - d + s) else load8 m a.
Proof.
  revert i m. induction n as [|n IH]; intros i m Hm Hd; cbn [copy_forward].
  - rewrite decide_False by lia. done.
  - rewrite IH by (try apply bytes_ok_store; try done; lia). rewrite !load8_store8, load8_u8 by done.
    repeat case_decide; try lia; try done.
    f_equal. lia.
Qed.

Lemma copy_backward_load n d s m a :
  bytes_ok m -> s <= d ->
  load8 (copy_backward n d s m) a =
  if decide (d <= a < d + Z.of_nat n) then load8 m (a - d + s) else load8 m a.
Proof.
  revert m. induction n as [|n IH]; intros m Hm Hd; cbn [copy_backward].
  - rewrite decide_False by lia. done.
  - rewrite IH by (try apply bytes_ok_store; done). rewrite !load8_store8, load8_u8 by done.
    repeat case_decide; try lia; try done. f_equal. lia.
Qed.

Lemma memset_loop_load n i p v m a :
  load8 (memset_loop n i p v m) a =
  if decide (p + i <= a < p + i + Z.of_nat n) then u8 v else load8 m a.
Proof.
  revert i m. induction n as [|n IH]; intros i m; cbn [memset_loop].
  - rewrite decide_False by lia. done.
  - rewrite IH, load8_store8. repeat case_decide; try lia; done.
Qed.

Lemma memcmp_loop_eq n i a b m :
  memcmp_loop n i a b m = 0 <->
  forall k, i <= k < i + Z.of_nat n -> load8 m (a + k) = load8 m (b + k).
Proof.
  revert i. induction n as [|n IH]; intros i; cbn [memcmp_loop].
  - split; [intros _ k Hk; lia|done].
  - destruct (Z.eqb_spec (load8 m (a + i)) (load8 m (b + i))) as [E|E].
    + rewrite IH. split; intros H k Hk; [|apply H; lia].
      destruct (decide (k = i)) as [-> |]; [done|apply H; lia].
    + split; [intros H; exfalso; apply E; lia|]. intros H. exfalso. apply E, H. lia.
Qed.

(** The sign of the result is the order of the first bytes that differ. *)
Lemma memcmp_loop_first n i a b m :
  memcmp_loop n i a b m <> 0 -> exists k, i <= k < i + Z.of_nat n /\
    (forall j, i <= j < k -> load8 m (a + j) = load8 m (b + j)) /\
    memcmp_loop n i a b m = load8 m (a + k) - load8 m (b + k).
Proof.
  revert i. induction n as [|n IH]; intros i; cbn [memcmp_loop]; [done|].
  destruct (Z.eqb_spec (load8 m (a + i)) (load8 m (b + i))) as [E|E]; intros H.
  - destruct (IH _ H) as (k & Hk & Hj & Ek). exists k. split; [lia|]. split; [|done].
    intros j Hij. destruct (decide (j = i)) as [-> |]; [done|apply Hj; lia].
  - exists i. split; [lia|]. split; [intros j Hj; lia|done].
Qed.

(** ** Strings *)

(** The string [l] lies at [p]: its characters, none of them zero, then a zero. *)
Fixpoint cstr (m : mem) (p : Z) (l : list Z) : Prop :=
  match l with
  | [] => load8 m p = 0
  | c :: l' => load8 m p = c /\ c <> 0 /\ cstr m (p + 1) l'
  end.

Lemma cstr_unique m p l l' : cstr m p l -> cstr m p l' -> l = l'.
Proof.
  revert p l'. induction l as [|c l IH]; intros p [|c' l']; simpl; [done|..].
  - intros E (E' & Hn & _). congruence.
  - intros (E & Hn & _) E'. congruence.
  - intros (E & _ & H) (E' & _ & H'). f_equal; [congruence|by apply (IH (p + 1))].
Qed.

Lemma strlen_loop_cstr fuel s n m l :
  cstr m (s + n) l -> (length l < fuel)%nat ->
  strlen_loop fuel s n m = Some (n + Z.of_nat (length l)).
Proof.
  revert s n l. induction fuel as [|f IH]; intros s n l Hc Hf; [simpl in Hf; lia|]. cbn [strlen_loop].
  destruct l as [|c l]; cbn [cstr length] in *.
  - rewrite Hc. simpl. f_equal. lia.
  - destruct Hc as (-> & Hn & Hc). rewrite (proj2 (Z.eqb_neq c 0)) by done.
    rewrite (IH s (n + 1) l); [f_equal; lia| |lia]. by replace (s + (n + 1)) with (s + n + 1) by lia.
Qed.

Lemma strnlen_loop_cstr n s i m l :
  cstr m (s + i) l -> strnlen_loop n s i m = i + Z.min (Z.of_nat n) (Z.of_nat (length l)).
Proof.
  revert i l. induction n as [|n IH]; intros i l Hc; cbn [strnlen_loop]; [lia|].
  destruct l as [|c l]; cbn [cstr length] in *.
  - rewrite Hc. simpl. lia.
  - destruct Hc as (-> & Hn & Hc). rewrite (proj2 (Z.eqb_neq c 0)) by done.
    rewrite (IH (i + 1) l); [lia|]. by replace (s + (i + 1)) with (s + i + 1) by lia.
Qed.

(** The first and the last position of a character in a string. *)
Fixpoint first_at (p c : Z) (l : list Z) : Z :=
  match l with [] => 0 | x :: l' => if x =? c then p else first_at (p + 1) c l' end.
Fixpoint last_at (p c last : Z) (l : list Z) : Z :=
  match l with [] => last | x :: l' => last_at (p + 1) c (if x =? c then p else last) l' end.

Lemma strchr_loop_cstr fuel p c m l :
  cstr m p l -> (length l < fuel)%nat ->
  strchr_loop fuel p c m = Some (if c =? 0 then p + Z.of_nat (length l) else first_at p c l).
Proof.
  revert p l. induction fuel as [|f IH]; intros p l Hc Hf; [simpl in Hf; lia|]. cbn [strchr_loop].
  destruct l as [|x l]; cbn [cstr length first_at] in *.
  - rewrite Hc. simpl. by rewrite Z.add_0_r.
  - destruct Hc as (-> & Hn & Hc). rewrite (proj2 (Z.eqb_neq x 0)) by done.
    destruct (Z.eqb_spec x c) as [-> |Hne].
    + by rewrite (proj2 (Z.eqb_neq c 0)).
    + rewrite (IH _ l Hc) by lia. destruct (c =? 0); f_equal. lia.
Qed.

Lemma strrchr_loop_cstr fuel p c last m l :
  cstr m p l -> (length l < fuel)%nat ->
  strrchr_loop fuel p c last m =
  Some (if c =? 0 then p + Z.of_nat (length l) else last_at p c last l).
Proof.
  revert p last l. induction fuel as [|f IH]; intros p last l Hc Hf; [simpl in Hf; lia|].
  cbn [strrchr_loop]. destruct l as [|x l]; cbn [cstr length last_at] in *.
  - rewrite Hc. simpl. by rewrite Z.add_0_r.
  - destruct Hc as (-> & Hn & Hc). rewrite (proj2 (Z.eqb_neq x 0)) by done.
    rewrite (IH _ _ l Hc) by lia. destruct (c =? 0); f_equal. lia.
Qed.

Lemma u_strcmp_cstr fuel a b m la lb :
  cstr m a la -> cstr m b lb -> (length la < fuel)%nat ->
  exists r, u_strcmp fuel a b m = Some r /\ (r = 0 <-> la = lb).
Proof.
  revert a b la lb. induction fuel as [|f IH]; intros a b la lb Ha Hb Hf; [simpl in Hf; lia|].
  cbn [u_strcmp]. destruct la as [|x la]; cbn [cstr length] in *.
  - rewrite Ha. simpl. eexists. split; [reflexivity|]. destruct lb as [|y lb]; cbn [cstr] in Hb.
    + rewrite Hb. done.
    + destruct Hb as (-> & Hn & _). split; [lia|done].
  - destruct Ha as (-> & Hn & Ha). rewrite (proj2 (Z.eqb_neq x 0)) by done. cbn [negb andb].
    destruct lb as [|y lb]; cbn [cstr] in Hb.
    + rewrite Hb. rewrite (proj2 (Z.eqb_neq x 0)) by done. eexists. split; [reflexivity|]. split; [lia|done].
    + destruct Hb as (-> & Hny & Hb). destruct (Z.eqb_spec x y) as [-> |Hne].
      * destruct (IH _ _ la lb Ha Hb) as (r & -> & Hr); [lia|]. exists r. split; [done|].
        rewrite Hr. split; [by intros ->|by intros [=]].
      * eexists. split; [reflexivity|]. split; [lia|]. intros [= E _]. done.
Qed.

Lemma cstr_frame m m' p l :
  (forall a, p <= a <= p + Z.of_nat (length l) -> load8 m' a = load8 m a) -> cstr m p l -> cstr m' p l.
Proof.
  revert p. induction l as [|c l IH]; intros p H; cbn [cstr length] in *.
  - rewrite H by lia. done.
  - intros (E & Hn & Hc). rewrite H by lia. split; [done|]. split; [done|].
    apply IH; [|done]. intros a Ha. apply H. lia.
Qed.

Lemma cstr_bytes m p l : bytes_ok m -> cstr m p l -> Forall (fun c => 0 < c < 256) l.
Proof.
  intros Hm. revert p. induction l as [|c l IH]; intros p; [by constructor|].
  intros (<- & Hn & Hc). constructor; [|by eapply IH]. specialize (Hm p). lia.
Qed.

(** A copy to a region the source does not meet. *)
Lemma u_strcpy_cstr fuel dst src m l :
  bytes_ok m -> cstr m src l -> (length l < fuel)%nat ->
  dst + Z.of_nat (length l) < src \/ src + Z.of_nat (length l) < dst ->
  exists m', u_strcpy fuel dst src m = Some m' /\ cstr m' dst l /\
    forall a, a < dst \/ dst + Z.of_nat (length l) < a -> load8 m' a = load8 m a.
Proof.
  revert dst src m l. induction fuel as [|f IH]; intros dst src m l Hm Hc Hf Hd; [simpl in Hf; lia|].
  cbn [u_strcpy]. rewrite load8_store8_eq, load8_u8 by done.
  destruct l as [|c l]; cbn [cstr length] in *.
  - rewrite Hc. simpl. eexists. split; [reflexivity|]. split.
    + rewrite load8_store8_eq. by apply u8_small.
    + intros a Ha. apply load8_store8_ne. lia.
  - destruct Hc as (E & Hn & Hc). rewrite E, (proj2 (Z.eqb_neq c 0)) by done.
    set (m1 := store8 m dst c).
    assert (Hm1 : forall a, a <> dst -> load8 m1 a = load8 m a)
      by (intros a Ha; apply load8_store8_ne; lia).
    destruct (IH (dst + 1) (src + 1) m1 l) as (m' & -> & Hc' & Hfr).
    + by apply bytes_ok_store.
    + eapply cstr_frame; [|exact Hc]. intros a Ha. apply Hm1. lia.
    + lia.
    + lia.
    + exists m'. split; [done|]. split.
      * rewrite Hfr by lia. unfold m1. rewrite load8_store8_eq, <- E.
        split; [by apply load8_u8|]. split; [by rewrite E|done].
      * intros a Ha. rewrite Hfr by lia. apply Hm1. lia.
Qed.

(** The [n] bytes [u_strncpy] writes: the string, cut or padded with zeros. *)
Lemma strncpy_loop_cstr n i dst src m l k :
  bytes_ok m -> cstr m (src + i) l ->
  dst + i + Z.of_nat n <= src + i \/ src + i + Z.of_nat (length l) < dst + i ->
  0 <= k < Z.of_nat n ->
  load8 (strncpy_loop n i dst src m) (dst + i + k) = nth (Z.to_nat k) l 0.
Proof.
  revert i m l k. induction n as [|n IH]; intros i m l k Hm Hc Hd Hk; [lia|]. cbn [strncpy_loop].
  destruct l as [|c l]; cbn [cstr length] in *.
  - rewrite Hc, Z.eqb_refl. rewrite memset_loop_load, decide_True by lia. by destruct (Z.to_nat k).
  - destruct Hc as (E & Hn & Hc). rewrite E, (proj2 (Z.eqb_neq c 0)) by done.
    destruct (decide (k = 0)) as [-> |Hk0].
    + cbn [nth Z.to_nat]. rewrite Z.add_0_r.
      assert (Hout : forall j m' a, a < dst + j -> load8 (strncpy_loop n j dst src m') a = load8 m' a).
      { clear. induction n as [|n IH]; intros j m' a Ha; cbn [strncpy_loop]; [done|].
        destruct (load8 m' (src + j) =? 0); [rewrite memset_loop_load; by rewrite decide_False by lia|].
        rewrite IH by lia. apply load8_store8_ne. lia. }
      rewrite Hout by lia. rewrite load8_store8_eq, <- E. by apply load8_u8.
    + replace (dst + i + k) with (dst + (i + 1) + (k - 1)) by lia.
      rewrite (IH (i + 1) _ l).
      * replace (Z.to_nat k) with (S (Z.to_nat (k - 1))) by lia. done.
      * by apply bytes_ok_store.
      * eapply cstr_frame; [|replace (src + (i + 1)) with (src + i + 1) by lia; exact Hc].
        intros a Ha. apply load8_store8_ne. lia.
      * lia.
      * lia.
Qed.

(** ** Decimal numbers *)

(** The value of the digits a string starts with, after [acc]. *)
Fixpoint digits_value (acc : Z) (l : list Z) : Z :=
  match l with
  | [] => acc
  | c :: l' => if u_isdigit_ch c then digits_value (acc * 10 + (c - 48)) l' else acc
  end.

Lemma digits_value_ge acc l : 0 <= acc -> acc <= digits_value acc l.
Proof.
  revert acc. induction l as [|c l IH]; intros acc H; simpl; [lia|].
  unfold u_isdigit_ch. destruct (Z.leb_spec 48 c), (Z.leb_spec c 57); simpl; try lia.
  etransitivity; [|apply IH]; lia.
Qed.

Lemma as_long_ok v : - 2^63 <= v < 2^63 -> as_long v = Some v.
Proof. intros H. unfold as_long. by rewrite (proj2 (Z.leb_le _ _)), (proj2 (Z.ltb_lt _ _)) by lia. Qed.

Lemma atol_digits_cstr fuel p acc m l :
  cstr m p l -> (length l < fuel)%nat -> 0 <= acc -> digits_value acc l < 2^63 ->
  atol_digits fuel p acc m = Some (digits_value acc l).
Proof.
  revert p acc l. induction fuel as [|f IH]; intros p acc l Hc Hf H0 Hb; [simpl in Hf; lia|].
  cbn [atol_digits]. destruct l as [|c l]; cbn [cstr length digits_value] in *.
  - by rewrite Hc.
  - destruct Hc as (-> & Hn & Hc). destruct (u_isdigit_ch c) eqn:Ed; [|done].
    assert (48 <= c <= 57) as Hd by (unfold u_isdigit_ch in Ed; lia).
    pose proof (digits_value_ge (acc * 10 + (c - 48)) l ltac:(lia)).
    rewrite as_long_ok by lia. rewrite as_long_ok by lia. apply IH; [done|lia|lia|done].
Qed.

(** What [u_atol] reads from a string: white space, a sign, digits. *)
Fixpoint after_space (l : list Z) : list Z :=
  match l with c :: l' => if u_isspace_ch c then after_space l' else l | [] => [] end.
Definition atol_value (l : list Z) : Z :=
  match after_space l with
  | [] => 0
  | c :: l' => if c =? 43 then digits_value 0 l' else
               if c =? 45 then - digits_value 0 l' else digits_value 0 (c :: l')
  end.

Lemma skip_space_cstr fuel p m l :
  cstr m p l -> (length l < fuel)%nat ->
  exists p', skip_space fuel p m = Some p' /\ cstr m p' (after_space l) /\
    (length (after_space l) <= length l)%nat.
Proof.
  revert p l. induction fuel as [|f IH]; intros p l Hc Hf; [simpl in Hf; lia|]. cbn [skip_space].
  destruct l as [|c l]; cbn [cstr length after_space] in *.
  - rewrite Hc. simpl. by exists p.
  - pose proof Hc as (-> & Hn & Hc'). destruct (u_isspace_ch c) eqn:Es.
    + destruct (IH (p + 1) l Hc') as (p' & -> & H1 & H2); [lia|]. exists p'. split; [done|]. split; [done|]. lia.
    + exists p. split; [done|]. split; [done|]. simpl. lia.
Qed.


(** ** Properties *)

(** Memory after [n] bytes were moved from [src] to [dest]: the new bytes of the
    destination are the old bytes of the source, the rest is unchanged. *)
Definition moved (dest src n : Z) (m m' : mem) : Prop :=
  forall a, load8 m' a = if decide (dest <= a < dest + n) then load8 m (a - dest + src) else load8 m a.

(** [memmove] moves a block correctly even when source and destination overlap,
    in either direction; [memcpy] does so for blocks that do not overlap or where
    the destination comes first. *)
Lemma memmove_moves dest src n m :
  bytes_ok m -> 0 <= n ->
  moved dest src n m (memmove dest src n m) /\
  (dest <= src \/ src + n <= dest -> moved dest src n m (memcpy dest src n m)).
Proof.
  intros Hm Hn. split.
  - intros a. unfold memmove. destruct (Z.eqb_spec dest src) as [-> |Hne]; simpl.
    { case_decide; [f_equal; lia|done]. }
    destruct (Z.eqb_spec n 0) as [-> |Hn0]; simpl; [by rewrite decide_False by lia|].
    destruct (Z.ltb_spec dest src).
    + rewrite copy_forward_load by (try done; lia). rewrite Z.add_0_r, Z2Nat.id by lia. done.
    + rewrite copy_backward_load by (try done; lia). rewrite Z2Nat.id by lia. done.
  - intros Hd a. unfold memcpy. rewrite copy_forward_load by (try done; lia).
    rewrite Z.add_0_r, Z2Nat.id by lia. done.
Qed.

(** On a string of [l] characters, [strlen] ends and returns its length,
    [strnlen] the length cut to its bound, [strchr] and [strrchr] the first and
    the last position of the character (the terminator counts), or NULL. *)
Lemma string_queries m s l c fuel maxlen :
  cstr m s l -> (length l < fuel)%nat -> 0 <= maxlen ->
  strlen fuel s m = Some (Z.of_nat (length l)) /\
  strnlen s maxlen m = Z.min maxlen (Z.of_nat (length l)) /\
  strchr fuel s c m = Some (if u8 c =? 0 then s + Z.of_nat (length l) else first_at s (u8 c) l) /\
  strrchr fuel s c m = Some (if u8 c =? 0 then s + Z.of_nat (length l) else last_at s (u8 c) 0 l).
Proof.
  intros Hc Hf Hn. assert (Hc0 : cstr m (s + 0) l) by (by rewrite Z.add_0_r). split.
  { unfold strlen. by rewrite (strlen_loop_cstr fuel s 0 m l). }
  split; [unfold strnlen; rewrite (strnlen_loop_cstr _ s 0 m l) by done; lia|].
  split; [by apply strchr_loop_cstr|by apply strrchr_loop_cstr].
Qed.

(** Comparisons decide equality: [u_strcmp] of strings, [memcmp] of
    blocks; a non-zero [memcmp] is the difference of the first bytes that differ. *)
Lemma comparisons_decide_equality m a b la lb fuel n :
  cstr m a la -> cstr m b lb -> (length la < fuel)%nat -> 0 <= n ->
  (exists r, u_strcmp fuel a b m = Some r /\ (r = 0 <-> la = lb)) /\
  (memcmp a b n m = 0 <-> forall k, 0 <= k < n -> load8 m (a + k) = load8 m (b + k)) /\
  (memcmp a b n m <> 0 -> exists k, 0 <= k < n /\
     (forall j, 0 <= j < k -> load8 m (a + j) = load8 m (b + j)) /\
     memcmp a b n m = load8 m (a + k) - load8 m (b + k)).
Proof.
  intros Ha Hb Hf Hn. split; [by eapply u_strcmp_cstr|]. unfold memcmp. split.
  - rewrite memcmp_loop_eq, Z2Nat.id by lia. done.
  - intros H. destruct (memcmp_loop_first _ _ _ _ _ H) as (k & Hk & Hj & E).
    rewrite Z2Nat.id in Hk by lia. by exists k.
Qed.

(** [u_atol] reads white space, one sign and decimal digits, and returns
    their value, without overflow, whenever the digits stay below 2^63. *)
Lemma u_atol_reads m s l fuel :
  cstr m s l -> (length l < fuel)%nat -> Z.abs (atol_value l) < 2^63 ->
  u_atol fuel s m = Some (atol_value l).
Proof.
  intros Hc Hf Hb. unfold u_atol. destruct (skip_space_cstr fuel s m l Hc Hf) as (p & -> & Hp & Hl).
  unfold atol_value in *. destruct (after_space l) as [|c l'] eqn:E; cbn [cstr] in Hp.
  - rewrite Hp. simpl. rewrite (atol_digits_cstr fuel p 0 m []); cbn; [done|done|lia|lia|lia].
  - pose proof Hp as Hp'. destruct Hp as (Ec & Hn & Hp). rewrite Ec. cbn [length] in Hl.
    destruct (c =? 43); [|destruct (c =? 45)].
    + pose proof (digits_value_ge 0 l' ltac:(lia)).
      rewrite (atol_digits_cstr fuel (p + 1) 0 m l' Hp) by lia.
      rewrite Z.mul_1_l. apply as_long_ok. lia.
    + pose proof (digits_value_ge 0 l' ltac:(lia)).
      rewrite (atol_digits_cstr fuel (p + 1) 0 m l' Hp) by lia.
      replace (-1 * digits_value 0 l') with (- digits_value 0 l') by lia. apply as_long_ok. lia.
    + pose proof (digits_value_ge 0 (c :: l') ltac:(lia)).
      rewrite (atol_digits_cstr fuel p 0 m (c :: l') Hp') by (cbn [length]; lia).
      rewrite Z.mul_1_l. apply as_long_ok. lia.
Qed.

(** [u_strcpy] of a string to a region it does not meet ends, and leaves
    the string there and nothing else changed; [u_strncpy] writes exactly [n] bytes:
    the string, cut at [n] and padded with zeros. *)
Lemma string_copies m dst src l :
  bytes_ok m -> cstr m src l ->
  (forall fuel, (length l < fuel)%nat ->
     dst + Z.of_nat (length l) < src \/ src + Z.of_nat (length l) < dst ->
     exists m', u_strcpy fuel dst src m = Some m' /\ cstr m' dst l /\
       forall a, a < dst \/ dst + Z.of_nat (length l) < a -> load8 m' a = load8 m a) /\
  (forall n k, dst + n <= src \/ src + Z.of_nat (length l) < dst -> 0 <= k < n ->
     load8 (u_strncpy dst src n m) (dst + k) = nth (Z.to_nat k) l 0).
Proof.
  intros Hm Hc. split; [intros fuel Hf Hd; by apply u_strcpy_cstr|]. intros n k Hd Hk.
  pose proof (strncpy_loop_cstr (Z.to_nat n) 0 dst src m l k Hm) as H.
  rewrite !Z.add_0_r, Z2Nat.id in H by lia. apply H; [done|lia|lia].
Qed.


(** ** On the string "-42" at address 100 *)

Definition demo_mem : mem := store_bytes ∅ 100 [45; 52; 50; 0].

Lemma demo_bytes : bytes_ok demo_mem.
Proof.
  unfold demo_mem. cbn [store_bytes]. repeat apply bytes_ok_store.
  intros a. unfold load8. rewrite lookup_empty. cbn. lia.
Qed.
Lemma demo_cstr : cstr demo_mem 100 [45; 52; 50].
Proof. vm_compute. intuition discriminate. Qed.

