(* ===== verification/Stdio.v ===== *)
(** * Formatted output and line input ([user/ulib_stdio.c])

    Characters are their codes and strings are lists of them, without the
    terminating zero.  The variable arguments are a list of values.  Output goes
    to a buffer of known size: a write outside it is undefined ([None]), so
    [u_vsnprintf] returning at all means that it stayed inside.  Input is the
    sequence of results the [read] system call returns. *)
From stdpp Require Import base numbers list.
From Stdlib Require Import ZArith Lia.
From S2P Require Import Prelude Mem CString.

Local Open Scope Z_scope.

(** ** Numbers *)

Definition digit_char (upper : bool) (d : Z) : Z := if d <? 10 then 48 + d else (if upper then 65 else 97) + (d - 10).

(** [while (v > 0)], writing backwards in front of [acc]; 64 steps suffice for
    any 64-bit value. *)
Fixpoint itoa_loop (fuel : nat) (v base : Z) (acc : list Z) : list Z :=
  match fuel with
  | O => acc
  | S f => if 0 <? v then itoa_loop f (v / base) base (digit_char false (v mod base) :: acc) else acc
  end.

(** [-value] of the least [long long] overflows: [None]. *)
Definition u_itoa (value base : Z) (sign : bool) : option (list Z) :=
  let neg := sign && (value <? 0) in
  if neg && (value =? - 2^63) then None else
  let v := u64 (if neg then - value else value) in
  let digits := if v =? 0 then [48] else itoa_loop 64 v base [] in
  Some (if neg then 45 :: digits else digits).

(** ** Format directives *)

Inductive va_value : Type :=
| VaNum (v : Z)
| VaStr (s : option (list Z)).      (* a [char *]: [None] is NULL *)

Inductive length_mod : Type := LEN_NONE | LEN_L | LEN_LL | LEN_Z.

(** The flag loop: [-] and [0] in any order. *)
Fixpoint parse_flags (fmt : list Z) (left_adjust zero_pad : bool) : bool * bool * list Z :=
  match fmt with
  | [] => (left_adjust, zero_pad, [])
  | c :: rest =>
    if c =? 45 then parse_flags rest true zero_pad else
    if c =? 48 then parse_flags rest left_adjust true else
    (left_adjust, zero_pad, fmt)
  end.

Fixpoint parse_width (fmt : list Z) (width : Z) : Z * list Z :=
  match fmt with
  | [] => (width, [])
  | c :: rest => if u_isdigit_ch c then parse_width rest (width * 10 + (c - 48)) else (width, fmt)
  end.

Fixpoint skip_digits (fmt : list Z) : list Z :=
  match fmt with
  | [] => []
  | c :: rest => if u_isdigit_ch c then skip_digits rest else fmt
  end.
Definition skip_precision (fmt : list Z) : list Z :=
  match fmt with
  | c :: rest => if c =? 46 then skip_digits rest else fmt
  | [] => []
  end.

Definition parse_length (fmt : list Z) : length_mod * list Z :=
  match fmt with
  | [] => (LEN_NONE, [])
  | c :: rest =>
    if c =? 108 then
      match rest with
      | c2 :: rest2 => if c2 =? 108 then (LEN_LL, rest2) else (LEN_L, rest)
      | [] => (LEN_L, rest)
      end
    else if c =? 122 then (LEN_Z, rest)
    else (LEN_NONE, fmt)
  end.

(** [va_arg] at the type the specifier and the length modifier select. *)
Definition va_signed (l : length_mod) (v : Z) : Z := match l with LEN_NONE => s32 v | _ => s64 v end.
Definition va_unsigned (l : length_mod) (v : Z) : Z := match l with LEN_NONE => u32 v | _ => u64 v end.

Definition upcase (c : Z) : Z := if (97 <=? c) && (c <=? 102) then c - 32 else c.

(** The text of one conversion and whether zero padding still applies; an
    argument of the wrong kind, or none, is undefined. *)
Inductive conversion : Type :=
| Text (s : list Z) (zero_pad : bool) (ap : list va_value)
| Unsupported
| BadArg.

Definition of_itoa (r : option (list Z)) (f : list Z -> list Z) (zero_pad : bool) (ap : list va_value) : conversion :=
  match r with Some s => Text (f s) zero_pad ap | None => BadArg end.

Definition convert (spec : Z) (len : length_mod) (zero_pad : bool) (ap : list va_value) : conversion :=
  if spec =? 99 then                                     (* 'c' *)
    match ap with VaNum v :: ap => Text [u8 v] zero_pad ap | _ => BadArg end
  else if spec =? 115 then                               (* 's' *)
    match ap with
    | VaStr s :: ap => Text (default [40; 110; 117; 108; 108; 41] s) false ap
    | _ => BadArg
    end
  else if (spec =? 100) || (spec =? 105) then            (* 'd' 'i' *)
    match ap with
    | VaNum v :: ap => of_itoa (u_itoa (va_signed len v) 10 true) id zero_pad ap
    | _ => BadArg
    end
  else if (spec =? 117) || (spec =? 120) || (spec =? 88) then  (* 'u' 'x' 'X' *)
    match ap with
    | VaNum v :: ap =>
      of_itoa (u_itoa (s64 (va_unsigned len v)) (if spec =? 117 then 10 else 16) false)
              (if spec =? 88 then map upcase else id) zero_pad ap
    | _ => BadArg
    end
  else if spec =? 112 then                               (* 'p' *)
    match ap with
    | VaNum v :: ap => of_itoa (u_itoa (s64 (u64 v)) 16 false) (fun s => 48 :: 120 :: s) false ap
    | _ => BadArg
    end
  else Unsupported.

(** Width, alignment and padding around the text of a conversion. *)
Definition pad_field (left_adjust zero_pad : bool) (width spec : Z) (s : list Z) : list Z :=
  let pad_len := if (0 <? width) && (Z.of_nat (length s) <? width)
                 then Z.to_nat (width - Z.of_nat (length s)) else O in
  let pad_char := if zero_pad && negb left_adjust && negb (spec =? 115) then 48 else 32 in
  (if left_adjust then [] else replicate pad_len pad_char) ++ s ++
  (if left_adjust then replicate pad_len 32 else []).

(** One directive, after its [%]: what it emits and what is left of the format
    and of the arguments.  A format that ends inside a directive ends there. *)
Inductive directive : Type :=
| Emit (out fmt : list Z) (ap : list va_value)
| Stop
| Undefined.

Definition parse_directive (fmt : list Z) (ap : list va_value) : directive :=
  match fmt with
  | [] => Stop
  | c :: rest =>
    if c =? 37 then Emit [37] rest ap else
    let '(left_adjust, zero_pad, fmt) := parse_flags fmt false false in
    let '(width, fmt) := parse_width fmt 0 in
    let '(len, fmt) := parse_length (skip_precision fmt) in
    match fmt with
    | [] => Stop
    | spec :: fmt =>
      match convert spec len zero_pad ap with
      | Text s zp ap => Emit (pad_field left_adjust zp width spec s) fmt ap
      | Unsupported => Emit [37; spec] fmt ap
      | BadArg => Undefined
      end
    end
  end.

(** ** The buffer *)

Record out_state := { o_buf : list Z; o_pos : nat; o_total : nat }.

(** A write at or past the end of the array is undefined. *)
Definition buf_write (i : nat) (ch : Z) (buf : list Z) : option (list Z) :=
  if (i <? length buf)%nat then Some (<[i := ch]> buf) else None.

Definition out_char (avail : nat) (ch : Z) (o : out_state) : option out_state :=
  if (o_pos o <? avail)%nat then
    match buf_write (o_pos o) ch (o_buf o) with
    | Some buf => Some {| o_buf := buf; o_pos := S (o_pos o); o_total := S (o_total o) |}
    | None => None
    end
  else Some {| o_buf := o_buf o; o_pos := S (o_pos o); o_total := S (o_total o) |}.

Fixpoint out_chars (avail : nat) (l : list Z) (o : out_state) : option out_state :=
  match l with
  | [] => Some o
  | ch :: l' => match out_char avail ch o with Some o' => out_chars avail l' o' | None => None end
  end.

(** The main loop; every iteration consumes a character of the format. *)
Fixpoint vsnprintf_loop (fuel : nat) (avail : nat) (fmt : list Z) (ap : list va_value) (o : out_state)
    : option out_state :=
  match fuel with
  | O => None
  | S f =>
    match fmt with
    | [] => Some o
    | c :: rest =>
      if negb (c =? 37) then
        match out_char avail c o with Some o' => vsnprintf_loop f avail rest ap o' | None => None end
      else
        match parse_directive rest ap with
        | Emit out fmt ap =>
          match out_chars avail out o with
          | Some o' => vsnprintf_loop f avail fmt ap o'
          | None => None
          end
        | Stop => Some o
        | Undefined => None
        end
    end
  end.

(** The buffer afterwards and the returned length. *)
Definition u_vsnprintf (buf : list Z) (size : nat) (fmt : list Z) (ap : list va_value) : option (list Z * Z) :=
  let avail := (if 0 <? size then size - 1 else 0)%nat in
  match vsnprintf_loop (S (length fmt)) avail fmt ap {| o_buf := buf; o_pos := 0; o_total := 0 |} with
  | None => None
  | Some o =>
    if (0 <? size)%nat then
      let term := if (o_pos o <=? avail)%nat then o_pos o else avail in
      match buf_write term 0 (o_buf o) with
      | Some buf => Some (buf, s32 (Z.of_nat (o_total o)))
      | None => None
      end
    else Some (o_buf o, s32 (Z.of_nat (o_total o)))
  end.

Definition u_snprintf := u_vsnprintf.

(** The bytes [u_printf] hands to [write], and its result. *)
Definition u_printf (buf : list Z) (fmt : list Z) (ap : list va_value) : option (list Z * Z) :=
  match u_vsnprintf buf 256 fmt ap with
  | None => None
  | Some (buf, n) =>
    Some (if 0 <? n then take (if n <? 256 then Z.to_nat n else 255%nat) buf else [], n)
  end.

(** ** Line input *)

(** What a [read] returns: bytes (none at end of file) or a negative code. *)
Inductive rd : Type := RdBytes (l : list Z) | RdErr (e : Z).

(** [read(fd, &c, 1)] on the results to come; no result left: blocked for ever. *)
Inductive rd1 : Type := One (c : Z) (input : list rd) | Eof (input : list rd) | Err (e : Z) (input : list rd) | Blocked.
Definition read1 (input : list rd) : rd1 :=
  match input with
  | RdBytes [c] :: input => One c input
  | RdBytes [] :: input => Eof input
  | RdErr e :: input => Err e input
  | _ => Blocked
  end.

(** [u_gets]: the line so far (in order), the echo so far (reversed), the rest of
    the input. *)
Definition U_GETS_INTR : Z := -2.
Inductive gets_result : Type :=
| GotLine (line echo : list Z) (input : list rd)
| GotCode (code : Z) (echo : list Z) (input : list rd).

Fixpoint gets_loop (fuel : nat) (buf_size : nat) (line echo : list Z) (input : list rd) : option gets_result :=
  match fuel with
  | O => None
  | S f =>
    match read1 input with
    | Blocked => None
    | Err e input => Some (GotCode e echo input)
    | Eof input => if (length line =? 0)%nat then Some (GotCode 0 echo input) else Some (GotLine line echo input)
    | One c input =>
      if c =? 3 then Some (GotCode U_GETS_INTR (echo ++ [94; 67; 10]) input) else
      if (c =? 10) || (c =? 13) then Some (GotLine line (echo ++ [10]) input) else
      if (c =? 8) || (c =? 127) then
        if (0 <? length line)%nat
        then gets_loop f buf_size (take (length line - 1) line) (echo ++ [8; 32; 8]) input
        else gets_loop f buf_size line echo input
      else if c <? 32 then gets_loop f buf_size line echo input
      else if (length line <? buf_size - 1)%nat
           then gets_loop f buf_size (line ++ [c]) (echo ++ [c]) input
           else gets_loop f buf_size line echo input
    end
  end.

Definition u_gets (fuel : nat) (buf_null : bool) (buf_size : Z) (input : list rd) : option gets_result :=
  if buf_null || (buf_size <=? 1) then Some (GotCode (-1) [] input)
  else gets_loop fuel (Z.to_nat buf_size) [] [] input.

(** [u_read_line] and [u_read_until] stop when the buffer is full. *)
Fixpoint read_line_loop (n : nat) (line : list Z) (input : list rd) : option gets_result :=
  match n with
  | O => Some (GotLine line [] input)
  | S n' =>
    match read1 input with
    | Blocked => None
    | Err e input => Some (GotCode e [] input)
    | Eof input => if (length line =? 0)%nat then Some (GotCode 0 [] input) else Some (GotLine line [] input)
    | One c input => if (c =? 10) || (c =? 13) then Some (GotLine line [] input)
                     else read_line_loop n' (line ++ [c]) input
    end
  end.
Definition u_read_line (buf_size : Z) (input : list rd) : option gets_result :=
  if buf_size <=? 1 then Some (GotCode (-1) [] input)
  else read_line_loop (Z.to_nat (buf_size - 1)) [] input.

Fixpoint read_until_loop (n : nat) (delim : Z) (line : list Z) (input : list rd) : option gets_result :=
  match n with
  | O => Some (GotLine line [] input)
  | S n' =>
    match read1 input with
    | Blocked => None
    | Err e input => Some (GotCode e [] input)
    | Eof input => Some (GotLine line [] input)
    | One c input => if c =? delim then Some (GotLine (line ++ [c]) [] input)
                     else read_until_loop n' delim (line ++ [c]) input
    end
  end.
Definition u_read_until (buf_size delim : Z) (input : list rd) : option gets_result :=
  if buf_size <=? 1 then Some (GotCode (-1) [] input)
  else read_until_loop (Z.to_nat (buf_size - 1)) delim [] input.

(** [u_readn]: [read] may return fewer bytes than asked, never more. *)
Fixpoint u_readn (fuel : nat) (nbytes : nat) (got : list Z) (input : list rd) : option gets_result :=
  match fuel with
  | O => None
  | S f =>
    if (length got <? nbytes)%nat then
      match input with
      | [] => None
      | RdErr e :: input => Some (GotCode e [] input)
      | RdBytes l :: input =>
        if (length l =? 0)%nat then Some (GotLine got [] input) else
        if (length l <=? nbytes - length got)%nat then u_readn f nbytes (got ++ l) input else None
      end
    else Some (GotLine got [] input)
  end.

Definition u_getchar (input : list rd) : option (Z * list rd) :=
  match read1 input with
  | One c input => Some (c, input)
  | Eof input => Some (-1, input)
  | Err e input => Some (e, input)
  | Blocked => None
  end.

(** ** The text a format stands for *)

(** The whole output, however long. *)
Fixpoint format (fuel : nat) (fmt : list Z) (ap : list va_value) : option (list Z) :=
  match fuel with
  | O => None
  | S f =>
    match fmt with
    | [] => Some []
    | c :: rest =>
      if negb (c =? 37) then option_map (cons c) (format f rest ap) else
      match parse_directive rest ap with
      | Emit out fmt ap => option_map (app out) (format f fmt ap)
      | Stop => Some []
      | Undefined => None
      end
    end
  end.

(** The buffer after writing [l] at the front of it, as far as it may. *)
Definition written (avail : nat) (l buf : list Z) : list Z := take avail l ++ drop (length (take avail l)) buf.

Lemma written_length avail l buf : (avail <= length buf)%nat -> length (written avail l buf) = length buf.
Proof. intros H. unfold written. rewrite length_app, length_drop, length_take. lia. Qed.

Lemma written_snoc avail l buf c :
  (length l < avail)%nat -> (avail <= length buf)%nat ->
  <[length l := c]> (written avail l buf) = written avail (l ++ [c]) buf.
Proof.
  intros H1 H2. unfold written. rewrite !take_ge by (rewrite ?length_app; simpl; lia).
  rewrite insert_app_r_alt by lia. rewrite Nat.sub_diag, <- app_assoc, length_app. f_equal.
  replace (length l + length [c])%nat with (S (length l)) by (simpl; lia).
  destruct (drop (length l) buf) as [|b r] eqn:E.
  - apply (f_equal length) in E. rewrite length_drop in E. simpl in E. lia.
  - simpl. f_equal. erewrite (drop_S buf b (length l)) in E; [by injection E|].
    apply (f_equal (fun r => r !! O)) in E. by rewrite lookup_drop, Nat.add_0_r in E.
Qed.

Lemma written_more avail l l' buf : (avail <= length l)%nat -> written avail (l ++ l') buf = written avail l buf.
Proof. intros H. unfold written. by rewrite take_app_le. Qed.

(** The state after emitting [l] into a buffer that held [buf]. *)
Definition emitted (avail : nat) (l buf : list Z) : out_state :=
  {| o_buf := written avail l buf; o_pos := length l; o_total := length l |}.

Lemma out_char_emitted avail l buf c :
  (avail <= length buf)%nat -> out_char avail c (emitted avail l buf) = Some (emitted avail (l ++ [c]) buf).
Proof.
  intros H. unfold out_char, emitted, buf_write. cbn [o_buf o_pos o_total].
  rewrite length_app. replace (length l + length [c])%nat with (S (length l)) by (simpl; lia).
  destruct (Nat.ltb_spec (length l) avail).
  - rewrite written_length by done. rewrite (proj2 (Nat.ltb_lt _ _)) by lia. by rewrite written_snoc.
  - by rewrite written_more by lia.
Qed.

Lemma out_chars_emitted avail l buf out :
  (avail <= length buf)%nat -> out_chars avail out (emitted avail l buf) = Some (emitted avail (l ++ out) buf).
Proof.
  intros H. revert l. induction out as [|c out IH]; intros l; cbn [out_chars]; [by rewrite app_nil_r|].
  rewrite out_char_emitted by done. rewrite IH. by rewrite <- app_assoc.
Qed.

Lemma vsnprintf_loop_format fuel avail fmt ap l buf out :
  (avail <= length buf)%nat -> format fuel fmt ap = Some out ->
  vsnprintf_loop fuel avail fmt ap (emitted avail l buf) = Some (emitted avail (l ++ out) buf).
Proof.
  intros H. revert fmt ap l out. induction fuel as [|f IH]; intros fmt ap l out; cbn [format vsnprintf_loop]; [done|].
  destruct fmt as [|c rest]; [intros [= <-]; by rewrite app_nil_r|].
  destruct (negb (c =? 37)).
  - destruct (format f rest ap) as [o|] eqn:E; [|done]. intros [= <-].
    rewrite out_char_emitted by done. rewrite (IH _ _ _ _ E). by rewrite <- app_assoc.
  - destruct (parse_directive rest ap) as [o fmt' ap'| |]; [|intros [= <-]; by rewrite app_nil_r|done].
    destruct (format f fmt' ap') as [o'|] eqn:E; [|done]. intros [= <-].
    rewrite out_chars_emitted by done. rewrite (IH _ _ _ _ E). by rewrite <- app_assoc.
Qed.

(** Every directive leaves less of the format: the fuel of the loop is enough. *)
Lemma parse_flags_length fmt a b : (length (snd (parse_flags fmt a b)) <= length fmt)%nat.
Proof.
  revert a b. induction fmt as [|c fmt IH]; intros a b; simpl; [lia|].
  destruct (c =? 45); [specialize (IH true b); simpl; lia|].
  destruct (c =? 48); [specialize (IH a true); simpl; lia|simpl; lia].
Qed.
Lemma parse_width_length fmt w : (length (snd (parse_width fmt w)) <= length fmt)%nat.
Proof.
  revert w. induction fmt as [|c fmt IH]; intros w; simpl; [lia|].
  destruct (u_isdigit_ch c); [|simpl; lia]. specialize (IH (w * 10 + (c - 48))). lia.
Qed.
Lemma skip_digits_length fmt : (length (skip_digits fmt) <= length fmt)%nat.
Proof. induction fmt as [|c fmt IH]; simpl; [lia|]. destruct (u_isdigit_ch c); simpl; lia. Qed.
Lemma skip_precision_length fmt : (length (skip_precision fmt) <= length fmt)%nat.
Proof.
  destruct fmt as [|c fmt]; simpl; [lia|]. pose proof (skip_digits_length fmt).
  destruct (c =? 46); simpl; lia.
Qed.
Lemma parse_length_length fmt : (length (snd (parse_length fmt)) <= length fmt)%nat.
Proof.
  destruct fmt as [|c [|c2 fmt]]; simpl; [lia|..];
    repeat match goal with |- context [if ?b then _ else _] => destruct b end; simpl; lia.
Qed.

Lemma parse_directive_length fmt ap out fmt' ap' :
  parse_directive fmt ap = Emit out fmt' ap' -> (length fmt' <= length fmt)%nat.
Proof.
  unfold parse_directive. destruct fmt as [|c rest]; [done|].
  destruct (c =? 37); [intros [= <- <- <-]; simpl; lia|].
  pose proof (parse_flags_length (c :: rest) false false) as H1.
  destruct (parse_flags (c :: rest) false false) as [[la zp] f1]. cbn [snd] in H1.
  pose proof (parse_width_length f1 0) as H2. destruct (parse_width f1 0) as [w f2]. cbn [snd] in H2.
  pose proof (skip_precision_length f2) as H3. pose proof (parse_length_length (skip_precision f2)) as H4.
  destruct (parse_length (skip_precision f2)) as [len f3]. cbn [snd] in H4.
  destruct f3 as [|spec f4]; [done|]. cbn [length] in *.
  destruct (convert _ _ _ _) as [s zp' ap2| |]; [..|done]; intros [= <- <- <-]; lia.
Qed.

Lemma format_fuel fuel fuel' fmt ap :
  (length fmt < fuel)%nat -> (length fmt < fuel')%nat -> format fuel fmt ap = format fuel' fmt ap.
Proof.
  revert fuel' fmt ap. induction fuel as [|f IH]; intros [|f'] fmt ap H H'; try lia. cbn [format].
  destruct fmt as [|c rest]; [done|]. cbn [length] in *.
  destruct (negb (c =? 37)); [by rewrite (IH f') by lia|].
  destruct (parse_directive rest ap) as [o fmt' ap'| |] eqn:E; [|done..].
  apply parse_directive_length in E. by rewrite (IH f') by lia.
Qed.

(** ** Numbers and their digits *)

Definition digit_of (c : Z) : Z := if c <? 58 then c - 48 else c - 87.
Definition num_value (base : Z) (l : list Z) : Z := fold_left (fun a c => a * base + digit_of c) l 0.

Lemma num_value_snoc base l c : num_value base (l ++ [c]) = num_value base l * base + digit_of c.
Proof. unfold num_value. by rewrite fold_left_app. Qed.

Lemma digit_of_char d : 0 <= d < 16 -> digit_of (digit_char false d) = d.
Proof. intros H. unfold digit_char, digit_of. destruct (Z.ltb_spec d 10).
  - rewrite (proj2 (Z.ltb_lt _ _)) by lia. lia.
  - rewrite (proj2 (Z.ltb_ge _ _)) by lia. lia.
Qed.

Lemma itoa_loop_digits fuel v base acc :
  2 <= base <= 16 -> 0 <= v < base ^ Z.of_nat fuel ->
  exists ds, itoa_loop fuel v base acc = ds ++ acc /\ num_value base ds = v /\
    Forall (fun c => exists d, 0 <= d < base /\ c = digit_char false d) ds /\
    (length ds <= fuel)%nat.
Proof.
  intros Hb. revert v acc. induction fuel as [|f IH]; intros v acc Hv.
  - simpl in Hv. exists []. simpl. split; [done|]. split; [unfold num_value; simpl; lia|]. by split.
  - cbn [itoa_loop]. destruct (Z.ltb_spec 0 v) as [Hp|Hz].
    + pose proof (Z.mod_pos_bound v base ltac:(lia)) as Hm. pose proof (Z.div_mod v base ltac:(lia)) as Hdm.
      destruct (IH (v / base) (digit_char false (v mod base) :: acc)) as (ds & -> & Hn & Hd & Hl).
      { split; [apply Z.div_pos; lia|]. apply Z.div_lt_upper_bound; [lia|].
        rewrite Nat2Z.inj_succ, Z.pow_succ_r in Hv by lia. lia. }
      exists (ds ++ [digit_char false (v mod base)]). split; [by rewrite <- app_assoc|].
      split; [rewrite num_value_snoc, Hn, digit_of_char by lia; lia|].
      split; [apply Forall_app; split; [done|]; constructor; [by exists (v mod base)|done]|].
      rewrite length_app. simpl. lia.
    + exists []. split; [done|]. split; [unfold num_value; simpl; lia|]. split; [done|simpl; lia].
Qed.

Lemma u_itoa_digits v base :
  2 <= base <= 16 -> 0 <= v < 2^64 ->
  exists ds, (if v =? 0 then [48] else itoa_loop 64 v base []) = ds /\ num_value base ds = v /\
    Forall (fun c => exists d, 0 <= d < base /\ c = digit_char false d) ds /\ ds <> [] /\ (length ds <= 64)%nat.
Proof.
  intros Hb Hv. destruct (Z.eqb_spec v 0) as [-> |Hne].
  - exists [48]. split; [done|]. split; [done|]. split; [|split; [done|simpl; lia]].
    constructor; [|done]. exists 0. split; [lia|done].
  - destruct (itoa_loop_digits 64 v base [] Hb) as (ds & E & Hn & Hd & Hl).
    { split; [lia|]. eapply Z.lt_le_trans; [apply Hv|]. change (Z.of_nat 64) with 64.
      apply Z.pow_le_mono_l. lia. }
    rewrite app_nil_r in E. exists ds. split; [done|]. split; [done|]. split; [done|]. split; [|done].
    intros ->. unfold num_value in Hn. simpl in Hn. lia.
Qed.

Lemma digits_value_all a ds l :
  Forall (fun c => exists d, 0 <= d < 10 /\ c = digit_char false d) ds ->
  digits_value a (ds ++ l) = digits_value (fold_left (fun a c => a * 10 + digit_of c) ds a) l.
Proof.
  intros H. revert a. induction H as [|c ds (d & Hd & ->) _ IH]; intros a; [done|]. cbn [app digits_value fold_left].
  rewrite digit_of_char by lia. unfold digit_char at 1 2. rewrite (proj2 (Z.ltb_lt d 10)) by lia.
  unfold u_isdigit_ch. rewrite (proj2 (Z.leb_le _ _)), (proj2 (Z.leb_le _ _)) by lia. cbn [andb].
  rewrite IH. f_equal. f_equal. lia.
Qed.

(** Reading the digits back. *)
Lemma atol_of_digits ds :
  Forall (fun c => exists d, 0 <= d < 10 /\ c = digit_char false d) ds ->
  atol_value ds = num_value 10 ds /\ atol_value (45 :: ds) = - num_value 10 ds.
Proof.
  intros H. assert (E : digits_value 0 ds = num_value 10 ds).
  { rewrite <- (app_nil_r ds) at 1. rewrite digits_value_all by done. done. }
  split; [|unfold atol_value; simpl; by rewrite E].
  unfold atol_value. destruct H as [|c ds (d & Hd & ->) Hds]; [done|].
  assert (48 <= digit_char false d <= 57) as Hc.
  { unfold digit_char. rewrite (proj2 (Z.ltb_lt d 10)) by lia. lia. }
  cbn [after_space]. unfold u_isspace_ch.
  repeat rewrite (proj2 (Z.eqb_neq (digit_char false d) _)) by lia. cbn [orb].
  repeat rewrite (proj2 (Z.eqb_neq (digit_char false d) _)) by lia. exact E.
Qed.

(** ** Line editing *)

(** The line after one more typed character: backspace and DEL drop the last one,
    other control characters are ignored, a full line ignores what follows. *)
Definition edit (cap : nat) (line : list Z) (c : Z) : list Z :=
  if (c =? 8) || (c =? 127) then take (length line - 1) line else
  if c <? 32 then line else
  if (length line <? cap)%nat then line ++ [c] else line.

(** A character that neither ends the line nor aborts it. *)
Definition types (c : Z) : Prop := c <> 3 /\ c <> 10 /\ c <> 13.

(** A terminal: its cells and the cursor.  Backspace moves the cursor, anything
    else overwrites the cell under it. *)
Definition term_put (t : list Z * nat) (c : Z) : list Z * nat :=
  let '(cells, pos) := t in
  if c =? 8 then (cells, pos - 1)%nat else (take pos cells ++ c :: drop (S pos) cells, S pos).
Definition display (echo : list Z) : list Z * nat := fold_left term_put echo ([], O).

(** The terminal shows the line, then blanks, with the cursor after the line. *)
Definition shows (line echo : list Z) : Prop :=
  exists k, display echo = (line ++ replicate k 32, length line).

Lemma shows_append line echo c : shows line echo -> c <> 8 -> shows (line ++ [c]) (echo ++ [c]).
Proof.
  intros [k E] Hc. exists (Nat.pred k). unfold display in *. rewrite fold_left_app, E. simpl.
  rewrite (proj2 (Z.eqb_neq c 8)) by done. rewrite length_app, take_app_length. f_equal; [|simpl; lia].
  rewrite <- app_assoc. f_equal. simpl. f_equal. rewrite drop_app_ge by lia.
  replace (S (length line) - length line)%nat with 1%nat by lia. destruct k; [done|]. simpl. by rewrite drop_0.
Qed.

Lemma shows_erase line echo :
  shows line echo -> (0 < length line)%nat -> shows (take (length line - 1) line) (echo ++ [8; 32; 8]).
Proof.
  intros [k E] Hl. destruct line as [|c line _] using rev_ind; [simpl in Hl; lia|].
  rewrite length_app. simpl length. replace (length line + 1 - 1)%nat with (length line) by lia.
  rewrite take_app_length. exists (S k). unfold display in *. rewrite fold_left_app, E. simpl.
  rewrite length_app. simpl length. replace (length line + 1 - 1)%nat with (length line) by lia.
  rewrite <- app_assoc, take_app_length. f_equal; [|lia]. f_equal. simpl. f_equal.
  rewrite drop_app_ge by lia. replace (S (length line) - length line)%nat with 1%nat by lia. simpl. by rewrite drop_0.
Qed.

Lemma gets_loop_edit fuel cap line echo cs c input :
  Forall types cs -> (length cs < fuel)%nat -> c = 10 \/ c = 13 -> shows line echo ->
  exists echo', gets_loop fuel (S cap) line echo (map (fun c => RdBytes [c]) cs ++ RdBytes [c] :: input) =
    Some (GotLine (fold_left (edit cap) cs line) (echo' ++ [10]) input) /\
    shows (fold_left (edit cap) cs line) echo'.
Proof.
  intros Hcs Hf Hc. revert fuel line echo Hf. induction Hcs as [|x cs (H3 & H10 & H13) _ IH];
    intros [|fuel] line echo Hf Hs; try (simpl in Hf; lia); cbn [gets_loop map app read1 fold_left].
  - exists echo. split; [|done]. destruct Hc as [-> | ->]; done.
  - rewrite (proj2 (Z.eqb_neq x 3)), (proj2 (Z.eqb_neq x 10)), (proj2 (Z.eqb_neq x 13)) by done.
    cbn [orb length] in *. replace (S cap - 1)%nat with cap by lia. unfold edit at 2 4.
    destruct ((x =? 8) || (x =? 127)) eqn:E8.
    + destruct (Nat.ltb_spec 0 (length line)) as [Hl|Hl].
      * apply IH; [lia|]. by apply shows_erase.
      * assert (line = []) as -> by (destruct line; [done|simpl in Hl; lia]). simpl. apply IH; [lia|done].
    + destruct (x <? 32); [apply IH; [lia|done]|].
      destruct (length line <? cap)%nat; (apply IH; [lia|]); [|done].
      apply shows_append; [done|]. intros ->. done.
Qed.

Lemma edit_bounded cap cs line :
  (length line <= cap)%nat -> Forall (fun c => 32 <= c /\ c <> 127) line ->
  (length (fold_left (edit cap) cs line) <= cap)%nat /\
  Forall (fun c => 32 <= c /\ c <> 127) (fold_left (edit cap) cs line).
Proof.
  revert line. induction cs as [|c cs IH]; intros line Hl Hp; [done|]. cbn [fold_left]. apply IH; unfold edit.
  - destruct ((c =? 8) || (c =? 127)); [rewrite length_take; lia|]. destruct (c <? 32); [done|].
    destruct (Nat.ltb_spec (length line) cap); [rewrite length_app; simpl; lia|done].
  - destruct ((c =? 8) || (c =? 127)) eqn:E8; [by apply Forall_take|].
    destruct (Z.ltb_spec c 32); [done|]. destruct (length line <? cap)%nat; [|done].
    apply Forall_app. split; [done|]. constructor; [|done]. split; [lia|]. intros ->. done.
Qed.

(** ** Properties *)

(** C37: [u_vsnprintf] writes the formatted text cut to [size - 1] characters,
    then a zero, never touches anything outside its buffer nor past that zero, and
    returns the length the whole text would have. *)
Theorem u_vsnprintf_truncates buf fmt ap out :
  buf <> [] -> format (S (length fmt)) fmt ap = Some out ->
  let kept := take (length buf - 1) out in
  u_vsnprintf buf (length buf) fmt ap =
  Some (kept ++ 0 :: drop (S (length kept)) buf, s32 (Z.of_nat (length out))).
Proof.
  intros Hb Hf kept. assert (0 < length buf)%nat as Hl by (destruct buf; [done|simpl; lia]).
  unfold u_vsnprintf. rewrite (proj2 (Nat.ltb_lt 0 (length buf))) by done.
  replace {| o_buf := buf; o_pos := 0; o_total := 0 |} with (emitted (length buf - 1) [] buf)
    by (unfold emitted, written; by rewrite take_nil).
  rewrite (vsnprintf_loop_format _ _ _ _ _ _ out) by (try done; lia). cbn [app emitted o_buf o_pos o_total].
  assert (Hk : (if length out <=? length buf - 1 then length out else length buf - 1)%nat = length kept).
  { unfold kept. rewrite length_take. destruct (Nat.leb_spec (length out) (length buf - 1)); lia. }
  rewrite Hk. assert (length kept < length buf)%nat as Hlt by (unfold kept; rewrite length_take; lia).
  unfold buf_write. rewrite written_length, (proj2 (Nat.ltb_lt _ _)) by lia. f_equal. f_equal.
  unfold written. fold kept. rewrite insert_app_r_alt by lia. rewrite Nat.sub_diag. f_equal.
  destruct (lookup_lt_is_Some_2 buf (length kept) Hlt) as [b Eb]. by rewrite (drop_S _ _ _ Eb).
Qed.

(** C38: a number printed with [%ld] reads back with [u_atol] as itself, for every
    [long] but the least one. *)
Theorem print_then_read v m p fuel :
  - 2^63 < v < 2^63 -> (65 < fuel)%nat ->
  exists s, format 4 [37; 108; 100] [VaNum v] = Some s /\
    (cstr m p s -> u_atol fuel p m = Some v).
Proof.
  intros Hv Hf. cbn [format]. cbn. unfold of_itoa, u_itoa. cbn [andb].
  rewrite s64_small by lia.
  destruct (Z.ltb_spec v 0) as [Hn|Hp]; cbn [andb].
  - rewrite (proj2 (Z.eqb_neq _ _)) by lia. rewrite u64_small by lia.
    destruct (u_itoa_digits (- v) 10 ltac:(lia) ltac:(lia)) as (ds & -> & En & Hd & Hne & Hl).
    eexists. split; [reflexivity|]. unfold pad_field, id. cbn [andb negb app replicate].
    rewrite !app_nil_r. intros Hc. destruct (atol_of_digits ds Hd) as [_ Ea].
    rewrite (u_atol_reads m p (45 :: ds) fuel Hc); [f_equal; lia|cbn [length]; lia|lia].
  - rewrite u64_small by lia.
    destruct (u_itoa_digits v 10 ltac:(lia) ltac:(lia)) as (ds & -> & En & Hd & Hne & Hl).
    eexists. split; [reflexivity|]. unfold pad_field, id. cbn [andb negb app replicate].
    rewrite !app_nil_r. intros Hc. destruct (atol_of_digits ds Hd) as [Ea _].
    rewrite (u_atol_reads m p ds fuel Hc); [f_equal; lia|lia|lia].
Qed.

(** C39: whatever is typed before the end of the line, [u_gets] returns the
    line as edited (backspace erases, control characters are dropped, a full line
    ignores the rest), it fits its buffer, and the terminal shows exactly that
    line. *)
Theorem u_gets_edits cs c input fuel buf_size :
  1 < buf_size -> Forall types cs -> (length cs < fuel)%nat -> c = 10 \/ c = 13 ->
  let line := fold_left (edit (Z.to_nat buf_size - 1)) cs [] in
  (exists echo, u_gets fuel false buf_size (map (fun c => RdBytes [c]) cs ++ RdBytes [c] :: input) =
     Some (GotLine line (echo ++ [10]) input) /\ shows line echo) /\
  Z.of_nat (length line) < buf_size /\ Forall (fun c => 32 <= c /\ c <> 127) line.
Proof.
  intros Hb Hcs Hf Hc line. split.
  - unfold u_gets. cbn [orb]. rewrite (proj2 (Z.leb_gt _ _)) by lia.
    replace (Z.to_nat buf_size) with (S (Z.to_nat buf_size - 1)) by lia.
    apply gets_loop_edit; [done|done|done|]. by exists O.
  - destruct (edit_bounded (Z.to_nat buf_size - 1) cs []) as [Hl Hp]; [simpl; lia|done|].
    split; [|done]. fold line in Hl. lia.
Qed.

Lemma u_vsnprintf_truncates_witness :
  u_vsnprintf [7; 7; 7; 7; 7] 5 [37; 100] [VaNum 123456] = Some ([49; 50; 51; 52; 0], 6).
Proof.
  exact (u_vsnprintf_truncates [7; 7; 7; 7; 7] [37; 100] [VaNum 123456] [49; 50; 51; 52; 53; 54]
    ltac:(done) ltac:(vm_compute; reflexivity)).
Defined.

Lemma print_then_read_witness : u_atol 66 100 demo_mem = Some (-42).
Proof.
  destruct (print_then_read (-42) demo_mem 100 66 ltac:(lia) ltac:(lia)) as (s & E & H).
  apply H. assert (E' : format 4 [37; 108; 100] [VaNum (-42)] = Some [45; 52; 50]) by (vm_compute; reflexivity).
  rewrite E' in E. injection E as <-. exact demo_cstr.
Defined.

(** "ab", backspace, "c", return: the line "ac". *)
Lemma u_gets_edits_witness :
  exists echo, u_gets 6 false 8 (map (fun c => RdBytes [c]) [97; 98; 8; 99] ++ [RdBytes [13]]) =
    Some (GotLine [97; 99] (echo ++ [10]) []) /\ shows [97; 99] echo.
Proof.
  assert (Hcs : Forall types [97; 98; 8; 99]) by (repeat constructor; lia).
  exact (proj1 (u_gets_edits [97; 98; 8; 99] 13 [] 6 8 ltac:(lia) Hcs ltac:(simpl; lia) (or_intror eq_refl))).
Defined.
