(* ===== verification/Log.v ===== *)
(** * The kernel log ([lib/log.c])

    Lines are formatted into a buffer of 256 bytes, kept in a ring of 2048 bytes
    and handed to the writer.  The state of a buffer under construction is the
    list of characters it holds; every append checks the room that is left.  The
    configuration is [config/log_config.h]: no time stamps, base names only. *)
From stdpp Require Import base numbers list gmap.
From Stdlib Require Import ZArith Lia.
From S2P Require Import Prelude Mem CString Stdio.

Local Open Scope Z_scope.

Inductive log_level_t : Type :=
| LOG_LEVEL_OFF | LOG_LEVEL_ERROR | LOG_LEVEL_WARN | LOG_LEVEL_INFO | LOG_LEVEL_DEBUG | LOG_LEVEL_TRACE.
Definition log_level_code (l : log_level_t) : Z :=
  match l with
  | LOG_LEVEL_OFF => 0 | LOG_LEVEL_ERROR => 1 | LOG_LEVEL_WARN => 2
  | LOG_LEVEL_INFO => 3 | LOG_LEVEL_DEBUG => 4 | LOG_LEVEL_TRACE => 5
  end.
Inductive log_path_mode_t : Type := LOG_PATH_NONE | LOG_PATH_BASENAME | LOG_PATH_FULL.

Definition LOG_BUFFER_SIZE : nat := 256.
Definition LOG_RING_BUFFER_SIZE : nat := 2048.

(** The file-scope variables; the writer's output is recorded. *)
Record log_state := mk_log {
  s_write_fn : bool;
  s_log_level : log_level_t;
  s_path_mode : log_path_mode_t;
  s_ring_buf : list Z;
  s_ring_head : nat;
  s_ring_size : nat;
  s_output : list Z
}.

Definition log_image : log_state :=
  mk_log false LOG_LEVEL_DEBUG LOG_PATH_BASENAME (replicate LOG_RING_BUFFER_SIZE 0) 0 0 [].

(** ** Appending to the line *)

Definition room (max : nat) (buf : list Z) : bool := (length buf <? max - 1)%nat.

Definition log_append_char (max : nat) (c : Z) (buf : list Z) : list Z :=
  if room max buf then buf ++ [c] else buf.

(** Append until the string or the room ends. *)
Fixpoint append_while (max : nat) (s buf : list Z) : list Z :=
  match s with
  | [] => buf
  | c :: s' => if room max buf then append_while max s' (buf ++ [c]) else buf
  end.

Definition log_append_str (max : nat) (s : option (list Z)) (buf : list Z) : list Z :=
  append_while max (default [40; 110; 117; 108; 108; 41] s) buf.

(** [tmp] holds the digits in reverse: at most 32 of them. *)
Fixpoint log_digits (fuel : nat) (v base : Z) (upper : bool) (acc : list Z) : list Z :=
  match fuel with
  | O => acc
  | S f => if v =? 0 then acc
           else log_digits f (v / base) base upper (digit_char upper (v mod base) :: acc)
  end.
Definition uint_digits (v base : Z) (upper : bool) : list Z :=
  if v =? 0 then [48] else log_digits 32 v base upper [].

Definition log_append_uint (max : nat) (v base : Z) (upper : bool) (width pad : Z) (buf : list Z) : list Z :=
  let tmp := uint_digits v base upper in
  let num_digits := Z.of_nat (length tmp) in
  let width := if width <? num_digits then num_digits else width in
  append_while max tmp (append_while max (replicate (Z.to_nat (width - num_digits)) pad) buf).

(** ** The formatter *)

Definition parse_len_mod (fmt : list Z) : Z * list Z :=
  match fmt with
  | c :: rest =>
    if c =? 108 then
      match rest with
      | c2 :: rest2 => if c2 =? 108 then (2, rest2) else (1, rest)
      | [] => (1, rest)
      end
    else (0, fmt)
  | [] => (0, [])
  end.

(** [va_arg] at [int], [long] or [long long], and their unsigned counterparts. *)
Definition va_int (len_mod v : Z) : Z := if len_mod =? 0 then s32 v else s64 v.
Definition va_uint (len_mod v : Z) : Z := if len_mod =? 0 then u32 v else u64 v.

(** The [switch] on the specifier. *)
Definition log_spec (max : nat) (spec len_mod width pad : Z) (ap : list va_value) (buf : list Z)
    : option (list Z * list va_value) :=
  if spec =? 115 then                                    (* 's' *)
    match ap with VaStr s :: ap => Some (log_append_str max s buf, ap) | _ => None end
  else if spec =? 99 then                                (* 'c' *)
    match ap with VaNum c :: ap => Some (log_append_char max (u8 c) buf, ap) | _ => None end
  else if (spec =? 100) || (spec =? 105) then            (* 'd' 'i' *)
    match ap with
    | VaNum v :: ap =>
      let v := va_int len_mod v in
      if v <? 0 then
        if v =? - 2^63 then None else
        Some (log_append_uint max (- v) 10 false (if 0 <? width then width - 1 else width) pad
                (log_append_char max 45 buf), ap)
      else Some (log_append_uint max v 10 false width pad buf, ap)
    | _ => None
    end
  else if spec =? 117 then                               (* 'u' *)
    match ap with
    | VaNum v :: ap => Some (log_append_uint max (va_uint len_mod v) 10 false width pad buf, ap)
    | _ => None
    end
  else if (spec =? 120) || (spec =? 88) then             (* 'x' 'X' *)
    match ap with
    | VaNum v :: ap => Some (log_append_uint max (va_uint len_mod v) 16 (spec =? 88) width pad buf, ap)
    | _ => None
    end
  else if spec =? 112 then                               (* 'p' *)
    match ap with
    | VaNum v :: ap =>
      Some (log_append_uint max (u64 v) 16 false 0 32 (log_append_str max (Some [48; 120]) buf), ap)
    | _ => None
    end
  else Some (log_append_char max spec (log_append_char max 37 buf), ap).

(** After the [%]: padding, width and length.  A format that ends inside a
    directive makes the loop step over its terminator: undefined. *)
Definition log_directive (max : nat) (fmt : list Z) (ap : list va_value) (buf : list Z)
    : option (list Z * list va_value * list Z) :=
  match fmt with
  | [] => None
  | c :: rest =>
    if c =? 37 then Some (log_append_char max 37 buf, ap, rest) else
    let '(pad, fmt) := if c =? 48 then (48, rest) else (32, fmt) in
    let '(width, fmt) := parse_width fmt 0 in
    let '(len_mod, fmt) := parse_len_mod fmt in
    match fmt with
    | [] => None
    | spec :: fmt =>
      match log_spec max spec len_mod width pad ap buf with
      | Some (buf, ap) => Some (buf, ap, fmt)
      | None => None
      end
    end
  end.

(** [for (p = fmt; *p && pos < dst_size - 1; ++p)] *)
Fixpoint log_vformat_loop (fuel max : nat) (fmt : list Z) (ap : list va_value) (buf : list Z) : option (list Z) :=
  match fuel with
  | O => None
  | S f =>
    match fmt with
    | [] => Some buf
    | c :: rest =>
      if negb (room max buf) then Some buf else
      if negb (c =? 37) then log_vformat_loop f max rest ap (log_append_char max c buf)
      else match log_directive max rest ap buf with
           | Some (buf, ap, fmt) => log_vformat_loop f max fmt ap buf
           | None => None
           end
    end
  end.

(** The text written; its terminator follows, inside the buffer when it has a
    byte at all. *)
Definition log_vformat (dst_size : nat) (fmt : list Z) (ap : list va_value) : option (list Z) :=
  log_vformat_loop (S (length fmt)) dst_size fmt ap [].

(** ** The ring *)

Fixpoint ring_store (i : nat) (head : nat) (data buf : list Z) : list Z :=
  match data with
  | [] => buf
  | b :: data' => ring_store (S i) head data' (<[((head + i) mod LOG_RING_BUFFER_SIZE)%nat := b]> buf)
  end.

Definition ring_write (data : list Z) (st : log_state) : log_state :=
  let len := length data in
  if (len =? 0)%nat then st else
  let data := if (LOG_RING_BUFFER_SIZE <? len)%nat then drop (len - LOG_RING_BUFFER_SIZE) data else data in
  let len := if (LOG_RING_BUFFER_SIZE <? len)%nat then LOG_RING_BUFFER_SIZE else len in
  mk_log (s_write_fn st) (s_log_level st) (s_path_mode st)
    (ring_store 0 (s_ring_head st) data (s_ring_buf st))
    ((s_ring_head st + len) mod LOG_RING_BUFFER_SIZE)%nat
    (if (LOG_RING_BUFFER_SIZE <=? s_ring_size st + len)%nat then LOG_RING_BUFFER_SIZE
     else (s_ring_size st + len)%nat)
    (s_output st).

Definition log_ring_size (st : log_state) : nat := s_ring_size st.
Definition set_ring_size (n : nat) (st : log_state) : log_state :=
  mk_log (s_write_fn st) (s_log_level st) (s_path_mode st) (s_ring_buf st) (s_ring_head st) n (s_output st).
Definition log_ring_clear (st : log_state) : log_state := set_ring_size 0 st.

Definition ring_peek_internal (maxlen : nat) (st : log_state) : list Z :=
  if (s_ring_size st =? 0)%nat || (maxlen =? 0)%nat then [] else
  let to_read := if (s_ring_size st <? maxlen)%nat then s_ring_size st else maxlen in
  let tail := ((s_ring_head st + LOG_RING_BUFFER_SIZE - s_ring_size st) mod LOG_RING_BUFFER_SIZE)%nat in
  map (fun i => nth ((tail + i) mod LOG_RING_BUFFER_SIZE)%nat (s_ring_buf st) 0) (seq 0 to_read).

Definition log_ring_peek := ring_peek_internal.
Definition log_ring_read (maxlen : nat) (st : log_state) : list Z * log_state :=
  let out := ring_peek_internal maxlen st in
  (out, if (0 <? length out)%nat then set_ring_size (s_ring_size st - length out) st else st).

(** ** Log lines *)

Definition log_level_to_string (l : log_level_t) : list Z :=
  match l with
  | LOG_LEVEL_ERROR => [69] | LOG_LEVEL_WARN => [87] | LOG_LEVEL_INFO => [73]
  | LOG_LEVEL_DEBUG => [68] | LOG_LEVEL_TRACE => [84] | LOG_LEVEL_OFF => [63]
  end.

Definition log_level_to_full_string (l : log_level_t) : list Z :=
  match l with
  | LOG_LEVEL_OFF => [79; 70; 70] | LOG_LEVEL_ERROR => [69; 82; 82; 79; 82] | LOG_LEVEL_WARN => [87; 65; 82; 78]
  | LOG_LEVEL_INFO => [73; 78; 70; 79] | LOG_LEVEL_DEBUG => [68; 69; 66; 85; 71]
  | LOG_LEVEL_TRACE => [84; 82; 65; 67; 69]
  end.

(** The characters after the last [/] or backslash. *)
Fixpoint basename_loop (p base : list Z) : list Z :=
  match p with
  | [] => base
  | c :: p' => basename_loop p' (if (c =? 47) || (c =? 92) then p' else base)
  end.
Definition basename (file : list Z) : list Z := basename_loop file file.

(** "[I] file:line func(): " *)
Definition log_prefix (st : log_state) (level : log_level_t) (file : option (list Z)) (line : Z)
    (func : option (list Z)) : list Z :=
  let max := LOG_BUFFER_SIZE in
  let buf := log_append_char max 91 [] in
  let buf := log_append_str max (Some (log_level_to_string level)) buf in
  let buf := log_append_char max 32 (log_append_char max 93 buf) in
  let buf :=
    match file, s_path_mode st with
    | Some file, LOG_PATH_NONE => buf
    | Some file, mode =>
      let file := match mode with LOG_PATH_BASENAME => basename file | _ => file end in
      log_append_char max 32
        (log_append_uint max line 10 false 0 32
          (log_append_char max 58 (log_append_str max (Some file) buf)))
    | None, _ => buf
    end in
  match func with
  | Some f => log_append_str max (Some [40; 41; 58; 32]) (log_append_str max (Some f) buf)
  | None => buf
  end.

Definition log_vprintf (level : log_level_t) (file : option (list Z)) (line : Z) (func : option (list Z))
    (fmt : list Z) (ap : list va_value) (st : log_state) : option (Z * log_state) :=
  if (log_level_code level <=? 0) || (log_level_code (s_log_level st) <? log_level_code level)
  then Some (0, st) else
  let buf := log_prefix st level file line func in
  match log_vformat (LOG_BUFFER_SIZE - length buf) fmt ap with
  | None => None
  | Some text =>
    let buf := buf ++ text in
    let buf := if (length buf <? LOG_BUFFER_SIZE - 1)%nat then buf ++ [10] else buf in
    let st := ring_write buf st in
    Some (Z.of_nat (length buf),
          if s_write_fn st
          then mk_log true (s_log_level st) (s_path_mode st) (s_ring_buf st) (s_ring_head st)
                      (s_ring_size st) (s_output st ++ buf)
          else st)
  end.
Definition log_printf := log_vprintf.

Definition log_init (st : log_state) : log_state :=
  mk_log true (s_log_level st) (s_path_mode st) (s_ring_buf st) (s_ring_head st) (s_ring_size st) (s_output st).
Definition log_set_level (l : log_level_t) (st : log_state) : log_state :=
  mk_log (s_write_fn st) l (s_path_mode st) (s_ring_buf st) (s_ring_head st) (s_ring_size st) (s_output st).
Definition log_get_level (st : log_state) : log_level_t := s_log_level st.
Definition log_get_path_mode (st : log_state) : log_path_mode_t := s_path_mode st.
Definition log_ring_capacity : nat := LOG_RING_BUFFER_SIZE.
Definition log_set_path_mode (p : log_path_mode_t) (st : log_state) : log_state :=
  mk_log (s_write_fn st) (s_log_level st) p (s_ring_buf st) (s_ring_head st) (s_ring_size st) (s_output st).

(** [log_panicf_internal]: the line it logs; it never returns. *)
Definition log_panicf_internal (file : option (list Z)) (line : Z) (fmt : list Z) (ap : list va_value)
    (st : log_state) : option (Z * log_state) :=
  log_vprintf LOG_LEVEL_ERROR file line (Some [80; 65; 78; 73; 67]) fmt ap st.

(** ** The writer of the board ([log_baremetal.c]) *)

(** What reaches [platform_putc]: a carriage return before every newline. *)
Fixpoint log_platform_writer (buf : list Z) : list Z :=
  match buf with
  | [] => []
  | c :: buf => (if c =? 10 then [13; c] else [c]) ++ log_platform_writer buf
  end.

(** "log system initialized (runtime level=%d/%s)" *)
Definition log_init_msg : list Z :=
  [108; 111; 103; 32; 115; 121; 115; 116; 101; 109; 32; 105; 110; 105; 116; 105; 97; 108; 105; 122; 101; 100; 32;
   40; 114; 117; 110; 116; 105; 109; 101; 32; 108; 101; 118; 101; 108; 61; 37; 100; 47; 37; 115; 41].
Definition log_init_baremetal (file : option (list Z)) (line : Z) (func : option (list Z)) (st : log_state)
    : option log_state :=
  let st := log_set_path_mode LOG_PATH_BASENAME (log_set_level LOG_LEVEL_DEBUG (log_init st)) in
  let lvl := log_get_level st in
  option_map snd (log_printf LOG_LEVEL_INFO file line func log_init_msg
    [VaNum (log_level_code lvl); VaStr (Some (log_level_to_full_string lvl))] st).

(** ** Hexdump *)

Definition log_isprint (c : Z) : bool := (32 <=? c) && (c <=? 126).
Definition hex_upper (n : Z) : Z := if n <? 10 then 48 + n else 55 + n.

(** The three characters of a byte, as long as [hexbuf] has room for them. *)
Fixpoint hex_chunk (bytes hexbuf : list Z) : list Z :=
  match bytes with
  | [] => hexbuf
  | b :: bytes' =>
    hex_chunk bytes' (if (length hexbuf + 3 <? 49)%nat
      then hexbuf ++ [hex_upper (Z.land (Z.shiftr b 4) 15); hex_upper (Z.land b 15); 32] else hexbuf)
  end.
Definition ascii_chunk (bytes : list Z) : list Z := map (fun b => if log_isprint b then b else 46) bytes.

(** "%s%X: %s |%s|" *)
Definition hexdump_fmt : list Z := [37; 115; 37; 88; 58; 32; 37; 115; 32; 124; 37; 115; 124].

(** One line per 16 bytes. *)
Fixpoint hexdump_loop (fuel : nat) (level : log_level_t) (file : option (list Z)) (line : Z)
    (func : option (list Z)) (data : list Z) (offset : Z) (prefix : list Z) (st : log_state) : option log_state :=
  match fuel with
  | O => None
  | S f =>
    match data with
    | [] => Some st
    | _ =>
      let chunk := take 16 data in
      match log_vprintf level file line func hexdump_fmt
              [VaStr (Some prefix); VaNum (u32 offset); VaStr (Some (hex_chunk chunk [])); VaStr (Some (ascii_chunk chunk))] st with
      | Some (_, st) => hexdump_loop f level file line func (drop 16 data) (offset + Z.of_nat (length chunk)) prefix st
      | None => None
      end
    end
  end.
Definition log_hexdump (level : log_level_t) (file : option (list Z)) (line : Z) (func : option (list Z))
    (data : list Z) (prefix : option (list Z)) (st : log_state) : option log_state :=
  if (log_level_code level <=? 0) || (log_level_code (s_log_level st) <? log_level_code level)
  then Some st
  else hexdump_loop (S (length data)) level file line func data 0 (default [] prefix) st.

(** ** The ring as a list *)

Notation CAP := LOG_RING_BUFFER_SIZE.

(** The bytes in the ring, oldest first. *)
Definition contents (st : log_state) : list Z :=
  map (fun i => nth ((s_ring_head st + CAP - s_ring_size st + i) mod CAP)%nat (s_ring_buf st) 0)
      (seq 0 (s_ring_size st)).

Record ring_ok (st : log_state) : Prop := {
  rk_buf : length (s_ring_buf st) = CAP;
  rk_head : (s_ring_head st < CAP)%nat;
  rk_size : (s_ring_size st <= CAP)%nat
}.

(** The last [n] elements. *)
Definition lastn {A} (n : nat) (l : list A) : list A := drop (length l - n) l.

Lemma cap_pos : (0 < CAP)%nat.
Proof. apply Nat.ltb_lt. reflexivity. Qed.

(** Two positions of the ring less than a turn apart are different cells. *)
Lemma mod_inj c a t t' : (t < c)%nat -> (t' < c)%nat -> ((a + t) mod c = (a + t') mod c)%nat -> t = t'.
Proof.
  intros Ht Ht' E. pose proof (Nat.div_mod_eq (a + t) c) as H1. pose proof (Nat.div_mod_eq (a + t') c) as H2.
  rewrite E in H1. set (q := ((a + t) / c)%nat) in *. set (q' := ((a + t') / c)%nat) in *.
  destruct (Nat.lt_trichotomy q q') as [L|[L|L]]; [|subst q; rewrite L in H1; lia|].
  - assert (c * S q <= c * q')%nat by (apply Nat.mul_le_mono_l; lia). lia.
  - assert (c * S q' <= c * q)%nat by (apply Nat.mul_le_mono_l; lia). lia.
Qed.

Lemma mod_add_turn c a b : (0 < c)%nat -> ((a mod c + b) mod c = (a + b) mod c)%nat.
Proof. intros Hc. by rewrite Nat.Div0.add_mod_idemp_l. Qed.

Lemma nth_insert (l : list Z) i j x :
  (i < length l)%nat -> nth j (<[i := x]> l) 0 = if decide (i = j) then x else nth j l 0.
Proof.
  intros Hi. rewrite !nth_lookup. case_decide as E.
  - subst j. by rewrite list_lookup_insert_eq.
  - by rewrite list_lookup_insert_ne.
Qed.

Lemma ring_store_length i head data buf : length (ring_store i head data buf) = length buf.
Proof. revert i buf. induction data as [|b data IH]; intros i buf; simpl; [done|]. by rewrite IH, length_insert. Qed.

(** A cell that is not written keeps its byte; a written one holds the new byte. *)
Lemma ring_store_other i head data buf p :
  length buf = CAP -> (forall t, (t < length data)%nat -> p <> ((head + (i + t)) mod CAP)%nat) ->
  nth p (ring_store i head data buf) 0 = nth p buf 0.
Proof.
  revert i buf. induction data as [|b data IH]; intros i buf Hl Hp; cbn [ring_store]; [done|].
  rewrite IH.
  - rewrite nth_insert by (rewrite Hl; apply Nat.mod_upper_bound; pose proof cap_pos; lia).
    rewrite decide_False; [done|]. intros E. apply (Hp O); [cbn; lia|]. by rewrite Nat.add_0_r.
  - by rewrite length_insert.
  - intros t Ht E. apply (Hp (S t)); [cbn; lia|]. by replace (i + S t)%nat with (S i + t)%nat by lia.
Qed.

Lemma ring_store_data i head data buf t :
  length buf = CAP -> (length data <= CAP)%nat -> (t < length data)%nat ->
  nth ((head + (i + t)) mod CAP)%nat (ring_store i head data buf) 0 = nth t data 0.
Proof.
  revert i buf t. induction data as [|b data IH]; intros i buf t Hl Hd Ht; cbn [length] in *; [lia|].
  cbn [ring_store]. destruct t as [|t].
  - rewrite Nat.add_0_r, ring_store_other.
    + rewrite nth_insert by (rewrite Hl; apply Nat.mod_upper_bound; pose proof cap_pos; lia).
      by rewrite decide_True.
    + by rewrite length_insert.
    + intros t Ht' E. replace (head + (S i + t))%nat with (head + i + S t)%nat in E by lia.
      rewrite <- (Nat.add_0_r (head + i)) in E at 1.
      pose proof (mod_inj CAP (head + i) 0 (S t) cap_pos ltac:(lia) E). lia.
  - replace (i + S t)%nat with (S i + t)%nat by lia. rewrite IH; [done|by rewrite length_insert|lia|lia].
Qed.

Lemma contents_length st : length (contents st) = s_ring_size st.
Proof. unfold contents. by rewrite length_map, length_seq. Qed.

Lemma contents_nth st i :
  (i < s_ring_size st)%nat ->
  nth i (contents st) 0 = nth ((s_ring_head st + CAP - s_ring_size st + i) mod CAP)%nat (s_ring_buf st) 0.
Proof.
  intros Hi. unfold contents.
  rewrite (nth_indep _ 0 (nth ((s_ring_head st + CAP - s_ring_size st + 0) mod CAP)%nat (s_ring_buf st) 0))
    by (by rewrite length_map, length_seq).
  rewrite (map_nth (fun i => nth ((s_ring_head st + CAP - s_ring_size st + i) mod CAP)%nat (s_ring_buf st) 0)).
  by rewrite seq_nth.
Qed.

(** Writing at most a ringful. *)
Lemma ring_write_small data st :
  ring_ok st -> (0 < length data <= CAP)%nat ->
  let st' := ring_write data st in
  ring_ok st' /\ contents st' = lastn CAP (contents st ++ data).
Proof.
  intros [Hb Hh Hs] [Hd0 Hd] st'. pose proof cap_pos as Hc.
  assert (Est : st' = mk_log (s_write_fn st) (s_log_level st) (s_path_mode st)
    (ring_store 0 (s_ring_head st) data (s_ring_buf st)) ((s_ring_head st + length data) mod CAP)%nat
    (Nat.min CAP (s_ring_size st + length data)) (s_output st)).
  { unfold st', ring_write. rewrite (proj2 (Nat.eqb_neq _ _)) by lia.
    rewrite (proj2 (Nat.ltb_ge _ _)) by lia. f_equal.
    destruct (Nat.leb_spec CAP (s_ring_size st + length data)); lia. }
  rewrite Est. clearbody st'. clear Est. set (size' := Nat.min CAP (s_ring_size st + length data)).
  split.
  { split; cbn [s_ring_head s_ring_size s_ring_buf];
      [by rewrite ring_store_length|apply Nat.mod_upper_bound; lia|lia]. }
  apply (nth_ext _ _ 0 0).
  - unfold lastn. rewrite length_drop, length_app, !contents_length. cbn [s_ring_size]. lia.
  - intros j Hj. rewrite contents_length in Hj. cbn [s_ring_size] in Hj.
    rewrite contents_nth by done. cbn [s_ring_head s_ring_size s_ring_buf].
    unfold lastn. rewrite nth_skipn, length_app, contents_length.
    set (k := (s_ring_size st + length data - CAP + j)%nat).
    assert (Ep : (((s_ring_head st + length data) mod CAP + CAP - size' + j) mod CAP =
      (s_ring_head st + length data + (CAP - size' + j)) mod CAP)%nat).
    { replace ((s_ring_head st + length data) mod CAP + CAP - size' + j)%nat
        with ((s_ring_head st + length data) mod CAP + (CAP - size' + j))%nat by lia.
      by rewrite mod_add_turn. }
    rewrite Ep. destruct (Nat.ltb_spec k (s_ring_size st)) as [Hk|Hk].
    + rewrite app_nth1 by (by rewrite contents_length). rewrite contents_nth by done.
      replace (s_ring_head st + length data + (CAP - size' + j))%nat
        with (s_ring_head st + CAP - s_ring_size st + k)%nat by lia.
      apply ring_store_other; [done|]. intros t Ht E.
      replace (s_ring_head st + CAP - s_ring_size st + k)%nat
        with (s_ring_head st + (CAP - s_ring_size st + k))%nat in E by lia.
      apply mod_inj in E; lia.
    + rewrite app_nth2 by (rewrite contents_length; lia). rewrite contents_length.
      replace (s_ring_head st + length data + (CAP - size' + j))%nat
        with (s_ring_head st + (0 + (k - s_ring_size st)) + 1 * CAP)%nat by lia.
      rewrite Nat.Div0.mod_add. apply ring_store_data; [done|lia|lia].
Qed.

Lemma lastn_app_long {A} n (l1 l2 : list A) :
  (n <= length l2)%nat -> lastn n (l1 ++ l2) = drop (length l2 - n) l2.
Proof. intros H. unfold lastn. rewrite length_app, drop_app_ge by lia. f_equal. lia. Qed.

Lemma ring_write_spec data st :
  ring_ok st ->
  ring_ok (ring_write data st) /\ contents (ring_write data st) = lastn CAP (contents st ++ data).
Proof.
  intros Hr. pose proof Hr as [_ _ Hs]. pose proof cap_pos as Hc.
  destruct (Nat.eq_dec (length data) 0) as [E0|Hd0].
  { destruct data; [|done]. split; [done|]. rewrite app_nil_r. unfold lastn, ring_write. cbn [length Nat.eqb].
    rewrite contents_length. by replace (s_ring_size st - CAP)%nat with O by lia. }
  destruct (Nat.leb_spec (length data) CAP) as [Hd|Hd]; [apply ring_write_small; [done|lia]|].
  set (data' := drop (length data - CAP) data).
  assert (Hl : length data' = CAP) by (unfold data'; rewrite length_drop; lia).
  assert (Ew : ring_write data st = ring_write data' st).
  { unfold ring_write. rewrite Hl, (proj2 (Nat.eqb_neq _ _)) by lia. rewrite (proj2 (Nat.ltb_lt _ _)) by lia.
    rewrite (proj2 (Nat.eqb_neq CAP 0)) by lia. by rewrite Nat.ltb_irrefl. }
  rewrite Ew. destruct (ring_write_small data' st Hr ltac:(lia)) as [Hr' Ec]. split; [done|]. rewrite Ec.
  rewrite !lastn_app_long by lia. rewrite Hl, Nat.sub_diag. done.
Qed.

Lemma ring_peek_spec maxlen st : ring_ok st -> ring_peek_internal maxlen st = take maxlen (contents st).
Proof.
  intros [_ Hh Hs]. pose proof cap_pos as Hc. unfold ring_peek_internal, contents.
  destruct (Nat.eqb_spec (s_ring_size st) 0) as [E|E]; [rewrite E; cbn [seq map]; by rewrite take_nil|].
  destruct (Nat.eqb_spec maxlen 0) as [-> |Hm]; [done|]. cbn [orb].
  rewrite firstn_map, take_seq.
  assert (El : (if (s_ring_size st <? maxlen)%nat then s_ring_size st else maxlen) = Nat.min maxlen (s_ring_size st))
    by (destruct (Nat.ltb_spec (s_ring_size st) maxlen); lia).
  rewrite El. apply map_ext. intros i. f_equal. by rewrite mod_add_turn.
Qed.

(** ** The formatter and its buffer *)

Lemma append_while_take max s buf :
  (length buf <= max - 1)%nat -> append_while max s buf = take (max - 1) (buf ++ s).
Proof.
  revert buf. induction s as [|c s IH]; intros buf H; cbn [append_while].
  - by rewrite app_nil_r, take_ge.
  - unfold room. destruct (Nat.ltb_spec (length buf) (max - 1)).
    + rewrite IH by (rewrite length_app; simpl; lia). by rewrite <- app_assoc.
    + rewrite take_app_le by lia. by rewrite take_ge by lia.
Qed.

Lemma append_char_take max c buf :
  (length buf <= max - 1)%nat -> log_append_char max c buf = take (max - 1) (buf ++ [c]).
Proof. exact (append_while_take max [c] buf). Qed.

(** The text of a number: padding, then digits. *)
Definition uint_text (v base : Z) (upper : bool) (width pad : Z) : list Z :=
  let tmp := uint_digits v base upper in
  replicate (Z.to_nat (width - Z.of_nat (length tmp))) pad ++ tmp.

Lemma append_uint_take max v base upper width pad buf :
  (length buf <= max - 1)%nat ->
  log_append_uint max v base upper width pad buf = take (max - 1) (buf ++ uint_text v base upper width pad).
Proof.
  intros H. unfold log_append_uint, uint_text. set (tmp := uint_digits v base upper).
  rewrite (append_while_take max (replicate _ _) buf) by done.
  rewrite append_while_take by (rewrite length_take; lia).
  assert (E : forall l r : list Z, take (max - 1) (take (max - 1) l ++ r) = take (max - 1) (l ++ r)).
  { intros l r. destruct (Nat.leb_spec (length l) (max - 1)); [by rewrite (take_ge l) by lia|].
    rewrite !take_app_le by (rewrite ?length_take; lia). by rewrite take_take, Nat.min_id. }
  rewrite E, <- app_assoc. f_equal. f_equal. f_equal. f_equal.
  destruct (Z.ltb_spec width (Z.of_nat (length tmp))); lia.
Qed.

(** What a buffer of [n] bytes holds of what a larger one holds. *)
Definition cut (n : nat) (l : list Z) : list Z := take (n - 1) l.

Lemma cut_app n (l r : list Z) : cut n (cut n l ++ r) = cut n (l ++ r).
Proof.
  unfold cut. destruct (Nat.leb_spec (length l) (n - 1)); [by rewrite (take_ge l) by lia|].
  rewrite !take_app_le by (rewrite ?length_take; lia). by rewrite take_take, Nat.min_id.
Qed.
Lemma cut_cut n N (l : list Z) : (n <= N)%nat -> cut n (cut N l) = cut n l.
Proof. intros H. unfold cut. rewrite take_take. f_equal. lia. Qed.
Lemma cut_length n l : (length (cut n l) <= n - 1)%nat.
Proof. unfold cut. rewrite length_take. lia. Qed.

(** Appending the same text to a buffer and to its cut. *)
Lemma cut_append n N buf (r : list Z) :
  (n <= N)%nat -> cut n (cut n buf ++ r) = cut n (cut N (buf ++ r)).
Proof. intros H. by rewrite cut_app, cut_cut. Qed.

Lemma append_list_cut n N s buf :
  (n <= N)%nat -> (length buf <= N - 1)%nat ->
  append_while n s (cut n buf) = cut n (append_while N s buf) /\
  (length (append_while N s buf) <= N - 1)%nat.
Proof.
  intros Hn H. rewrite !append_while_take by (try done; apply cut_length).
  split; [by apply cut_append|]. rewrite length_take. lia.
Qed.
Lemma append_str_cut n N s buf :
  (n <= N)%nat -> (length buf <= N - 1)%nat ->
  log_append_str n s (cut n buf) = cut n (log_append_str N s buf) /\
  (length (log_append_str N s buf) <= N - 1)%nat.
Proof. apply append_list_cut. Qed.
Lemma append_char_cut n N c buf :
  (n <= N)%nat -> (length buf <= N - 1)%nat ->
  log_append_char n c (cut n buf) = cut n (log_append_char N c buf) /\
  (length (log_append_char N c buf) <= N - 1)%nat.
Proof. exact (append_list_cut n N [c] buf). Qed.
Lemma append_uint_cut n N v base upper width pad buf :
  (n <= N)%nat -> (length buf <= N - 1)%nat ->
  log_append_uint n v base upper width pad (cut n buf) = cut n (log_append_uint N v base upper width pad buf) /\
  (length (log_append_uint N v base upper width pad buf) <= N - 1)%nat.
Proof.
  intros Hn H. rewrite !append_uint_take by (try done; apply cut_length).
  split; [by apply cut_append|]. rewrite length_take. lia.
Qed.

Lemma log_spec_cut n N spec lm width pad ap buf buf' ap' :
  (n <= N)%nat -> (length buf <= N - 1)%nat ->
  log_spec N spec lm width pad ap buf = Some (buf', ap') ->
  log_spec n spec lm width pad ap (cut n buf) = Some (cut n buf', ap') /\ (length buf' <= N - 1)%nat.
Proof.
  intros Hn H. unfold log_spec.
  destruct (spec =? 115); [|destruct (spec =? 99); [|destruct ((spec =? 100) || (spec =? 105));
    [|destruct (spec =? 117); [|destruct ((spec =? 120) || (spec =? 88)); [|destruct (spec =? 112)]]]]].
  - destruct ap as [|[v|s] ap]; try done. intros [= <- <-].
    destruct (append_str_cut n N s buf Hn H) as [-> ?]. done.
  - destruct ap as [|[v|s] ap]; try done. intros [= <- <-].
    destruct (append_char_cut n N (u8 v) buf Hn H) as [-> ?]. done.
  - destruct ap as [|[v|s] ap]; try done. destruct (va_int lm v <? 0).
    + destruct (_ =? _); [done|]. intros [= <- <-].
      destruct (append_char_cut n N 45 buf Hn H) as [-> H1].
      destruct (append_uint_cut n N (- va_int lm v) 10 false (if 0 <? width then width - 1 else width) pad _ Hn H1)
        as [-> ?]. done.
    + intros [= <- <-]. destruct (append_uint_cut n N (va_int lm v) 10 false width pad buf Hn H) as [-> ?]. done.
  - destruct ap as [|[v|s] ap]; try done. intros [= <- <-].
    destruct (append_uint_cut n N (va_uint lm v) 10 false width pad buf Hn H) as [-> ?]. done.
  - destruct ap as [|[v|s] ap]; try done. intros [= <- <-].
    destruct (append_uint_cut n N (va_uint lm v) 16 (spec =? 88) width pad buf Hn H) as [-> ?]. done.
  - destruct ap as [|[v|s] ap]; try done. intros [= <- <-].
    destruct (append_str_cut n N (Some [48; 120]) buf Hn H) as [-> H1].
    destruct (append_uint_cut n N (u64 v) 16 false 0 32 _ Hn H1) as [-> ?]. done.
  - intros [= <- <-]. destruct (append_char_cut n N 37 buf Hn H) as [-> H1].
    destruct (append_char_cut n N spec _ Hn H1) as [-> ?]. done.
Qed.

Lemma log_directive_cut n N fmt ap buf buf' ap' fmt' :
  (n <= N)%nat -> (length buf <= N - 1)%nat ->
  log_directive N fmt ap buf = Some (buf', ap', fmt') ->
  log_directive n fmt ap (cut n buf) = Some (cut n buf', ap', fmt') /\ (length buf' <= N - 1)%nat.
Proof.
  intros Hn H. unfold log_directive. destruct fmt as [|c rest]; [done|].
  destruct (c =? 37).
  { intros [= <- <- <-]. destruct (append_char_cut n N 37 buf Hn H) as [-> ?]. done. }
  destruct (if c =? 48 then _ else _) as [pad f1]. destruct (parse_width f1 0) as [width f2].
  destruct (parse_len_mod f2) as [lm [|spec f3]]; [done|].
  destruct (log_spec N spec lm width pad ap buf) as [[b a]|] eqn:E; [|done]. intros [= <- <- <-].
  destruct (log_spec_cut n N spec lm width pad ap buf b a Hn H E) as [-> ?]. done.
Qed.

(** Text is only ever added to the buffer. *)
Lemma append_prefix max s buf : (length buf <= max - 1)%nat -> buf `prefix_of` append_while max s buf.
Proof.
  intros H. rewrite append_while_take by done. rewrite take_app. rewrite take_ge by lia. by eexists.
Qed.

Definition grows (max : nat) (buf buf' : list Z) : Prop :=
  buf `prefix_of` buf' /\ (length buf' <= max - 1)%nat.

Lemma grows_trans max b1 b2 b3 : grows max b1 b2 -> grows max b2 b3 -> grows max b1 b3.
Proof. intros [H1 _] [H2 H3]. split; [by etrans|done]. Qed.
Lemma grows_take max buf r : (length buf <= max - 1)%nat -> grows max buf (take (max - 1) (buf ++ r)).
Proof.
  intros H. split; [|rewrite length_take; lia]. rewrite take_app, take_ge by lia. by eexists.
Qed.
Lemma grows_while max s buf : (length buf <= max - 1)%nat -> grows max buf (append_while max s buf).
Proof. intros H. rewrite append_while_take by done. by apply grows_take. Qed.
Lemma grows_str max s buf : (length buf <= max - 1)%nat -> grows max buf (log_append_str max s buf).
Proof. apply grows_while. Qed.
Lemma grows_char max c buf : (length buf <= max - 1)%nat -> grows max buf (log_append_char max c buf).
Proof. exact (grows_while max [c] buf). Qed.
Lemma grows_uint max v base upper width pad buf :
  (length buf <= max - 1)%nat -> grows max buf (log_append_uint max v base upper width pad buf).
Proof. intros H. rewrite append_uint_take by done. by apply grows_take. Qed.
Hint Resolve grows_str grows_char grows_uint : log.

Lemma log_spec_grows max spec lm width pad ap buf buf' ap' :
  (length buf <= max - 1)%nat -> log_spec max spec lm width pad ap buf = Some (buf', ap') -> grows max buf buf'.
Proof.
  intros H. unfold log_spec.
  destruct (spec =? 115); [|destruct (spec =? 99); [|destruct ((spec =? 100) || (spec =? 105));
    [|destruct (spec =? 117); [|destruct ((spec =? 120) || (spec =? 88)); [|destruct (spec =? 112)]]]]].
  1-6: destruct ap as [|[v|s] ap]; try done.
  - intros [= <- _]. auto with log.
  - intros [= <- _]. auto with log.
  - destruct (va_int lm v <? 0); [destruct (_ =? _); [done|]|]; intros [= <- _]; [|auto with log].
    pose proof (grows_char max 45 buf H) as G. eapply grows_trans; [exact G|]. apply grows_uint, G.
  - intros [= <- _]. auto with log.
  - intros [= <- _]. auto with log.
  - intros [= <- _]. pose proof (grows_str max (Some [48; 120]) buf H) as G.
    eapply grows_trans; [exact G|]. apply grows_uint, G.
  - intros [= <- _]. pose proof (grows_char max 37 buf H) as G. eapply grows_trans; [exact G|]. apply grows_char, G.
Qed.

Lemma log_directive_grows max fmt ap buf buf' ap' fmt' :
  (length buf <= max - 1)%nat -> log_directive max fmt ap buf = Some (buf', ap', fmt') -> grows max buf buf'.
Proof.
  intros H. unfold log_directive. destruct fmt as [|c rest]; [done|].
  destruct (c =? 37); [intros [= <- _ _]; auto with log|].
  destruct (if c =? 48 then _ else _) as [pad f1]. destruct (parse_width f1 0) as [width f2].
  destruct (parse_len_mod f2) as [lm [|spec f3]]; [done|].
  destruct (log_spec max spec lm width pad ap buf) as [[b a]|] eqn:E; [|done]. intros [= <- _ _].
  by eapply log_spec_grows.
Qed.

Lemma log_loop_grows fuel max fmt ap buf out :
  (length buf <= max - 1)%nat -> log_vformat_loop fuel max fmt ap buf = Some out -> grows max buf out.
Proof.
  revert fmt ap buf. induction fuel as [|f IH]; intros fmt ap buf H; cbn [log_vformat_loop]; [done|].
  destruct fmt as [|c rest]; [intros [= <-]; split; [done|done]|].
  destruct (negb (room max buf)); [intros [= <-]; split; [done|done]|].
  destruct (negb (c =? 37)).
  - intros E. pose proof (grows_char max c buf H) as G. eapply grows_trans; [exact G|]. by eapply IH; [apply G|].
  - destruct (log_directive max rest ap buf) as [[[b a] f']|] eqn:E; [|done]. intros E'.
    pose proof (log_directive_grows _ _ _ _ _ _ _ H E) as G. eapply grows_trans; [exact G|]. by eapply IH; [apply G|].
Qed.

Lemma prefix_cut n (l l' : list Z) : l `prefix_of` l' -> (n - 1 <= length l)%nat -> cut n l' = cut n l.
Proof. intros [r ->] H. unfold cut. by rewrite take_app_le. Qed.

Lemma log_loop_cut fuel n N fmt ap buf out :
  (n <= N)%nat -> (length buf <= N - 1)%nat ->
  log_vformat_loop fuel N fmt ap buf = Some out ->
  log_vformat_loop fuel n fmt ap (cut n buf) = Some (cut n out).
Proof.
  intros Hn. revert fmt ap buf. induction fuel as [|f IH]; intros fmt ap buf H E; [done|].
  pose proof (log_loop_grows _ _ _ _ _ _ H E) as [Hpre _]. revert E. cbn [log_vformat_loop].
  destruct fmt as [|c rest]; [by intros [= <-]|]. unfold room at 2.
  destruct (Nat.ltb_spec (length (cut n buf)) (n - 1)) as [Hr|Hr]; cbn [negb].
  - assert (Hb : (length buf < n - 1)%nat) by (unfold cut in Hr; rewrite length_take in Hr; lia).
    unfold room. rewrite (proj2 (Nat.ltb_lt (length buf) (N - 1))) by lia. cbn [negb].
    destruct (negb (c =? 37)).
    + destruct (append_char_cut n N c buf Hn H) as [-> H']. by apply IH.
    + destruct (log_directive N rest ap buf) as [[[b a] f']|] eqn:E; [|done].
      destruct (log_directive_cut n N _ _ _ _ _ _ Hn H E) as [-> H']. by apply IH.
  - intros _. f_equal. symmetry. apply prefix_cut; [done|]. unfold cut in Hr. rewrite length_take in Hr. lia.
Qed.

(** ** Whole lines *)

Lemma log_prefix_length st level file line func :
  (length (log_prefix st level file line func) <= LOG_BUFFER_SIZE - 1)%nat.
Proof.
  unfold log_prefix. set (b0 := log_append_char LOG_BUFFER_SIZE 91 []).
  assert (H0 : (length b0 <= LOG_BUFFER_SIZE - 1)%nat) by (apply grows_char; cbn [length]; lia).
  set (b1 := log_append_char _ 32 _).
  assert (H1 : (length b1 <= LOG_BUFFER_SIZE - 1)%nat) by (apply grows_char, grows_char, grows_str; exact H0).
  clearbody b1. set (b2 := match file with Some _ => _ | None => _ end).
  assert (H2 : (length b2 <= LOG_BUFFER_SIZE - 1)%nat).
  { unfold b2. destruct file as [f|]; [|exact H1]. destruct (s_path_mode st); [exact H1| |].
    all: apply grows_char, grows_uint, grows_char, grows_str; exact H1. }
  clearbody b2. destruct func as [f|]; [|exact H2]. apply grows_str, grows_str; exact H2.
Qed.

(** ** Properties *)

(** The ring under writing, peeking and reading. *)
Lemma ring_operations st data maxlen :
  ring_ok st ->
  ring_ok (ring_write data st) /\ contents (ring_write data st) = lastn CAP (contents st ++ data) /\
  log_ring_peek maxlen st = take maxlen (contents st) /\
  (let '(out, st') := log_ring_read maxlen st in
   ring_ok st' /\ out = take maxlen (contents st) /\ contents st' = drop maxlen (contents st)).
Proof.
  intros Hr. destruct (ring_write_spec data st Hr) as [H1 H2]. split; [done|]. split; [done|].
  split; [by apply ring_peek_spec|]. unfold log_ring_read. rewrite ring_peek_spec by done.
  pose proof Hr as [Rb Rh Rs]. rewrite length_take, contents_length. pose proof cap_pos as Hc.
  destruct (Nat.ltb_spec 0 (Nat.min maxlen (s_ring_size st))) as [Hm|Hm].
  - split; [split; cbn [set_ring_size s_ring_buf s_ring_head s_ring_size]; [done|done|lia]|]. split; [done|].
    apply (nth_ext _ _ 0 0).
    + rewrite length_drop, !contents_length. cbn [set_ring_size s_ring_size]. lia.
    + intros i Hi. rewrite contents_length in Hi. cbn [set_ring_size s_ring_size] in Hi.
      rewrite nth_skipn, contents_nth by done. rewrite contents_nth by lia.
      cbn [set_ring_size s_ring_buf s_ring_head s_ring_size]. f_equal. f_equal. lia.
  - split; [done|]. split; [done|]. destruct (Nat.eq_dec maxlen 0) as [-> |]; [done|].
    assert (E : contents st = []) by (apply length_zero_iff_nil; rewrite contents_length; lia).
    rewrite E. by rewrite drop_nil.
Qed.

(** Formatting into a buffer of [n] bytes yields the first [n - 1]
    characters of what any larger buffer gets. *)
Lemma log_vformat_truncates n N fmt ap out :
  (n <= N)%nat -> log_vformat N fmt ap = Some out ->
  log_vformat n fmt ap = Some (take (n - 1) out) /\ (length out <= N - 1)%nat.
Proof.
  intros Hn E. unfold log_vformat in *. split.
  - pose proof (log_loop_cut _ n N fmt ap [] out Hn ltac:(simpl; lia) E) as H.
    unfold cut in H at 1. rewrite take_nil in H. exact H.
  - assert (H0 : (length ([] : list Z) <= N - 1)%nat) by (simpl; lia).
    apply (log_loop_grows _ _ _ _ _ _ H0 E).
Qed.

(** A line below the threshold does nothing; any other is at most 255
    bytes long, starts with its prefix, ends with a newline unless it was cut at 255,
    and the ring and the writer get the same bytes. *)
Lemma log_vprintf_line level file line func fmt ap st n st' :
  ring_ok st -> log_vprintf level file line func fmt ap st = Some (n, st') ->
  if (log_level_code level <=? 0) || (log_level_code (s_log_level st) <? log_level_code level)
  then n = 0 /\ st' = st
  else exists text,
    n = Z.of_nat (length text) /\ (length text <= 255)%nat /\
    log_prefix st level file line func `prefix_of` text /\
    ((length text < 255)%nat -> last text = Some 10) /\
    contents st' = lastn CAP (contents st ++ text) /\ ring_ok st' /\
    s_output st' = s_output st ++ (if s_write_fn st then text else []).
Proof.
  intros Hr. unfold log_vprintf. destruct (_ || _); [by intros [= <- <-]|].
  pose proof (log_prefix_length st level file line func) as Hp.
  set (pre := log_prefix st level file line func) in *. clearbody pre.
  destruct (log_vformat (LOG_BUFFER_SIZE - length pre) fmt ap) as [body|] eqn:E; [|done].
  assert (Hb : (length body <= LOG_BUFFER_SIZE - length pre - 1)%nat).
  { apply (log_loop_grows _ _ _ _ [] _ ltac:(cbn [length]; lia) E). }
  assert (HB : LOG_BUFFER_SIZE = 256%nat) by reflexivity.
  set (text := if _ : bool then _ else _). intros [= <- <-]. exists text.
  assert (Ht : pre `prefix_of` text /\ (length text <= 255)%nat /\ ((length text < 255)%nat -> last text = Some 10)).
  { unfold text. destruct (Nat.ltb_spec (length (pre ++ body)) (LOG_BUFFER_SIZE - 1)) as [L|L].
    - split; [rewrite <- app_assoc; by apply prefix_app_r|]. rewrite !length_app in *. cbn [length].
      split; [lia|]. intros _. apply last_snoc.
    - split; [by apply prefix_app_r|]. rewrite length_app in *. lia. }
  destruct Ht as (Ht1 & Ht2 & Ht3). destruct (ring_write_spec text st Hr) as [[Rb Rh Rs] Hc].
  split; [done|]. split; [done|]. split; [done|]. split; [done|].
  assert (W : s_output (ring_write text st) = s_output st /\ s_write_fn (ring_write text st) = s_write_fn st).
  { unfold ring_write. by destruct (length text =? 0)%nat. }
  destruct W as [Wo Ww]. rewrite Ww. destruct (s_write_fn st).
  - split; [exact Hc|]. split; [by split|]. cbn [s_output]. by rewrite Wo.
  - split; [exact Hc|]. split; [by split|]. by rewrite app_nil_r.
Qed.

(** C40: the ring keeps the last 2048 bytes written to it, in order: writing
    appends (a line longer than the ring keeps its end), peeking shows the oldest
    bytes, reading takes exactly those out.  A line below the threshold does nothing;
    any other is at most 255 bytes long, starts with its prefix, ends with a newline
    unless it was cut at 255, and the ring and the writer get the same bytes.  The
    formatter behind it stays inside its buffer: with [n] bytes it yields the first
    [n - 1] characters of what any larger buffer gets. *)
Theorem ring_keeps_last_bytes st :
  ring_ok st ->
  (forall data maxlen,
    ring_ok (ring_write data st) /\ contents (ring_write data st) = lastn CAP (contents st ++ data) /\
    log_ring_peek maxlen st = take maxlen (contents st) /\
    (let '(out, st') := log_ring_read maxlen st in
     ring_ok st' /\ out = take maxlen (contents st) /\ contents st' = drop maxlen (contents st))) /\
  (forall level file line func fmt ap n st', log_vprintf level file line func fmt ap st = Some (n, st') ->
    if (log_level_code level <=? 0) || (log_level_code (s_log_level st) <? log_level_code level)
    then n = 0 /\ st' = st
    else exists text,
      n = Z.of_nat (length text) /\ (length text <= 255)%nat /\
      log_prefix st level file line func `prefix_of` text /\
      ((length text < 255)%nat -> last text = Some 10) /\
      contents st' = lastn CAP (contents st ++ text) /\ ring_ok st' /\
      s_output st' = s_output st ++ (if s_write_fn st then text else [])) /\
  (forall fmt ap k K out, (k <= K)%nat -> log_vformat K fmt ap = Some out ->
    log_vformat k fmt ap = Some (take (k - 1) out) /\ (length out <= K - 1)%nat).
Proof.
  intros Hr. split; [intros data maxlen; by apply ring_operations|]. split.
  - intros level file line func fmt ap n st' E. by apply (log_vprintf_line level file line func fmt ap).
  - intros fmt ap k K out. apply log_vformat_truncates.
Qed.

(** A format whose last character is a single per cent sign makes the loop step
    over the terminator. *)
Lemma log_vformat_trailing_percent : log_vformat 256 [37] [] = None.
Proof. reflexivity. Qed.

(** The hexdump's comment says the formatter does not handle "%04X"; it does. *)
Lemma log_vformat_handles_04X : log_vformat 256 [37; 48; 52; 88] [VaNum 171] = Some [48; 48; 65; 66].
Proof. reflexivity. Qed.

(** The line [log_init_baremetal] logs first: "[I] a.c:7 f(): log system
    initialized (runtime level=4/DEBUG)". *)
Lemma log_init_line :
  option_map (fun st => take 14 (s_output st))
    (log_init_baremetal (Some [47; 97; 46; 99]) 7 (Some [102]) log_image) =
  Some [91; 73; 93; 32; 97; 46; 99; 58; 55; 32; 102; 40; 41; 58].
Proof. vm_compute. reflexivity. Qed.

(** ** Witnesses *)

Lemma log_image_ok : ring_ok log_image.
Proof. split; cbn [log_image s_ring_buf s_ring_head s_ring_size]; [apply length_replicate|exact cap_pos|lia]. Qed.

Lemma ring_keeps_last_bytes_witness :
  contents (ring_write [104; 105] log_image) = lastn CAP (contents log_image ++ [104; 105]) /\
  (exists st', log_vprintf LOG_LEVEL_INFO None 1 None [37; 100; 33] [VaNum 42] log_image = Some (8, st') /\
   exists text, 8 = Z.of_nat (length text) /\ contents st' = lastn CAP (contents log_image ++ text)) /\
  log_vformat 3 [37; 100; 33] [VaNum 42] = Some [52; 50].
Proof.
  destruct (ring_keeps_last_bytes log_image log_image_ok) as (Hring & Hline & Hf).
  split; [exact (proj1 (proj2 (Hring [104; 105] 1%nat)))|].
  split; [|exact (proj1 (Hf [37; 100; 33] [VaNum 42] 3%nat 256%nat [52; 50; 33] ltac:(lia) ltac:(vm_compute; reflexivity)))].
  destruct (log_vprintf LOG_LEVEL_INFO None 1 None [37; 100; 33] [VaNum 42] log_image) as [[n st']|] eqn:E;
    [|vm_compute in E; discriminate].
  assert (n = 8) as -> by (apply (f_equal (option_map fst)) in E; vm_compute in E; by injection E).
  exists st'. split; [done|]. destruct (Hline _ _ _ _ _ _ _ _ E) as (text & H1 & _ & _ & _ & H2 & _). by exists text.
Defined.
