(* ===== verification/LogMacros.v ===== *)
(** * The macros of [log.h]

    What the kernel writes: [pr_err] to [pr_trace], [pr_hexdump], [PANICF], [ASSERT]
    and [BREAK_IF], on the logger of [Log].  A macro names its call site
    ([__FILE__], [__LINE__], [__func__]); the text of an asserted condition is an
    argument.  [None] is the logger's own undefined case (a format that ends in a
    per cent sign). *)
From stdpp Require Import base numbers list strings.
From Stdlib Require Import ZArith Lia.
From S2P Require Import Prelude Stdio Log.

Local Open Scope Z_scope.

(** [log_config.h] *)
Definition LOG_COMPILE_LEVEL : log_level_t := LOG_LEVEL_DEBUG.

Record site := { __FILE__ : list Z; __LINE__ : Z; __func__ : list Z }.

(** How a macro leaves: the code goes on, stops in the debugger, or hangs. *)
Inductive flow : Type := Goes_on | Breaks | Hangs.

Section at_site.
Context (here : site) (NDEBUG : bool).

Definition LOG_DO_PRINT (level : log_level_t) (fmt : list Z) (ap : list va_value) (st : log_state) : option log_state :=
  if log_level_code level <=? log_level_code LOG_COMPILE_LEVEL
  then option_map snd (log_printf level (Some (__FILE__ here)) (__LINE__ here) (Some (__func__ here)) fmt ap st)
  else Some st.

(** [#if LOG_COMPILE_LEVEL >= level]: the macro, or an empty statement. *)
Definition compiled (level : log_level_t) (fmt : list Z) (ap : list va_value) (st : log_state) : option log_state :=
  if log_level_code level <=? log_level_code LOG_COMPILE_LEVEL then LOG_DO_PRINT level fmt ap st else Some st.
Definition pr_err := compiled LOG_LEVEL_ERROR.
Definition pr_warn := compiled LOG_LEVEL_WARN.
Definition pr_info := compiled LOG_LEVEL_INFO.
Definition pr_debug := compiled LOG_LEVEL_DEBUG.
Definition pr_trace := compiled LOG_LEVEL_TRACE.

Definition pr_hexdump (level : log_level_t) (prefix : option (list Z)) (data : list Z) (st : log_state) : option log_state :=
  if log_level_code level <=? log_level_code LOG_COMPILE_LEVEL
  then log_hexdump level (Some (__FILE__ here)) (__LINE__ here) (Some (__func__ here)) data prefix st
  else Some st.

(** A debug build stops at the [ebreak] in front of the endless loop. *)
Definition PANICF (fmt : list Z) (ap : list va_value) (st : log_state) : option (flow * log_state) :=
  option_map (fun r => (if NDEBUG then Hangs else Breaks, snd r))
    (log_panicf_internal (Some (__FILE__ here)) (__LINE__ here) fmt ap st).
Definition PANIC : log_state -> option (flow * log_state) := PANICF (bytes_of_string "PANIC") [].

Definition ASSERTF (cond : bool) (text fmt : list Z) (ap : list va_value) (st : log_state) : option (flow * log_state) :=
  if NDEBUG then Some (Goes_on, st) else
  if negb cond then PANICF (bytes_of_string "ASSERT failed: %s | " ++ fmt) (VaStr (Some text) :: ap) st
  else Some (Goes_on, st).
Definition ASSERT (cond : bool) (text : list Z) (st : log_state) : option (flow * log_state) :=
  if NDEBUG then Some (Goes_on, st) else
  if negb cond then PANICF (bytes_of_string "ASSERT failed: %s") [VaStr (Some text)] st
  else Some (Goes_on, st).

Definition log_break : flow := if NDEBUG then Goes_on else Breaks.
Definition BREAK_IF (cond : bool) (text : list Z) (st : log_state) : option (flow * log_state) :=
  if NDEBUG then
    if cond then option_map (pair Goes_on) (pr_warn (bytes_of_string "BREAK_IF hit (release build): %s") [VaStr (Some text)] st)
    else Some (Goes_on, st)
  else Some (if cond then log_break else Goes_on, st).

(** ** Laws *)

(** Trace messages are compiled out; below the run-time level nothing happens. *)
Lemma pr_trace_compiled_out fmt ap st : pr_trace fmt ap st = Some st.
Proof. done. Qed.
Lemma pr_filtered level fmt ap st :
  log_level_code (s_log_level st) < log_level_code level -> compiled level fmt ap st = Some st.
Proof.
  intros H. unfold compiled, LOG_DO_PRINT, log_printf, log_vprintf. destruct (_ <=? _); [|done].
  by replace (_ || _) with true by lia.
Qed.
(** A message at or above it is one line in the ring. *)
Lemma pr_logs level fmt ap st st' :
  ring_ok st -> 1 <= log_level_code level <= log_level_code LOG_COMPILE_LEVEL ->
  log_level_code level <= log_level_code (s_log_level st) ->
  compiled level fmt ap st = Some st' ->
  exists text, (length text <= 255)%nat /\
    log_prefix st level (Some (__FILE__ here)) (__LINE__ here) (Some (__func__ here)) `prefix_of` text /\
    contents st' = lastn CAP (contents st ++ text) /\ ring_ok st'.
Proof.
  intros Hr Hl Hrun. unfold compiled, LOG_DO_PRINT. replace (_ <=? _) with true by lia.
  destruct (log_printf _ _ _ _ _ _ _) as [[n s']|] eqn:E; [|done]. intros [= <-].
  pose proof (log_vprintf_line _ _ _ _ _ _ _ _ _ Hr E) as H. replace (_ || _) with false in H by lia.
  destruct H as (text & _ & H1 & H2 & _ & H3 & H4 & _). by exists text.
Qed.

(** An assertion that holds, or any assertion of a release build, does nothing;
    one that fails in a debug build stops. *)
Lemma ASSERT_holds text st : ASSERT true text st = Some (Goes_on, st).
Proof. unfold ASSERT. by destruct NDEBUG. Qed.
Lemma ASSERT_stops text st r : NDEBUG = false -> ASSERT false text st = Some r -> r.1 = Breaks.
Proof.
  intros HN. unfold ASSERT, PANICF. rewrite HN. cbn [negb]. destruct (log_panicf_internal _ _ _ _ _); [|done].
  by intros [= <-].
Qed.
End at_site.
