(* ===== verification/Spinlock.v ===== *)
(** * The spin locks ([kernel/include/spinlock.h], [lock.h]), instruction by
    instruction

    Any number of harts run the lock code, one instruction of one hart at a time,
    in any order.  A hart that takes an interrupt pushes the interrupted code and
    starts over in the handler, which may use the lock as well.  [irqsave] tells
    the lock that masks interrupts ([spin_lock_irqsave]: the big kernel lock) from
    the one that does not ([spin_lock]: the log lock). *)
From stdpp Require Import base numbers list fin_maps functions.
From Stdlib Require Import ZArith Lia.
From S2P Require Import Prelude Machine.

Local Open Scope Z_scope.

(** ** The lock word *)

Record spinlock_t := { locked : Z }.
Definition SPINLOCK_INIT : spinlock_t := {| locked := 0 |}.
Definition spinlock_init (lk : spinlock_t) : spinlock_t := {| locked := 0 |}.

(** [amoswap.w]: the old word, and the new one in its place. *)
Definition amoswap_w (v : Z) (lk : spinlock_t) : Z * spinlock_t := (locked lk, {| locked := u32 v |}).

(** One round of [do ... while (tmp != 0)]: whether it was the last. *)
Definition spin_lock_round (lk : spinlock_t) : bool * spinlock_t :=
  let '(tmp, lk) := amoswap_w 1 lk in (tmp =? 0, lk).
Definition spin_unlock (lk : spinlock_t) : spinlock_t := snd (amoswap_w 0 lk).

(** ** Harts *)

(** Where a piece of code is; [v] is the [sstatus] that [spin_lock_irqsave] read. *)
Inductive lock_code : Type :=
| Outside               (* not in the lock code *)
| Masking (v : Z)       (* between [csr_read] and [csr_clear] *)
| Spinning (v : Z)      (* in [spin_lock] *)
| Critical (v : Z)      (* holding the lock *)
| Restoring (v : Z).    (* between [spin_unlock] and [csr_write] *)

(** [sstatus], the code that runs, and below it the interrupted code with the
    [sstatus] of its trap frame. *)
Record hart := { sstatus : Z; top : lock_code; below : list (Z * lock_code) }.

(** The bits the hardware changes at a trap from S-mode and at [sret]. *)
Definition trap_in (s : Z) : Z := Z.lor (Z.land s (Z.lnot SSTATUS_SIE)) (Z.lor SSTATUS_SPIE SSTATUS_SPP).
Definition sret_out (s : Z) : Z := Z.lor (Z.land s (Z.lnot SSTATUS_SPP)) (Z.lor SSTATUS_SIE SSTATUS_SPIE).
Definition sie (s : Z) : bool := negb (Z.land s SSTATUS_SIE =? 0).

Inductive instr : Type := ReadStatus | ClearSIE | Swap | Unlock | WriteStatus | Interrupt | Sret.

Section lock.
Variable irqsave : bool.

Definition hart_step (i : instr) (lk : spinlock_t) (h : hart) : option (spinlock_t * hart) :=
  let at_frame f := {| sstatus := sstatus h; top := f; below := below h |} in
  match i, top h with
  | ReadStatus, Outside =>
    Some (lk, at_frame (if irqsave then Masking (sstatus h) else Spinning (sstatus h)))
  | ClearSIE, Masking v =>
    Some (lk, {| sstatus := Z.land (sstatus h) (Z.lnot SSTATUS_SIE); top := Spinning v; below := below h |})
  | Swap, Spinning v =>
    let '(got, lk) := spin_lock_round lk in
    Some (lk, at_frame (if got then Critical v else Spinning v))
  | Unlock, Critical v =>
    Some (spin_unlock lk, at_frame (if irqsave then Restoring v else Outside))
  | WriteStatus, Restoring v => Some (lk, {| sstatus := v; top := Outside; below := below h |})
  | Interrupt, f =>
    if sie (sstatus h)
    then Some (lk, {| sstatus := trap_in (sstatus h); top := Outside; below := (trap_in (sstatus h), f) :: below h |})
    else None
  | Sret, Outside =>
    match below h with
    | (s, f) :: rest => Some (lk, {| sstatus := sret_out s; top := f; below := rest |})
    | [] => None
    end
  | _, _ => None
  end.

Record locks := { word : spinlock_t; harts : nat -> hart }.

Definition step (a : nat * instr) (s : locks) : option locks :=
  match hart_step (snd a) (word s) (harts s (fst a)) with
  | Some (lk, h) => Some {| word := lk; harts := <[fst a := h]> (harts s) |}
  | None => None
  end.

Fixpoint run (l : list (nat * instr)) (s : locks) : option locks :=
  match l with
  | [] => Some s
  | a :: l => match step a s with Some s => run l s | None => None end
  end.

(** Every hart starts outside, with any [sstatus]. *)
Definition initial (s : locks) : Prop :=
  word s = SPINLOCK_INIT /\ forall h, top (harts s h) = Outside /\ below (harts s h) = [].

Inductive reach : locks -> Prop :=
| reach_init s : initial s -> reach s
| reach_step s a s' : reach s -> step a s = Some s' -> reach s'.

(** ** One owner *)

Definition critical (f : lock_code) : bool := match f with Critical _ => true | _ => false end.
Definition holds (h : hart) : nat :=
  length (filter (fun f => critical f = true) (top h :: map snd (below h))).

Definition owned (s : locks) : Prop :=
  (locked (word s) = 0 /\ forall h, holds (harts s h) = O) \/
  (locked (word s) = 1 /\ exists o, holds (harts s o) = 1%nat /\ forall h, h <> o -> holds (harts s h) = O).

Lemma holds_cons h : holds h = ((if critical (top h) then 1 else 0) + holds {| sstatus := sstatus h; top := Outside; below := below h |})%nat.
Proof. unfold holds. cbn [top below]. rewrite !filter_cons. by destruct (critical (top h)). Qed.

Lemma holds_frame st st' f f' b :
  critical f = critical f' -> holds {| sstatus := st; top := f; below := b |} = holds {| sstatus := st'; top := f'; below := b |}.
Proof. intros E. unfold holds. cbn [top below]. rewrite !filter_cons.
  destruct (critical f), (critical f'); cbn; by try discriminate E. Qed.

(** The lock word and the number of critical sections of a hart move together. *)
Lemma hart_step_holds i lk h lk' h' :
  (locked lk = 0 \/ locked lk = 1) -> hart_step i lk h = Some (lk', h') ->
  (locked lk' = locked lk /\ holds h' = holds h) \/
  (locked lk = 0 /\ locked lk' = 1 /\ holds h' = S (holds h)) \/
  (locked lk' = 0 /\ holds h = S (holds h')).
Proof.
  destruct h as [st f b]. intros Hl. unfold hart_step. cbn [top below sstatus].
  destruct i, f; try discriminate.
  - intros [= <- <-]. left. split; [done|]. by apply holds_frame; destruct irqsave.
  - intros [= <- <-]. left. split; [done|]. by apply holds_frame.
  - unfold spin_lock_round, amoswap_w. destruct (Z.eqb_spec (locked lk) 0) as [E|E]; intros [= <- <-].
    + right. left. split; [done|]. split; [done|]. unfold holds. cbn [top below map].
      by rewrite !filter_cons.
    + left. split; [destruct Hl as [?|Hl]; [lia|by rewrite Hl]|]. by apply holds_frame.
  - intros [= <- <-]. right. right. split; [done|].
    unfold holds. cbn [top below]. rewrite !filter_cons. by destruct irqsave.
  - intros [= <- <-]. left. split; [done|]. by apply holds_frame.
  - destruct (sie st); [|discriminate]. intros [= <- <-]. left. by split.
  - destruct (sie st); [|discriminate]. intros [= <- <-]. left. by split.
  - destruct (sie st); [|discriminate]. intros [= <- <-]. left. by split.
  - destruct (sie st); [|discriminate]. intros [= <- <-]. left. by split.
  - destruct (sie st); [|discriminate]. intros [= <- <-]. left. by split.
  - destruct b as [|[s f] b]; [discriminate|]. intros [= <- <-]. left. by split.
Qed.

Lemma step_spec a s s' :
  step a s = Some s' -> exists lk h, hart_step (snd a) (word s) (harts s (fst a)) = Some (lk, h) /\
  word s' = lk /\ harts s' (fst a) = h /\ forall h', h' <> fst a -> harts s' h' = harts s h'.
Proof.
  unfold step. destruct (hart_step _ _ _) as [[lk h]|]; [|discriminate]. intros [= <-].
  exists lk, h. split; [done|]. split; [done|]. cbn [harts]. split; [apply fn_lookup_insert|].
  intros h' N. by apply fn_lookup_insert_ne.
Qed.

Lemma owned_step a s s' : owned s -> step a s = Some s' -> owned s'.
Proof.
  intros O St. destruct (step_spec _ _ _ St) as (lk & h & E & Hw & Hh & Ho).
  assert (Hl : locked (word s) = 0 \/ locked (word s) = 1) by (destruct O as [[? _]|[? _]]; auto).
  unfold owned. rewrite Hw.
  destruct (hart_step_holds _ _ _ _ _ Hl E) as [[L N]|[(L0 & L1 & N)|(L0 & N)]].
  - assert (K : forall h', holds (harts s' h') = holds (harts s h')).
    { intros h'. destruct (decide (h' = fst a)) as [-> |D]; [by rewrite Hh|by rewrite Ho]. }
    rewrite L. destruct O as [[O1 O2]|[O1 (o & O2 & O3)]].
    + left. split; [done|]. intros h'. by rewrite K.
    + right. split; [done|]. exists o. split; [by rewrite K|]. intros h' D. rewrite K. by apply O3.
  - right. split; [done|]. exists (fst a). destruct O as [[_ O2]|[O1 _]]; [|lia].
    split; [by rewrite Hh, N, O2|]. intros h' D. by rewrite Ho, O2.
  - left. split; [done|]. destruct O as [[_ O2]|[_ (o & O2 & O3)]]; [rewrite O2 in N; lia|].
    assert (o = fst a) as -> by (destruct (decide (o = fst a)) as [e|D]; [exact e|];
      rewrite O3 in N; [lia|congruence]).
    intros h'. destruct (decide (h' = fst a)) as [-> |D]; [rewrite Hh; lia|]. rewrite Ho by done. by apply O3.
Qed.

Lemma reach_owned s : reach s -> owned s.
Proof.
  induction 1 as [s [Hw Hh]|s a s' _ IH St]; [|by eapply owned_step].
  left. rewrite Hw. split; [done|]. intros h. destruct (Hh h) as [Ht Hb]. unfold holds. by rewrite Ht, Hb.
Qed.

End lock.

Lemma run_cons irqsave a l s lk h :
  hart_step irqsave (snd a) (word s) (harts s (fst a)) = Some (lk, h) ->
  run irqsave (a :: l) s = run irqsave l {| word := lk; harts := <[fst a := h]> (harts s) |}.
Proof. intros E. cbn [run]. unfold step. by rewrite E. Qed.

(** ** Interrupts stay masked around the big lock *)

Definition masked_frame (f : lock_code) : bool :=
  match f with Outside | Masking _ => false | _ => true end.

(** Only code outside the lock is ever interrupted. *)
Definition masked (h : hart) : Prop :=
  (masked_frame (top h) = true -> sie (sstatus h) = false) /\
  Forall (fun p => masked_frame (snd p) = false) (below h).

Lemma sie_cleared s : sie (Z.land s (Z.lnot SSTATUS_SIE)) = false.
Proof.
  unfold sie. rewrite <- Z.land_assoc, (Z.land_comm (Z.lnot _)), Z.land_lnot_diag, Z.land_0_r. reflexivity.
Qed.

Lemma hart_step_masked i lk h lk' h' : masked h -> hart_step true i lk h = Some (lk', h') -> masked h'.
Proof.
  destruct h as [st f b]. intros [M B]. unfold hart_step. cbn [top below sstatus] in *.
  destruct i, f; try discriminate.
  - intros [= <- <-]. by split.
  - intros [= <- <-]. split; [intros _; apply sie_cleared|done].
  - destruct (spin_lock_round lk) as [[] lk1]; intros [= <- <-]; split; auto.
  - intros [= <- <-]. split; auto.
  - intros [= <- <-]. by split.
  - destruct (sie st); [|discriminate]. intros [= <- <-]. split; [done|by constructor].
  - destruct (sie st); [|discriminate]. intros [= <- <-]. split; [done|by constructor].
  - rewrite M by done. discriminate.
  - rewrite M by done. discriminate.
  - rewrite M by done. discriminate.
  - destruct b as [|[s f] b]; [discriminate|]. intros [= <- <-]. inversion B as [|? ? B1 B2]; subst.
    split; [|done]. cbn [top] in *. cbn [snd] in B1. rewrite B1. discriminate.
Qed.

Lemma reach_masked s : reach true s -> forall h, masked (harts s h).
Proof.
  induction 1 as [s [_ Hh]|s a s' _ IH St]; intros h.
  - destruct (Hh h) as [Ht Hb]. split; [by rewrite Ht|by rewrite Hb].
  - destruct (step_spec _ _ _ _ St) as (lk & h1 & E & _ & E1 & Ho).
    destruct (decide (h = fst a)) as [-> |D]; [rewrite E1; by eapply hart_step_masked|by rewrite Ho].
Qed.

Lemma masked_below (b : list (Z * lock_code)) :
  Forall (fun p => masked_frame (snd p) = false) b -> filter (fun f => critical f = true) (map snd b) = [].
Proof.
  induction 1 as [|[s f] b Hf _ IH]; [done|]. cbn [map snd] in *. rewrite filter_cons, IH.
  by destruct f; try discriminate Hf.
Qed.

Lemma masked_holds h : masked h -> (0 < holds h)%nat -> exists v, top h = Critical v.
Proof.
  destruct h as [st f b]. intros [_ B] H. unfold holds in H. cbn [top below] in *.
  rewrite filter_cons, masked_below in H by exact B. destruct f as [|v|v|v|v].
  4: by exists v.
  all: by apply Nat.lt_irrefl in H.
Qed.

(** ** Properties *)

(** At most one piece of code in the machine holds the lock. *)
Lemma one_owner irqsave s :
  reach irqsave s ->
  (forall h, (holds (harts s h) <= 1)%nat /\ ((0 < holds (harts s h))%nat -> locked (word s) = 1)) /\
  (forall h h', (0 < holds (harts s h))%nat -> (0 < holds (harts s h'))%nat -> h = h').
Proof.
  intros R. destruct (reach_owned _ _ R) as [[L O]|[L (o & O1 & O2)]].
  - split; [intros h|intros h h']; rewrite (O h); lia.
  - assert (K : forall h, (0 < holds (harts s h))%nat -> h = o).
    { intros h H. destruct (decide (h = o)) as [e|D]; [exact e|]. rewrite O2 in H by done. lia. }
    split.
    + intros h. split; [|done]. destruct (decide (h = o)) as [-> |D]; [lia|]. rewrite O2 by done. lia.
    + intros h h' H H'. by rewrite (K h H), (K h' H').
Qed.

(** The big lock: no interrupts, progress, and the mask restored. *)
Lemma kernel_lock_no_deadlock s h :
  reach true s ->
  (masked_frame (top (harts s h)) = true -> step true (h, Interrupt) s = None) /\
  (forall v, top (harts s h) = Spinning v ->
     exists l s', (length l <= 2)%nat /\ run true l s = Some s' /\ top (harts s' h) = Critical v) /\
  (top (harts s h) = Outside -> locked (word s) = 0 ->
     exists s', run true [(h, ReadStatus); (h, ClearSIE); (h, Swap); (h, Unlock); (h, WriteStatus)] s = Some s' /\
     harts s' h = harts s h /\ locked (word s') = 0).
Proof.
  intros R. pose proof (reach_masked _ R) as M. split; [|split].
  - intros Hm. destruct (M h) as [Hs _]. unfold step, hart_step. cbn [fst snd]. by rewrite (Hs Hm).
  - intros v Hv. destruct (reach_owned _ _ R) as [[L _]|[L (o & O1 & O2)]].
    + exists [(h, Swap)]. eexists. split; [cbn; lia|]. cbn [run]. unfold step, hart_step.
      cbn [fst snd]. rewrite Hv. unfold spin_lock_round, amoswap_w. rewrite L. cbn [Z.eqb].
      split; [reflexivity|]. cbn [harts]. by rewrite fn_lookup_insert.
    + destruct (masked_holds _ (M o) ltac:(lia)) as [w Hw].
      assert (D : h <> o) by (intros ->; rewrite Hv in Hw; discriminate).
      exists [(o, Unlock); (h, Swap)]. eexists. split; [cbn; lia|]. cbn [run]. unfold step at 1, hart_step at 1.
      cbn [fst snd]. rewrite Hw. unfold step, hart_step. cbn [fst snd harts word].
      rewrite fn_lookup_insert_ne by done. rewrite Hv. cbn [spin_unlock snd amoswap_w].
      unfold spin_lock_round, amoswap_w. cbn [locked]. change (u32 0 =? 0) with true.
      split; [reflexivity|]. cbn [harts]. by rewrite fn_lookup_insert.
  - intros Ho L. destruct (harts s h) as [st f b] eqn:Eh. cbn [top] in Ho. subst f.
    eexists. do 5 (erewrite run_cons; [|cbn [fst snd harts word]; rewrite ?fn_lookup_insert, ?Eh;
      cbn [hart_step top sstatus below]; unfold spin_lock_round, amoswap_w; cbn [locked]; rewrite ?L; reflexivity]).
    split; [reflexivity|]. cbn [harts word fst]. rewrite fn_lookup_insert. by split.
Qed.

(** C29: whatever the interleaving of the harts and the interrupts, with or without
    interrupts masked, at most one piece of code in the machine holds the lock, and only
    while the lock word is 1.  Around the big lock, which masks them, no interrupt is
    taken from the spinning loop to the restored [sstatus], so the owner always runs; a
    spinning hart can therefore always get the lock within two instructions of the
    machine; and a lock followed by an unlock leaves the hart as it was, interrupt mask
    included. *)
Theorem lock_excludes_and_progresses s :
  (forall irqsave, reach irqsave s ->
    (forall h, (holds (harts s h) <= 1)%nat /\ ((0 < holds (harts s h))%nat -> locked (word s) = 1)) /\
    (forall h h', (0 < holds (harts s h))%nat -> (0 < holds (harts s h'))%nat -> h = h')) /\
  (reach true s -> forall h,
    (masked_frame (top (harts s h)) = true -> step true (h, Interrupt) s = None) /\
    (forall v, top (harts s h) = Spinning v ->
       exists l s', (length l <= 2)%nat /\ run true l s = Some s' /\ top (harts s' h) = Critical v) /\
    (top (harts s h) = Outside -> locked (word s) = 0 ->
       exists s', run true [(h, ReadStatus); (h, ClearSIE); (h, Swap); (h, Unlock); (h, WriteStatus)] s = Some s' /\
       harts s' h = harts s h /\ locked (word s') = 0)).
Proof.
  split; [intros irqsave; apply one_owner|]. intros R h. by apply kernel_lock_no_deadlock.
Qed.

(** ** Without masking *)

(** A hart that is interrupted while it holds the lock, and whose handler wants it
    too, spins for ever. *)
Definition self_locked (s : locks) (h : nat) : Prop :=
  locked (word s) = 1 /\ sie (sstatus (harts s h)) = false /\
  (exists v, top (harts s h) = Spinning v) /\ exists p v, p ∈ below (harts s h) /\ snd p = Critical v.

Lemma run_reach irqsave l s s' : reach irqsave s -> run irqsave l s = Some s' -> reach irqsave s'.
Proof.
  revert s. induction l as [|a l IH]; intros s R; cbn [run]; [by intros [= <-]|].
  destruct (step irqsave a s) as [s1|] eqn:E; [|discriminate]. apply IH. by eapply reach_step.
Qed.

(** All harts outside the lock with interrupts enabled. *)
Definition quiet_harts : locks :=
  {| word := SPINLOCK_INIT; harts := fun _ => {| sstatus := SSTATUS_SIE; top := Outside; below := [] |} |}.

Lemma quiet_reach irqsave : reach irqsave quiet_harts.
Proof. by apply reach_init. Qed.

Lemma spin_lock_self_deadlock : exists s, reach false s /\ self_locked s 0.
Proof.
  destruct (run false [(O, ReadStatus); (O, Swap); (O, Interrupt); (O, ReadStatus); (O, Swap)] quiet_harts)
    as [s|] eqn:E; [|vm_compute in E; discriminate].
  exists s. split; [by eapply run_reach; [apply quiet_reach|exact E]|].
  vm_compute in E. injection E as <-. unfold self_locked. vm_compute. split; [done|]. split; [done|].
  split; [by eexists|]. exists (288, Critical 2), 2. split; [|done]. constructor.
Qed.

(** Nothing any hart does gets it out: the owner is below it. *)
Lemma self_locked_forever s a s' h :
  reach false s -> self_locked s h -> step false a s = Some s' -> self_locked s' h.
Proof.
  intros R (L & Hs & (v & Hv) & p & w & Hp & Hw) St.
  destruct (step_spec _ _ _ _ St) as (lk & h1 & E & El & E1 & Ho).
  assert (Hh : (0 < holds (harts s h))%nat).
  { unfold holds. rewrite Hv, filter_cons_False by done. apply list_elem_of_split in Hp as (l1 & l2 & ->).
    rewrite map_app, list.filter_app, length_app. cbn [map]. rewrite Hw, filter_cons_True by done. cbn [length]. lia. }
  assert (Hl : locked (word s) = 0 \/ locked (word s) = 1) by auto.
  destruct (decide (h = fst a)) as [-> |D].
  - unfold hart_step in E. rewrite Hv in E. rewrite Hs in E. destruct (snd a); try discriminate.
    unfold spin_lock_round, amoswap_w in E. rewrite L in E. injection E as <- <-.
    split; [by rewrite El|]. rewrite E1. split; [exact Hs|]. split; [by exists v|]. exists p, w. by split.
  - split; [|rewrite Ho by done; split; [done|]; split; [by exists v|by exists p, w]].
    rewrite El. destruct (hart_step_holds _ _ _ _ _ _ Hl E) as [[K _]|[(K & _)|(_ & K)]]; [lia|lia|].
    exfalso. apply D. destruct (reach_owned _ _ R) as [[_ O]|[_ (o & _ & O)]]; [rewrite O in Hh; lia|].
    destruct (decide (h = o)) as [-> |N]; [|rewrite O in Hh by done; lia].
    destruct (decide (fst a = o)) as [e|N]; [done|]. rewrite (O _ N) in K. lia.
Qed.

(** ** Witnesses *)

(** Hart 0 holds the lock, hart 1 spins and gets it. *)
Lemma lock_excludes_and_progresses_witness :
  exists s s', reach true s /\ critical (top (harts s 0)) = true /\ (holds (harts s 0) <= 1)%nat /\ (exists l, run true l s = Some s') /\
  exists v, top (harts s' 1) = Critical v.
Proof.
  destruct (run true [(O, ReadStatus); (O, ClearSIE); (O, Swap); (1%nat, ReadStatus); (1%nat, ClearSIE); (1%nat, Swap)] quiet_harts)
    as [s|] eqn:E; [|vm_compute in E; discriminate].
  assert (R : reach true s) by (eapply run_reach; [apply quiet_reach|exact E]).
  assert (H : top (harts s 1) = Spinning 2 /\ critical (top (harts s 0)) = true)
    by (vm_compute in E; injection E as <-; by split).
  destruct H as [H H0]. destruct (lock_excludes_and_progresses s) as [He Hg].
  destruct (proj1 (proj2 (Hg R 1%nat)) 2 H) as (l & s' & _ & Hr & Hc).
  exists s, s'. split; [exact R|]. split; [exact H0|]. split; [exact (proj1 (proj1 (He true R) 0%nat))|]. split; [by exists l|]. by exists 2.
Defined.
