(* ===== verification/UserSys.v ===== *)
(** * The system-call stubs ([user/syscall.c])

    A stub loads the argument registers, traps, and converts the [a0] it finds on
    return.  The registers it does not mention keep the caller's values.  The trap
    of a stub reaches the kernel's handler of the same name, and a call that
    neither blocks nor ends its thread comes back to the stub. *)
From stdpp Require Import base numbers list gmap strings.
From Stdlib Require Import ZArith Lia.
From S2P Require Import Prelude Mem Machine State Kernel Image RunQueue Smp Thread Uart Plic Platform Console Irq Sysfile Trap Boot Invariant ThreadSpec ThreadOps Quiet Syscalls TrapSpec System Demo.

Local Open Scope Z_scope.

(** A stub with a result of type [A]. *)
Record stub (A : Type) := mk_stub { enter : trapframe -> trapframe; leave : Z -> A }.
Arguments mk_stub {A} _ _.
Arguments enter {A} _ _.
Arguments leave {A} _ _.

(** The frame with the first four argument registers set. *)
Definition with_regs (a0 a1 a2 a3 : Z) (f : trapframe) : trapframe :=
  mk_trapframe (f_ra f) (f_sp f) (f_gp f) (f_tp f) (f_t0 f) (f_t1 f) (f_t2 f) (f_s0 f) (f_s1 f)
    a0 a1 a2 a3 (f_a4 f) (f_a5 f) (f_a6 f) (f_a7 f)
    (f_s2 f) (f_s3 f) (f_s4 f) (f_s5 f) (f_s6 f) (f_s7 f) (f_s8 f) (f_s9 f) (f_s10 f) (f_s11 f)
    (f_t3 f) (f_t4 f) (f_t5 f) (f_t6 f) (f_sepc f) (f_sstatus f) (f_scause f) (f_stval f) (f_pad f).
Definition call3 (n a1 a2 a3 : Z) (f : trapframe) : trapframe := with_regs n a1 a2 a3 f.
Definition call2 (n a1 a2 : Z) (f : trapframe) : trapframe := with_regs n a1 a2 (f_a3 f) f.
Definition call1 (n a1 : Z) (f : trapframe) : trapframe := with_regs n a1 (f_a2 f) (f_a3 f) f.
Definition call0 (n : Z) (f : trapframe) : trapframe := with_regs n (f_a1 f) (f_a2 f) (f_a3 f) f.

Definition no_result (a0 : Z) : unit := tt.

(** [write] and [read] return [(int)a0] as an [uint64_t]. *)
Definition write (fd buf len : Z) : stub Z := mk_stub (call3 SYS_WRITE (u64 fd) buf len) (fun a0 => u64 (s32 a0)).
Definition read (fd buf len : Z) : stub Z := mk_stub (call3 SYS_READ (u64 fd) buf len) (fun a0 => u64 (s32 a0)).
Definition sleep (ticks : Z) : stub unit := mk_stub (call1 SYS_SLEEP ticks) no_result.
Definition thread_exit (exit_code : Z) : stub unit := mk_stub (call1 SYS_THREAD_EXIT (u64 exit_code)) no_result.
Definition thread_join (tid status_out : Z) : stub Z := mk_stub (call2 SYS_THREAD_JOIN (u64 tid) status_out) s32.
Definition thread_create (entry arg name : Z) : stub Z := mk_stub (call3 SYS_THREAD_CREATE entry arg name) s32.
Definition thread_list (buf max : Z) : stub Z := mk_stub (call2 SYS_THREAD_LIST buf (u64 max)) s32.
Definition thread_kill (tid : Z) : stub Z := mk_stub (call1 SYS_THREAD_KILL (u64 tid)) s32.
Definition thread_detach (tid : Z) : stub Z := mk_stub (call1 SYS_THREAD_DETACH (u64 tid)) s32.
Definition runqueue_snapshot (buf max : Z) : stub Z := mk_stub (call2 SYS_RUNQUEUE_SNAPSHOT buf max) s32.
Definition clock_gettime (clock_id ts : Z) : stub Z := mk_stub (call2 SYS_CLOCK_GETTIME (u64 clock_id) ts) s32.
Definition irq_get_stats (buf n : Z) : stub Z := mk_stub (call2 SYS_IRQ_GET_STATS buf n) s64.
Definition get_hartid : stub Z := mk_stub (call0 SYS_GET_HARTID) s32.
Definition yield : stub unit := mk_stub (call0 SYS_YIELD) no_result.

(** ** The kernel's side *)

Definition int (v : Z) : Prop := - 2^31 <= v < 2^31.

Section abi.
Context {cfg : Config} {hws : Hardware} {dt : DeviceTree}.
Variables (tf : tf_ptr) (s : kstate) (f : trapframe).

(** The trap frame of the thread holds the registers at the stub's [ecall]. *)
Definition called {A} (st : stub A) : Prop := get_tf tf s = Ret (enter st f, s).

(** What the handler does after it has stepped over the [ecall]. *)
Definition handles (k : M kstate unit) : Prop := syscall_handler tf s = (advance_sepc tf ;; k) s.

End abi.

(** ** There and back *)

Section round_trip.
Context {cfg : Config} {hws : Hardware} {dt : DeviceTree}.
Implicit Types (s : kstate) (q : Z -> list Z) (c : cpu_t) (t : Thread) (g : trapframe).

(** The kernel state in which the handler of a call runs: the frame of the caller
    [i] stepped over the [ecall], the big lock held. *)
Definition in_handler (i : Z) t g (d : dev) s : kstate :=
  k_set_kernel_lock 1 (k_set_hw d (with_thread i (t_set_tf (f_set_sepc (u64 (f_sepc g + 4)) g) t) s)).
(** The state [s1] the handler left, with its result in the caller's frame. *)
Definition handled (i : Z) t g (v : Z) (d : dev) s1 : kstate :=
  k_set_kernel_lock 0 (k_set_hw d (with_thread i (t_set_tf (returned_frame g v) t) s1)).

(** The whole trap of thread [i] with the registers [g] is the handler [h] and
    nothing else: the hart goes on with the caller, whose frame has changed in the
    program counter and [a0] alone; the threads, queues and harts are as before, and
    the rest is as the handler left it.  The trap waits exactly when [h] does. *)
Definition comes_back s (i : Z) t g (h : M kstate Z) : Prop :=
  exists d, match h (in_handler i t g d s) with
  | Ret (v, s1) => k_core s1 = k_core (in_handler i t g d s) /\
      exists d', trap_entry g s = Ret (tt, handled i t g v d' s1)
  | Diverge => trap_entry g s = Diverge
  | Panic | Undef => False
  end.

Lemma kernel_lock_run s :
  k_kernel_lock s = 0 -> exists v d, kernel_lock s = Ret (v, k_set_kernel_lock 1 (k_set_hw d s)).
Proof.
  intros Hl. enough (W : wp kernel_lock (fun _ s' => exists d, s' = k_set_kernel_lock 1 (k_set_hw d s)) s).
  { apply wp_run in W as (v & s' & E & d & ->). by exists v, d. }
  unfold kernel_lock. wp_steps. cbn [k_kernel_lock k_set_hw]. rewrite Hl. wp_steps. eexists. by destruct s.
Qed.
Lemma kernel_unlock_run v s : exists d, kernel_unlock v s = Ret (tt, k_set_hw d (k_set_kernel_lock 0 s)).
Proof.
  enough (W : wp (kernel_unlock v) (fun _ s' => exists d, s' = k_set_hw d (k_set_kernel_lock 0 s)) s).
  { apply wp_run in W as ([] & s' & E & d & ->). by exists d. }
  unfold kernel_unlock. wp_steps. by eexists.
Qed.
Lemma upd_thread_run i f t s :
  thr s i = Some t -> upd_thread i f s = Ret (tt, with_thread i (f t) s).
Proof. unfold upd_thread. by intros ->. Qed.
Lemma get_tf_run i t s : thr s i = Some t -> get_tf (TF_thread i) s = Ret (t_tf t, s).
Proof. intros H. unfold get_tf, bind, get_thread. by rewrite H. Qed.
Lemma cpu_this_run c s : cpu s (k_tp s) = Some c -> cpu_this s = Ret (c, s).
Proof. unfold cpu_this, bind, gets, get_cpu. by intros ->. Qed.

(** The handler's result is stored, and the trap is left. *)
Lemma leave_trap s1 c t i v w g :
  cpu s1 (k_tp s1) = Some c -> c_cur_tf c = TF_thread i -> thr s1 i = Some (t_set_tf g t) ->
  exists d, ((set_a0 (TF_thread i) v) ;;
    c <- cpu_this ;; kernel_unlock w ;; next <- ret (c_cur_tf c) ;; upd_cpu_this (c_set_cur_tf next)) s1 =
  Ret (tt, k_set_kernel_lock 0 (k_set_hw d (with_thread i (t_set_tf (f_set_a0 (u64 v) g) t) s1))).
Proof.
  intros Hc Ec Ht. unfold set_a0. cbn [upd_tf]. rewrite (bind_run _ _ _ _ _ (upd_thread_run _ _ _ _ Ht)).
  set (s2 := with_thread i _ s1). assert (H2 : cpu s2 (k_tp s2) = Some c) by exact Hc.
  rewrite (bind_run _ _ _ _ _ (cpu_this_run _ _ H2)).
  destruct (kernel_unlock_run w s2) as [d E]. rewrite (bind_run _ _ _ _ _ E).
  set (s3 := k_set_hw d _). assert (H3 : cpu s3 (k_tp s3) = Some c) by exact Hc. exists d.
  assert (W : wp (upd_cpu_this (c_set_cur_tf (c_cur_tf c))) (fun _ s' => s' = s3) s3).
  { apply (wp_upd_cpu_this _ c); [done|]. replace (c_set_cur_tf (c_cur_tf c) c) with c by (by destruct c).
    by apply with_cpu_same. }
  apply wp_run in W as ([] & s' & E' & ->). unfold bind at 1, ret at 1. rewrite E'. done.
Qed.

(** A call whose handler keeps to itself: it panics and loses nothing, and leaves
    threads, queues and harts alone. *)
Definition keeps_to_itself (h : M kstate Z) : Prop :=
  forall s q c t, running s q c t -> devs_ok s -> wnp h (fun _ s' => side s s') s.

Lemma calm_keeps h : calm h -> keeps_to_itself h.
Proof. intros Hm s q c t Hr Hd. apply Hm. by eapply running_good. Qed.
Lemma snapshot_keeps b n : keeps_to_itself (sys_runqueue_snapshot b n).
Proof.
  intros s q c t [Hi _ _ _] Hd. apply wp_wnp. eapply wp_mono; [by apply (snapshot_umem s q)|].
  intros _ s' [m ->]. by split.
Qed.

(** The way in: from the trap to the handler. *)
Lemma enter_handler s q c t g h :
  running s q c t -> devs_ok s -> k_kernel_lock s = 0 -> f_scause g = EXC_ENV_CALL_U ->
  (forall tf s', get_tf tf s' = Ret (g, s') ->
     syscall_handler tf s' = (advance_sepc tf ;; r <- h ;; set_a0 tf r) s') ->
  exists w d, let s3 := in_handler (c_current_tid c) t g d s in
    running s3 q c (t_set_tf (f_set_sepc (u64 (f_sepc g + 4)) g) t) /\ devs_ok s3 /\
    trap_entry g s = (r <- h ;; set_a0 (c_cur_tf c) r ;;
      c <- cpu_this ;; kernel_unlock w ;; next <- ret (c_cur_tf c) ;; upd_cpu_this (c_set_cur_tf next)) s3.
Proof.
  intros Hr Hd Hl Hg Hh. pose proof Hr as [Hi Hc Hv Ht].
  destruct (running_facts _ _ _ _ Hr) as (_ & _ & _ & Ef & _). set (i := c_current_tid c) in *.
  set (s1 := with_thread i (t_set_tf g t) s).
  destruct (kernel_lock_run s1 Hl) as (w & d & El). exists w, d. set (s2 := k_set_kernel_lock 1 _) in El.
  assert (H2 : thr s2 i = Some (t_set_tf g t)) by apply thr_with_thread_eq.
  assert (E3 : with_thread i (t_set_tf (f_set_sepc (u64 (f_sepc g + 4)) g) t) s2 = in_handler i t g d s).
  { apply kstate_ext; try done. apply core_ext; try done. apply insert_insert_eq. }
  cbv zeta. split; [|split; [exact Hd|]].
  - rewrite <- E3. assert (Hr1 : running s1 q c (t_set_tf g t)).
    { pose proof (running_thread s q c t i t (t_set_tf g t) Hr Ht eq_refl) as H. by rewrite decide_True in H. }
    assert (Hr2 : running s2 q c (t_set_tf g t)).
    { destruct Hr1 as [I C V T]. split; try done. by apply (inv_x_state none s1). }
    pose proof (running_thread s2 q c _ i _ (t_set_tf (f_set_sepc (u64 (f_sepc g + 4)) g) t) Hr2 H2 eq_refl) as H.
    by rewrite decide_True in H.
  - unfold trap_entry. rewrite (bind_run _ _ _ _ _ (cpu_this_run _ _ Hc)), Ef, bool_decide_eq_false_2 by done.
    cbn [upd_tf]. rewrite (bind_run _ _ _ _ _ (upd_thread_run _ _ _ _ Ht)). fold s1.
    unfold trap_entry_c. unfold bind at 1. rewrite (bind_run _ _ _ _ _ El).
    pose proof (get_tf_run i _ s2 H2) as Et. change (t_tf (t_set_tf g t)) with g in Et.
    rewrite (bind_run _ _ _ _ _ Et). cbv zeta. rewrite Hg.
    change (scause_is_interrupt EXC_ENV_CALL_U) with false. change (scause_code EXC_ENV_CALL_U) with EXC_ENV_CALL_U.
    cbv iota. unfold handle_exception. rewrite Z.eqb_refl. unfold bind at 1. rewrite (Hh _ _ Et).
    unfold advance_sepc. cbn [upd_tf]. rewrite (bind_run _ _ _ _ _ (upd_thread_run _ _ _ _ H2)).
    change (t_tf (t_set_tf g t)) with g. change (t_set_tf ?a (t_set_tf g t)) with (t_set_tf a t). rewrite E3.
    unfold bind, ret. destruct (h _) as [[v s4]| | |]; try done.
    destruct (set_a0 (TF_thread i) v s4) as [[[] s5]| | |]; try done.
    by destruct (cpu_this s5) as [[c' s6]| | |].
Qed.

Lemma quick_returns s q c t g h :
  running s q c t -> devs_ok s -> k_kernel_lock s = 0 -> f_scause g = EXC_ENV_CALL_U ->
  (forall tf s', get_tf tf s' = Ret (g, s') ->
     syscall_handler tf s' = (advance_sepc tf ;; r <- h ;; set_a0 tf r) s') ->
  keeps_to_itself h -> comes_back s (c_current_tid c) t g h.
Proof.
  intros Hr Hd Hl Hg Hh Hk. destruct (enter_handler s q c t g h Hr Hd Hl Hg Hh) as (w & d & Hr3 & Hd3 & E).
  exists d. pose proof (Hk _ _ _ _ Hr3 Hd3) as W. unfold wnp in W.
  unfold bind at 1 in E. destruct (h _) as [[v s1]| | |]; try done.
  pose proof (side_running _ _ _ _ _ W Hr3) as Hr1. split; [apply W|].
  destruct (running_facts _ _ _ _ Hr1) as (_ & _ & _ & Ef & _). rewrite Ef in E.
  destruct (leave_trap s1 c t _ v w (f_set_sepc (u64 (f_sepc g + 4)) g) (rn_cpu _ _ _ _ Hr1) Ef (rn_thr _ _ _ _ Hr1)) as [d' E'].
  exists d'. by rewrite E, E'.
Qed.

End round_trip.

Ltac reaches :=
  intros Hcall; unfold handles, syscall_handler; unfold bind at 1; rewrite Hcall;
  cbn -[s32 u64 SYS_SLEEP]; rewrite ?s32_u64_small by done; reflexivity.

(** The registers a stub loads are the ones the dispatcher takes the call from. *)
Lemma stub_handlers {cfg : Config} {hws : Hardware} {dt : DeviceTree} tf s f a b c n :
  int n ->
  (called tf s f (write n b c) -> handles tf s (r <- sys_write n b c ;; set_a0 tf r)) /\
  (called tf s f (read n b c) ->
     handles tf s (r <- sys_read n b c tf ;; when (snd r) (set_a0 tf (fst r)))) /\
  (called tf s f (sleep a) -> handles tf s (thread_sys_sleep tf a)) /\
  (called tf s f (thread_exit n) -> handles tf s (thread_sys_exit tf n)) /\
  (called tf s f (thread_join n b) -> handles tf s (thread_sys_join tf n b)) /\
  (called tf s f (thread_create a b c) -> handles tf s (thread_sys_create tf a b c)) /\
  (called tf s f (thread_list a n) -> handles tf s (r <- thread_sys_list a n ;; set_a0 tf r)) /\
  (called tf s f (thread_kill n) -> handles tf s (thread_sys_kill tf n)) /\
  (called tf s f (thread_detach n) -> handles tf s (thread_sys_detach tf n)) /\
  (called tf s f (runqueue_snapshot a b) -> handles tf s (r <- sys_runqueue_snapshot a b ;; set_a0 tf r)) /\
  (called tf s f (clock_gettime n b) -> handles tf s (r <- sys_clock_gettime n b ;; set_a0 tf r)) /\
  (called tf s f (irq_get_stats a b) -> handles tf s (r <- sys_irq_get_stats a b ;; set_a0 tf r)) /\
  (called tf s f get_hartid -> handles tf s (h <- cpu_current_hartid ;; set_a0 tf h)) /\
  (called tf s f yield -> handles tf s (thread_sys_yield tf)).
Proof. intros Hn. repeat split; reaches. Qed.

(** What [set_a0] stores for an [int] result is what the stub returns; for [write]
    and [read] as a 64-bit unsigned number. *)
Lemma stub_results n :
  int n ->
  (forall tid p, leave (thread_join tid p) (u64 n) = n) /\ (forall e x p, leave (thread_create e x p) (u64 n) = n) /\
  (forall tid, leave (thread_kill tid) (u64 n) = n) /\ (forall tid, leave (thread_detach tid) (u64 n) = n) /\
  (forall b m, leave (thread_list b m) (u64 n) = n) /\ (forall b m, leave (runqueue_snapshot b m) (u64 n) = n) /\
  (forall c t, leave (clock_gettime c t) (u64 n) = n) /\ leave get_hartid (u64 n) = n /\
  (forall fd b m, leave (write fd b m) (u64 n) = u64 n) /\ (forall fd b m, leave (read fd b m) (u64 n) = u64 n).
Proof. intros Hn. repeat split; intros; cbn [leave write read]; by rewrite s32_u64_small. Qed.

(** C30: the registers every stub loads are the ones the kernel's dispatcher
    takes the call and its arguments from, sign extension included, so that a stub
    reaches its own handler with the arguments it was given.  For the calls that
    neither block nor end their thread the whole trap, from the [ecall] of a running
    thread to its return, is the handler between a step over the [ecall] and the
    result in [a0]: whatever the hardware does, nothing is lost, no other register
    and no thread, queue or hart changes, the lock is free again, and the caller
    goes on; and what the stub then returns is the handler's result. *)
Theorem stubs_reach_handlers {cfg : Config} {hws : Hardware} {dt : DeviceTree} tf s f a b c n :
  int n ->
  ((called tf s f (write n b c) -> handles tf s (r <- sys_write n b c ;; set_a0 tf r)) /\
  (called tf s f (read n b c) ->
     handles tf s (r <- sys_read n b c tf ;; when (snd r) (set_a0 tf (fst r)))) /\
  (called tf s f (sleep a) -> handles tf s (thread_sys_sleep tf a)) /\
  (called tf s f (thread_exit n) -> handles tf s (thread_sys_exit tf n)) /\
  (called tf s f (thread_join n b) -> handles tf s (thread_sys_join tf n b)) /\
  (called tf s f (thread_create a b c) -> handles tf s (thread_sys_create tf a b c)) /\
  (called tf s f (thread_list a n) -> handles tf s (r <- thread_sys_list a n ;; set_a0 tf r)) /\
  (called tf s f (thread_kill n) -> handles tf s (thread_sys_kill tf n)) /\
  (called tf s f (thread_detach n) -> handles tf s (thread_sys_detach tf n)) /\
  (called tf s f (runqueue_snapshot a b) -> handles tf s (r <- sys_runqueue_snapshot a b ;; set_a0 tf r)) /\
  (called tf s f (clock_gettime n b) -> handles tf s (r <- sys_clock_gettime n b ;; set_a0 tf r)) /\
  (called tf s f (irq_get_stats a b) -> handles tf s (r <- sys_irq_get_stats a b ;; set_a0 tf r)) /\
  (called tf s f get_hartid -> handles tf s (h <- cpu_current_hartid ;; set_a0 tf h)) /\
  (called tf s f yield -> handles tf s (thread_sys_yield tf))) /\
  (forall q k t, running s q k t -> devs_ok s -> k_kernel_lock s = 0 -> f_scause f = EXC_ENV_CALL_U ->
     let back st h := comes_back s (c_current_tid k) t (enter st f) h in
     back (write n b c) (sys_write n b c) /\ back (thread_list a n) (thread_sys_list a n) /\
     back (runqueue_snapshot a b) (sys_runqueue_snapshot a b) /\
     back (clock_gettime n b) (sys_clock_gettime n b) /\
     back (irq_get_stats a b) (sys_irq_get_stats a b) /\ back get_hartid cpu_current_hartid) /\
  (forall v, int v ->
     let result st := leave st (f_a0 (returned_frame f v)) in
     result (write n b c) = u64 v /\ result (read n b c) = u64 v /\ result (thread_join n b) = v /\
     result (thread_create a b c) = v /\ result (thread_kill n) = v /\ result (thread_detach n) = v /\
     result (thread_list a n) = v /\ result (runqueue_snapshot a b) = v /\
     result (clock_gettime n b) = v /\ result get_hartid = v).
Proof.
  intros Hn. split; [by apply stub_handlers|]. split.
  - intros q k t Hr Hd Hl Hf back.
    assert (Hq : forall (st : stub Z) h, (forall tf' s', called tf' s' f st -> handles tf' s' (r <- h ;; set_a0 tf' r)) ->
      f_scause (enter st f) = f_scause f -> keeps_to_itself h -> back st h).
    { intros st h Hh Ef Hk. apply (quick_returns s q k t); try done. by rewrite Ef. }
    repeat split; apply Hq; try done; try apply (fun tf' s' => stub_handlers tf' s' f a b c n Hn);
      auto using calm_keeps, snapshot_keeps, calm_sys_write, calm_list, calm_clock_gettime, calm_irq_get_stats, calm_hartid.
  - intros v Hv result. destruct (stub_results v Hv) as (H1 & H2 & H3 & H4 & H5 & H6 & H7 & H8 & H9 & H10).
    unfold result, returned_frame. cbn [f_a0 f_set_a0]. split_and!; auto.
Qed.

(** The first user thread of [Demo] asks for its hart. *)
Lemma stubs_reach_handlers_witness :
  exists t, comes_back demo_two 2 t (enter get_hartid (ecall 0 0 0 0)) cpu_current_hartid /\
    returns (trap_entry (enter get_hartid (ecall 0 0 0 0)) demo_two) = true.
Proof.
  destruct demo_running as [q Hr]. exists (thr_at demo_two 2). split; [|vm_compute; reflexivity].
  destruct (reachable_ok _ demo_two_reachable) as [_ Hd Hl].
  destruct (stubs_reach_handlers TF_bootstrap demo_two (ecall 0 0 0 0) 0 0 0 0 ltac:(split; reflexivity || lia))
    as (_ & H & _).
  rewrite <- demo_current. apply (H q _ _ Hr Hd Hl eq_refl).
Defined.
