(* ===== verification/UserEnv.v ===== *)
(** * User programs: their state and their system calls

    The user threads ([user/shell.c], [spawn.c], [monitor.c], [main.c]) share one
    address space.  A piece of user code is a state transformer over the shared
    globals; what the kernel answers, and what the other user threads do to the
    globals while a call lasts, is the class [UserKernel].  [thread_exit] ends a
    thread with its code. *)
From stdpp Require Import base numbers list gmap strings.
From Stdlib Require Import ZArith Lia.
From S2P Require Import Prelude Mem CString Stdio.

Local Open Scope Z_scope.

(** The functions threads are created with. *)
Inductive thread_entry : Type := shell_thread_entry | shell_cmd_worker_entry | spawn_worker_entry | monitor_main_entry.

(** [struct u_thread_info], [struct rq_state], [struct irqstat_user]: the fields
    that are read. *)
Record u_thread_info := {
  ti_tid : Z; ti_state : Z; ti_is_user : Z; ti_name : list Z;
  ti_cpu : Z; ti_last_hart : Z; ti_migrations : Z; ti_runs : Z
}.
Record rq_state := { rs_hart : Z; rs_len : Z; rs_tids : list Z }.
Record irqstat_user := { iq_irq : Z; iq_count : Z; iq_last_tick : Z; iq_max_delta : Z; iq_name : list Z }.

(** What was asked of the kernel, in order; output is kept apart. *)
Inductive call : Type :=
| CSleep (ticks : Z)
| CCreate (entry : thread_entry) (arg : Z) (name : list Z)
| CJoin (tid : Z)
| CKill (tid : Z).

(** The file-scope variables of the user programs.  A [char] array that holds a
    string is the string. *)
Record ShellProc := { in_use : Z; pr_line : list Z }.

Inductive spawn_mode_t : Type := SPAWN_MODE_SPIN | SPAWN_MODE_YIELD | SPAWN_MODE_SLEEP.
Definition spawn_mode_code (m : spawn_mode_t) : Z :=
  match m with SPAWN_MODE_SPIN => 0 | SPAWN_MODE_YIELD => 1 | SPAWN_MODE_SLEEP => 2 end.
Record spawn_cfg_t := {
  sc_wid : Z; sc_tid : Z; sc_mode : spawn_mode_t; sc_work_loops : Z; sc_sleep_ticks : Z;
  sc_print_every : Z; sc_last_hart : Z; sc_migrations : Z; sc_prints : Z
}.
Record mon_ctx_t := { mo_used : Z; mo_tid : Z; mo_seq : Z; mo_period : Z; mo_remaining : Z; mo_flags : Z }.

Record ustate := mk_ustate {
  g_procs : list ShellProc;
  s_spawn_cfg : list spawn_cfg_t;
  s_spawn_active : Z;
  s_spawn_inited : Z;
  g_mons : list mon_ctx_t;
  u_input : list rd;              (* what the next reads of stdin return *)
  u_output : list Z;              (* what was written to stdout *)
  u_calls : list call
}.

Definition set_procs (v : list ShellProc) (s : ustate) : ustate :=
  mk_ustate v (s_spawn_cfg s) (s_spawn_active s) (s_spawn_inited s) (g_mons s) (u_input s) (u_output s) (u_calls s).
Definition set_spawn (v : list spawn_cfg_t) (n i : Z) (s : ustate) : ustate :=
  mk_ustate (g_procs s) v n i (g_mons s) (u_input s) (u_output s) (u_calls s).
Definition set_spawn_cfg (v : list spawn_cfg_t) (s : ustate) : ustate :=
  set_spawn v (s_spawn_active s) (s_spawn_inited s) s.
Definition set_spawn_active (n : Z) (s : ustate) : ustate := set_spawn (s_spawn_cfg s) n (s_spawn_inited s) s.
Definition set_mons (v : list mon_ctx_t) (s : ustate) : ustate :=
  mk_ustate (g_procs s) (s_spawn_cfg s) (s_spawn_active s) (s_spawn_inited s) v (u_input s) (u_output s) (u_calls s).
Definition set_input (v : list rd) (s : ustate) : ustate :=
  mk_ustate (g_procs s) (s_spawn_cfg s) (s_spawn_active s) (s_spawn_inited s) (g_mons s) v (u_output s) (u_calls s).
Definition add_output (l : list Z) (s : ustate) : ustate :=
  mk_ustate (g_procs s) (s_spawn_cfg s) (s_spawn_active s) (s_spawn_inited s) (g_mons s) (u_input s) (u_output s ++ l) (u_calls s).
Definition add_call (c : call) (s : ustate) : ustate :=
  mk_ustate (g_procs s) (s_spawn_cfg s) (s_spawn_active s) (s_spawn_inited s) (g_mons s) (u_input s) (u_output s) (u_calls s ++ [c]).

(** The zeroed globals. *)
Definition user_image : ustate :=
  mk_ustate (replicate 4 {| in_use := 0; pr_line := [] |})
    (replicate 16 {| sc_wid := 0; sc_tid := 0; sc_mode := SPAWN_MODE_SPIN; sc_work_loops := 0; sc_sleep_ticks := 0;
                     sc_print_every := 0; sc_last_hart := 0; sc_migrations := 0; sc_prints := 0 |})
    0 0 (replicate 4 {| mo_used := 0; mo_tid := 0; mo_seq := 0; mo_period := 0; mo_remaining := 0; mo_flags := 0 |})
    [] [] [].

(** ** The kernel as user code sees it *)

Class UserKernel := {
  uk_write : list Z -> ustate -> Z * ustate;
  uk_sleep : Z -> ustate -> ustate;
  uk_create : thread_entry -> Z -> list Z -> ustate -> Z * ustate;
  uk_join : Z -> ustate -> Z * option Z * ustate;          (* result, and the status when it is stored *)
  uk_kill : Z -> ustate -> Z * ustate;
  uk_list : ustate -> Z * list u_thread_info;
  uk_snapshot : ustate -> Z * list rq_state;
  uk_clock : Z -> ustate -> Z * option (Z * Z);           (* result, and the time when it is stored *)
  uk_irqs : ustate -> Z * list irqstat_user;
  uk_hartid : ustate -> Z;
  uk_current : ustate -> Z                                (* [thread_current()] *)
}.

(** ** The monad: a result, or the exit of the thread *)

Definition U (A : Type) : Type := M ustate (A + Z).

Definition uret {A} (a : A) : U A := ret (inl a).
Definition ubind {A B} (m : U A) (k : A -> U B) : U B :=
  bind m (fun r => match r with inl a => k a | inr code => ret (inr code) end).
Definition thread_exit_u {A} (code : Z) : U A := ret (inr code).
Definition uget {A} (f : ustate -> A) : U A := bind (gets f) uret.
Definition uput (f : ustate -> ustate) : U unit := bind (modify f) uret.
Definition uundef {A} : U A := undefined.

Declare Scope user_scope.
Delimit Scope user_scope with user.
Notation "x <~ m ;; k" := (ubind m (fun x => k))
  (at level 100, m at next level, right associativity) : user_scope.
Notation "m ;~ k" := (ubind m (fun _ => k))
  (at level 100, right associativity) : user_scope.
Open Scope user_scope.

Lemma ubind_assoc {A B C} (m : U A) (f : A -> U B) (g : B -> U C) s :
  ubind (ubind m f) g s = ubind m (fun x => ubind (f x) g) s.
Proof. unfold ubind, bind. by destruct (m s) as [[[a|c] s']| | |]. Qed.

(** [for (i = 0; i < n; ++i)] over the elements of a list. *)
Fixpoint ufor {A} (l : list A) (body : A -> U unit) : U unit :=
  match l with [] => uret tt | x :: l => body x ;~ ufor l body end.

(** The string in a [char] array. *)
Fixpoint c_string (l : list Z) : list Z :=
  match l with [] => [] | c :: l => if c =? 0 then [] else c :: c_string l end.

Section calls.
Context {K : UserKernel}.

Definition usleep (ticks : Z) : U unit := uput (fun s => uk_sleep ticks (add_call (CSleep ticks) s)).
Definition ucreate (entry : thread_entry) (arg : Z) (name : list Z) : U Z :=
  fun s => let '(tid, s) := uk_create entry arg name (add_call (CCreate entry arg name) s) in Ret (inl tid, s).
(** [thread_join(tid, &status)] with [status] 0 before. *)
Definition ujoin (tid : Z) : U (Z * Z) :=
  fun s => let '(rc, st, s) := uk_join tid (add_call (CJoin tid) s) in Ret (inl (rc, default 0 st), s).
Definition ukill (tid : Z) : U Z := fun s => let '(rc, s) := uk_kill tid (add_call (CKill tid) s) in Ret (inl rc, s).
Definition uwrite (l : list Z) : U Z := fun s => let '(rc, s) := uk_write l (add_output l s) in Ret (inl rc, s).

(** ** Output ([ulib_stdio.c]) *)

Definition write_all (buf : list Z) : U Z := rc <~ uwrite buf ;; uret (s32 rc).
Definition u_putchar (c : Z) : U Z := rc <~ write_all [u8 c] ;; uret (if rc =? 1 then c else -1).
Definition u_puts (s : list Z) : U Z :=
  rc1 <~ write_all s ;; rc2 <~ write_all [10] ;;
  uret (if (rc1 <? 0) || (rc2 <? 0) then -1 else s32 (Z.of_nat (length s) + 1)).
Definition puts (s : string) : U unit := u_puts (bytes_of_string s) ;~ uret tt.

(** [u_printf]; what it passes to [write] is computed in [Stdio]. *)
Definition uprintf (fmt : string) (ap : list va_value) : U unit :=
  match u_printf (replicate 256 0) (bytes_of_string fmt) ap with
  | None => uundef
  | Some (out, n) => if 0 <? n then write_all out ;~ uret tt else uret tt
  end.
Definition uprint (fmt : string) : U unit := uprintf fmt [].
(** [u_snprintf(buf, size, ...)]: the string left in [buf]. *)
Definition usnprintf (size : nat) (fmt : string) (ap : list va_value) : U (list Z) :=
  match u_snprintf (replicate size 0) size (bytes_of_string fmt) ap with
  | Some (buf, _) => uret (c_string buf)
  | None => uundef
  end.

(** [u_gets(line, size)]: the line, or the code it returns; the echo is written. *)
Definition ugets (size : Z) : U (list Z + Z) :=
  input <~ uget u_input ;;
  match u_gets (S (length input)) false size input with
  | None => diverge
  | Some (GotLine line echo input) => uput (set_input input) ;~ ufor echo (fun c => u_putchar c ;~ uret tt) ;~ uret (inl line)
  | Some (GotCode code echo input) => uput (set_input input) ;~ ufor echo (fun c => u_putchar c ;~ uret tt) ;~ uret (inr code)
  end.

End calls.

(** ** A format and arguments of the right kinds always print *)

Inductive kind : Type := KNum | KStr.
Definition kind_of (v : va_value) : kind := match v with VaNum _ => KNum | VaStr _ => KStr end.
(** The one number that cannot be printed as a [long long]. *)
Definition worst (k : kind) : va_value := match k with KNum => VaNum (- 2^63) | KStr => VaStr None end.

Fixpoint fmt_ok (fuel : nat) (fmt : list Z) (ks : list kind) : bool :=
  match fuel with
  | O => false
  | S f =>
    match fmt with
    | [] => true
    | c :: rest =>
      if negb (c =? 37) then fmt_ok f rest ks else
      match parse_directive rest (map worst ks) with
      | Emit _ fmt ap => fmt_ok f fmt (map kind_of ap)
      | Stop => true
      | Undefined => false
      end
    end
  end.

Lemma itoa_unsigned v base : exists s, u_itoa v base false = Some s.
Proof. unfold u_itoa. cbn [andb]. by eexists. Qed.
Lemma itoa_signed len v base s :
  u_itoa (va_signed len (- 2^63)) base true = Some s -> exists s', u_itoa (va_signed len v) base true = Some s'.
Proof.
  intros H. unfold u_itoa. destruct len; [|discriminate H..]. cbn [va_signed].
  rewrite (proj2 (Z.eqb_neq _ _)); [rewrite andb_false_r; by eexists|].
  pose proof (s32_range v). lia.
Qed.

Lemma of_itoa_some r f zp ap s z a :
  of_itoa r f zp ap = Text s z a -> exists x, r = Some x /\ z = zp /\ a = ap.
Proof. destruct r as [x|]; [|done]. intros [= <- <- <-]. by exists x. Qed.

(** What a conversion does to the arguments depends on their kinds only. *)
Lemma convert_kinds spec len zp ap :
  match convert spec len zp (map worst (map kind_of ap)) with
  | Text _ _ r => exists s z r', convert spec len zp ap = Text s z r' /\ map kind_of r' = map kind_of r
  | Unsupported => convert spec len zp ap = Unsupported
  | BadArg => True
  end.
Proof.
  unfold convert. destruct (spec =? 99); [|destruct (spec =? 115); [|destruct ((spec =? 100) || (spec =? 105));
    [|destruct ((spec =? 117) || (spec =? 120) || (spec =? 88)); [|destruct (spec =? 112)]]]];
    destruct ap as [|[v|o] ap]; try done; cbn [map kind_of worst];
    assert (K : map kind_of (map worst (map kind_of ap)) = map kind_of ap)
      by (rewrite !map_map; apply map_ext; by intros []).
  - by eexists _, _, _.
  - by eexists _, _, _.
  - destruct (u_itoa (va_signed len (- 2^63)) 10 true) as [s|] eqn:E; [|done]. cbn [of_itoa].
    destruct (itoa_signed len v 10 s E) as [s' ->]. by eexists _, _, _.
  - destruct (itoa_unsigned (s64 (va_unsigned len v)) (if spec =? 117 then 10 else 16)) as [s ->].
    destruct (itoa_unsigned (s64 (va_unsigned len (- 2^63))) (if spec =? 117 then 10 else 16)) as [s' ->].
    by eexists _, _, _.
  - destruct (itoa_unsigned (s64 (u64 v)) 16) as [s ->].
    destruct (itoa_unsigned (s64 (u64 (- 2^63))) 16) as [s' ->]. by eexists _, _, _.
Qed.

Lemma directive_kinds fmt ap :
  match parse_directive fmt (map worst (map kind_of ap)) with
  | Emit _ f r => exists o r', parse_directive fmt ap = Emit o f r' /\ map kind_of r' = map kind_of r
  | Stop => parse_directive fmt ap = Stop
  | Undefined => True
  end.
Proof.
  unfold parse_directive. destruct fmt as [|c rest]; [done|].
  destruct (c =? 37).
  { exists [37], ap. split; [done|]. rewrite !map_map. apply map_ext. by intros []. }
  destruct (parse_flags (c :: rest) false false) as [[la zp] f1]. destruct (parse_width f1 0) as [w f2].
  destruct (parse_length (skip_precision f2)) as [len f3]. destruct f3 as [|spec f3]; [done|].
  pose proof (convert_kinds spec len zp ap) as H.
  destruct (convert spec len zp (map worst (map kind_of ap))) as [s z r| |]; [|rewrite H|done].
  - destruct H as (s' & z' & r' & -> & H). by eexists _, _.
  - exists [37; spec], ap. split; [done|]. rewrite !map_map. apply map_ext. by intros [].
Qed.

Lemma format_kinds fuel fmt ap : fmt_ok fuel fmt (map kind_of ap) = true -> exists out, format fuel fmt ap = Some out.
Proof.
  revert fmt ap. induction fuel as [|f IH]; intros fmt ap; cbn [fmt_ok format]; [done|].
  destruct fmt as [|c rest]; [by eexists|]. destruct (negb (c =? 37)).
  - intros H. destruct (IH _ _ H) as [o ->]. by eexists.
  - pose proof (directive_kinds rest ap) as D.
    destruct (parse_directive rest (map worst (map kind_of ap))) as [o fmt' ap'| |]; [|rewrite D; by eexists|done].
    destruct D as (o' & r' & -> & K). rewrite <- K. intros H. destruct (IH _ _ H) as [o2 ->]. by eexists.
Qed.

Lemma u_vsnprintf_some size fmt ap :
  (0 < size)%nat -> fmt_ok (S (length fmt)) fmt (map kind_of ap) = true ->
  exists buf n, u_vsnprintf (replicate size 0) size fmt ap = Some (buf, n).
Proof.
  intros Hs H. destruct (format_kinds _ _ _ H) as [out E].
  unfold u_vsnprintf. rewrite (proj2 (Nat.ltb_lt 0 size) Hs). cbv beta iota zeta.
  assert (HL : (size - 1 <= length (replicate size 0%Z))%nat) by (rewrite length_replicate; lia).
  pose proof (vsnprintf_loop_format _ _ _ _ [] _ _ HL E) as V. unfold emitted at 1 in V.
  replace (written (size - 1) [] (replicate size 0)) with (replicate size 0) in V
    by (unfold written; by rewrite take_nil).
  cbn [length] in V. rewrite V. unfold emitted, buf_write. cbn [o_pos o_buf app].
  rewrite written_length by done. rewrite length_replicate.
  rewrite (proj2 (Nat.ltb_lt _ _)); [by eexists _, _|]. destruct (_ <=? _)%nat eqn:L; [apply Nat.leb_le in L|]; lia.
Qed.

Lemma u_printf_some fmt ap :
  fmt_ok (S (length fmt)) fmt (map kind_of ap) = true -> exists out n, u_printf (replicate 256 0) fmt ap = Some (out, n).
Proof.
  intros H. destruct (u_vsnprintf_some 256 fmt ap ltac:(lia) H) as (buf & n & E).
  unfold u_printf. rewrite E. by eexists _, _.
Qed.

(** ** Rules *)

(** Total correctness: the code returns, or ends the thread with a code. *)
Definition uwp {A} (m : U A) (Q : A -> ustate -> Prop) (E : Z -> ustate -> Prop) (s : ustate) : Prop :=
  wp m (fun r s' => match r with inl a => Q a s' | inr code => E code s' end) s.

Section rules.
Context {A B : Type} (E : Z -> ustate -> Prop).

Lemma uwp_ret (a : A) (Q : A -> ustate -> Prop) s : Q a s -> uwp (uret a) Q E s.
Proof. done. Qed.
Lemma uwp_bind (m : U A) (k : A -> U B) (Q : B -> ustate -> Prop) s :
  uwp m (fun a s' => uwp (k a) Q E s') E s -> uwp (ubind m k) Q E s.
Proof.
  unfold uwp, ubind. intros H. apply wp_bind. eapply wp_mono; [exact H|]. intros [a|c] s' H'; exact H'.
Qed.
Lemma uwp_mono (m : U A) (Q Q' : A -> ustate -> Prop) s :
  uwp m Q E s -> (forall a s', Q a s' -> Q' a s') -> uwp m Q' E s.
Proof. intros H HQ. eapply wp_mono; [exact H|]. intros [a|c] s' H'; auto. Qed.
Lemma uwp_get (f : ustate -> A) (Q : A -> ustate -> Prop) s : Q (f s) s -> uwp (uget f) Q E s.
Proof. done. Qed.
Lemma uwp_put (f : ustate -> ustate) (Q : unit -> ustate -> Prop) s : Q tt (f s) -> uwp (uput f) Q E s.
Proof. done. Qed.
Lemma uwp_for {X} (l : list X) body (I : ustate -> Prop) s :
  I s -> (forall x s, x ∈ l -> I s -> uwp (body x) (fun _ => I) E s) -> uwp (ufor l body) (fun _ => I) E s.
Proof.
  revert s. induction l as [|x l IH]; intros s Hs Hb; [exact Hs|]. cbn [ufor]. unfold ubind, uwp.
  apply wp_bind. eapply wp_mono; [apply (Hb x s); [constructor|exact Hs]|]. intros [[]|c] s' H'; [|exact H'].
  apply IH; [exact H'|]. intros y s1 Hy. apply Hb. by constructor.
Qed.
Lemma uwp_exit code (Q : A -> ustate -> Prop) s : E code s -> uwp (thread_exit_u code) Q E s.
Proof. done. Qed.
End rules.

(** What other threads leave alone during a call, as a view of the globals. *)
Record isolated {K : UserKernel} {V} (view : ustate -> V) : Prop := {
  iso_write l s : view (snd (uk_write l s)) = view s;
  iso_sleep t s : view (uk_sleep t s) = view s;
  iso_create e a n s : view (snd (uk_create e a n s)) = view s;
  iso_join t s : view (snd (uk_join t s)) = view s;
  iso_kill t s : view (snd (uk_kill t s)) = view s;
  iso_output l s : view (add_output l s) = view s
}.

Section output.
Context {K : UserKernel} {V : Type} (view : ustate -> V) (Hv : isolated view) (E : Z -> ustate -> Prop).

(** Output returns and keeps the view. *)
Definition prints (m : U unit) : Prop := forall s, uwp m (fun _ s' => view s' = view s) E s.

Lemma write_all_keeps l s : uwp (write_all l) (fun _ s' => view s' = view s) E s.
Proof.
  unfold write_all. apply uwp_bind. unfold uwp, wp, uwrite.
  destruct (uk_write l (add_output l s)) as [rc s'] eqn:W. cbn.
  pose proof (iso_write _ Hv l (add_output l s)) as H. rewrite W in H. cbn in H.
  by rewrite H, (iso_output _ Hv).
Qed.

Lemma prints_ret : prints (uret tt).
Proof. by intros s. Qed.
Lemma prints_seq m k : prints m -> prints k -> prints (m ;~ k).
Proof.
  intros Hm Hk s. apply uwp_bind. eapply uwp_mono; [apply Hm|]. intros [] s1 E1.
  eapply uwp_mono; [apply Hk|]. intros [] s2 E2. by rewrite E2.
Qed.
Lemma prints_write_all l : prints (write_all l ;~ uret tt).
Proof. intros s. apply uwp_bind. eapply uwp_mono; [apply write_all_keeps|]. by intros rc s1. Qed.
Lemma prints_puts str : prints (puts str).
Proof.
  intros s. unfold puts, u_puts. do 2 apply uwp_bind.
  eapply uwp_mono; [apply write_all_keeps|]. intros rc1 s1 E1. apply uwp_bind.
  eapply uwp_mono; [apply write_all_keeps|]. intros rc2 s2 E2. apply uwp_ret. apply uwp_ret. congruence.
Qed.
Lemma prints_printf str ap :
  fmt_ok (S (length (bytes_of_string str))) (bytes_of_string str) (map kind_of ap) = true -> prints (uprintf str ap).
Proof.
  intros H s. unfold uprintf. destruct (u_printf_some _ _ H) as (out & n & ->).
  destruct (0 <? n); [apply prints_write_all|done].
Qed.
Lemma snprintf_keeps size str ap s :
  (0 < size)%nat -> fmt_ok (S (length (bytes_of_string str))) (bytes_of_string str) (map kind_of ap) = true ->
  uwp (usnprintf size str ap) (fun _ s' => s' = s) E s.
Proof.
  intros Hs H. unfold usnprintf, u_snprintf. destruct (u_vsnprintf_some size _ _ Hs H) as (buf & n & ->). done.
Qed.
Lemma prints_for {B} (l : list B) body : (forall x, prints (body x)) -> prints (ufor l body).
Proof. intros H. induction l as [|x l IH]; [apply prints_ret|]. by apply prints_seq. Qed.

(** Output in front of other code. *)
Lemma uwp_prints {B} m (k : unit -> U B) (Q : B -> ustate -> Prop) s :
  prints m -> (forall s', view s' = view s -> uwp (k tt) Q E s') -> uwp (ubind m k) Q E s.
Proof. intros Hm Hk. apply uwp_bind. eapply uwp_mono; [apply Hm|]. intros [] s' E'. by apply Hk. Qed.

End output.

Ltac printing :=
  repeat first [ apply prints_ret | apply prints_seq | apply prints_puts
               | apply prints_printf; [assumption|vm_compute; reflexivity]
               | apply prints_printf; vm_compute; reflexivity ]; try assumption.

(** ** A kernel that answers every call at once *)

Definition demo_kernel : UserKernel := {|
  uk_write := fun l s => (Z.of_nat (length l), s);
  uk_sleep := fun _ s => s;
  uk_create := fun _ _ _ s => (Z.of_nat (length (u_calls s)) + 4, s);
  uk_join := fun _ s => (0, Some (-9), s);
  uk_kill := fun _ s => (0, s);
  uk_list := fun _ => (0, []);
  uk_snapshot := fun _ => (0, []);
  uk_clock := fun _ _ => (0, Some (1767225600, 0));
  uk_irqs := fun _ => (0, []);
  uk_hartid := fun _ => 0;
  uk_current := fun _ => 3
|}.

Lemma demo_isolated {V} (view : ustate -> V) :
  (forall l s, view (add_output l s) = view s) -> @isolated demo_kernel V view.
Proof. intros H. by split. Qed.
