(* ===== verification/ShellParse.v ===== *)
(** * The shell's line parser ([user/shell.c])

    Lines are split in place: [shell_parse_line] works on the characters of the
    buffer, puts a zero behind every word that is followed by a blank, and returns
    the positions of the arguments. *)
From stdpp Require Import base numbers list strings.
From Stdlib Require Import ZArith Lia.
From S2P Require Import Prelude UserEnv.

Local Open Scope Z_scope.

(** ** Parsing *)

(** [neg ? -val : val] on the characters of a string; a value beyond [int] is
    undefined. *)
Fixpoint shell_digits (s : list Z) (val : Z) : Z :=
  match s with
  | c :: s' => if (48 <=? c) && (c <=? 57) then shell_digits s' (val * 10 + (c - 48)) else val
  | [] => val
  end.
Definition shell_atoi (s : list Z) : option Z :=
  let '(neg, s) := match s with
                   | c :: s' => if c =? 43 then (false, s') else if c =? 45 then (true, s') else (false, s)
                   | [] => (false, [])
                   end in
  let val := shell_digits s 0 in
  if val <? 2^31 then Some (if neg then - val else val) else None.

Definition blank (c : Z) : bool := (c =? 32) || (c =? 9).

(** Positions in the buffer; outside it the code would run away ([None]). *)
Fixpoint skip_blanks (fuel : nat) (buf : list Z) (p : nat) : option nat :=
  match fuel with
  | O => None
  | S f => match buf !! p with
           | None => None
           | Some c => if blank c then skip_blanks f buf (S p) else Some p
           end
  end.
Fixpoint token_end (fuel : nat) (buf : list Z) (p : nat) : option nat :=
  match fuel with
  | O => None
  | S f => match buf !! p with
           | None => None
           | Some c => if negb (c =? 0) && negb (c =? 32) && negb (c =? 9) then token_end f buf (S p) else Some p
           end
  end.

(** [while ( *p != 0 && argc < max_args)]: the arguments and the buffer. *)
Fixpoint parse_args (fuel : nat) (max_args : nat) (buf : list Z) (p : nat) : option (list nat * list Z) :=
  match fuel with
  | O => None
  | S f =>
    match buf !! p with
    | None => None
    | Some c =>
      if (c =? 0) || (max_args =? 0)%nat then Some ([], buf) else
      match token_end (S (length buf)) buf p with
      | None => None
      | Some e =>
        match buf !! e with
        | None => None
        | Some c =>
          if c =? 0 then Some ([p], buf) else
          let buf := <[e := 0]> buf in
          match skip_blanks (S (length buf)) buf (S e) with
          | None => None
          | Some p' =>
            match parse_args f (max_args - 1) buf p' with
            | None => None
            | Some (argv, buf) => Some (p :: argv, buf)
            end
          end
        end
      end
    end
  end.
Definition shell_parse_line (line : list Z) (max_args : nat) : option (list nat * list Z) :=
  match skip_blanks (S (length line)) line 0 with
  | None => None
  | Some p => parse_args (S (length line)) max_args line p
  end.

(** [argv[i]] as a string. *)
Definition arg_at (buf : list Z) (p : nat) : list Z := c_string (drop p buf).

(** ** The words of a line, for reference *)

Fixpoint words_from (cur l : list Z) : list (list Z) :=
  match l with
  | [] => if bool_decide (cur = []) then [] else [cur]
  | c :: l =>
    if blank c then (if bool_decide (cur = []) then words_from [] l else cur :: words_from [] l)
    else words_from (cur ++ [c]) l
  end.
Definition words : list Z -> list (list Z) := words_from [].

(** ** Correctness *)

Definition char_ok (c : Z) : Prop := c <> 0.
Definition ink (c : Z) : Prop := c <> 0 /\ blank c = false.

Lemma blank_ink c : char_ok c -> blank c = false -> ink c.
Proof. by split. Qed.

Lemma lookup_mid {A} (l1 l2 : list A) : (l1 ++ l2) !! length l1 = l2 !! O.
Proof. by rewrite lookup_app_r, Nat.sub_diag by lia. Qed.

(** The scanners stop where the run of blanks or of ink ends. *)
Lemma skip_blanks_spec fuel pre b x c :
  Forall (fun c => blank c = true) b -> blank c = false -> (length b < fuel)%nat ->
  skip_blanks fuel (pre ++ b ++ c :: x) (length pre) = Some (length pre + length b)%nat.
Proof.
  intros Hb Hc. revert fuel pre. induction Hb as [|d b Hd Hb IH]; intros [|f] pre Hf; cbn [length] in *; try lia;
    cbn [skip_blanks]; rewrite lookup_mid; cbn.
  - rewrite Hc. f_equal. lia.
  - rewrite Hd. specialize (IH f (pre ++ [d]) ltac:(lia)).
    rewrite <- app_assoc in IH. cbn in IH. rewrite length_app in IH. cbn in IH.
    rewrite Nat.add_1_r in IH. rewrite IH. f_equal. lia.
Qed.

Definition stops (c : Z) : Prop := c = 0 \/ blank c = true.

Lemma token_end_spec fuel pre t x c :
  Forall ink t -> stops c -> (length t < fuel)%nat ->
  token_end fuel (pre ++ t ++ c :: x) (length pre) = Some (length pre + length t)%nat.
Proof.
  intros Ht Hc. revert fuel pre. induction Ht as [|d t [Hd0 Hd] Ht IH]; intros [|f] pre Hf; cbn [length] in *; try lia;
    cbn [token_end]; rewrite lookup_mid; cbn.
  - replace (negb (c =? 0) && negb (c =? 32) && negb (c =? 9)) with false; [f_equal; lia|].
    destruct Hc as [-> |Hc]; [done|]. unfold blank in Hc. by destruct (c =? 32), (c =? 9), (c =? 0).
  - replace (negb (d =? 0) && negb (d =? 32) && negb (d =? 9)) with true.
    + specialize (IH f (pre ++ [d]) ltac:(lia)).
      rewrite <- app_assoc in IH. cbn in IH. rewrite length_app in IH. cbn in IH.
      rewrite Nat.add_1_r in IH. rewrite IH. f_equal. lia.
    + unfold blank in Hd. destruct (Z.eqb_spec d 0); [done|]. by destruct (d =? 32), (d =? 9).
Qed.

(** Every line is blanks, then ink, then the end or a blank. *)
Lemma split_blanks l : exists b r, l = b ++ r /\ Forall (fun c => blank c = true) b /\
  (r = [] \/ exists c r', r = c :: r' /\ blank c = false).
Proof.
  induction l as [|c l (b & r & -> & Hb & Hr)]; [exists [], []; auto|].
  destruct (blank c) eqn:E; [exists (c :: b), r; auto|]. exists [], (c :: b ++ r). split; [done|]. split; [done|].
  right. by exists c, (b ++ r).
Qed.
Lemma split_ink l : Forall char_ok l -> exists t r, l = t ++ r /\ Forall ink t /\
  (r = [] \/ exists c r', r = c :: r' /\ blank c = true).
Proof.
  induction 1 as [|c l Hc Hl (t & r & -> & Ht & Hr)]; [exists [], []; auto|].
  destruct (blank c) eqn:E; [exists [], (c :: t ++ r)|exists (c :: t), r].
  - split; [done|]. split; [done|]. right. by exists c, (t ++ r).
  - split; [done|]. split; [|done]. constructor; [by split|done].
Qed.

Lemma words_blanks b l : Forall (fun c => blank c = true) b -> words_from [] (b ++ l) = words_from [] l.
Proof. induction 1 as [|c b Hc Hb IH]; [done|]. cbn [app words_from]. rewrite Hc. exact IH. Qed.
Lemma words_ink t cur l : Forall ink t -> words_from cur (t ++ l) = words_from (cur ++ t) l.
Proof.
  intros H. revert cur. induction H as [|c t [_ Hc] Ht IH]; intros cur; [by rewrite app_nil_r|].
  cbn [app words_from]. rewrite Hc, IH. by rewrite <- app_assoc.
Qed.
Lemma words_token t c l :
  t <> [] -> Forall ink t -> blank c = true -> words_from [] (t ++ c :: l) = t :: words_from [] l.
Proof.
  intros Hn Ht Hc. rewrite words_ink by done. cbn [app words_from]. by rewrite Hc, bool_decide_eq_false_2.
Qed.
Lemma words_last t : t <> [] -> Forall ink t -> words_from [] t = [t].
Proof.
  intros Hn Ht. rewrite <- (app_nil_r t) at 1. rewrite words_ink by done. cbn [app words_from].
  by rewrite bool_decide_eq_false_2.
Qed.

Lemma c_string_app t x : Forall char_ok t -> c_string (t ++ 0 :: x) = t.
Proof. induction 1 as [|c t Hc Ht IH]; [done|]. cbn. rewrite (proj2 (Z.eqb_neq _ _) Hc). by rewrite IH. Qed.
Lemma ink_ok t : Forall ink t -> Forall char_ok t.
Proof. intros H. eapply Forall_impl; [exact H|]. by intros c []. Qed.

Lemma arg_at_shift y x p : arg_at (y ++ x) (length y + p) = arg_at x p.
Proof. unfold arg_at. f_equal. rewrite drop_app_ge by lia. f_equal. lia. Qed.
Lemma arg_at_front t x : Forall char_ok t -> arg_at (t ++ 0 :: x) 0 = t.
Proof. apply c_string_app. Qed.

Lemma insert_mid pre t d (x : list Z) :
  <[(length pre + length t)%nat := 0]> (pre ++ t ++ d :: x) = (pre ++ t ++ [0]) ++ x.
Proof. rewrite insert_app_r, insert_app_r_alt by lia. rewrite Nat.sub_diag. cbn. by rewrite <- !app_assoc. Qed.

(** One word, and the parser is in front of the next. *)
Lemma parse_args_word f k pre t d b r c x :
  t <> [] -> Forall ink t -> blank d = true -> Forall (fun c => blank c = true) b -> r = c :: x -> blank c = false ->
  parse_args (S f) (S k) (pre ++ t ++ d :: b ++ r) (length pre) =
  match parse_args f k ((pre ++ t ++ 0 :: b) ++ r) (length (pre ++ t ++ 0 :: b)) with
  | None => None | Some (argv, buf) => Some (length pre :: argv, buf)
  end.
Proof.
  intros Hn Ht Hd Hb -> Hc. cbn [parse_args]. rewrite lookup_mid.
  destruct t as [|a t]; [done|]. assert (Ha : ink a) by by inversion Ht.
  cbn [app]. change ((a :: t ++ d :: b ++ c :: x) !! 0%nat) with (Some a). cbn iota.
  rewrite (proj2 (Z.eqb_neq a 0)) by apply Ha. cbn [orb Nat.eqb]. rewrite app_comm_cons.
  rewrite token_end_spec; [|done|by right|rewrite !length_app; cbn; lia].
  rewrite (app_assoc pre), <- length_app, lookup_mid. cbn [lookup list_lookup].
  rewrite (proj2 (Z.eqb_neq d 0)) by (intros ->; discriminate Hd).
  rewrite <- app_assoc, length_app, insert_mid.
  replace (S (length pre + length (a :: t))) with (length (pre ++ (a :: t) ++ [0])) by (rewrite !length_app; cbn; lia).
  rewrite skip_blanks_spec; [|done|done|rewrite !length_app; cbn; lia].
  replace (length (pre ++ (a :: t) ++ [0%Z]) + length b)%nat with (length (pre ++ (a :: t) ++ 0 :: b))
    by (rewrite !length_app; cbn; lia).
  replace ((pre ++ (a :: t) ++ [0]) ++ b ++ c :: x) with ((pre ++ (a :: t) ++ 0 :: b) ++ c :: x)
    by (rewrite <- !app_assoc; cbn; by rewrite <- ?app_assoc).
  by rewrite Nat.sub_succ, Nat.sub_0_r.
Qed.

Lemma end_char r : (r = [] \/ exists c r', r = c :: r' /\ blank c = false) ->
  exists c x, r ++ [0] = c :: x /\ blank c = false.
Proof. intros [-> |(c & r' & -> & H)]; [by exists 0, []|by exists c, (r' ++ [0])]. Qed.

Lemma parse_args_spec fuel k pre l :
  Forall char_ok l -> (l = [] \/ exists c l', l = c :: l' /\ blank c = false) -> (length l < fuel)%nat ->
  exists argv x, parse_args fuel k (pre ++ l ++ [0]) (length pre) = Some (map (Nat.add (length pre)) argv, pre ++ x) /\
  length x = S (length l) /\ map (arg_at x) argv = take k (words l).
Proof.
  revert k pre l. induction fuel as [|f IH]; intros k pre l Hok Hl Hf; [lia|].
  destruct Hl as [-> |(c & l' & El & Hc)].
  { exists [], [0]. cbn [parse_args]. rewrite lookup_mid. cbn. by rewrite take_nil. }
  destruct k as [|k].
  { exists [], (l ++ [0]). cbn [parse_args]. rewrite lookup_mid, El. cbn. rewrite orb_true_r.
    split; [done|]. rewrite length_app. cbn. split; [lia|done]. }
  destruct (split_ink l Hok) as (t & r & Er & Ht & Hr).
  assert (Hn : t <> []).
  { intros ->. destruct Hr as [-> |(d & r' & -> & Hd)]; [by rewrite El in Er|].
    rewrite El in Er. injection Er as -> ->. by rewrite Hc in Hd. }
  clear El Hc c l'. subst l. destruct Hr as [-> |(d & r' & -> & Hd)].
  - rewrite app_nil_r in *. exists [O], (t ++ [0]). cbn [parse_args]. rewrite lookup_mid.
    destruct t as [|a t]; [done|]. assert (Ha : ink a) by by inversion Ht. cbn [app lookup list_lookup].
    rewrite (proj2 (Z.eqb_neq a 0)) by apply Ha. cbn [orb Nat.eqb]. rewrite app_comm_cons.
    rewrite token_end_spec; [|done|by left|rewrite !length_app; cbn; lia].
    rewrite (app_assoc pre), <- length_app, lookup_mid. cbn [lookup list_lookup Z.eqb].
    split; [cbn [map]; by rewrite Nat.add_0_r|]. rewrite length_app. split; [cbn; lia|].
    cbn [map]. rewrite arg_at_front by by apply ink_ok. unfold words.
    rewrite words_last by done. cbn [take]. by rewrite take_nil.
  - destruct (split_blanks r') as (b & r & -> & Hb & Hr). destruct (end_char r Hr) as (c & x & Ec & Hc).
    apply Forall_app in Hok as [_ Hok]. inversion Hok as [|? ? _ Hok']; subst. apply Forall_app in Hok' as [_ Hr0].
    rewrite <- app_assoc. cbn [app]. rewrite <- app_assoc.
    rewrite (parse_args_word _ _ _ _ _ _ _ c x) by done.
    destruct (IH k (pre ++ t ++ 0 :: b) r Hr0 Hr) as (argv & y & E & Ly & A).
    { rewrite !length_app in Hf. cbn in Hf. rewrite length_app in Hf. lia. }
    rewrite E. exists (O :: map (Nat.add (length (t ++ 0 :: b))) argv), (t ++ 0 :: b ++ y).
    split; [|split].
    + f_equal. f_equal; [|by rewrite <- !app_assoc].
      cbn [map]. rewrite Nat.add_0_r. f_equal. rewrite map_map. apply map_ext. intros i. rewrite length_app. lia.
    + rewrite !length_app. cbn. rewrite !length_app, Ly. lia.
    + cbn [map]. rewrite arg_at_front by by apply ink_ok. unfold words.
      rewrite words_token, words_blanks by done. cbn [take]. f_equal.
      rewrite map_map. change (words_from [] r) with (words r). rewrite <- A. apply map_ext. intros i.
      change (0 :: b ++ y) with ((0 :: b) ++ y). rewrite app_assoc. apply arg_at_shift.
Qed.

Lemma shell_parse_line_words l max_args :
  Forall char_ok l ->
  exists argv buf, shell_parse_line (l ++ [0]) max_args = Some (argv, buf) /\
    length buf = S (length l) /\ map (arg_at buf) argv = take max_args (words l).
Proof.
  intros Hok. unfold shell_parse_line. destruct (split_blanks l) as (b & r & -> & Hb & Hr).
  destruct (end_char r Hr) as (c & x & Ec & Hc). apply Forall_app in Hok as [_ Hr0].
  rewrite <- app_assoc, Ec. rewrite (skip_blanks_spec _ [] b x c) by (rewrite ?length_app; cbn; done || lia).
  cbn [length Nat.add app]. rewrite <- Ec.
  destruct (parse_args_spec (S (length (b ++ r ++ [0]))) max_args b r Hr0 Hr) as (argv & y & E & Ly & A).
  { rewrite !length_app. cbn. lia. }
  rewrite E. exists (map (Nat.add (length b)) argv), (b ++ y). split; [done|].
  rewrite !length_app, Ly. split; [lia|]. unfold words. rewrite words_blanks by done.
  rewrite map_map. change (words_from [] r) with (words r). rewrite <- A. apply map_ext. intros i. apply arg_at_shift.
Qed.

(** C31: parsing a terminated line stays inside the buffer, and the arguments
    it returns are the first [max_args] words of the line, read as strings out of
    the modified buffer. *)
Theorem shell_parse_line_splits l max_args :
  Forall char_ok l ->
  exists argv buf, shell_parse_line (l ++ [0]) max_args = Some (argv, buf) /\
    length buf = S (length l) /\ map (arg_at buf) argv = take max_args (words l).
Proof. apply shell_parse_line_words. Qed.

(** " spawn  yield 2" *)
Lemma shell_parse_line_splits_witness :
  exists argv buf, shell_parse_line (bytes_of_string " spawn  yield 2" ++ [0]) 8 = Some (argv, buf) /\
    map (arg_at buf) argv = [bytes_of_string "spawn"; bytes_of_string "yield"; bytes_of_string "2"].
Proof.
  destruct (shell_parse_line_splits (bytes_of_string " spawn  yield 2") 8) as (argv & buf & E & _ & A).
  - apply Forall_forall. intros c Hc. unfold char_ok. intros ->.
    assert (H : existsb (Z.eqb 0) (bytes_of_string " spawn  yield 2") = true)
      by (apply existsb_exists; exists 0; split; [by apply list_elem_of_In|done]).
    vm_compute in H. discriminate.
  - exists argv, buf. split; [exact E|]. exact A.
Defined.
