(* ===== verification/Spawn.v ===== *)
(** * Test threads ([user/spawn.c])

    A table of sixteen workers, their creation, their loop, and the shell command
    that lists and kills them. *)
From stdpp Require Import base numbers list gmap strings.
From Stdlib Require Import ZArith Lia.
From S2P Require Import Prelude Mem CString Stdio UserEnv.

Local Open Scope Z_scope.

Definition SPAWN_MAX : nat := 16.

(** [argv] strings: [!u_strcmp(a, "literal")], and [u_atoi] on the bytes laid out
    in memory. *)
Definition streq (a : list Z) (b : string) : bool := bool_decide (a = bytes_of_string b).
Definition atoi_arg (a : list Z) : option Z := u_atoi (S (length a)) 4096 (store_bytes ∅ 4096 (a ++ [0])).
Definition uatoi {K : UserKernel} (a : list Z) : U Z := match atoi_arg a with Some v => uret v | None => uundef end.

(** The prefix, a digit, and the terminator, in a buffer of [buf_len > 0] bytes. *)
Definition make_name (buf_len : nat) (prefix : list Z) (n : Z) : list Z :=
  let name := take (buf_len - 1) prefix in
  if (length name <? buf_len - 1)%nat then name ++ [48 + Z.rem n 10] else name.

Section spawn.
Context {K : UserKernel}.

Definition spawn_cfg_init (wid : Z) (mode : spawn_mode_t) (sleep_ticks print_every : Z) : spawn_cfg_t :=
  {| sc_wid := wid; sc_tid := -1; sc_mode := mode; sc_work_loops := 200000; sc_sleep_ticks := sleep_ticks;
     sc_print_every := print_every; sc_last_hart := -1; sc_migrations := 0; sc_prints := 0 |}.

Definition set_tid (tid : Z) (c : spawn_cfg_t) : spawn_cfg_t :=
  {| sc_wid := sc_wid c; sc_tid := tid; sc_mode := sc_mode c; sc_work_loops := sc_work_loops c;
     sc_sleep_ticks := sc_sleep_ticks c; sc_print_every := sc_print_every c; sc_last_hart := sc_last_hart c;
     sc_migrations := sc_migrations c; sc_prints := sc_prints c |}.
Definition set_wid (wid : Z) (c : spawn_cfg_t) : spawn_cfg_t :=
  {| sc_wid := wid; sc_tid := sc_tid c; sc_mode := sc_mode c; sc_work_loops := sc_work_loops c;
     sc_sleep_ticks := sc_sleep_ticks c; sc_print_every := sc_print_every c; sc_last_hart := sc_last_hart c;
     sc_migrations := sc_migrations c; sc_prints := sc_prints c |}.
Definition upd_cfg (i : nat) (f : spawn_cfg_t -> spawn_cfg_t) : U unit :=
  uput (fun s => set_spawn_cfg (alter f i (s_spawn_cfg s)) s).
Definition get_cfg (i : nat) : U spawn_cfg_t :=
  fun s => match s_spawn_cfg s !! i with Some c => Ret (inl c, s) | None => Undef end.

Definition spawn_init_once : U unit :=
  inited <~ uget s_spawn_inited ;;
  if z2b inited then uret tt else
  uput (fun s => set_spawn (imap (fun i c => set_tid (-1) (set_wid (Z.of_nat i) c)) (s_spawn_cfg s)) 0 1 s).

Fixpoint wid_scan (l : list spawn_cfg_t) (i : nat) : option nat :=
  match l with [] => None | c :: l => if sc_tid c <? 0 then Some i else wid_scan l (S i) end.
Definition spawn_find_free_wid : U (option nat) := uget (fun s => wid_scan (s_spawn_cfg s) 0).

Definition spawn_add (mode : spawn_mode_t) (sleep_ticks print_every : Z) (name_prefix : string) : U Z :=
  wid <~ spawn_find_free_wid ;;
  match wid with
  | None => uret (-1)
  | Some wid =>
    upd_cfg wid (fun _ => spawn_cfg_init (Z.of_nat wid) mode sleep_ticks print_every) ;~
    tid <~ ucreate spawn_worker_entry (Z.of_nat wid) (make_name 8 (bytes_of_string name_prefix) (Z.of_nat wid)) ;;
    if tid <? 0 then uret (-2) else
    upd_cfg wid (set_tid tid) ;~
    uput (fun s => set_spawn_active (s32 (s_spawn_active s + 1)) s) ;~
    uret tid
  end.

(** ** The worker *)

(** One iteration of [spawn_worker]'s loop on slot [wid]; [it] is its counter. *)
Definition spawn_round (wid : nat) (it : Z) : U Z :=
  c <~ get_cfg wid ;;
  (match sc_mode c with
   | SPAWN_MODE_YIELD => usleep 0
   | SPAWN_MODE_SLEEP => usleep (sc_sleep_ticks c)
   | SPAWN_MODE_SPIN => uret tt
   end) ;~
  hart <~ uget uk_hartid ;;
  c <~ get_cfg wid ;;
  let moved := negb (sc_last_hart c =? -1) && negb (sc_last_hart c =? hart) in
  upd_cfg wid (fun c =>
    {| sc_wid := sc_wid c; sc_tid := sc_tid c; sc_mode := sc_mode c; sc_work_loops := sc_work_loops c;
       sc_sleep_ticks := sc_sleep_ticks c; sc_print_every := sc_print_every c; sc_last_hart := hart;
       sc_migrations := if moved then u32 (sc_migrations c + 1) else sc_migrations c; sc_prints := sc_prints c |}) ;~
  let it := u32 (it + 1) in
  c <~ get_cfg wid ;;
  (if negb (sc_print_every c =? 0) && (it mod sc_print_every c =? 0) then
     upd_cfg wid (fun c =>
       {| sc_wid := sc_wid c; sc_tid := sc_tid c; sc_mode := sc_mode c; sc_work_loops := sc_work_loops c;
          sc_sleep_ticks := sc_sleep_ticks c; sc_print_every := sc_print_every c; sc_last_hart := sc_last_hart c;
          sc_migrations := sc_migrations c; sc_prints := u32 (sc_prints c + 1) |}) ;~
     c <~ get_cfg wid ;;
     uprintf ("[spawn] tid=%d wid=%d mode=%d hart=%d mig=%u prints=%u" ++ nl)
       [VaNum (sc_tid c); VaNum (sc_wid c); VaNum (spawn_mode_code (sc_mode c)); VaNum hart;
        VaNum (sc_migrations c); VaNum (sc_prints c)]
   else uret tt) ;~
  uret it.

(** Its first [n] iterations. *)
Fixpoint spawn_rounds (n : nat) (wid : nat) (it : Z) : U Z :=
  match n with O => uret it | S n => it <~ spawn_round wid it ;; spawn_rounds n wid it end.
Definition spawn_worker (wid : nat) (n : nat) : U Z := usleep 1 ;~ spawn_rounds n wid 0.

(** ** The command *)

Definition spawn_usage : U unit :=
  puts ("usage:" ++ nl ++ "  spawn spin  N [print_every]" ++ nl ++ "  spawn yield N [print_every]" ++ nl ++
        "  spawn sleep N <sleep_ticks> [print_every]" ++ nl ++ "  spawn list" ++ nl ++ "  spawn kill" ++ nl ++
        "notes:" ++ nl ++ "  - print_every is in 'iterations' (not ticks)" ++ nl ++
        "  - print_every=0 disables all worker logs; default 0" ++ nl ++ "  - N is capped to SPAWN_MAX" ++ nl).

Definition spawn_list : U unit :=
  n <~ uget s_spawn_active ;;
  uprintf ("spawned=%d" ++ nl) [VaNum n] ;~
  uprint (" WID  TID  MODE  LAST_HART  MIGRATIONS  PRINTS" ++ nl) ;~
  uprint (" ---- ---- ----  ---------  ----------  ------" ++ nl) ;~
  ufor (seq 0 SPAWN_MAX) (fun i =>
    c <~ get_cfg i ;;
    if sc_tid c <? 0 then uret tt else
    uprintf (" %-4d %-4d %-4d  %-9d  %-10u  %-6u" ++ nl)
      [VaNum (sc_wid c); VaNum (sc_tid c); VaNum (spawn_mode_code (sc_mode c)); VaNum (sc_last_hart c);
       VaNum (sc_migrations c); VaNum (sc_prints c)]).

(** [requested], [joined] and [errors]. *)
Fixpoint kill_loop (slots : list nat) (requested joined errors : Z) : U (Z * Z * Z) :=
  match slots with
  | [] => uret (requested, joined, errors)
  | i :: slots =>
    c <~ get_cfg i ;;
    let tid := sc_tid c in
    if tid <? 0 then kill_loop slots requested joined errors else
    rc <~ ukill tid ;;
    r <~ (if rc <? 0 then uret (joined, errors + 1) else
          j <~ ujoin tid ;;
          let rc := fst j in
          if (rc =? 0) || (rc =? -3) then uret (joined + 1, errors) else uret (joined, errors + 1)) ;;
    upd_cfg i (set_tid (-1)) ;~
    kill_loop slots (requested + 1) (fst r) (snd r)
  end.
Definition spawn_kill : U unit :=
  r <~ kill_loop (seq 0 SPAWN_MAX) 0 0 0 ;;
  let '(requested, joined, errors) := r in
  uput (set_spawn_active 0) ;~
  uprintf ("spawn: kill requested=%d joined=%d errors=%d" ++ nl) [VaNum requested; VaNum joined; VaNum errors].

(** [for (i = 0; i < n; ++i)], left when a creation fails. *)
Fixpoint spawn_many (n : nat) (mode : spawn_mode_t) (sleep_ticks print_every : Z) (prefix : string)
    (report : Z -> U unit) : U unit :=
  match n with
  | O => uret tt
  | S n =>
    tid <~ spawn_add mode sleep_ticks print_every prefix ;;
    if tid <? 0 then puts ("spawn: create failed" ++ nl)
    else report tid ;~ spawn_many n mode sleep_ticks print_every prefix report
  end.

Definition opt_arg (argv : list (list Z)) (i : nat) : U Z :=
  match argv !! i with Some a => v <~ uatoi a ;; uret (u32 v) | None => uret 0 end.

Definition spawn (argv : list (list Z)) : U unit :=
  spawn_init_once ;~
  match argv !! 1%nat with
  | None => spawn_usage
  | Some sub =>
    if streq sub "list" then spawn_list else
    if streq sub "kill" then spawn_kill else
    match argv !! 2%nat with
    | None => spawn_usage
    | Some count =>
      n <~ uatoi count ;;
      let n := if n <=? 0 then 1 else n in
      let n := if Z.of_nat SPAWN_MAX <? n then Z.of_nat SPAWN_MAX else n in
      if streq sub "spin" then
        print_every <~ opt_arg argv 3 ;;
        spawn_many (Z.to_nat n) SPAWN_MODE_SPIN 0 print_every "sp" (fun tid =>
          if negb (print_every =? 0) then uprintf ("spawn: spin tid=%d" ++ nl) [VaNum tid] else uret tt)
      else if streq sub "yield" then
        print_every <~ opt_arg argv 3 ;;
        spawn_many (Z.to_nat n) SPAWN_MODE_YIELD 0 print_every "y" (fun tid =>
          uprintf ("spawn: yield tid=%d" ++ nl) [VaNum tid])
      else if streq sub "sleep" then
        match argv !! 3%nat with
        | None => spawn_usage
        | Some t =>
          sleep_ticks <~ uatoi t ;;
          let sleep_ticks := u32 sleep_ticks in
          print_every <~ opt_arg argv 4 ;;
          spawn_many (Z.to_nat n) SPAWN_MODE_SLEEP sleep_ticks print_every "sl" (fun tid =>
            uprintf ("spawn: sleep tid=%d sleep=%u" ++ nl) [VaNum tid; VaNum sleep_ticks])
        end
      else spawn_usage
    end
  end.

End spawn.

(** ** The table of workers *)

Definition tids (s : ustate) : list Z := map sc_tid (s_spawn_cfg s).
(** The workers that a [kill] will look for. *)
Definition live (l : list Z) : list Z := filter (fun t => 0 <= t) l.
Definition spawn_view (s : ustate) : list Z * Z * Z * list call :=
  (tids s, s_spawn_active s, s_spawn_inited s, u_calls s).
(** The table has sixteen slots, and [s_spawn_active] counts the live ones. *)
Definition table_ok (s : ustate) : Prop :=
  length (tids s) = SPAWN_MAX /\ s_spawn_active s = Z.of_nat (length (live (tids s))).
Definition killed (l : list call) : list Z := omap (fun c => match c with CKill t => Some t | _ => None end) l.

Lemma live_length l : (length (live l) <= length l)%nat.
Proof. apply length_filter. Qed.

Lemma live_insert (l : list Z) i (x t : Z) :
  l !! i = Some x -> x < 0 ->
  length (live (<[i := t]> l)) = (length (live l) + if bool_decide (0 <= t)%Z then 1 else 0)%nat.
Proof.
  intros Hi Hx. rewrite <- (take_drop_middle l i x Hi). pose proof (lookup_lt_Some _ _ _ Hi) as Hl.
  rewrite insert_app_r_alt; rewrite length_take_le by lia; [|lia]. rewrite Nat.sub_diag. cbn [insert list_insert].
  unfold live. rewrite !list.filter_app, !filter_cons, !length_app.
  rewrite (decide_False (P := 0 <= x)) by lia.
  case_decide as D; [rewrite bool_decide_eq_true_2 by done|rewrite bool_decide_eq_false_2 by done]; cbn [length]; lia.
Qed.

Lemma map_alter_tid (l : list spawn_cfg_t) i f t :
  (forall c, sc_tid (f c) = t) -> map sc_tid (alter f i l) = <[i := t]> (map sc_tid l).
Proof.
  intros Hf. revert i. induction l as [|c l IH]; intros [|i]; cbn; [done|done|by rewrite Hf|f_equal; apply IH].
Qed.
Lemma map_alter_keep (l : list spawn_cfg_t) i f :
  (forall c, sc_tid (f c) = sc_tid c) -> map sc_tid (alter f i l) = map sc_tid l.
Proof. intros Hf. revert i. induction l as [|c l IH]; intros [|i]; cbn; [done|done|by rewrite Hf|f_equal; apply IH]. Qed.

Lemma wid_scan_some l i k : wid_scan l k = Some i ->
  exists j t, i = (k + j)%nat /\ map sc_tid l !! j = Some t /\ t < 0.
Proof.
  revert k. induction l as [|c l IH]; intros k; cbn [wid_scan]; [done|].
  destruct (Z.ltb_spec (sc_tid c) 0).
  - intros [= <-]. exists O, (sc_tid c). split; [lia|]. by split.
  - intros Hs. destruct (IH _ Hs) as (j & t & -> & Hj & Ht). exists (S j), t. split; [lia|]. by split.
Qed.

Section spawn_spec.
Context {K : UserKernel} (Hv : isolated spawn_view).
Notation E := (fun _ _ => False).

Lemma view_parts s s' : spawn_view s' = spawn_view s ->
  tids s' = tids s /\ s_spawn_active s' = s_spawn_active s /\ s_spawn_inited s' = s_spawn_inited s /\ u_calls s' = u_calls s.
Proof. intros [= H1 H2 H3 H4]. auto. Qed.

Lemma view_table s s' : spawn_view s' = spawn_view s -> table_ok s -> table_ok s'.
Proof. intros H [T1 T2]. apply view_parts in H as (H1 & H2 & _ & _). unfold table_ok. by rewrite H1, H2. Qed.

Lemma get_cfg_wp i Q s : (i < length (tids s))%nat ->
  (forall c, tids s !! i = Some (sc_tid c) -> Q c s) -> uwp (get_cfg i) Q E s.
Proof.
  intros Hi H. unfold uwp, wp, get_cfg. unfold tids in *. rewrite length_map in Hi.
  destruct (lookup_lt_is_Some_2 _ _ Hi) as [c Hc]. rewrite Hc. apply H. by rewrite list_lookup_fmap, Hc.
Qed.

Lemma create_view e a n s : uwp (ucreate e a n) (fun _ s' =>
  tids s' = tids s /\ s_spawn_active s' = s_spawn_active s /\ s_spawn_inited s' = s_spawn_inited s /\
  killed (u_calls s') = killed (u_calls s)) E s.
Proof.
  unfold uwp, wp, ucreate. destruct (uk_create _ _ _ _) as [t s'] eqn:C.
  pose proof (iso_create _ Hv e a n (add_call (CCreate e a n) s)) as H. rewrite C in H. cbn [snd] in H.
  apply view_parts in H as (-> & -> & -> & ->). split; [done|]. split; [done|]. split; [done|].
  cbn [add_call u_calls]. unfold killed. rewrite omap_app. cbn. by rewrite app_nil_r.
Qed.
Lemma kill_view t s : uwp (ukill t) (fun _ s' =>
  tids s' = tids s /\ s_spawn_active s' = s_spawn_active s /\ killed (u_calls s') = killed (u_calls s) ++ [t]) E s.
Proof.
  unfold uwp, wp, ukill. destruct (uk_kill _ _) as [rc s'] eqn:C.
  pose proof (iso_kill _ Hv t (add_call (CKill t) s)) as H. rewrite C in H. cbn [snd] in H.
  apply view_parts in H as (-> & -> & _ & ->). split; [done|]. split; [done|].
  cbn [add_call u_calls]. unfold killed. by rewrite omap_app.
Qed.
Lemma join_view t s : uwp (ujoin t) (fun _ s' =>
  tids s' = tids s /\ s_spawn_active s' = s_spawn_active s /\ killed (u_calls s') = killed (u_calls s)) E s.
Proof.
  unfold uwp, wp, ujoin. destruct (uk_join _ _) as [[rc st] s'] eqn:C.
  pose proof (iso_join _ Hv t (add_call (CJoin t) s)) as H. rewrite C in H. cbn [snd] in H.
  apply view_parts in H as (-> & -> & _ & ->). split; [done|]. split; [done|].
  cbn [add_call u_calls]. unfold killed. rewrite omap_app. cbn. by rewrite app_nil_r.
Qed.

(** Adding a worker: one live slot more, or none. *)
Lemma spawn_add_wp mode st pe name s :
  table_ok s ->
  uwp (spawn_add mode st pe name) (fun tid s' =>
    table_ok s' /\ killed (u_calls s') = killed (u_calls s) /\
    (0 <= tid -> length (live (tids s')) = S (length (live (tids s))))) E s.
Proof.
  intros T. pose proof T as [T1 T2]. unfold spawn_add. apply uwp_bind, uwp_get. cbv beta.
  destruct (wid_scan (s_spawn_cfg s) 0) as [wid|] eqn:Hw; [|apply uwp_ret; split; [done|]; split; [done|lia]].
  destruct (wid_scan_some _ _ _ Hw) as (j & t & -> & Hj & Ht). cbn [Nat.add]. clear Hw.
  apply uwp_bind, uwp_put. set (s1 := set_spawn_cfg _ s).
  assert (E1 : tids s1 = <[j := -1]> (tids s)) by (apply map_alter_tid; done).
  apply uwp_bind. eapply uwp_mono; [apply create_view|]. intros tid s2 (E2 & A2 & _ & C2).
  assert (HL : length (live (tids s1)) = length (live (tids s))).
  { rewrite E1. rewrite (live_insert _ _ t), bool_decide_eq_false_2 by (done || lia). lia. }
  assert (T1' : length (tids s1) = SPAWN_MAX) by (by rewrite E1, length_insert).
  destruct (Z.ltb_spec tid 0) as [L|L].
  { apply uwp_ret. unfold table_ok. rewrite E2, A2, C2, HL. split; [by split|]. split; [done|lia]. }
  apply uwp_bind, uwp_put. set (s3 := set_spawn_cfg _ s2).
  assert (E3 : tids s3 = <[j := tid]> (tids s2)) by (apply map_alter_tid; done).
  assert (HL3 : length (live (tids s3)) = S (length (live (tids s)))).
  { rewrite E3, E2, (live_insert _ _ (-1)); [|rewrite E1; apply list_lookup_insert_eq; by apply lookup_lt_Some in Hj|lia].
    rewrite bool_decide_eq_true_2 by lia. lia. }
  assert (HB : (length (live (tids s)) < 16)%nat).
  { pose proof (live_length (tids s3)) as B. rewrite HL3, E3, length_insert, E2, T1' in B.
    unfold SPAWN_MAX in B. lia. }
  apply uwp_bind, uwp_put. apply uwp_ret. unfold table_ok.
  change (tids (set_spawn_active _ s3)) with (tids s3).
  change (s_spawn_active (set_spawn_active ?n s3)) with n.
  split; [split|split; [|by intros _]].
  - by rewrite E3, length_insert, E2.
  - change (s_spawn_active s3) with (s_spawn_active s2). rewrite A2, HL3. change (s_spawn_active s1) with (s_spawn_active s).
    rewrite T2, s32_small by lia. lia.
  - exact C2.
Qed.

Lemma spawn_many_wp n mode st pe name report s :
  table_ok s -> (forall tid, prints spawn_view E (report tid)) ->
  uwp (spawn_many n mode st pe name report) (fun _ s' => table_ok s') E s.
Proof.
  intros T Hr. revert s T. induction n as [|n IH]; intros s T; cbn [spawn_many]; [by apply uwp_ret|].
  apply uwp_bind. eapply uwp_mono; [by apply spawn_add_wp|]. intros tid s1 (T1 & _ & _).
  destruct (tid <? 0).
  - eapply uwp_mono; [by apply (prints_puts spawn_view Hv E)|]. intros [] s2 E2. by eapply view_table.
  - apply (uwp_prints spawn_view E); [apply Hr|]. intros s2 E2. apply IH. by eapply view_table.
Qed.

Definition all_dead (s : ustate) : Prop := length (tids s) = SPAWN_MAX /\ live (tids s) = [].

Lemma live_none l : (forall i t, l !! i = Some t -> t < 0) -> live l = [].
Proof.
  intros H. unfold live. induction l as [|x l IH]; [done|]. rewrite filter_cons_False.
  - apply IH. intros i t Hi. by apply (H (S i)).
  - pose proof (H O x eq_refl). lia.
Qed.

Lemma kill_loop_wp m k r j e s :
  (k + m)%nat = SPAWN_MAX -> length (tids s) = SPAWN_MAX -> (forall i t, (i < k)%nat -> tids s !! i = Some t -> t < 0) ->
  uwp (kill_loop (seq k m) r j e)
    (fun _ s' => all_dead s' /\ killed (u_calls s') = killed (u_calls s) ++ live (drop k (tids s))) E s.
Proof.
  revert k r j e s. induction m as [|m IH]; intros k r j e s Hk Hl Hd; cbn [seq kill_loop].
  - apply uwp_ret. split; [split; [done|]|].
    + apply live_none. intros i t Hi. apply (Hd i t); [|done]. apply lookup_lt_Some in Hi. lia.
    + rewrite drop_ge by lia. by rewrite app_nil_r.
  - apply uwp_bind, get_cfg_wp; [lia|]. intros c Hc. rewrite (drop_S _ _ _ Hc).
    destruct (Z.ltb_spec (sc_tid c) 0) as [L|L].
    + unfold live. rewrite filter_cons_False by lia. apply IH; [lia|done|].
      intros i t Hi Ht. destruct (decide (i = k)) as [-> |]; [congruence|]. apply (Hd i t); [lia|done].
    + unfold live at 1. rewrite filter_cons_True by lia. fold (live (drop (S k) (tids s))).
      apply uwp_bind. eapply uwp_mono; [apply kill_view|]. intros rc s1 (E1 & _ & C1).
      apply uwp_bind. apply (uwp_mono _ _ (fun _ s' => tids s' = tids s /\ killed (u_calls s') = killed (u_calls s) ++ [sc_tid c])).
      { destruct (rc <? 0); [by apply uwp_ret|]. apply uwp_bind. eapply uwp_mono; [apply join_view|].
        intros jr s2 (E2 & _ & C2). destruct (_ || _); apply uwp_ret; by rewrite E2, C2. }
      intros jr s2 (E2 & C2). apply uwp_bind, uwp_put. set (s3 := set_spawn_cfg _ s2).
      assert (E3 : tids s3 = <[k := -1]> (tids s)) by (rewrite <- E2; by apply map_alter_tid).
      change (u_calls s2) with (u_calls s3) in C2. eapply uwp_mono; [apply (IH (S k) _ _ _ s3)|].
      * lia.
      * by rewrite E3, length_insert.
      * intros i t Hi. rewrite E3. destruct (decide (i = k)) as [-> |D].
        { rewrite list_lookup_insert_eq by lia. intros [= <-]. lia. }
        rewrite list_lookup_insert_ne by done. apply Hd. lia.
      * intros _ s' [A C]. split; [done|]. rewrite C, C2, E3, drop_insert_lt by lia. by rewrite <- app_assoc.
Qed.

Lemma spawn_kill_wp s :
  length (tids s) = SPAWN_MAX ->
  uwp spawn_kill (fun _ s' => all_dead s' /\ s_spawn_active s' = 0 /\
    killed (u_calls s') = killed (u_calls s) ++ live (tids s)) E s.
Proof.
  intros Hl. unfold spawn_kill. apply uwp_bind. eapply uwp_mono.
  { apply (kill_loop_wp 16 0); [done|done|lia]. }
  intros [[r j] e] s1 [D C]. apply uwp_bind, uwp_put.
  eapply uwp_mono; [apply (prints_printf spawn_view Hv E); vm_compute; reflexivity|].
  intros [] s2 E2. apply view_parts in E2 as (E2 & A2 & _ & C2). unfold all_dead. rewrite E2, A2, C2. split; [exact D|].
  split; [done|]. exact C.
Qed.

Lemma spawn_init_wp s :
  length (tids s) = SPAWN_MAX -> (z2b (s_spawn_inited s) = true -> table_ok s) ->
  uwp spawn_init_once (fun _ s' => table_ok s' /\ u_calls s' = u_calls s /\
    live (tids s') = if z2b (s_spawn_inited s) then live (tids s) else []) E s.
Proof.
  intros Hl Ht. unfold spawn_init_once. apply uwp_bind, uwp_get.
  destruct (z2b (s_spawn_inited s)) eqn:Z0; [apply uwp_ret; auto|]. apply uwp_put.
  set (s1 := set_spawn _ _ _ s). assert (E1 : tids s1 = replicate 16 (-1)).
  { unfold tids, s1. cbn [set_spawn s_spawn_cfg]. apply list_eq. intros i. rewrite list_lookup_fmap, list_lookup_imap.
    unfold tids in Hl. rewrite length_map in Hl. unfold SPAWN_MAX in Hl.
    destruct (s_spawn_cfg s !! i) as [c|] eqn:Ec; cbn [fmap option_fmap option_map].
    - apply lookup_lt_Some in Ec. by rewrite lookup_replicate_2 by lia.
    - apply lookup_ge_None in Ec. symmetry. apply lookup_ge_None. rewrite length_replicate. lia. }
  unfold table_ok. by rewrite E1.
Qed.

Lemma spawn_list_wp s : table_ok s -> uwp spawn_list (fun _ s' => table_ok s') E s.
Proof.
  intros T. unfold spawn_list. apply uwp_bind, uwp_get.
  do 3 (apply (uwp_prints spawn_view E); [apply prints_printf; [exact Hv|vm_compute; reflexivity]|];
    let s' := fresh "s" in let H := fresh in intros s' H; pose proof (view_table _ _ H) as ?;
    match goal with F : table_ok _ -> table_ok s', G : table_ok _ |- _ => specialize (F G); clear G H end).
  apply uwp_for; [done|]. intros i s4 Hi T4. apply list_elem_of_In, in_seq in Hi.
  apply uwp_bind, get_cfg_wp; [rewrite (proj1 T4); unfold SPAWN_MAX in *; lia|]. intros c _. destruct (sc_tid c <? 0); [by apply uwp_ret|].
  eapply uwp_mono; [apply (prints_printf spawn_view Hv E); vm_compute; reflexivity|].
  intros [] s5 E5. by eapply view_table.
Qed.

End spawn_spec.

(** C33: whatever the arguments, and whatever the kernel answers as long as the
    workers leave the table alone, the command returns with [s_spawn_active] equal
    to the number of live slots; and [spawn kill] asks the kernel to kill exactly
    the workers of the live slots, in order, and empties the table.  (The first
    command initialises the table: nothing is live before.) *)
Theorem spawn_counts_workers {K : UserKernel} argv s :
  isolated spawn_view -> length (tids s) = SPAWN_MAX -> (z2b (s_spawn_inited s) = true -> table_ok s) ->
  Forall (fun a => is_Some (atoi_arg a)) argv ->
  uwp (spawn argv) (fun _ s' => table_ok s' /\
    (forall sub, argv !! 1%nat = Some sub -> streq sub "kill" = true ->
       live (tids s') = [] /\
       killed (u_calls s') = killed (u_calls s) ++ (if z2b (s_spawn_inited s) then live (tids s) else [])))
    (fun _ _ => False) s.
Proof.
  intros Hv Hl Ht Ha.
  assert (Hnum : forall a (Q : Z -> ustate -> Prop) s1, a ∈ argv -> (forall v, Q v s1) -> uwp (uatoi a) Q (fun _ _ => False) s1).
  { intros a Q s1 Hin HQ. rewrite Forall_forall in Ha. destruct (Ha a Hin) as [v Hva]. unfold uatoi. rewrite Hva. apply HQ. }
  assert (Hopt : forall i (Q : Z -> ustate -> Prop) s1, (forall v, Q v s1) -> uwp (opt_arg argv i) Q (fun _ _ => False) s1).
  { intros i Q s1 HQ. unfold opt_arg. destruct (argv !! i) as [a|] eqn:Ei; [|apply HQ].
    apply uwp_bind, Hnum; [by eapply list_elem_of_lookup_2|]. intros v. apply HQ. }
  assert (Husage : forall s1, table_ok s1 -> uwp spawn_usage (fun _ s' => table_ok s') (fun _ _ => False) s1).
  { intros s1 T1. eapply uwp_mono; [apply (prints_puts spawn_view Hv)|]. intros [] s2 E2. by eapply view_table. }
  unfold spawn. apply uwp_bind. eapply uwp_mono; [by apply (spawn_init_wp s)|]. intros [] s1 (T1 & C1 & K1).
  destruct (argv !! 1%nat) as [sub|] eqn:E1.
  2: { eapply uwp_mono; [by apply Husage|]. intros [] s2 T2. by split. }
  destruct (streq sub "list") eqn:El.
  { eapply uwp_mono; [by apply spawn_list_wp|]. intros [] s2 T2. split; [done|]. intros sub' [= <-] Hk.
    unfold streq in El, Hk. apply bool_decide_eq_true in El as ->. apply bool_decide_eq_true in Hk. by vm_compute in Hk. }
  destruct (streq sub "kill") eqn:Ek.
  { eapply uwp_mono; [by apply spawn_kill_wp, T1|]. intros [] s2 ([D1 D2] & A2 & C2).
    split; [split; [done|by rewrite A2, D2]|]. intros sub' [= <-] _. split; [done|]. by rewrite C2, C1, K1. }
  assert (HQ : forall s', table_ok s' -> table_ok s' /\ (forall sub', Some sub = Some sub' -> streq sub' "kill" = true ->
    live (tids s') = [] /\ killed (u_calls s') = killed (u_calls s) ++ (if z2b (s_spawn_inited s) then live (tids s) else []))).
  { intros s' T. split; [done|]. intros sub' [= <-]. by rewrite Ek. }
  clear Ek El. destruct (argv !! 2%nat) as [count|] eqn:E2.
  2: { eapply uwp_mono; [by apply Husage|]. intros [] s2 T2. by apply HQ. }
  apply uwp_bind, Hnum; [by eapply list_elem_of_lookup_2|]. intros n. cbv zeta.
  assert (Hmany : forall k mode st pe name report, (forall tid, prints spawn_view (fun _ _ => False) (report tid)) ->
    uwp (spawn_many k mode st pe name report) (fun _ s' => table_ok s' /\ (forall sub', Some sub = Some sub' -> streq sub' "kill" = true ->
      live (tids s') = [] /\ killed (u_calls s') = killed (u_calls s) ++ (if z2b (s_spawn_inited s) then live (tids s) else [])))
      (fun _ _ => False) s1).
  { intros. eapply uwp_mono; [by apply spawn_many_wp|]. intros [] s' T'. by apply HQ. }
  assert (Hprint : forall f ap, fmt_ok (S (length (bytes_of_string f))) (bytes_of_string f) (map kind_of ap) = true ->
    prints spawn_view (fun _ _ => False) (uprintf f ap)) by (intros; by apply prints_printf).
  destruct (streq sub "spin").
  { apply uwp_bind, Hopt. intros pe. apply Hmany. intros tid.
    destruct (negb (pe =? 0)); [apply Hprint; vm_compute; reflexivity|apply prints_ret]. }
  destruct (streq sub "yield").
  { apply uwp_bind, Hopt. intros pe. apply Hmany. intros tid. apply Hprint. vm_compute. reflexivity. }
  destruct (streq sub "sleep").
  { destruct (argv !! 3%nat) as [t|] eqn:E3.
    2: { eapply uwp_mono; [by apply Husage|]. intros [] s2 T2. by apply HQ. }
    apply uwp_bind, Hnum; [by eapply list_elem_of_lookup_2|]. intros st. apply uwp_bind, Hopt. intros pe.
    apply Hmany. intros tid. apply Hprint. vm_compute. reflexivity. }
  eapply uwp_mono; [by apply Husage|]. intros [] s2 T2. by apply HQ.
Qed.

(** Three workers, then a kill. *)
Definition demo_spawned : ustate :=
  match @spawn demo_kernel [bytes_of_string "spawn"; bytes_of_string "spin"; bytes_of_string "3"] user_image with
  | Ret (_, s) => s | _ => user_image
  end.

Lemma spawn_counts_workers_witness :
  exists s', @spawn demo_kernel [bytes_of_string "spawn"; bytes_of_string "kill"] demo_spawned = Ret (inl tt, s') /\
  killed (u_calls s') = [5; 6; 7] /\ live (tids s') = [].
Proof.
  assert (L : live (tids demo_spawned) = [5; 6; 7] /\ s_spawn_active demo_spawned = 3 /\ length (tids demo_spawned) = SPAWN_MAX /\
    z2b (s_spawn_inited demo_spawned) = true /\ killed (u_calls demo_spawned) = [])
    by (repeat (split; [vm_compute; reflexivity|]); vm_compute; reflexivity).
  destruct L as (L & A & N & I & C).
  assert (T : table_ok demo_spawned) by (split; [exact N|rewrite A, L; reflexivity]).
  assert (Hargs : Forall (fun a => is_Some (atoi_arg a)) [bytes_of_string "spawn"; bytes_of_string "kill"])
    by (apply Forall_cons; split; [exists 0; vm_compute; reflexivity|apply Forall_cons; split; [exists 0; vm_compute; reflexivity|apply List.Forall_nil]]).
  pose proof (@spawn_counts_workers demo_kernel [bytes_of_string "spawn"; bytes_of_string "kill"] demo_spawned
    (demo_isolated spawn_view (fun _ _ => eq_refl)) N (fun _ => T)
    Hargs) as W.
  unfold uwp, wp in W. destruct (spawn _ demo_spawned) as [[[[]|c] s']| | |]; try contradiction.
  destruct W as [_ W]. destruct (W _ eq_refl ltac:(vm_compute; reflexivity)) as [W1 W2].
  exists s'. split; [reflexivity|]. rewrite I, C, L in W2. split; [exact W2|exact W1].
Defined.
