(* ===== verification/Monitor.v ===== *)
(** * Thread monitors ([user/monitor.c])

    Up to four threads that print the thread table periodically, and the shell's
    interface to them. *)
From stdpp Require Import base numbers list gmap strings.
From Stdlib Require Import ZArith Lia.
From S2P Require Import Prelude Mem Machine CString Stdio UserEnv.

Local Open Scope Z_scope.

Definition MON_MAX : nat := 4.
Definition MON_THREAD_LIST_MAX : Z := 32.
Definition MON_F_USER_ONLY : Z := 1.
Definition MON_F_RUNNING_ONLY : Z := 2.
Definition MON_F_HIDE_IDLE : Z := 4.

(** [thread_state_name] ([uapi/uthread.h]) *)
Definition thread_state_name (s : Z) : string :=
  if s =? 0 then "UNUSED" else if s =? 1 then "RUNNABLE" else if s =? 2 then "RUNNING" else
  if s =? 3 then "SLEEP" else if s =? 4 then "WAIT" else if s =? 5 then "ZOMBIE" else
  if s =? 6 then "BLOCKED" else "?".

Definition set_mo_used (v : Z) (m : mon_ctx_t) : mon_ctx_t :=
  {| mo_used := v; mo_tid := mo_tid m; mo_seq := mo_seq m; mo_period := mo_period m;
     mo_remaining := mo_remaining m; mo_flags := mo_flags m |}.
Definition set_mo_tid (v : Z) (m : mon_ctx_t) : mon_ctx_t :=
  {| mo_used := mo_used m; mo_tid := v; mo_seq := mo_seq m; mo_period := mo_period m;
     mo_remaining := mo_remaining m; mo_flags := mo_flags m |}.
Definition set_mo_seq (v : Z) (m : mon_ctx_t) : mon_ctx_t :=
  {| mo_used := mo_used m; mo_tid := mo_tid m; mo_seq := v; mo_period := mo_period m;
     mo_remaining := mo_remaining m; mo_flags := mo_flags m |}.
Definition set_mo_remaining (v : Z) (m : mon_ctx_t) : mon_ctx_t :=
  {| mo_used := mo_used m; mo_tid := mo_tid m; mo_seq := mo_seq m; mo_period := mo_period m;
     mo_remaining := v; mo_flags := mo_flags m |}.

Section monitor.
Context {cfg : Config} {K : UserKernel}.

Definition get_mon (i : nat) : U mon_ctx_t :=
  fun s => match g_mons s !! i with Some m => Ret (inl m, s) | None => Undef end.
Definition upd_mon (i : nat) (f : mon_ctx_t -> mon_ctx_t) : U unit := uput (fun s => set_mons (alter f i (g_mons s)) s).

(** ** The table *)

Definition fmt_hart (hart : Z) (bufsz : nat) : U (list Z) :=
  if 0 <=? hart then usnprintf bufsz "%d" [VaNum hart] else usnprintf bufsz "---" [].

Definition mon_filter_pass (flags : Z) (ti : u_thread_info) : bool :=
  if negb (Z.land flags MON_F_USER_ONLY =? 0) && (ti_is_user ti =? 0) then false else
  if negb (Z.land flags MON_F_RUNNING_ONLY =? 0) && (ti_cpu ti <? 0) then false else
  if negb (Z.land flags MON_F_HIDE_IDLE =? 0) && (0 <=? ti_tid ti) && (ti_tid ti <? MAX_HARTS) then false else true.

Definition thread_line (ti : u_thread_info) : U unit :=
  let st := thread_state_name (ti_state ti) in
  let mode := if ti_is_user ti =? 0 then 83 else 85 in
  cpu_s <~ fmt_hart (ti_cpu ti) 4 ;;
  last_s <~ fmt_hart (ti_last_hart ti) 5 ;;
  uprintf (" %-4d %-9s  %c   %-3s %-4s %6u %9llu %s" ++ nl)
    [VaNum (ti_tid ti); VaStr (Some (bytes_of_string st)); VaNum mode; VaStr (Some cpu_s); VaStr (Some last_s);
     VaNum (ti_migrations ti); VaNum (ti_runs ti); VaStr (Some (ti_name ti))].

(** The first [n] of the entries the kernel filled in. *)
Definition print_threads_table (flags : Z) (infos : list u_thread_info) (n : Z) : U unit :=
  uprint (" TID  STATE     MODE CPU LAST   MIG      RUNS  NAME" ++ nl) ;~
  uprint (" ---- --------- ---- --- ---- ------ --------- ---------------" ++ nl) ;~
  if Z.of_nat (length infos) <? n then uundef else
  ufor (take (Z.to_nat n) infos) (fun ti => if mon_filter_pass flags ti then thread_line ti else uret tt).

(** ** The thread *)

(** One iteration of [monitor_main]'s loop on slot [idx]. *)
Definition monitor_round (idx : nat) : U unit :=
  m <~ get_mon idx ;;
  if mo_used m =? 0 then thread_exit_u 0 else
  usleep (mo_period m) ;~
  r <~ uget uk_list ;;
  let '(n, infos) := r in
  m <~ get_mon idx ;;
  (if n <? 0 then uprintf (nl ++ "[mon tid=%d] thread_list failed rc=%d" ++ nl) [VaNum (mo_tid m); VaNum n]
   else
     upd_mon idx (set_mo_seq (u32 (mo_seq m + 1))) ;~
     uprintf (nl ++ "[mon tid=%d seq=%u period=%u flags=0x%x]" ++ nl)
       [VaNum (mo_tid m); VaNum (mo_seq m); VaNum (mo_period m); VaNum (mo_flags m)] ;~
     print_threads_table (mo_flags m) infos n) ;~
  m <~ get_mon idx ;;
  if 0 <=? mo_remaining m then
    let remaining := mo_remaining m - 1 in
    upd_mon idx (set_mo_remaining remaining) ;~
    if remaining =? 0 then upd_mon idx (set_mo_used 0) ;~ thread_exit_u 0 else uret tt
  else uret tt.

(** [for (;;)]: more than [fuel] iterations are divergence. *)
Fixpoint monitor_loop (fuel : nat) (idx : nat) : U unit :=
  match fuel with O => diverge | S f => monitor_round idx ;~ monitor_loop f idx end.
Definition monitor_main (fuel : nat) (idx : Z) : U unit :=
  if (idx <? 0) || (Z.of_nat MON_MAX <=? idx) then thread_exit_u (-1) else monitor_loop fuel (Z.to_nat idx).

(** ** Slots and the shell's interface *)

Fixpoint mon_scan (l : list mon_ctx_t) (i : nat) : option nat :=
  match l with [] => None | m :: l => if mo_used m =? 0 then Some i else mon_scan l (S i) end.
Definition mon_alloc : U (option nat) :=
  r <~ uget (fun s => mon_scan (g_mons s) 0) ;;
  match r with
  | None => uret None
  | Some i =>
    upd_mon i (fun _ => {| mo_used := 1; mo_tid := -1; mo_seq := 0; mo_period := 10; mo_remaining := -1; mo_flags := 0 |}) ;~
    uret (Some i)
  end.

Fixpoint mon_find (l : list mon_ctx_t) (tid : Z) (i : nat) : option nat :=
  match l with
  | [] => None
  | m :: l => if negb (mo_used m =? 0) && (mo_tid m =? tid) then Some i else mon_find l tid (S i)
  end.
Definition mon_find_by_tid (tid : Z) : U (option nat) := uget (fun s => mon_find (g_mons s) tid 0).

Definition mon_start_ex (period_ticks count flags : Z) : U Z :=
  let period_ticks := if period_ticks =? 0 then 1 else period_ticks in
  r <~ mon_alloc ;;
  match r with
  | None => uret (-1)
  | Some i =>
    upd_mon i (fun m => {| mo_used := mo_used m; mo_tid := mo_tid m; mo_seq := mo_seq m; mo_period := period_ticks;
                           mo_remaining := count; mo_flags := flags |}) ;~
    tid <~ ucreate monitor_main_entry (Z.of_nat i) (bytes_of_string "monitor") ;;
    if tid <? 0 then upd_mon i (set_mo_used 0) ;~ uret tid
    else upd_mon i (set_mo_tid tid) ;~ uret tid
  end.
Definition mon_start (period_ticks count : Z) : U Z := mon_start_ex period_ticks count 0.

Definition when_slot (m : option nat) (k : nat -> U unit) : U unit := match m with Some i => k i | None => uret tt end.
Definition mon_stop (tid : Z) : U Z :=
  m <~ mon_find_by_tid tid ;;
  when_slot m (fun i => upd_mon i (set_mo_used 0)) ;~
  rc <~ ukill tid ;;
  rc <~ (if rc =? 0 then
           j <~ ujoin tid ;;
           let join_rc := fst j in
           uret (if (join_rc <? 0) && negb (join_rc =? -3) then join_rc else rc)
         else uret rc) ;;
  when_slot m (fun i => upd_mon i (set_mo_tid (-1))) ;~
  uret rc.

Definition mon_list : U unit :=
  uprint ("Active monitors:" ++ nl) ;~
  ufor (seq 0 MON_MAX) (fun i =>
    m <~ get_mon i ;;
    if mo_used m =? 0 then uret tt else
    uprintf ("  tid=%d period=%u remaining=%d seq=%u flags=0x%x" ++ nl)
      [VaNum (mo_tid m); VaNum (mo_period m); VaNum (mo_remaining m); VaNum (mo_seq m); VaNum (mo_flags m)]).

Definition mon_once : U unit :=
  r <~ uget uk_list ;;
  let '(n, infos) := r in
  if n <? 0 then uprintf ("mon: thread_list failed rc=%d" ++ nl) [VaNum n] else
  print_threads_table 0 infos n ;~
  if n =? MON_THREAD_LIST_MAX then puts "mon: output truncated (increase MON_THREAD_LIST_MAX if needed)" else uret tt.

End monitor.

(** ** Specification *)

Definition slept (l : list call) : list Z := omap (fun c => match c with CSleep t => Some t | _ => None end) l.
Definition mon_view (i : nat) (s : ustate) : option mon_ctx_t * list call := (g_mons s !! i, u_calls s).
(** Slot [i] is taken by a monitor with this period and countdown. *)
Record monitoring (i : nat) (period remaining : Z) (s : ustate) : Prop := {
  mg_slot : exists m, g_mons s !! i = Some m /\ mo_used m <> 0 /\ mo_period m = period /\ mo_remaining m = remaining
}.
(** The kernel fills in as many entries as it says. *)
Definition lists_ok {K : UserKernel} : Prop := forall s, fst (uk_list s) <= Z.of_nat (length (snd (uk_list s))).

Section monitor_spec.
Context {cfg : Config} {K : UserKernel} (i : nat) (Hv : isolated (mon_view i)) (Hl : lists_ok).

Lemma mon_parts s s' : mon_view i s' = mon_view i s -> g_mons s' !! i = g_mons s !! i /\ u_calls s' = u_calls s.
Proof. by intros [= H1 H2]. Qed.

Section with_exit.
Variable E : Z -> ustate -> Prop.

Lemma get_mon_wp m Q s : g_mons s !! i = Some m -> Q m s -> uwp (get_mon i) Q E s.
Proof. intros H HQ. unfold uwp, wp, get_mon. by rewrite H. Qed.

Lemma thread_line_prints ti : prints (mon_view i) E (thread_line ti).
Proof.
  intros s. unfold thread_line, fmt_hart.
  apply uwp_bind. apply (uwp_mono _ _ (fun _ s' => s' = s)).
  { destruct (0 <=? ti_cpu ti); apply snprintf_keeps; (lia || vm_compute; reflexivity). }
  intros cpu_s s1 ->. apply uwp_bind. apply (uwp_mono _ _ (fun _ s' => s' = s)).
  { destruct (0 <=? ti_last_hart ti); apply snprintf_keeps; (lia || vm_compute; reflexivity). }
  intros last_s s1 ->. apply prints_printf; [exact Hv|vm_compute; reflexivity].
Qed.

Lemma table_prints flags s : prints (mon_view i) E (print_threads_table flags (snd (uk_list s)) (fst (uk_list s))).
Proof.
  unfold print_threads_table. pose proof (Hl s) as L. rewrite (proj2 (Z.ltb_ge _ _)) by exact L.
  repeat (apply prints_seq; [apply prints_printf; [exact Hv|vm_compute; reflexivity]|]).
  apply prints_for. intros ti. destruct (mon_filter_pass flags ti); [apply thread_line_prints|apply prints_ret].
Qed.
End with_exit.

Lemma mons_alter f s m : g_mons s !! i = Some m -> g_mons (set_mons (alter f i (g_mons s)) s) !! i = Some (f m).
Proof. intros H. cbn [set_mons g_mons]. by rewrite list_lookup_alter_eq, H. Qed.

(** One period: the slot keeps its settings and counts down, or the thread ends. *)
Lemma monitor_round_wp p r s :
  monitoring i p r s ->
  uwp (monitor_round i)
    (fun _ s' => r <> 1 /\ monitoring i p (if 0 <=? r then r - 1 else r) s' /\ slept (u_calls s') = slept (u_calls s) ++ [p])
    (fun code s' => r = 1 /\ code = 0 /\ (exists m, g_mons s' !! i = Some m /\ mo_used m = 0) /\
       slept (u_calls s') = slept (u_calls s) ++ [p]) s.
Proof.
  intros [(m & Hm & Hu & Hp & Hr)]. unfold monitor_round. set (E := fun (_ : Z) (_ : ustate) => _).
  apply uwp_bind, (get_mon_wp _ m); [exact Hm|]. rewrite (proj2 (Z.eqb_neq _ _)) by exact Hu.
  apply uwp_bind, uwp_put. set (s1 := uk_sleep _ _).
  assert (H1 : g_mons s1 !! i = Some m /\ slept (u_calls s1) = slept (u_calls s) ++ [p]).
  { pose proof (iso_sleep _ Hv (mo_period m) (add_call (CSleep (mo_period m)) s)) as H. fold s1 in H.
    apply mon_parts in H as [-> ->]. split; [exact Hm|]. cbn [add_call u_calls]. unfold slept. rewrite omap_app. cbn.
    by rewrite Hp. }
  clearbody s1. destruct H1 as [Hm1 C1]. apply uwp_bind, uwp_get. destruct (uk_list s1) as [n infos] eqn:El.
  apply uwp_bind, (get_mon_wp _ m); [exact Hm1|]. apply uwp_bind.
  apply (uwp_mono _ _ (fun _ s' => exists m', g_mons s' !! i = Some m' /\ mo_used m' = mo_used m /\ mo_period m' = p /\
    mo_remaining m' = r /\ slept (u_calls s') = slept (u_calls s) ++ [p])).
  { destruct (n <? 0).
    - eapply uwp_mono; [apply (prints_printf (mon_view i) Hv); vm_compute; reflexivity|].
      intros [] s2 E2. apply mon_parts in E2 as [-> ->]. by exists m.
    - apply uwp_bind, uwp_put. set (s2 := set_mons _ s1).
      assert (Hm2 : g_mons s2 !! i = Some (set_mo_seq (u32 (mo_seq m + 1)) m)) by by apply mons_alter.
      apply (uwp_prints (mon_view i)); [apply prints_printf; [exact Hv|vm_compute; reflexivity]|]. intros s3 E3.
      pose proof (table_prints E (mo_flags m) s1) as T. rewrite El in T. cbn [fst snd] in T.
      eapply uwp_mono; [apply T|]. intros [] s4 E4. rewrite E3 in E4. apply mon_parts in E4 as [-> ->].
      exists (set_mo_seq (u32 (mo_seq m + 1)) m). split; [exact Hm2|]. split; [reflexivity|].
      split; [exact Hp|]. split; [exact Hr|exact C1]. }
  intros [] s2 (m2 & Hm2 & Hu2 & Hp2 & Hr2 & C2). apply uwp_bind, (get_mon_wp _ m2); [exact Hm2|].
  rewrite Hr2. destruct (Z.leb_spec 0 r) as [L|L].
  2: { apply uwp_ret. split; [lia|]. split; [|exact C2]. split. exists m2. by rewrite Hu2. }
  apply uwp_bind, uwp_put. pose proof (mons_alter (set_mo_remaining (r - 1)) s2 m2 Hm2) as Hm3.
  set (s3 := set_mons _ s2) in *. destruct (Z.eqb_spec (r - 1) 0) as [D|D].
  - apply uwp_bind, uwp_put. apply uwp_exit. split; [lia|]. split; [done|]. split; [|exact C2].
    eexists. split; [by apply mons_alter|done].
  - apply uwp_ret. split; [lia|]. split; [|exact C2]. split. eexists. split; [exact Hm3|].
    by rewrite <- Hu2 in Hu.
Qed.

End monitor_spec.

Lemma monitor_loop_counts {cfg : Config} {K : UserKernel} i p n fuel s :
  isolated (mon_view i) -> lists_ok -> monitoring i p (Z.of_nat (S n)) s -> (n < fuel)%nat ->
  uwp (monitor_loop fuel i) (fun _ _ => False)
    (fun code s' => code = 0 /\ (exists m, g_mons s' !! i = Some m /\ mo_used m = 0) /\
       slept (u_calls s') = slept (u_calls s) ++ replicate (S n) p) s.
Proof.
  intros Hv Hl. revert fuel s. induction n as [|n IH]; intros [|f] s Hm Hf; [lia| |lia|]; cbn [monitor_loop];
    unfold uwp, ubind; apply wp_bind; (eapply wp_mono; [by apply (monitor_round_wp i Hv Hl p _ s Hm)|]); intros [[]|code] s1 H.
  - destruct H as (H & _). by destruct H.
  - destruct H as (_ & -> & Hs & C). by split.
  - destruct H as (_ & H1 & C). rewrite (proj2 (Z.leb_le _ _)) in H1 by lia.
    replace (Z.of_nat (S (S n)) - 1) with (Z.of_nat (S n)) in H1 by lia.
    eapply wp_mono; [exact (IH f s1 H1 ltac:(lia))|]. intros [[]|code] s2 H2; [done|]. destruct H2 as (-> & Hs & C2).
    split; [done|]. split; [done|]. rewrite C2, C, <- app_assoc. done.
  - destruct H as (H & _). lia.
Qed.

Lemma monitor_loop_forever {cfg : Config} {K : UserKernel} i p r fuel s :
  isolated (mon_view i) -> lists_ok -> monitoring i p r s -> r <= 0 -> monitor_loop fuel i s = Diverge.
Proof.
  intros Hv Hl. revert r s. induction fuel as [|f IH]; intros r s Hm Hr; [done|]. cbn [monitor_loop].
  pose proof (monitor_round_wp i Hv Hl p r s Hm) as W. unfold uwp, wp in W. unfold ubind, bind.
  destruct (monitor_round i s) as [[[[]|code] s1]| | |]; try contradiction.
  - destruct W as (_ & H1 & _). apply (IH (if 0 <=? r then r - 1 else r)); [exact H1|].
    destruct (0 <=? r); lia.
  - destruct W as (W & _). lia.
Qed.


(** [mon start 5 3] on an idle table, and its thread. *)
Definition demo_mon : ustate :=
  match @mon_start demo_kernel 5 3 user_image with Ret (_, s) => s | _ => user_image end.

Definition mon_config : Config :=
  {| MAX_HARTS := 2; NDEBUG := false; source_dir := "/ccos/"; addr_g_thread_stacks := 0; addr_g_kstack := 0; addr_g_cpus := 0;
     addr_idle_main := 0; addr_trap_entry := 0; addr_g_dtb := 0; poll_fuel := 16; MAX_HARTS_ok := conj eq_refl eq_refl |}.

Lemma demo_mon_slot : g_mons demo_mon !! 0%nat =
  Some {| mo_used := 1; mo_tid := 5; mo_seq := 0; mo_period := 5; mo_remaining := 3; mo_flags := 0 |}.
Proof. vm_compute. reflexivity. Qed.
Lemma demo_monitoring : monitoring 0 5 (Z.of_nat 3) demo_mon.
Proof. split. eexists. split; [exact demo_mon_slot|]. split; [discriminate|]. by split. Qed.
Lemma demo_lists_ok : @lists_ok demo_kernel.
Proof. intros s. apply Z.le_refl. Qed.

