(* ===== verification/Shell.v ===== *)
(** * The shell ([user/shell.c], [user/main.c])

    Commands either run in the shell's thread or are handed to a worker thread
    through a slot of [g_procs]; the worker parses the line again. *)
From stdpp Require Import base numbers list gmap strings.
From Stdlib Require Import ZArith Lia.
From S2P Require Import Prelude Mem Machine CString Stdio DateTime UserEnv ShellParse Spawn Monitor.

Local Open Scope Z_scope.

Definition SHELL_MAX_LINE : nat := 128.
Definition SHELL_MAX_ARGS : nat := 8.
Definition SHELL_THREAD_LIST_MAX : Z := 32.
Definition SHELL_READ_OK : Z := 1.
Definition SHELL_READ_EOF : Z := 0.
Definition SHELL_READ_INTR : Z := -2.
Definition SHELL_READ_ERR : Z := -1.

Inductive shell_cmd_fn : Type :=
| cmd_help | cmd_echo | cmd_sleep | cmd_ps | cmd_jobs | cmd_kill | cmd_rq | cmd_date | cmd_uptime
| cmd_irqstat | cmd_spawn | cmd_mon | cmd_exit.
Record shell_cmd_t := { sh_name : string; sh_fn : shell_cmd_fn; sh_help : string; sh_run_in_shell : bool }.

Definition g_shell_cmds : list shell_cmd_t := [
  {| sh_name := "help"; sh_fn := cmd_help; sh_help := "show this help"; sh_run_in_shell := true |};
  {| sh_name := "echo"; sh_fn := cmd_echo; sh_help := "echo arguments"; sh_run_in_shell := true |};
  {| sh_name := "sleep"; sh_fn := cmd_sleep; sh_help := "sleep <ticks> (thread sleep)"; sh_run_in_shell := false |};
  {| sh_name := "ps"; sh_fn := cmd_ps; sh_help := "list threads"; sh_run_in_shell := true |};
  {| sh_name := "jobs"; sh_fn := cmd_jobs; sh_help := "list user threads"; sh_run_in_shell := true |};
  {| sh_name := "kill"; sh_fn := cmd_kill; sh_help := "kill <tid>"; sh_run_in_shell := true |};
  {| sh_name := "rq"; sh_fn := cmd_rq; sh_help := "show per-hart runqueues"; sh_run_in_shell := true |};
  {| sh_name := "date"; sh_fn := cmd_date; sh_help := "date"; sh_run_in_shell := false |};
  {| sh_name := "uptime"; sh_fn := cmd_uptime; sh_help := "uptime"; sh_run_in_shell := false |};
  {| sh_name := "irqstat"; sh_fn := cmd_irqstat; sh_help := "irqstat"; sh_run_in_shell := false |};
  {| sh_name := "spawn"; sh_fn := cmd_spawn; sh_help := "spawn test threads (spin/yield/sleep/list/kill)";
     sh_run_in_shell := true |};
  {| sh_name := "mon"; sh_fn := cmd_mon;
     sh_help := "monitor: mon once | mon start <ticks> [count] | mon stop <tid> | mon list";
     sh_run_in_shell := false |};
  {| sh_name := "exit"; sh_fn := cmd_exit; sh_help := "exit shell"; sh_run_in_shell := true |} ].

Fixpoint find_cmd (l : list shell_cmd_t) (name : list Z) : option shell_cmd_t :=
  match l with
  | [] => None
  | c :: l => if streq name (sh_name c) then Some c else find_cmd l name
  end.
Definition shell_find_cmd : list Z -> option shell_cmd_t := find_cmd g_shell_cmds.

Section shell.
Context {cfg : Config} {K : UserKernel}.

(** ** Command slots *)

Fixpoint proc_scan (l : list ShellProc) (i : nat) : option nat :=
  match l with [] => None | p :: l => if in_use p =? 0 then Some i else proc_scan l (S i) end.
(** The index of the slot; the line is cut to the size of the array. *)
Definition shell_proc_alloc (line : list Z) : U (option nat) :=
  ps <~ uget g_procs ;;
  match proc_scan ps 0 with
  | None => uret None
  | Some i =>
    uput (set_procs (<[i := {| in_use := 1; pr_line := take (SHELL_MAX_LINE - 1) line |}]> ps)) ;~
    uret (Some i)
  end.
Definition shell_proc_free (i : nat) : U unit :=
  uput (fun s => set_procs (<[i := {| in_use := 0; pr_line := [] |}]> (g_procs s)) s).

(** ** Commands *)

Definition uatoi_shell (a : list Z) : U Z := match shell_atoi a with Some v => uret v | None => uundef end.

Definition do_help : U unit :=
  puts "available commands:" ;~
  ufor g_shell_cmds (fun c =>
    uprintf ("  %-6s - %s" ++ nl) [VaStr (Some (bytes_of_string (sh_name c))); VaStr (Some (bytes_of_string (sh_help c)))]).

(** The arguments from the second on, each followed by a blank or the newline. *)
Fixpoint echo_args (args : list (list Z)) : U unit :=
  match args with
  | [] => uret tt
  | a :: args =>
    uprintf "%s%s" [VaStr (Some a); VaStr (Some (match args with [] => [10] | _ => [32] end))] ;~ echo_args args
  end.
Definition do_echo (argv : list (list Z)) : U unit :=
  match argv with _ :: (_ :: _) as args => echo_args args | _ => puts "" end.

Definition do_sleep (argv : list (list Z)) : U unit :=
  match argv !! 1%nat with
  | None => puts "usage: sleep <ticks>"
  | Some a =>
    ticks <~ uatoi_shell a ;;
    if ticks <=? 0 then puts "invalid ticks" else
    uprintf ("sleeping %d ticks..." ++ nl) [VaNum ticks] ;~ usleep ticks ;~ puts "done."
  end.

(** The table of [cmd_ps] is the one of the monitors, without a filter. *)
Definition do_ps : U unit :=
  r <~ uget uk_list ;;
  let '(n, infos) := r in
  if n <? 0 then uprintf ("ps: thread_list failed, rc=%d" ++ nl) [VaNum n] else
  uprint (" TID  STATE     MODE CPU LAST   MIG      RUNS  NAME" ++ nl) ;~
  uprint (" ---- --------- ---- --- ---- ------ --------- ---------------" ++ nl) ;~
  (if Z.of_nat (length infos) <? n then uundef else ufor (take (Z.to_nat n) infos) thread_line) ;~
  if n =? SHELL_THREAD_LIST_MAX then puts "ps: output truncated (increase SHELL_THREAD_LIST_MAX if needed)" else uret tt.

Definition do_jobs : U unit :=
  r <~ uget uk_list ;;
  let '(n, infos) := r in
  if n <? 0 then uprintf ("jobs: sys_thread_list failed, rc=%d" ++ nl) [VaNum n] else
  uprint (" TID  STATE     NAME" ++ nl) ;~
  uprint (" ---- --------- ------------" ++ nl) ;~
  (if Z.of_nat (length infos) <? n then uundef else
   ufor (take (Z.to_nat n) infos) (fun ti =>
     if ti_is_user ti =? 0 then uret tt else
     uprintf (" %-4d %-9s %s" ++ nl)
       [VaNum (ti_tid ti); VaStr (Some (bytes_of_string (thread_state_name (ti_state ti)))); VaStr (Some (ti_name ti))])) ;~
  if n =? SHELL_THREAD_LIST_MAX then puts "jobs: output truncated (increase SHELL_THREAD_LIST_MAX if needed)" else uret tt.

Definition do_kill (argv : list (list Z)) : U unit :=
  match argv !! 1%nat with
  | None => puts "usage: kill <tid>"
  | Some a =>
    tid <~ uatoi_shell a ;;
    if tid <=? 0 then puts "kill: invalid tid" else
    self <~ uget uk_current ;;
    if tid =? self then puts "kill: killing myself..." ;~ thread_exit_u (-9) else
    rc <~ ukill tid ;;
    if rc <? 0 then uprintf ("kill: failed to kill tid=%d, rc=%d" ++ nl) [VaNum tid; VaNum rc]
    else uprintf ("kill: sent SIGKILL to tid=%d" ++ nl) [VaNum tid]
  end.

(** "a -> b -> c": an entry beyond the array is undefined. *)
Fixpoint rq_line (tids : list Z) (len : nat) : U unit :=
  match len, tids with
  | O, _ => uret tt
  | S _, [] => uundef
  | S len, t :: tids => uprintf "%d" [VaNum t] ;~ (if (0 <? len)%nat then uprint " -> " else uret tt) ;~ rq_line tids len
  end.
Definition do_rq : U unit :=
  r <~ uget uk_snapshot ;;
  let '(n, states) := r in
  if n <? 0 then uprintf ("rq: syscall failed, rc=%d" ++ nl) [VaNum n] else
  uprint ("hart  len  queue" ++ nl) ;~
  uprint ("---- ----  ------------------------------" ++ nl) ;~
  if Z.of_nat (length states) <? n then uundef else
  ufor (take (Z.to_nat n) states) (fun st =>
    uprintf "%-4u %-4u  " [VaNum (rs_hart st); VaNum (rs_len st)] ;~
    if rs_len st =? 0 then puts "<empty>" else
    rq_line (rs_tids st) (Z.to_nat (rs_len st)) ;~ uprint nl).

(** After a failure the time structure is printed all the same: undefined. *)
Definition do_date : U unit :=
  r <~ uget (uk_clock 0) ;;
  let '(ret, ts) := r in
  (if ret <? 0 then uprintf ("date: clock_gettime failed (%d)" ++ nl) [VaNum ret] else uret tt) ;~
  match ts with
  | None => uundef
  | Some (sec, _) =>
    match epoch_to_utc_datetime sec with
    | None => uundef
    | Some dt =>
      uprintf ("%04d-%02d-%02d %02d:%02d:%02d" ++ nl)
        [VaNum (dt_year dt); VaNum (dt_month dt); VaNum (dt_day dt); VaNum (dt_hour dt); VaNum (dt_min dt); VaNum (dt_sec dt)]
    end
  end.

Definition do_uptime : U unit :=
  r <~ uget (uk_clock 1) ;;
  let '(ret, ts) := r in
  (if negb (ret =? 0) then uprint ("uptime: clock_gettime failed" ++ nl) else uret tt) ;~
  match ts with
  | None => uundef
  | Some (sec, nsec) => uprintf ("uptime: %llu.%09u seconds since kernel boot" ++ nl) [VaNum sec; VaNum nsec]
  end.

Definition do_irqstat : U unit :=
  r <~ uget uk_irqs ;;
  let '(n, stats) := r in
  if n <? 0 then uprintf ("irqstat: syscall failed (%ld)" ++ nl) [VaNum n] else
  uprint ("irq  count            last_tick(ns)        max_delta(ns)       name" ++ nl) ;~
  if Z.of_nat (length stats) <? n then uundef else
  ufor (take (Z.to_nat n) stats) (fun st =>
    if iq_count st =? 0 then uret tt else
    let name := match iq_name st with [] => [45] | l => l end in
    uprintf ("%3u  %10llu   0x%016llx   0x%016llx   %s" ++ nl)
      [VaNum (iq_irq st); VaNum (iq_count st); VaNum (iq_last_tick st); VaNum (iq_max_delta st); VaStr (Some name)]).

Definition mon_usage : U unit :=
  puts ("usage:" ++ nl ++ "  mon once" ++ nl ++ "  mon start <period_ticks> [count]" ++ nl ++ "  mon stop <tid>" ++ nl ++
        "  mon list" ++ nl).
Definition do_mon (argv : list (list Z)) : U unit :=
  match argv !! 1%nat with
  | None => mon_usage
  | Some sub =>
    if streq sub "once" then mon_once else
    if streq sub "list" then mon_list else
    if streq sub "start" then
      match argv !! 2%nat with
      | None => puts ("mon start: missing period_ticks" ++ nl)
      | Some a =>
        period <~ uatoi a ;;
        let period := u32 period in
        count <~ (match argv !! 3%nat with Some b => uatoi b | None => uret (-1) end) ;;
        tid <~ mon_start period count ;;
        if tid <? 0 then uprintf ("mon start failed rc=%d" ++ nl) [VaNum tid]
        else uprintf ("mon started: tid=%d period=%u count=%d" ++ nl) [VaNum tid; VaNum period; VaNum count]
      end
    else if streq sub "stop" then
      match argv !! 2%nat with
      | None => puts ("mon stop: missing tid" ++ nl)
      | Some a =>
        tid <~ uatoi a ;;
        rc <~ mon_stop tid ;;
        uprintf ("mon stop: tid=%d rc=%d" ++ nl) [VaNum tid; VaNum rc]
      end
    else puts ("mon: unknown subcommand" ++ nl)
  end.

(** [cmd->fn(argc, argv)] *)
Definition run_cmd (fn : shell_cmd_fn) (argv : list (list Z)) : U unit :=
  match fn with
  | cmd_help => do_help
  | cmd_echo => do_echo argv
  | cmd_sleep => do_sleep argv
  | cmd_ps => do_ps
  | cmd_jobs => do_jobs
  | cmd_kill => do_kill argv
  | cmd_rq => do_rq
  | cmd_date => do_date
  | cmd_uptime => do_uptime
  | cmd_irqstat => do_irqstat
  | cmd_spawn => spawn argv
  | cmd_mon => do_mon argv
  | cmd_exit => puts "shell exiting..." ;~ thread_exit_u 0
  end.

(** ** Dispatch *)

(** [shell_parse_line] on the line in its array. *)
Definition uparse (line : list Z) : U (list (list Z)) :=
  match shell_parse_line (line ++ [0]) SHELL_MAX_ARGS with
  | Some (argv, buf) => uret (map (arg_at buf) argv)
  | None => uundef
  end.

Definition shell_cmd_worker (proc : nat) : U unit :=
  p <~ uget (fun s => g_procs s !! proc) ;;
  match p with
  | None => uundef
  | Some p =>
    let line := take (SHELL_MAX_LINE - 1) (pr_line p) in
    shell_proc_free proc ;~
    argv <~ uparse line ;;
    match argv with
    | [] => thread_exit_u 0
    | name :: _ =>
      match shell_find_cmd name with
      | None => uprintf ("unknown command: %s" ++ nl) [VaStr (Some name)] ;~ thread_exit_u (-1)
      | Some cmd => run_cmd (sh_fn cmd) argv ;~ thread_exit_u 0
      end
    end
  end.

Definition shell_run_command (line : list Z) : U Z :=
  proc <~ shell_proc_alloc line ;;
  match proc with
  | None => puts "shell: no free proc slot (too many concurrent commands)" ;~ uret (-1)
  | Some proc =>
    tid <~ ucreate shell_cmd_worker_entry (Z.of_nat proc) (bytes_of_string "sh-cmd") ;;
    if tid <? 0 then
      shell_proc_free proc ;~ puts "shell: failed to create command thread" ;~ uret (-2)
    else
      j <~ ujoin tid ;;
      let '(rc, status) := j in
      if rc <? 0 then uprintf ("shell: thread_join failed, rc=%d" ++ nl) [VaNum rc] ;~ uret (-3)
      else uret status
  end.

Definition shell_dispatch_line (line : list Z) : U unit :=
  let raw_line := take (SHELL_MAX_LINE - 1) line in
  argv <~ uparse line ;;
  match argv with
  | [] => uret tt
  | name :: _ =>
    match shell_find_cmd name with
    | None => uprintf ("unknown command: %s" ++ nl) [VaStr (Some name)]
    | Some cmd =>
      if sh_run_in_shell cmd then run_cmd (sh_fn cmd) argv
      else shell_run_command raw_line ;~ uret tt
    end
  end.

(** ** The loops *)

Definition shell_read_line (line_size : Z) : U (Z * list Z) :=
  r <~ ugets line_size ;;
  uret (match r with
        | inl [] => (SHELL_READ_EOF, [])
        | inl line => (SHELL_READ_OK, line)
        | inr len => ((if len =? U_GETS_INTR then SHELL_READ_INTR else
                       if len <? 0 then SHELL_READ_ERR else SHELL_READ_EOF), [])
        end).

(** One prompt. *)
Definition shell_round : U unit :=
  uprint "> " ;~
  r <~ shell_read_line (Z.of_nat SHELL_MAX_LINE) ;;
  let '(r, line) := r in
  if r =? SHELL_READ_INTR then uret tt else
  if r =? SHELL_READ_ERR then puts "shell: read error" else
  if r =? SHELL_READ_EOF then uret tt else
  shell_dispatch_line line.
Fixpoint shell_loop (fuel : nat) : U unit :=
  match fuel with O => diverge | S f => shell_round ;~ shell_loop f end.
Definition shell_main_loop (fuel : nat) : U unit :=
  puts "tiny shell started. type 'help' for commands." ;~ shell_loop fuel.
Definition shell_thread (fuel : nat) : U unit := shell_main_loop fuel ;~ thread_exit_u 0.
Definition shell_start : U Z :=
  tid <~ ucreate shell_thread_entry 0 (bytes_of_string "shell") ;;
  (if tid <? 0 then puts "shell_start: failed to create shell thread" else uret tt) ;~
  uret tid.

(** [user_main]'s loop: one shell after the other. *)
Definition user_main_round : U unit :=
  shell_tid <~ shell_start ;;
  if shell_tid <? 0 then puts "failed to start shell, retrying after a while..." ;~ usleep 1 else
  uprintf ("main: started shell tid=%d, waiting for it to exit..." ++ nl) [VaNum shell_tid] ;~
  j <~ ujoin shell_tid ;;
  uprintf ("main: shell exited, status=%d, restarting a new shell..." ++ nl) [VaNum (snd j)].
Fixpoint user_main_loop (fuel : nat) : U unit :=
  match fuel with O => diverge | S f => user_main_round ;~ user_main_loop f end.
Definition user_main (fuel : nat) : U unit := puts "Welcome, hacker!" ;~ user_main_loop fuel.

End shell.

(** ** Specification *)

Section shell_spec.
Context {cfg : Config} {K : UserKernel} (Hv : isolated u_calls).
Notation E := (fun _ _ => False).

Lemma uparse_words l :
  Forall char_ok l -> uparse l = uret (take SHELL_MAX_ARGS (words l)).
Proof.
  intros H. unfold uparse. destruct (shell_parse_line_words l SHELL_MAX_ARGS H) as (argv & buf & -> & _ & ->). done.
Qed.

Lemma prints_calls str ap s :
  fmt_ok (S (length (bytes_of_string str))) (bytes_of_string str) (map kind_of ap) = true ->
  uwp (uprintf str ap) (fun _ s' => u_calls s' = u_calls s) E s.
Proof. intros H. by apply (prints_printf u_calls Hv). Qed.

Lemma ucreate_calls e a n s :
  uwp (ucreate e a n) (fun tid s' => u_calls s' = u_calls s ++ [CCreate e a n]) E s.
Proof.
  unfold uwp, wp, ucreate. destruct (uk_create _ _ _ _) as [t s'] eqn:C.
  pose proof (iso_create _ Hv e a n (add_call (CCreate e a n) s)) as H. rewrite C in H. exact H.
Qed.
Lemma ujoin_calls t s : uwp (ujoin t) (fun _ s' => u_calls s' = u_calls s ++ [CJoin t]) E s.
Proof.
  unfold uwp, wp, ujoin. destruct (uk_join _ _) as [[rc st] s'] eqn:C.
  pose proof (iso_join _ Hv t (add_call (CJoin t) s)) as H. rewrite C in H. exact H.
Qed.

(** A command line handed to a worker, the slot found and the slot missing. *)
Lemma run_command_calls l i s :
  proc_scan (g_procs s) 0 = Some i ->
  uwp (shell_run_command l) (fun r s' => exists tid,
    u_calls s' = u_calls s ++ CCreate shell_cmd_worker_entry (Z.of_nat i) (bytes_of_string "sh-cmd") ::
                 (if tid <? 0 then [] else [CJoin tid]) /\ (tid < 0 -> r = -2)) E s.
Proof.
  intros Hi. unfold shell_run_command, shell_proc_alloc. apply uwp_bind, uwp_bind, uwp_get. rewrite Hi.
  apply uwp_bind, uwp_put, uwp_ret. cbv beta iota. apply uwp_bind. eapply uwp_mono; [apply ucreate_calls|].
  intros tid s1 C1. change (u_calls (set_procs _ s)) with (u_calls s) in C1. destruct (Z.ltb_spec tid 0) as [L|L].
  - apply uwp_bind, uwp_put. apply (uwp_prints u_calls); [by apply prints_puts|]. intros s2 C2. apply uwp_ret.
    exists tid. rewrite (proj2 (Z.ltb_lt _ _) L). split; [|done]. rewrite C2. exact C1.
  - apply uwp_bind. eapply uwp_mono; [apply ujoin_calls|]. intros [rc status] s2 C2.
    assert (C : u_calls s2 = u_calls s ++ CCreate shell_cmd_worker_entry (Z.of_nat i) (bytes_of_string "sh-cmd") ::
      (if tid <? 0 then [] else [CJoin tid])) by (rewrite (proj2 (Z.ltb_ge _ _) L), C2, C1, <- app_assoc; done).
    destruct (rc <? 0); [|apply uwp_ret; exists tid; split; [exact C|lia]].
    apply (uwp_prints u_calls); [apply prints_printf; [exact Hv|vm_compute; reflexivity]|]. intros s3 C3. apply uwp_ret.
    exists tid. split; [|lia]. by rewrite C3.
Qed.

Lemma run_command_full l s :
  proc_scan (g_procs s) 0 = None -> uwp (shell_run_command l) (fun r s' => u_calls s' = u_calls s /\ r = -1) E s.
Proof.
  intros Hi. unfold shell_run_command, shell_proc_alloc. apply uwp_bind, uwp_bind, uwp_get. rewrite Hi.
  apply uwp_ret. cbv beta iota. apply (uwp_prints u_calls); [by apply prints_puts|]. intros s1 C. by apply uwp_ret.
Qed.

End shell_spec.

(** C32: an empty line does nothing and an unknown command only prints; a
    foreground command runs at once on the first eight words of the line; for any
    other the raw line is stored in the first free slot, a thread is created on that
    slot and joined, and the thread, whenever it starts, frees the slot and runs the
    same command on the same words, although the parser has cut the shell's own
    buffer to pieces; without a free slot the kernel is not called. *)
Theorem shell_dispatches {cfg : Config} {K : UserKernel} l s :
  Forall char_ok l -> (length l < SHELL_MAX_LINE)%nat -> isolated u_calls ->
  match take SHELL_MAX_ARGS (words l) with
  | [] => shell_dispatch_line l s = Ret (inl tt, s)
  | name :: args =>
    match shell_find_cmd name with
    | None => uwp (shell_dispatch_line l) (fun _ s' => u_calls s' = u_calls s) (fun _ _ => False) s
    | Some cmd =>
      if sh_run_in_shell cmd then shell_dispatch_line l s = run_cmd (sh_fn cmd) (name :: args) s else
      match proc_scan (g_procs s) 0 with
      | None => uwp (shell_dispatch_line l) (fun _ s' => u_calls s' = u_calls s) (fun _ _ => False) s
      | Some i =>
        uwp (shell_dispatch_line l) (fun _ s' => exists tid,
          u_calls s' = u_calls s ++ CCreate shell_cmd_worker_entry (Z.of_nat i) (bytes_of_string "sh-cmd") ::
                       (if tid <? 0 then [] else [CJoin tid])) (fun _ _ => False) s /\
        (exists k, shell_dispatch_line l s =
           ubind (ucreate shell_cmd_worker_entry (Z.of_nat i) (bytes_of_string "sh-cmd")) k
             (set_procs (<[i := {| in_use := 1; pr_line := l |}]> (g_procs s)) s)) /\
        (forall s', g_procs s' !! i = Some {| in_use := 1; pr_line := l |} ->
           shell_cmd_worker i s' = (run_cmd (sh_fn cmd) (name :: args) ;~ thread_exit_u 0)
             (set_procs (<[i := {| in_use := 0; pr_line := [] |}]> (g_procs s')) s'))
      end
    end
  end.
Proof.
  intros Hok Hlen Hv.
  assert (Ht : take (SHELL_MAX_LINE - 1) l = l) by (apply take_ge; unfold SHELL_MAX_LINE in *; lia).
  assert (Hd : shell_dispatch_line l =
    ubind (uret (take SHELL_MAX_ARGS (words l))) (fun argv =>
      match argv with
      | [] => uret tt
      | name :: _ =>
        match shell_find_cmd name with
        | None => uprintf ("unknown command: %s" ++ nl) [VaStr (Some name)]
        | Some cmd => if sh_run_in_shell cmd then run_cmd (sh_fn cmd) argv else shell_run_command l ;~ uret tt
        end
      end)) by (unfold shell_dispatch_line; by rewrite uparse_words, Ht).
  rewrite Hd. destruct (take SHELL_MAX_ARGS (words l)) as [|name args] eqn:Ew; [reflexivity|].
  destruct (shell_find_cmd name) as [cmd|] eqn:Ec.
  2: { apply uwp_bind, uwp_ret. rewrite Ec. by apply prints_calls. }
  destruct (sh_run_in_shell cmd) eqn:Er.
  { unfold ubind, bind, uret, ret at 1. by rewrite Ec, Er. }
  destruct (proc_scan (g_procs s) 0) as [i|] eqn:Ei.
  2: { apply uwp_bind, uwp_ret. rewrite Ec, Er. apply uwp_bind. eapply uwp_mono; [by apply run_command_full|].
       intros r s' [C _]. by apply uwp_ret. }
  split; [|split].
  - apply uwp_bind, uwp_ret. rewrite Ec, Er. apply uwp_bind. eapply uwp_mono; [by apply run_command_calls|].
    intros r s' (tid & C & _). apply uwp_ret. by exists tid.
  - eexists. unfold ubind at 1, bind at 1, uret at 1, ret at 1. rewrite Ec, Er.
    unfold shell_run_command, shell_proc_alloc. rewrite ubind_assoc, ubind_assoc.
    unfold uget at 1. unfold ubind at 1, bind at 1, bind at 1, gets at 1, uret at 1, ret at 1. rewrite Ei, Ht.
    rewrite ubind_assoc. unfold uput at 1. unfold ubind at 1, bind at 1, bind at 1, modify at 1, uret at 1, ret at 1.
    unfold ubind at 1, bind at 1, uret at 1, ret at 1. rewrite ubind_assoc. reflexivity.
  - intros s' Hs'. unfold shell_cmd_worker. unfold ubind at 1, bind at 1, uget, gets, bind at 1, uret at 1, ret at 1.
    rewrite Hs'. cbn [pr_line]. rewrite Ht, uparse_words by done. rewrite Ew.
    unfold ubind at 1, bind at 1. unfold shell_proc_free, uput, modify, bind at 1, uret at 1, ret at 1.
    unfold ubind at 1, bind at 1, uret at 1, ret at 1. by rewrite Ec.
Qed.

(** "date" goes to a worker on slot 0. *)
Definition date_line : list Z := bytes_of_string "date".
Definition date_cmd : shell_cmd_t :=
  {| sh_name := "date"; sh_fn := cmd_date; sh_help := "date"; sh_run_in_shell := false |}.

Lemma date_words : take SHELL_MAX_ARGS (words date_line) = [date_line].
Proof. vm_compute. reflexivity. Qed.
Lemma date_found : shell_find_cmd date_line = Some date_cmd.
Proof. vm_compute. reflexivity. Qed.
Lemma date_slot : proc_scan (g_procs user_image) 0 = Some 0%nat.
Proof. reflexivity. Qed.
Lemma date_ok : Forall char_ok date_line.
Proof. repeat (apply List.Forall_cons; [discriminate|]). apply List.Forall_nil. Qed.

Lemma shell_dispatches_witness :
  @uwp unit (@shell_dispatch_line mon_config demo_kernel date_line) (fun _ s' => exists tid,
    u_calls s' = [CCreate shell_cmd_worker_entry 0 (bytes_of_string "sh-cmd")] ++ (if tid <? 0 then [] else [CJoin tid]))
    (fun _ _ => False) user_image.
Proof.
  pose proof (@shell_dispatches mon_config demo_kernel date_line user_image date_ok ltac:(unfold SHELL_MAX_LINE; cbn; lia)
    (demo_isolated u_calls (fun _ _ => eq_refl))) as W.
  rewrite date_words, date_found, date_slot in W. exact (proj1 W).
Defined.
