(* ===== verification/ConsoleSpec.v ===== *)
(** * The console's input ring as a queue of characters *)
From stdpp Require Import base numbers list gmap strings.
From Stdlib Require Import ZArith Lia.
From S2P Require Import Prelude Mem Machine State Kernel Image RunQueue Smp Thread Uart Plic Platform Console Irq Sysfile Trap Boot Invariant ThreadSpec SchedSpec ThreadOps Quiet Syscalls TrapSpec System Demo.

Local Open Scope Z_scope.

Notation RB := CONSOLE_RBUF_SIZE.

(** The number of characters in the ring, and the characters, oldest first. *)
Definition used (r : console_state) : Z := (g_rx_head r - g_rx_tail r) mod RB.
Definition rx_at (r : console_state) (i : Z) : Z := default 0 (g_rx_buf r !! (i mod RB)).
Definition typed (r : console_state) : list Z :=
  map (fun i => rx_at r (g_rx_tail r + Z.of_nat i)) (seq 0 (Z.to_nat (used r))).

Lemma rb_value : RB = 1024.
Proof. reflexivity. Qed.

Lemma used_range r : 0 <= used r < RB.
Proof. apply Z.mod_pos_bound. rewrite rb_value. lia. Qed.

Lemma typed_length r : Z.of_nat (length (typed r)) = used r.
Proof. unfold typed. rewrite length_map, length_seq. pose proof (used_range r). lia. Qed.

Lemma next_mod t : 0 <= t < RB -> u32 (t + 1) mod RB = (t + 1) mod RB.
Proof. intros H. rewrite u32_small; [done|]. rewrite rb_value in *. lia. Qed.

(** The C tests are tests on the number of characters. *)
Lemma empty_used r : con_ok r -> rb_is_empty r = (used r =? 0).
Proof.
  intros (_ & Hh & Ht). unfold rb_is_empty, used. rewrite rb_value in *.
  destruct (Z.eqb_spec (g_rx_head r) (g_rx_tail r)) as [-> |D].
  - by rewrite Z.sub_diag.
  - symmetry. apply Z.eqb_neq. intros E. apply Z.mod_divide in E as [k Hk]; lia.
Qed.

Lemma full_used r : con_ok r -> rb_is_full r = (used r =? RB - 1).
Proof.
  intros (_ & Hh & Ht). unfold rb_is_full, used. rewrite next_mod by done. rewrite rb_value in *.
  apply eq_bool_prop_intro. rewrite !Is_true_true, !Z.eqb_eq. split; intros E.
  - rewrite <- E. destruct (decide (g_rx_head r = 1023)) as [-> |]; [reflexivity|].
    rewrite (Z.mod_small (g_rx_head r + 1)) by lia. replace (g_rx_head r - (g_rx_head r + 1)) with (-1) by lia. reflexivity.
  - destruct (Z.ltb_spec (g_rx_head r) (g_rx_tail r)) as [L|L].
    + replace (g_rx_head r - g_rx_tail r) with (g_rx_head r - g_rx_tail r + 1024 + (-1) * 1024) in E by lia.
      rewrite Z_mod_plus_full, Z.mod_small in E by lia. rewrite Z.mod_small; lia.
    + rewrite Z.mod_small in E by lia. replace (g_rx_head r) with 1023 by lia.
      change ((1023 + 1) mod 1024) with 0. lia.
Qed.

Lemma rx_at_mod r i : rx_at r (i mod RB) = rx_at r i.
Proof. unfold rx_at. by rewrite Z.mod_mod by (rewrite rb_value; lia). Qed.

(** Taking the oldest character. *)
Lemma typed_pop r :
  con_ok r -> used r <> 0 ->
  typed r = rx_at r (g_rx_tail r) :: typed (g_set_rx_tail (u32 (g_rx_tail r + 1) mod RB) r).
Proof.
  intros (_ & Hh & Ht) Hu. pose proof (used_range r) as Hr. rewrite next_mod by done.
  set (r' := g_set_rx_tail _ r).
  assert (Hu' : used r' = used r - 1).
  { unfold used, r'. cbn [g_set_rx_tail g_rx_head g_rx_tail]. rewrite rb_value in *.
    rewrite Zminus_mod_idemp_r. rewrite <- (Z.mod_small ((g_rx_head r - g_rx_tail r) mod 1024 - 1) 1024).
    - rewrite Zminus_mod_idemp_l. f_equal. lia.
    - unfold used in *. rewrite rb_value in *. lia. }
  unfold typed. rewrite Hu'. replace (Z.to_nat (used r)) with (S (Z.to_nat (used r - 1))) by lia.
  cbn [seq map]. rewrite Z.add_0_r. f_equal. rewrite <- seq_shift, map_map. apply map_ext. intros i.
  unfold r'. cbn [g_set_rx_tail g_rx_tail]. unfold rx_at at 2. cbn [g_rx_buf].
  rewrite Z.add_mod_idemp_l by (rewrite rb_value; lia). unfold rx_at. do 3 f_equal. lia.
Qed.

(** Adding a character. *)
Lemma typed_push r c :
  con_ok r -> used r <> RB - 1 ->
  let r' := g_set_rx_head (u32 (g_rx_head r + 1) mod RB) (g_set_rx_buf (<[g_rx_head r := c]> (g_rx_buf r)) r) in
  typed r' = typed r ++ [c] /\ con_ok r'.
Proof.
  intros (Hb & Hh & Ht) Hu r'. pose proof (used_range r) as Hr.
  assert (Hok : con_ok r').
  { split; [|split; [apply con_next_ok|exact Ht]]. intros i Hi. apply is_Some_insert_same. by apply Hb. }
  split; [|exact Hok]. unfold r'. rewrite next_mod by done. clear Hok r'. set (r' := g_set_rx_head _ _).
  assert (Hu' : used r' = used r + 1).
  { unfold used, r'. cbn [g_set_rx_head g_set_rx_buf g_rx_head g_rx_tail]. rewrite rb_value in *.
    rewrite Zminus_mod_idemp_l. rewrite <- (Z.mod_small ((g_rx_head r - g_rx_tail r) mod 1024 + 1) 1024).
    - rewrite Zplus_mod_idemp_l. f_equal. lia.
    - unfold used in *. rewrite rb_value in *. lia. }
  assert (Hhead : (g_rx_tail r + used r) mod RB = g_rx_head r).
  { unfold used. rewrite Zplus_mod_idemp_r. replace (g_rx_tail r + (g_rx_head r - g_rx_tail r)) with (g_rx_head r) by lia.
    by apply Z.mod_small. }
  unfold typed. rewrite Hu'. replace (Z.to_nat (used r + 1)) with (S (Z.to_nat (used r))) by lia.
  rewrite seq_S, map_app. cbn [map Nat.add]. f_equal.
  - apply map_ext_in. intros i Hi. apply in_seq in Hi. unfold r', rx_at.
    cbn [g_set_rx_head g_set_rx_buf g_rx_tail g_rx_buf]. rewrite lookup_insert_ne; [done|].
    rewrite <- Hhead. intros E. rewrite rb_value in *.
    pose proof (Z.div_mod (g_rx_tail r + used r) 1024 ltac:(lia)) as D1.
    pose proof (Z.div_mod (g_rx_tail r + Z.of_nat i) 1024 ltac:(lia)) as D2. lia.
  - unfold r', rx_at. cbn [g_set_rx_head g_set_rx_buf g_rx_tail g_rx_buf]. rewrite Z2Nat.id by lia.
    by rewrite Hhead, lookup_insert_eq.
Qed.

Section console_spec.
Context {cfg : Config} {hws : Hardware} {dt : DeviceTree}.

Lemma console_push_spec ch s :
  con_ok (k_con s) ->
  wp (console_push ch) (fun _ s' => exists r', s' = k_set_con r' s /\ con_ok r' /\
    typed r' = if Z.of_nat (length (typed (k_con s))) <? RB - 1 then typed (k_con s) ++ [u8 ch] else typed (k_con s)) s.
Proof.
  intros Hok. pose proof Hok as (Hb & Hh & Ht). pose proof (used_range (k_con s)) as Hr.
  unfold console_push. apply wp_bind, wp_gets. rewrite full_used by done. rewrite typed_length.
  destruct (Z.eqb_spec (used (k_con s)) (RB - 1)) as [E|E]; cbn [negb when].
  - rewrite (proj2 (Z.ltb_ge _ _)) by lia. exists (k_con s). split; [by destruct s|]. by split.
  - rewrite (proj2 (Z.ltb_lt _ _)) by lia. apply wp_bind, wp_gets, wp_bind.
    unfold get_rx, wp at 1. destruct (Hb _ Hh) as [x ->]. apply wp_bind, wp_modify, wp_modify.
    destruct (typed_push (k_con s) (u8 ch) Hok E) as [Hp Hc].
    eexists. split; [reflexivity|]. cbn [k_con k_set_con]. by split.
Qed.

Lemma read_loop_spec fuel buf len n s :
  con_ok (k_con s) -> 0 <= n -> used (k_con s) <= Z.of_nat fuel ->
  wp (console_read_loop fuel buf len n) (fun m s' =>
    let got := take (Z.to_nat (len - n)) (typed (k_con s)) in
    m = n + Z.of_nat (length got) /\ exists r', con_ok r' /\ typed r' = drop (Z.to_nat (len - n)) (typed (k_con s)) /\
    s' = k_set_con r' (k_set_umem (store_bytes (k_umem s) (buf + n) got) s)) s.
Proof.
  revert n s. induction fuel as [|f IH]; intros n s Hok Hn Hf; cbn [console_read_loop]; apply wp_bind, wp_gets;
    rewrite empty_used by done; pose proof (used_range (k_con s)) as Hr; pose proof (typed_length (k_con s)) as TL.
  all: assert (Hstop : (len <=? n) || (used (k_con s) =? 0) = true ->
    wp (ret n) (fun m s' =>
      let got := take (Z.to_nat (len - n)) (typed (k_con s)) in
      m = n + Z.of_nat (length got) /\ exists r', con_ok r' /\ typed r' = drop (Z.to_nat (len - n)) (typed (k_con s)) /\
      s' = k_set_con r' (k_set_umem (store_bytes (k_umem s) (buf + n) got) s)) s).
  1, 3: intros Hs; apply wp_ret; cbv zeta;
    assert (Hg : take (Z.to_nat (len - n)) (typed (k_con s)) = [] /\ drop (Z.to_nat (len - n)) (typed (k_con s)) = typed (k_con s));
    [destruct (Z.leb_spec len n);
       [by replace (Z.to_nat (len - n)) with O by lia
       |cbn [orb] in Hs; apply Z.eqb_eq in Hs; rewrite Hs in TL;
        destruct (typed (k_con s)); [by rewrite take_nil, drop_nil|cbn in TL; lia]]
    |destruct Hg as [-> ->]; split; [cbn; lia|]; exists (k_con s); split; [done|]; split; [done|by destruct s]].
  - destruct ((len <=? n) || (used (k_con s) =? 0)) eqn:Eb; [by apply Hstop|].
    apply orb_false_iff in Eb as [_ Eb]. apply Z.eqb_neq in Eb. lia.
  - destruct ((len <=? n) || (used (k_con s) =? 0)) eqn:Eb; [by apply Hstop|]. clear Hstop.
    apply orb_false_iff in Eb as [El Eu]. apply Z.leb_gt in El. apply Z.eqb_neq in Eu.
    pose proof Hok as (Hb & Hh & Ht). apply wp_bind, wp_gets, wp_bind. unfold get_rx, wp at 1.
    destruct (Hb _ Ht) as [x Hx]. rewrite Hx. apply wp_bind, wp_modify, wp_bind, wp_modify.
    pose proof (typed_pop (k_con s) Hok Eu) as Hp.
    assert (Hrx : rx_at (k_con s) (g_rx_tail (k_con s)) = x) by (unfold rx_at; rewrite Z.mod_small by done; by rewrite Hx).
    rewrite Hrx in Hp. set (r1 := g_set_rx_tail _ (k_con s)) in Hp.
    eapply wp_mono; [apply (IH (n + 1))|].
    + split; [exact Hb|]. split; [exact Hh|]. apply con_next_ok.
    + lia.
    + change (used r1 <= Z.of_nat f). pose proof (typed_length r1) as T1. rewrite Hp in TL. cbn [length] in TL. lia.
    + intros m s'. cbv zeta. change (k_con (k_set_con _ _)) with r1.
      intros (Hm & r' & Hc & Hd & Es). rewrite Hp.
      replace (Z.to_nat (len - n)) with (S (Z.to_nat (len - (n + 1)))) by lia. cbn [take drop length].
      split; [lia|]. exists r'. split; [exact Hc|]. split; [exact Hd|]. rewrite Es. cbn [store_bytes].
      replace (buf + n + 1) with (buf + (n + 1)) by lia. reflexivity.
Qed.

Lemma console_read_spec buf len s :
  con_ok (k_con s) -> 0 <= len ->
  wp (console_read_nonblock buf len) (fun n s' =>
    let got := take (Z.to_nat len) (typed (k_con s)) in
    n = Z.of_nat (length got) /\ exists r', con_ok r' /\ typed r' = drop (Z.to_nat len) (typed (k_con s)) /\
    s' = k_set_con r' (k_set_umem (store_bytes (k_umem s) buf got) s)) s.
Proof.
  intros Hok Hlen. unfold console_read_nonblock. apply wp_bind.
  pose proof (used_range (k_con s)) as Hr. eapply wp_mono; [apply read_loop_spec; [done|lia|rewrite rb_value in *; lia]|].
  intros n s' (Hn & r' & Hc & Hd & Es). rewrite Z.sub_0_r in *. rewrite Z.add_0_r in Es. apply wp_ret. cbv zeta.
  split; [|by exists r']. rewrite Hn. pose proof (typed_length (k_con s)) as TL. rewrite rb_value in Hr.
  rewrite length_take in *. rewrite s32_small; lia.
Qed.

(** The queue with a character arriving: what does not fit is lost. *)
Definition fill (t l : list Z) : list Z := take (Z.to_nat (RB - 1)) (t ++ l).
Lemma push_fills ch s :
  con_ok (k_con s) ->
  wp (console_push ch) (fun _ s' => exists r, s' = k_set_con r s /\ con_ok r /\ typed r = fill (typed (k_con s)) [u8 ch]) s.
Proof.
  intros Hok. eapply wp_mono; [by apply console_push_spec|]. intros [] s1 (r & -> & Hr & Ht).
  exists r. split; [done|]. split; [done|]. rewrite Ht. unfold fill. pose proof (typed_length (k_con s)). pose proof (used_range (k_con s)).
  destruct (Z.ltb_spec (Z.of_nat (length (typed (k_con s)))) (RB - 1)) as [Hl|Hl].
  - rewrite take_ge; [done|]. rewrite length_app. cbn [length]. lia.
  - by rewrite take_app_le, take_ge by lia.
Qed.

(** ** A blocked reader *)

(** The thread [u] with the result of its [read]. *)
Definition answered (n : Z) (u : Thread) : Thread :=
  t_set_pending_read_len 0 (t_set_pending_read_buf 0 (t_set_tf (f_set_a0 (u64 n) (t_tf u)) u)).

Lemma running_same s s' q c t : k_core s' = k_core s -> k_tp s' = k_tp s -> running s q c t -> running s' q c t.
Proof.
  intros E1 E2 [Hi Hc Hl Ht]. split; try done.
  - by apply (inv_x_state none s).
  - unfold cpu. by rewrite E1, E2.
  - unfold thr. by rewrite E1.
Qed.

Lemma wake_answered s q c t w u n :
  running s q c t -> thr s w = Some u -> t_state u = THREAD_BLOCKED -> g_stdin_waiter (k_core s) = w ->
  wp (upd_thread w (fun t => t_set_tf (f_set_a0 (u64 n) (t_tf t)) t) ;;
      upd_thread w (fun t => t_set_pending_read_len 0 (t_set_pending_read_buf 0 t)) ;;
      w' <- core g_stdin_waiter ;; thread_wake w')
    (fun _ s' => k_umem s' = k_umem s /\ k_con s' = k_con s /\
      exists u', thr s' w = Some u' /\ same_but_rq (runnable (answered n u)) u') s.
Proof.
  intros Hr Hu Hb Hw. apply wp_bind. eapply wp_upd_thread; [done|]. apply wp_bind. eapply wp_upd_thread; [apply thr_with_thread_eq|].
  rewrite with_thread_twice. set (u1 := t_set_pending_read_len _ _). apply wp_bind, wp_core. cbn [k_core with_thread k_set_core].
  change (g_stdin_waiter (g_set_threads _ (k_core s))) with (g_stdin_waiter (k_core s)). rewrite Hw.
  set (s1 := with_thread w u1 s). assert (Hk : kept s s1) by (eapply kept_thread; done).
  destruct (kept_running _ _ Hk) as (q1 & c1 & t1 & Hr1). eapply wp_mono; [by apply (thread_wake_spec s1 q1 c1 t1 w)|].
  intros [] s2. unfold s1 at 1. rewrite thr_with_thread_eq, decide_True by done. intros (_ & Hf & Hth).
  split; [apply (fr_umem _ _ _ Hf)|]. split; [apply (fr_con _ _ _ Hf)|]. exact Hth.
Qed.

Lemma reader_served ch s q c t w u :
  running s q c t -> con_ok (k_con s) -> g_stdin_waiter (k_core s) = w -> 0 <= w ->
  thr s w = Some u -> t_state u = THREAD_BLOCKED -> t_pending_read_buf u <> 0 -> 0 < t_pending_read_len u ->
  wp (console_on_char_from_irq ch) (fun _ s' =>
    let text := fill (typed (k_con s)) [u8 ch] in
    let len := Z.to_nat (t_pending_read_len u) in
    let got := take len text in
    k_umem s' = store_bytes (k_umem s) (t_pending_read_buf u) got /\
    con_ok (k_con s') /\ typed (k_con s') = drop len text /\ g_stdin_waiter (k_core s') = -1 /\
    exists u', thr s' w = Some u' /\ same_but_rq (runnable (answered (Z.of_nat (length got)) u)) u') s.
Proof.
  intros Hr Hc Hw H0 Hu Hb Hbuf Hlen. unfold console_on_char_from_irq. apply wp_bind.
  eapply wp_mono; [by apply push_fills|]. intros [] s1 (r & -> & Hcr & Ht). apply wp_bind, wp_core. cbn [k_core k_set_con]. rewrite Hw.
  rewrite (proj2 (Z.ltb_ge w 0)) by done. apply wp_bind. unfold thread_read_from_stdin. apply wp_bind, wp_core. cbn [k_core k_set_con]. rewrite Hw.
  apply wp_bind. eapply wp_get_thread; [done|].
  rewrite (proj2 (Z.eqb_neq _ 0) Hbuf), (proj2 (Z.eqb_neq (t_pending_read_len u) 0)) by lia. cbn [orb].
  apply wp_bind. eapply wp_mono; [apply console_read_spec; [done|lia]|]. cbn [k_con k_umem k_set_con]. rewrite Ht.
  set (text := fill _ _). assert (Hne : (0 < length text)%nat).
  { unfold text, fill. rewrite length_take, length_app. cbn [length]. rewrite rb_value. lia. }
  intros n s2 (Hn & r2 & Hc2 & Ht2 & ->). rewrite length_take in Hn. rewrite (proj2 (Z.leb_gt n 0)) by lia.
  set (s2 := k_set_con r2 _). assert (Hr2 : running s2 q c t) by (by apply (running_same s)).
  eapply wp_mono; [by apply (wake_answered s2 q c t w u n)|]. intros [] s3 (Em & Ec & u' & Hu' & Hs). apply wp_upd_core. cbv zeta.
  change (k_umem (k_set_core _ s3)) with (k_umem s3). change (k_con (k_set_core _ s3)) with (k_con s3). rewrite Em, Ec.
  split; [done|]. split; [done|]. split; [done|]. split; [done|]. exists u'. split; [done|]. rewrite length_take, <- Hn. exact Hs.
Qed.

(** C24: the ring is a queue of at most 1023 characters: a character that
    arrives is appended, or lost when the queue is full, and a read hands the
    oldest characters, as many as there are and as were asked for, to the caller's
    buffer in order and takes exactly those out; nothing else changes.  When a
    thread is blocked in [read], the next character wakes it: its buffer and its
    result are what a read then returns, and nobody waits any more. *)
Theorem console_is_fifo s :
  con_ok (k_con s) ->
  (forall ch, wp (console_push ch) (fun _ s' =>
    exists r, s' = k_set_con r s /\ con_ok r /\ typed r = fill (typed (k_con s)) [u8 ch]) s) /\
  (forall buf len, 0 <= len -> wp (console_read_nonblock buf len) (fun n s' =>
    let got := take (Z.to_nat len) (typed (k_con s)) in
    n = Z.of_nat (length got) /\ exists r', con_ok r' /\ typed r' = drop (Z.to_nat len) (typed (k_con s)) /\
    s' = k_set_con r' (k_set_umem (store_bytes (k_umem s) buf got) s)) s) /\
  (forall ch q c t w u, running s q c t -> g_stdin_waiter (k_core s) = w -> 0 <= w ->
    thr s w = Some u -> t_state u = THREAD_BLOCKED -> t_pending_read_buf u <> 0 -> 0 < t_pending_read_len u ->
    wp (console_on_char_from_irq ch) (fun _ s' =>
      let text := fill (typed (k_con s)) [u8 ch] in
      let len := Z.to_nat (t_pending_read_len u) in
      let got := take len text in
      k_umem s' = store_bytes (k_umem s) (t_pending_read_buf u) got /\
      con_ok (k_con s') /\ typed (k_con s') = drop len text /\ g_stdin_waiter (k_core s') = -1 /\
      exists u', thr s' w = Some u' /\ same_but_rq (runnable (answered (Z.of_nat (length got)) u)) u') s).
Proof.
  intros Hok. split; [intros; by apply push_fills|]. split; [intros; by apply console_read_spec|]. intros. by eapply reader_served.
Qed.
End console_spec.

(** ** Witness *)

Definition rx_state : kstate :=
  k_set_con (g_set_rx_head 2 (g_set_rx_buf (<[1 := 105]> (<[0 := 104]> (ztable RB 0))) console_bss))
    (@image demo_config demo_hardware (0 : @dev demo_hardware)).

Lemma rx_state_ok : con_ok (k_con rx_state).
Proof.
  split; [|split; [|]; cbn [rx_state k_con k_set_con g_set_rx_head g_set_rx_buf g_rx_head g_rx_tail console_bss]; rewrite rb_value; lia].
  intros i Hi. cbn [rx_state k_con k_set_con g_set_rx_head g_set_rx_buf g_rx_buf].
  do 2 apply is_Some_insert_same. exists 0. by apply lookup_ztable_Some.
Qed.

Lemma rx_state_typed : typed (k_con rx_state) = [104; 105].
Proof. vm_compute. reflexivity. Qed.

(** A user thread of the demonstration system reads from an empty ring. *)
Definition demo_reading : kstate := final (trap_run 0 (ecall SYS_READ 0 4096 16) demo_two).
#[local] Strategy opaque [kernel_main trap_entry].
Lemma demo_reading_running : con_ok (k_con demo_reading) /\ exists q c t, running demo_reading q c t.
Proof.
  assert (Hr : reachable demo_reading).
  { apply (reach_trap demo_two 0 _ demo_two_reachable); try (vm_compute; reflexivity).
    apply user_call; [apply active_b|done..]. vm_compute. reflexivity. }
  destruct (reachable_ok _ Hr) as [[q Hi] [[_ Hc] _] _]. split; [exact Hc|].
  assert (Htp : k_tp demo_reading = 0) by (vm_compute; reflexivity).
  assert (Hcur : c_current_tid (cpu_at demo_reading 0) = 3) by (vm_compute; reflexivity).
  exists q, (cpu_at demo_reading 0), (thr_at demo_reading 3). split; [exact Hi| | |].
  - rewrite Htp. apply cpu_at_eq. vm_compute. reflexivity.
  - apply live_b_true. vm_compute. reflexivity.
  - rewrite Hcur. apply thr_at_eq. vm_compute. reflexivity.
Qed.

Lemma console_is_fifo_witness :
  wp (@console_push demo_hardware 33) (fun _ s' => typed (k_con s') = [104; 105; 33]) rx_state /\
  wp (console_on_char_from_irq 33) (fun _ s' => k_umem s' = store_bytes (k_umem demo_reading) 4096 [33] /\
    exists u', thr s' 2 = Some u' /\ same_but_rq (runnable (answered 1 (thr_at demo_reading 2))) u') demo_reading.
Proof.
  split.
  - destruct (@console_is_fifo demo_config demo_hardware rx_state rx_state_ok) as [W _].
    eapply wp_mono; [exact (W 33)|]. intros _ s' (r' & -> & _ & H). rewrite rx_state_typed in H. exact H.
  - destruct demo_reading_running as (Hc & q & c & t & Hr).
    assert (Hu : thr demo_reading 2 = Some (thr_at demo_reading 2)) by (apply thr_at_eq; vm_compute; reflexivity).
    assert (Hf : g_stdin_waiter (k_core demo_reading) = 2 /\ t_state (thr_at demo_reading 2) = THREAD_BLOCKED /\
      t_pending_read_buf (thr_at demo_reading 2) = 4096 /\ t_pending_read_len (thr_at demo_reading 2) = 16 /\
      typed (k_con demo_reading) = []) by (vm_compute; repeat split).
    destruct Hf as (Hw & Hb & Hbuf & Hlen & Ht). destruct (console_is_fifo demo_reading Hc) as (_ & _ & W).
    pose proof (W 33 q c t 2 _ Hr Hw ltac:(lia) Hu Hb ltac:(lia) ltac:(lia)) as H.
    eapply wp_mono; [exact H|]. rewrite Ht, Hbuf, Hlen. intros _ s' (Hm & _ & _ & _ & Hth). split; [exact Hm|exact Hth].
Defined.
