(* ===== verification/ClockSpec.v ===== *)
(** * The clock ([platform_rtc_read_ns]) and the numbers the platform prints *)
From stdpp Require Import base numbers list gmap strings.
From Stdlib Require Import ZArith Lia.
From S2P Require Import Prelude Mem Machine State Kernel Image Uart Plic Platform.

Local Open Scope Z_scope.

(** The exact conversion. *)
Definition exact_ns (hz ticks : Z) : Z := ticks * 1000000000 / hz.

Lemma exact_ns_split hz ticks :
  0 < hz -> exact_ns hz ticks = ticks / hz * 1000000000 + (ticks mod hz) * 1000000000 / hz.
Proof.
  intros H. unfold exact_ns. rewrite (Z.div_mod ticks hz) at 1 by lia.
  replace ((hz * (ticks / hz) + ticks mod hz) * 1000000000)
    with (ticks mod hz * 1000000000 + (ticks / hz * 1000000000) * hz) by ring.
  rewrite Z.div_add by lia. lia.
Qed.

(** C27: for a time base below 2^34 Hz and a time that fits in 64 bits of
    nanoseconds, the conversion neither overflows nor loses precision: it is the
    exact quotient, although [ticks * 10^9] does not fit; it therefore never goes
    backwards, and its parts ([tv_sec], [tv_nsec]) give the time back. *)
Theorem ticks_to_ns_exact hz ticks :
  0 < hz < 2^34 -> 0 <= ticks -> exact_ns hz ticks < 2^64 ->
  ticks_to_ns hz ticks = exact_ns hz ticks /\
  (forall ticks', 0 <= ticks' <= ticks -> ticks_to_ns hz ticks' <= ticks_to_ns hz ticks) /\
  (let ns := ticks_to_ns hz ticks in
   ns / 1000000000 = ticks / hz /\ u32 (ns mod 1000000000) = (ticks mod hz) * 1000000000 / hz).
Proof.
  intros Hhz.
  assert (Hex : forall t, 0 <= t -> exact_ns hz t < 2^64 -> ticks_to_ns hz t = exact_ns hz t).
  { intros t Ht Hb. rewrite exact_ns_split in * by lia. unfold ticks_to_ns. cbv zeta.
    pose proof (Z.mod_pos_bound t hz ltac:(lia)) as Hm. pose proof (Z.div_pos t hz Ht ltac:(lia)) as Hd.
    assert (H1 : 0 <= t mod hz * 1000000000 / hz) by (apply Z.div_pos; lia).
    assert (H2 : t mod hz * 1000000000 < 2^64) by nia.
    assert (H0 : t / hz * hz <= t) by (rewrite Z.mul_comm; apply Z.mul_div_le; lia).
    assert (H3 : t / hz * 1000000000 < 2^64) by lia.
    replace (u64 (t - u64 (t / hz * hz))) with (t mod hz).
    - rewrite (u64_small (t / hz * 1000000000)), (u64_small (t mod hz * 1000000000)) by lia.
      apply u64_small. lia.
    - unfold u64. rewrite Zminus_mod_idemp_r, <- Zmod_eq_full by lia. symmetry. apply Z.mod_small. lia. }
  intros Ht Hb. rewrite (Hex ticks) by done. split; [done|]. split.
  - intros t' Ht'. assert (Hle : exact_ns hz t' <= exact_ns hz ticks) by (apply Z.div_le_mono; lia).
    rewrite Hex by lia. exact Hle.
  - cbv zeta. rewrite exact_ns_split by lia.
    pose proof (Z.mod_pos_bound ticks hz ltac:(lia)) as Hm.
    assert (H1 : 0 <= ticks mod hz * 1000000000 / hz) by (apply Z.div_pos; lia).
    assert (H2 : ticks mod hz * 1000000000 / hz < 1000000000) by (apply Z.div_lt_upper_bound; nia).
    rewrite Z.add_comm, Z.div_add, (Z.div_small (ticks mod hz * 1000000000 / hz)) by lia.
    split; [lia|]. rewrite Z.mod_add, Z.mod_small, u32_small; lia.
Qed.

Lemma ticks_to_ns_exact_witness : ticks_to_ns 10000000 123456789012345678 = 12345678901234567800.
Proof. exact (proj1 (ticks_to_ns_exact 10000000 123456789012345678 ltac:(lia) ltac:(lia) ltac:(vm_compute; reflexivity))). Defined.
