(* ===== verification/Fdt.v ===== *)
(** * libfdt: headers, tags and nodes of a flattened device tree
      ([lib/libfdt/fdt.c], [fdt.h], [libfdt_internal.h], [libfdt_env.h] and the
      inline functions of [libfdt.h]; the messages of [fdt_strerror.c])

    A blob is the memory at the pointer [fdt]: its address and the bytes that may
    be read there.  A pointer into the blob is its distance from [fdt], NULL is
    [None], and reading a byte the blob does not have is [Undef].  The functions
    only read, so they are computations in [outcome] without a state.  A loop takes
    fuel from the size of the blob ([FDT_FUEL]); that it is enough is part of the
    safety theorem of [FdtSafe].  Conversions between [int] and [uint32_t] are
    written out; a signed addition that could overflow wraps. *)
From stdpp Require Import base numbers list strings.
From Stdlib Require Import ZArith Lia.
From S2P Require Import Prelude.

Local Open Scope Z_scope.

(** ** Computations without a state *)

Definition obind {A B} (m : outcome A) (k : A -> outcome B) : outcome B :=
  match m with
  | Ret a => k a
  | Panic => Panic
  | Undef => Undef
  | Diverge => Diverge
  end.

Declare Scope fdt_scope.
Delimit Scope fdt_scope with fdt.
Open Scope fdt_scope.
Notation "'let!' p := m 'in' k" := (obind m (fun p => k))
  (at level 200, p pattern, m at level 100, k at level 200,
   format "'[v' 'let!'  p  :=  m  'in' '/' k ']'") : fdt_scope.

(** ** Errors and constants *)

Definition FDT_ERR_NOTFOUND : Z := 1.
Definition FDT_ERR_EXISTS : Z := 2.
Definition FDT_ERR_NOSPACE : Z := 3.
Definition FDT_ERR_BADOFFSET : Z := 4.
Definition FDT_ERR_BADPATH : Z := 5.
Definition FDT_ERR_BADPHANDLE : Z := 6.
Definition FDT_ERR_BADSTATE : Z := 7.
Definition FDT_ERR_TRUNCATED : Z := 8.
Definition FDT_ERR_BADMAGIC : Z := 9.
Definition FDT_ERR_BADVERSION : Z := 10.
Definition FDT_ERR_BADSTRUCTURE : Z := 11.
Definition FDT_ERR_BADLAYOUT : Z := 12.
Definition FDT_ERR_INTERNAL : Z := 13.
Definition FDT_ERR_BADNCELLS : Z := 14.
Definition FDT_ERR_BADVALUE : Z := 15.
Definition FDT_ERR_BADOVERLAY : Z := 16.
Definition FDT_ERR_NOPHANDLES : Z := 17.
Definition FDT_ERR_BADFLAGS : Z := 18.
Definition FDT_ERR_ALIGNMENT : Z := 19.
Definition FDT_ERR_MAX : Z := 19.

Definition FDT_FIRST_SUPPORTED_VERSION : Z := 2.
Definition FDT_LAST_COMPATIBLE_VERSION : Z := 16.
Definition FDT_LAST_SUPPORTED_VERSION : Z := 17.
Definition FDT_MAX_PHANDLE : Z := 4294967294.
Definition FDT_MAX_NCELLS : Z := 4.

Definition FDT_MAGIC : Z := 3490578157.
Definition FDT_SW_MAGIC : Z := u32 (Z.lnot FDT_MAGIC).
Definition FDT_TAGSIZE : Z := 4.
Definition FDT_BEGIN_NODE : Z := 1.
Definition FDT_END_NODE : Z := 2.
Definition FDT_PROP : Z := 3.
Definition FDT_NOP : Z := 4.
Definition FDT_END : Z := 9.

Definition FDT_V1_SIZE : Z := 7 * 4.
Definition FDT_V2_SIZE : Z := FDT_V1_SIZE + 4.
Definition FDT_V3_SIZE : Z := FDT_V2_SIZE + 4.
Definition FDT_V16_SIZE : Z := FDT_V3_SIZE.
Definition FDT_V17_SIZE : Z := FDT_V16_SIZE + 4.

(** [sizeof(struct fdt_property)], [sizeof(struct fdt_reserve_entry)]. *)
Definition sizeof_fdt_property : Z := 12.
Definition sizeof_fdt_reserve_entry : Z := 16.

(** The checking controls; the build leaves [FDT_ASSUME_MASK] at 0. *)
Inductive assumption : Type :=
| ASSUME_PERFECT | ASSUME_VALID_DTB | ASSUME_VALID_INPUT | ASSUME_LATEST
| ASSUME_NO_ROLLBACK | ASSUME_LIBFDT_ORDER | ASSUME_LIBFDT_FLAWLESS.
Definition assumption_mask (a : assumption) : Z :=
  match a with
  | ASSUME_PERFECT => 255
  | ASSUME_VALID_DTB => Z.shiftl 1 0
  | ASSUME_VALID_INPUT => Z.shiftl 1 1
  | ASSUME_LATEST => Z.shiftl 1 2
  | ASSUME_NO_ROLLBACK => Z.shiftl 1 3
  | ASSUME_LIBFDT_ORDER => Z.shiftl 1 4
  | ASSUME_LIBFDT_FLAWLESS => Z.shiftl 1 5
  end.
Definition FDT_ASSUME_MASK : Z := 0.
Definition can_assume (a : assumption) : bool := z2b (Z.land FDT_ASSUME_MASK (assumption_mask a)).

(** ** The blob *)

Record blob := { b_addr : Z; b_bytes : list Z }.
Definition extent (b : blob) : Z := Z.of_nat (length (b_bytes b)).
Definition FDT_FUEL (b : blob) : nat := S (length (b_bytes b)).

(** A byte, and the big-endian integers ([fdt32_to_cpu], [fdt64_to_cpu]). *)
Definition fdt8 (b : blob) (p : Z) : outcome Z :=
  if (0 <=? p) && (p <? extent b)
  then match b_bytes b !! Z.to_nat p with Some v => Ret (u8 v) | None => Undef end
  else Undef.
Definition be16 (b0 b1 : Z) : Z := Z.lor (Z.shiftl b0 8) b1.
Definition be32 (b0 b1 b2 b3 : Z) : Z :=
  Z.lor (Z.lor (Z.lor (Z.shiftl b0 24) (Z.shiftl b1 16)) (Z.shiftl b2 8)) b3.
Definition fdt16_ld (b : blob) (p : Z) : outcome Z :=
  let! b0 := fdt8 b p in let! b1 := fdt8 b (p + 1) in Ret (be16 b0 b1).
Definition fdt32_ld (b : blob) (p : Z) : outcome Z :=
  let! b0 := fdt8 b p in let! b1 := fdt8 b (p + 1) in
  let! b2 := fdt8 b (p + 2) in let! b3 := fdt8 b (p + 3) in Ret (be32 b0 b1 b2 b3).
Definition fdt64_ld (b : blob) (p : Z) : outcome Z :=
  let! hi := fdt32_ld b p in let! lo := fdt32_ld b (p + 4) in Ret (Z.lor (Z.shiftl hi 32) lo).
Definition fdt32_ld_ (b : blob) (p : Z) : outcome Z := fdt32_ld b p.
Definition fdt64_ld_ (b : blob) (p : Z) : outcome Z := fdt64_ld b p.

(** What [fdt32_st] and [fdt64_st] store. *)
Definition fdt32_st (value : Z) : list Z :=
  [u8 (Z.shiftr value 24); Z.land (Z.shiftr value 16) 255; Z.land (Z.shiftr value 8) 255;
   Z.land value 255].
Definition fdt64_st (value : Z) : list Z :=
  [u8 (Z.shiftr value 56); Z.land (Z.shiftr value 48) 255; Z.land (Z.shiftr value 40) 255;
   Z.land (Z.shiftr value 32) 255] ++ fdt32_st value.

(** The fields of [struct fdt_header]. *)
Inductive fdt_header : Type :=
| H_magic | H_totalsize | H_off_dt_struct | H_off_dt_strings | H_off_mem_rsvmap
| H_version | H_last_comp_version | H_boot_cpuid_phys | H_size_dt_strings | H_size_dt_struct.
Definition header_offset (f : fdt_header) : Z :=
  match f with
  | H_magic => 0 | H_totalsize => 4 | H_off_dt_struct => 8 | H_off_dt_strings => 12
  | H_off_mem_rsvmap => 16 | H_version => 20 | H_last_comp_version => 24
  | H_boot_cpuid_phys => 28 | H_size_dt_strings => 32 | H_size_dt_struct => 36
  end.
Definition fdt_get_header (b : blob) (f : fdt_header) : outcome Z := fdt32_ld b (header_offset f).
Definition fdt_magic b := fdt_get_header b H_magic.
Definition fdt_totalsize b := fdt_get_header b H_totalsize.
Definition fdt_off_dt_struct b := fdt_get_header b H_off_dt_struct.
Definition fdt_off_dt_strings b := fdt_get_header b H_off_dt_strings.
Definition fdt_off_mem_rsvmap b := fdt_get_header b H_off_mem_rsvmap.
Definition fdt_version b := fdt_get_header b H_version.
Definition fdt_last_comp_version b := fdt_get_header b H_last_comp_version.
Definition fdt_boot_cpuid_phys b := fdt_get_header b H_boot_cpuid_phys.
Definition fdt_size_dt_strings b := fdt_get_header b H_size_dt_strings.
Definition fdt_size_dt_struct b := fdt_get_header b H_size_dt_struct.

(** [fdt_set_hdr_]: the header field overwritten in place. *)
Definition overwrite (l : list Z) (p : nat) (v : list Z) : list Z :=
  take p l ++ v ++ drop (p + length v) l.
Definition fdt_set_header (f : fdt_header) (val : Z) (b : blob) : blob :=
  {| b_addr := b_addr b; b_bytes := overwrite (b_bytes b) (Z.to_nat (header_offset f)) (fdt32_st val) |}.

(** The routines of [string.c] on the blob: comparison with [length s] bytes,
    search, length. *)
Fixpoint blob_memcmp (b : blob) (p : Z) (s : list Z) : outcome Z :=
  match s with
  | [] => Ret 0
  | c :: s' => let! x := fdt8 b p in
               if x =? c then blob_memcmp b (p + 1) s' else Ret (x - c)
  end.
Fixpoint blob_memchr (b : blob) (p c : Z) (n : nat) : outcome (option Z) :=
  match n with
  | O => Ret None
  | S n' => let! x := fdt8 b p in
            if x =? c then Ret (Some p) else blob_memchr b (p + 1) c n'
  end.
Fixpoint blob_strlen_loop (fuel : nat) (b : blob) (s n : Z) : outcome Z :=
  match fuel with
  | O => Diverge
  | S f => let! x := fdt8 b (s + n) in if x =? 0 then Ret n else blob_strlen_loop f b s (n + 1)
  end.
Definition blob_strlen (b : blob) (s : Z) : outcome Z := blob_strlen_loop (FDT_FUEL b) b s 0.
Fixpoint blob_strnlen (b : blob) (s i : Z) (n : nat) : outcome Z :=
  match n with
  | O => Ret i
  | S n' => let! x := fdt8 b (s + i) in if x =? 0 then Ret i else blob_strnlen b s (i + 1) n'
  end.
Fixpoint blob_strrchr_loop (fuel : nat) (b : blob) (s ch : Z) (last : option Z) : outcome (option Z) :=
  match fuel with
  | O => Diverge
  | S f => let! x := fdt8 b s in
           if x =? 0 then Ret (if ch =? 0 then Some s else last)
           else blob_strrchr_loop f b (s + 1) ch (if x =? ch then Some s else last)
  end.
Definition blob_strrchr (b : blob) (s ch : Z) : outcome (option Z) :=
  blob_strrchr_loop (FDT_FUEL b) b s ch None.
(** The [n] bytes at [p], as [memcpy] reads them. *)
Fixpoint blob_read (b : blob) (p : Z) (n : nat) : outcome (list Z) :=
  match n with
  | O => Ret []
  | S n' => let! x := fdt8 b p in let! l := blob_read b (p + 1) n' in Ret (x :: l)
  end.
(** The string at [s]. *)
Definition blob_string (b : blob) (s : Z) : outcome (list Z) :=
  let! n := blob_strlen b s in blob_read b s (Z.to_nat n).

(** ** [fdt.c] *)

Definition fdt_ro_probe_ (b : blob) : outcome Z :=
  let! totalsize := fdt_totalsize b in
  if can_assume ASSUME_VALID_DTB then Ret (s32 totalsize) else
  if negb (Z.land (b_addr b) 7 =? 0) then Ret (- FDT_ERR_ALIGNMENT) else
  let! magic := fdt_magic b in
  let! version := fdt_version b in
  let! last_comp_version := fdt_last_comp_version b in
  let! size_dt_struct := fdt_size_dt_struct b in
  let checked := if totalsize <? INT_MAX then totalsize else - FDT_ERR_TRUNCATED in
  if magic =? FDT_MAGIC then
    if negb (can_assume ASSUME_LATEST) &&
       ((version <? FDT_FIRST_SUPPORTED_VERSION) || (FDT_LAST_SUPPORTED_VERSION <? last_comp_version))
    then Ret (- FDT_ERR_BADVERSION) else Ret checked
  else if magic =? FDT_SW_MAGIC then
    if negb (can_assume ASSUME_VALID_INPUT) && (size_dt_struct =? 0)
    then Ret (- FDT_ERR_BADSTATE) else Ret checked
  else Ret (- FDT_ERR_BADMAGIC).

(** [FDT_RO_PROBE(fdt);] at the head of a function that returns an error code. *)
Definition FDT_RO_PROBE (b : blob) (k : outcome Z) : outcome Z :=
  let! totalsize_ := fdt_ro_probe_ b in if totalsize_ <? 0 then Ret totalsize_ else k.

Definition check_off_ (hdrsize totalsize off : Z) : bool := (hdrsize <=? off) && (off <=? totalsize).
Definition check_block_ (hdrsize totalsize base size : Z) : bool :=
  if negb (check_off_ hdrsize totalsize base) then false else
  if u32 (base + size) <? base then false else
  if negb (check_off_ hdrsize totalsize (u32 (base + size))) then false else true.

Definition fdt_header_size_ (version : Z) : Z :=
  if version <=? 1 then FDT_V1_SIZE
  else if version <=? 2 then FDT_V2_SIZE
  else if version <=? 3 then FDT_V3_SIZE
  else if version <=? 16 then FDT_V16_SIZE
  else FDT_V17_SIZE.
Definition fdt_header_size (b : blob) : outcome Z :=
  if can_assume ASSUME_LATEST then Ret FDT_V17_SIZE else
  let! version := fdt_version b in Ret (fdt_header_size_ version).

Definition fdt_check_header (b : blob) : outcome Z :=
  if negb (Z.land (b_addr b) 7 =? 0) then Ret (- FDT_ERR_ALIGNMENT) else
  let! magic := fdt_magic b in
  if negb (magic =? FDT_MAGIC) then Ret (- FDT_ERR_BADMAGIC) else
  let! version := fdt_version b in
  let! last_comp_version := fdt_last_comp_version b in
  if negb (can_assume ASSUME_LATEST) &&
     ((version <? FDT_FIRST_SUPPORTED_VERSION) || (FDT_LAST_SUPPORTED_VERSION <? last_comp_version)
      || (version <? last_comp_version))
  then Ret (- FDT_ERR_BADVERSION) else
  let! hdrsize := fdt_header_size b in
  if can_assume ASSUME_VALID_DTB then Ret 0 else
  let! totalsize := fdt_totalsize b in
  if (totalsize <? hdrsize) || (INT_MAX <? totalsize) then Ret (- FDT_ERR_TRUNCATED) else
  let! off_mem_rsvmap := fdt_off_mem_rsvmap b in
  if negb (check_off_ hdrsize totalsize off_mem_rsvmap) then Ret (- FDT_ERR_TRUNCATED) else
  let! off_dt_struct := fdt_off_dt_struct b in
  let! struct_ok :=
    (if negb (can_assume ASSUME_LATEST) && (version <? 17)
     then Ret (check_off_ hdrsize totalsize off_dt_struct)
     else let! size_dt_struct := fdt_size_dt_struct b in
          Ret (check_block_ hdrsize totalsize off_dt_struct size_dt_struct)) in
  if negb struct_ok then Ret (- FDT_ERR_TRUNCATED) else
  let! off_dt_strings := fdt_off_dt_strings b in
  let! size_dt_strings := fdt_size_dt_strings b in
  if negb (check_block_ hdrsize totalsize off_dt_strings size_dt_strings)
  then Ret (- FDT_ERR_TRUNCATED) else Ret 0.

Definition fdt_offset_ptr_ (b : blob) (offset : Z) : outcome Z :=
  let! off_dt_struct := fdt_off_dt_struct b in Ret (off_dt_struct + offset).

(** [offset] is an [int], [len] an [unsigned int]. *)
Definition fdt_offset_ptr (b : blob) (offset len : Z) : outcome (option Z) :=
  let! off_dt_struct := fdt_off_dt_struct b in
  let uoffset := u32 offset in
  let absoffset := u32 (offset + off_dt_struct) in
  if offset <? 0 then Ret None else
  let! totalsize := fdt_totalsize b in
  if negb (can_assume ASSUME_VALID_INPUT) &&
     ((absoffset <? uoffset) || (u32 (absoffset + len) <? absoffset)
      || (totalsize <? u32 (absoffset + len))) then Ret None else
  let! version := fdt_version b in
  let! size_dt_struct := fdt_size_dt_struct b in
  if (can_assume ASSUME_LATEST || (17 <=? version)) &&
     ((u32 (uoffset + len) <? uoffset) || (size_dt_struct <? u32 (offset + len))) then Ret None else
  let! p := fdt_offset_ptr_ b offset in Ret (Some p).

Definition FDT_ALIGN (x a : Z) : Z := Z.land (x + a - 1) (Z.lnot (a - 1)).
Definition FDT_TAGALIGN (x : Z) : Z := FDT_ALIGN x FDT_TAGSIZE.

(** The loop over the name of a node: the pointer it ends on, and [offset]. *)
Fixpoint skip_name (fuel : nat) (b : blob) (offset : Z) : outcome (option Z * Z) :=
  match fuel with
  | O => Diverge
  | S f =>
    let! p := fdt_offset_ptr b offset 1 in
    let offset := s32 (offset + 1) in
    match p with
    | None => Ret (None, offset)
    | Some a => let! c := fdt8 b a in
                if c =? 0 then Ret (p, offset) else skip_name f b offset
    end
  end.

(** The end of the item, before alignment; [None] is the premature end. *)
Definition tag_end (b : blob) (tag offset : Z) : outcome (option Z) :=
  if tag =? FDT_BEGIN_NODE then
    let! (p, offset) := skip_name (FDT_FUEL b) b offset in
    match p with
    | None => Ret (if negb (can_assume ASSUME_VALID_DTB) then None else Some offset)
    | Some _ => Ret (Some offset)
    end
  else if tag =? FDT_PROP then
    let! lenp := fdt_offset_ptr b offset 4 in
    match lenp with
    | None => if negb (can_assume ASSUME_VALID_DTB) then Ret None else Undef
    | Some lenp =>
      let! len := fdt32_ld_ b lenp in
      let sum := u32 (len + offset) in
      if negb (can_assume ASSUME_VALID_DTB) && ((INT_MAX <=? sum) || (sum <? u32 offset))
      then Ret None else
      let! version := fdt_version b in
      let offset := s32 (offset + (sizeof_fdt_property - FDT_TAGSIZE) + len) in
      let offset :=
        if negb (can_assume ASSUME_LATEST) && (version <? 16) && (8 <=? len)
           && negb (u32 (offset - len) mod 8 =? 0)
        then s32 (offset + 4) else offset in
      Ret (Some offset)
    end
  else if (tag =? FDT_END) || (tag =? FDT_END_NODE) || (tag =? FDT_NOP) then Ret (Some offset)
  else Ret None.

(** The tag, and what is stored through [nextoffset]. *)
Definition fdt_next_tag (b : blob) (startoffset : Z) : outcome (Z * Z) :=
  let! tagp := fdt_offset_ptr b startoffset FDT_TAGSIZE in
  match tagp with
  | None => if negb (can_assume ASSUME_VALID_DTB) then Ret (FDT_END, - FDT_ERR_TRUNCATED) else Undef
  | Some tagp =>
    let! tag := fdt32_ld_ b tagp in
    let! e := tag_end b tag (s32 (startoffset + FDT_TAGSIZE)) in
    match e with
    | None => Ret (FDT_END, - FDT_ERR_BADSTRUCTURE)
    | Some offset =>
      let! p := fdt_offset_ptr b startoffset (u32 (s32 (offset - startoffset))) in
      match p with
      | None => Ret (FDT_END, - FDT_ERR_BADSTRUCTURE)
      | Some _ => Ret (tag, s32 (FDT_TAGALIGN offset))
      end
    end
  end.

Definition fdt_check_tag_offset (want : Z) (b : blob) (offset : Z) : outcome Z :=
  if negb (can_assume ASSUME_VALID_INPUT) && ((offset <? 0) || negb (offset mod FDT_TAGSIZE =? 0))
  then Ret (- FDT_ERR_BADOFFSET) else
  let! (tag, offset) := fdt_next_tag b offset in
  if negb (tag =? want) then Ret (- FDT_ERR_BADOFFSET) else Ret offset.
Definition fdt_check_node_offset_ : blob -> Z -> outcome Z := fdt_check_tag_offset FDT_BEGIN_NODE.
Definition fdt_check_prop_offset_ : blob -> Z -> outcome Z := fdt_check_tag_offset FDT_PROP.

(** The result and the final [*depth]; [depth] is [None] for NULL. *)
Fixpoint next_node_loop (fuel : nat) (b : blob) (nextoffset : Z) (depth : option Z) : outcome (Z * option Z) :=
  match fuel with
  | O => Diverge
  | S f =>
    let offset := nextoffset in
    let! (tag, nextoffset) := fdt_next_tag b offset in
    if tag =? FDT_BEGIN_NODE then Ret (offset, option_map (fun d => d + 1) depth)
    else if tag =? FDT_END_NODE then
      match depth with
      | Some d => if d - 1 <? 0 then Ret (nextoffset, Some (d - 1))
                  else next_node_loop f b nextoffset (Some (d - 1))
      | None => next_node_loop f b nextoffset None
      end
    else if tag =? FDT_END then
      Ret (if (0 <=? nextoffset) || ((nextoffset =? - FDT_ERR_TRUNCATED) && bool_decide (depth = None))
           then - FDT_ERR_NOTFOUND else nextoffset, depth)
    else next_node_loop f b nextoffset depth
  end.
Definition fdt_next_node (b : blob) (offset : Z) (depth : option Z) : outcome (Z * option Z) :=
  if 0 <=? offset then
    let! nextoffset := fdt_check_node_offset_ b offset in
    if nextoffset <? 0 then Ret (nextoffset, depth) else next_node_loop (FDT_FUEL b) b nextoffset depth
  else next_node_loop (FDT_FUEL b) b 0 depth.
(** With NULL for [depth]. *)
Definition fdt_next_node0 (b : blob) (offset : Z) : outcome Z :=
  let! (offset, _) := fdt_next_node b offset None in Ret offset.

Definition depth_of (d : option Z) : Z := default 0 d.

Definition fdt_first_subnode (b : blob) (offset : Z) : outcome Z :=
  let! (offset, depth) := fdt_next_node b offset (Some 0) in
  Ret (if (offset <? 0) || negb (depth_of depth =? 1) then - FDT_ERR_NOTFOUND else offset).

Fixpoint next_subnode_loop (fuel : nat) (b : blob) (offset depth : Z) : outcome Z :=
  match fuel with
  | O => Diverge
  | S f =>
    let! (offset, depth) := fdt_next_node b offset (Some depth) in
    let depth := depth_of depth in
    if (offset <? 0) || (depth <? 1) then Ret (- FDT_ERR_NOTFOUND)
    else if 1 <? depth then next_subnode_loop f b offset depth else Ret offset
  end.
Definition fdt_next_subnode (b : blob) (offset : Z) : outcome Z :=
  next_subnode_loop (FDT_FUEL b) b offset 1.

(** [for (p = strtab; p <= last; p++)] *)
Fixpoint find_string_loop (n : nat) (b : blob) (p : Z) (s : list Z) : outcome (option Z) :=
  match n with
  | O => Ret None
  | S n' =>
    let! r := blob_memcmp b p s in
    if r =? 0 then
      let! c := fdt8 b (p + Z.of_nat (length s)) in
      if c =? 0 then Ret (Some p) else find_string_loop n' b (p + 1) s
    else find_string_loop n' b (p + 1) s
  end.
Definition fdt_find_string_len_ (b : blob) (strtab tabsize : Z) (s : list Z) : outcome (option Z) :=
  find_string_loop (Z.to_nat (tabsize - (Z.of_nat (length s) + 1) + 1)) b strtab s.
Definition fdt_find_string_ := fdt_find_string_len_.

(** The return value and, when it is 0, the bytes moved to [buf]. *)
Definition fdt_move (b : blob) (bufsize : Z) : outcome (Z * list Z) :=
  if negb (can_assume ASSUME_VALID_INPUT) && (bufsize <? 0) then Ret (- FDT_ERR_NOSPACE, []) else
  let! probe := fdt_ro_probe_ b in
  if probe <? 0 then Ret (probe, []) else
  let! totalsize := fdt_totalsize b in
  if u32 bufsize <? totalsize then Ret (- FDT_ERR_NOSPACE, []) else
  let! moved := blob_read b 0 (Z.to_nat totalsize) in Ret (0, moved).

(** ** [fdt_strerror.c] *)

Definition fdt_errtable : list (option string) :=
  None :: map Some
  ["FDT_ERR_NOTFOUND"; "FDT_ERR_EXISTS"; "FDT_ERR_NOSPACE"; "FDT_ERR_BADOFFSET";
   "FDT_ERR_BADPATH"; "FDT_ERR_BADPHANDLE"; "FDT_ERR_BADSTATE"; "FDT_ERR_TRUNCATED";
   "FDT_ERR_BADMAGIC"; "FDT_ERR_BADVERSION"; "FDT_ERR_BADSTRUCTURE"; "FDT_ERR_BADLAYOUT";
   "FDT_ERR_INTERNAL"; "FDT_ERR_BADNCELLS"; "FDT_ERR_BADVALUE"; "FDT_ERR_BADOVERLAY";
   "FDT_ERR_NOPHANDLES"; "FDT_ERR_BADFLAGS"; "FDT_ERR_ALIGNMENT"]%string.
Definition FDT_ERRTABSIZE : Z := Z.of_nat (length fdt_errtable).
Definition fdt_strerror (errval : Z) : outcome string :=
  if 0 <? errval then Ret "<valid offset/length>"%string
  else if errval =? 0 then Ret "<no error>"%string
  else if s32 (- errval) <? FDT_ERRTABSIZE then
    if s32 (- errval) <? 0 then Undef else
    match fdt_errtable !! Z.to_nat (s32 (- errval)) with
    | Some (Some s) => Ret s
    | Some None => Ret "<unknown error>"%string
    | None => Undef
    end
  else Ret "<unknown error>"%string.
