(* ===== verification/FdtRo.v ===== *)
(** * libfdt: reading the tree ([lib/libfdt/fdt_ro.c], [fdt_addresses.c],
      [fdt_check.c])

    A pointer to a property is the position of its [struct fdt_property] in the
    blob, a pointer to its value the position of the value.  A name or a path is
    the list of its characters: [namelen] is its length, and the terminating zero
    is not part of it.  An output parameter is a component of the result. *)
From stdpp Require Import base numbers list strings.
From Stdlib Require Import ZArith Lia.
From S2P Require Import Prelude Fdt.

Local Open Scope Z_scope.
Local Open Scope fdt_scope.

(** ** Strings *)

(** The pointer and [*lenp]. *)
Definition fdt_get_string (b : blob) (stroffset : Z) : outcome (option Z * Z) :=
  if can_assume ASSUME_VALID_INPUT then
    let! off_dt_strings := fdt_off_dt_strings b in
    let! len := blob_strlen b (off_dt_strings + stroffset) in
    Ret (Some (off_dt_strings + stroffset), s32 len)
  else
  let! totalsize := fdt_ro_probe_ b in
  if totalsize <? 0 then Ret (None, totalsize) else
  let! off_dt_strings := fdt_off_dt_strings b in
  let absoffset := u32 (stroffset + off_dt_strings) in
  if totalsize <=? absoffset then Ret (None, - FDT_ERR_BADOFFSET) else
  let len := totalsize - absoffset in
  let! magic := fdt_magic b in
  let! version := fdt_version b in
  let! size_dt_strings := fdt_size_dt_strings b in
  let sw_stroffset := u32 (- stroffset) in
  let bounded :=
    if magic =? FDT_MAGIC then
      if stroffset <? 0 then inr (- FDT_ERR_BADOFFSET) else
      if can_assume ASSUME_LATEST || (17 <=? version) then
        if size_dt_strings <=? stroffset then inr (- FDT_ERR_BADOFFSET)
        else inl (if size_dt_strings - stroffset <? len then size_dt_strings - stroffset else len)
      else inl len
    else if magic =? FDT_SW_MAGIC then
      if (0 <=? stroffset) || (size_dt_strings <? sw_stroffset) then inr (- FDT_ERR_BADOFFSET)
      else inl (if sw_stroffset <? len then sw_stroffset else len)
    else inr (- FDT_ERR_INTERNAL) in
  match bounded with
  | inr err => Ret (None, err)
  | inl len =>
    let! n := blob_memchr b absoffset 0 (Z.to_nat len) in
    match n with
    | None => Ret (None, - FDT_ERR_TRUNCATED)
    | Some n => Ret (Some absoffset, s32 (n - absoffset))
    end
  end.
Definition fdt_string (b : blob) (stroffset : Z) : outcome (option Z) :=
  let! (s, _) := fdt_get_string b stroffset in Ret s.

Definition fdt_string_eq_ (b : blob) (stroffset : Z) (s : list Z) : outcome bool :=
  let! (p, slen) := fdt_get_string b stroffset in
  match p with
  | None => Ret false
  | Some p => if negb (slen =? Z.of_nat (length s)) then Ret false
              else let! r := blob_memcmp b p s in Ret (r =? 0)
  end.

(** ** Memory reservations *)

Definition fdt_mem_rsv_ (b : blob) (n : Z) : outcome Z :=
  let! off_mem_rsvmap := fdt_off_mem_rsvmap b in Ret (off_mem_rsvmap + n * sizeof_fdt_reserve_entry).
Definition fdt_mem_rsv (b : blob) (n : Z) : outcome (option Z) :=
  let offset := u32 (n * sizeof_fdt_reserve_entry) in
  let! off_mem_rsvmap := fdt_off_mem_rsvmap b in
  let absoffset := u32 (off_mem_rsvmap + offset) in
  let! totalsize := fdt_totalsize b in
  if negb (can_assume ASSUME_VALID_INPUT) &&
     ((absoffset <? off_mem_rsvmap) || (u64 (totalsize - sizeof_fdt_reserve_entry) <? absoffset))
  then Ret None else let! p := fdt_mem_rsv_ b n in Ret (Some p).
(** The error, and the address and size. *)
Definition fdt_get_mem_rsv (b : blob) (n : Z) : outcome (Z * (Z * Z)) :=
  let! probe := fdt_ro_probe_ b in
  if probe <? 0 then Ret (probe, (0, 0)) else
  let! re := fdt_mem_rsv b n in
  match re with
  | None => if negb (can_assume ASSUME_VALID_INPUT) then Ret (- FDT_ERR_BADOFFSET, (0, 0)) else Undef
  | Some re => let! address := fdt64_ld_ b re in let! size := fdt64_ld_ b (re + 8) in
               Ret (0, (address, size))
  end.
Fixpoint num_mem_rsv_loop (fuel : nat) (b : blob) (i : Z) : outcome Z :=
  match fuel with
  | O => Diverge
  | S f =>
    let! re := fdt_mem_rsv b i in
    match re with
    | None => Ret (- FDT_ERR_TRUNCATED)
    | Some re => let! size := fdt64_ld_ b (re + 8) in
                 if size =? 0 then Ret i else num_mem_rsv_loop f b (s32 (i + 1))
    end
  end.
Definition fdt_num_mem_rsv (b : blob) : outcome Z := num_mem_rsv_loop (FDT_FUEL b) b 0.

(** ** Properties *)

Fixpoint nextprop_loop (fuel : nat) (b : blob) (offset : Z) : outcome Z :=
  match fuel with
  | O => Diverge
  | S f =>
    let! (tag, nextoffset) := fdt_next_tag b offset in
    if tag =? FDT_END then Ret (if 0 <=? nextoffset then - FDT_ERR_BADSTRUCTURE else nextoffset)
    else if tag =? FDT_PROP then Ret offset
    else if tag =? FDT_NOP then nextprop_loop f b nextoffset
    else Ret (- FDT_ERR_NOTFOUND)
  end.
Definition nextprop_ (b : blob) (offset : Z) : outcome Z := nextprop_loop (FDT_FUEL b) b offset.

Definition fdt_first_property_offset (b : blob) (nodeoffset : Z) : outcome Z :=
  let! offset := fdt_check_node_offset_ b nodeoffset in
  if offset <? 0 then Ret offset else nextprop_ b offset.
Definition fdt_next_property_offset (b : blob) (offset : Z) : outcome Z :=
  let! offset := fdt_check_prop_offset_ b offset in
  if offset <? 0 then Ret offset else nextprop_ b offset.

Definition fdt_get_property_by_offset_ (b : blob) (offset : Z) : outcome (option Z * Z) :=
  let! err := (if can_assume ASSUME_VALID_INPUT then Ret 0 else fdt_check_prop_offset_ b offset) in
  if err <? 0 then Ret (None, err) else
  let! prop := fdt_offset_ptr_ b offset in
  let! len := fdt32_ld_ b (prop + 4) in Ret (Some prop, s32 len).
Definition fdt_get_property_by_offset (b : blob) (offset : Z) : outcome (option Z * Z) :=
  let! version := fdt_version b in
  if negb (can_assume ASSUME_LATEST) && (version <? 16) then Ret (None, - FDT_ERR_BADVERSION)
  else fdt_get_property_by_offset_ b offset.

(** The property with its offset, and [*lenp]. *)
Fixpoint get_property_loop (fuel : nat) (b : blob) (offset : Z) (name : list Z) : outcome (option (Z * Z) * Z) :=
  match fuel with
  | O => Diverge
  | S f =>
    if offset <? 0 then Ret (None, offset) else
    let! (prop, len) := fdt_get_property_by_offset_ b offset in
    match prop with
    | None => if negb (can_assume ASSUME_LIBFDT_FLAWLESS) then Ret (None, - FDT_ERR_INTERNAL) else Undef
    | Some prop =>
      let! nameoff := fdt32_ld_ b (prop + 8) in
      let! eq := fdt_string_eq_ b (s32 nameoff) name in
      if eq then Ret (Some (prop, offset), len) else
      let! offset := fdt_next_property_offset b offset in get_property_loop f b offset name
    end
  end.
Definition fdt_get_property_namelen_ (b : blob) (offset : Z) (name : list Z) : outcome (option (Z * Z) * Z) :=
  let! offset := fdt_first_property_offset b offset in get_property_loop (FDT_FUEL b) b offset name.
Definition fdt_get_property_namelen (b : blob) (offset : Z) (name : list Z) : outcome (option Z * Z) :=
  let! version := fdt_version b in
  if negb (can_assume ASSUME_LATEST) && (version <? 16) then Ret (None, - FDT_ERR_BADVERSION)
  else let! (prop, len) := fdt_get_property_namelen_ b offset name in Ret (option_map fst prop, len).
Definition fdt_get_property := fdt_get_property_namelen.

(** [prop->data], four bytes later when an old version aligned it. *)
Definition prop_data (b : blob) (prop offset : Z) : outcome Z :=
  let! version := fdt_version b in
  let! len := fdt32_ld_ b (prop + 4) in
  Ret (if negb (can_assume ASSUME_LATEST) && (version <? 16)
          && negb (u64 (offset + sizeof_fdt_property) mod 8 =? 0) && (8 <=? len)
       then prop + 12 + 4 else prop + 12).

Definition fdt_getprop_namelen (b : blob) (nodeoffset : Z) (name : list Z) : outcome (option Z * Z) :=
  let! (prop, len) := fdt_get_property_namelen_ b nodeoffset name in
  match prop with
  | None => Ret (None, len)
  | Some (prop, poffset) => let! p := prop_data b prop poffset in Ret (Some p, len)
  end.
Definition fdt_getprop := fdt_getprop_namelen.

(** With a pointer for [namep]: value, name, [*lenp]. *)
Definition fdt_getprop_by_offset (b : blob) (offset : Z) : outcome (option Z * option Z * Z) :=
  let! (prop, len) := fdt_get_property_by_offset_ b offset in
  match prop with
  | None => Ret (None, None, len)
  | Some prop =>
    let! nameoff := fdt32_ld_ b (prop + 8) in
    let! (name, namelen) := fdt_get_string b (s32 nameoff) in
    if negb (can_assume ASSUME_VALID_INPUT) && bool_decide (name = None) then Ret (None, None, namelen)
    else let! p := prop_data b prop offset in Ret (Some p, name, len)
  end.

Definition chars (s : string) : list Z := bytes_of_string s.

(** A property that is one cell long. *)
Definition cell_prop (b : blob) (nodeoffset : Z) (name : string) : outcome (option Z) :=
  let! (php, len) := fdt_getprop b nodeoffset (chars name) in
  match php with
  | None => Ret None
  | Some p => Ret (if negb (len =? 4) then None else Some p)
  end.
Definition fdt_get_phandle (b : blob) (nodeoffset : Z) : outcome Z :=
  let! php := cell_prop b nodeoffset "phandle" in
  match php with
  | Some p => fdt32_ld_ b p
  | None =>
    let! php := cell_prop b nodeoffset "linux,phandle" in
    match php with Some p => fdt32_ld_ b p | None => Ret 0 end
  end.

(** The error, and the greatest phandle. *)
Fixpoint find_max_phandle_loop (fuel : nat) (b : blob) (offset max : Z) : outcome (Z * Z) :=
  match fuel with
  | O => Diverge
  | S f =>
    let! offset := fdt_next_node0 b offset in
    if offset <? 0 then Ret (if offset =? - FDT_ERR_NOTFOUND then (0, max) else (offset, max)) else
    let! value := fdt_get_phandle b offset in
    find_max_phandle_loop f b offset (if max <? value then value else max)
  end.
Definition fdt_find_max_phandle (b : blob) : outcome (Z * Z) := find_max_phandle_loop (FDT_FUEL b) b (-1) 0.
Definition fdt_get_max_phandle (b : blob) : outcome Z :=
  let! (err, phandle) := fdt_find_max_phandle b in Ret (if err <? 0 then u32 (-1) else phandle).
Definition fdt_generate_phandle (b : blob) : outcome (Z * Z) :=
  let! (err, max) := fdt_find_max_phandle b in
  if err <? 0 then Ret (err, 0) else
  if max =? FDT_MAX_PHANDLE then Ret (- FDT_ERR_NOPHANDLES, 0) else Ret (0, u32 (max + 1)).

(** ** Nodes by name and path *)

Definition fdt_get_name (b : blob) (nodeoffset : Z) : outcome (option Z * Z) :=
  let! nh := fdt_offset_ptr_ b nodeoffset in
  let! err := fdt_ro_probe_ b in
  if err <? 0 then Ret (None, err) else
  let! err := fdt_check_node_offset_ b nodeoffset in
  if err <? 0 then Ret (None, err) else
  let nameptr := nh + 4 in
  let! version := fdt_version b in
  let! nameptr :=
    (if negb (can_assume ASSUME_LATEST) && (version <? 16)
     then let! leaf := blob_strrchr b nameptr 47 in Ret (option_map (fun l => l + 1) leaf)
     else Ret (Some nameptr)) in
  match nameptr with
  | None => Ret (None, - FDT_ERR_BADSTRUCTURE)
  | Some nameptr => let! len := blob_strlen b nameptr in Ret (Some nameptr, s32 len)
  end.

Definition fdt_nodename_eq_ (b : blob) (offset : Z) (s : list Z) : outcome bool :=
  let! (p, olen) := fdt_get_name b offset in
  match p with
  | None => Ret false
  | Some p =>
    if olen <? Z.of_nat (length s) then Ret false else
    let! r := blob_memcmp b p s in
    if negb (r =? 0) then Ret false else
    let! c := fdt8 b (p + Z.of_nat (length s)) in
    Ret ((c =? 0) || (bool_decide (64 ∉ s) && (c =? 64)))
  end.

Fixpoint subnode_loop (fuel : nat) (b : blob) (offset depth : Z) (name : list Z) : outcome Z :=
  match fuel with
  | O => Diverge
  | S f =>
    if (0 <=? offset) && (0 <=? depth) then
      let! eq := (if depth =? 1 then fdt_nodename_eq_ b offset name else Ret false) in
      if eq then Ret offset else
      let! (offset, depth) := fdt_next_node b offset (Some depth) in
      subnode_loop f b offset (depth_of depth) name
    else Ret (if depth <? 0 then - FDT_ERR_NOTFOUND else offset)
  end.
Definition fdt_subnode_offset_namelen (b : blob) (offset : Z) (name : list Z) : outcome Z :=
  FDT_RO_PROBE b (subnode_loop (FDT_FUEL b) b offset 0 name).
Definition fdt_subnode_offset := fdt_subnode_offset_namelen.

(** One path component: the characters before the next slash, and the rest. *)
Fixpoint component (p : list Z) : list Z * list Z :=
  match p with
  | [] => ([], [])
  | c :: p' => if c =? 47 then ([], p) else let '(q, r) := component p' in (c :: q, r)
  end.
Fixpoint skip_slashes (p : list Z) : list Z :=
  match p with
  | c :: p' => if c =? 47 then skip_slashes p' else p
  | [] => []
  end.
(** [while (p < end)]; [p] is the rest of the path. *)
Fixpoint path_loop (fuel : nat) (b : blob) (offset : Z) (p : list Z) : outcome Z :=
  match fuel with
  | O => Diverge
  | S f =>
    match skip_slashes p with
    | [] => Ret offset
    | p =>
      let '(name, q) := component p in
      let! offset := fdt_subnode_offset_namelen b offset name in
      if offset <? 0 then Ret offset else path_loop f b offset q
    end
  end.

(** The functions from [fdt_path_offset_namelen] to [fdt_get_alias_namelen] call
    each other: a path that does not start with a slash starts with an alias,
    and aliases are the properties of the node "/aliases".  [rec] is
    [fdt_path_offset] one call deeper. *)
Definition path_getprop_body (rec : blob -> list Z -> outcome Z) (b : blob) (path propname : list Z) : outcome (option Z * Z) :=
  let! offset := rec b path in
  if offset <? 0 then Ret (None, offset) else fdt_getprop_namelen b offset propname.
Definition alias_body (rec : blob -> list Z -> outcome Z) (b : blob) (name : list Z) : outcome (option Z) :=
  let! (alias, len) := path_getprop_body rec b (chars "/aliases") name in
  match alias with
  | None => Ret None
  | Some alias =>
    if can_assume ASSUME_VALID_DTB then Ret (Some alias) else
    if negb (0 <? len) then Ret None else
    let! last := fdt8 b (alias + len - 1) in
    let! first := fdt8 b alias in
    Ret (if (last =? 0) && (first =? 47) then Some alias else None)
  end.
Definition path_offset_body (rec : blob -> list Z -> outcome Z) (b : blob) (path : list Z) : outcome Z :=
  FDT_RO_PROBE b (
    match path with
    | [] => if negb (can_assume ASSUME_VALID_INPUT) then Ret (- FDT_ERR_BADPATH) else Undef
    | c :: _ =>
      if negb (c =? 47) then
        let '(name, q) := component path in
        let! p := alias_body rec b name in
        match p with
        | None => Ret (- FDT_ERR_BADPATH)
        | Some p =>
          let! alias := blob_string b p in
          let! offset := rec b alias in
          path_loop (S (length q)) b offset q
        end
      else path_loop (S (length path)) b 0 path
    end).
Fixpoint path_offset_rec (n : nat) (b : blob) (path : list Z) : outcome Z :=
  match n with
  | O => Diverge
  | S n' => path_offset_body (path_offset_rec n') b path
  end.
Definition fdt_path_offset_namelen (b : blob) (path : list Z) : outcome Z := path_offset_rec 2 b path.
Definition fdt_path_offset := fdt_path_offset_namelen.
Definition fdt_path_getprop_namelen (b : blob) (path propname : list Z) : outcome (option Z * Z) :=
  path_getprop_body fdt_path_offset b path propname.
Definition fdt_get_alias_namelen (b : blob) (name : list Z) : outcome (option Z) :=
  alias_body fdt_path_offset b name.
Definition fdt_get_alias := fdt_get_alias_namelen.
Definition fdt_get_symbol_namelen (b : blob) (name : list Z) : outcome (option Z) :=
  let! (p, _) := fdt_path_getprop_namelen b (chars "/__symbols__") name in Ret p.
Definition fdt_get_symbol := fdt_get_symbol_namelen.

(** ** Where a node is *)

(** [do { p--; } while (buf[p - 1] != '/');] on the characters written so far,
    the last one first. *)
Fixpoint back_to_slash (rbuf : list Z) : outcome (list Z) :=
  match rbuf with
  | [] => Undef
  | c :: r => if c =? 47 then Ret rbuf else back_to_slash r
  end.
Definition pop_component (rbuf : list Z) : outcome (list Z) :=
  match rbuf with [] => Undef | _ :: r => back_to_slash r end.
Fixpoint pop_components (n : nat) (rbuf : list Z) : outcome (list Z) :=
  match n with
  | O => Ret rbuf
  | S n' => let! r := pop_component rbuf in pop_components n' r
  end.

(** The error, or 0 and the string stored in [buf]. *)
Fixpoint get_path_loop (fuel : nat) (b : blob) (nodeoffset buflen offset depth pdepth : Z) (rbuf : list Z)
    : outcome (Z * list Z) :=
  match fuel with
  | O => Diverge
  | S f =>
    if negb ((0 <=? offset) && (offset <=? nodeoffset)) then
      Ret (if (offset =? - FDT_ERR_NOTFOUND) || (0 <=? offset) then - FDT_ERR_BADOFFSET
           else if offset =? - FDT_ERR_BADOFFSET then - FDT_ERR_BADSTRUCTURE else offset, [])
    else
    let! rbuf := pop_components (Z.to_nat (pdepth - depth)) rbuf in
    let pdepth := Z.min pdepth depth in
    let p := Z.of_nat (length rbuf) in
    let! (name, namelen) := (if depth <=? pdepth then fdt_get_name b offset else Ret (Some 0, -1)) in
    match name with
    | None => Ret (namelen, [])
    | Some name =>
      let fits := (depth <=? pdepth) && (p + namelen + 1 <=? buflen) in
      let! chars := (if fits then blob_read b name (Z.to_nat namelen) else Ret []) in
      let rbuf := if fits then 47 :: rev chars ++ rbuf else rbuf in
      let pdepth := if fits then pdepth + 1 else pdepth in
      if offset =? nodeoffset then
        if pdepth <? depth + 1 then Ret (- FDT_ERR_NOSPACE, []) else
        Ret (0, rev (if (1 <? length rbuf)%nat then tail rbuf else rbuf))
      else
      let! (offset, depth) := fdt_next_node b offset (Some depth) in
      get_path_loop f b nodeoffset buflen offset (depth_of depth) pdepth rbuf
    end
  end.
Definition fdt_get_path (b : blob) (nodeoffset buflen : Z) : outcome (Z * list Z) :=
  let! probe := fdt_ro_probe_ b in
  if probe <? 0 then Ret (probe, []) else
  if buflen <? 2 then Ret (- FDT_ERR_NOSPACE, []) else
  get_path_loop (FDT_FUEL b) b nodeoffset buflen 0 0 0 [].

(** The result, and [*nodedepth] when it is set. *)
Fixpoint supernode_loop (fuel : nat) (b : blob) (nodeoffset supernodedepth offset depth supernodeoffset : Z)
    : outcome (Z * option Z) :=
  match fuel with
  | O => Diverge
  | S f =>
    if negb ((0 <=? offset) && (offset <=? nodeoffset)) then
      Ret (if can_assume ASSUME_VALID_INPUT then offset
           else if (offset =? - FDT_ERR_NOTFOUND) || (0 <=? offset) then - FDT_ERR_BADOFFSET
           else if offset =? - FDT_ERR_BADOFFSET then - FDT_ERR_BADSTRUCTURE else offset, None)
    else
    let supernodeoffset := if depth =? supernodedepth then offset else supernodeoffset in
    if offset =? nodeoffset then
      Ret (if depth <? supernodedepth then - FDT_ERR_NOTFOUND else supernodeoffset, Some depth)
    else
    let! (offset, depth) := fdt_next_node b offset (Some depth) in
    supernode_loop f b nodeoffset supernodedepth offset (depth_of depth) supernodeoffset
  end.
Definition fdt_supernode_atdepth_offset (b : blob) (nodeoffset supernodedepth : Z) : outcome (Z * option Z) :=
  let! probe := fdt_ro_probe_ b in
  if probe <? 0 then Ret (probe, None) else
  if supernodedepth <? 0 then Ret (- FDT_ERR_NOTFOUND, None) else
  supernode_loop (FDT_FUEL b) b nodeoffset supernodedepth 0 0 (- FDT_ERR_INTERNAL).

Definition fdt_node_depth (b : blob) (nodeoffset : Z) : outcome Z :=
  let! (err, nodedepth) := fdt_supernode_atdepth_offset b nodeoffset 0 in
  if negb (err =? 0) then
    Ret (if can_assume ASSUME_LIBFDT_FLAWLESS || (err <? 0) then err else - FDT_ERR_INTERNAL)
  else match nodedepth with Some d => Ret d | None => Undef end.
Definition fdt_parent_offset (b : blob) (nodeoffset : Z) : outcome Z :=
  let! nodedepth := fdt_node_depth b nodeoffset in
  if nodedepth <? 0 then Ret nodedepth else
  let! (offset, _) := fdt_supernode_atdepth_offset b nodeoffset (nodedepth - 1) in Ret offset.

(** ** Searching the tree *)

(** [for (offset = fdt_next_node(fdt, startoffset, NULL); offset >= 0; offset =
    fdt_next_node(fdt, offset, NULL))]: the first node on which [test] returns
    from the function. *)
Fixpoint search_loop (fuel : nat) (b : blob) (startoffset : Z) (test : Z -> outcome (option Z)) : outcome Z :=
  match fuel with
  | O => Diverge
  | S f =>
    let! offset := fdt_next_node0 b startoffset in
    if offset <? 0 then Ret offset else
    let! r := test offset in
    match r with Some r => Ret r | None => search_loop f b offset test end
  end.

Definition fdt_node_offset_by_prop_value (b : blob) (startoffset : Z) (propname propval : list Z) : outcome Z :=
  FDT_RO_PROBE b (search_loop (FDT_FUEL b) b startoffset (fun offset =>
    let! (val, len) := fdt_getprop b offset propname in
    match val with
    | None => Ret None
    | Some val => if negb (len =? Z.of_nat (length propval)) then Ret None else
                  let! r := blob_memcmp b val propval in Ret (if r =? 0 then Some offset else None)
    end)).

Definition fdt_node_offset_by_phandle (b : blob) (phandle : Z) : outcome Z :=
  if (phandle =? 0) || (phandle =? 4294967295) then Ret (- FDT_ERR_BADPHANDLE) else
  FDT_RO_PROBE b (search_loop (FDT_FUEL b) b (-1) (fun offset =>
    let! v := fdt_get_phandle b offset in Ret (if v =? phandle then Some offset else None))).

(** [strlist] is a pointer into the blob; [memcmp] compares the terminating zero
    of [str], too. *)
Fixpoint stringlist_contains_loop (fuel : nat) (b : blob) (strlist listlen : Z) (str : list Z) : outcome Z :=
  match fuel with
  | O => Diverge
  | S f =>
    if listlen <? Z.of_nat (length str) then Ret 0 else
    let! r := blob_memcmp b strlist (str ++ [0]) in
    if r =? 0 then Ret 1 else
    let! p := blob_memchr b strlist 0 (Z.to_nat listlen) in
    match p with
    | None => Ret 0
    | Some p => stringlist_contains_loop f b (p + 1) (listlen - ((p - strlist) + 1)) str
    end
  end.
Definition fdt_stringlist_contains (b : blob) (strlist listlen : Z) (str : list Z) : outcome Z :=
  stringlist_contains_loop (FDT_FUEL b) b strlist listlen str.

(** [while (list < end)] of the three functions below: [visit] sees each string
    (position, length with its zero) with its index and may return. *)
Fixpoint stringlist_loop {A} (fuel : nat) (b : blob) (list end_ idx : Z)
    (bad : A) (visit : Z -> Z -> Z -> outcome (option A)) (done : Z -> A) : outcome A :=
  match fuel with
  | O => Diverge
  | S f =>
    if end_ <=? list then Ret (done idx) else
    let! n := blob_strnlen b list 0 (Z.to_nat (end_ - list)) in
    let length := n + 1 in
    if end_ <? list + length then Ret bad else
    let! r := visit list length idx in
    match r with
    | Some a => Ret a
    | None => stringlist_loop f b (list + length) end_ (idx + 1) bad visit done
    end
  end.

Definition fdt_stringlist_count (b : blob) (nodeoffset : Z) (property : list Z) : outcome Z :=
  let! (list, length) := fdt_getprop b nodeoffset property in
  match list with
  | None => Ret length
  | Some list => stringlist_loop (FDT_FUEL b) b list (list + length) 0 (- FDT_ERR_BADVALUE)
                   (fun _ _ _ => Ret None) (fun count => count)
  end.
Definition fdt_stringlist_search (b : blob) (nodeoffset : Z) (property str : list Z) : outcome Z :=
  let! (list, length) := fdt_getprop b nodeoffset property in
  match list with
  | None => Ret length
  | Some list =>
    let len := Z.of_nat (List.length str) + 1 in
    stringlist_loop (FDT_FUEL b) b list (list + length) 0 (- FDT_ERR_BADVALUE)
      (fun l n idx => if negb (n =? len) then Ret None else
                      let! r := blob_memcmp b l (str ++ [0]) in
                      Ret (if r =? 0 then Some idx else None))
      (fun _ => - FDT_ERR_NOTFOUND)
  end.
(** The string and [*lenp]; [idx] counts down in the source. *)
Definition fdt_stringlist_get (b : blob) (nodeoffset : Z) (property : list Z) (idx : Z) : outcome (option Z * Z) :=
  let! (list, length) := fdt_getprop b nodeoffset property in
  match list with
  | None => Ret (None, length)
  | Some list =>
    stringlist_loop (FDT_FUEL b) b list (list + length) 0 (None, - FDT_ERR_BADVALUE)
      (fun l n i => Ret (if idx - i =? 0 then Some (Some l, n - 1) else None))
      (fun _ => (None, - FDT_ERR_NOTFOUND))
  end.

Definition fdt_node_check_compatible (b : blob) (nodeoffset : Z) (compatible : list Z) : outcome Z :=
  let! (prop, len) := fdt_getprop b nodeoffset (chars "compatible") in
  match prop with
  | None => Ret len
  | Some prop => let! r := fdt_stringlist_contains b prop len compatible in
                 Ret (if r =? 0 then 1 else 0)
  end.
Definition fdt_node_offset_by_compatible (b : blob) (startoffset : Z) (compatible : list Z) : outcome Z :=
  FDT_RO_PROBE b (search_loop (FDT_FUEL b) b startoffset (fun offset =>
    let! err := fdt_node_check_compatible b offset compatible in
    Ret (if (err <? 0) && negb (err =? - FDT_ERR_NOTFOUND) then Some err
         else if err =? 0 then Some offset else None))).

(** ** [fdt_addresses.c] *)

Definition fdt_cells (b : blob) (nodeoffset : Z) (name : list Z) : outcome Z :=
  let! (c, len) := fdt_getprop b nodeoffset name in
  match c with
  | None => Ret len
  | Some c =>
    if negb (len =? 4) then Ret (- FDT_ERR_BADNCELLS) else
    let! val := fdt32_ld_ b c in
    if FDT_MAX_NCELLS <? val then Ret (- FDT_ERR_BADNCELLS) else Ret val
  end.
Definition fdt_address_cells (b : blob) (nodeoffset : Z) : outcome Z :=
  let! val := fdt_cells b nodeoffset (chars "#address-cells") in
  Ret (if val =? 0 then - FDT_ERR_BADNCELLS else if val =? - FDT_ERR_NOTFOUND then 2 else val).
Definition fdt_size_cells (b : blob) (nodeoffset : Z) : outcome Z :=
  let! val := fdt_cells b nodeoffset (chars "#size-cells") in
  Ret (if val =? - FDT_ERR_NOTFOUND then 1 else val).

(** The repository has no [fdt_appendprop]; [appendprop] stands for it and gets
    the bytes of the range. *)
Definition fdt_appendprop_addrrange (appendprop : Z -> list Z -> list Z -> outcome Z)
    (b : blob) (parent nodeoffset : Z) (name : list Z) (addr size : Z) : outcome Z :=
  let! addr_cells := fdt_address_cells b parent in
  if addr_cells <? 0 then Ret addr_cells else
  let! size_cells := fdt_size_cells b parent in
  if size_cells <? 0 then Ret size_cells else
  let uint32_max := 2^32 - 1 in
  let prop :=
    if addr_cells =? 1 then
      if (uint32_max <? addr) || (u64 (uint32_max + 1 - addr) <? size)
      then inr (- FDT_ERR_BADVALUE) else inl (fdt32_st addr)
    else if addr_cells =? 2 then inl (fdt64_st addr) else inr (- FDT_ERR_BADNCELLS) in
  match prop with
  | inr err => Ret err
  | inl a =>
    let prop :=
      if size_cells =? 1 then
        if uint32_max <? size then inr (- FDT_ERR_BADVALUE) else inl (fdt32_st size)
      else if size_cells =? 2 then inl (fdt64_st size) else inr (- FDT_ERR_BADNCELLS) in
    match prop with
    | inr err => Ret err
    | inl l => appendprop nodeoffset name (a ++ l)
    end
  end.

(** ** [fdt_check.c] *)

(** [while (1)]; [depth] is [unsigned int]. *)
Fixpoint check_full_loop (fuel : nat) (b : blob) (nextoffset depth : Z) (expect_end : bool) : outcome Z :=
  match fuel with
  | O => Diverge
  | S f =>
    let offset := nextoffset in
    let! (tag, nextoffset) := fdt_next_tag b offset in
    if nextoffset <? 0 then Ret nextoffset else
    if expect_end && negb (tag =? FDT_END) then Ret (- FDT_ERR_BADSTRUCTURE) else
    if tag =? FDT_NOP then check_full_loop f b nextoffset depth expect_end
    else if tag =? FDT_END then Ret (if negb (depth =? 0) then - FDT_ERR_BADSTRUCTURE else 0)
    else if tag =? FDT_BEGIN_NODE then
      let depth := u32 (depth + 1) in
      if INT_MAX <? depth then Ret (- FDT_ERR_BADSTRUCTURE) else
      if depth =? 1 then
        let! (name, len) := fdt_get_name b offset in
        match name with
        | None => Ret len
        | Some name =>
          let! c := fdt8 b name in
          if negb (c =? 0) || negb (len =? 0) then Ret (- FDT_ERR_BADSTRUCTURE)
          else check_full_loop f b nextoffset depth expect_end
        end
      else check_full_loop f b nextoffset depth expect_end
    else if tag =? FDT_END_NODE then
      if depth =? 0 then Ret (- FDT_ERR_BADSTRUCTURE) else
      let depth := depth - 1 in
      check_full_loop f b nextoffset depth (expect_end || (depth =? 0))
    else if tag =? FDT_PROP then
      let! (prop, _, err) := fdt_getprop_by_offset b offset in
      match prop with
      | None => Ret err
      | Some _ => check_full_loop f b nextoffset depth expect_end
      end
    else Ret (- FDT_ERR_INTERNAL)
  end.
Definition fdt_check_full (b : blob) (bufsize : Z) : outcome Z :=
  if bufsize <? FDT_V1_SIZE then Ret (- FDT_ERR_TRUNCATED) else
  let! hdrsize := fdt_header_size b in
  if bufsize <? hdrsize then Ret (- FDT_ERR_TRUNCATED) else
  let! err := fdt_check_header b in
  if negb (err =? 0) then Ret err else
  let! totalsize := fdt_totalsize b in
  if bufsize <? totalsize then Ret (- FDT_ERR_TRUNCATED) else
  let! num_memrsv := fdt_num_mem_rsv b in
  if num_memrsv <? 0 then Ret num_memrsv else
  check_full_loop (FDT_FUEL b) b 0 0 false.
