(* ===== verification/FdtSafe.v ===== *)
(** * libfdt never leaves its blob

    [sane b]: the header is there, the size it states is at most [INT_MAX - 16],
    and the memory behind the pointer is one byte longer than that size.  Nothing
    is assumed about the contents.  On such a blob every read-only function
    returns: no read outside the memory, no loop without end, and the result is
    either a position inside the blob or an error code. *)
From stdpp Require Import base numbers list strings.
From Stdlib Require Import ZArith Lia.
From S2P Require Import Prelude Fdt FdtRo.

Local Open Scope Z_scope.
Local Open Scope fdt_scope.

(** ** Results of computations *)

(** The computation returns, and the result satisfies [Q]. *)
Definition gives {A} (m : outcome A) (Q : A -> Prop) : Prop :=
  match m with Ret a => Q a | _ => False end.

Lemma gives_ret {A} (a : A) (Q : A -> Prop) : Q a -> gives (Ret a) Q.
Proof. done. Qed.
Lemma gives_bind {A B} (m : outcome A) (k : A -> outcome B) Q :
  gives m (fun a => gives (k a) Q) -> gives (obind m k) Q.
Proof. by destruct m. Qed.
Lemma gives_mono {A} (m : outcome A) (Q Q' : A -> Prop) :
  gives m Q -> (forall a, Q a -> Q' a) -> gives m Q'.
Proof. destruct m; simpl; auto. Qed.
Lemma gives_step {A B} (m : outcome A) (k : A -> outcome B) P Q :
  gives m P -> (forall a, P a -> gives (k a) Q) -> gives (obind m k) Q.
Proof. destruct m; simpl; auto. Qed.
Lemma gives_eq {A} (m : outcome A) Q : gives m Q -> exists a, m = Ret a /\ Q a.
Proof. destruct m; simpl; [|done..]. eauto. Qed.

(** ** Arithmetic *)

Definition align4 (x : Z) : Z := x + (- x) mod 4.
Lemma align4_bounds x : x <= align4 x < x + 4.
Proof. unfold align4. pose proof (Z.mod_pos_bound (- x) 4). lia. Qed.
Lemma align4_mod x : align4 x mod 4 = 0.
Proof. unfold align4. Z.div_mod_to_equations. lia. Qed.
Lemma align4_id x : x mod 4 = 0 -> align4 x = x.
Proof. unfold align4. Z.div_mod_to_equations. lia. Qed.
Lemma FDT_TAGALIGN_align4 x : FDT_TAGALIGN x = align4 x.
Proof.
  unfold FDT_TAGALIGN, FDT_ALIGN, align4, FDT_TAGSIZE.
  change (4 - 1) with (Z.ones 2). rewrite <- Z.ldiff_land, Z.ldiff_ones_r by lia.
  rewrite Z.shiftl_mul_pow2, Z.shiftr_div_pow2 by lia. change (2^2) with 4. Z.div_mod_to_equations. lia.
Qed.
Lemma u32_s32 z : u32 (s32 z) = u32 z.
Proof.
  unfold u32, s32. rewrite Zminus_mod, Z.mod_mod by lia. rewrite <- Zminus_mod. f_equal. lia.
Qed.

(** An error code. *)
Definition err (r : Z) : Prop := - FDT_ERR_MAX <= r < 0.
Definition is_int (z : Z) : Prop := - 2^31 <= z < 2^31.

Lemma can_assume_false a : can_assume a = false.
Proof. by destruct a. Qed.

(** ** Reading *)

Definition byte (b : blob) (p : Z) : Z := u8 (default 0 (b_bytes b !! Z.to_nat p)).
Definition word (b : blob) (p : Z) : Z := be32 (byte b p) (byte b (p + 1)) (byte b (p + 2)) (byte b (p + 3)).
Definition hdr (b : blob) (f : fdt_header) : Z := word b (header_offset f).

Lemma byte_range b p : 0 <= byte b p < 256.
Proof. apply u8_range. Qed.

Lemma be32_value b0 b1 b2 b3 :
  0 <= b0 < 256 -> 0 <= b1 < 256 -> 0 <= b2 < 256 -> 0 <= b3 < 256 ->
  be32 b0 b1 b2 b3 = b0 * 2^24 + b1 * 2^16 + b2 * 2^8 + b3.
Proof.
  intros. unfold be32. rewrite !Z.shiftl_mul_pow2 by lia.
  rewrite (lor_mul_pow2 b0 (b1 * 2^16) 24) by lia.
  replace (b0 * 2^24 + b1 * 2^16) with ((b0 * 2^8 + b1) * 2^16) by lia. rewrite (lor_mul_pow2 _ (b2 * 2^8) 16) by lia.
  replace ((b0 * 2^8 + b1) * 2^16 + b2 * 2^8) with (((b0 * 2^8 + b1) * 2^8 + b2) * 2^8) by lia.
  rewrite (lor_mul_pow2 _ b3 8) by lia. lia.
Qed.
Lemma word_range b p : 0 <= word b p < 2^32.
Proof.
  unfold word. pose proof (byte_range b p). pose proof (byte_range b (p + 1)).
  pose proof (byte_range b (p + 2)). pose proof (byte_range b (p + 3)).
  rewrite be32_value by lia. lia.
Qed.

Lemma fdt8_byte b p : 0 <= p < extent b -> fdt8 b p = Ret (byte b p).
Proof.
  intros Hp. unfold fdt8, byte. replace ((0 <=? p) && (p <? extent b)) with true by (symmetry; lia).
  destruct (lookup_lt_is_Some_2 (b_bytes b) (Z.to_nat p)) as [v E]; [unfold extent in Hp; lia|].
  by rewrite E.
Qed.
Lemma fdt32_word b p : 0 <= p -> p + 4 <= extent b -> fdt32_ld b p = Ret (word b p).
Proof. intros. unfold fdt32_ld. rewrite !fdt8_byte by lia. done. Qed.

Lemma fdt64_ld_gives b p : 0 <= p -> p + 8 <= extent b -> gives (fdt64_ld_ b p) (fun _ => True).
Proof. intros. unfold fdt64_ld_, fdt64_ld. by rewrite !fdt32_word by lia. Qed.

(** ** Blobs of a sane size *)

Record sane (b : blob) : Prop := {
  sn_header : 40 <= hdr b H_totalsize;
  sn_size : hdr b H_totalsize < 2^31 - 16;
  sn_room : hdr b H_totalsize < extent b
}.

Section sane.
Context (b : blob) (Hb : sane b).

Notation ts := (hdr b H_totalsize).
Notation os := (hdr b H_off_dt_struct).
Notation fuel := (FDT_FUEL b).

Lemma hdr_range f : 0 <= hdr b f < 2^32.
Proof. apply word_range. Qed.

Lemma fdt_get_header_eq f : fdt_get_header b f = Ret (hdr b f).
Proof.
  destruct Hb. unfold fdt_get_header, hdr. apply fdt32_word; [by destruct f|].
  assert (header_offset f + 4 <= 40) by (destruct f; simpl; lia). lia.
Qed.

Lemma ts_bounds : 40 <= ts < 2^31 - 16 /\ ts < extent b.
Proof. by destruct Hb. Qed.
Lemma fuel_enough : ts + 2 <= Z.of_nat fuel.
Proof. destruct Hb. unfold FDT_FUEL, extent in *. lia. Qed.

End sane.

(** Header reads, away. *)
Ltac headers Hb :=
  unfold fdt_offset_ptr_, fdt32_ld_; unfold fdt_magic, fdt_totalsize, fdt_off_dt_struct, fdt_off_dt_strings, fdt_off_mem_rsvmap,
    fdt_version, fdt_last_comp_version, fdt_size_dt_strings, fdt_size_dt_struct;
  rewrite ?can_assume_false, ?(fdt_get_header_eq _ Hb); cbn [obind negb andb orb].

(** Splits on the tests of the goal. *)
Ltac tests :=
  repeat match goal with
  | |- context [if ?c then _ else _] =>
      lazymatch type of c with bool => destruct c eqn:? | _ => fail end
  end.

Section tags.
Context (b : blob) (Hb : sane b).
Notation ts := (hdr b H_totalsize).
Notation os := (hdr b H_off_dt_struct).
Notation fuel := (FDT_FUEL b).

(** ** Pointers into the structure block *)

Definition in_struct (offset len : Z) : bool :=
  (0 <=? offset) && (os + offset + len <=? ts)
  && ((hdr b H_version <? 17) || (offset + len <=? hdr b H_size_dt_struct)).

Lemma fdt_offset_ptr_eq offset len :
  is_int offset -> 0 <= len < 2^32 ->
  fdt_offset_ptr b offset len = Ret (if in_struct offset len then Some (os + offset) else None).
Proof.
  intros Ho Hl. unfold fdt_offset_ptr. headers Hb.
  pose proof (hdr_range b H_off_dt_struct). pose proof (hdr_range b H_size_dt_struct).
  destruct (ts_bounds b Hb) as [? _]. unfold is_int in Ho. unfold in_struct.
  destruct (offset <? 0) eqn:E0; [by replace (0 <=? offset) with false by (symmetry; lia)|].
  rewrite (u32_small offset) by lia.
  assert (Ha : u32 (offset + os) = offset + os \/ u32 (offset + os) = offset + os - 2^32).
  { unfold u32. Z.div_mod_to_equations. lia. }
  assert (Hc : forall x, 0 <= x < 2^32 -> u32 (x + len) = x + len \/ (u32 (x + len) = x + len - 2^32)).
  { intros x Hx. unfold u32. Z.div_mod_to_equations. lia. }
  pose proof (u32_range (offset + os)) as Hr.
  pose proof (Hc _ Hr) as Ec. pose proof (Hc offset ltac:(lia)) as Ed. clear Hc.
  rewrite (Z.add_comm offset len) in *.
  generalize dependent (u32 (offset + os)). intros a Ha Hr Ec.
  pose proof (u32_range (a + len)) as Rc. pose proof (u32_range (len + offset)) as Rd.
  generalize dependent (u32 (a + len)). intros c Ec.
  generalize dependent (u32 (len + offset)). intros d Ed. intros.
  repeat match goal with |- context [if ?x then _ else _] => destruct x eqn:? end;
    try done; exfalso; lia.
Qed.

Lemma in_struct_mono offset len k len' :
  in_struct offset len = true -> 0 <= k -> k + len' <= len -> in_struct (offset + k) len' = true.
Proof. unfold in_struct. lia. Qed.
Lemma in_struct_bounds offset len :
  in_struct offset len = true -> 0 <= offset /\ os + offset + len <= ts.
Proof. unfold in_struct. lia. Qed.

(** A string of [n] characters at [p]. *)
Definition str_at (p n : Z) : Prop :=
  0 <= p /\ 0 <= n /\ p + n < extent b /\ byte b (p + n) = 0 /\ forall i, 0 <= i < n -> byte b (p + i) <> 0.

Lemma str_at_shift p n : str_at (p + 1) n -> 0 <= p -> byte b p <> 0 -> str_at p (n + 1).
Proof.
  intros (H1 & H2 & H3 & H4 & H5) Hp Hc. split; [done|]. split; [lia|]. split; [lia|].
  split; [by replace (p + (n + 1)) with (p + 1 + n) by lia|].
  intros i Hi. destruct (decide (i = 0)) as [->|]; [by rewrite Z.add_0_r|].
  replace (p + i) with (p + 1 + (i - 1)) by lia. apply H5. lia.
Qed.

Lemma skip_name_gives f offset :
  0 <= offset -> offset <= ts + 1 -> ts + 2 - offset <= Z.of_nat f ->
  gives (skip_name f b offset) (fun '(p, o) =>
    p <> None -> exists n, o = offset + n + 1 /\ os + o <= ts /\ str_at (os + offset) n).
Proof.
  destruct (ts_bounds b Hb) as [Hts Hext]. pose proof (hdr_range b H_off_dt_struct) as Hos.
  revert offset. induction f as [|f IH]; intros offset H0 Ho Hf; [lia|]. simpl.
  rewrite fdt_offset_ptr_eq by (unfold is_int; lia). cbn [obind].
  destruct (in_struct offset 1) eqn:E; [|by intros Hn]. apply in_struct_bounds in E as [_ E].
  rewrite fdt8_byte by lia. cbn [obind]. rewrite s32_small by lia.
  destruct (byte b (os + offset) =? 0) eqn:Ec.
  - intros _. exists 0. split; [lia|]. split; [lia|]. split; [lia|]. rewrite Z.add_0_r.
    split; [lia|]. split; [lia|]. split; [lia|]. intros. lia.
  - eapply gives_mono; [apply IH; lia|]. intros [p o] Hp Hn. destruct (Hp Hn) as (n & -> & ? & Hs).
    exists (n + 1). split; [lia|]. split; [lia|]. apply str_at_shift; [|lia..].
    by replace (os + offset + 1) with (os + (offset + 1)) by lia.
Qed.

(** ** Tags *)

(** The item of kind [tag] at [start], and the offset behind it. *)
Record item_at (tag start next : Z) : Prop := {
  it_start : 0 <= start;
  it_tag : word b (os + start) = tag;
  it_end : exists e, start + 4 <= e /\ os + e <= ts /\ next = align4 e /\
    (tag = FDT_BEGIN_NODE -> exists n, e = start + 4 + n + 1 /\ str_at (os + start + 4) n) /\
    (tag = FDT_PROP ->
       let len := word b (os + start + 4) in
       e = start + 12 + len +
           (if (hdr b H_version <? 16) && (8 <=? len) && negb ((start + 12) mod 8 =? 0) then 4 else 0)) /\
    (tag <> FDT_BEGIN_NODE -> tag <> FDT_PROP -> e = start + 4) /\
    in_struct start (e - start) = true
}.

Lemma item_at_next tag start next :
  item_at tag start next -> start + 4 <= next /\ next <= ts + 3 /\ next mod 4 = 0.
Proof.
  intros [H0 _ (e & He & Ht & -> & _)]. pose proof (align4_bounds e). pose proof (align4_mod e).
  pose proof (hdr_range b H_off_dt_struct). lia.
Qed.
Lemma item_at_start tag start next : item_at tag start next -> 0 <= start /\ os + start + 4 <= ts.
Proof. intros [H0 _ (e & He & Ht & _)]. lia. Qed.

Definition is_tag (tag : Z) : Prop :=
  tag = FDT_BEGIN_NODE \/ tag = FDT_END_NODE \/ tag = FDT_PROP \/ tag = FDT_NOP \/ tag = FDT_END.

Lemma s32_small_or z : - 2^31 <= z < 2^32 -> s32 z = z \/ (2^31 <= z /\ s32 z = z - 2^32).
Proof. intros. unfold s32. Z.div_mod_to_equations. lia. Qed.

(** The end of a property, which can wrap around; it is then refused by the
    bounds check that follows. *)
Lemma prop_end_gives start :
  in_struct start 4 = true ->
  gives (tag_end b FDT_PROP (start + 4)) (fun e => forall e', e = Some e' ->
    is_int e' /\
    let len := word b (os + start + 4) in
    let full := start + 12 + len +
      (if (hdr b H_version <? 16) && (8 <=? len) && negb ((start + 12) mod 8 =? 0) then 4 else 0) in
    full < 2^31 + 16 /\ (e' = full \/ e' = full - 2^32)).
Proof.
  intros Hs. pose proof (in_struct_bounds _ _ Hs) as [H0 H4]. destruct (ts_bounds b Hb) as [Hts Hext].
  pose proof (hdr_range b H_off_dt_struct) as Hos.
  unfold tag_end. cbn [Z.eqb FDT_PROP FDT_BEGIN_NODE Pos.eqb].
  rewrite fdt_offset_ptr_eq by (unfold is_int; lia). cbn [obind].
  destruct (in_struct (start + 4) 4) eqn:E; [|by intros e'].
  apply in_struct_bounds in E as [_ E]. headers Hb. rewrite fdt32_word by lia. cbn [obind].
  replace (os + (start + 4)) with (os + start + 4) by lia.
  pose proof (word_range b (os + start + 4)) as Hw. set (len := word b (os + start + 4)) in *.
  rewrite (u32_small (start + 4)) by lia.
  destruct (_ || _) eqn:E1; [by intros e'|].
  assert (Hsum : len + (start + 4) < 2^31 - 1).
  { unfold INT_MAX in E1. revert E1. unfold u32. Z.div_mod_to_equations. lia. }
  clear E1. cbn [obind gives]. intros e' [= <-]. split; [destruct (_ && negb _); apply s32_range|].
  replace (start + 4 + (sizeof_fdt_property - FDT_TAGSIZE) + len) with (start + 12 + len)
    by (unfold sizeof_fdt_property, FDT_TAGSIZE; lia).
  set (a := s32 (start + 12 + len)).
  assert (Ha : a = start + 12 + len \/ (2^31 <= start + 12 + len /\ a = start + 12 + len - 2^32))
    by (apply s32_small_or; lia).
  assert (u32 (a - len) = start + 12) as ->.
  { unfold u32. Z.div_mod_to_equations. lia. }
  destruct (_ && negb _); [|lia].
  destruct (s32_small_or (a + 4)) as [Hc|[? Hc]]; [lia|..]; rewrite Hc; lia.
Qed.

(** [fdt_next_tag] either finds a whole item inside the blob or reports the
    end with an error. *)
Lemma next_tag_gives start :
  is_int start ->
  gives (fdt_next_tag b start) (fun '(tag, next) =>
    (is_tag tag /\ item_at tag start next) \/ (tag = FDT_END /\ (next = -8 \/ next = -11))).
Proof.
  intros Hi. destruct (ts_bounds b Hb) as [Hts Hext]. pose proof (hdr_range b H_off_dt_struct) as Hos.
  unfold fdt_next_tag, FDT_TAGSIZE. rewrite fdt_offset_ptr_eq by (unfold is_int in *; lia).
  rewrite can_assume_false. cbn [obind negb].
  destruct (in_struct start 4) eqn:Hs; [|simpl; auto].
  pose proof (in_struct_bounds _ _ Hs) as [H0 H4]. headers Hb.
  rewrite fdt32_word, (s32_small (start + 4)) by lia. cbn [obind].
  set (tag := word b (os + start)).
  set (known e := e = start + 4 /\ (tag = FDT_END \/ tag = FDT_END_NODE \/ tag = FDT_NOP)).
  apply (gives_step _ _ (fun e => forall e', e = Some e' -> exists full, is_int e' /\
    (e' = full \/ e' = full - 2^32) /\ start + 4 <= full < 2^31 + 16 /\
    (tag = FDT_BEGIN_NODE -> exists n, full = start + 4 + n + 1 /\ str_at (os + start + 4) n) /\
    (tag = FDT_PROP -> let len := word b (os + start + 4) in
       full = start + 12 + len +
         (if (hdr b H_version <? 16) && (8 <=? len) && negb ((start + 12) mod 8 =? 0) then 4 else 0)) /\
    (tag <> FDT_BEGIN_NODE -> tag <> FDT_PROP -> full = start + 4) /\ is_tag tag)).
  - destruct (tag =? FDT_PROP) eqn:Ep; [|destruct (tag =? FDT_BEGIN_NODE) eqn:Eb].
    + assert (tag = FDT_PROP) as Et by lia. rewrite Et.
      eapply gives_mono; [by apply prop_end_gives|]. intros e He e' ->.
      destruct (He _ eq_refl) as (Hint & Hf & He'). eexists. split; [done|]. split; [exact He'|]. split.
      { pose proof (word_range b (os + start + 4)). destruct (_ && negb _); lia. }
      split; [done|]. split; [done|]. split; [done|]. unfold is_tag. tauto.
    + assert (tag = FDT_BEGIN_NODE) as Et by lia. rewrite Et. unfold tag_end. cbn [Z.eqb FDT_BEGIN_NODE Pos.eqb].
      pose proof (fuel_enough b Hb). apply gives_bind. eapply gives_mono; [apply skip_name_gives; lia|].
      intros [p o] Hp. destruct p as [p|]; [|rewrite can_assume_false; by intros e' [=]].
      destruct Hp as (n & -> & Ho & Hn); [done|]. intros e' [= <-]. exists (start + 4 + n + 1).
      replace (os + (start + 4)) with (os + start + 4) in Hn by lia. destruct (Hn) as (_ & ? & _).
      split; [unfold is_int; lia|]. split; [by left|]. split; [lia|]. split; [by exists n|]. split; [done|]. split; [done|]. unfold is_tag. tauto.
    + unfold tag_end. rewrite Eb, Ep. destruct (_ || _) eqn:Ek; [|by intros e' [=]].
      intros e' [= <-]. exists (start + 4). split; [unfold is_int; lia|]. split; [by left|]. split; [lia|]. split; [lia|]. split; [lia|].
      split; [done|]. unfold is_tag. lia.
  - intros [e|] He; [|simpl; auto]. destruct (He _ eq_refl) as (full & Hint & Hfull & Hrange & Hbegin & Hprop & Hother & Htag).
    rewrite u32_s32, fdt_offset_ptr_eq by (done || apply u32_range). cbn [obind].
    destruct (in_struct start (u32 (e - start))) eqn:Ee; [|simpl; auto].
    assert (u32 (e - start) = full - start) as Eu.
    { unfold u32. Z.div_mod_to_equations. lia. }
    rewrite Eu in Ee. pose proof Ee as Ein. apply in_struct_bounds in Ee as [_ Ee]. rewrite FDT_TAGALIGN_align4. assert (e = full) as -> by (unfold is_int in *; lia).
    pose proof (align4_bounds full). rewrite s32_small by lia. left. split; [done|]. split; [done..|].
    exists full. split; [lia|]. split; [lia|]. done.
Qed.

(** ** Nodes *)

Lemma check_tag_gives want offset :
  want <> FDT_END -> is_int offset ->
  gives (fdt_check_tag_offset want b offset) (fun r => err r \/ (item_at want offset r /\ offset mod 4 = 0)).
Proof.
  intros Hw Hi. unfold fdt_check_tag_offset. rewrite can_assume_false.
  destruct (_ && _) eqn:E; [by left|]. eapply gives_step; [by apply next_tag_gives|].
  intros [tag next] H. destruct (tag =? want) eqn:Et; [|by left].
  destruct H as [[_ H]|[-> _]]; [|lia]. right. replace want with tag by lia.
  unfold FDT_TAGSIZE in E. split; [done|lia].
Qed.
Lemma check_node_gives offset : is_int offset ->
  gives (fdt_check_node_offset_ b offset) (fun r => err r \/ (item_at FDT_BEGIN_NODE offset r /\ offset mod 4 = 0)).
Proof. by apply check_tag_gives. Qed.
Lemma check_prop_gives offset : is_int offset ->
  gives (fdt_check_prop_offset_ b offset) (fun r => err r \/ (item_at FDT_PROP offset r /\ offset mod 4 = 0)).
Proof. by apply check_tag_gives. Qed.

(** What [fdt_next_node] returns from [lo]: an error, a node at [lo] or later, or
    the end of the node whose depth dropped below zero. *)
Definition node_result (lo : Z) (r : Z * option Z) : Prop :=
  let '(off, d) := r in
  err off \/
  (lo <= off /\ off mod 4 = 0 /\ (exists next, item_at FDT_BEGIN_NODE off next)) \/
  (lo <= off <= ts + 3 /\ exists x, d = Some x /\ x < 0).

Lemma node_result_le lo lo' r : lo <= lo' -> node_result lo' r -> node_result lo r.
Proof. destruct r as [off d]. unfold node_result. intros ? [?|[(?&?&?)|(?&?)]]; [tauto|..]; right; [left|right]; (split; [lia|tauto]). Qed.
Lemma node_result_int lo r : 0 <= lo -> node_result lo r -> is_int r.1 /\ r.1 <= ts + 3.
Proof.
  destruct (ts_bounds b Hb) as [Hts _]. destruct r as [off d]. unfold node_result, err, FDT_ERR_MAX, is_int. simpl.
  intros ? [?|[(?&?&next&H)|(?&?)]]; try lia. apply item_at_start in H. pose proof (hdr_range b H_off_dt_struct). lia.
Qed.

Lemma next_node_loop_gives f lo depth :
  0 <= lo <= ts + 3 -> lo mod 4 = 0 -> ts + 4 - lo <= 4 * Z.of_nat f ->
  gives (next_node_loop f b lo depth) (fun r => node_result lo r /\ (r.2 = None <-> depth = None)).
Proof.
  destruct (ts_bounds b Hb) as [Hts _].
  revert lo depth. induction f as [|f IH]; intros lo depth Hlo Hm Hf; [lia|]. cbn [next_node_loop].
  eapply gives_step; [apply next_tag_gives; unfold is_int; lia|]. intros [tag next] Htag.
  assert (Hrec : tag <> FDT_END -> forall d', (d' = None <-> depth = None) ->
    gives (next_node_loop f b next d') (fun r => node_result lo r /\ (r.2 = None <-> depth = None))).
  { intros Hne d' Hd. destruct Htag as [[_ H]|[? _]]; [|done]. apply item_at_next in H as (H1 & H2 & H3).
    eapply gives_mono; [apply IH; lia|]. intros r [Hr Hr']. split; [|by rewrite Hr'].
    eapply node_result_le, Hr. lia. }
  destruct (tag =? FDT_BEGIN_NODE) eqn:E1; [|destruct (tag =? FDT_END_NODE) eqn:E2; [|destruct (tag =? FDT_END) eqn:E3]].
  - assert (tag = FDT_BEGIN_NODE) as -> by lia. destruct Htag as [[_ H]|[? _]]; [|done]. simpl.
    split; [|by destruct depth]. right; left. split; [lia|]. split; [done|]. by exists next.
  - destruct depth as [d|]; [|apply Hrec; [unfold FDT_END, FDT_END_NODE in *; lia|done]].
    destruct (d - 1 <? 0) eqn:Ed; [|apply Hrec; [unfold FDT_END, FDT_END_NODE in *; lia|done]].
    destruct Htag as [[_ H]|[-> _]]; [|done]. apply item_at_next in H as (H1 & H2 & H3). simpl.
    split; [|done]. right; right. split; [lia|]. exists (d - 1). split; [done|lia].
  - simpl. split; [|done]. left. unfold err, FDT_ERR_MAX, FDT_ERR_NOTFOUND.
    assert (next = -8 \/ next = -11 \/ 0 <= next) as Hn.
    { destruct Htag as [[_ H]|[_ ?]]; [|tauto]. apply item_at_next in H. lia. }
    destruct (_ || _) eqn:E; lia.
  - apply Hrec; [lia|done].
Qed.

Lemma fuel4 lo : 0 <= lo -> ts + 4 - lo <= 4 * Z.of_nat fuel.
Proof. pose proof (fuel_enough b Hb). pose proof (ts_bounds b Hb). lia. Qed.

(** From a node, [fdt_next_node] makes progress; from a negative offset it finds
    the first node. *)
Lemma next_node_gives offset depth :
  is_int offset ->
  gives (fdt_next_node b offset depth) (fun r =>
    node_result (if 0 <=? offset then offset + 4 else 0) r /\ (r.2 = None <-> depth = None)).
Proof.
  intros Hi. pose proof (ts_bounds b Hb) as [Hts _]. unfold fdt_next_node.
  destruct (0 <=? offset) eqn:E.
  - eapply gives_step; [by apply check_node_gives|]. intros next H.
    destruct (next <? 0) eqn:En.
    + split; [|done]. left. destruct H as [H|[H _]]; [done|]. apply item_at_next in H. lia.
    + destruct H as [H|[H Hm]]; [unfold err in H; lia|]. apply item_at_next in H as (H1 & H2 & H3).
      eapply gives_mono; [apply next_node_loop_gives; [lia|done|apply fuel4; lia]|].
      intros r [Hr Hd]. split; [|done]. eapply node_result_le, Hr. lia.
  - apply next_node_loop_gives; [lia|done|apply fuel4; lia].
Qed.
Lemma next_node0_gives offset :
  is_int offset ->
  gives (fdt_next_node0 b offset) (fun off => err off \/
    ((if 0 <=? offset then offset + 4 else 0) <= off /\ off mod 4 = 0 /\ exists next, item_at FDT_BEGIN_NODE off next)).
Proof.
  intros Hi. eapply gives_step; [by apply next_node_gives|]. intros [off d] [Hr Hd]. simpl in *.
  destruct Hr as [?|[?|(_ & x & -> & _)]]; [tauto..|]. destruct Hd as [_ Hd]. by specialize (Hd eq_refl).
Qed.
Lemma node_bounds off next : item_at FDT_BEGIN_NODE off next -> is_int off /\ 0 <= off <= ts.
Proof.
  intros H. apply item_at_start in H. pose proof (hdr_range b H_off_dt_struct). pose proof (ts_bounds b Hb).
  unfold is_int. lia.
Qed.

(** Fuel for a loop over nodes that is about to look behind [offset]. *)
Definition enough (f : nat) (offset : Z) : Prop :=
  (0 < f)%nat /\ ts + 4 - (if 0 <=? offset then offset else -4) <= 4 * Z.of_nat f.
Lemma enough_fuel offset : enough fuel offset.
Proof.
  pose proof (fuel_enough b Hb). pose proof (ts_bounds b Hb). unfold enough.
  destruct (0 <=? offset) eqn:E; split; lia.
Qed.
Lemma enough_step f offset off :
  enough (S f) offset -> (if 0 <=? offset then offset + 4 else 0) <= off <= ts -> enough f off.
Proof.
  pose proof (ts_bounds b Hb). unfold enough. intros [_ H0] Ho.
  destruct (0 <=? offset) eqn:E, (0 <=? off) eqn:E1; split; lia.
Qed.

Definition offset_or_err (r : Z) : Prop := err r \/ 0 <= r <= ts.

Lemma first_subnode_gives offset : is_int offset -> gives (fdt_first_subnode b offset) offset_or_err.
Proof.
  intros Hi. eapply gives_step; [by apply next_node_gives|]. intros [off d] [Hr _].
  destruct (_ || _) eqn:E; [by left|]. destruct Hr as [H|[(_ & _ & n & H)|(_ & x & -> & Hx)]].
  - unfold err in H. lia.
  - right. by destruct (node_bounds _ _ H).
  - simpl in E. lia.
Qed.
Lemma next_subnode_loop_gives f offset depth :
  is_int offset -> enough f offset -> gives (next_subnode_loop f b offset depth) offset_or_err.
Proof.
  revert offset depth. induction f as [|f IH]; intros offset depth Hi Hf; [by destruct Hf; lia|].
  cbn [next_subnode_loop]. eapply gives_step; [by apply next_node_gives|]. intros [off d] [Hr _].
  destruct (_ || _) eqn:E; [by left|]. destruct Hr as [H|[(Hlo & _ & n & H)|(_ & x & -> & Hx)]].
  - unfold err in H. lia.
  - destruct (node_bounds _ _ H). destruct (1 <? _); [|right; simpl; lia].
    apply IH; [done|]. eapply enough_step; [done|lia].
  - simpl in E. lia.
Qed.
Lemma next_subnode_gives offset : is_int offset -> gives (fdt_next_subnode b offset) offset_or_err.
Proof. intros. apply next_subnode_loop_gives; [done|apply enough_fuel]. Qed.

(** ** Strings of the blob *)

Fixpoint bytes (p : Z) (n : nat) : list Z :=
  match n with O => [] | S n' => byte b p :: bytes (p + 1) n' end.
Lemma bytes_length p n : length (bytes p n) = n.
Proof. revert p. induction n as [|n IH]; intros p; simpl; auto. Qed.

Lemma memcmp_gives p s :
  0 <= p -> p + Z.of_nat (length s) <= extent b ->
  gives (blob_memcmp b p s) (fun r => r = 0 <-> s = bytes p (length s)).
Proof.
  revert p. induction s as [|c s IH]; intros p Hp He; simpl in *; [done|].
  rewrite fdt8_byte by lia. cbn [obind]. destruct (byte b p =? c) eqn:E.
  - eapply gives_mono; [apply IH; lia|]. intros r ->. replace (byte b p) with c by lia.
    split; [by intros <-|by intros [= <-]].
  - simpl. split; [lia|]. intros [= H _]. lia.
Qed.
Lemma memchr_gives p c n :
  0 <= p -> p + Z.of_nat n <= extent b ->
  gives (blob_memchr b p c n) (fun r => match r with
    | None => forall i, p <= i < p + Z.of_nat n -> byte b i <> c
    | Some q => p <= q < p + Z.of_nat n /\ byte b q = c /\ forall i, p <= i < q -> byte b i <> c
    end).
Proof.
  revert p. induction n as [|n IH]; intros p Hp He; cbn [blob_memchr]; [simpl; intros; lia|].
  rewrite fdt8_byte by lia. cbn [obind]. destruct (byte b p =? c) eqn:E; [simpl; split_and!; intros; lia|].
  eapply gives_mono; [apply IH; lia|]. intros [q|] H.
  - destruct H as (H1 & H2 & H3). split; [lia|]. split; [done|]. intros i Hi.
    destruct (decide (i = p)) as [->|]; [lia|apply H3; lia].
  - intros i Hi. destruct (decide (i = p)) as [->|]; [lia|apply H; lia].
Qed.
Lemma strlen_loop_eq f s i n :
  0 <= i <= n -> str_at s n -> n - i < Z.of_nat f -> blob_strlen_loop f b s i = Ret n.
Proof.
  intros Hi (H1 & H2 & H3 & H4 & H5). revert i Hi. induction f as [|f IH]; intros i Hi Hf; [lia|]. simpl.
  rewrite fdt8_byte by lia. cbn [obind]. destruct (decide (i = n)) as [->|].
  - by rewrite H4.
  - destruct (byte b (s + i) =? 0) eqn:E; [exfalso; apply (H5 i); lia|]. apply IH; lia.
Qed.
Lemma strlen_eq s n : str_at s n -> blob_strlen b s = Ret n.
Proof.
  intros H. destruct (H) as (H1 & H2 & H3 & _). apply strlen_loop_eq; [lia|done|].
  unfold FDT_FUEL, extent in *. lia.
Qed.
Lemma read_eq p n : 0 <= p -> p + Z.of_nat n <= extent b -> blob_read b p n = Ret (bytes p n).
Proof.
  revert p. induction n as [|n IH]; intros p Hp He; [done|]. simpl.
  rewrite fdt8_byte by lia. cbn [obind]. rewrite IH by lia. done.
Qed.
Lemma string_eq s n : str_at s n -> blob_string b s = Ret (bytes s (Z.to_nat n)).
Proof.
  intros H. unfold blob_string. rewrite (strlen_eq _ _ H). cbn [obind].
  destruct H as (H1 & H2 & H3 & _). apply read_eq; lia.
Qed.
Lemma strnlen_gives s i n :
  0 <= s + i -> s + i + Z.of_nat n <= extent b ->
  gives (blob_strnlen b s i n) (fun r => i <= r <= i + Z.of_nat n /\ forall j, i <= j < r -> byte b (s + j) <> 0).
Proof.
  revert i. induction n as [|n IH]; intros i Hp He; cbn [blob_strnlen]; [simpl; split_and!; intros; lia|].
  rewrite fdt8_byte by lia. cbn [obind]. destruct (byte b (s + i) =? 0) eqn:E; [simpl; split_and!; intros; lia|].
  eapply gives_mono; [apply IH; lia|]. intros r [H1 H2]. split; [lia|]. intros j Hj.
  destruct (decide (j = i)) as [->|]; [lia|apply H2; lia].
Qed.
Lemma strrchr_loop_gives f s i n last :
  0 <= i <= n -> str_at s n -> n - i < Z.of_nat f ->
  (forall l, last = Some l -> s <= l < s + n) ->
  gives (blob_strrchr_loop f b (s + i) 47 last) (fun r => forall l, r = Some l -> s <= l < s + n).
Proof.
  intros Hi (H1 & H2 & H3 & H4 & H5). revert i last Hi. induction f as [|f IH]; intros i last Hi Hf Hl; [lia|]. simpl.
  rewrite fdt8_byte by lia. cbn [obind]. destruct (byte b (s + i) =? 0) eqn:E; [done|].
  assert (i <> n) by (intros ->; rewrite H4 in E; done).
  replace (s + i + 1) with (s + (i + 1)) by lia. apply IH; [lia..|].
  destruct (_ =? 47); [|done]. intros l [= <-]. lia.
Qed.
Lemma str_at_drop s n k : str_at s n -> 0 <= k <= n -> str_at (s + k) (n - k).
Proof.
  intros (H1 & H2 & H3 & H4 & H5) Hk. split; [lia|]. split; [lia|]. split; [lia|].
  split; [by replace (s + k + (n - k)) with (s + n) by lia|]. intros i Hi.
  rewrite <- Z.add_assoc. apply H5. lia.
Qed.

(** ** [fdt_ro_probe_] and the strings block *)

Lemma probe_gives : gives (fdt_ro_probe_ b) (fun r => err r \/ r = ts).
Proof.
  pose proof (ts_bounds b Hb). unfold fdt_ro_probe_. headers Hb.
  replace (hdr b H_totalsize <? INT_MAX) with true by (unfold INT_MAX; lia).
  repeat match goal with |- context [if ?c then _ else _] => destruct c end; cbn [gives];
    ((by right) || by left).
Qed.

(** [FDT_RO_PROBE] is harmless. *)
Lemma FDT_RO_PROBE_gives k (Q : Z -> Prop) :
  (forall r, err r -> Q r) -> gives k Q -> gives (FDT_RO_PROBE b k) Q.
Proof.
  intros He Hk. eapply gives_step; [apply probe_gives|]. intros r Hr.
  destruct (r <? 0) eqn:E; [|done]. apply He. destruct Hr as [Hr | ->]; [done|].
  pose proof (ts_bounds b Hb). lia.
Qed.

Lemma get_string_gives stroffset :
  is_int stroffset ->
  gives (fdt_get_string b stroffset) (fun '(p, len) => match p with
    | None => err len
    | Some p => str_at p len /\ p + len < ts
    end).
Proof.
  intros Hi. pose proof (ts_bounds b Hb) as [Hts Hext]. unfold fdt_get_string. rewrite can_assume_false.
  eapply gives_step; [apply probe_gives|]. intros t Ht.
  destruct (t <? 0) eqn:E0; [destruct Ht as [Ht | ->]; [done|lia]|].
  destruct Ht as [Ht | ->]; [unfold err in *; lia|]. headers Hb.
  set (abs := u32 (stroffset + hdr b H_off_dt_strings)). pose proof (u32_range (stroffset + hdr b H_off_dt_strings)) as Ha.
  fold abs in Ha. destruct (ts <=? abs) eqn:E1; [done|].
  match goal with |- context [match ?x with inl _ => _ | inr _ => _ end] =>
    assert (HB : match x with inl len => len <= ts - abs | inr e => err e end);
    [|destruct x as [len|e]; [|done]] end.
  { repeat match goal with |- context [if ?c then _ else _] => destruct c eqn:? end; try done; lia. }
  eapply gives_step; [apply memchr_gives; lia|]. intros [q|] Hq; [|done].
  destruct Hq as (H1 & H2 & H3). rewrite s32_small by lia.
  split; [|lia]. split; [lia|]. split; [lia|]. split; [lia|].
  split; [by replace (abs + (q - abs)) with q by lia|]. intros i Hi'. apply H3. lia.
Qed.

Lemma string_eq_gives stroffset s :
  is_int stroffset ->
  gives (fdt_string_eq_ b stroffset s) (fun r => r = true ->
    exists p, fdt_get_string b stroffset = Ret (Some p, Z.of_nat (length s)) /\ s = bytes p (length s)).
Proof.
  intros Hi. unfold fdt_string_eq_. destruct (gives_eq _ _ (get_string_gives _ Hi)) as ([[p|] len] & -> & H);
    cbn [obind]; [|done]. destruct H as [(H1 & H2 & H3 & _) _].
  destruct (len =? _) eqn:E; [|done]. replace len with (Z.of_nat (length s)) in * by lia. cbn [negb].
  eapply gives_step; [apply memcmp_gives; lia|]. intros r Hr Er. exists p. split; [done|]. apply Hr. lia.
Qed.

(** ** Properties *)

Lemma nextprop_loop_gives f lo :
  0 <= lo <= ts + 3 -> lo mod 4 = 0 -> ts + 4 - lo <= 4 * Z.of_nat f ->
  gives (nextprop_loop f b lo) (fun r => err r \/
    (lo <= r /\ r mod 4 = 0 /\ exists next, item_at FDT_PROP r next)).
Proof.
  destruct (ts_bounds b Hb) as [Hts _].
  revert lo. induction f as [|f IH]; intros lo Hlo Hm Hf; [lia|]. cbn [nextprop_loop].
  eapply gives_step; [apply next_tag_gives; unfold is_int; lia|]. intros [tag next] Htag.
  destruct (tag =? FDT_END) eqn:E1; [|destruct (tag =? FDT_PROP) eqn:E2; [|destruct (tag =? FDT_NOP) eqn:E3]].
  - left. unfold err, FDT_ERR_MAX, FDT_ERR_BADSTRUCTURE. destruct (0 <=? next) eqn:E; [lia|].
    destruct Htag as [[_ H]|[_ ?]]; [|lia]. apply item_at_next in H. lia.
  - right. destruct Htag as [[_ H]|[? _]]; [|unfold FDT_END, FDT_PROP in *; lia].
    replace FDT_PROP with tag by lia. split; [lia|]. split; [done|]. by exists next.
  - destruct Htag as [[_ H]|[? _]]; [|lia]. apply item_at_next in H as (H1 & H2 & H3).
    eapply gives_mono; [apply IH; lia|]. intros r [?|(? & ?)]; [by left|]. right. split; [lia|done].
  - by left.
Qed.

Definition prop_result (lo r : Z) : Prop :=
  err r \/ (lo <= r /\ r mod 4 = 0 /\ exists next, item_at FDT_PROP r next).

Lemma property_after_gives (m : outcome Z) lo :
  gives m (fun r => err r \/ exists tag start, item_at tag start r /\ lo <= start + 4) ->
  gives (let! offset := m in if offset <? 0 then Ret offset else nextprop_ b offset) (prop_result lo).
Proof.
  intros Hm. eapply gives_step; [exact Hm|]. intros r Hr. destruct (r <? 0) eqn:E.
  - left. destruct Hr as [?|(tag & start & H & _)]; [done|]. apply item_at_next in H as H'.
    apply item_at_start in H. lia.
  - destruct Hr as [Hr|(tag & start & H & Hlo)]; [unfold err in Hr; lia|].
    apply item_at_next in H as H'. destruct H' as (H1 & H2 & H3).
    eapply gives_mono; [apply nextprop_loop_gives; [lia|done|apply fuel4; lia]|].
    intros r' [?|(? & ?)]; [by left|]. right. split; [lia|done].
Qed.
Lemma first_property_gives offset : is_int offset ->
  gives (fdt_first_property_offset b offset) (prop_result (offset + 4)).
Proof.
  intros Hi. apply property_after_gives. eapply gives_mono; [by apply check_node_gives|].
  intros r [?|[H _]]; [by left|]. right. exists FDT_BEGIN_NODE, offset. split; [done|lia].
Qed.
Lemma next_property_gives offset : is_int offset ->
  gives (fdt_next_property_offset b offset) (prop_result (offset + 4)).
Proof.
  intros Hi. apply property_after_gives. eapply gives_mono; [by apply check_prop_gives|].
  intros r [?|[H _]]; [by left|]. right. exists FDT_PROP, offset. split; [done|lia].
Qed.

(** The [struct fdt_property] at an offset lies inside the blob. *)
Record prop_at (offset prop len : Z) : Prop := {
  pr_pos : prop = os + offset;
  pr_len : len = word b (prop + 4);
  pr_item : exists next, item_at FDT_PROP offset next
}.
Lemma prop_at_bounds offset prop len :
  prop_at offset prop len -> 0 <= offset /\ 0 <= prop /\ 0 <= len /\ prop + 12 + len <= ts.
Proof.
  intros [-> -> (next & H)]. pose proof (item_at_start _ _ _ H) as [? ?].
  destruct H as [_ _ (e & _ & He & _ & _ & Hp & _)]. specialize (Hp eq_refl).
  pose proof (hdr_range b H_off_dt_struct). pose proof (word_range b (os + offset + 4)).
  cbv zeta in Hp. destruct (_ && negb _); lia.
Qed.

Lemma property_by_offset_gives offset : is_int offset ->
  gives (fdt_get_property_by_offset_ b offset) (fun '(p, len) => match p with
    | None => err len
    | Some prop => prop_at offset prop len
    end).
Proof.
  intros Hi. unfold fdt_get_property_by_offset_. rewrite can_assume_false. pose proof (ts_bounds b Hb).
  eapply gives_step; [by apply check_prop_gives|]. intros e He.
  destruct (e <? 0) eqn:E.
  { destruct He as [?|[H1 _]]; [done|]. apply item_at_start in H1 as H2. apply item_at_next in H1. lia. }
  destruct He as [He|[He _]]; [unfold err in He; lia|]. headers Hb.
  assert (HP : prop_at offset (os + offset) (word b (os + offset + 4))).
  { split; [done..|]. by exists e. }
  apply prop_at_bounds in HP as HB. rewrite fdt32_word by lia. cbn [obind].
  rewrite s32_small by lia. exact HP.
Qed.

(** A value: [len] bytes at [p] inside the blob, or an error. *)
Definition value_at (r : option Z * Z) : Prop :=
  match r with
  | (None, len) => err len
  | (Some p, len) => 0 <= p /\ 0 <= len /\ p + len <= ts
  end.

Lemma prop_data_gives offset prop len :
  prop_at offset prop len ->
  gives (prop_data b prop offset) (fun q => q = prop + 12 + (if (hdr b H_version <? 16) && (8 <=? len)
    && negb ((offset + 12) mod 8 =? 0) then 4 else 0) /\ value_at (Some q, len)).
Proof.
  intros HP. apply prop_at_bounds in HP as HB. pose proof (ts_bounds b Hb).
  pose proof (hdr_range b H_off_dt_struct). destruct HP as [-> Hl (next & Hit)].
  destruct Hit as [_ _ (e & _ & He & _ & _ & Hp & _)]. specialize (Hp eq_refl). cbv zeta in Hp. rewrite <- Hl in Hp.
  unfold prop_data, sizeof_fdt_property. headers Hb. rewrite fdt32_word by lia. rewrite <- Hl. cbn [obind gives value_at].
  rewrite u64_small by lia.
  replace ((hdr b H_version <? 16) && negb ((offset + 12) mod 8 =? 0) && (8 <=? len)) with
    ((hdr b H_version <? 16) && (8 <=? len) && negb ((offset + 12) mod 8 =? 0))
    by (destruct (_ <? 16), (8 <=? len), (_ =? 0); done).
  destruct (_ && _ && _); lia.
Qed.

Lemma get_property_loop_gives f offset name :
  (0 < f)%nat -> err offset \/ (ts + 4 - offset <= 4 * Z.of_nat f /\ exists next, item_at FDT_PROP offset next) ->
  gives (get_property_loop f b offset name) (fun '(p, len) => match p with
    | None => err len
    | Some (prop, poffset) => prop_at poffset prop len
    end).
Proof.
  pose proof (ts_bounds b Hb) as [Hts Hext]. pose proof (hdr_range b H_off_dt_struct) as Hos.
  revert offset. induction f as [|f IH]; intros offset Hf Ho; [lia|]. cbn [get_property_loop].
  destruct (offset <? 0) eqn:E.
  { destruct Ho as [?|(_ & n & H)]; [done|]. apply item_at_start in H. lia. }
  destruct Ho as [Ho|(Hlo & n & Hn)]; [unfold err in Ho; lia|].
  apply item_at_start in Hn as Hn'. assert (Hi : is_int offset) by (unfold is_int; lia).
  eapply gives_step; [by apply property_by_offset_gives|]. intros [[prop|] len] HP; [|by rewrite can_assume_false].
  apply prop_at_bounds in HP as HB. headers Hb. rewrite fdt32_word by lia. cbn [obind].
  eapply gives_step; [apply string_eq_gives; apply s32_range|]. intros [] _; [done|].
  eapply gives_step; [by apply next_property_gives|]. intros o Ho. apply IH; [lia|].
  destruct Ho as [?|(Ho & _ & Hex)]; [by left|]. right. split; [lia|done].
Qed.
Lemma get_property_gives offset name : is_int offset ->
  gives (fdt_get_property_namelen_ b offset name) (fun '(p, len) => match p with
    | None => err len
    | Some (prop, poffset) => prop_at poffset prop len
    end).
Proof.
  intros Hi. eapply gives_step; [by apply first_property_gives|]. intros o Ho.
  apply get_property_loop_gives; [unfold FDT_FUEL; lia|].
  destruct Ho as [?|(_ & _ & next & H)]; [by left|]. right. split; [|by exists next].
  apply item_at_start in H as [? _]. by apply fuel4.
Qed.
Lemma getprop_gives offset name : is_int offset -> gives (fdt_getprop b offset name) value_at.
Proof.
  intros Hi. eapply gives_step; [by apply get_property_gives|]. intros [[[prop po]|] len] H; [|done].
  eapply gives_step; [by apply prop_data_gives|]. intros q [_ Hq]. done.
Qed.
Lemma getprop_by_offset_gives offset : is_int offset ->
  gives (fdt_getprop_by_offset b offset) (fun '(p, name, len) => value_at (p, len) /\
    forall q, p = Some q -> exists nm n, name = Some nm /\ str_at nm n).
Proof.
  intros Hi. unfold fdt_getprop_by_offset. eapply gives_step; [by apply property_by_offset_gives|].
  intros [[prop|] len] HP; [|done]. apply prop_at_bounds in HP as HB. pose proof (ts_bounds b Hb).
  headers Hb. rewrite fdt32_word by lia. cbn [obind].
  eapply gives_step; [apply get_string_gives, s32_range|]. intros [[nm|] n] Hs.
  - rewrite bool_decide_eq_false_2 by done. eapply gives_step; [by apply prop_data_gives|]. intros q [_ Hq].
    split; [done|]. intros q' [= <-]. exists nm, n. by destruct Hs.
  - rewrite bool_decide_eq_true_2 by done. split; [done|]. intros q [=].
Qed.

(** ** Phandles *)

Lemma cell_prop_gives offset name : is_int offset ->
  gives (cell_prop b offset name) (fun r => forall p, r = Some p -> 0 <= p /\ p + 4 <= ts).
Proof.
  intros Hi. eapply gives_step; [by apply getprop_gives|]. intros [[p|] len] H; [|done].
  destruct H as (H1 & H2 & H3). intros q. destruct (len =? 4) eqn:E; [|done]. intros [= <-]. lia.
Qed.
Lemma get_phandle_gives offset : is_int offset -> gives (fdt_get_phandle b offset) (fun v => 0 <= v < 2^32).
Proof.
  intros Hi. pose proof (ts_bounds b Hb) as [Hts Hext].
  assert (HW : forall p, 0 <= p /\ p + 4 <= ts -> gives (fdt32_ld_ b p) (fun v => 0 <= v < 2^32)).
  { intros p [? ?]. unfold fdt32_ld_. rewrite fdt32_word by lia. apply word_range. }
  eapply gives_step; [by apply cell_prop_gives|]. intros [p|] H; [by apply HW, H|].
  eapply gives_step; [by apply cell_prop_gives|]. intros [p'|] H'; [by apply HW, H'|]. done.
Qed.
Lemma find_max_phandle_loop_gives f offset max :
  is_int offset -> enough f offset -> 0 <= max < 2^32 ->
  gives (find_max_phandle_loop f b offset max) (fun '(e, v) => (e = 0 \/ err e) /\ 0 <= v < 2^32).
Proof.
  revert offset max. induction f as [|f IH]; intros offset max Hi Hf Hm; [by destruct Hf; lia|].
  cbn [find_max_phandle_loop]. eapply gives_step; [by apply next_node0_gives|]. intros off Hoff.
  destruct (off <? 0) eqn:E.
  - destruct (_ =? _); cbn; [lia|]. destruct Hoff as [?|(Ho & _)]; [tauto|]. destruct (0 <=? offset) eqn:?; lia.
  - destruct Hoff as [Ho|(Ho & _ & n & H)]; [unfold err in Ho; lia|]. destruct (node_bounds _ _ H) as [Hio Hto].
    eapply gives_step; [by apply get_phandle_gives|]. intros v Hv.
    apply IH; [done| |by destruct (max <? v)]. eapply enough_step; [done|lia].
Qed.
Lemma find_max_phandle_gives :
  gives (fdt_find_max_phandle b) (fun '(e, v) => (e = 0 \/ err e) /\ 0 <= v < 2^32).
Proof. apply find_max_phandle_loop_gives; [done|apply enough_fuel|lia]. Qed.
Lemma get_max_phandle_gives : gives (fdt_get_max_phandle b) (fun _ => True).
Proof. eapply gives_step; [apply find_max_phandle_gives|]. by intros [e v]. Qed.
Lemma generate_phandle_gives : gives (fdt_generate_phandle b) (fun '(e, v) => e = 0 \/ err e).
Proof.
  eapply gives_step; [apply find_max_phandle_gives|]. intros [e v] [He Hv].
  destruct (e <? 0) eqn:E; [destruct He; [lia|by right]|]. destruct (_ =? _); [by right|by left].
Qed.

(** ** Names and paths *)

Lemma get_name_gives offset : is_int offset ->
  gives (fdt_get_name b offset) (fun '(p, len) => match p with
    | None => err len
    | Some p => str_at p len /\ p + len < ts
    end).
Proof.
  intros Hi. pose proof (ts_bounds b Hb) as [Hts Hext]. pose proof (hdr_range b H_off_dt_struct) as Hos.
  unfold fdt_get_name. headers Hb.
  eapply gives_step; [apply probe_gives|]. intros e He.
  destruct (e <? 0) eqn:E0; [destruct He as [He | ->]; [done|lia]|].
  eapply gives_step; [by apply check_node_gives|]. intros e' He'.
  destruct (e' <? 0) eqn:E1.
  { destruct He' as [?|[H _]]; [done|]. apply item_at_start in H as ?. apply item_at_next in H. lia. }
  destruct He' as [He'|[[H0 _ (e2 & _ & He2 & _ & Hbn & _)] _]]; [unfold err in He'; lia|].
  destruct (Hbn eq_refl) as (n & -> & Hn). headers Hb.
  apply (gives_step _ _ (fun r => forall p, r = Some p -> exists k, str_at p k /\ p + k < ts)).
  - destruct (_ <? 16); [|intros p [= <-]; exists n; split; [done|lia]].
    unfold blob_strrchr. replace (os + offset + 4) with (os + offset + 4 + 0) by lia.
    eapply gives_step; [eapply strrchr_loop_gives with (n := n); [destruct Hn; lia|done| |by intros l [=]]|].
    + destruct Hn as (? & ? & ? & _). unfold FDT_FUEL, extent in *. lia.
    + intros [l|] Hl; [|by intros p [=]]. specialize (Hl _ eq_refl). intros p [= <-].
      exists (n - (l + 1 - (os + offset + 4))). split; [|lia].
      replace (l + 1) with (os + offset + 4 + (l + 1 - (os + offset + 4))) at 1 by lia.
      apply str_at_drop; [done|lia].
  - intros [p|] Hp; [|done]. destruct (Hp _ eq_refl) as (k & Hk & Hkt).
    rewrite (strlen_eq _ _ Hk). cbn [obind gives]. destruct (Hk) as (? & ? & _). rewrite s32_small by lia. done.
Qed.

Lemma nodename_eq_gives offset s : is_int offset -> gives (fdt_nodename_eq_ b offset s) (fun _ => True).
Proof.
  intros Hi. unfold fdt_nodename_eq_. pose proof (ts_bounds b Hb) as [Hts Hext].
  eapply gives_step; [by apply get_name_gives|]. intros [[p|] olen] H; [|done].
  destruct H as [(H1 & H2 & _) H3]. destruct (olen <? _) eqn:E; [done|].
  eapply gives_step; [apply memcmp_gives; lia|]. intros r _. destruct (negb _); [done|].
  by rewrite fdt8_byte by lia.
Qed.

(** Fuel for a loop that looks at [offset] first. *)
Definition enough_at (f : nat) (offset : Z) : Prop :=
  (0 < f)%nat /\ (0 <= offset -> ts + 8 - Z.min offset ts <= 4 * Z.of_nat f).
Lemma enough_at_fuel offset : enough_at fuel offset.
Proof. pose proof (fuel_enough b Hb). pose proof (ts_bounds b Hb). unfold enough_at. lia. Qed.
Lemma enough_at_step f offset r :
  enough_at (S f) offset -> 0 <= offset -> node_result (offset + 4) r -> enough_at f r.1 /\ is_int r.1.
Proof.
  intros [_ H] H0 Hr. pose proof (ts_bounds b Hb) as [Hts _]. specialize (H H0).
  pose proof (node_result_int (offset + 4) r ltac:(lia) Hr). destruct r as [off d]. simpl in *.
  unfold enough_at. split; [|tauto].
  destruct Hr as [Hr|[(Hr & _ & n & Hn)|(Hr & _)]]; [unfold err in Hr; lia| |lia].
  apply node_bounds in Hn. lia.
Qed.

(** Positions a loop over nodes can be left with. *)
Definition node_or_err (r : Z) : Prop := err r \/ 0 <= r <= ts.

Lemma subnode_loop_gives f offset depth name :
  is_int offset -> (offset < 0 -> err offset) -> enough_at f offset ->
  gives (subnode_loop f b offset depth name) (fun r => err r \/ 0 <= r < 2^31).
Proof.
  revert offset depth. induction f as [|f IH]; intros offset depth Hi He Hf; [by destruct Hf; lia|].
  cbn [subnode_loop]. destruct (_ && _) eqn:E.
  - apply (gives_step _ _ (fun _ => True)).
    { destruct (depth =? 1); [by apply nodename_eq_gives|done]. }
    intros [] _; [right; unfold is_int in Hi; simpl; lia|].
    eapply gives_step; [by apply next_node_gives|]. intros [off d] [Hr _].
    replace (0 <=? offset) with true in Hr by lia.
    destruct (enough_at_step f offset _ Hf ltac:(lia) Hr) as [Hf' Hi'].
    apply IH; [done| |done]. intros Hneg. destruct Hr as [?|[(? & _)|(? & _)]]; [done|lia..].
  - destruct (depth <? 0) eqn:Ed; [by left|]. unfold is_int in Hi. simpl.
    destruct (Z_lt_le_dec offset 0); [left; auto|right; lia].
Qed.
Lemma subnode_offset_gives offset name : is_int offset -> (offset < 0 -> err offset) ->
  gives (fdt_subnode_offset b offset name) (fun r => err r \/ 0 <= r < 2^31).
Proof.
  intros. apply FDT_RO_PROBE_gives; [auto|]. apply subnode_loop_gives; [done..|apply enough_at_fuel].
Qed.

Lemma skip_slashes_head p c q : skip_slashes p = c :: q -> c <> 47 /\ (length q < length p)%nat.
Proof.
  induction p as [|d p IH]; simpl; [done|]. destruct (d =? 47) eqn:E.
  - intros H. apply IH in H as [? ?]. split; [done|lia].
  - intros [= -> ->]. split; lia.
Qed.
Lemma component_length p : (length (component p).2 <= length p)%nat.
Proof.
  induction p as [|c p IH]; simpl; [lia|]. destruct (c =? 47); simpl; [lia|].
  destruct (component p). simpl in *. lia.
Qed.
Lemma path_loop_gives f offset p :
  is_int offset -> (offset < 0 -> err offset) -> (length p < f)%nat ->
  gives (path_loop f b offset p) (fun r => err r \/ 0 <= r < 2^31).
Proof.
  revert offset p. induction f as [|f IH]; intros offset p Hi He Hf; [lia|]. cbn [path_loop].
  destruct (skip_slashes p) as [|c q] eqn:Es.
  { simpl. unfold is_int in Hi. destruct (Z_lt_le_dec offset 0); [left; auto|right; lia]. }
  apply skip_slashes_head in Es as [Hc Hq]. cbn [component].
  replace (c =? 47) with false by lia. pose proof (component_length q) as Hl.
  destruct (component q) as [n r]. simpl in Hl.
  eapply gives_step; [by apply subnode_offset_gives|]. intros o Ho.
  destruct (o <? 0) eqn:E; [by simpl; tauto|].
  apply IH; [|lia..]. unfold is_int, err in *. lia.
Qed.

Definition path_result (r : Z) : Prop := err r \/ 0 <= r < 2^31.
Lemma path_result_int r : path_result r -> is_int r /\ (r < 0 -> err r).
Proof. unfold path_result, err, is_int, FDT_ERR_MAX. lia. Qed.

(** A path that starts with a slash does not need an alias. *)
Lemma path_body_absolute rec path :
  (forall c p, path = c :: p -> c = 47) -> gives (path_offset_body rec b path) path_result.
Proof.
  intros Hp. apply FDT_RO_PROBE_gives; [by left|]. destruct path as [|c p]; [by left|].
  rewrite (Hp c p eq_refl). apply path_loop_gives; [done|lia|simpl; lia].
Qed.

Lemma str_at_exists p k : 0 <= p -> 0 <= k -> p + k < extent b -> byte b (p + k) = 0 ->
  exists n, n <= k /\ str_at p n.
Proof.
  intros Hp Hk. revert p Hp. pattern k. apply natlike_ind; [|clear k Hk; intros k Hk IH|done].
  - intros p Hp He Hz. exists 0. split; [lia|]. rewrite Z.add_0_r in *.
    split_and!; try lia. by rewrite Z.add_0_r.
  - intros p Hp He Hz. destruct (decide (byte b p = 0)) as [E|E].
    + exists 0. split; [lia|]. split_and!; try lia. by rewrite Z.add_0_r.
    + destruct (IH (p + 1)) as (n & Hn & Hs); [lia|lia|by replace (p + 1 + k) with (p + Z.succ k) by lia|].
      exists (n + 1). split; [lia|]. by apply str_at_shift.
Qed.

Lemma path_getprop_gives rec path name :
  gives (rec b path) path_result -> gives (path_getprop_body rec b path name) value_at.
Proof.
  intros Hr. eapply gives_step; [exact Hr|]. intros o Ho. destruct (o <? 0) eqn:E.
  - destruct Ho; [done|lia].
  - apply getprop_gives. by apply path_result_int.
Qed.
Lemma alias_gives rec name :
  gives (rec b (chars "/aliases")) path_result ->
  gives (alias_body rec b name) (fun r => forall p, r = Some p -> byte b p = 47 /\ exists n, str_at p n).
Proof.
  intros Hr. pose proof (ts_bounds b Hb) as [Hts Hext].
  eapply gives_step; [by apply path_getprop_gives|]. intros [[p|] len] H; [|by intros q].
  destruct H as (H1 & H2 & H3). rewrite can_assume_false.
  destruct (0 <? len) eqn:E; [|by intros q]. cbn [negb].
  rewrite !fdt8_byte by lia. cbn [obind gives]. destruct (_ && _) eqn:Ec; [|by intros q].
  intros q [= <-]. split; [lia|]. destruct (str_at_exists p (len - 1)) as (n & _ & Hn); [lia..| |by exists n].
  replace (p + (len - 1)) with (p + len - 1) by lia. lia.
Qed.
Lemma path_offset_gives path : gives (fdt_path_offset b path) path_result.
Proof.
  unfold fdt_path_offset, fdt_path_offset_namelen. cbn [path_offset_rec].
  destruct path as [|c p]; [by apply path_body_absolute|].
  destruct (decide (c = 47)) as [->|Hc]; [apply path_body_absolute; by intros ? ? [= -> _]|].
  apply FDT_RO_PROBE_gives; [by left|]. replace (c =? 47) with false by lia. cbn [negb].
  destruct (component (c :: p)) as [name q].
  eapply gives_step.
  { apply alias_gives, path_body_absolute. by intros ? ? [= <- _]. }
  intros [a|] Ha; [|by left]. destruct (Ha _ eq_refl) as (H47 & n & Hn).
  rewrite (string_eq _ _ Hn). cbn [obind]. eapply gives_step.
  - apply path_body_absolute. intros c' p' E. destruct (Z.to_nat n) as [|k]; [done|].
    simpl in E. by injection E as <- _.
  - intros o Ho. apply path_result_int in Ho as [Ho1 Ho2]. by apply path_loop_gives; [..|lia].
Qed.
Lemma path_getprop_namelen_gives path name : gives (fdt_path_getprop_namelen b path name) value_at.
Proof. apply path_getprop_gives, path_offset_gives. Qed.
Lemma get_alias_gives name : gives (fdt_get_alias b name) (fun r => forall p, r = Some p -> exists n, str_at p n).
Proof.
  eapply gives_mono; [apply alias_gives, path_offset_gives|]. intros r Hr p Hp. by destruct (Hr p Hp).
Qed.
Lemma get_symbol_gives name : gives (fdt_get_symbol b name) (fun _ => True).
Proof. eapply gives_step; [apply path_getprop_namelen_gives|]. by intros [p len]. Qed.

(** ** Depths and parents *)

Lemma supernode_loop_gives f node sdepth offset depth super :
  is_int offset -> (offset < 0 -> err offset) -> enough_at f offset ->
  err super \/ 0 <= super <= node ->
  gives (supernode_loop f b node sdepth offset depth super)
    (fun '(r, d) => (err r \/ 0 <= r <= node) /\ (0 <= r -> d <> None)).
Proof.
  revert offset depth super. induction f as [|f IH]; intros offset depth super Hi He Hf Hs; [by destruct Hf; lia|].
  cbn [supernode_loop]. rewrite can_assume_false.
  destruct (negb _) eqn:E.
  - cbn [gives].
    assert (err (if (offset =? - FDT_ERR_NOTFOUND) || (0 <=? offset) then - FDT_ERR_BADOFFSET
      else if offset =? - FDT_ERR_BADOFFSET then - FDT_ERR_BADSTRUCTURE else offset)) as Hr.
    { destruct (_ || _) eqn:E1; [done|]. destruct (_ =? - FDT_ERR_BADOFFSET); [done|]. apply He. lia. }
    split; [by left|]. unfold err in Hr. lia.
  - assert (err (if depth =? sdepth then offset else super) \/ 0 <= (if depth =? sdepth then offset else super) <= node) as Hs'.
    { destruct (depth =? sdepth); [lia|done]. }
    destruct (offset =? node) eqn:Eo.
    + cbn [gives]. destruct (depth <? sdepth); [split; [by left|done]|]. by split.
    + eapply gives_step; [by apply next_node_gives|]. intros [off d] [Hr _].
      replace (0 <=? offset) with true in Hr by lia.
      destruct (enough_at_step f offset _ Hf ltac:(lia) Hr) as [Hf' Hi']. apply IH; try done.
      intros Hneg. destruct Hr as [?|[(? & _)|(? & _)]]; [done|lia..].
Qed.
Lemma supernode_gives node sdepth : is_int node ->
  gives (fdt_supernode_atdepth_offset b node sdepth)
    (fun '(r, d) => (err r \/ 0 <= r <= node) /\ (0 <= r -> d <> None)).
Proof.
  intros Hn. pose proof (ts_bounds b Hb). eapply gives_step; [apply probe_gives|]. intros e He.
  destruct (e <? 0) eqn:E.
  { destruct He as [He | ->]; [|lia]. split; [by left|]. unfold err in He. lia. }
  destruct (sdepth <? 0); [split; [by left|done]|].
  apply supernode_loop_gives; [done|lia|apply enough_at_fuel|by left].
Qed.
Lemma node_depth_gives node : is_int node -> gives (fdt_node_depth b node) (fun _ => True).
Proof.
  intros Hn. eapply gives_step; [by apply supernode_gives|]. intros [e d] [He Hd].
  destruct (negb (e =? 0)) eqn:E; [done|]. destruct d as [d|]; [done|]. by destruct Hd; [lia|].
Qed.
Lemma parent_offset_gives node : is_int node -> gives (fdt_parent_offset b node) (fun _ => True).
Proof.
  intros Hn. eapply gives_step; [by apply node_depth_gives|]. intros d _. destruct (d <? 0); [done|].
  eapply gives_step; [by apply supernode_gives|]. by intros [r d'].
Qed.

(** ** Searches *)

Lemma search_loop_gives f offset test :
  is_int offset -> enough f offset ->
  (forall off, is_int off -> 0 <= off <= ts ->
    gives (test off) (fun r => forall v, r = Some v -> node_or_err v)) ->
  gives (search_loop f b offset test) node_or_err.
Proof.
  intros Hi Hf Ht. revert offset Hi Hf. induction f as [|f IH]; intros offset Hi Hf; [by destruct Hf; lia|].
  cbn [search_loop]. eapply gives_step; [by apply next_node0_gives|]. intros off Hoff.
  destruct (off <? 0) eqn:E.
  { destruct Hoff as [?|(? & _)]; [by left|]. destruct (0 <=? offset) eqn:?; lia. }
  destruct Hoff as [Ho|(Hlo & _ & n & H)]; [unfold err in Ho; lia|]. destruct (node_bounds _ _ H) as [Hio Hto].
  eapply gives_step; [by apply Ht|]. intros [r|] Hr; [by apply Hr|].
  apply IH; [done|]. eapply enough_step; [done|lia].
Qed.
Lemma search_gives start test :
  is_int start ->
  (forall off, is_int off -> 0 <= off <= ts ->
    gives (test off) (fun r => forall v, r = Some v -> node_or_err v)) ->
  gives (FDT_RO_PROBE b (search_loop fuel b start test)) node_or_err.
Proof. intros. apply FDT_RO_PROBE_gives; [by left|]. apply search_loop_gives; [done|apply enough_fuel|done]. Qed.

Lemma by_prop_value_gives start name val : is_int start ->
  gives (fdt_node_offset_by_prop_value b start name val) node_or_err.
Proof.
  intros Hi. pose proof (ts_bounds b Hb) as [Hts Hext]. apply search_gives; [done|]. intros off Hio Ho.
  eapply gives_step; [by apply getprop_gives|]. intros [[p|] len] H; [|by intros v].
  destruct H as (H1 & H2 & H3). destruct (len =? _) eqn:E; [|by intros v]. cbn [negb].
  eapply gives_step; [apply memcmp_gives; lia|]. intros r _. destruct (r =? 0); [|by intros v].
  intros v [= <-]. by right.
Qed.
Lemma by_phandle_gives phandle : gives (fdt_node_offset_by_phandle b phandle) node_or_err.
Proof.
  unfold fdt_node_offset_by_phandle. destruct (_ || _); [by left|]. apply search_gives; [done|].
  intros off Hio Ho. eapply gives_step; [by apply get_phandle_gives|]. intros v _.
  destruct (v =? phandle); [|by intros w]. intros w [= <-]. by right.
Qed.

(** The comparison may read the byte behind the list. *)
Lemma stringlist_contains_loop_gives f list len str :
  0 <= list -> list + len <= ts -> 0 <= len < Z.of_nat f ->
  gives (stringlist_contains_loop f b list len str) (fun r => r = 0 \/ r = 1).
Proof.
  pose proof (ts_bounds b Hb) as [Hts Hext].
  revert list len. induction f as [|f IH]; intros list len H1 H2 Hf; [lia|]. cbn [stringlist_contains_loop].
  destruct (len <? _) eqn:E; [by left|].
  eapply gives_step; [apply memcmp_gives; [lia|rewrite length_app; simpl; lia]|]. intros r _.
  destruct (r =? 0); [by right|]. eapply gives_step; [apply memchr_gives; lia|]. intros [p|] Hp; [|by left].
  destruct Hp as (Hp & _). apply IH; lia.
Qed.

Lemma check_compatible_gives offset s : is_int offset ->
  gives (fdt_node_check_compatible b offset s) (fun r => err r \/ r = 0 \/ r = 1).
Proof.
  intros Hi. pose proof (fuel_enough b Hb). eapply gives_step; [by apply getprop_gives|].
  intros [[p|] len] H'; [|by left]. destruct H' as (H1 & H2 & H3).
  eapply gives_step; [apply stringlist_contains_loop_gives; lia|]. intros r [-> | ->]; simpl; tauto.
Qed.
Lemma by_compatible_gives start s : is_int start ->
  gives (fdt_node_offset_by_compatible b start s) node_or_err.
Proof.
  intros Hi. apply search_gives; [done|]. intros off Hio Ho.
  eapply gives_step; [by apply check_compatible_gives|]. intros r Hr.
  destruct (_ && _) eqn:E; [|destruct (r =? 0); [|by intros v]].
  - intros v [= <-]. left. unfold err in *. lia.
  - intros v [= <-]. by right.
Qed.

Lemma stringlist_loop_gives {A} f list end_ idx (bad : A) visit done_ (Q : A -> Prop) :
  0 <= list <= end_ -> end_ <= ts -> end_ - list < Z.of_nat f -> Q bad -> (forall i, Q (done_ i)) ->
  (forall l n i, 0 <= l -> 0 < n -> l + n <= ts -> gives (visit l n i) (fun r => forall a, r = Some a -> Q a)) ->
  gives (stringlist_loop f b list end_ idx bad visit done_) Q.
Proof.
  intros Hl He Hf Hbad Hdone Hv. pose proof (ts_bounds b Hb) as [Hts Hext].
  revert list idx Hl Hf. induction f as [|f IH]; intros list idx Hl Hf; [lia|]. cbn [stringlist_loop].
  destruct (end_ <=? list) eqn:E; [apply Hdone|].
  eapply gives_step; [apply strnlen_gives; lia|]. intros n [Hn _]. cbv zeta.
  destruct (end_ <? _) eqn:E1; [done|]. eapply gives_step; [apply Hv; lia|].
  intros [a|] Ha; [by apply Ha|]. apply IH; lia.
Qed.
Lemma stringlist_count_gives offset prop : is_int offset ->
  gives (fdt_stringlist_count b offset prop) (fun _ => True).
Proof.
  intros Hi. pose proof (fuel_enough b Hb). eapply gives_step; [by apply getprop_gives|].
  intros [[p|] len] H'; [|done]. destruct H' as (H1 & H2 & H3).
  apply stringlist_loop_gives; try done; lia.
Qed.
Lemma stringlist_search_gives offset prop s : is_int offset ->
  gives (fdt_stringlist_search b offset prop s) (fun _ => True).
Proof.
  intros Hi. pose proof (fuel_enough b Hb). pose proof (ts_bounds b Hb) as [Hts Hext].
  eapply gives_step; [by apply getprop_gives|].
  intros [[p|] len] H'; [|done]. destruct H' as (H1 & H2 & H3). cbv zeta.
  apply stringlist_loop_gives; try done; [lia..|]. intros l n i Hl Hn He.
  destruct (n =? _) eqn:E; [|done]. cbn [negb].
  eapply gives_step; [apply memcmp_gives; [lia|rewrite length_app; simpl; lia]|]. by intros r _.
Qed.
Lemma stringlist_get_gives offset prop idx : is_int offset ->
  gives (fdt_stringlist_get b offset prop idx) (fun '(p, len) => forall q, p = Some q -> 0 <= q /\ q + len < ts).
Proof.
  intros Hi. pose proof (fuel_enough b Hb). eapply gives_step; [by apply getprop_gives|].
  intros [[p|] len] H'; [|by simpl; intros q [=]]. destruct H' as (H1 & H2 & H3).
  apply stringlist_loop_gives; [lia..|by intros q [=]|by intros i q [=]|]. intros l n i Hl Hn He.
  intros a. destruct (_ =? 0); [|done]. intros [= <-] q [= <-]. lia.
Qed.

(** ** Memory reservations, cells, checks *)

(** [n * sizeof] is computed modulo 2^32, so an index of 2^28 or more would not
    be noticed. *)
Lemma mem_rsv_gives n : 0 <= n < 2^28 ->
  gives (fdt_mem_rsv b n) (fun r => forall p, r = Some p -> 16 * n <= p /\ p + 16 <= ts).
Proof.
  intros Hn. pose proof (ts_bounds b Hb) as [Hts Hext]. pose proof (hdr_range b H_off_mem_rsvmap) as Ho.
  unfold fdt_mem_rsv, fdt_mem_rsv_, sizeof_fdt_reserve_entry. headers Hb.
  rewrite (u32_small (n * 16)), u64_small by lia. destruct (_ || _) eqn:E; [by intros p|].
  intros p [= <-]. revert E. unfold u32. Z.div_mod_to_equations. lia.
Qed.
Lemma get_mem_rsv_gives n : 0 <= n < 2^28 ->
  gives (fdt_get_mem_rsv b n) (fun '(e, _) => e = 0 \/ err e).
Proof.
  intros Hn. pose proof (ts_bounds b Hb) as [Hts Hext]. eapply gives_step; [apply probe_gives|]. intros e He.
  destruct (e <? 0) eqn:E; [destruct He as [He | ->]; [by right|lia]|].
  eapply gives_step; [by apply mem_rsv_gives|]. intros [p|] Hp; [|by right].
  destruct (Hp _ eq_refl). eapply gives_step; [apply fdt64_ld_gives; lia|]. intros a _.
  eapply gives_step; [apply fdt64_ld_gives; lia|]. intros l _. by left.
Qed.
Lemma num_mem_rsv_loop_gives f i :
  0 <= i -> 16 * i <= ts -> ts + 16 - 16 * i <= 16 * Z.of_nat f ->
  gives (num_mem_rsv_loop f b i) (fun r => err r \/ 0 <= r).
Proof.
  pose proof (ts_bounds b Hb) as [Hts Hext].
  revert i. induction f as [|f IH]; intros i Hi Ht Hf; [lia|]. cbn [num_mem_rsv_loop].
  eapply gives_step; [apply mem_rsv_gives; lia|]. intros [p|] Hp; [|by left]. destruct (Hp _ eq_refl).
  eapply gives_step; [apply fdt64_ld_gives; lia|]. intros v _. destruct (v =? 0); [by right|].
  rewrite s32_small by lia. apply IH; lia.
Qed.
Lemma num_mem_rsv_gives : gives (fdt_num_mem_rsv b) (fun r => err r \/ 0 <= r).
Proof.
  pose proof (fuel_enough b Hb). pose proof (ts_bounds b Hb). apply num_mem_rsv_loop_gives; lia.
Qed.

Lemma cells_gives offset name : is_int offset -> gives (fdt_cells b offset name) (fun r => err r \/ 0 <= r <= 4).
Proof.
  intros Hi. pose proof (ts_bounds b Hb) as [Hts Hext]. eapply gives_step; [by apply getprop_gives|].
  intros [[p|] len] H; [|by left]. destruct H as (H1 & H2 & H3). destruct (len =? 4) eqn:E; [|by left]. cbn [negb].
  unfold fdt32_ld_. rewrite fdt32_word by lia. cbn [obind]. pose proof (word_range b p).
  destruct (_ <? _) eqn:E1; [by left|]. right. unfold FDT_MAX_NCELLS in E1. lia.
Qed.
Lemma address_cells_gives offset : is_int offset -> gives (fdt_address_cells b offset) (fun r => err r \/ 1 <= r <= 4).
Proof.
  intros Hi. eapply gives_step; [by apply cells_gives|]. intros v Hv.
  destruct (v =? 0) eqn:E; [by left|]. destruct (v =? - FDT_ERR_NOTFOUND); [right; simpl; lia|].
  destruct Hv; [by left|right; simpl; lia].
Qed.
Lemma size_cells_gives offset : is_int offset -> gives (fdt_size_cells b offset) (fun r => err r \/ 0 <= r <= 4).
Proof. intros Hi. eapply gives_step; [by apply cells_gives|]. intros v Hv. destruct (_ =? _); [right; simpl; lia|done]. Qed.

Lemma move_gives size : gives (fdt_move b size) (fun '(e, l) => err e \/ (e = 0 /\ l = bytes 0 (Z.to_nat ts))).
Proof.
  pose proof (ts_bounds b Hb) as [Hts Hext]. unfold fdt_move. rewrite can_assume_false.
  destruct (_ && _); [by left|]. eapply gives_step; [apply probe_gives|]. intros e He.
  destruct (e <? 0) eqn:E; [destruct He as [He | ->]; [by left|lia]|]. headers Hb.
  destruct (u32 size <? ts); [by left|]. rewrite read_eq by lia. by right.
Qed.

Lemma check_header_gives : gives (fdt_check_header b) (fun r => r = 0 \/ err r).
Proof.
  unfold fdt_check_header, fdt_header_size. headers Hb.
  repeat match goal with
  | |- context [if ?c then _ else _] => destruct c eqn:?; cbn [obind gives negb]
  end; ((by left) || by right).
Qed.
Lemma check_full_loop_gives f next depth expect :
  0 <= next <= ts + 3 -> ts + 4 - next <= 4 * Z.of_nat f ->
  gives (check_full_loop f b next depth expect) (fun r => r = 0 \/ err r).
Proof.
  pose proof (ts_bounds b Hb) as [Hts Hext].
  revert next depth expect. induction f as [|f IH]; intros next depth expect Hn Hf; [lia|]. cbn [check_full_loop].
  assert (Hi : is_int next) by (unfold is_int; lia).
  eapply gives_step; [by apply next_tag_gives|]. intros [tag n'] Htag.
  destruct (n' <? 0) eqn:E0.
  { right. destruct Htag as [[_ H]|[_ ?]]; [apply item_at_next in H; lia|]. unfold err, FDT_ERR_MAX. lia. }
  destruct Htag as [[Hk Ht]|[_ ?]]; [|lia]. apply item_at_next in Ht as H'. destruct H' as (H1 & H2 & H3).
  assert (Hrec : forall d e, gives (check_full_loop f b n' d e) (fun r => r = 0 \/ err r)) by (intros; apply IH; lia).
  destruct (expect && _); [by right|]. destruct (tag =? FDT_NOP); [done|].
  destruct (tag =? FDT_END); [destruct (negb _); [by right|by left]|].
  destruct (tag =? FDT_BEGIN_NODE).
  { destruct (INT_MAX <? _); [by right|]. destruct (_ =? 1); [|done].
    eapply gives_step; [by apply get_name_gives|]. intros [[p|] len] Hp; [|by right].
    destruct Hp as [(? & ? & ? & _) _]. rewrite fdt8_byte by lia. cbn [obind]. destruct (_ || _); [by right|done]. }
  destruct (tag =? FDT_END_NODE).
  { destruct (depth =? 0); [by right|done]. }
  destruct (tag =? FDT_PROP); [|by right].
  eapply gives_step; [by apply getprop_by_offset_gives|]. intros [[p nm] len] [Hv _].
  destruct p as [p|]; [done|]. by right.
Qed.
Lemma check_full_gives size : gives (fdt_check_full b size) (fun r => r = 0 \/ err r).
Proof.
  pose proof (ts_bounds b Hb) as [Hts Hext]. unfold fdt_check_full, fdt_header_size. destruct (_ <? _); [by right|]. headers Hb.
  destruct (_ <? _); [by right|]. eapply gives_step; [apply check_header_gives|]. intros e He.
  destruct (e =? 0) eqn:E; cbn [negb]; [|destruct He; [lia|by right]].
  destruct (_ <? _); [by right|]. eapply gives_step; [apply num_mem_rsv_gives|]. intros v Hv.
  destruct (v <? 0) eqn:E1; [destruct Hv; [by right|lia]|]. apply check_full_loop_gives; [lia|apply fuel4; lia].
Qed.
Lemma find_string_gives strtab tabsize s :
  0 <= strtab -> strtab + tabsize <= extent b -> gives (fdt_find_string_ b strtab tabsize s) (fun _ => True).
Proof.
  intros H0 He. unfold fdt_find_string_, fdt_find_string_len_.
  set (n := Z.to_nat _). assert (Hn : strtab + Z.of_nat n + Z.of_nat (length s) <= extent b \/ n = O) by lia.
  clearbody n. clear He. revert strtab H0 Hn. induction n as [|n IH]; intros p H0 Hn; cbn [find_string_loop]; [done|].
  eapply gives_step; [apply memcmp_gives; lia|]. intros r _.
  assert (gives (find_string_loop n b (p + 1) s) (fun _ => True)) as Hrec.
  { apply IH; lia. }
  destruct (r =? 0); [|done]. rewrite fdt8_byte by lia. cbn [obind]. by destruct (_ =? 0).
Qed.

End tags.
