(* ===== verification/FdtTree.v ===== *)
(** * What a device-tree blob says

    The structure block is a sequence of tokens, and the tokens are the preorder
    of a tree.  [tree_at b off items] says that the blob [b] holds the items at
    offset [off] of its structure block; padding is free.  The functions of libfdt
    are first described over the tokens behind an offset, then over the tree. *)
From stdpp Require Import base numbers list strings.
From Stdlib Require Import ZArith Lia.
From S2P Require Import Prelude Fdt FdtRo FdtSafe.

Local Open Scope Z_scope.
Local Open Scope fdt_scope.

(** ** Tokens and trees *)

Inductive token : Type :=
| Tbegin (name : list Z)
| Tend
| Tprop (nameoff : Z) (data : list Z)
| Tnop
| Tfin.

Unset Elimination Schemes.
Inductive item : Type :=
| Prop_ (nameoff : Z) (data : list Z)
| Nop
| Node (name : list Z) (items : list item).
Set Elimination Schemes.

Section item_ind.
Context (P : item -> Prop) (Q : list item -> Prop).
Context (HP : forall no d, P (Prop_ no d)) (HN : P Nop) (HD : forall n l, Q l -> P (Node n l)).
Context (H0 : Q []) (H1 : forall i l, P i -> Q l -> Q (i :: l)).
Fixpoint item_ind2 (i : item) : P i :=
  match i with
  | Prop_ no d => HP no d
  | Nop => HN
  | Node n l => HD n l ((fix go l : Q l := match l with [] => H0 | i :: l => H1 i l (item_ind2 i) (go l) end) l)
  end.
Fixpoint items_ind (l : list item) : Q l :=
  match l with [] => H0 | i :: l => H1 i l (item_ind2 i) (items_ind l) end.
End item_ind.

Definition len (l : list Z) : Z := Z.of_nat (length l).
Definition tok_tag (t : token) : Z :=
  match t with
  | Tbegin _ => FDT_BEGIN_NODE | Tend => FDT_END_NODE | Tprop _ _ => FDT_PROP
  | Tnop => FDT_NOP | Tfin => FDT_END
  end.
(** Length without and with the padding. *)
Definition tok_len (t : token) : Z :=
  match t with Tbegin n => 4 + len n + 1 | Tprop _ d => 12 + len d | _ => 4 end.
Definition tok_size (t : token) : Z := align4 (tok_len t).
Definition toks_size (L : list token) : Z := foldr (fun t n => tok_size t + n) 0 L.

Fixpoint toks (i : item) : list token :=
  match i with
  | Prop_ no d => [Tprop no d]
  | Nop => [Tnop]
  | Node n l => Tbegin n :: flat_map toks l ++ [Tend]
  end.
Definition toks_of (l : list item) : list token := flat_map toks l.
Definition item_size (i : item) : Z := toks_size (toks i).
Definition items_size (l : list item) : Z := toks_size (toks_of l).

Lemma tok_size_bounds t : 4 <= tok_size t /\ tok_len t <= tok_size t < tok_len t + 4 /\ tok_size t mod 4 = 0.
Proof.
  unfold tok_size. pose proof (align4_bounds (tok_len t)). pose proof (align4_mod (tok_len t)).
  assert (4 <= tok_len t) by (destruct t; unfold tok_len, len; lia). lia.
Qed.
Lemma toks_size_app L L' : toks_size (L ++ L') = toks_size L + toks_size L'.
Proof. induction L as [|t L IH]; simpl; lia. Qed.
Lemma toks_size_nonneg L : 0 <= toks_size L.
Proof. induction L as [|t L IH]; simpl; [lia|]. pose proof (tok_size_bounds t). lia. Qed.
Lemma tok_size_end : tok_size Tend = 4.
Proof. done. Qed.

(** ** The blob holds tokens *)

Section holds.
Context (b : blob).
Notation ts := (hdr b H_totalsize).
Notation os := (hdr b H_off_dt_struct).

Definition tok_at (off : Z) (t : token) : Prop :=
  off mod 4 = 0 /\ in_struct b off (tok_len t) = true /\ word b (os + off) = tok_tag t /\
  match t with
  | Tbegin n => bytes b (os + off + 4) (length n + 1) = n ++ [0] /\ forallb (fun c => negb (c =? 0)) n = true
  | Tprop no d => word b (os + off + 4) = len d /\ word b (os + off + 8) = no /\
                  bytes b (os + off + 12) (length d) = d /\ no < 2^31
  | _ => True
  end.
Fixpoint toks_at (off : Z) (L : list token) : Prop :=
  match L with
  | [] => True
  | t :: L' => tok_at off t /\ toks_at (off + tok_size t) L'
  end.

Lemma toks_at_app off L L' : toks_at off (L ++ L') <-> toks_at off L /\ toks_at (off + toks_size L) L'.
Proof.
  revert off. induction L as [|t L IH]; intros off; simpl; [rewrite Z.add_0_r; tauto|].
  rewrite IH, Z.add_assoc. tauto.
Qed.

(** The strings block, and the string at an offset of it. *)
Definition strings : list Z := bytes b (hdr b H_off_dt_strings) (Z.to_nat (hdr b H_size_dt_strings)).
Fixpoint cstr (l : list Z) : option (list Z) :=
  match l with
  | [] => None
  | c :: l' => if c =? 0 then Some [] else option_map (cons c) (cstr l')
  end.
Definition prop_name (nameoff : Z) : option (list Z) :=
  if nameoff <? 0 then None else cstr (drop (Z.to_nat nameoff) strings).

(** A version 17 blob with a consistent header, and one whose structure block
    consists of the items. *)
Record fdt_ok : Prop := {
  fo_sane : sane b;
  fo_align : Z.land (b_addr b) 7 = 0;
  fo_magic : hdr b H_magic = FDT_MAGIC;
  fo_version : 17 <= hdr b H_version;
  fo_compat : hdr b H_last_comp_version <= 17;
  fo_strings : hdr b H_off_dt_strings + hdr b H_size_dt_strings <= ts
}.
Record dtb (items : list item) : Prop := {
  db_ok : fdt_ok;
  db_toks : toks_at 0 (toks_of items ++ [Tfin])
}.

End holds.

(** ** The code on tokens *)

Section tokens.
Context (b : blob) (Hh : fdt_ok b).
Notation ts := (hdr b H_totalsize).
Notation os := (hdr b H_off_dt_struct).
Notation fuel := (FDT_FUEL b).
Let Hb : sane b := fo_sane b Hh.

Lemma bytes_app p n m : bytes b p (n + m) = bytes b p n ++ bytes b (p + Z.of_nat n) m.
Proof.
  revert p. induction n as [|n IH]; intros p; simpl; [by rewrite Z.add_0_r|].
  rewrite IH. do 3 f_equal. lia.
Qed.
Lemma bytes_byte p n i : 0 <= i < Z.of_nat n -> bytes b p n !! Z.to_nat i = Some (byte b (p + i)).
Proof.
  revert p i. induction n as [|n IH]; intros p i Hi; [lia|]. simpl.
  destruct (decide (i = 0)) as [->|]; [by rewrite Z.add_0_r|].
  replace (Z.to_nat i) with (S (Z.to_nat (i - 1))) by lia. simpl. rewrite IH by lia. do 2 f_equal. lia.
Qed.

(** A name followed by a zero is a string. *)
Lemma name_str_at p n :
  0 <= p -> p + len n < extent b -> bytes b p (length n + 1) = n ++ [0] ->
  forallb (fun c => negb (c =? 0)) n = true -> str_at b p (len n).
Proof.
  unfold len. intros Hp He Hn Hz. split; [done|]. split; [lia|]. split; [done|].
  assert (HB : forall i, 0 <= i <= Z.of_nat (length n) -> (n ++ [0]) !! Z.to_nat i = Some (byte b (p + i))).
  { intros i Hi. rewrite <- Hn. apply bytes_byte. lia. }
  split.
  - specialize (HB (Z.of_nat (length n)) ltac:(lia)). rewrite Nat2Z.id, list_lookup_middle in HB by done. congruence.
  - intros i Hi Hc. specialize (HB i ltac:(lia)). rewrite lookup_app_l in HB by lia.
    rewrite forallb_forall in Hz. apply list_elem_of_lookup_2, list_elem_of_In, Hz in HB. lia.
Qed.

Lemma skip_name_eq f off n :
  0 <= off -> str_at b (os + off) n -> os + off + n + 1 <= ts -> n < Z.of_nat f ->
  (forall k, 0 <= k <= n -> in_struct b (off + k) 1 = true) ->
  skip_name f b off = Ret (Some (os + off + n), off + n + 1).
Proof.
  pose proof (ts_bounds b Hb) as [Hts Hext]. pose proof (hdr_range b H_off_dt_struct) as Hos.
  revert off n. induction f as [|f IH]; intros off n H0 Hs He Hf Hin; [destruct Hs; lia|]. simpl.
  destruct (Hs) as (S1 & S2 & S3 & S4 & S5).
  rewrite (fdt_offset_ptr_eq b Hb) by (unfold is_int; lia).
  replace (in_struct b off 1) with true by (rewrite <- (Hin 0) by lia; f_equal; lia). cbn [obind].
  rewrite fdt8_byte by lia. cbn [obind]. rewrite s32_small by lia.
  destruct (decide (n = 0)) as [->|Hn].
  - rewrite Z.add_0_r in S4. rewrite S4. simpl. do 3 f_equal; lia.
  - destruct (byte b (os + off) =? 0) eqn:E; [exfalso; apply (S5 0); [lia|rewrite Z.add_0_r; lia]|].
    rewrite (IH (off + 1) (n - 1)); [do 3 f_equal; lia|lia| |lia..|].
    + replace (os + (off + 1)) with (os + off + 1) by lia. apply str_at_drop; [done|lia].
    + intros k Hk. rewrite <- Z.add_assoc. apply Hin. lia.
Qed.

(** The name of a [Tbegin] is a string in the blob. *)
Lemma tok_begin_str off n : tok_at b off (Tbegin n) -> str_at b (os + off + 4) (len n) /\ os + off + 4 + len n < ts.
Proof.
  intros (_ & Hin & _ & Hn & Hz). pose proof (ts_bounds b Hb) as [Hts Hext].
  apply in_struct_bounds in Hin as [? Hin]. unfold tok_len in Hin. pose proof (hdr_range b H_off_dt_struct).
  split; [|lia]. apply name_str_at; [lia|lia|done..].
Qed.
Lemma tok_at_bounds off t : tok_at b off t -> 0 <= off /\ off mod 4 = 0 /\ os + off + tok_len t <= ts.
Proof. intros (Hm & Hin & _). apply in_struct_bounds in Hin. lia. Qed.

Lemma tag_end_eq off t : tok_at b off t -> tag_end b (tok_tag t) (off + 4) = Ret (Some (off + tok_len t)).
Proof.
  intros Ht. pose proof (tok_at_bounds _ _ Ht) as (H0 & Hm & He).
  pose proof (ts_bounds b Hb) as [Hts Hext]. pose proof (hdr_range b H_off_dt_struct) as Hos.
  pose proof (fuel_enough b Hb) as Hfu. destruct t as [n| |no d| |]; try done.
  - pose proof (tok_begin_str _ _ Ht) as [Hs Hlt]. destruct Ht as (_ & Hin & _). unfold tok_len in *.
    unfold tag_end. cbn [tok_tag Z.eqb FDT_BEGIN_NODE Pos.eqb].
    rewrite (skip_name_eq _ _ (len n)); [simpl; do 2 f_equal; lia|lia| |lia|unfold len in *; lia|].
    + by replace (os + (off + 4)) with (os + off + 4) by lia.
    + intros k Hk. rewrite <- Z.add_assoc. eapply (in_struct_mono b); [exact Hin|lia..].
  - destruct Ht as (_ & Hin & _ & Hl & Hno & Hdat & _). unfold tok_len in *.
    unfold tag_end. cbn [tok_tag Z.eqb FDT_PROP FDT_BEGIN_NODE Pos.eqb].
    rewrite (fdt_offset_ptr_eq b Hb) by (unfold is_int, len in *; lia).
    rewrite (in_struct_mono b off (12 + len d) 4 4) by (done || unfold len; lia). cbn [obind].
    headers Hb. assert (0 <= len d) by (unfold len; lia).
    replace (os + (off + 4)) with (os + off + 4) by lia. rewrite fdt32_word by lia. cbn [obind]. rewrite Hl.
    rewrite !u32_small by lia. replace (_ || _) with false by (unfold INT_MAX; lia).
    pose proof (fo_version _ Hh). replace (hdr b H_version <? 16) with false by lia. cbn [andb].
    rewrite s32_small by (unfold sizeof_fdt_property, FDT_TAGSIZE; lia).
    unfold sizeof_fdt_property, FDT_TAGSIZE. do 2 f_equal. lia.
Qed.

(** [fdt_next_tag] reads the token. *)
Lemma next_tag_eq off t : tok_at b off t -> fdt_next_tag b off = Ret (tok_tag t, off + tok_size t).
Proof.
  intros Ht. pose proof (tok_at_bounds _ _ Ht) as (H0 & Hm & He).
  pose proof (ts_bounds b Hb) as [Hts Hext]. pose proof (hdr_range b H_off_dt_struct) as Hos.
  assert (4 <= tok_len t) by (destruct t; unfold tok_len, len; lia).
  unfold fdt_next_tag, FDT_TAGSIZE. rewrite (fdt_offset_ptr_eq b Hb) by (unfold is_int; lia).
  pose proof Ht as (_ & Hin & Htag & _).
  replace (in_struct b off 4) with true
    by (rewrite <- (in_struct_mono b off (tok_len t) 0 4 Hin) by lia; f_equal; lia).
  cbn [obind]. headers Hb. rewrite fdt32_word by lia. cbn [obind]. rewrite Htag, s32_small by lia.
  rewrite (tag_end_eq _ _ Ht). cbn [obind].
  replace (off + tok_len t - off) with (tok_len t) by lia. rewrite s32_small, u32_small by lia.
  rewrite (fdt_offset_ptr_eq b Hb) by (unfold is_int; lia). rewrite Hin. cbn [obind].
  rewrite FDT_TAGALIGN_align4. assert (align4 (off + tok_len t) = off + tok_size t) as ->.
  { unfold tok_size, align4. Z.div_mod_to_equations. lia. }
  pose proof (tok_size_bounds t). rewrite s32_small by lia. done.
Qed.

Lemma check_tag_eq want off t :
  tok_at b off t ->
  fdt_check_tag_offset want b off =
    Ret (if tok_tag t =? want then off + tok_size t else - FDT_ERR_BADOFFSET).
Proof.
  intros Ht. pose proof (tok_at_bounds _ _ Ht) as (H0 & Hm & He).
  unfold fdt_check_tag_offset, FDT_TAGSIZE. rewrite can_assume_false.
  replace (off <? 0) with false by lia. rewrite Hm. cbn [Z.eqb negb andb orb].
  rewrite (next_tag_eq _ _ Ht). cbn [obind]. by destruct (_ =? want).
Qed.

Lemma toks_at_length off L : toks_at b off L -> 4 * Z.of_nat (length L) <= Z.max 0 (ts - off + 4).
Proof.
  pose proof (hdr_range b H_off_dt_struct) as Hos.
  revert off. induction L as [|t L IH]; intros off H; simpl; [lia|]. destruct H as [Ht HL].
  apply tok_at_bounds in Ht as (H0 & _ & He). apply IH in HL. pose proof (tok_size_bounds t).
  assert (4 <= tok_len t) by (destruct t; unfold tok_len, len; lia). lia.
Qed.
Lemma toks_at_fuel off L : 0 <= off -> toks_at b off L -> (length L < fuel)%nat.
Proof. intros H0 H. apply toks_at_length in H. pose proof (fuel_enough b Hb). pose proof (ts_bounds b Hb). lia. Qed.

(** What [fdt_next_node] finds: offset, depth, and the tokens from there on
    (none when it is not a node). *)
Fixpoint scan (off : Z) (d : option Z) (L : list token) : Z * option Z * list token :=
  match L with
  | [] | Tfin :: _ => (- FDT_ERR_NOTFOUND, d, [])
  | Tbegin n :: _ => (off, option_map (fun x => x + 1) d, L)
  | Tend :: L' =>
    match d with
    | Some x => if x - 1 <? 0 then (off + 4, Some (x - 1), []) else scan (off + 4) (Some (x - 1)) L'
    | None => scan (off + 4) None L'
    end
  | t :: L' => scan (off + tok_size t) d L'
  end.

Lemma next_node_loop_eq f off d L :
  toks_at b off L -> Tfin ∈ L -> (length L <= f)%nat -> next_node_loop f b off d = Ret (scan off d L).1.
Proof.
  revert off d L. induction f as [|f IH]; intros off d L HL Hfin Hf.
  { destruct L; [by apply elem_of_nil in Hfin|simpl in Hf; lia]. }
  destruct L as [|t L]; [by apply elem_of_nil in Hfin|]. destruct HL as [Ht HL].
  cbn [next_node_loop]. rewrite (next_tag_eq _ _ Ht). cbn [obind].
  apply tok_at_bounds in Ht as (H0 & _). pose proof (tok_size_bounds t) as [Hs _].
  destruct t as [n| |no dat| |]; cbn [tok_tag Z.eqb FDT_BEGIN_NODE FDT_END_NODE FDT_PROP FDT_NOP FDT_END Pos.eqb scan fst].
  - done.
  - apply elem_of_cons in Hfin as [Hfin|Hfin]; [done|]. simpl in Hf. rewrite !tok_size_end in *.
    destruct d as [x|]; [destruct (x - 1 <? 0); [done|]|]; apply IH; (done || lia).
  - apply elem_of_cons in Hfin as [Hfin|Hfin]; [done|]. simpl in Hf. apply IH; (done || lia).
  - apply elem_of_cons in Hfin as [Hfin|Hfin]; [done|]. simpl in Hf. apply IH; (done || lia).
  - by replace (0 <=? off + tok_size Tfin) with true by lia.
Qed.

Lemma scan_found off d L o d' R :
  toks_at b off L -> Tfin ∈ L -> scan off d L = (o, d', R) -> R <> [] ->
  exists n L', R = Tbegin n :: L' /\ toks_at b o R /\ Tfin ∈ L' /\ off <= o /\ (length R <= length L)%nat.
Proof.
  revert off d. induction L as [|t L IH]; intros off d HL Hfin; simpl; [by intros [= <- <- <-]|].
  destruct HL as [Ht HL]. pose proof (tok_size_bounds t) as [Hs _].
  assert (t <> Tfin -> Tfin ∈ L) as Hfin' by (intros Ht'; apply elem_of_cons in Hfin as [Hfin|Hfin]; congruence).
  assert (Hrec : t <> Tfin -> forall dd, scan (off + tok_size t) dd L = (o, d', R) -> R <> [] ->
    exists n L', R = Tbegin n :: L' /\ toks_at b o R /\ Tfin ∈ L' /\ off <= o /\ (length R <= S (length L))%nat).
  { intros Hne dd E HR. destruct (IH _ dd HL (Hfin' Hne) E HR) as (n & L' & ? & ? & ? & ? & ?).
    exists n, L'. split_and!; try done; lia. }
  destruct t as [n| |no dat| |].
  - intros [= <- <- <-] _. exists n, L. split_and!; try done; simpl; lia || by apply Hfin'.
  - rewrite tok_size_end in Hrec. destruct d as [x|]; [destruct (x - 1 <? 0); [by intros [= <- <- <-]|]|]; by apply Hrec.
  - by apply Hrec.
  - by apply Hrec.
  - by intros [= <- <- <-].
Qed.

(** [fdt_next_node] from a node, and from the start. *)
Lemma next_node_eq off d n L :
  toks_at b off (Tbegin n :: L) -> Tfin ∈ L ->
  fdt_next_node b off d = Ret (scan (off + tok_size (Tbegin n)) d L).1.
Proof.
  intros [Ht HL] Hfin. pose proof (tok_at_bounds _ _ Ht) as (H0 & _). pose proof (tok_size_bounds (Tbegin n)) as [Hs _].
  unfold fdt_next_node, fdt_check_node_offset_. replace (0 <=? off) with true by lia.
  rewrite (check_tag_eq _ _ _ Ht). cbn [tok_tag Z.eqb FDT_BEGIN_NODE Pos.eqb obind].
  replace (off + tok_size (Tbegin n) <? 0) with false by lia.
  apply next_node_loop_eq; [done..|].
  pose proof (toks_at_fuel (off + tok_size (Tbegin n)) L ltac:(lia) HL). lia.
Qed.
Lemma next_node_start off d L :
  off < 0 -> toks_at b 0 L -> Tfin ∈ L -> fdt_next_node b off d = Ret (scan 0 d L).1.
Proof.
  intros Ho HL Hfin. unfold fdt_next_node. replace (0 <=? off) with false by lia.
  apply next_node_loop_eq; [done..|]. pose proof (toks_at_fuel 0 L ltac:(lia) HL). lia.
Qed.

(** ** Searching *)

(** The nodes behind an offset, with the tokens of each. *)
Fixpoint begins (off : Z) (L : list token) : list (Z * list token) :=
  match L with
  | [] => []
  | Tfin :: _ => []
  | t :: L' => match t with Tbegin _ => [(off, L)] | _ => [] end ++ begins (off + tok_size t) L'
  end.

Lemma scan_begins off L :
  match begins off L with
  | [] => exists v, scan off None L = (- FDT_ERR_NOTFOUND, v, [])
  | (o, R) :: rest => scan off None L = (o, None, R) /\ exists n L', R = Tbegin n :: L' /\
      rest = begins (o + tok_size (Tbegin n)) L'
  end.
Proof.
  revert off. induction L as [|t L IH]; intros off; simpl; [by exists None|].
  destruct t as [n| |no d| |]; simpl.
  - split; [done|]. by exists n, L.
  - apply IH.
  - apply IH.
  - apply IH.
  - by exists None.
Qed.

(** The first node on which [test] returns. *)
Fixpoint first_hit {A} (test : Z -> A -> option Z) (l : list (Z * A)) : Z :=
  match l with
  | [] => - FDT_ERR_NOTFOUND
  | (o, a) :: l' => match test o a with Some r => r | None => first_hit test l' end
  end.

Lemma search_loop_step f b' start (test : Z -> outcome (option Z)) :
  search_loop (S f) b' start test =
  let! offset := fdt_next_node0 b' start in
  if offset <? 0 then Ret offset else
  let! r := test offset in
  match r with Some r => Ret r | None => search_loop f b' offset test end.
Proof. done. Qed.

(** From [start], [fdt_next_node] visits exactly the nodes [N]. *)
Fixpoint visits {A} (start : Z) (N : list (Z * A)) : Prop :=
  match N with
  | [] => fdt_next_node0 b start = Ret (- FDT_ERR_NOTFOUND)
  | (o, _) :: N' => fdt_next_node0 b start = Ret o /\ 0 <= o /\ visits o N'
  end.

Lemma visits_begins {A} k start off L (N : list (Z * A)) :
  (length L <= k)%nat -> fdt_next_node0 b start = Ret (scan off None L).1.1 ->
  toks_at b off L -> Tfin ∈ L -> 0 <= off -> map fst (begins off L) = map fst N -> visits start N.
Proof.
  revert start off L N. induction k as [|k IH]; intros start off L N Hk Hs HL Hfin H0 HN.
  { destruct L; [by apply elem_of_nil in Hfin|simpl in Hk; lia]. }
  pose proof (scan_begins off L) as Hsc.
  destruct (begins off L) as [|[o R] rest] eqn:Eb.
  - destruct Hsc as [v Ev]. rewrite Ev in Hs. by destruct N.
  - destruct Hsc as (Esc & n & L' & -> & ->). destruct N as [|[o' a] N]; [done|]. injection HN as <- HN.
    destruct (scan_found off None L o None _ HL Hfin Esc ltac:(done)) as (n' & L'' & [= <- <-] & HR & Hfin' & Hle & Hlen).
    rewrite Esc in Hs. split; [done|]. split; [lia|]. pose proof (tok_size_bounds (Tbegin n)).
    simpl in Hlen. destruct HR as [HR HR']. apply (IH o (o + tok_size (Tbegin n)) L' N); [lia| |done|done|lia|done].
    unfold fdt_next_node0. rewrite (next_node_eq _ _ _ _ (conj HR HR') Hfin').
    by destruct (scan (o + tok_size (Tbegin n)) None L') as [[? ?] ?].
Qed.
Lemma begins_length off L : (length (begins off L) <= length L)%nat.
Proof.
  revert off. induction L as [|t L IH]; intros off; [done|]. specialize (IH (off + tok_size t)).
  destruct t; cbn [begins app length]; lia.
Qed.

Lemma search_loop_eq {A} f start (N : list (Z * A)) test t :
  visits start N -> (length N < f)%nat ->
  (forall o a, (o, a) ∈ N -> test o = Ret (t o a)) ->
  search_loop f b start test = Ret (first_hit t N).
Proof.
  revert start N. induction f as [|f IH]; intros start N HN Hf Ht; [lia|]. rewrite search_loop_step.
  destruct N as [|[o a] N]; [by rewrite HN|]. destruct HN as (-> & H0 & HN). cbn [obind first_hit].
  replace (o <? 0) with false by lia. rewrite (Ht o a) by apply list_elem_of_here. cbn [obind].
  destruct (t o a); [done|]. simpl in Hf. apply IH; [done|lia|]. intros o' a' Hin. apply Ht. by apply list_elem_of_further.
Qed.

(** ** Properties *)

Lemma drop_bytes p n k : (k <= n)%nat -> drop k (bytes b p n) = bytes b (p + Z.of_nat k) (n - k).
Proof.
  revert p n. induction k as [|k IH]; intros p n Hk.
  - by rewrite Nat.sub_0_r, Z.add_0_r.
  - destruct n as [|n]; [lia|]. simpl. rewrite IH by lia. f_equal. lia.
Qed.
Lemma memchr_cstr p n :
  0 <= p -> p + Z.of_nat n <= extent b ->
  blob_memchr b p 0 n = Ret (option_map (fun l => p + len l) (cstr (bytes b p n))) /\
  forall l, cstr (bytes b p n) = Some l ->
    bytes b p (length l) = l /\ forallb (fun c => negb (c =? 0)) l = true /\ p + len l < p + Z.of_nat n.
Proof.
  revert p. induction n as [|n IH]; intros p Hp He; [done|]. simpl.
  rewrite fdt8_byte by lia. cbn [obind]. destruct (byte b p =? 0) eqn:E.
  - split; [unfold len; simpl; do 2 f_equal; lia|]. intros l [= <-]. unfold len; simpl. split_and!; [done..|lia].
  - destruct (IH (p + 1)) as [-> IH2]; [lia..|]. destruct (cstr _) as [l|]; simpl.
    + split; [unfold len; simpl; do 2 f_equal; lia|]. intros l' [= <-].
      destruct (IH2 l eq_refl) as (H1 & H2 & H3). unfold len in *. simpl. rewrite H1, H2, E. split_and!; [done..|lia].
    + done.
Qed.

Lemma get_string_eq no :
  0 <= no < 2^31 ->
  match prop_name b no with
  | Some n => exists p, fdt_get_string b no = Ret (Some p, len n) /\ bytes b p (length n) = n /\ 0 <= p /\ p + len n < ts
  | None => exists e, fdt_get_string b no = Ret (None, e) /\ err e
  end.
Proof.
  intros Hno. pose proof (ts_bounds b Hb) as [Hts Hext]. pose proof Hh as [_ Hal Hm Hv Hc Hst].
  pose proof (hdr_range b H_off_dt_strings) as Ho. pose proof (hdr_range b H_size_dt_strings) as Hz.
  unfold fdt_get_string, fdt_ro_probe_. headers Hb. rewrite Hal, Hm. cbn [Z.eqb negb].
  change (FDT_MAGIC =? FDT_MAGIC) with true.
  replace (_ || _) with false by (unfold FDT_FIRST_SUPPORTED_VERSION, FDT_LAST_SUPPORTED_VERSION; lia).
  replace (hdr b H_totalsize <? INT_MAX) with true by (unfold INT_MAX; lia). cbn [obind].
  replace (hdr b H_totalsize <? 0) with false by lia. rewrite u32_small by lia.
  unfold prop_name. replace (no <? 0) with false by lia.
  destruct (hdr b H_size_dt_strings <=? no) eqn:E.
  - assert (drop (Z.to_nat no) (strings b) = []) as ->.
    { apply drop_ge. unfold strings. rewrite bytes_length. lia. }
    simpl. destruct (_ <=? no + _); [by eexists|]. replace (17 <=? _) with true by lia. cbn [orb]. by eexists.
  - replace (_ <=? no + _) with false by lia. replace (17 <=? _) with true by lia. cbn [orb].
    unfold strings. rewrite drop_bytes by lia.
    set (p := hdr b H_off_dt_strings + Z.of_nat (Z.to_nat no)).
    assert (Hp : no + hdr b H_off_dt_strings = p) by lia. rewrite Hp.
    set (k := if _ <? _ then _ else _). assert (Hk : Z.to_nat k = (Z.to_nat (hdr b H_size_dt_strings) - Z.to_nat no)%nat).
    { unfold k. destruct (_ <? ts - p) eqn:?; lia. }
    rewrite Hk. destruct (memchr_cstr p (Z.to_nat (hdr b H_size_dt_strings) - Z.to_nat no)) as [-> HS]; [lia..|].
    cbn [obind]. destruct (cstr _) as [n|]; [|by eexists]. destruct (HS n eq_refl) as (H1 & H2 & H3).
    assert (0 <= len n) by (unfold len; lia).
    exists p. cbn [option_map]. replace (p + len n - p) with (len n) by lia. rewrite s32_small by lia.
    split_and!; [done..|lia|lia].
Qed.

Lemma string_eq_eq no name :
  0 <= no < 2^31 -> fdt_string_eq_ b no name = Ret (bool_decide (prop_name b no = Some name)).
Proof.
  intros Hno. pose proof (get_string_eq no Hno) as HG. pose proof (ts_bounds b Hb) as [Hts Hext]. unfold fdt_string_eq_.
  destruct (prop_name b no) as [n|].
  - destruct HG as (p & -> & Hn & Hp & Hlt). cbn [obind]. unfold len in *.
    destruct (Z.of_nat (length n) =? Z.of_nat (length name)) eqn:E; cbn [negb].
    + assert (length n = length name) as El by lia.
      destruct (gives_eq _ _ (memcmp_gives b p name ltac:(lia) ltac:(lia))) as (r & -> & Hr). cbn [obind].
      f_equal. rewrite <- El, Hn in Hr. apply eq_true_iff_eq. rewrite Z.eqb_eq, Hr, bool_decide_eq_true.
      split; congruence.
    + f_equal. symmetry. apply bool_decide_eq_false. intros [= ->]. lia.
  - destruct HG as (e & -> & _). cbn [obind]. by rewrite bool_decide_eq_false_2.
Qed.

(** The first property of that name among the leading properties. *)
Fixpoint find_prop (off : Z) (name : list Z) (L : list token) : option (Z * list Z) :=
  match L with
  | Tprop no d :: L' =>
    if bool_decide (prop_name b no = Some name) then Some (off, d)
    else find_prop (off + tok_size (Tprop no d)) name L'
  | Tnop :: L' => find_prop (off + 4) name L'
  | _ => None
  end.
(** The error at the end of the properties. *)
Fixpoint props_end (L : list token) : Z :=
  match L with
  | Tprop _ _ :: L' | Tnop :: L' => props_end L'
  | Tfin :: _ => - FDT_ERR_BADSTRUCTURE
  | _ => - FDT_ERR_NOTFOUND
  end.
(** The first property, skipping NOPs. *)
Fixpoint first_prop (off : Z) (L : list token) : option (Z * list token) :=
  match L with
  | Tprop _ _ :: _ => Some (off, L)
  | Tnop :: L' => first_prop (off + 4) L'
  | _ => None
  end.

Lemma nextprop_loop_eq f off L :
  toks_at b off L -> Tfin ∈ L -> (length L <= f)%nat ->
  nextprop_loop f b off = Ret (match first_prop off L with Some (o, _) => o | None => props_end L end).
Proof.
  revert off L. induction f as [|f IH]; intros off L HL Hfin Hf.
  { destruct L; [by apply elem_of_nil in Hfin|simpl in Hf; lia]. }
  destruct L as [|t L]; [by apply elem_of_nil in Hfin|]. destruct HL as [Ht HL].
  cbn [nextprop_loop]. rewrite (next_tag_eq _ _ Ht). cbn [obind].
  apply tok_at_bounds in Ht as (H0 & _). pose proof (tok_size_bounds t) as [Hs _].
  destruct t as [n| |no dat| |]; cbn [tok_tag Z.eqb FDT_BEGIN_NODE FDT_END_NODE FDT_PROP FDT_NOP FDT_END Pos.eqb first_prop props_end];
    try done.
  - apply elem_of_cons in Hfin as [Hfin|Hfin]; [done|]. simpl in Hf. apply IH; (done || lia).
  - by replace (0 <=? off + tok_size Tfin) with true by lia.
Qed.
Lemma first_prop_at off L o R :
  toks_at b off L -> Tfin ∈ L -> first_prop off L = Some (o, R) ->
  exists no d L', R = Tprop no d :: L' /\ toks_at b o R /\ Tfin ∈ L' /\ off <= o /\ (length R <= length L)%nat /\
    props_end L = props_end L' /\ forall name, find_prop off name L = find_prop o name R.
Proof.
  revert off. induction L as [|t L IH]; intros off HL Hfin; [done|].
  destruct HL as [Ht HL]. destruct t as [n| |no dat| |]; simpl; try done.
  - intros [= <- <-]. apply elem_of_cons in Hfin as [Hfin|Hfin]; [done|].
    exists no, dat, L. split_and!; (done || lia).
  - apply elem_of_cons in Hfin as [Hfin|Hfin]; [done|]. intros E.
    destruct (IH _ HL Hfin E) as (no & d & L' & ? & ? & ? & Hle & ? & ? & Hn).
    change (tok_size Tnop) with 4 in Hle. exists no, d, L'. split_and!; try done; lia.
Qed.
Lemma first_prop_none off L name : first_prop off L = None -> find_prop off name L = None.
Proof. revert off. induction L as [|[] L IH]; intros off; simpl; try done. apply IH. Qed.

Lemma props_end_neg L : props_end L < 0.
Proof. induction L as [|[] L IH]; simpl; done. Qed.

Lemma property_by_offset_eq off no d L :
  toks_at b off (Tprop no d :: L) -> fdt_get_property_by_offset_ b off = Ret (Some (os + off), len d).
Proof.
  intros [Ht HL]. pose proof (tok_at_bounds _ _ Ht) as (H0 & Hm & He). pose proof (ts_bounds b Hb) as [Hts Hext].
  pose proof (hdr_range b H_off_dt_struct). pose proof (tok_size_bounds (Tprop no d)) as [Hs _].
  unfold fdt_get_property_by_offset_, fdt_check_prop_offset_. rewrite can_assume_false.
  rewrite (check_tag_eq _ _ _ Ht). cbn [tok_tag Z.eqb FDT_PROP Pos.eqb obind].
  replace (_ <? 0) with false by lia. headers Hb.
  destruct Ht as (_ & _ & _ & Hl & _). unfold tok_len, len in *.
  rewrite fdt32_word by lia. cbn [obind]. rewrite Hl, s32_small by lia. done.
Qed.

(** One step of a function that looks for the next property behind a token. *)
Lemma property_after_eq tag off t L (Hk : tok_tag t = tag) :
  toks_at b off (t :: L) -> Tfin ∈ L ->
  (let! offset := fdt_check_tag_offset tag b off in if offset <? 0 then Ret offset else nextprop_ b offset) =
  Ret (match first_prop (off + tok_size t) L with Some (o, _) => o | None => props_end L end).
Proof.
  intros [Ht HL] Hfin. pose proof (tok_at_bounds _ _ Ht) as (H0 & Hm & He). pose proof (tok_size_bounds t) as [Hs _].
  rewrite (check_tag_eq _ _ _ Ht), Hk, Z.eqb_refl. cbn [obind]. replace (_ <? 0) with false by lia.
  apply nextprop_loop_eq; [done..|]. pose proof (toks_at_fuel (off + tok_size t) L ltac:(lia) HL). lia.
Qed.

Lemma get_property_loop_eq f off no d L name :
  toks_at b off (Tprop no d :: L) -> Tfin ∈ L -> (S (length L) < f)%nat ->
  get_property_loop f b off name = Ret (
    match find_prop off name (Tprop no d :: L) with
    | Some (o, d) => (Some (os + o, o), len d)
    | None => (None, props_end L)
    end).
Proof.
  revert off no d L. induction f as [|f IH]; intros off no d L HL Hfin Hf; [lia|]. cbn [get_property_loop find_prop].
  pose proof HL as [Ht HL']. pose proof (tok_at_bounds _ _ Ht) as (H0 & Hm & He).
  pose proof (ts_bounds b Hb) as [Hts Hext]. pose proof (hdr_range b H_off_dt_struct).
  pose proof (tok_size_bounds (Tprop no d)) as [Hs _]. replace (off <? 0) with false by lia.
  rewrite (property_by_offset_eq _ _ _ _ HL). cbn [obind]. unfold tok_len, len in He. headers Hb.
  rewrite fdt32_word by lia. cbn [obind]. pose proof Ht as (_ & _ & _ & _ & Hno & _ & Hno31). rewrite Hno.
  pose proof (word_range b (os + off + 8)) as Hnr. rewrite Hno in Hnr.
  rewrite s32_small, string_eq_eq by lia. cbn [obind].
  destruct (bool_decide (prop_name b no = Some name)); [done|].
  unfold fdt_next_property_offset, fdt_check_prop_offset_. rewrite (property_after_eq FDT_PROP off (Tprop no d) L eq_refl HL Hfin). cbn [obind].
  destruct (first_prop _ L) as [[o R]|] eqn:Ef.
  - destruct (first_prop_at _ _ _ _ HL' Hfin Ef) as (no' & d' & L' & -> & HR & Hfin' & Hle & Hlen & Hpe & Hfp).
    rewrite Hfp, Hpe. apply IH; [done..|]. simpl in Hlen. lia.
  - rewrite (first_prop_none _ _ _ Ef). destruct f as [|f]; [lia|]. cbn [get_property_loop].
    by replace (props_end L <? 0) with true by (pose proof (props_end_neg L); lia).
Qed.

Lemma find_prop_at off name L o d :
  toks_at b off L -> find_prop off name L = Some (o, d) ->
  exists no, tok_at b o (Tprop no d) /\ off <= o /\ prop_name b no = Some name.
Proof.
  revert off. induction L as [|t L IH]; intros off HL; [done|]. destruct HL as [Ht HL].
  pose proof (tok_size_bounds t) as [Hs _]. destruct t as [n| |no dat| |]; simpl; try done.
  - destruct (bool_decide _) eqn:E; [intros [= <- <-]; apply bool_decide_eq_true in E; by exists no|].
    intros H. destruct (IH _ HL H) as (no' & ? & ? & ?). exists no'. split_and!; (done || lia).
  - intros H. destruct (IH _ HL H) as (no' & ? & ? & ?). exists no'. split_and!; (done || lia).
Qed.
Lemma prop_value_at o no d : tok_at b o (Tprop no d) ->
  bytes b (os + o + 12) (length d) = d /\ 0 <= os + o + 12 /\ os + o + 12 + len d <= ts.
Proof.
  intros H. pose proof (tok_at_bounds _ _ H) as (H0 & _ & He). destruct H as (_ & _ & _ & _ & _ & Hd' & _).
  pose proof (hdr_range b H_off_dt_struct). unfold tok_len in He. split_and!; (done || lia).
Qed.

(** [fdt_getprop] finds the first property of that name. *)
Lemma getprop_eq off n L name :
  toks_at b off (Tbegin n :: L) -> Tfin ∈ L ->
  fdt_getprop b off name = Ret (
    match find_prop (off + tok_size (Tbegin n)) name L with
    | Some (o, d) => (Some (os + o + 12), len d)
    | None => (None, props_end L)
    end).
Proof.
  intros HL Hfin. pose proof HL as [Ht HL']. pose proof (tok_at_bounds _ _ Ht) as (H0 & Hm & He).
  pose proof (ts_bounds b Hb) as [Hts Hext]. pose proof (hdr_range b H_off_dt_struct).
  unfold fdt_getprop, fdt_getprop_namelen, fdt_get_property_namelen_, fdt_first_property_offset, fdt_check_node_offset_.
  rewrite (property_after_eq FDT_BEGIN_NODE off (Tbegin n) L eq_refl HL Hfin). cbn [obind].
  destruct (first_prop _ L) as [[o R]|] eqn:Ef.
  - destruct (first_prop_at _ _ _ _ HL' Hfin Ef) as (no & d & L' & -> & HR & Hfin' & Hle & Hlen & Hpe & Hfp).
    pose proof (tok_size_bounds (Tbegin n)) as [Hs _].
    pose proof (toks_at_fuel o (Tprop no d :: L') ltac:(lia) HR) as Hfu.
    rewrite Hfp, Hpe, (get_property_loop_eq _ _ _ _ _ _ HR Hfin') by (simpl in *; lia). cbn [obind].
    destruct (find_prop o name (Tprop no d :: L')) as [[o' d']|] eqn:Eo; [|done].
    destruct (find_prop_at _ _ _ _ _ HR Eo) as (no' & Hp & Ho & _). destruct (prop_value_at _ _ _ Hp) as (_ & ? & Hv).
    unfold prop_data, len in *. headers Hb. rewrite fdt32_word by lia. cbn [obind].
    pose proof (fo_version _ Hh). by replace (hdr b H_version <? 16) with false by lia.
  - rewrite (first_prop_none _ _ _ Ef). destruct (FDT_FUEL b) as [|f] eqn:Efu; [done|]. cbn [get_property_loop].
    by replace (props_end L <? 0) with true by (pose proof (props_end_neg L); lia).
Qed.

(** ** Names *)

Lemma fdt_ro_probe_eq : fdt_ro_probe_ b = Ret ts.
Proof.
  pose proof (ts_bounds b Hb) as [Hts Hext]. pose proof Hh as [_ Hal Hm Hv Hc Hst].
  unfold fdt_ro_probe_. headers Hb. rewrite Hal, Hm. cbn [Z.eqb negb]. change (FDT_MAGIC =? FDT_MAGIC) with true.
  replace (_ || _) with false by (unfold FDT_FIRST_SUPPORTED_VERSION, FDT_LAST_SUPPORTED_VERSION; lia).
  by replace (hdr b H_totalsize <? INT_MAX) with true by (unfold INT_MAX; lia).
Qed.
Lemma FDT_RO_PROBE_eq k : FDT_RO_PROBE b k = k.
Proof.
  unfold FDT_RO_PROBE. rewrite fdt_ro_probe_eq. cbn [obind]. pose proof (ts_bounds b Hb).
  by replace (hdr b H_totalsize <? 0) with false by lia.
Qed.

Lemma get_name_eq off n : tok_at b off (Tbegin n) -> fdt_get_name b off = Ret (Some (os + off + 4), len n).
Proof.
  intros Ht. pose proof (tok_at_bounds _ _ Ht) as (H0 & _ & He). pose proof (tok_begin_str _ _ Ht) as [Hs Hlt].
  pose proof (ts_bounds b Hb) as [Hts Hext]. pose proof (fo_version _ Hh). pose proof (tok_size_bounds (Tbegin n)) as [Hsz _].
  unfold fdt_get_name, fdt_check_node_offset_. headers Hb. rewrite fdt_ro_probe_eq. cbn [obind].
  replace (hdr b H_totalsize <? 0) with false by lia. rewrite (check_tag_eq _ _ _ Ht).
  cbn [tok_tag Z.eqb FDT_BEGIN_NODE Pos.eqb obind]. replace (off + _ <? 0) with false by lia. headers Hb.
  replace (hdr b H_version <? 16) with false by lia. cbn [obind]. rewrite (strlen_eq _ _ _ Hs). cbn [obind].
  pose proof (hdr_range b H_off_dt_struct). destruct Hs as (_ & ? & _). rewrite s32_small by lia. done.
Qed.

(** A name given without its unit address matches, too. *)
Fixpoint name_match (s n : list Z) (at_ok : bool) : bool :=
  match s, n with
  | [], [] => true
  | [], c :: _ => at_ok && (c =? 64)
  | x :: s', c :: n' => (x =? c) && name_match s' n' at_ok
  | _ :: _, [] => false
  end.
Definition name_matches (s n : list Z) : bool := name_match s n (bool_decide (64 ∉ s)).

Lemma nodename_loop p n s at_ok :
  0 <= p -> p + len n < extent b -> bytes b p (length n + 1) = n ++ [0] ->
  forallb (fun c => negb (c =? 0)) n = true -> (length s <= length n)%nat ->
  (let! r := blob_memcmp b p s in
   if negb (r =? 0) then Ret false else
   let! c := fdt8 b (p + Z.of_nat (length s)) in Ret ((c =? 0) || (at_ok && (c =? 64)))) =
  Ret (name_match s n at_ok).
Proof.
  unfold len. revert p n. induction s as [|x s IH]; intros p n Hp He Hn Hz Hl.
  - cbn [blob_memcmp obind Z.eqb negb length Z.of_nat]. rewrite Z.add_0_r, fdt8_byte by lia. cbn [obind].
    destruct n as [|c n]; simpl in *.
    + injection Hn as ->. done.
    + injection Hn as -> _. apply andb_prop in Hz as [Hz _]. by destruct (c =? 0).
  - destruct n as [|c n]; [simpl in Hl; lia|]. simpl in Hn, Hz, Hl, He. injection Hn as Hc Hn.
    cbn [blob_memcmp length name_match]. rewrite fdt8_byte, Hc by lia. cbn [obind]. rewrite (Z.eqb_sym x c).
    destruct (c =? x) eqn:E; cbn [andb].
    + rewrite <- (IH (p + 1) n); [|lia|lia|done|by apply andb_prop in Hz as [_ ?]|lia].
      replace (p + Z.of_nat (S (length s))) with (p + 1 + Z.of_nat (length s)) by lia. done.
    + cbn [obind]. by replace (c - x =? 0) with false by lia.
Qed.
Lemma name_match_short s n ok : (length n < length s)%nat -> name_match s n ok = false.
Proof.
  revert n. induction s as [|x s IH]; intros [|c n] Hl; simpl in *; try (done || lia).
  rewrite IH by lia. apply andb_false_r.
Qed.
Lemma nodename_eq_eq off n s : tok_at b off (Tbegin n) -> fdt_nodename_eq_ b off s = Ret (name_matches s n).
Proof.
  intros Ht. pose proof (tok_at_bounds _ _ Ht) as (H0 & _ & He). pose proof (tok_begin_str _ _ Ht) as [Hs Hlt].
  pose proof (hdr_range b H_off_dt_struct). pose proof (ts_bounds b Hb) as [Hts Hext].
  unfold fdt_nodename_eq_. rewrite (get_name_eq _ _ Ht). cbn [obind]. unfold name_matches, len in *.
  destruct (_ <? _) eqn:E; [by rewrite name_match_short by lia|].
  destruct Ht as (_ & _ & _ & Hn & Hz). apply nodename_loop; unfold len; try done; lia.
Qed.

(** ** Children *)

(** The first child whose name satisfies [p], over the tokens behind a node. *)
Fixpoint sub (p : list Z -> bool) (off d : Z) (L : list token) : Z :=
  match L with
  | Tbegin n :: L' =>
    if (d + 1 =? 1) && p n then off else sub p (off + tok_size (Tbegin n)) (d + 1) L'
  | Tend :: L' => if d - 1 <? 0 then - FDT_ERR_NOTFOUND else sub p (off + 4) (d - 1) L'
  | (Tprop _ _ as t) :: L' | (Tnop as t) :: L' => sub p (off + tok_size t) d L'
  | _ => - FDT_ERR_NOTFOUND
  end.

Lemma sub_scan p off d L :
  0 <= d ->
  match scan off (Some d) L with
  | (o, d', Tbegin n :: L') => 0 <= depth_of d' /\ d' = Some (depth_of d') /\ sub p off d L =
      (if (depth_of d' =? 1) && p n then o else sub p (o + tok_size (Tbegin n)) (depth_of d') L')
  | (o, d', _) => sub p off d L = - FDT_ERR_NOTFOUND /\ ((0 <= o -> depth_of d' < 0) /\ (0 <= depth_of d' -> o = - FDT_ERR_NOTFOUND))
  end.
Proof.
  revert off d. induction L as [|t L IH]; intros off d H0; simpl; [done|].
  destruct t as [n| |no dat| |]; simpl.
  - split; [lia|]. done.
  - destruct (d - 1 <? 0) eqn:E; [simpl; split; [done|lia]|]. apply IH. lia.
  - apply (IH _ d H0).
  - apply (IH _ d H0).
  - done.
Qed.

Lemma subnode_loop_eq f off d n L name :
  toks_at b off (Tbegin n :: L) -> Tfin ∈ L -> 0 <= d -> (S (length L) < f)%nat ->
  subnode_loop f b off d name =
  Ret (if (d =? 1) && name_matches name n then off else sub (name_matches name) (off + tok_size (Tbegin n)) d L).
Proof.
  revert off d n L. induction f as [|f IH]; intros off d n L HL Hfin H0 Hf; [lia|].
  pose proof HL as [Ht HL']. pose proof (tok_at_bounds _ _ Ht) as (Ho & _).
  cbn [subnode_loop]. replace ((0 <=? off) && (0 <=? d)) with true by lia.
  rewrite (nodename_eq_eq _ _ _ Ht).
  destruct (d =? 1) eqn:Ed; cbn [obind andb].
  1: destruct (name_matches name n); [done|].
  all: rewrite (next_node_eq _ _ _ _ HL Hfin); pose proof (sub_scan (name_matches name) (off + tok_size (Tbegin n)) d L H0) as Hsc;
    destruct (scan _ _ L) as [[o d'] R] eqn:Esc; cbn [fst obind];
    (destruct R as [|t R]; [|destruct (scan_found _ _ _ _ _ _ HL' Hfin Esc ltac:(done)) as (n' & L' & [= -> ->] & HR & Hfin' & Hle & Hlen)]).
  all: try (destruct Hsc as (Hd0 & Hd1 & ->); apply IH; [done|done|done|simpl in Hlen; lia]).
  all: destruct Hsc as (-> & Hsc1 & Hsc2); destruct f as [|f]; [lia|]; cbn [subnode_loop];
    replace ((0 <=? o) && (0 <=? depth_of d')) with false by lia;
    (destruct (depth_of d' <? 0) eqn:?; [done|]); f_equal; apply Hsc2; lia.
Qed.

(** ** The tree *)

(** The value of a property of a node with contents [l]: the first of that name
    before the first child. *)
Fixpoint lookup_prop (name : list Z) (l : list item) : option (list Z) :=
  match l with
  | Prop_ no d :: l' => if bool_decide (prop_name b no = Some name) then Some d else lookup_prop name l'
  | Nop :: l' => lookup_prop name l'
  | _ => None
  end.

(** All nodes in preorder: offset, name, contents. *)
Definition node : Type := Z * (list Z * list item).
Fixpoint nodes_of (off : Z) (i : item) : list node :=
  match i with
  | Node n l =>
    (off, (n, l)) ::
    (fix go (o : Z) (l : list item) := match l with [] => [] | i :: l => nodes_of o i ++ go (o + item_size i) l end)
      (off + tok_size (Tbegin n)) l
  | _ => []
  end.
Fixpoint nodes (off : Z) (l : list item) : list node :=
  match l with [] => [] | i :: l => nodes_of off i ++ nodes (off + item_size i) l end.
Lemma nodes_of_node off n l : nodes_of off (Node n l) = (off, (n, l)) :: nodes (off + tok_size (Tbegin n)) l.
Proof. reflexivity. Qed.

Lemma item_size_node n l : item_size (Node n l) = tok_size (Tbegin n) + items_size l + 4.
Proof.
  unfold item_size, items_size. cbn [toks toks_size foldr]. fold (toks_size (flat_map toks l ++ [Tend])).
  rewrite toks_size_app. unfold toks_of. change (toks_size [Tend]) with 4. lia.
Qed.
Lemma items_size_cons i l : items_size (i :: l) = item_size i + items_size l.
Proof. unfold items_size, toks_of. cbn [flat_map]. by rewrite toks_size_app. Qed.
Lemma toks_of_cons i l : toks_of (i :: l) = toks i ++ toks_of l.
Proof. done. Qed.

Lemma lookup_find name l off R :
  option_map snd (find_prop off name (toks_of l ++ Tend :: R)) = lookup_prop name l /\
  (find_prop off name (toks_of l ++ Tend :: R) = None -> props_end (toks_of l ++ Tend :: R) = - FDT_ERR_NOTFOUND).
Proof.
  revert off. induction l as [|i l IH]; intros off; [done|]. rewrite toks_of_cons, <- app_assoc.
  destruct i as [no d| |n l']; cbn [toks app lookup_prop find_prop props_end].
  - destruct (bool_decide _); [done|]. apply IH.
  - apply IH.
  - done.
Qed.

Lemma begins_toks : forall l off R,
  map fst (begins off (toks_of l ++ R)) = map fst (nodes off l) ++ map fst (begins (off + items_size l) R).
Proof.
  apply (items_ind (fun i => forall off R,
    map fst (begins off (toks i ++ R)) = map fst (nodes_of off i) ++ map fst (begins (off + item_size i) R))
    (fun l => forall off R,
    map fst (begins off (toks_of l ++ R)) = map fst (nodes off l) ++ map fst (begins (off + items_size l) R))).
  - intros no d off R. cbn [toks app begins nodes_of map]. do 2 f_equal. unfold item_size, toks_size. cbn [toks foldr]. lia.
  - intros off R. cbn [toks app begins nodes_of map]. done.
  - intros n l IH off R. cbn [toks app begins]. rewrite nodes_of_node. cbn [map app fst]. f_equal.
    rewrite <- app_assoc. fold (toks_of l). rewrite IH. f_equal. cbn [app begins]. do 2 f_equal.
    rewrite item_size_node, tok_size_end. lia.
  - intros off R. cbn [toks_of flat_map app nodes map]. do 3 f_equal. unfold items_size, toks_size, toks_of. cbn [flat_map foldr]. lia.
  - intros i l IHi IHl off R. rewrite toks_of_cons, <- app_assoc, IHi, IHl. cbn [nodes]. rewrite map_app, <- app_assoc.
    do 4 f_equal. rewrite items_size_cons. lia.
Qed.

(** The tokens of a node of the tree. *)
Lemma node_toks : forall l off R, toks_at b off (toks_of l ++ R) -> forall o n l',
  (o, (n, l')) ∈ nodes off l ->
  off <= o /\ exists R', toks_at b o (toks (Node n l') ++ R') /\ (Tfin ∈ R -> Tfin ∈ R').
Proof.
  apply (items_ind (fun i => forall off R, toks_at b off (toks i ++ R) -> forall o n l',
    (o, (n, l')) ∈ nodes_of off i ->
    off <= o /\ exists R', toks_at b o (toks (Node n l') ++ R') /\ (Tfin ∈ R -> Tfin ∈ R'))
    (fun l => forall off R, toks_at b off (toks_of l ++ R) -> forall o n l',
    (o, (n, l')) ∈ nodes off l ->
    off <= o /\ exists R', toks_at b o (toks (Node n l') ++ R') /\ (Tfin ∈ R -> Tfin ∈ R'))).
  - intros no d off R _ o n l' H. by apply elem_of_nil in H.
  - intros off R _ o n l' H. by apply elem_of_nil in H.
  - intros n l IH off R HT o n' l' H. rewrite nodes_of_node in H. apply elem_of_cons in H as [[= -> -> ->]|H].
    + split; [lia|]. by exists R.
    + cbn [toks app] in HT. destruct HT as [Ht HT]. rewrite <- app_assoc in HT. pose proof (tok_size_bounds (Tbegin n)) as [Hs _].
      destruct (IH _ _ HT o n' l' H) as (Hle & R' & HR & Hfin). split; [lia|]. exists R'. split; [done|].
      intros HF. apply Hfin. apply elem_of_app. by right.
  - intros off R _ o n l' H. by apply elem_of_nil in H.
  - intros i l IHi IHl off R HT o n l' H. rewrite toks_of_cons, <- app_assoc in HT. cbn [nodes] in H.
    apply elem_of_app in H as [H|H].
    + destruct (IHi _ _ HT o n l' H) as (Hle & R' & HR & Hfin). split; [done|]. exists R'. split; [done|].
      intros HF. apply Hfin. apply elem_of_app. by right.
    + apply toks_at_app in HT as [_ HT]. destruct (IHl _ _ HT o n l' H) as (Hle & R' & HR & Hfin).
      pose proof (toks_size_nonneg (toks i)). unfold item_size in Hle. split; [lia|]. by exists R'.
Qed.

Section of_tree.
Context (items0 : list item) (Hd : dtb b items0).

(** A node of the blob's tree, as the code sees it. *)
Lemma dtb_node o n l :
  (o, (n, l)) ∈ nodes 0 items0 ->
  0 <= o /\ exists R, toks_at b o (Tbegin n :: toks_of l ++ Tend :: R) /\ Tfin ∈ R.
Proof.
  intros H. destruct (node_toks _ _ _ (db_toks _ _ Hd) o n l H) as (H0 & R & HR & Hfin). split; [done|].
  exists R. cbn [toks app] in HR. rewrite <- app_assoc in HR. split; [done|]. apply Hfin, list_elem_of_here.
Qed.

(** [fdt_getprop] on a node of the tree. *)
Lemma getprop_node o n l name :
  (o, (n, l)) ∈ nodes 0 items0 ->
  match lookup_prop name l with
  | Some d => exists p, fdt_getprop b o name = Ret (Some p, len d) /\ bytes b p (length d) = d /\
                        0 <= p /\ p + len d <= ts
  | None => fdt_getprop b o name = Ret (None, - FDT_ERR_NOTFOUND)
  end.
Proof.
  intros H. destruct (dtb_node _ _ _ H) as (H0 & R & HR & Hfin).
  rewrite (getprop_eq o n _ name HR) by (apply elem_of_app; right; by apply list_elem_of_further).
  destruct (lookup_find name l (o + tok_size (Tbegin n)) R) as [<- Hnone].
  destruct (find_prop _ _ _) as [[p d]|] eqn:E; simpl.
  - destruct HR as [Ht HR]. destruct (find_prop_at _ _ _ _ _ HR E) as (no & Hp & _).
    destruct (prop_value_at _ _ _ Hp) as (? & ? & ?). by eexists.
  - by rewrite Hnone.
Qed.

(** The nodes from the start of the tree. *)
Lemma visits_start : visits (-1) (nodes 0 items0) /\ (length (nodes 0 items0) < fuel)%nat.
Proof.
  pose proof (db_toks _ _ Hd) as HT.
  assert (Hfin : Tfin ∈ toks_of items0 ++ [Tfin]) by (apply elem_of_app; right; apply list_elem_of_here).
  assert (HE : map fst (begins 0 (toks_of items0 ++ [Tfin])) = map fst (nodes 0 items0)) by (rewrite begins_toks; simpl; apply app_nil_r).
  split.
  - apply (visits_begins _ (-1) 0 (toks_of items0 ++ [Tfin]) _ (le_n _)); try done.
    unfold fdt_next_node0. rewrite (next_node_start (-1) None _ ltac:(done) HT Hfin).
    by destruct (scan 0 None (toks_of items0 ++ [Tfin])) as [[? ?] ?].
  - apply (f_equal length) in HE. rewrite !length_map in HE. pose proof (begins_length 0 (toks_of items0 ++ [Tfin])).
    pose proof (toks_at_fuel 0 _ ltac:(lia) HT). unfold node in *. lia.
Qed.
Lemma search_start test t :
  (forall o a, (o, a) ∈ nodes 0 items0 -> test o = Ret (t o a)) ->
  search_loop fuel b (-1) test = Ret (first_hit t (nodes 0 items0)).
Proof. destruct visits_start. by apply search_loop_eq. Qed.

End of_tree.

Lemma begins_split off L B1 o R B2 :
  toks_at b off L -> Tfin ∈ L -> 0 <= off -> begins off L = B1 ++ (o, R) :: B2 ->
  exists n L', R = Tbegin n :: L' /\ B2 = begins (o + tok_size (Tbegin n)) L' /\ toks_at b o R /\ Tfin ∈ L' /\ 0 <= o.
Proof.
  revert off B1. induction L as [|t L IH]; intros off B1 HL Hfin H0 E; [by destruct B1|].
  assert (t <> Tfin -> Tfin ∈ L) as Hfin' by (intros Ht'; apply elem_of_cons in Hfin as [Hfin|Hfin]; congruence).
  pose proof (tok_size_bounds t) as [Hs _].
  assert (HR : t <> Tfin -> forall B, begins (off + tok_size t) L = B ++ (o, R) :: B2 ->
    exists n L', R = Tbegin n :: L' /\ B2 = begins (o + tok_size (Tbegin n)) L' /\ toks_at b o R /\ Tfin ∈ L' /\ 0 <= o).
  { intros Hne B EB. eapply IH; [by destruct HL|by apply Hfin'|lia|done]. }
  destruct t as [n| |no d| |]; cbn [begins app] in E; try (by eapply HR); [|by destruct B1].
  destruct B1 as [|x B1]; cbn [app] in E.
  - injection E as <- <- <-. exists n, L. split; [done|]. split; [done|]. split; [done|]. split; [by apply Hfin'|done].
  - injection E as _ E. by eapply HR.
Qed.

(** The nodes behind a node. *)
Lemma visits_node items0 (Hd : dtb b items0) N1 o n l N2 :
  nodes 0 items0 = N1 ++ (o, (n, l)) :: N2 -> visits o N2 /\ (length N2 < fuel)%nat.
Proof.
  intros EN. pose proof (db_toks _ _ Hd) as HT.
  assert (Hfin : Tfin ∈ toks_of items0 ++ [Tfin]) by (apply elem_of_app; right; apply list_elem_of_here).
  pose proof (begins_toks items0 0 [Tfin]) as EB. simpl in EB. rewrite app_nil_r, EN, map_app in EB. cbn [map fst] in EB.
  apply map_eq_app in EB as (B1 & B2' & EB & E1 & E2). destruct B2' as [|[o' R] B2]; [done|].
  injection E2 as -> E2. destruct (begins_split _ _ _ _ _ _ HT Hfin ltac:(lia) EB) as (n' & L' & -> & -> & HR & Hfin' & H0).
  pose proof HR as [_ HL']. pose proof (tok_size_bounds (Tbegin n')). split.
  - apply (visits_begins _ o (o + tok_size (Tbegin n')) L' _ (le_n _)); try done; [|lia].
    unfold fdt_next_node0. rewrite (next_node_eq _ _ _ _ HR Hfin').
    by destruct (scan (o + tok_size (Tbegin n')) None L') as [[? ?] ?].
  - destruct (visits_start items0 Hd) as [_ Hl]. rewrite EN, length_app in Hl. simpl in Hl. unfold node in *. lia.
Qed.

(** ** Strings separated by a character *)

Fixpoint split (sep : Z) (l : list Z) : list (list Z) :=
  match l with
  | [] => [[]]
  | c :: l' => if c =? sep then [] :: split sep l'
               else match split sep l' with s :: ss => (c :: s) :: ss | [] => [[c]] end
  end.

(** The strings of a property such as "compatible", each followed by a zero. *)
Definition strlist (ss : list (list Z)) : list Z := concat (map (fun s => s ++ [0]) ss).
Definition no_zero (s : list Z) : bool := forallb (fun c => negb (c =? 0)) s.

Lemma no_zero_not_in s : no_zero s = true -> 0 ∉ s.
Proof.
  unfold no_zero. rewrite forallb_forall. intros H H0. apply list_elem_of_In, H in H0. done.
Qed.

(** A string compared with its zero against a list that starts with a string. *)
Lemma same_string c s t : 0 ∉ c -> 0 ∉ s ->
  (c ++ [0] = take (length c + 1) (s ++ 0 :: t)) <-> c = s.
Proof.
  revert s. induction c as [|x c IH]; intros [|y s] Hc Hs; simpl.
  - split; [done|by destruct t].
  - split; [|done]. intros [= <-]. by destruct Hs; apply list_elem_of_here.
  - split; [|done]. intros [= -> _]. by destruct Hc; apply list_elem_of_here.
  - apply not_elem_of_cons in Hc as [_ Hc]. apply not_elem_of_cons in Hs as [_ Hs].
    specialize (IH s Hc Hs). split; [intros [= -> H]; f_equal; by apply IH|intros [= -> ->]; f_equal; by apply IH].
Qed.

Lemma bytes_take p n k : (k <= n)%nat -> take k (bytes b p n) = bytes b p k.
Proof.
  revert p n. induction k as [|k IH]; intros p [|n] Hk; try done; [lia|]. simpl. rewrite IH by lia. done.
Qed.

(** [fdt_stringlist_contains] decides membership. *)
Lemma stringlist_contains_eq f p ss c :
  0 <= p -> p + len (strlist ss) <= ts -> bytes b p (length (strlist ss)) = strlist ss ->
  Forall (fun s => no_zero s = true) ss -> no_zero c = true -> c <> [] -> (length (strlist ss) < f)%nat ->
  stringlist_contains_loop f b p (len (strlist ss)) c = Ret (if bool_decide (c ∈ ss) then 1 else 0).
Proof.
  pose proof (ts_bounds b Hb) as [Hts Hext]. intros Hp He HB Hss Hc Hne. pose proof (no_zero_not_in _ Hc) as Hc0.
  assert (0 < len c) by (destruct c; unfold len; [done|simpl; lia]).
  revert p f Hp He HB. induction Hss as [|s ss Hs Hss IH]; intros p f Hp He HB Hf; (destruct f as [|f]; [lia|]).
  - cbn [stringlist_contains_loop]. change (len (strlist [])) with 0. unfold len in *.
    by replace (0 <? Z.of_nat (length c)) with true by lia.
  - assert (E : strlist (s :: ss) = s ++ 0 :: strlist ss) by (unfold strlist; cbn; by rewrite <- app_assoc).
    rewrite E in *. set (t := strlist ss) in *. pose proof (no_zero_not_in _ Hs) as Hs0.
    assert (El : len (s ++ 0 :: t) = len s + 1 + len t) by (unfold len; rewrite length_app; simpl; lia).
    cbn [stringlist_contains_loop]. rewrite El in *. destruct (_ <? _) eqn:E1.
    + rewrite bool_decide_eq_false_2; [done|]. intros Hin.
      assert (len c <= len s + 1 + len t); [|unfold len in *; lia].
      apply elem_of_cons in Hin as [->|Hin]; [unfold len; lia|].
      assert (length c <= length t)%nat; [|unfold len; lia].
      clear -Hin. unfold t, strlist. induction ss as [|x ss IHx]; [by apply elem_of_nil in Hin|]. cbn.
      rewrite !length_app. apply elem_of_cons in Hin as [->|Hin]; [lia|]. apply IHx in Hin. lia.
    + destruct (gives_eq _ _ (memcmp_gives b p (c ++ [0]) Hp ltac:(rewrite length_app; unfold len in *; simpl; lia))) as (r & -> & Hr).
      cbn [obind].
      assert (Hrc : r = 0 <-> c = s).
      { rewrite Hr, length_app. cbn [length]. destruct (decide (length c + 1 <= length (s ++ 0%Z :: t))%nat) as [Hl|Hl].
        - by rewrite <- (same_string c s t), <- HB, bytes_take by done.
        - assert (length c = length (s ++ 0 :: t)) as El' by (unfold len in *; lia). rewrite bytes_app, El', HB.
          split; [|intros ->; rewrite length_app in El'; simpl in El'; lia].
          intros EE. apply app_inj_1 in EE as [-> _]; [|done]. destruct Hc0. apply elem_of_app. right. apply list_elem_of_here. }
      destruct (r =? 0) eqn:Er.
      * rewrite bool_decide_eq_true_2; [done|]. assert (c = s) as -> by (apply Hrc; lia). apply list_elem_of_here.
      * assert (c <> s) by (intros Hcs; apply Hrc in Hcs; lia).
        destruct (memchr_cstr p (Z.to_nat (len s + 1 + len t))) as [-> _]; [lia|unfold len in *; lia|].
        assert (cstr (bytes b p (Z.to_nat (len s + 1 + len t))) = Some s) as ->.
        { replace (Z.to_nat (len s + 1 + len t)) with (length (s ++ 0 :: t)) by (unfold len in *; lia). rewrite HB.
          clear -Hs. induction s as [|x s IHs]; [done|]. simpl in *. apply andb_prop in Hs as [Hx Hs].
          rewrite IHs by done. by destruct (x =? 0). }
        cbn [obind option_map]. replace (len s + 1 + len t - (p + len s - p + 1)) with (len t) by lia.
        replace (p + len s + 1) with (p + Z.of_nat (length (s ++ [0]))) by (rewrite length_app; unfold len; simpl; lia).
        rewrite IH.
        -- f_equal. destruct (bool_decide (c ∈ ss)) eqn:Eb.
           ++ apply bool_decide_eq_true in Eb. rewrite bool_decide_eq_true_2; [done|]. by apply list_elem_of_further.
           ++ apply bool_decide_eq_false in Eb. rewrite bool_decide_eq_false_2; [done|].
              by apply not_elem_of_cons.
        -- lia.
        -- rewrite length_app. unfold len in *. simpl. lia.
        -- replace (s ++ 0 :: t) with ((s ++ [0]) ++ t) in HB by (by rewrite <- app_assoc).
           rewrite length_app, bytes_app in HB. apply app_inj_1 in HB; [by destruct HB|]. by rewrite bytes_length.
        -- rewrite length_app in Hf. simpl in Hf. lia.
Qed.

(** ** Children and paths *)

Fixpoint kids (off : Z) (l : list item) : list node :=
  match l with
  | [] => []
  | i :: l' => match i with Node n k => [(off, (n, k))] | _ => [] end ++ kids (off + item_size i) l'
  end.
(** The node and its contents. *)
Fixpoint find_kid_with (p : list Z -> bool) (ks : list node) : option (Z * list Z * list item) :=
  match ks with
  | [] => None
  | (o, (n, l)) :: ks' => if p n then Some (o, n, l) else find_kid_with p ks'
  end.
Definition find_kid (name : list Z) := find_kid_with (name_matches name).

(** A subtree below the children is passed over. *)
Lemma sub_deep p : forall l off d R, 1 <= d ->
  sub p off d (toks_of l ++ R) = sub p (off + items_size l) d R.
Proof.
  apply (items_ind (fun i => forall off d R, 1 <= d ->
      sub p off d (toks i ++ R) = sub p (off + item_size i) d R)
    (fun l => forall off d R, 1 <= d -> sub p off d (toks_of l ++ R) = sub p (off + items_size l) d R)).
  - intros no d off x R _. cbn [toks app sub]. f_equal. unfold item_size, toks_size. cbn [toks foldr]. lia.
  - intros off x R _. done.
  - intros n l IH off x R Hx. cbn [toks app sub]. replace (x + 1 =? 1) with false by lia. cbn [andb].
    rewrite <- app_assoc. fold (toks_of l). rewrite IH by lia. cbn [app sub].
    replace (x + 1 - 1 <? 0) with false by lia. f_equal; [rewrite item_size_node|]; lia.
  - intros off x R _. unfold items_size, toks_size. cbn [toks_of flat_map app foldr]. by rewrite Z.add_0_r.
  - intros i l IHi IHl off x R Hx. rewrite toks_of_cons, <- app_assoc, IHi, IHl by done. f_equal.
    rewrite items_size_cons. lia.
Qed.
Lemma sub_kids p l off R :
  sub p off 0 (toks_of l ++ Tend :: R) =
  match find_kid_with p (kids off l) with Some (o, _, _) => o | None => - FDT_ERR_NOTFOUND end.
Proof.
  revert off. induction l as [|i l IH]; intros off; [done|]. rewrite toks_of_cons, <- app_assoc.
  destruct i as [no d| |n k]; cbn [toks app kids find_kid_with sub].
  - rewrite IH. assert (item_size (Prop_ no d) = tok_size (Tprop no d)) as ->; [|done].
    unfold item_size, toks_size. cbn [toks foldr]. lia.
  - apply IH.
  - cbn [Z.add Z.eqb Pos.eqb andb]. destruct (p n); [done|].
    rewrite <- app_assoc. fold (toks_of k). rewrite sub_deep by done. cbn [app sub Z.sub Z.add Z.opp Z.pos_sub Z.ltb Z.compare].
    rewrite IH, item_size_node, !Z.add_assoc. done.
Qed.
Lemma find_kid_in name ks o n l : find_kid name ks = Some (o, n, l) -> (o, (n, l)) ∈ ks.
Proof.
  unfold find_kid. induction ks as [|[o' [n' l']] ks IH]; simpl; [done|]. destruct (name_matches name n').
  - intros [= -> -> ->]. apply list_elem_of_here.
  - intros H. apply list_elem_of_further. by apply IH.
Qed.
Lemma kids_nodes off l x : x ∈ kids off l -> x ∈ nodes off l.
Proof.
  revert off. induction l as [|i l IH]; intros off; simpl; [done|]. rewrite !elem_of_app. intros [H|H]; [left|right; auto].
  destruct i as [no d| |n k]; [by apply elem_of_nil in H..|]. apply list_elem_of_singleton in H as ->.
  rewrite nodes_of_node. apply list_elem_of_here.
Qed.
(** The nodes below a node are nodes of the tree. *)
Lemma nodes_below : forall l off o n k, (o, (n, k)) ∈ nodes off l ->
  forall x, x ∈ nodes (o + tok_size (Tbegin n)) k -> x ∈ nodes off l.
Proof.
  apply (items_ind (fun i => forall off o n k, (o, (n, k)) ∈ nodes_of off i ->
      forall x, x ∈ nodes (o + tok_size (Tbegin n)) k -> x ∈ nodes_of off i)
    (fun l => forall off o n k, (o, (n, k)) ∈ nodes off l ->
      forall x, x ∈ nodes (o + tok_size (Tbegin n)) k -> x ∈ nodes off l)).
  - intros no d off o n k H. by apply elem_of_nil in H.
  - intros off o n k H. by apply elem_of_nil in H.
  - intros n l IH off o n' k H x Hx. rewrite nodes_of_node in *. apply list_elem_of_further.
    apply elem_of_cons in H as [[= -> -> ->]|H]; [done|]. by eapply IH.
  - intros off o n k H. by apply elem_of_nil in H.
  - intros i l IHi IHl off o n k H x Hx. cbn [nodes] in *. apply elem_of_app in H as [H|H]; apply elem_of_app.
    + left. by eapply IHi.
    + right. by eapply IHl.
Qed.

Section of_tree.
Context (items0 : list item) (Hd : dtb b items0).

Lemma subnode_node o n l name :
  (o, (n, l)) ∈ nodes 0 items0 ->
  fdt_subnode_offset b o name = Ret (
    match find_kid name (kids (o + tok_size (Tbegin n)) l) with Some (o', _, _) => o' | None => - FDT_ERR_NOTFOUND end).
Proof.
  intros H. destruct (dtb_node items0 Hd _ _ _ H) as (H0 & R & HR & Hfin).
  assert (Hfin' : Tfin ∈ toks_of l ++ Tend :: R) by (apply elem_of_app; right; by apply list_elem_of_further).
  unfold fdt_subnode_offset, fdt_subnode_offset_namelen. rewrite FDT_RO_PROBE_eq.
  rewrite (subnode_loop_eq _ _ _ _ _ _ HR Hfin') by (lia || apply (toks_at_fuel o (Tbegin n :: toks_of l ++ Tend :: R)); done).
  cbn [Z.eqb andb]. by rewrite sub_kids.
Qed.

(** The children, one after the other. *)
Definition head_or_notfound (ks : list node) : Z := match ks with (c, _) :: _ => c | [] => - FDT_ERR_NOTFOUND end.
Lemma find_any ks : match find_kid_with (fun _ => true) ks with Some (o, _, _) => o | None => - FDT_ERR_NOTFOUND end = head_or_notfound ks.
Proof. by destruct ks as [|[o [n l]] ks]. Qed.

Lemma scan_depth off d L :
  0 <= d -> match scan off (Some d) L with (_, d', _ :: _) => 1 <= depth_of d' <= d + 1 | _ => True end.
Proof.
  revert off d. induction L as [|t L IH]; intros off d H0; [done|]. destruct t as [n| |no dat| |]; cbn [scan]; try apply (IH _ d H0).
  - simpl. lia.
  - destruct (d - 1 <? 0) eqn:E; [done|]. specialize (IH (off + 4) (d - 1) ltac:(lia)).
    destruct (scan _ _ L) as [[? ?] [|? ?]]; [done|lia].
  - done.
Qed.

Lemma first_subnode_node o n l :
  (o, (n, l)) ∈ nodes 0 items0 ->
  fdt_first_subnode b o = Ret (head_or_notfound (kids (o + tok_size (Tbegin n)) l)).
Proof.
  intros H. destruct (dtb_node items0 Hd _ _ _ H) as (H0 & R & HR & Hfin). pose proof HR as [_ HL].
  assert (Hfin' : Tfin ∈ toks_of l ++ Tend :: R) by (apply elem_of_app; right; by apply list_elem_of_further).
  unfold fdt_first_subnode. rewrite (next_node_eq _ _ _ _ HR Hfin').
  rewrite <- find_any, <- (sub_kids (fun _ => true) l _ R).
  set (off := o + tok_size (Tbegin n)) in *. pose proof (sub_scan (fun _ => true) off 0 (toks_of l ++ Tend :: R) ltac:(lia)) as Hsc.
  pose proof (scan_depth off 0 (toks_of l ++ Tend :: R) ltac:(lia)) as Hdp.
  destruct (scan off (Some 0) _) as [[o' d'] [|t R']] eqn:E; cbn [fst obind].
  - destruct Hsc as (-> & Hs1 & Hs2). destruct (o' <? 0) eqn:E0; [done|]. cbn [orb].
    by replace (depth_of d' =? 1) with false by lia.
  - destruct (scan_found _ _ _ _ _ _ HL Hfin' E ltac:(done)) as (n' & L' & [= -> ->] & HR' & _ & Hle & _).
    destruct Hsc as (_ & _ & ->). pose proof (tok_size_bounds (Tbegin n)). replace (depth_of d' =? 1) with true by lia. cbn [andb negb].
    by replace (o' <? 0) with false by lia.
Qed.

Lemma next_subnode_loop_eq f off d n L :
  toks_at b off (Tbegin n :: L) -> Tfin ∈ L -> 1 <= d -> (length L < f)%nat ->
  next_subnode_loop f b off d = Ret (sub (fun _ => true) (off + tok_size (Tbegin n)) d L).
Proof.
  revert off d n L. induction f as [|f IH]; intros off d n L HL Hfin H0 Hf; [lia|].
  pose proof HL as [Ht HL']. pose proof (tok_at_bounds _ _ Ht) as (Ho & _). cbn [next_subnode_loop].
  rewrite (next_node_eq _ _ _ _ HL Hfin). set (off' := off + tok_size (Tbegin n)) in *.
  pose proof (sub_scan (fun _ => true) off' d L ltac:(lia)) as Hsc. pose proof (scan_depth off' d L ltac:(lia)) as Hdp.
  destruct (scan off' (Some d) L) as [[o d'] [|t R]] eqn:E; cbn [fst obind].
  - destruct Hsc as (-> & Hs1 & _). by replace ((o <? 0) || (depth_of d' <? 1)) with true by lia.
  - destruct (scan_found _ _ _ _ _ _ HL' Hfin E ltac:(done)) as (n' & L' & [= -> ->] & HR & Hfin' & Hle & Hlen).
    destruct Hsc as (_ & _ & ->). pose proof (tok_size_bounds (Tbegin n)).
    replace ((o <? 0) || (depth_of d' <? 1)) with false by lia. rewrite andb_true_r. simpl in Hlen.
    destruct (1 <? depth_of d') eqn:E1.
    + replace (depth_of d' =? 1) with false by lia. apply IH; [done|done|lia|lia].
    + by replace (depth_of d' =? 1) with true by lia.
Qed.

Lemma kids_split l off R K1 c cn k K2 :
  0 <= off -> toks_at b off (toks_of l ++ R) -> kids off l = K1 ++ (c, (cn, k)) :: K2 ->
  exists l2, 0 <= c /\ toks_at b c (toks (Node cn k) ++ toks_of l2 ++ R) /\ K2 = kids (c + item_size (Node cn k)) l2.
Proof.
  revert off K1. induction l as [|i l IH]; intros off K1 H0 HT HK; [by destruct K1|].
  rewrite toks_of_cons, <- app_assoc in HT. cbn [kids] in HK.
  assert (Hrec : forall K, kids (off + item_size i) l = K ++ (c, (cn, k)) :: K2 ->
    exists l2, 0 <= c /\ toks_at b c (toks (Node cn k) ++ toks_of l2 ++ R) /\ K2 = kids (c + item_size (Node cn k)) l2).
  { intros K EK. pose proof (toks_size_nonneg (toks i)). apply (IH (off + item_size i) K); [unfold item_size; lia| |done].
    by apply toks_at_app in HT as [_ HT]. }
  destruct i as [no d| |n k0]; cbn [app] in HK; [by eapply Hrec..|].
  destruct K1 as [|x K1]; cbn [app] in HK; injection HK.
  - intros <- <- <- <-. exists l. done.
  - intros HK' _. by eapply Hrec.
Qed.
Lemma next_subnode_node o n l K1 c x K2 :
  (o, (n, l)) ∈ nodes 0 items0 -> kids (o + tok_size (Tbegin n)) l = K1 ++ (c, x) :: K2 ->
  fdt_next_subnode b c = Ret (head_or_notfound K2).
Proof.
  intros H HK. destruct x as [cn k]. destruct (dtb_node items0 Hd _ _ _ H) as (H0 & R & [_ HL] & Hfin).
  pose proof (tok_size_bounds (Tbegin n)).
  destruct (kids_split l (o + tok_size (Tbegin n)) (Tend :: R) K1 c cn k K2 ltac:(lia) HL HK) as (l2 & Hc & HT & ->).
  cbn [toks app] in HT. rewrite <- app_assoc in HT. fold (toks_of k) in HT. cbn [app] in HT.
  assert (Hfin' : Tfin ∈ toks_of k ++ Tend :: toks_of l2 ++ Tend :: R).
  { apply elem_of_app. right. apply list_elem_of_further. apply elem_of_app. right. by apply list_elem_of_further. }
  unfold fdt_next_subnode. rewrite (next_subnode_loop_eq _ _ _ _ _ HT Hfin') by
    (lia || (pose proof (toks_at_fuel c _ Hc HT) as Hl; simpl in Hl; lia)).
  rewrite sub_deep by lia. cbn [sub Z.sub Z.add Z.opp Z.pos_sub Z.ltb Z.compare].
  rewrite sub_kids, find_any, item_size_node. do 3 f_equal. lia.
Qed.

(** The components of a path, and the node they lead to. *)
Definition components (p : list Z) : list (list Z) := List.filter (fun s => negb (bool_decide (s = []))) (split 47 p).
Fixpoint resolve (o : Z) (n : list Z) (l : list item) (comps : list (list Z)) : Z :=
  match comps with
  | [] => o
  | c :: cs =>
    match find_kid c (kids (o + tok_size (Tbegin n)) l) with
    | Some (o', n', l') => resolve o' n' l' cs
    | None => - FDT_ERR_NOTFOUND
    end
  end.

Lemma components_slash p : components (47 :: p) = components p.
Proof. done. Qed.
Lemma components_skip p : components (skip_slashes p) = components p.
Proof.
  induction p as [|c p IH]; [done|]. simpl. destruct (c =? 47) eqn:E; [|done].
  replace c with 47 by lia. by rewrite components_slash.
Qed.
Lemma split_component p : split 47 p = (component p).1 :: match (component p).2 with [] => [] | _ :: r => split 47 r end.
Proof.
  induction p as [|c p IH]; [done|]. simpl. destruct (c =? 47); [done|]. rewrite IH. by destruct (component p).
Qed.
Lemma component_rest p : match (component p).2 with [] => True | c :: _ => c = 47 end.
Proof.
  induction p as [|c p IH]; [done|]. simpl. destruct (c =? 47) eqn:E; simpl; [lia|]. by destruct (component p).
Qed.

Lemma path_loop_eq f o n l p :
  (o, (n, l)) ∈ nodes 0 items0 -> (length p < f)%nat -> path_loop f b o p = Ret (resolve o n l (components p)).
Proof.
  revert o n l p. induction f as [|f IH]; intros o n l p Hn Hf; [lia|]. cbn [path_loop].
  rewrite <- components_skip. destruct (skip_slashes p) as [|c q] eqn:Es; [done|].
  apply skip_slashes_head in Es as [Hc Hq].
  assert (EC : components (c :: q) = (component (c :: q)).1 :: components (component (c :: q)).2).
  { unfold components. rewrite split_component. pose proof (component_rest (c :: q)) as Hr.
    cbn [List.filter]. cbn [component] in *. replace (c =? 47) with false in * by lia.
    destruct (component q) as [x r]. cbn [fst snd] in *. rewrite bool_decide_eq_false_2 by done. cbn [negb]. f_equal.
    destruct r as [|d r]; [done|]. by rewrite Hr. }
  rewrite EC. pose proof (component_length q) as Hl. cbn [component] in *. replace (c =? 47) with false in * by lia.
  destruct (component q) as [x r]. cbn [fst snd] in *. cbn [resolve].
  change fdt_subnode_offset_namelen with fdt_subnode_offset. rewrite (subnode_node _ _ _ _ Hn). cbn [obind].
  destruct (find_kid (c :: x) _) as [[[o' n'] l']|] eqn:Ek; [|done].
  apply find_kid_in, kids_nodes in Ek. pose proof (nodes_below _ _ _ _ _ Hn _ Ek) as Hn'.
  destruct (dtb_node items0 Hd _ _ _ Hn') as (H0 & _). replace (o' <? 0) with false by lia. apply IH; [done|lia].
Qed.

Lemma path_offset_eq n l post p :
  items0 = Node n l :: post -> fdt_path_offset b (47 :: p) = Ret (resolve 0 n l (components p)).
Proof.
  intros E. unfold fdt_path_offset, fdt_path_offset_namelen. cbn [path_offset_rec].
  unfold path_offset_body. rewrite FDT_RO_PROBE_eq. cbn [Z.eqb Pos.eqb negb].
  rewrite (path_loop_eq _ 0 n l); [by rewrite components_slash| |simpl; lia].
  rewrite E. cbn [nodes]. rewrite nodes_of_node. apply list_elem_of_here.
Qed.
End of_tree.

End tokens.
