(* ===== verification/FdtUp.v ===== *)
(** * The nodes above a node

    [fdt_node_depth], [fdt_parent_offset] and [fdt_supernode_atdepth_offset] walk
    from the root to the node and remember the last node they saw at a depth; in
    the tree this is the ancestor at that depth. *)
From stdpp Require Import base numbers list strings.
From Stdlib Require Import ZArith Lia.
From S2P Require Import Prelude Fdt FdtRo FdtSafe FdtTree.

Local Open Scope Z_scope.
Local Open Scope fdt_scope.

Lemma len_nonneg l : 0 <= len l.
Proof. apply Nat2Z.is_nonneg. Qed.

(** ** Nodes with their depth, and with their ancestors *)

(** In preorder, the nodes of a forest at depth [d]. *)
Fixpoint dnodes_of (d off : Z) (i : item) : list (Z * Z) :=
  match i with
  | Node n l =>
    (off, d) ::
    (fix go (d o : Z) (l : list item) := match l with [] => [] | i :: l => dnodes_of d o i ++ go d (o + item_size i) l end)
      (d + 1) (off + tok_size (Tbegin n)) l
  | _ => []
  end.
Fixpoint dnodes (d off : Z) (l : list item) : list (Z * Z) :=
  match l with [] => [] | i :: l => dnodes_of d off i ++ dnodes d (off + item_size i) l end.
Lemma dnodes_of_node d off n l : dnodes_of d off (Node n l) = (off, d) :: dnodes (d + 1) (off + tok_size (Tbegin n)) l.
Proof. reflexivity. Qed.

(** Each node with the nodes above it, the root first. *)
Fixpoint trails_of (up : list Z) (off : Z) (i : item) : list (Z * list Z) :=
  match i with
  | Node n l =>
    (off, up) ::
    (fix go (up : list Z) (o : Z) (l : list item) := match l with [] => [] | i :: l => trails_of up o i ++ go up (o + item_size i) l end)
      (up ++ [off]) (off + tok_size (Tbegin n)) l
  | _ => []
  end.
Fixpoint trails (up : list Z) (off : Z) (l : list item) : list (Z * list Z) :=
  match l with [] => [] | i :: l => trails_of up off i ++ trails up (off + item_size i) l end.
Lemma trails_of_node up off n l :
  trails_of up off (Node n l) = (off, up) :: trails (up ++ [off]) (off + tok_size (Tbegin n)) l.
Proof. reflexivity. Qed.

Lemma trails_bounds : forall l up off o x, (o, x) ∈ trails up off l ->
  off <= o < off + items_size l /\ up `prefix_of` x.
Proof.
  apply (items_ind (fun i => forall up off o x, (o, x) ∈ trails_of up off i -> off <= o < off + item_size i /\ up `prefix_of` x)
    (fun l => forall up off o x, (o, x) ∈ trails up off l -> off <= o < off + items_size l /\ up `prefix_of` x)).
  - intros no d up off o x H. by apply elem_of_nil in H.
  - intros up off o x H. by apply elem_of_nil in H.
  - intros n l IH up off o x H. rewrite trails_of_node in H. rewrite item_size_node. pose proof (tok_size_bounds (Tbegin n)).
    pose proof (toks_size_nonneg (toks_of l)). unfold items_size in *. apply elem_of_cons in H as [[= -> ->]|H]; [split; [lia|done]|].
    apply IH in H as [? H]. split; [lia|]. by apply prefix_app_l in H.
  - intros up off o x H. by apply elem_of_nil in H.
  - intros i l IHi IHl up off o x H. cbn [trails] in H. rewrite items_size_cons.
    pose proof (toks_size_nonneg (toks i)). pose proof (toks_size_nonneg (toks_of l)). unfold item_size, items_size in *.
    apply elem_of_app in H as [H|H]; [apply IHi in H as [? ?]|apply IHl in H as [? ?]]; (split; [lia|done]).
Qed.
Lemma dnodes_bounds : forall l d off o x, (o, x) ∈ dnodes d off l -> off <= o < off + items_size l /\ d <= x.
Proof.
  apply (items_ind (fun i => forall d off o x, (o, x) ∈ dnodes_of d off i -> off <= o < off + item_size i /\ d <= x)
    (fun l => forall d off o x, (o, x) ∈ dnodes d off l -> off <= o < off + items_size l /\ d <= x)).
  - intros no d up off o x H. by apply elem_of_nil in H.
  - intros up off o x H. by apply elem_of_nil in H.
  - intros n l IH d off o x H. rewrite dnodes_of_node in H. rewrite item_size_node. pose proof (tok_size_bounds (Tbegin n)).
    pose proof (toks_size_nonneg (toks_of l)). unfold items_size in *. apply elem_of_cons in H as [[= -> ->]|H]; [lia|].
    apply IH in H. lia.
  - intros up off o x H. by apply elem_of_nil in H.
  - intros i l IHi IHl d off o x H. cbn [dnodes] in H. rewrite items_size_cons.
    pose proof (toks_size_nonneg (toks i)). pose proof (toks_size_nonneg (toks_of l)). unfold item_size, items_size in *.
    apply elem_of_app in H as [H|H]; [apply IHi in H|apply IHl in H]; lia.
Qed.

(** ** The walk *)

Section walk.
Context (target sd : Z).

(** [supernode_loop] over the nodes with their depths. *)
Fixpoint walk (N : list (Z * Z)) (cur : Z) : Z * option Z :=
  match N with
  | [] => (- FDT_ERR_INTERNAL, None)
  | (x, d) :: N' =>
    let cur := if d =? sd then x else cur in
    if x =? target then (if d <? sd then - FDT_ERR_NOTFOUND else cur, Some d) else walk N' cur
  end.

Lemma walk_pass N N' cur d :
  (forall o x, (o, x) ∈ N -> o <> target /\ d <= x) ->
  exists cur', walk (N ++ N') cur = walk N' cur' /\ (sd < d -> cur' = cur).
Proof.
  revert cur. induction N as [|[o x] N IH]; intros cur HN; [by exists cur|]. cbn [app walk].
  destruct (HN o x (list_elem_of_here _ _)) as [Ho Hx]. replace (o =? target) with false by lia.
  destruct (IH (if x =? sd then o else cur)) as (cur' & -> & Hc); [intros; apply HN; by apply list_elem_of_further|].
  exists cur'. split; [done|]. intros Hsd. rewrite Hc by done. by replace (x =? sd) with false by lia.
Qed.

(** In a forest at depth [d], below the nodes [up]. *)
Lemma walk_finds : forall l up off N cur x, (target, x) ∈ trails up off l ->
  walk (dnodes (len up) off l ++ N) cur =
  (if len x <? sd then - FDT_ERR_NOTFOUND
   else if sd <? len up then cur else default 0 ((x ++ [target]) !! Z.to_nat sd), Some (len x)).
Proof.
  apply (items_ind (fun i => forall up off N cur x, (target, x) ∈ trails_of up off i ->
      walk (dnodes_of (len up) off i ++ N) cur =
      (if len x <? sd then - FDT_ERR_NOTFOUND
       else if sd <? len up then cur else default 0 ((x ++ [target]) !! Z.to_nat sd), Some (len x)))
    (fun l => forall up off N cur x, (target, x) ∈ trails up off l ->
      walk (dnodes (len up) off l ++ N) cur =
      (if len x <? sd then - FDT_ERR_NOTFOUND
       else if sd <? len up then cur else default 0 ((x ++ [target]) !! Z.to_nat sd), Some (len x)))).
  - intros no d up off N cur x H. by apply elem_of_nil in H.
  - intros up off N cur x H. by apply elem_of_nil in H.
  - intros n l IH up off N cur x H. rewrite trails_of_node in H. rewrite dnodes_of_node. cbn [app walk].
    apply elem_of_cons in H as [[= -> ->]|H].
    + rewrite Z.eqb_refl. f_equal. unfold len. destruct (Z.ltb_spec (Z.of_nat (length up)) sd); [done|].
      destruct (Z.ltb_spec sd (Z.of_nat (length up))); [by replace (_ =? sd) with false by lia|].
      replace (_ =? sd) with true by lia. replace (Z.to_nat sd) with (length up) by lia. by rewrite list_lookup_middle.
    + apply trails_bounds in H as HB. pose proof (tok_size_bounds (Tbegin n)). destruct HB as [HB HP].
      replace (off =? target) with false by lia.
      assert (Hl : len (up ++ [off]) = len up + 1) by (unfold len; rewrite length_app; simpl; lia).
      rewrite <- Hl, (IH _ _ _ _ _ H), Hl. f_equal. destruct (len x <? sd); [done|].
      destruct (Z.ltb_spec sd (len up)); [replace (sd <? len up + 1) with true by lia; by replace (len up =? sd) with false by lia|].
      destruct (Z.ltb_spec sd (len up + 1)); [|done]. replace (len up =? sd) with true by lia.
      destruct HP as [y ->]. rewrite <- !app_assoc. replace (Z.to_nat sd) with (length up) by (unfold len in *; lia).
      cbn [app]; by rewrite list_lookup_middle.
  - intros up off N cur x H. by apply elem_of_nil in H.
  - intros i l IHi IHl up off N cur x H. cbn [trails dnodes] in *. rewrite <- app_assoc. apply elem_of_app in H as [H|H].
    + by apply IHi.
    + apply trails_bounds in H as HB. destruct (walk_pass (dnodes_of (len up) off i) (dnodes (len up) (off + item_size i) l ++ N) cur (len up))
        as (cur' & -> & Hc).
      { intros o d Ho. pose proof (dnodes_bounds [i] (len up) off o d) as HD. cbn [dnodes] in HD. rewrite app_nil_r, items_size_cons in HD.
        specialize (HD Ho). change (items_size []) with 0 in HD. lia. }
      rewrite (IHl _ _ _ _ _ H). f_equal. destruct (len x <? sd); [done|]. destruct (Z.ltb_spec sd (len up)); [by apply Hc|done].
Qed.
End walk.

(** ** The code *)

Section code.
Context (b : blob) (Hh : fdt_ok b).
Notation fuel := (FDT_FUEL b).

(** From a node at depth [d], [fdt_next_node] visits [N]. *)
Fixpoint visits_deep (start d : Z) (N : list (Z * Z)) : Prop :=
  match N with
  | [] => True
  | (o, x) :: N' => fdt_next_node b start (Some d) = Ret (o, Some x) /\ start < o /\ visits_deep o x N'
  end.
(** The nodes behind an offset of depth [d], up to the end of the root. *)
Fixpoint deeps (off d : Z) (L : list token) : list (Z * Z) :=
  match L with
  | [] | Tfin :: _ => []
  | Tbegin n :: L' => (off, d + 1) :: deeps (off + tok_size (Tbegin n)) (d + 1) L'
  | Tend :: L' => if d - 1 <? 0 then [] else deeps (off + 4) (d - 1) L'
  | t :: L' => deeps (off + tok_size t) d L'
  end.

Lemma scan_deeps off d L :
  0 <= d -> match deeps off d L with
  | [] => True
  | (o, x) :: rest => exists n L', scan off (Some d) L = (o, Some x, Tbegin n :: L') /\
      rest = deeps (o + tok_size (Tbegin n)) x L' /\ 0 <= x
  end.
Proof.
  revert off d. induction L as [|t L IH]; intros off d H0; [done|].
  destruct t as [n| |no dat| |]; cbn [deeps scan]; try apply (IH _ d H0).
  - exists n, L. split; [done|]. split; [done|lia].
  - destruct (d - 1 <? 0) eqn:E; [done|]. apply IH. lia.
  - done.
Qed.
Lemma visits_deeps k start d n L :
  (length L <= k)%nat -> toks_at b start (Tbegin n :: L) -> Tfin ∈ L -> 0 <= d ->
  visits_deep start d (deeps (start + tok_size (Tbegin n)) d L).
Proof.
  revert start d n L. induction k as [|k IH]; intros start d n L Hk HL Hfin H0.
  { destruct L; [by apply elem_of_nil in Hfin|simpl in Hk; lia]. }
  pose proof (scan_deeps (start + tok_size (Tbegin n)) d L H0) as Hsc.
  destruct (deeps (start + tok_size (Tbegin n)) d L) as [|[o x] rest]; [done|].
  destruct Hsc as (n' & L' & Esc & -> & Hx). pose proof HL as [_ HL'].
  destruct (scan_found _ _ _ _ _ _ _ HL' Hfin Esc ltac:(done)) as (n2 & L2 & [= <- <-] & HR & Hfin' & Hle & Hlen).
  pose proof (tok_size_bounds (Tbegin n)). simpl in Hlen. split; [|split; [lia|]].
  - by rewrite (next_node_eq b Hh _ _ _ _ HL Hfin), Esc.
  - apply IH; [lia|done|done|done].
Qed.
Lemma visits_deep_lt start d N o x : visits_deep start d N -> (o, x) ∈ N -> start < o.
Proof.
  revert start d. induction N as [|[o' x'] N IH]; intros start d H Hin; [by apply elem_of_nil in Hin|].
  destruct H as (_ & Hlt & H). apply elem_of_cons in Hin as [[= -> ->]|Hin]; [done|]. specialize (IH _ _ H Hin). lia.
Qed.

Lemma supernode_loop_eq f target sd start d N cur :
  visits_deep start d N -> target ∈ (map fst ((start, d) :: N)) -> 0 <= start -> (length N < f)%nat ->
  supernode_loop f b target sd start d cur = Ret (walk target sd ((start, d) :: N) cur).
Proof.
  revert start d N cur. induction f as [|f IH]; intros start d N cur HN Hin H0 Hf; [lia|]. cbn [supernode_loop].
  assert (Hle : start <= target).
  { cbn [map fst] in Hin. apply elem_of_cons in Hin as [->|Hin]; [lia|]. apply list_elem_of_fmap in Hin as ([o x] & -> & Hin).
    pose proof (visits_deep_lt _ _ _ _ _ HN Hin). simpl. lia. }
  replace ((0 <=? start) && (start <=? target)) with true by lia. cbn [negb].
  destruct (start =? target) eqn:E; [cbn [walk]; by rewrite E|].
  destruct N as [|[o x] N].
  { cbn [map fst] in Hin. apply list_elem_of_singleton in Hin. lia. }
  destruct HN as (-> & Hlt & HN). cbn [obind depth_of default]. simpl in Hf.
  rewrite (IH o x N); [|done| |lia|lia].
  - change (walk target sd ((start, d) :: (o, x) :: N) cur) with
      (if start =? target then (if d <? sd then - FDT_ERR_NOTFOUND else (if d =? sd then start else cur), Some d)
       else walk target sd ((o, x) :: N) (if d =? sd then start else cur)). by rewrite E.
  - cbn [map fst] in *. apply elem_of_cons in Hin as [->|Hin]; [lia|done].
Qed.

Lemma deeps_dnodes : forall l off d R, 0 <= d ->
  deeps off d (toks_of l ++ R) = dnodes (d + 1) off l ++ deeps (off + items_size l) d R.
Proof.
  apply (items_ind (fun i => forall off d R, 0 <= d ->
      deeps off d (toks i ++ R) = dnodes_of (d + 1) off i ++ deeps (off + item_size i) d R)
    (fun l => forall off d R, 0 <= d ->
      deeps off d (toks_of l ++ R) = dnodes (d + 1) off l ++ deeps (off + items_size l) d R)).
  - intros no dat off d R Hd. cbn [toks app deeps dnodes_of]. f_equal. unfold item_size, toks_size. cbn [toks foldr]. lia.
  - intros off d R Hd. done.
  - intros n l IH off d R Hd. cbn [toks app deeps]. rewrite dnodes_of_node. cbn [app]. f_equal. rewrite <- app_assoc.
    fold (toks_of l). rewrite IH by lia. f_equal. cbn [app deeps]. replace (d + 1 - 1 <? 0) with false by lia.
    rewrite item_size_node. f_equal; lia.
  - intros off d R Hd. unfold items_size, toks_size. cbn [toks_of flat_map app foldr dnodes]. by rewrite Z.add_0_r.
  - intros i l IHi IHl off d R Hd. rewrite toks_of_cons, <- app_assoc, IHi, IHl by done. cbn [dnodes].
    by rewrite <- app_assoc, items_size_cons, Z.add_assoc.
Qed.

Lemma dnodes_trails : forall l up off o x d, (o, x) ∈ trails up off l -> o ∈ map fst (dnodes d off l).
Proof.
  apply (items_ind (fun i => forall up off o x d, (o, x) ∈ trails_of up off i -> o ∈ map fst (dnodes_of d off i))
    (fun l => forall up off o x d, (o, x) ∈ trails up off l -> o ∈ map fst (dnodes d off l))).
  - intros no dat up off o x d H. by apply elem_of_nil in H.
  - intros up off o x d H. by apply elem_of_nil in H.
  - intros n l IH up off o x d H. rewrite trails_of_node in H. rewrite dnodes_of_node. cbn [map fst].
    apply elem_of_cons in H as [[= -> _]|H]; [apply list_elem_of_here|]. apply list_elem_of_further. by eapply IH.
  - intros up off o x d H. by apply elem_of_nil in H.
  - intros i l IHi IHl up off o x d H. cbn [trails dnodes] in *. rewrite map_app. apply elem_of_app.
    apply elem_of_app in H as [H|H]; [left; by eapply IHi|right; by eapply IHl].
Qed.

Section of_tree.
Context (n0 : list Z) (l0 post : list item) (Hd : dtb b (Node n0 l0 :: post)).

Lemma deeps_length off d L : (length (deeps off d L) <= length L)%nat.
Proof.
  revert off d. induction L as [|t L IH]; intros off d; [done|].
  destruct t; cbn [deeps length]; try destruct (_ <? 0); cbn [length];
    repeat match goal with |- context [length (deeps ?o ?d L)] => pose proof (IH o d); generalize dependent (length (deeps o d L)); intros end; lia.
Qed.
(** From the root, [fdt_next_node] visits the nodes of the tree in preorder. *)
Lemma visits_tree :
  visits_deep 0 0 (dnodes 1 (tok_size (Tbegin n0)) l0) /\
  (length (dnodes 1 (tok_size (Tbegin n0)) l0) < fuel)%nat.
Proof.
  pose proof (db_toks _ _ Hd) as HT. rewrite toks_of_cons, <- app_assoc in HT. cbn [toks app] in HT.
  rewrite <- app_assoc in HT. fold (toks_of l0) in HT. cbn [app] in HT.
  assert (Hfin : Tfin ∈ toks_of l0 ++ Tend :: toks_of post ++ [Tfin]).
  { apply elem_of_app. right. apply list_elem_of_further, elem_of_app. right. apply list_elem_of_here. }
  pose proof (visits_deeps _ 0 0 n0 _ (le_n _) HT Hfin ltac:(lia)) as HV.
  pose proof (toks_at_fuel b Hh 0 _ ltac:(lia) HT) as Hfu.
  pose proof (deeps_length (0 + tok_size (Tbegin n0)) 0 (toks_of l0 ++ Tend :: toks_of post ++ [Tfin])) as Hl.
  rewrite deeps_dnodes in HV, Hl by lia. cbn [deeps Z.sub Z.add Z.opp Z.ltb Z.compare] in HV, Hl. rewrite app_nil_r in HV, Hl.
  split; [exact HV|]. cbn [length] in Hfu. eapply Nat.le_lt_trans; [exact Hl|lia].
Qed.

Lemma supernode_tree o x sd :
  (o, x) ∈ trails_of [] 0 (Node n0 l0) -> 0 <= sd ->
  fdt_supernode_atdepth_offset b o sd =
  Ret (if len x <? sd then - FDT_ERR_NOTFOUND else default 0 ((x ++ [o]) !! Z.to_nat sd), Some (len x)).
Proof.
  intros H Hsd. destruct visits_tree as [HV Hl]. pose proof (ts_bounds b (fo_sane _ Hh)).
  unfold fdt_supernode_atdepth_offset. rewrite (fdt_ro_probe_eq b Hh). cbn [obind].
  replace (hdr b H_totalsize <? 0) with false by lia. replace (sd <? 0) with false by lia.
  rewrite (supernode_loop_eq _ _ _ _ _ _ _ HV); [|..|lia|lia].
  - match goal with |- Ret (walk _ _ ?N _) = _ => change N with (dnodes_of 0 0 (Node n0 l0)) end.
    pose proof (walk_finds o sd [Node n0 l0] [] 0 [] (- FDT_ERR_INTERNAL) x) as HW. cbn [trails dnodes] in HW.
    rewrite !app_nil_r in HW. change (len []) with 0 in HW. rewrite (HW H). by replace (sd <? 0) with false by lia.
  - pose proof (dnodes_trails [Node n0 l0] [] 0 o x 0) as HD. cbn [trails dnodes] in HD. rewrite !app_nil_r in HD. by apply HD.
Qed.

Lemma depth_tree o x : (o, x) ∈ trails_of [] 0 (Node n0 l0) -> fdt_node_depth b o = Ret (len x).
Proof.
  intros H. unfold fdt_node_depth. rewrite (supernode_tree _ _ _ H) by lia. cbn [obind].
  rewrite (proj2 (Z.ltb_ge (len x) 0)) by apply len_nonneg.
  rewrite trails_of_node in H. apply elem_of_cons in H as [[= -> ->]|H]; [done|].
  apply trails_bounds in H as [_ [y ->]]. done.
Qed.
Lemma parent_tree o x :
  (o, x) ∈ trails_of [] 0 (Node n0 l0) -> fdt_parent_offset b o = Ret (default (- FDT_ERR_NOTFOUND) (last x)).
Proof.
  intros H. pose proof (ts_bounds b (fo_sane _ Hh)). unfold fdt_parent_offset. rewrite (depth_tree _ _ H). cbn [obind].
  rewrite (proj2 (Z.ltb_ge (len x) 0)) by apply len_nonneg.
  destruct (decide (x = [])) as [->|Hx].
  - unfold fdt_supernode_atdepth_offset. rewrite (fdt_ro_probe_eq b Hh). cbn [obind].
    by replace (hdr b H_totalsize <? 0) with false by lia.
  - assert (0 < len x) by (destruct x; [done|unfold len; simpl; lia]).
    rewrite (supernode_tree _ _ _ H) by lia. cbn [obind]. replace (len x <? len x - 1) with false by lia.
    destruct (exists_last Hx) as (y & z & ->). rewrite last_snoc. unfold len. rewrite length_app. cbn [length].
    replace (Z.to_nat _) with (length y) by lia. rewrite <- app_assoc. cbn [app]. by rewrite list_lookup_middle.
Qed.
End of_tree.
End code.
