(* ===== verification/FdtCheck.v ===== *)
(** * What [fdt_check_full] accepts

    A version 17 blob passes [fdt_check_full] exactly when its header is
    consistent, its memory reservations end inside it, and its structure block is a
    forest with at most one node at the top, which has no name and comes last, and
    all of whose properties have names. *)
From stdpp Require Import base numbers list strings.
From Stdlib Require Import ZArith Lia.
From S2P Require Import Prelude Fdt FdtRo FdtSafe FdtTree.

Local Open Scope Z_scope.
Local Open Scope fdt_scope.

Section check.
Context (b : blob).
Notation ts := (hdr b H_totalsize).
Notation os := (hdr b H_off_dt_struct).
Notation fuel := (FDT_FUEL b).

(** At most one node at the top, with nothing behind it. *)
Fixpoint one_root (l : list item) : Prop :=
  match l with
  | [] => True
  | Node n _ :: l' => n = [] /\ l' = []
  | _ :: l' => one_root l'
  end.
(** Every property has a name. *)
Definition named_tok (t : token) : Prop :=
  match t with Tprop no _ => prop_name b no <> None | _ => True end.
Definition named (items : list item) : Prop := Forall named_tok (toks_of items).

(** The tokens left to read at a depth: they close the open nodes. *)
Fixpoint closes (d : nat) (L : list token) : Prop :=
  match d with
  | O => exists l, L = toks_of l /\ one_root l
  | S d' => exists l L', L = toks_of l ++ Tend :: L' /\ match d' with O => L' = [] | _ => closes d' L' end
  end.

Lemma closes_leaf d i L : (forall n l, i <> Node n l) -> closes d L -> closes d (toks i ++ L).
Proof.
  intros Hi. assert (Ho : forall l, one_root l -> one_root (i :: l)) by (intros l Hl; destruct i; [done..|by destruct (Hi name items)]).
  destruct d as [|d].
  - intros (l & -> & Hl). exists (i :: l). split; [done|auto].
  - intros (l & L' & -> & HL). exists (i :: l), L'. split; [by rewrite toks_of_cons, app_assoc|done].
Qed.
Lemma closes_end d L : match d with O => L = [] | _ => closes d L end -> closes (S d) (Tend :: L).
Proof. intros H. by exists [], L. Qed.
Lemma closes_begin d n L : (d = O -> n = []) -> closes (S d) L -> closes d (Tbegin n :: L).
Proof.
  intros Hn (l & L' & -> & HL).
  assert (E : forall l2, Tbegin n :: toks_of l ++ Tend :: toks_of l2 = toks_of (Node n l :: l2)).
  { intros l2. rewrite toks_of_cons. cbn [toks app]. by rewrite <- app_assoc. }
  destruct d as [|d].
  - subst L'. exists [Node n l]. split; [apply (E [])|]. split; [by apply Hn|done].
  - destruct HL as (l2 & L2 & -> & HL). exists (Node n l :: l2), L2. split; [|done].
    rewrite <- E. cbn [app]. by rewrite <- app_assoc.
Qed.

Lemma no_zero_bytes p n :
  (forall i, 0 <= i < Z.of_nat n -> byte b (p + i) <> 0) -> no_zero (bytes b p n) = true.
Proof.
  revert p. induction n as [|n IH]; intros p H; [done|]. unfold no_zero in *. simpl. apply andb_true_intro. split.
  - specialize (H 0 ltac:(lia)). rewrite Z.add_0_r in H. destruct (byte b p =? 0) eqn:E; [lia|done].
  - apply IH. intros i Hi. rewrite <- Z.add_assoc. apply H. lia.
Qed.

(** ** Soundness *)

Section code.
Context (Hh : fdt_ok b).
Let Hb : sane b := fo_sane b Hh.

Lemma item_token tag off next :
  item_at b tag off next -> off mod 4 = 0 -> is_tag tag ->
  (tag = FDT_PROP -> word b (os + off + 8) < 2^31) ->
  exists t, tok_tag t = tag /\ tok_at b off t /\ next = off + tok_size t /\
    (forall no d, t = Tprop no d -> no = word b (os + off + 8)).
Proof.
  intros [H0 Ht (e & He & Hts & -> & Hbegin & Hprop & Hother & Hin)] Hmod Hk Hno. pose proof (fo_version _ Hh) as Hv.
  assert (HS : forall t, tok_len t = e - off -> align4 e = off + tok_size t).
  { intros t Et. unfold tok_size. rewrite Et. unfold align4. Z.div_mod_to_equations. lia. }
  assert (Hfix : forall t, tok_tag t = tag -> (match t with Tbegin _ | Tprop _ _ => False | _ => True end) ->
    exists t, tok_tag t = tag /\ tok_at b off t /\ align4 e = off + tok_size t /\
      (forall no d, t = Tprop no d -> no = word b (os + off + 8))).
  { intros t Et Hf. assert (tok_len t = e - off) as El.
    { rewrite Hother by (rewrite <- Et; by destruct t). destruct t; simpl in *; try done; lia. }
    exists t. split; [done|]. split; [|split; [by apply HS|by intros no d ->]].
    split; [done|]. rewrite El. split; [done|]. split; [by rewrite Et|]. by destruct t. }
  destruct Hk as [->|[->|[->|[->| ->]]]].
  - destruct (Hbegin eq_refl) as (n & -> & Hs). destruct (Hs) as (S1 & S2 & S3 & S4 & S5).
    exists (Tbegin (bytes b (os + off + 4) (Z.to_nat n))). unfold tok_at, tok_len, len. rewrite bytes_length.
    split; [done|]. split; [|split; [apply HS; unfold tok_len, len; rewrite bytes_length; lia|done]].
    split; [done|]. split; [by replace (4 + Z.of_nat (Z.to_nat n) + 1) with (off + 4 + n + 1 - off) by lia|].
    split; [done|]. split.
    + rewrite bytes_app, Z2Nat.id by lia. simpl. by rewrite S4.
    + apply no_zero_bytes. intros i Hi. apply S5. lia.
  - by apply (Hfix Tend).
  - specialize (Hprop eq_refl). cbv zeta in Hprop. replace (hdr b H_version <? 16) with false in Hprop by lia.
    cbn [andb] in Hprop. rewrite Z.add_0_r in Hprop. pose proof (word_range b (os + off + 4)).
    exists (Tprop (word b (os + off + 8)) (bytes b (os + off + 12) (Z.to_nat (word b (os + off + 4))))).
    unfold tok_at, tok_len, len. rewrite bytes_length.
    split; [done|]. split; [|split; [apply HS; unfold tok_len, len; rewrite bytes_length; lia|by intros no d [= <- _]]].
    split; [done|]. split; [by replace (12 + Z.of_nat (Z.to_nat (word b (os + off + 4)))) with (e - off) by lia|].
    split; [done|]. split; [lia|]. split; [done|]. split; [done|]. by apply Hno.
  - by apply (Hfix Tnop).
  - by apply (Hfix Tfin).
Qed.

(** A property that [fdt_getprop_by_offset] returns has a name. *)
Lemma getprop_by_offset_named off q nm l next :
  item_at b FDT_PROP off next -> is_int off ->
  fdt_getprop_by_offset b off = Ret (Some q, nm, l) ->
  word b (os + off + 8) < 2^31 /\ prop_name b (word b (os + off + 8)) <> None.
Proof.
  intros Hit Hi. pose proof (ts_bounds b Hb) as [Hts Hext]. unfold fdt_getprop_by_offset.
  destruct (gives_eq _ _ (property_by_offset_gives b Hb off Hi)) as ([[prop|] len'] & -> & HP); cbn [obind]; [|done].
  apply prop_at_bounds in HP as HB. destruct HP as [-> _ _]. headers Hb. rewrite fdt32_word by lia. cbn [obind].
  set (no := word b (os + off + 8)) in *. pose proof (word_range b (os + off + 8)) as Hr. fold no in Hr.
  destruct (Z_lt_le_dec no (2^31)) as [Hlt|Hge].
  - rewrite s32_small by lia. pose proof (get_string_eq b Hh no ltac:(lia)) as HG.
    destruct (prop_name b no) as [n|]; [done|]. destruct HG as (e & -> & _). cbn [obind].
    by rewrite bool_decide_eq_true_2.
  - assert (s32 no < 0) as Hneg by (unfold s32; Z.div_mod_to_equations; lia).
    unfold fdt_get_string. rewrite can_assume_false, (fdt_ro_probe_eq b Hh). cbn [obind].
    replace (hdr b H_totalsize <? 0) with false by lia. headers Hb. rewrite (fo_magic _ Hh).
    change (FDT_MAGIC =? FDT_MAGIC) with true. replace (s32 no <? 0) with true by lia.
    by destruct (_ <=? _).
Qed.

Lemma check_full_loop_sound f off d (expect : bool) :
  0 <= off <= ts + 3 -> off mod 4 = 0 -> Z.of_nat d <= INT_MAX -> (expect = true -> d = O) ->
  check_full_loop f b off (Z.of_nat d) expect = Ret 0 ->
  exists L, toks_at b off (L ++ [Tfin]) /\ Forall named_tok L /\ if expect then L = [] else closes d L.
Proof.
  pose proof (ts_bounds b Hb) as [Hts Hext].
  revert off d expect. induction f as [|f IH]; intros off d expect Ho Hm Hd He; cbn [check_full_loop]; [done|].
  assert (Hi : is_int off) by (unfold is_int; lia).
  destruct (gives_eq _ _ (next_tag_gives b Hb off Hi)) as ([tag next] & -> & Htag). cbn [obind].
  destruct (next <? 0) eqn:E0; [intros [= E]; lia|]. destruct Htag as [[Hk Hit]|[_ ?]]; [|lia].
  apply item_at_next in Hit as Hnx. destruct Hnx as (N1 & N2 & N3).
  destruct (expect && negb (tag =? FDT_END)) eqn:Ee; [done|].
  assert (Htok : (tag = FDT_PROP -> word b (os + off + 8) < 2^31) -> exists t, tok_tag t = tag /\ tok_at b off t /\
    next = off + tok_size t /\ (forall no d, t = Tprop no d -> no = word b (os + off + 8))) by (intros; by apply (item_token tag)).
  assert (Hadd : forall t d' e', tok_at b off t -> next = off + tok_size t -> named_tok t ->
    Z.of_nat d' <= INT_MAX -> (e' = true -> d' = O) -> check_full_loop f b next (Z.of_nat d') e' = Ret 0 ->
    (forall L, (if e' : bool then L = [] else closes d' L) -> if expect then t :: L = [] else closes d (t :: L)) ->
    exists L, toks_at b off (L ++ [Tfin]) /\ Forall named_tok L /\ if expect then L = [] else closes d L).
  { intros t d' e' Ht En Hnt Hd' He' Hrun Hstep. destruct (IH next d' e') as (L & HL & HN & HC); [lia|done..|].
    exists (t :: L). split; [cbn [app toks_at]; split; [done|by rewrite <- En]|]. split; [by constructor|by apply Hstep]. }
  destruct (tag =? FDT_NOP) eqn:E1; [|destruct (tag =? FDT_END) eqn:E2; [|destruct (tag =? FDT_BEGIN_NODE) eqn:E3;
    [|destruct (tag =? FDT_END_NODE) eqn:E4; [|destruct (tag =? FDT_PROP) eqn:E5; [|done]]]]].
  - assert (tag = FDT_NOP) as -> by lia. destruct Htok as (t & Et & Ht & En & _); [done|]. destruct t; try done.
    destruct expect; [done|]. intros Hrun. apply (Hadd Tnop d false); try done. intros L HL.
    by apply (closes_leaf d Nop).
  - assert (tag = FDT_END) as -> by lia. destruct Htok as (t & Et & Ht & En & _); [done|]. destruct t; try done.
    destruct (Z.of_nat d =? 0) eqn:E; [|done]. intros _. assert (d = O) as -> by lia.
    exists []. split; [done|]. split; [done|]. destruct expect; [done|by exists []].
  - assert (tag = FDT_BEGIN_NODE) as -> by lia. destruct Htok as (t & Et & Ht & En & _); [done|].
    destruct t as [n| |? ?| |]; try done. destruct expect; [done|]. rewrite u32_small by (unfold INT_MAX in Hd; lia).
    destruct (INT_MAX <? Z.of_nat d + 1) eqn:Emax; [done|].
    replace (Z.of_nat d + 1) with (Z.of_nat (S d)) in * by lia.
    assert (Hgo : (d = O -> n = []) -> check_full_loop f b next (Z.of_nat (S d)) false = Ret 0 ->
      exists L, toks_at b off (L ++ [Tfin]) /\ Forall named_tok L /\ closes d L).
    { intros Hn Hrun. apply (Hadd (Tbegin n) (S d) false); try done; [by apply Z.ltb_ge in Emax|]. intros L HL. by apply closes_begin. }
    destruct (Z.of_nat (S d) =? 1) eqn:E; [|apply Hgo; by intros ->]. rewrite (get_name_eq b Hh _ _ Ht). cbn [obind].
    destruct (tok_begin_str b Hh _ _ Ht) as [(? & ? & ? & _) _]. rewrite fdt8_byte by lia. cbn [obind].
    destruct (_ || _) eqn:En0; [done|]. apply Hgo. intros _. unfold len in En0. destruct n; [done|simpl in En0; lia].
  - assert (tag = FDT_END_NODE) as -> by lia. destruct Htok as (t & Et & Ht & En & _); [done|]. destruct t; try done.
    destruct expect; [done|]. destruct d as [|d]; [done|]. cbn [orb].
    rewrite (proj2 (Z.eqb_neq (Z.of_nat (S d)) 0)) by lia. replace (Z.of_nat (S d) - 1) with (Z.of_nat d) by lia.
    intros Hrun. apply (Hadd Tend d (Z.of_nat d =? 0)); try done; [lia|lia|]. intros L HL. apply closes_end.
    destruct d; [done|]. by rewrite (proj2 (Z.eqb_neq (Z.of_nat (S d)) 0)) in HL by lia.
  - assert (tag = FDT_PROP) as -> by lia. destruct expect; [done|].
    destruct (fdt_getprop_by_offset b off) as [[[[q|] nm] l]| | |] eqn:Eg; cbn [obind]; try done.
    + destruct (getprop_by_offset_named _ _ _ _ _ Hit Hi Eg) as [Hlt Hn].
      destruct Htok as (t & Et & Ht & En & Hno); [done|]. destruct t as [?| |no dat| |]; try done.
      specialize (Hno no dat eq_refl) as ->. intros Hrun. apply (Hadd (Tprop (word b (os + off + 8)) dat) d false); try done.
      intros L HL. by apply (closes_leaf d (Prop_ _ dat)).
    + pose proof (getprop_by_offset_gives b Hb off Hi) as HG. rewrite Eg in HG. destruct HG as [HG _].
      intros [= ->]. simpl in HG. unfold err in HG. lia.
Qed.

(** ** Completeness *)

Lemma getprop_by_offset_eq off no d L :
  toks_at b off (Tprop no d :: L) -> prop_name b no <> None ->
  exists q nm, fdt_getprop_by_offset b off = Ret (Some q, nm, len d).
Proof.
  intros HL Hn. pose proof (ts_bounds b Hb) as [Hts Hext]. unfold fdt_getprop_by_offset.
  rewrite (property_by_offset_eq b Hh _ _ _ _ HL). cbn [obind]. destruct HL as [Ht _].
  destruct (prop_value_at b _ _ _ Ht) as (_ & H0 & H1). pose proof (hdr_range b H_off_dt_struct).
  pose proof Ht as (_ & _ & _ & Hlen & Hno & _ & Hlt). apply tok_at_bounds in Ht as (Ho & _ & He).
  unfold tok_len, len in *. headers Hb. rewrite fdt32_word by lia. cbn [obind]. rewrite Hno.
  pose proof (word_range b (os + off + 8)) as Hr. rewrite Hno in Hr. rewrite s32_small by lia.
  pose proof (get_string_eq b Hh no ltac:(lia)) as HG. destruct (prop_name b no) as [n|]; [|done].
  destruct HG as (p & -> & _). cbn [obind]. rewrite bool_decide_eq_false_2 by done.
  unfold prop_data. headers Hb. rewrite fdt32_word by lia. cbn [obind]. by eexists _, _.
Qed.

(** One token. *)
Lemma check_step f off d t L :
  toks_at b off (t :: L) -> named_tok t ->
  check_full_loop (S f) b off d false =
  match t with
  | Tbegin n =>
    if INT_MAX <? u32 (d + 1) then Ret (- FDT_ERR_BADSTRUCTURE) else
    if (u32 (d + 1) =? 1) && negb (bool_decide (n = [])) then Ret (- FDT_ERR_BADSTRUCTURE)
    else check_full_loop f b (off + tok_size t) (u32 (d + 1)) false
  | Tend => if d =? 0 then Ret (- FDT_ERR_BADSTRUCTURE)
            else check_full_loop f b (off + tok_size t) (d - 1) (d - 1 =? 0)
  | Tfin => Ret (if negb (d =? 0) then - FDT_ERR_BADSTRUCTURE else 0)
  | _ => check_full_loop f b (off + tok_size t) d false
  end.
Proof.
  intros HL Hn. pose proof HL as [Ha _]. apply tok_at_bounds in Ha as Hbd. pose proof (tok_size_bounds t).
  pose proof (ts_bounds b Hb) as [Hts Hext].
  cbn [check_full_loop]. rewrite (next_tag_eq b Hh _ _ Ha). cbn [obind]. replace (_ <? 0) with false by lia.
  destruct t as [n| |no dat| |];
    cbn [tok_tag Z.eqb FDT_NOP FDT_END FDT_PROP FDT_BEGIN_NODE FDT_END_NODE Pos.eqb negb andb orb]; try done.
  - destruct (INT_MAX <? _); [done|]. destruct (_ =? 1); [|done].
    rewrite (get_name_eq b Hh _ _ Ha). cbn [obind].
    destruct (tok_begin_str b Hh _ _ Ha) as [(? & ? & ? & H0 & _) _]. rewrite fdt8_byte by lia. cbn [obind andb].
    destruct n as [|c n]; [rewrite Z.add_0_r in H0; by rewrite H0|]. rewrite bool_decide_eq_false_2 by done.
    replace (len (c :: n) =? 0) with false by (unfold len; simpl; lia). by rewrite orb_true_r.
  - destruct (getprop_by_offset_eq _ _ _ _ HL Hn) as (q & nm & ->). done.
Qed.

Definition fits (d : Z) (L : list token) : Prop := d + Z.of_nat (length L) <= INT_MAX.

(** A forest below the top is passed over. *)
Lemma check_forest : forall l f off d R, 1 <= d -> fits d (toks_of l) -> toks_at b off (toks_of l ++ R) ->
  named l -> check_full_loop (length (toks_of l) + f) b off d false = check_full_loop f b (off + items_size l) d false.
Proof.
  apply (items_ind (fun i => forall f off d R, 1 <= d -> fits d (toks i) -> toks_at b off (toks i ++ R) ->
      Forall named_tok (toks i) -> check_full_loop (length (toks i) + f) b off d false = check_full_loop f b (off + item_size i) d false)
    (fun l => forall f off d R, 1 <= d -> fits d (toks_of l) -> toks_at b off (toks_of l ++ R) ->
      named l -> check_full_loop (length (toks_of l) + f) b off d false = check_full_loop f b (off + items_size l) d false)).
  - intros no dat f off d R Hd Hfit HL Hn. apply Forall_cons_1 in Hn as [Hn _]. cbn [toks app length Nat.add] in *.
    rewrite (check_step _ _ _ _ _ HL Hn). f_equal. unfold item_size, toks_size. cbn [toks foldr]. lia.
  - intros f off d R Hd Hfit HL Hn. cbn [toks app length Nat.add] in *. by rewrite (check_step _ _ _ _ _ HL).
  - intros n l IH f off d R Hd Hfit HL Hn. unfold fits, INT_MAX in Hfit. cbn [toks app length Nat.add] in *.
    fold (toks_of l) in *. apply Forall_cons_1 in Hn as [Hn1 Hn]. apply Forall_app in Hn as [Hn _].
    rewrite length_app in *. simpl length in *. rewrite (check_step _ _ _ _ _ HL Hn1).
    rewrite u32_small by lia. replace (INT_MAX <? d + 1) with false by (unfold INT_MAX; lia).
    replace (d + 1 =? 1) with false by lia. cbn [andb]. destruct HL as [_ HL]. rewrite <- app_assoc in HL.
    rewrite <- Nat.add_assoc, (IH _ _ _ (Tend :: R)); [|lia|unfold fits, INT_MAX; lia|done|done].
    apply toks_at_app in HL as [_ HL]. cbn [Nat.add].
    rewrite (check_step _ _ _ _ _ HL I). replace (d + 1 =? 0) with false by lia.
    replace (d + 1 - 1) with d by lia. replace (d =? 0) with false by lia. f_equal. rewrite item_size_node, tok_size_end.
    unfold items_size. lia.
  - intros f off d R Hd Hfit HL Hn. unfold items_size, toks_size. cbn. by rewrite Z.add_0_r.
  - intros i l IHi IHl f off d R Hd Hfit HL Hn. unfold named in Hn. rewrite toks_of_cons in *. unfold fits in *.
    rewrite length_app in *. apply Forall_app in Hn as [Hn1 Hn2]. rewrite <- app_assoc in HL.
    rewrite <- Nat.add_assoc, (IHi _ _ _ (toks_of l ++ R)); [|lia|unfold fits; lia|done|done].
    apply toks_at_app in HL as [_ HL]. rewrite (IHl _ _ _ R); [|lia|unfold fits; lia|done|done].
    f_equal. rewrite items_size_cons. lia.
Qed.

(** The top level. *)
Lemma check_top l f off :
  toks_at b off (toks_of l ++ [Tfin]) -> fits 1 (toks_of l) -> named l -> one_root l -> (length (toks_of l) < f)%nat ->
  check_full_loop f b off 0 false = Ret 0.
Proof.
  revert f off. induction l as [|i l IH]; intros f off HL Hfit Hn Hr Hf; (destruct f as [|f]; [lia|]).
  - by rewrite (check_step _ _ _ _ _ HL I).
  - unfold named, fits, INT_MAX in *. rewrite toks_of_cons in *. rewrite length_app in *. apply Forall_app in Hn as [Hn1 Hn2].
    rewrite <- app_assoc in HL. destruct i as [no dat| |n k]; cbn [toks app length one_root] in *.
    + apply Forall_cons_1 in Hn1 as [Hn1 _]. rewrite (check_step _ _ _ _ _ HL Hn1). apply IH; [by destruct HL|lia|done|done|lia].
    + rewrite (check_step _ _ _ _ _ HL I). apply IH; [by destruct HL|lia|done|done|lia].
    + destruct Hr as [-> ->]. rewrite (check_step _ _ _ _ _ HL I). 
      change (u32 (0 + 1)) with 1. change (INT_MAX <? 1) with false. rewrite bool_decide_eq_true_2 by done.
      cbn [Z.eqb Pos.eqb andb negb]. fold (toks_of k) in *.
      apply Forall_cons_1 in Hn1 as [_ Hn1]. apply Forall_app in Hn1 as [Hn1 _]. rewrite length_app in *. simpl length in *.
      destruct HL as [_ HL]. rewrite <- app_assoc in HL.
      replace f with (length (toks_of k) + (f - length (toks_of k)))%nat by lia.
      rewrite (check_forest k _ _ _ ([Tend] ++ toks_of [] ++ [Tfin])); [|lia|unfold fits, INT_MAX; lia|done|done].
      apply toks_at_app in HL as [_ HL]. destruct (f - length (toks_of k))%nat as [|f'] eqn:Ef; [lia|].
      cbn [app] in HL. fold (items_size k) in HL. rewrite (check_step _ _ _ _ _ HL I). cbn [Z.eqb Z.sub Z.add Z.opp Z.pos_sub].
      destruct f' as [|f']; [lia|]. destruct HL as [_ [Ha _]]. cbn [check_full_loop].
      rewrite (next_tag_eq b Hh _ _ Ha). cbn [obind]. apply tok_at_bounds in Ha as Hbd. pose proof (tok_size_bounds Tfin).
      replace (_ <? 0) with false by lia. done.
Qed.

End code.
End check.
