(* ===== verification/FdtDemo.v ===== *)
(** * A device tree in bytes

    The part of QEMU's [virt] tree the platform reads, laid out as a version 17
    blob: the witnesses of the device-tree theorems run libfdt on it. *)
From stdpp Require Import base numbers list strings.
From Stdlib Require Import ZArith Lia.
From S2P Require Import Prelude Fdt FdtRo FdtSafe FdtTree FdtCheck.

Local Open Scope Z_scope.

(** ** Bytes of tokens *)

Definition cell (v : Z) : list Z := [u8 (v / 2^24); u8 (v / 2^16); u8 (v / 2^8); u8 v].
Definition pad (l : list Z) : list Z := l ++ repeat 0 (Z.to_nat (align4 (len l) - len l)).
Definition tok_bytes (t : token) : list Z :=
  match t with
  | Tbegin n => cell FDT_BEGIN_NODE ++ pad (n ++ [0])
  | Tend => cell FDT_END_NODE
  | Tprop no d => cell FDT_PROP ++ cell (len d) ++ cell no ++ pad d
  | Tnop => cell FDT_NOP
  | Tfin => cell FDT_END
  end.

(** A blob at [addr] with the given strings block and structure block, no memory
    reservation, and one byte of memory behind it. *)
Definition blob_bytes (strings : list Z) (L : list token) : list Z :=
  let st := flat_map tok_bytes L in
  let off_strings := 56 + len st in
  cell FDT_MAGIC ++ cell (off_strings + len strings) ++ cell 56 ++ cell off_strings ++ cell 40 ++
  cell 17 ++ cell 16 ++ cell 0 ++ cell (len strings) ++ cell (len st) ++
  repeat 0 16 ++ st ++ strings ++ [0].

(** ** The tree *)

Definition str0 (s : string) : list Z := chars s ++ [0].
Definition prop_names : list string :=
  ["compatible"; "reg"; "interrupts"; "phandle"; "riscv,ndev"; "timebase-frequency"; "#address-cells"]%string.
Definition strings_block : list Z := flat_map str0 prop_names.
Fixpoint name_offset (names : list string) (s : string) : Z :=
  match names with
  | [] => 0
  | n :: names' => if String.eqb n s then 0 else len (str0 n) + name_offset names' s
  end.
Definition prop (s : string) (d : list Z) : item := Prop_ (name_offset prop_names s) d.

Definition virt_tree : list item :=
  Eval vm_compute in
  [Node [] [
     prop "#address-cells" (cell 2);
     prop "compatible" (str0 "riscv-virtio");
     Node (chars "cpus") [prop "timebase-frequency" (cell 10000000); Nop];
     Node (chars "soc") [
       Node (chars "plic@c000000") [
         prop "phandle" (cell 3);
         prop "riscv,ndev" (cell 95);
         prop "reg" (cell 0 ++ cell 201326592 ++ cell 0 ++ cell 6291456);
         prop "compatible" (str0 "sifive,plic-1.0.0" ++ str0 "riscv,plic0")];
       Node (chars "serial@10000000") [
         prop "interrupts" (cell 10);
         prop "reg" (cell 0 ++ cell 268435456 ++ cell 0 ++ cell 256);
         prop "compatible" (str0 "ns16550a")]]]].

Definition virt_blob : blob :=
  Eval vm_compute in
  {| b_addr := 2183135232; b_bytes := blob_bytes strings_block (toks_of virt_tree ++ [Tfin]) |}.

(** ** It holds the tree *)

Lemma virt_sane : sane virt_blob.
Proof. split; vm_compute; (reflexivity || discriminate). Qed.
Lemma virt_dtb : dtb virt_blob virt_tree.
Proof.
  split.
  - split; [exact virt_sane|..]; vm_compute; (reflexivity || discriminate).
  - cbn [toks_of virt_tree flat_map toks app toks_at].
    repeat split; vm_compute; reflexivity.
Qed.
Lemma virt_checks : fdt_check_full virt_blob 4096 = Ret 0.
Proof. vm_compute. reflexivity. Qed.
