(* ===== verification/FdtPath.v ===== *)
(** * The path of a node

    [fdt_get_path] walks from the root to the node and keeps the names of the
    nodes above it in the caller's buffer, as far as they fit.  On a blob that
    holds a tree the result is the path of the node, and [fdt_path_offset] leads
    back from it. *)
From stdpp Require Import base numbers list strings.
From Stdlib Require Import ZArith Lia.
From S2P Require Import Prelude Fdt FdtRo FdtSafe FdtTree FdtUp FdtCheck FdtDemo.

Local Open Scope Z_scope.
Local Open Scope fdt_scope.

(** ** Paths as lists of names *)

Definition names : Type := list (list Z).
Definition size (P : names) : Z := Z.of_nat (length P).

(** Each name with a slash behind it, as in the buffer of [fdt_get_path], and the
    path it returns. *)
Definition text (P : names) : list Z := concat (map (fun n => n ++ [47]) P).
Definition path_string (P : names) : list Z := if 1 <? len (text P) then removelast (text P) else text P.

(** As many names as fit into [room] bytes. *)
Fixpoint fit (room : Z) (P : names) : names :=
  match P with
  | [] => []
  | n :: P' => if len n + 1 <=? room then n :: fit (room - (len n + 1)) P' else []
  end.

Lemma text_app P Q : text (P ++ Q) = text P ++ text Q.
Proof. unfold text. by rewrite map_app, concat_app. Qed.
Lemma text_one n : text [n] = n ++ [47].
Proof. unfold text. simpl. by rewrite app_nil_r. Qed.
Lemma len_app l l' : len (l ++ l') = len l + len l'.
Proof. unfold len. rewrite length_app. lia. Qed.
Lemma len_text_cons n P : len (text (n :: P)) = len n + 1 + len (text P).
Proof. change (n :: P) with ([n] ++ P). by rewrite text_app, text_one, !len_app. Qed.

Lemma fit_all room P : 0 <= room -> len (text P) <= room -> fit room P = P.
Proof.
  revert room. induction P as [|n P IH]; intros room H0 H; [done|]. rewrite len_text_cons in H. cbn [fit].
  pose proof (len_nonneg (text P)). replace (len n + 1 <=? room) with true by lia. f_equal. apply IH; lia.
Qed.
Lemma fit_app room P Q : 0 <= room ->
  fit room (P ++ Q) = if len (text P) <=? room then P ++ fit (room - len (text P)) Q else fit room P.
Proof.
  revert room. induction P as [|n P IH]; intros room H0.
  { cbn [app]. change (len (text [])) with 0. rewrite Z.sub_0_r. by replace (0 <=? room) with true by lia. }
  rewrite len_text_cons. cbn [app fit]. pose proof (len_nonneg (text P)). pose proof (len_nonneg n).
  destruct (len n + 1 <=? room) eqn:E; [|by replace (_ <=? room) with false by lia].
  rewrite IH by lia. destruct (Z.leb_spec (len (text P)) (room - (len n + 1))).
  - replace (len n + 1 + len (text P) <=? room) with true by lia. cbn [app]. do 3 f_equal. lia.
  - by replace (len n + 1 + len (text P) <=? room) with false by lia.
Qed.
Lemma fit_prefix room P : fit room P `prefix_of` P.
Proof.
  revert room. induction P as [|n P IH]; intros room; [by exists []|]. cbn [fit].
  destruct (_ <=? _); [apply prefix_cons, IH|by eexists].
Qed.
Lemma fit_short room P : 0 <= room -> room < len (text P) -> size (fit room P) < size P.
Proof.
  unfold size. revert room. induction P as [|n P IH]; intros room H0 H; [change (len (text [])) with 0 in H; lia|]. rewrite len_text_cons in H. cbn [fit].
  destruct (len n + 1 <=? room) eqn:E; cbn [length]; [|lia]. specialize (IH (room - (len n + 1)) ltac:(lia) ltac:(lia)). lia.
Qed.

(** ** Going up in the buffer *)

Definition no_slash (n : list Z) : Prop := 47 ∉ n.

Lemma text_last P : P <> [] -> exists r, rev (text P) = 47 :: r.
Proof.
  intros HP. destruct (exists_last HP) as (Q & n & ->). rewrite text_app, text_one, app_assoc, rev_app_distr. by eexists.
Qed.
Lemma back_to_slash_eq n r : 47 ∉ n -> back_to_slash (n ++ 47 :: r) = Ret (47 :: r).
Proof.
  induction n as [|c n IH]; intros H; [done|]. apply not_elem_of_cons in H as [Hc H]. cbn [app back_to_slash].
  replace (c =? 47) with false by lia. by apply IH.
Qed.
Lemma pop_component_eq P n : P <> [] -> no_slash n -> pop_component (rev (text (P ++ [n]))) = Ret (rev (text P)).
Proof.
  intros HP Hn. destruct (text_last P HP) as [r Er]. rewrite text_app, text_one, app_assoc, rev_app_distr, rev_app_distr.
  cbn [rev app pop_component]. rewrite Er. apply back_to_slash_eq. by rewrite list_elem_of_In, <- in_rev, <- list_elem_of_In.
Qed.
Lemma pop_components_eq P Q :
  P <> [] -> Forall no_slash Q -> pop_components (length Q) (rev (text (P ++ Q))) = Ret (rev (text P)).
Proof.
  intros HP HQ. remember (length Q) as k eqn:Ek. revert Q Ek HQ.
  induction k as [|k IH]; intros Q Ek HQ; [destruct Q; [|done]; by rewrite app_nil_r|].
  destruct (exists_last (l := Q)) as (Q' & n & ->); [by destruct Q|]. apply Forall_app in HQ as [HQ Hn].
  rewrite length_app in Ek. simpl in Ek. cbn [pop_components]. rewrite app_assoc, pop_component_eq; cbn [obind].
  - apply IH; [lia|done].
  - by destruct P.
  - by inversion Hn.
Qed.

(** ** The way to each node *)

(** In preorder, each node of a forest below [up] with the names on the way to it,
    its own the last. *)
Fixpoint routes_of (up : names) (off : Z) (i : item) : list (Z * names) :=
  match i with
  | Node n l =>
    (off, up ++ [n]) ::
    (fix go (up : names) (o : Z) (l : list item) := match l with [] => [] | i :: l => routes_of up o i ++ go up (o + item_size i) l end)
      (up ++ [n]) (off + tok_size (Tbegin n)) l
  | _ => []
  end.
Fixpoint routes (up : names) (off : Z) (l : list item) : list (Z * names) :=
  match l with [] => [] | i :: l => routes_of up off i ++ routes up (off + item_size i) l end.
Lemma routes_of_node up off n l :
  routes_of up off (Node n l) = (off, up ++ [n]) :: routes (up ++ [n]) (off + tok_size (Tbegin n)) l.
Proof. reflexivity. Qed.

Definition depth_on (x : Z * names) : Z * Z := (x.1, size x.2 - 1).
Lemma size_snoc (P : names) n : size (P ++ [n]) = size P + 1.
Proof. unfold size. rewrite length_app. simpl. lia. Qed.
Lemma routes_dnodes : forall l up off, map depth_on (routes up off l) = dnodes (size up) off l.
Proof.
  apply (items_ind (fun i => forall up off, map depth_on (routes_of up off i) = dnodes_of (size up) off i)
    (fun l => forall up off, map depth_on (routes up off l) = dnodes (size up) off l)); try done.
  - intros n l IH up off. rewrite routes_of_node, dnodes_of_node. cbn [map]. rewrite IH, size_snoc.
    unfold depth_on. cbn [fst snd]. rewrite size_snoc. do 2 f_equal. lia.
  - intros i l IHi IHl up off. cbn [routes dnodes]. by rewrite map_app, IHi, IHl.
Qed.
Lemma routes_bounds l up off o P : (o, P) ∈ routes up off l -> off <= o < off + items_size l.
Proof.
  intros H. apply (list_elem_of_fmap_2 depth_on) in H. change (depth_on <$> routes up off l) with (map depth_on (routes up off l)) in H.
  rewrite routes_dnodes in H. by apply dnodes_bounds in H as [H _].
Qed.
Lemma routes_bounds_of i up off o P : (o, P) ∈ routes_of up off i -> off <= o < off + item_size i.
Proof.
  intros H. pose proof (routes_bounds [i] up off o P) as HB. cbn [routes] in HB. rewrite app_nil_r, items_size_cons in HB.
  specialize (HB H). change (items_size []) with 0 in HB. lia.
Qed.

(** ** The walk *)

Section walk.
Context (target buflen : Z) (Hbuf : 0 <= buflen).

(** What the loop does with the buffer at a node of depth [d] and name [n]; the
    state is [pdepth] and the buffer. *)
Definition visit (st : Z * list Z) (d : Z) (n : list Z) : outcome (Z * list Z) :=
  let! rbuf := pop_components (Z.to_nat (st.1 - d)) st.2 in
  let pdepth := Z.min st.1 d in
  Ret (if (d <=? pdepth) && (len rbuf + len n + 1 <=? buflen) then (pdepth + 1, 47 :: rev n ++ rbuf) else (pdepth, rbuf)).
Definition stop (st : Z * list Z) (d : Z) : Z * list Z :=
  if st.1 <? d + 1 then (- FDT_ERR_NOSPACE, []) else (0, rev (if (1 <? length st.2)%nat then tail st.2 else st.2)).

(** The loop over nodes, each with the names on the way to it. *)
Fixpoint pwalk (N : list (Z * names)) (st : Z * list Z) : outcome (Z * list Z) :=
  match N with
  | [] => Ret (- FDT_ERR_BADOFFSET, [])
  | (x, P) :: N' =>
    let d := size P - 1 in
    let! st := visit st d (default [] (last P)) in
    if x =? target then Ret (stop st d) else pwalk N' st
  end.

(** The state behind a node with the names [P]. *)
Definition state (P : names) : Z * list Z := (size (fit buflen P), rev (text (fit buflen P))).

Lemma visit_root n : visit (0, []) 0 n = Ret (state [n]).
Proof.
  unfold visit, state. cbn [fst snd fit]. change (Z.to_nat (0 - 0)) with 0%nat. cbn [pop_components obind].
  change (len []) with 0. rewrite Z.add_0_l. change (0 <=? 0 `min` 0) with true. cbn [andb].
  destruct (len n + 1 <=? buflen); [|done]. by rewrite text_one, rev_app_distr, app_nil_r.
Qed.
Lemma visit_next Q up n :
  up <> [] -> up `prefix_of` Q -> Forall no_slash Q -> visit (state Q) (size up) n = Ret (state (up ++ [n])).
Proof.
  intros Hup [Q' ->] HQ. unfold visit, state. cbn [fst snd]. rewrite !fit_app by done.
  destruct (Z.leb_spec (len (text up)) buflen) as [Hle|Hlt].
  - set (F := fit (buflen - len (text up)) Q'). assert (HF : Forall no_slash F).
    { destruct (fit_prefix (buflen - len (text up)) Q') as [G EG]. fold F in EG. rewrite EG in HQ.
      apply Forall_app in HQ as [_ HQ]. by apply Forall_app in HQ as [HQ _]. }
    unfold size. rewrite length_app. replace (Z.to_nat _) with (length F) by lia.
    rewrite pop_components_eq by done. cbn [obind]. replace (Z.min _ _) with (Z.of_nat (length up)) by lia. rewrite Z.leb_refl.
    cbn [andb fit]. unfold len at 1. rewrite length_rev. fold (len (text up)).
    replace (len n + 1 <=? buflen - len (text up)) with (len (text up) + len n + 1 <=? buflen) by lia.
    destruct (_ <=? buflen).
    + rewrite length_app, text_app, text_one, !rev_app_distr. cbn [length rev app]. do 2 f_equal. lia.
    + by rewrite !(app_nil_r up).
  - pose proof (fit_short buflen up Hbuf Hlt). replace (Z.to_nat _) with 0%nat by lia. cbn [pop_components obind].
    replace (Z.min _ _) with (size (fit buflen up)) by lia. by replace (size up <=? _) with false by lia.
Qed.

Definition slashless (N : list (Z * names)) : Prop := forall x, x ∈ N -> Forall no_slash x.2.
Lemma slashless_cons x N : slashless (x :: N) -> Forall no_slash x.2 /\ slashless N.
Proof. intros H. split; [apply H, list_elem_of_here|]. intros y Hy. apply H. by apply list_elem_of_further. Qed.
Lemma slashless_app N N' : slashless (N ++ N') -> slashless N /\ slashless N'.
Proof. intros H. split; intros x Hx; apply H, elem_of_app; auto. Qed.

Lemma pwalk_node Q up off n N :
  up <> [] -> up `prefix_of` Q -> Forall no_slash Q ->
  pwalk ((off, up ++ [n]) :: N) (state Q) =
  if off =? target then Ret (stop (state (up ++ [n])) (size up)) else pwalk N (state (up ++ [n])).
Proof.
  intros Hup Hpre HQ. cbn [pwalk]. rewrite size_snoc, last_snoc, Z.add_simpl_r. cbn [default].
  by rewrite visit_next.
Qed.
Lemma snoc_not_nil {A} (P : list A) n : P ++ [n] <> [].
Proof. by destruct P. Qed.

(** Behind a forest without the target, the state is the one of some node of it or
    still the old one. *)
Lemma pwalk_pass : forall l up off N Q,
  up <> [] -> up `prefix_of` Q -> Forall no_slash Q -> slashless (routes up off l) ->
  (forall o P, (o, P) ∈ routes up off l -> o <> target) ->
  exists Q', up `prefix_of` Q' /\ Forall no_slash Q' /\ pwalk (routes up off l ++ N) (state Q) = pwalk N (state Q').
Proof.
  apply (items_ind (fun i => forall up off N Q,
      up <> [] -> up `prefix_of` Q -> Forall no_slash Q -> slashless (routes_of up off i) ->
      (forall o P, (o, P) ∈ routes_of up off i -> o <> target) ->
      exists Q', up `prefix_of` Q' /\ Forall no_slash Q' /\ pwalk (routes_of up off i ++ N) (state Q) = pwalk N (state Q'))
    (fun l => forall up off N Q,
      up <> [] -> up `prefix_of` Q -> Forall no_slash Q -> slashless (routes up off l) ->
      (forall o P, (o, P) ∈ routes up off l -> o <> target) ->
      exists Q', up `prefix_of` Q' /\ Forall no_slash Q' /\ pwalk (routes up off l ++ N) (state Q) = pwalk N (state Q'))).
  1,2,4: intros; by eexists.
  - intros n l IH up off N Q Hup Hpre HQ Hsl Ht. rewrite routes_of_node in *. apply slashless_cons in Hsl as [Hn Hsl].
    cbn [app]. rewrite pwalk_node by done. pose proof (Ht off _ (list_elem_of_here _ _)). replace (off =? target) with false by lia.
    destruct (IH (up ++ [n]) (off + tok_size (Tbegin n)) N (up ++ [n]) (snoc_not_nil _ _)) as (Q' & H1 & H2 & H3); try done.
    { intros o P H'. eapply Ht. by apply list_elem_of_further. }
    exists Q'. split; [by apply prefix_app_l in H1|]. done.
  - intros i l IHi IHl up off N Q Hup Hpre HQ Hsl Ht. cbn [routes] in *. apply slashless_app in Hsl as [Hsi Hsl]. rewrite <- app_assoc.
    destruct (IHi up off (routes up (off + item_size i) l ++ N) Q) as (Q' & H1 & H2 & ->); try done.
    { intros o P H'. eapply Ht, elem_of_app. by left. }
    apply IHl; try done. intros o P H'. eapply Ht, elem_of_app. by right.
Qed.
Lemma pwalk_finds : forall l up off N Q P,
  up <> [] -> up `prefix_of` Q -> Forall no_slash Q -> slashless (routes up off l) ->
  (target, P) ∈ routes up off l -> pwalk (routes up off l ++ N) (state Q) = Ret (stop (state P) (size P - 1)).
Proof.
  apply (items_ind (fun i => forall up off N Q P,
      up <> [] -> up `prefix_of` Q -> Forall no_slash Q -> slashless (routes_of up off i) ->
      (target, P) ∈ routes_of up off i -> pwalk (routes_of up off i ++ N) (state Q) = Ret (stop (state P) (size P - 1)))
    (fun l => forall up off N Q P,
      up <> [] -> up `prefix_of` Q -> Forall no_slash Q -> slashless (routes up off l) ->
      (target, P) ∈ routes up off l -> pwalk (routes up off l ++ N) (state Q) = Ret (stop (state P) (size P - 1)))).
  - intros no d up off N Q P _ _ _ _ H. by apply elem_of_nil in H.
  - intros up off N Q P _ _ _ _ H. by apply elem_of_nil in H.
  - intros n l IH up off N Q P Hup Hpre HQ Hsl H. rewrite routes_of_node in *. apply slashless_cons in Hsl as [Hn Hsl].
    cbn [app]. rewrite pwalk_node by done. apply elem_of_cons in H as [[= -> ->]|H].
    + by rewrite Z.eqb_refl, size_snoc, Z.add_simpl_r.
    + pose proof (routes_bounds _ _ _ _ _ H). pose proof (tok_size_bounds (Tbegin n)). replace (off =? target) with false by lia.
      by apply IH; [apply snoc_not_nil|..].
  - intros up off N Q P _ _ _ _ H. by apply elem_of_nil in H.
  - intros i l IHi IHl up off N Q P Hup Hpre HQ Hsl H. cbn [routes] in *. apply slashless_app in Hsl as [Hsi Hsl]. rewrite <- app_assoc.
    apply elem_of_app in H as [H|H]; [by apply IHi|].
    destruct (pwalk_pass [i] up off (routes up (off + item_size i) l ++ N) Q) as (Q' & H1 & H2 & H3); try done;
      cbn [routes] in *; rewrite ?app_nil_r in *; try done.
    + intros o P' H'. apply routes_bounds in H. apply routes_bounds_of in H'. lia.
    + rewrite H3. by apply IHl.
Qed.
End walk.

Lemma stop_fits buflen P :
  0 <= buflen ->
  stop (state buflen P) (size P - 1) =
  if buflen <? len (text P) then (- FDT_ERR_NOSPACE, []) else (0, path_string P).
Proof.
  intros Hbuf. unfold stop, state. cbn [fst snd]. rewrite Z.sub_add. destruct (Z.ltb_spec buflen (len (text P))) as [Hlt|Hle].
  - pose proof (fit_short buflen P Hbuf Hlt). by replace (_ <? _) with true by lia.
  - rewrite fit_all by done. rewrite Z.ltb_irrefl. f_equal. unfold path_string, len. rewrite length_rev.
    replace (1 <? length (text P))%nat with (1 <? Z.of_nat (length (text P))); cycle 1.
    { destruct (Z.ltb_spec 1 (Z.of_nat (length (text P)))), (Nat.ltb_spec 1 (length (text P))); done || lia. }
    destruct (_ <? _) eqn:E; [|apply rev_involutive]. destruct (text P) as [|c r _] using rev_ind; [done|].
    rewrite rev_app_distr. cbn [rev app tail]. by rewrite rev_involutive, removelast_last.
Qed.

(** ** Names that make paths unique *)

(** A name that is one component of a path. *)
Definition plain (n : list Z) : bool := negb (bool_decide (n = [])) && bool_decide (47 ∉ n).
(** No name is answered by an earlier sibling. *)
Fixpoint distinct (ks : list node) : bool :=
  match ks with
  | [] => true
  | (_, (n, _)) :: ks' => forallb (fun x => negb (name_matches x.2.1 n)) ks' && distinct ks'
  end.
Definition good (x : node) : bool :=
  let ks := kids (x.1 + tok_size (Tbegin x.2.1)) x.2.2 in forallb (fun k => plain k.2.1) ks && distinct ks.
Definition well_named (root : item) : bool := forallb good (nodes_of 0 root).

Lemma name_matches_refl n : name_matches n n = true.
Proof.
  unfold name_matches. generalize (bool_decide (64 ∉ n)). intros ok. induction n as [|c n IH]; [done|]. simpl. by rewrite Z.eqb_refl.
Qed.
Lemma find_kid_distinct ks c n k : distinct ks = true -> (c, (n, k)) ∈ ks -> find_kid n ks = Some (c, n, k).
Proof.
  unfold find_kid. induction ks as [|[c' [n' k']] ks IH]; intros Hd Hin; [by apply elem_of_nil in Hin|].
  cbn [distinct] in Hd. apply andb_prop in Hd as [Hm Hd]. cbn [find_kid_with]. apply elem_of_cons in Hin as [[= -> -> ->]|Hin].
  - by rewrite name_matches_refl.
  - rewrite forallb_forall in Hm. pose proof (Hm _ (proj1 (list_elem_of_In _ _) Hin)) as Hn. cbn [fst snd] in Hn.
    apply negb_true_iff in Hn. rewrite Hn. by apply IH.
Qed.

(** The names on the way lead to the node. *)
Lemma resolve_routes : forall l up off o P,
  (forall x, x ∈ nodes off l -> good x = true) -> (o, P) ∈ routes up off l ->
  exists c n k Q, (c, (n, k)) ∈ kids off l /\ P = up ++ n :: Q /\ resolve c n k Q = o /\ Forall (fun n => plain n = true) Q.
Proof.
  apply (items_ind (fun i => forall up off o P,
      (forall x, x ∈ nodes_of off i -> good x = true) -> (o, P) ∈ routes_of up off i ->
      exists n k Q, i = Node n k /\ P = up ++ n :: Q /\ resolve off n k Q = o /\ Forall (fun n => plain n = true) Q)
    (fun l => forall up off o P,
      (forall x, x ∈ nodes off l -> good x = true) -> (o, P) ∈ routes up off l ->
      exists c n k Q, (c, (n, k)) ∈ kids off l /\ P = up ++ n :: Q /\ resolve c n k Q = o /\ Forall (fun n => plain n = true) Q)).
  - intros no d up off o P _ H. by apply elem_of_nil in H.
  - intros up off o P _ H. by apply elem_of_nil in H.
  - intros n l IH up off o P Hg H. exists n, l. rewrite routes_of_node in H. rewrite nodes_of_node in Hg.
    apply elem_of_cons in H as [[= -> ->]|H]; [by exists []|].
    destruct (IH _ _ _ _ (fun x Hx => Hg x (list_elem_of_further _ _ _ Hx)) H) as (c & n' & k & Q & Hk & -> & HR & HQ).
    pose proof (Hg _ (list_elem_of_here _ _)) as Hn. unfold good in Hn. cbn [fst snd] in Hn. apply andb_prop in Hn as [Hp Hds].
    exists (n' :: Q). split; [done|]. split; [by rewrite <- app_assoc|]. split; [cbn [resolve]; by rewrite (find_kid_distinct _ _ _ _ Hds Hk)|].
    constructor; [|done]. rewrite forallb_forall in Hp. by apply list_elem_of_In, Hp in Hk.
  - intros up off o P _ H. by apply elem_of_nil in H.
  - intros i l IHi IHl up off o P Hg H. cbn [routes nodes kids] in *. apply elem_of_app in H as [H|H].
    + destruct (IHi up off o P) as (n & k & Q & -> & ? & ? & ?); [intros x Hx; apply Hg, elem_of_app; by left|done|].
      exists off, n, k, Q. split; [|done]. apply list_elem_of_here.
    + destruct (IHl up (off + item_size i) o P) as (c & n & k & Q & Hk & ? & ? & ?); [intros x Hx; apply Hg, elem_of_app; by right|done|].
      exists c, n, k, Q. split; [|done]. apply elem_of_app. by right.
Qed.
Lemma resolve_route n l o P :
  well_named (Node n l) = true -> (o, P) ∈ routes_of [] 0 (Node n l) ->
  exists Q, P = n :: Q /\ resolve 0 n l Q = o /\ Forall (fun n => plain n = true) Q.
Proof.
  intros Hw H. destruct (resolve_routes [Node n l] [] 0 o P) as (c & n' & k & Q & Hk & -> & HR & HQ).
  - intros x Hx. cbn [nodes] in Hx. rewrite app_nil_r in Hx. unfold well_named in Hw. rewrite forallb_forall in Hw.
    by apply Hw, list_elem_of_In.
  - cbn [routes]. by rewrite app_nil_r.
  - cbn [kids app] in Hk. apply list_elem_of_singleton in Hk as [= -> -> ->]. by exists Q.
Qed.
Lemma plain_no_slash Q : Forall (fun n => plain n = true) Q -> Forall no_slash Q.
Proof. intros H. apply (Forall_impl _ _ _ H). intros n Hn. apply andb_prop in Hn as [_ Hn]. by apply bool_decide_eq_true in Hn. Qed.

(** Splitting the path gives the names back. *)
Lemma split_name n r : 47 ∉ n -> split 47 (n ++ 47 :: r) = n :: split 47 r.
Proof.
  induction n as [|c n IH]; intros H; [done|]. apply not_elem_of_cons in H as [Hc H]. cbn [app split].
  replace (c =? 47) with false by lia. by rewrite IH.
Qed.
Lemma split_last n : 47 ∉ n -> split 47 n = [n].
Proof.
  induction n as [|c n IH]; intros H; [done|]. apply not_elem_of_cons in H as [Hc H]. cbn [split].
  replace (c =? 47) with false by lia. by rewrite IH.
Qed.
Lemma split_text Q : Q <> [] -> Forall no_slash Q -> split 47 (removelast (text Q)) = Q.
Proof.
  induction Q as [|n Q IH]; intros HQ HF; [done|]. apply Forall_cons_1 in HF as [Hn HF].
  change (n :: Q) with ([n] ++ Q). rewrite text_app, text_one. destruct Q as [|n' Q].
  - rewrite app_nil_r, removelast_last. by apply split_last.
  - assert (text (n' :: Q) <> []) as Ht by (intros E; pose proof (len_text_cons n' Q) as Hl; rewrite E in Hl;
      pose proof (len_nonneg n'); pose proof (len_nonneg (text Q)); change (len []) with 0 in Hl; lia).
    rewrite removelast_app by done. rewrite <- app_assoc. cbn [app]. rewrite split_name by done. f_equal. by apply IH.
Qed.
Lemma path_components Q : Forall (fun n => plain n = true) Q ->
  exists p, path_string ([] :: Q) = 47 :: p /\ components p = Q.
Proof.
  intros HQ. pose proof (plain_no_slash Q HQ) as Hs. unfold path_string. change (text ([] :: Q)) with (47 :: text Q).
  destruct Q as [|n Q]; [by exists []|]. pose proof (len_text_cons n Q) as Hl. pose proof (len_nonneg n). pose proof (len_nonneg (text Q)).
  assert (Hl' : len (47 :: text (n :: Q)) = 1 + len (text (n :: Q))) by (unfold len; cbn [length]; lia).
  replace (1 <? _) with true by lia. destruct (text (n :: Q)) as [|c r] eqn:Et; [change (len []) with 0 in Hl; lia|].
  change (removelast (47 :: c :: r)) with (47 :: removelast (c :: r)). eexists. split; [done|].
  rewrite <- Et. unfold components. rewrite split_text by done. clear -HQ. induction HQ as [|x Q' Hx _ IH]; [done|].
  cbn [List.filter]. apply andb_prop in Hx as [-> _]. by f_equal.
Qed.

(** ** The code *)

Section code.
Context (b : blob) (Hh : fdt_ok b).

Definition begins_at (x : Z * names) : Prop := tok_at b x.1 (Tbegin (default [] (last x.2))).

Lemma get_path_loop_eq f target buflen start P N pdepth rbuf :
  visits_deep b start (size P - 1) (map depth_on N) -> target ∈ start :: map fst N -> 0 <= start ->
  (length N < f)%nat -> Forall begins_at ((start, P) :: N) ->
  get_path_loop f b target buflen start (size P - 1) pdepth rbuf = pwalk target buflen ((start, P) :: N) (pdepth, rbuf).
Proof.
  revert start P N pdepth rbuf. induction f as [|f IH]; intros start P N pdepth rbuf HN Hin H0 Hf HB; [lia|].
  apply Forall_cons_1 in HB as [Hb HB]. unfold begins_at in Hb. cbn [fst snd] in Hb. cbn [get_path_loop].
  assert (Hle : start <= target).
  { apply elem_of_cons in Hin as [->|Hin]; [lia|]. apply list_elem_of_fmap in Hin as ([o Q] & -> & Hin).
    apply (list_elem_of_fmap_2 depth_on) in Hin. change (depth_on (o, Q)) with (o, size Q - 1) in Hin. pose proof (visits_deep_lt _ _ _ _ _ _ HN Hin). simpl. lia. }
  replace ((0 <=? start) && (start <=? target)) with true by lia. cbn [negb].
  change (pwalk target buflen ((start, P) :: N) (pdepth, rbuf)) with
    (let! st := visit buflen (pdepth, rbuf) (size P - 1) (default [] (last P)) in
     if start =? target then Ret (stop st (size P - 1)) else pwalk target buflen N st).
  unfold visit. cbn [fst snd]. destruct (pop_components _ rbuf) as [r| | |]; cbn [obind]; try done.
  set (n := default [] (last P)) in *. rewrite (get_name_eq b Hh _ _ Hb).
  set (pd := pdepth `min` (size P - 1)). fold (len r). set (d := size P - 1) in *.
  assert (HK : forall st : Z * list Z,
    (if start =? target then
       if st.1 <? d + 1 then Ret (- FDT_ERR_NOSPACE, []) else Ret (0, rev (if (1 <? length st.2)%nat then tail st.2 else st.2))
     else let! (offset, depth) := fdt_next_node b start (Some d) in
       get_path_loop f b target buflen offset (depth_of depth) st.1 st.2) =
    (if start =? target then Ret (stop st d) else pwalk target buflen N st)).
  { intros [pd' r']. unfold stop. cbn [fst snd]. destruct (start =? target) eqn:E; [by destruct (_ <? _)|].
    destruct N as [|[o Q] N]; [apply elem_of_cons in Hin as [->|Hin]; [lia|by apply elem_of_nil in Hin]|].
    destruct HN as (-> & Hlt & HN). cbn [fst snd] in Hlt, HN. cbn [obind depth_of default fst snd]. simpl in Hf.
    apply IH; [done| |lia|lia|done]. cbn [map fst] in Hin. apply elem_of_cons in Hin as [->|Hin]; [lia|done]. }
  destruct (d <=? pd) eqn:Ed; cbn [obind andb].
  - destruct (len r + len n + 1 <=? buflen) eqn:El; cbn [obind].
    + pose proof (tok_begin_str b Hh _ _ Hb) as [Hs Hlt]. destruct Hb as (_ & _ & _ & Hbytes & _).
      pose proof (tok_at_bounds b). pose proof (ts_bounds b (fo_sane _ Hh)) as [Hts Hext]. pose proof (hdr_range b H_off_dt_struct).
      rewrite (read_eq b) by (unfold len in *; lia). cbn [obind]. unfold len. rewrite Nat2Z.id.
      assert (bytes b (hdr b H_off_dt_struct + start + 4) (length n) = n) as ->.
      { rewrite bytes_app in Hbytes. apply app_inj_1 in Hbytes; [by destruct Hbytes|]. by rewrite bytes_length. }
      apply (HK (pd + 1, 47 :: rev n ++ r)).
    + apply (HK (pd, r)).
  - apply (HK (pd, r)).
Qed.

Lemma routes_begin : forall l up off o P, (o, P) ∈ routes up off l -> exists n k, last P = Some n /\ (o, (n, k)) ∈ nodes off l.
Proof.
  apply (items_ind (fun i => forall up off o P, (o, P) ∈ routes_of up off i -> exists n k, last P = Some n /\ (o, (n, k)) ∈ nodes_of off i)
    (fun l => forall up off o P, (o, P) ∈ routes up off l -> exists n k, last P = Some n /\ (o, (n, k)) ∈ nodes off l)).
  - intros no d up off o P H. by apply elem_of_nil in H.
  - intros up off o P H. by apply elem_of_nil in H.
  - intros n l IH up off o P H. rewrite routes_of_node in H. rewrite nodes_of_node. apply elem_of_cons in H as [[= -> ->]|H].
    + exists n, l. rewrite last_snoc. split; [done|apply list_elem_of_here].
    + destruct (IH _ _ _ _ H) as (n' & k & ? & ?). exists n', k. split; [done|by apply list_elem_of_further].
  - intros up off o P H. by apply elem_of_nil in H.
  - intros i l IHi IHl up off o P H. cbn [routes nodes] in *.
    apply elem_of_app in H as [H|H]; [apply IHi in H as (n & k & ? & ?)|apply IHl in H as (n & k & ? & ?)];
      exists n, k; (split; [done|]); apply elem_of_app; auto.
Qed.

Section of_tree.
Context (l rest : list item) (Hd : dtb b (Node [] l :: rest)) (Hw : well_named (Node [] l) = true).

Lemma get_path_tree o P buflen :
  (o, P) ∈ routes_of [] 0 (Node [] l) ->
  fdt_get_path b o buflen =
  Ret (if (buflen <? 2) || (buflen <? len (text P)) then (- FDT_ERR_NOSPACE, []) else (0, path_string P)).
Proof.
  intros H. pose proof (ts_bounds b (fo_sane _ Hh)) as [Hts _]. unfold fdt_get_path. rewrite (fdt_ro_probe_eq b Hh). cbn [obind].
  replace (hdr b H_totalsize <? 0) with false by lia. destruct (Z.ltb_spec buflen 2); cbn [orb]; [done|].
  destruct (visits_tree b Hh [] l rest Hd) as [HV HL]. change (0 + tok_size (Tbegin [])) with (tok_size (Tbegin [])) in *.
  set (N := routes [[]] (tok_size (Tbegin [])) l).
  assert (EN : map depth_on N = dnodes 1 (tok_size (Tbegin [])) l) by apply routes_dnodes.
  assert (ER : routes_of [] 0 (Node [] l) = (0, [[]]) :: N) by reflexivity. rewrite ER in H.
  rewrite (get_path_loop_eq _ o buflen 0 [[]] N 0 []).
  - cbn [pwalk]. change (size [[]] - 1) with 0. cbn [last default]. rewrite visit_root. cbn [obind].
    rewrite <- stop_fits by lia. apply elem_of_cons in H as [[= -> ->]|H]; [done|].
    pose proof (routes_bounds _ _ _ _ _ H) as HB. change (tok_size (Tbegin [])) with 8 in *. replace (0 =? o) with false by lia.
    rewrite <- (app_nil_r N). apply (pwalk_finds o buflen ltac:(lia) l [[]] 8 [] [[]] P); try done.
    + constructor; [|done]. by intros ?%elem_of_nil.
    + intros [x Q] Hx. assert (Hx' : (x, Q) ∈ routes_of [] 0 (Node [] l)) by (rewrite ER; by apply list_elem_of_further).
      destruct (resolve_route [] l x Q Hw Hx') as (Q' & -> & _ & HQ). constructor; [by intros ?%elem_of_nil|by apply plain_no_slash].
  - change (size [[]] - 1) with 0. by rewrite EN.
  - apply elem_of_cons in H as [[= -> ->]|H]; [apply list_elem_of_here|]. apply list_elem_of_further.
    by apply (list_elem_of_fmap_2 fst) in H.
  - lia.
  - rewrite <- EN, length_map in HL. exact HL.
  - apply Forall_forall. intros [x Q] Hx. change ((x, Q) ∈ routes_of [] 0 (Node [] l)) in Hx.
    destruct (routes_begin [Node [] l] [] 0 x Q) as (n & k & Hn & Hin); [cbn [routes]; by rewrite app_nil_r|].
    unfold begins_at. cbn [fst snd]. rewrite Hn. cbn [default]. cbn [nodes] in Hin. rewrite app_nil_r in Hin.
    destruct (dtb_node b _ Hd x n k) as (_ & R & [Ht _] & _); [cbn [nodes]; apply elem_of_app; by left|done].
Qed.
End of_tree.
End code.

(** ** Properties *)

Lemma nodes_routes : forall l up off o n k, (o, (n, k)) ∈ nodes off l -> exists P, (o, P ++ [n]) ∈ routes up off l.
Proof.
  apply (items_ind (fun i => forall up off o n k, (o, (n, k)) ∈ nodes_of off i -> exists P, (o, P ++ [n]) ∈ routes_of up off i)
    (fun l => forall up off o n k, (o, (n, k)) ∈ nodes off l -> exists P, (o, P ++ [n]) ∈ routes up off l)).
  - intros no d up off o n k H. by apply elem_of_nil in H.
  - intros up off o n k H. by apply elem_of_nil in H.
  - intros n' l IH up off o n k H. rewrite routes_of_node. rewrite nodes_of_node in H. apply elem_of_cons in H as [[= -> -> ->]|H].
    + exists up. apply list_elem_of_here.
    + destruct (IH (up ++ [n']) _ _ _ _ H) as (P & HP). exists P. by apply list_elem_of_further.
  - intros up off o n k H. by apply elem_of_nil in H.
  - intros i l IHi IHl up off o n k H. cbn [routes nodes] in *. apply elem_of_app in H as [H|H].
    + destruct (IHi up _ _ _ _ H) as (P & HP). exists P. apply elem_of_app. by left.
    + destruct (IHl up _ _ _ _ H) as (P & HP). exists P. apply elem_of_app. by right.
Qed.

Lemma path_room buflen Q :
  (buflen <? 2) || (buflen <? len (text ([] :: Q))) = (buflen <? len (path_string ([] :: Q)) + 1).
Proof.
  unfold path_string. pose proof (len_text_cons [] Q) as Hl. pose proof (len_nonneg (text Q)). change (len []) with 0 in Hl.
  set (T := text ([] :: Q)) in *. destruct (Z.ltb_spec 1 (len T)) as [H1|H1]; [|lia]. clearbody T.
  destruct T as [|c r _] using rev_ind; [done|]. rewrite removelast_last. rewrite len_app in *. change (len [c]) with 1 in *. lia.
Qed.

(** C22: on a blob that holds a tree whose names are components of a path
    and are not answered by an earlier sibling, [fdt_get_path] stores the path of
    every node when the buffer has room for it and its terminator, and says
    [-FDT_ERR_NOSPACE] otherwise; and [fdt_path_offset] leads from the path back to
    the node. *)
Theorem get_path_roundtrip b l rest :
  dtb b (Node [] l :: rest) -> well_named (Node [] l) = true ->
  (forall o n k, (o, (n, k)) ∈ nodes_of 0 (Node [] l) -> exists up, (o, up ++ [n]) ∈ routes_of [] 0 (Node [] l)) /\
  forall o P, (o, P) ∈ routes_of [] 0 (Node [] l) ->
  (forall buflen, fdt_get_path b o buflen =
    Ret (if buflen <? len (path_string P) + 1 then (- FDT_ERR_NOSPACE, []) else (0, path_string P))) /\
  fdt_path_offset b (path_string P) = Ret o.
Proof.
  intros Hd Hw. pose proof (db_ok _ _ Hd) as Hh. split.
  - intros o n k H. destruct (nodes_routes [Node [] l] [] 0 o n k) as (up & HP); [cbn [nodes]; by rewrite app_nil_r|].
    cbn [routes] in HP. rewrite app_nil_r in HP. by exists up.
  - intros o P HP. destruct (resolve_route [] l o _ Hw HP) as (Q & -> & <- & HQ).
    split; [intros buflen; by rewrite (get_path_tree b Hh l rest Hd Hw _ _ _ HP), path_room|]. destruct (path_components Q HQ) as (p & -> & EQ).
    rewrite (path_offset_eq b Hh _ Hd [] l rest p eq_refl). by rewrite EQ.
Qed.

(** Behind the end of the root, the walk leaves the buffer at its front. *)
Example get_path_behind_root : fdt_get_path virt_blob (hdr virt_blob H_size_dt_struct) 64 = Undef.
Proof. vm_compute. reflexivity. Qed.

Definition virt_items : list item := Eval cbv in match virt_tree with Node _ l :: _ => l | _ => [] end.
Lemma get_path_roundtrip_witness :
  dtb virt_blob (Node [] virt_items :: []) /\ well_named (Node [] virt_items) = true /\
  fdt_get_path virt_blob 224 20 = Ret (- FDT_ERR_NOSPACE, []) /\
  fdt_get_path virt_blob 224 21 = Ret (0, chars "/soc/serial@10000000") /\
  fdt_path_offset virt_blob (chars "/soc/serial@10000000") = Ret 224.
Proof.
  assert (Hw : well_named (Node [] virt_items) = true) by (vm_compute; reflexivity).
  split; [exact virt_dtb|]. split; [exact Hw|]. destruct (get_path_roundtrip virt_blob virt_items [] virt_dtb Hw) as [_ HP].
  assert (H : (224, [[]; chars "soc"; chars "serial@10000000"]) ∈ routes_of [] 0 (Node [] virt_items))
    by (apply (list_elem_of_lookup_2 _ 4); vm_compute; reflexivity).
  destruct (HP _ _ H) as [Hget Hoff]. split; [exact (Hget 20)|]. split; [exact (Hget 21)|exact Hoff].
Defined.
