(* ===== verification/FdtSpec.v ===== *)
(** * libfdt: the theorems

    Safety and termination on arbitrary blobs of sane size; acceptance by
    [fdt_check_full]; and, on a blob that holds a tree, what the lookup functions
    find in it.  The last part is a small device tree on which they are run. *)
From stdpp Require Import base numbers list strings.
From Stdlib Require Import ZArith Lia.
From S2P Require Import Prelude Fdt FdtRo FdtSafe FdtTree FdtUp FdtCheck FdtDemo.

Local Open Scope Z_scope.
Local Open Scope fdt_scope.

(** ** Helpers *)

Lemma first_hit_find {A} (f : Z -> A -> bool) (N : list (Z * A)) :
  first_hit (fun o a => if f o a then Some o else None) N =
  match List.find (fun x => f x.1 x.2) N with Some (o, _) => o | None => - FDT_ERR_NOTFOUND end.
Proof. induction N as [|[o a] N IH]; simpl; [done|]. by destruct (f o a). Qed.

(** The strings of a list property; a well-formed one ends with a zero. *)
Definition strings_of (d : list Z) : list (list Z) := removelast (split 0 d).
Definition terminated (d : list Z) : bool := bool_decide (d = [] \/ last d = Some 0).

Lemma split_cons c d : exists s ss, split 0 d = s :: ss /\
  split 0 (c :: d) = if c =? 0 then [] :: s :: ss else (c :: s) :: ss.
Proof.
  simpl. assert (exists s ss, split 0 d = s :: ss) as (s & ss & E).
  { destruct d as [|x d]; simpl; [by eexists _, _|]. destruct (x =? 0); [by eexists _, _|].
    destruct (split 0 d); by eexists _, _. }
  exists s, ss. rewrite E. by destruct (c =? 0).
Qed.
Lemma split_join d : exists s, split 0 d = strings_of d ++ [s] /\ d = strlist (strings_of d) ++ s /\
  no_zero s = true /\ Forall (fun x => no_zero x = true) (strings_of d).
Proof.
  unfold strings_of. induction d as [|c d IH]; [exists []; by repeat split|].
  destruct IH as (s & E & Ed & Hs & HF). destruct (split_cons c d) as (x & xs & Ex & Ec). rewrite Ec.
  rewrite Ex in *. destruct (c =? 0) eqn:E0.
  - exists s. replace c with 0 by lia. change (removelast ([] :: x :: xs)) with ([] :: removelast (x :: xs)).
    split; [by rewrite <- app_comm_cons, <- E|]. split; [|split; [done|by constructor]]. cbn. by f_equal.
  - destruct xs as [|y ys].
    + simpl in *. injection E as ->. exists (c :: s). rewrite Ed. split; [done|]. split; [done|]. split; [|done].
      unfold no_zero in *. simpl. by rewrite E0, Hs.
    + change (removelast (x :: y :: ys)) with (x :: removelast (y :: ys)) in *.
      change (removelast ((c :: x) :: y :: ys)) with ((c :: x) :: removelast (y :: ys)).
      injection E as E. exists s. split; [cbn [app]; f_equal; exact E|]. split; [cbn; by f_equal|]. split; [done|].
      apply Forall_cons_1 in HF as [Hx HF]. constructor; [|done]. unfold no_zero in *. simpl. by rewrite E0, Hx.
Qed.
Lemma terminated_strlist d : terminated d = true ->
  d = strlist (strings_of d) /\ Forall (fun x => no_zero x = true) (strings_of d).
Proof.
  intros H. apply bool_decide_eq_true in H. destruct (split_join d) as (s & _ & Ed & Hs & HF). split; [|done].
  destruct s as [|c s]; [by rewrite app_nil_r in Ed|]. exfalso. destruct H as [->|H].
  - by destruct (strlist _).
  - rewrite Ed, last_app in H. destruct (last (c :: s)) as [z|] eqn:El; [|by apply last_None in El].
    injection H as ->. apply last_Some_elem_of in El. by apply no_zero_not_in in Hs.
Qed.

(** The strings of "compatible" in a node with contents [l]. *)
Definition compat_of (b : blob) (l : list item) : list (list Z) :=
  match lookup_prop b (chars "compatible") l with Some d => strings_of d | None => [] end.
Definition is_compatible (b : blob) (c : list Z) (x : node) : bool := bool_decide (c ∈ compat_of b x.2.2).
Definition has_value (b : blob) (name val : list Z) (x : node) : bool :=
  bool_decide (lookup_prop b name x.2.2 = Some val).
(** The offset of the first such node. *)
Definition first_offset (f : node -> bool) (N : list node) : Z :=
  match List.find f N with Some (o, _) => o | None => - FDT_ERR_NOTFOUND end.

(** A big-endian cell, and the phandle of a node: the "phandle" of four bytes, or
    else the "linux,phandle". *)
Definition cell_of (d : list Z) : Z := match d with [w; x; y; z] => be32 w x y z | _ => 0 end.
Definition phandle_of (b : blob) (l : list item) : Z :=
  match lookup_prop b (chars "phandle") l with
  | Some ([_; _; _; _] as d) => cell_of d
  | _ => match lookup_prop b (chars "linux,phandle") l with Some d => cell_of d | None => 0 end
  end.

Definition has_phandle (b : blob) (ph : Z) (x : node) : bool := phandle_of b x.2.2 =? ph.
Definition max_phandle (b : blob) (m : Z) (N : list node) : Z := foldl (fun m x => Z.max m (phandle_of b x.2.2)) m N.

Lemma max_phandle_ge b m N : m <= max_phandle b m N.
Proof.
  unfold max_phandle. revert m. induction N as [|x N IH]; intros m; simpl; [lia|].
  specialize (IH (m `max` phandle_of b x.2.2)). lia.
Qed.
Lemma max_phandle_bound b m N o n l : (o, (n, l)) ∈ N -> phandle_of b l <= max_phandle b m N.
Proof.
  intros H. revert m. induction N as [|x N IH]; intros m; [by apply elem_of_nil in H|]. apply elem_of_cons in H as [<-|H].
  - pose proof (max_phandle_ge b (m `max` phandle_of b l) N). unfold max_phandle in *. simpl. lia.
  - apply (IH H).
Qed.

(** Every "compatible" property is a list of strings. *)
Definition compat_ok (b : blob) (items : list item) : Prop :=
  forall o n l d, (o, (n, l)) ∈ nodes 0 items -> lookup_prop b (chars "compatible") l = Some d -> terminated d = true.

Section on_tree.
Context (b : blob) (items : list item) (Hd : dtb b items).
Let Hh : fdt_ok b := db_ok _ _ Hd.
Let Hb : sane b := fo_sane _ Hh.

Lemma check_compatible_node o n l c :
  (o, (n, l)) ∈ nodes 0 items -> no_zero c = true -> c <> [] ->
  (forall d, lookup_prop b (chars "compatible") l = Some d -> terminated d = true) ->
  fdt_node_check_compatible b o c = Ret (
    match lookup_prop b (chars "compatible") l with
    | Some _ => if bool_decide (c ∈ compat_of b l) then 0 else 1
    | None => - FDT_ERR_NOTFOUND
    end).
Proof.
  intros H Hc Hne Ht. unfold fdt_node_check_compatible, compat_of.
  pose proof (getprop_node b Hh items Hd o n l (chars "compatible") H) as HG.
  destruct (lookup_prop b (chars "compatible") l) as [d|]; [|by rewrite HG].
  destruct HG as (p & -> & Hbytes & Hp & Hle). cbn [obind]. destruct (terminated_strlist d (Ht d eq_refl)) as [Ed HF].
  unfold fdt_stringlist_contains. pose proof (stringlist_contains_eq b Hh (FDT_FUEL b) p (strings_of d) c) as HS.
  rewrite <- Ed in HS. rewrite HS by (try done; pose proof (fuel_enough b Hb); unfold len in *; lia).
  cbn [obind]. by destruct (bool_decide _).
Qed.

(** The searches over the nodes of the tree: a test that decides [f] finds the
    first node with [f], from the start or behind a node. *)
Definition start_of (start : Z) (N : list node) : Prop :=
  (start = -1 /\ N = nodes 0 items) \/ exists N1 n l, nodes 0 items = N1 ++ (start, (n, l)) :: N.
Lemma start_sub start N : start_of start N -> forall x, x ∈ N -> x ∈ nodes 0 items.
Proof.
  intros [[_ ->]|(N1 & n & l & ->)] x Hx; [done|]. apply elem_of_app. right. by apply list_elem_of_further.
Qed.
Lemma visits_from start N : start_of start N -> visits b start N /\ (length N < FDT_FUEL b)%nat.
Proof.
  intros [[-> ->]|(N1 & n & l & EN)]; [by apply (visits_start b Hh items)|].
  by apply (visits_node b Hh items Hd N1 start n l).
Qed.
Lemma search_first start N (f : node -> bool) test :
  start_of start N ->
  (forall o x, (o, x) ∈ N -> test o = Ret (if f (o, x) then Some o else None)) ->
  FDT_RO_PROBE b (search_loop (FDT_FUEL b) b start test) = Ret (first_offset f N).
Proof.
  intros Hs Ht. rewrite (FDT_RO_PROBE_eq b Hh). destruct (visits_from _ _ Hs) as [Hv Hl].
  rewrite (search_loop_eq b _ _ _ _ (fun o x => if f (o, x) then Some o else None) Hv Hl Ht).
  rewrite (first_hit_find (fun o x => f (o, x))). do 2 f_equal. clear. unfold first_offset.
  induction N as [|[o x] N IH]; [done|]. simpl. by destruct (f (o, x)).
Qed.

Lemma by_compatible_tree start N c :
  start_of start N -> compat_ok b items -> no_zero c = true -> c <> [] ->
  fdt_node_offset_by_compatible b start c = Ret (first_offset (is_compatible b c) N).
Proof.
  intros Hs Hc Hz Hne. apply search_first; [done|]. intros o [n l] Hin. apply (start_sub _ _ Hs) in Hin.
  rewrite (check_compatible_node _ _ _ _ Hin Hz Hne (fun d => Hc _ _ _ d Hin)). cbn [obind].
  unfold is_compatible, compat_of. cbn [fst snd].
  destruct (lookup_prop b (chars "compatible") l) as [d|]; [by destruct (bool_decide _)|].
  rewrite bool_decide_eq_false_2; [done|by intros []%elem_of_nil].
Qed.
Lemma by_prop_value_tree start N name val :
  start_of start N ->
  fdt_node_offset_by_prop_value b start name val = Ret (first_offset (has_value b name val) N).
Proof.
  intros Hs. apply search_first; [done|]. intros o [n l] Hin. apply (start_sub _ _ Hs) in Hin.
  pose proof (getprop_node b Hh items Hd o n l name Hin) as HG. unfold has_value. cbn [fst snd].
  destruct (lookup_prop b name l) as [d|]; [|by rewrite HG].
  destruct HG as (p & -> & Hbytes & Hp & Hle). cbn [obind]. unfold len in *.
  pose proof (ts_bounds b Hb) as [Hts Hext].
  destruct (Z.of_nat (length d) =? Z.of_nat (length val)) eqn:E; cbn [negb].
  - assert (length d = length val) as El by lia.
    destruct (gives_eq _ _ (memcmp_gives b p val Hp ltac:(lia))) as (r & -> & Hr). cbn [obind]. rewrite <- El, Hbytes in Hr.
    destruct (r =? 0) eqn:Er.
    + rewrite bool_decide_eq_true_2; [done|]. f_equal. symmetry. apply Hr. lia.
    + rewrite bool_decide_eq_false_2; [done|]. intros [= Hd']. symmetry in Hd'. apply Hr in Hd'. lia.
  - rewrite bool_decide_eq_false_2; [done|]. intros [= ->]. lia.
Qed.

(** The phandle of a node: four bytes of "phandle" or else of
    "linux,phandle". *)
Lemma cell_prop_node o n l s :
  (o, (n, l)) ∈ nodes 0 items -> exists r, cell_prop b o s = Ret r /\
  match lookup_prop b (chars s) l with
  | Some [w; x; y; z] => exists p, r = Some p /\ fdt32_ld_ b p = Ret (be32 w x y z)
  | _ => r = None
  end.
Proof.
  intros H. pose proof (ts_bounds b Hb) as [Hts Hext]. unfold cell_prop.
  pose proof (getprop_node b Hh items Hd o n l (chars s) H) as HG.
  destruct (lookup_prop b (chars s) l) as [d|]; [|rewrite HG; by exists None].
  destruct HG as (p & -> & Hbytes & Hp & Hle). cbn [obind]. eexists. split; [done|]. unfold len in *.
  destruct d as [|w [|x [|y [|z [|v d]]]]]; try done.
  - exists p. split; [done|]. simpl in Hle. unfold fdt32_ld_. rewrite fdt32_word by lia. unfold word.
    cbn [length bytes] in Hbytes. injection Hbytes as <- <- <- <-.
    by replace (p + 1 + 1 + 1) with (p + 3) by lia; replace (p + 1 + 1) with (p + 2) by lia.
  - by replace (_ =? 4) with false by (symmetry; apply Z.eqb_neq; cbn [length]; lia).
Qed.
Lemma get_phandle_node o n l :
  (o, (n, l)) ∈ nodes 0 items -> fdt_get_phandle b o = Ret (phandle_of b l).
Proof.
  intros H. unfold fdt_get_phandle, phandle_of, cell_of.
  destruct (cell_prop_node o n l "phandle" H) as (r & -> & H1), (cell_prop_node o n l "linux,phandle" H) as (r' & -> & H2).
  cbn [obind].
  assert (Hl : match r' with Some p => fdt32_ld_ b p | None => Ret 0 end =
    Ret (match lookup_prop b (chars "linux,phandle") l with Some [w; x; y; z] => be32 w x y z | _ => 0 end)).
  { by destruct (lookup_prop b (chars "linux,phandle") l) as [[|w [|x [|y [|z [|v d]]]]]|]; (destruct H2 as (p & -> & ->) || subst r'). }
  by destruct (lookup_prop b (chars "phandle") l) as [[|w [|x [|y [|z [|v d]]]]]|]; (destruct H1 as (p & -> & ->) || subst r).
Qed.
Lemma by_phandle_tree ph :
  ph <> 0 -> ph <> 4294967295 ->
  fdt_node_offset_by_phandle b ph = Ret (first_offset (has_phandle b ph) (nodes 0 items)).
Proof.
  intros H0 H1. unfold fdt_node_offset_by_phandle. replace (_ || _) with false by lia.
  apply search_first; [by left|]. intros o [n l] Hin. by rewrite (get_phandle_node _ _ _ Hin).
Qed.

(** The greatest phandle of the tree. *)
Lemma find_max_tree_loop f start (N : list node) m :
  visits b start N -> (length N < f)%nat -> (forall x, x ∈ N -> x ∈ nodes 0 items) ->
  find_max_phandle_loop f b start m = Ret (0, max_phandle b m N).
Proof.
  revert start N m. induction f as [|f IH]; intros start N m HN Hf Hin; [lia|]. cbn [find_max_phandle_loop].
  destruct N as [|[o [n l]] N]; [by rewrite HN|]. destruct HN as (-> & H0 & HN). cbn [obind].
  replace (o <? 0) with false by lia. rewrite (get_phandle_node o n l) by (apply Hin, list_elem_of_here). cbn [obind].
  simpl in Hf. rewrite (IH o N); [|done|lia|intros x Hx; apply Hin; by apply list_elem_of_further]. do 2 f_equal.
  unfold max_phandle. cbn [foldl snd]. f_equal. destruct (m <? _) eqn:E; lia.
Qed.
End on_tree.


(** The byte behind the blob is needed: [fdt_stringlist_contains] compares the
    terminating zero of a string with the byte behind a list that lacks it. *)
Example contains_reads_behind :
  fdt_stringlist_contains {| b_addr := 0; b_bytes := [97; 98] |} 0 2 [97; 98] = Undef.
Proof. reflexivity. Qed.

(** ** Acceptance *)

Lemma check_block_bounds h t base size :
  0 <= base < 2^32 -> 0 <= size < 2^32 -> t < 2^32 -> check_block_ h t base size = true -> base + size <= t.
Proof.
  intros Hb Hs Ht. unfold check_block_, check_off_.
  destruct ((h <=? base) && (base <=? t)) eqn:E1; [|done]. cbn [negb].
  assert (u32 (base + size) = base + size \/ u32 (base + size) = base + size - 2^32) as Hu by (unfold u32; Z.div_mod_to_equations; lia).
  generalize dependent (u32 (base + size)). intros u Hu. destruct (u <? base) eqn:E2; [done|].
  destruct ((h <=? u) && (u <=? t)) eqn:E3; [|done]. intros _. lia.
Qed.
Lemma header_ok b : sane b -> 17 <= hdr b H_version -> fdt_check_header b = Ret 0 -> fdt_ok b.
Proof.
  intros Hb Hv. pose proof (ts_bounds b Hb) as [Hts Hext].
  pose proof (hdr_range b H_off_dt_strings). pose proof (hdr_range b H_size_dt_strings).
  unfold fdt_check_header, fdt_header_size. headers Hb.
  destruct (Z.land (b_addr b) 7 =? 0) eqn:E1; [|done]. destruct (hdr b H_magic =? FDT_MAGIC) eqn:E2; [|done]. cbn [negb].
  destruct (_ || (hdr b H_version <? _)) eqn:E3; [done|]. cbn [obind]. destruct (_ || (INT_MAX <? _)) eqn:E4; [done|].
  destruct (check_off_ _ _ (hdr b H_off_mem_rsvmap)); [|done]. cbn [negb]. replace (hdr b H_version <? 17) with false by lia.
  cbn [obind]. destruct (check_block_ _ _ (hdr b H_off_dt_struct) _); [|done]. cbn [negb].
  destruct (check_block_ _ _ (hdr b H_off_dt_strings) _) eqn:E5; [|done]. intros _.
  apply check_block_bounds in E5; [|lia..]. unfold FDT_FIRST_SUPPORTED_VERSION, FDT_LAST_SUPPORTED_VERSION in E3.
  split; [done|lia..].
Qed.

(** The number of tokens is far below [INT_MAX]. *)
Lemma few_tokens b items : dtb b items -> (length (toks_of items) < FDT_FUEL b)%nat /\ fits 1 (toks_of items).
Proof.
  intros [Hh HT]. pose proof (ts_bounds b (fo_sane _ Hh)). pose proof (toks_at_length b _ _ HT) as Hl.
  pose proof (fuel_enough b (fo_sane _ Hh)). rewrite length_app in Hl. unfold fits, INT_MAX. simpl in Hl. lia.
Qed.

(** C19: a version 17 blob passes [fdt_check_full] exactly when it
    fits the buffer, its header is consistent, its memory reservations end, and
    its structure block is a forest of properties, NOPs and at most one node, the
    nameless root, which comes last; all properties are named. *)
Theorem check_full_accepts_trees b size : sane b -> 17 <= hdr b H_version ->
  fdt_check_full b size = Ret 0 <->
  FDT_V17_SIZE <= size /\ hdr b H_totalsize <= size /\ fdt_check_header b = Ret 0 /\
  (exists n, 0 <= n /\ fdt_num_mem_rsv b = Ret n) /\
  exists items, dtb b items /\ one_root items /\ named b items.
Proof.
  intros Hb Hv. pose proof (ts_bounds b Hb) as [Hts Hext]. unfold fdt_check_full, fdt_header_size. headers Hb.
  assert (fdt_header_size_ (hdr b H_version) = FDT_V17_SIZE) as ->.
  { unfold fdt_header_size_. by rewrite !(proj2 (Z.leb_gt _ _)) by lia. }
  split.
  - destruct (size <? FDT_V1_SIZE); [done|]. destruct (size <? FDT_V17_SIZE) eqn:E1; [done|].
    destruct (fdt_check_header b) as [e| | |] eqn:Eh; cbn [obind]; try done.
    destruct (e =? 0) eqn:Ee; cbn [negb]; [|intros [= ->]; done]. assert (e = 0) as -> by lia.
    destruct (size <? hdr b H_totalsize) eqn:E2; [done|].
    destruct (fdt_num_mem_rsv b) as [n| | |] eqn:En; cbn [obind]; try done.
    destruct (n <? 0) eqn:E3; [intros [= ->]; lia|]. intros Hrun.
    split; [lia|]. split; [lia|]. split; [done|]. split; [exists n; split; [lia|done]|].
    pose proof (header_ok b Hb Hv Eh) as Hh.
    destruct (check_full_loop_sound b Hh (FDT_FUEL b) 0 0 false) as (L & HL & HN & items & -> & Hr); try done; [lia|].
    by exists items.
  - intros (H1 & H2 & -> & (n & Hn & ->) & items & Hd & Hr & Hnm). unfold FDT_V17_SIZE, FDT_V16_SIZE, FDT_V3_SIZE, FDT_V2_SIZE, FDT_V1_SIZE in *.
    replace (size <? 7 * 4) with false by lia. replace (size <? _) with false by lia. cbn [obind Z.eqb negb].
    replace (size <? _) with false by lia. replace (n <? 0) with false by lia.
    destruct (few_tokens _ _ Hd) as [Hf Hfit]. destruct Hd as [Hh HT]. by apply (check_top b Hh items).
Qed.

(** ** Queries *)

(** C21: on a blob that holds a tree, the queries about a node return
    what the tree says: its name, the value of its first property of a name (the
    position of these bytes, or [-FDT_ERR_NOTFOUND]), its first child of a name
    (the unit address may be left out), its children one after the other, and its
    phandle; an absolute path leads from the root through the children of these
    names; and the depth of a node, its parent and its ancestor at a depth are the
    ones of the tree. *)
Theorem lookups_follow_tree b items : dtb b items ->
  (forall o n l, (o, (n, l)) ∈ nodes 0 items ->
    (exists p, fdt_get_name b o = Ret (Some p, len n) /\ bytes b p (length n + 1) = n ++ [0]) /\
    (forall name, match lookup_prop b name l with
      | Some d => exists p, fdt_getprop b o name = Ret (Some p, len d) /\ bytes b p (length d) = d
      | None => fdt_getprop b o name = Ret (None, - FDT_ERR_NOTFOUND) end) /\
    (forall name, fdt_subnode_offset b o name = Ret (
      match find_kid name (kids (o + tok_size (Tbegin n)) l) with
      | Some (o', _, _) => o' | None => - FDT_ERR_NOTFOUND end)) /\
    fdt_first_subnode b o = Ret (head_or_notfound (kids (o + tok_size (Tbegin n)) l)) /\
    (forall K1 c x K2, kids (o + tok_size (Tbegin n)) l = K1 ++ (c, x) :: K2 ->
      fdt_next_subnode b c = Ret (head_or_notfound K2)) /\
    fdt_get_phandle b o = Ret (phandle_of b l)) /\
  forall n l rest, items = Node n l :: rest ->
    (forall path, fdt_path_offset b (47 :: path) = Ret (resolve 0 n l (components path))) /\
    forall o up, (o, up) ∈ trails_of [] 0 (Node n l) ->
      fdt_node_depth b o = Ret (len up) /\
      fdt_parent_offset b o = Ret (default (- FDT_ERR_NOTFOUND) (last up)) /\
      forall d, 0 <= d -> fdt_supernode_atdepth_offset b o d =
        Ret (if len up <? d then - FDT_ERR_NOTFOUND else default 0 ((up ++ [o]) !! Z.to_nat d), Some (len up)).
Proof.
  intros Hd. pose proof (db_ok _ _ Hd) as Hh. split.
  - intros o n l H. destruct (dtb_node b items Hd _ _ _ H) as (H0 & R & [Ht _] & _). split_and!.
    + exists (hdr b H_off_dt_struct + o + 4). split; [by apply (get_name_eq b Hh)|]. by destruct Ht as (_ & _ & _ & -> & _).
    + intros name. pose proof (getprop_node b Hh items Hd o n l name H) as HG. destruct (lookup_prop b name l); [|done].
      destruct HG as (p & ? & ? & _). by exists p.
    + intros name. by apply (subnode_node b Hh items Hd).
    + by apply (first_subnode_node b Hh items Hd).
    + intros K1 c x K2. by apply (next_subnode_node b Hh items Hd o n).
    + by apply (get_phandle_node b items Hd o n).
  - intros n l rest ->. split; [intros path; by apply (path_offset_eq b Hh _ Hd n l rest)|]. intros o up H.
    split; [by apply (depth_tree b Hh n l rest Hd)|]. split; [by apply (parent_tree b Hh n l rest Hd)|].
    intros d. by apply (supernode_tree b Hh n l rest Hd).
Qed.


(** ** On concrete blobs *)

(** A header of its own, and behind it nothing but ones. *)
Definition broken_blob : blob :=
  {| b_addr := 0; b_bytes := cell FDT_MAGIC ++ cell 72 ++ cell 40 ++ cell 60 ++ cell 40 ++ cell 17 ++ cell 16 ++
       cell 0 ++ cell 12 ++ cell 20 ++ repeat 255 33 |}.


Lemma check_full_accepts_trees_witness :
  fdt_check_full virt_blob 4096 = Ret 0 /\
  exists items, dtb virt_blob items /\ one_root items /\ named virt_blob items.
Proof.
  split; [exact virt_checks|].
  destruct (check_full_accepts_trees virt_blob 4096 virt_sane ltac:(vm_compute; discriminate)) as [H _].
  destruct (H virt_checks) as (_ & _ & _ & _ & Hi). exact Hi.
Defined.

Lemma lookups_follow_tree_witness :
  dtb virt_blob virt_tree /\
  fdt_path_offset virt_blob (chars "/soc/serial") = Ret 224 /\
  fdt_parent_offset virt_blob 224 = Ret 88 /\
  fdt_next_subnode virt_blob 52 = Ret 88 /\
  fdt_subnode_offset virt_blob 88 (chars "plic@c000001") = Ret (- FDT_ERR_NOTFOUND) /\
  exists p, fdt_getprop virt_blob 224 (chars "interrupts") = Ret (Some p, 4) /\ bytes virt_blob p 4 = cell 10.
Proof.
  split; [exact virt_dtb|]. destruct (lookups_follow_tree virt_blob virt_tree virt_dtb) as [Hn Hp].
  destruct (Hp _ _ _ eq_refl) as [Hpath Hup].
  split; [exact (Hpath (chars "soc/serial"))|].
  split; [exact (proj1 (proj2 (Hup 224 [0; 88] ltac:(apply (list_elem_of_lookup_2 _ 4); vm_compute; reflexivity))))|].
  pose proof (list_elem_of_lookup_2 (nodes 0 virt_tree) 0 _ eq_refl) as Hroot.
  destruct (Hn _ _ _ Hroot) as (_ & _ & _ & _ & Hnext & _). split; [exact (Hnext [] _ _ _ eq_refl)|].
  pose proof (list_elem_of_lookup_2 (nodes 0 virt_tree) 2 _ eq_refl) as Hsoc.
  pose proof (list_elem_of_lookup_2 (nodes 0 virt_tree) 4 _ eq_refl) as Hserial.
  destruct (Hn _ _ _ Hsoc) as (_ & _ & Hkid & _). split; [exact (Hkid (chars "plic@c000001"))|].
  destruct (Hn _ _ _ Hserial) as (_ & Hprop & _). exact (Hprop (chars "interrupts")).
Defined.

Lemma virt_compat_ok : compat_ok virt_blob virt_tree.
Proof.
  intros o n l d Hin E.
  assert (H : forallb (fun x => match lookup_prop virt_blob (chars "compatible") x.2.2 with Some d => terminated d | None => true end)
    (nodes 0 virt_tree) = true) by (vm_compute; reflexivity).
  rewrite forallb_forall in H. apply list_elem_of_In, H in Hin. cbn [fst snd] in Hin. by rewrite E in Hin.
Qed.
