(* ===== verification/FdtWrite.v ===== *)
(** * libfdt: writing

    The repository has the read-only half of libfdt.  What is left of the other
    half are the header setters and the inline functions of [libfdt.h], which turn a
    number or a string into bytes and pass them to a function the repository does
    not have: these are the class [FdtWriter], over a blob as the state. *)
From stdpp Require Import base numbers list strings.
From Stdlib Require Import ZArith Lia.
From S2P Require Import Prelude Fdt FdtRo FdtSafe.

Local Open Scope Z_scope.
Local Open Scope fdt_scope.
Local Open Scope ccos_scope.

(** ** Pointers that may be written through *)

Definition fdt_offset_ptr_w_ := fdt_offset_ptr_.
Definition fdt_mem_rsv_w_ := fdt_mem_rsv_.
Definition fdt_offset_ptr_w := fdt_offset_ptr.
Definition fdt_get_property_by_offset_w := fdt_get_property_by_offset.
Definition fdt_get_property_namelen_w := fdt_get_property_namelen.
Definition fdt_get_property_w := fdt_get_property.
Definition fdt_getprop_namelen_w := fdt_getprop_namelen.
Definition fdt_getprop_w := fdt_getprop.

(** ** Header *)

#[export] Instance fdt_header_eq : EqDecision fdt_header.
Proof. solve_decision. Defined.

Definition fdt_set_magic := fdt_set_header H_magic.
Definition fdt_set_totalsize := fdt_set_header H_totalsize.
Definition fdt_set_off_dt_struct := fdt_set_header H_off_dt_struct.
Definition fdt_set_off_dt_strings := fdt_set_header H_off_dt_strings.
Definition fdt_set_off_mem_rsvmap := fdt_set_header H_off_mem_rsvmap.
Definition fdt_set_version := fdt_set_header H_version.
Definition fdt_set_last_comp_version := fdt_set_header H_last_comp_version.
Definition fdt_set_boot_cpuid_phys := fdt_set_header H_boot_cpuid_phys.
Definition fdt_set_size_dt_strings := fdt_set_header H_size_dt_strings.
Definition fdt_set_size_dt_struct := fdt_set_header H_size_dt_struct.

(** ** Properties *)

(** Node offset, property name, bytes; the placeholder also yields the position of
    the new bytes. *)
Class FdtWriter := {
  fdt_setprop_inplace : Z -> list Z -> list Z -> M blob Z;
  fdt_setprop_namelen : Z -> list Z -> list Z -> M blob Z;
  fdt_setprop_placeholder_namelen : Z -> list Z -> Z -> M blob (Z * option Z);
  fdt_appendprop : Z -> list Z -> list Z -> M blob Z;
  fdt_property : list Z -> list Z -> M blob Z
}.

Section writer.
Context {w : FdtWriter}.

Definition fdt_setprop_inplace_u32 (nodeoffset : Z) (name : list Z) (val : Z) : M blob Z :=
  fdt_setprop_inplace nodeoffset name (fdt32_st val).
Definition fdt_setprop_inplace_u64 (nodeoffset : Z) (name : list Z) (val : Z) : M blob Z :=
  fdt_setprop_inplace nodeoffset name (fdt64_st val).
Definition fdt_setprop_inplace_cell := fdt_setprop_inplace_u32.

Definition fdt_property_u32 (name : list Z) (val : Z) : M blob Z := fdt_property name (fdt32_st val).
Definition fdt_property_u64 (name : list Z) (val : Z) : M blob Z := fdt_property name (fdt64_st val).
Definition fdt_property_cell := fdt_property_u32.
Definition fdt_property_string (name str : list Z) : M blob Z := fdt_property name (str ++ [0]).

Definition fdt_setprop (nodeoffset : Z) (name val : list Z) : M blob Z := fdt_setprop_namelen nodeoffset name val.
Definition fdt_setprop_placeholder (nodeoffset : Z) (name : list Z) (len : Z) : M blob (Z * option Z) :=
  fdt_setprop_placeholder_namelen nodeoffset name len.
Definition fdt_setprop_u32 (nodeoffset : Z) (name : list Z) (val : Z) : M blob Z :=
  fdt_setprop nodeoffset name (fdt32_st val).
Definition fdt_setprop_u64 (nodeoffset : Z) (name : list Z) (val : Z) : M blob Z :=
  fdt_setprop nodeoffset name (fdt64_st val).
Definition fdt_setprop_cell := fdt_setprop_u32.
Definition fdt_setprop_string (nodeoffset : Z) (name str : list Z) : M blob Z :=
  fdt_setprop nodeoffset name (str ++ [0]).
Definition fdt_setprop_namelen_string (nodeoffset : Z) (name str : list Z) : M blob Z :=
  fdt_setprop_namelen nodeoffset name (str ++ [0]).
Definition fdt_setprop_empty (nodeoffset : Z) (name : list Z) : M blob Z := fdt_setprop nodeoffset name [].

Definition fdt_appendprop_u32 (nodeoffset : Z) (name : list Z) (val : Z) : M blob Z :=
  fdt_appendprop nodeoffset name (fdt32_st val).
Definition fdt_appendprop_u64 (nodeoffset : Z) (name : list Z) (val : Z) : M blob Z :=
  fdt_appendprop nodeoffset name (fdt64_st val).
Definition fdt_appendprop_cell := fdt_appendprop_u32.
Definition fdt_appendprop_string (nodeoffset : Z) (name str : list Z) : M blob Z :=
  fdt_appendprop nodeoffset name (str ++ [0]).

End writer.

(** ** What is written is read back *)

Lemma land_255 x : Z.land x 255 = x mod 2^8.
Proof. apply (Z.land_ones x 8). lia. Qed.
Lemma fdt32_st_bytes v : fdt32_st v = [u8 (v / 2^24); u8 (v / 2^16); u8 (v / 2^8); u8 v].
Proof. unfold fdt32_st. by rewrite !land_255, !Z.shiftr_div_pow2 by lia. Qed.
Lemma fdt32_st_range v i : 0 <= nth i (fdt32_st v) 0 < 256.
Proof.
  rewrite fdt32_st_bytes. destruct i as [|[|[|[|i]]]]; cbn [nth]; try apply u8_range. destruct i; lia.
Qed.

(** The four bytes of a number are the number. *)
Lemma be32_st v :
  be32 (nth 0 (fdt32_st v) 0) (nth 1 (fdt32_st v) 0) (nth 2 (fdt32_st v) 0) (nth 3 (fdt32_st v) 0) = u32 v.
Proof.
  rewrite be32_value by apply fdt32_st_range. rewrite fdt32_st_bytes. cbn [nth]. unfold u8, u32. change (2^24) with 16777216.
  Z.div_mod_to_equations. lia.
Qed.

Lemma overwrite_length l p v : (p + length v <= length l)%nat -> length (overwrite l p v) = length l.
Proof. intros H. unfold overwrite. rewrite !length_app, length_take, length_drop. lia. Qed.
Lemma overwrite_lookup l p v i :
  (p + length v <= length l)%nat ->
  overwrite l p v !! i = if decide (p <= i < p + length v)%nat then v !! (i - p)%nat else l !! i.
Proof.
  intros H. unfold overwrite. destruct (decide (i < p)%nat) as [Hi|Hi].
  - rewrite decide_False by lia. rewrite lookup_app_l by (rewrite length_take; lia). apply lookup_take_lt. lia.
  - rewrite lookup_app_r by (rewrite length_take; lia). rewrite length_take, Nat.min_l by lia. case_decide.
    + apply lookup_app_l. lia.
    + rewrite lookup_app_r by lia. rewrite lookup_drop. f_equal. lia.
Qed.

(** A header field reads back as it was set; setting it changes no other. *)
Lemma header_roundtrip b f f' v :
  40 <= extent b ->
  fdt_get_header (fdt_set_header f v b) f' =
  if decide (f = f') then Ret (u32 v) else fdt_get_header b f'.
Proof.
  intros He. unfold fdt_get_header.
  assert (Hf : forall g, 0 <= header_offset g /\ header_offset g + 4 <= 40 /\ header_offset g mod 4 = 0) by (by intros []).
  destruct (Hf f) as (F1 & F2 & F3), (Hf f') as (G1 & G2 & G3).
  assert (Hlen : (Z.to_nat (header_offset f) + length (fdt32_st v) <= length (b_bytes b))%nat).
  { unfold extent in He. change (length (fdt32_st v)) with 4%nat. lia. }
  assert (Hext : extent (fdt_set_header f v b) = extent b).
  { unfold extent, fdt_set_header. cbn [b_bytes]. by rewrite overwrite_length. }
  rewrite !fdt32_word by lia.
  assert (HB : forall k, 0 <= k < 4 -> byte (fdt_set_header f v b) (header_offset f' + k) =
    if decide (f = f') then nth (Z.to_nat k) (fdt32_st v) 0 else byte b (header_offset f' + k)).
  { intros k Hk. unfold byte, fdt_set_header. cbn [b_bytes]. rewrite overwrite_lookup by done.
    change (length (fdt32_st v)) with 4%nat. destruct (decide (f = f')) as [<-|Hne].
    - rewrite decide_True by lia. replace (Z.to_nat (header_offset f + k) - Z.to_nat (header_offset f))%nat with (Z.to_nat k) by lia.
      pose proof (fdt32_st_range v (Z.to_nat k)) as Hr. rewrite nth_lookup in *. by apply u8_small.
    - rewrite decide_False; [done|]. assert (header_offset f <> header_offset f') by (destruct f, f'; done).
      intros Hin. Z.div_mod_to_equations. lia. }
  unfold word. pose proof (HB 0) as H0. rewrite Z.add_0_r in H0. rewrite H0, !HB by lia.
  destruct (decide (f = f')); [|done]. f_equal. apply be32_st.
Qed.
