(* ===== verification/FdtPlatform.v ===== *)
(** * The platform on a real device tree

    The class [DeviceTree] of the platform code, answered by libfdt on the blob a
    pointer leads to, and what the platform's queries and the initialisation of its
    drivers then find: the contents of the tree the blob holds. *)
From stdpp Require Import base numbers list gmap strings.
From Stdlib Require Import ZArith Lia.
From S2P Require Import Prelude Machine State Kernel Uart Plic Platform Image.
From S2P Require Import Fdt FdtRo FdtSafe FdtTree FdtCheck FdtDemo FdtSpec.

Local Open Scope Z_scope.

(** The value a call returns ([d] stands for a call that does not return; on a
    sane blob there is none). *)
Definition answer {A} (d : A) (m : outcome A) : A := match m with Ret a => a | _ => d end.

(** [mem p] is the memory behind the pointer [p]. *)
Definition blob_tree (mem : Z -> blob) : DeviceTree := {|
  Machine.fdt_path_offset fdt path := answer (-1) (FdtRo.fdt_path_offset (mem fdt) (chars path));
  Machine.fdt_node_offset_by_compatible fdt start c :=
    answer (-1) (FdtRo.fdt_node_offset_by_compatible (mem fdt) start (chars c));
  Machine.fdt_getprop fdt off name :=
    match FdtRo.fdt_getprop (mem fdt) off (chars name) with
    | Ret (Some p, l) => Some (bytes (mem fdt) p (Z.to_nat l))
    | _ => None
    end
|}.

(** ** What the tree says *)

Definition tree_cell (b : blob) (name : string) (l : list item) : option Z :=
  match lookup_prop b (chars name) l with
  | Some d => if (4 <=? length d)%nat then Some (fdt32_cell d 0) else None
  | None => None
  end.
(** Two 64-bit numbers in four cells. *)
Definition tree_reg (b : blob) (l : list item) : option (Z * Z) :=
  match lookup_prop b (chars "reg") l with
  | Some d => if (length d <? 16)%nat then None else
      Some (fdt32_cell d 0 * 2^32 + fdt32_cell d 1, fdt32_cell d 2 * 2^32 + fdt32_cell d 3)
  | None => None
  end.
(** The contents of the first node compatible with [c]. *)
Definition compatible_node (b : blob) (items : list item) (c : string) : option (list item) :=
  match List.find (is_compatible b (chars c)) (nodes 0 items) with Some (_, (_, l)) => Some l | None => None end.
Definition tree_timebase (b : blob) (n : list Z) (l : list item) : Z :=
  match find_kid (chars "cpus") (kids (tok_size (Tbegin n)) l) with
  | Some (_, _, k) => default 0 (tree_cell b "timebase-frequency" k)
  | None => 0
  end.

(** The platform variables as the drivers' nodes set them. *)
Definition uart_params (b : blob) (l : list item) (p : platform_state) : platform_state :=
  let p := match tree_cell b "reg-shift" l with Some v => p_set_uart_reg_shift v p | None => p end in
  let p := match tree_cell b "reg-io-width" l with
           | Some w => if (w =? 1) || (w =? 2) || (w =? 4) then p_set_uart_reg_io_width w p else p
           | None => p end in
  match tree_cell b "reg-offset" l with Some v => p_set_uart_reg_offset v p | None => p end.
Definition uart_node (b : blob) (items : list item) : option (Z * Z * list item) :=
  match compatible_node b items "ns16550a" with
  | Some l => match tree_reg b l, tree_cell b "interrupts" l with
              | Some (base, _), Some irq => Some (base, irq, l) | _, _ => None end
  | None => None
  end.
Definition plic_node (b : blob) (items : list item) : option (Z * list item) :=
  match (match compatible_node b items "riscv,plic0" with
         | Some l => Some l | None => compatible_node b items "sifive,plic-1.0.0" end) with
  | Some l => match tree_reg b l with Some (base, _) => Some (base, l) | None => None end
  | None => None
  end.
Definition plic_params (b : blob) (base : Z) (l : list item) (p : platform_state) : platform_state :=
  let n := match tree_cell b "riscv,ndev" l with Some n => if 0 <? n then n else 32 | None => 32 end in
  p_set_plic_base base (p_set_plic_num_sources n p).

(** ** The queries *)

Section platform.
Context {cfg : Config} {hws : Hardware} (mem : Z -> blob) (fdt : Z) (items : list item).
Context (Hd : dtb (mem fdt) items) (Hc : compat_ok (mem fdt) items).
Notation b := (mem fdt).
#[local] Instance tree : DeviceTree := blob_tree mem.

Lemma getprop_tree o n l name :
  (o, (n, l)) ∈ nodes 0 items -> Machine.fdt_getprop fdt o name = lookup_prop b (chars name) l.
Proof.
  intros H. pose proof (getprop_node b (db_ok _ _ Hd) items Hd o n l (chars name) H) as HG.
  cbn [Machine.fdt_getprop tree blob_tree]. destruct (lookup_prop b (chars name) l) as [d|]; [|by rewrite HG].
  destruct HG as (p & -> & Hb & _). unfold len. by rewrite Nat2Z.id, Hb.
Qed.
Lemma cell_prop_tree o n l name :
  (o, (n, l)) ∈ nodes 0 items -> fdt_cell_prop fdt o name = tree_cell b name l.
Proof. intros H. unfold fdt_cell_prop, tree_cell. by rewrite (getprop_tree _ _ _ _ H). Qed.

Lemma find_node f :
  match List.find f (nodes 0 items) with
  | Some (o, (n, l)) => (o, (n, l)) ∈ nodes 0 items /\ 0 <= o
  | None => True
  end.
Proof.
  destruct (List.find f (nodes 0 items)) as [[o [n l]]|] eqn:E; [|done]. apply List.find_some in E as [H _].
  apply list_elem_of_In in H. split; [done|]. by destruct (dtb_node b items Hd _ _ _ H).
Qed.

(** The search for a compatible string, and the node it leads to. *)
Lemma by_compatible_node c :
  no_zero (chars c) = true -> chars c <> [] ->
  match compatible_node b items c with
  | Some l => exists o n, Machine.fdt_node_offset_by_compatible fdt (-1) c = o /\ 0 <= o /\ (o, (n, l)) ∈ nodes 0 items
  | None => Machine.fdt_node_offset_by_compatible fdt (-1) c = -1
  end.
Proof.
  intros Hz Hne. cbn [Machine.fdt_node_offset_by_compatible tree blob_tree]. unfold compatible_node.
  rewrite (by_compatible_tree b items Hd (-1) (nodes 0 items)) by (done || by left). cbn [answer]. unfold first_offset.
  pose proof (find_node (is_compatible b (chars c))) as HF. destruct (List.find _ _) as [[o [n l]]|]; [|done].
  destruct HF. by exists o, n.
Qed.

Lemma find_reg_tree c :
  no_zero (chars c) = true -> chars c <> [] ->
  fdt_find_reg_by_compat fdt c = match compatible_node b items c with Some l => tree_reg b l | None => None end.
Proof.
  intros Hz Hne. unfold fdt_find_reg_by_compat. pose proof (by_compatible_node c Hz Hne) as H.
  destruct (compatible_node b items c) as [l|]; [|by rewrite H]. destruct H as (o & n & -> & H0 & Hin).
  replace (o <? 0) with false by lia. rewrite (getprop_tree _ _ _ _ Hin). unfold tree_reg.
  destruct (lookup_prop b (chars "reg") l) as [d|]; [|done]. rewrite !Z.shiftl_mul_pow2 by lia. by rewrite !lor_mul_pow2 by (lia || apply fdt32_cell_range).
Qed.
Lemma find_irq_tree c :
  no_zero (chars c) = true -> chars c <> [] ->
  fdt_find_irq_by_compat fdt c = match compatible_node b items c with Some l => tree_cell b "interrupts" l | None => None end.
Proof.
  intros Hz Hne. unfold fdt_find_irq_by_compat. pose proof (by_compatible_node c Hz Hne) as H.
  destruct (compatible_node b items c) as [l|]; [|by rewrite H]. destruct H as (o & n & -> & H0 & Hin).
  replace (o <? 0) with false by lia. rewrite (getprop_tree _ _ _ _ Hin). unfold tree_cell.
  destruct (lookup_prop b (chars "interrupts") l) as [d|]; [|done].
  destruct (Nat.ltb_spec (length d) 4), (Nat.leb_spec 4 (length d)); (done || lia).
Qed.
Lemma timebase_tree n l rest : items = Node n l :: rest -> fdt <> 0 -> timebase_of_fdt fdt = tree_timebase b n l.
Proof.
  intros E Hf. unfold timebase_of_fdt, tree_timebase. replace (fdt =? 0) with false by lia.
  cbn [Machine.fdt_path_offset tree blob_tree]. change (chars "/cpus") with (47 :: chars "cpus").
  rewrite (path_offset_eq b (db_ok _ _ Hd) items Hd n l rest (chars "cpus") E). cbn [answer].
  change (components (chars "cpus")) with [chars "cpus"]. cbn [resolve]. rewrite Z.add_0_l.
  destruct (find_kid (chars "cpus") _) as [[[o n'] k]|] eqn:Ek; [|done].
  apply find_kid_in, kids_nodes in Ek.
  assert (Hin : (o, (n', k)) ∈ nodes 0 items).
  { apply (nodes_below items 0 0 n l); [|by rewrite Z.add_0_l]. rewrite E. cbn [nodes]. rewrite nodes_of_node. apply list_elem_of_here. }
  destruct (dtb_node b items Hd _ _ _ Hin) as [H0 _]. replace (0 <=? o) with true by lia.
  by rewrite (cell_prop_tree _ _ _ _ Hin).
Qed.

(** ** The drivers *)

Lemma upd_plat_eq f s : upd_plat f s = Ret (tt, k_set_plat (f (k_plat s)) s).
Proof. reflexivity. Qed.
Lemma k_set_plat_id s : k_set_plat (k_plat s) s = s.
Proof. by destruct s. Qed.

Lemma bind_plat {A B} (f : platform_state -> A) (k : A -> M kstate B) s : bind (plat f) k s = k (f (k_plat s)) s.
Proof. reflexivity. Qed.

(** Updates of the platform variables in a row are one update. *)
Definition plat_update (m : M kstate unit) (f : platform_state -> platform_state) : Prop :=
  forall s, m s = Ret (tt, k_set_plat (f (k_plat s)) s).
Lemma update_upd f : plat_update (upd_plat f) f.
Proof. done. Qed.
Lemma update_ret : plat_update (ret tt) id.
Proof. intros s. unfold id. by rewrite k_set_plat_id. Qed.
Lemma update_seq m1 m2 f1 f2 : plat_update m1 f1 -> plat_update m2 f2 -> plat_update (m1 ;; m2) (fun p => f2 (f1 p)).
Proof. intros H1 H2 s. unfold bind. rewrite H1, H2. by destruct s. Qed.
Lemma update_ext m f g : plat_update m f -> (forall p, f p = g p) -> plat_update m g.
Proof. intros H E s. by rewrite H, E. Qed.

Lemma parse_dt_params_tree :
  fdt <> 0 ->
  plat_update (uart16550_parse_dt_params fdt)
    (match compatible_node b items "ns16550a" with Some l => uart_params b l | None => id end).
Proof.
  intros Hf. unfold uart16550_parse_dt_params. replace (fdt =? 0) with false by lia.
  pose proof (by_compatible_node "ns16550a" eq_refl ltac:(done)) as H.
  destruct (compatible_node b items "ns16550a") as [l|]; [|rewrite H; exact update_ret].
  destruct H as (o & n & -> & H0 & Hin). replace (o <? 0) with false by lia. rewrite !(cell_prop_tree _ _ _ _ Hin).
  unfold uart_params. eapply update_ext.
  - apply update_seq; [|apply update_seq].
    + instantiate (1 := match tree_cell b "reg-shift" l with Some v => p_set_uart_reg_shift v | None => id end).
      destruct (tree_cell b "reg-shift" l); [apply update_upd|apply update_ret].
    + instantiate (1 := match tree_cell b "reg-io-width" l with
        | Some w => if (w =? 1) || (w =? 2) || (w =? 4) then p_set_uart_reg_io_width w else id | None => id end).
      destruct (tree_cell b "reg-io-width" l) as [w|]; [|apply update_ret].
      unfold when. destruct (_ || _); [apply update_upd|apply update_ret].
    + instantiate (1 := match tree_cell b "reg-offset" l with Some v => p_set_uart_reg_offset v | None => id end).
      destruct (tree_cell b "reg-offset" l); [apply update_upd|apply update_ret].
  - intros p. cbv beta. destruct (tree_cell b "reg-shift" l), (tree_cell b "reg-io-width" l) as [w|], (tree_cell b "reg-offset" l);
      try destruct (_ || _); done.
Qed.

Lemma uart_init_tree s :
  fdt <> 0 -> p_g_dtb (k_plat s) = fdt ->
  match uart_node b items with
  | Some (base, irq, l) => uart16550_init s =
      uart_ier_write UART_IER_ERBFI (k_set_plat (uart_params b l (p_set_uart_irq irq (p_set_uart_base base (k_plat s)))) s)
  | None => exists msg, uart16550_init s = uart16550_puts msg s
  end.
Proof.
  intros Hf Hs. rewrite (bind_plat p_g_dtb _ s : uart16550_init s = _), Hs. unfold uart_node.
  rewrite find_reg_tree, find_irq_tree by done.
  pose proof (parse_dt_params_tree Hf) as HP. destruct (compatible_node b items "ns16550a") as [l|]; [|by eexists].
  destruct (tree_reg b l) as [[base size]|]; [|by eexists]. destruct (tree_cell b "interrupts" l) as [irq|]; [|by eexists].
  unfold bind. rewrite !upd_plat_eq. rewrite HP. by destruct s.
Qed.

Lemma ensure_base_tree s :
  fdt <> 0 -> p_g_dtb (k_plat s) = fdt -> p_plic_base (k_plat s) = 0 ->
  plic_ensure_base s = Ret (tt,
    match plic_node b items with
    | Some (base, l) => k_set_plat (plic_params b base l (k_plat s)) s
    | None => s
    end).
Proof.
  intros Hf Hs H0. rewrite (bind_plat p_plic_base _ s : plic_ensure_base s = _), H0. cbn [Z.eqb negb].
  rewrite bind_plat, Hs. replace (fdt =? 0) with false by lia.
  pose proof (by_compatible_node "riscv,plic0" eq_refl ltac:(done)) as H1.
  pose proof (by_compatible_node "sifive,plic-1.0.0" eq_refl ltac:(done)) as H2.
  assert (Hset : forall o n l base, (o, (n, l)) ∈ nodes 0 items ->
    plat_update (upd_plat (p_set_plic_num_sources 32) ;;
      (match fdt_cell_prop fdt o "riscv,ndev" with
       | Some n => when (0 <? n) (upd_plat (p_set_plic_num_sources n)) | None => ret tt end) ;;
      upd_plat (p_set_plic_base base)) (plic_params b base l)).
  { intros o n l base Hin. rewrite (cell_prop_tree _ _ _ _ Hin). eapply update_ext.
    - apply update_seq; [apply update_upd|apply update_seq; [|apply update_upd]].
      instantiate (1 := match tree_cell b "riscv,ndev" l with
        | Some n => if 0 <? n then p_set_plic_num_sources n else id | None => id end).
      destruct (tree_cell b "riscv,ndev" l) as [m|]; [|apply update_ret].
      unfold when. destruct (0 <? m); [apply update_upd|apply update_ret].
    - intros p. unfold plic_params. destruct (tree_cell b "riscv,ndev" l) as [m|]; [destruct (0 <? m)|]; by destruct p. }
  unfold plic_node. rewrite !find_reg_tree by (by destruct (_ <? 0)).
  destruct (compatible_node b items "riscv,plic0") as [l|] eqn:E1.
  - destruct H1 as (o & n & -> & Ho & Hin). replace (o <? 0) with false by lia. cbn [fst].
    replace (o <? 0) with false by lia. rewrite E1. destruct (tree_reg b l) as [[base size]|]; [|done]. by apply (Hset o n).
  - rewrite H1. cbn [Z.ltb Z.compare]. destruct (compatible_node b items "sifive,plic-1.0.0") as [l|] eqn:E2.
    + destruct H2 as (o & n & -> & Ho & Hin). replace (o <? 0) with false by lia.
      destruct (tree_reg b l) as [[base size]|]; [|done]. by apply (Hset o n).
    + by rewrite H2.
Qed.

(** C18: when the memory behind the device-tree pointer holds a tree, the platform's
    queries return what the tree says: base and size of the first node with a
    compatible string (its "reg", four cells), its interrupt number (the first cell of
    "interrupts"), and the time base of the node "cpus".  The UART driver takes base, interrupt and
    register layout from the first "ns16550a" node with both, enables its receive
    interrupt and writes no other variable (without such a node it prints a
    message); the PLIC driver, once, takes base and number of sources from the
    first "riscv,plic0" node, or else "sifive,plic-1.0.0". *)
Theorem drivers_follow_tree s :
  fdt <> 0 -> p_g_dtb (k_plat s) = fdt ->
  (forall c, no_zero (chars c) = true -> chars c <> [] ->
    fdt_find_reg_by_compat fdt c = match compatible_node b items c with Some l => tree_reg b l | None => None end /\
    fdt_find_irq_by_compat fdt c = match compatible_node b items c with
                                   | Some l => tree_cell b "interrupts" l | None => None end) /\
  (forall n l rest, items = Node n l :: rest -> timebase_of_fdt fdt = tree_timebase b n l) /\
  match uart_node b items with
  | Some (base, irq, l) => uart16550_init s =
      uart_ier_write UART_IER_ERBFI (k_set_plat (uart_params b l (p_set_uart_irq irq (p_set_uart_base base (k_plat s)))) s)
  | None => exists msg, uart16550_init s = uart16550_puts msg s
  end /\
  plic_ensure_base s = Ret (tt,
    if p_plic_base (k_plat s) =? 0
    then match plic_node b items with
         | Some (base, l) => k_set_plat (plic_params b base l (k_plat s)) s
         | None => s
         end
    else s).
Proof.
  intros Hf Hs. split.
  { intros c Hz Hne. split; [by apply find_reg_tree|by apply find_irq_tree]. }
  split; [intros n l rest Hi; by eapply timebase_tree|]. split; [by apply uart_init_tree|]. destruct (p_plic_base (k_plat s) =? 0) eqn:E.
  - apply ensure_base_tree; (done || lia).
  - unfold plic_ensure_base. by rewrite bind_plat, E.
Qed.

End platform.

(** ** On QEMU's tree *)

Definition virt_mem (p : Z) : blob := virt_blob.

(** The platform variables at start, with the device tree set. *)
#[local] Existing Instance demo_config.
#[local] Existing Instance demo_hardware.
Definition virt_start : kstate :=
  let s := image (0 : @dev demo_hardware) in
  k_set_plat (p_set_g_dtb 2183135232 (k_plat s)) s.
Lemma drivers_follow_tree_witness :
  dtb (virt_mem 2183135232) virt_tree /\ compat_ok (virt_mem 2183135232) virt_tree /\
  p_g_dtb (k_plat virt_start) = 2183135232 /\
  @fdt_find_reg_by_compat (blob_tree virt_mem) 2183135232 "ns16550a" = Some (268435456, 256) /\
  @fdt_find_irq_by_compat (blob_tree virt_mem) 2183135232 "ns16550a" = Some 10 /\
  @timebase_of_fdt (blob_tree virt_mem) 2183135232 = 10000000 /\
  plic_ensure_base (dt := blob_tree virt_mem) virt_start =
    Ret (tt, k_set_plat (p_set_plic_base 201326592 (p_set_plic_num_sources 95 (k_plat virt_start))) virt_start) /\
  exists l, uart16550_init (dt := blob_tree virt_mem) virt_start =
    uart_ier_write UART_IER_ERBFI
      (k_set_plat (uart_params virt_blob l (p_set_uart_irq 10 (p_set_uart_base 268435456 (k_plat virt_start)))) virt_start).
Proof.
  split; [exact virt_dtb|]. split; [exact virt_compat_ok|]. split; [reflexivity|].
  destruct (drivers_follow_tree virt_mem 2183135232 virt_tree virt_dtb virt_compat_ok virt_start ltac:(discriminate) eq_refl)
    as (Hq & Ht & Hu & Hp).
  destruct (Hq "ns16550a"%string eq_refl ltac:(discriminate)) as [Hreg Hirq].
  split; [exact Hreg|]. split; [exact Hirq|]. split; [exact (Ht _ _ _ eq_refl)|].
  split; [exact Hp|]. eexists. exact Hu.
Defined.
