(* ===== verification/Board.v ===== *)
(** * A board: the 16550 and the PLIC behind the registers

    [Hardware] says nothing about what devices answer.  A [Board] is a [Hardware]
    whose UART and PLIC behave as their manuals say, as far as the drivers rely on
    it: the receive queue, the characters sent, the time the transmitter needs, and
    the interrupts a context of the PLIC hands out.  The theorems about what reaches
    the wire and what reaches a reader are stated over it. *)
From stdpp Require Import base numbers list gmap strings.
From Stdlib Require Import ZArith Lia.
From S2P Require Import Prelude Mem Machine State Kernel Image Uart Plic Platform.

Local Open Scope Z_scope.

(** What the drivers see of the devices. *)
Record wire (D : Type) := {
  w_rx : D -> list Z;          (* received, not yet read *)
  w_sent : D -> list Z;        (* transmitted *)
  w_pend : Z -> D -> list Z;   (* the interrupts hart h will claim, in order *)
  w_serv : Z -> D -> list Z    (* claimed and not completed, the last first *)
}.
Arguments w_rx {D}.
Arguments w_sent {D}.
Arguments w_pend {D}.
Arguments w_serv {D}.

(** The same up to the time that passes. *)
Definition plic_same {D} (w : wire D) (d d' : D) : Prop :=
  forall h, w_pend w h d' = w_pend w h d /\ w_serv w h d' = w_serv w h d.
Definition keeps {D} (w : wire D) (d d' : D) : Prop :=
  w_rx w d' = w_rx w d /\ w_sent w d' = w_sent w d /\ plic_same w d d'.
Lemma plic_refl {D} (w : wire D) d : plic_same w d d.
Proof. by intros h. Qed.
Lemma plic_trans {D} (w : wire D) d1 d2 d3 : plic_same w d1 d2 -> plic_same w d2 d3 -> plic_same w d1 d3.
Proof. intros H1 H2 h. destruct (H1 h), (H2 h). split; congruence. Qed.

Class Board {hws : Hardware} := {
  bd_uart : Z -> Z;      (* address of a UART register *)
  bd_width : Z;          (* and the width of its accesses *)
  bd_irq : Z;            (* the PLIC source of the UART *)
  bd_claim : Z -> Z;     (* claim/complete register of a hart *)
  bd_latency : nat;      (* polls until a character has left *)
  bd_wire : wire dev;
  bd_busy : dev -> nat;  (* polls until the transmitter is ready *)
  bd_busy_le d : (bd_busy d <= bd_latency)%nat;
  (** Line status: data ready, transmitter empty; a poll takes time. *)
  bd_lsr d :
    let r := mmio_load bd_width (bd_uart UART_LSR) d in
    keeps bd_wire d r.2 /\ bd_busy r.2 = pred (bd_busy d) /\
    (Z.land (u8 r.1) UART_LSR_DR =? 0) = bool_decide (w_rx bd_wire d = []) /\
    (Z.land (u8 r.1) UART_LSR_THRE =? 0) = negb (bd_busy d =? 0)%nat;
  (** Receive buffer: the oldest character. *)
  bd_rbr d c l :
    w_rx bd_wire d = c :: l ->
    let r := mmio_load bd_width (bd_uart UART_RBR) d in
    u8 r.1 = c /\ w_rx bd_wire r.2 = l /\ w_sent bd_wire r.2 = w_sent bd_wire d /\
    plic_same bd_wire d r.2;
  (** Transmit buffer, when it is empty. *)
  bd_thr d c :
    bd_busy d = 0%nat ->
    let d' := mmio_store bd_width (bd_uart UART_THR) (u8 c) d in
    w_sent bd_wire d' = w_sent bd_wire d ++ [u8 c] /\ w_rx bd_wire d' = w_rx bd_wire d /\
    plic_same bd_wire d d';
  (** Interrupt identification, with only the receive interrupt enabled. *)
  bd_iir d :
    let r := mmio_load bd_width (bd_uart UART_IIR) d in
    keeps bd_wire d r.2 /\
    (w_rx bd_wire d = [] -> Z.land (u8 r.1) UART_IIR_NO_PENDING <> 0) /\
    (w_rx bd_wire d <> [] -> Z.land (u8 r.1) UART_IIR_NO_PENDING = 0 /\
       (Z.land (u8 r.1) UART_IIR_ID_MASK = UART_IIR_ID_RX \/ Z.land (u8 r.1) UART_IIR_ID_MASK = UART_IIR_ID_RXTO));
  (** Claim: the next interrupt, which is then in service, or 0. *)
  bd_claimed h d :
    let r := mmio_load 4 (bd_claim h) d in
    u32 r.1 = hd 0 (w_pend bd_wire h d) /\ w_pend bd_wire h r.2 = tl (w_pend bd_wire h d) /\
    w_serv bd_wire h r.2 = take 1 (w_pend bd_wire h d) ++ w_serv bd_wire h d /\
    w_rx bd_wire r.2 = w_rx bd_wire d /\ w_sent bd_wire r.2 = w_sent bd_wire d;
  bd_pend_pos h d : Forall (fun irq => 0 < irq) (w_pend bd_wire h d);
  (** Complete: the interrupt is no longer in service; the UART interrupts again
      only if there is something to read. *)
  bd_complete h d irq l :
    w_serv bd_wire h d = u32 irq :: l -> u32 irq <> bd_irq \/ w_rx bd_wire d = [] ->
    let d' := mmio_store 4 (bd_claim h) (u32 irq) d in
    w_rx bd_wire d' = w_rx bd_wire d /\ w_sent bd_wire d' = w_sent bd_wire d /\
    w_pend bd_wire h d' = w_pend bd_wire h d /\ w_serv bd_wire h d' = l;
  (** The CSRs are not devices. *)
  bd_time h d : keeps bd_wire d (csr_load h CSR_time d).2;
  bd_status h d : keeps bd_wire d (csr_load h CSR_sstatus d).2;
  bd_status_upd h op v d : keeps bd_wire d (csr_update h CSR_sstatus op v d)
}.

(** The drivers know the board: the parameters they read from the device tree are
    the addresses and the source of the devices. *)
Record wired {hws : Hardware} {bd : Board} (p : platform_state) : Prop := {
  wd_uart r : r ∈ [UART_RBR; UART_IIR; UART_LSR] -> uart_reg_addr p r = bd_uart r;
  wd_width : uart_width p = bd_width;
  wd_irq : p_uart_irq p = bd_irq;
  wd_plic : p_plic_base p <> 0;
  wd_claim h : u64 (p_plic_base p + plic_sclaim_offset_for_hart h) = bd_claim h
}.

(** ** A concrete board

    QEMU's: the UART at 0x10000000, byte-wide and source 10, the PLIC at
    0xc000000; a character takes one poll. *)

Record board_dev := {
  dv_rx : list Z; dv_sent : list Z; dv_busy : bool;
  dv_pend : Z -> list Z;  (* by claim register *)
  dv_serv : Z -> list Z;
  dv_time : Z
}.
Definition qemu_uart (r : Z) : Z := 268435456 + r.
Definition qemu_irq : Z := 10.
Definition qemu_claim (h : Z) : Z := u64 (201326592 + plic_sclaim_offset_for_hart h).

Definition sources (l : list Z) : list Z := List.filter (fun i => 0 <? i) (map u32 l).
Definition set_at (a : Z) (l : list Z) (f : Z -> list Z) : Z -> list Z :=
  fun a' => if a' =? a then l else f a'.

Definition board_load (w a : Z) (d : board_dev) : Z * board_dev :=
  if a =? qemu_uart UART_LSR then
    ((if dv_rx d then 0 else UART_LSR_DR) + (if dv_busy d then 0 else UART_LSR_THRE),
     {| dv_rx := dv_rx d; dv_sent := dv_sent d; dv_busy := false; dv_pend := dv_pend d; dv_serv := dv_serv d; dv_time := dv_time d |})
  else if a =? qemu_uart UART_RBR then
    (hd 0 (dv_rx d),
     {| dv_rx := tl (dv_rx d); dv_sent := dv_sent d; dv_busy := dv_busy d; dv_pend := dv_pend d; dv_serv := dv_serv d; dv_time := dv_time d |})
  else if a =? qemu_uart UART_IIR then
    (if dv_rx d then UART_IIR_NO_PENDING else UART_IIR_ID_RX, d)
  else
    (hd 0 (sources (dv_pend d a)),
     {| dv_rx := dv_rx d; dv_sent := dv_sent d; dv_busy := dv_busy d;
        dv_pend := set_at a (tl (sources (dv_pend d a))) (dv_pend d);
        dv_serv := set_at a (take 1 (sources (dv_pend d a)) ++ dv_serv d a) (dv_serv d); dv_time := dv_time d |}).
Definition board_store (w a v : Z) (d : board_dev) : board_dev :=
  if a =? qemu_uart UART_THR then
    {| dv_rx := dv_rx d; dv_sent := dv_sent d ++ [v]; dv_busy := true; dv_pend := dv_pend d; dv_serv := dv_serv d; dv_time := dv_time d |}
  else
    {| dv_rx := dv_rx d; dv_sent := dv_sent d; dv_busy := dv_busy d;
       dv_pend := if (v =? qemu_irq) && negb (bool_decide (dv_rx d = []))
                  then set_at a (dv_pend d a ++ [qemu_irq]) (dv_pend d) else dv_pend d;
       dv_serv := match dv_serv d a with i :: l => if i =? v then set_at a l (dv_serv d) else dv_serv d | [] => dv_serv d end;
       dv_time := dv_time d |}.

Definition board_hardware : Hardware := {|
  dev := board_dev;
  mmio_load := board_load;
  mmio_store := board_store;
  csr_load := fun _ c d => match c with
    | CSR_time => (dv_time d, {| dv_rx := dv_rx d; dv_sent := dv_sent d; dv_busy := dv_busy d;
                                 dv_pend := dv_pend d; dv_serv := dv_serv d; dv_time := dv_time d + 1000000 |})
    | _ => (0, d) end;
  csr_update := fun _ _ _ _ d => d;
  sbi_ecall := fun _ _ _ _ d => ((0, 0), d)
|}.

Definition board_wire : wire board_dev := {|
  w_rx := fun d => map u8 (dv_rx d);
  w_sent := dv_sent;
  w_pend := fun h d => sources (dv_pend d (qemu_claim h));
  w_serv := fun h d => dv_serv d (qemu_claim h)
|}.

Lemma sources_pos l : Forall (fun i => 0 < i) (sources l).
Proof. apply Forall_forall. intros i Hi. apply list_elem_of_In, filter_In in Hi as [_ Hi]. lia. Qed.
Lemma sources_small l : Forall (fun i => 0 < i < 2^32) (sources l).
Proof.
  apply Forall_forall. intros i Hi. apply list_elem_of_In, filter_In in Hi as [Hi H0].
  apply in_map_iff in Hi as (x & <- & _). pose proof (u32_range x). lia.
Qed.
Lemma sources_id l : Forall (fun i => 0 < i < 2^32) l -> sources l = l.
Proof.
  induction 1 as [|i l Hi _ IH]; [done|]. unfold sources in *. cbn [map List.filter]. rewrite u32_small by lia.
  rewrite (proj2 (Z.ltb_lt 0 i)) by lia. by f_equal.
Qed.
(** Claim registers are not registers of the UART. *)
Lemma claim_not_uart h r : r ∈ [UART_LSR; UART_RBR; UART_IIR] -> (qemu_claim h =? qemu_uart r) = false.
Proof.
  intros Hr. apply Z.eqb_neq. unfold qemu_claim, qemu_uart, plic_sclaim_offset_for_hart, PLIC_SCLAIM_HART0_OFFSET,
    PLIC_CONTEXTS_PER_HART, PLIC_CONTEXT_STRIDE. intros E.
  assert (Hm : (u64 (201326592 + u32 (2101252 + u32 (h * 2) * 4096))) mod 4096 = 4).
  { unfold u64, u32. rewrite (Z.mod_small _ (2^64)) by (Z.div_mod_to_equations; lia). Z.div_mod_to_equations. lia. }
  rewrite E in Hm. unfold UART_LSR, UART_RBR, UART_IIR in Hr.
  rewrite !elem_of_cons in Hr. destruct Hr as [->|[->|[->|Hr]]]; [discriminate Hm..|by apply elem_of_nil in Hr].
Qed.

Lemma board_claim_load h (d : board_dev) :
  board_load 4 (qemu_claim h) d =
  (hd 0 (sources (dv_pend d (qemu_claim h))),
   {| dv_rx := dv_rx d; dv_sent := dv_sent d; dv_busy := dv_busy d;
      dv_pend := set_at (qemu_claim h) (tl (sources (dv_pend d (qemu_claim h)))) (dv_pend d);
      dv_serv := set_at (qemu_claim h) (take 1 (sources (dv_pend d (qemu_claim h))) ++ dv_serv d (qemu_claim h)) (dv_serv d);
      dv_time := dv_time d |}).
Proof.
  unfold board_load. rewrite !claim_not_uart; [done|..]; rewrite !elem_of_cons; auto.
Qed.
Lemma sources_tl l : sources (tl (sources l)) = tl (sources l).
Proof. apply sources_id. pose proof (sources_small l) as H. by destruct (sources l); [|inversion H]. Qed.
Lemma sources_hd l : u32 (hd 0 (sources l)) = hd 0 (sources l).
Proof.
  apply u32_small. pose proof (sources_small l) as H. destruct (sources l); cbn; [lia|]. apply Forall_cons_1 in H as [H _]. lia.
Qed.

Program Definition qemu_board : @Board board_hardware := {|
  bd_uart := qemu_uart; bd_width := 1; bd_irq := qemu_irq; bd_claim := qemu_claim; bd_latency := 1;
  bd_wire := board_wire; bd_busy := fun d => if dv_busy d then 1%nat else 0%nat
|}.
Next Obligation. intros d. cbv beta. destruct (dv_busy d); lia. Qed.
Next Obligation.
  intros d. destruct d as [rx se bu pe sv ti]. cbn [mmio_load board_hardware]. unfold board_load. rewrite Z.eqb_refl.
  cbn. destruct rx, bu; repeat split.
Qed.
Next Obligation.
  intros d c l. cbn [mmio_load board_hardware board_wire w_rx]. unfold board_load.
  replace (qemu_uart UART_RBR =? qemu_uart UART_LSR) with false by done. rewrite Z.eqb_refl.
  destruct (dv_rx d) as [|x rx] eqn:E; [done|]. cbn [map hd tl fst snd dv_rx]. intros [= <- <-]. done.
Qed.
Next Obligation.
  intros d c _. cbn [mmio_store board_hardware board_wire]. unfold board_store. by rewrite Z.eqb_refl.
Qed.
Next Obligation.
  intros d. cbn [mmio_load board_hardware]. unfold board_load.
  replace (qemu_uart UART_IIR =? qemu_uart UART_LSR) with false by done.
  replace (qemu_uart UART_IIR =? qemu_uart UART_RBR) with false by done. rewrite Z.eqb_refl. cbn [fst snd board_wire w_rx].
  split; [done|]. destruct (dv_rx d); cbn [map]; split; try done. intros _. split; [done|]. by left.
Qed.
Next Obligation.
  intros h d. cbn [mmio_load board_hardware]. rewrite board_claim_load. cbn [fst snd board_wire w_pend w_serv w_rx w_sent dv_pend dv_serv dv_rx dv_sent].
  split; [apply sources_hd|]. unfold set_at. rewrite !Z.eqb_refl. split; [apply sources_tl|done].
Qed.
Next Obligation. intros h d. apply sources_pos. Qed.
Next Obligation.
  intros h d irq l Hs H. cbn [mmio_store board_hardware]. unfold board_store.
  replace (qemu_claim h =? qemu_uart UART_THR) with false by (symmetry; apply claim_not_uart; rewrite !elem_of_cons; auto).
  cbn [board_wire w_pend w_serv w_rx w_sent dv_pend dv_serv dv_rx dv_sent] in *. rewrite Hs, Z.eqb_refl.
  unfold set_at at 2. rewrite Z.eqb_refl. repeat (split; [done|]). split; [|done].
  destruct (u32 irq =? qemu_irq) eqn:E; cbn [andb]; [|done]. apply Z.eqb_eq in E. destruct H as [H|H]; [done|].
  apply map_eq_nil in H. by rewrite bool_decide_eq_true_2.
Qed.
Next Obligation. intros h d. done. Qed.
Next Obligation. intros h d. done. Qed.
Next Obligation. intros h op v d. done. Qed.
