(* ===== verification/DeviceSpec.v ===== *)
(** * What reaches the wire, and what arrives from it

    On a [Board] whose parameters the drivers know: the characters the UART driver
    sends, the numbers the platform prints, and an external interrupt from the claim
    to the console's ring. *)
From stdpp Require Import base numbers list gmap strings.
From Stdlib Require Import ZArith Lia.
From S2P Require Import Prelude Mem Machine State Kernel Image RunQueue Smp Thread Uart Plic Platform Console Irq Sysfile Trap Boot Quiet Syscalls TrapSpec System BootSpec Demo ConsoleSpec Fdt FdtDemo FdtPlatform Board.

Local Open Scope Z_scope.

(** ** Numbers *)

Definition digit (c : Z) : Prop := 48 <= c < 58.
Definition dec_value (l : list Z) : Z := foldl (fun n c => 10 * n + (c - 48)) 0 l.
(** No leading zero but in "0". *)
Definition canonical (l : list Z) : Prop := l = [48] \/ exists c l', l = c :: l' /\ c <> 48.

Lemma dec_loop_app f x tmp : dec_loop f x tmp = tmp ++ dec_loop f x [].
Proof.
  revert x tmp. induction f as [|f IH]; intros x tmp; cbn [dec_loop]; [by rewrite app_nil_r|].
  destruct (0 <? x); [|by rewrite app_nil_r]. rewrite IH, (IH _ ([] ++ _)). by rewrite <- app_assoc.
Qed.
Lemma dec_loop_0 f : dec_loop f 0 [] = [].
Proof. by destruct f. Qed.
Lemma dec_loop_spec f x :
  0 < x < 10 ^ Z.of_nat f ->
  dec_value (rev (dec_loop f x [])) = x /\ Forall digit (dec_loop f x []) /\
  exists ds c, dec_loop f x [] = ds ++ [c] /\ c <> 48.
Proof.
  revert x. induction f as [|f IH]; intros x Hx; [change (10 ^ Z.of_nat 0) with 1 in Hx; lia|].
  rewrite Nat2Z.inj_succ, Z.pow_succ_r in Hx by lia. cbn [dec_loop]. rewrite (proj2 (Z.ltb_lt 0 x)) by lia. cbn [app].
  rewrite dec_loop_app. pose proof (Z.div_mod x 10 ltac:(lia)) as Hdm. pose proof (Z.mod_pos_bound x 10 ltac:(lia)) as Hm.
  set (q := x / 10) in *. set (c := 48 + (x - q * 10)). assert (Hc : digit c) by (unfold digit, c; lia).
  cbn [app rev]. destruct (Z.eq_dec q 0) as [Eq|Hq].
  - rewrite Eq, dec_loop_0. split; [cbn; lia|]. split; [by constructor|]. exists [], c. split; [done|lia].
  - destruct (IH q ltac:(lia)) as (Hv & HF & ds & c' & E & Hc'). unfold dec_value in *. rewrite foldl_app, Hv. cbn [foldl].
    split; [lia|]. split; [by constructor|]. exists (c :: ds), c'. rewrite E. done.
Qed.

(** The decimal representation. *)
Definition decimal (ds : list Z) (x : Z) : Prop := dec_value ds = x /\ Forall digit ds /\ canonical ds.
Lemma dec_bytes_decimal x : 0 <= x < 2^64 -> decimal (dec_bytes x) x.
Proof.
  intros Hx. unfold dec_bytes. destruct (Z.eqb_spec x 0) as [->|H0].
  - split; [done|]. split; [constructor; [unfold digit; lia|done]|by left].
  - destruct (dec_loop_spec 20 x) as (Hv & HF & ds & c & E & Hc); [lia|]. split; [done|]. split.
    + by apply Forall_rev.
    + right. rewrite E, rev_app_distr. by exists c, (rev ds).
Qed.

Definition hex_value (l : list Z) : Z := foldl (fun n c => 16 * n + (if c <? 58 then c - 48 else c - 87)) 0 l.
Lemma hex_digits_value n x : 0 <= x < 16 ^ Z.of_nat n -> hex_value (hex_digits n x) = x.
Proof.
  intros Hx. assert (H : forall a, foldl (fun n c => 16 * n + (if c <? 58 then c - 48 else c - 87)) a (hex_digits n x) =
    16 ^ Z.of_nat n * a + x mod 16 ^ Z.of_nat n).
  { clear Hx. induction n as [|n IH]; intros a; cbn [hex_digits foldl].
    - change (16 ^ Z.of_nat 0) with 1. rewrite Z.mod_1_r. lia.
    - rewrite IH. rewrite Nat2Z.inj_succ, Z.pow_succ_r by lia. set (p := 16 ^ Z.of_nat n).
      assert (Hp : 0 < p) by (unfold p; lia).
      assert (Hs : Z.shiftr x (4 * Z.of_nat n) = x / p).
      { unfold p. rewrite Z.shiftr_div_pow2 by lia. rewrite Z.pow_mul_r by lia. done. }
      rewrite Hs. change 15 with (Z.ones 4). rewrite Z.land_ones by lia. change (2 ^ 4) with 16.
      pose proof (Z.mod_pos_bound (x / p) 16 ltac:(lia)) as Hm. set (r := (x / p) mod 16) in *.
      assert (Hd : (if hex_digit r <? 58 then hex_digit r - 48 else hex_digit r - 87) = r).
      { unfold hex_digit. destruct (Z.ltb_spec r 10).
        - rewrite (proj2 (Z.ltb_lt _ _)) by lia. lia.
        - rewrite (proj2 (Z.ltb_ge _ _)) by lia. lia. }
      rewrite Hd. rewrite (Z.mul_comm 16 p), Z.rem_mul_r by lia. fold r. lia. }
  unfold hex_value. rewrite H, Z.mod_small; lia.
Qed.

(** ** Output *)

(** How the driver sends a text: a line feed becomes two characters. *)
Definition crlf (l : list Z) : list Z := flat_map (fun c => if c =? 10 then [13; 10] else [u8 c]) l.
Lemma crlf_app l l' : crlf (l ++ l') = crlf l ++ crlf l'.
Proof. apply flat_map_app. Qed.
(** [n] bytes of user memory. *)
Definition user_text (m : mem) (a : Z) (n : nat) : list Z := map (fun i => load8 m (a + Z.of_nat i)) (seq 0 n).

Section output.
Context {cfg : Config} {hws : Hardware} {dt : DeviceTree} {bd : Board}.
Context (Hfuel : (bd_latency < poll_fuel)%nat).

(** Only the devices have changed, and what is new is [l] on the wire. *)
Definition sends (l : list Z) (s s' : kstate) : Prop :=
  exists d, s' = k_set_hw d s /\ w_sent bd_wire d = w_sent bd_wire (k_hw s) ++ l /\
    w_rx bd_wire d = w_rx bd_wire (k_hw s) /\ plic_same bd_wire (k_hw s) d.

Lemma sends_nil s : sends [] s s.
Proof. exists (k_hw s). rewrite app_nil_r. repeat (split; [by destruct s|]). apply plic_refl. Qed.
Lemma sends_app l l' s1 s2 s3 : sends l s1 s2 -> sends l' s2 s3 -> sends (l ++ l') s1 s3.
Proof.
  intros (d & -> & Hs & Hr & Hp) (d' & -> & Hs' & Hr' & Hp'). exists d'. cbn [k_hw k_set_hw] in *.
  split; [done|]. rewrite Hs', Hs, <- app_assoc, Hr'. split; [done|]. split; [done|]. by eapply plic_trans.
Qed.
Lemma sends_wired l s s' : sends l s s' -> k_plat s' = k_plat s.
Proof. by intros (d & -> & _). Qed.

Lemma wp_uart_r r s (Q : Z -> kstate -> Prop) :
  wired (k_plat s) -> r ∈ [UART_RBR; UART_IIR; UART_LSR] ->
  (let x := mmio_load bd_width (bd_uart r) (k_hw s) in Q (u8 x.1) (k_set_hw x.2 s)) -> wp (uart_r r) Q s.
Proof.
  intros Hw Hr. unfold uart_r, plat. intros HQ. apply wp_bind, wp_gets, wp_bind. unfold mmio_r, on_hw, wp at 1. cbn [id].
  rewrite (wd_uart _ Hw), (wd_width _ Hw) by done. by destruct (mmio_load _ _ _).
Qed.
Lemma reg_lsr : UART_LSR ∈ [UART_RBR; UART_IIR; UART_LSR].
Proof. rewrite !elem_of_cons. auto. Qed.
Lemma reg_iir : UART_IIR ∈ [UART_RBR; UART_IIR; UART_LSR].
Proof. rewrite !elem_of_cons. auto. Qed.
Lemma reg_rbr : UART_RBR ∈ [UART_RBR; UART_IIR; UART_LSR].
Proof. rewrite !elem_of_cons. auto. Qed.
Lemma keeps_sends d s : keeps bd_wire (k_hw s) d -> sends [] s (k_set_hw d s).
Proof. intros (Hr & Hs & Hp). exists d. by rewrite app_nil_r. Qed.

Lemma putc_wait f s :
  wired (k_plat s) -> (bd_busy (k_hw s) < f)%nat ->
  wp (loop f (lsr <- uart_lsr_read ;; if Z.land lsr UART_LSR_THRE =? 0 then ret None else ret (Some tt)))
    (fun _ s' => sends [] s s' /\ bd_busy (k_hw s') = 0%nat) s.
Proof.
  revert s. induction f as [|f IH]; intros s Hw Hf; [lia|]. cbn [loop]. apply wp_bind, wp_bind, wp_uart_r; [done|apply reg_lsr|].
  pose proof (bd_lsr (k_hw s)) as (Hk & Hb & _ & Ht). set (x := mmio_load _ _ _) in *. cbv zeta. rewrite Ht.
  apply keeps_sends in Hk. destruct (bd_busy (k_hw s)) as [|n] eqn:E; cbn [Nat.eqb negb]; apply wp_ret.
  - apply wp_ret. by split.
  - eapply wp_mono; [apply IH; [by rewrite (sends_wired _ _ _ Hk)|cbn [k_hw k_set_hw]; lia]|].
    intros _ s' [Hs' H0]. split; [exact (sends_app _ _ _ _ _ Hk Hs')|done].
Qed.
Lemma putc_sends c s : wired (k_plat s) -> wp (uart16550_putc c) (fun _ s' => sends [u8 c] s s') s.
Proof.
  intros Hw. unfold uart16550_putc. apply wp_bind. pose proof (bd_busy_le (k_hw s)).
  eapply wp_mono; [apply putc_wait; [done|lia]|]. intros [] s1 [H1 H0].
  unfold uart_thr_write, uart_w, plat. apply wp_bind, wp_gets. unfold mmio_w, on_hw, wp. cbn [id].
  pose proof (sends_wired _ _ _ H1) as Hp. rewrite Hp, (wd_width _ Hw). change UART_THR with UART_RBR.
  rewrite (wd_uart _ Hw) by apply reg_rbr.
  replace (u8 (u8 c)) with (u8 c) by (symmetry; apply u8_small, u8_range).
  destruct (bd_thr (k_hw s1) c H0) as (Hs & Hr & Hpe). change (bd_uart UART_THR) with (bd_uart UART_RBR) in *.
  change [u8 c] with ([] ++ [u8 c]). eapply sends_app; [exact H1|]. by eexists.
Qed.
Lemma put_text_sends c s : wired (k_plat s) -> wp (uart_put_text c) (fun _ s' => sends (crlf [c]) s s') s.
Proof.
  intros Hw. unfold uart_put_text, when. cbn [crlf flat_map]. rewrite app_nil_r. apply wp_bind.
  destruct (Z.eqb_spec c 10) as [->|Hc].
  - eapply wp_mono; [by apply putc_sends|]. intros [] s1 H1.
    eapply wp_mono; [apply putc_sends; by rewrite (sends_wired _ _ _ H1)|]. intros [] s2 H2. exact (sends_app _ _ _ _ _ H1 H2).
  - apply wp_ret. by apply putc_sends.
Qed.
Lemma put_bytes_sends l s : wired (k_plat s) -> wp (put_bytes l) (fun _ s' => sends (crlf l) s s') s.
Proof.
  revert s. induction l as [|c l IH]; intros s Hw; cbn [put_bytes]; [apply sends_nil|]. apply wp_bind.
  eapply wp_mono; [by apply put_text_sends|]. intros [] s1 H1. eapply wp_mono; [apply IH; by rewrite (sends_wired _ _ _ H1)|].
  intros [] s2 H2. change (c :: l) with ([c] ++ l). rewrite crlf_app. exact (sends_app _ _ _ _ _ H1 H2).
Qed.

(** The bytes of a buffer the driver is given. *)
Definition buf_text (m : mem) (b : cbuf) (n : nat) : list Z :=
  match b with
  | CB_mem a => user_text m a n
  | CB_local l => map (fun i => default 0 (l !! i)) (seq 0 n)
  end.
Lemma write_sends b n s :
  wired (k_plat s) -> cbuf_null b = false -> 0 <= n ->
  wp (uart16550_write b n) (fun _ s' => sends (crlf (buf_text (k_umem s) b (Z.to_nat n))) s s') s.
Proof.
  intros Hw Hb Hn. unfold uart16550_write. rewrite Hb. cbn [orb]. destruct (Z.eqb_spec n 0) as [->|H0].
  { apply wp_ret. destruct b; apply sends_nil. }
  eapply wp_mono; [apply (wp_for_z (fun i s' => sends (crlf (buf_text (k_umem s) b (Z.to_nat i))) s s'))|].
  - destruct b; apply sends_nil.
  - intros j s1 Hj H1. apply wp_bind. pose proof H1 as (d & -> & _).
    assert (Hnext : forall c, buf_text (k_umem s) b (Z.to_nat (j + 1)) = buf_text (k_umem s) b (Z.to_nat j) ++ [c] ->
      wp (uart_put_text c) (fun _ s'' => sends (crlf (buf_text (k_umem s) b (Z.to_nat (j + 1)))) s s'') (k_set_hw d s)).
    { intros c ->. eapply wp_mono; [by apply put_text_sends|]. intros [] s2 H2. rewrite crlf_app. exact (sends_app _ _ _ _ _ H1 H2). }
    replace (Z.to_nat (j + 1)) with (S (Z.to_nat j)) in * by lia. destruct b as [a|l]; cbn [cbuf_char buf_text] in *.
    + apply wp_gets, Hnext. unfold user_text. rewrite seq_S, map_app. cbn [map Nat.add k_umem k_set_hw]. by rewrite Z2Nat.id by lia.
    + apply wp_ret, Hnext. by rewrite seq_S, map_app.
  - intros [] s1. rewrite Z2Nat.id by lia. done.
Qed.
End output.

(** ** Input *)

Lemma fill_nil r : fill (typed r) [] = typed r.
Proof.
  unfold fill. rewrite app_nil_r, take_ge; [done|]. pose proof (typed_length r). pose proof (used_range r). lia.
Qed.
Lemma take_take_app {A} n (a b : list A) : take n (take n a ++ b) = take n (a ++ b).
Proof.
  destruct (Nat.le_gt_cases n (length a)) as [H|H].
  - rewrite !take_app_le; [by rewrite take_take, Nat.min_id|done|rewrite length_take; lia].
  - by rewrite (take_ge a) by lia.
Qed.
Lemma fill_app t l l' : fill (fill t l) l' = fill t (l ++ l').
Proof. unfold fill. by rewrite take_take_app, app_assoc. Qed.

Section input.
Context {cfg : Config} {hws : Hardware} {dt : DeviceTree} {bd : Board}.

(** The console has taken [l] from the receive queue. *)
Definition takes (l : list Z) (s s' : kstate) : Prop :=
  exists r d, s' = k_set_con r (k_set_hw d s) /\ con_ok r /\ typed r = fill (typed (k_con s)) l /\
    w_rx bd_wire (k_hw s) = l ++ w_rx bd_wire d /\ w_sent bd_wire d = w_sent bd_wire (k_hw s) /\
    plic_same bd_wire (k_hw s) d.
Lemma takes_trans l l' s1 s2 s3 : takes l s1 s2 -> takes l' s2 s3 -> takes (l ++ l') s1 s3.
Proof.
  intros (r & d & -> & H1 & H2 & H3 & H4 & H5) (r' & d' & -> & H1' & H2' & H3' & H4' & H5').
  cbn [k_con k_hw k_set_con k_set_hw] in *. exists r', d'. split; [done|]. split; [done|].
  rewrite H2', H2, fill_app, H3, H3', H4', app_assoc. split; [done|]. split; [done|]. split; [done|]. by eapply plic_trans.
Qed.
Lemma takes_keeps d s : con_ok (k_con s) -> keeps bd_wire (k_hw s) d -> takes [] s (k_set_hw d s).
Proof. intros Hc (Hr & Hs & Hp). exists (k_con s), d. rewrite fill_nil, Hr. by destruct s. Qed.
Lemma takes_facts l s s' :
  takes l s s' -> con_ok (k_con s') /\ k_plat s' = k_plat s /\ k_core s' = k_core s /\
  w_rx bd_wire (k_hw s) = l ++ w_rx bd_wire (k_hw s').
Proof. by intros (r & d & -> & H & _ & ? & _). Qed.

Lemma char_taken ch s :
  con_ok (k_con s) -> g_stdin_waiter (k_core s) < 0 ->
  wp (console_on_char_from_irq ch) (fun _ s' => exists r, s' = k_set_con r s /\ con_ok r /\ typed r = fill (typed (k_con s)) [u8 ch]) s.
Proof.
  intros Hc Hwait. unfold console_on_char_from_irq. apply wp_bind. eapply wp_mono; [by apply push_fills|].
  intros [] s1 (r & -> & Hr & Ht). apply wp_bind, wp_core. cbn [k_core k_set_con].
  rewrite (proj2 (Z.ltb_lt _ 0)) by done. apply wp_ret. by exists r.
Qed.

Lemma drain_takes f s :
  wired (k_plat s) -> con_ok (k_con s) -> g_stdin_waiter (k_core s) < 0 -> (length (w_rx bd_wire (k_hw s)) < f)%nat ->
  wp (loop f (lsr <- uart_lsr_read ;; if Z.land lsr UART_LSR_DR =? 0 then ret (Some tt) else
        ch <- uart_rbr_read ;; console_on_char_from_irq ch ;; ret None))
    (fun _ s' => takes (w_rx bd_wire (k_hw s)) s s') s.
Proof.
  revert s. induction f as [|f IH]; intros s Hw Hc Hwait Hf; [lia|]. cbn [loop]. apply wp_bind, wp_bind, wp_uart_r; [done|apply reg_lsr|].
  pose proof (bd_lsr (k_hw s)) as (Hk & _ & Hdr & _). set (x := mmio_load _ _ _) in *. cbv zeta. rewrite Hdr.
  pose proof Hk as (Hrx & _ & _). apply (takes_keeps _ _ Hc) in Hk. destruct (w_rx bd_wire (k_hw s)) as [|c l] eqn:E.
  { rewrite bool_decide_eq_true_2 by done. by apply wp_ret, wp_ret. }
  rewrite bool_decide_eq_false_2 by done. set (s1 := k_set_hw x.2 s) in *. apply wp_bind, wp_uart_r; [done|apply reg_rbr|].
  destruct (bd_rbr (k_hw s1) c l Hrx) as (Hv & Hr & Hs & Hp). set (y := mmio_load _ _ (k_hw s1)) in *. cbv zeta.
  apply wp_bind. eapply wp_mono; [by apply char_taken|]. intros [] s2 (r & -> & Hcr & Ht).
  assert (Hu : u8 (u8 y.1) = c) by (rewrite u8_small by apply u8_range; done).
  assert (H2 : takes [c] s1 (k_set_con r (k_set_hw y.2 s1))).
  { exists r, y.2. split; [done|]. split; [done|]. rewrite Ht, Hu. split; [done|]. cbn [app]. rewrite Hr. by split. }
  apply wp_ret. eapply wp_mono; [apply IH; try done|].
  - cbn [k_hw k_set_con k_set_hw]. rewrite Hr. simpl in Hf. lia.
  - intros [] s3 H3. cbn [k_hw k_set_con k_set_hw] in H3. rewrite Hr in H3.
    change (c :: l) with ([] ++ [c] ++ l). eapply takes_trans; [exact Hk|]. by eapply takes_trans.
Qed.

Lemma uart_handler_takes irq arg s :
  wired (k_plat s) -> con_ok (k_con s) -> g_stdin_waiter (k_core s) < 0 ->
  (length (w_rx bd_wire (k_hw s)) < poll_fuel)%nat -> (2 <= poll_fuel)%nat ->
  wp (uart16550_irq_handler irq arg) (fun _ s' => takes (w_rx bd_wire (k_hw s)) s s') s.
Proof.
  intros Hw Hc Hwait Hf H2. unfold uart16550_irq_handler. destruct poll_fuel as [|[|f]] eqn:EF; [lia..|].
  assert (Hstop : forall g s1, wired (k_plat s1) -> con_ok (k_con s1) -> w_rx bd_wire (k_hw s1) = [] ->
    wp (loop (S g) (iir <- uart_iir_read ;; if negb (Z.land iir UART_IIR_NO_PENDING =? 0) then ret (Some tt) else
      uart_handle_iir iir ;; ret None)) (fun _ s' => takes [] s1 s') s1).
  { intros g s1 Hw1 Hc1 E. cbn [loop]. apply wp_bind, wp_bind, wp_uart_r; [done|apply reg_iir|].
    destruct (bd_iir (k_hw s1)) as (Hk & Hn & _). specialize (Hn E). cbv zeta. rewrite (proj2 (Z.eqb_neq _ 0) Hn). cbn [negb].
    apply wp_ret, wp_ret. by apply takes_keeps. }
  destruct (w_rx bd_wire (k_hw s)) as [|c l] eqn:E; [by apply Hstop|]. cbn [loop]. apply wp_bind, wp_bind, wp_uart_r; [done|apply reg_iir|].
  destruct (bd_iir (k_hw s)) as (Hk & _ & Hn). destruct (Hn ltac:(by rewrite E)) as [Hp Hid]. clear Hn.
  set (x := mmio_load _ _ _) in *. cbv zeta. rewrite Hp. cbn [Z.eqb negb].
  pose proof Hk as (Hrx & _ & _). apply (takes_keeps _ _ Hc) in Hk. set (s1 := k_set_hw x.2 s) in *. apply wp_bind.
  assert (Hd : wp (uart_handle_iir (u8 x.1)) (fun _ s' => takes (w_rx bd_wire (k_hw s1)) s1 s') s1).
  { unfold uart_handle_iir. replace (_ || _) with true.
    - unfold uart_drain_rx. rewrite EF. apply drain_takes; try done. cbn [k_hw s1 k_set_hw]. by rewrite Hrx, E.
    - symmetry. apply orb_true_iff. rewrite !Z.eqb_eq. done. }
  eapply wp_mono; [exact Hd|]. intros [] s2 H2'. apply wp_ret. change (k_hw s1) with x.2 in H2'. rewrite Hrx, E in H2'.
  destruct (takes_facts _ _ _ H2') as (Hc2 & Hp2 & _ & Hr2). change (k_hw s1) with x.2 in Hr2. rewrite Hrx, E in Hr2.
  eapply wp_mono; [apply Hstop; [by rewrite Hp2|done|]|].
  - apply (f_equal length) in Hr2. rewrite length_app in Hr2. destruct (w_rx bd_wire (k_hw s2)); [done|cbn in Hr2; lia].
  - intros [] s3 H3. change (c :: l) with ([] ++ c :: l). rewrite <- (app_nil_r (c :: l)).
    eapply takes_trans; [exact Hk|]. by eapply takes_trans.
Qed.
End input.

(** ** Interrupts *)

(** How often an interrupt occurs in a list. *)
Definition occurrences (i : Z) (l : list Z) : Z := Z.of_nat (length (List.filter (fun j => j =? i) l)).
Lemma occurrences_app i l l' : occurrences i (l ++ l') = occurrences i l + occurrences i l'.
Proof. unfold occurrences. rewrite List.filter_app, length_app. lia. Qed.

Section interrupts.
Context {cfg : Config} {hws : Hardware} {dt : DeviceTree} {bd : Board}.
Context (Hfuel : (bd_latency < poll_fuel)%nat).

(** What is printed for interrupts nobody registered for. *)
Definition strays (irqs : list Z) : list Z :=
  flat_map (fun i => if i =? bd_irq then [] else crlf (bytes_of_string ("unknown PLIC irq" ++ nl))) irqs.
(** The table as [platform_boot_hart_init] leaves it. *)
Definition uart_registered (p : platform_state) : Prop :=
  0 < bd_irq < MAX_IRQ /\ forall i, 0 <= i < MAX_IRQ -> exists arg,
    p_irq_table p !! i = Some {| ie_handler := if i =? bd_irq then Some H_uart16550_irq_handler else None; ie_arg := arg |}.

(** The handling of [irqs]: if the UART is among them, the console has taken what
    was received; every interrupt is counted; nothing but the ring, the statistics
    and the devices has changed. *)
Record handled (irqs : list Z) (s s' : kstate) : Prop := {
  ha_frame : exists r d st, s' = k_set_con r (k_set_hw d (k_set_plat (p_set_irq_stats st (k_plat s)) s));
  ha_con : con_ok (k_con s');
  ha_typed : typed (k_con s') = fill (typed (k_con s)) (if decide (bd_irq ∈ irqs) then w_rx bd_wire (k_hw s) else []);
  ha_rx : w_rx bd_wire (k_hw s') = if decide (bd_irq ∈ irqs) then [] else w_rx bd_wire (k_hw s);
  ha_sent : w_sent bd_wire (k_hw s') = w_sent bd_wire (k_hw s) ++ strays irqs;
  ha_stats i x : 0 <= i < MAX_IRQ -> p_irq_stats (k_plat s) !! i = Some x -> exists y, p_irq_stats (k_plat s') !! i = Some y /\
    u64 (is_count y) = u64 (is_count x + occurrences i irqs)
}.
Lemma handled_nil s d :
  con_ok (k_con s) -> w_rx bd_wire d = w_rx bd_wire (k_hw s) -> w_sent bd_wire d = w_sent bd_wire (k_hw s) ->
  handled [] s (k_set_hw d s).
Proof.
  intros Hc Hr Hs. split; cbn [k_con k_hw k_plat k_set_hw].
  - exists (k_con s), d, (p_irq_stats (k_plat s)). by destruct s as [? ? ? [] ? ? ? ? ?].
  - done.
  - rewrite decide_False by apply not_elem_of_nil. by rewrite fill_nil.
  - by rewrite decide_False by apply not_elem_of_nil.
  - by rewrite app_nil_r.
  - intros i x _ Hx. exists x. by rewrite Z.add_0_r.
Qed.
Lemma handled_app l l' s1 s2 s3 : handled l s1 s2 -> handled l' s2 s3 -> handled (l ++ l') s1 s3.
Proof.
  intros [(r & d & st & ->) A2 A3 A4 A5 A6] [(r' & d' & st' & ->) B2 B3 B4 B5 B6].
  cbn [k_con k_hw k_plat k_set_con k_set_hw k_set_plat p_irq_stats p_set_irq_stats] in *.
  split; cbn [k_con k_hw k_plat k_set_con k_set_hw k_set_plat p_irq_stats p_set_irq_stats].
  - by exists r', d', st'.
  - done.
  - rewrite B3, A3, A4, fill_app. f_equal.
    destruct (decide (bd_irq ∈ l)) as [H1|H1], (decide (bd_irq ∈ l')) as [H2|H2], (decide (bd_irq ∈ l ++ l')) as [H3|H3];
      rewrite elem_of_app in H3; rewrite ?app_nil_r; tauto.
  - rewrite B4, A4.
    destruct (decide (bd_irq ∈ l)) as [H1|H1], (decide (bd_irq ∈ l')) as [H2|H2], (decide (bd_irq ∈ l ++ l')) as [H3|H3];
      rewrite elem_of_app in H3; tauto.
  - rewrite B5, A5. unfold strays. by rewrite flat_map_app, app_assoc.
  - intros i x Hi Hx. destruct (A6 i x Hi Hx) as (y & Hy & Ey). destruct (B6 i y Hi Hy) as (z & Hz & Ez). exists z. split; [done|].
    rewrite Ez, occurrences_app. unfold u64 in *. rewrite <- Zplus_mod_idemp_l, Ey, Zplus_mod_idemp_l. f_equal. lia.
Qed.

Record ready (s : kstate) : Prop := {
  rd_wired : wired (k_plat s);
  rd_table : uart_registered (k_plat s);
  rd_plat : plat_ok (k_plat s);
  rd_con : con_ok (k_con s);
  rd_waiter : g_stdin_waiter (k_core s) < 0;
  rd_hart : exists c, cpu s (k_tp s) = Some c;
  rd_rx : (length (w_rx bd_wire (k_hw s)) < poll_fuel)%nat
}.
Lemma handled_ready l s s' : handled l s s' -> ready s -> ready s'.
Proof.
  intros Ha [R1 R2 R3 R4 R5 R6 R7]. pose proof (ha_con _ _ _ Ha) as Hc. pose proof (ha_rx _ _ _ Ha) as Hr.
  pose proof (ha_stats _ _ _ Ha) as Hst. destruct (ha_frame _ _ _ Ha) as (r & d & st & ->).
  cbn [k_con k_hw k_plat k_core k_tp k_set_con k_set_hw k_set_plat p_irq_stats p_set_irq_stats] in *.
  split; cbn [k_con k_hw k_plat k_core k_tp k_set_con k_set_hw k_set_plat]; try done.
  - destruct R1 as [W1 W2 W3 W4 W5]. by split.
  - destruct R3 as (P1 & P2 & P3 & P4). split; [done|]. split; [|done]. intros i Hi. destruct (P2 i Hi) as [x Hx].
    destruct (Hst i x Hi Hx) as (y & Hy & _). by exists y.
  - rewrite Hr. destruct (decide _); [cbn; lia|done].
Qed.

Lemma puts_sends m s : wired (k_plat s) -> wp (platform_puts m) (fun _ s' => sends (crlf (bytes_of_string m)) s s') s.
Proof. intros Hw. by apply put_bytes_sends. Qed.

Lemma occurrences_one i irq : occurrences i [irq] = if irq =? i then 1 else 0.
Proof. unfold occurrences. cbn [List.filter]. by destruct (irq =? i). Qed.

Lemma stat_counted irq s :
  ready s -> 0 < irq ->
  wp (now <- platform_time_now ;; when (irq <? MAX_IRQ) (st <- get_irq_stat irq ;; set_irq_stat irq (irq_stat_update now st)))
    (fun _ s' => exists d st, s' = k_set_hw d (k_set_plat (p_set_irq_stats st (k_plat s)) s) /\ keeps bd_wire (k_hw s) d /\
      forall i x, 0 <= i < MAX_IRQ -> p_irq_stats (k_plat s) !! i = Some x -> exists y, st !! i = Some y /\
        u64 (is_count y) = u64 (is_count x + occurrences i [irq])) s.
Proof.
  intros [R1 _ R3 _ _ _ _] Hirq. apply wp_bind. unfold platform_time_now, timer_now, csr_read. apply wp_bind, wp_gets.
  unfold on_hw, wp at 1. pose proof (bd_time (k_tp s) (k_hw s)) as Hk. destruct (csr_load _ _ _) as [now d]. cbn [snd] in Hk.
  unfold when. destruct (Z.ltb_spec irq MAX_IRQ) as [Hlt|Hge].
  - destruct R3 as (_ & P2 & _). destruct (P2 irq ltac:(lia)) as [x Hx].
    apply wp_bind. unfold get_irq_stat, wp at 1. cbn [k_plat k_set_hw]. rewrite Hx.
    unfold set_irq_stat. apply wp_bind. unfold get_irq_stat, wp at 1. cbn [k_plat k_set_hw]. rewrite Hx. apply wp_modify.
    exists d, (<[irq := irq_stat_update now x]> (p_irq_stats (k_plat s))). split; [done|]. split; [done|].
    intros i y _ Hy. rewrite lookup_insert, occurrences_one. destruct (decide (irq = i)) as [<-|Hne].
    + rewrite Z.eqb_refl. eexists. split; [done|]. rewrite Hx in Hy. injection Hy as <-. cbn [is_count irq_stat_update].
      unfold u64. by rewrite Z.mod_mod.
    + exists y. split; [done|]. rewrite (proj2 (Z.eqb_neq irq i)) by done. by rewrite Z.add_0_r.
  - apply wp_ret. exists d, (p_irq_stats (k_plat s)). split; [by destruct s as [? ? ? [] ? ? ? ? ?]|]. split; [done|].
    intros i y Hi Hy. exists y. split; [done|]. rewrite occurrences_one, (proj2 (Z.eqb_neq irq i)) by lia. by rewrite Z.add_0_r.
Qed.

Lemma completed irq s c l :
  wired (k_plat s) -> cpu s (k_tp s) = Some c -> 0 < irq < 2^32 -> irq <> bd_irq \/ w_rx bd_wire (k_hw s) = [] ->
  w_serv bd_wire (c_hartid c) (k_hw s) = irq :: l ->
  wp (plic_complete irq) (fun _ s' => exists d, s' = k_set_hw d s /\ w_rx bd_wire d = w_rx bd_wire (k_hw s) /\
    w_sent bd_wire d = w_sent bd_wire (k_hw s) /\ w_pend bd_wire (c_hartid c) d = w_pend bd_wire (c_hartid c) (k_hw s) /\
    w_serv bd_wire (c_hartid c) d = l) s.
Proof.
  intros Hw Hc Hirq Hrx Hsv. unfold plic_complete. rewrite (proj2 (Z.eqb_neq irq 0)) by lia.
  pose proof (wd_plic _ Hw) as Hb. apply Z.eqb_neq in Hb. unfold plic_ensure_base, plat, w32, plat, mmio_w, on_hw.
  apply wp_bind, wp_bind, wp_gets. rewrite Hb. cbn [negb]. apply wp_ret, wp_bind, wp_gets. rewrite Hb. apply wp_bind.
  eapply wp_current_hartid; [done|]. apply wp_bind, wp_gets. rewrite (wd_claim _ Hw). unfold wp. eexists. split; [done|].
  apply bd_complete; by rewrite u32_small by lia.
Qed.

(** The handler of one interrupt, or the message. *)
Lemma one_served irq s :
  ready s -> 0 < irq -> (2 <= poll_fuel)%nat ->
  wp (e <- (if irq <? MAX_IRQ then get_irq irq else ret irq_entry_zero) ;;
      match ie_handler e with
      | Some h => call_irq_handler h irq (ie_arg e)
      | None => platform_puts ("unknown PLIC irq" ++ nl)
      end) (fun _ s' => exists r d, s' = k_set_con r (k_set_hw d s) /\ con_ok r /\
    typed r = fill (typed (k_con s)) (if irq =? bd_irq then w_rx bd_wire (k_hw s) else []) /\
    w_rx bd_wire d = (if irq =? bd_irq then [] else w_rx bd_wire (k_hw s)) /\
    w_sent bd_wire d = w_sent bd_wire (k_hw s) ++ strays [irq] /\
    plic_same bd_wire (k_hw s) d) s.
Proof.
  intros [R1 [Hu R2] R3 R4 R5 R6 R7] Hirq H2. unfold strays. cbn [flat_map]. rewrite app_nil_r. apply wp_bind.
  assert (Hputs : (irq =? bd_irq) = false ->
    wp (platform_puts ("unknown PLIC irq" ++ nl)) (fun _ s' => exists r d, s' = k_set_con r (k_set_hw d s) /\ con_ok r /\
      typed r = fill (typed (k_con s)) (if irq =? bd_irq then w_rx bd_wire (k_hw s) else []) /\
      w_rx bd_wire d = (if irq =? bd_irq then [] else w_rx bd_wire (k_hw s)) /\
      w_sent bd_wire d = w_sent bd_wire (k_hw s) ++ (if irq =? bd_irq then [] else crlf (bytes_of_string ("unknown PLIC irq" ++ nl))) /\
      plic_same bd_wire (k_hw s) d) s).
  { intros ->. eapply wp_mono; [by apply puts_sends|]. intros [] s1 (d & -> & Hs & Hr & Hp).
    exists (k_con s), d. rewrite fill_nil. by destruct s. }
  destruct (Z.ltb_spec irq MAX_IRQ) as [Hlt|Hge].
  - destruct (R2 irq ltac:(lia)) as [arg Ht]. unfold get_irq, wp at 1. rewrite Ht. cbn [ie_handler ie_arg].
    destruct (irq =? bd_irq) eqn:E; [|by apply Hputs]. cbn [call_irq_handler].
    eapply wp_mono; [by apply uart_handler_takes|]. intros [] s1 (r & d & -> & Hc & Ht' & Hr & Hs & Hp). exists r, d.
    split; [done|]. split; [done|]. split; [done|]. rewrite app_nil_r. split; [|done].
    apply (f_equal length) in Hr. rewrite length_app in Hr. destruct (w_rx bd_wire d); [done|cbn in Hr; lia].
  - apply wp_ret. apply Hputs. apply Z.eqb_neq. lia.
Qed.

Lemma one_handled irq s c l :
  ready s -> 0 < irq < 2^32 -> (2 <= poll_fuel)%nat -> cpu s (k_tp s) = Some c ->
  w_serv bd_wire (c_hartid c) (k_hw s) = irq :: l ->
  wp (handle_one_irq irq) (fun _ s' => handled [irq] s s' /\
    w_pend bd_wire (c_hartid c) (k_hw s') = w_pend bd_wire (c_hartid c) (k_hw s) /\ w_serv bd_wire (c_hartid c) (k_hw s') = l) s.
Proof.
  intros Hrd Hirq H2 Hcpu Hsv. unfold handle_one_irq. apply wp_bind. pose proof (wp_unbind _ _ _ _ (stat_counted irq s Hrd ltac:(lia))) as HS.
  eapply wp_mono; [exact HS|]. clear HS.
  intros now s0 H0. apply wp_bind. eapply wp_mono; [exact H0|]. intros [] s1 (d1 & st & Es1 & (K1 & K2 & K3) & Hst). clear H0 s0 now.
  assert (Hrd1 : ready s1).
  { destruct Hrd as [R1 R2 R3 R4 R5 R6 R7]. subst s1. split; cbn [k_con k_hw k_plat k_core k_tp k_set_hw k_set_plat]; try done.
    - destruct R1 as [W1 W2 W3 W4 W5]. by split.
    - destruct R3 as (P1 & P2 & P3 & P4). split; [done|]. split; [|done]. intros i Hi. destruct (P2 i Hi) as [x Hx].
      destruct (Hst i x Hi Hx) as (y & Hy & _). by exists y.
    - by rewrite K1. }
  apply wp_bind. pose proof (wp_unbind _ _ _ _ (one_served irq s1 Hrd1 ltac:(lia) H2)) as HO.
  eapply wp_mono; [exact HO|]. clear HO. intros e s0 H0. apply wp_bind.
  eapply wp_mono; [exact H0|]. intros [] s2 (r & d2 & Es2 & Hc & Ht & Hr & Hs & Hp). clear H0 s0 e.
  destruct (Hp (c_hartid c)) as [Hp2 Hv2], (K3 (c_hartid c)) as [Hp1 Hv1]. rewrite Es1 in Hp2, Hv2. cbn [k_hw k_set_hw] in Hp2, Hv2.
  eapply wp_mono; [apply (completed irq s2 c l)|].
  - rewrite Es2. apply (rd_wired _ Hrd1).
  - by rewrite Es2, Es1.
  - done.
  - destruct (Z.eqb_spec irq bd_irq) as [E|E]; [right|by left]. rewrite Es2. cbn [k_hw k_set_con k_set_hw]. exact Hr.
  - rewrite Es2. cbn [k_hw k_set_con k_set_hw]. by rewrite Hv2, Hv1.
  - intros [] s3 (d3 & Es3 & K1' & K2' & Hp3 & Hv3). subst s3 s2 s1. cbn [k_con k_hw k_plat k_set_con k_set_hw k_set_plat] in *.
    assert (Hin : forall A (x y : A), (if decide (bd_irq ∈ [irq]) then x else y) = if irq =? bd_irq then x else y).
    { intros A x y. destruct (Z.eqb_spec irq bd_irq) as [->|E]; [by rewrite decide_True by apply list_elem_of_here|].
      rewrite decide_False; [done|]. intros H%list_elem_of_singleton. congruence. }
    split; [split|]; cbn [k_con k_hw k_plat k_set_con k_set_hw k_set_plat p_irq_stats p_set_irq_stats].
    + by exists r, d3, st.
    + done.
    + by rewrite Ht, Hin, K1.
    + by rewrite K1', Hr, Hin, K1.
    + by rewrite K2', Hs, K2.
    + done.
    + split; [by rewrite Hp3, Hp2, Hp1|done].
Qed.

Lemma claim_next s :
  wired (k_plat s) -> forall c, cpu s (k_tp s) = Some c ->
  wp plic_claim (fun irq s' => exists d, s' = k_set_hw d s /\ irq = hd 0 (w_pend bd_wire (c_hartid c) (k_hw s)) /\ irq < 2^32 /\
    w_pend bd_wire (c_hartid c) d = tl (w_pend bd_wire (c_hartid c) (k_hw s)) /\
    w_serv bd_wire (c_hartid c) d = take 1 (w_pend bd_wire (c_hartid c) (k_hw s)) ++ w_serv bd_wire (c_hartid c) (k_hw s) /\
    w_rx bd_wire d = w_rx bd_wire (k_hw s) /\ w_sent bd_wire d = w_sent bd_wire (k_hw s)) s.
Proof.
  intros Hw c Hc. unfold plic_claim. pose proof (wd_plic _ Hw) as Hb. apply Z.eqb_neq in Hb.
  unfold plic_ensure_base, plat, r32, plat, mmio_r, on_hw. apply wp_bind, wp_bind, wp_gets. rewrite Hb. cbn [negb].
  apply wp_ret, wp_bind, wp_gets. rewrite Hb. apply wp_bind. eapply wp_current_hartid; [done|]. apply wp_bind, wp_gets, wp_bind.
  rewrite (wd_claim _ Hw). unfold wp at 1. destruct (bd_claimed (c_hartid c) (k_hw s)) as (H1 & H2 & H3 & H4 & H5).
  destruct (mmio_load _ _ _) as [v d]. cbn [fst snd] in *. apply wp_ret. exists d.
  split; [done|]. split; [done|]. split; [apply u32_range|done].
Qed.

Lemma loop_handled f s c :
  ready s -> (2 <= poll_fuel)%nat -> cpu s (k_tp s) = Some c -> (length (w_pend bd_wire (c_hartid c) (k_hw s)) < f)%nat ->
  wp (loop f (irq <- plic_claim ;; if irq =? 0 then ret (Some tt) else handle_one_irq irq ;; ret None))
    (fun _ s' => handled (w_pend bd_wire (c_hartid c) (k_hw s)) s s' /\ w_pend bd_wire (c_hartid c) (k_hw s') = [] /\
      w_serv bd_wire (c_hartid c) (k_hw s') = w_serv bd_wire (c_hartid c) (k_hw s)) s.
Proof.
  intros Hrd H2. revert s Hrd. induction f as [|f IH]; intros s Hrd Hc Hf; [lia|]. cbn [loop]. apply wp_bind, wp_bind.
  eapply wp_mono; [exact (claim_next s (rd_wired _ Hrd) c Hc)|]. intros irq s1 (d & Es1 & Ei & Hu & Hp & Hv & Hr & Hs).
  pose proof (handled_nil s d (rd_con _ Hrd) Hr Hs) as Hn. rewrite <- Es1 in Hn. pose proof (handled_ready _ _ _ Hn Hrd) as Hrd1.
  pose proof (bd_pend_pos (c_hartid c) (k_hw s)) as Hpos. destruct (w_pend bd_wire (c_hartid c) (k_hw s)) as [|i l] eqn:E; cbn [hd tl take app] in *.
  { rewrite Ei. cbn [Z.eqb]. apply wp_ret, wp_ret. by rewrite Es1 in *. }
  apply Forall_cons_1 in Hpos as [Hi _]. subst irq. rewrite (proj2 (Z.eqb_neq i 0)) by lia. apply wp_bind.
  assert (Hc1 : cpu s1 (k_tp s1) = Some c) by (by rewrite Es1).
  assert (Hv1 : w_serv bd_wire (c_hartid c) (k_hw s1) = i :: w_serv bd_wire (c_hartid c) (k_hw s)) by (by rewrite Es1).
  eapply wp_mono; [apply (one_handled i s1 c _ Hrd1 ltac:(lia) H2 Hc1 Hv1)|]. intros [] s2 (Ha & Hp2 & Hv2). apply wp_ret.
  assert (Ep : w_pend bd_wire (c_hartid c) (k_hw s2) = l) by (rewrite Hp2, Es1; exact Hp).
  pose proof (handled_ready _ _ _ Ha Hrd1) as Hrd2. assert (Hc2 : cpu s2 (k_tp s2) = Some c).
  { destruct (ha_frame _ _ _ Ha) as (r & d' & st & ->). by rewrite Es1. }
  eapply wp_mono; [apply (IH s2 Hrd2 Hc2); rewrite Ep; cbn [length] in Hf; lia|]. intros [] s3 (H3 & Hp3 & Hv3). rewrite Ep in H3.
  split; [|split; [done|by rewrite Hv3, Hv2]]. change (i :: l) with ([] ++ [i] ++ l). eapply handled_app; [exact Hn|]. by eapply handled_app.
Qed.

(** ** Text and numbers *)

Lemma crlf_plain l : Forall (fun c => c <> 10 /\ 0 <= c < 2^8) l -> crlf l = l.
Proof.
  induction 1 as [|c l [Hc Hb] _ IH]; [done|]. unfold crlf in *. cbn [flat_map].
  rewrite (proj2 (Z.eqb_neq c 10)), IH, u8_small by done. done.
Qed.
Lemma map_lookup_seq (l : list Z) : map (fun i => default 0 (l !! i)) (seq 0 (length l)) = l.
Proof.
  induction l as [|c l IH]; [done|]. cbn [length seq map]. f_equal. rewrite <- seq_shift, map_map. exact IH.
Qed.
Lemma write_bytes_sends l s :
  wired (k_plat s) -> Forall (fun c => c <> 10 /\ 0 <= c < 2^8) l ->
  wp (platform_write_bytes l) (fun _ s' => sends l s s') s.
Proof.
  intros Hw Hl. unfold platform_write_bytes, platform_write. cbn [cbuf_null orb].
  destruct (Z.eqb_spec (Z.of_nat (length l)) 0) as [E|E].
  - destruct l; [apply wp_ret, sends_nil|cbn in E; lia].
  - eapply wp_mono; [apply (write_sends Hfuel (CB_local l)); [done..|lia]|]. intros [] s'. rewrite Nat2Z.id. cbn [buf_text].
    by rewrite map_lookup_seq, crlf_plain.
Qed.
Lemma digits_plain l : Forall digit l -> Forall (fun c => c <> 10 /\ 0 <= c < 2^8) l.
Proof. intros H. apply (Forall_impl _ _ _ H). unfold digit. lia. Qed.
Lemma hex_plain n x : Forall (fun c => c <> 10 /\ 0 <= c < 2^8) (hex_digits n x).
Proof.
  induction n as [|n IH]; cbn [hex_digits]; constructor; [|done]. unfold hex_digit.
  change 15 with (Z.ones 4). rewrite Z.land_ones by lia. pose proof (Z.mod_pos_bound (Z.shiftr x (4 * Z.of_nat n)) (2^4)).
  destruct (_ <? _) eqn:E; lia.
Qed.
Lemma hex_length n x : length (hex_digits n x) = n.
Proof. induction n as [|n IH]; cbn [hex_digits length]; [done|by rewrite IH]. Qed.

(** ** A whole system call

    From the trap to the wire and back to the caller. *)

Lemma keeps_trans (d1 d2 d3 : dev) : keeps bd_wire d1 d2 -> keeps bd_wire d2 d3 -> keeps bd_wire d1 d3.
Proof. intros (A1 & A2 & A3) (B1 & B2 & B3). split; [congruence|]. split; [congruence|]. by eapply plic_trans. Qed.

Lemma wp_read_sstatus (Q : Z -> kstate -> Prop) s :
  (forall v d, keeps bd_wire (k_hw s) d -> Q v (k_set_hw d s)) -> wp (csr_read CSR_sstatus) Q s.
Proof.
  intros H. unfold csr_read, wp, bind, gets, on_hw. pose proof (bd_status (k_tp s) (k_hw s)) as Hk.
  destruct (csr_load _ _ _) as [v d]. by apply H.
Qed.
Lemma wp_upd_sstatus op v (Q : unit -> kstate -> Prop) s :
  (forall d, keeps bd_wire (k_hw s) d -> Q tt (k_set_hw d s)) -> wp (csr_upd CSR_sstatus op v) Q s.
Proof. intros H. apply H, bd_status_upd. Qed.

Lemma wp_kernel_lock_wire s :
  k_kernel_lock s = 0 ->
  wp kernel_lock (fun _ s' => exists d, s' = k_set_kernel_lock 1 (k_set_hw d s) /\ keeps bd_wire (k_hw s) d) s.
Proof.
  intros Hl. unfold kernel_lock. apply wp_bind, wp_read_sstatus. intros v d Hd.
  apply wp_bind, wp_upd_sstatus. intros d' Hd'. wp_steps. cbn [k_kernel_lock k_set_hw]. rewrite Hl. cbn [z2b Z.eqb negb].
  wp_steps. exists d'. split; [by destruct s|]. by eapply keeps_trans.
Qed.

(** The frame of a [write] call. *)
Definition write_frame (f : trapframe) (buf n : Z) : Prop :=
  f_scause f = EXC_ENV_CALL_U /\ f_a0 f = SYS_WRITE /\
  (f_a1 f = FD_STDOUT \/ f_a1 f = FD_STDERR) /\ f_a2 f = buf /\ f_a3 f = n.

Lemma write_call s c i t f buf n :
  wired (k_plat s) -> k_kernel_lock s = 0 -> cpu s (k_tp s) = Some c -> c_cur_tf c = TF_thread i ->
  thr s i = Some t -> write_frame f buf n -> buf <> 0 -> 0 < n ->
  wp (trap_entry f) (fun _ s' => sends (crlf (user_text (k_umem s) buf (Z.to_nat n)))
    (with_thread i (t_set_tf (returned_frame f n) t) s) s') s.
Proof.
  intros Hw Hl Hc Ec Ht (F1 & F2 & F3 & F4 & F5) Hb Hn. unfold trap_entry.
  apply wp_bind, (wp_cpu_this c); [exact Hc|]. rewrite Ec. cbn [bool_decide]. rewrite bool_decide_false by done.
  apply wp_bind. cbn [upd_tf]. apply (wp_upd_thread _ _ t); [exact Ht|]. set (s1 := with_thread i (t_set_tf f t) s).
  apply wp_bind. unfold trap_entry_c. apply wp_bind.
  eapply wp_mono; [by apply (wp_kernel_lock_wire s1)|]. intros st s2 (d1 & -> & Hd1).
  set (s2 := k_set_kernel_lock 1 (k_set_hw d1 s1)).
  assert (H2 : thr s2 i = Some (t_set_tf f t)) by apply thr_with_thread_eq.
  apply wp_bind. cbn [get_tf]. apply wp_bind, (wp_get_thread _ _ _ _ H2), wp_ret.
  change (t_tf (t_set_tf f t)) with f. cbv zeta. rewrite F1. cbn [scause_is_interrupt].
  change (scause_is_interrupt EXC_ENV_CALL_U) with false. change (scause_code EXC_ENV_CALL_U) with EXC_ENV_CALL_U.
  cbv iota. unfold handle_exception. rewrite Z.eqb_refl. apply wp_bind. unfold syscall_handler.
  apply wp_bind. cbn [get_tf]. apply wp_bind, (wp_get_thread _ _ _ _ H2), wp_ret.
  change (t_tf (t_set_tf f t)) with f. cbv zeta. rewrite F2, F4, F5.
  apply wp_bind. unfold advance_sepc. cbn [upd_tf]. apply (wp_upd_thread _ _ _ _ _ H2).
  set (s3 := with_thread i _ s2).
  cbv beta iota delta [SYS_WRITE SYS_SLEEP SYS_THREAD_EXIT SYS_THREAD_JOIN SYS_THREAD_CREATE SYS_THREAD_KILL
    SYS_THREAD_LIST Z.eqb Pos.eqb].
  apply wp_bind. unfold sys_write. rewrite (proj2 (Z.eqb_neq n 0)) by lia.
  replace (_ || _) with true by (destruct F3 as [-> | ->]; done). apply wp_bind. unfold console_write.
  eapply wp_mono; [apply (write_sends Hfuel (CB_mem buf)); [done|by apply Z.eqb_neq|lia]|].
  intros [] s4 (d2 & -> & Hs & Hr & Hp). apply wp_ret. set (s4 := k_set_hw d2 s3).
  set (f1 := f_set_sepc (u64 (f_sepc f + 4)) f).
  assert (H4 : thr s4 i = Some (t_set_tf f1 t)) by apply thr_with_thread_eq.
  unfold set_a0. cbn [upd_tf]. apply (wp_upd_thread _ _ _ _ _ H4). set (s5 := with_thread i _ s4).
  apply wp_bind, (wp_cpu_this c); [exact Hc|]. apply wp_bind. unfold kernel_unlock. apply wp_bind, wp_modify.
  apply wp_upd_sstatus. intros d3 Hd3. apply wp_ret. rewrite Ec.
  apply (wp_upd_cpu_this _ c); [exact Hc|].
  exists d3. split; [|split; [|split]].
  - apply kstate_ext; try reflexivity; [|exact (eq_sym Hl)]. apply core_ext; try reflexivity.
    + change (<[i:=t_set_tf (f_set_a0 (u64 n) f1) t]> (<[i:=t_set_tf f1 t]> (<[i:=t_set_tf f t]> (g_threads (k_core s)))) =
        <[i:=t_set_tf (returned_frame f n) t]> (g_threads (k_core s))).
      by rewrite !insert_insert_eq.
    + change (<[k_tp s:=c_set_cur_tf (TF_thread i) c]> (g_cpus (k_core s)) = g_cpus (k_core s)).
      apply insert_id. rewrite <- Ec. replace (c_set_cur_tf (c_cur_tf c) c) with c by (by destruct c). exact Hc.
  - destruct Hd1 as (_ & A & _), Hd3 as (_ & B & _). cbn in *. by rewrite B, Hs, A.
  - destruct Hd1 as (A & _), Hd3 as (B & _). cbn in *. by rewrite B, Hr, A.
  - destruct Hd1 as (_ & _ & A), Hd3 as (_ & _ & B). eapply plic_trans; [exact A|]. eapply plic_trans; [exact Hp|exact B].
Qed.

(** ** Properties *)

(** C26: on a board, what the program prints reaches the wire, all of it and
    in order, and nothing else changes: [write] sends the bytes of the caller's
    buffer with a carriage return in front of every line feed, and the platform's
    number output the decimal representation of the number, without leading zeros
    and with its sign, or sixteen hexadecimal digits.  The whole system call, from the
    trap of a thread with a [write] in its registers, through dispatch and driver and
    back, sends the buffer, and leaves a kernel state in which nothing but the frame of
    the caller has changed: it goes on behind the [ecall], with the length in [a0]. *)
Theorem output_reaches_wire s :
  wired (k_plat s) ->
  (forall fd buf n, (fd = FD_STDOUT \/ fd = FD_STDERR) -> buf <> 0 -> 0 < n ->
    wp (sys_write fd buf n) (fun r s' => r = n /\ sends (crlf (user_text (k_umem s) buf (Z.to_nat n))) s s') s) /\
  (forall m, wp (platform_puts m) (fun _ s' => sends (crlf (bytes_of_string m)) s s') s) /\
  (forall x, 0 <= x < 2^64 -> exists ds, decimal ds x /\ wp (platform_put_dec_us x) (fun _ s' => sends ds s s') s) /\
  (forall v, - 2^63 <= v < 2^63 -> exists ds, decimal ds (Z.abs v) /\
    wp (platform_put_dec_s v) (fun _ s' => sends (if v <? 0 then 45 :: ds else ds) s s') s) /\
  (forall x, 0 <= x < 2^64 -> exists ds, hex_value ds = x /\ length ds = 16%nat /\
    wp (platform_put_hex64 x) (fun _ s' => sends (48 :: 120 :: ds) s s') s) /\
  (forall c i t f buf n, k_kernel_lock s = 0 -> cpu s (k_tp s) = Some c -> c_cur_tf c = TF_thread i ->
    thr s i = Some t -> write_frame f buf n -> buf <> 0 -> 0 < n ->
    wp (trap_entry f) (fun _ s' => sends (crlf (user_text (k_umem s) buf (Z.to_nat n)))
      (with_thread i (t_set_tf (returned_frame f n) t) s) s') s).
Proof.
  intros Hw. split_and!.
  - intros fd buf n Hfd Hb Hn. unfold sys_write. rewrite (proj2 (Z.eqb_neq n 0)) by lia.
    replace (_ || _) with true by (destruct Hfd as [-> | ->]; done). apply wp_bind. unfold console_write.
    eapply wp_mono; [apply (write_sends Hfuel (CB_mem buf)); [done|by apply Z.eqb_neq|lia]|]. intros [] s'. by split.
  - intros m. by apply puts_sends.
  - intros x Hx. pose proof (dec_bytes_decimal x Hx) as Hd. exists (dec_bytes x). split; [done|].
    apply write_bytes_sends; [done|]. apply digits_plain, Hd.
  - intros v Hv. exists (dec_bytes (Z.abs v)). pose proof (dec_bytes_decimal (Z.abs v) ltac:(lia)) as Hd. split; [done|].
    pose proof (digits_plain _ (proj1 (proj2 Hd))) as Hp. unfold platform_put_dec_s, platform_put_dec_us.
    destruct (Z.ltb_spec v 0).
    + replace (u64 (u64 (- (v + 1)) + 1)) with (Z.abs v) by (rewrite (u64_small (- (v + 1))) by lia; rewrite u64_small by lia; lia).
      apply wp_bind. eapply wp_mono; [apply write_bytes_sends; [done|by repeat constructor]|]. intros [] s1 H1.
      eapply wp_mono; [apply write_bytes_sends; [by rewrite (sends_wired _ _ _ H1)|exact Hp]|]. intros [] s2 H2.
      exact (sends_app _ _ _ _ _ H1 H2).
    + replace (u64 v) with (Z.abs v) by (rewrite u64_small by lia; lia). by apply write_bytes_sends.
  - intros x Hx. exists (hex_digits 16 x). split; [by apply hex_digits_value|]. split; [apply hex_length|].
    unfold platform_put_hex64. apply write_bytes_sends; [done|]. constructor; [lia|]. constructor; [lia|]. apply hex_plain.
  - intros c i t f buf n. by apply write_call.
Qed.

End interrupts.

(** ** The kernel on QEMU's board

    The boot of the two-hart build on the concrete board, with the device tree of
    [FdtDemo] read by libfdt; then a line has arrived, and the PLIC has the UART's
    interrupt and one nobody knows for hart 0. *)

#[local] Existing Instance board_hardware.
#[local] Existing Instance qemu_board.
#[local] Instance virt_dt : DeviceTree := blob_tree virt_mem.

Definition board_reset : board_dev :=
  {| dv_rx := []; dv_sent := []; dv_busy := false; dv_pend := fun _ => []; dv_serv := fun _ => []; dv_time := 0 |}.
Definition board_boot : outcome (unit * kstate) :=
  kernel_main 0 2183135232 2147500000 2147484000 (fun _ => None) (image (board_reset : @dev board_hardware)).
#[local] Strategy opaque [kernel_main].
Definition ending (r : outcome (unit * kstate)) : kstate :=
  match r with Ret (_, s) => s | _ => image (board_reset : @dev board_hardware) end.
Lemma ending_eq r : returns r = true -> r = Ret (tt, ending r).
Proof. by destruct r as [[[] s]| | |]. Qed.
Definition board_up : kstate := ending board_boot.
Definition line_arrives (d : board_dev) : board_dev :=
  {| dv_rx := bytes_of_string ("ls" ++ nl); dv_sent := []; dv_busy := dv_busy d;
     dv_pend := fun a => if a =? qemu_claim 0 then [qemu_irq; 7] else []; dv_serv := fun _ => []; dv_time := dv_time d |}.
Definition board_typed : kstate := k_set_hw (line_arrives (k_hw board_up) : @dev board_hardware) board_up.

Lemma board_boots : returns board_boot = true.
Proof. vm_compute. reflexivity. Qed.
Lemma board_eq :
  kernel_main 0 2183135232 2147500000 2147484000 (fun _ => None) (image (board_reset : @dev board_hardware)) = Ret (tt, board_up).
Proof. exact (ending_eq board_boot board_boots). Qed.
#[local] Strategy opaque [board_up].
Lemma board_devs : plat_ok (k_plat board_up) /\ con_ok (k_con board_up).
Proof.
  pose proof (@boot_spec demo_config board_hardware virt_dt board_reset 0 2183135232 2147500000 2147484000 (fun _ => None)
    ltac:(done) ltac:(done) ltac:(done) ltac:(done)) as W.
  unfold wnp in W. rewrite board_eq in W. destruct W as [[_ [H _] _] _]. exact H.
Qed.

Lemma range_forallb (f : Z -> bool) n : forallb f (seqZ 0 n) = true -> forall i, 0 <= i < n -> f i = true.
Proof. rewrite forallb_forall. intros H i Hi. apply H, list_elem_of_In, elem_of_seqZ. lia. Qed.
Lemma board_wired : wired (k_plat board_up).
Proof.
  assert (H : p_plic_base (k_plat board_up) = 201326592) by (vm_compute; reflexivity).
  split; [|vm_compute; reflexivity..|rewrite H; discriminate|intros h; rewrite H; reflexivity].
  intros r Hr. rewrite !elem_of_cons in Hr.
  destruct Hr as [-> |[-> |[-> |Hr]]]; [vm_compute; reflexivity..|destruct (not_elem_of_nil _ Hr)].
Qed.
Definition registered_b (p : platform_state) (i : Z) : bool :=
  match p_irq_table p !! i with
  | Some {| ie_handler := h |} => match h with Some H_uart16550_irq_handler => i =? qemu_irq | None => negb (i =? qemu_irq) end
  | None => false
  end.
Lemma board_registered : uart_registered (k_plat board_up).
Proof.
  assert (H : forallb (registered_b (k_plat board_up)) (seqZ 0 MAX_IRQ) = true) by (vm_compute; reflexivity).
  unfold uart_registered. split; [vm_compute; by split|]. intros i Hi. pose proof (range_forallb _ _ H i Hi) as Hr. unfold registered_b in Hr.
  destruct (p_irq_table (k_plat board_up) !! i) as [[h arg]|]; [|done]. exists arg. change bd_irq with qemu_irq.
  destruct h as [[]|]; [by rewrite Hr|]. apply negb_true_iff in Hr. by rewrite Hr.
Qed.
Lemma ready_hw s c (d : @dev board_hardware) :
  wired (k_plat s) -> uart_registered (k_plat s) -> plat_ok (k_plat s) /\ con_ok (k_con s) ->
  g_stdin_waiter (k_core s) = -1 -> cpu s (k_tp s) = Some c -> (length (w_rx bd_wire d) < poll_fuel)%nat -> ready (k_set_hw d s).
Proof. intros ? ? [? ?] Hw ? ?. split; try done; [cbn [k_core k_set_hw]; lia|by exists c]. Qed.
Lemma cpu_hw s (d : @dev board_hardware) : cpu (k_set_hw d s) (k_tp (k_set_hw d s)) = cpu s (k_tp s).
Proof. reflexivity. Qed.
Lemma board_hart : exists c, cpu board_up (k_tp board_up) = Some c /\ c_hartid c = 0.
Proof.
  assert (H : option_map c_hartid (cpu board_up (k_tp board_up)) = Some 0) by (vm_compute; reflexivity).
  destruct (cpu board_up (k_tp board_up)) as [c|]; [|discriminate]. exists c. by injection H.
Qed.

Lemma board_fuel : (bd_latency < @poll_fuel demo_config)%nat.
Proof. vm_compute. lia. Qed.


(** The idle thread calls [write(1, 0x80400000, 2)] on a fresh memory. *)
Definition board_write : trapframe := ecall SYS_WRITE FD_STDOUT 2151677952 2.
Lemma board_cpu : exists c, cpu board_up (k_tp board_up) = Some c /\ c_cur_tf c = TF_thread 0.
Proof.
  assert (H : option_map c_cur_tf (cpu board_up (k_tp board_up)) = Some (TF_thread 0)) by (vm_compute; reflexivity).
  destruct (cpu board_up (k_tp board_up)) as [c|]; [|discriminate]. exists c. by injection H.
Qed.
Lemma board_thread : exists t, thr board_up 0 = Some t.
Proof.
  assert (H : option_map (fun _ => tt) (thr board_up 0) = Some tt) by (vm_compute; reflexivity).
  destruct (thr board_up 0) as [t|]; [|discriminate]. by exists t.
Qed.
Lemma board_unlocked : k_kernel_lock board_up = 0.
Proof. vm_compute. reflexivity. Qed.
Lemma board_text : crlf (user_text (k_umem board_up) 2151677952 2) = [0; 0].
Proof. vm_compute. reflexivity. Qed.
Lemma board_write_frame : write_frame board_write 2151677952 2.
Proof. split; [reflexivity|]. split; [reflexivity|]. split; [left; reflexivity|]. split; reflexivity. Qed.

Lemma output_reaches_wire_witness :
  wired (k_plat board_up) /\
  wp (platform_puts ("ok" ++ nl)) (fun _ s' => sends [111; 107; 13; 10] board_up s') board_up /\
  (exists ds, decimal ds 120 /\ wp (platform_put_dec_s (-120)) (fun _ s' => sends (45 :: ds) board_up s') board_up) /\
  exists t, wp (trap_entry board_write)
    (fun _ s' => sends [0; 0] (with_thread 0 (t_set_tf (returned_frame board_write 2) t) board_up) s') board_up.
Proof.
  split; [exact board_wired|].
  destruct (output_reaches_wire (cfg := demo_config) (bd := qemu_board) board_fuel board_up board_wired) as (_ & Hp & _ & Hd & _ & Hc).
  split; [exact (Hp ("ok" ++ nl)%string)|]. split; [exact (Hd (-120) ltac:(lia))|].
  destruct board_cpu as (c & Ec & Ef). destruct board_thread as [t Et]. exists t. rewrite <- board_text.
  exact (Hc c 0 t board_write 2151677952 2 board_unlocked Ec Ef Et board_write_frame ltac:(lia) ltac:(lia)).
Defined.
