(* ===== verification/PlicSpec.v ===== *)
(** * The registers of the PLIC

    A [PlicRegs] is a [Hardware] whose PLIC has plain 32-bit registers for priorities,
    enable bits and thresholds, at the offsets of the PLIC specification; claim and
    complete are the subject of [Board].  The driver addresses the registers of the
    hart it runs on and switches single sources: contexts and words do not overlap. *)
From stdpp Require Import base numbers list gmap strings.
From Stdlib Require Import ZArith Lia.
From S2P Require Import Prelude Mem Machine State Kernel Image Uart Plic Platform.

Local Open Scope Z_scope.

(** Priorities, enable bits, thresholds: not claim/complete. *)
Definition plain (off : Z) : Prop :=
  0 <= off < 4096 \/ 8192 <= off < 2097152 \/ (2097152 <= off < 67108864 /\ off mod 4096 = 0).

Class PlicRegs {hws : Hardware} := {
  pr_base : Z;
  pr_reg : Z -> dev -> Z;    (* the register at an offset *)
  pr_base_ok : 0 < pr_base;
  pr_load off d : plain off ->
    let r := mmio_load 4 (u64 (pr_base + off)) d in
    u32 r.1 = pr_reg off d /\ forall o, plain o -> pr_reg o r.2 = pr_reg o d;
  pr_store off v d : plain off -> forall o, plain o ->
    pr_reg o (mmio_store 4 (u64 (pr_base + off)) v d) = if decide (o = off) then u32 v else pr_reg o d
}.

(** ** Addresses *)

Section addresses.
Variables (h i : Z).
Hypotheses (Hh : 0 <= h < 64) (Hi : 0 <= i < 1024).

Lemma word_off_eq : plic_word_off h i = 8320 + 256 * h + 4 * (i / 32).
Proof using All.
  unfold plic_word_off, plic_senable_offset_for_hart, PLIC_SENABLE_HART0_OFFSET,
    PLIC_CONTEXTS_PER_HART, PLIC_ENABLE_PER_CONTEXT_STRIDE.
  assert (0 <= i / 32 < 32) by (split; [apply Z.div_pos|apply Z.div_lt_upper_bound]; lia).
  rewrite (u32_small (h * 2)) by lia. rewrite (u32_small (8320 + _)) by lia. rewrite u32_small; lia.
Qed.
Lemma word_index : 0 <= i / 32 < 32.
Proof using Hi. split; [apply Z.div_pos|apply Z.div_lt_upper_bound]; lia. Qed.
Lemma plain_word : plain (plic_word_off h i).
Proof using All. rewrite word_off_eq. pose proof word_index. right. left. lia. Qed.
Lemma threshold_eq : plic_sthreshold_offset_for_hart h = 2101248 + 8192 * h.
Proof using Hh.
  unfold plic_sthreshold_offset_for_hart, PLIC_STHRESHOLD_HART0_OFFSET, PLIC_CONTEXTS_PER_HART, PLIC_CONTEXT_STRIDE.
  rewrite (u32_small (h * 2)) by lia. rewrite u32_small; lia.
Qed.
Lemma plain_threshold : plain (plic_sthreshold_offset_for_hart h).
Proof using Hh.
  rewrite threshold_eq. right. right. split; [lia|].
  replace (2101248 + 8192 * h) with ((513 + 2 * h) * 4096) by lia. by apply Z.mod_mul.
Qed.
Lemma priority_eq : u32 (PLIC_PRIORITY_OFFSET + 4 * i) = 4 * i.
Proof using Hi. unfold PLIC_PRIORITY_OFFSET. rewrite u32_small; lia. Qed.
Lemma plain_priority : plain (4 * i).
Proof using Hi. left. lia. Qed.

End addresses.

(** The words of distinct harts, and distinct words of a hart, are distinct. *)
Lemma word_off_inj h i h' i' :
  0 <= h < 64 -> 0 <= i < 1024 -> 0 <= h' < 64 -> 0 <= i' < 1024 ->
  plic_word_off h' i' = plic_word_off h i <-> h' = h /\ i' / 32 = i / 32.
Proof.
  intros Hh Hi Hh' Hi'. rewrite !word_off_eq by done.
  pose proof (word_index i Hi). pose proof (word_index i' Hi'). lia.
Qed.

(** ** Bits *)

Lemma testbit_bit b j : 0 <= b -> 0 <= j -> Z.testbit (Z.shiftl 1 b) j = (j =? b).
Proof.
  intros Hb Hj. rewrite Z.shiftl_spec by done. destruct (Z.eqb_spec j b) as [->|Hn].
  - by rewrite Z.sub_diag.
  - destruct (decide (j < b)); [by rewrite Z.testbit_neg_r by lia|].
    replace 1 with (2 ^ 0) by done. apply Z.pow2_bits_false. lia.
Qed.
Lemma testbit_u32 v j : 0 <= j < 32 -> Z.testbit (u32 v) j = Z.testbit v j.
Proof. intros Hj. unfold u32. apply Z.mod_pow2_bits_low. lia. Qed.

Lemma set_bit en b j :
  0 <= b < 32 -> 0 <= j < 32 ->
  Z.testbit (u32 (Z.lor en (Z.shiftl 1 b))) j = Z.testbit en j || (j =? b).
Proof. intros Hb Hj. by rewrite testbit_u32, Z.lor_spec, testbit_bit by lia. Qed.
Lemma clear_bit en b j :
  0 <= b < 32 -> 0 <= j < 32 ->
  Z.testbit (u32 (Z.land en (u32 (Z.lnot (Z.shiftl 1 b))))) j = Z.testbit en j && negb (j =? b).
Proof. intros Hb Hj. by rewrite testbit_u32, Z.land_spec, testbit_u32, Z.lnot_spec, testbit_bit by lia. Qed.

Section driver.
Context {cfg : Config} {hws : Hardware} {dt : DeviceTree} {pr : PlicRegs}.
Implicit Types (s : kstate).

(** Source [i] is enabled for hart [h]. *)
Definition enabled (d : dev) (h i : Z) : bool := Z.testbit (pr_reg (plic_word_off h i) d) (i mod 32).

(** The driver knows its PLIC, and runs on hart [h]. *)
Record on_plic s (h : Z) : Prop := {
  op_base : p_plic_base (k_plat s) = pr_base;
  op_hart : exists c, cpu s (k_tp s) = Some c /\ c_hartid c = h;
  op_range : 0 <= h < 64
}.

(** Only registers of the PLIC have changed: [f] says which, and how. *)
Definition registers s s' (f : Z -> Z -> Z) : Prop :=
  exists d, s' = k_set_hw d s /\ forall o, plain o -> pr_reg o d = f o (pr_reg o (k_hw s)).

Lemma registers_refl s : registers s s (fun _ v => v).
Proof. exists (k_hw s). by destruct s. Qed.
Lemma registers_trans s1 s2 s3 f g :
  registers s1 s2 f -> registers s2 s3 g -> registers s1 s3 (fun o v => g o (f o v)).
Proof.
  intros (d & -> & Hf) (d' & -> & Hg). exists d'. split; [done|]. intros o Ho. rewrite Hg by done.
  cbn [k_hw k_set_hw]. by rewrite Hf.
Qed.
Lemma on_plic_kept s s' f h : registers s s' f -> on_plic s h -> on_plic s' h.
Proof. intros (d & -> & _) [A B C]. by split. Qed.

Lemma wp_w32 off v s :
  p_plic_base (k_plat s) = pr_base -> plain off ->
  wp (w32 off v) (fun _ s' => registers s s' (fun o x => if decide (o = off) then u32 v else x)) s.
Proof.
  intros Hb Ho. unfold w32, mmio_w. apply wp_bind, wp_gets. rewrite Hb. eexists. split; [reflexivity|].
  intros o Hp. rewrite pr_store by done. unfold u32. by rewrite Z.mod_mod.
Qed.
Lemma wp_r32 off s :
  p_plic_base (k_plat s) = pr_base -> plain off ->
  wp (r32 off) (fun v s' => v = pr_reg off (k_hw s) /\ registers s s' (fun _ x => x)) s.
Proof.
  intros Hb Ho. unfold r32. apply wp_bind, wp_gets. rewrite Hb. apply wp_bind. unfold mmio_r, on_hw, wp.
  pose proof (pr_load off (k_hw s) Ho) as [Hv Hk]. destruct (mmio_load _ _ _) as [v d].
  split; [done|]. by exists d.
Qed.

Lemma ensure_base_done s h : on_plic s h -> plic_ensure_base s = Ret (tt, s).
Proof.
  intros [Hb _ _]. unfold plic_ensure_base, bind, plat, gets. rewrite Hb.
  pose proof pr_base_ok. by rewrite (proj2 (Z.eqb_neq pr_base 0)) by lia.
Qed.

(** The prologue of every function. *)
Lemma wp_on_plic {A} (m : M kstate A) (r : A) Q s h :
  on_plic s h -> wp m Q s ->
  wp (plic_ensure_base ;; base <- plat p_plic_base ;; if base =? 0 then ret r else m) Q s.
Proof.
  intros H Hm. apply wp_bind, (wp_eq _ _ _ tt s); [by eapply ensure_base_done|]. apply wp_bind, wp_gets.
  rewrite (op_base _ _ H). pose proof pr_base_ok. by rewrite (proj2 (Z.eqb_neq pr_base 0)) by lia.
Qed.

(** The read-modify-write of one enable word. *)
Lemma update_enable s h irq f :
  on_plic s h -> 0 < irq < 1024 ->
  wp (plic_update_enable irq f) (fun _ s' =>
    registers s s' (fun o x =>
      if decide (o = plic_word_off h irq)
      then if z2b (p_plic_num_sources (k_plat s)) && (p_plic_num_sources (k_plat s) <? irq) then x else u32 (f x)
      else x)) s.
Proof.
  intros H Hi. pose proof (op_range _ _ H) as Hh. destruct (op_hart _ _ H) as (c & Hc & Eh).
  unfold plic_update_enable. rewrite (proj2 (Z.eqb_neq irq 0)) by lia. eapply wp_on_plic; [exact H|].
  apply wp_bind, wp_gets. destruct (z2b _ && _).
  { apply wp_ret. exists (k_hw s). split; [by destruct s|]. intros o Ho. by case_decide. }
  apply wp_bind, (wp_current_hartid c); [exact Hc|]. rewrite Eh.
  assert (Hp : plain (plic_word_off h irq)) by (apply plain_word; lia).
  apply wp_bind. eapply wp_mono; [apply wp_r32; [apply H|exact Hp]|]. intros v s1 (Ev & R1). subst v.
  eapply wp_mono; [apply wp_w32; [apply (on_plic_kept _ _ _ _ R1 H)|exact Hp]|]. intros [] s2 R2.
  destruct (registers_trans _ _ _ _ _ R1 R2) as (d & Ed & Hd). exists d. split; [exact Ed|].
  intros o Ho. rewrite Hd by done. case_decide as E; [|done]. by rewrite E.
Qed.

Lemma bit_range irq : 0 <= irq mod 32 < 32.
Proof. apply Z.mod_pos_bound. lia. Qed.

(** Same word and same bit: same source. *)
Lemma same_source h i h' i' :
  0 <= h < 64 -> 0 <= i < 1024 -> 0 <= h' < 64 -> 0 <= i' < 1024 ->
  bool_decide (plic_word_off h' i' = plic_word_off h i) && (i' mod 32 =? i mod 32) =
  bool_decide (h' = h /\ i' = i).
Proof.
  intros Hh Hi Hh' Hi'. pose proof (word_off_inj h i h' i' Hh Hi Hh' Hi') as E.
  apply eq_true_iff_eq. rewrite andb_true_iff, !bool_decide_eq_true, Z.eqb_eq, E.
  pose proof (Z.div_mod i 32). pose proof (Z.div_mod i' 32). split; [intros [[-> ?] ?]|intros [-> ->]]; lia.
Qed.

(** The sources the board has. *)
Definition has_source s (irq : Z) : Prop :=
  p_plic_num_sources (k_plat s) = 0 \/ irq <= p_plic_num_sources (k_plat s).

Lemma has_source_check s irq :
  0 <= p_plic_num_sources (k_plat s) -> has_source s irq ->
  z2b (p_plic_num_sources (k_plat s)) && (p_plic_num_sources (k_plat s) <? irq) = false.
Proof.
  intros H0 [->|H]; [done|]. rewrite (proj2 (Z.ltb_ge _ _)) by done. apply andb_false_r.
Qed.

(** [s'] is [s] with the enable bits [g], priorities and thresholds unchanged. *)
Definition enables s s' (g : Z -> Z -> bool) : Prop :=
  exists d, s' = k_set_hw d s /\
    (forall h i, 0 <= h < 64 -> 0 <= i < 1024 -> enabled d h i = g h i) /\
    (forall o, plain o -> o < 8192 \/ 2097152 <= o -> pr_reg o d = pr_reg o (k_hw s)).

(** After the initialisation of the context of hart [h]. *)
Definition enables_init s s' (h : Z) : Prop :=
  exists d, s' = k_set_hw d s /\ pr_reg (plic_sthreshold_offset_for_hart h) d = 0 /\
    (forall h' i, 0 <= h' < 64 -> 0 <= i < 1024 ->
       enabled d h' i = enabled (k_hw s) h' i && negb (bool_decide (h' = h /\ i < 32))) /\
    (forall i, 0 <= i < 1024 -> pr_reg (4 * i) d = pr_reg (4 * i) (k_hw s)).

(** After registering a handler for [irq]. *)
Definition with_irq (irq : Z) (hd : irq_handler) (arg : Z) (name : string) (p : platform_state) : platform_state :=
  let p1 := p_set_irq_table (<[irq := {| ie_handler := Some hd; ie_arg := arg |}]> (p_irq_table p)) p in
  p_set_irq_name (<[irq := Some name]> (p_irq_name p1)) p1.
Definition registered s s' (h irq : Z) (hd : irq_handler) (arg : Z) (name : string) : Prop :=
  exists d, s' = k_set_hw d (k_set_plat (with_irq irq hd arg name (k_plat s)) s) /\
    pr_reg (4 * irq) d = 1 /\
    (forall h' i, 0 <= h' < 64 -> 0 <= i < 1024 ->
       enabled d h' i = enabled (k_hw s) h' i || bool_decide (h' = h /\ i = irq)) /\
    (forall i, 0 <= i < 1024 -> i <> irq -> pr_reg (4 * i) d = pr_reg (4 * i) (k_hw s)).

Lemma registers_enables s s' h irq f (b : bool -> bool -> bool) :
  0 <= h < 64 -> 0 < irq < 1024 ->
  registers s s' (fun o x => if decide (o = plic_word_off h irq) then u32 (f x) else x) ->
  (forall x j, 0 <= j < 32 -> Z.testbit (u32 (f x)) j = b (Z.testbit x j) (j =? irq mod 32)) ->
  (forall x, b x false = x) ->
  enables s s' (fun h' i => b (enabled (k_hw s) h' i) (bool_decide (h' = h /\ i = irq))).
Proof.
  intros Hh Hi (d & -> & Hd) Hf Hb. exists d. split; [done|]. split.
  - intros h' i Hh' Hi'. unfold enabled. rewrite Hd by (by apply plain_word).
    rewrite <- same_source by lia. case_decide as E.
    + rewrite bool_decide_true by done. cbn [andb]. apply Hf, bit_range.
    + rewrite bool_decide_false by done. cbn [andb]. by rewrite Hb.
  - intros o Ho Hr. rewrite Hd by done. rewrite decide_False; [done|]. rewrite word_off_eq by lia.
    pose proof (word_index irq ltac:(lia)). lia.
Qed.

Lemma enable_one s h irq :
  on_plic s h -> 0 <= p_plic_num_sources (k_plat s) -> 0 < irq < 1024 -> has_source s irq ->
  wp (plic_enable_irq irq) (fun _ s' => enables s s' (fun h' i =>
    enabled (k_hw s) h' i || bool_decide (h' = h /\ i = irq))) s.
Proof.
  intros H H0 Hi Hs. eapply wp_mono; [by apply (update_enable s h)|]. intros [] s' R.
  rewrite has_source_check in R by done.
  eapply (registers_enables s s' h irq _ orb); [apply H|done|exact R| |apply orb_false_r].
  intros x j Hj. apply set_bit; [apply bit_range|done].
Qed.
Lemma disable_one s h irq :
  on_plic s h -> 0 <= p_plic_num_sources (k_plat s) -> 0 < irq < 1024 -> has_source s irq ->
  wp (plic_disable_irq irq) (fun _ s' => enables s s' (fun h' i =>
    enabled (k_hw s) h' i && negb (bool_decide (h' = h /\ i = irq)))) s.
Proof.
  intros H H0 Hi Hs. eapply wp_mono; [by apply (update_enable s h)|]. intros [] s' R.
  rewrite has_source_check in R by done.
  eapply (registers_enables s s' h irq _ (fun x y => x && negb y)); [apply H|done|exact R| |].
  - intros x j Hj. apply clear_bit; [apply bit_range|done].
  - intros x. apply andb_true_r.
Qed.

Lemma set_one_priority s h irq prio :
  on_plic s h -> 0 < irq < 1024 ->
  wp (plic_set_priority irq prio) (fun _ s' =>
    registers s s' (fun o x => if decide (o = 4 * irq) then u32 prio else x)) s.
Proof.
  intros H Hi. unfold plic_set_priority. rewrite (proj2 (Z.eqb_neq irq 0)) by lia.
  eapply wp_on_plic; [exact H|]. rewrite priority_eq by lia.
  apply wp_w32; [apply H|apply plain_priority; lia].
Qed.

Lemma init_context s h :
  on_plic s h ->
  wp plic_init_s_mode (fun _ s' => registers s s' (fun o x =>
    if decide (o = plic_sthreshold_offset_for_hart h \/ o = plic_word_off h 0) then 0 else x)) s.
Proof.
  intros H. pose proof (op_range _ _ H) as Hh. destruct (op_hart _ _ H) as (c & Hc & Eh).
  unfold plic_init_s_mode. eapply wp_on_plic; [exact H|].
  apply wp_bind, (wp_current_hartid c); [exact Hc|]. rewrite Eh. apply wp_bind.
  eapply wp_mono; [apply wp_w32; [apply H|by apply plain_threshold]|]. intros [] s1 R1.
  assert (E : plic_senable_offset_for_hart h = plic_word_off h 0).
  { unfold plic_word_off. change (4 * (0 / 32)) with 0. rewrite Z.add_0_r.
    unfold plic_senable_offset_for_hart, u32. by rewrite Z.mod_mod by lia. }
  rewrite E. eapply wp_mono; [apply wp_w32; [apply (on_plic_kept _ _ _ _ R1 H)|apply plain_word; lia]|].
  intros [] s2 R2. destruct (registers_trans _ _ _ _ _ R1 R2) as (d & Ed & Hd). exists d. split; [exact Ed|].
  intros o Ho. rewrite Hd by done. repeat case_decide; try done; naive_solver.
Qed.

(** A source the board does not have is left alone. *)
Lemma unknown_source s h irq f :
  on_plic s h -> 0 < irq < 1024 -> ~ has_source s irq -> 
  wp (plic_update_enable irq f) (fun _ s' => s' = s) s.
Proof.
  intros H Hi Hs. unfold plic_update_enable. rewrite (proj2 (Z.eqb_neq irq 0)) by lia.
  eapply wp_on_plic; [exact H|]. apply wp_bind, wp_gets. unfold has_source in Hs. unfold z2b.
  rewrite (proj2 (Z.eqb_neq _ 0)) by (intros E; apply Hs; by left).
  rewrite (proj2 (Z.ltb_lt _ _)) by lia. by apply wp_ret.
Qed.

(** The registers after [plic_init_s_mode], read as bits. *)
Lemma init_bits s h :
  on_plic s h ->
  wp plic_init_s_mode (fun _ s' =>
    enables_init s s' h) s.
Proof.
  intros H. pose proof (op_range _ _ H) as Hh. eapply wp_mono; [by apply init_context|].
  intros [] s' (d & -> & Hd). exists d. split; [done|]. split; [|split].
  - rewrite Hd by (by apply plain_threshold). rewrite decide_True; [done|by left].
  - intros h' i Hh' Hi. unfold enabled. rewrite Hd by (by apply plain_word).
    assert (E : plic_word_off h' i = plic_word_off h 0 <-> h' = h /\ i < 32).
    { rewrite word_off_inj by lia. change (0 / 32) with 0. pose proof (Z.div_mod i 32).
      pose proof (bit_range i). intuition lia. }
    assert (T : plic_word_off h' i <> plic_sthreshold_offset_for_hart h).
    { rewrite word_off_eq, threshold_eq by lia. pose proof (word_index i Hi). lia. }
    case_decide as D.
    + destruct D as [D|D]; [done|]. rewrite Z.testbit_0_l. rewrite bool_decide_true by (by apply E). by rewrite andb_false_r.
    + rewrite bool_decide_false by (intros X; apply D; right; by apply E). by rewrite andb_true_r.
  - intros i Hi. rewrite Hd by (by apply plain_priority). rewrite decide_False; [done|].
    rewrite threshold_eq, word_off_eq by lia. change (0 / 32) with 0. lia.
Qed.

(** [platform_register_irq_handler] in a table that has an entry for [irq]. *)
Lemma register_enables s h irq hd arg name e n :
  on_plic s h -> 0 <= p_plic_num_sources (k_plat s) -> 0 < irq < MAX_IRQ -> has_source s irq ->
  p_irq_table (k_plat s) !! irq = Some e -> p_irq_name (k_plat s) !! irq = Some n ->
  wp (platform_register_irq_handler irq hd arg name) (fun _ s' =>
    registered s s' h irq hd arg name) s.
Proof.
  unfold MAX_IRQ. intros H H0 Hi Hs He Hn. unfold platform_register_irq_handler, MAX_IRQ.
  rewrite (proj2 (Z.leb_gt 64 irq)) by lia. set (s1 := k_set_plat (with_irq irq hd arg name (k_plat s)) s).
  apply wp_bind, (wp_eq _ _ _ tt (k_set_plat (p_set_irq_table
    (<[irq := {| ie_handler := Some hd; ie_arg := arg |}]> (p_irq_table (k_plat s))) (k_plat s)) s)).
  { unfold set_irq, get_irq, bind. by rewrite He. }
  apply wp_bind, (wp_eq _ _ _ tt s1).
  { unfold set_irq_name, get_irq_name, bind. cbn. by rewrite Hn. }
  assert (H1 : on_plic s1 h) by (by destruct H).
  apply wp_bind. eapply wp_mono; [apply (set_one_priority s1 h irq 1 H1); lia|]. intros [] s2 R2.
  pose proof (on_plic_kept _ _ _ _ R2 H1) as H2. destruct R2 as (d & -> & Hd). cbn [k_hw k_set_plat s1] in Hd.
  eapply wp_mono; [apply (enable_one (k_set_hw d s1) h irq H2); [exact H0|lia|exact Hs]|].
  intros [] s3 (d' & -> & He' & Hk). exists d'. split; [done|]. split; [|split].
  - rewrite Hk by (apply plain_priority || left; lia). cbn [k_hw k_set_hw].
    rewrite Hd by (apply plain_priority; lia). by rewrite decide_True.
  - intros h' i Hh' Hi'. rewrite He' by done. cbn [k_hw k_set_hw]. f_equal. unfold enabled.
    rewrite Hd by (by apply plain_word). rewrite decide_False; [done|]. rewrite word_off_eq by done.
    pose proof (word_index i Hi'). lia.
  - intros i Hi' Hne. rewrite Hk by ((apply plain_priority; lia) || (left; lia)). cbn [k_hw k_set_hw].
    rewrite Hd by (by apply plain_priority). rewrite decide_False; [done|lia].
Qed.

(** C28: the driver switches single interrupt sources of the hart it runs on.  On a PLIC
    with the registers of its specification, up to 64 harts and 1023 sources:
    [plic_enable_irq] and [plic_disable_irq] set and clear the enable bit of that source
    for this hart and no other bit of any hart, priorities and thresholds unchanged, and
    do nothing for a source the device tree does not know; [plic_set_priority] writes
    one priority; registering a handler enters it in the table under its name, gives
    the source priority 1 and enables it; and [plic_init_s_mode] sets the threshold to 0
    and disables the sources below 32, and only those. *)
Theorem plic_switches_one_source s h irq :
  on_plic s h -> 0 <= p_plic_num_sources (k_plat s) -> 0 < irq < 1024 ->
  (has_source s irq ->
    wp (plic_enable_irq irq) (fun _ s' => enables s s' (fun h' i =>
      enabled (k_hw s) h' i || bool_decide (h' = h /\ i = irq))) s /\
    wp (plic_disable_irq irq) (fun _ s' => enables s s' (fun h' i =>
      enabled (k_hw s) h' i && negb (bool_decide (h' = h /\ i = irq)))) s /\
    (forall hd arg name e n, irq < MAX_IRQ ->
      p_irq_table (k_plat s) !! irq = Some e -> p_irq_name (k_plat s) !! irq = Some n ->
      wp (platform_register_irq_handler irq hd arg name) (fun _ s' =>
        registered s s' h irq hd arg name) s)) /\
  (~ has_source s irq ->
    wp (plic_enable_irq irq) (fun _ s' => s' = s) s /\ wp (plic_disable_irq irq) (fun _ s' => s' = s) s) /\
  (forall prio, wp (plic_set_priority irq prio) (fun _ s' =>
    registers s s' (fun o x => if decide (o = 4 * irq) then u32 prio else x)) s) /\
  wp plic_init_s_mode (fun _ s' => enables_init s s' h) s.
Proof.
  intros H H0 Hi. split; [|split; [|split]].
  - intros Hs. split; [by apply enable_one|]. split; [by apply disable_one|].
    intros hd arg name e n Hm He Hn. apply (register_enables s h irq hd arg name e n); (done || lia).
  - intros Hs. split; by apply (unknown_source s h).
  - intros prio. by apply (set_one_priority s h).
  - by apply init_bits.
Qed.

End driver.

(** ** A PLIC of plain registers at QEMU's address *)

Definition plic_hardware : Hardware :=
  {| dev := gmap Z Z;
     mmio_load := fun _ a d => (default 0 (d !! a), d);
     mmio_store := fun _ a v d => <[a := v]> d;
     csr_load := fun _ _ d => (0, d); csr_update := fun _ _ _ _ d => d;
     sbi_ecall := fun _ _ _ _ d => ((0, 0), d) |}.

#[local] Existing Instances demo_config plic_hardware.

Lemma plain_address off : plain off -> u64 (201326592 + off) = 201326592 + off.
Proof. unfold plain. intros H. apply u64_small. lia. Qed.

#[program] Definition qemu_plic : @PlicRegs plic_hardware :=
  {| pr_base := 201326592; pr_reg := fun off d => u32 (default 0 ((d : gmap Z Z) !! (201326592 + off))) |}.
Next Obligation. done. Qed.
Next Obligation. intros off d Hp. cbn. by rewrite plain_address. Qed.
Next Obligation.
  intros off v d Hp o Ho. cbn. rewrite plain_address, lookup_insert by done. repeat case_decide; (done || lia).
Qed.

#[local] Existing Instance qemu_plic.
#[local] Instance plic_tree : DeviceTree :=
  {| fdt_path_offset := fun _ _ => -1; fdt_node_offset_by_compatible := fun _ _ _ => -1;
     fdt_getprop := fun _ _ _ => None |}.

(** Hart 1 has the PLIC, with 95 sources; source 3 is enabled already. *)
Definition plic_on : gmap Z Z := <[201326592 + plic_word_off 1 3 := 8]> (∅ : gmap Z Z).
Definition plic_start : kstate :=
  let s := k_set_tp 1 (with_cpu 1 (c_set_hartid 1 cpu_zero)
             (image (plic_on : @dev plic_hardware))) in
  k_set_plat (p_set_plic_base 201326592 (p_set_plic_num_sources 95 (k_plat s))) s.

Lemma plic_switches_one_source_witness :
  wp (platform_register_irq_handler 10 H_uart16550_irq_handler 0 "uart0") (fun _ s' =>
    enabled (k_hw s') 1 10 = true /\ enabled (k_hw s') 1 3 = true /\ enabled (k_hw s') 0 10 = false) plic_start /\
  wp plic_init_s_mode (fun _ s' => enabled (k_hw s') 1 3 = false) plic_start.
Proof.
  assert (Hp : on_plic plic_start 1).
  { split; [reflexivity| |lia]. eexists. split; [apply cpu_with_cpu_eq|reflexivity]. }
  destruct (plic_switches_one_source plic_start 1 10 Hp ltac:(discriminate) ltac:(lia)) as (H1 & _ & _ & H4).
  destruct (H1 ltac:(right; vm_compute; discriminate)) as (_ & _ & Hr). split.
  - eapply wp_mono; [apply (Hr H_uart16550_irq_handler 0 "uart0"%string irq_entry_zero None); vm_compute; reflexivity|].
    intros [] s' (d & -> & _ & He & _). cbn [k_hw k_set_hw].
    rewrite !He by lia. vm_compute. repeat split.
  - eapply wp_mono; [exact H4|]. intros [] s' (d & -> & _ & He & _). cbn [k_hw k_set_hw].
    rewrite He by lia. vm_compute. reflexivity.
Defined.
