(* ===== verification/Asm.v ===== *)
(** * The part of RV64 that the assembly sources use

    A register file, the five trap CSRs, memory and the devices behind [ecall];
    one constructor per mnemonic; code as the list of source lines, a jump
    continuing behind the label it names.  A C function called from assembly is a
    parameter [c_call]: what the compiled function makes of the machine, or
    [None] when it does not return.  An access that is not naturally aligned is
    an error: it would raise a trap inside the trap entry. *)
From stdpp Require Import base numbers list gmap strings.
From Stdlib Require Import ZArith Lia.
From S2P Require Import Prelude Mem Machine.

Local Open Scope Z_scope.

(** ABI names of [x0] to [x31]. *)
Inductive reg : Type :=
| zero | ra | sp | gp | tp | t0 | t1 | t2 | s0 | s1
| a0 | a1 | a2 | a3 | a4 | a5 | a6 | a7
| s2 | s3 | s4 | s5 | s6 | s7 | s8 | s9 | s10 | s11 | t3 | t4 | t5 | t6.

Definition reg_num (r : reg) : nat :=
  match r with
  | zero => 0 | ra => 1 | sp => 2 | gp => 3 | tp => 4 | t0 => 5 | t1 => 6 | t2 => 7
  | s0 => 8 | s1 => 9 | a0 => 10 | a1 => 11 | a2 => 12 | a3 => 13 | a4 => 14 | a5 => 15
  | a6 => 16 | a7 => 17 | s2 => 18 | s3 => 19 | s4 => 20 | s5 => 21 | s6 => 22 | s7 => 23
  | s8 => 24 | s9 => 25 | s10 => 26 | s11 => 27 | t3 => 28 | t4 => 29 | t5 => 30 | t6 => 31
  end.

Definition reg_eqb (r r' : reg) : bool := Nat.eqb (reg_num r) (reg_num r').

Lemma reg_eqb_spec r r' : reflect (r = r') (reg_eqb r r').
Proof.
  unfold reg_eqb. destruct (Nat.eqb_spec (reg_num r) (reg_num r')) as [E|E]; constructor.
  - by destruct r, r'.
  - by intros ->.
Qed.

(** The CSRs the trap entry touches; [time] and the interrupt-enable bits are
    handled by the C code. *)
Inductive tcsr : Type := sscratch | sepc | sstatus | scause | stval.

Definition tcsr_eqb (c c' : tcsr) : bool :=
  match c, c' with
  | sscratch, sscratch | sepc, sepc | sstatus, sstatus | scause, scause | stval, stval => true
  | _, _ => false
  end.

Inductive instr : Type :=
| LD (rd : reg) (off : Z) (base : reg)
| SD (rs : reg) (off : Z) (base : reg)
| LBU (rd : reg) (off : Z) (base : reg)
| SB (rs : reg) (off : Z) (base : reg)
| LI (rd : reg) (imm : Z)
| LA (rd : reg) (sym : Z)
| MV (rd rs : reg)
| ADDI (rd rs : reg) (imm : Z)
| ANDI (rd rs : reg) (imm : Z)
| ADD (rd rs rt : reg)
| MUL (rd rs rt : reg)
| CSRR (rd : reg) (c : tcsr)
| CSRW (c : tcsr) (rs : reg)
| ECALL
| BEQZ (rs : reg) (l : string)
| BNEZ (rs : reg) (l : string)
| BGEU (rs rt : reg) (l : string)
| J (l : string)
| CALL (f : string)
| TAIL (f : string)
| SRET
| RET.

Inductive line : Type := Label (l : string) | I (i : instr).

Section asm.
Context {hws : Hardware}.

Record hart := mk_hart {
  h_id : Z;
  h_x : reg -> Z;
  h_c : tcsr -> Z;
  h_mem : mem;
  h_dev : dev
}.

Definition get (s : hart) (r : reg) : Z := if reg_eqb r zero then 0 else h_x s r.
Definition set (r : reg) (v : Z) (s : hart) : hart :=
  mk_hart (h_id s) (fun r' => if reg_eqb r' r then v else h_x s r') (h_c s) (h_mem s) (h_dev s).
Definition set_csr (c : tcsr) (v : Z) (s : hart) : hart :=
  mk_hart (h_id s) (h_x s) (fun c' => if tcsr_eqb c' c then v else h_c s c') (h_mem s) (h_dev s).
Definition set_mem (m : mem) (s : hart) : hart :=
  mk_hart (h_id s) (h_x s) (h_c s) m (h_dev s).
Definition set_dev (d : dev) (s : hart) : hart :=
  mk_hart (h_id s) (h_x s) (h_c s) (h_mem s) d.

(** The instructions that fall through; [None]: a misaligned access. *)
Definition exec (i : instr) (s : hart) : option hart :=
  match i with
  | LD rd off b =>
    let a := u64 (get s b + off) in
    if a mod 8 =? 0 then Some (set rd (load64 (h_mem s) a) s) else None
  | SD rs off b =>
    let a := u64 (get s b + off) in
    if a mod 8 =? 0 then Some (set_mem (store64 (h_mem s) a (get s rs)) s) else None
  | LBU rd off b => Some (set rd (load8 (h_mem s) (u64 (get s b + off))) s)
  | SB rs off b => Some (set_mem (store8 (h_mem s) (u64 (get s b + off)) (get s rs)) s)
  | LI rd v | LA rd v => Some (set rd (u64 v) s)
  | MV rd rs => Some (set rd (get s rs) s)
  | ADDI rd rs v => Some (set rd (u64 (get s rs + v)) s)
  | ANDI rd rs v => Some (set rd (Z.land (get s rs) v) s)
  | ADD rd rs rt => Some (set rd (u64 (get s rs + get s rt)) s)
  | MUL rd rs rt => Some (set rd (u64 (get s rs * get s rt)) s)
  | CSRR rd c => Some (set rd (h_c s c) s)
  | CSRW c rs => Some (set_csr c (get s rs) s)
  | ECALL =>   (* SBI: a7 extension, a6 function; a0 error, a1 value *)
    let '((e, v), d) := sbi_ecall (h_id s) (get s a7) (get s a6)
                          [get s a0; get s a1; get s a2; get s a3; get s a4] (h_dev s) in
    Some (set_dev d (set a1 (u64 v) (set a0 (u64 e) s)))
  | _ => None
  end.

(** How a piece of code is left. *)
Inductive exit : Type :=
| Sret (s : hart)                 (* to [sepc], in the mode of [sstatus] *)
| Tailed (f : string) (s : hart)  (* into a C function that does not come back *)
| Returned (s : hart)             (* to [ra] *)
| Lost                            (* inside a C function that does not return *)
| Stuck.                          (* misaligned access, or past the end *)

Fixpoint find_label (l : string) (p : list line) : option (list line) :=
  match p with
  | [] => None
  | Label l' :: p' => if String.eqb l l' then Some p' else find_label l p'
  | _ :: p' => find_label l p'
  end.

Section run.
Variable c_call : string -> hart -> option hart.
Variable prog : list line.

Definition goto (l : string) (s : hart) : (list line * hart) + exit :=
  match find_label l prog with Some k => inl (k, s) | None => inr Stuck end.

(** One line of the code [k] that lies ahead. *)
Definition step (k : list line) (s : hart) : (list line * hart) + exit :=
  match k with
  | [] => inr Stuck
  | Label _ :: k' => inl (k', s)
  | I i :: k' =>
    match i with
    | BEQZ r l => if get s r =? 0 then goto l s else inl (k', s)
    | BNEZ r l => if get s r =? 0 then inl (k', s) else goto l s
    | BGEU r t l => if get s r <? get s t then inl (k', s) else goto l s
    | J l => goto l s
    | CALL f => match c_call f s with Some s' => inl (k', s') | None => inr Lost end
    | TAIL f => inr (Tailed f s)
    | SRET => inr (Sret s)
    | RET => inr (Returned s)
    | i => match exec i s with Some s' => inl (k', s') | None => inr Stuck end
    end
  end.

(** [n] lines; [None]: still running. *)
Fixpoint run (n : nat) (k : list line) (s : hart) : option exit :=
  match n with
  | O => None
  | Datatypes.S n' =>
    match step k s with
    | inl (k', s') => run n' k' s'
    | inr e => Some e
    end
  end.

(** Execution from the global symbol [f]. *)
Definition enter (f : string) (n : nat) (s : hart) : option exit :=
  match find_label f prog with Some k => run n k s | None => Some Stuck end.

Definition exits (k : list line) (s : hart) (e : exit) : Prop := exists n, run n k s = Some e.

(** [k] in [s] gets to [k'] in [s'], in some number of steps. *)
Definition reaches (k : list line) (s : hart) (k' : list line) (s' : hart) : Prop :=
  exists n, forall m, run (n + m) k s = run m k' s'.

Lemma exits_done k s e : step k s = inr e -> exits k s e.
Proof. intros E. exists 1%nat. simpl. by rewrite E. Qed.

Lemma reaches_refl k s : reaches k s k s.
Proof. by exists 0%nat. Qed.
Lemma reaches_trans k1 s1 k2 s2 k3 s3 :
  reaches k1 s1 k2 s2 -> reaches k2 s2 k3 s3 -> reaches k1 s1 k3 s3.
Proof.
  intros [n1 H1] [n2 H2]. exists (n1 + n2)%nat. intros m. by rewrite <- Nat.add_assoc, H1.
Qed.
Lemma reaches_step k s k1 s1 k' s' :
  step k s = inl (k1, s1) -> reaches k1 s1 k' s' -> reaches k s k' s'.
Proof. intros E [n H]. exists (Datatypes.S n). intros m. simpl. by rewrite E. Qed.
Lemma reaches_exec i k s s1 k' s' :
  exec i s = Some s1 -> reaches k s1 k' s' -> reaches (I i :: k) s k' s'.
Proof.
  intros E. apply reaches_step. unfold step. destruct i; try discriminate E; by rewrite E.
Qed.

Lemma run_more n n' k s e : run n k s = Some e -> (n <= n')%nat -> run n' k s = Some e.
Proof.
  revert n' k s. induction n as [|n IH]; intros n' k s; [done|].
  destruct n' as [|n']; [lia|]. simpl. destruct (step k s) as [[k' s']|e']; [|done].
  intros R Hn. apply IH; [done|lia].
Qed.

(** Code leaves in one way only. *)
Lemma exits_det k s e e' : exits k s e -> exits k s e' -> e = e'.
Proof.
  intros [n R] [n' R'].
  assert (E : run (n + n') k s = Some e) by (apply (run_more n); [done|lia]).
  rewrite (run_more n' (n + n') _ _ _ R') in E by lia. congruence.
Qed.

Lemma reaches_exits k s k' s' e : reaches k s k' s' -> exits k s e <-> exits k' s' e.
Proof.
  intros [n H]. split; intros [m R].
  - exists m. rewrite <- (H m). apply (run_more m); [done|lia].
  - exists (n + m)%nat. by rewrite H.
Qed.

(** A block of instructions that fall through. *)
Fixpoint exec_all (l : list instr) (s : hart) : option hart :=
  match l with
  | [] => Some s
  | i :: l2 => match exec i s with Some s' => exec_all l2 s' | None => None end
  end.

Lemma reaches_block l k s s1 k' s' :
  exec_all l s = Some s1 -> reaches k s1 k' s' -> reaches (map I l ++ k) s k' s'.
Proof.
  revert s. induction l as [|i l IH]; intros s; simpl; [by intros [= <-]|].
  destruct (exec i s) as [s2|] eqn:E; [|done]. intros H Hr. eapply reaches_exec; [done|]. by apply IH.
Qed.

End run.

(** ** Aligned accesses *)

Lemma aligned_access p o :
  p mod 8 = 0 -> o mod 8 = 0 -> 0 <= p + o < 2^64 ->
  u64 (p + o) = p + o /\ ((p + o) mod 8 =? 0) = true.
Proof.
  intros Hp Ho Hr. split; [by apply u64_small|]. apply Z.eqb_eq.
  rewrite Z.add_mod, Hp, Ho by lia. done.
Qed.

Lemma exec_LD rd o b s p :
  get s b = p -> p mod 8 = 0 -> o mod 8 = 0 -> 0 <= p + o < 2^64 ->
  exec (LD rd o b) s = Some (set rd (load64 (h_mem s) (p + o)) s).
Proof.
  intros E Hp Ho Hr. simpl. rewrite E. destruct (aligned_access p o) as [-> ->]; done.
Qed.
Lemma exec_LD_eq rd o b s p v :
  get s b = p -> p mod 8 = 0 -> o mod 8 = 0 -> 0 <= p + o < 2^64 ->
  load64 (h_mem s) (p + o) = v -> exec (LD rd o b) s = Some (set rd v s).
Proof. intros E Hp Ho Hr <-. by apply exec_LD. Qed.
Lemma exec_ADDI rd rs v s x y :
  get s rs = x -> x + v = y -> 0 <= y < 2^64 -> exec (ADDI rd rs v) s = Some (set rd y s).
Proof. intros <- <- Hr. simpl. by rewrite u64_small. Qed.
Lemma exec_SD rs o b s p :
  get s b = p -> p mod 8 = 0 -> o mod 8 = 0 -> 0 <= p + o < 2^64 ->
  exec (SD rs o b) s = Some (set_mem (store64 (h_mem s) (p + o) (get s rs)) s).
Proof.
  intros E Hp Ho Hr. simpl. rewrite E. destruct (aligned_access p o) as [-> ->]; done.
Qed.

(** ** Saving and restoring blocks of registers *)

(** The words [l], given with their offsets, stored from [p] on. *)
Fixpoint store_words (m : mem) (p : Z) (l : list (Z * Z)) : mem :=
  match l with
  | [] => m
  | (o, v) :: l' => store_words (store64 m (p + o) v) p l'
  end.

(** What a load at offset [o] finds afterwards, [v] being what was there. *)
Fixpoint stored (o v : Z) (l : list (Z * Z)) : Z :=
  match l with
  | [] => v
  | (o', v') :: l' => stored o (if o =? o' then u64 v' else v) l'
  end.

Fixpoint load_regs (p : Z) (l : list (reg * Z)) (s : hart) : hart :=
  match l with
  | [] => s
  | (r, o) :: l' => load_regs p l' (set r (load64 (h_mem s) (p + o)) s)
  end.

(** Offsets within [n] bytes, multiples of 8. *)
Definition offsets (n : Z) : list Z -> bool :=
  forallb (fun o => (o mod 8 =? 0) && (0 <=? o) && (o + 8 <=? n)).

Lemma offsets_cons n o l :
  offsets n (o :: l) = true <-> (o mod 8 = 0 /\ 0 <= o /\ o + 8 <= n) /\ offsets n l = true.
Proof. unfold offsets. simpl. rewrite !andb_true_iff, Z.eqb_eq, !Z.leb_le. tauto. Qed.

Section blocks.
Variables (n p : Z).
Hypotheses (Hp : p mod 8 = 0) (Hp0 : 0 <= p) (Hn : p + n <= 2^64).

Lemma save_block b l s :
  get s b = p -> offsets n (map snd l) = true ->
  exec_all (map (fun '(r, o) => SD r o b) l) s =
  Some (set_mem (store_words (h_mem s) p (map (fun '(r, o) => (o, get s r)) l)) s).
Proof using All.
  revert s. induction l as [|[r o] l IH]; intros s Hb Hl; [by destruct s|].
  cbn [map fst snd] in Hl. apply offsets_cons in Hl as [(Ho & H0 & H1) Hl]. cbn [map exec_all].
  rewrite (exec_SD r o b s p) by (done || lia). rewrite IH by done. done.
Qed.

Lemma restore_block b l s :
  get s b = p -> offsets n (map snd l) = true ->
  forallb (fun '(r, _) => negb (reg_eqb r b)) l = true ->
  exec_all (map (fun '(r, o) => LD r o b) l) s = Some (load_regs p l s).
Proof using All.
  revert s. induction l as [|[r o] l IH]; intros s Hb Hl Hr; [done|].
  cbn [map fst snd] in Hl. apply offsets_cons in Hl as [(Ho & H0 & H1) Hl]. simpl in Hr. apply andb_true_iff in Hr as [Hr1 Hr].
  cbn [map exec_all]. rewrite (exec_LD r o b s p) by (done || lia). apply IH; [|done..].
  rewrite <- Hb. unfold get, set. simpl. destruct (reg_eqb_spec b r) as [->|]; [|done].
  revert Hr1. by destruct (reg_eqb_spec r r).
Qed.

End blocks.

Lemma load64_store64_ne m a b v : a + 8 <= b \/ b + 8 <= a -> load64 (store64 m a v) b = load64 m b.
Proof.
  intros H. unfold load64, store64. f_equal. apply load_bytes_store_bytes_ne.
  rewrite le_bytes_length. lia.
Qed.
Lemma load8_store64_ne m a b v : b < a \/ a + 8 <= b -> load8 (store64 m a v) b = load8 m b.
Proof. intros H. unfold store64. apply load8_store_bytes_ne. rewrite le_bytes_length. lia. Qed.
Lemma load64_ext m m' a :
  (forall i, a <= i < a + 8 -> load8 m' i = load8 m i) -> load64 m' a = load64 m a.
Proof. intros H. unfold load64. f_equal. apply load_bytes_ext. intros i Hi. apply H. lia. Qed.

Lemma load64_store_words n m p l o :
  offsets n (map fst l) = true -> o mod 8 = 0 ->
  load64 (store_words m p l) (p + o) = stored o (load64 m (p + o)) l.
Proof.
  revert m. induction l as [|[o' v] l IH]; intros m Hl Ho; [done|].
  cbn [map fst snd] in Hl. apply offsets_cons in Hl as [(Ho' & _) Hl]. simpl. rewrite IH by done. f_equal.
  destruct (Z.eqb_spec o o') as [->|Hne]; [apply load64_store64|].
  apply load64_store64_ne. pose proof (Z.div_mod o 8). pose proof (Z.div_mod o' 8). lia.
Qed.
Lemma load8_store_words n m p l a :
  offsets n (map fst l) = true -> a < p \/ p + n <= a ->
  load8 (store_words m p l) a = load8 m a.
Proof.
  revert m. induction l as [|[o v] l IH]; intros m Hl Ha; [done|].
  cbn [map fst snd] in Hl. apply offsets_cons in Hl as [(_ & H0 & H1) Hl]. simpl. rewrite IH by done.
  apply load8_store64_ne. lia.
Qed.

End asm.

Arguments exits {hws} c_call prog k s e.
Arguments reaches {hws} c_call prog k s k' s'.
Arguments run {hws} c_call prog n k s.
Arguments enter {hws} c_call prog f n s.
