(* ===== verification/Entry.v ===== *)
(** * Entry code: start.S, trap.S, arch_first_switch.S

    The three assembly sources line by line, and what they do: [start.S] clears
    the BSS and gives each hart its stack; [trap.S] saves the interrupted registers
    in the frame of the running thread, calls [trap_entry_c] and resumes from the
    frame it returns; [arch_first_switch] resumes from a first frame. *)
From stdpp Require Import base numbers list gmap strings.
From Stdlib Require Import ZArith Lia.
From S2P Require Import Prelude Mem Machine State Kernel Boot Asm.

Local Open Scope Z_scope.

(** [trapframe_offset.inc] *)
Definition TF_RA : Z := 0.
Definition TF_SP : Z := 8.
Definition TF_GP : Z := 16.
Definition TF_TP : Z := 24.
Definition TF_T0 : Z := 32.
Definition TF_T1 : Z := 40.
Definition TF_T2 : Z := 48.
Definition TF_S0 : Z := 56.
Definition TF_S1 : Z := 64.
Definition TF_A0 : Z := 72.
Definition TF_A1 : Z := 80.
Definition TF_A2 : Z := 88.
Definition TF_A3 : Z := 96.
Definition TF_A4 : Z := 104.
Definition TF_A5 : Z := 112.
Definition TF_A6 : Z := 120.
Definition TF_A7 : Z := 128.
Definition TF_S2 : Z := 136.
Definition TF_S3 : Z := 144.
Definition TF_S4 : Z := 152.
Definition TF_S5 : Z := 160.
Definition TF_S6 : Z := 168.
Definition TF_S7 : Z := 176.
Definition TF_S8 : Z := 184.
Definition TF_S9 : Z := 192.
Definition TF_S10 : Z := 200.
Definition TF_S11 : Z := 208.
Definition TF_T3 : Z := 216.
Definition TF_T4 : Z := 224.
Definition TF_T5 : Z := 232.
Definition TF_T6 : Z := 240.
Definition TF_SEPC : Z := 248.
Definition TF_SSTATUS : Z := 256.
Definition TF_SCAUSE : Z := 264.
Definition TF_STVAL : Z := 272.
Definition TF_SIZE : Z := 288.

(** [cpu_defs.h] *)
Definition CPU_KSTACK_TOP_OFF : Z := 0.
Definition CPU_CUR_TF_OFF : Z := 8.

(** [trap.S] *)
Definition ENTRY_SCRATCH_SIZE : Z := 32.
Definition SCR_T0_OFF : Z := 0.
Definition SCR_T1_OFF : Z := 8.
Definition SCR_T2_OFF : Z := 16.
Definition SCR_T3_OFF : Z := 24.

Create HintDb offsets.
#[export] Hint Unfold TF_RA TF_SP TF_GP TF_TP TF_T0 TF_T1 TF_T2 TF_S0 TF_S1 TF_A0 TF_A1
  TF_A2 TF_A3 TF_A4 TF_A5 TF_A6 TF_A7 TF_S2 TF_S3 TF_S4 TF_S5 TF_S6 TF_S7 TF_S8 TF_S9 TF_S10
  TF_S11 TF_T3 TF_T4 TF_T5 TF_T6 TF_SEPC TF_SSTATUS TF_SCAUSE TF_STVAL TF_SIZE
  CPU_KSTACK_TOP_OFF CPU_CUR_TF_OFF ENTRY_SCRATCH_SIZE SCR_T0_OFF SCR_T1_OFF SCR_T2_OFF
  SCR_T3_OFF : offsets.

(** Symbols of the linker script. *)
Class Link := {
  __bss_start : Z;
  __bss_end : Z;
  __stack_top : Z
}.

Definition trap_S : list line :=
  [
   Label "trap_entry";
    I (CSRR tp sscratch); I (CSRW sscratch sp); I (LD sp CPU_KSTACK_TOP_OFF tp);
    I (ADDI sp sp (-ENTRY_SCRATCH_SIZE)); I (SD t0 SCR_T0_OFF sp); I (SD t1 SCR_T1_OFF sp);
    I (SD t2 SCR_T2_OFF sp); I (SD t3 SCR_T3_OFF sp); I (LD t0 CPU_CUR_TF_OFF tp);
    I (BEQZ t0 ".Lno_tf"); I (SD t4 TF_T4 t0); I (LD t4 SCR_T0_OFF sp); I (SD t4 TF_T0 t0);
    I (LD t4 SCR_T1_OFF sp); I (SD t4 TF_T1 t0); I (LD t4 SCR_T2_OFF sp); I (SD t4 TF_T2 t0);
    I (LD t4 SCR_T3_OFF sp); I (SD t4 TF_T3 t0); I (CSRR t4 sscratch); I (SD t4 TF_SP t0);
    I (CSRW sscratch tp); I (SD ra TF_RA t0); I (SD gp TF_GP t0); I (SD tp TF_TP t0);
    I (SD s0 TF_S0 t0); I (SD s1 TF_S1 t0); I (SD s2 TF_S2 t0); I (SD s3 TF_S3 t0);
    I (SD s4 TF_S4 t0); I (SD s5 TF_S5 t0); I (SD s6 TF_S6 t0); I (SD s7 TF_S7 t0);
    I (SD s8 TF_S8 t0); I (SD s9 TF_S9 t0); I (SD s10 TF_S10 t0); I (SD s11 TF_S11 t0);
    I (SD a0 TF_A0 t0); I (SD a1 TF_A1 t0); I (SD a2 TF_A2 t0); I (SD a3 TF_A3 t0);
    I (SD a4 TF_A4 t0); I (SD a5 TF_A5 t0); I (SD a6 TF_A6 t0); I (SD a7 TF_A7 t0);
    I (SD t5 TF_T5 t0); I (SD t6 TF_T6 t0); I (CSRR t4 sepc); I (SD t4 TF_SEPC t0);
    I (CSRR t4 sstatus); I (SD t4 TF_SSTATUS t0); I (CSRR t4 scause); I (SD t4 TF_SCAUSE t0);
    I (CSRR t4 stval); I (SD t4 TF_STVAL t0); I (MV a0 t0); I (CALL "trap_entry_c");
    I (CSRR tp sscratch); I (SD a0 CPU_CUR_TF_OFF tp); I (MV t0 a0); I (LD t4 TF_SSTATUS t0);
    I (CSRW sstatus t4); I (LD t4 TF_SEPC t0); I (CSRW sepc t4); I (LD ra TF_RA t0);
    I (LD gp TF_GP t0); I (LD s0 TF_S0 t0); I (LD s1 TF_S1 t0); I (LD s2 TF_S2 t0);
    I (LD s3 TF_S3 t0); I (LD s4 TF_S4 t0); I (LD s5 TF_S5 t0); I (LD s6 TF_S6 t0);
    I (LD s7 TF_S7 t0); I (LD s8 TF_S8 t0); I (LD s9 TF_S9 t0); I (LD s10 TF_S10 t0);
    I (LD s11 TF_S11 t0); I (LD a0 TF_A0 t0); I (LD a1 TF_A1 t0); I (LD a2 TF_A2 t0);
    I (LD a3 TF_A3 t0); I (LD a4 TF_A4 t0); I (LD a5 TF_A5 t0); I (LD a6 TF_A6 t0);
    I (LD a7 TF_A7 t0); I (LD t1 TF_T1 t0); I (LD t2 TF_T2 t0); I (LD t3 TF_T3 t0);
    I (LD t4 TF_T4 t0); I (LD t5 TF_T5 t0); I (LD t6 TF_T6 t0); I (LD sp TF_SP t0);
    I (LD t0 TF_T0 t0); I SRET;
   Label ".Lno_tf";
   Label "1";
    I (J "1") ].

Definition arch_first_switch_S : list line :=
  [
   Label "arch_first_switch";
    I (CSRW sscratch tp); I (SD a0 CPU_CUR_TF_OFF tp); I (MV t0 a0); I (LD t1 TF_SSTATUS t0);
    I (CSRW sstatus t1); I (LD t1 TF_SEPC t0); I (CSRW sepc t1); I (LD ra TF_RA t0);
    I (LD gp TF_GP t0); I (LD t1 TF_T1 t0); I (LD t2 TF_T2 t0); I (LD s0 TF_S0 t0);
    I (LD s1 TF_S1 t0); I (LD a0 TF_A0 t0); I (LD a1 TF_A1 t0); I (LD a2 TF_A2 t0);
    I (LD a3 TF_A3 t0); I (LD a4 TF_A4 t0); I (LD a5 TF_A5 t0); I (LD a6 TF_A6 t0);
    I (LD a7 TF_A7 t0); I (LD s2 TF_S2 t0); I (LD s3 TF_S3 t0); I (LD s4 TF_S4 t0);
    I (LD s5 TF_S5 t0); I (LD s6 TF_S6 t0); I (LD s7 TF_S7 t0); I (LD s8 TF_S8 t0);
    I (LD s9 TF_S9 t0); I (LD s10 TF_S10 t0); I (LD s11 TF_S11 t0); I (LD t3 TF_T3 t0);
    I (LD t4 TF_T4 t0); I (LD t5 TF_T5 t0); I (LD t6 TF_T6 t0); I (LD sp TF_SP t0);
    I (LD t0 TF_T0 t0); I SRET ].

Definition start_S {cfg : Config} {lk : Link} : list line :=
  [
   Label "_start";
    I (MV t3 a0); I (LA sp __stack_top); I (LA t0 __bss_start); I (LA t1 __bss_end);
    I (ANDI t2 t0 7); I (BEQZ t2 ".L_bss_aligned");
   Label ".L_bss_align";
    I (BGEU t0 t1 ".L_bss_done"); I (SB zero 0 t0); I (ADDI t0 t0 1); I (ANDI t2 t0 7);
    I (BNEZ t2 ".L_bss_align");
   Label ".L_bss_aligned";
    I (BGEU t0 t1 ".L_bss_done"); I (SD zero 0 t0); I (ADDI t0 t0 8); I (J ".L_bss_aligned");
   Label ".L_bss_done";
    I (J "per_hart_start");
   Label "secondary_entry";
    I (MV t3 a0); I (J "per_hart_start");
   Label "per_hart_start";
    I (LA t0 addr_g_kstack); I (LI t1 KSTACK_SIZE); I (MUL t2 t3 t1); I (ADD t0 t0 t2);
    I (ADD t0 t0 t1); I (MV sp t0); I (CSRW sscratch t0); I (TAIL "kernel_main");
   Label "sbi_puts_asm";
    I (MV t2 a0);
   Label ".Lputs_loop";
    I (LBU a0 0 t2); I (BEQZ a0 ".Lputs_done"); I (LI a7 1145193294); I (LI a6 2); I ECALL;
    I (ADDI t2 t2 1); I (J ".Lputs_loop");
   Label ".Lputs_done";
    I RET ].

(** ** The frame in memory *)

(** [*(struct trapframe * )p], by the C layout: 36 consecutive words. *)
Definition read_tf (m : mem) (p : Z) : trapframe :=
  let w i := load64 m (p + 8 * i) in
  {| f_ra := w 0; f_sp := w 1; f_gp := w 2; f_tp := w 3; f_t0 := w 4; f_t1 := w 5; f_t2 := w 6;
     f_s0 := w 7; f_s1 := w 8; f_a0 := w 9; f_a1 := w 10; f_a2 := w 11; f_a3 := w 12; f_a4
     := w 13; f_a5 := w 14; f_a6 := w 15; f_a7 := w 16; f_s2 := w 17; f_s3 := w 18; f_s4 :=
     w 19; f_s5 := w 20; f_s6 := w 21; f_s7 := w 22; f_s8 := w 23; f_s9 := w 24; f_s10 := w
     25; f_s11 := w 26; f_t3 := w 27; f_t4 := w 28; f_t5 := w 29; f_t6 := w 30; f_sepc := w
     31; f_sstatus := w 32; f_scause := w 33; f_stval := w 34; f_pad := w 35 |}.

(** The frame of the registers and CSRs of [s]; the padding keeps [pad]. *)
Definition tf_of_hart {hws : Hardware} (s : hart) (cpu pad : Z) : trapframe :=
  let x := h_x s in let c := h_c s in
  {| f_ra := x ra; f_sp := x sp; f_gp := x gp; f_tp := cpu; f_t0 := x t0; f_t1 := x t1; f_t2 := x
     t2; f_s0 := x s0; f_s1 := x s1; f_a0 := x a0; f_a1 := x a1; f_a2 := x a2; f_a3 := x a3;
     f_a4 := x a4; f_a5 := x a5; f_a6 := x a6; f_a7 := x a7; f_s2 := x s2; f_s3 := x s3;
     f_s4 := x s4; f_s5 := x s5; f_s6 := x s6; f_s7 := x s7; f_s8 := x s8; f_s9 := x s9;
     f_s10 := x s10; f_s11 := x s11; f_t3 := x t3; f_t4 := x t4; f_t5 := x t5; f_t6 := x t6;
     f_sepc := c sepc; f_sstatus := c sstatus; f_scause := c scause; f_stval := c stval;
     f_pad := pad |}.

(** The registers a thread resumes with: those of its frame, but [tp]. *)
Definition regs_of_tf (f : trapframe) (cpu : Z) (r : reg) : Z :=
  match r with
  | zero => 0 | tp => cpu
  | ra => f_ra f | sp => f_sp f | gp => f_gp f | t0 => f_t0 f | t1 => f_t1 f | t2 => f_t2 f
  | s0 => f_s0 f | s1 => f_s1 f | a0 => f_a0 f | a1 => f_a1 f | a2 => f_a2 f | a3 => f_a3 f
  | a4 => f_a4 f | a5 => f_a5 f | a6 => f_a6 f | a7 => f_a7 f | s2 => f_s2 f | s3 => f_s3 f
  | s4 => f_s4 f | s5 => f_s5 f | s6 => f_s6 f | s7 => f_s7 f | s8 => f_s8 f | s9 => f_s9 f
  | s10 => f_s10 f | s11 => f_s11 f | t3 => f_t3 f | t4 => f_t4 f | t5 => f_t5 f | t6 =>
  f_t6 f
  end.

(** The value of a register. *)
Definition word (z : Z) : Prop := 0 <= z < 2^64.

Lemma u64_word z : word z -> u64 z = z.
Proof. apply u64_small. Qed.

(** Symbolic execution, one line at a time. *)
Ltac norm :=
  cbn [get set set_mem set_csr set_dev h_id h_x h_c h_mem h_dev reg_eqb reg_num Nat.eqb tcsr_eqb].
Ltac mem_ne := rewrite !load64_store64_ne by lia.
Ltac go := eapply reaches_exec; [reflexivity|]; norm.
Ltac sd_at q := eapply reaches_exec; [apply (exec_SD _ _ _ _ q); [reflexivity|done|done|lia]|]; norm.
Ltac ld_at q v :=
  eapply reaches_exec; [apply (exec_LD_eq _ _ _ _ q v); [reflexivity|done|done|lia|norm]|]; norm.

(** ** [trap.S] *)

Section trap.
Context {hws : Hardware}.
Variable c_call : string -> hart -> option hart.

Definition words (s : hart) : Prop := (forall r, word (h_x s r)) /\ (forall c, word (h_c s c)).

(** An 8-aligned object of [n] bytes. *)
Definition object (n a : Z) : Prop := 0 <= a /\ a mod 8 = 0 /\ a + n <= 2^64.
Definition apart (a n b k : Z) : Prop := a + n <= b \/ b + k <= a.

(** What [trap.S] relies on when a trap is taken in [s]: [sscratch] holds the
    address [cpu] of the hart's record, whose first two words are the top of the
    hart's stack and the current frame. *)
Record trap_ready (s : hart) (cpu top p : Z) : Prop := {
  tr_words : words s;
  tr_cpu : h_c s sscratch = cpu;
  tr_cpu_obj : object 16 cpu;
  tr_top : load64 (h_mem s) cpu = top;
  tr_tf : load64 (h_mem s) (cpu + 8) = p;
  tr_scr_obj : object 32 (top - 32);
  tr_scr_cpu : apart (top - 32) 32 cpu 16
}.

Record frame_ready (cpu top p : Z) : Prop := {
  fr_null : p <> 0;
  fr_obj : object 288 p;
  fr_scr : apart p 288 (top - 32) 32;
  fr_cpu : apart p 288 cpu 16
}.

(** The code from the call on, and behind it. *)
Definition trap_call : list line := drop 57 trap_S.
Definition trap_return : list line := drop 58 trap_S.

(** Bytes the trap entry may write. *)
Definition outside (p n a : Z) : Prop := a < p \/ p + n <= a.

(** The words stored in the frame, in the order of the code. *)
Definition saved_words (s : hart) (cpu : Z) : list (Z * Z) :=
  [(TF_T4, h_x s t4); (TF_T0, h_x s t0); (TF_T1, h_x s t1); (TF_T2, h_x s t2); (TF_T3, h_x
   s t3); (TF_SP, h_x s sp); (TF_RA, h_x s ra); (TF_GP, h_x s gp); (TF_TP, cpu); (TF_S0,
   h_x s s0); (TF_S1, h_x s s1); (TF_S2, h_x s s2); (TF_S3, h_x s s3); (TF_S4, h_x s s4);
   (TF_S5, h_x s s5); (TF_S6, h_x s s6); (TF_S7, h_x s s7); (TF_S8, h_x s s8); (TF_S9, h_x
   s s9); (TF_S10, h_x s s10); (TF_S11, h_x s s11); (TF_A0, h_x s a0); (TF_A1, h_x s a1);
   (TF_A2, h_x s a2); (TF_A3, h_x s a3); (TF_A4, h_x s a4); (TF_A5, h_x s a5); (TF_A6, h_x
   s a6); (TF_A7, h_x s a7); (TF_T5, h_x s t5); (TF_T6, h_x s t6); (TF_SEPC, h_c s sepc);
   (TF_SSTATUS, h_c s sstatus); (TF_SCAUSE, h_c s scause); (TF_STVAL, h_c s stval)].
Definition scratch_words (s : hart) : list (Z * Z) :=
  [(SCR_T0_OFF, h_x s t0); (SCR_T1_OFF, h_x s t1); (SCR_T2_OFF, h_x s t2); (SCR_T3_OFF, h_x s t3)].

Lemma read_saved s cpu m p :
  words s -> word cpu ->
  read_tf (store_words m p (saved_words s cpu)) p = tf_of_hart s cpu (load64 m (p + 280)).
Proof.
  intros [Hx Hc] Hcpu. unfold read_tf. rewrite !(load64_store_words 288) by done.
  cbn. rewrite !(u64_word (h_x s _)) by done. rewrite !(u64_word (h_c s _)) by done. rewrite (u64_word cpu) by done. done.
Qed.

(** The padding of the frame, behind the scratch words. *)
Lemma read_saved_frame s cpu top m p :
  words s -> word cpu -> apart p 288 (top - 32) 32 ->
  read_tf (store_words (store_words m (top - 32) (scratch_words s)) p (saved_words s cpu)) p =
  tf_of_hart s cpu (load64 m (p + 280)).
Proof.
  intros Hs Hc Ha. rewrite read_saved by done. f_equal. apply load64_ext. intros i Hi.
  apply (load8_store_words 32); [done|]. unfold apart in Ha. lia.
Qed.

Lemma trap_saves s cpu top p :
  trap_ready s cpu top p -> frame_ready cpu top p ->
  exists st, reaches c_call trap_S (drop 1 trap_S) s trap_call st /\
    get st a0 = p /\ get st sp = top - 32 /\ h_c st sscratch = cpu /\
    h_dev st = h_dev s /\ h_id st = h_id s /\
    h_mem st = store_words (store_words (h_mem s) (top - 32) (scratch_words s)) p
                 (saved_words s cpu).
Proof.
  intros [[Hx Hc] Ecpu (C0 & C8 & C1) Etop Ep (T0 & T8 & T1) Dsc] [Np (P0 & P8 & P1) Dfs Dfc].
  unfold apart in *. eexists. split.
  - cbn [drop trap_S]. autounfold with offsets. go. rewrite Ecpu. go.
    ld_at cpu top; [by rewrite Z.add_0_r|].
    eapply reaches_exec; [apply (exec_ADDI _ _ _ _ top (top - 32)); [reflexivity|lia|lia]|].
    do 4 sd_at (top - 32).
    ld_at cpu p. { mem_ne. exact Ep. }
    eapply reaches_step.
    { cbn [step get set h_x reg_eqb reg_num Nat.eqb]. by rewrite (proj2 (Z.eqb_neq p 0)). }
    sd_at p.
    ld_at (top - 32) (h_x s t0). { mem_ne. rewrite load64_store64. apply u64_small, Hx. }
    sd_at p.
    ld_at (top - 32) (h_x s t1). { mem_ne. rewrite load64_store64. apply u64_small, Hx. }
    sd_at p.
    ld_at (top - 32) (h_x s t2). { mem_ne. rewrite load64_store64. apply u64_small, Hx. }
    sd_at p.
    ld_at (top - 32) (h_x s t3). { mem_ne. rewrite load64_store64. apply u64_small, Hx. }
    sd_at p. go. sd_at p. go.
    do 25 sd_at p. go. sd_at p. go. sd_at p. go. sd_at p. go. sd_at p. go.
    apply reaches_refl.
  - by repeat split.
Qed.

(** [st] resumes the frame at [p]: [sret] follows. *)
Record resumes (st : hart) (cpu p : Z) : Prop := {
  rs_regs : forall r, get st r = regs_of_tf (read_tf (h_mem st) p) cpu r;
  rs_sepc : h_c st sepc = f_sepc (read_tf (h_mem st) p);
  rs_sstatus : h_c st sstatus = f_sstatus (read_tf (h_mem st) p);
  rs_sscratch : h_c st sscratch = cpu
}.

Ltac ldr q := eapply reaches_exec; [apply (exec_LD _ _ _ _ q); [reflexivity|done|done|lia]|]; norm.
Ltac resumed := split; [intros []; norm; cbn; reflexivity|reflexivity..|norm; done].

Lemma trap_resumes s cpu p :
  h_c s sscratch = cpu -> object 16 cpu -> get s a0 = p -> object 288 p ->
  exists st, exits c_call trap_S trap_return s (Sret st) /\ resumes st cpu p /\
    h_mem st = store64 (h_mem s) (cpu + 8) p /\ h_dev st = h_dev s /\ h_id st = h_id s.
Proof.
  intros Ecpu (C0 & C8 & C1) Ep (P0 & P8 & P1).
  assert (exists st, reaches c_call trap_S trap_return s (drop 95 trap_S) st /\ resumes st cpu p /\
    h_mem st = store64 (h_mem s) (cpu + 8) p /\ h_dev st = h_dev s /\ h_id st = h_id s)
    as (st & R & H).
  - eexists. split; [|split].
    + unfold trap_return. cbn [drop trap_S]. autounfold with offsets. go. rewrite Ecpu.
      eapply reaches_exec; [apply (exec_SD _ _ _ _ cpu); [reflexivity|done|done|lia]|]. norm.
      go. change (h_x s a0) with (get s a0). rewrite Ep. 
      ldr p. go. ldr p. go. do 30 ldr p. apply reaches_refl.
    + resumed.
    + by repeat split.
  - exists st. split; [|done]. by apply (reaches_exits _ _ _ _ _ _ _ R), exits_done.
Qed.

(** [arch_first_switch(tf)] with [tp] at the hart's record. *)
Lemma first_switch_resumes s cpu p :
  get s tp = cpu -> object 16 cpu -> get s a0 = p -> object 288 p ->
  exists st, exits c_call arch_first_switch_S (drop 1 arch_first_switch_S) s (Sret st) /\
    resumes st cpu p /\ h_mem st = store64 (h_mem s) (cpu + 8) p /\
    h_dev st = h_dev s /\ h_id st = h_id s.
Proof.
  intros Ecpu (C0 & C8 & C1) Ep (P0 & P8 & P1).
  assert (exists st, reaches c_call arch_first_switch_S (drop 1 arch_first_switch_S) s [I SRET] st /\
    resumes st cpu p /\ h_mem st = store64 (h_mem s) (cpu + 8) p /\
    h_dev st = h_dev s /\ h_id st = h_id s) as (st & R & H).
  - eexists. split; [|split].
    + cbn [drop arch_first_switch_S]. autounfold with offsets.
      go. change (h_x s tp) with (get s tp). rewrite Ecpu.
      eapply reaches_exec; [apply (exec_SD _ _ _ _ cpu); [done|done|done|lia]|]. norm.
      go. change (h_x s a0) with (get s a0). rewrite Ep.
      ldr p. go. ldr p. go. do 30 ldr p. apply reaches_refl.
    + split; [intros []; norm; cbn; try reflexivity|reflexivity..]. exact Ecpu.
    + by repeat split.
  - exists st. split; [|done]. by apply (reaches_exits _ _ _ _ _ _ _ R), exits_done.
Qed.

(** With no current frame the hart spins. *)
Lemma trap_spins s cpu top e :
  trap_ready s cpu top 0 -> ~ exits c_call trap_S (drop 1 trap_S) s e.
Proof.
  intros [_ Ecpu (C0 & C8 & C1) Etop Ep (T0 & T8 & T1) Dsc]. unfold apart in *.
  assert (exists st, reaches c_call trap_S (drop 1 trap_S) s [I (J "1")] st) as (st & R).
  { eexists. cbn [drop trap_S]. autounfold with offsets. go. rewrite Ecpu. go.
    ld_at cpu top; [by rewrite Z.add_0_r|].
    eapply reaches_exec; [apply (exec_ADDI _ _ _ _ top (top - 32)); [reflexivity|lia|lia]|].
    do 4 sd_at (top - 32).
    ld_at cpu 0. { mem_ne. exact Ep. }
    eapply reaches_step; [reflexivity|]. eapply reaches_step; [reflexivity|]. apply reaches_refl. }
  rewrite (reaches_exits _ _ _ _ _ _ e R). intros [n H]. induction n as [|n IH]; [done|]. by apply IH.
Qed.

End trap.
