(* ===== verification/EntryStart.v ===== *)
(** * start.S: from the firmware to [kernel_main]

    The boot hart clears the BSS and enters [kernel_main] on its own stack, with
    the registers the firmware passed; the other harts skip the clearing.  The
    clearing proceeds by bytes up to an 8-byte boundary, then by words, so that a
    BSS that does not end on such a boundary loses up to seven bytes behind it. *)
From stdpp Require Import base numbers list gmap strings.
From Stdlib Require Import ZArith Lia.
From S2P Require Import Prelude Mem Machine State Kernel Boot Asm Entry.

Local Open Scope Z_scope.

Section start.
Context {cfg : Config} {hws : Hardware} {lk : Link}.
Variable c_call : string -> hart -> option hart.
Implicit Types (s st : hart).

Notation at_line n := (drop n start_S) (only parsing).

(** What the clearing of the BSS leaves alone. *)
Definition same_args s st : Prop :=
  h_x st t3 = h_x s t3 /\ h_x st a0 = h_x s a0 /\ h_x st a1 = h_x s a1 /\ h_dev st = h_dev s.

Lemma same_args_refl s : same_args s s.
Proof. done. Qed.

(** [m'] is [m] with zeroes in [[lo, hi)], and nothing changed below [lo] or
    from [hi'] on. *)
Definition cleared (m m' : mem) (lo hi hi' : Z) : Prop :=
  (forall b, lo <= b < hi -> load8 m' b = 0) /\
  (forall b, b < lo \/ hi' <= b -> load8 m' b = load8 m b).

(** The next multiple of 8. *)
Definition round8 (z : Z) : Z := (z + 7) / 8 * 8.

Lemma round8_spec z : z <= round8 z < z + 8 /\ (round8 z) mod 8 = 0.
Proof.
  unfold round8. split; [|by apply Z.mod_mul].
  pose proof (Z.div_mod (z + 7) 8). pose proof (Z.mod_pos_bound (z + 7) 8). lia.
Qed.

Lemma cleared_empty m lo hi hi' : hi <= lo -> cleared m m lo hi hi'.
Proof. intros H. split; [lia|done]. Qed.

(** A step that clears [[lo, mid)], followed by the rest. *)
Lemma cleared_step m m1 m' lo mid hi hi' :
  lo <= mid <= hi' -> cleared m m1 lo mid mid ->
  cleared m1 m' mid hi hi' -> cleared m m' lo hi hi'.
Proof.
  intros Hm [Z1 K1] [Z2 K2]. split.
  - intros b Hb. destruct (decide (mid <= b)); [apply Z2; lia|].
    rewrite K2 by lia. apply Z1. lia.
  - intros b Hb. rewrite K2 by lia. apply K1. lia.
Qed.

Lemma cleared_store8 m a : cleared m (store8 m a 0) a (a + 1) (a + 1).
Proof.
  split; intros b Hb.
  - replace b with a by lia. apply load8_store8_eq.
  - apply load8_store8_ne. lia.
Qed.

Lemma load8_store64_0 m a b : a <= b < a + 8 -> load8 (store64 m a 0) b = 0.
Proof.
  intros Hb. unfold store64.
  replace b with (a + Z.of_nat (Z.to_nat (b - a))) by lia.
  assert (Hi : (Z.to_nat (b - a) < 8)%nat) by lia. revert Hi. generalize (Z.to_nat (b - a)).
  intros i Hi. rewrite (load8_store_bytes _ _ _ i 0); [done|].
  do 8 (destruct i as [|i]; [done|]). lia.
Qed.

Lemma cleared_store64 m a : cleared m (store64 m a 0) a (a + 8) (a + 8).
Proof.
  split; intros b Hb; [by apply load8_store64_0|]. apply load8_store64_ne. lia.
Qed.

(** Nothing left to clear: [bgeu t0, t1, .L_bss_done]. *)
Lemma bss_done n s a :
  step c_call start_S (at_line n) s = inl (at_line 19, s) -> __bss_end <= a ->
  exists st, reaches c_call start_S (at_line n) s (at_line 19) st /\ same_args s st /\
    cleared (h_mem s) (h_mem st) a __bss_end (round8 __bss_end).
Proof.
  intros E H. exists s. split; [|split; [done|by apply cleared_empty]].
  eapply reaches_step; [exact E|apply reaches_refl].
Qed.

(** [.L_bss_aligned] *)
Lemma clear_words n s a :
  h_x s t0 = a -> h_x s t1 = __bss_end -> a mod 8 = 0 -> 0 <= a -> __bss_end + 8 <= 2^64 ->
  __bss_end <= a + 8 * Z.of_nat n ->
  exists st, reaches c_call start_S (at_line 14) s (at_line 19) st /\ same_args s st /\
    cleared (h_mem s) (h_mem st) a __bss_end (round8 __bss_end).
Proof.
  revert s a. induction n as [|n IH]; intros s a E0 E1 Ha Ha0 He Hn;
    destruct (decide (__bss_end <= a)) as [Hge|Hlt]; try lia.
  1, 2: apply (bss_done 14); [|lia]; cbn [step drop start_S]; norm; by rewrite E0, E1, (proj2 (Z.ltb_ge _ _)) by lia.
  set (s2 := set t0 (a + 8) (set_mem (store64 (h_mem s) a 0) s)).
  assert (R : reaches c_call start_S (at_line 14) s (at_line 14) s2).
  { eapply reaches_step.
    { cbn [step drop start_S]. norm. rewrite E0, E1, (proj2 (Z.ltb_lt _ _)) by lia. reflexivity. }
    eapply reaches_exec.
    { rewrite (exec_SD zero 0 t0 s a) by (done || lia). rewrite Z.add_0_r. reflexivity. }
    eapply reaches_exec; [apply (exec_ADDI _ _ _ _ a (a + 8)); [exact E0|lia|lia]|].
    eapply reaches_step; [reflexivity|]. apply reaches_refl. }
  destruct (IH s2 (a + 8)) as (st & R2 & A & C); [done|exact E1| |lia..|].
  { by rewrite Z.add_mod, Ha by lia. }
  exists st. split; [by eapply reaches_trans|]. split; [exact A|].
  eapply cleared_step; [|apply cleared_store64|exact C].
  pose proof (round8_spec __bss_end) as [Hr Hr8].
  pose proof (Z.div_mod a 8). pose proof (Z.div_mod (round8 __bss_end) 8). lia.
Qed.

(** [.L_bss_align], [n] bytes before the boundary. *)
Lemma clear_bytes n s a :
  h_x s t0 = a -> h_x s t1 = __bss_end -> (a + Z.of_nat n) mod 8 = 0 -> (n > 0)%nat ->
  0 <= a -> 0 <= __bss_end -> __bss_end + 8 <= 2^64 ->
  exists st, reaches c_call start_S (at_line 8) s (at_line 19) st /\ same_args s st /\
    cleared (h_mem s) (h_mem st) a __bss_end (round8 __bss_end).
Proof.
  revert s a. induction n as [|n IH]; intros s a E0 E1 Hn H0 Ha He0 He; [lia|].
  destruct (decide (__bss_end <= a)) as [Hge|Hlt].
  { apply (bss_done 8); [|lia]. cbn [step drop start_S]. norm. by rewrite E0, E1, (proj2 (Z.ltb_ge _ _)) by lia. }
  set (s2 := set t2 (Z.land (a + 1) 7) (set t0 (a + 1) (set_mem (store8 (h_mem s) a 0) s))).
  assert (R : reaches c_call start_S (at_line 8) s (at_line 12) s2).
  { eapply reaches_step.
    { cbn [step drop start_S]. norm. rewrite E0, E1, (proj2 (Z.ltb_lt _ _)) by lia. reflexivity. }
    eapply reaches_exec.
    { cbn [exec]. norm. rewrite E0, Z.add_0_r, u64_word by (unfold word; lia). reflexivity. }
    eapply reaches_exec; [apply (exec_ADDI _ _ _ _ a (a + 1)); [exact E0|lia|lia]|].
    eapply reaches_exec; [reflexivity|]. apply reaches_refl. }
  assert (H8 : get s2 t2 = (a + 1) mod 8)
    by (apply (Z.land_ones _ 3); lia).
  assert (exists st, reaches c_call start_S (at_line 12) s2 (at_line 19) st /\ same_args s st /\
    cleared (store8 (h_mem s) a 0) (h_mem st) (a + 1) __bss_end (round8 __bss_end))
    as (st & R2 & A & C).
  { destruct (decide ((a + 1) mod 8 = 0)) as [E8|E8].
    - destruct (clear_words (Z.to_nat __bss_end) s2 (a + 1)) as (st & R2 & A & C); [done|exact E1|lia..|].
      exists st. split; [|done].
      apply (reaches_trans _ _ _ _ (at_line 14) s2); [|exact R2].
      eapply reaches_step.
      { cbn [step drop start_S]. by rewrite H8, E8. }
      eapply reaches_step; [reflexivity|apply reaches_refl].
    - destruct n as [|n]; [by rewrite <- Hn in E8|].
      destruct (IH s2 (a + 1)) as (st & R2 & A & C); [done|exact E1| |lia..|].
      { by replace (a + 1 + Z.of_nat (Datatypes.S n))
          with (a + Z.of_nat (Datatypes.S (Datatypes.S n))) by lia. }
      exists st. split; [|done].
      apply (reaches_trans _ _ _ _ (at_line 8) s2); [|exact R2].
      eapply reaches_step; [|apply reaches_refl].
      cbn [step drop start_S]. by rewrite H8, (proj2 (Z.eqb_neq _ _)). }
  exists st. split; [by eapply reaches_trans|]. split; [exact A|].
  eapply cleared_step; [|apply cleared_store8|exact C].
  pose proof (round8_spec __bss_end). lia.
Qed.

(** [per_hart_start]: the stack of the hart, in [sp] and [sscratch]. *)
Lemma per_hart_start_tails s h :
  h_x s t3 = h -> 0 <= h < MAX_HARTS -> 0 <= addr_g_kstack ->
  addr_g_kstack + MAX_HARTS * KSTACK_SIZE < 2^64 ->
  exists st, exits c_call start_S (at_line 24) s (Tailed "kernel_main" st) /\
    get st sp = cpu_kstack_top h /\ h_c st sscratch = cpu_kstack_top h /\
    same_args s st /\ h_mem st = h_mem s.
Proof.
  intros Eh Hh W1 W2. unfold KSTACK_SIZE in *.
  assert (Hm : h * 4096 + 4096 <= MAX_HARTS * 4096) by nia.
  assert (exists st, reaches c_call start_S (at_line 24) s (at_line 31) st /\
    get st sp = cpu_kstack_top h /\ h_c st sscratch = cpu_kstack_top h /\
    same_args s st /\ h_mem st = h_mem s) as (st & R & H).
  - eexists. split.
    + cbn [drop start_S]. go. go. go. go. go. go. go. apply reaches_refl.
    + norm. rewrite Eh.
      assert (E : u64 (u64 (u64 addr_g_kstack + u64 (h * u64 4096)) + u64 4096) = cpu_kstack_top h).
      { unfold cpu_kstack_top, KSTACK_SIZE. change (u64 4096) with 4096.
        rewrite (u64_word addr_g_kstack), (u64_word (h * 4096)), (u64_word (_ + h * 4096)), u64_word;
          unfold word; lia. }
      unfold KSTACK_SIZE in *. by rewrite E.
  - exists st. split; [|done]. by apply (reaches_exits _ _ _ _ _ _ _ R), exits_done.
Qed.

(** [_start] up to [per_hart_start]. *)
Lemma start_clears s :
  0 <= __bss_start <= __bss_end -> __bss_end + 8 <= 2^64 ->
  exists st, reaches c_call start_S (at_line 1) s (at_line 24) st /\
    h_x st t3 = get s a0 /\ h_x st a0 = h_x s a0 /\ h_x st a1 = h_x s a1 /\
    h_dev st = h_dev s /\
    cleared (h_mem s) (h_mem st) __bss_start __bss_end (round8 __bss_end).
Proof.
  intros Hb He.
  set (s1 := set t2 (Z.land __bss_start 7) (set t1 __bss_end (set t0 __bss_start
               (set sp (u64 __stack_top) (set t3 (get s a0) s))))).
  assert (R1 : reaches c_call start_S (at_line 1) s (at_line 6) s1).
  { unfold s1. cbn [drop start_S]. go. go.
    do 2 (eapply reaches_exec; [cbn [exec]; rewrite u64_word by (unfold word; lia); reflexivity|]).
    go. apply reaches_refl. }
  assert (H8 : get s1 t2 = __bss_start mod 8)
    by (apply (Z.land_ones _ 3); lia).
  assert (exists st, reaches c_call start_S (at_line 6) s1 (at_line 19) st /\ same_args s1 st /\
    cleared (h_mem s1) (h_mem st) __bss_start __bss_end (round8 __bss_end)) as (st & R2 & A & C).
  { destruct (decide (__bss_start mod 8 = 0)) as [E8|E8].
    - destruct (clear_words (Z.to_nat __bss_end) s1 __bss_start) as (st & R2 & A & C); [done|done|lia..|].
      exists st. split; [|done]. apply (reaches_trans _ _ _ _ (at_line 14) s1); [|exact R2].
      eapply reaches_step; [|apply reaches_refl]. cbn [step drop start_S]. 
      by rewrite H8, E8.
    - pose proof (Z.mod_pos_bound __bss_start 8).
      destruct (clear_bytes (Z.to_nat (8 - __bss_start mod 8)) s1 __bss_start)
        as (st & R2 & A & C); [done|done| |lia..|].
      { rewrite Z2Nat.id by lia. pose proof (Z.div_mod __bss_start 8).
        replace (__bss_start + (8 - __bss_start mod 8)) with ((__bss_start / 8 + 1) * 8) by lia.
        by apply Z.mod_mul. }
      exists st. split; [|done]. apply (reaches_trans _ _ _ _ (at_line 8) s1); [|exact R2].
      eapply reaches_step.
      { cbn [step drop start_S]. rewrite H8, (proj2 (Z.eqb_neq _ _)) by done. reflexivity. }
      eapply reaches_step; [reflexivity|apply reaches_refl]. }
  exists st. split; [|split; [|split; [|split; [|split]]]]; try apply A; [|exact C].
  eapply reaches_trans; [exact R1|]. eapply reaches_trans; [exact R2|].
  eapply reaches_step; [reflexivity|apply reaches_refl].
Qed.

(** [sbi_puts_asm]: one DBCN [write_byte] call per character, up to the terminator.
    The firmware preserves every register but [a0] and [a1], which the loop relies on
    for its pointer in [t2].  [puts l a1 a2 a3 a4] is what these calls make of the
    devices, with whatever the other argument registers hold. *)
Fixpoint puts (id : Z) (l : list Z) (x1 x2 x3 x4 : Z) (d : dev) : dev :=
  match l with
  | [] => d
  | b :: l' =>
    let '((_, v), d') := sbi_ecall id SBI_EID_DBCN SBI_FID_DBCN_CONSOLE_WRITE_BYTE
                           [b; x1; x2; x3; x4] d in
    puts id l' (u64 v) x2 x3 x4 d'
  end.

Lemma sbi_puts_asm_writes l : forall s a,
  h_x s t2 = a -> 0 <= a -> a + Z.of_nat (length l) + 1 < 2^64 ->
  load_bytes (h_mem s) a (length l) = l -> Forall (fun b => b <> 0) l ->
  load8 (h_mem s) (a + Z.of_nat (length l)) = 0 ->
  exists st, exits c_call start_S (at_line 35) s (Returned st) /\ h_mem st = h_mem s /\
    h_dev st = puts (h_id s) l (h_x s a1) (h_x s a2) (h_x s a3) (h_x s a4) (h_dev s).
Proof.
  induction l as [|b l IH]; intros s a Ea H0 Ha Hl Hn Hz.
  - simpl in Hz, Ha. rewrite Z.add_0_r in Hz.
    assert (R : reaches c_call start_S (at_line 35) s (at_line 43) (set a0 0 s)).
    { eapply reaches_exec.
      { cbn [exec]. norm. rewrite Ea, Z.add_0_r, u64_word, Hz by (unfold word; lia). reflexivity. }
      eapply reaches_step; [reflexivity|]. apply reaches_refl. }
    exists (set a0 0 s). split; [|done]. by apply (reaches_exits _ _ _ _ _ _ _ R), exits_done.
  - cbn [length load_bytes] in Hl, Ha, Hz. injection Hl as Hb Hl. inversion_clear Hn as [|? ? Hb0 Hn'].
    destruct (sbi_ecall (h_id s) SBI_EID_DBCN SBI_FID_DBCN_CONSOLE_WRITE_BYTE
      [b; h_x s a1; h_x s a2; h_x s a3; h_x s a4] (h_dev s)) as [[e v] d] eqn:Ec.
    set (s2 := set t2 (a + 1) (set_dev d (set a1 (u64 v) (set a0 (u64 e)
      (set a6 (u64 2) (set a7 (u64 1145193294) (set a0 b s))))))).
    assert (R : reaches c_call start_S (at_line 35) s (at_line 35) s2).
    { eapply reaches_exec.
      { cbn [exec]. norm. rewrite Ea, Z.add_0_r, u64_word, Hb by (unfold word; lia). reflexivity. }
      eapply reaches_step.
      { cbn [step drop start_S]. norm. by rewrite (proj2 (Z.eqb_neq b 0)). }
      go. go. eapply reaches_exec.
      { cbn [exec]. norm. change (u64 1145193294) with SBI_EID_DBCN.
        change (u64 2) with SBI_FID_DBCN_CONSOLE_WRITE_BYTE. rewrite Ec. reflexivity. }
      eapply reaches_exec; [apply (exec_ADDI _ _ _ _ a (a + 1)); [exact Ea|lia|lia]|].
      eapply reaches_step; [reflexivity|]. apply reaches_refl. }
    destruct (IH s2 (a + 1)) as (st & He & Em & Ed); [done|lia|lia|exact Hl|done| |].
    { unfold s2. norm. rewrite <- Hz. f_equal. lia. }
    exists st. split; [by apply (reaches_exits _ _ _ _ _ _ _ R)|]. split; [exact Em|].
    rewrite Ed. cbn [puts]. by rewrite Ec.
Qed.

End start.
