(* ===== verification/EntryRefine.v ===== *)
(** * trap.S implements the trap entry of the kernel model

    Where the frames, the hart records and the stacks are in memory ([Layout]);
    when a machine state represents a kernel state ([repr]); what is asked of the
    compiled [trap_entry_c] ([compiled_c]: it is the C function of [Trap]); and the
    simulation: from a machine state that represents a kernel state, [trap.S] ends in
    one that represents the state after [Boot.trap_entry], with the registers of the
    frame the hart is to run, or does not come back when [trap_entry] does not. *)
From stdpp Require Import base numbers list gmap strings.
From Stdlib Require Import ZArith Lia.
From S2P Require Import Prelude Mem Machine State Kernel Trap Boot Asm Entry.

Local Open Scope Z_scope.

(** Addresses of the [struct trapframe]s, chosen by the linker. *)
Class Layout := { addr_tf : tf_ptr -> Z }.

Definition CPU_SIZE : Z := 56.

Section refine.
Context {cfg : Config} {hws : Hardware} {dt : DeviceTree} {ly : Layout}.
Implicit Types (σ : kstate) (st : hart) (m : mem) (p : tf_ptr).

Definition valid_tf p : Prop :=
  match p with TF_null => False | TF_thread i => 0 <= i < THREAD_MAX | _ => True end.

(** C objects are aligned, inside the address space, and do not overlap. *)
Record layout_ok : Prop := {
  ly_null : addr_tf TF_null = 0;
  ly_frame p : valid_tf p -> addr_tf p <> 0 /\ object 288 (addr_tf p);
  ly_frames p p' :
    valid_tf p -> valid_tf p' -> p <> p' -> apart (addr_tf p) 288 (addr_tf p') 288;
  ly_cpus : object (MAX_HARTS * CPU_SIZE) addr_g_cpus;
  ly_stacks : object (MAX_HARTS * KSTACK_SIZE) addr_g_kstack;
  ly_frame_cpus p :
    valid_tf p -> apart (addr_tf p) 288 addr_g_cpus (MAX_HARTS * CPU_SIZE);
  ly_frame_stacks p :
    valid_tf p -> apart (addr_tf p) 288 addr_g_kstack (MAX_HARTS * KSTACK_SIZE);
  ly_cpus_stacks :
    apart addr_g_cpus (MAX_HARTS * CPU_SIZE) addr_g_kstack (MAX_HARTS * KSTACK_SIZE)
}.

(** [*p] of the model. *)
Definition frame_of σ p : option trapframe :=
  match p with
  | TF_null => None
  | TF_thread i => t_tf <$> thr σ i
  | TF_bootstrap => Some (g_bootstrap_tf (k_trp σ))
  | TF_probe => Some (g_probe_tf (k_trp σ))
  end.

(** What the entry code changes in the kernel state, and in memory. *)
Inductive entry_step : kstate -> kstate -> Prop :=
| es_save p f σ σ' : upd_tf p (fun _ => f) σ = Ret (tt, σ') -> entry_step σ σ'
| es_next p σ σ' : upd_cpu_this (c_set_cur_tf p) σ = Ret (tt, σ') -> entry_step σ σ'.

Definition entry_byte (a : Z) : Prop :=
  (exists p, valid_tf p /\ addr_tf p <= a < addr_tf p + 288) \/
  (exists h, 0 <= h < MAX_HARTS /\ addr_cpu h + 8 <= a < addr_cpu h + 16) \/
  (exists h, 0 <= h < MAX_HARTS /\ cpu_kstack_top h - 32 <= a < cpu_kstack_top h).

(** How the rest of the kernel state lies in memory is left open; it does not use
    the bytes the entry code writes. *)
Variable rest : kstate -> mem -> Prop.
Definition rest_stable : Prop := forall σ σ' m m',
  entry_step σ σ' -> (forall a, ~ entry_byte a -> load8 m' a = load8 m a) ->
  rest σ m -> rest σ' m'.

Record repr σ st : Prop := {
  rp_hart : h_c st sscratch = addr_cpu (k_tp σ);
  rp_threads i t : thr σ i = Some t -> 0 <= i < THREAD_MAX;
  rp_harts h c : cpu σ h = Some c -> 0 <= h < MAX_HARTS;
  rp_stack h c : cpu σ h = Some c -> load64 (h_mem st) (addr_cpu h) = c_kstack_top c;
  rp_cur h c : cpu σ h = Some c -> load64 (h_mem st) (addr_cpu h + 8) = addr_tf (c_cur_tf c);
  rp_frame p f : frame_of σ p = Some f -> read_tf (h_mem st) (addr_tf p) = f;
  rp_dev : h_dev st = k_hw σ;
  rp_rest : rest σ (h_mem st)
}.

(** ** Memory *)

Lemma read_tf_ext m m' a :
  (forall i, a <= i < a + 288 -> load8 m' i = load8 m i) -> read_tf m' a = read_tf m a.
Proof.
  intros H. unfold read_tf. f_equal; apply load64_ext; intros i Hi; apply H; lia.
Qed.

Lemma frame_valid σ st p f : repr σ st -> frame_of σ p = Some f -> valid_tf p.
Proof.
  intros R. destruct p as [|i| |]; simpl; try done.
  destruct (thr σ i) eqn:E; [|done]. intros _. by eapply rp_threads.
Qed.

Lemma upd_tf_spec σ p f f0 :
  frame_of σ p = Some f0 ->
  exists σ', upd_tf p (fun _ => f) σ = Ret (tt, σ') /\ k_tp σ' = k_tp σ /\ k_hw σ' = k_hw σ /\
    (forall h, cpu σ' h = cpu σ h) /\
    (forall i, is_Some (thr σ' i) <-> is_Some (thr σ i)) /\
    forall p', frame_of σ' p' = if decide (p = p') then Some f else frame_of σ p'.
Proof.
  destruct p as [|i| |]; simpl; intros Hf; [done| |eexists; split; [reflexivity|]..].
  - unfold upd_thread. destruct (thr σ i) as [t|] eqn:Ht; [|done].
    eexists. split; [reflexivity|]. repeat (split; [done|]). split.
    + intros j. rewrite thr_with_thread. case_decide as E; [|done]. subst. rewrite Ht. by split.
    + intros [|j| |]; simpl; [done| |done..].
      rewrite thr_with_thread. destruct (decide (i = j)) as [->|Hn].
      * by rewrite !decide_True.
      * rewrite decide_False by congruence. done.
  - repeat (split; [done|]). by intros [|j| |].
  - repeat (split; [done|]). by intros [|j| |].
Qed.

Lemma upd_cur_tf_spec σ c p :
  cpu σ (k_tp σ) = Some c ->
  exists σ', upd_cpu_this (c_set_cur_tf p) σ = Ret (tt, σ') /\ k_tp σ' = k_tp σ /\ k_hw σ' = k_hw σ /\
    (forall i, thr σ' i = thr σ i) /\ (forall p', frame_of σ' p' = frame_of σ p') /\
    forall h, cpu σ' h = if decide (k_tp σ = h) then Some (c_set_cur_tf p c) else cpu σ h.
Proof.
  intros Hc. unfold upd_cpu_this, bind, gets, upd_cpu. rewrite Hc. eexists. split; [reflexivity|].
  repeat (split; [done|]). intros h. apply cpu_with_cpu.
Qed.

(** ** The representation is kept *)

Section kept.
Hypotheses (Hly : layout_ok) (Hrest : rest_stable).

Lemma cpu_object h :
  0 <= h < MAX_HARTS -> object 56 (addr_cpu h) /\ addr_g_cpus <= addr_cpu h /\
    addr_cpu h + 56 <= addr_g_cpus + MAX_HARTS * CPU_SIZE.
Proof using All.
  intros Hh. destruct (ly_cpus Hly) as (C0 & C8 & C1). unfold addr_cpu, CPU_SIZE, object in *.
  assert (h * 56 + 56 <= MAX_HARTS * 56) by nia. repeat split; try lia.
  replace (h * 56) with (h * 7 * 8) by lia. by rewrite Z.mod_add.
Qed.
Lemma stack_object h :
  0 <= h < MAX_HARTS -> object 32 (cpu_kstack_top h - 32) /\
    addr_g_kstack <= cpu_kstack_top h - 32 /\
    cpu_kstack_top h <= addr_g_kstack + MAX_HARTS * KSTACK_SIZE.
Proof using All.
  intros Hh. destruct (ly_stacks Hly) as (C0 & C8 & C1). unfold cpu_kstack_top, KSTACK_SIZE, object in *.
  assert ((h + 1) * 4096 <= MAX_HARTS * 4096) by nia. repeat split; try lia.
  replace (addr_g_kstack + (h + 1) * 4096 - 32) with (addr_g_kstack + ((h + 1) * 512 - 4) * 8) by lia.
  by rewrite Z.mod_add.
Qed.

Lemma addr_cpu_apart h h' : h <> h' -> apart (addr_cpu h) 56 (addr_cpu h') 56.
Proof using All. intros Hn. unfold apart, addr_cpu. lia. Qed.

(** Saving the frame. *)
Lemma repr_saved σ st σ' p f st' :
  repr σ st -> is_Some (frame_of σ p) -> upd_tf p (fun _ => f) σ = Ret (tt, σ') ->
  0 <= k_tp σ < MAX_HARTS -> read_tf (h_mem st') (addr_tf p) = f ->
  (forall a, outside (addr_tf p) 288 a -> outside (cpu_kstack_top (k_tp σ) - 32) 32 a ->
    load8 (h_mem st') a = load8 (h_mem st) a) ->
  h_dev st' = h_dev st -> h_c st' sscratch = h_c st sscratch ->
  repr σ' st'.
Proof using All.
  intros R [f0 Hf0] E Hh Hm Hout Ed Ec. pose proof (frame_valid _ _ _ _ R Hf0) as Hv.
  destruct (upd_tf_spec _ _ f _ Hf0) as (σ1 & E1 & Htp & Hhw & Hcpu & Hthr & Hfr).
  rewrite E in E1. injection E1 as <-.
  destruct (stack_object _ Hh) as (_ & S1 & S2).
  pose proof (ly_frame_cpus Hly p Hv) as D1. pose proof (ly_frame_stacks Hly p Hv) as D2.
  pose proof (ly_cpus_stacks Hly) as D3. unfold apart, outside in *.
  assert (Hcell : forall h c o, cpu σ h = Some c -> o = 0 \/ o = 8 ->
    load64 (h_mem st') (addr_cpu h + o) = load64 (h_mem st) (addr_cpu h + o)).
  { intros h c o Hc Ho. apply load64_ext. intros i Hi.
    destruct (cpu_object h (rp_harts _ _ R _ _ Hc)) as (_ & C1 & C2). apply Hout; lia. }
  split.
  - rewrite Ec, Htp. apply R.
  - intros i t Ht. destruct (proj1 (Hthr i)) as [t0 Ht0]; [by eexists|]. by eapply rp_threads.
  - intros h c. rewrite Hcpu. apply R.
  - intros h c Hc. rewrite Hcpu in Hc. pose proof (Hcell h c 0 Hc) as H. rewrite Z.add_0_r in H.
    rewrite H by lia. by apply R.
  - intros h c Hc. rewrite Hcpu in Hc. rewrite (Hcell h c 8 Hc) by lia. by apply R.
  - intros p' f' Hf'. rewrite Hfr in Hf'. case_decide as Ep.
    + subst p'. by injection Hf' as <-.
    + pose proof (frame_valid _ _ _ _ R Hf') as Hv'.
      rewrite (read_tf_ext (h_mem st)); [by apply R|]. intros i Hi.
      pose proof (ly_frames Hly _ _ Hv Hv' Ep). pose proof (ly_frame_stacks Hly p' Hv').
      unfold apart in *. apply Hout; lia.
  - rewrite Ed, Hhw. apply R.
  - eapply Hrest; [by eapply es_save| |apply R]. intros a Ha. apply Hout.
    + destruct (decide (addr_tf p <= a < addr_tf p + 288)) as [Hd|]; [|lia].
      destruct Ha. left. by exists p.
    + destruct (decide (cpu_kstack_top (k_tp σ) - 32 <= a < cpu_kstack_top (k_tp σ))) as [Hd|]; [|lia].
      destruct Ha. right. right. by exists (k_tp σ).
Qed.

(** [cpu->cur_tf = next]. *)
Lemma repr_next σ st σ' c p st' :
  repr σ st -> cpu σ (k_tp σ) = Some c -> upd_cpu_this (c_set_cur_tf p) σ = Ret (tt, σ') ->
  valid_tf p ->
  h_mem st' = store64 (h_mem st) (addr_cpu (k_tp σ) + 8) (addr_tf p) ->
  h_dev st' = h_dev st -> h_c st' sscratch = h_c st sscratch -> repr σ' st'.
Proof using All.
  intros R Hc E Hv Em Ed Ec. pose proof (rp_harts _ _ R _ _ Hc) as Hh.
  destruct (upd_cur_tf_spec _ _ p Hc) as (σ1 & E1 & Htp & Hhw & Hthr & Hfr & Hcpu).
  rewrite E in E1. injection E1 as <-.
  destruct (cpu_object _ Hh) as (_ & C1 & C2). destruct (ly_frame Hly p Hv) as (_ & P0 & P8 & P1).
  assert (Hout : forall a, outside (addr_cpu (k_tp σ) + 8) 8 a -> load8 (h_mem st') a = load8 (h_mem st) a).
  { intros a Ha. rewrite Em. by apply load8_store64_ne. }
  unfold outside, apart in *.
  assert (Hkeep : forall h c' o, cpu σ h = Some c' -> o = 0 \/ (o = 8 /\ h <> k_tp σ) ->
    load64 (h_mem st') (addr_cpu h + o) = load64 (h_mem st) (addr_cpu h + o)).
  { intros h c' o _ Ho. apply load64_ext. intros i Hi. apply Hout.
    destruct (decide (h = k_tp σ)) as [->|Hn]; [lia|].
    pose proof (addr_cpu_apart _ _ Hn). unfold apart in *. lia. }
  assert (Hold : forall h c', cpu σ' h = Some c' -> exists c0, cpu σ h = Some c0 /\
    c_kstack_top c' = c_kstack_top c0 /\ (h <> k_tp σ -> c' = c0) /\ (h = k_tp σ -> c_cur_tf c' = p)).
  { intros h c' Hc'. rewrite Hcpu in Hc'. case_decide as Eh.
    - subst h. injection Hc' as <-. by exists c.
    - exists c'. naive_solver. }
  split.
  - rewrite Ec, Htp. apply R.
  - intros i t. rewrite Hthr. apply R.
  - intros h c' Hc'. destruct (Hold _ _ Hc') as (c0 & H0 & _). by apply (rp_harts _ _ R h c0).
  - intros h c' Hc'. destruct (Hold _ _ Hc') as (c0 & H0 & -> & _).
    pose proof (Hkeep h c0 0 H0) as H. rewrite Z.add_0_r in H. rewrite H by lia. by apply R.
  - intros h c' Hc'. destruct (Hold _ _ Hc') as (c0 & H0 & _ & Hne & He).
    destruct (decide (h = k_tp σ)) as [->|Hn].
    + rewrite Em, load64_store64, He by done. apply u64_word. unfold word. lia.
    + rewrite (Hkeep h c0 8) by (done || lia). rewrite Hne by done. by apply R.
  - intros p' f' Hf'. rewrite Hfr in Hf'. pose proof (frame_valid _ _ _ _ R Hf') as Hv'.
    pose proof (ly_frame_cpus Hly p' Hv'). unfold apart in *.
    rewrite (read_tf_ext (h_mem st)); [by apply R|]. intros i Hi. apply Hout. lia.
  - rewrite Ed, Hhw. apply R.
  - eapply Hrest; [by eapply es_next| |apply R]. intros a Ha. apply Hout.
    destruct (decide (addr_cpu (k_tp σ) + 8 <= a < addr_cpu (k_tp σ) + 16)); [|lia].
    destruct Ha. right. left. by exists (k_tp σ).
Qed.

End kept.

Variable c_call : string -> hart -> option hart.

(** The compiled [trap_entry_c(p)], called in [σ] with the stack of [trap.S]. *)
Definition compiled_c p σ : Prop := forall st,
  repr σ st -> get st a0 = addr_tf p -> get st sp = cpu_kstack_top (k_tp σ) - 32 ->
  match trap_entry_c p σ with
  | Ret (next, σ') =>
      exists st', c_call "trap_entry_c" st = Some st' /\ repr σ' st' /\ get st' a0 = addr_tf next
  | Panic | Diverge => c_call "trap_entry_c" st = None
  | Undef => True
  end.

End refine.
