(* ===== verification/EntryDemo.v ===== *)
(** * A concrete machine in front of the entry code

    Two harts; the frames lie behind the hart records.  The boot hart is about to
    take the illegal-instruction trap of a probe. *)
From stdpp Require Import base numbers list gmap strings.
From Stdlib Require Import ZArith Lia.
From S2P Require Import Prelude Mem Machine State Kernel Image Trap Boot Asm Entry EntryStart EntryRefine.

Local Open Scope Z_scope.

#[local] Existing Instances demo_config demo_hardware.

Definition no_tree : DeviceTree :=
  {| fdt_path_offset := fun _ _ => -1; fdt_node_offset_by_compatible := fun _ _ _ => -1;
     fdt_getprop := fun _ _ _ => None |}.
#[local] Existing Instance no_tree.

Definition demo_layout : Layout :=
  {| addr_tf p := match p with
       | TF_null => 0
       | TF_thread i => 2149851264 + 512 * i
       | TF_bootstrap => 2149884032
       | TF_probe => 2149884544
       end |}.
#[local] Existing Instance demo_layout.

(** The boot hart while it probes, with the frame of [probe_illegal.c]. *)
Definition demo_cpu : cpu_t :=
  c_set_cur_tf TF_probe (c_set_kstack_top (cpu_kstack_top 0) cpu_zero).
Definition demo_kernel : kstate :=
  with_cpu 0 demo_cpu (k_set_trp (g_set_illegal_probe_enabled 1 trap_bss) (image (0 : @dev demo_hardware))).

(** An illegal instruction at 0x80001000, from S-mode. *)
Definition demo_hart : hart :=
  {| h_id := 0; h_x := fun r => 4096 + 16 * Z.of_nat (reg_num r);
     h_c := fun c => match c with
       | sscratch => addr_cpu 0 | sepc => 2147487744 | sstatus => SSTATUS_SPP
       | scause => EXC_ILLEGAL_INSTR | stval => 0 end;
     h_mem := store64 (store64 gmap_empty (addr_cpu 0) (cpu_kstack_top 0))
                (addr_cpu 0 + 8) (addr_tf TF_probe);
     h_dev := (0 : @dev demo_hardware) |}.

(** What [trap_entry_c] does there: skip the instruction. *)
Definition demo_call (f : string) (st : hart) : option hart :=
  let a := addr_tf TF_probe + TF_SEPC in
  Some (set_mem (store64 (h_mem st) a (u64 (load64 (h_mem st) a + 4))) st).


(** A small image: 11 bytes of BSS that start and end off the 8-byte grid. *)
Definition demo_link : Link :=
  {| __bss_start := 2148532229; __bss_end := 2148532241; __stack_top := 2281701376 |}.

Lemma demo_layout_ok : layout_ok.
Proof.
  split; unfold valid_tf, object, apart, CPU_SIZE, KSTACK_SIZE; simpl; try done.
  - intros [|i| |] H; unfold THREAD_MAX in *; try done; split; try lia. split; [lia|].
    split; [|lia]. replace (2149851264 + 512 * i) with (64 * i * 8 + 268731408 * 8) by lia.
    rewrite <- Z.mul_add_distr_r. by apply Z.mod_mul.
  - intros [|i| |] [|j| |] H H' Hn; unfold THREAD_MAX in *; try done; try lia.
    assert (i <> j) by congruence. lia.
  - intros [|i| |] H; unfold THREAD_MAX in *; try done; lia.
  - intros [|i| |] H; unfold THREAD_MAX in *; try done; lia.
  - lia.
Qed.


Definition no_rest (_ : kstate) (_ : mem) : Prop := True.

Lemma no_rest_stable : rest_stable no_rest.
Proof. done. Qed.

Lemma load64_empty a : load64 gmap_empty a = 0.
Proof. reflexivity. Qed.

Lemma read_empty a : read_tf gmap_empty a = tf_zero.
Proof. reflexivity. Qed.

#[local] Strategy opaque [ztable].

Lemma demo_threads i t : thr demo_kernel i = Some t -> 0 <= i < THREAD_MAX /\ t = Thread_zero.
Proof.
  change (thr demo_kernel i) with (ztable THREAD_MAX Thread_zero !! i). intros H.
  apply lookup_ztable_Some in H as [H ->]. exact (conj H eq_refl).
Qed.

Lemma demo_cpus h c :
  cpu demo_kernel h = Some c -> (h = 0 /\ c = demo_cpu) \/ (h = 1 /\ c = cpu_zero).
Proof.
  unfold demo_kernel. rewrite cpu_with_cpu. case_decide as E.
  - intros [= <-]. by left.
  - change (cpu (k_set_trp (g_set_illegal_probe_enabled 1 trap_bss) (image (0 : @dev demo_hardware))) h)
      with (ztable 2 cpu_zero !! h).
    intros H. apply lookup_ztable_Some in H as [H ->]. right. split; [lia|reflexivity].
Qed.

Lemma demo_frames p f : frame_of demo_kernel p = Some f -> valid_tf p /\ f = tf_zero.
Proof.
  destruct p as [|i| |]; simpl; [done| |by intros [= <-]..].
  destruct (thr demo_kernel i) as [t|] eqn:E; [|done]. apply demo_threads in E as [Hi ->].
  by intros [= <-].
Qed.

Lemma demo_repr : repr no_rest demo_kernel demo_hart.
Proof.
  split; [done| | | | | |done|done].
  - intros i t H. by apply demo_threads in H as [H _].
  - intros h c H. apply demo_cpus in H as [[-> _]|[-> _]]; done.
  - intros h c H. apply demo_cpus in H as [[-> ->]|[-> ->]]; by vm_compute.
  - intros h c H. apply demo_cpus in H as [[-> ->]|[-> ->]]; by vm_compute.
  - intros p f H. apply demo_frames in H as [Hv ->]. rewrite <- (read_empty (addr_tf p)).
    pose proof (ly_frame_cpus demo_layout_ok p Hv) as D. change (apart (addr_tf p) 288 2149851136 112) in D. unfold apart in D.
    apply read_tf_ext. intros i Hi. unfold demo_hart. cbn [h_mem].
    change (addr_cpu 0) with 2149851136. rewrite !load8_store64_ne by lia. done.
Qed.

(** The kernel state with the frame saved, and after the trap. *)
Definition demo_saved : trapframe := tf_of_hart demo_hart (addr_cpu 0) 0.
Definition demo_trapped : kstate := k_set_trp (g_set_probe_tf demo_saved (k_trp demo_kernel)) demo_kernel.
Definition demo_after : kstate :=
  k_set_trp (g_set_illegal_probe_hit 1
    (g_set_probe_tf (f_set_sepc (f_sepc demo_saved + 4) demo_saved) (k_trp demo_kernel))) demo_kernel.

Lemma demo_trap : trap_entry_c TF_probe demo_trapped = Ret (TF_probe, demo_after).
Proof. vm_compute. reflexivity. Qed.

Lemma read_tf_store_sepc m a v :
  read_tf (store64 m (a + TF_SEPC) v) a = f_set_sepc (u64 v) (read_tf m a).
Proof.
  unfold read_tf, f_set_sepc, TF_SEPC. cbn [f_ra f_sp f_gp f_tp f_t0 f_t1 f_t2 f_s0 f_s1 f_a0 f_a1
    f_a2 f_a3 f_a4 f_a5 f_a6 f_a7 f_s2 f_s3 f_s4 f_s5 f_s6 f_s7 f_s8 f_s9 f_s10 f_s11 f_t3 f_t4 f_t5
    f_t6 f_sstatus f_scause f_stval f_pad].
  f_equal; solve [apply load64_store64_ne; lia | apply load64_store64].
Qed.

Lemma demo_compiled : compiled_c no_rest demo_call TF_probe demo_trapped.
Proof.
  intros st R Ea _. rewrite demo_trap. eexists. split; [reflexivity|]. split; [|exact Ea].
  pose proof (rp_frame _ _ _ R TF_probe demo_saved eq_refl) as Hp.
  assert (Hl : load64 (h_mem st) (addr_tf TF_probe + TF_SEPC) = f_sepc demo_saved)
    by (change (f_sepc (read_tf (h_mem st) (addr_tf TF_probe)) = f_sepc demo_saved); by rewrite Hp).
  assert (Hout : forall a, outside (addr_tf TF_probe) 288 a ->
    load8 (store64 (h_mem st) (addr_tf TF_probe + TF_SEPC) (u64 (f_sepc demo_saved + 4))) a =
    load8 (h_mem st) a).
  { intros a Ha. unfold outside in Ha. apply load8_store64_ne. unfold TF_SEPC. lia. }
  assert (Hw : forall b, b + 8 <= addr_tf TF_probe ->
    load64 (store64 (h_mem st) (addr_tf TF_probe + TF_SEPC) (u64 (f_sepc demo_saved + 4))) b =
    load64 (h_mem st) b).
  { intros b Hb. apply load64_ext. intros i Hi. apply Hout. unfold outside. lia. }
  assert (Hc : forall h c, cpu demo_trapped h = Some c -> addr_cpu h + 16 <= addr_tf TF_probe).
  { intros h c Hc. apply (rp_harts _ _ _ R) in Hc. change (0 <= h < 2) in Hc.
    change (2149851136 + h * 56 + 16 <= 2149884544). lia. }
  rewrite Hl. split; cbn [h_mem set_mem h_c h_dev].
  - apply R.
  - exact (rp_threads _ _ _ R).
  - exact (rp_harts _ _ _ R).
  - intros h c E. pose proof (Hc h c E). rewrite Hw by lia. exact (rp_stack _ _ _ R h c E).
  - intros h c E. pose proof (Hc h c E). rewrite Hw by lia. exact (rp_cur _ _ _ R h c E).
  - intros p f E. destruct (decide (p = TF_probe)) as [->|Hn].
    + rewrite read_tf_store_sepc, Hp. injection E as <-. reflexivity.
    + assert (E' : frame_of demo_trapped p = Some f) by (by destruct p).
      pose proof (frame_valid _ _ _ _ _ R E') as Hv.
      pose proof (ly_frames demo_layout_ok p TF_probe Hv Logic.I Hn) as D. unfold apart in D.
      rewrite (read_tf_ext (h_mem st)); [by apply R|]. intros i Hi. apply Hout. unfold outside. lia.
  - apply R.
  - exact Logic.I.
Qed.

Lemma demo_words : words demo_hart.
Proof. split; intros []; split; vm_compute; congruence. Qed.


Definition demo_done : kstate := with_cpu 0 demo_cpu demo_after.

#[local] Strategy opaque [trap_entry_c].

Lemma demo_entry : trap_entry demo_saved demo_kernel = Ret (tt, demo_done).
Proof.
  unfold trap_entry, cpu_this, bind, gets, get_cpu.
  change (cpu demo_kernel (k_tp demo_kernel)) with (Some demo_cpu). cbv beta iota.
  rewrite bool_decide_false by done.
  change (upd_tf (c_cur_tf demo_cpu) (fun _ => demo_saved) demo_kernel) with (Ret (tt, demo_trapped)).
  cbv beta iota. change (c_cur_tf demo_cpu) with TF_probe. rewrite demo_trap. reflexivity.
Qed.

(** Another machine state: the second hart gives the thread interrupted in
    [demo_hart] its frame back, with the result 7 of a system call. *)
Definition demo_frame : trapframe := f_set_sepc 2147487748 (f_set_a0 7 demo_saved).
Definition demo_saved_mem : mem :=
  store_words (store_words (h_mem demo_hart) (cpu_kstack_top 0 - 32) (scratch_words demo_hart))
    (addr_tf TF_probe) (saved_words demo_hart (addr_cpu 0)).
Definition demo_hart1 : hart :=
  {| h_id := 1; h_x := fun r => match r with a0 => addr_tf TF_probe | tp => addr_cpu 1 | _ => 0 end;
     h_c := fun c => match c with sscratch => addr_cpu 1 | _ => 0 end;
     h_mem := store64 (store64 demo_saved_mem (addr_tf TF_probe + TF_SEPC) 2147487748)
                (addr_tf TF_probe + TF_A0) 7;
     h_dev := (0 : @dev demo_hardware) |}.
