(* ===== verification/EntrySpec.v ===== *)
(** * The entry code: theorems

    What [start.S], [trap.S] and [arch_first_switch.S] promise to the C code: the
    initial state of [kernel_main], the trap entry of the kernel model, and that the
    registers of a thread survive until it is resumed, on whatever hart. *)
From stdpp Require Import base numbers list gmap strings.
From Stdlib Require Import ZArith Lia.
From S2P Require Import Prelude Mem Machine State Kernel Image Trap Boot Asm Entry EntryStart EntryRefine EntryDemo.

Local Open Scope Z_scope.

Section enter.
Context {hws : Hardware}.
Variables (c_call : string -> hart -> option hart) (prog : list line).

Lemma enter_exits f k s e :
  find_label f prog = Some k -> exits c_call prog k s e <-> exists n, enter c_call prog f n s = Some e.
Proof. intros E. unfold enter, exits. by rewrite E. Qed.

End enter.

Section refine.
Context {cfg : Config} {hws : Hardware} {dt : DeviceTree} {ly : Layout}.
Variable rest : kstate -> mem -> Prop.
Variable c_call : string -> hart -> option hart.
Implicit Types (σ : kstate) (st : hart).

(** The machine state and the kernel state in which a trap is taken. *)
Record trapped σ st (c : cpu_t) : Prop := {
  td_layout : layout_ok;
  td_rest : rest_stable rest;
  td_repr : repr rest σ st;
  td_words : words st;
  td_cpu : cpu σ (k_tp σ) = Some c;
  td_stack : c_kstack_top c = cpu_kstack_top (k_tp σ)
}.

Lemma trapped_ready σ st c :
  trapped σ st c ->
  trap_ready st (addr_cpu (k_tp σ)) (cpu_kstack_top (k_tp σ)) (addr_tf (c_cur_tf c)).
Proof.
  intros [L S R W Hc Ht]. pose proof (rp_harts _ _ _ R _ _ Hc) as Hh.
  destruct (cpu_object rest L S _ Hh) as ((A0 & A8 & A1) & C1 & C2).
  destruct (stack_object rest L S _ Hh) as (B & S1 & S2). pose proof (ly_cpus_stacks L) as D.
  split; [done|apply R| |by rewrite (rp_stack _ _ _ R _ _ Hc)|by rewrite (rp_cur _ _ _ R _ _ Hc)|done|].
  - split; [done|]. split; [done|lia].
  - unfold apart in *. lia.
Qed.

Lemma frame_is_ready σ st c f :
  trapped σ st c -> frame_of σ (c_cur_tf c) = Some f ->
  frame_ready (addr_cpu (k_tp σ)) (cpu_kstack_top (k_tp σ)) (addr_tf (c_cur_tf c)).
Proof.
  intros [L S R W Hc Ht] Hf. pose proof (rp_harts _ _ _ R _ _ Hc) as Hh.
  pose proof (frame_valid _ _ _ _ _ R Hf) as Hv.
  destruct (cpu_object rest L S _ Hh) as (_ & C1 & C2).
  destruct (stack_object rest L S _ Hh) as (_ & S1 & S2).
  pose proof (ly_frame_cpus L _ Hv). pose proof (ly_frame_stacks L _ Hv).
  destruct (ly_frame L _ Hv) as [Hn Ho]. unfold apart in *. split; [done|done|unfold apart; lia..].
Qed.

(** The frame [trap.S] saves. *)
Definition saved_frame σ st (c : cpu_t) : trapframe :=
  tf_of_hart st (addr_cpu (k_tp σ)) (load64 (h_mem st) (addr_tf (c_cur_tf c) + 280)).

(** Up to the call: the machine state represents the state with the frame saved. *)
Lemma trap_reaches_call σ st c f0 :
  trapped σ st c -> frame_of σ (c_cur_tf c) = Some f0 ->
  exists σ1 st1, upd_tf (c_cur_tf c) (fun _ => saved_frame σ st c) σ = Ret (tt, σ1) /\
    reaches c_call trap_S (drop 1 trap_S) st trap_call st1 /\ repr rest σ1 st1 /\
    k_tp σ1 = k_tp σ /\ (forall h, cpu σ1 h = cpu σ h) /\
    get st1 a0 = addr_tf (c_cur_tf c) /\ get st1 sp = cpu_kstack_top (k_tp σ) - 32.
Proof.
  intros T Hf. pose proof (trapped_ready _ _ _ T) as Rd.
  pose proof (frame_is_ready _ _ _ _ T Hf) as Fd.
  destruct (trap_saves c_call _ _ _ _ Rd Fd) as (st1 & Hr & E0 & Es & Ec & Ed & _ & Em).
  destruct (upd_tf_spec _ _ (saved_frame σ st c) _ Hf) as (σ1 & E1 & Htp & _ & Hcpu & _).
  exists σ1, st1. split; [done|]. split; [done|]. split; [|done].
  destruct T as [L S R W Hc Ht]. pose proof (rp_harts _ _ _ R _ _ Hc) as Hh.
  eapply (repr_saved rest L S σ st σ1 (c_cur_tf c)); [done|by eexists|done|done| | |done|].
  - rewrite Em. apply read_saved_frame; [done| |apply Fd].
    destruct (cpu_object rest L S _ Hh) as ((A0 & A8 & A1) & _). unfold word. lia.
  - intros a O1 O2. unfold outside in *. rewrite Em, !(load8_store_words 288), (load8_store_words 32) by done.
    done.
  - rewrite Ec. symmetry. apply R.
Qed.

Lemma call_returns st1 st' k :
  c_call "trap_entry_c" st1 = Some st' ->
  reaches c_call trap_S (I (CALL "trap_entry_c") :: k) st1 k st'.
Proof. intros E. eapply reaches_step; [|apply reaches_refl]. cbn [step]. by rewrite E. Qed.

(** C4: [trap.S] implements the trap entry of the kernel model.  Take a trap in a
    machine state that represents a kernel state whose hart has a frame, and let the
    compiled [trap_entry_c] do what the C function does.  If [trap_entry], given the
    interrupted registers as a frame, returns, then [trap.S] reaches [sret] in a
    machine state that represents the resulting kernel state; registers, [sepc] and
    [sstatus] are those of the frame the hart is to run, and [tp] and [sscratch]
    point at the hart's record.  If [trap_entry] panics or diverges, [trap.S] never
    gets to [sret]; nor does it when the hart has no frame. *)
Theorem trap_entry_refines σ st c :
  trapped σ st c ->
  c_cur_tf c = TF_null \/ is_Some (frame_of σ (c_cur_tf c)) ->
  (forall σ1, upd_tf (c_cur_tf c) (fun _ => saved_frame σ st c) σ = Ret (tt, σ1) ->
    compiled_c rest c_call (c_cur_tf c) σ1) ->
  match trap_entry (saved_frame σ st c) σ with
  | Ret (_, σ') => forall c' f', cpu σ' (k_tp σ') = Some c' -> frame_of σ' (c_cur_tf c') = Some f' ->
      exists n st', enter c_call trap_S "trap_entry" n st = Some (Sret st') /\
        repr rest σ' st' /\ (forall r, get st' r = regs_of_tf f' (addr_cpu (k_tp σ')) r) /\
        h_c st' sepc = f_sepc f' /\ h_c st' sstatus = f_sstatus f' /\
        h_c st' sscratch = addr_cpu (k_tp σ')
  | Panic | Diverge => forall n st', enter c_call trap_S "trap_entry" n st <> Some (Sret st')
  | Undef => True
  end.
Proof.
  intros T Hcur Hcc. pose proof (td_cpu _ _ _ T) as Hc.
  assert (Ee : forall e, exits c_call trap_S (drop 1 trap_S) st e <->
    exists n, enter c_call trap_S "trap_entry" n st = Some e) by (intros e; by apply enter_exits).
  unfold trap_entry, bind at 1, cpu_this, bind at 1, gets at 1, get_cpu. rewrite Hc.
  destruct Hcur as [En|[f0 Hf]].
  { rewrite En, bool_decide_true by done. intros n st' H.
    pose proof (trapped_ready _ _ _ T) as Rd. rewrite En, (ly_null (td_layout _ _ _ T)) in Rd.
    eapply (trap_spins c_call _ _ _ (Sret st') Rd), Ee. by exists n. }
  rewrite bool_decide_false by (intros E; by rewrite E in Hf).
  destruct (trap_reaches_call _ _ _ _ T Hf)
    as (σ1 & st1 & E1 & Hr & R1 & Htp & Hcpu & Ea & Es).
  unfold bind at 1. rewrite E1. specialize (Hcc _ E1 st1 R1 Ea). rewrite Htp in Hcc. specialize (Hcc Es).
  unfold bind. destruct (trap_entry_c (c_cur_tf c) σ1) as [[next σ2]| | |] eqn:E2; [| |done|].
  2, 3: intros n st' H; assert (X : exits c_call trap_S trap_call st1 (Sret st'))
    by (apply (reaches_exits _ _ _ _ _ _ _ Hr), Ee; by exists n);
    assert (Y : exits c_call trap_S trap_call st1 Lost)
    by (apply exits_done; cbn [step trap_call drop trap_S]; by rewrite Hcc);
    by pose proof (exits_det _ _ _ _ _ _ X Y).
  destruct Hcc as (st2 & Ecall & R2 & Ea2).
  destruct (upd_cpu_this (c_set_cur_tf next) σ2) as [[[] σ3]| | |] eqn:E3; try done.
  2, 3: revert E3; unfold upd_cpu_this, bind, gets, upd_cpu; by destruct (cpu σ2 (k_tp σ2)).
  intros c' f' Hc' Hf'.
  assert (exists c2, cpu σ2 (k_tp σ2) = Some c2) as [c2 Hc2].
  { revert E3. unfold upd_cpu_this, bind, gets, upd_cpu. destruct (cpu σ2 (k_tp σ2)); [by eexists|done]. }
  destruct (upd_cur_tf_spec _ _ next Hc2) as (σ3' & E3' & Htp3 & _ & _ & Hfr3 & Hcpu3).
  rewrite E3 in E3'. injection E3' as <-. rewrite Htp3 in Hc' |- *.
  rewrite Hcpu3, decide_True in Hc' by done. injection Hc' as <-. simpl in Hf'.
  pose proof Hf' as Hf2. rewrite Hfr3 in Hf2. pose proof (frame_valid _ _ _ _ _ R2 Hf2) as Hv.
  pose proof T as [L S _ _ _ _].
  destruct (cpu_object rest L S _ (rp_harts _ _ _ R2 _ _ Hc2)) as ((A0 & A8 & A1) & _).
  destruct (trap_resumes c_call st2 (addr_cpu (k_tp σ2)) (addr_tf next))
    as (st3 & He & [G1 G2 G3 G4] & Em & Ed & _);
    [by apply R2|repeat split; [done|done|lia]|done|by apply (ly_frame L)|].
  assert (R3 : repr rest σ3 st3).
  { eapply (repr_next rest L S σ2 st2); try done. rewrite G4. symmetry. apply R2. }
  pose proof (rp_frame _ _ _ R3 _ _ Hf') as Hrf. rewrite Hrf in G1, G2, G3.
  destruct (proj1 (Ee (Sret st3))) as [n Hn].
  { eapply reaches_exits; [eapply reaches_trans; [exact Hr|by apply call_returns]|exact He]. }
  exists n, st3. done.
Qed.

End refine.

Section switch.
Context {hws : Hardware}.
Variable c_call : string -> hart -> option hart.
Implicit Types (s : hart).

(** [s'] runs the thread interrupted in [s]: at [pc], with [v] in [a0], on the hart
    whose record is at [cpu]. *)
Definition same_thread s s' (cpu pc v : Z) : Prop :=
  (forall r, get s' r = match r with tp => cpu | a0 => v | r => get s r end) /\
  h_c s' sepc = pc /\ h_c s' sstatus = h_c s sstatus.

Lemma resumes_same_thread s s' cpu cpu' pad p pc v :
  resumes s' cpu' p ->
  read_tf (h_mem s') p = f_set_sepc pc (f_set_a0 v (tf_of_hart s cpu pad)) ->
  same_thread s s' cpu' pc v.
Proof.
  intros [Hr Hpc Hst _] E. rewrite E in Hr, Hpc, Hst. split; [|done].
  intros r. rewrite Hr. by destruct r.
Qed.

(** C5: a context switch preserves the registers.  The trap entry stores the
    registers and trap CSRs of the interrupted code in the frame at [p], and calls
    [trap_entry_c] with [p] on the 32-byte-reduced stack of the hart.  Whenever, on any
    hart, [trap_entry_c] returns [p] or [arch_first_switch(p)] is called, and the
    frame is as it was saved except for the program counter and [a0], the interrupted
    code goes on with every register it had, [tp] excepted. *)
Theorem saved_thread_resumes s cpu top p :
  trap_ready s cpu top p -> frame_ready cpu top p ->
  exists s1, reaches c_call trap_S (drop 1 trap_S) s trap_call s1 /\
    get s1 a0 = p /\ get s1 sp = top - 32 /\
    read_tf (h_mem s1) p = tf_of_hart s cpu (load64 (h_mem s) (p + 280)) /\
    (forall a, outside p 288 a -> outside (top - 32) 32 a -> load8 (h_mem s1) a = load8 (h_mem s) a) /\
    forall s2 cpu2 pc v, object 16 cpu2 -> apart p 288 cpu2 16 -> get s2 a0 = p ->
      read_tf (h_mem s2) p = f_set_sepc pc (f_set_a0 v (read_tf (h_mem s1) p)) ->
      (h_c s2 sscratch = cpu2 -> exists s3,
         exits c_call trap_S trap_return s2 (Sret s3) /\ same_thread s s3 cpu2 pc v) /\
      (get s2 tp = cpu2 -> exists n s3,
         enter c_call arch_first_switch_S "arch_first_switch" n s2 = Some (Sret s3) /\
         same_thread s s3 cpu2 pc v).
Proof.
  intros Rd Fd. destruct (trap_saves c_call _ _ _ _ Rd Fd) as (s1 & Hr & E0 & Es & _ & _ & _ & Em).
  assert (Esv : read_tf (h_mem s1) p = tf_of_hart s cpu (load64 (h_mem s) (p + 280))).
  { rewrite Em. apply read_saved_frame; [apply Rd| |apply Fd]. destruct Rd as [_ _ []]. unfold word. lia. }
  exists s1. split; [done|]. split; [done|]. split; [done|]. split; [done|]. split.
  { intros a O1 O2. by rewrite Em, (load8_store_words 288), (load8_store_words 32). }
  intros s2 cpu2 pc v Ho Ha Ea Ef. rewrite Esv in Ef.
  assert (Hkeep : read_tf (store64 (h_mem s2) (cpu2 + 8) p) p = read_tf (h_mem s2) p).
  { apply read_tf_ext. intros i Hi. apply load8_store64_ne. unfold apart in Ha. lia. }
  split; intros Ec.
  - destruct (trap_resumes c_call s2 cpu2 p Ec Ho Ea (fr_obj _ _ _ Fd)) as (s3 & He & Hres & E3 & _).
    exists s3. split; [done|]. eapply resumes_same_thread; [done|]. by rewrite E3, Hkeep.
  - destruct (first_switch_resumes c_call s2 cpu2 p Ec Ho Ea (fr_obj _ _ _ Fd))
      as (s3 & [n He] & Hres & E3 & _).
    exists n, s3. split; [exact He|]. eapply resumes_same_thread; [done|]. by rewrite E3, Hkeep.
Qed.

End switch.

Section start.
Context {cfg : Config} {hws : Hardware} {lk : Link}.
Variable c_call : string -> hart -> option hart.
Implicit Types (s st : hart).

(** What [kernel_main(hartid, dtb)] starts with: the firmware's arguments, the stack
    of the hart. *)
Definition at_kernel_main s st : Prop :=
  get st a0 = get s a0 /\ get st a1 = get s a1 /\ get st sp = cpu_kstack_top (get s a0) /\
  h_c st sscratch = cpu_kstack_top (get s a0) /\ h_dev st = h_dev s.

(** C17: [start.S] prepares each hart.  On the boot hart, [_start] ends with a jump to
    [kernel_main], with hart number and device tree in [a0] and [a1], [sp] and
    [sscratch] at the top of the hart's own stack, every byte of the BSS cleared, and
    no byte touched outside it, except up to the next multiple of 8 when the BSS does
    not end on one.  On the others, [secondary_entry] does the same and leaves memory
    alone. *)
Theorem start_prepares_hart s :
  0 <= get s a0 < MAX_HARTS ->
  0 <= addr_g_kstack -> addr_g_kstack + MAX_HARTS * KSTACK_SIZE < 2^64 ->
  0 <= __bss_start <= __bss_end -> __bss_end + 8 <= 2^64 ->
  (exists n st, enter c_call start_S "_start" n s = Some (Tailed "kernel_main" st) /\
     at_kernel_main s st /\
     (forall b, __bss_start <= b < __bss_end -> load8 (h_mem st) b = 0) /\
     (forall b, b < __bss_start \/ round8 __bss_end <= b -> load8 (h_mem st) b = load8 (h_mem s) b)) /\
  (exists n st, enter c_call start_S "secondary_entry" n s = Some (Tailed "kernel_main" st) /\
     at_kernel_main s st /\ h_mem st = h_mem s).
Proof.
  intros Hh W1 W2 Hb He. split.
  - destruct (start_clears c_call s Hb He) as (s1 & R & E3 & E0 & E1 & Ed & C).
    destruct (per_hart_start_tails c_call s1 (get s a0) E3 Hh W1 W2)
      as (st & Hx & Esp & Esc & (_ & A0 & A1 & Ad) & Em).
    destruct (proj2 (reaches_exits _ _ _ _ _ _ (Tailed "kernel_main" st) R) Hx) as [n Hn].
    exists n, st. split; [exact Hn|]. split.
    + unfold at_kernel_main, get in *. simpl in *. intuition congruence.
    + rewrite Em. exact C.
  - assert (R : reaches c_call start_S (drop 21 start_S) s (drop 24 start_S) (set t3 (get s a0) s)).
    { cbn [drop start_S]. go. eapply reaches_step; [reflexivity|]. apply reaches_refl. }
    destruct (per_hart_start_tails c_call (set t3 (get s a0) s) (get s a0) eq_refl Hh W1 W2)
      as (st & Hx & Esp & Esc & (_ & A0 & A1 & Ad) & Em).
    destruct (proj2 (reaches_exits _ _ _ _ _ _ (Tailed "kernel_main" st) R) Hx) as [n Hn].
    exists n, st. split; [exact Hn|]. by repeat split.
Qed.

End start.

(** ** Witnesses *)

Section witnesses.
#[local] Existing Instances demo_config demo_hardware no_tree demo_layout demo_link.

Lemma demo_trapped_ok : trapped no_rest demo_kernel demo_hart demo_cpu.
Proof.
  split; [exact demo_layout_ok|exact no_rest_stable|exact demo_repr|exact demo_words|reflexivity..].
Qed.

Lemma demo_saved_frame : saved_frame demo_kernel demo_hart demo_cpu = demo_saved.
Proof. vm_compute. reflexivity. Qed.

(** The illegal instruction is skipped: [trap.S] resumes behind it. *)
Lemma trap_entry_refines_witness :
  exists n st', enter demo_call trap_S "trap_entry" n demo_hart = Some (Sret st') /\
    h_c st' sepc = 2147487748 /\ get st' t3 = get demo_hart t3.
Proof.
  pose proof (trap_entry_refines no_rest demo_call demo_kernel demo_hart demo_cpu demo_trapped_ok) as H.
  rewrite demo_saved_frame, demo_entry in H.
  destruct (H (or_intror (ex_intro _ tf_zero eq_refl))) with (c' := demo_cpu)
    (f' := f_set_sepc 2147487748 demo_saved) as (n & st' & E & _ & Hr & Hpc & _).
  - intros σ1 [= <-]. exact demo_compiled.
  - reflexivity.
  - reflexivity.
  - exists n, st'. split; [exact E|]. split; [exact Hpc|]. exact (Hr t3).
Defined.

(** The probe's frame, restored by the other hart. *)
Lemma saved_thread_resumes_witness :
  exists s1 s3, reaches demo_call trap_S (drop 1 trap_S) demo_hart trap_call s1 /\
    exits demo_call trap_S trap_return demo_hart1 (Sret s3) /\
    get s3 a0 = 7 /\ get s3 t3 = get demo_hart t3 /\ get s3 tp = addr_cpu 1.
Proof.
  pose proof (trapped_ready no_rest _ _ _ demo_trapped_ok) as Rd.
  pose proof (frame_is_ready no_rest _ _ _ tf_zero demo_trapped_ok eq_refl) as Fd.
  destruct (saved_thread_resumes demo_call _ _ _ _ Rd Fd) as (s1 & R & _ & _ & Hm & _ & H).
  destruct (H demo_hart1 (addr_cpu 1) 2147487748 7) as [H1 _].
  - vm_compute. intuition congruence.
  - vm_compute. right. discriminate.
  - reflexivity.
  - rewrite Hm. vm_compute. reflexivity.
  - destruct (H1 eq_refl) as (s3 & E & Hr & _). exists s1, s3. split; [exact R|]. split; [exact E|].
    rewrite !Hr. done.
Defined.

(** 12 bytes of BSS, unaligned at both ends, full of ones. *)
Definition dirty_hart : hart :=
  {| h_id := 0; h_x := fun r => match r with a1 => 2281701376 | _ => 0 end; h_c := fun _ => 0;
     h_mem := store64 (store64 (store64 gmap_empty 2148532224 (-1)) 2148532232 (-1)) 2148532240 (-1);
     h_dev := (0 : @dev demo_hardware) |}.

Lemma start_prepares_hart_witness :
  exists n st, enter demo_call start_S "_start" n dirty_hart = Some (Tailed "kernel_main" st) /\
    get st sp = cpu_kstack_top 0 /\ get st a1 = 2281701376 /\ load8 (h_mem st) 2148532229 = 0 /\
    load8 (h_mem st) 2148532228 = 255.
Proof.
  destruct (start_prepares_hart demo_call dirty_hart) as [(n & st & E & (A0 & A1 & Asp & _) & Z1 & K1) _];
    [vm_compute; intuition congruence..|].
  exists n, st. split; [exact E|]. split; [exact Asp|]. split; [exact A1|]. split.
  - apply Z1. vm_compute. intuition congruence.
  - rewrite K1; [vm_compute; reflexivity|]. left. reflexivity.
Defined.

End witnesses.
